(* ===== verification/_CoqProject ===== *)
-Q . S2P
Prelude.v
GoRuntime.v
Json.v
Domain.v
Compat.v
Configuration.v
ConfigDiff.v
Net.v
ConfigValidate.v
AuditMetadata.v
ControlModel.v
Store.v
StoreRecords.v
StoreControl.v
StoreInvariant.v
StoreHistory.v
Effects.v
ControlEffects.v
Preview.v
ControlPlane.v
Executor.v
ExecutorSpec.v
Reconciler.v
ServiceSpec.v
ControlWitness.v
Limiter.v
Workers.v
Management.v
ManagementSpec.v
InventoryModel.v
OperationsModel.v
Wire.v
NodeHttp.v
NodePayloads.v
NodeReader.v
NodeWriter.v
NodeCommands.v
NodeSpec.v
NodeConverge.v
NodeWitness.v
Operations.v
OperationsExecutor.v
OperationsSpec.v
OperationsStore.v
OperationsHistory.v
Inventory.v
InventoryCatalogue.v
InventorySpec.v
ServiceWitness.v
AuthModel.v
Password.v
AuthStore.v
MFAStore.v
Auth.v
MFA.v
AuthInvariant.v
AuthHistory.v
AuthSpec.v
UserAdmin.v
AuthWitness.v
DnsProbe.v
DnsProbeSpec.v
HAModel.v
HAOperations.v
HAMaintenance.v
HASpec.v
HASummarySpec.v
Notifications.v
HAStore.v
HAInvariant.v
DeliveryHistory.v
NotificationSpec.v
HAHistory.v
Releases.v
HAJobs.v
HAWitness.v
SystemSettings.v
