(* ===== verification/Prelude.v ===== *)
(** * Atlas DNS controller: verification development

    ** The program

    The controller keeps a fleet of AdGuard Home nodes on one desired configuration
    per cluster.  An operator imports an observation of a node as a draft, edits and
    publishes it as an immutable revision, and deploys the revision; a worker applies
    it to the nodes one after the other and verifies each; a reconciler compares the
    nodes with the active revision and records, or repairs, drift.  Beside this run
    the management of clusters and nodes, health polls, one-shot commands sent to the
    nodes, DHCP resets, and the accounts of the operators with their sessions and second
    factors.  For high availability it probes the DNS service of the nodes, guides
    maintenance and upgrades, keeps a history of events and notifies webhooks of them.

    The Go code under src/internal is organised as services that reach a PostgreSQL
    store, the nodes, a cipher, a clock and a source of identifiers through
    interfaces.  The development follows this shape.  Pure code (packages domain,
    adguardcompat, configuration, audit, most of controlplane/service.go) becomes
    functions on records.  A service method becomes a program ([Effects.prog]): a
    result, or a call of an interface method with the continuation for every answer.
    A store method becomes a transaction on tables ([Store.Txn]).  The theorems on
    services hold for every trace of calls and answers, so for every store, node and
    clock and for every interleaving with other requests; [ControlEffects] connects the
    programs to the tables.

    ** The files

    Foundations.
    - [Prelude]: notations, tactics, 64-bit integers, lemmas on lists and maps.
    - [GoRuntime]: package strings on byte strings, [sort.Slice], slices, time; the
      class [Runtime] holds what depends on the Unicode tables, the time-zone
      database and SHA-256, [MapOrder] the order in which Go ranges over a map.
    - [Json], [Wire]: encoding/json, encoder and decoder on trees; an exchange with a
      node.  [Net]: the parsers of net and net/netip.
    - [Effects]: programs, their traces, runs with a handler, the facts of a trace.

    Pure components.
    - [Domain] (internal/domain: errors.go, model.go, validation), [Compat]
      (internal/adguardcompat), [AuditMetadata] (internal/audit).
    - [Configuration], [ConfigDiff], [ConfigValidate] (internal/configuration/model.go):
      documents and canonical form; encodings, hashes and differences; validation, and a
      concrete document.

    The store (internal/database).
    - [ControlModel] (internal/controlplane/model.go): the rows of the control plane.
      [Store], [StoreRecords] (clusters.go, nodes.go, inventory.go), [StoreControl]
      (controlplane.go): tables and methods.  [StoreInvariant]: the invariant
      [WellFormed].  [StoreHistory]: sequences of calls and what single calls promise.
    - [OperationsStore] (dns_operational_commands.go, operational_commands.go) and
      [OperationsHistory]: the same for the tables of operational commands.

    The control plane (internal/controlplane).
    - [ControlEffects]: its interfaces, and its runs on the store.  [Preview], [ControlPlane] (service.go),
      [Executor] (executor.go), [Reconciler] (reconciler.go): its programs.
    - [ExecutorSpec], [ServiceSpec]: what they promise.  [ControlWitness]: runs on a
      simulated fleet.

    The nodes (internal/adguard).
    - [NodeHttp]: requests and the classification of their failures.  [NodePayloads]:
      the structs that are decoded.  [NodeReader], [NodeWriter], [NodeCommands]:
      reading, applying and commands.
    - [NodeSpec], [NodeConverge]: what they promise; [NodeWitness]:
      a simulated node.

    Inventory and commands.
    - [InventoryModel], [Inventory], [InventoryCatalogue] (internal/inventory), with
      [InventorySpec].
    - [OperationsModel], [Operations], [OperationsExecutor] (internal/operations), with
      [OperationsSpec].

    Accounts (internal/auth, internal/useradmin; database/auth.go, users.go, mfa.go).
    - [AuthModel]: users, sessions, factors, tokens, recovery codes; the class [Crypto]
      holds Argon2id, HMAC, SHA-256, the validation of one-time passwords and the
      address parser.  [Password] (password.go): the text of a password hash.
    - [Auth] (service.go), [MFA] (mfa.go), [UserAdmin] (internal/useradmin): the programs;
      [AuthSpec]: what the first two promise, recovery codes included.
    - [AuthStore], [MFAStore]: the tables and their methods, and what a transaction keeps.
      [AuthInvariant]: the invariant over histories; [AuthHistory]: what histories of calls
      promise.  [AuthWitness]: concrete accounts.

    High availability (internal/haoperations).
    - [DnsProbe] (dnsprobe.go): the query and its answer, the exchange over a connection,
      the outcome of the two protocols, the confirmation of a failure; [DnsProbeSpec].
    - [HAModel] (models.go and the pure functions of service.go: versions, certificates,
      the TLS check).  [HAOperations] (service.go): settings, probes, the summary, the
      polling pass and the events it records.  [HAMaintenance]: the preflight, maintenance,
      the return to service and guided upgrades.
    - [HASpec], [HASummarySpec]: what they promise.
    - [HAStore] (database/ha_operations.go, notifications.go, notification_policy.go,
      operational_history.go): the tables and their methods, one store with the clusters
      and nodes of [Store]; [HAInvariant]: their invariant.
    - [Notifications] (notifications.go): the categories, the policy, the channels, the
      delivery of an event, the test of a channel.  [DeliveryHistory]: the worker's steps
      interleaved with every other call; [NotificationSpec].
    - [HAHistory]: the pages of the history and their cursors.  [Releases] (releases.go):
      the release check.  [HAJobs] (jobs/notifications.go, ha_operations.go,
      operational_history.go): the loop of the notification worker on the tables, a pass
      of the probes and of the retention.
    - [HAWitness]: concrete nodes, channels, deliveries and pages.

    Management and workers.
    - [Management], [ManagementSpec] (internal/domain/management.go and
      internal/jobs/health.go), [Limiter] (internal/auth: the limiter of attempts),
      [Workers] (internal/operationalhealth: the tracker; internal/jobs: the durable
      workers).  [SystemSettings] (internal/systemsettings, database/system_settings.go):
      the runtime settings, in force as they were saved.  [ServiceWitness]: the theorems on management, workers, the limiter,
      commands and the inventory on concrete runs.

    ** What the theorems show

    - Deployments: every run of the executor is an execution of the abstract protocol
      [ExecutorSpec.execution] (refinement); from it, revalidation of all targets
      before any change, one node at a time, truthful reports.  Deployments start from
      valid previews only; the reconciler acts on observed drift only.
    - The store: every history of calls keeps the invariant; one active deployment in
      a cluster; no lost updates of drafts; oldest deployment first; recovery after a
      restart.
    - Configurations: canonicalisation is idempotent, validation equals its declarative
      specification, differences and the read-back are exact, previews are valid
      exactly when they should be.
    - Nodes: the payloads that are sent as objects are decoded to what was meant (round
      trip; user rules and the switches set by a path are not part of it), refusals are
      reported, rewrites converge up to the case of their names.
    - Commands and DHCP resets: queued for eligible nodes only, claimed once, sent at
      most once, to the node they are recorded for and after they were recorded, and
      stored with what the node answered; idempotent by key.
    - Accounts: every login follows its protocol and a refusal does not tell why; the
      second step completes only with a factor; over any history of the tables an ended
      session stays ended, an administrator remains, a challenge is answered at most
      five times and a recovery code once; password hashes and recovery codes are read
      back as they were written.
    - High availability: a node enters maintenance only past its preflight, leaves it only
      past every required check, and an upgrade succeeds only at its target version, past
      the same checks unless its node was found outside of maintenance; a
      probe is healthy exactly when every protocol answered, its confirmation ends, and it
      is stored with an event exactly when the status changed; a cluster is reported healthy
      exactly when two nodes serve DNS and every node is whole; a recorded transition is
      not recorded again.
    - Notifications: a recorded event is queued once for every channel that subscribes to it
      and for no other; a delivery is claimed at most five times in any interleaving; a turn
      makes one request and records its outcome truthfully; the worker comes to wait.  The
      pages of the history show every item once; release checks are spaced.
    - Management, audit, limits, workers: probed writes, metadata whose sensitive
      fields are redacted in every nested map (not in what a value of another type
      prints), bounded guesses, bounded back-off, the tracker as a function of its history.

    Theorems named after a defect ([interrupted_drift_not_retried],
    [lifecycle_needs_active_revision], [recovery_skips_dhcp],
    [rewrite_case_never_converges], [return_outside_unchecked]) state what the code does where that is not what
    its comments, its listings or its other parts mean.

    ** Bounds and fuel

    Recursion is structural, with four exceptions.  [Net.parseIPv6_loop] takes the length
    of the text plus one as fuel: every round consumes a character, so the rounds end
    before the fuel does.  [DnsProbe.Confirming_Probe] takes any fuel above the number of
    its waits: [confirmation_terminates] shows that it then returns.
    [HAHistory.read_history], a client that follows cursors, takes one round more than
    there are items: [history_read_completely] shows that it ends.  The redaction of audit
    metadata recurses with the depth limit and the budget of the code itself.  The notification worker is run
    on a list of what its turns meet: [worker_comes_to_wait] bounds the turns that it uses.  Integers are Z; where 64-bit
    arithmetic can matter (durations, back-off) it is written with its wrap-around or
    the theorem has the bound.

    ** What is not modelled, and why

    - Transport and text: sockets, TLS, the text of JSON bodies and the regular
      expression engine.  An exchange with a node carries the tree of its body; every
      status, size and failure is covered.  Cryptography (AES-GCM, Argon2, TOTP,
      HMAC, SHA-256) is a parameter.
    - PostgreSQL: a method is one atomic transaction; connection failures are errors a
      repository may answer at any call.  Row order is the order the queries ask for.
      Locks only order transactions, which are sequential here; one notification worker
      runs, so a claim never skips a locked row.
    - Aliasing of slices in canonicalisation, the logger, metrics, timers and tickers;
      goroutines that share nothing but a cache entry of their own are run in order, and so
      are the probes of a polling pass and the two exchanges of a probe.
    - Components left out: the readers of statistics and of the query log
      (floating-point and free-form records), telemetry, the report of operational health,
      onboarding, updates, backup archives, the HTTP API, start-up and migrations, and
      the web frontend. *)

From Stdlib Require Export ZArith Lia Ascii.
From stdpp Require Export base gmap strings list sorting.

(** ** Notations and tactics of the development *)

Declare Scope go_scope.
Delimit Scope go_scope with go.
#[global] Open Scope Z_scope.

(** Structural equality of two Go values of a comparable type. *)
Notation "x =?? y" := (bool_decide (x = y)) (at level 70, no associativity) : go_scope.
#[global] Open Scope go_scope.

Create HintDb go discriminated.
#[export] Hint Constants Opaque : go.
#[export] Hint Variables Opaque : go.

(** [destruct_matches] splits every [match] of the goal and closes the branches
    that contradict each other. *)
Ltac destruct_matches :=
  repeat (case_match; simplify_eq/=; try done).

(** [bool_simp] turns the boolean guards of the code into propositions. *)
Ltac bool_simp :=
  repeat match goal with
  | H : (_ && _)%bool = true |- _ => apply andb_true_iff in H as [? ?]
  | H : (_ || _)%bool = false |- _ => apply orb_false_iff in H as [? ?]
  | H : negb _ = true |- _ => apply negb_true_iff in H
  | H : negb _ = false |- _ => apply negb_false_iff in H
  | H : bool_decide _ = true |- _ => apply bool_decide_eq_true in H
  | H : bool_decide _ = false |- _ => apply bool_decide_eq_false in H
  | H : (_ <? _) = true |- _ => apply Z.ltb_lt in H
  | H : (_ <? _) = false |- _ => apply Z.ltb_ge in H
  | H : (_ <=? _) = true |- _ => apply Z.leb_le in H
  | H : (_ <=? _) = false |- _ => apply Z.leb_gt in H
  | H : (_ =? _) = true |- _ => apply Z.eqb_eq in H
  | H : (_ =? _) = false |- _ => apply Z.eqb_neq in H
  end.

(** ** Machine integers: Go's [int] and [int64] are 64-bit two's complement *)

Definition two63 : Z := 9223372036854775808.
Definition two64 : Z := 18446744073709551616.

Definition wrap64 (z : Z) : Z := (z + two63) mod two64 - two63.

Definition in_int64 (z : Z) : Prop := - two63 <= z < two63.

Lemma wrap64_id z : in_int64 z → wrap64 z = z.
Proof.
  unfold in_int64, wrap64, two63, two64. intros H.
  rewrite Z.mod_small; lia.
Qed.

Lemma wrap64_range z : in_int64 (wrap64 z).
Proof.
  unfold in_int64, wrap64, two63, two64.
  pose proof (Z.mod_pos_bound (z + 9223372036854775808) 18446744073709551616).
  lia.
Qed.

#[export] Hint Resolve wrap64_range : go.

(** ** Times and durations

    A [time.Time] in UTC is its distance in nanoseconds to the Unix epoch, a
    [time.Duration] is an [int64] count of nanoseconds. *)

Definition Time := Z.
Definition Duration := Z.

Definition second : Duration := 1000000000.
Definition minute : Duration := 60 * second.
Definition hour : Duration := 60 * minute.
Definition millisecond : Duration := 1000000.

(** [time.Time.Sub] saturates instead of wrapping. *)
Definition time_Sub (t u : Time) : Duration :=
  Z.max (- two63) (Z.min (two63 - 1) (t - u)).

(** The zero [time.Time] is January 1, year 1, 00:00:00 UTC. *)
Definition time_zero : Time := -62135596800 * second.
Definition time_IsZero (t : Time) : bool := t =? time_zero.

Lemma time_Sub_exact t u : in_int64 (t - u) → time_Sub t u = t - u.
Proof. unfold in_int64, time_Sub. lia. Qed.

Lemma time_Sub_gt t u d : in_int64 d → d < two63 - 1 →
  (d < time_Sub t u ↔ d < t - u).
Proof. unfold in_int64, time_Sub, two63. lia. Qed.

(** ** Slices that may be nil

    Go distinguishes a nil slice from an empty one only where the value is
    encoded, so the slices that reach an encoder keep the difference. *)

Abbreviation slice A := (option (list A)).

Definition elems {A} (s : slice A) : list A := match s with Some l => l | None => [] end.

(** ** Sorting

    [sort.Slice] is modelled by the insertion sort the standard library runs on
    short slices: every element is moved to the left past the elements that are
    greater than it, so the result is stable. *)

Section sorting.
Context {A : Type} (less : A → A → bool).

Fixpoint insert_sorted (x : A) (l : list A) : list A :=
  match l with
  | [] => [x]
  | y :: l' => if less x y then x :: l else y :: insert_sorted x l'
  end.

Definition sort_Slice (l : list A) : list A :=
  foldl (λ acc x, insert_sorted x acc) [] l.

(** No element is followed by a smaller one. *)
Definition not_greater (x y : A) : Prop := less y x = false.

Definition sorted (l : list A) : Prop := StronglySorted not_greater l.

Lemma insert_sorted_perm x l : insert_sorted x l ≡ₚ x :: l.
Proof.
  induction l as [|y l IH]; simpl; [done|].
  destruct (less x y); [done|]. rewrite IH. constructor.
Qed.

Lemma sort_acc_perm l acc :
  foldl (λ acc x, insert_sorted x acc) acc l ≡ₚ l ++ acc.
Proof.
  revert acc. induction l as [|x l IH]; intros acc; simpl; [done|].
  rewrite IH, insert_sorted_perm. apply Permutation_sym, Permutation_middle.
Qed.

Lemma sort_Slice_perm l : sort_Slice l ≡ₚ l.
Proof. unfold sort_Slice. by rewrite sort_acc_perm, app_nil_r. Qed.

Lemma elem_of_sort_Slice x l : x ∈ sort_Slice l ↔ x ∈ l.
Proof. by rewrite sort_Slice_perm. Qed.

Lemma length_sort_Slice l : length (sort_Slice l) = length l.
Proof. by rewrite sort_Slice_perm. Qed.

(** A strict weak order: what the contract of [sort.Slice] asks of [less]. *)
Class StrictWeak : Prop := {
  less_irrefl : ∀ x, less x x = false;
  less_trans : ∀ x y z, less x y = true → less y z = true → less x z = true;
  less_cotrans : ∀ x y z, less y x = false → less z y = false → less z x = false
}.

Context {Hsw : StrictWeak}.

Lemma less_asym x y : less x y = true → less y x = false.
Proof.
  intros H. destruct (less y x) eqn:E; [|done].
  pose proof (less_trans x y x H E) as F. by rewrite less_irrefl in F.
Qed.

Lemma insert_sorted_sorted x l : sorted l → sorted (insert_sorted x l).
Proof.
  unfold sorted, not_greater. induction l as [|y l IH]; intros Hl; simpl.
  { repeat constructor. }
  inversion Hl as [|?? Hs Hf]; subst. destruct (less x y) eqn:E.
  - constructor; [done|]. constructor; [by apply less_asym|].
    eapply Forall_impl; [exact Hf|]. simpl. intros z Hz.
    eapply less_cotrans; [|exact Hz]. by apply less_asym.
  - constructor; [by apply IH|]. rewrite insert_sorted_perm. by constructor.
Qed.

Lemma sort_Slice_sorted l : sorted (sort_Slice l).
Proof.
  unfold sort_Slice. assert (Hnil : sorted []) by constructor.
  revert Hnil. generalize (@nil A) as acc. induction l as [|x l IH];
    intros acc Hacc; simpl; [done|]. by apply IH, insert_sorted_sorted.
Qed.

Lemma insert_sorted_last x l :
  Forall (λ y, less x y = false) l → insert_sorted x l = l ++ [x].
Proof. induction 1 as [|y l Hy _ IH]; simpl; [done|]. by rewrite Hy, IH. Qed.

Lemma sort_acc_sorted l acc : sorted (acc ++ l) →
  foldl (λ acc x, insert_sorted x acc) acc l = acc ++ l.
Proof.
  revert acc. induction l as [|x l IH]; intros acc Hs; simpl;
    [by rewrite app_nil_r|].
  rewrite insert_sorted_last.
  - by rewrite IH, <- app_assoc; [|rewrite <- app_assoc].
  - rewrite Forall_forall. intros y Hy.
    apply StronglySorted_app in Hs as (Hs & _ & _).
    apply (Hs y x); [done|set_solver].
Qed.

(** Sorting a sorted slice changes nothing. *)
Lemma sort_Slice_id l : sorted l → sort_Slice l = l.
Proof. intros Hs. unfold sort_Slice. by rewrite sort_acc_sorted. Qed.

Lemma sort_Slice_idemp l : sort_Slice (sort_Slice l) = sort_Slice l.
Proof. apply sort_Slice_id, sort_Slice_sorted. Qed.
End sorting.

Arguments StrictWeak {A} less.

(** The bytewise order on strings is a strict total order. *)
Lemma ltb_leb s t : String.ltb s t = negb (String.leb t s).
Proof.
  unfold String.ltb, String.leb. rewrite String.compare_antisym.
  by destruct (String.compare t s).
Qed.

#[global] Instance StrictWeak_ltb : StrictWeak String.ltb.
Proof.
  assert (Href : ∀ x, String.leb x x = true).
  { intros x. destruct (String.leb_total x x); done. }
  assert (Htr : ∀ x y z, String.leb x y = true → String.leb y z = true →
                         String.leb x z = true).
  { intros x y z Hxy Hyz. apply Is_true_true.
    apply (transitivity (R:=String.le) (y:=y)); by apply Is_true_true. }
  split; setoid_rewrite ltb_leb.
  - intros x. by rewrite Href.
  - intros x y z Hx Hy%negb_true_iff. apply negb_true_iff.
    destruct (String.leb z x) eqn:E; [|done].
    assert (String.leb y x = true) as F; [|by rewrite F in Hx].
    destruct (String.leb_total y z) as [Hyz|Hzy]; [by eapply Htr|].
    by rewrite Hzy in Hy.
  - intros x y z Hx%negb_false_iff Hy%negb_false_iff.
    apply negb_false_iff. by eapply Htr.
Qed.

Lemma ltb_total s t : String.ltb s t = false → String.ltb t s = false → s = t.
Proof.
  rewrite !ltb_leb. intros H1%negb_false_iff H2%negb_false_iff.
  by apply String.leb_antisym.
Qed.

(** Ordering by a key is a strict weak order when the keys are so ordered. *)
#[global] Instance StrictWeak_key {A B} (f : A → B) (less : B → B → bool) :
  StrictWeak less → StrictWeak (λ x y, less (f x) (f y)).
Proof. intros [H1 H2 H3]. split; eauto. Qed.

(** Lexicographic order by two string keys. *)
#[global] Instance StrictWeak_lex {A} (f g : A → string) :
  StrictWeak (λ x y, if f x =?? f y then String.ltb (g x) (g y) else String.ltb (f x) (f y)).
Proof.
  split.
  - intros x. rewrite bool_decide_true by done. apply (less_irrefl String.ltb).
  - intros x y z. case_bool_decide as Exy; case_bool_decide as Eyz; case_bool_decide as Exz;
      try congruence; intros H1 H2.
    + by eapply (less_trans String.ltb).
    + exfalso. rewrite <- Exz in H2. pose proof (less_trans String.ltb _ _ _ H1 H2) as F.
      by rewrite (less_irrefl String.ltb) in F.
    + by eapply (less_trans String.ltb).
  - intros x y z. case_bool_decide as Eyx; case_bool_decide as Ezy; case_bool_decide as Ezx;
      try congruence; intros H1 H2.
    + by eapply (less_cotrans String.ltb).
    + exfalso. rewrite Ezx in H2. apply Eyx. by apply ltb_total.
    + by eapply (less_cotrans String.ltb).
Qed.

(** [ORDER BY at, id]: by a time, and by a string where the times agree. *)
Definition earlier {A} (time : A → Z) (id : A → string) (x y : A) : bool :=
  (time x <? time y) || ((time x =? time y) && String.ltb (id x) (id y)).

#[global] Instance StrictWeak_earlier {A} (time : A → Z) (id : A → string) : StrictWeak (earlier time id).
Proof.
  unfold earlier. split.
  - intros x. rewrite (less_irrefl String.ltb), andb_false_r. apply orb_false_iff. split; [lia|done].
  - intros x y z. rewrite !orb_true_iff, !andb_true_iff. intros [H1|[H1 T1]] [H2|[H2 T2]]; [left; lia..|].
    right. split; [lia|]. by eapply (less_trans String.ltb).
  - intros x y z. rewrite !orb_false_iff, !andb_false_iff. intros [H1 T1] [H2 T2]. split; [lia|].
    destruct T1 as [T1|T1], T2 as [T2|T2]; [left; lia..|]. right. by eapply (less_cotrans String.ltb).
Qed.

(** The order the other way round: [ORDER BY at DESC, id DESC]. *)
Lemma StrictWeak_flip {A} (less : A → A → bool) : StrictWeak less → StrictWeak (λ x y, less y x).
Proof. intros [H1 H2 H3]. split; [done|intros x y z ? ?; by eapply H2|intros x y z ? ?; by eapply H3]. Qed.

Lemma earlier_total {A} (time : A → Z) (id : A → string) x y :
  earlier time id x y = false → earlier time id y x = false → time x = time y ∧ id x = id y.
Proof.
  unfold earlier. rewrite !orb_false_iff, !andb_false_iff. intros [H1 T1] [H2 T2]. assert (E : time x = time y) by lia.
  split; [done|]. destruct T1 as [T1|T1]; [lia|]. destruct T2 as [T2|T2]; [lia|]. by apply ltb_total.
Qed.

(** Sorting commutes with a map that the order does not see. *)
Lemma sort_Slice_map {A B} (less : A → A → bool) (less' : B → B → bool) (f : A → B) l :
  (∀ x y, less' (f x) (f y) = less x y) → sort_Slice less' (map f l) = map f (sort_Slice less l).
Proof.
  intros Hf. assert (Hinsert : ∀ x l, insert_sorted less' (f x) (map f l) = map f (insert_sorted less x l)).
  { intros x k. induction k as [|y k IH]; cbn; [done|]. rewrite Hf. destruct (less x y); [done|]. cbn. by rewrite IH. }
  unfold sort_Slice. change (@nil B) with (map f []) at 1. generalize (@nil A) as acc.
  induction l as [|x l IH]; intros acc; cbn; [done|]. by rewrite Hinsert.
Qed.

(** Two orders that agree on the elements sort them alike. *)
Lemma sort_Slice_agree {A} (less less' : A → A → bool) (l : list A) :
  (∀ x y, x ∈ l → y ∈ l → less x y = less' x y) → sort_Slice less l = sort_Slice less' l.
Proof.
  intros H.
  assert (Hins : ∀ x acc, x ∈ l → (∀ y, y ∈ acc → y ∈ l) →
    insert_sorted less x acc = insert_sorted less' x acc).
  { intros x acc Hx. induction acc as [|y acc IH]; intros Hacc; simpl; [done|].
    rewrite (H x y Hx) by (apply Hacc; left). destruct (less' x y); [done|].
    f_equal. apply IH. intros z Hz. apply Hacc. by right. }
  assert (Hgo : ∀ m acc, (∀ x, x ∈ m → x ∈ l) → (∀ y, y ∈ acc → y ∈ l) →
    foldl (λ acc x, insert_sorted less x acc) acc m =
    foldl (λ acc x, insert_sorted less' x acc) acc m).
  { induction m as [|x m IH]; intros acc Hm Hacc; simpl; [done|].
    assert (x ∈ l) as Hx by (apply Hm; left).
    rewrite Hins by done. apply IH; [intros y Hy; apply Hm; by right|].
    intros y. rewrite insert_sorted_perm, elem_of_cons. intros [->|Hy]; auto. }
  apply Hgo; [done|]. intros y Hy. by apply not_elem_of_nil in Hy.
Qed.

(** Sorting is determined by the elements when no two of them are equivalent. *)
Lemma sort_Slice_unique {A} (less : A → A → bool) {Hsw : StrictWeak less} (l l' : list A) :
  (∀ x y, x ∈ l → y ∈ l → less x y = false → less y x = false → x = y) →
  l ≡ₚ l' → sort_Slice less l = sort_Slice less l'.
Proof.
  intros Htot Hp. apply (StronglySorted_unique_strong (not_greater less)).
  - unfold not_greater. intros x y Hx Hy Hxy Hyx.
    apply Htot; [by apply elem_of_sort_Slice in Hx| |done..].
    apply elem_of_sort_Slice in Hy. by rewrite Hp.
  - apply sort_Slice_sorted, Hsw.
  - apply sort_Slice_sorted, Hsw.
  - by rewrite !sort_Slice_perm.
Qed.

(** ** Lists *)

(** [imap] over the elements with their positions counted from 1. *)
Definition imap1 {A B} (f : Z → A → B) (l : list A) : list B :=
  imap (λ i x, f (Z.of_nat i + 1) x) l.

Lemma filter_length_le {A} (p : A → bool) (l : list A) :
  (length (List.filter p l) <= length l)%nat.
Proof. induction l as [|x l IH]; simpl; [lia|]. destruct (p x); simpl; lia. Qed.

Lemma filter_none {A} (p : A → bool) l : (∀ x, x ∈ l → p x = false) → List.filter p l = [].
Proof.
  induction l as [|x l IH]; intros H; cbn; [done|].
  rewrite (H x) by left. apply IH. intros y Hy. apply H. by right.
Qed.

Lemma concat_nil_iff {A B} (f : A → list B) (l : list A) :
  concat (f <$> l) = [] ↔ Forall (λ x, f x = []) l.
Proof.
  induction l as [|x l IH]; simpl; [by split|].
  rewrite app_nil, IH. split; [intros [? ?]; by constructor|by inversion 1].
Qed.

(** An element that fails [P] lies after a list whose elements satisfy it. *)
Lemma Forall_prefix {A} (P : A → Prop) (l1 l2 pre post : list A) x :
  Forall P l1 → ¬ P x → l1 ++ l2 = pre ++ x :: post → ∃ pre', pre = l1 ++ pre' ∧ l2 = pre' ++ x :: post.
Proof.
  revert pre. induction l1 as [|y l1 IH]; intros pre Hq Hf E; [by exists pre|].
  apply Forall_cons in Hq as [Hy Hq]. destruct pre as [|z pre]; cbn in E; injection E as -> E; [done|].
  destruct (IH _ Hq Hf E) as (pre' & -> & ->). by exists pre'.
Qed.

(** An element of a list with a last element is the last one or lies before it. *)
Lemma app_snoc_cut {A} (l pre post : list A) x y : l ++ [x] = pre ++ y :: post →
  (pre = l ∧ y = x ∧ post = []) ∨ (∃ l', l = pre ++ y :: l').
Proof.
  revert pre. induction l as [|z l IH]; intros pre E; destruct pre as [|z' pre]; cbn in E.
  - injection E as -> ->. auto.
  - injection E as _ E. by destruct pre.
  - injection E as -> E. right. by exists l.
  - injection E as -> E. destruct (IH _ E) as [(-> & -> & ->)|[l' ->]]; [auto|right; by exists l'].
Qed.

(** A conditional element: the shape of [if bad { issues = append(issues, i) }]. *)
Definition when {A} (b : bool) (x : A) : list A := if b then [x] else [].

Lemma when_nil {A} (b : bool) (x : A) : when b x = [] ↔ b = false.
Proof. by destruct b. Qed.

Create Rewrite HintDb issues.
#[export] Hint Rewrite @when_nil @app_nil @concat_nil_iff : issues.

(** ** Maps built by a loop *)

(** [existing[key] = item] for every item: the last one of a key stays. *)
Definition last_by_key {A} (key : A → string) (items : list A) : gmap string A :=
  foldl (λ m item, <[key item := item]> m) ∅ items.

Lemma last_by_key_acc {A} (key : A → string) (l : list A) k : ∀ m : gmap string A,
  match (foldl (λ m item, <[key item := item]> m) m l : gmap string A) !! k with
  | Some old => (old ∈ l ∧ key old = k) ∨ m !! k = Some old
  | None => (k ∉ key <$> l) ∧ m !! k = None
  end.
Proof.
  induction l as [|x l IH]; intros m; cbn.
  - destruct (m !! k) eqn:E; rewrite ?E; [by right|]. split; [apply not_elem_of_nil|done].
  - specialize (IH (<[key x := x]> m)). destruct (foldl _ _ _ !! k) as [old|].
    + destruct IH as [[H1 H2]|H]; [left; split; [by right|done]|].
      destruct (decide (key x = k)) as [<-|Hne].
      * rewrite lookup_insert_eq in H. injection H as ->. left. split; [by left|done].
      * rewrite lookup_insert_ne in H by done. by right.
    + destruct IH as [H1 H2]. apply lookup_insert_None in H2 as [H2 H3].
      split; [|done]. rewrite not_elem_of_cons. auto.
Qed.

Lemma last_by_key_lookup {A} (key : A → string) (l : list A) k :
  match last_by_key key l !! k with
  | Some old => old ∈ l ∧ key old = k
  | None => k ∉ (key <$> l)
  end.
Proof.
  pose proof (last_by_key_acc key l k ∅) as H. unfold last_by_key.
  destruct (foldl _ _ _ !! k); [destruct H as [H|H]; [done|by rewrite lookup_empty in H]|by destruct H].
Qed.

Lemma last_by_key_NoDup {A} (key : A → string) (l : list A) x :
  NoDup (key <$> l) → x ∈ l → last_by_key key l !! key x = Some x.
Proof.
  intros Hnd Hx. pose proof (last_by_key_lookup key l (key x)) as H.
  destruct (last_by_key key l !! key x) as [y|]; [|destruct H; by apply list_elem_of_fmap_2].
  destruct H as [Hy Hkey]. f_equal. revert Hnd Hx Hy. induction l as [|z l IH]; [by intros _ ?%elem_of_nil|].
  cbn. intros [Hz Hnd]%NoDup_cons [->|Hx]%elem_of_cons [->|Hy]%elem_of_cons; auto.
  - destruct Hz. rewrite <- Hkey. by apply list_elem_of_fmap_2.
  - destruct Hz. rewrite Hkey. by apply list_elem_of_fmap_2.
Qed.
