(* ===== verification/GoRuntime.v ===== *)
(** * The parts of the Go standard library the controller uses on strings

    Strings are byte sequences.  The ASCII fast paths of package [strings] are
    written out; what depends on the generated Unicode tables, on the time-zone
    database and on the digest is collected in the class [Runtime]. *)

From Stdlib Require Import Ascii DecimalString DecimalZ DecimalPos.
From S2P Require Import Prelude.

(** ** Bytes *)

Definition byte_of (c : ascii) : Z := Z.of_N (N_of_ascii c).
Definition ascii_of_byte (z : Z) : ascii := ascii_of_N (Z.to_N z).

Lemma byte_of_range c : 0 <= byte_of c < 256.
Proof. unfold byte_of. pose proof (N_ascii_bounded c). lia. Qed.

Lemma byte_of_inj c c' : byte_of c = byte_of c' → c = c'.
Proof.
  unfold byte_of. intros H%N2Z.inj.
  by rewrite <- (ascii_N_embedding c), <- (ascii_N_embedding c'), H.
Qed.

(** All bytes, for properties of bytes that are decided by evaluation. *)
Definition all_bytes : list ascii := ascii_of_nat <$> seq 0 256.

Lemma elem_of_all_bytes c : c ∈ all_bytes.
Proof.
  unfold all_bytes. apply list_elem_of_fmap. exists (nat_of_ascii c).
  split; [by rewrite ascii_nat_embedding|].
  apply elem_of_seq. pose proof (nat_ascii_bounded c). lia.
Qed.

Lemma bytes_forall (p : ascii → bool) : forallb p all_bytes = true → ∀ c, p c = true.
Proof.
  intros H c. rewrite forallb_forall in H. apply H.
  apply list_elem_of_In, elem_of_all_bytes.
Qed.

Fixpoint string_forall (p : ascii → bool) (s : string) : bool :=
  match s with
  | EmptyString => true
  | String c s' => p c && string_forall p s'
  end.

Fixpoint string_map (f : ascii → ascii) (s : string) : string :=
  match s with
  | EmptyString => EmptyString
  | String c s' => String (f c) (string_map f s')
  end.

Fixpoint last_byte (s : string) : option ascii :=
  match s with
  | EmptyString => None
  | String c EmptyString => Some c
  | String _ s' => last_byte s'
  end.

Definition first_byte (s : string) : option ascii :=
  match s with EmptyString => None | String c _ => Some c end.

(** [len(s)]: the number of bytes. *)
Definition len (s : string) : Z := Z.of_nat (String.length s).

Lemma len_nonneg s : 0 <= len s.
Proof. unfold len. lia. Qed.

Definition is_ascii_byte (c : ascii) : bool := byte_of c <? 128.
Definition is_ascii (s : string) : bool := string_forall is_ascii_byte s.

(** ** Generated tables and external data *)

(** The fields of [*url.URL] the controller reads; [URL_User] says that the
    authority has user information. *)
Record URL := mkURL {
  URL_Scheme : string;
  URL_Host : string;
  URL_User : bool;
  URL_Path : string;
  URL_RawQuery : string;
  URL_Fragment : string
}.

Class Runtime := {
  (* package unicode, on strings with a byte outside ASCII *)
  uni_ToLower : string → string;
  uni_ToUpper : string → string;
  uni_TrimSpace : string → string;
  uni_EqualFold : string → string → bool;
  uni_RuneCount : string → Z;
  (* the letters and digits, lower-cased: strings.Map over unicode classes *)
  uni_LowerAlnum : string → string;
  (* crypto/sha256, as the bytes of the digest in hexadecimal *)
  sha256_hex : string → string;
  (* time.LoadLocation finds the zone in the time-zone database *)
  LoadLocation : string → bool;
  (* net/url.Parse, whose grammar changes with the Go release *)
  url_Parse : string → option URL;
  (* the parsed URL with another path, as [URL.String] prints it *)
  url_Print : string → string → string
}.

(** ** Package strings *)

Definition lower_byte (c : ascii) : ascii :=
  if (65 <=? byte_of c) && (byte_of c <=? 90) then ascii_of_byte (byte_of c + 32) else c.
Definition upper_byte (c : ascii) : ascii :=
  if (97 <=? byte_of c) && (byte_of c <=? 122) then ascii_of_byte (byte_of c - 32) else c.

Definition is_space_byte (c : ascii) : bool :=
  let b := byte_of c in (b =? 32) || ((9 <=? b) && (b <=? 13)).

Fixpoint trim_left (s : string) : string :=
  match s with
  | EmptyString => EmptyString
  | String c s' => if is_space_byte c then trim_left s' else s
  end.

Fixpoint trim_right (s : string) : string :=
  match s with
  | EmptyString => EmptyString
  | String c s' =>
      match trim_right s' with
      | EmptyString => if is_space_byte c then EmptyString else String c EmptyString
      | t => String c t
      end
  end.

(** Neither end of the string needs the Unicode tables. *)
Definition ascii_ends (s : string) : bool :=
  from_option is_ascii_byte true (first_byte s) &&
  from_option is_ascii_byte true (last_byte s).

Section strings.
Context {R : Runtime}.

Definition ToLower (s : string) : string :=
  if is_ascii s then string_map lower_byte s else uni_ToLower s.
Definition ToUpper (s : string) : string :=
  if is_ascii s then string_map upper_byte s else uni_ToUpper s.

Definition TrimSpace (s : string) : string :=
  let t := trim_right (trim_left s) in
  if ascii_ends t then t else uni_TrimSpace t.

Definition EqualFold (s t : string) : bool :=
  if is_ascii s && is_ascii t
  then String.eqb (string_map lower_byte s) (string_map lower_byte t)
  else uni_EqualFold s t.

(** [utf8.RuneCountInString]. *)
Definition RuneCount (s : string) : Z :=
  if is_ascii s then len s else uni_RuneCount s.
End strings.

(** Documented facts about the Unicode tables: lower-casing is idempotent,
    trimming leaves no space at the ends, and no letter is lowered to a space. *)
Class UnicodeLaws (R : Runtime) : Prop := {
  ToLower_idemp_uni s : is_ascii s = false → ToLower (uni_ToLower s) = uni_ToLower s;
  TrimSpace_idemp_uni s :
    ascii_ends s = false → TrimSpace (uni_TrimSpace s) = uni_TrimSpace s;
  TrimSpace_lower_uni s :
    is_ascii s = false → TrimSpace s = s → TrimSpace (uni_ToLower s) = uni_ToLower s
}.

Definition HasPrefix (s p : string) : bool := String.prefix p s.

Fixpoint drop_bytes (n : nat) (s : string) : string :=
  match n, s with
  | O, _ => s
  | S n', String _ s' => drop_bytes n' s'
  | S _, EmptyString => EmptyString
  end.

Definition TrimPrefix (s p : string) : string :=
  if HasPrefix s p then drop_bytes (String.length p) s else s.

Fixpoint string_elem (c : ascii) (s : string) : bool :=
  match s with
  | EmptyString => false
  | String d s' => bool_decide (c = d) || string_elem c s'
  end.

(** [strings.ContainsAny(s, chars)] for ASCII [chars]. *)
Fixpoint ContainsAny (s chars : string) : bool :=
  match s with
  | EmptyString => false
  | String c s' => string_elem c chars || ContainsAny s' chars
  end.

(** [strings.Split(s, sep)] for a one-byte separator: never the empty slice. *)
Fixpoint Split (s : string) (sep : ascii) : list string :=
  match s with
  | EmptyString => [EmptyString]
  | String c s' =>
      if bool_decide (c = sep) then EmptyString :: Split s' sep
      else match Split s' sep with
           | [] => [String c EmptyString]
           | part :: rest => String c part :: rest
           end
  end.

Fixpoint Join (l : list string) (sep : string) : string :=
  match l with
  | [] => EmptyString
  | [s] => s
  | s :: l' => s +:+ sep +:+ Join l' sep
  end.

(** [strconv.Itoa] and the [%d] verb. *)
Definition itoa (z : Z) : string := NilEmpty.string_of_int (Z.to_int z).

Definition newline : string := String (ascii_of_nat 10) EmptyString.
Definition nul : string := String (ascii_of_nat 0) EmptyString.

(** ** Lemmas on strings *)

Lemma string_app_cons c s t : String c s +:+ t = String c (s +:+ t).
Proof. done. Qed.

Lemma string_app_nil_l s : "" +:+ s = s.
Proof. done. Qed.

Lemma string_app_nil_r s : s +:+ "" = s.
Proof. induction s as [|c s IH]; [done|]. by rewrite string_app_cons, IH. Qed.

Lemma string_app_assoc s t u : (s +:+ t) +:+ u = s +:+ (t +:+ u).
Proof. induction s as [|c s IH]; [done|]. by rewrite !string_app_cons, IH. Qed.

Create Rewrite HintDb str.
#[export] Hint Rewrite string_app_nil_r string_app_assoc string_app_cons string_app_nil_l : str.

Lemma length_string_app s t : String.length (s +:+ t) = (String.length s + String.length t)%nat.
Proof. induction s as [|c s IH]; [done|]. rewrite string_app_cons. cbn. by f_equal. Qed.

Lemma string_app_inj_l s t u : s +:+ t = s +:+ u → t = u.
Proof. apply (inj (String.app s)). Qed.

Lemma string_map_map f g s : string_map f (string_map g s) = string_map (λ c, f (g c)) s.
Proof. induction s; cbn; congruence. Qed.

Lemma string_map_ext f g s : (∀ c, f c = g c) → string_map f s = string_map g s.
Proof. intros H. induction s; cbn; congruence. Qed.

Lemma string_forall_map p f s :
  (∀ c, p c = true → p (f c) = true) →
  string_forall p s = true → string_forall p (string_map f s) = true.
Proof.
  intros H. induction s as [|c s IH]; cbn; [done|].
  intros [Hc Hs]%andb_true_iff. rewrite H, IH; done.
Qed.

Lemma lower_byte_idemp c : lower_byte (lower_byte c) = lower_byte c.
Proof.
  apply (bool_decide_eq_true (lower_byte (lower_byte c) = lower_byte c)).
  revert c. apply bytes_forall. vm_compute. done.
Qed.

Lemma lower_byte_ascii c : is_ascii_byte c = true → is_ascii_byte (lower_byte c) = true.
Proof.
  intros H. assert (implb (is_ascii_byte c) (is_ascii_byte (lower_byte c)) = true) as F.
  { revert c H. intros c _. revert c. apply bytes_forall. by vm_compute. }
  by rewrite H in F.
Qed.

Lemma lower_byte_space c : is_space_byte (lower_byte c) = is_space_byte c.
Proof.
  apply eqb_prop. revert c. apply bytes_forall. by vm_compute.
Qed.

Lemma lower_byte_ascii_iff c : is_ascii_byte (lower_byte c) = is_ascii_byte c.
Proof. apply eqb_prop. revert c. apply bytes_forall. by vm_compute. Qed.

Lemma is_ascii_map_lower s : is_ascii (string_map lower_byte s) = is_ascii s.
Proof.
  unfold is_ascii. induction s as [|c s IH]; cbn; [done|].
  by rewrite lower_byte_ascii_iff, IH.
Qed.

Lemma trim_left_map_lower s :
  trim_left (string_map lower_byte s) = string_map lower_byte (trim_left s).
Proof.
  induction s as [|c s IH]; cbn; [done|]. rewrite lower_byte_space.
  by destruct (is_space_byte c).
Qed.

Lemma trim_right_map_lower s :
  trim_right (string_map lower_byte s) = string_map lower_byte (trim_right s).
Proof.
  induction s as [|c s IH]; cbn; [done|]. rewrite IH, lower_byte_space.
  destruct (trim_right s); cbn; [|done]. by destruct (is_space_byte c).
Qed.

(** A string is trimmed when neither of its ends is an ASCII space. *)
Definition trimmed (s : string) : Prop :=
  from_option is_space_byte false (first_byte s) = false ∧
  from_option is_space_byte false (last_byte s) = false.

Lemma trim_left_first s : from_option is_space_byte false (first_byte (trim_left s)) = false.
Proof. induction s as [|c s IH]; cbn; [done|]. destruct (is_space_byte c) eqn:E; done. Qed.

Lemma trim_right_last s : from_option is_space_byte false (last_byte (trim_right s)) = false.
Proof.
  induction s as [|c s IH]; cbn; [done|].
  destruct (trim_right s) eqn:E; [|done]. destruct (is_space_byte c) eqn:F; done.
Qed.

Lemma trim_right_first s c t :
  trim_right s = String c t → first_byte s = Some c.
Proof. destruct s as [|d s]; cbn; [done|]. repeat case_match; congruence. Qed.

Lemma trim_trimmed s : trimmed (trim_right (trim_left s)).
Proof.
  split; [|apply trim_right_last].
  destruct (trim_right (trim_left s)) as [|c t] eqn:E; [done|].
  apply trim_right_first in E. pose proof (trim_left_first s) as H. by rewrite E in H.
Qed.

Lemma trim_left_id s : from_option is_space_byte false (first_byte s) = false → trim_left s = s.
Proof. destruct s as [|c s]; cbn; [done|]. by intros ->. Qed.

Lemma trim_right_id s : from_option is_space_byte false (last_byte s) = false → trim_right s = s.
Proof.
  induction s as [|c s IH]; [done|]. intros H.
  assert (s = "" ∨ trim_right s = s) as [->|E].
  { destruct s; [by left|right; by apply IH]. }
  - cbn in *. by rewrite H.
  - cbn [trim_right]. rewrite E. destruct s; [|done]. cbn in *. by rewrite H.
Qed.

Lemma trimmed_id s : trimmed s → trim_right (trim_left s) = s.
Proof. intros [H1 H2]. by rewrite trim_left_id, trim_right_id. Qed.

Section string_laws.
Context {R : Runtime} {L : UnicodeLaws R}.

Lemma ToLower_idemp s : ToLower (ToLower s) = ToLower s.
Proof.
  unfold ToLower at 2 3. destruct (is_ascii s) eqn:E; [|by apply ToLower_idemp_uni].
  unfold ToLower. rewrite is_ascii_map_lower, E, string_map_map.
  apply string_map_ext, lower_byte_idemp.
Qed.

Lemma TrimSpace_idemp s : TrimSpace (TrimSpace s) = TrimSpace s.
Proof.
  unfold TrimSpace at 2 3. cbv zeta.
  destruct (ascii_ends (trim_right (trim_left s))) eqn:E; [|by apply TrimSpace_idemp_uni].
  unfold TrimSpace. rewrite (trimmed_id _ (trim_trimmed s)). cbv zeta. by rewrite E.
Qed.

Lemma is_ascii_ends s : is_ascii s = true → ascii_ends s = true.
Proof.
  unfold is_ascii, ascii_ends. destruct s as [|c s]; [done|]. cbn [first_byte from_option].
  intros H. pose proof H as [-> _]%andb_true_iff. cbn [andb].
  revert c H. induction s as [|d s IH]; intros c [Hc Hs]%andb_true_iff; [done|].
  by apply (IH d).
Qed.

Lemma is_ascii_trim s : is_ascii s = true → is_ascii (trim_right (trim_left s)) = true.
Proof.
  unfold is_ascii. intros H.
  assert (string_forall is_ascii_byte (trim_left s) = true) as Hl.
  { induction s as [|c s IH]; cbn in *; [done|]. pose proof H as [_ Hs]%andb_true_iff.
    destruct (is_space_byte c); [by apply IH|done]. }
  revert Hl. generalize (trim_left s) as u. induction u as [|c u IH]; cbn; [done|].
  intros [Hc Hu]%andb_true_iff. specialize (IH Hu).
  destruct (trim_right u); [destruct (is_space_byte c); cbn; by rewrite ?Hc|].
  cbn in *. by rewrite Hc.
Qed.

Lemma TrimSpace_ascii s : is_ascii s = true → TrimSpace s = trim_right (trim_left s).
Proof.
  intros H. unfold TrimSpace. cbv zeta.
  by rewrite (is_ascii_ends _ (is_ascii_trim s H)).
Qed.

Lemma ascii_TrimSpace s : is_ascii s = true → is_ascii (TrimSpace s) = true.
Proof. intros H. rewrite TrimSpace_ascii by done. by apply is_ascii_trim. Qed.

Lemma TrimSpace_lower s : TrimSpace s = s → TrimSpace (ToLower s) = ToLower s.
Proof.
  unfold ToLower. destruct (is_ascii s) eqn:E; [|by apply TrimSpace_lower_uni].
  rewrite !TrimSpace_ascii; [|by rewrite ?is_ascii_map_lower..].
  rewrite trim_left_map_lower, trim_right_map_lower. congruence.
Qed.
End string_laws.

(** ** A runtime for evaluation

    On ASCII text every function above is the standard one; outside ASCII no
    letter has a case, and every text is its own digest. *)

Definition has_scheme (scheme s : string) : option string :=
  if HasPrefix s (scheme +:+ "://") then Some (TrimPrefix s (scheme +:+ "://")) else None.

(** [scheme://host] without any further part. *)
Definition plain_url (s : string) : option URL :=
  match has_scheme "https" s, has_scheme "http" s with
  | Some h, _ => Some (mkURL "https" h false "" "" "")
  | None, Some h => Some (mkURL "http" h false "" "" "")
  | None, None => None
  end.

Definition ascii_runtime : Runtime := {|
  uni_ToLower := λ s, s; uni_ToUpper := λ s, s;
  uni_TrimSpace := λ s, trim_right (trim_left s);
  uni_EqualFold := String.eqb; uni_RuneCount := len; uni_LowerAlnum := λ s, s;
  sha256_hex := λ s, s;
  LoadLocation := λ zone, zone =?? "Europe/London";
  url_Parse := plain_url; url_Print := λ s path, s +:+ path
|}.

Lemma ascii_runtime_laws : UnicodeLaws ascii_runtime.
Proof.
  split.
  - intros s E. change (@ToLower ascii_runtime s = s). unfold ToLower. by rewrite E.
  - intros s E. change (@TrimSpace ascii_runtime (trim_right (trim_left s)) = trim_right (trim_left s)).
    unfold TrimSpace. rewrite (trimmed_id _ (trim_trimmed s)). cbv zeta.
    case_match; [done|]. apply (trimmed_id _ (trim_trimmed s)).
  - intros s _ E. done.
Qed.

(** ** Maps *)

(** A [range] over a map visits every entry once, in no specified order. *)
Class MapOrder := {
  map_range : ∀ {A}, gmap string A → list (string * A);
  map_range_perm : ∀ {A} (m : gmap string A), map_range m ≡ₚ map_to_list m
}.

(** The order of the representation is one of the orders a [range] may take. *)
Definition key_order : MapOrder :=
  {| map_range A m := map_to_list m; map_range_perm A m := Permutation_refl _ |}.
