(* ===== verification/Json.v ===== *)
(** * encoding/json: the encoder

    [json.Marshal] as a printer of JSON trees, with the escapes of the standard
    encoder (HTML characters, control characters, the two line separators and
    invalid UTF-8 included), and its injectivity on ASCII text: two trees of
    ASCII strings with the same encoding are the same tree.  The controller
    compares configurations and computes their hashes on these encodings. *)

From Stdlib Require Import DecimalString DecimalZ DecimalPos.
From S2P Require Import Prelude GoRuntime.

(** ** Trees *)

Unset Elimination Schemes.
Inductive json : Type :=
  | JNull
  | JBool (b : bool)
  | JNum (z : Z)
  | JStr (s : string)
  | JArr (l : list json)
  | JObj (fields : list (string * json)).
Set Elimination Schemes.

(** Induction over trees, with the hypothesis for every element and field. *)
Definition json_ind (P : json → Prop)
  (Hnull : P JNull) (Hbool : ∀ b, P (JBool b)) (Hnum : ∀ z, P (JNum z))
  (Hstr : ∀ s, P (JStr s)) (Harr : ∀ l, Forall P l → P (JArr l))
  (Hobj : ∀ fs, Forall (λ f, P f.2) fs → P (JObj fs)) : ∀ j, P j :=
  fix go (j : json) : P j :=
    match j with
    | JNull => Hnull
    | JBool b => Hbool b
    | JNum z => Hnum z
    | JStr s => Hstr s
    | JArr l => Harr l ((fix go_list (l : list json) : Forall P l :=
        match l with
        | [] => Forall_nil_2 _
        | x :: l' => Forall_cons_2 _ _ _ (go x) (go_list l')
        end) l)
    | JObj fs => Hobj fs ((fix go_fields (fs : list (string * json)) : Forall (λ f, P f.2) fs :=
        match fs with
        | [] => Forall_nil_2 _
        | f :: fs' => Forall_cons_2 _ _ _ (go f.2) (go_fields fs')
        end) fs)
    end.

(** ** Strings *)

Definition hex_digit (z : Z) : ascii :=
  if z <? 10 then ascii_of_byte (48 + z) else ascii_of_byte (87 + z).

Definition quote : ascii := ascii_of_nat 34.
Definition backslash : ascii := ascii_of_nat 92.

Definition esc (t : string) : string := String backslash t.

(** The escape of an ASCII byte; the bytes of [htmlSafeSet] stand for themselves. *)
Definition escape_byte (c : ascii) : string :=
  let b := byte_of c in
  if (b =? 34) || (b =? 92) then esc (String c "")
  else if b =? 8 then esc "b"
  else if b =? 12 then esc "f"
  else if b =? 10 then esc "n"
  else if b =? 13 then esc "r"
  else if b =? 9 then esc "t"
  else if (b <? 32) || (b =? 60) || (b =? 62) || (b =? 38)
  then esc (String "u" (String "0" (String "0"
         (String (hex_digit (Z.shiftr b 4)) (String (hex_digit (Z.land b 15)) "")))))
  else String c "".

(** The length of the UTF-8 sequence at the head of the string, [None] when the
    bytes are not the encoding of a rune. *)
Definition utf8_len (s : string) : option nat :=
  let cont (c : ascii) (lo hi : Z) := (lo <=? byte_of c) && (byte_of c <=? hi) in
  match s with
  | String c0 (String c1 rest) =>
      let b0 := byte_of c0 in
      if (194 <=? b0) && (b0 <=? 223) then if cont c1 128 191 then Some 2%nat else None
      else match rest with
      | String c2 rest' =>
          if (224 <=? b0) && (b0 <=? 239) then
            let lo := if b0 =? 224 then 160 else 128 in
            let hi := if b0 =? 237 then 159 else 191 in
            if cont c1 lo hi && cont c2 128 191 then Some 3%nat else None
          else match rest' with
          | String c3 _ =>
              if (240 <=? b0) && (b0 <=? 244) then
                let lo := if b0 =? 240 then 144 else 128 in
                let hi := if b0 =? 244 then 143 else 191 in
                if cont c1 lo hi && cont c2 128 191 && cont c3 128 191
                then Some 4%nat else None
              else None
          | EmptyString => None
          end
      | EmptyString => None
      end
  | _ => None
  end.

(** U+2028 and U+2029, the bytes E2 80 A8 and E2 80 A9. *)
Definition line_separator (s : string) : option ascii :=
  match s with
  | String c0 (String c1 (String c2 _)) =>
      if (byte_of c0 =? 226) && (byte_of c1 =? 128)
      then if byte_of c2 =? 168 then Some "8"%char
           else if byte_of c2 =? 169 then Some "9"%char else None
      else None
  | _ => None
  end.

(** Bytes of the current rune that remain to be copied or skipped. *)
Inductive pending := Copy (n : nat) | Skip (n : nat).

Fixpoint escape_string (p : pending) (s : string) : string :=
  match s with
  | EmptyString => EmptyString
  | String c s' =>
      match p with
      | Copy (S n) => String c (escape_string (Copy n) s')
      | Skip (S n) => escape_string (Skip n) s'
      | _ =>
          if is_ascii_byte c then escape_byte c +:+ escape_string (Copy 0) s'
          else match utf8_len s with
          | None => esc "ufffd" +:+ escape_string (Copy 0) s'
          | Some n =>
              match line_separator s with
              | Some d => esc "u202" +:+ String d (escape_string (Skip 2) s')
              | None => String c (escape_string (Copy (n - 1)) s')
              end
          end
      end
  end.

Definition print_string (s : string) : string :=
  String quote (escape_string (Copy 0) s +:+ String quote "").

(** ** Values *)

Fixpoint json_print (j : json) : string :=
  match j with
  | JNull => "null"
  | JBool b => if b then "true" else "false"
  | JNum z => itoa z
  | JStr s => print_string s
  | JArr l => "[" +:+ Join (json_print <$> l) "," +:+ "]"
  | JObj fs =>
      "{" +:+ Join ((λ f, print_string f.1 +:+ ":" +:+ json_print f.2) <$> fs) "," +:+ "}"
  end.

(** The encoder's view of the Go types. *)
Definition of_strings (s : slice string) : json :=
  match s with None => JNull | Some l => JArr (JStr <$> l) end.
Definition of_slice {A} (f : A → json) (s : slice A) : json :=
  match s with None => JNull | Some l => JArr (f <$> l) end.
Definition of_pointer {A} (f : A → json) (p : option A) : json :=
  from_option f JNull p.
(** A Go map is encoded with its keys in increasing order. *)
Definition of_map {A} (f : A → json) (m : gmap string A) : json :=
  JObj ((λ kv, (kv.1, f kv.2)) <$>
        sort_Slice (λ x y, String.ltb x.1 y.1) (map_to_list m)).
(** [omitempty]: the field is left out when the value is the zero value. *)
Definition omitempty (zero : bool) (k : string) (v : json) : list (string * json) :=
  if zero then [] else [(k, v)].

(** ** Injectivity of the encoder on ASCII text *)

Fixpoint ascii_json (j : json) : bool :=
  match j with
  | JStr s => is_ascii s
  | JArr l => forallb ascii_json l
  | JObj fs => forallb (λ f, is_ascii f.1 && ascii_json f.2) fs
  | _ => true
  end.

(** What may follow a value in a text: the end or a closing delimiter. *)
Definition closes (c : ascii) : bool :=
  (byte_of c =? 44) || (byte_of c =? 93) || (byte_of c =? 125).
Definition stops (r : string) : Prop := from_option closes true (first_byte r) = true.

Definition is_number_byte (c : ascii) : bool :=
  (byte_of c =? 45) || ((48 <=? byte_of c) && (byte_of c <=? 57)).

(** Two texts are cut at the same place when the cut is where a class of bytes ends. *)
Lemma span_inj (p : ascii → bool) s s' r r' :
  string_forall p s = true → string_forall p s' = true →
  from_option p false (first_byte r) = false → from_option p false (first_byte r') = false →
  s +:+ r = s' +:+ r' → s = s' ∧ r = r'.
Proof.
  revert s'. induction s as [|c s IH]; intros [|c' s'] Hs Hs' Hr Hr' E; [done|..].
  - rewrite string_app_nil_l, string_app_cons in E. subst r. cbn in *. bool_simp. congruence.
  - rewrite string_app_nil_l, string_app_cons in E. subst r'. cbn in *. bool_simp. congruence.
  - cbn in Hs, Hs'. bool_simp. rewrite !string_app_cons in E. injection E as -> E.
    by destruct (IH s' ltac:(done) ltac:(done) Hr Hr' E) as [-> ->].
Qed.

Lemma string_of_uint_digits u : string_forall is_number_byte (NilEmpty.string_of_uint u) = true.
Proof. induction u; cbn; done. Qed.

Lemma itoa_number z : string_forall is_number_byte (itoa z) = true.
Proof.
  unfold itoa. destruct (Z.to_int z) as [u|u]; cbn; apply string_of_uint_digits.
Qed.

Lemma itoa_inj z z' : itoa z = itoa z' → z = z'.
Proof.
  intros H%(f_equal NilEmpty.int_of_string). unfold itoa in H.
  rewrite !NilEmpty.isi in H. injection H as H. by apply DecimalZ.to_int_inj in H.
Qed.

Lemma itoa_cons z : ∃ c t, itoa z = String c t ∧ is_number_byte c = true.
Proof.
  pose proof (itoa_number z) as H. destruct (itoa z) as [|c t] eqn:E.
  - exfalso. unfold itoa in E. destruct z as [|p|p]; [done| |done]. cbn in E.
    pose proof (DecimalPos.Unsigned.to_uint_nonnil p) as Hp.
    by destruct (Pos.to_uint p).
  - exists c, t. cbn in H. bool_simp. done.
Qed.

(** No escape is a proper prefix of another, and none begins with a quote. *)
Lemma escape_byte_prefix_free c c' :
  is_ascii_byte c = true → is_ascii_byte c' = true →
  String.prefix (escape_byte c) (escape_byte c') = true → c = c'.
Proof.
  intros Hc Hc' Hp.
  assert (H : ∀ c, forallb (λ c', implb (is_ascii_byte c && is_ascii_byte c' &&
    String.prefix (escape_byte c) (escape_byte c')) (c =?? c')) all_bytes = true).
  { apply bytes_forall. vm_compute. done. }
  pose proof (bytes_forall _ (H c) c') as F. cbn beta in F.
  rewrite Hc, Hc', Hp in F. cbn in F. by apply bool_decide_eq_true in F.
Qed.

Lemma escape_byte_quote c :
  is_ascii_byte c = true → first_byte (escape_byte c) ≠ Some quote ∧ escape_byte c ≠ "".
Proof.
  intros Hc.
  assert (H : ∀ c, implb (is_ascii_byte c) (bool_decide (first_byte (escape_byte c) ≠ Some quote
    ∧ escape_byte c ≠ "")) = true).
  { apply bytes_forall. vm_compute. done. }
  specialize (H c). rewrite Hc in H. by apply bool_decide_eq_true in H.
Qed.

Lemma app_prefix s t r u : s +:+ r = t +:+ u →
  String.prefix s t = true ∨ String.prefix t s = true.
Proof.
  revert t. induction s as [|c s IH]; intros [|d t] E; [by left|by left|by right|].
  rewrite !string_app_cons in E. injection E as <- E. cbn.
  destruct (ascii_dec c c); [|done]. by apply IH in E.
Qed.

Lemma escape_byte_inj c c' r r' :
  is_ascii_byte c = true → is_ascii_byte c' = true →
  escape_byte c +:+ r = escape_byte c' +:+ r' → c = c' ∧ r = r'.
Proof.
  intros Hc Hc' E. assert (c = c') as <-.
  { destruct (app_prefix _ _ _ _ E) as [H|H]; [|symmetry];
      by eapply escape_byte_prefix_free. }
  split; [done|]. by eapply string_app_inj_l.
Qed.

Lemma escape_string_ascii_cons c s : is_ascii_byte c = true →
  escape_string (Copy 0) (String c s) = escape_byte c +:+ escape_string (Copy 0) s.
Proof. intros H. cbn [escape_string]. by rewrite H. Qed.

Lemma quote_not_escape c s r : is_ascii_byte c = true →
  String quote r ≠ escape_byte c +:+ s.
Proof.
  intros H E. destruct (escape_byte_quote c H) as [Hq Hn].
  destruct (escape_byte c) as [|d t]; [done|].
  rewrite string_app_cons in E. injection E as <- _. done.
Qed.

Lemma escape_string_inj s s' r r' : is_ascii s = true → is_ascii s' = true →
  escape_string (Copy 0) s +:+ String quote r = escape_string (Copy 0) s' +:+ String quote r' →
  s = s' ∧ r = r'.
Proof.
  revert s'. induction s as [|c s IH]; intros [|c' s'] Hs Hs' E.
  - change (String quote r = String quote r') in E. by injection E as ->.
  - cbn in Hs'. bool_simp. rewrite escape_string_ascii_cons, string_app_assoc in E by done.
    by apply quote_not_escape in E.
  - cbn in Hs. bool_simp. rewrite escape_string_ascii_cons, string_app_assoc in E by done.
    symmetry in E. by apply quote_not_escape in E.
  - cbn in Hs, Hs'. bool_simp. rewrite !escape_string_ascii_cons, !string_app_assoc in E by done.
    apply escape_byte_inj in E as [-> E]; [|done..].
    by destruct (IH s' ltac:(done) ltac:(done) E) as [-> ->].
Qed.

Lemma print_string_inj s s' r r' : is_ascii s = true → is_ascii s' = true →
  print_string s +:+ r = print_string s' +:+ r' → s = s' ∧ r = r'.
Proof.
  intros Hs Hs'. unfold print_string. rewrite !string_app_cons, !string_app_assoc.
  intros E. injection E as E. by apply escape_string_inj in E.
Qed.

(** [uncut pr x]: the text of [x] cannot be mistaken for the text of another
    value followed by a delimiter, whatever follows either of them. *)
Definition uncut {A} (ok : A → bool) (pr : A → string) (x : A) : Prop :=
  ∀ x' r r', ok x' = true → stops r → stops r' →
    pr x +:+ r = pr x' +:+ r' → x = x' ∧ r = r'.

Definition opens {A} (ok : A → bool) (pr : A → string) : Prop :=
  ∀ x, ok x = true → ∃ c t, pr x = String c t ∧ closes c = false.

Lemma Join_cons2 (x y : string) l sep : Join (x :: y :: l) sep = x +:+ sep +:+ Join (y :: l) sep.
Proof. done. Qed.

Lemma Join_cons x l sep r :
  ∃ t, Join (x :: l) sep +:+ r = x +:+ t ∧
       ((l = [] ∧ t = r) ∨ (∃ y l', l = y :: l' ∧ t = sep +:+ Join l sep +:+ r)).
Proof.
  destruct l as [|y l]; [exists r; eauto|].
  exists (sep +:+ Join (y :: l) sep +:+ r). rewrite Join_cons2, !string_app_assoc. eauto 6.
Qed.

Lemma Join_inj {A} (ok : A → bool) (pr : A → string) (close : ascii) l l' r r' :
  opens ok pr → closes close = true → byte_of close ≠ 44 →
  forallb ok l = true → forallb ok l' = true → Forall (uncut ok pr) l →
  Join (pr <$> l) "," +:+ String close r = Join (pr <$> l') "," +:+ String close r' →
  l = l' ∧ r = r'.
Proof.
  intros Hopen Hc Hcomma. revert l'. induction l as [|x l IH]; intros [|x' l'] Hl Hl' Hu E.
  - change (String close r = String close r') in E. by injection E as ->.
  - cbn in Hl'. apply andb_true_iff in Hl' as [Hx' _].
    destruct (Hopen x' Hx') as (c & t & Ex & Hcc). rewrite fmap_cons in E.
    destruct (Join_cons (pr x') (pr <$> l') "," (String close r')) as (u & Eu & _).
    rewrite Eu, Ex in E. rewrite string_app_cons in E. injection E as <- _. congruence.
  - cbn in Hl. apply andb_true_iff in Hl as [Hx _].
    destruct (Hopen x Hx) as (c & t & Ex & Hcc). rewrite fmap_cons in E.
    destruct (Join_cons (pr x) (pr <$> l) "," (String close r)) as (u & Eu & _).
    rewrite Eu, Ex in E. rewrite string_app_cons in E. injection E as -> _. congruence.
  - cbn in Hl, Hl'. apply andb_true_iff in Hl as [Hx Hl], Hl' as [Hx' Hl'].
    inversion Hu as [|?? Hux Hul]; subst. rewrite !fmap_cons in E.
    destruct (Join_cons (pr x) (pr <$> l) "," (String close r)) as (u & Eu & Cu).
    destruct (Join_cons (pr x') (pr <$> l') "," (String close r')) as (u' & Eu' & Cu').
    rewrite Eu, Eu' in E.
    assert (∀ (m : list A) u r, ((pr <$> m) = [] ∧ u = String close r) ∨
      (∃ y l', pr <$> m = y :: l' ∧ u = "," +:+ Join (pr <$> m) "," +:+ String close r) →
      stops u) as Hst.
    { intros m w q [[_ ->]|(?&?&_&->)]; [done|]. unfold stops. by rewrite string_app_cons. }
    destruct (Hux x' u u' Hx' (Hst _ _ _ Cu) (Hst _ _ _ Cu') E) as [<- Euu].
    assert (Join (pr <$> l) "," +:+ String close r = Join (pr <$> l') "," +:+ String close r'
            ∧ (l = [] ↔ l' = [])) as [Er Hnil].
    { destruct Cu as [[N ->]|(y&m&N&->)], Cu' as [[N' ->]|(y'&m'&N'&->)].
      - apply fmap_nil_inv in N, N'. subst. done.
      - rewrite string_app_cons in Euu. injection Euu as -> _. by vm_compute in Hcomma.
      - rewrite string_app_cons in Euu. injection Euu as <- _. by vm_compute in Hcomma.
      - rewrite !string_app_cons, !string_app_nil_l in Euu. injection Euu as Euu.
        split; [done|]. split; intros ->; done. }
    by destruct (IH l' Hl Hl' Hul Er) as [-> ->].
Qed.

Lemma closes_false c : closes c = false ↔ byte_of c ≠ 44 ∧ byte_of c ≠ 93 ∧ byte_of c ≠ 125.
Proof. unfold closes. rewrite !orb_false_iff, !Z.eqb_neq. tauto. Qed.

Lemma json_print_opens : opens ascii_json json_print.
Proof.
  intros j _. destruct j as [|[]|z|s|l|fs]; try (eexists _, _; split; [reflexivity|done]).
  destruct (itoa_cons z) as (c & t & E & Hc). exists c, t. split; [done|].
  apply closes_false. unfold is_number_byte in Hc. apply orb_true_iff in Hc as [Hc|Hc];
    bool_simp; lia.
Qed.

Lemma field_opens {A} (f : string * A → string) (ok : string * A → bool) :
  opens ok (λ kv, print_string kv.1 +:+ f kv).
Proof. intros x _. eexists _, _. split; [reflexivity|done]. Qed.

Lemma stops_not_number r : stops r → from_option is_number_byte false (first_byte r) = false.
Proof.
  unfold stops. destruct (first_byte r) as [c|]; cbn; [|done]. unfold closes, is_number_byte.
  intros H. destruct (byte_of c =? 45) eqn:E1, (48 <=? byte_of c) eqn:E2,
    (byte_of c <=? 57) eqn:E3; bool_simp; cbn; try done;
  repeat (apply orb_true_iff in H as [H|H]); bool_simp; lia.
Qed.

(** The texts of distinct constructors begin differently. *)
Ltac heads E :=
  cbn [json_print] in E; unfold print_string in E;
  rewrite ?string_app_cons, ?string_app_nil_l in E;
  match type of E with
  | context [itoa ?z] =>
      let c := fresh "c" in let t := fresh "t" in let Hc := fresh "Hc" in
      let Ez := fresh "Ez" in
      destruct (itoa_cons z) as (c & t & Ez & Hc); rewrite Ez, ?string_app_cons in E;
      injection E as ? ?; subst; by vm_compute in Hc
  | _ => discriminate E
  end.

Lemma json_print_uncut j : ascii_json j = true → uncut ascii_json json_print j.
Proof.
  induction j as [|b|z|s|l IH|fs IH] using json_ind; intros Hj j' r r' Hj' Hr Hr' E;
    destruct j' as [|b'|z'|s'|l'|fs']; try (destruct b); try (destruct b'); try (by heads E).
  - by apply string_app_inj_l in E.
  - by apply string_app_inj_l in E.
  - by apply string_app_inj_l in E.
  - cbn in E. apply (span_inj is_number_byte) in E as [E ->];
      [|auto using itoa_number, stops_not_number..]. by apply itoa_inj in E as ->.
  - cbn in E. by apply print_string_inj in E as [-> ->].
  - cbn in E. rewrite !string_app_cons, !string_app_nil_l, !string_app_assoc in E.
    injection E as E. apply (Join_inj ascii_json) in E as [-> ->];
      [done|apply json_print_opens|done|done|done|done|].
    cbn in Hj. rewrite forallb_forall in Hj. rewrite Forall_forall in *. intros x Hx.
    apply IH; [done|]. by apply Hj, list_elem_of_In.
  - cbn in E. rewrite !string_app_cons, !string_app_nil_l, !string_app_assoc in E.
    injection E as E.
    apply (Join_inj (λ f, is_ascii f.1 && ascii_json f.2)) in E as [-> ->];
      [done|apply field_opens|done|done|done|done|].
    cbn in Hj. rewrite forallb_forall in Hj. rewrite Forall_forall in *. intros [k v] Hx.
    specialize (Hj (k, v) (proj1 (list_elem_of_In _ _) Hx)). specialize (IH (k, v) Hx).
    cbn in IH, Hj. bool_simp. intros [k' v'] u u' Hok Hu Hu' Ef. cbn in Hok, Ef. bool_simp.
    rewrite !string_app_assoc in Ef. apply print_string_inj in Ef as [-> Ef]; [|done..].
    rewrite !string_app_cons, !string_app_nil_l in Ef. injection Ef as Ef.
    by destruct (IH ltac:(done) v' u u' ltac:(done) Hu Hu' Ef) as [-> ->].
Qed.

(** Two ASCII trees with the same encoding are equal. *)
Lemma json_print_inj j j' : ascii_json j = true → ascii_json j' = true →
  json_print j = json_print j' → j = j'.
Proof.
  intros Hj Hj' E. destruct (json_print_uncut j Hj j' "" "" Hj') as [-> _]; [done..| |done].
  by rewrite !string_app_nil_r.
Qed.
