(* ===== verification/Domain.v ===== *)
(** * internal/domain: errors, identifiers, models and validation *)

From S2P Require Import Prelude GoRuntime Json.

(** ** Errors

    A Go [error] that the controller can see: a [*domain.Error], a plain text
    error, or a text that wraps another error ([fmt.Errorf] with [%w]). *)

(* src/internal/domain/errors.go:10-10 ErrorKind *)
Definition ErrorKind := string.
(* src/internal/domain/errors.go:13-13 ErrorValidation *)
Definition ErrorValidation : ErrorKind := "VALIDATION_ERROR".
(* src/internal/domain/errors.go:14-14 ErrorNotFound *)
Definition ErrorNotFound : ErrorKind := "NOT_FOUND".
(* src/internal/domain/errors.go:15-15 ErrorConflict *)
Definition ErrorConflict : ErrorKind := "CONFLICT".
(* src/internal/domain/errors.go:16-16 ErrorAuthentication *)
Definition ErrorAuthentication : ErrorKind := "AUTHENTICATION_REQUIRED".
(* src/internal/domain/errors.go:17-17 ErrorInvalidCredentials *)
Definition ErrorInvalidCredentials : ErrorKind := "AUTHENTICATION_FAILED".
(* src/internal/domain/errors.go:18-18 ErrorAuthorisation *)
Definition ErrorAuthorisation : ErrorKind := "AUTHORISATION_DENIED".
(* src/internal/domain/errors.go:19-19 ErrorRateLimited *)
Definition ErrorRateLimited : ErrorKind := "RATE_LIMITED".
(* src/internal/domain/errors.go:20-20 ErrorNodeUnreachable *)
Definition ErrorNodeUnreachable : ErrorKind := "NODE_UNREACHABLE".
(* src/internal/domain/errors.go:21-21 ErrorNodeAuth *)
Definition ErrorNodeAuth : ErrorKind := "NODE_AUTHENTICATION_FAILED".
(* src/internal/domain/errors.go:22-22 ErrorNodeTLS *)
Definition ErrorNodeTLS : ErrorKind := "NODE_TLS_FAILED".
(* src/internal/domain/errors.go:23-23 ErrorNodeResponse *)
Definition ErrorNodeResponse : ErrorKind := "NODE_INVALID_RESPONSE".
(* src/internal/domain/errors.go:24-24 ErrorCapability *)
Definition ErrorCapability : ErrorKind := "CAPABILITY_ERROR".
(* src/internal/domain/errors.go:25-25 ErrorNodeApply *)
Definition ErrorNodeApply : ErrorKind := "NODE_APPLY_FAILED".
(* src/internal/domain/errors.go:26-26 ErrorVerification *)
Definition ErrorVerification : ErrorKind := "VERIFICATION_FAILED".
(* src/internal/domain/errors.go:27-27 ErrorInternal *)
Definition ErrorInternal : ErrorKind := "INTERNAL_ERROR".

(* src/internal/domain/errors.go:30-35 Error *)
#[warnings="-register-all"]
Inductive error :=
  | DomainError (Kind : ErrorKind) (Message Field : string) (Cause : option error)
  | TextError (text : string)
  | WrapError (text : string) (cause : error).

(* src/internal/domain/errors.go:46-48 NewError *)
Definition NewError (kind : ErrorKind) (message : string) : error :=
  DomainError kind message "" None.

(* src/internal/domain/errors.go:50-52 Validation *)
Definition Validation (field message : string) : error :=
  DomainError ErrorValidation message field None.

(* src/internal/domain/errors.go:44-44 Error.Unwrap *)
Definition Unwrap (e : error) : option error :=
  match e with
  | DomainError _ _ _ cause => cause
  | TextError _ => None
  | WrapError _ cause => Some cause
  end.

(* src/internal/domain/errors.go:37-42 Error.Error *)
Definition Error_Error (e : error) : string :=
  match e with
  | DomainError _ message field _ =>
      if negb (field =?? "") then field +:+ ": " +:+ message else message
  | TextError text | WrapError text _ => text
  end.

(** [errors.As(err, &domainError)]: the kind and message of the first
    [*domain.Error] of the chain. *)
Fixpoint errors_As (e : error) : option (ErrorKind * string) :=
  match e with
  | DomainError kind message _ _ => Some (kind, message)
  | TextError _ => None
  | WrapError _ cause => errors_As cause
  end.

(** The result of a Go function that returns a value and an error. *)
Inductive res (A : Type) :=
  | Ok (a : A)
  | Err (e : error).
Arguments Ok {A} a.
Arguments Err {A} e.

Definition is_Ok {A} (r : res A) : bool := match r with Ok _ => true | Err _ => false end.

Notation "'ret' x" := (Ok x) (at level 20, only parsing) : go_scope.
Notation "'let?' x ':=' r 'in' k" :=
  (match r with Ok x => k | Err e => Err e end)
  (at level 10, x pattern, k at level 200) : go_scope.

(** ** Identifiers *)

Definition is_hex (c : ascii) : bool :=
  let b := byte_of c in ((48 <=? b) && (b <=? 57)) || ((97 <=? b) && (b <=? 102)).
Definition is_version_digit (c : ascii) : bool := (49 <=? byte_of c) && (byte_of c <=? 53).
Definition is_variant_digit (c : ascii) : bool :=
  let b := byte_of c in (b =? 56) || (b =? 57) || (b =? 97) || (b =? 98).
Definition is_dash (c : ascii) : bool := byte_of c =? 45.

(** A pattern that is a sequence of byte classes, anchored at both ends. *)
Fixpoint MatchString (classes : list (ascii → bool)) (s : string) : bool :=
  match classes, s with
  | [], EmptyString => true
  | p :: classes', String c s' => p c && MatchString classes' s'
  | _, _ => false
  end.

(* src/internal/domain/id.go:9-9 idPattern *)
Definition idPattern : list (ascii → bool) :=
  replicate 8 is_hex ++ [is_dash] ++ replicate 4 is_hex ++ [is_dash] ++
  [is_version_digit] ++ replicate 3 is_hex ++ [is_dash] ++
  [is_variant_digit] ++ replicate 3 is_hex ++ [is_dash] ++ replicate 12 is_hex.

(* src/internal/domain/id.go:24-26 ValidID *)
Definition ValidID (value : string) : bool := MatchString idPattern value.

(** Two lower-case hexadecimal digits per byte: the [%x] verb. *)
Definition hex_byte (b : Z) : string :=
  String (hex_digit (Z.shiftr b 4)) (String (hex_digit (Z.land b 15)) "").
Definition hex_bytes (l : list Z) : string := foldr (λ b s, hex_byte b +:+ s) "" l.

(** [rand.Read] fills 16 bytes or fails.
    The masks set the version to 4 and the variant to RFC 4122. *)
(* src/internal/domain/id.go:13-22 NewID *)
Definition NewID (random : option (list Z)) : res string :=
  match random with
  | None => Err (TextError "generate identifier")
  | Some value =>
      let value := alter (λ b, Z.lor (Z.land b 15) 64) 6%nat value in
      let value := alter (λ b, Z.lor (Z.land b 63) 128) 8%nat value in
      Ok (hex_bytes (take 4 value) +:+ "-" +:+ hex_bytes (take 2 (drop 4 value)) +:+ "-" +:+
          hex_bytes (take 2 (drop 6 value)) +:+ "-" +:+
          hex_bytes (take 2 (drop 8 value)) +:+ "-" +:+ hex_bytes (drop 10 value))
  end.

(** ** Models *)

(* src/internal/domain/models.go:64-73 Cluster *)
Record Cluster := mkCluster {
  Cluster_ID : string;
  Cluster_Name : string;
  Cluster_Description : string;
  Cluster_ReconciliationPolicy : string;
  Cluster_ActiveRevisionID : option string;
  Cluster_Version : Z;
  Cluster_CreatedAt : Time;
  Cluster_UpdatedAt : Time
}.

(* src/internal/domain/models.go:78-78 ReconciliationEnforce *)
Definition ReconciliationEnforce : string := "enforce".
(* src/internal/domain/models.go:79-79 ReconciliationAlert *)
Definition ReconciliationAlert : string := "alert".
(* src/internal/domain/models.go:80-80 ReconciliationManual *)
Definition ReconciliationManual : string := "manual".

(* src/internal/domain/models.go:83-85 ValidReconciliationPolicy *)
Definition ValidReconciliationPolicy (policy : string) : bool :=
  (policy =?? ReconciliationEnforce) || (policy =?? ReconciliationAlert) ||
  (policy =?? ReconciliationManual).

(* src/internal/domain/models.go:90-90 NodeUnknown *)
Definition NodeUnknown : string := "unknown".
(* src/internal/domain/models.go:91-91 NodeHealthy *)
Definition NodeHealthy : string := "healthy".
(* src/internal/domain/models.go:92-92 NodeUnreachable *)
Definition NodeUnreachable : string := "unreachable".
(* src/internal/domain/models.go:93-93 NodeIncompatible *)
Definition NodeIncompatible : string := "incompatible".
(* src/internal/domain/models.go:94-94 NodeDisabled *)
Definition NodeDisabled : string := "disabled".

(* src/internal/domain/models.go:100-100 CertificateSystemTrust *)
Definition CertificateSystemTrust : string := "system".
(* src/internal/domain/models.go:101-101 CertificateCustomCA *)
Definition CertificateCustomCA : string := "custom_ca".
(* src/internal/domain/models.go:102-102 CertificateInsecureHTTP *)
Definition CertificateInsecureHTTP : string := "insecure_http".

(* src/internal/domain/models.go:108-108 CompatibilityUnknown *)
Definition CompatibilityUnknown : string := "unknown".
(* src/internal/domain/models.go:109-109 CompatibilitySupported *)
Definition CompatibilitySupported : string := "supported".
(* src/internal/domain/models.go:110-110 CompatibilityUnsupported *)
Definition CompatibilityUnsupported : string := "unsupported".

(* src/internal/domain/models.go:113-135 Node *)
Record Node := mkNode {
  Node_ID : string;
  Node_ClusterID : string;
  Node_Name : string;
  Node_BaseURL : string;
  Node_CertificatePolicy : string;
  Node_Enabled : bool;
  Node_MaintenanceMode : bool;
  Node_HealthStatus : string;
  Node_CompatibilityStatus : string;
  Node_Version : string;
  Node_LastSeenAt : option Time;
  Node_LastPolledAt : option Time;
  Node_LatencyMS : option Z;
  Node_LastErrorCode : string;
  Node_AppliedRevisionID : option string;
  Node_AppliedHash : string;
  Node_ConvergenceStatus : string;
  Node_LastReconciledAt : option Time;
  Node_RecordVersion : Z;
  Node_CreatedAt : Time;
  Node_UpdatedAt : Time
}.

(* src/internal/domain/models.go:137-140 NodeCredentials *)
Record NodeCredentials := mkNodeCredentials { Username : string; Password : string }.

(* src/internal/domain/models.go:142-147 EncryptedCredentials *)
Record EncryptedCredentials := mkEncryptedCredentials {
  Ciphertext : string; Nonce : string; KeyVersion : Z; Algorithm : string
}.

(* src/internal/domain/models.go:158-161 NodeSecretMaterial *)
Record NodeSecretMaterial := mkNodeSecretMaterial {
  Secrets_Credentials : EncryptedCredentials; Secrets_CustomCAPEM : string
}.

(* src/internal/domain/models.go:163-166 NodeRecord *)
Record NodeRecord := mkNodeRecord { Record_Node : Node; Record_Secrets : NodeSecretMaterial }.

(* src/internal/domain/models.go:168-173 NodeProbeRequest *)
Record NodeProbeRequest := mkNodeProbeRequest {
  Request_BaseURL : string;
  Request_CertificatePolicy : string;
  Request_CustomCAPEM : string;
  Request_Credentials : NodeCredentials
}.

(* src/internal/domain/models.go:175-182 NodeProbeResult *)
Record NodeProbeResult := mkNodeProbeResult {
  Probe_Version : string;
  Probe_Compatibility : string;
  Probe_Running : bool;
  Probe_ProtectionEnabled : bool;
  Probe_ProtectionDisabledDurationMS : Z;
  Probe_LatencyMS : Z
}.

(** The metadata of an audit event is a tree of Go values. *)
(* src/internal/domain/models.go:184-197 AuditEvent *)
Record AuditEvent := mkAuditEvent {
  AuditEvent_ID : string;
  AuditEvent_ActorType : string;
  AuditEvent_ActorUserID : option string;
  AuditEvent_ActorDisplayName : string;
  AuditEvent_Action : string;
  AuditEvent_ResourceType : string;
  AuditEvent_ResourceID : option string;
  AuditEvent_RequestID : string;
  AuditEvent_Metadata : json;
  AuditEvent_CreatedAt : Time;
  AuditEvent_Scope : string;
  AuditEvent_ClusterID : string
}.

(* src/internal/domain/management.go:47-50 Actor *)
Record Actor := mkActor { Actor_UserID : string; Actor_RequestID : string }.

(** ** Validation *)

Section validation.
Context {R : Runtime}.

(* src/internal/domain/validation.go:19-25 ValidateDisplayName *)
Definition ValidateDisplayName (value : string) : res unit :=
  let length := RuneCount (TrimSpace value) in
  if (length <? 1) || (120 <? length)
  then Err (Validation "displayName" "must contain between 1 and 120 characters")
  else Ok tt.

(* src/internal/domain/validation.go:27-33 ValidateResourceName *)
Definition ValidateResourceName (field value : string) : res unit :=
  let length := RuneCount (TrimSpace value) in
  if (length <? 1) || (120 <? length)
  then Err (Validation field "must contain between 1 and 120 characters")
  else Ok tt.

(** [strings.TrimRight(s, "/")] *)
Fixpoint trim_right_slashes (s : string) : string :=
  match s with
  | EmptyString => EmptyString
  | String c s' =>
      match trim_right_slashes s' with
      | EmptyString => if byte_of c =? 47 then EmptyString else String c EmptyString
      | t => String c t
      end
  end.

(* src/internal/domain/validation.go:35-54 NormaliseNodeURL *)
Definition NormaliseNodeURL (value policy : string) : res string :=
  let invalid := Err (Validation "baseUrl"
    "must be an absolute node URL without credentials, query, or fragment") in
  match url_Parse (TrimSpace value) with
  | None => invalid
  | Some parsed =>
      if (URL_Host parsed =?? "") || URL_User parsed || negb (URL_RawQuery parsed =?? "") ||
         negb (URL_Fragment parsed =?? "") then invalid
      else
        let printed := url_Print (TrimSpace value) (trim_right_slashes (URL_Path parsed)) in
        if URL_Scheme parsed =?? "https" then
          if policy =?? CertificateInsecureHTTP
          then Err (Validation "certificatePolicy" "insecure_http is valid only for an http URL")
          else Ok printed
        else if URL_Scheme parsed =?? "http" then
          if negb (policy =?? CertificateInsecureHTTP)
          then Err (Validation "certificatePolicy" "http requires the explicit insecure_http policy")
          else Ok printed
        else Err (Validation "baseUrl" "scheme must be https or explicitly permitted http")
  end.

(* src/internal/domain/validation.go:56-70 ValidateCertificatePolicy *)
Definition ValidateCertificatePolicy (policy customCAPEM : string) : res unit :=
  if (policy =?? CertificateSystemTrust) || (policy =?? CertificateInsecureHTTP) then
    if negb (TrimSpace customCAPEM =?? "")
    then Err (Validation "customCaPem" "is only valid with custom_ca policy")
    else Ok tt
  else if policy =?? CertificateCustomCA then
    if TrimSpace customCAPEM =?? ""
    then Err (Validation "customCaPem" "is required with custom_ca policy")
    else Ok tt
  else Err (Validation "certificatePolicy" "must be system, custom_ca, or insecure_http").
End validation.

(** ** Properties of identifiers *)

Lemma bytes_check (p : Z → bool) : forallb p (seqZ 0 256) = true →
  ∀ b, 0 <= b < 256 → p b = true.
Proof.
  intros H b Hb. rewrite forallb_forall in H. apply H, list_elem_of_In, elem_of_seqZ. lia.
Qed.

Definition Byte (b : Z) : Prop := 0 <= b < 256.

Lemma hex_byte_hex b : Byte b →
  is_hex (hex_digit (Z.shiftr b 4)) = true ∧ is_hex (hex_digit (Z.land b 15)) = true.
Proof.
  intros Hb. apply andb_true_iff. revert b Hb. apply bytes_check. by vm_compute.
Qed.

Lemma version_byte_hex b : Byte b →
  is_version_digit (hex_digit (Z.shiftr (Z.lor (Z.land b 15) 64) 4)) = true ∧
  is_hex (hex_digit (Z.land (Z.lor (Z.land b 15) 64) 15)) = true.
Proof. intros Hb. apply andb_true_iff. revert b Hb. apply bytes_check. by vm_compute. Qed.

Lemma variant_byte_hex b : Byte b →
  is_variant_digit (hex_digit (Z.shiftr (Z.lor (Z.land b 63) 128) 4)) = true ∧
  is_hex (hex_digit (Z.land (Z.lor (Z.land b 63) 128) 15)) = true.
Proof. intros Hb. apply andb_true_iff. revert b Hb. apply bytes_check. by vm_compute. Qed.

Create HintDb id.
#[export] Hint Resolve hex_byte_hex version_byte_hex variant_byte_hex : id.

(** Every identifier the generator returns satisfies the pattern the handlers check. *)
Theorem NewID_ValidID value : length value = 16%nat → Forall Byte value →
  ∃ id, NewID (Some value) = Ok id ∧ ValidID id = true.
Proof.
  intros Hl Hb. do 16 (destruct value as [|? value]; [done|]).
  destruct value; [|done]. eexists; split; [reflexivity|].
  repeat match goal with H : Forall Byte (_ :: _) |- _ => apply Forall_cons in H as [? H] end.
  repeat match goal with
  | H : Byte ?b |- _ =>
      pose proof (hex_byte_hex b H); pose proof (version_byte_hex b H);
      pose proof (variant_byte_hex b H); clear H
  end.
  destruct_and!.
  cbv -[Z.shiftr Z.land Z.lor hex_digit is_hex is_version_digit is_variant_digit is_dash].
  repeat match goal with H : ?x = true |- context [?x] => rewrite H; clear H end.
  done.
Qed.
