(* ===== verification/Compat.v ===== *)
(** * internal/adguardcompat: which AdGuard Home versions may be managed

    The version pattern is a SemVer 2.0 grammar; its regular expression is
    modelled by the deterministic recogniser of the same language (the core has
    no [-] and no [+], the prerelease no [+], so the cuts are unique). *)

From S2P Require Import Prelude GoRuntime Json Domain.

(** ** Parsing *)

(* src/internal/adguardcompat/compatibility.go:15-15 APIGenerationUnknown *)
Definition APIGenerationUnknown : string := "unknown".
(* src/internal/adguardcompat/compatibility.go:16-16 APIGenerationLegacyControl *)
Definition APIGenerationLegacyControl : string := "legacy_control".

Definition is_digit (c : ascii) : bool := (48 <=? byte_of c) && (byte_of c <=? 57).
Definition is_letter (c : ascii) : bool :=
  let b := byte_of c in ((65 <=? b) && (b <=? 90)) || ((97 <=? b) && (b <=? 122)).
Definition is_ident_byte (c : ascii) : bool := is_digit c || is_letter c || is_dash c.

(** [0|[1-9][0-9]*] *)
Definition is_numeric (s : string) : bool :=
  match s with
  | EmptyString => false
  | String c EmptyString => is_digit c
  | String c s' => is_digit c && negb (byte_of c =? 48) && string_forall is_digit s'
  end.

(** [0|[1-9][0-9]*|[0-9]*[A-Za-z-][0-9A-Za-z-]*] *)
Definition is_prerelease_ident (s : string) : bool :=
  is_numeric s || (string_forall is_ident_byte s && negb (string_forall is_digit s)).

(** [[0-9A-Za-z-]+] *)
Definition is_build_ident (s : string) : bool :=
  negb (s =?? "") && string_forall is_ident_byte s.

(** [strings.Cut] at the first occurrence of a byte. *)
Fixpoint Cut (s : string) (sep : ascii) : string * option string :=
  match s with
  | EmptyString => (EmptyString, None)
  | String c s' =>
      if bool_decide (c = sep) then (EmptyString, Some s')
      else let '(a, b) := Cut s' sep in (String c a, b)
  end.

(* src/internal/adguardcompat/compatibility.go:23-26 productVersion *)
Record productVersion := mkProductVersion {
  major : string; minor : string; patch : string; prerelease : string
}.

(* src/internal/adguardcompat/compatibility.go:21-21 versionPattern *)
Definition versionPattern (s : string) : option productVersion :=
  let '(rest, build) := Cut (TrimPrefix s "v") "+" in
  let '(core, pre) := Cut rest "-" in
  match Split core "." with
  | [a; b; c] =>
      if is_numeric a && is_numeric b && is_numeric c &&
         from_option (λ p, forallb is_prerelease_ident (Split p ".")) true pre &&
         from_option (λ p, forallb is_build_ident (Split p ".")) true build
      then Some (mkProductVersion a b c (default "" pre)) else None
  | _ => None
  end.

Section compat.
Context {R : Runtime}.

(* src/internal/adguardcompat/compatibility.go:28-34 parse *)
Definition parse (version : string) : option productVersion :=
  versionPattern (TrimSpace version).

(* src/internal/adguardcompat/compatibility.go:38-43 decimalLess *)
Definition decimalLess (left right : string) : bool :=
  if negb (len left =? len right) then len left <? len right
  else String.ltb left right.

(* src/internal/adguardcompat/compatibility.go:47-53 Generation *)
Definition Generation (version : string) : string :=
  match parse version with
  | Some v =>
      if (major v =?? "0") || (major v =?? "1")
      then APIGenerationLegacyControl else APIGenerationUnknown
  | None => APIGenerationUnknown
  end.

(* src/internal/adguardcompat/compatibility.go:57-67 Compatibility *)
Definition Compatibility (version : string) : string :=
  match parse version with
  | None => CompatibilityUnknown
  | Some v =>
      if negb (major v =?? "0") && negb (major v =?? "1") then CompatibilityUnknown
      else if (major v =?? "0") &&
           (decimalLess (minor v) "107" ||
            ((minor v =?? "107") &&
             (decimalLess (patch v) "78" ||
              ((patch v =?? "78") && negb (prerelease v =?? "")))))
      then CompatibilityUnsupported
      else CompatibilitySupported
  end.

(* src/internal/adguardcompat/compatibility.go:71-77 IsProvisionallyCompatible *)
Definition IsProvisionallyCompatible (version : string) : bool :=
  if negb (Compatibility version =?? CompatibilitySupported) then false
  else match parse version with
  | Some v =>
      negb ((major v =?? "0") && (minor v =?? "107") &&
            ((patch v =?? "78") || (patch v =?? "79")) && (prerelease v =?? ""))
  | None => true
  end.
End compat.

(** ** The order on decimal components *)

Definition digit_value (c : ascii) : Z := byte_of c - 48.

Fixpoint decimal_value (s : string) : Z :=
  match s with
  | EmptyString => 0
  | String c s' => digit_value c * 10 ^ len s' + decimal_value s'
  end.

Lemma len_cons c s : len (String c s) = len s + 1.
Proof. unfold len. cbn [String.length]. lia. Qed.

Lemma digit_value_range c : is_digit c = true → 0 <= digit_value c <= 9.
Proof. unfold is_digit, digit_value. intros H. bool_simp. lia. Qed.

Lemma decimal_value_range s : string_forall is_digit s = true →
  0 <= decimal_value s < 10 ^ len s.
Proof.
  induction s as [|c s IH]; [unfold len; cbn -[Z.pow]; change (10 ^ 0) with 1; lia|]. cbn [string_forall decimal_value].
  intros [Hc Hs]%andb_true_iff. specialize (IH Hs). apply digit_value_range in Hc.
  pose proof (len_nonneg s). rewrite len_cons, Z.pow_add_r, Z.pow_1_r by lia. nia.
Qed.

Lemma is_numeric_digits s : is_numeric s = true → string_forall is_digit s = true.
Proof.
  destruct s as [|c [|d s]]; [done|cbn; by intros ->|].
  cbn [is_numeric string_forall]. intros H. bool_simp.
  repeat match goal with H : _ = true |- _ => rewrite H; clear H end. done.
Qed.

(** A numeral of two digits or more does not begin with a zero. *)
Lemma is_numeric_low s : is_numeric s = true → 1 < len s → 10 ^ (len s - 1) <= decimal_value s.
Proof.
  intros H Hl. pose proof (is_numeric_digits s H) as D.
  destruct s as [|c [|d s]]; [done|unfold len in Hl; cbn in Hl; lia|].
  cbn [is_numeric] in H. bool_simp. rewrite len_cons in *.
  replace (len (String d s) + 1 - 1) with (len (String d s)) by lia.
  cbn [decimal_value]. fold (decimal_value (String d s)).
  cbn [string_forall] in D. apply andb_true_iff in D as [_ D].
  pose proof (decimal_value_range (String d s) D) as B. cbn [decimal_value] in B.
  assert (1 <= digit_value c).
  { unfold digit_value. match goal with H : is_digit c = true |- _ =>
      unfold is_digit in H; bool_simp; lia end. }
  nia.
Qed.

Lemma ltb_cons c s d t : String.ltb (String c s) (String d t) =
  if byte_of c =? byte_of d then String.ltb s t else byte_of c <? byte_of d.
Proof.
  unfold String.ltb. cbn [String.compare]. unfold Ascii.compare, byte_of.
  destruct (N.compare_spec (N_of_ascii c) (N_of_ascii d)) as [E|L|G].
  - rewrite E, Z.eqb_refl. done.
  - replace (Z.of_N (N_of_ascii c) =? Z.of_N (N_of_ascii d)) with false by lia.
    symmetry. apply Z.ltb_lt. lia.
  - replace (Z.of_N (N_of_ascii c) =? Z.of_N (N_of_ascii d)) with false by lia.
    symmetry. apply Z.ltb_ge. lia.
Qed.

Lemma ltb_same_length s t : string_forall is_digit s = true → string_forall is_digit t = true →
  len s = len t → String.ltb s t = (decimal_value s <? decimal_value t).
Proof.
  revert t. induction s as [|c s IH]; intros [|d t] Hs Ht Hl; rewrite ?len_cons in Hl;
    [done|pose proof (len_nonneg t); change (len "") with 0 in Hl; lia|pose proof (len_nonneg s); change (len "") with 0 in Hl; lia|].
  cbn in Hs, Ht. apply andb_true_iff in Hs as [Hc Hs], Ht as [Hd Ht].
  rewrite ltb_cons. cbn [decimal_value].
  pose proof (decimal_value_range s Hs). pose proof (decimal_value_range t Ht).
  assert (len s = len t) as E by lia. rewrite E in H, IH |- *.
  destruct (byte_of c =? byte_of d) eqn:Ecd.
  - bool_simp. rewrite (IH t Hs Ht) by done. unfold digit_value. rewrite Ecd.
    destruct (decimal_value s <? decimal_value t) eqn:L; symmetry;
      [apply Z.ltb_lt|apply Z.ltb_ge]; bool_simp; lia.
  - destruct (byte_of c <? byte_of d) eqn:L; symmetry;
      [apply Z.ltb_lt|apply Z.ltb_ge]; bool_simp; unfold digit_value; nia.
Qed.

(** Comparing lengths and then bytes orders canonical numerals by value, with no
    bound on their size. *)
Lemma decimalLess_value left right :
  is_numeric left = true → is_numeric right = true →
  decimalLess left right = (decimal_value left <? decimal_value right).
Proof.
  intros Hl Hr. pose proof (is_numeric_digits _ Hl) as Dl.
  pose proof (is_numeric_digits _ Hr) as Dr. unfold decimalLess.
  destruct (len left =? len right) eqn:E; cbn [negb]; bool_simp; [by apply ltb_same_length|].
  assert (Hpos : ∀ s, is_numeric s = true → 1 <= len s).
  { intros [|c s] H; [done|]. rewrite len_cons. pose proof (len_nonneg s). lia. }
  pose proof (Hpos _ Hl). pose proof (Hpos _ Hr).
  pose proof (decimal_value_range _ Dl). pose proof (decimal_value_range _ Dr).
  destruct (len left <? len right) eqn:L; symmetry; [apply Z.ltb_lt|apply Z.ltb_ge]; bool_simp.
  - pose proof (is_numeric_low _ Hr ltac:(lia)).
    pose proof (Z.pow_le_mono_r 10 (len left) (len right - 1)). lia.
  - pose proof (is_numeric_low _ Hl ltac:(lia)).
    pose proof (Z.pow_le_mono_r 10 (len right) (len left - 1)). lia.
Qed.

Lemma decimal_value_inj left right :
  is_numeric left = true → is_numeric right = true →
  decimal_value left = decimal_value right → left = right.
Proof.
  intros Hl Hr E.
  assert (len left = len right) as El.
  { pose proof (decimalLess_value _ _ Hl Hr) as A. pose proof (decimalLess_value _ _ Hr Hl) as B.
    unfold decimalLess in A, B. rewrite (Z.eqb_sym (len right)) in B.
    destruct (len left =? len right) eqn:Q; bool_simp; [done|]. cbn [negb] in A, B.
    rewrite E, Z.ltb_irrefl in A, B. bool_simp. lia. }
  apply ltb_total; rewrite ltb_same_length; auto using is_numeric_digits;
    rewrite ?E; apply Z.ltb_irrefl.
Qed.

(** ** The managed range *)

(** A parsed release as numbers, with the flag of a prerelease. *)
Definition release_number (v : productVersion) : Z * Z * Z * bool :=
  (decimal_value (major v), decimal_value (minor v), decimal_value (patch v),
   negb (prerelease v =?? "")).

(** The documented range: 0.107.78 and later of 0.x, and every 1.x. *)
Definition in_managed_range (n : Z * Z * Z * bool) : Prop :=
  let '(a, b, c, pre) := n in
  a = 1 ∨ (a = 0 ∧ (107 < b ∨ (b = 107 ∧ (78 < c ∨ (c = 78 ∧ pre = false))))).

Lemma versionPattern_numeric s v : versionPattern s = Some v →
  is_numeric (major v) = true ∧ is_numeric (minor v) = true ∧ is_numeric (patch v) = true.
Proof.
  unfold versionPattern. destruct (Cut (TrimPrefix s "v") "+") as [rest build].
  destruct (Cut rest "-") as [core pre]. destruct (Split core ".") as [|a [|b [|c [|]]]]; try done.
  destruct (_ && _) eqn:E; [|done]. intros [= <-]. bool_simp. done.
Qed.

Lemma numeral_eqb s t : is_numeric s = true → is_numeric t = true →
  (s =?? t) = (decimal_value s =? decimal_value t).
Proof.
  intros Hs Ht. destruct (decimal_value s =? decimal_value t) eqn:E; bool_simp.
  - apply bool_decide_eq_true. by apply decimal_value_inj.
  - apply bool_decide_eq_false. by intros ->.
Qed.

(** A version is supported exactly when it parses and lies in the documented
    range, whatever the size of its components. *)
Theorem Compatibility_supported {R : Runtime} version :
  Compatibility version = CompatibilitySupported ↔
  ∃ v, parse version = Some v ∧ in_managed_range (release_number v).
Proof.
  unfold Compatibility. destruct (parse version) as [v|] eqn:P.
  2: { split; [by vm_compute|]. by intros (v & ? & _). }
  destruct (versionPattern_numeric _ _ P) as (Ha & Hb & Hc).
  transitivity (in_managed_range (release_number v)); [|by split; [eauto|intros (? & [= ->] & ?)]].
  unfold in_managed_range, release_number.
  rewrite !(numeral_eqb (major v)), !(numeral_eqb (minor v)), !(numeral_eqb (patch v)) by done.
  rewrite !decimalLess_value by done.
  change (decimal_value "0") with 0. change (decimal_value "1") with 1.
  change (decimal_value "107") with 107. change (decimal_value "78") with 78.
  assert (CompatibilityUnknown ≠ CompatibilitySupported) by done.
  assert (CompatibilityUnsupported ≠ CompatibilitySupported) by done.
  destruct (decimal_value (major v) =? 0) eqn:E0, (decimal_value (major v) =? 1) eqn:E1; cbn [negb andb];
    bool_simp; try (split; [done|lia]); try lia.
  - destruct (decimal_value (minor v) <? 107) eqn:E2, (decimal_value (minor v) =? 107) eqn:E3,
      (decimal_value (patch v) <? 78) eqn:E4, (decimal_value (patch v) =? 78) eqn:E5,
      (negb (prerelease v =?? "")) eqn:E6; cbn [orb andb]; apply Z.ltb_lt in E2 || apply Z.ltb_ge in E2;
      clear E6; bool_simp; split; intros; try done; try lia;
      intuition (try lia; try congruence).
  - split; [lia|done].
Qed.
