(* ===== verification/Configuration.v ===== *)
(** * internal/configuration/model.go: documents and their canonical form

    The desired and observed configuration documents, the canonicalisation both
    go through before they are compared, hashed, stored or applied, the
    projection of the cluster intent to one node and the read adapter of legacy
    records.  Go's aliasing (canonicalisation writes through shared slices) is
    not modelled: every function returns the canonical value.  A nil map is the
    empty map; a nil slice is [None]. *)

From S2P Require Import Prelude GoRuntime Json Domain.

(** ** Documents *)

(* src/internal/configuration/model.go:50-78 DNS *)
Record DNS := mkDNS {
  DNS_UpstreamDNS : slice string;
  DNS_BootstrapDNS : slice string;
  DNS_FallbackDNS : slice string;
  DNS_PrivateReverseDNS : slice string;
  DNS_ProtectionEnabled : bool;
  DNS_RateLimit : Z;
  DNS_RateLimitIPv4 : Z;
  DNS_RateLimitIPv6 : Z;
  DNS_RateLimitAllowlist : slice string;
  DNS_BlockingMode : string;
  DNS_BlockingIPv4 : string;
  DNS_BlockingIPv6 : string;
  DNS_BlockedResponseTTL : Z;
  DNS_EDNSClientSubnet : bool;
  DNS_EDNSUseCustom : bool;
  DNS_EDNSCustomIP : string;
  DNS_DisableIPv6 : bool;
  DNS_DNSSECEnabled : bool;
  DNS_CacheSize : Z;
  DNS_CacheEnabled : bool;
  DNS_CacheTTLMin : Z;
  DNS_CacheTTLMax : Z;
  DNS_CacheOptimistic : bool;
  DNS_UpstreamMode : string;
  DNS_UsePrivateReverse : bool;
  DNS_ResolveClients : bool;
  DNS_UpstreamTimeout : Z
}.

(* src/internal/configuration/model.go:80-86 Filtering *)
Record Filtering := mkFiltering {
  Filtering_Enabled : bool;
  Filtering_UpdateInterval : Z;
  Filtering_FilterURLs : slice string;
  Filtering_WhitelistURLs : slice string;
  Filtering_UserRules : slice string
}.

(* src/internal/configuration/model.go:88-97 SafeSearch *)
Record SafeSearch := mkSafeSearch {
  SafeSearch_Enabled : bool;
  SafeSearch_Bing : bool;
  SafeSearch_DuckDuckGo : bool;
  SafeSearch_Ecosia : bool;
  SafeSearch_Google : bool;
  SafeSearch_Pixabay : bool;
  SafeSearch_Yandex : bool;
  SafeSearch_YouTube : bool
}.

(* src/internal/configuration/model.go:124-127 DayRange *)
Record DayRange := mkDayRange {
  DayRange_Start : Z;
  DayRange_End : Z
}.

(* src/internal/configuration/model.go:129-132 Schedule *)
Record Schedule := mkSchedule {
  Schedule_TimeZone : string;
  Schedule_Days : gmap string DayRange
}.

(* src/internal/configuration/model.go:99-116 PersistentClient *)
Record PersistentClient := mkPersistentClient {
  PersistentClient_Name : string;
  PersistentClient_IDs : slice string;
  PersistentClient_UseGlobalSettings : bool;
  PersistentClient_FilteringEnabled : bool;
  PersistentClient_ParentalEnabled : bool;
  PersistentClient_SafeBrowsingEnabled : bool;
  PersistentClient_SafeSearch : SafeSearch;
  PersistentClient_UseGlobalBlockedServices : bool;
  PersistentClient_BlockedServices : slice string;
  PersistentClient_BlockedServicesSchedule : Schedule;
  PersistentClient_Upstreams : slice string;
  PersistentClient_UpstreamsCacheEnabled : bool;
  PersistentClient_UpstreamsCacheSize : Z;
  PersistentClient_Tags : slice string;
  PersistentClient_IgnoreQueryLog : bool;
  PersistentClient_IgnoreStatistics : bool
}.

(* src/internal/configuration/model.go:118-122 Rewrite *)
Record Rewrite := mkRewrite {
  Rewrite_Domain : string;
  Rewrite_Answer : string;
  Rewrite_Enabled : bool
}.

(* src/internal/configuration/model.go:134-140 Services *)
Record Services := mkServices {
  Services_BlockedServiceIDs : slice string;
  Services_BlockedSchedule : Schedule;
  Services_SafeBrowsing : bool;
  Services_ParentalControl : bool;
  Services_SafeSearch : SafeSearch
}.

(* src/internal/configuration/model.go:142-148 QueryLogPolicy *)
Record QueryLogPolicy := mkQueryLogPolicy {
  QueryLogPolicy_Enabled : bool;
  QueryLogPolicy_IntervalMillis : Z;
  QueryLogPolicy_AnonymizeClientIP : bool;
  QueryLogPolicy_Ignored : slice string;
  QueryLogPolicy_IgnoredEnabled : bool
}.

(* src/internal/configuration/model.go:150-155 StatisticsPolicy *)
Record StatisticsPolicy := mkStatisticsPolicy {
  StatisticsPolicy_Enabled : bool;
  StatisticsPolicy_IntervalMillis : Z;
  StatisticsPolicy_Ignored : slice string;
  StatisticsPolicy_IgnoredEnabled : bool
}.

(* src/internal/configuration/model.go:39-48 Shared *)
Record Shared := mkShared {
  Shared_DNS : DNS;
  Shared_Filtering : Filtering;
  Shared_Clients : slice PersistentClient;
  Shared_RewritesEnabled : bool;
  Shared_Rewrites : slice Rewrite;
  Shared_Services : Services;
  Shared_QueryLog : QueryLogPolicy;
  Shared_Statistics : StatisticsPolicy
}.

(* src/internal/configuration/model.go:191-195 DHCPStaticLease *)
Record DHCPStaticLease := mkDHCPStaticLease {
  DHCPStaticLease_MAC : string;
  DHCPStaticLease_IP : string;
  DHCPStaticLease_Hostname : string
}.

(* src/internal/configuration/model.go:178-184 DHCPIPv4 *)
Record DHCPIPv4 := mkDHCPIPv4 {
  DHCPIPv4_Gateway : string;
  DHCPIPv4_SubnetMask : string;
  DHCPIPv4_RangeStart : string;
  DHCPIPv4_RangeEnd : string;
  DHCPIPv4_LeaseDuration : Z
}.

(* src/internal/configuration/model.go:186-189 DHCPIPv6 *)
Record DHCPIPv6 := mkDHCPIPv6 {
  DHCPIPv6_RangeStart : string;
  DHCPIPv6_LeaseDuration : Z
}.

(* src/internal/configuration/model.go:170-176 DHCPConfig *)
Record DHCPConfig := mkDHCPConfig {
  DHCPConfig_Enabled : bool;
  DHCPConfig_InterfaceName : string;
  DHCPConfig_IPv4 : DHCPIPv4;
  DHCPConfig_IPv6 : DHCPIPv6;
  DHCPConfig_StaticLeases : slice DHCPStaticLease
}.

(* src/internal/configuration/model.go:157-161 NodeSpecific *)
Record NodeSpecific := mkNodeSpecific {
  NodeSpecific_BindHosts : slice string;
  NodeSpecific_DNSPort : Z;
  NodeSpecific_DHCP : option DHCPConfig
}.

(* src/internal/configuration/model.go:204-222 TLSStatus *)
Record TLSStatus := mkTLSStatus {
  TLSStatus_Enabled : bool;
  TLSStatus_ServerName : string;
  TLSStatus_ForceHTTPS : bool;
  TLSStatus_HTTPSPort : Z;
  TLSStatus_DNSOverTLSPort : Z;
  TLSStatus_DNSOverQUICPort : Z;
  TLSStatus_ServePlainDNS : bool;
  TLSStatus_ValidCertificate : bool;
  TLSStatus_ValidChain : bool;
  TLSStatus_ValidKey : bool;
  TLSStatus_ValidPair : bool;
  TLSStatus_Subject : string;
  TLSStatus_Issuer : string;
  TLSStatus_NotBefore : string;
  TLSStatus_NotAfter : string;
  TLSStatus_DNSNames : slice string;
  TLSStatus_Warning : string
}.

(* src/internal/configuration/model.go:197-202 DHCPLease *)
Record DHCPLease := mkDHCPLease {
  DHCPLease_MAC : string;
  DHCPLease_IP : string;
  DHCPLease_Hostname : string;
  DHCPLease_ExpiresAt : string
}.

(* src/internal/configuration/model.go:163-168 ObservedOnly *)
Record ObservedOnly := mkObservedOnly {
  ObservedOnly_ProductVersion : string;
  ObservedOnly_ProtectionDisabledUntil : string;
  ObservedOnly_TLS : TLSStatus;
  ObservedOnly_DHCPLeases : slice DHCPLease
}.

(* src/internal/configuration/model.go:224-227 Unsupported *)
Record Unsupported := mkUnsupported {
  Unsupported_Section : string;
  Unsupported_Reason : string
}.

(* src/internal/configuration/model.go:21-27 Document *)
Record Document := mkDocument {
  Document_SchemaVersion : Z;
  Document_Shared : Shared;
  Document_NodeSpecific : NodeSpecific;
  Document_ObservedOnly : ObservedOnly;
  Document_Unsupported : slice Unsupported
}.

(* src/internal/configuration/model.go:32-37 DesiredDocument *)
Record DesiredDocument := mkDesiredDocument {
  DesiredDocument_SchemaVersion : Z;
  DesiredDocument_Shared : Shared;
  DesiredDocument_NodeOverrides : gmap string NodeSpecific;
  DesiredDocument_Unsupported : slice Unsupported
}.

(* src/internal/configuration/model.go:238-245 Difference *)
Record Difference := mkDifference {
  Difference_Section : string;
  Difference_Field : string;
  Difference_Scope : string;
  Difference_Left : json;
  Difference_Right : json;
  Difference_Summary : string
}.

(* src/internal/configuration/model.go:500-503 ValidationIssue *)
Record ValidationIssue := mkValidationIssue {
  ValidationIssue_Field : string;
  ValidationIssue_Message : string
}.

(* src/internal/configuration/model.go:17-17 LegacySchemaVersion *)
Definition LegacySchemaVersion : Z := 1.
(* src/internal/configuration/model.go:18-18 SchemaVersion *)
Definition SchemaVersion : Z := 2.
(* src/internal/configuration/model.go:232-232 SharedManaged *)
Definition SharedManaged : string := "shared_managed".
(* src/internal/configuration/model.go:233-233 NodeManaged *)
Definition NodeManaged : string := "node_specific_managed".
(* src/internal/configuration/model.go:234-234 Observed *)
Definition Observed : string := "observed_only".
(* src/internal/configuration/model.go:235-235 UnsupportedField *)
Definition UnsupportedField : string := "unsupported".
(* src/internal/configuration/model.go:348-348 legacyMigrationSection *)
Definition legacyMigrationSection : string := "legacy_schema1".

(** Zero values of the structs, for the literals that leave fields out. *)
Definition zero_DNS : DNS :=
  mkDNS None None None None false 0 0 0 None "" "" "" 0 false false "" false false 0 false
        0 0 false "" false false 0.
Definition zero_Filtering : Filtering := mkFiltering false 0 None None None.
Definition zero_SafeSearch : SafeSearch :=
  mkSafeSearch false false false false false false false false.
Definition zero_Schedule : Schedule := mkSchedule "" ∅.
Definition zero_Services : Services := mkServices None zero_Schedule false false zero_SafeSearch.
Definition zero_QueryLogPolicy : QueryLogPolicy := mkQueryLogPolicy false 0 false None false.
Definition zero_StatisticsPolicy : StatisticsPolicy := mkStatisticsPolicy false 0 None false.
Definition zero_Shared : Shared :=
  mkShared zero_DNS zero_Filtering None false None zero_Services zero_QueryLogPolicy
           zero_StatisticsPolicy.
Definition zero_NodeSpecific : NodeSpecific := mkNodeSpecific None 0 None.
Definition zero_TLSStatus : TLSStatus :=
  mkTLSStatus false "" false 0 0 0 false false false false false "" "" "" "" None "".
Definition zero_ObservedOnly : ObservedOnly := mkObservedOnly "" "" zero_TLSStatus None.

Section canonical.
Context {R : Runtime}.

(** ** Lists of strings *)

(* src/internal/configuration/model.go:776-787 cleanOrdered *)
Definition cleanOrdered (values : slice string) : slice string :=
  Some (omap (λ value, let value := TrimSpace value in
                       if negb (value =?? "") then Some value else None) (elems values)).

(** The deduplicating pass of [cleanSet]: the first spelling of a key is kept. *)
Fixpoint clean_pass (seen : gset string) (values : list string) : list string :=
  match values with
  | [] => []
  | value :: rest =>
      let value := TrimSpace value in
      if value =?? "" then clean_pass seen rest
      else
        let key := ToLower value in
        if bool_decide (key ∈ seen) then clean_pass seen rest
        else value :: clean_pass ({[key]} ∪ seen) rest
  end.

Definition lower_less (s t : string) : bool := String.ltb (ToLower s) (ToLower t).

(* src/internal/configuration/model.go:789-808 cleanSet *)
Definition cleanSet (values : slice string) : slice string :=
  Some (sort_Slice lower_less (clean_pass ∅ (elems values))).

(* src/internal/configuration/model.go:810-816 canonicalSchedule *)
Definition canonicalSchedule (s : Schedule) : Schedule :=
  mkSchedule (TrimSpace (Schedule_TimeZone s)) (Schedule_Days s).

Definition canonical_lease (l : DHCPStaticLease) : DHCPStaticLease :=
  mkDHCPStaticLease (ToLower (TrimSpace (DHCPStaticLease_MAC l)))
    (TrimSpace (DHCPStaticLease_IP l)) (TrimSpace (DHCPStaticLease_Hostname l)).

Definition lease_less (a b : DHCPStaticLease) : bool :=
  String.ltb (DHCPStaticLease_MAC a) (DHCPStaticLease_MAC b).

(* src/internal/configuration/model.go:818-826 canonicaliseDHCP *)
Definition canonicaliseDHCP (config : DHCPConfig) : DHCPConfig :=
  mkDHCPConfig (DHCPConfig_Enabled config) (TrimSpace (DHCPConfig_InterfaceName config))
    (DHCPConfig_IPv4 config) (DHCPConfig_IPv6 config)
    ((λ leases, sort_Slice lease_less (canonical_lease <$> leases)) <$>
       DHCPConfig_StaticLeases config).

(** ** Documents *)

(* src/internal/configuration/model.go:256-263 Canonicalise *)
Definition canonical_DNS (d : DNS) : DNS := {|
  DNS_UpstreamDNS := cleanOrdered (DNS_UpstreamDNS d);
  DNS_BootstrapDNS := cleanSet (DNS_BootstrapDNS d);
  DNS_FallbackDNS := cleanOrdered (DNS_FallbackDNS d);
  DNS_PrivateReverseDNS := cleanSet (DNS_PrivateReverseDNS d);
  DNS_ProtectionEnabled := DNS_ProtectionEnabled d;
  DNS_RateLimit := DNS_RateLimit d;
  DNS_RateLimitIPv4 := DNS_RateLimitIPv4 d;
  DNS_RateLimitIPv6 := DNS_RateLimitIPv6 d;
  DNS_RateLimitAllowlist := cleanSet (DNS_RateLimitAllowlist d);
  DNS_BlockingMode := TrimSpace (DNS_BlockingMode d);
  DNS_BlockingIPv4 := DNS_BlockingIPv4 d;
  DNS_BlockingIPv6 := DNS_BlockingIPv6 d;
  DNS_BlockedResponseTTL := DNS_BlockedResponseTTL d;
  DNS_EDNSClientSubnet := DNS_EDNSClientSubnet d;
  DNS_EDNSUseCustom := DNS_EDNSUseCustom d;
  DNS_EDNSCustomIP := TrimSpace (DNS_EDNSCustomIP d);
  DNS_DisableIPv6 := DNS_DisableIPv6 d;
  DNS_DNSSECEnabled := DNS_DNSSECEnabled d;
  DNS_CacheSize := DNS_CacheSize d;
  DNS_CacheEnabled := DNS_CacheEnabled d;
  DNS_CacheTTLMin := DNS_CacheTTLMin d;
  DNS_CacheTTLMax := DNS_CacheTTLMax d;
  DNS_CacheOptimistic := DNS_CacheOptimistic d;
  DNS_UpstreamMode := TrimSpace (DNS_UpstreamMode d);
  DNS_UsePrivateReverse := DNS_UsePrivateReverse d;
  DNS_ResolveClients := DNS_ResolveClients d;
  DNS_UpstreamTimeout := DNS_UpstreamTimeout d
|}.

(* src/internal/configuration/model.go:264-266 Canonicalise *)
Definition canonical_Filtering (f : Filtering) : Filtering :=
  mkFiltering (Filtering_Enabled f) (Filtering_UpdateInterval f)
    (cleanSet (Filtering_FilterURLs f)) (cleanSet (Filtering_WhitelistURLs f))
    (cleanOrdered (Filtering_UserRules f)).

(* src/internal/configuration/model.go:268-274 Canonicalise *)
Definition canonical_client (c : PersistentClient) : PersistentClient := {|
  PersistentClient_Name := TrimSpace (PersistentClient_Name c);
  PersistentClient_IDs := cleanSet (PersistentClient_IDs c);
  PersistentClient_UseGlobalSettings := PersistentClient_UseGlobalSettings c;
  PersistentClient_FilteringEnabled := PersistentClient_FilteringEnabled c;
  PersistentClient_ParentalEnabled := PersistentClient_ParentalEnabled c;
  PersistentClient_SafeBrowsingEnabled := PersistentClient_SafeBrowsingEnabled c;
  PersistentClient_SafeSearch := PersistentClient_SafeSearch c;
  PersistentClient_UseGlobalBlockedServices := PersistentClient_UseGlobalBlockedServices c;
  PersistentClient_BlockedServices := cleanSet (PersistentClient_BlockedServices c);
  PersistentClient_BlockedServicesSchedule :=
    canonicalSchedule (PersistentClient_BlockedServicesSchedule c);
  PersistentClient_Upstreams := cleanOrdered (PersistentClient_Upstreams c);
  PersistentClient_UpstreamsCacheEnabled := PersistentClient_UpstreamsCacheEnabled c;
  PersistentClient_UpstreamsCacheSize := PersistentClient_UpstreamsCacheSize c;
  PersistentClient_Tags := cleanSet (PersistentClient_Tags c);
  PersistentClient_IgnoreQueryLog := PersistentClient_IgnoreQueryLog c;
  PersistentClient_IgnoreStatistics := PersistentClient_IgnoreStatistics c
|}.

(* src/internal/configuration/model.go:276-278 Canonicalise *)
Definition client_less (a b : PersistentClient) : bool :=
  lower_less (PersistentClient_Name a) (PersistentClient_Name b).

(* src/internal/configuration/model.go:279-282 Canonicalise *)
Definition canonical_rewrite (r : Rewrite) : Rewrite :=
  mkRewrite (TrimSpace (Rewrite_Domain r)) (TrimSpace (Rewrite_Answer r)) (Rewrite_Enabled r).

(* src/internal/configuration/model.go:283-288 Canonicalise *)
Definition rewrite_less (a b : Rewrite) : bool :=
  if EqualFold (Rewrite_Domain a) (Rewrite_Domain b)
  then lower_less (Rewrite_Answer a) (Rewrite_Answer b)
  else lower_less (Rewrite_Domain a) (Rewrite_Domain b).

(* src/internal/configuration/model.go:289-290 Canonicalise *)
Definition canonical_Services (s : Services) : Services :=
  mkServices (cleanSet (Services_BlockedServiceIDs s))
    (canonicalSchedule (Services_BlockedSchedule s)) (Services_SafeBrowsing s)
    (Services_ParentalControl s) (Services_SafeSearch s).

(* src/internal/configuration/model.go:256-292 Canonicalise *)
Definition canonical_Shared (s : Shared) : Shared := {|
  Shared_DNS := canonical_DNS (Shared_DNS s);
  Shared_Filtering := canonical_Filtering (Shared_Filtering s);
  Shared_Clients :=
    (λ clients, sort_Slice client_less (canonical_client <$> clients)) <$> Shared_Clients s;
  Shared_RewritesEnabled := Shared_RewritesEnabled s;
  Shared_Rewrites :=
    (λ rewrites, sort_Slice rewrite_less (canonical_rewrite <$> rewrites)) <$> Shared_Rewrites s;
  Shared_Services := canonical_Services (Shared_Services s);
  Shared_QueryLog :=
    mkQueryLogPolicy (QueryLogPolicy_Enabled (Shared_QueryLog s))
      (QueryLogPolicy_IntervalMillis (Shared_QueryLog s))
      (QueryLogPolicy_AnonymizeClientIP (Shared_QueryLog s))
      (cleanSet (QueryLogPolicy_Ignored (Shared_QueryLog s)))
      (QueryLogPolicy_IgnoredEnabled (Shared_QueryLog s));
  Shared_Statistics :=
    mkStatisticsPolicy (StatisticsPolicy_Enabled (Shared_Statistics s))
      (StatisticsPolicy_IntervalMillis (Shared_Statistics s))
      (cleanSet (StatisticsPolicy_Ignored (Shared_Statistics s)))
      (StatisticsPolicy_IgnoredEnabled (Shared_Statistics s))
|}.

(* src/internal/configuration/model.go:293-296 Canonicalise *)
Definition canonical_NodeSpecific (n : NodeSpecific) : NodeSpecific :=
  mkNodeSpecific (cleanSet (NodeSpecific_BindHosts n)) (NodeSpecific_DNSPort n)
    (canonicaliseDHCP <$> NodeSpecific_DHCP n).

(* src/internal/configuration/model.go:297-300 Canonicalise *)
Definition canonical_ObservedOnly (o : ObservedOnly) : ObservedOnly :=
  let t := ObservedOnly_TLS o in
  mkObservedOnly (ObservedOnly_ProductVersion o) (ObservedOnly_ProtectionDisabledUntil o)
    (mkTLSStatus (TLSStatus_Enabled t) (TLSStatus_ServerName t) (TLSStatus_ForceHTTPS t)
      (TLSStatus_HTTPSPort t) (TLSStatus_DNSOverTLSPort t) (TLSStatus_DNSOverQUICPort t)
      (TLSStatus_ServePlainDNS t) (TLSStatus_ValidCertificate t) (TLSStatus_ValidChain t)
      (TLSStatus_ValidKey t) (TLSStatus_ValidPair t) (TLSStatus_Subject t) (TLSStatus_Issuer t)
      (TLSStatus_NotBefore t) (TLSStatus_NotAfter t) (cleanSet (TLSStatus_DNSNames t))
      (TLSStatus_Warning t))
    (Some (elems (ObservedOnly_DHCPLeases o))).

(* src/internal/configuration/model.go:301-306 Canonicalise *)
Definition unsupported_less (a b : Unsupported) : bool :=
  if Unsupported_Section a =?? Unsupported_Section b
  then String.ltb (Unsupported_Reason a) (Unsupported_Reason b)
  else String.ltb (Unsupported_Section a) (Unsupported_Section b).

(* src/internal/configuration/model.go:363-370 IsLegacyConverted *)
Definition IsLegacyConverted (values : slice Unsupported) : bool :=
  existsb (λ value, Unsupported_Section value =?? legacyMigrationSection) (elems values).

Definition legacy_marker : Unsupported :=
  mkUnsupported legacyMigrationSection
    "Imported from a v1.0.x schema-1 record; import and publish a fresh schema-2 revision before deployment".

(* src/internal/configuration/model.go:247-308 Canonicalise *)
Definition Canonicalise (document : Document) : Document :=
  let version := Document_SchemaVersion document in
  let '(version, unsupported) :=
    if version =? 0 then (SchemaVersion, Document_Unsupported document)
    else if version =? LegacySchemaVersion then
      (SchemaVersion,
       if negb (IsLegacyConverted (Document_Unsupported document))
       then Some (elems (Document_Unsupported document) ++ [legacy_marker])
       else Document_Unsupported document)
    else (version, Document_Unsupported document) in
  mkDocument version (canonical_Shared (Document_Shared document))
    (canonical_NodeSpecific (Document_NodeSpecific document))
    (canonical_ObservedOnly (Document_ObservedOnly document))
    (sort_Slice unsupported_less <$> unsupported).

(* src/internal/configuration/model.go:310-327 CanonicaliseDesired *)
Definition CanonicaliseDesired (document : DesiredDocument) : DesiredDocument :=
  let version := if DesiredDocument_SchemaVersion document =? 0 then SchemaVersion
                 else DesiredDocument_SchemaVersion document in
  let observed := Canonicalise (mkDocument version (DesiredDocument_Shared document)
                    zero_NodeSpecific zero_ObservedOnly (DesiredDocument_Unsupported document)) in
  mkDesiredDocument (Document_SchemaVersion observed) (Document_Shared observed)
    (canonical_NodeSpecific <$> DesiredDocument_NodeOverrides document)
    (Document_Unsupported observed).

(* src/internal/configuration/model.go:329-337 DesiredFromObservation *)
Definition DesiredFromObservation (nodeID : string) (document : Document) : DesiredDocument :=
  CanonicaliseDesired (mkDesiredDocument SchemaVersion (Document_Shared document)
    {[nodeID := Document_NodeSpecific document]} (Document_Unsupported document)).

(* src/internal/configuration/model.go:342-346 ProjectDocument *)
Definition ProjectDocument (document : Document) (_ : Z) : Document :=
  let document := Canonicalise document in
  mkDocument SchemaVersion (Document_Shared document) (Document_NodeSpecific document)
    (Document_ObservedOnly document) (Document_Unsupported document).

(* src/internal/configuration/model.go:353-356 ConvertLegacyDocument *)
Definition ConvertLegacyDocument (document : Document) : Document :=
  Canonicalise (mkDocument LegacySchemaVersion (Document_Shared document)
    (Document_NodeSpecific document) (Document_ObservedOnly document)
    (Document_Unsupported document)).

(* src/internal/configuration/model.go:358-361 ConvertLegacyDesired *)
Definition ConvertLegacyDesired (document : DesiredDocument) : DesiredDocument :=
  CanonicaliseDesired (mkDesiredDocument LegacySchemaVersion (DesiredDocument_Shared document)
    (DesiredDocument_NodeOverrides document) (DesiredDocument_Unsupported document)).

(* src/internal/configuration/model.go:372-384 Effective *)
Definition Effective (document : DesiredDocument) (nodeID : string) : res Document :=
  let document := CanonicaliseDesired document in
  match DesiredDocument_NodeOverrides document !! nodeID with
  | None => Err (TextError ("node " +:+ nodeID +:+ " has no desired override"))
  | Some override =>
      Ok (Canonicalise (mkDocument (DesiredDocument_SchemaVersion document)
            (DesiredDocument_Shared document) override zero_ObservedOnly
            (DesiredDocument_Unsupported document)))
  end.
End canonical.

(** ** Canonical lists *)

(** The texts a cleaned list may hold. *)
Definition clean {R : Runtime} (v : string) : Prop := TrimSpace v = v ∧ v ≠ "".

(** [cleaned vs]: what the deduplicating pass leaves unchanged. *)
Definition cleaned {R : Runtime} (vs : list string) : Prop :=
  Forall clean vs ∧ NoDup (ToLower <$> vs).

Section clean_lists.
Context {R : Runtime}.

#[global] Instance StrictWeak_lower : StrictWeak lower_less.
Proof. apply (StrictWeak_key ToLower String.ltb), _. Qed.

Lemma clean_pass_keys seen vs key :
  key ∈ ToLower <$> clean_pass seen vs → key ∉ seen.
Proof.
  revert seen. induction vs as [|v vs IH]; intros seen; [by rewrite list_elem_of_fmap; set_solver|].
  cbn [clean_pass]. case_bool_decide as E; [by apply IH|]. case_bool_decide as S; [by apply IH|].
  rewrite fmap_cons, elem_of_cons. intros [->|Hin]; [done|]. apply IH in Hin. set_solver.
Qed.

Lemma clean_pass_nodup seen vs : NoDup (ToLower <$> clean_pass seen vs).
Proof.
  revert seen. induction vs as [|v vs IH]; intros seen; [constructor|]. cbn [clean_pass].
  case_bool_decide; [done|]. case_bool_decide; [done|]. rewrite fmap_cons. constructor; [|done].
  intros Hin%clean_pass_keys. set_solver.
Qed.

Lemma clean_pass_id seen vs : cleaned vs → (∀ v, v ∈ vs → ToLower v ∉ seen) →
  clean_pass seen vs = vs.
Proof.
  intros [Hc Hn]. revert seen. induction vs as [|v vs IH]; intros seen Hs; [done|].
  apply Forall_cons in Hc as [[Ht Hne] Hc]. rewrite fmap_cons in Hn.
  apply NoDup_cons in Hn as [Hv Hn]. cbn [clean_pass]. rewrite Ht.
  rewrite bool_decide_false by done. rewrite bool_decide_false by (apply Hs; left).
  f_equal. apply IH; [done..|]. intros w Hw.
  assert (ToLower w ≠ ToLower v) by (intros E; apply Hv; rewrite <- E; apply list_elem_of_fmap; eauto).
  pose proof (Hs w ltac:(by right)). set_solver.
Qed.

(** Every non-blank value is represented, up to case and surrounding space. *)
Lemma clean_pass_covers seen vs v : v ∈ vs → TrimSpace v ≠ "" →
  ToLower (TrimSpace v) ∈ seen ∨ ToLower (TrimSpace v) ∈ ToLower <$> clean_pass seen vs.
Proof.
  revert seen. induction vs as [|w vs IH]; intros seen Hv Hne; [by apply not_elem_of_nil in Hv|].
  cbn [clean_pass]. apply elem_of_cons in Hv as [<-|Hv].
  - rewrite bool_decide_false by done. case_bool_decide; [by left|].
    right. rewrite fmap_cons. left.
  - case_bool_decide; [by apply IH|]. case_bool_decide; [by apply IH|].
    rewrite fmap_cons, elem_of_cons.
    destruct (IH ({[ToLower (TrimSpace w)]} ∪ seen) Hv Hne) as [H1|H1]; [|by auto].
    apply elem_of_union in H1 as [->%elem_of_singleton|H1]; auto.
Qed.

Lemma clean_pass_source seen vs v : v ∈ clean_pass seen vs → ∃ w, w ∈ vs ∧ v = TrimSpace w.
Proof.
  revert seen. induction vs as [|w vs IH]; intros seen Hv; [by apply not_elem_of_nil in Hv|].
  cbn [clean_pass] in Hv. repeat case_bool_decide;
    [apply IH in Hv; set_solver..|].
  apply elem_of_cons in Hv as [->|Hv]; [set_solver|]. apply IH in Hv. set_solver.
Qed.

Lemma cleaned_perm vs ws : vs ≡ₚ ws → cleaned vs → cleaned ws.
Proof. intros Hp [Hc Hn]. split; by rewrite <- Hp. Qed.

Lemma lower_less_total_on vs x y : NoDup (ToLower <$> vs) → x ∈ vs → y ∈ vs →
  lower_less x y = false → lower_less y x = false → x = y.
Proof.
  intros Hn Hx Hy H1 H2. assert (E : ToLower x = ToLower y) by (by apply ltb_total).
  apply list_elem_of_lookup in Hx as [i Hi], Hy as [j Hj].
  assert (i = j) as ->.
  { eapply (NoDup_lookup (ToLower <$> vs)); [done|by rewrite list_lookup_fmap, Hi|].
    by rewrite list_lookup_fmap, Hj, E. }
  congruence.
Qed.

Context {L : UnicodeLaws R}.

Lemma clean_pass_cleaned seen vs : cleaned (clean_pass seen vs).
Proof.
  split; [|apply clean_pass_nodup]. revert seen.
  induction vs as [|v vs IH]; intros seen; [constructor|]. cbn [clean_pass].
  case_bool_decide; [done|]. case_bool_decide; [done|]. constructor; [|done].
  split; [apply TrimSpace_idemp|done].
Qed.

Lemma cleaned_sort vs : cleaned vs → cleaned (sort_Slice lower_less vs).
Proof. apply cleaned_perm. by rewrite sort_Slice_perm. Qed.

Lemma cleanSet_idemp values : cleanSet (cleanSet values) = cleanSet values.
Proof.
  unfold cleanSet. cbn [elems]. f_equal. rewrite clean_pass_id.
  - by apply (sort_Slice_idemp lower_less).
  - apply cleaned_sort, clean_pass_cleaned.
  - set_solver.
Qed.

Lemma cleanOrdered_idemp values : cleanOrdered (cleanOrdered values) = cleanOrdered values.
Proof.
  unfold cleanOrdered. cbn [elems]. f_equal. generalize (elems values) as vs.
  induction vs as [|v vs IH]; [done|]. cbn. destruct (negb (TrimSpace v =?? "")) eqn:E; cbn; [|done].
  by rewrite TrimSpace_idemp, E, IH.
Qed.

Lemma canonicalSchedule_idemp s : canonicalSchedule (canonicalSchedule s) = canonicalSchedule s.
Proof. unfold canonicalSchedule. cbn. by rewrite TrimSpace_idemp. Qed.

Lemma canonical_lease_idemp l : canonical_lease (canonical_lease l) = canonical_lease l.
Proof.
  unfold canonical_lease. cbn. rewrite !TrimSpace_idemp, TrimSpace_lower, ToLower_idemp; [done..|].
  apply TrimSpace_idemp.
Qed.

#[global] Instance StrictWeak_lease : StrictWeak lease_less.
Proof. apply (StrictWeak_key DHCPStaticLease_MAC String.ltb), _. Qed.

#[global] Instance StrictWeak_client : StrictWeak client_less.
Proof. apply (StrictWeak_key PersistentClient_Name lower_less), _. Qed.

#[global] Instance StrictWeak_unsupported : StrictWeak unsupported_less.
Proof. apply (StrictWeak_lex Unsupported_Section Unsupported_Reason). Qed.

(** Canonicalising the elements of a sorted canonical list changes nothing. *)
Lemma sort_map_idemp {A} (f : A → A) (less : A → A → bool) (l : list A) {Hsw : StrictWeak less} :
  (∀ x, f (f x) = f x) →
  sort_Slice less (f <$> sort_Slice less (f <$> l)) = sort_Slice less (f <$> l).
Proof.
  intros Hf. assert (f <$> sort_Slice less (f <$> l) = sort_Slice less (f <$> l)) as ->.
  { apply list_eq_Forall2. rewrite <- (list_fmap_id (sort_Slice less (f <$> l))) at 2.
    apply Forall2_fmap, Forall_Forall2_diag, Forall_forall. intros x Hx. cbn.
    apply elem_of_sort_Slice, list_elem_of_fmap in Hx as (y & -> & _). apply Hf. }
  by apply sort_Slice_idemp.
Qed.

Lemma canonicaliseDHCP_idemp c : canonicaliseDHCP (canonicaliseDHCP c) = canonicaliseDHCP c.
Proof.
  unfold canonicaliseDHCP. cbn. rewrite TrimSpace_idemp. f_equal.
  destruct (DHCPConfig_StaticLeases c) as [ls|]; cbn; [|done]. f_equal.
  exact (sort_map_idemp canonical_lease lease_less ls canonical_lease_idemp).
Qed.
End clean_lists.

(** ** Canonical documents *)

(** Host names of rewrites in ASCII, as DNS names are, up to surrounding space. *)
Definition ascii_rewrites {R : Runtime} (s : Shared) : Prop :=
  Forall (λ r, is_ascii (TrimSpace (Rewrite_Domain r)) = true) (elems (Shared_Rewrites s)).

Section canonical_documents.
Context {R : Runtime} {L : UnicodeLaws R}.

Definition rewrite_lex (a b : Rewrite) : bool :=
  if ToLower (Rewrite_Domain a) =?? ToLower (Rewrite_Domain b)
  then String.ltb (ToLower (Rewrite_Answer a)) (ToLower (Rewrite_Answer b))
  else String.ltb (ToLower (Rewrite_Domain a)) (ToLower (Rewrite_Domain b)).

#[local] Instance StrictWeak_rewrite : StrictWeak rewrite_lex.
Proof. apply (StrictWeak_lex (ToLower ∘ Rewrite_Domain) (ToLower ∘ Rewrite_Answer)). Qed.

Lemma EqualFold_ascii s t : is_ascii s = true → is_ascii t = true →
  EqualFold s t = (ToLower s =?? ToLower t).
Proof.
  intros Hs Ht. unfold EqualFold, ToLower. rewrite Hs, Ht. cbn [andb].
  destruct (String.eqb_spec (string_map lower_byte s) (string_map lower_byte t)) as [E|E].
  - by rewrite bool_decide_true.
  - by rewrite bool_decide_false.
Qed.

Lemma rewrite_less_lex a b :
  is_ascii (Rewrite_Domain a) = true → is_ascii (Rewrite_Domain b) = true →
  rewrite_less a b = rewrite_lex a b.
Proof. intros Ha Hb. unfold rewrite_less, rewrite_lex. by rewrite EqualFold_ascii. Qed.

Lemma canonical_rewrite_idemp r : canonical_rewrite (canonical_rewrite r) = canonical_rewrite r.
Proof. unfold canonical_rewrite. cbn. by rewrite !TrimSpace_idemp. Qed.

Lemma canonical_rewrites_ascii rs x :
  Forall (λ r, is_ascii (TrimSpace (Rewrite_Domain r)) = true) rs → x ∈ canonical_rewrite <$> rs →
  is_ascii (Rewrite_Domain x) = true.
Proof.
  rewrite Forall_forall. intros H (r & -> & Hr)%list_elem_of_fmap. cbn.
  by apply H.
Qed.

Lemma sort_rewrites_lex rs : Forall (λ r, is_ascii (TrimSpace (Rewrite_Domain r)) = true) rs →
  sort_Slice rewrite_less (canonical_rewrite <$> rs) =
  sort_Slice rewrite_lex (canonical_rewrite <$> rs).
Proof.
  intros H. apply sort_Slice_agree. intros x y Hx Hy.
  apply rewrite_less_lex; by eapply canonical_rewrites_ascii.
Qed.

Lemma canonical_rewrites_idemp rs : Forall (λ r, is_ascii (TrimSpace (Rewrite_Domain r)) = true) rs →
  sort_Slice rewrite_less (canonical_rewrite <$> sort_Slice rewrite_less (canonical_rewrite <$> rs))
  = sort_Slice rewrite_less (canonical_rewrite <$> rs).
Proof.
  intros H. rewrite (sort_rewrites_lex rs H), sort_rewrites_lex.
  - exact (sort_map_idemp canonical_rewrite rewrite_lex rs canonical_rewrite_idemp).
  - apply Forall_forall. intros x Hx%elem_of_sort_Slice.
    assert (TrimSpace (Rewrite_Domain x) = Rewrite_Domain x) as ->.
    { apply list_elem_of_fmap in Hx as (r & -> & _). apply TrimSpace_idemp. }
    by eapply canonical_rewrites_ascii.
Qed.

Lemma canonical_client_idemp c : canonical_client (canonical_client c) = canonical_client c.
Proof.
  unfold canonical_client. cbn.
  by rewrite TrimSpace_idemp, !cleanSet_idemp, cleanOrdered_idemp, canonicalSchedule_idemp.
Qed.

Lemma canonical_DNS_idemp d : canonical_DNS (canonical_DNS d) = canonical_DNS d.
Proof.
  unfold canonical_DNS. cbn. by rewrite !cleanSet_idemp, !cleanOrdered_idemp, !TrimSpace_idemp.
Qed.

Lemma canonical_Shared_idemp s : ascii_rewrites s →
  canonical_Shared (canonical_Shared s) = canonical_Shared s.
Proof.
  intros Ha. unfold canonical_Shared at 1 3. cbn. f_equal.
  - apply canonical_DNS_idemp.
  - unfold canonical_Filtering. cbn. by rewrite !cleanSet_idemp, cleanOrdered_idemp.
  - destruct (Shared_Clients s) as [cs|]; [|done]. cbn. f_equal.
    exact (sort_map_idemp canonical_client client_less cs canonical_client_idemp).
  - unfold ascii_rewrites in Ha. destruct (Shared_Rewrites s) as [rs|]; [|done]. cbn. f_equal.
    by apply canonical_rewrites_idemp.
  - unfold canonical_Services. cbn. by rewrite cleanSet_idemp, canonicalSchedule_idemp.
  - by rewrite cleanSet_idemp.
  - by rewrite cleanSet_idemp.
Qed.

Lemma canonical_NodeSpecific_idemp n :
  canonical_NodeSpecific (canonical_NodeSpecific n) = canonical_NodeSpecific n.
Proof.
  unfold canonical_NodeSpecific. cbn. rewrite cleanSet_idemp.
  destruct (NodeSpecific_DHCP n); [|done]. cbn. by rewrite canonicaliseDHCP_idemp.
Qed.

Lemma canonical_ObservedOnly_idemp o :
  canonical_ObservedOnly (canonical_ObservedOnly o) = canonical_ObservedOnly o.
Proof. unfold canonical_ObservedOnly. cbn. by rewrite cleanSet_idemp. Qed.

Lemma sort_unsupported_idemp (u : slice Unsupported) :
  sort_Slice unsupported_less <$> (sort_Slice unsupported_less <$> u) =
  sort_Slice unsupported_less <$> u.
Proof. destruct u as [l|]; [|done]. cbn. f_equal. by apply (sort_Slice_idemp unsupported_less). Qed.

Lemma Canonicalise_version d :
  Document_SchemaVersion (Canonicalise d) =
  if (Document_SchemaVersion d =? 0) || (Document_SchemaVersion d =? 1)
  then 2 else Document_SchemaVersion d.
Proof.
  unfold Canonicalise, LegacySchemaVersion, SchemaVersion.
  destruct (Document_SchemaVersion d =? 0) eqn:E0; [done|].
  destruct (Document_SchemaVersion d =? 1) eqn:E1; done.
Qed.

(** A document whose version needs no adaptation is canonicalised part by part. *)
Lemma Canonicalise_current d : Document_SchemaVersion d ≠ 0 → Document_SchemaVersion d ≠ 1 →
  Canonicalise d = mkDocument (Document_SchemaVersion d) (canonical_Shared (Document_Shared d))
    (canonical_NodeSpecific (Document_NodeSpecific d))
    (canonical_ObservedOnly (Document_ObservedOnly d))
    (sort_Slice unsupported_less <$> Document_Unsupported d).
Proof.
  intros H0 H1. unfold Canonicalise, LegacySchemaVersion.
  by rewrite (proj2 (Z.eqb_neq _ _) H0), (proj2 (Z.eqb_neq _ _) H1).
Qed.

Lemma Canonicalise_parts d :
  ∃ u, Canonicalise d = mkDocument (Document_SchemaVersion (Canonicalise d))
    (canonical_Shared (Document_Shared d)) (canonical_NodeSpecific (Document_NodeSpecific d))
    (canonical_ObservedOnly (Document_ObservedOnly d)) (sort_Slice unsupported_less <$> u).
Proof.
  unfold Canonicalise. destruct (Document_SchemaVersion d =? 0); [by eexists|].
  destruct (Document_SchemaVersion d =? LegacySchemaVersion);
    [destruct (negb _)|]; by eexists.
Qed.

Lemma Canonicalise_idemp_version d :
  Document_SchemaVersion (Canonicalise d) ≠ 0 ∧ Document_SchemaVersion (Canonicalise d) ≠ 1.
Proof.
  rewrite Canonicalise_version.
  destruct (Document_SchemaVersion d =? 0) eqn:E0, (Document_SchemaVersion d =? 1) eqn:E1;
    cbn; bool_simp; lia.
Qed.

(** Canonicalisation is idempotent: a stored, hashed or compared document is a
    fixed point, so re-reading it never changes its hash. *)
Theorem Canonicalise_idempotent d : ascii_rewrites (Document_Shared d) →
  Canonicalise (Canonicalise d) = Canonicalise d.
Proof.
  intros Ha. destruct (Canonicalise_idemp_version d) as [H0 H1].
  rewrite (Canonicalise_current _ H0 H1).
  destruct (Canonicalise_parts d) as [u ->]. cbn.
  by rewrite canonical_Shared_idemp, canonical_NodeSpecific_idemp,
    canonical_ObservedOnly_idemp, sort_unsupported_idemp.
Qed.

(** The contract of [cleanSet]: the result is strictly increasing by lower-cased
    key, holds only trimmed non-blank texts of the input, and represents every
    non-blank input up to case. *)
Theorem cleanSet_contract values :
  let result := elems (cleanSet values) in
  StronglySorted (λ x y, lower_less x y = true) result ∧
  Forall clean result ∧
  (∀ v, v ∈ result → ∃ w, w ∈ elems values ∧ v = TrimSpace w) ∧
  (∀ w, w ∈ elems values → TrimSpace w ≠ "" →
     ∃ v, v ∈ result ∧ ToLower v = ToLower (TrimSpace w)).
Proof.
  cbn [cleanSet elems]. set (p := clean_pass ∅ (elems values)). cbv zeta.
  pose proof (cleaned_sort _ (clean_pass_cleaned ∅ (elems values))) as [Hc Hn].
  split_and!; [|done| |].
  - pose proof (sort_Slice_sorted lower_less p) as Hs. fold p in Hn, Hc. clear Hc.
    unfold sorted, not_greater in Hs.
    induction (sort_Slice lower_less p) as [|x l IH]; [constructor|].
    inversion Hs as [|?? Hs' Hf]; subst. rewrite fmap_cons in Hn.
    apply NoDup_cons in Hn as [Hx Hn]. constructor; [by apply IH|].
    rewrite Forall_forall in *. intros y Hy. destruct (lower_less x y) eqn:E; [done|].
    exfalso. apply Hx. apply list_elem_of_fmap. exists y. split; [|done].
    apply ltb_total; [done|by apply Hf].
  - intros v Hv%elem_of_sort_Slice. by eapply clean_pass_source.
  - intros w Hw Hne. destruct (clean_pass_covers ∅ (elems values) w Hw Hne) as [?|Hk]; [set_solver|].
    apply list_elem_of_fmap in Hk as (v & E & Hv). exists v. by rewrite elem_of_sort_Slice.
Qed.

(** A legacy record stays recognisable as such through canonicalisation. *)
Lemma IsLegacyConverted_sort (u : slice Unsupported) :
  IsLegacyConverted (sort_Slice unsupported_less <$> u) = IsLegacyConverted u.
Proof.
  unfold IsLegacyConverted. destruct u as [l|]; [|done]. cbn.
  apply Bool.eq_iff_eq_true. rewrite !existsb_exists.
  split; intros (x & Hx & E); exists x; (split; [|done]); apply list_elem_of_In;
    apply list_elem_of_In in Hx; by apply elem_of_sort_Slice in Hx || apply elem_of_sort_Slice.
Qed.

Lemma Canonicalise_legacy d : Document_SchemaVersion d = 1 →
  IsLegacyConverted (Document_Unsupported (Canonicalise d)) = true.
Proof.
  intros E. unfold Canonicalise, LegacySchemaVersion. rewrite E. cbn.
  rewrite IsLegacyConverted_sort. destruct (IsLegacyConverted (Document_Unsupported d)) eqn:F; [done|].
  cbn. unfold IsLegacyConverted. cbn. rewrite existsb_app. cbn. apply orb_true_r.
Qed.
End canonical_documents.
