(* ===== verification/ConfigDiff.v ===== *)
(** * internal/configuration/model.go: encodings, hashes and differences

    The JSON form of the documents, the canonical hash and the semantic
    comparison.  [Diff] compares the encodings of the canonical values, as the
    code does; its theorems show that the comparison misses no managed field:
    it is empty exactly when the canonical configurations are equal. *)

From S2P Require Import Prelude GoRuntime Json Domain Configuration.

(** ** JSON forms, from the struct tags *)

Definition null {A} (l : list A) : bool := match l with [] => true | _ => false end.
Definition is_nil {A} (p : option A) : bool := match p with None => true | _ => false end.

(* src/internal/configuration/model.go:50-78 DNS *)
Definition json_DNS (x : DNS) : json :=
  JObj ([("upstreamDns", of_strings (DNS_UpstreamDNS x));
    ("bootstrapDns", of_strings (DNS_BootstrapDNS x));
    ("fallbackDns", of_strings (DNS_FallbackDNS x));
    ("privateReverseDns", of_strings (DNS_PrivateReverseDNS x))] ++
    omitempty (negb (DNS_ProtectionEnabled x)) "protectionEnabled" (JBool (DNS_ProtectionEnabled x)) ++
    omitempty (DNS_RateLimit x =? 0) "rateLimit" (JNum (DNS_RateLimit x)) ++
    omitempty (DNS_RateLimitIPv4 x =? 0) "rateLimitSubnetLengthIpv4" (JNum (DNS_RateLimitIPv4 x)) ++
    omitempty (DNS_RateLimitIPv6 x =? 0) "rateLimitSubnetLengthIpv6" (JNum (DNS_RateLimitIPv6 x)) ++
    omitempty (null (elems (DNS_RateLimitAllowlist x))) "rateLimitAllowlist" (of_strings (DNS_RateLimitAllowlist x)) ++
    omitempty (DNS_BlockingMode x =?? "") "blockingMode" (JStr (DNS_BlockingMode x)) ++
    omitempty (DNS_BlockingIPv4 x =?? "") "blockingIpv4" (JStr (DNS_BlockingIPv4 x)) ++
    omitempty (DNS_BlockingIPv6 x =?? "") "blockingIpv6" (JStr (DNS_BlockingIPv6 x)) ++
    omitempty (DNS_BlockedResponseTTL x =? 0) "blockedResponseTtl" (JNum (DNS_BlockedResponseTTL x)) ++
    omitempty (negb (DNS_EDNSClientSubnet x)) "ednsClientSubnet" (JBool (DNS_EDNSClientSubnet x)) ++
    omitempty (negb (DNS_EDNSUseCustom x)) "ednsUseCustom" (JBool (DNS_EDNSUseCustom x)) ++
    omitempty (DNS_EDNSCustomIP x =?? "") "ednsCustomIp" (JStr (DNS_EDNSCustomIP x)) ++
    omitempty (negb (DNS_DisableIPv6 x)) "disableIpv6" (JBool (DNS_DisableIPv6 x)) ++
    omitempty (negb (DNS_DNSSECEnabled x)) "dnssecEnabled" (JBool (DNS_DNSSECEnabled x)) ++
    omitempty (DNS_CacheSize x =? 0) "cacheSize" (JNum (DNS_CacheSize x)) ++
    [("cacheEnabled", JBool (DNS_CacheEnabled x))] ++
    omitempty (DNS_CacheTTLMin x =? 0) "cacheTtlMin" (JNum (DNS_CacheTTLMin x)) ++
    omitempty (DNS_CacheTTLMax x =? 0) "cacheTtlMax" (JNum (DNS_CacheTTLMax x)) ++
    omitempty (negb (DNS_CacheOptimistic x)) "cacheOptimistic" (JBool (DNS_CacheOptimistic x)) ++
    omitempty (DNS_UpstreamMode x =?? "") "upstreamMode" (JStr (DNS_UpstreamMode x)) ++
    omitempty (negb (DNS_UsePrivateReverse x)) "usePrivateReverseResolvers" (JBool (DNS_UsePrivateReverse x)) ++
    omitempty (negb (DNS_ResolveClients x)) "resolveClients" (JBool (DNS_ResolveClients x)) ++
    omitempty (DNS_UpstreamTimeout x =? 0) "upstreamTimeoutSeconds" (JNum (DNS_UpstreamTimeout x))).

(* src/internal/configuration/model.go:80-86 Filtering *)
Definition json_Filtering (x : Filtering) : json :=
  JObj ([("enabled", JBool (Filtering_Enabled x));
    ("updateIntervalHours", JNum (Filtering_UpdateInterval x));
    ("filterUrls", of_strings (Filtering_FilterURLs x));
    ("whitelistUrls", of_strings (Filtering_WhitelistURLs x));
    ("userRules", of_strings (Filtering_UserRules x))]).

(* src/internal/configuration/model.go:88-97 SafeSearch *)
Definition json_SafeSearch (x : SafeSearch) : json :=
  JObj ([("enabled", JBool (SafeSearch_Enabled x));
    ("bing", JBool (SafeSearch_Bing x));
    ("duckDuckGo", JBool (SafeSearch_DuckDuckGo x))] ++
    omitempty (negb (SafeSearch_Ecosia x)) "ecosia" (JBool (SafeSearch_Ecosia x)) ++
    [("google", JBool (SafeSearch_Google x));
    ("pixabay", JBool (SafeSearch_Pixabay x));
    ("yandex", JBool (SafeSearch_Yandex x));
    ("youtube", JBool (SafeSearch_YouTube x))]).

(* src/internal/configuration/model.go:124-127 DayRange *)
Definition json_DayRange (x : DayRange) : json :=
  JObj ([("start", JNum (DayRange_Start x));
    ("end", JNum (DayRange_End x))]).

(* src/internal/configuration/model.go:129-132 Schedule *)
Definition json_Schedule (x : Schedule) : json :=
  JObj ([("timeZone", JStr (Schedule_TimeZone x));
    ("days", of_map json_DayRange (Schedule_Days x))]).

(* src/internal/configuration/model.go:99-116 PersistentClient *)
Definition json_PersistentClient (x : PersistentClient) : json :=
  JObj ([("name", JStr (PersistentClient_Name x));
    ("ids", of_strings (PersistentClient_IDs x));
    ("useGlobalSettings", JBool (PersistentClient_UseGlobalSettings x));
    ("filteringEnabled", JBool (PersistentClient_FilteringEnabled x));
    ("parentalEnabled", JBool (PersistentClient_ParentalEnabled x));
    ("safeBrowsingEnabled", JBool (PersistentClient_SafeBrowsingEnabled x));
    ("safeSearch", json_SafeSearch (PersistentClient_SafeSearch x));
    ("useGlobalBlockedServices", JBool (PersistentClient_UseGlobalBlockedServices x));
    ("blockedServices", of_strings (PersistentClient_BlockedServices x));
    ("blockedServicesSchedule", json_Schedule (PersistentClient_BlockedServicesSchedule x));
    ("upstreams", of_strings (PersistentClient_Upstreams x));
    ("upstreamsCacheEnabled", JBool (PersistentClient_UpstreamsCacheEnabled x));
    ("upstreamsCacheSize", JNum (PersistentClient_UpstreamsCacheSize x));
    ("tags", of_strings (PersistentClient_Tags x));
    ("ignoreQueryLog", JBool (PersistentClient_IgnoreQueryLog x));
    ("ignoreStatistics", JBool (PersistentClient_IgnoreStatistics x))]).

(* src/internal/configuration/model.go:118-122 Rewrite *)
Definition json_Rewrite (x : Rewrite) : json :=
  JObj ([("domain", JStr (Rewrite_Domain x));
    ("answer", JStr (Rewrite_Answer x));
    ("enabled", JBool (Rewrite_Enabled x))]).

(* src/internal/configuration/model.go:134-140 Services *)
Definition json_Services (x : Services) : json :=
  JObj ([("blockedServiceIds", of_strings (Services_BlockedServiceIDs x));
    ("blockedSchedule", json_Schedule (Services_BlockedSchedule x));
    ("safeBrowsing", JBool (Services_SafeBrowsing x));
    ("parentalControl", JBool (Services_ParentalControl x));
    ("safeSearch", json_SafeSearch (Services_SafeSearch x))]).

(* src/internal/configuration/model.go:142-148 QueryLogPolicy *)
Definition json_QueryLogPolicy (x : QueryLogPolicy) : json :=
  JObj ([("enabled", JBool (QueryLogPolicy_Enabled x));
    ("intervalMillis", JNum (QueryLogPolicy_IntervalMillis x));
    ("anonymizeClientIp", JBool (QueryLogPolicy_AnonymizeClientIP x));
    ("ignored", of_strings (QueryLogPolicy_Ignored x));
    ("ignoredEnabled", JBool (QueryLogPolicy_IgnoredEnabled x))]).

(* src/internal/configuration/model.go:150-155 StatisticsPolicy *)
Definition json_StatisticsPolicy (x : StatisticsPolicy) : json :=
  JObj ([("enabled", JBool (StatisticsPolicy_Enabled x));
    ("intervalMillis", JNum (StatisticsPolicy_IntervalMillis x));
    ("ignored", of_strings (StatisticsPolicy_Ignored x));
    ("ignoredEnabled", JBool (StatisticsPolicy_IgnoredEnabled x))]).

(* src/internal/configuration/model.go:39-48 Shared *)
Definition json_Shared (x : Shared) : json :=
  JObj ([("dns", json_DNS (Shared_DNS x));
    ("filtering", json_Filtering (Shared_Filtering x));
    ("clients", of_slice json_PersistentClient (Shared_Clients x));
    ("rewritesEnabled", JBool (Shared_RewritesEnabled x));
    ("rewrites", of_slice json_Rewrite (Shared_Rewrites x));
    ("services", json_Services (Shared_Services x));
    ("queryLog", json_QueryLogPolicy (Shared_QueryLog x));
    ("statistics", json_StatisticsPolicy (Shared_Statistics x))]).

(* src/internal/configuration/model.go:191-195 DHCPStaticLease *)
Definition json_DHCPStaticLease (x : DHCPStaticLease) : json :=
  JObj ([("mac", JStr (DHCPStaticLease_MAC x));
    ("ip", JStr (DHCPStaticLease_IP x));
    ("hostname", JStr (DHCPStaticLease_Hostname x))]).

(* src/internal/configuration/model.go:178-184 DHCPIPv4 *)
Definition json_DHCPIPv4 (x : DHCPIPv4) : json :=
  JObj ([("gateway", JStr (DHCPIPv4_Gateway x));
    ("subnetMask", JStr (DHCPIPv4_SubnetMask x));
    ("rangeStart", JStr (DHCPIPv4_RangeStart x));
    ("rangeEnd", JStr (DHCPIPv4_RangeEnd x));
    ("leaseDurationSeconds", JNum (DHCPIPv4_LeaseDuration x))]).

(* src/internal/configuration/model.go:186-189 DHCPIPv6 *)
Definition json_DHCPIPv6 (x : DHCPIPv6) : json :=
  JObj ([("rangeStart", JStr (DHCPIPv6_RangeStart x));
    ("leaseDurationSeconds", JNum (DHCPIPv6_LeaseDuration x))]).

(* src/internal/configuration/model.go:170-176 DHCPConfig *)
Definition json_DHCPConfig (x : DHCPConfig) : json :=
  JObj ([("enabled", JBool (DHCPConfig_Enabled x));
    ("interfaceName", JStr (DHCPConfig_InterfaceName x));
    ("ipv4", json_DHCPIPv4 (DHCPConfig_IPv4 x));
    ("ipv6", json_DHCPIPv6 (DHCPConfig_IPv6 x));
    ("staticLeases", of_slice json_DHCPStaticLease (DHCPConfig_StaticLeases x))]).

(* src/internal/configuration/model.go:157-161 NodeSpecific *)
Definition json_NodeSpecific (x : NodeSpecific) : json :=
  JObj ([("bindHosts", of_strings (NodeSpecific_BindHosts x));
    ("dnsPort", JNum (NodeSpecific_DNSPort x))] ++
    omitempty (is_nil (NodeSpecific_DHCP x)) "dhcp" (of_pointer json_DHCPConfig (NodeSpecific_DHCP x))).

(* src/internal/configuration/model.go:204-222 TLSStatus *)
Definition json_TLSStatus (x : TLSStatus) : json :=
  JObj ([("enabled", JBool (TLSStatus_Enabled x));
    ("serverName", JStr (TLSStatus_ServerName x));
    ("forceHttps", JBool (TLSStatus_ForceHTTPS x));
    ("httpsPort", JNum (TLSStatus_HTTPSPort x));
    ("dnsOverTlsPort", JNum (TLSStatus_DNSOverTLSPort x));
    ("dnsOverQuicPort", JNum (TLSStatus_DNSOverQUICPort x));
    ("servePlainDns", JBool (TLSStatus_ServePlainDNS x));
    ("validCertificate", JBool (TLSStatus_ValidCertificate x));
    ("validChain", JBool (TLSStatus_ValidChain x));
    ("validKey", JBool (TLSStatus_ValidKey x));
    ("validPair", JBool (TLSStatus_ValidPair x))] ++
    omitempty (TLSStatus_Subject x =?? "") "subject" (JStr (TLSStatus_Subject x)) ++
    omitempty (TLSStatus_Issuer x =?? "") "issuer" (JStr (TLSStatus_Issuer x)) ++
    omitempty (TLSStatus_NotBefore x =?? "") "notBefore" (JStr (TLSStatus_NotBefore x)) ++
    omitempty (TLSStatus_NotAfter x =?? "") "notAfter" (JStr (TLSStatus_NotAfter x)) ++
    omitempty (null (elems (TLSStatus_DNSNames x))) "dnsNames" (of_strings (TLSStatus_DNSNames x)) ++
    omitempty (TLSStatus_Warning x =?? "") "warning" (JStr (TLSStatus_Warning x))).

(* src/internal/configuration/model.go:197-202 DHCPLease *)
Definition json_DHCPLease (x : DHCPLease) : json :=
  JObj ([("mac", JStr (DHCPLease_MAC x));
    ("ip", JStr (DHCPLease_IP x));
    ("hostname", JStr (DHCPLease_Hostname x));
    ("expiresAt", JStr (DHCPLease_ExpiresAt x))]).

(* src/internal/configuration/model.go:163-168 ObservedOnly *)
Definition json_ObservedOnly (x : ObservedOnly) : json :=
  JObj ([("productVersion", JStr (ObservedOnly_ProductVersion x))] ++
    omitempty (ObservedOnly_ProtectionDisabledUntil x =?? "") "protectionDisabledUntil" (JStr (ObservedOnly_ProtectionDisabledUntil x)) ++
    [("tls", json_TLSStatus (ObservedOnly_TLS x))] ++
    omitempty (null (elems (ObservedOnly_DHCPLeases x))) "dhcpLeases" (of_slice json_DHCPLease (ObservedOnly_DHCPLeases x))).

(* src/internal/configuration/model.go:224-227 Unsupported *)
Definition json_Unsupported (x : Unsupported) : json :=
  JObj ([("section", JStr (Unsupported_Section x));
    ("reason", JStr (Unsupported_Reason x))]).

(* src/internal/configuration/model.go:21-27 Document *)
Definition json_Document (x : Document) : json :=
  JObj ([("schemaVersion", JNum (Document_SchemaVersion x));
    ("shared", json_Shared (Document_Shared x));
    ("nodeSpecific", json_NodeSpecific (Document_NodeSpecific x));
    ("observedOnly", json_ObservedOnly (Document_ObservedOnly x));
    ("unsupported", of_slice json_Unsupported (Document_Unsupported x))]).

(* src/internal/configuration/model.go:32-37 DesiredDocument *)
Definition json_DesiredDocument (x : DesiredDocument) : json :=
  JObj ([("schemaVersion", JNum (DesiredDocument_SchemaVersion x));
    ("shared", json_Shared (DesiredDocument_Shared x));
    ("nodeOverrides", of_map json_NodeSpecific (DesiredDocument_NodeOverrides x));
    ("unsupported", of_slice json_Unsupported (DesiredDocument_Unsupported x))]).

Section diff.
Context {R : Runtime}.

(** ** Hashes: the canonical encoding and its digest *)

(* src/internal/configuration/model.go:386-393 Marshal *)
Definition Marshal (document : Document) : string * string :=
  let body := json_print (json_Document (Canonicalise document)) in (body, sha256_hex body).

(* src/internal/configuration/model.go:395-402 MarshalDesired *)
Definition MarshalDesired (document : DesiredDocument) : string * string :=
  let body := json_print (json_DesiredDocument (CanonicaliseDesired document)) in
  (body, sha256_hex body).

(** ** Differences *)

(* src/internal/configuration/model.go:407-413 Diff *)
Definition add (section field scope : string) (a b : json) : list Difference :=
  if negb (json_print a =?? json_print b)
  then [mkDifference section field scope a b (field +:+ " differs")] else [].

(* src/internal/configuration/model.go:414-453 Diff *)
Definition diff_shared (v2 : bool) (left right : Shared) : list Difference :=
  let d := Shared_DNS left in let d' := Shared_DNS right in
  let f := Shared_Filtering left in let f' := Shared_Filtering right in
  let s := Shared_Services left in let s' := Shared_Services right in
  let add section field a b := add section field SharedManaged a b in
  add "DNS" "Upstream DNS" (of_strings (DNS_UpstreamDNS d)) (of_strings (DNS_UpstreamDNS d')) ++
  add "DNS" "Bootstrap DNS" (of_strings (DNS_BootstrapDNS d)) (of_strings (DNS_BootstrapDNS d')) ++
  add "DNS" "Fallback DNS" (of_strings (DNS_FallbackDNS d)) (of_strings (DNS_FallbackDNS d')) ++
  add "DNS" "Private reverse DNS"
    (of_strings (DNS_PrivateReverseDNS d)) (of_strings (DNS_PrivateReverseDNS d')) ++
  (if v2 then
    add "DNS" "Protection enabled"
      (JBool (DNS_ProtectionEnabled d)) (JBool (DNS_ProtectionEnabled d')) ++
    add "DNS" "Rate limit" (JNum (DNS_RateLimit d)) (JNum (DNS_RateLimit d')) ++
    add "DNS" "Rate-limit IPv4 subnet"
      (JNum (DNS_RateLimitIPv4 d)) (JNum (DNS_RateLimitIPv4 d')) ++
    add "DNS" "Rate-limit IPv6 subnet"
      (JNum (DNS_RateLimitIPv6 d)) (JNum (DNS_RateLimitIPv6 d')) ++
    add "DNS" "Rate-limit allowlist"
      (of_strings (DNS_RateLimitAllowlist d)) (of_strings (DNS_RateLimitAllowlist d')) ++
    add "DNS" "Blocking mode" (JStr (DNS_BlockingMode d)) (JStr (DNS_BlockingMode d')) ++
    add "DNS" "Blocking IPv4" (JStr (DNS_BlockingIPv4 d)) (JStr (DNS_BlockingIPv4 d')) ++
    add "DNS" "Blocking IPv6" (JStr (DNS_BlockingIPv6 d)) (JStr (DNS_BlockingIPv6 d')) ++
    add "DNS" "Blocked response TTL"
      (JNum (DNS_BlockedResponseTTL d)) (JNum (DNS_BlockedResponseTTL d')) ++
    add "DNS" "EDNS client subnet"
      (JBool (DNS_EDNSClientSubnet d)) (JBool (DNS_EDNSClientSubnet d')) ++
    add "DNS" "EDNS custom address"
      (JArr [JBool (DNS_EDNSUseCustom d); JStr (DNS_EDNSCustomIP d)])
      (JArr [JBool (DNS_EDNSUseCustom d'); JStr (DNS_EDNSCustomIP d')]) ++
    add "DNS" "Disable IPv6" (JBool (DNS_DisableIPv6 d)) (JBool (DNS_DisableIPv6 d')) ++
    add "DNS" "DNSSEC" (JBool (DNS_DNSSECEnabled d)) (JBool (DNS_DNSSECEnabled d')) ++
    add "DNS" "Cache"
      (JArr [JBool (DNS_CacheEnabled d); JNum (DNS_CacheSize d); JNum (DNS_CacheTTLMin d);
             JNum (DNS_CacheTTLMax d); JBool (DNS_CacheOptimistic d)])
      (JArr [JBool (DNS_CacheEnabled d'); JNum (DNS_CacheSize d'); JNum (DNS_CacheTTLMin d');
             JNum (DNS_CacheTTLMax d'); JBool (DNS_CacheOptimistic d')]) ++
    add "DNS" "Upstream mode" (JStr (DNS_UpstreamMode d)) (JStr (DNS_UpstreamMode d')) ++
    add "DNS" "Upstream timeout" (JNum (DNS_UpstreamTimeout d)) (JNum (DNS_UpstreamTimeout d')) ++
    add "DNS" "Private reverse and client resolution"
      (JArr [JBool (DNS_UsePrivateReverse d); JBool (DNS_ResolveClients d)])
      (JArr [JBool (DNS_UsePrivateReverse d'); JBool (DNS_ResolveClients d')])
   else []) ++
  add "Filtering" "Enabled" (JBool (Filtering_Enabled f)) (JBool (Filtering_Enabled f')) ++
  add "Filtering" "Update interval"
    (JNum (Filtering_UpdateInterval f)) (JNum (Filtering_UpdateInterval f')) ++
  add "Filtering" "Filter subscriptions"
    (of_strings (Filtering_FilterURLs f)) (of_strings (Filtering_FilterURLs f')) ++
  (if v2 then
    add "Filtering" "Allowlist subscriptions"
      (of_strings (Filtering_WhitelistURLs f)) (of_strings (Filtering_WhitelistURLs f')) ++
    add "Clients" "Persistent clients" (of_slice json_PersistentClient (Shared_Clients left))
      (of_slice json_PersistentClient (Shared_Clients right)) ++
    add "Rewrites" "DNS rewrites"
      (JArr [JBool (Shared_RewritesEnabled left); of_slice json_Rewrite (Shared_Rewrites left)])
      (JArr [JBool (Shared_RewritesEnabled right); of_slice json_Rewrite (Shared_Rewrites right)]) ++
    add "Services" "Blocked services"
      (JArr [of_strings (Services_BlockedServiceIDs s); json_Schedule (Services_BlockedSchedule s)])
      (JArr [of_strings (Services_BlockedServiceIDs s'); json_Schedule (Services_BlockedSchedule s')]) ++
    add "Services" "Safe browsing"
      (JBool (Services_SafeBrowsing s)) (JBool (Services_SafeBrowsing s')) ++
    add "Services" "Parental control"
      (JBool (Services_ParentalControl s)) (JBool (Services_ParentalControl s')) ++
    add "Services" "Safe search"
      (json_SafeSearch (Services_SafeSearch s)) (json_SafeSearch (Services_SafeSearch s')) ++
    add "Query log" "Policy" (json_QueryLogPolicy (Shared_QueryLog left))
      (json_QueryLogPolicy (Shared_QueryLog right)) ++
    add "Statistics" "Policy" (json_StatisticsPolicy (Shared_Statistics left))
      (json_StatisticsPolicy (Shared_Statistics right))
   else []) ++
  add "Filtering" "Custom rules"
    (of_strings (Filtering_UserRules f)) (of_strings (Filtering_UserRules f')).

(* src/internal/configuration/model.go:454-458 Diff *)
Definition diff_node (v2 : bool) (left right : NodeSpecific) : list Difference :=
  let add section field a b := add section field NodeManaged a b in
  add "DNS" "Bind hosts" (of_strings (NodeSpecific_BindHosts left))
    (of_strings (NodeSpecific_BindHosts right)) ++
  add "DNS" "DNS port" (JNum (NodeSpecific_DNSPort left)) (JNum (NodeSpecific_DNSPort right)) ++
  (if v2 then
    add "DHCP" "Configuration and static leases"
      (of_pointer json_DHCPConfig (NodeSpecific_DHCP left))
      (of_pointer json_DHCPConfig (NodeSpecific_DHCP right))
   else []).

(* src/internal/configuration/model.go:404-459 Diff *)
Definition Diff (left right : Document) : list Difference :=
  let left := Canonicalise left in
  let right := Canonicalise right in
  let v2 := (SchemaVersion <=? Document_SchemaVersion left) ||
            (SchemaVersion <=? Document_SchemaVersion right) in
  diff_shared v2 (Document_Shared left) (Document_Shared right) ++
  diff_node v2 (Document_NodeSpecific left) (Document_NodeSpecific right) ++
  add "Compatibility" "Unsupported areas" UnsupportedField
    (of_slice json_Unsupported (Document_Unsupported left))
    (of_slice json_Unsupported (Document_Unsupported right)).

(* src/internal/configuration/model.go:493-498 valueOrNil *)
Definition valueOrNil (value : option NodeSpecific) : json :=
  match value with None => JNull | Some v => json_NodeSpecific v end.

Definition with_summary (d : Difference) (summary : string) : Difference :=
  mkDifference (Difference_Section d) (Difference_Field d) (Difference_Scope d)
    (Difference_Left d) (Difference_Right d) summary.

(** A document that carries only the given parts: a Go struct literal. *)
Definition shared_document (s : Shared) (u : slice Unsupported) : Document :=
  mkDocument 0 s zero_NodeSpecific zero_ObservedOnly u.
Definition node_document (n : NodeSpecific) : Document :=
  mkDocument 0 zero_Shared n zero_ObservedOnly None.

(* src/internal/configuration/model.go:476-489 DiffDesired *)
Definition diff_override (left right : DesiredDocument) (id : string) : list Difference :=
  match DesiredDocument_NodeOverrides left !! id, DesiredDocument_NodeOverrides right !! id with
  | Some a, Some b =>
      (λ d, with_summary d (Difference_Summary d +:+ " for " +:+ id)) <$>
        List.filter (λ d, Difference_Scope d =?? NodeManaged)
          (Diff (node_document a) (node_document b))
  | a, b =>
      [mkDifference "DNS" "Node override" NodeManaged (valueOrNil a) (valueOrNil b)
         ("node override differs for " +:+ id)]
  end.

(* src/internal/configuration/model.go:461-491 DiffDesired *)
Definition DiffDesired (left right : DesiredDocument) : list Difference :=
  let left := CanonicaliseDesired left in
  let right := CanonicaliseDesired right in
  let nodeIDs := dom (DesiredDocument_NodeOverrides left) ∪
                 dom (DesiredDocument_NodeOverrides right) in
  let ordered := sort_Slice String.ltb (elements nodeIDs) in
  Diff (shared_document (DesiredDocument_Shared left) (DesiredDocument_Unsupported left))
       (shared_document (DesiredDocument_Shared right) (DesiredDocument_Unsupported right)) ++
  concat (diff_override left right <$> ordered).
End diff.

(** ** The encodings are injective *)

#[export] Instance JStr_inj : Inj (=) (=) JStr.
Proof. by intros x y [=]. Qed.
#[export] Instance JNum_inj : Inj (=) (=) JNum.
Proof. by intros x y [=]. Qed.
#[export] Instance JBool_inj : Inj (=) (=) JBool.
Proof. by intros x y [=]. Qed.

#[export] Instance of_strings_inj : Inj (=) (=) of_strings.
Proof. intros [x|] [y|] E; cbn in E; simplify_eq; done. Qed.

#[export] Instance of_slice_inj {A} (f : A → json) : Inj (=) (=) f → Inj (=) (=) (of_slice f).
Proof. intros Hf [x|] [y|] E; cbn in E; simplify_eq; done. Qed.

(** An encoder whose values are never [null] tells a nil pointer from the others. *)
Lemma of_pointer_inj {A} (f : A → json) : Inj (=) (=) f → (∀ x, f x ≠ JNull) →
  Inj (=) (=) (of_pointer f).
Proof.
  intros Hf Hn [x|] [y|] E; cbn in E; [by apply Hf in E as ->|by apply Hn in E| |done].
  symmetry in E. by apply Hn in E.
Qed.

#[export] Instance of_map_inj {A} (f : A → json) : Inj (=) (=) f → Inj (=) (=) (of_map f).
Proof.
  intros Hf m m' E. unfold of_map in E. injection E as E.
  assert (Hi : Inj (=) (=) (λ kv : string * A, (kv.1, f kv.2))).
  { intros [k v] [k' v'] H. cbn in H. by simplify_eq. }
  apply (inj _) in E. apply map_to_list_inj.
  rewrite <- (sort_Slice_perm (λ x y, String.ltb x.1 y.1) (map_to_list m)), E.
  apply sort_Slice_perm.
Qed.

Lemma JObj_cons_inj k v v' fs fs' :
  JObj ((k, v) :: fs) = JObj ((k, v') :: fs') → v = v' ∧ JObj fs = JObj fs'.
Proof. by intros [= -> ->]. Qed.

(** The record encoders list every field, so equal trees have equal fields. *)
Ltac json_record_inj f :=
  let x := fresh "x" in let y := fresh "y" in let E := fresh "E" in
  intros x y E; unfold f in E; cbn [app] in E;
  repeat (let H := fresh "H" in apply JObj_cons_inj in E as [H E];
          match type of H with ?g _ = _ => apply (inj g) in H end); clear E;
  destruct x, y; cbn in *; subst; reflexivity.

#[export] Instance json_SafeSearch_inj : Inj (=) (=) json_SafeSearch.
Proof. by intros [? ? ? [] ? ? ? ?] [? ? ? [] ? ? ? ?] E; unfold json_SafeSearch in E; cbn in E; simplify_eq. Qed.
#[export] Instance json_DayRange_inj : Inj (=) (=) json_DayRange.
Proof. json_record_inj json_DayRange. Qed.
#[export] Instance json_Schedule_inj : Inj (=) (=) json_Schedule.
Proof. json_record_inj json_Schedule. Qed.
#[export] Instance json_PersistentClient_inj : Inj (=) (=) json_PersistentClient.
Proof. json_record_inj json_PersistentClient. Qed.
#[export] Instance json_Rewrite_inj : Inj (=) (=) json_Rewrite.
Proof. json_record_inj json_Rewrite. Qed.
#[export] Instance json_QueryLogPolicy_inj : Inj (=) (=) json_QueryLogPolicy.
Proof. json_record_inj json_QueryLogPolicy. Qed.

#[export] Instance json_StatisticsPolicy_inj : Inj (=) (=) json_StatisticsPolicy.
Proof. json_record_inj json_StatisticsPolicy. Qed.

#[export] Instance json_DHCPStaticLease_inj : Inj (=) (=) json_DHCPStaticLease.
Proof. json_record_inj json_DHCPStaticLease. Qed.
#[export] Instance json_DHCPIPv4_inj : Inj (=) (=) json_DHCPIPv4.
Proof. json_record_inj json_DHCPIPv4. Qed.
#[export] Instance json_DHCPIPv6_inj : Inj (=) (=) json_DHCPIPv6.
Proof. json_record_inj json_DHCPIPv6. Qed.
#[export] Instance json_DHCPConfig_inj : Inj (=) (=) json_DHCPConfig.
Proof. json_record_inj json_DHCPConfig. Qed.
#[export] Instance json_Unsupported_inj : Inj (=) (=) json_Unsupported.
Proof. json_record_inj json_Unsupported. Qed.

#[export] Instance of_DHCP_inj : Inj (=) (=) (of_pointer json_DHCPConfig).
Proof. by apply of_pointer_inj; [apply _|intros []]. Qed.

(** ** Differences and equality *)

Section differences.
Context {R : Runtime}.

Lemma add_refl section field scope a : add section field scope a a = [].
Proof. unfold add. by rewrite bool_decide_true. Qed.

Lemma add_nil section field scope a b : ascii_json a = true → ascii_json b = true →
  add section field scope a b = [] ↔ a = b.
Proof.
  intros Ha Hb. split; [|intros ->; apply add_refl].
  unfold add. case_bool_decide as E; [|done]. intros _. by apply json_print_inj.
Qed.

Lemma diff_shared_refl v2 s : diff_shared v2 s s = [].
Proof. unfold diff_shared. rewrite !add_refl. by destruct v2. Qed.

Lemma diff_node_refl v2 n : diff_node v2 n n = [].
Proof. unfold diff_node. rewrite !add_refl. by destruct v2. Qed.
End differences.

(** *** Documents of ASCII text: their encodings determine them *)

Lemma ascii_omitempty z k v : forallb (λ f, is_ascii f.1 && ascii_json f.2) (omitempty z k v) =
  z || (is_ascii k && ascii_json v).
Proof. destruct z; cbn; [done|]. by rewrite andb_true_r. Qed.

Lemma ascii_omit_string s k : (s =?? "") || (is_ascii k && is_ascii s) = true → is_ascii s = true.
Proof. case_bool_decide; [by subst|]. by intros [_ ?]%andb_prop. Qed.

Lemma ascii_omit_strings s k : null (elems s) || (is_ascii k && ascii_json (of_strings s)) = true →
  ascii_json (of_strings s) = true.
Proof. by destruct s as [[|]|]; [|intros [_ ?]%andb_prop|]. Qed.

(** [ascii_fields H] splits the hypothesis that an encoding is ASCII into its fields. *)
Ltac ascii_fields H :=
  cbn [ascii_json forallb app fst snd] in H;
  rewrite ?forallb_app, ?ascii_omitempty in H; cbn [ascii_json forallb fst snd] in H;
  rewrite ?forallb_app, ?ascii_omitempty in H; cbn [ascii_json] in H;
  repeat match goal with G : _ && _ = true |- _ => apply andb_prop in G as [? ?] end.

Ltac ascii_solve :=
  cbn [ascii_json forallb];
  repeat match goal with |- _ && _ = true => apply andb_true_iff; split end;
  first [assumption | reflexivity | eapply ascii_omit_string; eassumption
        | eapply ascii_omit_strings; eassumption ].

Lemma JArr_cons_inj v v' vs vs' : JArr (v :: vs) = JArr (v' :: vs') → v = v' ∧ JArr vs = JArr vs'.
Proof. by intros [= -> ->]. Qed.

Section encodings.
Context {R : Runtime}.

Lemma add_nil_ascii section field scope a b :
  ascii_json a = true → ascii_json b = true → add section field scope a b = [] → a = b.
Proof. intros Ha Hb E. by apply add_nil in E. Qed.

(** [encodings_equal]: every compared pair of encodings is a pair of equal values. *)
#[local] Ltac encodings_equal :=
  repeat match goal with H : _ ++ _ = [] |- _ => apply app_nil in H as [? ?] end;
  repeat match goal with
  | H : add _ _ _ _ _ = [] |- _ => apply add_nil_ascii in H; [|ascii_solve..]
  end;
  repeat match goal with H : ascii_json _ = true |- _ => clear H end;
  repeat match goal with H : JArr (_ :: _) = JArr (_ :: _) |- _ =>
    apply JArr_cons_inj in H as [? ?] end;
  repeat match goal with H : @eq json (?g _) _ |- _ => apply (inj g) in H end.

Lemma diff_shared_nil l r :
  ascii_json (json_Shared l) = true → ascii_json (json_Shared r) = true →
  diff_shared true l r = [] → l = r.
Proof.
  intros Hl Hr E. unfold json_Shared, json_DNS, json_Filtering, json_Services in Hl, Hr.
  ascii_fields Hl. ascii_fields Hr. unfold diff_shared in E. encodings_equal.
  destruct l as [[] [] ? ? ? [] ? ?], r as [[] [] ? ? ? [] ? ?]. cbn in *. by subst.
Qed.

Lemma diff_node_nil l r :
  ascii_json (json_NodeSpecific l) = true → ascii_json (json_NodeSpecific r) = true →
  diff_node true l r = [] → l = r.
Proof.
  intros Hl Hr E. unfold json_NodeSpecific in Hl, Hr.
  ascii_fields Hl. ascii_fields Hr. unfold diff_node in E.
  assert (Hd : ∀ d, is_nil d || (is_ascii "dhcp" && ascii_json (of_pointer json_DHCPConfig d)) = true →
    ascii_json (of_pointer json_DHCPConfig d) = true) by (by intros []; [intros [_ ?]%andb_prop|]).
  repeat match goal with H : is_nil _ || _ = true |- _ => apply Hd in H end. clear Hd.
  encodings_equal. destruct l, r. cbn in *. by subst.
Qed.

(** The texts of the managed parts are ASCII. *)
Definition ascii_managed (s : Shared) (n : NodeSpecific) (u : slice Unsupported) : Prop :=
  ascii_json (json_Shared s) = true ∧ ascii_json (json_NodeSpecific n) = true ∧
  ascii_json (of_slice json_Unsupported u) = true.

Lemma canonical_current d : 0 <= Document_SchemaVersion d →
  (SchemaVersion <=? Document_SchemaVersion (Canonicalise d)) = true.
Proof.
  intros Hv. apply Z.leb_le. rewrite Canonicalise_version. unfold SchemaVersion.
  destruct (Document_SchemaVersion d =? 0) eqn:E0, (Document_SchemaVersion d =? 1) eqn:E1; cbn;
    bool_simp; lia.
Qed.

Lemma Diff_nil l r : 0 <= Document_SchemaVersion l →
  let cl := Canonicalise l in let cr := Canonicalise r in
  ascii_managed (Document_Shared cl) (Document_NodeSpecific cl) (Document_Unsupported cl) →
  ascii_managed (Document_Shared cr) (Document_NodeSpecific cr) (Document_Unsupported cr) →
  Diff l r = [] ↔
    Document_Shared cl = Document_Shared cr ∧
    Document_NodeSpecific cl = Document_NodeSpecific cr ∧
    Document_Unsupported cl = Document_Unsupported cr.
Proof.
  intros Hv cl cr (Hl1 & Hl2 & Hl3) (Hr1 & Hr2 & Hr3). unfold Diff.
  rewrite canonical_current by done. cbn [orb]. split.
  - intros [E1 [E2 E3]%app_nil]%app_nil. split_and!.
    + by apply diff_shared_nil.
    + by apply diff_node_nil.
    + apply add_nil_ascii in E3; [|done..]. by apply (inj (of_slice json_Unsupported)) in E3.
  - fold cl cr. intros (-> & -> & ->). by rewrite diff_shared_refl, diff_node_refl, add_refl.
Qed.

(** Every difference between two node overrides is a node-specific one. *)
Lemma diff_node_scope v2 l r : Forall (λ d, Difference_Scope d = NodeManaged) (diff_node v2 l r).
Proof.
  unfold diff_node, add. rewrite !Forall_app. destruct v2; split_and!;
    repeat (case_bool_decide; cbn [negb]); repeat constructor.
Qed.

Lemma Diff_nodes a b : Diff (node_document a) (node_document b) =
  diff_node true (canonical_NodeSpecific a) (canonical_NodeSpecific b).
Proof.
  unfold Diff. rewrite canonical_current by done. cbn [orb].
  rewrite diff_shared_refl, add_refl. apply app_nil_r.
Qed.

Lemma filter_all {A} (p : A → bool) (l : list A) : Forall (λ x, p x = true) l → List.filter p l = l.
Proof. induction 1 as [|x l Hx _ IH]; cbn; [done|]. by rewrite Hx, IH. Qed.
End encodings.

(** ** The comparison of two desired configurations *)

Section desired.
Context {R : Runtime} {L : UnicodeLaws R}.

Lemma CanonicaliseDesired_parts d : ∃ u,
  DesiredDocument_Shared (CanonicaliseDesired d) = canonical_Shared (DesiredDocument_Shared d) ∧
  DesiredDocument_NodeOverrides (CanonicaliseDesired d) =
    canonical_NodeSpecific <$> DesiredDocument_NodeOverrides d ∧
  DesiredDocument_Unsupported (CanonicaliseDesired d) = sort_Slice unsupported_less <$> u.
Proof.
  unfold CanonicaliseDesired. cbn.
  match goal with |- context [Canonicalise ?o] => destruct (Canonicalise_parts o) as [u ->] end.
  by exists u.
Qed.

Lemma ascii_of_map {A} (f : A → json) (m : gmap string A) k x :
  ascii_json (of_map f m) = true → m !! k = Some x → ascii_json (f x) = true.
Proof.
  intros H Hk. unfold of_map in H. cbn in H. rewrite forallb_forall in H.
  assert (In (k, f x) ((λ kv, (kv.1, f kv.2)) <$>
    sort_Slice (λ x y, String.ltb x.1 y.1) (map_to_list m))) as Hin.
  { apply list_elem_of_In, list_elem_of_fmap. exists (k, x). split; [done|].
    by apply elem_of_sort_Slice, elem_of_map_to_list. }
  apply H in Hin. cbn in Hin. by apply andb_prop in Hin as [_ ?].
Qed.

Definition ascii_desired (d : DesiredDocument) : Prop :=
  ascii_json (json_DesiredDocument (CanonicaliseDesired d)) = true.

(** On ASCII text canonicalisation is idempotent. *)
Lemma canonical_Shared_ascii s : ascii_json (json_Shared (canonical_Shared s)) = true →
  canonical_Shared (canonical_Shared s) = canonical_Shared s.
Proof.
  intros Hs. apply canonical_Shared_idemp. unfold ascii_rewrites.
  unfold json_Shared in Hs. cbn [ascii_json forallb fst snd] in Hs.
  bool_simp. destruct s as [? ? ? ? [rs|] ? ? ?]; [|constructor].
  cbn in *. rewrite Forall_forall. intros r Hr.
  match goal with H : forallb ascii_json _ = true |- _ => rewrite forallb_forall in H;
    specialize (H (json_Rewrite (canonical_rewrite r))); cbn in H; bool_simp end.
  assert (Hj : In (json_Rewrite (canonical_rewrite r))
    (json_Rewrite <$> sort_Slice rewrite_less (canonical_rewrite <$> rs))).
  { apply list_elem_of_In, list_elem_of_fmap_2, elem_of_sort_Slice, list_elem_of_fmap_2, Hr. }
  match goal with H : In _ _ → _ |- _ => apply H in Hj end. bool_simp. done.
Qed.

(** What the comparison reads of a canonical desired document is canonical and ASCII. *)
Lemma canonical_desired d : ascii_desired d →
  let c := CanonicaliseDesired d in
  canonical_Shared (DesiredDocument_Shared c) = DesiredDocument_Shared c ∧
  sort_Slice unsupported_less <$> DesiredDocument_Unsupported c = DesiredDocument_Unsupported c ∧
  ascii_json (json_Shared (DesiredDocument_Shared c)) = true ∧
  ascii_json (of_slice json_Unsupported (DesiredDocument_Unsupported c)) = true ∧
  ∀ k n, DesiredDocument_NodeOverrides c !! k = Some n →
    canonical_NodeSpecific n = n ∧ ascii_json (json_NodeSpecific n) = true.
Proof.
  intros Ha c. unfold ascii_desired in Ha. fold c in Ha.
  unfold json_DesiredDocument in Ha. cbn [ascii_json forallb fst snd] in Ha.
  bool_simp. destruct (CanonicaliseDesired_parts d) as (u & Es & En & Eu). fold c in Es, En, Eu.
  split_and!; [| |done..|].
  - assert (Hs : ascii_json (json_Shared (DesiredDocument_Shared c)) = true) by done.
    rewrite Es in Hs |- *. by apply canonical_Shared_ascii.
  - rewrite Eu. apply sort_unsupported_idemp.
  - intros k n Hk. split; [|by eapply ascii_of_map].
    rewrite En, lookup_fmap in Hk. destruct (DesiredDocument_NodeOverrides d !! k); [|done].
    cbn in Hk. simplify_eq. apply canonical_NodeSpecific_idemp.
Qed.

Lemma diff_override_nil l r id : ascii_desired l → ascii_desired r →
  let cl := CanonicaliseDesired l in let cr := CanonicaliseDesired r in
  diff_override cl cr id = [] →
  DesiredDocument_NodeOverrides cl !! id = DesiredDocument_NodeOverrides cr !! id.
Proof.
  intros Hl Hr cl cr E. unfold diff_override in E.
  destruct (canonical_desired l Hl) as (_ & _ & _ & _ & Hnl).
  destruct (canonical_desired r Hr) as (_ & _ & _ & _ & Hnr). fold cl in Hnl. fold cr in Hnr.
  destruct (DesiredDocument_NodeOverrides cl !! id) as [a|] eqn:Ea,
    (DesiredDocument_NodeOverrides cr !! id) as [b|] eqn:Eb; try discriminate.
  destruct (Hnl _ _ Ea) as [Ca Aa], (Hnr _ _ Eb) as [Cb Ab].
  apply fmap_nil_inv in E. rewrite Diff_nodes, Ca, Cb in E. rewrite filter_all in E.
  - f_equal. by apply diff_node_nil.
  - eapply Forall_impl; [apply diff_node_scope|]. intros d ->. by apply bool_decide_eq_true.
Qed.

Lemma Canonicalise_shared s u : Canonicalise (shared_document s u) =
  mkDocument SchemaVersion (canonical_Shared s) (canonical_NodeSpecific zero_NodeSpecific)
    (canonical_ObservedOnly zero_ObservedOnly) (sort_Slice unsupported_less <$> u).
Proof. done. Qed.

Lemma Diff_shared_nil l r : ascii_desired l → ascii_desired r →
  let cl := CanonicaliseDesired l in let cr := CanonicaliseDesired r in
  Diff (shared_document (DesiredDocument_Shared cl) (DesiredDocument_Unsupported cl))
       (shared_document (DesiredDocument_Shared cr) (DesiredDocument_Unsupported cr)) = [] ↔
  DesiredDocument_Shared cl = DesiredDocument_Shared cr ∧
  DesiredDocument_Unsupported cl = DesiredDocument_Unsupported cr.
Proof.
  intros Hl Hr cl cr.
  destruct (canonical_desired l Hl) as (Sl & Ul & Asl & Aul & _).
  destruct (canonical_desired r Hr) as (Sr & Ur & Asr & Aur & _). fold cl in Sl, Ul, Asl, Aul.
  fold cr in Sr, Ur, Asr, Aur.
  assert (H : ∀ s u, ascii_json (json_Shared (canonical_Shared s)) = true →
    ascii_json (of_slice json_Unsupported (sort_Slice unsupported_less <$> u)) = true →
    let c := Canonicalise (shared_document s u) in
    ascii_managed (Document_Shared c) (Document_NodeSpecific c) (Document_Unsupported c)).
  { intros s u H1 H2. rewrite Canonicalise_shared. done. }
  rewrite Diff_nil; [|done|apply H; by rewrite ?Sl, ?Ul|apply H; by rewrite ?Sr, ?Ur].
  rewrite !Canonicalise_shared. cbn [Document_Shared Document_NodeSpecific Document_Unsupported].
  rewrite Sl, Ul, Sr, Ur. split; [by intros (? & _ & ?)|by intros [? ?]].
Qed.

(** The comparison of two desired configurations misses nothing and invents
    nothing: it is empty exactly when the canonical configurations have the
    same shared part, the same override for every node and the same
    unsupported areas. *)
Theorem DiffDesired_complete l r : ascii_desired l → ascii_desired r →
  let cl := CanonicaliseDesired l in let cr := CanonicaliseDesired r in
  DiffDesired l r = [] ↔
    DesiredDocument_Shared cl = DesiredDocument_Shared cr ∧
    DesiredDocument_NodeOverrides cl = DesiredDocument_NodeOverrides cr ∧
    DesiredDocument_Unsupported cl = DesiredDocument_Unsupported cr.
Proof.
  intros Hl Hr cl cr. unfold DiffDesired. cbv zeta. rewrite app_nil, concat_nil_iff.
  rewrite (Diff_shared_nil l r Hl Hr). fold cl cr. rewrite Forall_forall.
  setoid_rewrite elem_of_sort_Slice. setoid_rewrite elem_of_elements. split.
  - intros [[ES EU] Hall]. split_and!; [done| |done]. apply map_eq. intros id.
    destruct (DesiredDocument_NodeOverrides cl !! id) eqn:Ea.
    + rewrite <- Ea. apply diff_override_nil; [done..|].
      apply Hall, elem_of_union_l, elem_of_dom. eauto.
    + destruct (DesiredDocument_NodeOverrides cr !! id) eqn:Eb; [|done].
      rewrite <- Ea, <- Eb. apply diff_override_nil; [done..|].
      apply Hall, elem_of_union_r, elem_of_dom. eauto.
  - intros (E1 & E2 & E3). split; [done|]. intros id.
    rewrite elem_of_union, !elem_of_dom, <- E2. intros Hid.
    unfold diff_override. rewrite <- E2.
    destruct (DesiredDocument_NodeOverrides cl !! id) as [n|]; [|by destruct Hid as [[]|[]]].
    by rewrite Diff_nodes, diff_node_refl.
Qed.
End desired.
