(* ===== verification/Net.v ===== *)
(** * Packages net and net/netip: the parsers the controller relies on

    Addresses, prefixes, masks and hardware addresses, as the standard library
    of Go parses and prints them.  A parser returns [None] where the Go function
    returns an error. *)

From S2P Require Import Prelude GoRuntime Json Domain Compat.

(** ** Addresses *)

(** [netip.Addr]: a 32-bit value, or a 128-bit value with its zone. *)
Inductive Addr := Addr4 (v : Z) | Addr6 (v : Z) (zone : string).

#[export] Instance Addr_eq_dec : EqDecision Addr.
Proof. solve_decision. Defined.

Definition Is4 (a : Addr) : bool := match a with Addr4 _ => true | _ => false end.
Definition Is6 (a : Addr) : bool := match a with Addr6 _ _ => true | _ => false end.
Definition BitLen (a : Addr) : Z := if Is4 a then 32 else 128.
Definition Zone (a : Addr) : string := match a with Addr4 _ => "" | Addr6 _ z => z end.
Definition Addr_value (a : Addr) : Z := match a with Addr4 v | Addr6 v _ => v end.

(** The value of a decimal field of one to three digits without leading zero. *)
Definition parse_octet (s : string) : option Z :=
  if is_numeric s && (len s <=? 3) && (decimal_value s <=? 255) then Some (decimal_value s) else None.

Definition parseIPv4 (s : string) : option Z :=
  match Split s "." with
  | [a; b; c; d] =>
      match parse_octet a, parse_octet b, parse_octet c, parse_octet d with
      | Some a, Some b, Some c, Some d => Some (((a * 256 + b) * 256 + c) * 256 + d)
      | _, _, _, _ => None
      end
  | _ => None
  end.

Definition hex_value (c : ascii) : option Z :=
  let b := byte_of c in
  if (48 <=? b) && (b <=? 57) then Some (b - 48)
  else if (97 <=? b) && (b <=? 102) then Some (b - 87)
  else if (65 <=? b) && (b <=? 70) then Some (b - 55)
  else None.

(** The hexadecimal digits at the head of [s]: their number, value and the rest. *)
Fixpoint hex_prefix (s : string) (n acc : Z) : Z * Z * string :=
  match s with
  | EmptyString => (n, acc, s)
  | String c s' =>
      match hex_value c with
      | Some d => hex_prefix s' (n + 1) (acc * 16 + d)
      | None => (n, acc, s)
      end
  end.

(** The loop of [parseIPv6]: [groups] are the 16-bit groups read so far, the last
    one first, and [ellipsis] the number of groups before [::].  Each round
    reads one group, so the length of the text bounds the rounds. *)
Fixpoint parseIPv6_loop (fuel : nat) (s : string) (groups : list Z) (ellipsis : option nat)
  : option (list Z * option nat) :=
  match fuel with
  | O => None
  | S fuel' =>
      let i := length groups in
      if (8 <=? i)%nat then None (* trailing garbage after address *)
      else
      let '(off, acc, rest) := hex_prefix s 0 0 in
      if (off =? 0) || (4 <? off) then None
      else match rest with
      | String c rest' =>
          if byte_of c =? 46 then (* an embedded IPv4 address *)
            if (match ellipsis with None => negb (i =? 6)%nat | Some _ => false end) || (6 <? i)%nat
            then None
            else match parseIPv4 s with
            | Some v => Some ((v mod 65536) :: (v / 65536) :: groups, ellipsis)
            | None => None
            end
          else if negb (byte_of c =? 58) then None
          else match rest' with
          | EmptyString => None
          | String c' rest'' =>
              let groups := acc :: groups in
              if byte_of c' =? 58 then
                match ellipsis with
                | Some _ => None
                | None =>
                    match rest'' with
                    | EmptyString => Some (groups, Some (length groups))
                    | _ => parseIPv6_loop fuel' rest'' groups (Some (length groups))
                    end
                end
              else parseIPv6_loop fuel' rest' groups ellipsis
          end
      | EmptyString => Some (acc :: groups, ellipsis)
      end
  end.

(** The groups with the ellipsis expanded to at least one group of zeros. *)
Definition expand_groups (groups : list Z) (ellipsis : option nat) : option (list Z) :=
  let n := length groups in
  match ellipsis with
  | None => if (n =? 8)%nat then Some groups else None
  | Some e => if (n <? 8)%nat
              then Some (take e groups ++ replicate (8 - n) 0 ++ drop e groups) else None
  end.

Definition groups_value (groups : list Z) : Z := foldl (λ acc g, acc * 65536 + g) 0 groups.

Definition parseIPv6 (s : string) : option Addr :=
  let '(s, zone) := Cut s "%" in
  if zone =?? Some "" then None
  else
    let zone := default "" zone in
    let finish r := match r with
      | Some (groups, ellipsis) =>
          (λ gs, Addr6 (groups_value gs) zone) <$> expand_groups (reverse groups) ellipsis
      | None => None
      end in
    if HasPrefix s "::" then
      let s := TrimPrefix s "::" in
      if s =?? "" then Some (Addr6 0 zone)
      else finish (parseIPv6_loop (S (String.length s)) s [] (Some 0%nat))
    else finish (parseIPv6_loop (S (String.length s)) s [] None).

(** The first of [.], [:] and [%] decides the family. *)
Fixpoint address_family (s : string) : option ascii :=
  match s with
  | EmptyString => None
  | String c s' =>
      let b := byte_of c in
      if (b =? 46) || (b =? 58) || (b =? 37) then Some c else address_family s'
  end.

Definition ParseAddr (s : string) : option Addr :=
  match address_family s with
  | Some c =>
      if byte_of c =? 46 then Addr4 <$> parseIPv4 s
      else if byte_of c =? 58 then parseIPv6 s
      else None
  | None => None
  end.

(** ** The text of an address *)

Definition v6_groups (v : Z) : list Z :=
  (λ i, Z.land (Z.shiftr v (112 - 16 * Z.of_nat i)) 65535) <$> seq 0 8.

Definition hex_text (g : Z) : string :=
  let d n := String (hex_digit (Z.land (Z.shiftr g n) 15)) "" in
  if g <? 16 then d 0
  else if g <? 256 then d 4 +:+ d 0
  else if g <? 4096 then d 8 +:+ d 4 +:+ d 0
  else d 12 +:+ d 8 +:+ d 4 +:+ d 0.

(** The length of the run of zero groups at the head. *)
Fixpoint zero_run (gs : list Z) : nat :=
  match gs with 0 :: gs' => S (zero_run gs') | _ => O end.

(** The first longest run of two or more zero groups: its start and length. *)
Definition longest_zero_run (gs : list Z) : nat * nat :=
  foldl (λ best i, let l := zero_run (drop i gs) in
           if (2 <=? l)%nat && (best.2 <? l)%nat then (i, l) else best)
        (8%nat, O) (seq 0 8).

Definition v4_text (v : Z) : string :=
  Join ((λ i, itoa (Z.land (Z.shiftr v (24 - 8 * Z.of_nat i)) 255)) <$> seq 0 4) ".".

Definition zone_text (zone : string) : string := if zone =?? "" then "" else "%" +:+ zone.

Definition Addr_String (a : Addr) : string :=
  match a with
  | Addr4 v => v4_text v
  | Addr6 v zone =>
      if Z.shiftr v 32 =? 65535
      then "::ffff:" +:+ v4_text (Z.land v 4294967295) +:+ zone_text zone
      else
        let gs := v6_groups v in
        let '(start, n) := longest_zero_run gs in
        (if (n =? 0)%nat then Join (hex_text <$> gs) ":"
         else Join (hex_text <$> take start gs) ":" +:+ "::" +:+
              Join (hex_text <$> drop (start + n) gs) ":") +:+ zone_text zone
  end.

(** ** Order, prefixes and masks *)

Definition Addr_Less (a b : Addr) : bool :=
  if BitLen a =? BitLen b then
    if Addr_value a =? Addr_value b then String.ltb (Zone a) (Zone b)
    else Addr_value a <? Addr_value b
  else BitLen a <? BitLen b.

Record Prefix := mkPrefix { Prefix_Addr : Addr; Prefix_Bits : Z }.

(** [Prefix.Masked] of a valid prefix keeps its leading bits. *)
Definition Masked (p : Prefix) : Prefix :=
  let clear v n := Z.shiftl (Z.shiftr v n) n in
  match Prefix_Addr p with
  | Addr4 v => mkPrefix (Addr4 (clear v (32 - Prefix_Bits p))) (Prefix_Bits p)
  | Addr6 v _ => mkPrefix (Addr6 (clear v (128 - Prefix_Bits p)) "") (Prefix_Bits p)
  end.

Definition Contains (p : Prefix) (ip : Addr) : bool :=
  (Zone ip =?? "") && (BitLen (Prefix_Addr p) =? BitLen ip) &&
  (Z.shiftr (Z.lxor (Addr_value ip) (Addr_value (Prefix_Addr p))) (BitLen ip - Prefix_Bits p) =? 0).

(** [strings.LastIndexByte] as a cut at the last occurrence. *)
Fixpoint CutLast (s : string) (sep : ascii) : option (string * string) :=
  match s with
  | EmptyString => None
  | String c s' =>
      match CutLast s' sep with
      | Some (a, b) => Some (String c a, b)
      | None => if bool_decide (c = sep) then Some (EmptyString, s') else None
      end
  end.

Definition ParsePrefix (s : string) : option Prefix :=
  match CutLast s "/" with
  | None => None
  | Some (address, bits) =>
      match ParseAddr address with
      | None => None
      | Some ip =>
          if negb (Zone ip =?? "") then None
          else if is_numeric bits && (decimal_value bits <=? BitLen ip)
          then Some (mkPrefix ip (decimal_value bits)) else None
      end
  end.

(** [net.ParseIP(s).To4()]: the value of an IPv4 address or of an IPv4-mapped one. *)
Definition ParseIP_To4 (s : string) : option Z :=
  match ParseAddr s with
  | Some (Addr4 v) => Some v
  | Some (Addr6 v zone) =>
      if (zone =?? "") && (Z.shiftr v 32 =? 65535) then Some (Z.land v 4294967295) else None
  | None => None
  end.

(** [net.IPMask.Size] of four bytes: the leading ones of a contiguous mask. *)
Definition mask_Size (m : Z) : Z * Z :=
  match List.find (λ n, m =? 4294967296 - Z.pow 2 (32 - n)) (seqZ 0 33) with
  | Some n => (n, 32)
  | None => (0, 0)
  end.

(** ** Hardware addresses *)

Fixpoint hex_pairs (s : string) : option (list Z) :=
  match s with
  | EmptyString => Some []
  | String c (String d s') =>
      match hex_value c, hex_value d, hex_pairs s' with
      | Some x, Some y, Some l => Some (x * 16 + y :: l)
      | _, _, _ => None
      end
  | _ => None
  end.

(** Groups of [n] hexadecimal digits. *)
Definition hex_groups (n : Z) (parts : list string) : option (list Z) :=
  if forallb (λ p, len p =? n) parts then hex_pairs (Join parts "") else None.

(** [net.ParseMAC]: six, eight or twenty bytes, in pairs or in groups of four digits. *)
Definition ParseMAC (s : string) : option (list Z) :=
  let sized l := match l with
    | Some hw => if bool_decide (length hw ∈ [6; 8; 20]%nat) then Some hw else None
    | None => None
    end in
  match String.get 2 s, String.get 4 s with
  | Some c, Some d =>
      if (byte_of c =? 58) || (byte_of c =? 45) then sized (hex_groups 2 (Split s c))
      else if byte_of d =? 46 then sized (hex_groups 4 (Split s d))
      else None
  | _, _ => None
  end.

Definition MAC_String (hw : list Z) : string := Join (hex_byte <$> hw) ":".

(** ** Examples *)

Example ParseAddr_v4 : ParseAddr "192.168.1.10" = Some (Addr4 3232235786).
Proof. reflexivity. Qed.
Example ParseAddr_leading_zero : ParseAddr "192.168.01.10" = None.
Proof. reflexivity. Qed.
Example ParseAddr_v6 : option_map Addr_String (ParseAddr "2001:DB8:0:0:1::1%eth0")
  = Some "2001:db8::1:0:0:1%eth0".
Proof. reflexivity. Qed.
Example ParseAddr_mapped : option_map Addr_String (ParseAddr "::ffff:10.0.0.1") = Some "::ffff:10.0.0.1".
Proof. reflexivity. Qed.
Example ParseAddr_loopback : ParseAddr "::1" = Some (Addr6 1 "").
Proof. reflexivity. Qed.
Example ParseAddr_two_ellipses : ParseAddr "1::2::3" = None.
Proof. reflexivity. Qed.
Example ParsePrefix_v4 : ParsePrefix "10.0.0.0/8" = Some (mkPrefix (Addr4 167772160) 8).
Proof. reflexivity. Qed.
Example ParseMAC_six : option_map MAC_String (ParseMAC "00-1B-44-11-3A-B7") = Some "00:1b:44:11:3a:b7".
Proof. reflexivity. Qed.
Example ParseMAC_eight : ParseMAC "02:00:5e:10:00:00:00:01" = Some [2; 0; 94; 16; 0; 0; 0; 1].
Proof. reflexivity. Qed.
Example mask_24 : (mask_Size <$> ParseIP_To4 "255.255.255.0") = Some (24, 32).
Proof. reflexivity. Qed.
Example mask_holes : (mask_Size <$> ParseIP_To4 "255.0.255.0") = Some (0, 0).
Proof. reflexivity. Qed.
