(* ===== verification/ConfigValidate.v ===== *)
(** * internal/configuration/model.go: validation of desired configurations

    [ValidateDesired] with its parts, as lists of issues in the order the code
    reports them, and [ValidDesired], the declarative statement of what a
    configuration without issues satisfies. *)

From S2P Require Import Prelude GoRuntime Json Domain Compat Configuration ConfigDiff Net.

Definition index_field (prefix : string) (i : nat) (suffix : string) : string :=
  prefix +:+ "[" +:+ itoa (Z.of_nat i) +:+ "]" +:+ suffix.

Section validate.
Context {R : Runtime} {O : MapOrder}.

#[local] Abbreviation issue := mkValidationIssue.

(* src/internal/configuration/model.go:550-553 validHTTPURL *)
Definition validHTTPURL (rawURL : string) : bool :=
  match url_Parse rawURL with
  | Some parsed =>
      negb (URL_Host parsed =?? "") && negb (URL_User parsed) &&
      ((URL_Scheme parsed =?? "http") || (URL_Scheme parsed =?? "https"))
  | None => false
  end.

(* src/internal/configuration/model.go:753-756 validAddress *)
Definition validAddress (value : string) : bool := negb (bool_decide (ParseAddr value = None)).

(* src/internal/configuration/model.go:660-660 validateSchedule *)
Definition weekdays : list string := ["sun"; "mon"; "tue"; "wed"; "thu"; "fri"; "sat"].

(* src/internal/configuration/model.go:653-667 validateSchedule *)
Definition validateSchedule (prefix : string) (s : Schedule) : list ValidationIssue :=
  let zone := Schedule_TimeZone s in
  when (negb (zone =?? "") && negb (zone =?? "Local") && negb (LoadLocation zone))
    (issue (prefix +:+ ".timeZone") "must be Local or an IANA time zone") ++
  concat ((λ '(day, period),
    when (bool_decide (day ∉ weekdays) || (DayRange_Start period <? 0) ||
          (86400000 <? DayRange_End period) || (DayRange_End period <=? DayRange_Start period))
      (issue (prefix +:+ ".days." +:+ day)
         "must be a valid day with start before end within 24 hours")) <$>
    map_range (Schedule_Days s)).

Definition is_family (family : Addr → bool) (value : string) : bool :=
  match ParseAddr value with Some a => family a | None => false end.

(* src/internal/configuration/model.go:557-607 validateV2Shared *)
Definition validate_dns (d : DNS) : list ValidationIssue :=
  when (DNS_RateLimit d <? 0) (issue "shared.dns.rateLimit" "must not be negative") ++
  when (DNS_BlockedResponseTTL d <? 0)
    (issue "shared.dns.blockedResponseTtl" "must not be negative") ++
  when ((DNS_RateLimitIPv4 d <? 0) || (32 <? DNS_RateLimitIPv4 d))
    (issue "shared.dns.rateLimitSubnetLengthIpv4" "must be between 0 and 32") ++
  when ((DNS_RateLimitIPv6 d <? 0) || (128 <? DNS_RateLimitIPv6 d))
    (issue "shared.dns.rateLimitSubnetLengthIpv6" "must be between 0 and 128") ++
  when (bool_decide (DNS_BlockingMode d ∉
          [""; "default"; "refused"; "nxdomain"; "null_ip"; "custom_ip"]))
    (issue "shared.dns.blockingMode" "is not supported") ++
  when (negb (DNS_BlockingIPv4 d =?? "") && negb (is_family Is4 (DNS_BlockingIPv4 d)))
    (issue "shared.dns.blockingIpv4" "must be an IPv4 address") ++
  when (negb (DNS_BlockingIPv6 d =?? "") && negb (is_family Is6 (DNS_BlockingIPv6 d)))
    (issue "shared.dns.blockingIpv6" "must be an IPv6 address") ++
  when (bool_decide (DNS_UpstreamMode d ∉ [""; "load_balance"; "fastest_addr"; "parallel"]))
    (issue "shared.dns.upstreamMode" "is not supported") ++
  concat (imap (λ index address,
    when (match ParsePrefix address with Some _ => false | None => negb (validAddress address) end)
      (issue (index_field "shared.dns.rateLimitAllowlist" index "")
         "must be an IP address or prefix")) (elems (DNS_RateLimitAllowlist d))) ++
  when (DNS_EDNSUseCustom d && negb (validAddress (DNS_EDNSCustomIP d)))
    (issue "shared.dns.ednsCustomIp" "must be an IP address when custom EDNS is enabled") ++
  when ((DNS_CacheSize d <? 0) || (DNS_CacheTTLMin d <? 0) || (DNS_CacheTTLMax d <? 0) ||
        ((0 <? DNS_CacheTTLMax d) && (DNS_CacheTTLMax d <? DNS_CacheTTLMin d)))
    (issue "shared.dns.cache" "cache size and TTL values must be non-negative and the minimum must not exceed the maximum") ++
  when (DNS_CacheEnabled d && (DNS_CacheSize d <=? 0))
    (issue "shared.dns.cacheSize" "must be positive when the cache is enabled") ++
  when (DNS_UpstreamTimeout d <? 0)
    (issue "shared.dns.upstreamTimeoutSeconds" "must not be negative").

(* src/internal/configuration/model.go:618-624 validateV2Shared *)
Fixpoint duplicate_ids (field : string) (seen : gset string) (ids : list string)
  : list ValidationIssue :=
  match ids with
  | [] => []
  | id :: rest =>
      when (bool_decide (ToLower id ∈ seen))
        (issue field "identifiers must be unique across clients") ++
      duplicate_ids field ({[ToLower id]} ∪ seen) rest
  end.

(* src/internal/configuration/model.go:608-629 validateV2Shared *)
Fixpoint validate_clients (index : nat) (names ids : gset string) (clients : list PersistentClient)
  : list ValidationIssue :=
  match clients with
  | [] => []
  | client :: rest =>
      let field := index_field "shared.clients" index in
      let key := ToLower (PersistentClient_Name client) in
      when ((PersistentClient_Name client =?? "") || bool_decide (key ∈ names))
        (issue (field ".name") "must be non-empty and unique") ++
      when (bool_decide (elems (PersistentClient_IDs client) = []))
        (issue (field ".ids") "must contain at least one identifier") ++
      duplicate_ids (field ".ids") ids (elems (PersistentClient_IDs client)) ++
      when (PersistentClient_UpstreamsCacheSize client <? 0)
        (issue (field ".upstreamsCacheSize") "must not be negative") ++
      validateSchedule (field ".blockedServicesSchedule")
        (PersistentClient_BlockedServicesSchedule client) ++
      validate_clients (S index) ({[key]} ∪ names)
        (list_to_set (ToLower <$> elems (PersistentClient_IDs client)) ∪ ids) rest
  end.

(* src/internal/configuration/model.go:632-632 validateV2Shared *)
Definition rewrite_key (r : Rewrite) : string :=
  ToLower (Rewrite_Domain r) +:+ nul +:+ ToLower (Rewrite_Answer r).

(* src/internal/configuration/model.go:630-637 validateV2Shared *)
Fixpoint validate_rewrites (index : nat) (seen : gset string) (rewrites : list Rewrite)
  : list ValidationIssue :=
  match rewrites with
  | [] => []
  | r :: rest =>
      when ((Rewrite_Domain r =?? "") || (Rewrite_Answer r =?? "") ||
            bool_decide (rewrite_key r ∈ seen))
        (issue (index_field "shared.rewrites" index "")
           "domain and answer must be non-empty and the pair must be unique") ++
      validate_rewrites (S index) ({[rewrite_key r]} ∪ seen) rest
  end.

(* src/internal/configuration/model.go:639-643 validateV2Shared *)
Definition validate_intervals (s : Shared) : list ValidationIssue :=
  let intervals : gmap string Z :=
    {["shared.queryLog.intervalMillis" := QueryLogPolicy_IntervalMillis (Shared_QueryLog s);
      "shared.statistics.intervalMillis" := StatisticsPolicy_IntervalMillis (Shared_Statistics s)]} in
  concat ((λ '(field, value),
    when (negb (value =? 0) && ((value <? 3600000) || (31536000000 <? value)))
      (issue field "must be between one hour and one year in milliseconds")) <$>
    map_range intervals).

(* src/internal/configuration/model.go:555-651 validateV2Shared *)
Definition validateV2Shared (s : Shared) : list ValidationIssue :=
  validate_dns (Shared_DNS s) ++
  validate_clients 0 ∅ ∅ (elems (Shared_Clients s)) ++
  validate_rewrites 0 ∅ (elems (Shared_Rewrites s)) ++
  validateSchedule "shared.services.blockedSchedule" (Services_BlockedSchedule (Shared_Services s)) ++
  validate_intervals s ++
  when (QueryLogPolicy_Enabled (Shared_QueryLog s) &&
        (QueryLogPolicy_IntervalMillis (Shared_QueryLog s) =? 0))
    (issue "shared.queryLog.intervalMillis" "must be set when query logging is enabled") ++
  when (StatisticsPolicy_Enabled (Shared_Statistics s) &&
        (StatisticsPolicy_IntervalMillis (Shared_Statistics s) =? 0))
    (issue "shared.statistics.intervalMillis" "must be set when statistics are enabled").

(* src/internal/configuration/model.go:736-751 validDHCPHostname *)
Definition validDHCPHostname (value : string) : bool :=
  if (len value =? 0) || (253 <? len value) then false
  else forallb (λ label,
    negb ((len label =? 0) || (63 <? len label) ||
          (first_byte label =?? Some "-"%char) || (last_byte label =?? Some "-"%char)) &&
    string_forall is_ident_byte label) (Split value ".").

(* src/internal/configuration/model.go:679-699 validateDHCP *)
Definition validate_dhcp_range (prefix : string) (v4 : DHCPIPv4) : list ValidationIssue :=
  let mask := from_option mask_Size (0, 0) (ParseIP_To4 (DHCPIPv4_SubnetMask v4)) in
  match ParseAddr (DHCPIPv4_Gateway v4), ParseAddr (DHCPIPv4_RangeStart v4),
        ParseAddr (DHCPIPv4_RangeEnd v4) with
  | Some gateway, Some start, Some stop =>
      if negb (Is4 gateway) || negb (Is4 start) || negb (Is4 stop) || negb (mask.2 =? 32)
      then [issue (prefix +:+ ".ipv4")
              "gateway, contiguous subnet mask, range start, and range end must be valid IPv4 values"]
      else
        let subnet := Masked (mkPrefix gateway mask.1) in
        when (negb (Contains subnet start) || negb (Contains subnet stop))
          (issue (prefix +:+ ".ipv4") "range start and end must be within the gateway subnet") ++
        when (Addr_Less stop start)
          (issue (prefix +:+ ".ipv4.rangeEnd") "must not be before range start")
  | _, _, _ =>
      [issue (prefix +:+ ".ipv4")
         "gateway, contiguous subnet mask, range start, and range end must be valid IPv4 values"]
  end.

(* src/internal/configuration/model.go:709-732 validateDHCP *)
Fixpoint validate_leases (prefix : string) (index : nat) (seenMACs seenIPs : gset string)
  (leases : list DHCPStaticLease) : list ValidationIssue :=
  match leases with
  | [] => []
  | lease :: rest =>
      let mac := ParseMAC (TrimSpace (DHCPStaticLease_MAC lease)) in
      let ip := ParseAddr (TrimSpace (DHCPStaticLease_IP lease)) in
      let hostnameValid := validDHCPHostname (TrimSpace (DHCPStaticLease_Hostname lease)) in
      when (bool_decide (mac = None))
        (issue (index_field (prefix +:+ ".staticLeases") index ".mac")
           "must be a valid six-byte MAC address") ++
      when (bool_decide (ip = None))
        (issue (index_field (prefix +:+ ".staticLeases") index ".ip") "must be a valid IP address") ++
      when (negb hostnameValid)
        (issue (index_field (prefix +:+ ".staticLeases") index ".hostname")
           "must contain valid hostname labels") ++
      match mac, ip, hostnameValid with
      | Some mac, Some ip, true =>
          let macKey := MAC_String mac in
          let ipKey := Addr_String ip in
          when (bool_decide (macKey ∈ seenMACs) || bool_decide (ipKey ∈ seenIPs))
            (issue (index_field (prefix +:+ ".staticLeases") index "")
               "MAC and IP must be unique within the node") ++
          validate_leases prefix (S index) ({[macKey]} ∪ seenMACs) ({[ipKey]} ∪ seenIPs) rest
      | _, _, _ => validate_leases prefix (S index) seenMACs seenIPs rest
      end
  end.

Definition ipv4_configured (config : DHCPConfig) : bool :=
  let v4 := DHCPConfig_IPv4 config in
  DHCPConfig_Enabled config || negb (DHCPIPv4_Gateway v4 =?? "") ||
  negb (DHCPIPv4_SubnetMask v4 =?? "") || negb (DHCPIPv4_RangeStart v4 =?? "") ||
  negb (DHCPIPv4_RangeEnd v4 =?? "").

(* src/internal/configuration/model.go:669-734 validateDHCP *)
Definition validateDHCP (prefix : string) (config : DHCPConfig) : list ValidationIssue :=
  (if DHCPConfig_Enabled config then
     when (TrimSpace (DHCPConfig_InterfaceName config) =?? "")
       (issue (prefix +:+ ".interfaceName") "is required when DHCP is enabled") ++
     when (DHCPIPv4_LeaseDuration (DHCPConfig_IPv4 config) <=? 0)
       (issue (prefix +:+ ".ipv4.leaseDurationSeconds") "must be positive when DHCP is enabled")
   else []) ++
  (if ipv4_configured config then validate_dhcp_range prefix (DHCPConfig_IPv4 config) else []) ++
  (if negb (DHCPIPv6_RangeStart (DHCPConfig_IPv6 config) =?? "") then
     when (negb (is_family Is6 (DHCPIPv6_RangeStart (DHCPConfig_IPv6 config))))
       (issue (prefix +:+ ".ipv6.rangeStart") "must be an IPv6 address") ++
     when (DHCPIPv6_LeaseDuration (DHCPConfig_IPv6 config) <=? 0)
       (issue (prefix +:+ ".ipv6.leaseDurationSeconds")
          "must be positive when an IPv6 range is configured")
   else []) ++
  validate_leases prefix 0 ∅ ∅ (elems (DHCPConfig_StaticLeases config)).

(* src/internal/configuration/model.go:760-774 ValidateNodeSpecific *)
Definition ValidateNodeSpecific (fieldPrefix : string) (listener : NodeSpecific)
  : list ValidationIssue :=
  when ((NodeSpecific_DNSPort listener <? 1) || (65535 <? NodeSpecific_DNSPort listener))
    (issue (fieldPrefix +:+ ".dnsPort") "must be between 1 and 65535") ++
  when (bool_decide (elems (NodeSpecific_BindHosts listener) = []))
    (issue (fieldPrefix +:+ ".bindHosts") "must include at least one address") ++
  concat (imap (λ index host, when (negb (validAddress host))
    (issue (index_field (fieldPrefix +:+ ".bindHosts") index "") "must be an IP address"))
    (elems (NodeSpecific_BindHosts listener))).

(* src/internal/configuration/model.go:530-542 ValidateDesired *)
Definition validate_node (overrides : gmap string NodeSpecific) (nodeID : string)
  : list ValidationIssue :=
  match overrides !! nodeID with
  | None => [issue ("nodeOverrides." +:+ nodeID) "is required for every enabled node"]
  | Some override =>
      ValidateNodeSpecific ("nodeOverrides." +:+ nodeID) override ++
      match NodeSpecific_DHCP override with
      | Some config => validateDHCP ("nodeOverrides." +:+ nodeID +:+ ".dhcp") config
      | None => []
      end
  end.

(* src/internal/configuration/model.go:537-541 ValidateDesired *)
Definition dhcp_enabled (overrides : gmap string NodeSpecific) (nodeID : string) : bool :=
  match overrides !! nodeID with
  | Some override => from_option DHCPConfig_Enabled false (NodeSpecific_DHCP override)
  | None => false
  end.

Definition validate_urls (field : string) (urls : slice string) : list ValidationIssue :=
  concat (imap (λ index rawURL, when (negb (validHTTPURL rawURL))
    (issue (index_field field index "") "must be an absolute HTTP or HTTPS URL")) (elems urls)).

(* src/internal/configuration/model.go:505-548 ValidateDesired *)
Definition ValidateDesired (document : DesiredDocument) (nodeIDs : list string)
  : list ValidationIssue :=
  let providedSchemaVersion := DesiredDocument_SchemaVersion document in
  let document := CanonicaliseDesired document in
  let filtering := Shared_Filtering (DesiredDocument_Shared document) in
  let overrides := DesiredDocument_NodeOverrides document in
  when (negb (providedSchemaVersion =? SchemaVersion)) (issue "schemaVersion" "must be 2") ++
  when ((Filtering_UpdateInterval filtering <? 0) || (8760 <? Filtering_UpdateInterval filtering))
    (issue "shared.filtering.updateIntervalHours" "must be between 0 and 8760") ++
  when (IsLegacyConverted (DesiredDocument_Unsupported document))
    (issue "unsupported" "legacy schema-1 records must be imported and published as a fresh schema-2 revision before deployment") ++
  validate_urls "shared.filtering.filterUrls" (Filtering_FilterURLs filtering) ++
  validate_urls "shared.filtering.whitelistUrls" (Filtering_WhitelistURLs filtering) ++
  validateV2Shared (DesiredDocument_Shared document) ++
  concat (validate_node overrides <$> nodeIDs) ++
  when (1 <? Z.of_nat (length (List.filter (dhcp_enabled overrides) nodeIDs)))
    (issue "nodeOverrides" "DHCP may be enabled on at most one node").
End validate.

(** ** What a valid configuration satisfies *)

Section specification.
Context {R : Runtime}.

Definition ValidURL (u : string) : Prop :=
  ∃ parsed, url_Parse u = Some parsed ∧ URL_Host parsed ≠ "" ∧ URL_User parsed = false ∧
    (URL_Scheme parsed = "http" ∨ URL_Scheme parsed = "https").

Definition ValidSchedule (s : Schedule) : Prop :=
  (Schedule_TimeZone s = "" ∨ Schedule_TimeZone s = "Local" ∨
   LoadLocation (Schedule_TimeZone s) = true) ∧
  ∀ day period, Schedule_Days s !! day = Some period →
    day ∈ weekdays ∧ 0 <= DayRange_Start period < DayRange_End period ∧
    DayRange_End period <= 86400000.

Record ValidDNS (d : DNS) : Prop := {
  dns_rate : 0 <= DNS_RateLimit d;
  dns_ttl : 0 <= DNS_BlockedResponseTTL d;
  dns_v4_subnet : 0 <= DNS_RateLimitIPv4 d <= 32;
  dns_v6_subnet : 0 <= DNS_RateLimitIPv6 d <= 128;
  dns_blocking : DNS_BlockingMode d ∈
    [""; "default"; "refused"; "nxdomain"; "null_ip"; "custom_ip"];
  dns_blocking_v4 : DNS_BlockingIPv4 d = "" ∨ ∃ v, ParseAddr (DNS_BlockingIPv4 d) = Some (Addr4 v);
  dns_blocking_v6 : DNS_BlockingIPv6 d = "" ∨
    ∃ v zone, ParseAddr (DNS_BlockingIPv6 d) = Some (Addr6 v zone);
  dns_upstream : DNS_UpstreamMode d ∈ [""; "load_balance"; "fastest_addr"; "parallel"];
  dns_allowlist : Forall (λ a, is_Some (ParsePrefix a) ∨ is_Some (ParseAddr a))
    (elems (DNS_RateLimitAllowlist d));
  dns_edns : DNS_EDNSUseCustom d = true → is_Some (ParseAddr (DNS_EDNSCustomIP d));
  dns_cache : 0 <= DNS_CacheSize d ∧ 0 <= DNS_CacheTTLMin d ∧ 0 <= DNS_CacheTTLMax d ∧
    (0 < DNS_CacheTTLMax d → DNS_CacheTTLMin d <= DNS_CacheTTLMax d);
  dns_cache_enabled : DNS_CacheEnabled d = true → 0 < DNS_CacheSize d;
  dns_timeout : 0 <= DNS_UpstreamTimeout d
}.

Definition ValidClient (c : PersistentClient) : Prop :=
  PersistentClient_Name c ≠ "" ∧ elems (PersistentClient_IDs c) ≠ [] ∧
  0 <= PersistentClient_UpstreamsCacheSize c ∧
  ValidSchedule (PersistentClient_BlockedServicesSchedule c).

(** Names and identifiers are unique up to case, identifiers across all clients. *)
Definition ValidClients (cs : list PersistentClient) : Prop :=
  Forall ValidClient cs ∧
  NoDup ((λ c, ToLower (PersistentClient_Name c)) <$> cs) ∧
  NoDup (ToLower <$> (cs ≫= λ c, elems (PersistentClient_IDs c))).

Definition ValidRewrites (rs : list Rewrite) : Prop :=
  Forall (λ r, Rewrite_Domain r ≠ "" ∧ Rewrite_Answer r ≠ "") rs ∧ NoDup (rewrite_key <$> rs).

Definition ValidInterval (enabled : bool) (value : Z) : Prop :=
  (value = 0 ∨ 3600000 <= value <= 31536000000) ∧ (enabled = true → value ≠ 0).

Record ValidShared (s : Shared) : Prop := {
  shared_dns : ValidDNS (Shared_DNS s);
  shared_clients : ValidClients (elems (Shared_Clients s));
  shared_rewrites : ValidRewrites (elems (Shared_Rewrites s));
  shared_schedule : ValidSchedule (Services_BlockedSchedule (Shared_Services s));
  shared_query_log : ValidInterval (QueryLogPolicy_Enabled (Shared_QueryLog s))
    (QueryLogPolicy_IntervalMillis (Shared_QueryLog s));
  shared_statistics : ValidInterval (StatisticsPolicy_Enabled (Shared_Statistics s))
    (StatisticsPolicy_IntervalMillis (Shared_Statistics s))
}.

(** A subnet of [n] leading ones that holds the gateway and the whole range. *)
Definition ValidRange (v4 : DHCPIPv4) : Prop :=
  ∃ gateway start stop mask n,
    ParseAddr (DHCPIPv4_Gateway v4) = Some (Addr4 gateway) ∧
    ParseAddr (DHCPIPv4_RangeStart v4) = Some (Addr4 start) ∧
    ParseAddr (DHCPIPv4_RangeEnd v4) = Some (Addr4 stop) ∧
    ParseIP_To4 (DHCPIPv4_SubnetMask v4) = Some mask ∧ mask_Size mask = (n, 32) ∧
    start / 2 ^ (32 - n) = gateway / 2 ^ (32 - n) ∧ stop / 2 ^ (32 - n) = gateway / 2 ^ (32 - n) ∧
    start <= stop.

Definition ValidLease (l : DHCPStaticLease) (mac : list Z) (ip : Addr) : Prop :=
  ParseMAC (TrimSpace (DHCPStaticLease_MAC l)) = Some mac ∧
  ParseAddr (TrimSpace (DHCPStaticLease_IP l)) = Some ip ∧
  validDHCPHostname (TrimSpace (DHCPStaticLease_Hostname l)) = true.

(** Every lease parses, and no two share a hardware or an IP address. *)
Definition ValidLeases (ls : list DHCPStaticLease) : Prop :=
  ∃ keys : list (list Z * Addr),
    Forall2 (λ l key, ValidLease l key.1 key.2) ls keys ∧
    NoDup (MAC_String ∘ fst <$> keys) ∧ NoDup (Addr_String ∘ snd <$> keys).

Record ValidDHCP (c : DHCPConfig) : Prop := {
  dhcp_on : DHCPConfig_Enabled c = true →
    TrimSpace (DHCPConfig_InterfaceName c) ≠ "" ∧ 0 < DHCPIPv4_LeaseDuration (DHCPConfig_IPv4 c);
  dhcp_range : ipv4_configured c = true → ValidRange (DHCPConfig_IPv4 c);
  dhcp_v6 : DHCPIPv6_RangeStart (DHCPConfig_IPv6 c) ≠ "" →
    (∃ v zone, ParseAddr (DHCPIPv6_RangeStart (DHCPConfig_IPv6 c)) = Some (Addr6 v zone)) ∧
    0 < DHCPIPv6_LeaseDuration (DHCPConfig_IPv6 c);
  dhcp_leases : ValidLeases (elems (DHCPConfig_StaticLeases c))
}.

Definition ValidNode (overrides : gmap string NodeSpecific) (nodeID : string) : Prop :=
  ∃ n, overrides !! nodeID = Some n ∧ 1 <= NodeSpecific_DNSPort n <= 65535 ∧
    elems (NodeSpecific_BindHosts n) ≠ [] ∧
    Forall (λ host, is_Some (ParseAddr host)) (elems (NodeSpecific_BindHosts n)) ∧
    ∀ c, NodeSpecific_DHCP n = Some c → ValidDHCP c.

Record ValidDesired (d : DesiredDocument) (nodeIDs : list string) : Prop := {
  desired_version : DesiredDocument_SchemaVersion d = 2;
  desired_fresh : ∀ u, u ∈ elems (DesiredDocument_Unsupported d) →
    Unsupported_Section u ≠ legacyMigrationSection;
  desired_interval :
    0 <= Filtering_UpdateInterval (Shared_Filtering (DesiredDocument_Shared d)) <= 8760;
  desired_filters : Forall ValidURL
    (elems (cleanSet (Filtering_FilterURLs (Shared_Filtering (DesiredDocument_Shared d)))));
  desired_allowlists : Forall ValidURL
    (elems (cleanSet (Filtering_WhitelistURLs (Shared_Filtering (DesiredDocument_Shared d)))));
  desired_shared : ValidShared (canonical_Shared (DesiredDocument_Shared d));
  desired_nodes : Forall (ValidNode (canonical_NodeSpecific <$> DesiredDocument_NodeOverrides d)) nodeIDs;
  (* DHCP is enabled on at most one of the nodes *)
  desired_dhcp : ∀ i j id id', nodeIDs !! i = Some id → nodeIDs !! j = Some id' →
    dhcp_enabled (DesiredDocument_NodeOverrides d) id = true →
    dhcp_enabled (DesiredDocument_NodeOverrides d) id' = true → i = j
}.
End specification.

(** ** Issues and validity *)

(** The number of elements that satisfy a test is at most one exactly when no two
    positions do. *)
Lemma filter_at_most_one {A} (p : A → bool) (l : list A) :
  (length (List.filter p l) <= 1)%nat ↔
  ∀ i j x y, l !! i = Some x → l !! j = Some y → p x = true → p y = true → i = j.
Proof.
  induction l as [|a l IH]; cbn; [split; [by intros _ [] ?|lia]|].
  destruct (p a) eqn:Ea; cbn.
  - assert ((length (List.filter p l) <= 0)%nat ↔ ∀ i x, l !! i = Some x → p x = false) as H0.
    { clear -l. induction l as [|b l IH]; cbn; [split; [done|lia]|].
      destruct (p b) eqn:Eb; cbn; split.
      - lia.
      - intros H. specialize (H O b eq_refl). congruence.
      - rewrite IH. intros H [|i] x; cbn; [by intros [= <-]|apply H].
      - rewrite IH. intros H i x Hi. by apply (H (S i)). }
    split.
    + intros Hl. assert (∀ i x, l !! i = Some x → p x = false) as Hn by (apply H0; lia).
      intros [|i] [|j] x y Hi Hj Hx Hy; cbn in *; [done| | |];
        [apply Hn in Hj|apply Hn in Hi|apply Hn in Hj]; congruence.
    + intros H. enough ((length (List.filter p l) <= 0)%nat) by lia. apply H0.
      intros i x Hi. destruct (p x) eqn:Ex; [|done]. by specialize (H O (S i) a x eq_refl Hi Ea Ex).
  - rewrite IH. split.
    + intros H [|i] [|j] x y Hi Hj Hx Hy; cbn in *; simplify_eq; [congruence..|]. f_equal. by eapply H.
    + intros H i j x y Hi Hj Hx Hy. by specialize (H (S i) (S j) x y Hi Hj Hx Hy) as [= ->].
Qed.

Lemma concat_imap_nil {A B} (f : nat → A → list B) (l : list A) (P : A → Prop) :
  (∀ i x, f i x = [] ↔ P x) → concat (imap f l) = [] ↔ Forall P l.
Proof.
  revert f. induction l as [|x l IH]; intros f H; cbn; [by split|].
  rewrite app_nil, Forall_cons, H. unfold compose. by rewrite (IH (λ i, f (S i))).
Qed.

Section validity.
Context {R : Runtime} {O : MapOrder}.

Lemma validHTTPURL_iff u : validHTTPURL u = true ↔ ValidURL u.
Proof.
  unfold validHTTPURL, ValidURL. destruct (url_Parse u) as [p|]; [|split; [done|naive_solver]].
  rewrite !andb_true_iff, orb_true_iff, !negb_true_iff, bool_decide_eq_false, !bool_decide_eq_true.
  naive_solver.
Qed.

Lemma validAddress_iff a : validAddress a = true ↔ is_Some (ParseAddr a).
Proof.
  unfold validAddress. rewrite negb_true_iff, bool_decide_eq_false. apply not_eq_None_Some.
Qed.

Lemma range_nil {A} (f : string * A → list ValidationIssue) (m : gmap string A) (P : string → A → Prop) :
  (∀ k x, f (k, x) = [] ↔ P k x) →
  concat (f <$> map_range m) = [] ↔ ∀ k x, m !! k = Some x → P k x.
Proof.
  intros H. rewrite concat_nil_iff, Forall_forall. setoid_rewrite map_range_perm. split.
  - intros Ha k x Hk. apply H, Ha, elem_of_map_to_list, Hk.
  - intros Ha [k x] Hk%elem_of_map_to_list. by apply H, Ha.
Qed.

Lemma validateSchedule_nil prefix s : validateSchedule prefix s = [] ↔ ValidSchedule s.
Proof.
  unfold validateSchedule, ValidSchedule. rewrite app_nil, when_nil.
  rewrite (range_nil _ _ (λ day period, day ∈ weekdays ∧
    0 <= DayRange_Start period < DayRange_End period ∧ DayRange_End period <= 86400000)).
  - apply and_iff_compat_r. rewrite !andb_false_iff, !negb_false_iff, !bool_decide_eq_true. tauto.
  - intros day period. rewrite when_nil, !orb_false_iff, bool_decide_eq_false, !Z.ltb_ge, Z.leb_gt.
    destruct (decide (day ∈ weekdays)); intuition lia.
Qed.

Lemma is_family_iff family a : is_family family a = true ↔ ∃ x, ParseAddr a = Some x ∧ family x = true.
Proof. unfold is_family. destruct (ParseAddr a); naive_solver. Qed.

Lemma not_in_iff (x : string) (l : list string) : bool_decide (x ∉ l) = false ↔ x ∈ l.
Proof. rewrite bool_decide_eq_false. destruct (decide (x ∈ l)); tauto. Qed.

Lemma blank_or (x : string) b P : (b = true ↔ P) →
  negb (x =?? "") && negb b = false ↔ x = "" ∨ P.
Proof.
  intros <-. rewrite andb_false_iff, !negb_false_iff, bool_decide_eq_true. done.
Qed.

Lemma validate_dns_nil d : validate_dns d = [] ↔ ValidDNS d.
Proof.
  unfold validate_dns. do 12 rewrite app_nil at 1. rewrite !when_nil.
  rewrite (concat_imap_nil _ _ (λ a, is_Some (ParsePrefix a) ∨ is_Some (ParseAddr a))).
  2: { intros i a. rewrite when_nil, <- validAddress_iff. destruct (ParsePrefix a).
       - split; [left; eauto|done].
       - rewrite negb_false_iff. split; [auto|]. by intros [[? ?]|?]. }
  rewrite !not_in_iff, (blank_or (DNS_BlockingIPv4 d) _ _ (is_family_iff _ _)),
    (blank_or (DNS_BlockingIPv6 d) _ _ (is_family_iff _ _)).
  rewrite !orb_false_iff, !andb_false_iff, negb_false_iff, validAddress_iff, !Z.ltb_ge, Z.leb_gt.
  assert (H4 : (∃ x, ParseAddr (DNS_BlockingIPv4 d) = Some x ∧ Is4 x = true) ↔
    ∃ v, ParseAddr (DNS_BlockingIPv4 d) = Some (Addr4 v)).
  { split; [intros [[] [? ?]]; eauto; done|intros [v ?]; eauto]. }
  assert (H6 : (∃ x, ParseAddr (DNS_BlockingIPv6 d) = Some x ∧ Is6 x = true) ↔
    ∃ v z, ParseAddr (DNS_BlockingIPv6 d) = Some (Addr6 v z)).
  { split; [intros [[] [? ?]]; eauto; done|intros (v & z & ?); eauto]. }
  rewrite H4, H6. split.
  - intros H. destruct_and!. split; try done; try lia;
      destruct (DNS_EDNSUseCustom d), (DNS_CacheEnabled d); naive_solver lia.
  - intros []. split_and!; try done; try lia;
      [destruct (DNS_EDNSUseCustom d)|destruct (DNS_CacheEnabled d)]; naive_solver.
Qed.

Lemma duplicate_ids_nil field seen ids : duplicate_ids field seen ids = [] ↔
  NoDup (ToLower <$> ids) ∧ ∀ k, k ∈ ToLower <$> ids → k ∉ seen.
Proof.
  revert seen. induction ids as [|id ids IH]; intros seen; cbn [duplicate_ids].
  - split; [|done]. intros _. split; [constructor|]. set_solver.
  - rewrite app_nil, when_nil, bool_decide_eq_false, IH, fmap_cons, NoDup_cons. set_solver.
Qed.

Lemma validate_clients_nil i names ids cs : validate_clients i names ids cs = [] ↔
  ValidClients cs ∧
  (∀ k, k ∈ (λ c, ToLower (PersistentClient_Name c)) <$> cs → k ∉ names) ∧
  (∀ k, k ∈ ToLower <$> (cs ≫= λ c, elems (PersistentClient_IDs c)) → k ∉ ids).
Proof.
  unfold ValidClients. revert i names ids.
  induction cs as [|c cs IH]; intros i names ids; cbn [validate_clients].
  - split; [|done]. intros _. split_and!; try constructor; set_solver.
  - rewrite !app_nil, !when_nil, validateSchedule_nil, duplicate_ids_nil, IH.
    rewrite orb_false_iff, !bool_decide_eq_false, Z.ltb_ge.
    rewrite bind_cons, fmap_app, NoDup_app, fmap_cons, NoDup_cons, Forall_cons.
    unfold ValidClient. setoid_rewrite not_elem_of_union. setoid_rewrite elem_of_list_to_set.
    setoid_rewrite elem_of_app. setoid_rewrite elem_of_cons. setoid_rewrite not_elem_of_singleton.
    split.
    + intros ([? ?] & ? & [? ?] & ? & ? & (? & ? & ?) & Hn & Hi).
      split_and!; try done.
      * intros Hk. by destruct (Hn _ Hk).
      * intros k Hk Hk'. by destruct (Hi _ Hk') as [? ?].
      * intros k [->|Hk]; [done|]. by destruct (Hn _ Hk).
      * intros k [Hk|Hk]; [by auto|]. by destruct (Hi _ Hk).
    + intros (([(? & ? & ? & ?) ?] & [Hk ?] & (? & Hd & ?)) & Hn & Hi).
      split_and!; try done; try (by auto).
      * intros k Hk'. split; [intros ->; by apply Hk|auto].
      * intros k Hk'. split; [intros Hk2; by apply (Hd k)|auto].
Qed.

Lemma validate_rewrites_nil i seen rs : validate_rewrites i seen rs = [] ↔
  ValidRewrites rs ∧ ∀ k, k ∈ rewrite_key <$> rs → k ∉ seen.
Proof.
  unfold ValidRewrites. revert i seen.
  induction rs as [|r rs IH]; intros i seen; cbn [validate_rewrites].
  - split; [|done]. intros _. split_and!; try constructor. set_solver.
  - rewrite app_nil, when_nil, !orb_false_iff, !bool_decide_eq_false, IH.
    rewrite fmap_cons, NoDup_cons, Forall_cons. setoid_rewrite not_elem_of_union.
    setoid_rewrite elem_of_cons. setoid_rewrite not_elem_of_singleton. split.
    + intros ([[? ?] ?] & [? ?] & Hk). split_and!; try done.
      * intros Hr. by destruct (Hk _ Hr).
      * intros k [->|Hr]; [done|]. by destruct (Hk _ Hr).
    + intros ([[[? ?] ?] [Hr ?]] & Hk). split_and!; try done; [by auto|].
      intros k Hk'. split; [by intros ->|auto].
Qed.

Lemma validate_intervals_nil s : validate_intervals s = [] ↔
  (QueryLogPolicy_IntervalMillis (Shared_QueryLog s) = 0 ∨
   3600000 <= QueryLogPolicy_IntervalMillis (Shared_QueryLog s) <= 31536000000) ∧
  (StatisticsPolicy_IntervalMillis (Shared_Statistics s) = 0 ∨
   3600000 <= StatisticsPolicy_IntervalMillis (Shared_Statistics s) <= 31536000000).
Proof.
  unfold validate_intervals. rewrite (range_nil _ _ (λ _ v, v = 0 ∨ 3600000 <= v <= 31536000000)).
  - split.
    + intros H. split; [apply (H "shared.queryLog.intervalMillis")
        |apply (H "shared.statistics.intervalMillis")]; by simplify_map_eq.
    + intros [H1 H2] k v [[_ <-]|[_ [_ <-]%lookup_singleton_Some]]%lookup_insert_Some; done.
  - intros k v. rewrite when_nil, andb_false_iff, negb_false_iff, orb_false_iff, Z.eqb_eq, !Z.ltb_ge. lia.
Qed.

Lemma validateV2Shared_nil s : validateV2Shared s = [] ↔ ValidShared s.
Proof.
  unfold validateV2Shared. rewrite !app_nil, validate_dns_nil, validate_clients_nil,
    validate_rewrites_nil, validateSchedule_nil, validate_intervals_nil, !when_nil, !andb_false_iff, !Z.eqb_neq.
  split.
  - intros H. destruct_and! H. split; try done; (split; [done|]);
      [destruct (QueryLogPolicy_Enabled _)|destruct (StatisticsPolicy_Enabled _)]; naive_solver.
  - intros [? ? ? ? [? ?] [? ?]]. split_and!; try assumption;
      try (intros k _; apply not_elem_of_empty);
      [destruct (QueryLogPolicy_Enabled _)|destruct (StatisticsPolicy_Enabled _)]; naive_solver.
Qed.

Lemma validate_leases_nil prefix i macs ips ls : validate_leases prefix i macs ips ls = [] ↔
  ∃ keys, Forall2 (λ l key, ValidLease l key.1 key.2) ls keys ∧
    NoDup (MAC_String ∘ fst <$> keys) ∧ NoDup (Addr_String ∘ snd <$> keys) ∧
    ∀ key, key ∈ keys → (MAC_String key.1 ∉ macs) ∧ (Addr_String key.2 ∉ ips).
Proof.
  revert i macs ips. induction ls as [|l ls IH]; intros i macs ips; cbn [validate_leases].
  - split; [|done]. intros _. exists []. split_and!; try constructor; set_solver.
  - rewrite !app_nil, !when_nil. unfold ValidLease.
    destruct (ParseMAC (TrimSpace (DHCPStaticLease_MAC l))) as [mac|] eqn:Em.
    2: { split; [by intros (?&?&?&?)|]. intros (keys & H & _). inversion H as [|? ? ? ? (? & ? & ?)]; congruence. }
    destruct (ParseAddr (TrimSpace (DHCPStaticLease_IP l))) as [ip|] eqn:Ei.
    2: { split; [by intros (?&?&?&?)|]. intros (keys & H & _). inversion H as [|? ? ? ? (? & ? & ?)]; congruence. }
    destruct (validDHCPHostname (TrimSpace (DHCPStaticLease_Hostname l))) eqn:Eh.
    2: { split; [by intros (?&?&?&?)|]. intros (keys & H & _). inversion H as [|? ? ? ? (? & ? & ?)]; congruence. }
    rewrite app_nil, when_nil, orb_false_iff, !bool_decide_eq_false, IH. split.
    + intros (_ & _ & _ & [? ?] & keys & Hf & Hm & Hi & Hk). exists ((mac, ip) :: keys).
      rewrite !fmap_cons, !NoDup_cons. cbn. split_and!; try done.
      * by constructor.
      * intros ([m a] & E & Hin)%list_elem_of_fmap. cbn in E. apply Hk in Hin as [Hin _].
        cbn in Hin. rewrite <- E in Hin. set_solver.
      * intros ([m a] & E & Hin)%list_elem_of_fmap. cbn in E. apply Hk in Hin as [_ Hin].
        cbn in Hin. rewrite <- E in Hin. set_solver.
      * intros key [->|Hin]%elem_of_cons; [done|]. apply Hk in Hin. set_solver.
    + intros (keys & Hf & Hm & Hi & Hk). inversion Hf as [|? [m a] ? keys' (E1 & E2 & _) Hf']; subst.
      cbn [fst snd] in *. simplify_eq. rewrite !fmap_cons, !NoDup_cons in Hm, Hi. destruct_and!.
      destruct (Hk (mac, ip)) as [? ?]; [by left|]. split_and!; try done.
      exists keys'. split_and!; try done. intros key Hin.
      assert (Hc : key ∈ (mac, ip) :: keys') by (by right). apply Hk in Hc as [? ?].
      rewrite !not_elem_of_union, !not_elem_of_singleton. split_and!; try done.
      * intros E. match goal with H : _ ∉ MAC_String ∘ fst <$> _ |- _ => apply H end.
        apply list_elem_of_fmap. by exists key.
      * intros E. match goal with H : _ ∉ Addr_String ∘ snd <$> _ |- _ => apply H end.
        apply list_elem_of_fmap. by exists key.
Qed.

Lemma mask_Size_bits m n : mask_Size m = (n, 32) → 0 <= n <= 32.
Proof.
  unfold mask_Size. destruct (List.find _ _) as [k|] eqn:E; [|done]. intros [= <-].
  apply find_some in E as [E _]. apply list_elem_of_In, elem_of_seqZ in E. lia.
Qed.

Lemma Contains_network g a n : 0 <= n <= 32 →
  (Contains (Masked (mkPrefix (Addr4 g) n)) (Addr4 a) = true) ↔ a / 2 ^ (32 - n) = g / 2 ^ (32 - n).
Proof.
  intros Hn. unfold Contains, Masked.
  cbn [Prefix_Addr Prefix_Bits Zone BitLen Is4 Addr_value].
  rewrite bool_decide_true by done. change (32 =? 32) with true. cbn [andb].
  rewrite Z.eqb_eq, Z.shiftr_lxor, Z.lxor_eq_0_iff.
  rewrite Z.shiftr_shiftl_l, Z.sub_diag, Z.shiftl_0_r by lia.
  rewrite !Z.shiftr_div_pow2 by lia. done.
Qed.

Lemma validate_dhcp_range_nil prefix v4 : validate_dhcp_range prefix v4 = [] ↔ ValidRange v4.
Proof.
  unfold validate_dhcp_range, ValidRange.
  destruct (ParseAddr (DHCPIPv4_Gateway v4)) as [[g|]|],
    (ParseAddr (DHCPIPv4_RangeStart v4)) as [[s|]|], (ParseAddr (DHCPIPv4_RangeEnd v4)) as [[e|]|];
    cbn [Is4 negb orb]; try (split; [done|by intros (?&?&?&?&?&?&?&?&?&_)]).
  destruct (ParseIP_To4 (DHCPIPv4_SubnetMask v4)) as [m|]; cbn [from_option];
    [|split; [done|by intros (?&?&?&?&?&?&?&?&?&_)]].
  destruct (mask_Size m) as [n b] eqn:Em. cbn [fst snd].
  destruct (b =? 32) eqn:Eb; cbn [negb]; bool_simp;
    [subst b|split; [done|intros (?&?&?&?&?&?&?&?&?&?&_); congruence]].
  pose proof (mask_Size_bits _ _ Em) as Hn.
  rewrite app_nil, !when_nil, orb_false_iff, !negb_false_iff, !(Contains_network g) by done.
  unfold Addr_Less. cbn [BitLen Is4 Addr_value Zone]. change (32 =? 32) with true. cbv iota.
  assert ((if e =? s then String.ltb "" "" else e <? s) = false ↔ s <= e) as ->.
  { destruct (e =? s) eqn:E; bool_simp; [subst; split; [lia|done]|apply Z.ltb_ge]. }
  split; [intros; destruct_and!; exists g, s, e, m, n; by split_and!|]. 
  intros (?&?&?&?&?&[= <-]&[= <-]&[= <-]&[= <-]&E&?&?&?). rewrite Em in E. by injection E as <-.
Qed.

Lemma validateDHCP_nil prefix c : validateDHCP prefix c = [] ↔ ValidDHCP c.
Proof.
  unfold validateDHCP. rewrite !app_nil, validate_leases_nil.
  assert (Hon : (if DHCPConfig_Enabled c then
      when (TrimSpace (DHCPConfig_InterfaceName c) =?? "")
        (mkValidationIssue (prefix +:+ ".interfaceName") "is required when DHCP is enabled") ++
      when (DHCPIPv4_LeaseDuration (DHCPConfig_IPv4 c) <=? 0)
        (mkValidationIssue (prefix +:+ ".ipv4.leaseDurationSeconds") "must be positive when DHCP is enabled")
    else []) = [] ↔ (DHCPConfig_Enabled c = true →
    TrimSpace (DHCPConfig_InterfaceName c) ≠ "" ∧ 0 < DHCPIPv4_LeaseDuration (DHCPConfig_IPv4 c))).
  { destruct (DHCPConfig_Enabled c); [|by split].
    rewrite app_nil, !when_nil, bool_decide_eq_false, Z.leb_gt. tauto. }
  rewrite Hon. clear Hon.
  assert (Hr : (if ipv4_configured c then validate_dhcp_range prefix (DHCPConfig_IPv4 c) else []) = [] ↔
    (ipv4_configured c = true → ValidRange (DHCPConfig_IPv4 c))).
  { destruct (ipv4_configured c); [rewrite validate_dhcp_range_nil; tauto|by split]. }
  rewrite Hr. clear Hr.
  assert (H6 : ∀ a b : list ValidationIssue, (a = [] ↔ is_family Is6 (DHCPIPv6_RangeStart (DHCPConfig_IPv6 c)) = true) →
    (b = [] ↔ 0 < DHCPIPv6_LeaseDuration (DHCPConfig_IPv6 c)) →
    (if negb (DHCPIPv6_RangeStart (DHCPConfig_IPv6 c) =?? "") then a ++ b else []) = [] ↔
    (DHCPIPv6_RangeStart (DHCPConfig_IPv6 c) ≠ "" →
    (∃ v zone, ParseAddr (DHCPIPv6_RangeStart (DHCPConfig_IPv6 c)) = Some (Addr6 v zone)) ∧
    0 < DHCPIPv6_LeaseDuration (DHCPConfig_IPv6 c))).
  { intros a b Ha Hb. case_bool_decide as E; cbn [negb]; [split; [|done]; naive_solver|].
    rewrite app_nil, Ha, Hb, is_family_iff. split.
    - intros [[[] [? ?]] ?] _; [done|eauto].
    - intros H. destruct (H E) as [(v & z & ?) ?]. eauto. }
  rewrite H6; [|by rewrite when_nil, negb_false_iff|by rewrite when_nil, Z.leb_gt].
  split.
  - intros (? & ? & ? & keys & ? & ? & ? & _). split; try done. by exists keys.
  - intros [? ? ? (keys & ? & ? & ?)]. split_and!; try done. exists keys. by split_and!.
Qed.

Lemma ValidateNodeSpecific_nil prefix n : ValidateNodeSpecific prefix n = [] ↔
  1 <= NodeSpecific_DNSPort n <= 65535 ∧ elems (NodeSpecific_BindHosts n) ≠ [] ∧
  Forall (λ host, is_Some (ParseAddr host)) (elems (NodeSpecific_BindHosts n)).
Proof.
  unfold ValidateNodeSpecific. rewrite !app_nil, !when_nil, orb_false_iff, !Z.ltb_ge, bool_decide_eq_false.
  rewrite (concat_imap_nil _ _ (λ host, is_Some (ParseAddr host))); [tauto|].
  intros i host. by rewrite when_nil, negb_false_iff, validAddress_iff.
Qed.

Lemma validate_node_nil overrides id : validate_node overrides id = [] ↔ ValidNode overrides id.
Proof.
  unfold validate_node, ValidNode.
  destruct (overrides !! id) as [n|]; [|by split; [|intros (n & [=] & _)]].
  rewrite app_nil, ValidateNodeSpecific_nil. split.
  - intros [([? ?] & ? & ?) Hd]. exists n. split_and!; try done. intros c Ec. rewrite Ec in Hd.
    by apply validateDHCP_nil in Hd.
  - intros (? & [= <-] & ? & ? & ? & Hd). split; [done|].
    destruct (NodeSpecific_DHCP n); [|done]. by apply validateDHCP_nil, Hd.
Qed.

Lemma validate_urls_nil field urls : validate_urls field urls = [] ↔ Forall ValidURL (elems urls).
Proof.
  unfold validate_urls. apply concat_imap_nil. intros i u.
  by rewrite when_nil, negb_false_iff, validHTTPURL_iff.
Qed.

Lemma dhcp_enabled_canonical overrides id :
  dhcp_enabled (canonical_NodeSpecific <$> overrides) id = dhcp_enabled overrides id.
Proof.
  unfold dhcp_enabled. rewrite lookup_fmap. destruct (overrides !! id) as [n|]; [|done]. cbn.
  by destruct (NodeSpecific_DHCP n).
Qed.

Lemma IsLegacyConverted_iff u : IsLegacyConverted u = false ↔
  ∀ x, x ∈ elems u → Unsupported_Section x ≠ legacyMigrationSection.
Proof.
  unfold IsLegacyConverted. rewrite <- not_true_iff_false, existsb_exists. setoid_rewrite <- list_elem_of_In.
  setoid_rewrite bool_decide_eq_true. naive_solver.
Qed.

Lemma CanonicaliseDesired_current d : DesiredDocument_SchemaVersion d = 2 →
  CanonicaliseDesired d = mkDesiredDocument 2 (canonical_Shared (DesiredDocument_Shared d))
    (canonical_NodeSpecific <$> DesiredDocument_NodeOverrides d)
    (sort_Slice unsupported_less <$> DesiredDocument_Unsupported d).
Proof. intros E. unfold CanonicaliseDesired, Canonicalise. cbn. by rewrite E. Qed.

Lemma ValidateDesired_issues d nodeIDs : ValidateDesired d nodeIDs = [] ↔ ValidDesired d nodeIDs.
Proof.
  destruct (decide (DesiredDocument_SchemaVersion d = 2)) as [E|E].
  2: { split; [|by intros []]. unfold ValidateDesired. cbv zeta.
       intros [H _]%app_nil. apply when_nil in H. unfold SchemaVersion in H. bool_simp. done. }
  unfold ValidateDesired. cbv zeta. rewrite CanonicaliseDesired_current by done.
  cbn [DesiredDocument_Shared DesiredDocument_NodeOverrides DesiredDocument_Unsupported].
  rewrite !app_nil, !when_nil, !validate_urls_nil, validateV2Shared_nil, concat_nil_iff.
  unfold canonical_Shared at 1 2 3 4. cbn [Shared_Filtering]. unfold canonical_Filtering.
  cbn [Filtering_UpdateInterval Filtering_FilterURLs Filtering_WhitelistURLs].
  rewrite orb_false_iff, !Z.ltb_ge.
  assert (HL : IsLegacyConverted (sort_Slice unsupported_less <$> DesiredDocument_Unsupported d) = false ↔
    ∀ u, u ∈ elems (DesiredDocument_Unsupported d) → Unsupported_Section u ≠ legacyMigrationSection).
  { rewrite IsLegacyConverted_iff. destruct (DesiredDocument_Unsupported d) as [l|]; [|done]. cbn.
    by setoid_rewrite elem_of_sort_Slice. }
  assert (HN : Forall (λ id, validate_node (canonical_NodeSpecific <$> DesiredDocument_NodeOverrides d) id = [])
      nodeIDs ↔ Forall (ValidNode (canonical_NodeSpecific <$> DesiredDocument_NodeOverrides d)) nodeIDs).
  { rewrite !Forall_forall. by setoid_rewrite validate_node_nil. }
  assert (HD : (Z.of_nat (length (List.filter
      (dhcp_enabled (canonical_NodeSpecific <$> DesiredDocument_NodeOverrides d)) nodeIDs)) <= 1) ↔
    ∀ i j id id', nodeIDs !! i = Some id → nodeIDs !! j = Some id' →
      dhcp_enabled (DesiredDocument_NodeOverrides d) id = true →
      dhcp_enabled (DesiredDocument_NodeOverrides d) id' = true → i = j).
  { change 1 with (Z.of_nat 1) at 1. rewrite <- Nat2Z.inj_le, filter_at_most_one.
    by setoid_rewrite dhcp_enabled_canonical. }
  rewrite HL, HN, HD, E. split; [intros; destruct_and!; by split|].
  by intros [].
Qed.

(** C6: Validation accepts exactly the valid configurations: a document without
    issues has schema version 2, is not a legacy record, keeps every number in
    its bounds, every address, prefix, mask, hardware address, host name and URL
    well formed, every name and identifier unique, one override for each of the
    nodes, and DHCP enabled on at most one of them - and every such document is
    accepted. *)
Theorem ValidateDesired_correct d nodeIDs : ValidateDesired d nodeIDs = [] ↔ ValidDesired d nodeIDs.
Proof. exact (ValidateDesired_issues d nodeIDs). Qed.
End validity.

(** * Concrete configurations

    The theorems on documents applied to a concrete document, in the runtime for
    ASCII text. *)

#[local] Existing Instance ascii_runtime.
#[local] Existing Instance ascii_runtime_laws.

(** A document with a mixed-case, padded rewrite and duplicated resolvers. *)
Definition sample_dns : DNS :=
  mkDNS (Some ["tls://one"; " tls://two "]) (Some ["9.9.9.9"; "1.1.1.1"; "9.9.9.9"]) None None true
    20 24 56 None "default" "" "" 10 false false "" false true 4096 true 0 0 false "load_balance"
    false false 10.

Definition sample_shared : Shared :=
  mkShared sample_dns (mkFiltering true 24 (Some ["https://lists.example"]) None None) None true
    (Some [mkRewrite " Printer.lan" "10.0.0.9" true; mkRewrite "nas.lan" "10.0.0.8" true])
    zero_Services zero_QueryLogPolicy zero_StatisticsPolicy.

Definition sample_node : NodeSpecific := mkNodeSpecific (Some ["0.0.0.0"]) 53 None.

Definition sample_document : Document :=
  mkDocument 2 sample_shared sample_node zero_ObservedOnly None.

Definition sample_desired (port : Z) : DesiredDocument :=
  mkDesiredDocument 2 sample_shared
    {["node-a" := mkNodeSpecific (Some ["0.0.0.0"]) port None]} None.

Lemma NewID_ValidID_witness :
  ∃ id, NewID (Some (replicate 16 255)) = Ok id ∧ ValidID id = true.
Proof.
  apply (NewID_ValidID (replicate 16 255)); [reflexivity|].
  repeat constructor; discriminate || reflexivity.
Defined.

Lemma Canonicalise_idempotent_witness :
  Canonicalise (Canonicalise sample_document) = Canonicalise sample_document.
Proof. apply (Canonicalise_idempotent sample_document). repeat constructor. Defined.

Lemma DiffDesired_complete_witness :
  DiffDesired (sample_desired 53) (sample_desired 5353) ≠ [].
Proof.
  intros H. apply (DiffDesired_complete (sample_desired 53) (sample_desired 5353)) in H;
    [|by vm_compute..]. destruct H as (_ & H & _).
  apply (f_equal (λ m, m !! "node-a")) in H. vm_compute in H. discriminate H.
Defined.

Lemma cleanSet_contract_witness :
  Forall clean (elems (cleanSet (Some [" B "; "a"; "b"; ""]))) ∧
  elems (cleanSet (Some [" B "; "a"; "b"; ""])) = ["a"; "B"].
Proof.
  destruct (cleanSet_contract (Some [" B "; "a"; "b"; ""])) as (_ & H & _).
  split; [exact H|reflexivity].
Defined.
