(* ===== verification/AuditMetadata.v ===== *)
(** * internal/audit: the boundary of audit evidence

    [SafeMetadata] bounds and redacts the metadata of every audit event before it
    is stored.  Its input is a Go map of [any]: the type [go_any] has a constructor
    per case of the type switch, so a [fmt.Stringer] and a value of any other type,
    which are printed, are inputs as well.  Its theorem: no field with a sensitive
    name keeps its value in the result, and the result does not depend on the value
    of such a field in any nested map; the result is bounded in depth, width, text
    length and total size.  What a value prints is kept as it is printed. *)

From S2P Require Import Prelude GoRuntime Json Domain Compat.

(* src/internal/audit/metadata.go:11-11 maxMetadataDepth *)
Definition maxMetadataDepth : nat := 4.
(* src/internal/audit/metadata.go:12-12 maxMetadataKeys *)
Definition maxMetadataKeys : nat := 64.
(* src/internal/audit/metadata.go:13-13 maxMetadataArray *)
Definition maxMetadataArray : nat := 32.
(* src/internal/audit/metadata.go:14-14 maxMetadataString *)
Definition maxMetadataString : Z := 512.
(* src/internal/audit/metadata.go:15-15 maxMetadataBudget *)
Definition maxMetadataBudget : Z := 8192.

(* src/internal/audit/metadata.go:18-27 sensitiveMetadataKeys *)
Definition sensitiveMetadataKeys : list string :=
  ["authorization"; "certificatebody"; "certificatepem"; "clientidentifier";
   "clientidentity"; "credential"; "credentialencryptionmaterial"; "credentialnonce";
   "credentials"; "csrftoken"; "customcapem"; "destination"; "encryptedcredentials";
   "nodecredentials"; "password"; "passwordhash"; "privatekey"; "query";
   "querycontents"; "queryname"; "rawerror"; "responsebody"; "rule"; "rules";
   "secret"; "secrets"; "sessiontoken"; "token"; "username"; "webhooksecret";
   "totp"; "totpcode"; "otpcode"; "recoverycode"; "recoverycodehash";
   "provisioninguri"; "qrcode"; "qrcodepayload"].

Definition sensitiveFragments : list string :=
  ["password"; "passwd"; "token"; "secret"; "credential"; "authorization";
   "privatekey"; "certificatebody"; "certificatepem"; "customcapem"; "rawerror";
   "rawnodeerror"; "responsebody"; "querycontents"; "queryname"; "querytext";
   "clientidentity"; "clientidentifier"; "destination"; "webhookurl";
   "totp"; "otpcode"; "recoverycode"; "provisioninguri"; "qrcode"].

(** ** Values of any type *)

(** A value of type [any], by the case of the type switch it meets: nil, a boolean, a number, a string,
    a [fmt.Stringer] with the text of its [String], a [map[string]any], a [[]any], a [[]string], or a
    value of any other type with the text [fmt.Sprint] prints of it. *)
(* src/internal/audit/metadata.go:81-117 safeValue *)
Unset Elimination Schemes.
Inductive go_any : Type :=
  | ANil
  | ABool (b : bool)
  | ANum (z : Z)
  | AStr (s : string)
  | AStringer (text : string)
  | AMap (fields : list (string * go_any))
  | AList (items : list go_any)
  | AStrings (items : list string)
  | AOther (text : string).
Set Elimination Schemes.

(** A JSON tree as the value that holds it. *)
Fixpoint any_of (j : json) : go_any :=
  match j with
  | JNull => ANil
  | JBool b => ABool b
  | JNum z => ANum z
  | JStr s => AStr s
  | JArr l => AList (map any_of l)
  | JObj fs => AMap (map (λ f, (f.1, any_of f.2)) fs)
  end.

(** The metadata of an event that is built from JSON values. *)
Definition metadata_of (j : json) : list (string * go_any) :=
  match any_of j with AMap fields => fields | _ => [] end.

(** ** Text *)

Fixpoint Contains_text (s sub : string) : bool :=
  HasPrefix s sub || match s with EmptyString => false | String _ s' => Contains_text s' sub end.

Fixpoint HasSuffix (s suffix : string) : bool :=
  String.eqb s suffix || match s with EmptyString => false | String _ s' => HasSuffix s' suffix end.

Definition replacement_rune : string :=
  String (ascii_of_byte 239) (String (ascii_of_byte 191) (String (ascii_of_byte 189) "")).
Definition ellipsis : string :=
  String (ascii_of_byte 226) (String (ascii_of_byte 128) (String (ascii_of_byte 166) "")).

(** [[]rune(s)], every rune as its encoding; a byte that begins no rune decodes to
    the replacement character. *)
Fixpoint runes_from (skip : nat) (s : string) : list string :=
  match s with
  | EmptyString => []
  | String c s' =>
      match skip with
      | S n => runes_from n s'
      | O =>
          if is_ascii_byte c then String c "" :: runes_from 0 s'
          else match utf8_len s with
               | Some n => String.substring 0 n s :: runes_from (n - 1) s'
               | None => replacement_rune :: runes_from 0 s'
               end
      end
  end.

Definition runes (s : string) : list string := runes_from 0 s.

Definition rune_count (s : string) : Z := Z.of_nat (length (runes s)).

(* src/internal/audit/metadata.go:120-131 boundedString *)
Definition boundedString (value : string) (budget : Z) : string * Z :=
  let limit := if budget <? maxMetadataString then budget else maxMetadataString in
  let value := if limit <? rune_count value
               then Join (take (Z.to_nat limit) (runes value)) "" +:+ ellipsis else value in
  (value, budget - rune_count value).

Definition is_alnum (c : ascii) : bool := is_digit c || is_letter c.

Fixpoint string_filter (p : ascii → bool) (s : string) : string :=
  match s with
  | EmptyString => EmptyString
  | String c s' => if p c then String c (string_filter p s') else string_filter p s'
  end.

(** [result[key] = value] on the fields of an object. *)
Fixpoint set_field (k : string) (v : json) (fs : list (string * json)) : list (string * json) :=
  match fs with
  | [] => [(k, v)]
  | f :: fs' => if f.1 =?? k then (k, v) :: fs' else f :: set_field k v fs'
  end.

Section metadata.
Context {R : Runtime}.

(* src/internal/audit/metadata.go:134-139 sensitiveMetadataKey *)
Definition normalized_key (key : string) : string :=
  if is_ascii key then string_map lower_byte (string_filter is_alnum key) else uni_LowerAlnum key.

(* src/internal/audit/metadata.go:133-158 sensitiveMetadataKey *)
Definition sensitiveMetadataKey (key : string) : bool :=
  let normalized := normalized_key key in
  if bool_decide (normalized ∈ sensitiveMetadataKeys) then true
  else if (normalized =?? "destinationsummary") || (normalized =?? "destinationreplaced") ||
          HasPrefix normalized "querylog" then false
  else if existsb (Contains_text normalized) sensitiveFragments then true
  else HasSuffix normalized "rule" || HasSuffix normalized "rules".

(** The loop over the sorted keys; [safe] is [safeValue] one level deeper. *)
(* src/internal/audit/metadata.go:57-69 safeObject *)
Fixpoint safe_fields (safe : go_any → Z → json * Z) (fs : list (string * go_any))
  (result : list (string * json)) (budget : Z) : list (string * json) * Z :=
  match fs with
  | [] => (result, budget)
  | (key, input) :: rest =>
      if budget <=? 0 then (set_field "truncated" (JBool true) result, budget)
      else
        let budget := budget - len key in
        if sensitiveMetadataKey key
        then safe_fields safe rest (set_field key (JStr "[REDACTED]") result) budget
        else
          let '(value, budget) := safe input budget in
          safe_fields safe rest (set_field key value result) budget
  end.

(* src/internal/audit/metadata.go:99-104 safeValue *)
Fixpoint safe_items (safe : go_any → Z → json * Z) (items : list go_any) (budget : Z)
  : list json * Z :=
  match items with
  | [] => ([], budget)
  | item :: rest =>
      let '(value, budget) := safe item budget in
      let '(values, budget) := safe_items safe rest budget in
      (value :: values, budget)
  end.

(* src/internal/audit/metadata.go:44-74 safeObject *)
Definition safeObject (safe : go_any → Z → json * Z) (input : list (string * go_any)) (budget : Z)
  : json * Z :=
  if budget <=? 0 then (JObj [("truncated", JBool true)], budget)
  else
    let sorted := sort_Slice (λ a b, String.ltb a.1 b.1) input in
    let '(result, budget) := safe_fields safe (take maxMetadataKeys sorted) [] budget in
    if (maxMetadataKeys <? length input)%nat
    then (JObj (set_field "truncated" (JBool true) result), budget)
    else (JObj result, budget).

(* src/internal/audit/metadata.go:83-86 safeValue *)
Definition safe_text (text : string) (budget : Z) : json * Z :=
  let '(text, budget) := boundedString text budget in (JStr text, budget).

(** The elements of a slice; [safe] is [None] at the last level. *)
(* src/internal/audit/metadata.go:89-109 safeValue *)
Definition safeList (safe : option (go_any → Z → json * Z)) (items : list go_any) (budget : Z) : json * Z :=
  match safe with
  | None => (JArr [JStr "[TRUNCATED]"], budget)
  | Some safe =>
      let '(result, budget) := safe_items safe (take maxMetadataArray items) budget in
      if (maxMetadataArray <? length items)%nat
      then (JArr (result ++ [JStr "[TRUNCATED]"]), budget)
      else (JArr result, budget)
  end.

(** [remaining] counts the levels left: [maxMetadataDepth - depth] in the code. *)
(* src/internal/audit/metadata.go:77-118 safeValue *)
Fixpoint safeValue (remaining : nat) (input : go_any) (budget : Z) : json * Z :=
  if budget <=? 0 then (JStr "[TRUNCATED]", budget)
  else
    let deeper := match remaining with O => None | S remaining => Some (safeValue remaining) end in
    match input with
    | ANil => (JNull, budget)
    | ABool b => (JBool b, budget)
    | ANum z => (JNum z, budget)
    | AStr value => safe_text value budget
    | AStringer text => safe_text text budget
    | AMap fields =>
        match deeper with
        | None => (JObj [("truncated", JBool true)], budget)
        | Some safe => safeObject safe fields budget
        end
    | AList items => safeList deeper items budget
    | AStrings items => safeList deeper (map AStr items) budget
    | AOther text => safe_text text budget
    end.

(** A nil map gives the empty map, as an empty one does. *)
(* src/internal/audit/metadata.go:32-42 SafeMetadata *)
Definition SafeMetadata (metadata : list (string * go_any)) : json :=
  (safeObject (safeValue 3) metadata maxMetadataBudget).1.

(** ** Redaction and bounds *)

(** No field with a sensitive name keeps its value, at any depth. *)
Fixpoint redacted (j : json) : bool :=
  match j with
  | JArr l => forallb redacted l
  | JObj fs => forallb (λ f,
      (if sensitiveMetadataKey f.1
       then match f.2 with JStr "[REDACTED]" => true | _ => false end else true) && redacted f.2) fs
  | _ => true
  end.

(** The same metadata without the value of any field of a sensitive name, in nested maps as well. *)
Fixpoint erase_value (v : go_any) : go_any :=
  match v with
  | AMap fs => AMap (map (λ f, (f.1, if sensitiveMetadataKey f.1 then ANil else erase_value f.2)) fs)
  | AList l => AList (map erase_value l)
  | _ => v
  end.

Definition erase_fields (fs : list (string * go_any)) : list (string * go_any) :=
  map (λ f, (f.1, if sensitiveMetadataKey f.1 then ANil else erase_value f.2)) fs.

(** The length of the longest name. *)
Fixpoint longest_name (v : go_any) : Z :=
  match v with
  | AMap fs => foldr (λ f m, Z.max (Z.max (len f.1) (longest_name f.2)) m) 0 fs
  | AList l => foldr (λ x m, Z.max (longest_name x) m) 0 l
  | _ => 0
  end.

(** The size of a stored tree: the bytes of its names and the runes of its texts, without the markers
    the sanitiser puts itself. *)
Fixpoint stored_size (j : json) : nat :=
  match j with
  | JStr s => if (s =?? "[REDACTED]") || (s =?? "[TRUNCATED]") then 0 else length (runes s)
  | JArr l => foldr (λ x m, (stored_size x + m)%nat) 0%nat l
  | JObj fs => foldr (λ f m, ((if f.1 =?? "truncated" then 0 else String.length f.1) + stored_size f.2 + m)%nat) 0%nat fs
  | _ => 0%nat
  end.

(** At most [n] levels of nesting, 65 fields, 33 elements and 513 runes. *)
Fixpoint bounded (n : nat) (j : json) : bool :=
  match j with
  | JStr s => rune_count s <=? maxMetadataString + 1
  | JArr l => match n with
              | O => false
              | S n => (length l <=? S maxMetadataArray)%nat && forallb (bounded n) l
              end
  | JObj fs => match n with
               | O => false
               | S n => (length fs <=? S maxMetadataKeys)%nat && forallb (λ f, bounded n f.2) fs
               end
  | _ => true
  end.
End metadata.

(** ** Runes *)

Lemma substring_0 s : String.substring 0 0 s = "".
Proof. by destruct s. Qed.

Lemma substring_app r t : String.substring 0 (String.length r) (r +:+ t) = r.
Proof. induction r as [|c r IH]; [apply substring_0|]. rewrite string_app_cons. cbn. by rewrite IH. Qed.

(** A text that decodes to itself as one rune, whatever follows. *)
Definition is_rune (r : string) : Prop := ∀ t, runes_from 0 (r +:+ t) = r :: runes_from 0 t.

Lemma utf8_len_prefix s n : utf8_len s = Some n →
  (∀ t, utf8_len (String.substring 0 n s +:+ t) = Some n) ∧
  String.length (String.substring 0 n s) = n ∧ (2 <= n)%nat.
Proof.
  destruct s as [|c0 [|c1 rest]]; try done. intros E.
  assert (H : ∀ t, utf8_len (String.substring 0 n (String c0 (String c1 rest)) +:+ t) = Some n ∧
    String.length (String.substring 0 n (String c0 (String c1 rest))) = n ∧ (2 <= n)%nat);
    [|split_and!; [intros t; apply H|apply (H "")..]].
  intros t. unfold utf8_len in E.
  destruct ((194 <=? byte_of c0) && (byte_of c0 <=? 223)) eqn:E1.
  - case_match eqn:E2; [|done]. injection E as <-. cbn [String.substring]. rewrite ?substring_0.
    rewrite !string_app_cons, ?string_app_nil_l. unfold utf8_len. rewrite E1, E2. split_and!; [done|done|lia].
  - destruct rest as [|c2 rest]; [done|].
    destruct ((224 <=? byte_of c0) && (byte_of c0 <=? 239)) eqn:E2.
    + case_match eqn:E3; [|done]. injection E as <-. cbn [String.substring]. rewrite ?substring_0.
      rewrite !string_app_cons, ?string_app_nil_l. unfold utf8_len. rewrite E1, E2, E3. split_and!; [done|done|lia].
    + destruct rest as [|c3 rest]; [done|].
      case_match eqn:E3; [|done]. case_match eqn:E4; [|done]. injection E as <-.
      cbn [String.substring]. rewrite ?substring_0, !string_app_cons, ?string_app_nil_l. unfold utf8_len.
      rewrite E1, E2, E3, E4. split_and!; [done|done|lia].
Qed.

Lemma runes_skip r t : runes_from (String.length r) (r +:+ t) = runes_from 0 t.
Proof. induction r as [|c r IH]; [done|]. rewrite string_app_cons. cbn. apply IH. Qed.

Lemma runes_are_runes s : ∀ skip, Forall is_rune (runes_from skip s).
Proof.
  induction s as [|c s IH]; intros skip; [constructor|]. cbn [runes_from].
  destruct skip as [|n]; [|apply IH]. destruct (is_ascii_byte c) eqn:Ec.
  - constructor; [|apply IH]. intros t. rewrite string_app_cons, ?string_app_nil_l. cbn [runes_from].
    by rewrite Ec.
  - destruct (utf8_len (String c s)) as [n|] eqn:E; (constructor; [|apply IH]).
    + destruct (utf8_len_prefix _ _ E) as (Hu & Hl & Hn). intros t. specialize (Hu t).
      destruct n as [|n]; [lia|]. cbn [String.substring] in *. rewrite string_app_cons in *.
      cbn [runes_from]. rewrite Ec, Hu. cbn in Hl. injection Hl as Hl.
      cbn [String.substring Nat.sub]. rewrite ?Nat.sub_0_r. set (r := String.substring 0 n s) in *.
      rewrite <- Hl at 1 2. by rewrite substring_app, runes_skip.
    + intros t. by destruct t.
Qed.

Lemma runes_Join rs t : Forall is_rune rs → runes (Join rs "" +:+ t) = rs ++ runes t.
Proof.
  unfold runes. intros H. induction H as [|r rs Hr Hrs IH]; [done|].
  assert (Join (r :: rs) "" +:+ t = r +:+ (Join rs "" +:+ t)) as ->.
  { destruct rs; cbn [Join]; [by rewrite string_app_nil_l|by rewrite !string_app_assoc]. }
  rewrite Hr. cbn. by rewrite IH.
Qed.

Lemma boundedString_runes s budget : 0 < budget →
  rune_count (boundedString s budget).1 <= maxMetadataString + 1.
Proof.
  intros Hb. unfold boundedString, maxMetadataString. cbv zeta. cbn [fst].
  set (limit := if budget <? 512 then budget else 512).
  assert (0 < limit <= 512) by (unfold limit; destruct (budget <? 512) eqn:E; bool_simp; lia).
  destruct (limit <? rune_count s) eqn:E; bool_simp; [|lia]. unfold rune_count at 1.
  rewrite runes_Join by (apply Forall_take, runes_are_runes).
  rewrite length_app, length_take. change (length (runes ellipsis)) with 1%nat. lia.
Qed.

(** ** The sanitised tree *)

Section sanitised.
Context {R : Runtime}.

Lemma set_field_forallb (p : string * json → bool) k v fs :
  p (k, v) = true → forallb p fs = true → forallb p (set_field k v fs) = true.
Proof.
  intros Hkv. induction fs as [|f fs IH]; cbn; [by rewrite Hkv|].
  intros [Hf Hfs]%andb_prop. case_bool_decide; cbn; [by rewrite Hkv, Hfs|].
  by rewrite Hf, IH.
Qed.

Lemma set_field_length k v fs : (length (set_field k v fs) <= S (length fs))%nat.
Proof. induction fs as [|f fs IH]; cbn; [done|]. case_bool_decide; cbn; lia. Qed.

Lemma safe_fields_forallb (p : string * json → bool) safe fs :
  p ("truncated", JBool true) = true →
  (∀ k, sensitiveMetadataKey k = true → p (k, JStr "[REDACTED]") = true) →
  (∀ k v b, sensitiveMetadataKey k = false → p (k, (safe v b).1) = true) →
  ∀ result budget, forallb p result = true →
    forallb p (safe_fields safe fs result budget).1 = true.
Proof.
  intros Ht Hr Hs. induction fs as [|[k v] fs IH]; intros result budget H; cbn [safe_fields]; [done|].
  destruct (budget <=? 0); [by apply set_field_forallb|].
  destruct (sensitiveMetadataKey k) eqn:Ek; [apply IH, set_field_forallb; auto|].
  destruct (safe v _) as [w b] eqn:E. apply IH, set_field_forallb; [|done].
  specialize (Hs k v (budget - len k) Ek). by rewrite E in Hs.
Qed.

Lemma safe_fields_length safe fs : ∀ result budget,
  (length (safe_fields safe fs result budget).1 <= length result + length fs)%nat.
Proof.
  induction fs as [|[k v] fs IH]; intros result budget; cbn [safe_fields length]; [cbn; lia|].
  destruct (budget <=? 0); [cbn; pose proof (set_field_length "truncated" (JBool true) result); lia|].
  destruct (sensitiveMetadataKey k).
  - etransitivity; [apply IH|]. pose proof (set_field_length k (JStr "[REDACTED]") result). lia.
  - destruct (safe v _) as [w b]. etransitivity; [apply IH|]. pose proof (set_field_length k w result). lia.
Qed.

Lemma safe_items_forall (p : json → bool) safe items :
  (∀ v b, p (safe v b).1 = true) → ∀ budget,
  forallb p (safe_items safe items budget).1 = true ∧
  length (safe_items safe items budget).1 = length items.
Proof.
  intros Hs. induction items as [|v items IH]; intros budget; cbn [safe_items]; [done|].
  specialize (Hs v budget). destruct (safe v budget) as [w b]. specialize (IH b).
  destruct (safe_items safe items b). cbn in *. destruct IH as [-> ->]. by rewrite Hs.
Qed.

Lemma safeObject_redacted safe fs budget :
  (∀ v b, redacted (safe v b).1 = true) → redacted (safeObject safe fs budget).1 = true.
Proof.
  intros Hs. unfold safeObject. destruct (budget <=? 0); [done|].
  pose proof (safe_fields_forallb (λ f, (if sensitiveMetadataKey f.1
       then match f.2 with JStr "[REDACTED]" => true | _ => false end else true) && redacted f.2)
    safe (take maxMetadataKeys (sort_Slice (λ a b, String.ltb a.1 b.1) fs)) eq_refl
    ltac:(intros k Hk; cbn; by rewrite Hk) ltac:(intros k v b Hk; cbn; by rewrite Hk, Hs)
    [] budget eq_refl) as H.
  destruct (safe_fields _ _ _ _) as [result b]. cbn [fst] in H.
  destruct (_ <? _)%nat; [by apply set_field_forallb|done].
Qed.

Lemma safe_text_forall (p : json → bool) text b :
  p (JStr (boundedString text b).1) = true → p (safe_text text b).1 = true.
Proof. unfold safe_text. by destruct (boundedString text b). Qed.

Lemma safeList_redacted safe items b :
  (∀ f, safe = Some f → ∀ v b, redacted (f v b).1 = true) → redacted (safeList safe items b).1 = true.
Proof.
  intros Hs. destruct safe as [safe|]; [|done]. cbn [safeList].
  destruct (safe_items_forall redacted safe (take maxMetadataArray items) (Hs safe eq_refl) b) as [H _].
  destruct (safe_items _ _ _) as [result b']. cbn [fst] in H.
  destruct (_ <? _)%nat; cbn; [by rewrite forallb_app, H|done].
Qed.

Lemma safeValue_redacted n : ∀ v b, redacted (safeValue n v b).1 = true.
Proof.
  induction n as [|n IH]; intros v b; cbn [safeValue]; (destruct (b <=? 0); [done|]);
    destruct v as [| | |s|s|fs|items|items|s]; try done;
    first [by apply safe_text_forall|by apply safeObject_redacted|apply safeList_redacted; by intros f [= <-]].
Qed.

Lemma safeObject_bounded n safe fs budget :
  (∀ v b, bounded n (safe v b).1 = true) → bounded (S n) (safeObject safe fs budget).1 = true.
Proof.
  intros Hs. unfold safeObject.
  assert (Ht : bounded n (JBool true) = true) by by destruct n.
  destruct (budget <=? 0); [by cbn; rewrite Ht|].
  set (ks := take _ _).
  pose proof (safe_fields_forallb (λ f, bounded n f.2) safe ks Ht
    ltac:(intros; by destruct n) ltac:(intros k v b _; cbn; by rewrite Hs) [] budget eq_refl) as H.
  pose proof (safe_fields_length safe ks [] budget) as Hl.
  assert (length ks <= maxMetadataKeys)%nat as Hk by (unfold ks; rewrite length_take; lia).
  destruct (safe_fields _ _ _ _) as [result b]. cbn [fst length] in *.
  destruct (_ <? _)%nat; cbn [fst bounded]; apply andb_true_iff; split.
  - pose proof (set_field_length "truncated" (JBool true) result). apply Nat.leb_le. lia.
  - by apply set_field_forallb.
  - apply Nat.leb_le. lia.
  - done.
Qed.

Lemma bounded_arr n l : bounded (S n) (JArr l) =
  (length l <=? S maxMetadataArray)%nat && forallb (bounded n) l.
Proof. done. Qed.

Lemma bounded_text n text b : 0 < b → bounded n (safe_text text b).1 = true.
Proof. intros H. apply safe_text_forall. destruct n; cbn; by apply Z.leb_le, boundedString_runes. Qed.

Lemma safeList_bounded n safe items b :
  (∀ f, safe = Some f → ∀ v b, bounded n (f v b).1 = true) → bounded (S n) (safeList safe items b).1 = true.
Proof.
  intros Hs. destruct safe as [safe|]; [|by destruct n]. cbn [safeList].
  destruct (safe_items_forall (bounded n) safe (take maxMetadataArray items) (Hs safe eq_refl) b) as [H Hl].
  assert (length (take maxMetadataArray items) <= maxMetadataArray)%nat by (rewrite length_take; lia).
  destruct (safe_items _ _ _) as [result b']. cbn [fst] in *.
  destruct (_ <? _)%nat; cbn [fst]; rewrite bounded_arr; apply andb_true_iff; split.
  - apply Nat.leb_le. rewrite length_app. cbn [length]. lia.
  - rewrite forallb_app, H. by destruct n.
  - apply Nat.leb_le. lia.
  - done.
Qed.

Lemma safeValue_bounded n : ∀ v b, bounded (S n) (safeValue n v b).1 = true.
Proof.
  induction n as [|n IH]; intros v b; cbn [safeValue]; (destruct (b <=? 0) eqn:Eb; [done|]); bool_simp;
    destruct v as [| | |s|s|fs|items|items|s]; try done;
    first [by apply bounded_text|by apply safeObject_bounded|apply safeList_bounded; by intros f [= <-]].
Qed.

(** ** Independence of the sensitive values *)

Lemma safe_fields_erase safe fs : (∀ v b, safe (erase_value v) b = safe v b) → ∀ result budget,
  safe_fields safe (erase_fields fs) result budget = safe_fields safe fs result budget.
Proof.
  intros Hs. induction fs as [|[k v] fs IH]; intros result budget; [done|].
  cbn [erase_fields map fst snd safe_fields]. destruct (budget <=? 0); [done|].
  destruct (sensitiveMetadataKey k); [apply IH|]. rewrite Hs. destruct (safe v _). apply IH.
Qed.

Lemma safe_items_erase safe items : (∀ v b, safe (erase_value v) b = safe v b) → ∀ budget,
  safe_items safe (map erase_value items) budget = safe_items safe items budget.
Proof.
  intros Hs. induction items as [|v items IH]; intros budget; [done|]. cbn [map safe_items]. rewrite Hs.
  destruct (safe v budget) as [w b]. by rewrite IH.
Qed.

Lemma safeObject_erase safe fs budget : (∀ v b, safe (erase_value v) b = safe v b) →
  safeObject safe (erase_fields fs) budget = safeObject safe fs budget.
Proof.
  intros Hs. unfold safeObject, erase_fields. destruct (budget <=? 0); [done|].
  rewrite (sort_Slice_map (λ a b, String.ltb a.1 b.1)), length_map by done. rewrite firstn_map.
  fold (erase_fields (take maxMetadataKeys (sort_Slice (λ a b, String.ltb a.1 b.1) fs))).
  by rewrite safe_fields_erase.
Qed.

Lemma safeList_erase safe items b : (∀ f, safe = Some f → ∀ v b, f (erase_value v) b = f v b) →
  safeList safe (map erase_value items) b = safeList safe items b.
Proof.
  intros Hs. destruct safe as [safe|]; [|done]. cbn [safeList].
  by rewrite firstn_map, safe_items_erase, length_map by (by apply Hs).
Qed.

Lemma safeValue_erase n : ∀ v b, safeValue n (erase_value v) b = safeValue n v b.
Proof.
  induction n as [|n IH]; intros v b; destruct v as [| | |s|s|fs|items|items|s]; cbn [erase_value]; try done;
    cbn [safeValue]; destruct (b <=? 0); try done;
    first [by apply safeObject_erase|apply safeList_erase; by intros f [= <-]].
Qed.

(** ** The budget *)

(** A call spends at least the size of its result, and overdraws the budget by at most [K], the length
    of a name that fits no more. *)
Definition spends (K b : Z) (r : json * Z) : Prop := Z.of_nat (stored_size r.1) + r.2 <= b ∧ - K <= r.2.

Definition spends_within (K : Z) (safe : go_any → Z → json * Z) : Prop :=
  ∀ v b, longest_name v <= K → - K <= b → spends K b (safe v b).

Lemma safe_text_spends K text b : 1 <= K → 0 < b → spends K b (safe_text text b).
Proof.
  intros HK Hb. unfold spends, safe_text, boundedString. cbv zeta. cbn [fst snd stored_size].
  set (limit := if b <? maxMetadataString then b else maxMetadataString).
  assert (0 < limit <= b) by (unfold limit, maxMetadataString; destruct (b <? 512) eqn:E; bool_simp; lia).
  set (text' := if limit <? rune_count text then _ else text).
  assert (rune_count text' <= limit + 1).
  { unfold text'. destruct (limit <? rune_count text) eqn:E; bool_simp; [|lia]. unfold rune_count.
    rewrite runes_Join by (apply Forall_take, runes_are_runes). rewrite length_app, length_take.
    change (length (runes ellipsis)) with 1%nat. lia. }
  unfold rune_count in *. destruct (_ || _); lia.
Qed.

Definition size_fields (fs : list (string * json)) : nat :=
  foldr (λ f m, ((if f.1 =?? "truncated" then 0 else String.length f.1) + stored_size f.2 + m)%nat) 0%nat fs.

Lemma size_set_field k v fs :
  (size_fields (set_field k v fs) <= (if k =?? "truncated" then 0 else String.length k) + stored_size v + size_fields fs)%nat.
Proof.
  induction fs as [|f fs IH]; cbn [set_field]; [done|].
  destruct (f.1 =?? k); cbn [size_fields foldr fst snd]; [fold (size_fields fs); lia|].
  fold (size_fields fs) (size_fields (set_field k v fs)). lia.
Qed.

Lemma size_truncated fs : (size_fields (set_field "truncated" (JBool true) fs) <= size_fields fs)%nat.
Proof. exact (size_set_field "truncated" (JBool true) fs). Qed.

(** Every name and every value stays spends_within [K]. *)
Definition names_within (K : Z) (fs : list (string * go_any)) : Prop :=
  Forall (λ f, len f.1 <= K ∧ longest_name f.2 <= K) fs.

Lemma names_within_longest K fs : longest_name (AMap fs) <= K → names_within K fs.
Proof.
  cbn [longest_name]. induction fs as [|f fs IH]; cbn [foldr]; intros H; constructor; [lia|]. apply IH. lia.
Qed.

Lemma items_within K l : longest_name (AList l) <= K → Forall (λ v, longest_name v <= K) l.
Proof.
  cbn [longest_name]. induction l as [|v l IH]; cbn [foldr]; intros H; constructor; [lia|]. apply IH. lia.
Qed.

Lemma safe_fields_spends K safe fs : spends_within K safe → names_within K fs → ∀ result b, - K <= b →
  Z.of_nat (size_fields (safe_fields safe fs result b).1) + (safe_fields safe fs result b).2 <=
    b + Z.of_nat (size_fields result) ∧ - K <= (safe_fields safe fs result b).2.
Proof.
  intros Hs Hfs. induction Hfs as [|[k v] fs [Hk Hv] _ IH]; intros result b Hb; cbn [safe_fields]; [cbn [fst snd]; lia|].
  destruct (b <=? 0) eqn:Eb; bool_simp; [pose proof (size_truncated result); cbn [fst snd]; lia|].
  cbn [fst snd] in Hk, Hv. pose proof (λ w, size_set_field k w result) as Hw. unfold len in *.
  assert ((if k =?? "truncated" then 0 else String.length k) <= String.length k)%nat by (destruct (k =?? _); lia).
  destruct (sensitiveMetadataKey k).
  - specialize (Hw (JStr "[REDACTED]")). change (stored_size (JStr "[REDACTED]")) with 0%nat in Hw.
    destruct (IH (set_field k (JStr "[REDACTED]") result) (b - Z.of_nat (String.length k))); lia.
  - destruct (Hs v (b - Z.of_nat (String.length k)) Hv) as [H1 H2]; [lia|].
    destruct (safe v _) as [w b']. cbn [fst snd] in *. specialize (Hw w).
    destruct (IH (set_field k w result) b'); lia.
Qed.

Lemma safeObject_spends K safe fs b : spends_within K safe → longest_name (AMap fs) <= K → - K <= b →
  spends K b (safeObject safe fs b).
Proof.
  intros Hs Hfs Hb. unfold safeObject, spends. destruct (b <=? 0).
  { change (stored_size (JObj [("truncated", JBool true)], b).1) with 0%nat. cbn [snd]. lia. }
  assert (names_within K (take maxMetadataKeys (sort_Slice (λ a b, String.ltb a.1 b.1) fs))) as Hn.
  { apply Forall_take. unfold names_within. rewrite sort_Slice_perm. by apply names_within_longest. }
  destruct (safe_fields_spends K safe _ Hs Hn [] b Hb) as [H1 H2].
  destruct (safe_fields _ _ _ _) as [result b']. cbn [fst snd size_fields foldr] in *.
  pose proof (size_truncated result). unfold size_fields in *.
  destruct (_ <? _)%nat; cbn [fst snd stored_size] in *; lia.
Qed.

Lemma size_arr_marker l : stored_size (JArr (l ++ [JStr "[TRUNCATED]"])) = stored_size (JArr l).
Proof. cbn [stored_size]. induction l as [|x l IH]; cbn [app foldr]; [done|]. by rewrite IH. Qed.

Lemma safe_items_spends K safe l : spends_within K safe → Forall (λ v, longest_name v <= K) l → ∀ b, - K <= b →
  Z.of_nat (stored_size (JArr (safe_items safe l b).1)) + (safe_items safe l b).2 <= b ∧
  - K <= (safe_items safe l b).2.
Proof.
  intros Hs Hl. induction Hl as [|v l Hv _ IH]; intros b Hb; cbn [safe_items]; [cbn [fst snd stored_size foldr]; lia|].
  destruct (Hs v b Hv Hb) as [H1 H2]. destruct (safe v b) as [w b']. cbn [fst snd] in *.
  destruct (IH b' H2) as [H3 H4]. destruct (safe_items safe l b') as [ws b'']. cbn [fst snd stored_size foldr] in *. lia.
Qed.

Lemma safeList_spends K safe l b : (∀ f, safe = Some f → spends_within K f) → longest_name (AList l) <= K → - K <= b →
  spends K b (safeList safe l b).
Proof.
  intros Hs Hl Hb. destruct safe as [safe|]; [|split; [change (stored_size (safeList None l b).1) with 0%nat|]; cbn [safeList snd]; lia]. cbn [safeList].
  destruct (safe_items_spends K safe (take maxMetadataArray l) (Hs _ eq_refl)
    ltac:(by apply Forall_take, items_within) b Hb) as [H1 H2].
  destruct (safe_items _ _ _) as [result b']. unfold spends.
  destruct (_ <? _)%nat; rewrite ?size_arr_marker; cbn [fst snd] in *; [rewrite size_arr_marker|]; lia.
Qed.

Lemma longest_name_strings l : longest_name (AList (map AStr l)) = 0.
Proof. cbn [longest_name]. induction l as [|s l IH]; cbn [map foldr]; [done|]. rewrite IH. done. Qed.

Lemma safeValue_spends K n : 1 <= K → spends_within K (safeValue n).
Proof.
  intros HK. assert (Hkept : ∀ b j, stored_size j = 0%nat → - K <= b → spends K b (j, b)).
  { intros b j Hj Hb. unfold spends. cbn [fst snd]. rewrite Hj. lia. }
  induction n as [|n IH]; intros v b Hv Hb; destruct v as [| | |s|s|fs|items|items|s]; cbn [safeValue];
    (destruct (b <=? 0) eqn:Eb; [by apply Hkept|]); bool_simp;
    first [by apply Hkept|by apply safe_text_spends|by apply safeObject_spends|
      apply safeList_spends; [by intros f [= <-]|rewrite ?longest_name_strings; first [done|lia]|done]].
Qed.

(** C32: whatever the metadata of an event holds, a [fmt.Stringer] and a value of any other type
    included: the stored metadata has no field of a sensitive name with another value than the marker,
    at any depth; the stored metadata is that of the metadata without the values of these fields, in the
    map and in every nested map, so it tells nothing of them; it has at most five levels of at most 65 fields
    and 33 elements, with texts of at most 513 runes; and its names and texts together exceed the
    budget of 8192 by at most one name.  The printed text of a value that is not a map, a slice or a
    string is kept as it is: nothing is redacted inside of it. *)
Theorem SafeMetadata_redacts metadata :
  redacted (SafeMetadata metadata) = true ∧
  SafeMetadata (erase_fields metadata) = SafeMetadata metadata ∧
  bounded 5 (SafeMetadata metadata) = true ∧
  Z.of_nat (stored_size (SafeMetadata metadata)) <= maxMetadataBudget + Z.max 1 (longest_name (AMap metadata)).
Proof.
  unfold SafeMetadata. split_and!.
  - apply safeObject_redacted, safeValue_redacted.
  - by rewrite safeObject_erase by (intros; apply safeValue_erase).
  - by apply (safeObject_bounded 4), safeValue_bounded.
  - set (K := Z.max 1 (longest_name (AMap metadata))).
    destruct (safeObject_spends K (safeValue 3) metadata maxMetadataBudget) as [H1 H2];
      [apply safeValue_spends; lia|lia|unfold maxMetadataBudget; lia|lia].
Qed.

(** A value that is printed keeps what it prints, sensitive or not. *)
Example printed_value_kept :
  SafeMetadata [("details", AOther "map[password:hunter2]")] =
  JObj [("details", JStr "map[password:hunter2]")].
Proof. by vm_compute. Qed.

(** The budget does not shorten a name. *)
Example name_kept : let name := String.concat "" (replicate (Pos.to_nat 9000) "n") in
  SafeMetadata [(name, AStr "value")] = JObj [(name, JStr "[TRUNCATED]")].
Proof. by vm_compute. Qed.
End sanitised.
