(* ===== verification/ControlModel.v ===== *)
(** * The data of the control plane

    internal/controlplane/model.go and the observations of
    internal/inventory/service.go.  The setters stand for the assignments and
    [UPDATE]s of single fields. *)

From S2P Require Import Prelude GoRuntime Json Domain Configuration.

(** ** Observations and drafts *)

(* src/internal/inventory/service.go:14-22 CapabilityProfile *)
Record CapabilityProfile := mkCapabilityProfile {
  CapabilityProfile_NodeID : string;
  CapabilityProfile_ProductVersion : string;
  CapabilityProfile_Compatibility : string;
  CapabilityProfile_SchemaVersion : Z;
  CapabilityProfile_Features : gmap string bool;
  CapabilityProfile_Warnings : list string;
  CapabilityProfile_RefreshedAt : Time
}.

(* src/internal/inventory/service.go:24-34 Snapshot *)
Record Snapshot := mkSnapshot {
  Snapshot_ID : string;
  Snapshot_NodeID : string;
  Snapshot_ObservedAt : Time;
  Snapshot_SchemaVersion : Z;
  Snapshot_Document : option Document;
  Snapshot_CanonicalHash : string;
  Snapshot_NodeVersion : string;
  Snapshot_CollectionStatus : string;
  Snapshot_ErrorCode : string
}.

(* src/internal/inventory/service.go:36-47 Draft *)
Record Draft := mkDraft {
  Draft_ID : string;
  Draft_ClusterID : string;
  Draft_SourceSnapshotID : string;
  Draft_BaseRevisionID : option string;
  Draft_SchemaVersion : Z;
  Draft_Document : DesiredDocument;
  Draft_CanonicalHash : string;
  Draft_Version : Z;
  Draft_UpdatedBy : string;
  Draft_UpdatedAt : Time
}.

(** ** Revisions *)

(* src/internal/controlplane/model.go:25-29 Lifecycle *)
Record Lifecycle := mkLifecycle {
  Lifecycle_CanArchive : bool;
  Lifecycle_CanRestore : bool;
  Lifecycle_CanDelete : bool
}.

(* src/internal/controlplane/model.go:9-23 Revision *)
Record Revision := mkRevision {
  Revision_ID : string;
  Revision_ClusterID : string;
  Revision_RevisionNumber : Z;
  Revision_SchemaVersion : Z;
  Revision_Document : DesiredDocument;
  Revision_CanonicalHash : string;
  Revision_Summary : string;
  Revision_CreatedBy : string;
  Revision_CreatedAt : Time;
  Revision_Active : bool;
  Revision_ArchivedAt : option Time;
  Revision_ArchivedBy : option string;
  Revision_Lifecycle : Lifecycle
}.

Definition set_Revision_RevisionNumber (v : Z) (x : Revision) : Revision :=
  mkRevision (Revision_ID x) (Revision_ClusterID x) v (Revision_SchemaVersion x) (Revision_Document x) (Revision_CanonicalHash x) (Revision_Summary x) (Revision_CreatedBy x) (Revision_CreatedAt x) (Revision_Active x) (Revision_ArchivedAt x) (Revision_ArchivedBy x) (Revision_Lifecycle x).
Definition set_Revision_ArchivedAt (v : option Time) (x : Revision) : Revision :=
  mkRevision (Revision_ID x) (Revision_ClusterID x) (Revision_RevisionNumber x) (Revision_SchemaVersion x) (Revision_Document x) (Revision_CanonicalHash x) (Revision_Summary x) (Revision_CreatedBy x) (Revision_CreatedAt x) (Revision_Active x) v (Revision_ArchivedBy x) (Revision_Lifecycle x).
Definition set_Revision_ArchivedBy (v : option string) (x : Revision) : Revision :=
  mkRevision (Revision_ID x) (Revision_ClusterID x) (Revision_RevisionNumber x) (Revision_SchemaVersion x) (Revision_Document x) (Revision_CanonicalHash x) (Revision_Summary x) (Revision_CreatedBy x) (Revision_CreatedAt x) (Revision_Active x) (Revision_ArchivedAt x) v (Revision_Lifecycle x).

(** ** Deployments *)

(* src/internal/controlplane/model.go:53-66 DeploymentNode *)
Record DeploymentNode := mkDeploymentNode {
  DeploymentNode_ID : string;
  DeploymentNode_DeploymentID : string;
  DeploymentNode_NodeID : string;
  DeploymentNode_Position : Z;
  DeploymentNode_EffectiveHash : string;
  DeploymentNode_Status : string;
  DeploymentNode_AttemptCount : Z;
  DeploymentNode_StartedAt : option Time;
  DeploymentNode_CompletedAt : option Time;
  DeploymentNode_ErrorCode : string;
  DeploymentNode_ErrorMessage : string;
  DeploymentNode_VerificationSnapshotID : option string
}.

Definition set_DeploymentNode_Status (v : string) (x : DeploymentNode) : DeploymentNode :=
  mkDeploymentNode (DeploymentNode_ID x) (DeploymentNode_DeploymentID x) (DeploymentNode_NodeID x) (DeploymentNode_Position x) (DeploymentNode_EffectiveHash x) v (DeploymentNode_AttemptCount x) (DeploymentNode_StartedAt x) (DeploymentNode_CompletedAt x) (DeploymentNode_ErrorCode x) (DeploymentNode_ErrorMessage x) (DeploymentNode_VerificationSnapshotID x).
Definition set_DeploymentNode_AttemptCount (v : Z) (x : DeploymentNode) : DeploymentNode :=
  mkDeploymentNode (DeploymentNode_ID x) (DeploymentNode_DeploymentID x) (DeploymentNode_NodeID x) (DeploymentNode_Position x) (DeploymentNode_EffectiveHash x) (DeploymentNode_Status x) v (DeploymentNode_StartedAt x) (DeploymentNode_CompletedAt x) (DeploymentNode_ErrorCode x) (DeploymentNode_ErrorMessage x) (DeploymentNode_VerificationSnapshotID x).
Definition set_DeploymentNode_StartedAt (v : option Time) (x : DeploymentNode) : DeploymentNode :=
  mkDeploymentNode (DeploymentNode_ID x) (DeploymentNode_DeploymentID x) (DeploymentNode_NodeID x) (DeploymentNode_Position x) (DeploymentNode_EffectiveHash x) (DeploymentNode_Status x) (DeploymentNode_AttemptCount x) v (DeploymentNode_CompletedAt x) (DeploymentNode_ErrorCode x) (DeploymentNode_ErrorMessage x) (DeploymentNode_VerificationSnapshotID x).
Definition set_DeploymentNode_CompletedAt (v : option Time) (x : DeploymentNode) : DeploymentNode :=
  mkDeploymentNode (DeploymentNode_ID x) (DeploymentNode_DeploymentID x) (DeploymentNode_NodeID x) (DeploymentNode_Position x) (DeploymentNode_EffectiveHash x) (DeploymentNode_Status x) (DeploymentNode_AttemptCount x) (DeploymentNode_StartedAt x) v (DeploymentNode_ErrorCode x) (DeploymentNode_ErrorMessage x) (DeploymentNode_VerificationSnapshotID x).
Definition set_DeploymentNode_ErrorCode (v : string) (x : DeploymentNode) : DeploymentNode :=
  mkDeploymentNode (DeploymentNode_ID x) (DeploymentNode_DeploymentID x) (DeploymentNode_NodeID x) (DeploymentNode_Position x) (DeploymentNode_EffectiveHash x) (DeploymentNode_Status x) (DeploymentNode_AttemptCount x) (DeploymentNode_StartedAt x) (DeploymentNode_CompletedAt x) v (DeploymentNode_ErrorMessage x) (DeploymentNode_VerificationSnapshotID x).
Definition set_DeploymentNode_ErrorMessage (v : string) (x : DeploymentNode) : DeploymentNode :=
  mkDeploymentNode (DeploymentNode_ID x) (DeploymentNode_DeploymentID x) (DeploymentNode_NodeID x) (DeploymentNode_Position x) (DeploymentNode_EffectiveHash x) (DeploymentNode_Status x) (DeploymentNode_AttemptCount x) (DeploymentNode_StartedAt x) (DeploymentNode_CompletedAt x) (DeploymentNode_ErrorCode x) v (DeploymentNode_VerificationSnapshotID x).
Definition set_DeploymentNode_VerificationSnapshotID (v : option string) (x : DeploymentNode) : DeploymentNode :=
  mkDeploymentNode (DeploymentNode_ID x) (DeploymentNode_DeploymentID x) (DeploymentNode_NodeID x) (DeploymentNode_Position x) (DeploymentNode_EffectiveHash x) (DeploymentNode_Status x) (DeploymentNode_AttemptCount x) (DeploymentNode_StartedAt x) (DeploymentNode_CompletedAt x) (DeploymentNode_ErrorCode x) (DeploymentNode_ErrorMessage x) v.

(* src/internal/controlplane/model.go:31-51 Deployment *)
Record Deployment := mkDeployment {
  Deployment_ID : string;
  Deployment_ClusterID : string;
  Deployment_RevisionID : string;
  Deployment_Status : string;
  Deployment_Strategy : string;
  Deployment_FailurePolicy : string;
  Deployment_Origin : string;
  Deployment_RollbackOfRevisionID : option string;
  Deployment_RequestedBy : option string;
  Deployment_RequestID : string;
  Deployment_CancelRequested : bool;
  Deployment_ErrorCode : string;
  Deployment_RequestedAt : Time;
  Deployment_StartedAt : option Time;
  Deployment_CompletedAt : option Time;
  Deployment_ArchivedAt : option Time;
  Deployment_ArchivedBy : option string;
  Deployment_Lifecycle : Lifecycle;
  Deployment_Nodes : list DeploymentNode
}.

Definition set_Deployment_Status (v : string) (x : Deployment) : Deployment :=
  mkDeployment (Deployment_ID x) (Deployment_ClusterID x) (Deployment_RevisionID x) v (Deployment_Strategy x) (Deployment_FailurePolicy x) (Deployment_Origin x) (Deployment_RollbackOfRevisionID x) (Deployment_RequestedBy x) (Deployment_RequestID x) (Deployment_CancelRequested x) (Deployment_ErrorCode x) (Deployment_RequestedAt x) (Deployment_StartedAt x) (Deployment_CompletedAt x) (Deployment_ArchivedAt x) (Deployment_ArchivedBy x) (Deployment_Lifecycle x) (Deployment_Nodes x).
Definition set_Deployment_CancelRequested (v : bool) (x : Deployment) : Deployment :=
  mkDeployment (Deployment_ID x) (Deployment_ClusterID x) (Deployment_RevisionID x) (Deployment_Status x) (Deployment_Strategy x) (Deployment_FailurePolicy x) (Deployment_Origin x) (Deployment_RollbackOfRevisionID x) (Deployment_RequestedBy x) (Deployment_RequestID x) v (Deployment_ErrorCode x) (Deployment_RequestedAt x) (Deployment_StartedAt x) (Deployment_CompletedAt x) (Deployment_ArchivedAt x) (Deployment_ArchivedBy x) (Deployment_Lifecycle x) (Deployment_Nodes x).
Definition set_Deployment_ErrorCode (v : string) (x : Deployment) : Deployment :=
  mkDeployment (Deployment_ID x) (Deployment_ClusterID x) (Deployment_RevisionID x) (Deployment_Status x) (Deployment_Strategy x) (Deployment_FailurePolicy x) (Deployment_Origin x) (Deployment_RollbackOfRevisionID x) (Deployment_RequestedBy x) (Deployment_RequestID x) (Deployment_CancelRequested x) v (Deployment_RequestedAt x) (Deployment_StartedAt x) (Deployment_CompletedAt x) (Deployment_ArchivedAt x) (Deployment_ArchivedBy x) (Deployment_Lifecycle x) (Deployment_Nodes x).
Definition set_Deployment_StartedAt (v : option Time) (x : Deployment) : Deployment :=
  mkDeployment (Deployment_ID x) (Deployment_ClusterID x) (Deployment_RevisionID x) (Deployment_Status x) (Deployment_Strategy x) (Deployment_FailurePolicy x) (Deployment_Origin x) (Deployment_RollbackOfRevisionID x) (Deployment_RequestedBy x) (Deployment_RequestID x) (Deployment_CancelRequested x) (Deployment_ErrorCode x) (Deployment_RequestedAt x) v (Deployment_CompletedAt x) (Deployment_ArchivedAt x) (Deployment_ArchivedBy x) (Deployment_Lifecycle x) (Deployment_Nodes x).
Definition set_Deployment_CompletedAt (v : option Time) (x : Deployment) : Deployment :=
  mkDeployment (Deployment_ID x) (Deployment_ClusterID x) (Deployment_RevisionID x) (Deployment_Status x) (Deployment_Strategy x) (Deployment_FailurePolicy x) (Deployment_Origin x) (Deployment_RollbackOfRevisionID x) (Deployment_RequestedBy x) (Deployment_RequestID x) (Deployment_CancelRequested x) (Deployment_ErrorCode x) (Deployment_RequestedAt x) (Deployment_StartedAt x) v (Deployment_ArchivedAt x) (Deployment_ArchivedBy x) (Deployment_Lifecycle x) (Deployment_Nodes x).
Definition set_Deployment_ArchivedAt (v : option Time) (x : Deployment) : Deployment :=
  mkDeployment (Deployment_ID x) (Deployment_ClusterID x) (Deployment_RevisionID x) (Deployment_Status x) (Deployment_Strategy x) (Deployment_FailurePolicy x) (Deployment_Origin x) (Deployment_RollbackOfRevisionID x) (Deployment_RequestedBy x) (Deployment_RequestID x) (Deployment_CancelRequested x) (Deployment_ErrorCode x) (Deployment_RequestedAt x) (Deployment_StartedAt x) (Deployment_CompletedAt x) v (Deployment_ArchivedBy x) (Deployment_Lifecycle x) (Deployment_Nodes x).
Definition set_Deployment_ArchivedBy (v : option string) (x : Deployment) : Deployment :=
  mkDeployment (Deployment_ID x) (Deployment_ClusterID x) (Deployment_RevisionID x) (Deployment_Status x) (Deployment_Strategy x) (Deployment_FailurePolicy x) (Deployment_Origin x) (Deployment_RollbackOfRevisionID x) (Deployment_RequestedBy x) (Deployment_RequestID x) (Deployment_CancelRequested x) (Deployment_ErrorCode x) (Deployment_RequestedAt x) (Deployment_StartedAt x) (Deployment_CompletedAt x) (Deployment_ArchivedAt x) v (Deployment_Lifecycle x) (Deployment_Nodes x).
Definition set_Deployment_Nodes (v : list DeploymentNode) (x : Deployment) : Deployment :=
  mkDeployment (Deployment_ID x) (Deployment_ClusterID x) (Deployment_RevisionID x) (Deployment_Status x) (Deployment_Strategy x) (Deployment_FailurePolicy x) (Deployment_Origin x) (Deployment_RollbackOfRevisionID x) (Deployment_RequestedBy x) (Deployment_RequestID x) (Deployment_CancelRequested x) (Deployment_ErrorCode x) (Deployment_RequestedAt x) (Deployment_StartedAt x) (Deployment_CompletedAt x) (Deployment_ArchivedAt x) (Deployment_ArchivedBy x) (Deployment_Lifecycle x) v.

(** ** Drift *)

(* src/internal/controlplane/model.go:68-86 DriftEvent *)
Record DriftEvent := mkDriftEvent {
  DriftEvent_ID : string;
  DriftEvent_ClusterID : string;
  DriftEvent_NodeID : string;
  DriftEvent_DesiredRevisionID : string;
  DriftEvent_DesiredHash : string;
  DriftEvent_ObservedSnapshotID : string;
  DriftEvent_ObservedHash : string;
  DriftEvent_Fingerprint : string;
  DriftEvent_Status : string;
  DriftEvent_Policy : string;
  DriftEvent_ReconciliationStatus : string;
  DriftEvent_Differences : list Difference;
  DriftEvent_DetectedAt : Time;
  DriftEvent_LastSeenAt : Time;
  DriftEvent_ResolvedAt : option Time;
  DriftEvent_Resolution : string;
  DriftEvent_RelatedDeploymentID : option string
}.

Definition set_DriftEvent_Status (v : string) (x : DriftEvent) : DriftEvent :=
  mkDriftEvent (DriftEvent_ID x) (DriftEvent_ClusterID x) (DriftEvent_NodeID x) (DriftEvent_DesiredRevisionID x) (DriftEvent_DesiredHash x) (DriftEvent_ObservedSnapshotID x) (DriftEvent_ObservedHash x) (DriftEvent_Fingerprint x) v (DriftEvent_Policy x) (DriftEvent_ReconciliationStatus x) (DriftEvent_Differences x) (DriftEvent_DetectedAt x) (DriftEvent_LastSeenAt x) (DriftEvent_ResolvedAt x) (DriftEvent_Resolution x) (DriftEvent_RelatedDeploymentID x).
Definition set_DriftEvent_ReconciliationStatus (v : string) (x : DriftEvent) : DriftEvent :=
  mkDriftEvent (DriftEvent_ID x) (DriftEvent_ClusterID x) (DriftEvent_NodeID x) (DriftEvent_DesiredRevisionID x) (DriftEvent_DesiredHash x) (DriftEvent_ObservedSnapshotID x) (DriftEvent_ObservedHash x) (DriftEvent_Fingerprint x) (DriftEvent_Status x) (DriftEvent_Policy x) v (DriftEvent_Differences x) (DriftEvent_DetectedAt x) (DriftEvent_LastSeenAt x) (DriftEvent_ResolvedAt x) (DriftEvent_Resolution x) (DriftEvent_RelatedDeploymentID x).
Definition set_DriftEvent_ResolvedAt (v : option Time) (x : DriftEvent) : DriftEvent :=
  mkDriftEvent (DriftEvent_ID x) (DriftEvent_ClusterID x) (DriftEvent_NodeID x) (DriftEvent_DesiredRevisionID x) (DriftEvent_DesiredHash x) (DriftEvent_ObservedSnapshotID x) (DriftEvent_ObservedHash x) (DriftEvent_Fingerprint x) (DriftEvent_Status x) (DriftEvent_Policy x) (DriftEvent_ReconciliationStatus x) (DriftEvent_Differences x) (DriftEvent_DetectedAt x) (DriftEvent_LastSeenAt x) v (DriftEvent_Resolution x) (DriftEvent_RelatedDeploymentID x).
Definition set_DriftEvent_Resolution (v : string) (x : DriftEvent) : DriftEvent :=
  mkDriftEvent (DriftEvent_ID x) (DriftEvent_ClusterID x) (DriftEvent_NodeID x) (DriftEvent_DesiredRevisionID x) (DriftEvent_DesiredHash x) (DriftEvent_ObservedSnapshotID x) (DriftEvent_ObservedHash x) (DriftEvent_Fingerprint x) (DriftEvent_Status x) (DriftEvent_Policy x) (DriftEvent_ReconciliationStatus x) (DriftEvent_Differences x) (DriftEvent_DetectedAt x) (DriftEvent_LastSeenAt x) (DriftEvent_ResolvedAt x) v (DriftEvent_RelatedDeploymentID x).
Definition set_DriftEvent_RelatedDeploymentID (v : option string) (x : DriftEvent) : DriftEvent :=
  mkDriftEvent (DriftEvent_ID x) (DriftEvent_ClusterID x) (DriftEvent_NodeID x) (DriftEvent_DesiredRevisionID x) (DriftEvent_DesiredHash x) (DriftEvent_ObservedSnapshotID x) (DriftEvent_ObservedHash x) (DriftEvent_Fingerprint x) (DriftEvent_Status x) (DriftEvent_Policy x) (DriftEvent_ReconciliationStatus x) (DriftEvent_Differences x) (DriftEvent_DetectedAt x) (DriftEvent_LastSeenAt x) (DriftEvent_ResolvedAt x) (DriftEvent_Resolution x) v.

(** ** Previews *)

(* src/internal/controlplane/model.go:99-105 PreviewNode *)
Record PreviewNode := mkPreviewNode {
  PreviewNode_NodeID : string;
  PreviewNode_Position : Z;
  PreviewNode_EffectiveHash : string;
  PreviewNode_Valid : bool;
  PreviewNode_Warning : string
}.

(* src/internal/controlplane/model.go:88-97 Preview *)
Record Preview := mkPreview {
  Preview_RevisionID : string;
  Preview_Strategy : string;
  Preview_FailurePolicy : string;
  Preview_Differences : list Difference;
  Preview_RestartRequired : bool;
  Preview_Valid : bool;
  Preview_Issues : list ValidationIssue;
  Preview_Nodes : list PreviewNode
}.

Definition set_Preview_Differences (v : list Difference) (x : Preview) : Preview :=
  mkPreview (Preview_RevisionID x) (Preview_Strategy x) (Preview_FailurePolicy x) v (Preview_RestartRequired x) (Preview_Valid x) (Preview_Issues x) (Preview_Nodes x).
Definition set_Preview_Valid (v : bool) (x : Preview) : Preview :=
  mkPreview (Preview_RevisionID x) (Preview_Strategy x) (Preview_FailurePolicy x) (Preview_Differences x) (Preview_RestartRequired x) v (Preview_Issues x) (Preview_Nodes x).
Definition set_Preview_Issues (v : list ValidationIssue) (x : Preview) : Preview :=
  mkPreview (Preview_RevisionID x) (Preview_Strategy x) (Preview_FailurePolicy x) (Preview_Differences x) (Preview_RestartRequired x) (Preview_Valid x) v (Preview_Nodes x).
Definition set_Preview_Nodes (v : list PreviewNode) (x : Preview) : Preview :=
  mkPreview (Preview_RevisionID x) (Preview_Strategy x) (Preview_FailurePolicy x) (Preview_Differences x) (Preview_RestartRequired x) (Preview_Valid x) (Preview_Issues x) v.

(** ** Fields of clusters and nodes *)

Definition set_Cluster_Name (v : string) (x : Cluster) : Cluster :=
  mkCluster (Cluster_ID x) v (Cluster_Description x) (Cluster_ReconciliationPolicy x) (Cluster_ActiveRevisionID x) (Cluster_Version x) (Cluster_CreatedAt x) (Cluster_UpdatedAt x).
Definition set_Cluster_Description (v : string) (x : Cluster) : Cluster :=
  mkCluster (Cluster_ID x) (Cluster_Name x) v (Cluster_ReconciliationPolicy x) (Cluster_ActiveRevisionID x) (Cluster_Version x) (Cluster_CreatedAt x) (Cluster_UpdatedAt x).
Definition set_Cluster_ReconciliationPolicy (v : string) (x : Cluster) : Cluster :=
  mkCluster (Cluster_ID x) (Cluster_Name x) (Cluster_Description x) v (Cluster_ActiveRevisionID x) (Cluster_Version x) (Cluster_CreatedAt x) (Cluster_UpdatedAt x).
Definition set_Cluster_ActiveRevisionID (v : option string) (x : Cluster) : Cluster :=
  mkCluster (Cluster_ID x) (Cluster_Name x) (Cluster_Description x) (Cluster_ReconciliationPolicy x) v (Cluster_Version x) (Cluster_CreatedAt x) (Cluster_UpdatedAt x).
Definition set_Cluster_Version (v : Z) (x : Cluster) : Cluster :=
  mkCluster (Cluster_ID x) (Cluster_Name x) (Cluster_Description x) (Cluster_ReconciliationPolicy x) (Cluster_ActiveRevisionID x) v (Cluster_CreatedAt x) (Cluster_UpdatedAt x).
Definition set_Cluster_UpdatedAt (v : Time) (x : Cluster) : Cluster :=
  mkCluster (Cluster_ID x) (Cluster_Name x) (Cluster_Description x) (Cluster_ReconciliationPolicy x) (Cluster_ActiveRevisionID x) (Cluster_Version x) (Cluster_CreatedAt x) v.

Definition set_Node_Enabled (v : bool) (x : Node) : Node :=
  mkNode (Node_ID x) (Node_ClusterID x) (Node_Name x) (Node_BaseURL x) (Node_CertificatePolicy x) v (Node_MaintenanceMode x) (Node_HealthStatus x) (Node_CompatibilityStatus x) (Node_Version x) (Node_LastSeenAt x) (Node_LastPolledAt x) (Node_LatencyMS x) (Node_LastErrorCode x) (Node_AppliedRevisionID x) (Node_AppliedHash x) (Node_ConvergenceStatus x) (Node_LastReconciledAt x) (Node_RecordVersion x) (Node_CreatedAt x) (Node_UpdatedAt x).
Definition set_Node_MaintenanceMode (v : bool) (x : Node) : Node :=
  mkNode (Node_ID x) (Node_ClusterID x) (Node_Name x) (Node_BaseURL x) (Node_CertificatePolicy x) (Node_Enabled x) v (Node_HealthStatus x) (Node_CompatibilityStatus x) (Node_Version x) (Node_LastSeenAt x) (Node_LastPolledAt x) (Node_LatencyMS x) (Node_LastErrorCode x) (Node_AppliedRevisionID x) (Node_AppliedHash x) (Node_ConvergenceStatus x) (Node_LastReconciledAt x) (Node_RecordVersion x) (Node_CreatedAt x) (Node_UpdatedAt x).
Definition set_Node_HealthStatus (v : string) (x : Node) : Node :=
  mkNode (Node_ID x) (Node_ClusterID x) (Node_Name x) (Node_BaseURL x) (Node_CertificatePolicy x) (Node_Enabled x) (Node_MaintenanceMode x) v (Node_CompatibilityStatus x) (Node_Version x) (Node_LastSeenAt x) (Node_LastPolledAt x) (Node_LatencyMS x) (Node_LastErrorCode x) (Node_AppliedRevisionID x) (Node_AppliedHash x) (Node_ConvergenceStatus x) (Node_LastReconciledAt x) (Node_RecordVersion x) (Node_CreatedAt x) (Node_UpdatedAt x).
Definition set_Node_AppliedRevisionID (v : option string) (x : Node) : Node :=
  mkNode (Node_ID x) (Node_ClusterID x) (Node_Name x) (Node_BaseURL x) (Node_CertificatePolicy x) (Node_Enabled x) (Node_MaintenanceMode x) (Node_HealthStatus x) (Node_CompatibilityStatus x) (Node_Version x) (Node_LastSeenAt x) (Node_LastPolledAt x) (Node_LatencyMS x) (Node_LastErrorCode x) v (Node_AppliedHash x) (Node_ConvergenceStatus x) (Node_LastReconciledAt x) (Node_RecordVersion x) (Node_CreatedAt x) (Node_UpdatedAt x).
Definition set_Node_AppliedHash (v : string) (x : Node) : Node :=
  mkNode (Node_ID x) (Node_ClusterID x) (Node_Name x) (Node_BaseURL x) (Node_CertificatePolicy x) (Node_Enabled x) (Node_MaintenanceMode x) (Node_HealthStatus x) (Node_CompatibilityStatus x) (Node_Version x) (Node_LastSeenAt x) (Node_LastPolledAt x) (Node_LatencyMS x) (Node_LastErrorCode x) (Node_AppliedRevisionID x) v (Node_ConvergenceStatus x) (Node_LastReconciledAt x) (Node_RecordVersion x) (Node_CreatedAt x) (Node_UpdatedAt x).
Definition set_Node_ConvergenceStatus (v : string) (x : Node) : Node :=
  mkNode (Node_ID x) (Node_ClusterID x) (Node_Name x) (Node_BaseURL x) (Node_CertificatePolicy x) (Node_Enabled x) (Node_MaintenanceMode x) (Node_HealthStatus x) (Node_CompatibilityStatus x) (Node_Version x) (Node_LastSeenAt x) (Node_LastPolledAt x) (Node_LatencyMS x) (Node_LastErrorCode x) (Node_AppliedRevisionID x) (Node_AppliedHash x) v (Node_LastReconciledAt x) (Node_RecordVersion x) (Node_CreatedAt x) (Node_UpdatedAt x).
Definition set_Node_LastReconciledAt (v : option Time) (x : Node) : Node :=
  mkNode (Node_ID x) (Node_ClusterID x) (Node_Name x) (Node_BaseURL x) (Node_CertificatePolicy x) (Node_Enabled x) (Node_MaintenanceMode x) (Node_HealthStatus x) (Node_CompatibilityStatus x) (Node_Version x) (Node_LastSeenAt x) (Node_LastPolledAt x) (Node_LatencyMS x) (Node_LastErrorCode x) (Node_AppliedRevisionID x) (Node_AppliedHash x) (Node_ConvergenceStatus x) v (Node_RecordVersion x) (Node_CreatedAt x) (Node_UpdatedAt x).
Definition set_Node_RecordVersion (v : Z) (x : Node) : Node :=
  mkNode (Node_ID x) (Node_ClusterID x) (Node_Name x) (Node_BaseURL x) (Node_CertificatePolicy x) (Node_Enabled x) (Node_MaintenanceMode x) (Node_HealthStatus x) (Node_CompatibilityStatus x) (Node_Version x) (Node_LastSeenAt x) (Node_LastPolledAt x) (Node_LatencyMS x) (Node_LastErrorCode x) (Node_AppliedRevisionID x) (Node_AppliedHash x) (Node_ConvergenceStatus x) (Node_LastReconciledAt x) v (Node_CreatedAt x) (Node_UpdatedAt x).
Definition set_Node_UpdatedAt (v : Time) (x : Node) : Node :=
  mkNode (Node_ID x) (Node_ClusterID x) (Node_Name x) (Node_BaseURL x) (Node_CertificatePolicy x) (Node_Enabled x) (Node_MaintenanceMode x) (Node_HealthStatus x) (Node_CompatibilityStatus x) (Node_Version x) (Node_LastSeenAt x) (Node_LastPolledAt x) (Node_LatencyMS x) (Node_LastErrorCode x) (Node_AppliedRevisionID x) (Node_AppliedHash x) (Node_ConvergenceStatus x) (Node_LastReconciledAt x) (Node_RecordVersion x) (Node_CreatedAt x) v.

