(* ===== verification/Store.v ===== *)
(** * internal/database: tables, transactions and the records of clusters, nodes
      and observations

    A table is a map from primary keys to rows; a store method is a transaction on
    the database: a function that returns an error, or a result and the new
    database.  [commit] keeps the old database when the method returns an error,
    as the deferred rollback does.  Locks ([FOR UPDATE]) make the transactions
    atomic and leave no trace in the model.

    Uniqueness is checked where the code relies on it: primary keys, the unique
    indexes of the migrations and the partial indexes of active deployments and
    open drift events; references are checked as the foreign keys do.  Times keep
    their nanoseconds, where PostgreSQL keeps microseconds. *)

From S2P Require Import Prelude GoRuntime Json Domain Configuration ConfigDiff AuditMetadata ControlModel.

(** ** The database *)

(** A row of [nodes]: the record and the column [deleted_at]. *)
Record NodeRow := mkNodeRow { Row_Record : NodeRecord; Row_DeletedAt : option Time }.

Record DB := mkDB {
  clusters : gmap string Cluster;
  nodes : gmap string NodeRow;
  profiles : gmap string CapabilityProfile;
  snapshots : gmap string Snapshot;
  (* by cluster: cluster_id is unique *)
  drafts : gmap string Draft;
  revisions : gmap string Revision;
  deployments : gmap string Deployment;
  deployment_nodes : gmap string DeploymentNode;
  drift_events : gmap string DriftEvent;
  (* oldest first *)
  audit_events : list AuditEvent
}.

Definition empty_DB : DB := mkDB ∅ ∅ ∅ ∅ ∅ ∅ ∅ ∅ ∅ [].

Definition set_clusters v db := mkDB v (nodes db) (profiles db) (snapshots db) (drafts db)
  (revisions db) (deployments db) (deployment_nodes db) (drift_events db) (audit_events db).
Definition set_nodes v db := mkDB (clusters db) v (profiles db) (snapshots db) (drafts db)
  (revisions db) (deployments db) (deployment_nodes db) (drift_events db) (audit_events db).
Definition set_profiles v db := mkDB (clusters db) (nodes db) v (snapshots db) (drafts db)
  (revisions db) (deployments db) (deployment_nodes db) (drift_events db) (audit_events db).
Definition set_snapshots v db := mkDB (clusters db) (nodes db) (profiles db) v (drafts db)
  (revisions db) (deployments db) (deployment_nodes db) (drift_events db) (audit_events db).
Definition set_drafts v db := mkDB (clusters db) (nodes db) (profiles db) (snapshots db) v
  (revisions db) (deployments db) (deployment_nodes db) (drift_events db) (audit_events db).
Definition set_revisions v db := mkDB (clusters db) (nodes db) (profiles db) (snapshots db)
  (drafts db) v (deployments db) (deployment_nodes db) (drift_events db) (audit_events db).
Definition set_deployments v db := mkDB (clusters db) (nodes db) (profiles db) (snapshots db)
  (drafts db) (revisions db) v (deployment_nodes db) (drift_events db) (audit_events db).
Definition set_deployment_nodes v db := mkDB (clusters db) (nodes db) (profiles db) (snapshots db)
  (drafts db) (revisions db) (deployments db) v (drift_events db) (audit_events db).
Definition set_drift_events v db := mkDB (clusters db) (nodes db) (profiles db) (snapshots db)
  (drafts db) (revisions db) (deployments db) (deployment_nodes db) v (audit_events db).
Definition set_audit_events v db := mkDB (clusters db) (nodes db) (profiles db) (snapshots db)
  (drafts db) (revisions db) (deployments db) (deployment_nodes db) (drift_events db) v.

(** ** Statements *)

(** The rows of a table, in no particular order. *)
Definition rows {A} (m : gmap string A) : list A := (map_to_list m).*2.

(** [SELECT EXISTS (SELECT 1 FROM m WHERE p)] *)
Definition exists_row {A} (p : A → bool) (m : gmap string A) : bool := existsb p (rows m).

(** [UPDATE m SET f WHERE p] *)
Definition update_where {A} (p : A → bool) (f : A → A) (m : gmap string A) : gmap string A :=
  (λ x, if p x then f x else x) <$> m.

(** [DELETE FROM m WHERE p] *)
Definition delete_where {A} (p : A → bool) (m : gmap string A) : gmap string A :=
  omap (λ x, if p x then None else Some x) m.

(** The sort of [ORDER BY key DESC]. *)
Definition order_desc {A} (key : A → Z) (l : list A) : list A :=
  sort_Slice (λ x y, key y <? key x) l.
Definition order_asc {A} (key : A → Z) (l : list A) : list A :=
  sort_Slice (λ x y, key x <? key y) l.

(** ** Transactions *)

Definition Txn (S A : Type) : Type := S → res (A * S).
Abbreviation Tx := (Txn DB).

Section transactions.
Context {S : Type}.

Definition tx_ret {A} (a : A) : Txn S A := λ db, Ok (a, db).
Definition tx_fail {A} (e : error) : Txn S A := λ _, Err e.
Definition tx_bind {A B} (t : Txn S A) (f : A → Txn S B) : Txn S B :=
  λ db, match t db with Ok (a, db') => f a db' | Err e => Err e end.
Definition tx_get : Txn S S := λ db, Ok (db, db).
Definition tx_modify (f : S → S) : Txn S unit := λ db, Ok (tt, f db).
(** [if bad { return err }] *)
Definition tx_check (ok : bool) (e : error) : Txn S unit := if ok then tx_ret tt else tx_fail e.
End transactions.

Notation "'tx' x '<-' t ';' k" := (tx_bind t (λ x, k))
  (at level 100, x pattern, t at next level, k at level 200, right associativity) : go_scope.
Notation "t '>>>' k" := (tx_bind t (λ _ : unit, k))
  (at level 100, k at level 200, right associativity) : go_scope.

(** The method as the caller sees it: on an error the transaction is rolled back. *)
Definition commit {S A} (t : Txn S A) (db : S) : res A * S :=
  match t db with Ok (a, db') => (Ok a, db') | Err e => (Err e, db) end.

(* src/internal/database/store.go:61-66 mapDatabaseError *)
Definition not_found (resource : string) : error :=
  NewError ErrorNotFound (resource +:+ " was not found").

Definition conflict (message : string) : error := NewError ErrorConflict message.

Section store.
Context {R : Runtime}.

(** The stored metadata is the sanitised one; its text is that of the tree.  The metadata of the events
    built in this repository are maps of strings, numbers, booleans and lists of strings: JSON trees. *)
(* src/internal/database/store.go:44-59 audit *)
Definition audit (event : AuditEvent) : Tx unit :=
  tx db <- tx_get;
  tx_check (negb (existsb (λ e, AuditEvent_ID e =?? AuditEvent_ID event) (audit_events db)))
    (TextError "insert audit event") >>>
  tx_modify (set_audit_events (audit_events db ++
    [mkAuditEvent (AuditEvent_ID event) (AuditEvent_ActorType event) (AuditEvent_ActorUserID event)
       "" (AuditEvent_Action event) (AuditEvent_ResourceType event) (AuditEvent_ResourceID event)
       (AuditEvent_RequestID event) (SafeMetadata (metadata_of (AuditEvent_Metadata event)))
       (AuditEvent_CreatedAt event) "" ""])).
End store.

(** ** Documents in JSON columns

    A document is written with [json.Marshal] and read with [json.Unmarshal].  On
    valid text the only value that does not survive is an empty slice under
    [omitempty], which is read back as nil. *)

Definition omit_empty {A} (s : slice A) : slice A :=
  match s with Some [] => None | _ => s end.

Definition stored_DNS (d : DNS) : DNS :=
  mkDNS (DNS_UpstreamDNS d) (DNS_BootstrapDNS d) (DNS_FallbackDNS d) (DNS_PrivateReverseDNS d)
    (DNS_ProtectionEnabled d) (DNS_RateLimit d) (DNS_RateLimitIPv4 d) (DNS_RateLimitIPv6 d)
    (omit_empty (DNS_RateLimitAllowlist d)) (DNS_BlockingMode d) (DNS_BlockingIPv4 d)
    (DNS_BlockingIPv6 d) (DNS_BlockedResponseTTL d) (DNS_EDNSClientSubnet d) (DNS_EDNSUseCustom d)
    (DNS_EDNSCustomIP d) (DNS_DisableIPv6 d) (DNS_DNSSECEnabled d) (DNS_CacheSize d)
    (DNS_CacheEnabled d) (DNS_CacheTTLMin d) (DNS_CacheTTLMax d) (DNS_CacheOptimistic d)
    (DNS_UpstreamMode d) (DNS_UsePrivateReverse d) (DNS_ResolveClients d) (DNS_UpstreamTimeout d).

Definition stored_Shared (s : Shared) : Shared :=
  mkShared (stored_DNS (Shared_DNS s)) (Shared_Filtering s) (Shared_Clients s)
    (Shared_RewritesEnabled s) (Shared_Rewrites s) (Shared_Services s) (Shared_QueryLog s)
    (Shared_Statistics s).

Definition stored_desired (d : DesiredDocument) : DesiredDocument :=
  mkDesiredDocument (DesiredDocument_SchemaVersion d) (stored_Shared (DesiredDocument_Shared d))
    (DesiredDocument_NodeOverrides d) (DesiredDocument_Unsupported d).

Definition stored_document (d : Document) : Document :=
  let o := Document_ObservedOnly d in
  let t := ObservedOnly_TLS o in
  mkDocument (Document_SchemaVersion d) (stored_Shared (Document_Shared d)) (Document_NodeSpecific d)
    (mkObservedOnly (ObservedOnly_ProductVersion o) (ObservedOnly_ProtectionDisabledUntil o)
      (mkTLSStatus (TLSStatus_Enabled t) (TLSStatus_ServerName t) (TLSStatus_ForceHTTPS t)
        (TLSStatus_HTTPSPort t) (TLSStatus_DNSOverTLSPort t) (TLSStatus_DNSOverQUICPort t)
        (TLSStatus_ServePlainDNS t) (TLSStatus_ValidCertificate t) (TLSStatus_ValidChain t)
        (TLSStatus_ValidKey t) (TLSStatus_ValidPair t) (TLSStatus_Subject t) (TLSStatus_Issuer t)
        (TLSStatus_NotBefore t) (TLSStatus_NotAfter t) (omit_empty (TLSStatus_DNSNames t))
        (TLSStatus_Warning t))
      (omit_empty (ObservedOnly_DHCPLeases o)))
    (Document_Unsupported d).
