(* ===== verification/StoreRecords.v ===== *)
(** * internal/database: clusters, nodes, observations and drafts

    The methods of clusters.go, nodes.go and inventory.go. *)

From S2P Require Import Prelude GoRuntime Json Domain Configuration ConfigDiff AuditMetadata ControlModel Store.

(** The text functions of the database: [lower] and the order of its collation. *)
Class Collation := {
  sql_lower : string → string;
  collate_less : string → string → bool;
  collate_strict :: StrictWeak collate_less
}.

(** The collation "C" on ASCII text. *)
Definition c_collation : Collation :=
  {| sql_lower := string_map lower_byte; collate_less := String.ltb; collate_strict := _ |}.

Section records.
Context {R : Runtime} {C : Collation}.

(** ** clusters.go *)

Definition cluster_name_taken (id name : string) (db : DB) : bool :=
  exists_row (λ c, negb (Cluster_ID c =?? id) && (sql_lower (Cluster_Name c) =?? sql_lower name))
    (clusters db).

(* src/internal/database/clusters.go:12-35 Store.CreateCluster *)
Definition CreateCluster (cluster : Cluster) (event : AuditEvent) : Tx unit :=
  tx db <- tx_get;
  tx_check (bool_decide (clusters db !! Cluster_ID cluster = None) &&
            negb (cluster_name_taken (Cluster_ID cluster) (Cluster_Name cluster) db))
    (conflict "a cluster with this name already exists") >>>
  tx_modify (set_clusters (<[Cluster_ID cluster :=
    mkCluster (Cluster_ID cluster) (Cluster_Name cluster) (Cluster_Description cluster)
      (Cluster_ReconciliationPolicy cluster) None (Cluster_Version cluster)
      (Cluster_CreatedAt cluster) (Cluster_CreatedAt cluster)]> (clusters db))) >>>
  audit event.

(* src/internal/database/clusters.go:37-57 Store.ListClusters *)
Definition ListClusters (db : DB) : res (list Cluster) :=
  Ok (sort_Slice (λ a b, collate_less (sql_lower (Cluster_Name a)) (sql_lower (Cluster_Name b)))
        (sort_Slice (λ a b, String.ltb (Cluster_ID a) (Cluster_ID b)) (rows (clusters db)))).

(* src/internal/database/clusters.go:59-69 Store.ClusterByID *)
Definition ClusterByID (id : string) (db : DB) : res Cluster :=
  match clusters db !! id with Some c => Ok c | None => Err (not_found "cluster") end.

(* src/internal/database/clusters.go:71-105 Store.UpdateCluster *)
Definition UpdateCluster (cluster : Cluster) (expectedVersion : Z) (event : AuditEvent) : Tx unit :=
  tx db <- tx_get;
  match clusters db !! Cluster_ID cluster with
  | None => tx_fail (not_found "cluster")
  | Some row =>
      if negb (Cluster_Version row =? expectedVersion)
      then tx_fail (conflict "cluster was changed by another request")
      else
        tx_check (negb (cluster_name_taken (Cluster_ID cluster) (Cluster_Name cluster) db))
          (conflict "a cluster with this name already exists") >>>
        tx_modify (set_clusters (<[Cluster_ID cluster :=
          mkCluster (Cluster_ID row) (Cluster_Name cluster) (Cluster_Description cluster)
            (Cluster_ReconciliationPolicy cluster) (Cluster_ActiveRevisionID row)
            (Cluster_Version row + 1) (Cluster_CreatedAt row) (Cluster_UpdatedAt cluster)]>
          (clusters db))) >>>
        audit event
  end.

(** ** nodes.go *)

Definition row_node (row : NodeRow) : Node := Record_Node (Row_Record row).
Definition set_row_node (n : Node) (row : NodeRow) : NodeRow :=
  mkNodeRow (mkNodeRecord n (Record_Secrets (Row_Record row))) (Row_DeletedAt row).
Definition live (row : NodeRow) : bool := bool_decide (Row_DeletedAt row = None).

(** The indexes on the name and the address of the nodes of a cluster. *)
Definition node_taken (n : Node) (db : DB) : bool :=
  exists_row (λ row, live row && negb (Node_ID (row_node row) =?? Node_ID n) &&
    (Node_ClusterID (row_node row) =?? Node_ClusterID n) &&
    ((sql_lower (Node_Name (row_node row)) =?? sql_lower (Node_Name n)) ||
     (Node_BaseURL (row_node row) =?? Node_BaseURL n))) (nodes db).

(** The columns the INSERT leaves to their defaults. *)
Definition inserted_node (n : Node) : Node :=
  mkNode (Node_ID n) (Node_ClusterID n) (Node_Name n) (Node_BaseURL n) (Node_CertificatePolicy n)
    (Node_Enabled n) false (Node_HealthStatus n) (Node_CompatibilityStatus n) (Node_Version n)
    (Node_LastSeenAt n) (Node_LastPolledAt n) (Node_LatencyMS n) (Node_LastErrorCode n)
    None "" "pending" None (Node_RecordVersion n) (Node_CreatedAt n) (Node_CreatedAt n).

(* src/internal/database/nodes.go:13-48 Store.CreateNode *)
Definition CreateNode (record : NodeRecord) (event : AuditEvent) : Tx unit :=
  let node := Record_Node record in
  tx db <- tx_get;
  tx_check (bool_decide (nodes db !! Node_ID node = None) && negb (node_taken node db))
    (conflict "a node with this name or URL already exists in the cluster") >>>
  tx_check (bool_decide (clusters db !! Node_ClusterID node ≠ None)) (TextError "create node") >>>
  tx_modify (set_nodes (<[Node_ID node :=
    mkNodeRow (mkNodeRecord (inserted_node node) (Record_Secrets record)) None]> (nodes db))) >>>
  audit event.

Definition order_nodes (l : list Node) : list Node :=
  sort_Slice (λ a b, collate_less (sql_lower (Node_Name a)) (sql_lower (Node_Name b)))
    (sort_Slice (λ a b, String.ltb (Node_ID a) (Node_ID b)) l).

(* src/internal/database/nodes.go:50-70 Store.ListNodes *)
Definition ListNodes (clusterID : string) (db : DB) : res (list Node) :=
  Ok (order_nodes (row_node <$> List.filter
    (λ row, live row && (Node_ClusterID (row_node row) =?? clusterID)) (rows (nodes db)))).

Definition live_node (id : string) (db : DB) : option NodeRow :=
  match nodes db !! id with Some row => if live row then Some row else None | None => None end.

(* src/internal/database/nodes.go:72-78 Store.NodeByID *)
Definition NodeByID (id : string) (db : DB) : res Node :=
  match live_node id db with Some row => Ok (row_node row) | None => Err (not_found "node") end.

(* src/internal/database/nodes.go:80-98 Store.NodeRecordByID *)
Definition NodeRecordByID (id : string) (db : DB) : res NodeRecord :=
  match live_node id db with Some row => Ok (Row_Record row) | None => Err (not_found "node") end.

(* src/internal/database/nodes.go:100-128 Store.PollableNodes *)
Definition PollableNodes (db : DB) : res (list NodeRecord) :=
  Ok (sort_Slice (λ a b, String.ltb (Node_ID (Record_Node a)) (Node_ID (Record_Node b)))
        (Row_Record <$> List.filter (λ row, live row && Node_Enabled (row_node row)) (rows (nodes db)))).

(* src/internal/database/nodes.go:294-303 nodeWriteFailure *)
Definition nodeWriteFailure (id : string) (db : DB) : error :=
  if bool_decide (live_node id db = None) then not_found "node"
  else conflict "node was changed by another request".

(** The row an [UPDATE ... WHERE id AND record_version] applies to. *)
Definition versioned_node (id : string) (expectedVersion : Z) : Tx NodeRow :=
  tx db <- tx_get;
  match live_node id db with
  | Some row => if Node_RecordVersion (row_node row) =? expectedVersion then tx_ret row
                else tx_fail (nodeWriteFailure id db)
  | None => tx_fail (nodeWriteFailure id db)
  end.

(* src/internal/database/nodes.go:130-171 Store.UpdateNode *)
Definition UpdateNode (record : NodeRecord) (expectedVersion : Z) (event : AuditEvent) : Tx unit :=
  let node := Record_Node record in
  tx row <- versioned_node (Node_ID node) expectedVersion;
  tx db <- tx_get;
  let old := row_node row in
  let updated := mkNode (Node_ID old) (Node_ClusterID old) (Node_Name node) (Node_BaseURL node)
    (Node_CertificatePolicy node) (Node_Enabled node) (Node_MaintenanceMode old)
    (Node_HealthStatus node) (Node_CompatibilityStatus node) (Node_Version node)
    (Node_LastSeenAt node) (Node_LastPolledAt node) (Node_LatencyMS node) (Node_LastErrorCode node)
    (Node_AppliedRevisionID old) (Node_AppliedHash old)
    (if Node_MaintenanceMode old then "maintenance" else "pending") (Node_LastReconciledAt old)
    (Node_RecordVersion old + 1) (Node_CreatedAt old) (Node_UpdatedAt node) in
  tx_check (negb (node_taken updated db))
    (conflict "a node with this name or URL already exists in the cluster") >>>
  tx_modify (set_nodes (<[Node_ID node :=
    mkNodeRow (mkNodeRecord updated (Record_Secrets record)) None]> (nodes db))) >>>
  audit event.

(** The draft without the override of a removed node. *)
(* src/internal/database/nodes.go:197-210 Store.SoftDeleteNode *)
Definition without_override (id : string) (at_ : Time) (updatedBy : option string) (d : Draft) : Draft :=
  let doc := Draft_Document d in
  mkDraft (Draft_ID d) (Draft_ClusterID d) (Draft_SourceSnapshotID d) (Draft_BaseRevisionID d)
    (Draft_SchemaVersion d)
    (mkDesiredDocument (DesiredDocument_SchemaVersion doc) (DesiredDocument_Shared doc)
      (delete id (DesiredDocument_NodeOverrides doc)) (DesiredDocument_Unsupported doc))
    "" (Draft_Version d + 1) (default (Draft_UpdatedBy d) updatedBy) at_.

Definition resolve_drift (resolution : string) (at_ : Time) (e : DriftEvent) : DriftEvent :=
  set_DriftEvent_Resolution resolution (set_DriftEvent_ResolvedAt (Some at_)
    (set_DriftEvent_ReconciliationStatus "resolved" (set_DriftEvent_Status "resolved" e))).

Definition open_drift_of (nodeID : string) (e : DriftEvent) : bool :=
  (DriftEvent_NodeID e =?? nodeID) && (DriftEvent_Status e =?? "open").

(* src/internal/database/nodes.go:173-221 Store.SoftDeleteNode *)
Definition SoftDeleteNode (id : string) (expectedVersion : Z) (at_ : Time) (event : AuditEvent) : Tx unit :=
  tx row <- versioned_node id expectedVersion;
  let old := row_node row in
  let secrets := Record_Secrets (Row_Record row) in
  let deleted := set_Node_RecordVersion (Node_RecordVersion old + 1)
    (set_Node_UpdatedAt at_ (set_Node_HealthStatus "disabled" (set_Node_Enabled false old))) in
  let erased := mkNodeSecretMaterial
    (mkEncryptedCredentials "" "" (KeyVersion (Secrets_Credentials secrets))
       (Algorithm (Secrets_Credentials secrets))) "" in
  tx_modify (λ db, set_nodes (<[id := mkNodeRow (mkNodeRecord deleted erased) (Some at_)]> (nodes db)) db) >>>
  tx_modify (λ db, set_drafts (update_where (λ d,
      (Draft_ClusterID d =?? Node_ClusterID old) &&
      bool_decide (is_Some (DesiredDocument_NodeOverrides (Draft_Document d) !! id)))
    (without_override id at_ (AuditEvent_ActorUserID event)) (drafts db)) db) >>>
  tx_modify (λ db, set_drift_events (update_where (open_drift_of id)
    (resolve_drift "node_removed" at_) (drift_events db)) db) >>>
  audit event.

Definition polled (health compatibility version : string) (latencyMS : option Z) (errorCode : string)
  (polledAt : Time) (seen : bool) (n : Node) : Node :=
  mkNode (Node_ID n) (Node_ClusterID n) (Node_Name n) (Node_BaseURL n) (Node_CertificatePolicy n)
    (Node_Enabled n) (Node_MaintenanceMode n) health compatibility version
    (if seen then Some polledAt else Node_LastSeenAt n) (Some polledAt) latencyMS errorCode
    (Node_AppliedRevisionID n) (Node_AppliedHash n) (Node_ConvergenceStatus n)
    (Node_LastReconciledAt n) (Node_RecordVersion n) (Node_CreatedAt n) polledAt.

(* src/internal/database/nodes.go:223-235 Store.UpdateNodeHealth *)
Definition UpdateNodeHealth (id health compatibility version : string) (latencyMS : option Z)
  (errorCode : string) (polledAt : Time) (seen : bool) : Tx unit :=
  tx_modify (λ db, set_nodes (update_where
    (λ row, (Node_ID (row_node row) =?? id) && Node_Enabled (row_node row) && live row)
    (λ row, set_row_node (polled health compatibility version latencyMS errorCode polledAt seen
       (row_node row)) row) (nodes db)) db).

(* src/internal/database/nodes.go:237-265 Store.RecordNodeTestResult *)
Definition RecordNodeTestResult (id health compatibility version : string) (latencyMS : option Z)
  (errorCode : string) (polledAt : Time) (seen : bool) (event : AuditEvent) : Tx unit :=
  tx db <- tx_get;
  match live_node id db with
  | None => tx_fail (not_found "node")
  | Some row =>
      let health := if Node_Enabled (row_node row) then health else "disabled" in
      tx_modify (set_nodes (<[id := set_row_node (polled health compatibility version latencyMS
        errorCode polledAt seen (row_node row)) row]> (nodes db))) >>>
      audit event
  end.

(* src/internal/database/nodes.go:267-292 Store.SetNodeMaintenance *)
Definition SetNodeMaintenance (id : string) (enabled : bool) (expectedVersion : Z) (at_ : Time)
  (event : AuditEvent) : Tx unit :=
  tx row <- versioned_node id expectedVersion;
  let old := row_node row in
  let updated := set_Node_RecordVersion (Node_RecordVersion old + 1) (set_Node_UpdatedAt at_
    (set_Node_ConvergenceStatus (if enabled then "maintenance" else "pending")
      (set_Node_MaintenanceMode enabled old))) in
  tx_modify (λ db, set_nodes (<[id := set_row_node updated row]> (nodes db)) db) >>>
  tx_modify (λ db, set_drift_events (update_where (open_drift_of id)
    (set_DriftEvent_ReconciliationStatus (if enabled then "maintenance" else "pending"))
    (drift_events db)) db) >>>
  audit event.
End records.

Section observations.
Context {R : Runtime} {C : Collation}.

(** ** inventory.go *)

Definition stored_snapshot (s : Snapshot) : Snapshot :=
  mkSnapshot (Snapshot_ID s) (Snapshot_NodeID s) (Snapshot_ObservedAt s) (Snapshot_SchemaVersion s)
    (stored_document <$> Snapshot_Document s) (Snapshot_CanonicalHash s) (Snapshot_NodeVersion s)
    (Snapshot_CollectionStatus s) (Snapshot_ErrorCode s).

(** The check of the table: a success has a document and a hash, a failure neither
    and an error code. *)
Definition snapshot_consistent (s : Snapshot) : bool :=
  if Snapshot_CollectionStatus s =?? "succeeded"
  then bool_decide (is_Some (Snapshot_Document s)) && negb (Snapshot_CanonicalHash s =?? "")
  else (Snapshot_CollectionStatus s =?? "failed") && bool_decide (Snapshot_Document s = None) &&
       (Snapshot_CanonicalHash s =?? "") && negb (Snapshot_ErrorCode s =?? "").

(* src/internal/database/inventory.go:16-50 Store.SaveObservation *)
Definition SaveObservation (snapshot : Snapshot) (profile : CapabilityProfile) : Tx unit :=
  tx db <- tx_get;
  tx_check (bool_decide (is_Some (nodes db !! CapabilityProfile_NodeID profile)))
    (TextError "store capability profile") >>>
  tx_modify (λ db, set_profiles (<[CapabilityProfile_NodeID profile := profile]> (profiles db)) db) >>>
  tx_check (bool_decide (snapshots db !! Snapshot_ID snapshot = None) &&
            bool_decide (is_Some (nodes db !! Snapshot_NodeID snapshot)) &&
            snapshot_consistent snapshot)
    (TextError "store observed snapshot") >>>
  tx_modify (λ db, set_snapshots (<[Snapshot_ID snapshot := stored_snapshot snapshot]> (snapshots db)) db).

(* src/internal/database/inventory.go:118-140 scanSnapshot *)
Definition scanSnapshot (s : Snapshot) : Snapshot :=
  match Snapshot_Document s with
  | None => s
  | Some decoded =>
      let legacy := (Snapshot_SchemaVersion s =? LegacySchemaVersion) ||
                    (Document_SchemaVersion decoded =? LegacySchemaVersion) in
      mkSnapshot (Snapshot_ID s) (Snapshot_NodeID s) (Snapshot_ObservedAt s)
        (if legacy then SchemaVersion else Snapshot_SchemaVersion s)
        (Some (if legacy then ConvertLegacyDocument decoded else decoded))
        (Snapshot_CanonicalHash s) (Snapshot_NodeVersion s) (Snapshot_CollectionStatus s)
        (Snapshot_ErrorCode s)
  end.

(** [DISTINCT ON (node_id) ... ORDER BY node_id, observed_at DESC]: the most recent
    row of every node. *)
Fixpoint distinct_nodes (seen : gset string) (l : list Snapshot) : list Snapshot :=
  match l with
  | [] => []
  | s :: l' => if bool_decide (Snapshot_NodeID s ∈ seen) then distinct_nodes seen l'
               else s :: distinct_nodes ({[Snapshot_NodeID s]} ∪ seen) l'
  end.

Definition node_in_cluster (clusterID nodeID : string) (db : DB) : bool :=
  match live_node nodeID db with Some row => Node_ClusterID (row_node row) =?? clusterID | None => false end.

Definition latest_by_node (p : Snapshot → bool) (clusterID : string) (db : DB) : list Snapshot :=
  distinct_nodes ∅ (sort_Slice (λ a b, String.ltb (Snapshot_NodeID a) (Snapshot_NodeID b))
    (order_desc Snapshot_ObservedAt (List.filter
      (λ s, node_in_cluster clusterID (Snapshot_NodeID s) db && p s) (rows (snapshots db))))).

(* src/internal/database/inventory.go:59-74 Store.LatestSnapshots *)
Definition LatestSnapshots (clusterID : string) (db : DB) : res (list Snapshot) :=
  Ok (scanSnapshot <$> latest_by_node (λ _, true) clusterID db).

(* src/internal/database/inventory.go:76-91 Store.LatestSuccessfulSnapshots *)
Definition LatestSuccessfulSnapshots (clusterID : string) (db : DB) : res (list Snapshot) :=
  Ok (scanSnapshot <$> latest_by_node (λ s, Snapshot_CollectionStatus s =?? "succeeded") clusterID db).

(** The observations relevant to a certificate event: the last success at or before
    [since] and every success after it. *)
(* src/internal/database/inventory.go:98-116 Store.CertificateMonitoringDisabledSince *)
Definition CertificateMonitoringDisabledSince (nodeID : string) (since : Time) (db : DB) : res bool :=
  let successes := List.filter
    (λ s, (Snapshot_NodeID s =?? nodeID) && (Snapshot_CollectionStatus s =?? "succeeded"))
    (rows (snapshots db)) in
  let before := List.filter (λ s, Snapshot_ObservedAt s <=? since) successes in
  let baseline := take 1 (order_desc Snapshot_ObservedAt
    (sort_Slice (λ a b, String.ltb (Snapshot_ID b) (Snapshot_ID a)) before)) in
  let after := List.filter (λ s, since <? Snapshot_ObservedAt s) successes in
  let disabled s := match Snapshot_Document s with
    | Some d => negb (TLSStatus_Enabled (ObservedOnly_TLS (Document_ObservedOnly d)))
    | None => true
    end in
  Ok (existsb disabled (baseline ++ after)).

(* src/internal/database/inventory.go:142-145 Store.SnapshotByID *)
Definition SnapshotByID (id : string) (db : DB) : res Snapshot :=
  match snapshots db !! id with Some s => Ok (scanSnapshot s) | None => Err (not_found "snapshot") end.

Definition read_profile (p : CapabilityProfile) : CapabilityProfile :=
  if CapabilityProfile_SchemaVersion p =? LegacySchemaVersion then
    mkCapabilityProfile (CapabilityProfile_NodeID p) (CapabilityProfile_ProductVersion p)
      CompatibilityUnsupported SchemaVersion (CapabilityProfile_Features p)
      ((CapabilityProfile_Warnings p) ++ [
        "This retained v1.0.x capability record requires a fresh schema-2 observation."])
      (CapabilityProfile_RefreshedAt p)
  else p.

(* src/internal/database/inventory.go:147-174 Store.CapabilityProfiles *)
Definition CapabilityProfiles (clusterID : string) (db : DB) : res (list CapabilityProfile) :=
  let name p := from_option (λ row, sql_lower (Node_Name (row_node row))) ""
    (live_node (CapabilityProfile_NodeID p) db) in
  Ok (read_profile <$> sort_Slice (λ a b, collate_less (name a) (name b))
    (List.filter (λ p, node_in_cluster clusterID (CapabilityProfile_NodeID p) db) (rows (profiles db)))).

(* src/internal/database/inventory.go:176-198 Store.DraftByCluster *)
Definition DraftByCluster (clusterID : string) (db : DB) : res Draft :=
  match drafts db !! clusterID with
  | None => Err (not_found "configuration draft")
  | Some d =>
      let legacy := (Draft_SchemaVersion d =? LegacySchemaVersion) ||
                    (DesiredDocument_SchemaVersion (Draft_Document d) =? LegacySchemaVersion) in
      let document := if legacy then ConvertLegacyDesired (Draft_Document d) else Draft_Document d in
      let hash := if legacy then "" else Draft_CanonicalHash d in
      Ok (mkDraft (Draft_ID d) (Draft_ClusterID d) (Draft_SourceSnapshotID d) (Draft_BaseRevisionID d)
            (if legacy then SchemaVersion else Draft_SchemaVersion d) document
            (if hash =?? "" then (MarshalDesired document).2 else hash)
            (Draft_Version d) (Draft_UpdatedBy d) (Draft_UpdatedAt d))
  end.

Definition draft_changed : error :=
  conflict "the configuration draft was changed by another request".

(** [revision_id IS NULL OR EXISTS]: the reference of a nullable column. *)
Definition references {A} (m : gmap string A) (id : option string) : bool :=
  match id with Some id => bool_decide (is_Some (m !! id)) | None => true end.

(* src/internal/database/inventory.go:200-228 Store.ImportDraft *)
Definition ImportDraft (draft : Draft) (expectedVersion : Z) (event : AuditEvent) : Tx unit :=
  tx db <- tx_get;
  let row id version := mkDraft id (Draft_ClusterID draft) (Draft_SourceSnapshotID draft)
    (Draft_BaseRevisionID draft) (Draft_SchemaVersion draft) (stored_desired (Draft_Document draft))
    (Draft_CanonicalHash draft) version (Draft_UpdatedBy draft) (Draft_UpdatedAt draft) in
  let references_ok := bool_decide (is_Some (clusters db !! Draft_ClusterID draft)) &&
    bool_decide (is_Some (snapshots db !! Draft_SourceSnapshotID draft)) &&
    references (revisions db) (Draft_BaseRevisionID draft) in
  let import := tx_check references_ok (TextError "import configuration draft") in
  (match drafts db !! Draft_ClusterID draft with
   | None =>
       if negb (expectedVersion =? 0) ||
          exists_row (λ d, Draft_ID d =?? Draft_ID draft) (drafts db)
       then tx_fail draft_changed
       else import >>> tx_modify (set_drafts (<[Draft_ClusterID draft := row (Draft_ID draft) 1]> (drafts db)))
   | Some old =>
       if (expectedVersion =? 0) || negb (Draft_Version old =? expectedVersion)
       then tx_fail draft_changed
       else import >>> tx_modify (set_drafts
         (<[Draft_ClusterID draft := row (Draft_ID old) (Draft_Version old + 1)]> (drafts db)))
   end) >>>
  audit event.
End observations.
