(* ===== verification/StoreControl.v ===== *)
(** * internal/database/controlplane.go: revisions, deployments and drift

    Every method of the file as a transaction.  Comparisons with a nullable column
    keep the third truth value of SQL. *)

From S2P Require Import Prelude GoRuntime Json Domain Configuration ConfigDiff AuditMetadata.
From S2P Require Import ControlModel Store StoreRecords.

(** ** Truth values of SQL *)

(** [column = value] for a nullable column. *)
Definition sql_eq (column : option string) (value : string) : option bool :=
  (λ c, c =?? value) <$> column.

(** [a OR b] where [b] is not null. *)
Definition sql_or (a : option bool) (b : bool) : option bool :=
  if b then Some true else a.

(** A null does not fit into a Go [bool]: [Scan] returns an error. *)
Definition scan_bool (v : option bool) : Tx bool :=
  match v with Some b => tx_ret b | None => tx_fail (TextError "cannot scan NULL into *bool") end.

Section control.
Context {R : Runtime}.

(** ** Drafts *)

(* src/internal/database/controlplane.go:17-38 Store.UpdateConfigurationDraft *)
Definition UpdateConfigurationDraft (draft : Draft) (expectedVersion : Z) (event : AuditEvent) : Tx unit :=
  tx db <- tx_get;
  match drafts db !! Draft_ClusterID draft with
  | Some old =>
      if negb (Draft_Version old =? expectedVersion) then tx_fail draft_changed
      else
        tx_modify (set_drafts (<[Draft_ClusterID draft :=
          mkDraft (Draft_ID old) (Draft_ClusterID old) (Draft_SourceSnapshotID old)
            (Draft_BaseRevisionID old) (Draft_SchemaVersion old)
            (stored_desired (Draft_Document draft)) (Draft_CanonicalHash draft)
            (Draft_Version old + 1) (Draft_UpdatedBy draft) (Draft_UpdatedAt draft)]> (drafts db))) >>>
        audit event
  | None => tx_fail draft_changed
  end.

(** ** Revisions *)

(** [COALESCE(MAX(revision_number),0)+1] *)
Definition next_revision_number (clusterID : string) (db : DB) : Z :=
  foldr (λ r n, Z.max (Revision_RevisionNumber r) n) 0
    (List.filter (λ r, Revision_ClusterID r =?? clusterID) (rows (revisions db))) + 1.

(** The stored columns; the others are computed by the SELECT. *)
Definition revision_row (r : Revision) : Revision :=
  mkRevision (Revision_ID r) (Revision_ClusterID r) (Revision_RevisionNumber r)
    (Revision_SchemaVersion r) (stored_desired (Revision_Document r)) (Revision_CanonicalHash r)
    (Revision_Summary r) (Revision_CreatedBy r) (Revision_CreatedAt r) false None None
    (mkLifecycle false false false).

(* src/internal/database/controlplane.go:40-71 Store.PublishRevision *)
Definition PublishRevision (draft : Draft) (revision : Revision) (expectedVersion : Z)
  (event : AuditEvent) : Tx Revision :=
  tx db <- tx_get;
  let clusterID := Revision_ClusterID revision in
  let revision := set_Revision_RevisionNumber (next_revision_number clusterID db) revision in
  tx_check (bool_decide (revisions db !! Revision_ID revision = None) &&
            bool_decide (is_Some (clusters db !! clusterID)))
    (TextError "insert configuration revision") >>>
  tx_modify (set_revisions (<[Revision_ID revision := revision_row revision]> (revisions db))) >>>
  tx db <- tx_get;
  match drafts db !! clusterID with
  | Some old =>
      if negb (Draft_Version old =? expectedVersion) then tx_fail draft_changed
      else
        tx_modify (set_drafts (<[clusterID :=
          mkDraft (Draft_ID old) (Draft_ClusterID old) (Draft_SourceSnapshotID old)
            (Some (Revision_ID revision)) (Draft_SchemaVersion old) (Draft_Document old)
            (Draft_CanonicalHash old) (Draft_Version old + 1) (Revision_CreatedBy revision)
            (Revision_CreatedAt revision)]> (drafts db))) >>>
        audit event >>>
        tx_ret revision
  | None => tx_fail draft_changed
  end.

(** The rows that name a revision, its cluster apart. *)
Definition node_applies (id : string) (db : DB) : bool :=
  exists_row (λ row, Node_AppliedRevisionID (row_node row) =?? Some id) (nodes db).
Definition draft_based_on (id : string) (db : DB) : bool :=
  exists_row (λ d, Draft_BaseRevisionID d =?? Some id) (drafts db).
Definition deployment_of (id : string) (db : DB) : bool :=
  exists_row (λ p, (Deployment_RevisionID p =?? id) ||
                   (Deployment_RollbackOfRevisionID p =?? Some id)) (deployments db).
Definition drift_from (id : string) (db : DB) : bool :=
  exists_row (λ e, DriftEvent_DesiredRevisionID e =?? id) (drift_events db).
Definition retained (id : string) (db : DB) : bool :=
  node_applies id db || draft_based_on id db || deployment_of id db || drift_from id db.

Definition active_revision (clusterID : string) (db : DB) : option string :=
  clusters db !! clusterID ≫= Cluster_ActiveRevisionID.

(* src/internal/database/controlplane.go:105-124 scanRevision *)
Definition scanRevision (active canDelete : bool) (r : Revision) : Revision :=
  let legacy := (Revision_SchemaVersion r =? LegacySchemaVersion) ||
                (DesiredDocument_SchemaVersion (Revision_Document r) =? LegacySchemaVersion) in
  let document := if legacy then ConvertLegacyDesired (Revision_Document r) else Revision_Document r in
  mkRevision (Revision_ID r) (Revision_ClusterID r) (Revision_RevisionNumber r)
    (if legacy then SchemaVersion else Revision_SchemaVersion r) document
    (if legacy then (MarshalDesired document).2 else Revision_CanonicalHash r)
    (Revision_Summary r) (Revision_CreatedBy r) (Revision_CreatedAt r) active
    (Revision_ArchivedAt r) (Revision_ArchivedBy r)
    (mkLifecycle (negb active && bool_decide (Revision_ArchivedAt r = None))
       (bool_decide (is_Some (Revision_ArchivedAt r))) canDelete).

(* src/internal/database/controlplane.go:95-103 revisionSelect *)
Definition select_revision (db : DB) (r : Revision) : Revision :=
  let active := active_revision (Revision_ClusterID r) db =?? Some (Revision_ID r) in
  scanRevision active (negb active && negb (retained (Revision_ID r) db)) r.

(** The join with [clusters] keeps the revisions whose cluster exists. *)
Definition joined (db : DB) (r : Revision) : bool :=
  bool_decide (is_Some (clusters db !! Revision_ClusterID r)).

(* src/internal/database/controlplane.go:73-88 Store.ListRevisions *)
Definition ListRevisions (clusterID : string) (includeArchived : bool) (db : DB) : res (list Revision) :=
  Ok (select_revision db <$> order_desc Revision_RevisionNumber (List.filter
    (λ r, (Revision_ClusterID r =?? clusterID) && joined db r &&
          (includeArchived || bool_decide (Revision_ArchivedAt r = None))) (rows (revisions db)))).

(* src/internal/database/controlplane.go:90-93 Store.RevisionByID *)
Definition RevisionByID (id : string) (db : DB) : res Revision :=
  match revisions db !! id with
  | Some r => if joined db r then Ok (select_revision db r)
              else Err (not_found "configuration revision")
  | None => Err (not_found "configuration revision")
  end.

(** The row a lifecycle change locks. *)
Definition locked_revision (id : string) : Tx Revision :=
  tx db <- tx_get;
  match revisions db !! id with
  | Some r => if joined db r then tx_ret r else tx_fail (not_found "configuration revision")
  | None => tx_fail (not_found "configuration revision")
  end.

(* src/internal/database/controlplane.go:126-159 Store.SetRevisionArchived *)
Definition SetRevisionArchived (id actorID : string) (archived : bool) (at_ : Time)
  (event : AuditEvent) : Tx unit :=
  tx r <- locked_revision id;
  tx db <- tx_get;
  tx active <- scan_bool (sql_eq (active_revision (Revision_ClusterID r) db) id);
  (if archived then
     tx_check (negb active) (conflict "the active revision cannot be archived") >>>
     tx_check (bool_decide (Revision_ArchivedAt r = None))
       (conflict "the revision is already archived") >>>
     tx_modify (set_revisions (<[id := set_Revision_ArchivedAt (Some at_)
       (set_Revision_ArchivedBy (Some actorID) r)]> (revisions db)))
   else
     tx_check (bool_decide (is_Some (Revision_ArchivedAt r)))
       (conflict "the revision is not archived") >>>
     tx_modify (set_revisions (<[id := set_Revision_ArchivedAt None
       (set_Revision_ArchivedBy None r)]> (revisions db)))) >>>
  audit event.

(* src/internal/database/controlplane.go:161-189 Store.DeleteUnusedRevision *)
Definition DeleteUnusedRevision (id : string) (event : AuditEvent) : Tx unit :=
  tx r <- locked_revision id;
  tx db <- tx_get;
  tx referenced <- scan_bool
    (sql_or (sql_eq (active_revision (Revision_ClusterID r) db) id) (retained id db));
  tx_check (negb referenced)
    (conflict "the revision is active or retained by configuration, deployment, node, or drift history") >>>
  (* the foreign key of clusters *)
  tx_check (negb (exists_row (λ c, Cluster_ActiveRevisionID c =?? Some id) (clusters db)))
    (TextError "delete unused revision") >>>
  tx_modify (set_revisions (delete id (revisions db))) >>>
  audit event.

(** ** Deployments *)

(** The statuses of the index [deployments_one_active_per_cluster]. *)
Definition active_status (s : string) : bool :=
  bool_decide (s ∈ ["queued"; "validating"; "running"; "cancelling"]).

Definition terminal_status (s : string) : bool :=
  bool_decide (s ∈ ["partially_succeeded"; "succeeded"; "failed"; "cancelled"; "interrupted"]).

Definition cluster_active (clusterID : string) (d : Deployment) : bool :=
  (Deployment_ClusterID d =?? clusterID) && active_status (Deployment_Status d).

Definition deployment_row (d : Deployment) : Deployment :=
  mkDeployment (Deployment_ID d) (Deployment_ClusterID d) (Deployment_RevisionID d)
    (Deployment_Status d) (Deployment_Strategy d) (Deployment_FailurePolicy d) (Deployment_Origin d)
    (Deployment_RollbackOfRevisionID d) (Deployment_RequestedBy d) (Deployment_RequestID d)
    false "" (Deployment_RequestedAt d) None None None None (mkLifecycle false false false) [].

Definition task_row (deploymentID : string) (t : DeploymentNode) : DeploymentNode :=
  mkDeploymentNode (DeploymentNode_ID t) deploymentID (DeploymentNode_NodeID t)
    (DeploymentNode_Position t) (DeploymentNode_EffectiveHash t) (DeploymentNode_Status t)
    0 None None "" "" None.

(** The primary key and the unique pairs of [deployment_nodes]. *)
Definition task_taken (t : DeploymentNode) (db : DB) : bool :=
  exists_row (λ u, (DeploymentNode_ID u =?? DeploymentNode_ID t) ||
    ((DeploymentNode_DeploymentID u =?? DeploymentNode_DeploymentID t) &&
     ((DeploymentNode_NodeID u =?? DeploymentNode_NodeID t) ||
      (DeploymentNode_Position u =? DeploymentNode_Position t)))) (deployment_nodes db).

Fixpoint insert_tasks (deploymentID : string) (tasks : list DeploymentNode) : Tx unit :=
  match tasks with
  | [] => tx_ret tt
  | t :: rest =>
      let t := task_row deploymentID t in
      tx db <- tx_get;
      tx_check (negb (task_taken t db) && bool_decide (is_Some (nodes db !! DeploymentNode_NodeID t)))
        (TextError "insert deployment node") >>>
      tx_modify (set_deployment_nodes (<[DeploymentNode_ID t := t]> (deployment_nodes db))) >>>
      insert_tasks deploymentID rest
  end.

(* src/internal/database/controlplane.go:191-213 Store.CreateDeployment *)
Definition CreateDeployment (deployment : Deployment) (event : AuditEvent) : Tx unit :=
  tx db <- tx_get;
  let row := deployment_row deployment in
  tx_check (bool_decide (deployments db !! Deployment_ID row = None) &&
            negb (active_status (Deployment_Status row) &&
                  exists_row (cluster_active (Deployment_ClusterID row)) (deployments db)))
    (conflict "the cluster already has an active deployment") >>>
  tx_check (bool_decide (is_Some (clusters db !! Deployment_ClusterID row)) &&
            bool_decide (is_Some (revisions db !! Deployment_RevisionID row)) &&
            references (revisions db) (Deployment_RollbackOfRevisionID row))
    (TextError "insert deployment") >>>
  tx_modify (set_deployments (<[Deployment_ID row := row]> (deployments db))) >>>
  insert_tasks (Deployment_ID row) (Deployment_Nodes deployment) >>>
  audit event.

(* src/internal/database/controlplane.go:215-219 Store.ClusterHasActiveDeployment *)
Definition ClusterHasActiveDeployment (clusterID : string) (db : DB) : res bool :=
  Ok (exists_row (cluster_active clusterID) (deployments db)).

Definition unstarted_task (t : DeploymentNode) : bool :=
  (DeploymentNode_Status t =?? "pending") && (DeploymentNode_AttemptCount t =? 0) &&
  bool_decide (DeploymentNode_StartedAt t = None).

(** The column [CanDelete]: a queued deployment no task or drift event depends on. *)
Definition deletable (d : Deployment) (db : DB) : bool :=
  (Deployment_Status d =?? "queued") && bool_decide (Deployment_StartedAt d = None) &&
  negb (exists_row (λ t, (DeploymentNode_DeploymentID t =?? Deployment_ID d) &&
                         negb (unstarted_task t)) (deployment_nodes db)) &&
  negb (exists_row (λ e, DriftEvent_RelatedDeploymentID e =?? Some (Deployment_ID d)) (drift_events db)).

(* src/internal/database/controlplane.go:265-272 scanDeployment *)
Definition scanDeployment (db : DB) (d : Deployment) : Deployment :=
  mkDeployment (Deployment_ID d) (Deployment_ClusterID d) (Deployment_RevisionID d)
    (Deployment_Status d) (Deployment_Strategy d) (Deployment_FailurePolicy d) (Deployment_Origin d)
    (Deployment_RollbackOfRevisionID d) (Deployment_RequestedBy d) (Deployment_RequestID d)
    (Deployment_CancelRequested d) (Deployment_ErrorCode d) (Deployment_RequestedAt d)
    (Deployment_StartedAt d) (Deployment_CompletedAt d) (Deployment_ArchivedAt d)
    (Deployment_ArchivedBy d)
    (mkLifecycle (terminal_status (Deployment_Status d) && bool_decide (Deployment_ArchivedAt d = None))
       (bool_decide (is_Some (Deployment_ArchivedAt d))) (deletable d db)) [].

(* src/internal/database/controlplane.go:221-236 Store.ListDeployments *)
Definition ListDeployments (clusterID : string) (includeArchived : bool) (db : DB)
  : res (list Deployment) :=
  Ok (scanDeployment db <$> order_desc Deployment_RequestedAt (List.filter
    (λ d, (Deployment_ClusterID d =?? clusterID) &&
          (includeArchived || bool_decide (Deployment_ArchivedAt d = None))) (rows (deployments db)))).

Definition tasks_of (id : string) (db : DB) : list DeploymentNode :=
  order_asc DeploymentNode_Position
    (List.filter (λ t, DeploymentNode_DeploymentID t =?? id) (rows (deployment_nodes db))).

(* src/internal/database/controlplane.go:238-257 Store.DeploymentByID *)
Definition DeploymentByID (id : string) (db : DB) : res Deployment :=
  match deployments db !! id with
  | Some d => Ok (set_Deployment_Nodes (tasks_of id db) (scanDeployment db d))
  | None => Err (not_found "deployment")
  end.

Definition locked_deployment (id : string) : Tx Deployment :=
  tx db <- tx_get;
  match deployments db !! id with Some d => tx_ret d | None => tx_fail (not_found "deployment") end.

(* src/internal/database/controlplane.go:274-308 Store.SetDeploymentArchived *)
Definition SetDeploymentArchived (id actorID : string) (archived : bool) (at_ : Time)
  (event : AuditEvent) : Tx unit :=
  tx d <- locked_deployment id;
  tx db <- tx_get;
  (if archived then
     tx_check (terminal_status (Deployment_Status d))
       (conflict "only terminal deployment history can be archived") >>>
     tx_check (bool_decide (Deployment_ArchivedAt d = None))
       (conflict "the deployment is already archived") >>>
     tx_modify (set_deployments (<[id := set_Deployment_ArchivedAt (Some at_)
       (set_Deployment_ArchivedBy (Some actorID) d)]> (deployments db)))
   else
     tx_check (bool_decide (is_Some (Deployment_ArchivedAt d)))
       (conflict "the deployment is not archived") >>>
     tx_modify (set_deployments (<[id := set_Deployment_ArchivedAt None
       (set_Deployment_ArchivedBy None d)]> (deployments db)))) >>>
  audit event.

(* src/internal/database/controlplane.go:310-338 Store.DeleteUnstartedDeployment *)
Definition DeleteUnstartedDeployment (id : string) (event : AuditEvent) : Tx unit :=
  tx d <- locked_deployment id;
  tx db <- tx_get;
  tx_check (deletable d db)
    (conflict "the deployment has started or is retained by operational history") >>>
  tx_modify (set_deployment_nodes
    (delete_where (λ t, DeploymentNode_DeploymentID t =?? id) (deployment_nodes db))) >>>
  tx_modify (λ db, set_deployments (delete id (deployments db)) db) >>>
  audit event.

Definition cancellable (s : string) : bool :=
  bool_decide (s ∈ ["queued"; "validating"; "running"]).

(* src/internal/database/controlplane.go:340-357 Store.RequestDeploymentCancel *)
Definition RequestDeploymentCancel (id : string) (event : AuditEvent) : Tx unit :=
  tx db <- tx_get;
  match deployments db !! id with
  | Some d =>
      if negb (cancellable (Deployment_Status d))
      then tx_fail (conflict "deployment is no longer cancellable")
      else
        tx_modify (set_deployments (<[id := set_Deployment_CancelRequested true
          (set_Deployment_Status (if Deployment_Status d =?? "queued" then "cancelling"
                                  else Deployment_Status d) d)]> (deployments db))) >>>
        audit event
  | None => tx_fail (conflict "deployment is no longer cancellable")
  end.

(** The oldest runnable deployment; no other transaction holds a lock. *)
Definition next_claim (db : DB) : option Deployment :=
  head (order_asc Deployment_RequestedAt (List.filter
    (λ d, (Deployment_Status d =?? "queued") || (Deployment_Status d =?? "cancelling"))
    (rows (deployments db)))).

Definition claimed (at_ : Time) (d : Deployment) : Deployment :=
  set_Deployment_Status (if Deployment_CancelRequested d then "cancelling" else "validating")
    (set_Deployment_StartedAt (Some (default at_ (Deployment_StartedAt d))) d).

(* src/internal/database/controlplane.go:359-378 Store.ClaimDeployment *)
Definition ClaimDeployment (at_ : Time) : Tx string :=
  tx db <- tx_get;
  match next_claim db with
  | None => tx_ret ""
  | Some d =>
      tx_modify (set_deployments (<[Deployment_ID d := claimed at_ d]> (deployments db))) >>>
      tx_ret (Deployment_ID d)
  end.

(* src/internal/database/controlplane.go:380-383 Store.UpdateDeploymentNode *)
Definition UpdateDeploymentNode (node : DeploymentNode) : Tx unit :=
  tx db <- tx_get;
  tx_check (references (snapshots db) (DeploymentNode_VerificationSnapshotID node))
    (TextError "update deployment node") >>>
  tx_modify (set_deployment_nodes (alter (λ old,
    mkDeploymentNode (DeploymentNode_ID old) (DeploymentNode_DeploymentID old)
      (DeploymentNode_NodeID old) (DeploymentNode_Position old) (DeploymentNode_EffectiveHash old)
      (DeploymentNode_Status node) (DeploymentNode_AttemptCount node) (DeploymentNode_StartedAt node)
      (DeploymentNode_CompletedAt node) (DeploymentNode_ErrorCode node)
      (DeploymentNode_ErrorMessage node) (DeploymentNode_VerificationSnapshotID node))
    (DeploymentNode_ID node) (deployment_nodes db))).

(* src/internal/database/controlplane.go:385-388 Store.SetDeploymentRunning *)
Definition SetDeploymentRunning (id : string) : Tx unit :=
  tx_modify (λ db, set_deployments (alter (λ d,
    if Deployment_Status d =?? "validating" then set_Deployment_Status "running" d else d)
    id (deployments db)) db).

(* src/internal/database/controlplane.go:390-393 Store.MarkNodeApplied *)
Definition MarkNodeApplied (nodeID revisionID hash snapshotID : string) (at_ : Time) : Tx unit :=
  tx db <- tx_get;
  tx_check (bool_decide (nodes db !! nodeID = None) || bool_decide (is_Some (revisions db !! revisionID)))
    (TextError "update node") >>>
  tx_modify (set_nodes (alter (λ row, set_row_node (set_Node_AppliedRevisionID (Some revisionID)
    (set_Node_AppliedHash hash (set_Node_ConvergenceStatus "converged"
      (set_Node_LastReconciledAt (Some at_) (set_Node_UpdatedAt at_ (row_node row)))))) row)
    nodeID (nodes db))).

(** The index of active deployments after the status of [id] becomes [status]. *)
Definition activation_conflict (id status : string) (db : DB) : bool :=
  match deployments db !! id with
  | Some d => active_status status &&
      exists_row (λ e, negb (Deployment_ID e =?? id) && cluster_active (Deployment_ClusterID d) e)
        (deployments db)
  | None => false
  end.

(* src/internal/database/controlplane.go:395-417 Store.FinishDeployment *)
Definition FinishDeployment (deployment : Deployment) (activate : bool) (event : AuditEvent) : Tx unit :=
  tx db <- tx_get;
  let id := Deployment_ID deployment in
  tx_check (negb (activation_conflict id (Deployment_Status deployment) db))
    (TextError "finish deployment") >>>
  tx_modify (set_deployments (alter (λ d,
    set_Deployment_Status (Deployment_Status deployment)
      (set_Deployment_ErrorCode (Deployment_ErrorCode deployment)
        (set_Deployment_CompletedAt (Deployment_CompletedAt deployment) d))) id (deployments db))) >>>
  (if activate then
     tx db <- tx_get;
     tx_check (bool_decide (clusters db !! Deployment_ClusterID deployment = None) ||
               bool_decide (is_Some (revisions db !! Deployment_RevisionID deployment)))
       (TextError "activate revision") >>>
     tx_modify (set_clusters (alter (λ c,
       set_Cluster_ActiveRevisionID (Some (Deployment_RevisionID deployment))
         (set_Cluster_UpdatedAt (default (Cluster_UpdatedAt c) (Deployment_CompletedAt deployment)) c))
       (Deployment_ClusterID deployment) (clusters db)))
   else tx_ret tt) >>>
  tx_modify (λ db, set_drift_events (update_where
    (λ e, (DriftEvent_RelatedDeploymentID e =?? Some id) && (DriftEvent_Status e =?? "open"))
    (set_DriftEvent_ReconciliationStatus
       (if Deployment_Status deployment =?? "succeeded" then "enforcing" else "failed"))
    (drift_events db)) db) >>>
  audit event.

Definition running_status (s : string) : bool :=
  bool_decide (s ∈ ["validating"; "running"; "cancelling"]).

Definition interrupted_task (at_ : Time) (t : DeploymentNode) : DeploymentNode :=
  set_DeploymentNode_Status "interrupted" (set_DeploymentNode_CompletedAt (Some at_)
    (set_DeploymentNode_ErrorCode "CONTROLLER_RESTARTED"
      (set_DeploymentNode_ErrorMessage "Controller restarted before this task completed." t))).

Definition skipped_task (at_ : Time) (t : DeploymentNode) : DeploymentNode :=
  set_DeploymentNode_Status "skipped" (set_DeploymentNode_CompletedAt (Some at_)
    (set_DeploymentNode_ErrorCode "DEPLOYMENT_INTERRUPTED" t)).

Definition interrupted (at_ : Time) (d : Deployment) : Deployment :=
  set_Deployment_Status "interrupted" (set_Deployment_ErrorCode "CONTROLLER_RESTARTED"
    (set_Deployment_CompletedAt (Some at_) d)).

(** One event per interrupted deployment; [ids] are the results of [domain.NewID]. *)
Fixpoint audit_interrupted (items : list Deployment) (ids : list (res string)) (at_ : Time) : Tx unit :=
  match items, ids with
  | [], _ => tx_ret tt
  | _ :: _, [] => tx_fail (TextError "generate identifier")
  | _ :: _, Err e :: _ => tx_fail e
  | d :: items, Ok eventID :: ids =>
      audit (mkAuditEvent eventID "system" None "" "deployment.interrupted" "deployment"
        (Some (Deployment_ID d)) (Deployment_RequestID d)
        (JObj [("previousStatus", JStr (Deployment_Status d)); ("reason", JStr "controller_restart")])
        at_ "" "") >>>
      audit_interrupted items ids at_
  end.

Definition in_status (statuses : list string) (t : DeploymentNode) : bool :=
  bool_decide (DeploymentNode_Status t ∈ statuses).

(* src/internal/database/controlplane.go:419-466 Store.InterruptDeployments *)
Definition InterruptDeployments (at_ : Time) (ids : list (res string)) : Tx unit :=
  tx db <- tx_get;
  let is_running id := match deployments db !! id with
    | Some d => running_status (Deployment_Status d) | None => false end in
  let items := List.filter (λ d, running_status (Deployment_Status d)) (rows (deployments db)) in
  tx_modify (set_deployment_nodes (update_where
    (in_status ["validating"; "applying"; "verifying"]) (interrupted_task at_) (deployment_nodes db))) >>>
  tx_modify (λ db, set_deployment_nodes (update_where
    (λ t, (DeploymentNode_Status t =?? "pending") && is_running (DeploymentNode_DeploymentID t))
    (skipped_task at_) (deployment_nodes db)) db) >>>
  tx_modify (λ db, set_deployments (update_where
    (λ d, running_status (Deployment_Status d)) (interrupted at_) (deployments db)) db) >>>
  audit_interrupted items ids at_.

(** ** Drift *)

(* src/internal/database/controlplane.go:468-483 Store.ListDriftEvents *)
Definition ListDriftEvents (clusterID : string) (db : DB) : res (list DriftEvent) :=
  Ok (order_desc DriftEvent_DetectedAt
    (List.filter (λ e, DriftEvent_ClusterID e =?? clusterID) (rows (drift_events db)))).

(* src/internal/database/controlplane.go:485-488 Store.DriftEventByID *)
Definition DriftEventByID (id : string) (db : DB) : res DriftEvent :=
  match drift_events db !! id with Some e => Ok e | None => Err (not_found "drift event") end.

(** The key of the index [drift_events_open_fingerprint_unique]. *)
Definition same_open_drift (item e : DriftEvent) : bool :=
  (DriftEvent_NodeID e =?? DriftEvent_NodeID item) &&
  (DriftEvent_Fingerprint e =?? DriftEvent_Fingerprint item) && (DriftEvent_Status e =?? "open").

Definition seen_again (item e : DriftEvent) : DriftEvent :=
  mkDriftEvent (DriftEvent_ID e) (DriftEvent_ClusterID e) (DriftEvent_NodeID e)
    (DriftEvent_DesiredRevisionID e) (DriftEvent_DesiredHash e) (DriftEvent_ObservedSnapshotID item)
    (DriftEvent_ObservedHash item) (DriftEvent_Fingerprint e) (DriftEvent_Status e)
    (DriftEvent_Policy item)
    (if DriftEvent_ReconciliationStatus e =?? "enforcing" then "enforcing"
     else if DriftEvent_Policy item =?? "alert" then "alerted" else "pending")
    (DriftEvent_Differences item) (DriftEvent_DetectedAt e) (DriftEvent_LastSeenAt item)
    (DriftEvent_ResolvedAt e) (DriftEvent_Resolution e) (DriftEvent_RelatedDeploymentID e).

Definition drift_row (item : DriftEvent) : DriftEvent :=
  mkDriftEvent (DriftEvent_ID item) (DriftEvent_ClusterID item) (DriftEvent_NodeID item)
    (DriftEvent_DesiredRevisionID item) (DriftEvent_DesiredHash item)
    (DriftEvent_ObservedSnapshotID item) (DriftEvent_ObservedHash item) (DriftEvent_Fingerprint item)
    "open" (DriftEvent_Policy item) (DriftEvent_ReconciliationStatus item)
    (DriftEvent_Differences item) (DriftEvent_DetectedAt item) (DriftEvent_DetectedAt item)
    None "" None.

(* src/internal/database/controlplane.go:504-534 Store.UpsertDriftEvent *)
Definition UpsertDriftEvent (item : DriftEvent) (event : AuditEvent) : Tx (DriftEvent * bool) :=
  tx db <- tx_get;
  match List.find (same_open_drift item) (rows (drift_events db)) with
  | Some e =>
      let e := seen_again item e in
      tx_check (bool_decide (is_Some (snapshots db !! DriftEvent_ObservedSnapshotID item)))
        (TextError "update drift event") >>>
      tx_modify (set_drift_events (<[DriftEvent_ID e := e]> (drift_events db))) >>>
      tx_ret (e, false)
  | None =>
      tx_check (bool_decide (drift_events db !! DriftEvent_ID item = None) &&
                bool_decide (is_Some (clusters db !! DriftEvent_ClusterID item)) &&
                bool_decide (is_Some (nodes db !! DriftEvent_NodeID item)) &&
                bool_decide (is_Some (revisions db !! DriftEvent_DesiredRevisionID item)) &&
                bool_decide (is_Some (snapshots db !! DriftEvent_ObservedSnapshotID item)))
        (TextError "insert drift event") >>>
      tx_modify (set_drift_events (<[DriftEvent_ID item := drift_row item]> (drift_events db))) >>>
      audit event >>>
      tx_ret (item, true)
  end.

(* src/internal/database/controlplane.go:536-553 Store.ResolveNodeDrift *)
Definition ResolveNodeDrift (nodeID resolution : string) (at_ : Time) (event : AuditEvent) : Tx bool :=
  tx db <- tx_get;
  if negb (exists_row (open_drift_of nodeID) (drift_events db)) then tx_ret false
  else
    tx_modify (set_drift_events (update_where (open_drift_of nodeID)
      (resolve_drift resolution at_) (drift_events db))) >>>
    audit event >>>
    tx_ret true.

(* src/internal/database/controlplane.go:555-558 Store.UpdateDriftReconciliation *)
Definition UpdateDriftReconciliation (id status : string) (deploymentID : option string) : Tx unit :=
  tx db <- tx_get;
  tx_check (bool_decide (drift_events db !! id = None) || references (deployments db) deploymentID)
    (TextError "update drift reconciliation") >>>
  tx_modify (set_drift_events (alter (λ e,
    set_DriftEvent_RelatedDeploymentID deploymentID (set_DriftEvent_ReconciliationStatus status e))
    id (drift_events db))).

(* src/internal/database/controlplane.go:560-563 Store.UpdateNodeConvergence *)
Definition UpdateNodeConvergence (nodeID status : string) (at_ : Time) : Tx unit :=
  tx_modify (λ db, set_nodes (alter (λ row, set_row_node (set_Node_ConvergenceStatus status
    (set_Node_LastReconciledAt (Some at_) (set_Node_UpdatedAt at_ (row_node row)))) row)
    nodeID (nodes db)) db).
End control.
