(* ===== verification/StoreInvariant.v ===== *)
(** * The invariant of the control-plane tables

    [WellFormed] collects what the control plane relies on: revision numbers are
    unique within a cluster, a cluster has at most one active deployment, a node has
    at most one open drift event per fingerprint, the tasks of a deployment have
    distinct nodes and positions, and every reference to a revision or a deployment
    names an existing row.  Every store method preserves it, in any order. *)

From S2P Require Import Prelude GoRuntime Json Domain Configuration ConfigDiff AuditMetadata.
From S2P Require Import ControlModel Store StoreRecords StoreControl.

(** ** Tables *)

Section tables.
Context {A : Type}.
Implicit Types (m : gmap string A).

(** The key of every row is its identifier. *)
Definition keyed (key : A → string) m : Prop := ∀ k x, m !! k = Some x → key x = k.

(** No two rows that satisfy [p] share the key [f]: a partial unique index. *)
Definition unique_on {K} (p : A → Prop) (f : A → K) m : Prop :=
  ∀ i j x y, m !! i = Some x → m !! j = Some y → p x → p y → f x = f y → i = j.

(** Every reference of a row names a row of the target: a foreign key. *)
Definition refers {B} (f : A → list string) m (target : gmap string B) : Prop :=
  ∀ k x r, m !! k = Some x → r ∈ f x → is_Some (target !! r).

Lemma elem_of_rows m x : x ∈ rows m ↔ ∃ k, m !! k = Some x.
Proof.
  unfold rows. rewrite list_elem_of_fmap. setoid_rewrite <- (elem_of_map_to_list m).
  split; [intros ([k y] & -> & H); eauto|intros [k H]; exists (k, x); eauto].
Qed.

Lemma exists_row_true (p : A → bool) m : exists_row p m = true ↔ ∃ k x, m !! k = Some x ∧ p x = true.
Proof.
  unfold exists_row. rewrite existsb_exists. setoid_rewrite <- list_elem_of_In.
  setoid_rewrite elem_of_rows. naive_solver.
Qed.

Lemma exists_row_false (p : A → bool) m : exists_row p m = false ↔ ∀ k x, m !! k = Some x → p x = false.
Proof.
  rewrite <- not_true_iff_false, exists_row_true. split.
  - intros H k x Hk. apply not_true_iff_false. intros Hp. apply H. eauto.
  - intros H (k & x & Hk & Hp). apply H in Hk. congruence.
Qed.

Lemma lookup_update_where (p : A → bool) f m k :
  update_where p f m !! k = (λ x, if p x then f x else x) <$> m !! k.
Proof. unfold update_where. by rewrite lookup_fmap. Qed.

Lemma lookup_delete_where (p : A → bool) m k x :
  delete_where p m !! k = Some x ↔ m !! k = Some x ∧ p x = false.
Proof.
  unfold delete_where. rewrite lookup_omap. destruct (m !! k) as [y|]; cbn; [|naive_solver].
  destruct (p y) eqn:E; naive_solver congruence.
Qed.

(** *** Keys *)

Lemma keyed_empty key : keyed key ∅.
Proof. intros k x H. by rewrite lookup_empty in H. Qed.

Lemma keyed_insert key k x m : key x = k → keyed key m → keyed key (<[k:=x]> m).
Proof. intros Hx Hm i y [[<- <-]|[_ H]]%lookup_insert_Some; auto. Qed.

Lemma keyed_update key p f m : (∀ x, key (f x) = key x) → keyed key m → keyed key (update_where p f m).
Proof.
  intros Hf Hm k y. rewrite lookup_update_where, fmap_Some. intros (x & Hx & ->).
  apply Hm in Hx. destruct (p x); congruence.
Qed.

Lemma keyed_alter key f k m : (∀ x, key (f x) = key x) → keyed key m → keyed key (alter f k m).
Proof.
  intros Hf Hm i y [(-> & x & Hx & ->)|[_ H]]%lookup_alter_Some; [|auto].
  rewrite Hf. auto.
Qed.

Lemma keyed_delete key k m : keyed key m → keyed key (delete k m).
Proof. intros Hm i y [_ H]%lookup_delete_Some. auto. Qed.

Lemma keyed_delete_where key p m : keyed key m → keyed key (delete_where p m).
Proof. intros Hm i y [H _]%lookup_delete_where. auto. Qed.

(** *** Unique indexes *)

Lemma unique_empty {K} p (f : A → K) : unique_on p f ∅.
Proof. intros i j x y H. by rewrite lookup_empty in H. Qed.

Lemma unique_insert {K} (p : A → Prop) (f : A → K) k x m :
  (p x → ∀ j y, m !! j = Some y → p y → f y = f x → j = k) →
  unique_on p f m → unique_on p f (<[k:=x]> m).
Proof.
  intros Hnew Hm i j y z [[<- <-]|[Hi Hy]]%lookup_insert_Some [[<- <-]|[Hj Hz]]%lookup_insert_Some
    Py Pz E; [done| | |by eapply Hm].
  - symmetry. eapply Hnew; eauto.
  - eapply Hnew; eauto.
Qed.

Lemma unique_update {K} (p : A → Prop) (f : A → K) q g m :
  (∀ k x, m !! k = Some x → p (g x) → p x) → (∀ x, f (g x) = f x) →
  unique_on p f m → unique_on p f (update_where q g m).
Proof.
  intros Hp Hf Hm i j x' y'. rewrite !lookup_update_where, !fmap_Some.
  intros (x & Hx & ->) (y & Hy & ->) Px Py E. apply (Hm i j x y Hx Hy).
  - destruct (q x); eauto.
  - destruct (q y); eauto.
  - destruct (q x), (q y); rewrite ?Hf in E; done.
Qed.

Lemma unique_alter {K} (p : A → Prop) (f : A → K) g k m :
  (∀ x, m !! k = Some x → p (g x) → p x ∨ (∀ j y, m !! j = Some y → p y → f y = f x → j = k)) →
  (∀ x, f (g x) = f x) → unique_on p f m → unique_on p f (alter g k m).
Proof.
  intros Hp Hf Hm i j x' y' Hi Hj Px Py E.
  apply lookup_alter_Some in Hi as [(-> & x & Hx & ->)|[Ni Hi]],
    Hj as [(-> & y & Hy & ->)|[Nj Hj]]; [done| | |by eapply Hm].
  - rewrite Hf in E. destruct (Hp x Hx Px) as [Qx|Qx].
    + by eapply (Hm i j x y').
    + symmetry. by eapply Qx.
  - rewrite Hf in E. destruct (Hp y Hy Py) as [Qy|Qy].
    + by eapply (Hm i j x' y).
    + by eapply Qy.
Qed.

Lemma unique_delete {K} p (f : A → K) k m : unique_on p f m → unique_on p f (delete k m).
Proof. intros Hm i j x y [_ Hi]%lookup_delete_Some [_ Hj]%lookup_delete_Some. by apply Hm. Qed.

Lemma unique_delete_where {K} p (f : A → K) q m : unique_on p f m → unique_on p f (delete_where q m).
Proof. intros Hm i j x y [Hi _]%lookup_delete_where [Hj _]%lookup_delete_where. by apply Hm. Qed.

(** *** References *)

Lemma refers_empty {B} f (t : gmap string B) : refers f ∅ t.
Proof. intros k x r H. by rewrite lookup_empty in H. Qed.

Lemma refers_insert {B} f k x m (t : gmap string B) :
  (∀ r, r ∈ f x → is_Some (t !! r)) → refers f m t → refers f (<[k:=x]> m) t.
Proof. intros Hx Hm i y r [[_ <-]|[_ H]]%lookup_insert_Some Hr; [auto|by eapply Hm]. Qed.

Lemma refers_update {B} f q g m (t : gmap string B) :
  (∀ x r, r ∈ f (g x) → r ∈ f x) → refers f m t → refers f (update_where q g m) t.
Proof.
  intros Hg Hm k y r. rewrite lookup_update_where, fmap_Some. intros (x & Hx & ->) Hr.
  eapply Hm; [done|]. destruct (q x); auto.
Qed.

Lemma refers_alter {B} f g k m (t : gmap string B) :
  (∀ x r, m !! k = Some x → r ∈ f (g x) → r ∈ f x ∨ is_Some (t !! r)) →
  refers f m t → refers f (alter g k m) t.
Proof.
  intros Hg Hm i y r [(-> & x & Hx & ->)|[_ H]]%lookup_alter_Some Hr; [|by eapply Hm].
  destruct (Hg x r Hx Hr); [by eapply Hm|done].
Qed.

Lemma refers_delete_where {B} f q m (t : gmap string B) : refers f m t → refers f (delete_where q m) t.
Proof. intros Hm k x r [H _]%lookup_delete_where. by apply (Hm k x). Qed.

Lemma refers_delete {B} f k m (t : gmap string B) : refers f m t → refers f (delete k m) t.
Proof. intros Hm i x r [_ H]%lookup_delete_Some. by apply (Hm i x). Qed.

(** Targets: more rows, rows that only change, and a row without references. *)
Lemma refers_weaken {B} f m (t t' : gmap string B) :
  (∀ r, is_Some (t !! r) → is_Some (t' !! r)) → refers f m t → refers f m t'.
Proof. intros Ht Hm k x r Hk Hr. apply Ht. by eapply Hm. Qed.

Lemma refers_target_delete {B} f m k (t : gmap string B) :
  (∀ i x, m !! i = Some x → k ∉ f x) → refers f m t → refers f m (delete k t).
Proof.
  intros Hk Hm i x r Hi Hr. destruct (decide (r = k)) as [->|Hne]; [by apply Hk in Hi|].
  rewrite lookup_delete_ne by done. by eapply Hm.
Qed.
End tables.

Lemma is_Some_insert {A} (m : gmap string A) k x r : is_Some (m !! r) → is_Some (<[k:=x]> m !! r).
Proof. intros H. destruct (decide (k = r)) as [->|]; [rewrite lookup_insert_eq; eauto|by rewrite lookup_insert_ne]. Qed.

Lemma is_Some_update {A} (m : gmap string A) p f r : is_Some (m !! r) → is_Some (update_where p f m !! r).
Proof. rewrite lookup_update_where. by intros [x ->]; eexists. Qed.

Lemma is_Some_alter {A} (m : gmap string A) f k r : is_Some (m !! r) → is_Some (alter f k m !! r).
Proof.
  intros [x Hx]. destruct (decide (k = r)) as [->|]; [rewrite lookup_alter_eq, Hx; eauto|].
  rewrite lookup_alter_ne by done. eauto.
Qed.

Create HintDb tables discriminated.
#[export] Hint Resolve keyed_insert keyed_update keyed_alter keyed_delete keyed_delete_where
  unique_delete unique_delete_where refers_delete refers_delete_where
  is_Some_insert is_Some_update is_Some_alter : tables.

(** ** The invariant *)

Definition number_key (r : Revision) : string * Z := (Revision_ClusterID r, Revision_RevisionNumber r).
Definition is_active (d : Deployment) : Prop := active_status (Deployment_Status d) = true.
Definition task_node (t : DeploymentNode) : string * string :=
  (DeploymentNode_DeploymentID t, DeploymentNode_NodeID t).
Definition task_position (t : DeploymentNode) : string * Z :=
  (DeploymentNode_DeploymentID t, DeploymentNode_Position t).
Definition is_open (e : DriftEvent) : Prop := DriftEvent_Status e = "open".
Definition drift_key (e : DriftEvent) : string * string :=
  (DriftEvent_NodeID e, DriftEvent_Fingerprint e).

Record WellFormed (db : DB) : Prop := {
  wf_clusters : keyed Cluster_ID (clusters db);
  wf_nodes : keyed (Node_ID ∘ row_node) (nodes db);
  wf_drafts : keyed Draft_ClusterID (drafts db);
  wf_revisions : keyed Revision_ID (revisions db);
  wf_deployments : keyed Deployment_ID (deployments db);
  wf_tasks : keyed DeploymentNode_ID (deployment_nodes db);
  wf_drift : keyed DriftEvent_ID (drift_events db);
  (* unique indexes *)
  wf_numbers : unique_on (λ _, True) number_key (revisions db);
  wf_one_active : unique_on is_active Deployment_ClusterID (deployments db);
  wf_task_nodes : unique_on (λ _, True) task_node (deployment_nodes db);
  wf_task_positions : unique_on (λ _, True) task_position (deployment_nodes db);
  wf_one_open : unique_on is_open drift_key (drift_events db);
  (* references *)
  wf_active : refers (λ c, option_list (Cluster_ActiveRevisionID c)) (clusters db) (revisions db);
  wf_applied : refers (λ row, option_list (Node_AppliedRevisionID (row_node row)))
    (nodes db) (revisions db);
  wf_base : refers (λ d, option_list (Draft_BaseRevisionID d)) (drafts db) (revisions db);
  wf_deployed : refers (λ d, Deployment_RevisionID d :: option_list (Deployment_RollbackOfRevisionID d))
    (deployments db) (revisions db);
  wf_desired : refers (λ e, [DriftEvent_DesiredRevisionID e]) (drift_events db) (revisions db);
  wf_owner : refers (λ t, [DeploymentNode_DeploymentID t]) (deployment_nodes db) (deployments db);
  wf_related : refers (λ e, option_list (DriftEvent_RelatedDeploymentID e))
    (drift_events db) (deployments db)
}.

Lemma WellFormed_empty : WellFormed empty_DB.
Proof. split; cbn; auto using keyed_empty, unique_empty, refers_empty. Qed.

(** ** Inversion of transactions *)

Section inversion.
Context {R : Runtime}.

Lemma tx_bind_Ok {S A B} (t : Txn S A) (f : A → Txn S B) db b db' : tx_bind t f db = Ok (b, db') →
  ∃ a db1, t db = Ok (a, db1) ∧ f a db1 = Ok (b, db').
Proof. unfold tx_bind. destruct (t db) as [[a db1]|]; [eauto|done]. Qed.

Lemma tx_check_Ok {S} b e (db : S) u db' : tx_check b e db = Ok (u, db') → b = true ∧ db' = db.
Proof. unfold tx_check. destruct b; [by intros [= _ <-]|done]. Qed.

Lemma tx_modify_Ok {S} (f : S → S) db u db' : tx_modify f db = Ok (u, db') → db' = f db.
Proof. by intros [= _ <-]. Qed.

Lemma tx_get_Ok {S} (db : S) a db' : tx_get db = Ok (a, db') → a = db ∧ db' = db.
Proof. by intros [= <- <-]. Qed.

Lemma tx_ret_Ok {S A} (x : A) (db : S) a db' : tx_ret x db = Ok (a, db') → a = x ∧ db' = db.
Proof. by intros [= <- <-]. Qed.

Lemma audit_Ok event db u db' : audit event db = Ok (u, db') →
  ∃ l, db' = set_audit_events l db.
Proof.
  unfold audit. intros (? & ? & [-> ->]%tx_get_Ok & H)%tx_bind_Ok.
  apply tx_bind_Ok in H as (? & ? & [_ ->]%tx_check_Ok & ->%tx_modify_Ok). eauto.
Qed.
End inversion.

(** [tx_inv] follows a transaction that returned a result: every guard holds and the
    database after it is the one its statements build. *)
Ltac tx_step H :=
  lazymatch type of H with
  | tx_bind _ _ _ = Ok _ =>
      let H1 := fresh "T" in let H2 := fresh "T" in
      apply tx_bind_Ok in H as (? & ? & H1 & H2); tx_step H1; tx_step H2
  | tx_check _ _ _ = Ok _ => apply tx_check_Ok in H as [? ->]
  | tx_modify _ _ = Ok _ => apply tx_modify_Ok in H as ->
  | tx_get _ = Ok _ => apply tx_get_Ok in H as [-> ->]
  | tx_ret _ _ = Ok _ => apply tx_ret_Ok in H as [-> ->]
  | audit _ _ = Ok _ => apply audit_Ok in H as [? ->]
  | tx_fail _ _ = Ok _ => discriminate H
  | (if ?b then _ else _) _ = Ok _ => destruct b eqn:?; tx_step H
  | (match ?x with _ => _ end) _ = Ok _ => destruct x eqn:?; tx_step H
  | _ => idtac
  end.

Ltac tx_tables :=
  cbn [clusters nodes profiles snapshots drafts revisions deployments deployment_nodes drift_events
    set_clusters set_nodes set_profiles set_snapshots set_drafts set_revisions set_deployments
    set_deployment_nodes set_drift_events set_audit_events] in *.

(** A weaker target of references. *)
Ltac refers_target := eapply refers_weaken; [|eassumption]; intros; auto with tables.

Section preservation.
Context {R : Runtime} {C : Collation}.

Definition preserves {A} (t : Tx A) : Prop :=
  ∀ db a db', WellFormed db → t db = Ok (a, db') → WellFormed db'.

(** [wf_split] leaves the parts of the invariant that a method touches. *)
Ltac wf_split Hwf := destruct Hwf; split; tx_tables; try assumption.

Lemma CreateCluster_preserves c event : preserves (CreateCluster c event).
Proof.
  intros db a db' Hwf H. unfold CreateCluster in H. tx_step H. wf_split Hwf.
  - by apply keyed_insert.
  - apply refers_insert; [|done]. intros z Hz. by apply not_elem_of_nil in Hz.
Qed.

Lemma UpdateCluster_preserves c v event : preserves (UpdateCluster c v event).
Proof.
  intros db a db' Hwf H. unfold UpdateCluster in H. tx_step H. wf_split Hwf.
  - apply keyed_insert; [cbn; by apply wf_clusters0|done].
  - apply refers_insert; [|done]. cbn. intros z Hz. by eapply wf_active0.
Qed.

Lemma CreateNode_preserves r event : preserves (CreateNode r event).
Proof.
  intros db a db' Hwf H. unfold CreateNode in H. tx_step H. wf_split Hwf.
  - by apply keyed_insert.
  - apply refers_insert; [|done]. intros z Hz. by apply not_elem_of_nil in Hz.
Qed.

Lemma live_node_Some id db row : live_node id db = Some row → nodes db !! id = Some row.
Proof. unfold live_node. destruct (nodes db !! id) as [r|]; [|done]. by destruct (live r); intros [= ->]. Qed.

Lemma versioned_node_Ok id v db row db' : versioned_node id v db = Ok (row, db') →
  db' = db ∧ nodes db !! id = Some row.
Proof.
  intros H. unfold versioned_node in H. tx_step H.
  split; [done|]. by apply live_node_Some.
Qed.

Lemma UpdateNode_preserves r v event : preserves (UpdateNode r v event).
Proof.
  intros db a db' Hwf H. unfold UpdateNode in H.
  apply tx_bind_Ok in H as (row & ? & [-> Hrow]%versioned_node_Ok & H). tx_step H. wf_split Hwf.
  - apply keyed_insert; [cbn; by apply wf_nodes0 in Hrow|done].
  - apply refers_insert; [|done]. cbn. intros z Hz. by eapply wf_applied0.
Qed.

Lemma SoftDeleteNode_preserves id v t event : preserves (SoftDeleteNode id v t event).
Proof.
  intros db a db' Hwf H. unfold SoftDeleteNode in H.
  apply tx_bind_Ok in H as (row & ? & [-> Hrow]%versioned_node_Ok & H). tx_step H. wf_split Hwf.
  - apply keyed_insert; [cbn; by apply wf_nodes0 in Hrow|done].
  - by apply keyed_update.
  - by apply keyed_update.
  - apply unique_update; [|done..]. unfold is_open. intros ? ? _. by cbn.
  - apply refers_insert; [|done]. cbn. intros z Hz. by eapply wf_applied0.
  - by apply refers_update.
  - by apply refers_update.
  - by apply refers_update.
Qed.

Lemma UpdateNodeHealth_preserves id h c v l e t s : preserves (UpdateNodeHealth id h c v l e t s).
Proof.
  intros db a db' Hwf H. unfold UpdateNodeHealth in H. tx_step H. wf_split Hwf.
  - by apply keyed_update.
  - by apply refers_update.
Qed.

Lemma RecordNodeTestResult_preserves id h c v l e t s event :
  preserves (RecordNodeTestResult id h c v l e t s event).
Proof.
  intros db a db' Hwf H. unfold RecordNodeTestResult in H. tx_step H.
  match goal with H : live_node _ _ = Some _ |- _ => apply live_node_Some in H as Hrow end. wf_split Hwf.
  - apply keyed_insert; [by apply wf_nodes0 in Hrow|done].
  - apply refers_insert; [|done]. intros z Hz. by eapply wf_applied0.
Qed.

Lemma SetNodeMaintenance_preserves id b v t event : preserves (SetNodeMaintenance id b v t event).
Proof.
  intros db a db' Hwf H. unfold SetNodeMaintenance in H.
  apply tx_bind_Ok in H as (row & ? & [-> Hrow]%versioned_node_Ok & H). tx_step H. wf_split Hwf.
  - apply keyed_insert; [by apply wf_nodes0 in Hrow|done].
  - by apply keyed_update.
  - by apply unique_update.
  - apply refers_insert; [|done]. intros z Hz. by eapply wf_applied0.
  - by apply refers_update.
  - by apply refers_update.
Qed.

Lemma SaveObservation_preserves s p : preserves (SaveObservation s p).
Proof. intros db a db' Hwf H. unfold SaveObservation in H. tx_step H. by wf_split Hwf. Qed.

Lemma references_Some {A} (m : gmap string A) id r : references m id = true → r ∈ option_list id →
  is_Some (m !! r).
Proof.
  destruct id as [i|]; cbn; [|by intros _ ?%not_elem_of_nil].
  by intros ?%bool_decide_eq_true ->%list_elem_of_singleton.
Qed.

Lemma ImportDraft_preserves d v event : preserves (ImportDraft d v event).
Proof.
  intros db a db' Hwf H. unfold ImportDraft in H. tx_step H; bool_simp; wf_split Hwf.
  - by apply keyed_insert.
  - apply refers_insert; [|done]. cbn. intros z Hz. by eapply references_Some.
  - by apply keyed_insert.
  - apply refers_insert; [|done]. cbn. intros z Hz. by eapply references_Some.
Qed.

Lemma UpdateConfigurationDraft_preserves d v event : preserves (UpdateConfigurationDraft d v event).
Proof.
  intros db a db' Hwf H. unfold UpdateConfigurationDraft in H. tx_step H. wf_split Hwf.
  - apply keyed_insert; [cbn; by apply wf_drafts0|done].
  - apply refers_insert; [|done]. cbn. intros z Hz. by eapply wf_base0.
Qed.

Lemma next_revision_number_above clusterID db k r : revisions db !! k = Some r →
  Revision_ClusterID r = clusterID → Revision_RevisionNumber r < next_revision_number clusterID db.
Proof.
  intros Hk Hc. unfold next_revision_number.
  assert (Hin : r ∈ List.filter (λ r, Revision_ClusterID r =?? clusterID) (rows (revisions db))).
  { apply list_elem_of_In, filter_In. split; [|by apply bool_decide_eq_true].
    apply list_elem_of_In, elem_of_rows. eauto. }
  revert Hin. induction (List.filter _ _) as [|s l IH]; [by intros ?%not_elem_of_nil|].
  intros [->|Hin]%elem_of_cons; cbn; [lia|]. specialize (IH Hin). lia.
Qed.

Lemma PublishRevision_preserves d r v event : preserves (PublishRevision d r v event).
Proof.
  intros db a db' Hwf H. unfold PublishRevision in H. tx_step H. tx_tables. bool_simp. wf_split Hwf.
  - apply keyed_insert; [cbn; by apply wf_drafts0|done].
  - by apply keyed_insert.
  - apply unique_insert; [|done]. intros _ j y Hj _ E. exfalso. unfold number_key in E. cbn in E.
    injection E as Ec En. pose proof (next_revision_number_above _ _ _ _ Hj Ec). lia.
  - refers_target.
  - refers_target.
  - apply refers_insert; [|refers_target]. cbn.
    intros z ->%list_elem_of_singleton. rewrite lookup_insert_eq. eauto.
  - refers_target.
  - refers_target.
Qed.

Lemma locked_revision_Ok id db r db' : locked_revision id db = Ok (r, db') →
  db' = db ∧ revisions db !! id = Some r ∧ is_Some (clusters db !! Revision_ClusterID r).
Proof.
  unfold locked_revision. intros H. tx_step H. unfold joined in *. bool_simp. done.
Qed.

Lemma locked_deployment_Ok id db d db' : locked_deployment id db = Ok (d, db') →
  db' = db ∧ deployments db !! id = Some d.
Proof. unfold locked_deployment. intros H. tx_step H. done. Qed.

Lemma scan_bool_Ok v db b db' : scan_bool v db = Ok (b, db') → db' = db ∧ v = Some b.
Proof. unfold scan_bool. intros H. destruct v; tx_step H; done. Qed.

(** Rewriting a row of [revisions] or [deployments] in place. *)
Lemma unique_insert_same {A K} (p : A → Prop) (f : A → K) k x old (m : gmap string A) :
  m !! k = Some old → (p x → p old) → f x = f old → unique_on p f m → unique_on p f (<[k:=x]> m).
Proof.
  intros Hk Hp Hf Hm. apply unique_insert; [|done]. intros Px j y Hj Py E.
  rewrite Hf in E. eapply Hm; eauto.
Qed.

Lemma refers_insert_same {A B} f k x old (m : gmap string A) (t : gmap string B) :
  m !! k = Some old → (∀ r, r ∈ f x → r ∈ f old) → refers f m t → refers f (<[k:=x]> m) t.
Proof. intros Hk Hf Hm. apply refers_insert; [|done]. intros r Hr. eapply Hm; eauto. Qed.

Lemma SetRevisionArchived_preserves id actor b t event :
  preserves (SetRevisionArchived id actor b t event).
Proof.
  intros db a db' Hwf H. unfold SetRevisionArchived in H.
  apply tx_bind_Ok in H as (r & ? & (-> & Hr & _)%locked_revision_Ok & H).
  apply tx_bind_Ok in H as (? & ? & [-> ->]%tx_get_Ok & H).
  apply tx_bind_Ok in H as (act & ? & [-> _]%scan_bool_Ok & H).
  pose proof (wf_revisions _ Hwf _ _ Hr) as Hid. tx_step H; wf_split Hwf; try refers_target;
    try (by apply keyed_insert); by eapply unique_insert_same.
Qed.

Lemma retained_false id db : retained id db = false →
  node_applies id db = false ∧ draft_based_on id db = false ∧ deployment_of id db = false ∧
  drift_from id db = false.
Proof. unfold retained. intros H. bool_simp. done. Qed.

Lemma DeleteUnusedRevision_preserves id event : preserves (DeleteUnusedRevision id event).
Proof.
  intros db a db' Hwf H. unfold DeleteUnusedRevision in H.
  apply tx_bind_Ok in H as (r & ? & (-> & Hr & _)%locked_revision_Ok & H).
  apply tx_bind_Ok in H as (? & ? & [-> ->]%tx_get_Ok & H).
  apply tx_bind_Ok in H as (b & ? & [-> Hb]%scan_bool_Ok & H). tx_step H. bool_simp. subst b.
  assert (Hret : retained id db = false) by (unfold sql_or in Hb; by destruct (retained id db)).
  apply retained_false in Hret as (Hn & Hd & Hp & Hf).
  unfold node_applies, draft_based_on, deployment_of, drift_from in *.
  repeat match goal with H : exists_row _ _ = false |- _ => rewrite exists_row_false in H end.
  wf_split Hwf; try (by apply keyed_delete); try (by apply unique_delete);
    (apply refers_target_delete; [|done]); intros k z Hk.
  - match goal with H : ∀ k x, clusters _ !! k = Some x → _ |- _ => apply H in Hk end. bool_simp.
    destruct (Cluster_ActiveRevisionID z); set_solver.
  - apply Hn in Hk. bool_simp. destruct (Node_AppliedRevisionID (row_node z)); set_solver.
  - apply Hd in Hk. bool_simp. destruct (Draft_BaseRevisionID z); set_solver.
  - apply Hp in Hk. bool_simp. destruct (Deployment_RollbackOfRevisionID z); set_solver.
  - apply Hf in Hk. bool_simp. set_solver.
Qed.

Lemma insert_tasks_preserves id ts : ∀ db u db', WellFormed db → is_Some (deployments db !! id) →
  insert_tasks id ts db = Ok (u, db') → WellFormed db'.
Proof.
  induction ts as [|t ts IH]; intros db u db' Hwf Hid H; cbn [insert_tasks] in H; tx_step H; [done|].
  bool_simp. match goal with H : insert_tasks _ _ _ = _ |- _ => eapply IH in H; [exact H| |done] end.
  match goal with H : task_taken _ _ = false |- _ => unfold task_taken in H;
    rewrite exists_row_false in H; rename H into Ht end.
  wf_split Hwf.
  - by apply keyed_insert.
  - apply unique_insert; [|done]. intros _ j y Hj _ E. exfalso. apply Ht in Hj.
    unfold task_node in E. cbn in *. injection E as E1 E2. bool_simp.
    rewrite andb_false_iff, orb_false_iff, !bool_decide_eq_false in *. naive_solver.
  - apply unique_insert; [|done]. intros _ j y Hj _ E. exfalso. apply Ht in Hj.
    unfold task_position in E. cbn in *. injection E as E1 E2. bool_simp.
    rewrite andb_false_iff, orb_false_iff, !bool_decide_eq_false, Z.eqb_neq in *. naive_solver.
  - apply refers_insert; [|done]. by intros r ->%list_elem_of_singleton.
Qed.

Lemma CreateDeployment_preserves d event : preserves (CreateDeployment d event).
Proof.
  intros db a db' Hwf H. unfold CreateDeployment in H.
  apply tx_bind_Ok in H as (? & ? & [-> ->]%tx_get_Ok & H). cbv zeta in H.
  apply tx_bind_Ok in H as (? & ? & [Hc ->]%tx_check_Ok & H).
  apply tx_bind_Ok in H as (? & ? & [Hr ->]%tx_check_Ok & H).
  apply tx_bind_Ok in H as (? & ? & ->%tx_modify_Ok & H).
  apply tx_bind_Ok in H as (? & ? & H & [? ->]%audit_Ok).
  apply insert_tasks_preserves in H; [wf_split H| |tx_tables; rewrite lookup_insert_eq; eauto].
  clear H. bool_simp. wf_split Hwf.
  - by apply keyed_insert.
  - apply unique_insert; [|done]. unfold is_active. intros Ha j y Hj Hy E. exfalso.
    match goal with H : _ && exists_row _ _ = false |- _ =>
      rewrite Ha in H; cbn [andb] in H; rewrite exists_row_false in H; specialize (H _ _ Hj);
      unfold cluster_active in H; rewrite Hy, andb_true_r in H end. by bool_simp.
  - apply refers_insert; [|done]. intros r [->|Hin]%elem_of_cons; [done|].
    by eapply references_Some.
  - refers_target.
  - refers_target.
Qed.

Lemma SetDeploymentArchived_preserves id actor b t event :
  preserves (SetDeploymentArchived id actor b t event).
Proof.
  intros db a db' Hwf H. unfold SetDeploymentArchived in H.
  apply tx_bind_Ok in H as (d & ? & [-> Hd]%locked_deployment_Ok & H).
  pose proof (wf_deployments _ Hwf _ _ Hd) as Hid. tx_step H; wf_split Hwf; try refers_target;
    try (by apply keyed_insert); try (by eapply unique_insert_same); by eapply refers_insert_same.
Qed.

Lemma DeleteUnstartedDeployment_preserves id event : preserves (DeleteUnstartedDeployment id event).
Proof.
  intros db a db' Hwf H. unfold DeleteUnstartedDeployment in H.
  apply tx_bind_Ok in H as (d & ? & [-> Hd]%locked_deployment_Ok & H).
  pose proof (wf_deployments _ Hwf _ _ Hd) as Hid. tx_step H. unfold deletable in *. bool_simp.
  repeat match goal with H : exists_row _ _ = false |- _ => rewrite exists_row_false in H end.
  wf_split Hwf; try (by apply keyed_delete); try (by apply keyed_delete_where);
    try (by apply unique_delete); try (by apply unique_delete_where);
    try (by apply refers_delete).
  - apply refers_target_delete; [|by apply refers_delete_where].
    intros k z [_ Hx]%lookup_delete_where. bool_simp. set_solver.
  - apply refers_target_delete; [|done]. intros k z Hk.
    match goal with H : ∀ k x, drift_events _ !! k = Some x → _ |- _ => apply H in Hk end. bool_simp.
    destruct (DriftEvent_RelatedDeploymentID z); set_solver.
Qed.

Lemma RequestDeploymentCancel_preserves id event : preserves (RequestDeploymentCancel id event).
Proof.
  intros db a db' Hwf H. unfold RequestDeploymentCancel in H. tx_step H. bool_simp.
  match goal with H : deployments _ !! id = Some ?d |- _ =>
    pose proof (wf_deployments _ Hwf _ _ H) as Hid; rename H into Hd; rename d into dep end.
  wf_split Hwf; try refers_target; try (by eapply refers_insert_same); [by apply keyed_insert|].
  eapply unique_insert_same; [done| |done..]. unfold is_active. cbn. intros _.
  unfold active_status, cancellable in *.
  match goal with H : bool_decide _ = true |- _ => apply bool_decide_eq_true in H end.
  apply bool_decide_eq_true. set_solver.
Qed.

Lemma next_claim_Some db d : WellFormed db → next_claim db = Some d →
  deployments db !! Deployment_ID d = Some d ∧
  (Deployment_Status d = "queued" ∨ Deployment_Status d = "cancelling").
Proof.
  intros Hwf H. unfold next_claim, order_asc in H. apply head_Some_elem_of in H.
  apply elem_of_sort_Slice, list_elem_of_In, filter_In in H as [Hin Hs].
  apply list_elem_of_In, elem_of_rows in Hin as [k Hk].
  pose proof (wf_deployments _ Hwf _ _ Hk) as <-. split; [done|].
  apply orb_prop in Hs. rewrite !bool_decide_eq_true in Hs. done.
Qed.

Lemma ClaimDeployment_preserves t : preserves (ClaimDeployment t).
Proof.
  intros db a db' Hwf H. unfold ClaimDeployment in H. tx_step H; [|done].
  match goal with H : next_claim _ = Some ?d |- _ =>
    apply (next_claim_Some _ _ Hwf) in H as [Hd Hs]; rename d into dep end.
  wf_split Hwf; try refers_target; try (by eapply refers_insert_same); [by apply keyed_insert|].
  eapply unique_insert_same; [done| |done..]. unfold is_active. intros _. by destruct Hs as [-> | ->].
Qed.

Lemma UpdateDeploymentNode_preserves t : preserves (UpdateDeploymentNode t).
Proof.
  intros db a db' Hwf H. unfold UpdateDeploymentNode in H. tx_step H. wf_split Hwf;
    [by apply keyed_alter|by apply unique_alter; [auto|..]|by apply unique_alter; [auto|..]|].
  apply refers_alter; [|done]. auto.
Qed.

Lemma SetDeploymentRunning_preserves id : preserves (SetDeploymentRunning id).
Proof.
  intros db a db' Hwf H. unfold SetDeploymentRunning in H. tx_step H. wf_split Hwf.
  - apply keyed_alter; [|done]. intros d. by case_match.
  - apply unique_alter; [|intros d; by case_match|done]. unfold is_active. intros d _.
    case_bool_decide as E; [|auto]. rewrite E. auto.
  - apply refers_alter; [|done]. intros d r _. case_match; auto.
  - refers_target.
  - refers_target.
Qed.

Lemma MarkNodeApplied_preserves n r h s t : preserves (MarkNodeApplied n r h s t).
Proof.
  intros db a db' Hwf H. unfold MarkNodeApplied in H. tx_step H. wf_split Hwf.
  - by apply keyed_alter.
  - apply refers_alter; [|done]. cbn. intros row z Hrow ->%list_elem_of_singleton. right.
    match goal with H : _ || _ = true |- _ => apply orb_prop in H as [H|H];
      apply bool_decide_eq_true in H; congruence end.
Qed.

Lemma FinishDeployment_preserves d b event : preserves (FinishDeployment d b event).
Proof.
  intros db a db' Hwf H. unfold FinishDeployment in H.
  apply tx_bind_Ok in H as (? & ? & [-> ->]%tx_get_Ok & H). cbv zeta in H.
  apply tx_bind_Ok in H as (? & ? & [Hc ->]%tx_check_Ok & H).
  apply tx_bind_Ok in H as (? & ? & ->%tx_modify_Ok & H).
  assert (Hwf' : WellFormed (set_deployments (alter (λ x,
    set_Deployment_Status (Deployment_Status d)
      (set_Deployment_ErrorCode (Deployment_ErrorCode d)
        (set_Deployment_CompletedAt (Deployment_CompletedAt d) x))) (Deployment_ID d)
     (deployments db)) db)).
  { clear H. pose proof (wf_deployments _ Hwf) as Hkey. wf_split Hwf; try refers_target.
    - by apply keyed_alter.
    - apply unique_alter; [|done|done]. unfold is_active. cbn. intros z Hz Ha. right.
      unfold activation_conflict in Hc. rewrite Hz, Ha in Hc. cbn [andb] in Hc.
      apply negb_true_iff in Hc. rewrite exists_row_false in Hc.
      intros j y Hj Hy E. apply Hc in Hj as Hn. apply Hkey in Hj. unfold cluster_active in Hn.
      rewrite Hy, E, (bool_decide_true _ eq_refl), andb_true_r in Hn. bool_simp. congruence.
    - apply refers_alter; [|done]. cbn. auto. }
  revert H Hwf'. generalize (set_deployments (alter (λ x,
    set_Deployment_Status (Deployment_Status d)
      (set_Deployment_ErrorCode (Deployment_ErrorCode d)
        (set_Deployment_CompletedAt (Deployment_CompletedAt d) x))) (Deployment_ID d)
     (deployments db)) db).
  clear Hwf. intros db1 H Hwf. tx_step H; bool_simp; wf_split Hwf;
    try (by apply keyed_update); try (by apply keyed_alter); try (by apply refers_update);
    try (by apply unique_update).
  apply refers_alter; [|done]. cbn. intros row z Hrow ->%list_elem_of_singleton. right.
  match goal with H : _ || _ = true |- _ => apply orb_prop in H as [H|H];
      apply bool_decide_eq_true in H; congruence end.
Qed.

Lemma audit_interrupted_Ok items : ∀ ids t db u db', audit_interrupted items ids t db = Ok (u, db') →
  ∃ l, db' = set_audit_events l db.
Proof.
  induction items as [|d items IH]; intros ids t db u db' H; cbn [audit_interrupted] in H.
  { apply tx_ret_Ok in H as [_ ->]. exists (audit_events db). by destruct db. }
  destruct ids as [|[id|] ids]; try discriminate H.
  apply tx_bind_Ok in H as (? & ? & [l ->]%audit_Ok & [l' ->]%IH). by exists l'.
Qed.

Lemma InterruptDeployments_preserves t ids : preserves (InterruptDeployments t ids).
Proof.
  intros db a db' Hwf H. unfold InterruptDeployments in H.
  apply tx_bind_Ok in H as (? & ? & [-> ->]%tx_get_Ok & H). cbv zeta in H.
  apply tx_bind_Ok in H as (? & ? & ->%tx_modify_Ok & H).
  apply tx_bind_Ok in H as (? & ? & ->%tx_modify_Ok & H).
  apply tx_bind_Ok in H as (? & ? & ->%tx_modify_Ok & [l ->]%audit_interrupted_Ok).
  wf_split Hwf; try (by repeat apply keyed_update); try (by repeat apply unique_update);
    try (by repeat apply refers_update).
  - apply refers_weaken with (deployments db); [auto with tables|by repeat apply refers_update].
  - refers_target.
Qed.

Lemma UpsertDriftEvent_preserves item event : preserves (UpsertDriftEvent item event).
Proof.
  intros db a db' Hwf H. unfold UpsertDriftEvent in H. tx_step H; bool_simp.
  - match goal with H : List.find _ _ = Some ?e |- _ => rename e into old;
      apply find_some in H as [Hin Hsame] end.
    apply list_elem_of_In, elem_of_rows in Hin as [k Hk].
    pose proof (wf_drift _ Hwf _ _ Hk) as <-. wf_split Hwf; try (by eapply refers_insert_same).
    + by apply keyed_insert.
    + by eapply unique_insert_same.
  - match goal with H : List.find _ _ = None |- _ => rename H into Hnone end. wf_split Hwf.
    + by apply keyed_insert.
    + apply unique_insert; [|done]. intros _ j y Hj Hy E. exfalso.
      assert (Hin : In y (rows (drift_events db))) by (apply list_elem_of_In, elem_of_rows; eauto).
      apply (find_none _ _ Hnone) in Hin. unfold same_open_drift in Hin.
      unfold drift_key in E. cbn in E. injection E as E1 E2. unfold is_open in Hy.
      by rewrite E1, E2, Hy, !(bool_decide_true _ eq_refl) in Hin.
    + apply refers_insert; [|done]. by intros r ->%list_elem_of_singleton.
    + apply refers_insert; [|done]. by intros r ?%not_elem_of_nil.
Qed.

Lemma ResolveNodeDrift_preserves n s t event : preserves (ResolveNodeDrift n s t event).
Proof.
  intros db a db' Hwf H. unfold ResolveNodeDrift in H. tx_step H; [done|].
  wf_split Hwf; try (by apply keyed_update); try (by apply refers_update).
  apply unique_update; [|done..]. unfold is_open. cbn. intros ? ? _. by intros ?.
Qed.

Lemma UpdateDriftReconciliation_preserves id s d : preserves (UpdateDriftReconciliation id s d).
Proof.
  intros db a db' Hwf H. unfold UpdateDriftReconciliation in H. tx_step H. wf_split Hwf.
  - by apply keyed_alter.
  - apply unique_alter; [auto|done..].
  - apply refers_alter; [auto|done].
  - apply refers_alter; [|done]. cbn. intros e z He Hz. right.
    match goal with H : _ || _ = true |- _ => apply orb_prop in H as [H|H] end.
    + bool_simp. congruence.
    + by eapply references_Some.
Qed.

Lemma UpdateNodeConvergence_preserves n s t : preserves (UpdateNodeConvergence n s t).
Proof.
  intros db a db' Hwf H. unfold UpdateNodeConvergence in H. tx_step H. wf_split Hwf.
  - by apply keyed_alter.
  - apply refers_alter; [auto|done].
Qed.
End preservation.
