(* ===== verification/StoreHistory.v ===== *)
(** * Histories of store operations and the contracts of single operations

    Every mutation of the control plane goes through the methods of the store.  A
    history is a list of calls in the order PostgreSQL serialises them; a failed
    call is rolled back. *)

From S2P Require Import Prelude GoRuntime Json Domain Configuration ConfigDiff AuditMetadata.
From S2P Require Import ControlModel Store StoreRecords StoreControl StoreInvariant.

Inductive store_op : Type :=
| OpCreateCluster (cluster : Cluster) (event : AuditEvent)
| OpUpdateCluster (cluster : Cluster) (expectedVersion : Z) (event : AuditEvent)
| OpCreateNode (record : NodeRecord) (event : AuditEvent)
| OpUpdateNode (record : NodeRecord) (expectedVersion : Z) (event : AuditEvent)
| OpSoftDeleteNode (id : string) (expectedVersion : Z) (at_ : Time) (event : AuditEvent)
| OpUpdateNodeHealth (id health compatibility version : string) (latencyMS : option Z)
    (errorCode : string) (polledAt : Time) (seen : bool)
| OpRecordNodeTestResult (id health compatibility version : string) (latencyMS : option Z)
    (errorCode : string) (polledAt : Time) (seen : bool) (event : AuditEvent)
| OpSetNodeMaintenance (id : string) (enabled : bool) (expectedVersion : Z) (at_ : Time) (event : AuditEvent)
| OpSaveObservation (snapshot : Snapshot) (profile : CapabilityProfile)
| OpImportDraft (draft : Draft) (expectedVersion : Z) (event : AuditEvent)
| OpUpdateConfigurationDraft (draft : Draft) (expectedVersion : Z) (event : AuditEvent)
| OpPublishRevision (draft : Draft) (revision : Revision) (expectedVersion : Z) (event : AuditEvent)
| OpSetRevisionArchived (id actorID : string) (archived : bool) (at_ : Time) (event : AuditEvent)
| OpDeleteUnusedRevision (id : string) (event : AuditEvent)
| OpCreateDeployment (deployment : Deployment) (event : AuditEvent)
| OpSetDeploymentArchived (id actorID : string) (archived : bool) (at_ : Time) (event : AuditEvent)
| OpDeleteUnstartedDeployment (id : string) (event : AuditEvent)
| OpRequestDeploymentCancel (id : string) (event : AuditEvent)
| OpClaimDeployment (at_ : Time)
| OpUpdateDeploymentNode (node : DeploymentNode)
| OpSetDeploymentRunning (id : string)
| OpMarkNodeApplied (nodeID revisionID hash snapshotID : string) (at_ : Time)
| OpFinishDeployment (deployment : Deployment) (activate : bool) (event : AuditEvent)
| OpInterruptDeployments (at_ : Time) (ids : list (res string))
| OpUpsertDriftEvent (item : DriftEvent) (event : AuditEvent)
| OpResolveNodeDrift (nodeID resolution : string) (at_ : Time) (event : AuditEvent)
| OpUpdateDriftReconciliation (id status : string) (deploymentID : option string)
| OpUpdateNodeConvergence (nodeID status : string) (at_ : Time).

Section history.
Context {R : Runtime} {C : Collation}.

Definition apply_op (op : store_op) (db : DB) : DB :=
  match op with
  | OpCreateCluster c e => (commit (CreateCluster c e) db).2
  | OpUpdateCluster c v e => (commit (UpdateCluster c v e) db).2
  | OpCreateNode r e => (commit (CreateNode r e) db).2
  | OpUpdateNode r v e => (commit (UpdateNode r v e) db).2
  | OpSoftDeleteNode id v t e => (commit (SoftDeleteNode id v t e) db).2
  | OpUpdateNodeHealth id h c v l e t s => (commit (UpdateNodeHealth id h c v l e t s) db).2
  | OpRecordNodeTestResult id h c v l e t s a =>
      (commit (RecordNodeTestResult id h c v l e t s a) db).2
  | OpSetNodeMaintenance id b v t e => (commit (SetNodeMaintenance id b v t e) db).2
  | OpSaveObservation s p => (commit (SaveObservation s p) db).2
  | OpImportDraft d v e => (commit (ImportDraft d v e) db).2
  | OpUpdateConfigurationDraft d v e => (commit (UpdateConfigurationDraft d v e) db).2
  | OpPublishRevision d r v e => (commit (PublishRevision d r v e) db).2
  | OpSetRevisionArchived id actor b t e => (commit (SetRevisionArchived id actor b t e) db).2
  | OpDeleteUnusedRevision id e => (commit (DeleteUnusedRevision id e) db).2
  | OpCreateDeployment d e => (commit (CreateDeployment d e) db).2
  | OpSetDeploymentArchived id actor b t e => (commit (SetDeploymentArchived id actor b t e) db).2
  | OpDeleteUnstartedDeployment id e => (commit (DeleteUnstartedDeployment id e) db).2
  | OpRequestDeploymentCancel id e => (commit (RequestDeploymentCancel id e) db).2
  | OpClaimDeployment t => (commit (ClaimDeployment t) db).2
  | OpUpdateDeploymentNode n => (commit (UpdateDeploymentNode n) db).2
  | OpSetDeploymentRunning id => (commit (SetDeploymentRunning id) db).2
  | OpMarkNodeApplied n r h s t => (commit (MarkNodeApplied n r h s t) db).2
  | OpFinishDeployment d b e => (commit (FinishDeployment d b e) db).2
  | OpInterruptDeployments t ids => (commit (InterruptDeployments t ids) db).2
  | OpUpsertDriftEvent i e => (commit (UpsertDriftEvent i e) db).2
  | OpResolveNodeDrift n s t e => (commit (ResolveNodeDrift n s t e) db).2
  | OpUpdateDriftReconciliation id s d => (commit (UpdateDriftReconciliation id s d) db).2
  | OpUpdateNodeConvergence n s t => (commit (UpdateNodeConvergence n s t) db).2
  end.

Definition run_history (ops : list store_op) (db : DB) : DB := foldl (flip apply_op) db ops.

Lemma commit_preserves {A} (t : Tx A) db : preserves t → WellFormed db → WellFormed (commit t db).2.
Proof. intros Ht Hwf. unfold commit. destruct (t db) as [[a db']|] eqn:E; [by eapply Ht|done]. Qed.

Lemma apply_op_preserves op db : WellFormed db → WellFormed (apply_op op db).
Proof.
  destruct op; apply commit_preserves; auto using CreateCluster_preserves, UpdateCluster_preserves,
    CreateNode_preserves, UpdateNode_preserves, SoftDeleteNode_preserves, UpdateNodeHealth_preserves,
    RecordNodeTestResult_preserves, SetNodeMaintenance_preserves, SaveObservation_preserves,
    ImportDraft_preserves, UpdateConfigurationDraft_preserves, PublishRevision_preserves,
    SetRevisionArchived_preserves, DeleteUnusedRevision_preserves, CreateDeployment_preserves,
    SetDeploymentArchived_preserves, DeleteUnstartedDeployment_preserves,
    RequestDeploymentCancel_preserves, ClaimDeployment_preserves, UpdateDeploymentNode_preserves,
    SetDeploymentRunning_preserves, MarkNodeApplied_preserves, FinishDeployment_preserves,
    InterruptDeployments_preserves, UpsertDriftEvent_preserves, ResolveNodeDrift_preserves,
    UpdateDriftReconciliation_preserves, UpdateNodeConvergence_preserves.
Qed.

Lemma run_history_preserves ops : ∀ db, WellFormed db → WellFormed (run_history ops db).
Proof.
  unfold run_history. induction ops as [|op ops IH]; intros db Hwf; cbn; [done|].
  by apply IH, apply_op_preserves.
Qed.

(** C5: whatever the history of store calls, failed ones included, the tables keep their
    invariant: unique revision numbers, at most one active deployment per cluster, tasks with
    distinct nodes and positions, at most one open drift event per fingerprint, and no
    dangling reference to a revision or a deployment. *)
Theorem store_history_WellFormed ops : WellFormed (run_history ops empty_DB).
Proof. apply run_history_preserves, WellFormed_empty. Qed.

(** ** Optimistic concurrency of the draft *)

Lemma commit_Ok {S A} (t : Txn S A) db a db' : commit t db = (Ok a, db') ↔ t db = Ok (a, db').
Proof.
  unfold commit. destruct (t db) as [[b db1]|]; [|naive_solver congruence].
  split; [by intros [= -> ->]|by intros [= -> ->]].
Qed.

(** What a successful write of the draft leaves behind. *)
Lemma UpdateConfigurationDraft_Ok d v event db u db' :
  UpdateConfigurationDraft d v event db = Ok (u, db') →
  ∃ old new, drafts db !! Draft_ClusterID d = Some old ∧ Draft_Version old = v ∧
    drafts db' !! Draft_ClusterID d = Some new ∧ Draft_Version new = v + 1 ∧
    Draft_Document new = stored_desired (Draft_Document d) ∧ Draft_ID new = Draft_ID old.
Proof.
  unfold UpdateConfigurationDraft. intros H. tx_step H. bool_simp. tx_tables.
  match goal with H : drafts db !! _ = Some ?o |- _ => exists o end.
  eexists. rewrite lookup_insert_eq. repeat split; [done|]. cbn. lia.
Qed.

Lemma UpdateConfigurationDraft_stale d v event db old :
  drafts db !! Draft_ClusterID d = Some old → Draft_Version old ≠ v →
  commit (UpdateConfigurationDraft d v event) db = (Err draft_changed, db).
Proof.
  intros Hd Hv. unfold commit, UpdateConfigurationDraft. unfold tx_bind at 1, tx_get. rewrite Hd.
  by rewrite (proj2 (Z.eqb_neq _ _) Hv).
Qed.

(** C12: of two requests that edit the draft they both read at version [v], the one that is
    served second is refused and changes nothing: no update is lost. *)
Theorem draft_update_not_lost d1 d2 v event1 event2 db db1 :
  Draft_ClusterID d1 = Draft_ClusterID d2 →
  commit (UpdateConfigurationDraft d1 v event1) db = (Ok tt, db1) →
  commit (UpdateConfigurationDraft d2 v event2) db1 = (Err draft_changed, db1) ∧
  ∃ new, drafts db1 !! Draft_ClusterID d1 = Some new ∧
    Draft_Document new = stored_desired (Draft_Document d1).
Proof.
  intros E (old & new & _ & _ & Hnew & Hv & Hdoc & _)%commit_Ok%UpdateConfigurationDraft_Ok.
  split; [|by exists new]. rewrite E in Hnew. eapply UpdateConfigurationDraft_stale; [done|lia].
Qed.

Lemma insert_tasks_tables id ts : ∀ db u db', insert_tasks id ts db = Ok (u, db') →
  ∃ l, db' = set_deployment_nodes l db.
Proof.
  induction ts as [|t ts IH]; intros db u db' H; cbn [insert_tasks] in H; tx_step H.
  - exists (deployment_nodes db). by destruct db.
  - match goal with H : insert_tasks _ _ _ = _ |- _ => apply IH in H as [l ->] end. by exists l.
Qed.

(** ** Publication *)

(** a published revision gets a number above every revision of its cluster, is stored under
    its identifier and becomes the base of the draft, whose version goes up by one. *)
Theorem PublishRevision_next d r v event db r' db' :
  commit (PublishRevision d r v event) db = (Ok r', db') →
  (∀ k s, revisions db !! k = Some s → Revision_ClusterID s = Revision_ClusterID r →
     Revision_RevisionNumber s < Revision_RevisionNumber r') ∧
  revisions db !! Revision_ID r = None ∧
  revisions db' = <[Revision_ID r := revision_row r']> (revisions db) ∧
  ∃ old new, drafts db !! Revision_ClusterID r = Some old ∧ Draft_Version old = v ∧
    drafts db' = <[Revision_ClusterID r := new]> (drafts db) ∧
    Draft_BaseRevisionID new = Some (Revision_ID r) ∧ Draft_Version new = v + 1 ∧
    Draft_Document new = Draft_Document old.
Proof.
  intros H%commit_Ok. unfold PublishRevision in H. tx_step H. bool_simp. tx_tables.
  split; [|split; [done|split; [done|]]].
  - intros k s Hk E. by eapply next_revision_number_above.
  - match goal with H : drafts db !! _ = Some ?o |- _ => exists o end. eexists.
    repeat split; [done|done|]. cbn. lia.
Qed.

(** ** Deployments *)

(** C11: at most one deployment of a cluster is active: while one is, a new one is refused with
    the conflict error and nothing is written; and a deployment that was created found none
    active and is the active one afterwards. *)
Theorem CreateDeployment_exclusive d event db :
  Deployment_Status d = "queued" →
  (ClusterHasActiveDeployment (Deployment_ClusterID d) db = Ok true →
   commit (CreateDeployment d event) db =
     (Err (conflict "the cluster already has an active deployment"), db)) ∧
  (∀ db', commit (CreateDeployment d event) db = (Ok tt, db') →
   ClusterHasActiveDeployment (Deployment_ClusterID d) db = Ok false ∧
   ClusterHasActiveDeployment (Deployment_ClusterID d) db' = Ok true).
Proof.
  intros Hs. unfold ClusterHasActiveDeployment. split.
  - intros [= Ha]. unfold commit, CreateDeployment. unfold tx_bind at 1, tx_get. cbn zeta.
    unfold tx_bind at 1, tx_check at 1. cbn [Deployment_Status Deployment_ClusterID deployment_row].
    by rewrite Hs, Ha, (andb_false_r (bool_decide _)).
  - intros db' H%commit_Ok. unfold CreateDeployment in H.
    apply tx_bind_Ok in H as (? & ? & [-> ->]%tx_get_Ok & H). cbv zeta in H.
    apply tx_bind_Ok in H as (? & ? & [Hc ->]%tx_check_Ok & H).
    apply tx_bind_Ok in H as (? & ? & [_ ->]%tx_check_Ok & H).
    apply tx_bind_Ok in H as (? & ? & ->%tx_modify_Ok & H).
    apply tx_bind_Ok in H as (? & ? & H & [? ->]%audit_Ok).
    apply insert_tasks_tables in H as [l ->]. tx_tables.
    apply andb_true_iff in Hc as [_ Hc%negb_true_iff].
    cbn [Deployment_Status Deployment_ClusterID deployment_row] in *. rewrite Hs in Hc.
    change (exists_row (cluster_active (Deployment_ClusterID d)) (deployments db) = false) in Hc.
    split; [by rewrite Hc|]. f_equal. apply exists_row_true. exists (Deployment_ID d). eexists.
    rewrite lookup_insert_eq. split; [done|]. unfold cluster_active. cbn.
    by rewrite (bool_decide_true _ eq_refl), Hs.
Qed.

(** ** Recovery *)

Lemma audit_events_Ok event db u db' : audit event db = Ok (u, db') →
  ∃ e, db' = set_audit_events (audit_events db ++ [e]) db.
Proof.
  unfold audit. intros (? & ? & [-> ->]%tx_get_Ok & H)%tx_bind_Ok.
  apply tx_bind_Ok in H as (? & ? & [_ ->]%tx_check_Ok & ->%tx_modify_Ok). eauto.
Qed.

Lemma audit_interrupted_events items : ∀ ids t db u db',
  audit_interrupted items ids t db = Ok (u, db') →
  ∃ l, db' = set_audit_events l db ∧ (length l = length (audit_events db) + length items)%nat.
Proof.
  induction items as [|d items IH]; intros ids t db u db' H; cbn [audit_interrupted] in H.
  { apply tx_ret_Ok in H as [_ ->]. exists (audit_events db). cbn. split; [by destruct db|lia]. }
  destruct ids as [|[id|] ids]; try discriminate H.
  apply tx_bind_Ok in H as (? & ? & [e ->]%audit_events_Ok & (l & -> & Hl)%IH).
  exists l. split; [done|]. rewrite Hl. cbn. rewrite length_app. cbn. lia.
Qed.

(** C13: after the recovery at startup no deployment is left validating, running or cancelling: each
    of them is interrupted with the restart code, every other deployment and every drift event is
    as before, no task is left in progress, and each recovered deployment has its audit event. *)
Theorem InterruptDeployments_recovers t ids db db' :
  commit (InterruptDeployments t ids) db = (Ok tt, db') →
  (∀ k d, deployments db' !! k = Some d → running_status (Deployment_Status d) = false) ∧
  (∀ k d, deployments db !! k = Some d →
     deployments db' !! k = Some (if running_status (Deployment_Status d) then interrupted t d else d)) ∧
  (∀ k n, deployment_nodes db' !! k = Some n →
     in_status ["validating"; "applying"; "verifying"] n = false) ∧
  drift_events db' = drift_events db ∧
  (length (audit_events db') = length (audit_events db) +
    length (List.filter (λ d, running_status (Deployment_Status d)) (rows (deployments db))))%nat.
Proof.
  intros H%commit_Ok. unfold InterruptDeployments in H.
  apply tx_bind_Ok in H as (? & ? & [-> ->]%tx_get_Ok & H). cbv zeta in H.
  apply tx_bind_Ok in H as (? & ? & ->%tx_modify_Ok & H).
  apply tx_bind_Ok in H as (? & ? & ->%tx_modify_Ok & H).
  apply tx_bind_Ok in H as (? & ? & ->%tx_modify_Ok & H).
  apply audit_interrupted_events in H as (l & -> & Hl). tx_tables.
  repeat split; [..|exact Hl].
  - intros k d. rewrite lookup_update_where, fmap_Some. intros (d0 & _ & ->).
    by destruct (running_status (Deployment_Status d0)) eqn:E.
  - intros k d Hd. by rewrite lookup_update_where, Hd.
  - intros k n. rewrite !lookup_update_where, fmap_Some. intros (n0 & (n1 & _ & ->)%fmap_Some & ->).
    destruct (in_status _ n1) eqn:E; repeat case_match; done.
Qed.

(** when the cluster has no active revision the store can neither archive nor delete a
    revision, although the listing offers both: the comparison with the null column does not
    scan and the call fails with an internal error. *)
Theorem lifecycle_needs_active_revision id actor t event1 event2 db r :
  revisions db !! id = Some r → joined db r = true → active_revision (Revision_ClusterID r) db = None →
  retained id db = false →
  commit (SetRevisionArchived id actor true t event1) db =
    (Err (TextError "cannot scan NULL into *bool"), db) ∧
  commit (DeleteUnusedRevision id event2) db = (Err (TextError "cannot scan NULL into *bool"), db) ∧
  (Revision_ID r = id → Lifecycle_CanDelete (Revision_Lifecycle (select_revision db r)) = true).
Proof.
  intros Hr Hj Ha Hret.
  unfold commit, SetRevisionArchived, DeleteUnusedRevision, locked_revision, tx_bind, tx_get.
  rewrite Hr, Hj. unfold tx_ret. rewrite Ha. cbn. split; [done|]. rewrite Hret. split; [done|].
  intros E. unfold select_revision. rewrite Ha, E, Hret. done.
Qed.

(** with an active revision the flag [canDelete] of the listing is exact: deleting the revision
    succeeds if and only if the flag is set, and a refusal is the conflict error. *)
Theorem DeleteUnusedRevision_flag id event db r active :
  WellFormed db → revisions db !! id = Some r →
  active_revision (Revision_ClusterID r) db = Some active →
  existsb (λ e, AuditEvent_ID e =?? AuditEvent_ID event) (audit_events db) = false →
  (∀ c x, clusters db !! c = Some x → Cluster_ActiveRevisionID x = Some id → c = Revision_ClusterID r) →
  let flag := Lifecycle_CanDelete (Revision_Lifecycle (select_revision db r)) in
  (commit (DeleteUnusedRevision id event) db).1 = (if flag then Ok tt else Err (conflict
    "the revision is active or retained by configuration, deployment, node, or drift history")).
Proof.
  intros Hwf Hr Ha Haudit Hown. pose proof (wf_revisions _ Hwf _ _ Hr) as Hid.
  assert (Hj : joined db r = true).
  { unfold joined. apply bool_decide_eq_true. unfold active_revision in Ha.
    destruct (clusters db !! _); [eauto|discriminate]. }
  unfold select_revision, commit, DeleteUnusedRevision, locked_revision. cbn zeta.
  unfold tx_bind, tx_get. rewrite Hr, Hj. unfold tx_ret. rewrite Ha, Hid.
  rewrite (bool_decide_ext (Some active = Some id) (active = id)) by naive_solver.
  unfold sql_eq. cbn [fmap option_fmap option_map]. unfold sql_or, scan_bool.
  cbn [scanRevision Revision_Lifecycle Lifecycle_CanDelete].
  destruct (retained id db) eqn:Hret; [by rewrite andb_false_r|].
  destruct (active =?? id) eqn:E; [done|]. cbn [andb negb]. unfold tx_ret, tx_check.
  assert (exists_row (λ c, Cluster_ActiveRevisionID c =?? Some id) (clusters db) = false) as ->.
  { apply exists_row_false. intros c x Hx. apply bool_decide_eq_false. intros Hc.
    pose proof (Hown _ _ Hx Hc) as ->. unfold active_revision in Ha. rewrite Hx in Ha. cbn in Ha.
    apply bool_decide_eq_false in E. congruence. }
  cbn. unfold audit, tx_bind, tx_get, tx_modify, tx_ret. cbn. by rewrite Haudit.
Qed.

(** ** The queue *)

#[export] Instance key_StrictWeak {A} (key : A → Z) : StrictWeak (λ x y, key x <? key y).
Proof. split; intros; lia. Qed.

Lemma next_claim_least db d : next_claim db = Some d →
  ∀ k e, deployments db !! k = Some e →
    (Deployment_Status e = "queued" ∨ Deployment_Status e = "cancelling") →
    Deployment_RequestedAt d <= Deployment_RequestedAt e.
Proof.
  unfold next_claim, order_asc. intros Hd k e Hk Hs.
  set (l := List.filter _ _) in Hd.
  assert (Hin : e ∈ l).
  { apply list_elem_of_In, filter_In. split; [apply list_elem_of_In, elem_of_rows; eauto|].
    rewrite orb_true_iff, !bool_decide_eq_true. done. }
  apply (elem_of_sort_Slice (λ x y, Deployment_RequestedAt x <? Deployment_RequestedAt y)) in Hin.
  pose proof (sort_Slice_sorted (λ x y, Deployment_RequestedAt x <? Deployment_RequestedAt y) l) as Hsort.
  destruct (sort_Slice _ l) as [|d' l']; [done|]. injection Hd as ->.
  apply StronglySorted_inv in Hsort as [_ Hall]. apply elem_of_cons in Hin as [->|Hin]; [lia|].
  eapply Forall_forall in Hall; [|exact Hin]. unfold not_greater in Hall. lia.
Qed.

(** the worker claims the longest waiting deployment that is queued or was cancelled while
    queued, and moves it to [validating], or to [cancelling] when its cancellation was requested; it
    gets the empty identifier exactly when no such deployment exists. *)
Theorem ClaimDeployment_oldest t db id db' :
  WellFormed db → commit (ClaimDeployment t) db = (Ok id, db') →
  (id = "" ∧ db' = db ∧ ∀ k e, deployments db !! k = Some e →
     Deployment_Status e ≠ "queued" ∧ Deployment_Status e ≠ "cancelling") ∨
  (∃ d, deployments db !! id = Some d ∧
     (Deployment_Status d = "queued" ∨ Deployment_Status d = "cancelling") ∧
     (∀ k e, deployments db !! k = Some e →
        (Deployment_Status e = "queued" ∨ Deployment_Status e = "cancelling") →
        Deployment_RequestedAt d <= Deployment_RequestedAt e) ∧
     deployments db' = <[id := claimed t d]> (deployments db) ∧
     Deployment_Status (claimed t d) =
       (if Deployment_CancelRequested d then "cancelling" else "validating")).
Proof.
  intros Hwf H%commit_Ok. unfold ClaimDeployment in H. tx_step H; tx_tables.
  - right. match goal with H : next_claim _ = Some ?d |- _ => rename H into Hd; exists d end.
    apply next_claim_Some in Hd as Hs; [|done]. destruct Hs as [-> Hs].
    repeat split; [done|by apply next_claim_least].
  - left. match goal with H : next_claim _ = None |- _ => rename H into Hd end.
    repeat split; try done; intros E; unfold next_claim, order_asc in Hd;
      apply head_None in Hd;
      match type of Hd with sort_Slice _ ?l = [] =>
        assert (Hin : e ∈ l) by (apply list_elem_of_In, filter_In;
          split; [apply list_elem_of_In, elem_of_rows; eauto|by rewrite E]) end;
      eapply elem_of_sort_Slice in Hin; rewrite Hd in Hin; by apply not_elem_of_nil in Hin.
Qed.
End history.
