(* ===== verification/Effects.v ===== *)
(** * Programs with effects

    The services call a repository, an observer, a writer, a clock and a source of
    identifiers through Go interfaces.  A method is a program: a result, or a call
    with the continuation for every response.  [traces p tr a] says that [p] can make
    the calls of [tr] with the responses of [tr] and return [a]; no response is
    excluded, so a theorem about all traces covers every implementation of the
    interfaces and every interleaving with other requests.  [interp] runs a program
    with a handler. *)

From Stdlib Require Import Eqdep.
From S2P Require Import Prelude GoRuntime Json Domain.

Section programs.
Context {E : Type → Type}.

Inductive prog (A : Type) : Type :=
| Ret (a : A)
| Call {X : Type} (e : E X) (k : X → prog A).
#[global] Arguments Ret {A} a.
#[global] Arguments Call {A X} e k.

Fixpoint bind {A B} (p : prog A) (f : A → prog B) : prog B :=
  match p with
  | Ret a => f a
  | Call e k => Call e (λ x, bind (k x) f)
  end.

Definition call {X} (e : E X) : prog X := Call e Ret.

(** [if err != nil { return err }] *)
Definition bind_ok {A B} (p : prog (res A)) (f : A → prog (res B)) : prog (res B) :=
  bind p (λ r, match r with Ok a => f a | Err e => Ret (Err e) end).

(** ** Traces *)

(** A call and its response. *)
Inductive event : Type :=
| Event {X : Type} (e : E X) (x : X).

Fixpoint traces {A} (p : prog A) (tr : list event) (a : A) : Prop :=
  match p with
  | Ret b => tr = [] ∧ a = b
  | Call e k => ∃ x tr', tr = Event e x :: tr' ∧ traces (k x) tr' a
  end.

(** [p] satisfies [Q] on every trace. *)
Definition emits {A} (p : prog A) (Q : list event → A → Prop) : Prop :=
  ∀ tr a, traces p tr a → Q tr a.

Lemma emits_Ret {A} (a : A) (Q : list event → A → Prop) : Q [] a → emits (Ret a) Q.
Proof. by intros HQ tr b [-> ->]. Qed.

Lemma emits_Call {A X} (e : E X) (k : X → prog A) (Q : list event → A → Prop) :
  (∀ x, emits (k x) (λ tr, Q (Event e x :: tr))) → emits (Call e k) Q.
Proof. intros HQ tr a (x & tr' & -> & H). by apply HQ. Qed.

Lemma emits_mono {A} (p : prog A) (P Q : list event → A → Prop) :
  emits p P → (∀ tr a, P tr a → Q tr a) → emits p Q.
Proof. intros HP HPQ tr a H. by apply HPQ, HP. Qed.

Lemma traces_bind {A B} (p : prog A) (f : A → prog B) : ∀ tr b, traces (bind p f) tr b ↔
  ∃ tr1 a tr2, tr = tr1 ++ tr2 ∧ traces p tr1 a ∧ traces (f a) tr2 b.
Proof.
  induction p as [a|X e k IH]; intros tr b; cbn.
  - split; [intros H; by exists [], a, tr|]. by intros (tr1 & a' & tr2 & -> & [-> ->] & Hf).
  - split.
    + intros (x & tr' & -> & (tr1 & a & tr2 & -> & H1 & H2)%IH).
      exists (Event e x :: tr1), a, tr2. cbn. split_and!; eauto.
    + intros (tr1 & a & tr2 & -> & (x & tr' & -> & H) & H2).
      exists x, (tr' ++ tr2). split; [done|]. apply IH. exists tr', a, tr2. split_and!; eauto.
Qed.

Lemma emits_bind {A B} (p : prog A) (f : A → prog B) (Q : list event → B → Prop) :
  emits p (λ tr1 a, emits (f a) (λ tr2, Q (tr1 ++ tr2))) → emits (bind p f) Q.
Proof. intros H tr b (tr1 & a & tr2 & -> & H1 & H2)%traces_bind. by eapply H. Qed.

Lemma emits_call {X} (e : E X) (Q : list event → X → Prop) :
  (∀ x, Q [Event e x] x) → emits (call e) Q.
Proof. intros HQ. apply emits_Call. intros x. apply emits_Ret, HQ. Qed.

Lemma emits_bind_ok {A B} (p : prog (res A)) (f : A → prog (res B)) (Q : list event → res B → Prop) :
  emits p (λ tr r, match r with Ok a => emits (f a) (λ tr2, Q (tr ++ tr2)) | Err e => Q tr (Err e) end) →
  emits (bind_ok p f) Q.
Proof.
  intros H. apply emits_bind. eapply emits_mono; [exact H|]. intros tr [a|e]; [done|].
  intros HQ. apply emits_Ret. by rewrite app_nil_r.
Qed.

(** The first call of a program with its response. *)
Lemma traces_call_bind {A X} (e : E X) (k : X → prog A) x tr a :
  traces (bind (call e) k) (Event e x :: tr) a → traces (k x) tr a.
Proof.
  intros (y & tr' & Heq & H). injection Heq as Hx <-. by apply inj_pair2 in Hx as <-.
Qed.

Lemma traces_call_intro {A X} (e : E X) (k : X → prog A) x tr a :
  traces (k x) tr a → traces (bind (call e) k) (Event e x :: tr) a.
Proof. intros H. by exists x, tr. Qed.

Lemma traces_bind_ok_assoc {A B C} (p : prog (res A)) (q : A → prog (res B)) (k : B → prog (res C)) :
  ∀ tr c, traces (bind_ok (bind_ok p q) k) tr c → traces (bind_ok p (λ a, bind_ok (q a) k)) tr c.
Proof.
  unfold bind_ok. induction p as [[a|e]|X e k' IH]; intros tr c; cbn; [done|done|].
  intros (x & tr' & -> & H). eauto.
Qed.

Lemma emits_assoc {A B C} (p : prog (res A)) (q : A → prog (res B)) (k : B → prog (res C)) Q :
  emits (bind_ok p (λ a, bind_ok (q a) k)) Q → emits (bind_ok (bind_ok p q) k) Q.
Proof. intros H tr c Ht. by apply H, traces_bind_ok_assoc. Qed.

(** ** Running a program with a handler *)

Section interp.
Context {W : Type} (handler : ∀ X, E X → W → X * W).

Fixpoint interp {A} (p : prog A) (w : W) : A * W * list event :=
  match p with
  | Ret a => (a, w, [])
  | Call e k => let '(x, w') := handler _ e w in
      let '(a, w'', tr) := interp (k x) w' in (a, w'', Event e x :: tr)
  end.

(** An invariant of every call is an invariant of every program. *)
Lemma interp_invariant (I : W → Prop) {A} (p : prog A) :
  (∀ X (e : E X) w, I w → I (handler X e w).2) → ∀ w, I w → I (interp p w).1.2.
Proof.
  intros Hh. induction p as [a|X e k IH]; intros w Hw; cbn; [done|].
  specialize (Hh X e w Hw). destruct (handler X e w) as [x w1]. specialize (IH x w1 Hh).
  by destruct (interp (k x) w1) as [[a w2] tr].
Qed.

Lemma interp_bind {A B} (p : prog A) (f : A → prog B) : ∀ w,
  interp (bind p f) w = let '(a, w1, t1) := interp p w in let '(b, w2, t2) := interp (f a) w1 in (b, w2, t1 ++ t2).
Proof.
  induction p as [a|X e k IH]; intros w; cbn; [by destruct (interp (f a) w) as [[? ?] ?]|].
  destruct (handler X e w) as [x w1]. rewrite IH. destruct (interp (k x) w1) as [[a w2] t1].
  by destruct (interp (f a) w2) as [[? ?] ?].
Qed.

(** What a handler produces is a trace. *)
Lemma interp_traces {A} (p : prog A) : ∀ w a w' tr, interp p w = (a, w', tr) → traces p tr a.
Proof.
  induction p as [a|X e k IH]; intros w b w' tr; cbn.
  - by intros [= <- _ <-].
  - destruct (handler X e w) as [x w1]. destruct (interp (k x) w1) as [[c w2] tr'] eqn:H.
    intros [= <- _ <-]. exists x, tr'. eauto.
Qed.
End interp.
End programs.

Arguments prog E A : clear implicits.
Arguments event E : clear implicits.

Notation "'do' x '<-' p ';' k" := (bind p (λ x, k))
  (at level 100, x pattern, p at next level, k at level 200, right associativity) : go_scope.
Notation "'try' x '<-' p ';' k" := (bind_ok p (λ x, k))
  (at level 100, x pattern, p at next level, k at level 200, right associativity) : go_scope.

(** [return err] and a pure step that may fail. *)
Definition fail {E A} (e : error) : prog E (res A) := Ret (Err e).
Definition done_with {E A} (a : A) : prog E (res A) := Ret (Ok a).
Definition guard {E} (ok : bool) (e : error) : prog E (res unit) := if ok then done_with tt else fail e.

(** [for _, x := range l { if err := f(x); err != nil { return err } }] *)
Fixpoint for_each {E A} (f : A → prog E (res unit)) (l : list A) : prog E (res unit) :=
  match l with
  | [] => done_with tt
  | x :: rest => try _ <- f x; for_each f rest
  end.

(** [if condition { if err := p; err != nil { return err } }] *)
Definition only_if {E} (condition : bool) (p : prog E (res unit)) : prog E (res unit) :=
  if condition then p else done_with tt.

(** [emit_step] walks over one construct of a program. *)
Ltac emit_step :=
  lazymatch goal with
  | |- emits (Ret _) _ => apply emits_Ret
  | |- emits (done_with _) _ => apply emits_Ret
  | |- emits (fail _) _ => apply emits_Ret
  | |- emits (Call _ _) _ => apply emits_Call; intros ?
  | |- emits (call _) _ => apply emits_call; intros ?
  | |- emits (bind _ _) _ => apply emits_bind
  | |- emits (bind_ok _ _) _ => apply emits_bind_ok
  | |- emits (match ?x with _ => _ end) _ => destruct x eqn:?
  | |- match ?x with _ => _ end => destruct x eqn:?
  end.

(** ** Facts of a trace

    What a specification says of a run is often about some of its calls only: [view]
    keeps these, as facts, and [with_facts view p Q] says that the facts of every run of
    [p], in their order, and its result satisfy [Q]. *)

Section facts.
Context {E : Type → Type} {F : Type} (view : event E → option F).

Definition facts_of (tr : list (event E)) : list F := omap view tr.

Lemma facts_of_app tr tr' : facts_of (tr ++ tr') = facts_of tr ++ facts_of tr'.
Proof. apply omap_app. Qed.

Definition with_facts {A} (p : prog E A) (Q : list F → A → Prop) : Prop :=
  emits p (λ tr a, Q (facts_of tr) a).

Lemma facts_ret {A} (a : A) (Q : list F → A → Prop) : Q [] a → with_facts (Ret a) Q.
Proof. intros H. by apply emits_Ret. Qed.

Lemma facts_mono {A} (p : prog E A) (P Q : list F → A → Prop) :
  with_facts p P → (∀ f a, P f a → Q f a) → with_facts p Q.
Proof. intros H HPQ. eapply emits_mono; [exact H|]. intros tr a. apply HPQ. Qed.

Lemma facts_any {A} (p : prog E A) : with_facts p (λ _ _, True).
Proof. by intros tr a _. Qed.

Lemma facts_bind {A B} (p : prog E A) (k : A → prog E B) (Q : list F → B → Prop) :
  with_facts p (λ f a, with_facts (k a) (λ f', Q (f ++ f'))) → with_facts (bind p k) Q.
Proof.
  intros H. apply emits_bind. eapply emits_mono; [exact H|]. intros tr a Hk.
  eapply emits_mono; [exact Hk|]. intros tr' b. by rewrite facts_of_app.
Qed.

Lemma facts_bind_ok {A B} (p : prog E (res A)) (k : A → prog E (res B)) (Q : list F → res B → Prop) :
  with_facts p (λ f r, match r with Ok a => with_facts (k a) (λ f', Q (f ++ f')) | Err e => Q f (Err e) end) →
  with_facts (bind_ok p k) Q.
Proof.
  intros H. apply facts_bind. eapply facts_mono; [exact H|]. intros f [a|e]; [done|].
  intros HQ. apply facts_ret. by rewrite app_nil_r.
Qed.

Lemma facts_call {X} (e : E X) (Q : list F → X → Prop) :
  (∀ x, Q (option_list (view (Event e x))) x) → with_facts (call e) Q.
Proof.
  intros H. apply emits_call. intros x. specialize (H x). unfold facts_of. cbn in *.
  by destruct (view (Event e x)).
Qed.
End facts.

(** [facts_step evaluate] walks over one construct of a program; [evaluate] computes
    the fact of a call. *)
Ltac facts_step evaluate :=
  lazymatch goal with
  | |- with_facts _ (Ret _) _ => apply facts_ret
  | |- with_facts _ (done_with _) _ => apply facts_ret
  | |- with_facts _ (fail _) _ => apply facts_ret
  | |- with_facts _ (guard ?b _) _ => unfold guard; destruct b eqn:?
  | |- with_facts _ (call _) _ => apply facts_call; intros ?; evaluate ()
  | |- with_facts _ (bind _ _) _ => apply facts_bind
  | |- with_facts _ (bind_ok _ _) _ => apply facts_bind_ok
  | |- with_facts _ (match ?x with _ => _ end) _ => destruct x eqn:?
  | |- match ?x with _ => _ end => destruct x eqn:?
  end.
