(* ===== verification/ControlEffects.v ===== *)
(** * The interfaces of internal/controlplane

    One constructor per method the services, the executor and the reconciler call
    through an interface, and the implementation of the repository by the store.
    The logger is left out: its calls return nothing. *)

From S2P Require Import Prelude GoRuntime Json Domain Configuration ConfigDiff ConfigValidate AuditMetadata.
From S2P Require Import ControlModel Store StoreRecords StoreControl StoreInvariant StoreHistory Effects.

Inductive ctl : Type → Type :=
(* reads of the repository *)
| Repo_ListClusters : ctl (res (list Cluster))
| Repo_ClusterByID (id : string) : ctl (res Cluster)
| Repo_ListNodes (clusterID : string) : ctl (res (list Node))
| Repo_NodeRecordByID (id : string) : ctl (res NodeRecord)
| Repo_DraftByCluster (clusterID : string) : ctl (res Draft)
| Repo_LatestSnapshots (clusterID : string) : ctl (res (list Snapshot))
| Repo_SnapshotByID (id : string) : ctl (res Snapshot)
| Repo_CapabilityProfiles (clusterID : string) : ctl (res (list CapabilityProfile))
| Repo_ListRevisions (clusterID : string) (includeArchived : bool) : ctl (res (list Revision))
| Repo_RevisionByID (id : string) : ctl (res Revision)
| Repo_ListDeployments (clusterID : string) (includeArchived : bool) : ctl (res (list Deployment))
| Repo_DeploymentByID (id : string) : ctl (res Deployment)
| Repo_ListDriftEvents (clusterID : string) : ctl (res (list DriftEvent))
| Repo_DriftEventByID (id : string) : ctl (res DriftEvent)
| Repo_ClusterHasActiveDeployment (clusterID : string) : ctl (res bool)
(* writes of the repository *)
| Repo_UpdateConfigurationDraft (draft : Draft) (expectedVersion : Z) (event : AuditEvent) : ctl (res unit)
| Repo_PublishRevision (draft : Draft) (revision : Revision) (expectedVersion : Z) (event : AuditEvent)
    : ctl (res Revision)
| Repo_SetRevisionArchived (id actorID : string) (archived : bool) (at_ : Time) (event : AuditEvent)
    : ctl (res unit)
| Repo_DeleteUnusedRevision (id : string) (event : AuditEvent) : ctl (res unit)
| Repo_CreateDeployment (deployment : Deployment) (event : AuditEvent) : ctl (res unit)
| Repo_SetDeploymentArchived (id actorID : string) (archived : bool) (at_ : Time) (event : AuditEvent)
    : ctl (res unit)
| Repo_DeleteUnstartedDeployment (id : string) (event : AuditEvent) : ctl (res unit)
| Repo_RequestDeploymentCancel (id : string) (event : AuditEvent) : ctl (res unit)
| Repo_UpdateDriftReconciliation (id status : string) (deploymentID : option string) : ctl (res unit)
| Repo_UpsertDriftEvent (item : DriftEvent) (event : AuditEvent) : ctl (res (DriftEvent * bool))
| Repo_ResolveNodeDrift (nodeID resolution : string) (at_ : Time) (event : AuditEvent) : ctl (res bool)
| Repo_UpdateNodeConvergence (nodeID status : string) (at_ : Time) : ctl (res unit)
| Repo_ClaimDeployment (at_ : Time) : ctl (res string)
| Repo_SetDeploymentRunning (id : string) : ctl (res unit)
| Repo_UpdateDeploymentNode (node : DeploymentNode) : ctl (res unit)
| Repo_MarkNodeApplied (nodeID revisionID hash snapshotID : string) (at_ : Time) : ctl (res unit)
| Repo_FinishDeployment (deployment : Deployment) (activate : bool) (event : AuditEvent) : ctl (res unit)
| Repo_InterruptDeployments (at_ : Time) : ctl (res unit)
(* the methods of the management of clusters and nodes *)
| Repo_CreateCluster (cluster : Cluster) (event : AuditEvent) : ctl (res unit)
| Repo_UpdateCluster (cluster : Cluster) (expectedVersion : Z) (event : AuditEvent) : ctl (res unit)
| Repo_CreateNode (record : NodeRecord) (event : AuditEvent) : ctl (res unit)
| Repo_NodeByID (id : string) : ctl (res Node)
| Repo_UpdateNode (record : NodeRecord) (expectedVersion : Z) (event : AuditEvent) : ctl (res unit)
| Repo_SoftDeleteNode (id : string) (expectedVersion : Z) (at_ : Time) (event : AuditEvent) : ctl (res unit)
| Repo_UpdateNodeHealth (id health compatibility version : string) (latencyMS : option Z)
    (errorCode : string) (at_ : Time) (seen : bool) : ctl (res unit)
| Repo_RecordNodeTestResult (id health compatibility version : string) (latencyMS : option Z)
    (errorCode : string) (at_ : Time) (seen : bool) (event : AuditEvent) : ctl (res unit)
| Repo_SetNodeMaintenance (id : string) (enabled : bool) (expectedVersion : Z) (at_ : Time)
    (event : AuditEvent) : ctl (res unit)
| Repo_PollableNodes : ctl (res (list NodeRecord))
(* the other interfaces *)
| ProbeStatus (request : NodeProbeRequest) : ctl (res NodeProbeResult)
| Encrypt (nodeID : string) (credentials : NodeCredentials) : ctl (res EncryptedCredentials)
| Observe (nodeID : string) : ctl (res Snapshot)
| ApplyConfiguration (request : NodeProbeRequest) (document : Document) : ctl (res unit)
| Decrypt (nodeID : string) (credentials : EncryptedCredentials) : ctl (res NodeCredentials)
| ValidateBlockedServiceIDs (clusterID : string) (ids : slice string) : ctl (res (list ValidationIssue))
| Now : ctl Time
| GenerateID : ctl (res string).

Abbreviation control := (prog ctl).

(** ** The store as the repository *)

Section repository.
Context {R : Runtime} {C : Collation}.

Definition read {A} (q : DB → res A) (db : DB) : res A * DB := (q db, db).

(** [None] for the calls that do not go to the store; [ids] are the identifiers
    [InterruptDeployments] draws. *)
Definition repository (ids : list (res string)) {X} (e : ctl X) : option (DB → X * DB) :=
  match e with
  | Repo_ListClusters => Some (read ListClusters)
  | Repo_ClusterByID id => Some (read (ClusterByID id))
  | Repo_ListNodes id => Some (read (ListNodes id))
  | Repo_NodeRecordByID id => Some (read (NodeRecordByID id))
  | Repo_DraftByCluster id => Some (read (DraftByCluster id))
  | Repo_LatestSnapshots id => Some (read (LatestSnapshots id))
  | Repo_SnapshotByID id => Some (read (SnapshotByID id))
  | Repo_CapabilityProfiles id => Some (read (CapabilityProfiles id))
  | Repo_ListRevisions id b => Some (read (ListRevisions id b))
  | Repo_RevisionByID id => Some (read (RevisionByID id))
  | Repo_ListDeployments id b => Some (read (ListDeployments id b))
  | Repo_DeploymentByID id => Some (read (DeploymentByID id))
  | Repo_ListDriftEvents id => Some (read (ListDriftEvents id))
  | Repo_DriftEventByID id => Some (read (DriftEventByID id))
  | Repo_ClusterHasActiveDeployment id => Some (read (ClusterHasActiveDeployment id))
  | Repo_UpdateConfigurationDraft d v e => Some (commit (UpdateConfigurationDraft d v e))
  | Repo_PublishRevision d r v e => Some (commit (PublishRevision d r v e))
  | Repo_SetRevisionArchived id a b t e => Some (commit (SetRevisionArchived id a b t e))
  | Repo_DeleteUnusedRevision id e => Some (commit (DeleteUnusedRevision id e))
  | Repo_CreateDeployment d e => Some (commit (CreateDeployment d e))
  | Repo_SetDeploymentArchived id a b t e => Some (commit (SetDeploymentArchived id a b t e))
  | Repo_DeleteUnstartedDeployment id e => Some (commit (DeleteUnstartedDeployment id e))
  | Repo_RequestDeploymentCancel id e => Some (commit (RequestDeploymentCancel id e))
  | Repo_UpdateDriftReconciliation id s d => Some (commit (UpdateDriftReconciliation id s d))
  | Repo_UpsertDriftEvent i e => Some (commit (UpsertDriftEvent i e))
  | Repo_ResolveNodeDrift n s t e => Some (commit (ResolveNodeDrift n s t e))
  | Repo_UpdateNodeConvergence n s t => Some (commit (UpdateNodeConvergence n s t))
  | Repo_ClaimDeployment t => Some (commit (ClaimDeployment t))
  | Repo_SetDeploymentRunning id => Some (commit (SetDeploymentRunning id))
  | Repo_UpdateDeploymentNode n => Some (commit (UpdateDeploymentNode n))
  | Repo_MarkNodeApplied n r h s t => Some (commit (MarkNodeApplied n r h s t))
  | Repo_FinishDeployment d b e => Some (commit (FinishDeployment d b e))
  | Repo_InterruptDeployments t => Some (commit (InterruptDeployments t ids))
  | Repo_CreateCluster c e => Some (commit (CreateCluster c e))
  | Repo_UpdateCluster c v e => Some (commit (UpdateCluster c v e))
  | Repo_CreateNode r e => Some (commit (CreateNode r e))
  | Repo_NodeByID id => Some (read (NodeByID id))
  | Repo_UpdateNode r v e => Some (commit (UpdateNode r v e))
  | Repo_SoftDeleteNode id v t e => Some (commit (SoftDeleteNode id v t e))
  | Repo_UpdateNodeHealth id h c v l code t seen => Some (commit (UpdateNodeHealth id h c v l code t seen))
  | Repo_RecordNodeTestResult id h c v l code t seen e =>
      Some (commit (RecordNodeTestResult id h c v l code t seen e))
  | Repo_SetNodeMaintenance id b v t e => Some (commit (SetNodeMaintenance id b v t e))
  | Repo_PollableNodes => Some (read PollableNodes)
  | _ => None
  end.
End repository.

(** ** Audit events *)

(* src/internal/controlplane/executor.go:255-261 systemAudit *)
Definition systemAudit (action resourceType resourceID requestID : string) (metadata : json)
  (at_ : Time) : control (res AuditEvent) :=
  try id <- call GenerateID;
  done_with (mkAuditEvent id "system" None "" action resourceType (Some resourceID) requestID
    metadata at_ "" "").

(* src/internal/controlplane/service.go:681-691 userAudit *)
Definition userAudit (actor : Actor) (action resourceType resourceID : string) (metadata : json)
  (at_ : Time) : control (res AuditEvent) :=
  if negb (ValidID (Actor_UserID actor)) || negb (ValidID (Actor_RequestID actor))
  then fail (TextError "audit actor is invalid")
  else
    try id <- call GenerateID;
    done_with (mkAuditEvent id "user" (Some (Actor_UserID actor)) "" action resourceType
      (Some resourceID) (Actor_RequestID actor) metadata at_ "" "").

(** * Runs of the control plane on the store

    The services, the executor and the reconciler run concurrently on one database: a
    call of a program acts on the tables after any number of store operations of
    other requests.  The tables keep their invariant through every such run. *)

Section runs.
Context {R : Runtime} {C : Collation}.
Context {W : Type} (database : W → DB) (handler : ∀ X, ctl X → W → X * W).

(** Every call finds the tables after operations of other requests: a call of the repository is the
    store method on them, and every other call leaves them as they are. *)
Definition store_backed : Prop := ∀ X (e : ctl X) w, ∃ ops ids,
  database (handler X e w).2 =
    match repository ids e with
    | Some f => (f (run_history ops (database w))).2
    | None => run_history ops (database w)
    end.

Lemma repository_preserves ids {X} (e : ctl X) f db :
  repository ids e = Some f → WellFormed db → WellFormed (f db).2.
Proof.
  intros Hf Hwf. destruct e; cbn in Hf; try discriminate Hf; injection Hf as <-;
    try exact Hwf; apply commit_preserves; try exact Hwf;
    auto using UpdateConfigurationDraft_preserves, PublishRevision_preserves,
      SetRevisionArchived_preserves, DeleteUnusedRevision_preserves, CreateDeployment_preserves,
      SetDeploymentArchived_preserves, DeleteUnstartedDeployment_preserves,
      RequestDeploymentCancel_preserves, ClaimDeployment_preserves, UpdateDeploymentNode_preserves,
      SetDeploymentRunning_preserves, MarkNodeApplied_preserves, FinishDeployment_preserves,
      InterruptDeployments_preserves, UpsertDriftEvent_preserves, ResolveNodeDrift_preserves,
      UpdateDriftReconciliation_preserves, UpdateNodeConvergence_preserves, CreateCluster_preserves,
      UpdateCluster_preserves, CreateNode_preserves, UpdateNode_preserves, SoftDeleteNode_preserves,
      UpdateNodeHealth_preserves, RecordNodeTestResult_preserves, SetNodeMaintenance_preserves.
Qed.

Lemma store_backed_WellFormed {A} (p : control A) w : store_backed →
  WellFormed (database w) → WellFormed (database (interp handler p w).1.2).
Proof.
  intros Hb. apply (interp_invariant handler (λ w, WellFormed (database w))).
  intros X e w' Hwf. destruct (Hb X e w') as (ops & ids & ->).
  destruct (repository ids e) as [f|] eqn:Hf; [|by apply run_history_preserves].
  eapply repository_preserves; [exact Hf|]. by apply run_history_preserves.
Qed.

(** whatever program of the control plane runs on the store, interleaved with any operations of
    other requests, the tables keep their invariant. *)
Theorem control_runs_WellFormed {A} (p : control A) w : store_backed →
  WellFormed (database w) → WellFormed (database (interp handler p w).1.2).
Proof. exact (store_backed_WellFormed p w). Qed.
End runs.
