(* ===== verification/Preview.v ===== *)
(** * internal/controlplane/service.go: the preview of a deployment

    [previewDocument] decides whether a configuration may be deployed: the targets in
    their order, the effective configuration of each with its hash, and every reason
    against a deployment. *)

From S2P Require Import Prelude GoRuntime Json Domain Compat Net Configuration ConfigDiff.
From S2P Require Import ConfigValidate ControlModel Effects ControlEffects.

Section preview.
Context {R : Runtime} {M : MapOrder}.

(** ** Differences *)

(* src/internal/controlplane/service.go:635-643 nodeSpecificDifferences *)
Definition nodeSpecificDifferences (desired observed : Document) : list Difference :=
  List.filter (λ d, Difference_Scope d =?? NodeManaged) (Diff desired observed).

(* src/internal/controlplane/service.go:645-653 managedDifferences *)
Definition managedDifferences (desired observed : Document) : list Difference :=
  List.filter (λ d, (Difference_Scope d =?? SharedManaged) || (Difference_Scope d =?? NodeManaged))
    (Diff desired observed).

(* src/internal/controlplane/service.go:655-663 immutableNodeDifferences *)
Definition immutableNodeDifferences (desired observed : Document) : list Difference :=
  List.filter (λ d, Difference_Section d =?? "DNS") (nodeSpecificDifferences desired observed).

(* src/internal/controlplane/service.go:676-679 DriftFingerprint *)
Definition DriftFingerprint (revisionID desiredHash observedHash : string) : string :=
  sha256_hex (revisionID +:+ nul +:+ desiredHash +:+ nul +:+ observedHash).

(** ** Targets *)

(* src/internal/controlplane/service.go:665-674 enabledNodeIDs *)
Definition enabledNodeIDs (nodes : list Node) : list string :=
  sort_Slice String.ltb (Node_ID <$> List.filter Node_Enabled nodes).

(** [selected] restricts the targets when it is not empty. *)
(* src/internal/controlplane/service.go:478-483 Service.previewDocument *)
Definition eligible (selected : list string) (node : Node) : bool :=
  let selectedSet : gset string := list_to_set selected in
  negb (negb (Node_Enabled node) || Node_MaintenanceMode node ||
        (bool_decide (selectedSet ≠ ∅) && negb (bool_decide (Node_ID node ∈ selectedSet)))).

(* src/internal/controlplane/service.go:487-493 Service.previewDocument *)
Definition dhcp_less (document : DesiredDocument) (a b : Node) : bool :=
  let aEnabled := dhcp_enabled (DesiredDocument_NodeOverrides document) (Node_ID a) in
  let bEnabled := dhcp_enabled (DesiredDocument_NodeOverrides document) (Node_ID b) in
  negb aEnabled && bEnabled.

(* src/internal/controlplane/service.go:473-494 Service.previewDocument *)
Definition preview_targets (document : DesiredDocument) (selected : list string) (nodes : list Node)
  : list Node :=
  let targets := List.filter (eligible selected) nodes in
  if SchemaVersion <=? DesiredDocument_SchemaVersion document
  then sort_Slice (dhcp_less document) targets else targets.

(** ** Issues *)

(** A missing override of a revision is reported with the name of the node. *)
(* src/internal/controlplane/service.go:498-514 Service.previewDocument *)
Definition name_issue (nodeNames : gmap string string) (i : ValidationIssue) : ValidationIssue :=
  if HasPrefix (ValidationIssue_Field i) "nodeOverrides." &&
     (ValidationIssue_Message i =?? "is required for every enabled node")
  then
    let nodeID := TrimPrefix (ValidationIssue_Field i) "nodeOverrides." in
    let nodeName := default "" (nodeNames !! nodeID) in
    let nodeName := if nodeName =?? "" then nodeID else nodeName in
    mkValidationIssue (ValidationIssue_Field i)
      (nodeName +:+ " is not present in this immutable revision; refresh and import its latest observation into the draft, then validate and publish a new revision")
  else i.

(** A map filled by a loop: the last element with a key wins. *)
Definition by_key {A} (key : A → string) (l : list A) : gmap string A :=
  foldl (λ m x, <[key x := x]> m) ∅ l.

(* src/internal/controlplane/service.go:497-514 Service.previewDocument *)
Definition document_issues (revisionID : string) (nodes : list Node) (document : DesiredDocument)
  : list ValidationIssue :=
  let issues := ValidateDesired document (enabledNodeIDs nodes) in
  if revisionID =?? "" then issues
  else name_issue (Node_Name <$> by_key Node_ID nodes) <$> issues.

(** ** Capabilities *)

Definition feature (profile : option CapabilityProfile) (name : string) : bool :=
  match profile with
  | Some p => default false (CapabilityProfile_Features p !! name)
  | None => false
  end.

Definition profile_supported (profile : option CapabilityProfile) : bool :=
  match profile with
  | Some p => CapabilityProfile_Compatibility p =?? CompatibilitySupported
  | None => false
  end.

(* src/internal/controlplane/service.go:550-556 Service.previewDocument *)
Definition requiredFeatures (document : DesiredDocument) (effective : Document) : list string :=
  ["dns"; "filtering"] ++
  (if SchemaVersion <=? DesiredDocument_SchemaVersion document then
     ["clients"; "rewrites"; "blocked_services"; "safety"; "query_log"; "statistics"; "tls"] ++
     (if bool_decide (NodeSpecific_DHCP (Document_NodeSpecific effective) = None) then [] else ["dhcp"])
   else []).

(** The optional features a document needs. *)
(* src/internal/controlplane/service.go:565-596 Service.previewDocument *)
Definition optionalFeatures (document : DesiredDocument) : list string :=
  let shared := DesiredDocument_Shared document in
  let dns := Shared_DNS shared in
  when (SafeSearch_Ecosia (Services_SafeSearch (Shared_Services shared))) "safe_search_ecosia" ++
  (if SchemaVersion <=? DesiredDocument_SchemaVersion document then
     when (negb (bool_decide
       (Filtering_UpdateInterval (Shared_Filtering shared) ∈ [0; 1; 12; 24; 72; 168])))
       "filter_interval_arbitrary" ++
     when (negb (Bool.eqb (DNS_CacheEnabled dns) (0 <? DNS_CacheSize dns))) "cache_toggle" ++
     when (0 <? DNS_UpstreamTimeout dns) "upstream_timeout" ++
     when (negb (Shared_RewritesEnabled shared) ||
           existsb (λ r, negb (Rewrite_Enabled r)) (elems (Shared_Rewrites shared))) "rewrite_toggle" ++
     when ((negb (QueryLogPolicy_IgnoredEnabled (Shared_QueryLog shared)) &&
            negb (null (elems (QueryLogPolicy_Ignored (Shared_QueryLog shared))))) ||
           (negb (StatisticsPolicy_IgnoredEnabled (Shared_Statistics shared)) &&
            negb (null (elems (StatisticsPolicy_Ignored (Shared_Statistics shared))))))
       "ignored_lists_toggle"
   else []).

(* src/internal/controlplane/service.go:557-596 Service.previewDocument *)
Definition missingFeatures (document : DesiredDocument) (effective : Document)
  (profile : option CapabilityProfile) : list string :=
  List.filter (λ f, negb (feature profile f))
    (requiredFeatures document effective ++ optionalFeatures document).

(* src/internal/controlplane/service.go:597-608 Service.previewDocument *)
Definition capability_warning (document : DesiredDocument) (effective : Document)
  (profile : option CapabilityProfile) : option string :=
  let missing := missingFeatures document effective profile in
  if profile_supported profile && null missing then None
  else Some
    match profile with
    | None => "Node capabilities have not been refreshed; refresh its configuration observation before deployment."
    | Some p =>
        if negb (CapabilityProfile_Compatibility p =?? CompatibilitySupported)
        then "The node's AdGuard Home API version is outside the tested managed-write range."
        else "Required managed capabilities are unavailable: " +:+ Join missing ", " +:+ "."
    end.

(** ** The observation *)

(** The issue of the latest snapshot, as the prefix of its field and its message. *)
(* src/internal/controlplane/service.go:609-618 Service.previewDocument *)
Definition snapshot_issue (document : DesiredDocument) (effective : Document)
  (snapshot : option Snapshot) : option (string * string) :=
  let unavailable := Some ("nodes.", "A successful current configuration observation is required.") in
  match snapshot with
  | None => unavailable
  | Some s =>
      match Snapshot_Document s with
      | None => unavailable
      | Some observed =>
          if negb (Snapshot_CollectionStatus s =?? "succeeded") then unavailable
          else if null (immutableNodeDifferences effective
                          (ProjectDocument observed (DesiredDocument_SchemaVersion document)))
          then None
          else Some ("nodeOverrides.",
            "DNS bind hosts or port differ; AdGuard Home has no supported API writer for these values.")
      end
  end.

(** ** One target *)

(* src/internal/controlplane/service.go:538-620 Service.previewDocument *)
Definition preview_node (document : DesiredDocument) (profiles : gmap string CapabilityProfile)
  (snapshots : gmap string Snapshot) (position : Z) (node : Node)
  : PreviewNode * list ValidationIssue :=
  let id := Node_ID node in
  match Effective document id with
  | Err _ =>
      (mkPreviewNode id position "" false
         "This revision has no listener override for the current node identity.", [])
  | Ok effective =>
      let capability := capability_warning document effective (profiles !! id) in
      let observation := snapshot_issue document effective (snapshots !! id) in
      (mkPreviewNode id position (Marshal effective).2
         (is_nil capability && is_nil observation)
         (match observation with
          | Some (_, message) => message
          | None => default "" capability
          end),
       match capability with
       | Some message => [mkValidationIssue ("nodes." +:+ id) message] | None => [] end ++
       match observation with
       | Some (prefix, message) => [mkValidationIssue (prefix +:+ id) message] | None => [] end)
  end.

(* src/internal/controlplane/service.go:621-630 Service.previewDocument *)
Definition no_target_issue (nodes targets : list Node) : list ValidationIssue :=
  when (null targets) (mkValidationIssue "nodes"
    (if existsb (λ n, Node_Enabled n && Node_MaintenanceMode n) nodes
     then "No deployment targets are eligible while every enabled node is in Maintenance Mode."
     else "No enabled deployment targets are available.")).

(* src/internal/controlplane/service.go:497-632 Service.previewDocument *)
Definition preview_of (revisionID : string) (document : DesiredDocument) (selected : list string)
  (nodes : list Node) (catalogueIssues : list ValidationIssue) (snapshots : list Snapshot)
  (profiles : list CapabilityProfile) : Preview :=
  let targets := preview_targets document selected nodes in
  let results := imap1 (preview_node document (by_key CapabilityProfile_NodeID profiles)
                   (by_key Snapshot_NodeID snapshots)) targets in
  let issues := document_issues revisionID nodes document ++ catalogueIssues ++
    concat (results.*2) ++ no_target_issue nodes targets in
  mkPreview revisionID "sequential" "stop" [] false
    (null issues && negb (null (results.*1))) issues (results.*1).

(** ** The method *)

(** [validator] says whether the service has a validator of blocked services. *)
(* src/internal/controlplane/service.go:468-633 Service.previewDocument *)
Definition previewDocument (validator : bool) (clusterID revisionID : string)
  (document : DesiredDocument) (selected : list string) : control (res Preview) :=
  try nodes <- call (Repo_ListNodes clusterID);
  try catalogueIssues <-
    (if (SchemaVersion <=? DesiredDocument_SchemaVersion document) && validator
     then call (ValidateBlockedServiceIDs clusterID
                  (Services_BlockedServiceIDs (Shared_Services (DesiredDocument_Shared document))))
     else done_with []);
  try snapshots <- call (Repo_LatestSnapshots clusterID);
  try profiles <- call (Repo_CapabilityProfiles clusterID);
  done_with (preview_of revisionID document selected nodes catalogueIssues snapshots profiles).

(** ** When a preview is valid *)

(** What the preview asks of a target. *)
Definition NodeReady (document : DesiredDocument) (profiles : list CapabilityProfile)
  (snapshots : list Snapshot) (id : string) : Prop :=
  ∃ effective, Effective document id = Ok effective ∧
    (∃ p, by_key CapabilityProfile_NodeID profiles !! id = Some p ∧
       CapabilityProfile_Compatibility p = CompatibilitySupported ∧
       ∀ f, f ∈ requiredFeatures document effective ++ optionalFeatures document →
         CapabilityProfile_Features p !! f = Some true) ∧
    (∃ s observed, by_key Snapshot_NodeID snapshots !! id = Some s ∧
       Snapshot_Document s = Some observed ∧ Snapshot_CollectionStatus s = "succeeded" ∧
       immutableNodeDifferences effective
         (ProjectDocument observed (DesiredDocument_SchemaVersion document)) = []).

Lemma null_true {A} (l : list A) : null l = true ↔ l = [].
Proof. by destruct l. Qed.

Lemma filter_nil_iff {A} (p : A → bool) (l : list A) : List.filter p l = [] ↔ ∀ x, x ∈ l → p x = false.
Proof.
  induction l as [|y l IH]; cbn; [set_solver|]. destruct (p y) eqn:E.
  - split; [done|]. intros H. rewrite H in E by set_solver. done.
  - rewrite IH. setoid_rewrite elem_of_cons. naive_solver.
Qed.

Lemma capability_warning_None document effective profile :
  capability_warning document effective profile = None ↔
  ∃ p, profile = Some p ∧ CapabilityProfile_Compatibility p = CompatibilitySupported ∧
    ∀ f, f ∈ requiredFeatures document effective ++ optionalFeatures document →
      CapabilityProfile_Features p !! f = Some true.
Proof.
  unfold capability_warning. destruct (profile_supported profile && null _) eqn:E.
  - split; [intros _|done]. apply andb_true_iff in E as [Hs Hm%null_true].
    destruct profile as [p|]; [|done]. exists p. split; [done|].
    split; [by apply bool_decide_eq_true in Hs|]. unfold missingFeatures in Hm.
    rewrite filter_nil_iff in Hm. intros f Hf%Hm. cbn in Hf.
    destruct (CapabilityProfile_Features p !! f) as [[]|]; done.
  - split; [by destruct profile|]. intros (p & -> & Hs & Hf). exfalso.
    apply not_true_iff_false in E. apply E, andb_true_iff. split; [by apply bool_decide_eq_true|].
    apply null_true, filter_nil_iff. intros f Hin. cbn. by rewrite (Hf f Hin).
Qed.

Lemma snapshot_issue_None document effective snapshot :
  snapshot_issue document effective snapshot = None ↔
  ∃ s observed, snapshot = Some s ∧ Snapshot_Document s = Some observed ∧
    Snapshot_CollectionStatus s = "succeeded" ∧
    immutableNodeDifferences effective
      (ProjectDocument observed (DesiredDocument_SchemaVersion document)) = [].
Proof.
  unfold snapshot_issue. destruct snapshot as [s|]; [|naive_solver].
  destruct (Snapshot_Document s) as [observed|] eqn:Hd; [|naive_solver congruence].
  destruct (negb _) eqn:Hs; bool_simp; [naive_solver|].
  destruct (null _) eqn:Hn; [apply null_true in Hn; naive_solver|].
  split; [done|]. intros (s' & o & [= <-] & Ho & _ & Hi%null_true). congruence.
Qed.

(** The issues of a target, and its item. *)
Lemma preview_node_ready document profiles snapshots position node :
  is_Ok (Effective document (Node_ID node)) = true →
  let '(item, issues) := preview_node document (by_key CapabilityProfile_NodeID profiles)
    (by_key Snapshot_NodeID snapshots) position node in
  (issues = [] ↔ NodeReady document profiles snapshots (Node_ID node)) ∧
  (issues = [] → ∃ effective, Effective document (Node_ID node) = Ok effective ∧
     item = mkPreviewNode (Node_ID node) position (Marshal effective).2 true "").
Proof.
  intros He. unfold preview_node. cbn zeta.
  destruct (Effective document (Node_ID node)) as [effective|] eqn:E; [|done].
  pose proof (capability_warning_None document effective
    (by_key CapabilityProfile_NodeID profiles !! Node_ID node)) as Hc.
  pose proof (snapshot_issue_None document effective
    (by_key Snapshot_NodeID snapshots !! Node_ID node)) as Hs.
  assert (Hr : NodeReady document profiles snapshots (Node_ID node) ↔
    capability_warning document effective
      (by_key CapabilityProfile_NodeID profiles !! Node_ID node) = None ∧
    snapshot_issue document effective (by_key Snapshot_NodeID snapshots !! Node_ID node) = None).
  { rewrite Hc, Hs. unfold NodeReady. rewrite E. split; [|by eauto].
    by intros (? & [= <-] & ? & ?). }
  rewrite Hr. destruct (capability_warning _ _ _), (snapshot_issue _ _ _) as [[]|]; cbn;
    naive_solver.
Qed.

Lemma Effective_Ok document id :
  is_Ok (Effective document id) = true ↔ is_Some (DesiredDocument_NodeOverrides document !! id).
Proof.
  unfold Effective. cbn zeta. unfold CanonicaliseDesired. cbn. rewrite lookup_fmap.
  destruct (_ !! id); cbn; [by split; eauto|]. split; [done|by intros [? ?]].
Qed.

Lemma elem_of_enabledNodeIDs nodes id :
  id ∈ enabledNodeIDs nodes ↔ ∃ n, n ∈ nodes ∧ Node_Enabled n = true ∧ Node_ID n = id.
Proof.
  unfold enabledNodeIDs. rewrite elem_of_sort_Slice, list_elem_of_fmap.
  setoid_rewrite list_elem_of_In. setoid_rewrite filter_In. naive_solver.
Qed.

Lemma elem_of_preview_targets document selected nodes n :
  n ∈ preview_targets document selected nodes ↔ n ∈ nodes ∧ eligible selected n = true.
Proof.
  unfold preview_targets. cbn zeta.
  assert (H : n ∈ List.filter (eligible selected) nodes ↔ n ∈ nodes ∧ eligible selected n = true)
    by by rewrite !list_elem_of_In, filter_In.
  destruct (_ <=? _); [by rewrite elem_of_sort_Slice|done].
Qed.

Lemma eligible_spec selected n : eligible selected n = true ↔
  Node_Enabled n = true ∧ Node_MaintenanceMode n = false ∧ (selected = [] ∨ Node_ID n ∈ selected).
Proof.
  unfold eligible. rewrite negb_true_iff, !orb_false_iff, negb_false_iff, andb_false_iff,
    negb_false_iff, bool_decide_eq_false, bool_decide_eq_true, elem_of_list_to_set.
  assert (¬ (list_to_set (C := gset string) selected ≠ ∅) ↔ selected = []) as ->; [|tauto].
  destruct selected; cbn; [naive_solver|]. split; [|done]. intros H. exfalso. apply H. set_solver.
Qed.

Lemma name_issue_nil names issues : name_issue names <$> issues = [] ↔ issues = [].
Proof. by destruct issues. Qed.

Lemma imap_nil_iff {A B} (f : nat → A → list B) l :
  concat (imap f l) = [] ↔ ∀ i x, l !! i = Some x → f i x = [].
Proof.
  revert f. induction l as [|y l IH]; intros f; cbn; [set_solver|].
  rewrite app_nil, IH. split.
  - intros [Hy Hl] [|i] x; cbn; [by intros [= <-]|]. apply Hl.
  - intros H. split; [by apply (H 0%nat)|]. intros i x Hi. by apply (H (S i)).
Qed.

Lemma results_issues document profiles snapshots targets :
  concat ((imap1 (preview_node document profiles snapshots) targets).*2) = [] ↔
  ∀ i n, targets !! i = Some n → (preview_node document profiles snapshots (Z.of_nat i + 1) n).2 = [].
Proof.
  unfold imap1. rewrite fmap_imap. unfold compose. cbn.
  apply (imap_nil_iff (λ i x, (preview_node document profiles snapshots (Z.of_nat i + 1) x).2)).
Qed.

Lemma null_results {A B C} (f : Z → A → B * C) l : null ((imap1 f l).*1) = null l.
Proof. by destruct l. Qed.

Lemma null_false {A} (l : list A) : null l = false ↔ l ≠ [].
Proof. by destruct l. Qed.

Lemma no_target_issue_nil nodes targets : no_target_issue nodes targets = [] ↔ targets ≠ [].
Proof. unfold no_target_issue. rewrite when_nil. by destruct targets. Qed.

(** C14: a preview is valid exactly when the configuration is valid for the enabled nodes, the catalogue
    of blocked services has no objection, there is a target, and every target is ready: it has an
    effective configuration, a supported profile with every feature the configuration needs, and a
    successful observation whose listeners the deployment would not change. *)
Theorem preview_valid_iff revisionID document selected nodes catalogueIssues snapshots profiles :
  let targets := preview_targets document selected nodes in
  Preview_Valid (preview_of revisionID document selected nodes catalogueIssues snapshots profiles) = true ↔
  ValidDesired document (enabledNodeIDs nodes) ∧ catalogueIssues = [] ∧ targets ≠ [] ∧
  ∀ n, n ∈ targets → NodeReady document profiles snapshots (Node_ID n).
Proof.
  intros targets. unfold preview_of. cbn [Preview_Valid]. fold targets.
  set (results := imap1 _ targets).
  assert (Hnodes : null (results.*1) = null targets)
    by apply null_results.
  assert (Hdoc : document_issues revisionID nodes document = [] ↔
    ValidDesired document (enabledNodeIDs nodes)).
  { rewrite <- ValidateDesired_issues. unfold document_issues. destruct (_ =?? _); [done|].
    apply name_issue_nil. }
  rewrite Hnodes, andb_true_iff, negb_true_iff, null_true, !app_nil, no_target_issue_nil, Hdoc.
  unfold results. rewrite results_issues.
  rewrite (null_false targets).
  assert (Hready : ValidDesired document (enabledNodeIDs nodes) →
    ((∀ i n, targets !! i = Some n → (preview_node document (by_key CapabilityProfile_NodeID profiles)
        (by_key Snapshot_NodeID snapshots) (Z.of_nat i + 1) n).2 = []) ↔
     ∀ n, n ∈ targets → NodeReady document profiles snapshots (Node_ID n))).
  { intros Hv. setoid_rewrite list_elem_of_lookup.
    assert (Hok : ∀ n, n ∈ targets → is_Ok (Effective document (Node_ID n)) = true).
    { intros n [Hin [He _]%eligible_spec]%elem_of_preview_targets. apply Effective_Ok.
      pose proof (desired_nodes _ _ Hv) as Hall. rewrite Forall_forall in Hall.
      destruct (Hall (Node_ID n)) as (o & Ho & _); [apply elem_of_enabledNodeIDs; eauto|].
      rewrite lookup_fmap, fmap_Some in Ho. destruct Ho as (? & ? & _). eauto. }
    split.
    - intros H n [i Hi]. specialize (Hok n ltac:(apply list_elem_of_lookup; eauto)).
      pose proof (preview_node_ready document profiles snapshots (Z.of_nat i + 1) n Hok) as Hp.
      specialize (H i n Hi). destruct (preview_node _ _ _ _ n). cbn in H. by apply Hp.
    - intros H i n Hi. specialize (Hok n ltac:(apply list_elem_of_lookup; eauto)).
      pose proof (preview_node_ready document profiles snapshots (Z.of_nat i + 1) n Hok) as Hp.
      specialize (H n (ex_intro _ i Hi)). destruct (preview_node _ _ _ _ n). cbn in H. by apply Hp. }
  naive_solver.
Qed.

(** a valid preview lists every target once, in order, at the positions from 1, each valid and with
    the hash of its effective configuration. *)
Theorem preview_nodes_complete revisionID document selected nodes catalogueIssues snapshots profiles i n :
  Preview_Valid (preview_of revisionID document selected nodes catalogueIssues snapshots profiles) = true →
  preview_targets document selected nodes !! i = Some n →
  ∃ effective, Effective document (Node_ID n) = Ok effective ∧
    Preview_Nodes (preview_of revisionID document selected nodes catalogueIssues snapshots profiles) !! i =
      Some (mkPreviewNode (Node_ID n) (Z.of_nat i + 1) (Marshal effective).2 true "").
Proof.
  intros Hv Hi. assert (Hv' := Hv). unfold preview_of in Hv'. cbn [Preview_Valid] in Hv'.
  apply andb_true_iff in Hv' as [Hn%null_true _]. rewrite !app_nil in Hn.
  destruct Hn as (Hd & _ & Hr & _). rewrite results_issues in Hr. specialize (Hr i n Hi).
  assert (Hok : is_Ok (Effective document (Node_ID n)) = true).
  { apply Effective_Ok. assert (HV : ValidDesired document (enabledNodeIDs nodes)).
    { apply ValidateDesired_issues. revert Hd. unfold document_issues.
      destruct (_ =?? _); [done|]. apply name_issue_nil. }
    assert (Hin : n ∈ preview_targets document selected nodes) by (apply list_elem_of_lookup; eauto).
    apply elem_of_preview_targets in Hin as [Hin [He _]%eligible_spec].
    pose proof (desired_nodes _ _ HV) as Hall. rewrite Forall_forall in Hall.
    destruct (Hall (Node_ID n)) as (o & Ho & _); [apply elem_of_enabledNodeIDs; eauto|].
    rewrite lookup_fmap, fmap_Some in Ho. destruct Ho as (? & ? & _). eauto. }
  pose proof (preview_node_ready document profiles snapshots (Z.of_nat i + 1) n Hok) as Hp.
  unfold preview_of. cbn [Preview_Nodes]. rewrite list_lookup_fmap. unfold imap1.
  rewrite list_lookup_imap, Hi. cbn. destruct (preview_node _ _ _ _ n) as [item issues].
  destruct Hp as [_ Hp]. cbn in Hr. destruct (Hp Hr) as (effective & He & ->). eauto.
Qed.

(** ** The order of the targets *)

#[export] Instance dhcp_less_weak document : StrictWeak (dhcp_less document).
Proof. split; unfold dhcp_less; intros; repeat destruct (dhcp_enabled _ _); done. Qed.

Lemma sorted_lookup {A} (less : A → A → bool) l i j x y :
  sorted less l → l !! i = Some x → l !! j = Some y → (i < j)%nat → not_greater less x y.
Proof.
  intros Hs Hi Hj Hij. rewrite <- (take_drop (S i) l) in Hs.
  eapply StronglySorted_app_1_elem_of; [exact Hs|..]; apply list_elem_of_lookup.
  - exists i. rewrite lookup_take_lt by lia. done.
  - exists (j - S i)%nat. rewrite lookup_drop. by replace (S i + (j - S i))%nat with j by lia.
Qed.

Lemma enabledNodeIDs_NoDup nodes : NoDup (Node_ID <$> nodes) → NoDup (enabledNodeIDs nodes).
Proof.
  intros Hd. unfold enabledNodeIDs. rewrite sort_Slice_perm. induction nodes as [|n nodes IH]; cbn; [done|].
  apply NoDup_cons in Hd as [Hn Hd]. destruct (Node_Enabled n); cbn; [|auto].
  apply NoDup_cons. split; [|auto]. intros Hin. apply Hn.
  apply list_elem_of_fmap in Hin as (m & -> & [Hm _]%list_elem_of_In%filter_In).
  apply list_elem_of_fmap. exists m. split; [done|]. by apply list_elem_of_In.
Qed.

Lemma preview_targets_NoDup document selected nodes :
  NoDup (Node_ID <$> nodes) → NoDup (Node_ID <$> preview_targets document selected nodes).
Proof.
  intros Hd. assert (Hf : NoDup (Node_ID <$> List.filter (eligible selected) nodes)).
  { induction nodes as [|n nodes IH]; cbn; [done|]. apply NoDup_cons in Hd as [Hn Hd].
    destruct (eligible selected n); cbn; [|auto]. apply NoDup_cons. split; [|auto].
    intros Hin. apply Hn. apply list_elem_of_fmap in Hin as (m & -> & [Hm _]%list_elem_of_In%filter_In).
    apply list_elem_of_fmap. exists m. split; [done|]. by apply list_elem_of_In. }
  unfold preview_targets. cbn zeta. destruct (_ <=? _); [|done]. by rewrite sort_Slice_perm.
Qed.

(** in the order of deployment of a valid preview the target that serves DHCP comes last, so that
    every other target has its DHCP server disabled before the one of this target is enabled. *)
Theorem preview_dhcp_last revisionID document selected nodes catalogueIssues snapshots profiles i n :
  let targets := preview_targets document selected nodes in
  NoDup (Node_ID <$> nodes) →
  Preview_Valid (preview_of revisionID document selected nodes catalogueIssues snapshots profiles) = true →
  targets !! i = Some n → dhcp_enabled (DesiredDocument_NodeOverrides document) (Node_ID n) = true →
  S i = length targets.
Proof.
  intros targets Hnd Hv Hi Hn. assert (HV : ValidDesired document (enabledNodeIDs nodes)).
  { apply ValidateDesired_issues. unfold preview_of in Hv. cbn [Preview_Valid] in Hv.
    apply andb_true_iff in Hv as [Hv%null_true _]. rewrite !app_nil in Hv. destruct Hv as [Hv _].
    revert Hv. unfold document_issues. destruct (_ =?? _); [done|]. apply name_issue_nil. }
  pose proof (lookup_lt_Some _ _ _ Hi) as Hlt. destruct (decide (S i = length targets)) as [|Hne]; [done|].
  exfalso. destruct (lookup_lt_is_Some_2 targets (S i)) as [m Hm]; [lia|].
  assert (Hs : dhcp_enabled (DesiredDocument_NodeOverrides document) (Node_ID m) = true).
  { assert (Hsort : sorted (dhcp_less document) targets).
    { unfold targets, preview_targets. cbn zeta. rewrite (desired_version _ _ HV).
      apply sort_Slice_sorted, _. }
    eapply sorted_lookup in Hsort; [|exact Hi|exact Hm|lia].
    unfold not_greater, dhcp_less in Hsort. rewrite Hn in Hsort.
    by destruct (dhcp_enabled _ (Node_ID m)). }
  assert (Hen : ∀ x, x ∈ targets → Node_ID x ∈ enabledNodeIDs nodes).
  { intros x [Hin [He _]%eligible_spec]%elem_of_preview_targets. apply elem_of_enabledNodeIDs. eauto. }
  destruct (list_elem_of_lookup_1 _ _ (Hen n ltac:(apply list_elem_of_lookup; eauto))) as [a Ha].
  destruct (list_elem_of_lookup_1 _ _ (Hen m ltac:(apply list_elem_of_lookup; eauto))) as [b Hb].
  pose proof (desired_dhcp _ _ HV a b _ _ Ha Hb Hn Hs) as <-. rewrite Ha in Hb. injection Hb as E.
  assert (Hidx : i = S i); [|lia].
  apply (NoDup_lookup (Node_ID <$> targets) i (S i) (Node_ID n)).
  - by apply preview_targets_NoDup.
  - by rewrite list_lookup_fmap, Hi.
  - by rewrite list_lookup_fmap, Hm, E.
Qed.

(** ** The comparison the executor verifies with *)

Lemma diff_shared_scope v2 l r : Forall (λ d, Difference_Scope d = SharedManaged) (diff_shared v2 l r).
Proof.
  unfold diff_shared, add. destruct v2; repeat (apply Forall_app; split);
    try (case_bool_decide; cbn [negb]; repeat constructor); constructor.
Qed.

Lemma managedDifferences_parts l r :
  let cl := Canonicalise l in let cr := Canonicalise r in
  let v2 := (SchemaVersion <=? Document_SchemaVersion cl) || (SchemaVersion <=? Document_SchemaVersion cr) in
  managedDifferences l r = diff_shared v2 (Document_Shared cl) (Document_Shared cr) ++
    diff_node v2 (Document_NodeSpecific cl) (Document_NodeSpecific cr).
Proof.
  cbn zeta. unfold managedDifferences, Diff. rewrite !List.filter_app. f_equal.
  - apply filter_all. eapply Forall_impl; [apply diff_shared_scope|]. by intros d ->.
  - rewrite filter_all; [|eapply Forall_impl; [apply diff_node_scope|]; by intros d ->].
    rewrite filter_none; [apply app_nil_r|]. apply Forall_forall. unfold add. case_bool_decide; repeat constructor.
Qed.
End preview.

Section verification.
Context {R : Runtime} {L : UnicodeLaws R} {M : MapOrder}.

(** the read-back finds no managed difference exactly when the observed node has, up to the
    canonical form, the shared and the node-specific configuration that was to be applied. *)
Theorem managedDifferences_exact document id effective observed version :
  Effective document id = Ok effective →
  ascii_json (json_Shared (Document_Shared effective)) = true →
  ascii_json (json_NodeSpecific (Document_NodeSpecific effective)) = true →
  ascii_json (json_Shared (canonical_Shared (Document_Shared observed))) = true →
  ascii_json (json_NodeSpecific (canonical_NodeSpecific (Document_NodeSpecific observed))) = true →
  managedDifferences effective (ProjectDocument observed version) = [] ↔
    Document_Shared effective = canonical_Shared (Document_Shared observed) ∧
    Document_NodeSpecific effective = canonical_NodeSpecific (Document_NodeSpecific observed).
Proof.
  intros He HAs HAn HOs HOn. rewrite managedDifferences_parts. cbn zeta.
  assert (Hp : ∃ s n, Document_Shared effective = canonical_Shared s ∧
    Document_NodeSpecific effective = canonical_NodeSpecific n).
  { unfold Effective in He. cbn zeta in He. destruct (_ !! id) as [o|]; [|done]. injection He as <-.
    match goal with |- context [Canonicalise ?d] => destruct (Canonicalise_parts d) as [u ->] end.
    cbn. eauto. }
  destruct Hp as (s & n & Es & En). rewrite Es in HAs. rewrite En in HAn.
  assert (Hl : Document_Shared (Canonicalise effective) = Document_Shared effective ∧
    Document_NodeSpecific (Canonicalise effective) = Document_NodeSpecific effective).
  { destruct (Canonicalise_parts effective) as [u ->]. cbn. rewrite Es, En.
    by rewrite canonical_NodeSpecific_idemp, canonical_Shared_ascii. }
  destruct Hl as [-> ->].
  assert (Hr : ∀ d, d = ProjectDocument observed version →
    Document_Shared (Canonicalise d) = canonical_Shared (Document_Shared observed) ∧
    Document_NodeSpecific (Canonicalise d) = canonical_NodeSpecific (Document_NodeSpecific observed) ∧
    (SchemaVersion <=? Document_SchemaVersion (Canonicalise d)) = true).
  { intros d Hd. split_and!; [| |apply canonical_current; by rewrite Hd];
      destruct (Canonicalise_parts d) as [u ->]; cbn; rewrite Hd; unfold ProjectDocument; cbn zeta;
      destruct (Canonicalise_parts observed) as [u' ->]; cbn.
    - by apply canonical_Shared_ascii.
    - apply canonical_NodeSpecific_idemp. }
  destruct (Hr _ eq_refl) as (-> & -> & ->). rewrite orb_true_r, app_nil. rewrite Es, En. split.
  - intros [H1 H2]. split; [by apply diff_shared_nil|by apply diff_node_nil].
  - intros [-> ->]. by rewrite diff_shared_refl, diff_node_refl.
Qed.
End verification.
