(* ===== verification/ControlPlane.v ===== *)
(** * internal/controlplane/service.go: the service

    Every method of [Service] as a program over the interfaces.  Audit metadata is
    a tree of fields; the store sanitises and orders it. *)

From S2P Require Import Prelude GoRuntime Json Domain Compat Net Configuration ConfigDiff.
From S2P Require Import ConfigValidate ControlModel StoreRecords Effects ControlEffects Preview.

(** [blockedServiceValidator] says whether a validator was given. *)
(* src/internal/controlplane/service.go:45-49 Service *)
Record Service := mkService { blockedServiceValidator : bool }.

(* src/internal/controlplane/service.go:55-61 NewService *)
Definition NewService (validators : list bool) : Service :=
  mkService (match validators with [] => false | v :: _ => v end).

Section service.
Context {R : Runtime} {M : MapOrder} (s : Service).

Definition require_id (field value : string) : control (res unit) :=
  guard (ValidID value) (Validation field "must be a valid UUID").

(** ** Drafts *)

(* src/internal/controlplane/service.go:63-97 Service.UpdateDraft *)
Definition UpdateDraft (actor : Actor) (clusterID : string) (expectedVersion : Z)
  (document : DesiredDocument) : control (res (Draft * list ValidationIssue)) :=
  try _ <- require_id "clusterId" clusterID;
  try draft <- call (Repo_DraftByCluster clusterID);
  try _ <- guard (expectedVersion =? Draft_Version draft) draft_changed;
  try nodes <- call (Repo_ListNodes clusterID);
  let issues := ValidateDesired document (enabledNodeIDs nodes) in
  try _ <- guard (DesiredDocument_SchemaVersion document =? SchemaVersion)
    (Validation "document.schemaVersion"
       "must be 2; refresh and import a current observation before editing");
  let document := CanonicaliseDesired document in
  let '(body, hash) := MarshalDesired document in
  try _ <- guard (negb (body =?? ""))
    (TextError "canonicalise desired configuration: %!w(<nil>)");
  do now <- call Now;
  let draft := mkDraft (Draft_ID draft) (Draft_ClusterID draft) (Draft_SourceSnapshotID draft)
    (Draft_BaseRevisionID draft) (Draft_SchemaVersion draft) document hash (expectedVersion + 1)
    (Actor_UserID actor) now in
  try event <- userAudit actor "configuration.draft_updated" "configuration_draft" (Draft_ID draft)
    (JObj [("clusterId", JStr clusterID); ("valid", JBool (null issues))]) now;
  try _ <- call (Repo_UpdateConfigurationDraft draft expectedVersion event);
  done_with (draft, issues).

(* src/internal/controlplane/service.go:99-108 Service.ValidateDraft *)
Definition ValidateDraft (clusterID : string) : control (res Preview) :=
  try _ <- require_id "clusterId" clusterID;
  try draft <- call (Repo_DraftByCluster clusterID);
  previewDocument (blockedServiceValidator s) clusterID "" (Draft_Document draft) [].

(** ** Revisions *)

(* src/internal/controlplane/service.go:110-153 Service.Publish *)
Definition Publish (actor : Actor) (clusterID summary : string) (expectedVersion : Z)
  : control (res Revision) :=
  try _ <- require_id "clusterId" clusterID;
  let summary := TrimSpace summary in
  try _ <- guard (negb ((len summary <? 1) || (500 <? len summary)))
    (Validation "summary" "must contain between 1 and 500 characters");
  try draft <- call (Repo_DraftByCluster clusterID);
  try _ <- guard (expectedVersion =? Draft_Version draft) draft_changed;
  try _ <- guard ((Draft_SchemaVersion draft =? SchemaVersion) &&
                  (DesiredDocument_SchemaVersion (Draft_Document draft) =? SchemaVersion))
    (NewError ErrorConflict "the draft uses legacy schema v1; refresh and import a current observation before publishing");
  try preview <- previewDocument (blockedServiceValidator s) clusterID "" (Draft_Document draft) [];
  try _ <- guard (Preview_Valid preview)
    (NewError ErrorCapability "the draft has validation or capability issues");
  try id <- call GenerateID;
  let '(_, hash) := MarshalDesired (Draft_Document draft) in
  do now <- call Now;
  let revision := mkRevision id clusterID 0 SchemaVersion (CanonicaliseDesired (Draft_Document draft))
    hash summary (Actor_UserID actor) now false None None (mkLifecycle false false false) in
  try event <- userAudit actor "configuration.revision_published" "configuration_revision" id
    (JObj [("clusterId", JStr clusterID); ("summary", JStr summary); ("canonicalHash", JStr hash)]) now;
  call (Repo_PublishRevision draft revision expectedVersion event).

(* src/internal/controlplane/service.go:155-160 Service.ListRevisions *)
Definition Service_ListRevisions (clusterID : string) (includeArchived : list bool)
  : control (res (list Revision)) :=
  try _ <- require_id "clusterId" clusterID;
  call (Repo_ListRevisions clusterID (default false (head includeArchived))).

(* src/internal/controlplane/service.go:162-167 Service.Revision *)
Definition Service_Revision (id : string) : control (res Revision) :=
  try _ <- require_id "revisionId" id;
  call (Repo_RevisionByID id).

(* src/internal/controlplane/service.go:169-186 Service.SetRevisionArchived *)
Definition Service_SetRevisionArchived (actor : Actor) (id : string) (archived confirmed : bool)
  : control (res unit) :=
  try _ <- guard confirmed (Validation "confirmed" "must be true after reviewing the lifecycle impact");
  try revision <- Service_Revision id;
  let action := if archived then "configuration.revision_archived" else "configuration.revision_restored" in
  do at_ <- call Now;
  try event <- userAudit actor action "configuration_revision" id
    (JObj [("clusterId", JStr (Revision_ClusterID revision));
           ("revisionNumber", JNum (Revision_RevisionNumber revision))]) at_;
  do now <- call Now;
  call (Repo_SetRevisionArchived id (Actor_UserID actor) archived now event).

(* src/internal/controlplane/service.go:188-201 Service.DeleteUnusedRevision *)
Definition Service_DeleteUnusedRevision (actor : Actor) (id confirmation : string) : control (res unit) :=
  try revision <- Service_Revision id;
  try _ <- guard (confirmation =?? "DELETE REVISION #" +:+ itoa (Revision_RevisionNumber revision))
    (Validation "confirmation" "must exactly match the unused revision confirmation phrase");
  do at_ <- call Now;
  try event <- userAudit actor "configuration.revision_deleted_unused" "configuration_revision" id
    (JObj [("clusterId", JStr (Revision_ClusterID revision));
           ("revisionNumber", JNum (Revision_RevisionNumber revision))]) at_;
  call (Repo_DeleteUnusedRevision id event).

(* src/internal/controlplane/service.go:203-216 Service.CompareRevisions *)
Definition CompareRevisions (leftID rightID : string) : control (res (list Difference)) :=
  try l <- Service_Revision leftID;
  try r <- Service_Revision rightID;
  try _ <- guard ((Revision_ClusterID l =?? Revision_ClusterID r) &&
                  (Revision_SchemaVersion l =? Revision_SchemaVersion r))
    (Validation "revisionId" "revisions must belong to the same cluster and schema");
  done_with (DiffDesired (Revision_Document l) (Revision_Document r)).

(** ** Deployments *)

Definition empty_desired : DesiredDocument := mkDesiredDocument SchemaVersion zero_Shared ∅ None.

(* src/internal/controlplane/service.go:218-244 Service.PreviewDeployment *)
Definition PreviewDeployment (clusterID revisionID : string) : control (res Preview) :=
  try revision <- Service_Revision revisionID;
  try _ <- guard (Revision_ClusterID revision =?? clusterID)
    (Validation "revisionId" "revision does not belong to the cluster");
  try preview <- previewDocument (blockedServiceValidator s) clusterID revisionID
    (Revision_Document revision) [];
  try cluster <- call (Repo_ClusterByID clusterID);
  try baseline <-
    match Cluster_ActiveRevisionID cluster with
    | None => done_with empty_desired
    | Some id => try active <- call (Repo_RevisionByID id); done_with (Revision_Document active)
    end;
  done_with (set_Preview_Differences (DiffDesired baseline (Revision_Document revision)) preview).

(* src/internal/controlplane/service.go:290-296 Service.startDeployment *)
Fixpoint create_tasks (id : string) (targets : list PreviewNode) : control (res (list DeploymentNode)) :=
  match targets with
  | [] => done_with []
  | target :: rest =>
      try taskID <- call GenerateID;
      try tasks <- create_tasks id rest;
      done_with (mkDeploymentNode taskID id (PreviewNode_NodeID target) (PreviewNode_Position target)
        (PreviewNode_EffectiveHash target) "pending" 0 None None "" "" None :: tasks)
  end.

(* src/internal/controlplane/service.go:297-302 Service.startDeployment *)
Definition deployment_action (origin : string) : string :=
  if origin =?? "rollback" then "deployment.rollback_created"
  else if origin =?? "reconciliation" then "deployment.reconciliation_created"
  else "deployment.created".

(* src/internal/controlplane/service.go:254-317 Service.startDeployment *)
Definition startDeployment (actor : option Actor) (clusterID revisionID origin : string)
  (rollbackOf : option string) (targetNodeIDs : list string) : control (res Deployment) :=
  try _ <- guard ((origin =?? "manual") || (origin =?? "rollback") || (origin =?? "reconciliation"))
    (Validation "origin" "is invalid");
  try _ <- guard ((origin =?? "reconciliation") || null targetNodeIDs)
    (Validation "targetNodeIds" "targeted deployments are reserved for drift reconciliation");
  try revision <- Service_Revision revisionID;
  try _ <- guard (Revision_ClusterID revision =?? clusterID)
    (Validation "revisionId" "revision does not belong to the cluster");
  try preview <- previewDocument (blockedServiceValidator s) clusterID revisionID
    (Revision_Document revision) targetNodeIDs;
  try _ <- guard (Preview_Valid preview && negb (null (Preview_Nodes preview)))
    (NewError ErrorCapability "all deployment targets must pass validation before mutation");
  try id <- call GenerateID;
  do now <- call Now;
  try generated <- call GenerateID;
  let requestedBy := Actor_UserID <$> actor in
  let requestID := match actor with Some a => Actor_RequestID a | None => generated end in
  try tasks <- create_tasks id (Preview_Nodes preview);
  let deployment := mkDeployment id clusterID revisionID "queued" "sequential" "stop" origin rollbackOf
    requestedBy requestID false "" now None None None None (mkLifecycle false false false) tasks in
  let metadata := JObj [("clusterId", JStr clusterID); ("revisionId", JStr revisionID);
                        ("targetCount", JNum (Z.of_nat (length tasks)))] in
  try event <-
    match actor with
    | None => systemAudit (deployment_action origin) "deployment" id requestID metadata now
    | Some a => userAudit a (deployment_action origin) "deployment" id metadata now
    end;
  try _ <- call (Repo_CreateDeployment deployment event);
  done_with deployment.

(* src/internal/controlplane/service.go:246-248 Service.StartDeployment *)
Definition StartDeployment (actor : Actor) (clusterID revisionID origin : string)
  (rollbackOf : option string) (targetNodeIDs : list string) : control (res Deployment) :=
  startDeployment (Some actor) clusterID revisionID origin rollbackOf targetNodeIDs.

(* src/internal/controlplane/service.go:250-252 Service.StartReconciliation *)
Definition StartReconciliation (clusterID revisionID nodeID : string) : control (res Deployment) :=
  startDeployment None clusterID revisionID "reconciliation" None [nodeID].

(* src/internal/controlplane/service.go:319-334 Service.Rollback *)
Definition Rollback (actor : Actor) (clusterID revisionID : string) : control (res Deployment) :=
  try _ <- require_id "clusterId" clusterID;
  try cluster <- call (Repo_ClusterByID clusterID);
  match Cluster_ActiveRevisionID cluster with
  | None => fail (NewError ErrorConflict "rollback requires an active revision")
  | Some active =>
      try _ <- guard (negb (active =?? revisionID))
        (Validation "revisionId" "the active revision cannot be its own rollback target");
      StartDeployment actor clusterID revisionID "rollback" (Some active) []
  end.

(* src/internal/controlplane/service.go:336-341 Service.ListDeployments *)
Definition Service_ListDeployments (clusterID : string) (includeArchived : list bool)
  : control (res (list Deployment)) :=
  try _ <- require_id "clusterId" clusterID;
  call (Repo_ListDeployments clusterID (default false (head includeArchived))).

(* src/internal/controlplane/service.go:343-348 Service.Deployment *)
Definition Service_Deployment (id : string) : control (res Deployment) :=
  try _ <- require_id "deploymentId" id;
  call (Repo_DeploymentByID id).

Definition deployment_metadata (d : Deployment) : json :=
  JObj [("clusterId", JStr (Deployment_ClusterID d)); ("revisionId", JStr (Deployment_RevisionID d))].

(* src/internal/controlplane/service.go:350-367 Service.SetDeploymentArchived *)
Definition Service_SetDeploymentArchived (actor : Actor) (id : string) (archived confirmed : bool)
  : control (res unit) :=
  try _ <- guard confirmed (Validation "confirmed" "must be true after reviewing the lifecycle impact");
  try deployment <- Service_Deployment id;
  let action := if archived then "deployment.archived" else "deployment.restored" in
  do at_ <- call Now;
  try event <- userAudit actor action "deployment" id (deployment_metadata deployment) at_;
  do now <- call Now;
  call (Repo_SetDeploymentArchived id (Actor_UserID actor) archived now event).

(* src/internal/controlplane/service.go:369-382 Service.DeleteUnstartedDeployment *)
Definition Service_DeleteUnstartedDeployment (actor : Actor) (id confirmation : string)
  : control (res unit) :=
  try deployment <- Service_Deployment id;
  try _ <- guard (confirmation =?? "DELETE DEPLOYMENT " +:+ Deployment_ID deployment)
    (Validation "confirmation" "must exactly match the unstarted deployment confirmation phrase");
  do at_ <- call Now;
  try event <- userAudit actor "deployment.deleted_unstarted" "deployment" id
    (deployment_metadata deployment) at_;
  call (Repo_DeleteUnstartedDeployment id event).

(* src/internal/controlplane/service.go:384-398 Service.CancelDeployment *)
Definition CancelDeployment (actor : Actor) (id : string) : control (res unit) :=
  try _ <- require_id "deploymentId" id;
  try deployment <- call (Repo_DeploymentByID id);
  do now <- call Now;
  try event <- userAudit actor "deployment.cancellation_requested" "deployment" id
    (JObj [("clusterId", JStr (Deployment_ClusterID deployment))]) now;
  call (Repo_RequestDeploymentCancel id event).

(** ** Drift *)

(* src/internal/controlplane/service.go:400-405 Service.ListDrift *)
Definition ListDrift (clusterID : string) : control (res (list DriftEvent)) :=
  try _ <- require_id "clusterId" clusterID;
  call (Repo_ListDriftEvents clusterID).

(* src/internal/controlplane/service.go:407-426 Service.RestoreDrift *)
Definition RestoreDrift (actor : Actor) (driftID : string) : control (res Deployment) :=
  try _ <- require_id "driftId" driftID;
  try drift <- call (Repo_DriftEventByID driftID);
  try _ <- guard (DriftEvent_Status drift =?? "open")
    (NewError ErrorConflict "drift event is already resolved");
  try deployment <- StartDeployment actor (DriftEvent_ClusterID drift) (DriftEvent_DesiredRevisionID drift)
    "reconciliation" None [DriftEvent_NodeID drift];
  try _ <- call (Repo_UpdateDriftReconciliation (DriftEvent_ID drift) "enforcing"
    (Some (Deployment_ID deployment)));
  done_with deployment.

(* src/internal/controlplane/service.go:447-451 Service.AdoptDrift *)
Definition adopted (nodeID : string) (observed : Document) (desired : DesiredDocument) : DesiredDocument :=
  mkDesiredDocument (DesiredDocument_SchemaVersion desired) (Document_Shared observed)
    (<[nodeID := Document_NodeSpecific observed]> (DesiredDocument_NodeOverrides desired))
    (DesiredDocument_Unsupported desired).

(* src/internal/controlplane/service.go:428-466 Service.AdoptDrift *)
Definition AdoptDrift (actor : Actor) (driftID : string) (expectedDraftVersion : Z) : control (res Draft) :=
  try _ <- require_id "driftId" driftID;
  try drift <- call (Repo_DriftEventByID driftID);
  let unavailable := NewError ErrorConflict "the drift observation is unavailable" in
  do snapshot <- call (Repo_SnapshotByID (DriftEvent_ObservedSnapshotID drift));
  match snapshot with
  | Err _ => fail unavailable
  | Ok snapshot =>
      match Snapshot_Document snapshot with
      | None => fail unavailable
      | Some observed =>
          try draft <- call (Repo_DraftByCluster (DriftEvent_ClusterID drift));
          try _ <- guard (Draft_Version draft =? expectedDraftVersion) draft_changed;
          let document := adopted (DriftEvent_NodeID drift) observed (Draft_Document draft) in
          let '(_, hash) := MarshalDesired document in
          do now <- call Now;
          let draft := mkDraft (Draft_ID draft) (Draft_ClusterID draft) (Draft_SourceSnapshotID draft)
            (Draft_BaseRevisionID draft) (Draft_SchemaVersion draft) document hash
            (Draft_Version draft + 1) (Actor_UserID actor) now in
          try event <- userAudit actor "drift.adopted_to_draft" "drift_event" (DriftEvent_ID drift)
            (JObj [("clusterId", JStr (DriftEvent_ClusterID drift)); ("draftId", JStr (Draft_ID draft))]) now;
          try _ <- call (Repo_UpdateConfigurationDraft draft expectedDraftVersion event);
          done_with draft
      end
  end.
End service.
