(* ===== verification/Executor.v ===== *)
(** * internal/controlplane/executor.go: the deployment executor

    The executor claims a deployment, revalidates every target, and then applies and
    verifies the configuration of one node after the other.  The first failure stops
    the deployment; a cancellation is honoured between two nodes. *)

From S2P Require Import Prelude GoRuntime Json Domain Compat Net Configuration ConfigDiff.
From S2P Require Import ConfigValidate ControlModel Effects ControlEffects Preview.

(* src/internal/controlplane/executor.go:63-67 preparedNode *)
Record preparedNode := mkPreparedNode {
  prepared_task : DeploymentNode;
  prepared_record : NodeRecord;
  prepared_effective : Document
}.

(* src/internal/controlplane/executor.go:236-242 errorCode *)
Definition errorCode (err : error) : string :=
  match errors_As err with Some (kind, _) => kind | None => ErrorInternal end.

(** [cause] is nil where the code passes a nil error. *)
(* src/internal/controlplane/executor.go:244-253 safeFailure *)
Definition safeFailure (cause : option error) : string :=
  match cause with
  | None => "Operation failed without a safe diagnostic."
  | Some err =>
      match errors_As err with
      | Some (_, message) => message
      | None => "The operation failed; inspect controller logs using the deployment request ID."
      end
  end.

(** The changes of a task. *)
Definition finished_task (status : string) (at_ : Time) (code message : string) (t : DeploymentNode)
  : DeploymentNode :=
  set_DeploymentNode_Status status (set_DeploymentNode_CompletedAt (Some at_)
    (set_DeploymentNode_ErrorCode code (set_DeploymentNode_ErrorMessage message t))).

Definition skip_task (at_ : Time) (code : string) (t : DeploymentNode) : DeploymentNode :=
  finished_task "skipped" at_ code (DeploymentNode_ErrorMessage t) t.

Definition applying_task (at_ : Time) (t : DeploymentNode) : DeploymentNode :=
  set_DeploymentNode_Status "applying" (set_DeploymentNode_AttemptCount
    (wrap64 (DeploymentNode_AttemptCount t + 1)) (set_DeploymentNode_StartedAt (Some at_) t)).

Definition verified_task (at_ : Time) (snapshotID : string) (t : DeploymentNode) : DeploymentNode :=
  set_DeploymentNode_Status "succeeded" (set_DeploymentNode_CompletedAt (Some at_)
    (set_DeploymentNode_VerificationSnapshotID (Some snapshotID) t)).

Definition finished_deployment (status : string) (at_ : Time) (d : Deployment) : Deployment :=
  set_Deployment_Status status (set_Deployment_CompletedAt (Some at_) d).

Definition failed_deployment (status code : string) (at_ : Time) (d : Deployment) : Deployment :=
  finished_deployment status at_ (set_Deployment_ErrorCode code d).

Section executor.
Context {R : Runtime}.

(** A loop of store writes. *)
Fixpoint each {A} (f : A → control (res unit)) (l : list A) : control (res unit) :=
  match l with
  | [] => done_with tt
  | x :: l => try _ <- f x; each f l
  end.

Definition update_task (t : DeploymentNode) : control (res unit) := call (Repo_UpdateDeploymentNode t).

(** ** The three ways to stop *)

(* src/internal/controlplane/executor.go:170-186 Executor.failBeforeMutation *)
Definition failBeforeMutation (deployment : Deployment) (code : string) (cause : option error)
  : control (res unit) :=
  do now <- call Now;
  try _ <- each (λ t, update_task (finished_task "skipped" now code (safeFailure cause) t))
    (Deployment_Nodes deployment);
  let deployment := failed_deployment "failed" code now deployment in
  try event <- systemAudit "deployment.failed" "deployment" (Deployment_ID deployment)
    (Deployment_RequestID deployment) (JObj [("errorCode", JStr code); ("mutatedNodes", JNum 0)]) now;
  call (Repo_FinishDeployment deployment false event).

(** [failed] is the task at the failed index, [skipped] the prepared nodes after it. *)
(* src/internal/controlplane/executor.go:188-215 Executor.failNode *)
Definition failNode (deployment : Deployment) (failed : DeploymentNode) (skipped : list preparedNode)
  (succeeded : Z) (code : string) (cause : option error) : control (res unit) :=
  do now <- call Now;
  let failed := finished_task "failed" now code (safeFailure cause) failed in
  try _ <- update_task failed;
  try _ <- call (Repo_UpdateNodeConvergence (DeploymentNode_NodeID failed) "apply_failed" now);
  try _ <- each (λ p, update_task (skip_task now "STOPPED_AFTER_FAILURE" (prepared_task p))) skipped;
  let status := if 0 <? succeeded then "partially_succeeded" else "failed" in
  let deployment := failed_deployment status code now deployment in
  try event <- systemAudit ("deployment." +:+ status) "deployment" (Deployment_ID deployment)
    (Deployment_RequestID deployment)
    (JObj [("errorCode", JStr code); ("mutatedNodes", JNum succeeded)]) now;
  call (Repo_FinishDeployment deployment false event).

(* src/internal/controlplane/executor.go:217-234 Executor.cancel *)
Definition cancel (deployment : Deployment) (start : nat) : control (res unit) :=
  do now <- call Now;
  try _ <- each (λ t, if DeploymentNode_Status t =?? "pending"
                      then update_task (skip_task now "CANCELLED_AT_SAFE_BOUNDARY" t)
                      else done_with tt) (drop start (Deployment_Nodes deployment));
  let deployment := finished_deployment "cancelled" now deployment in
  try event <- systemAudit "deployment.cancelled" "deployment" (Deployment_ID deployment)
    (Deployment_RequestID deployment) (JObj [("safeBoundary", JBool true)]) now;
  call (Repo_FinishDeployment deployment false event).

(** ** Revalidation *)

Definition mutable (record : NodeRecord) : bool :=
  let node := Record_Node record in
  Node_Enabled node && negb (Node_MaintenanceMode node) &&
  (Node_CompatibilityStatus node =?? CompatibilitySupported).

(** The error of a call, when it failed. *)
Definition err_of {A} (r : res A) : option error := match r with Ok _ => None | Err e => Some e end.

(** [err != nil || snapshot.Document == nil] fails. *)
Definition observed_document (r : res Snapshot) : option Document :=
  match r with Ok snapshot => Snapshot_Document snapshot | Err _ => None end.

(** [next] continues with the prepared nodes; every other exit fails the deployment before a node
    is touched. *)
(* src/internal/controlplane/executor.go:81-105 Executor.execute *)
Fixpoint prepare (deployment : Deployment) (revision : Revision) (tasks : list DeploymentNode)
  (prepared : list preparedNode) (next : list preparedNode → control (res unit)) : control (res unit) :=
  match tasks with
  | [] => next prepared
  | task :: tasks =>
      let nodeID := DeploymentNode_NodeID task in
      do record <- call (Repo_NodeRecordByID nodeID);
      match record with
      | Ok record =>
          if negb (mutable record)
          then failBeforeMutation deployment "TARGET_NOT_MUTABLE"
                 (Some (TextError "a target is disabled, unavailable, or in maintenance"))
          else if IsLegacyConverted (DesiredDocument_Unsupported (Revision_Document revision))
          then failBeforeMutation deployment "LEGACY_SCHEMA_NOT_DEPLOYABLE"
                 (Some (TextError "legacy schema-1 records must be imported and published as schema 2 before deployment"))
          else
            match Effective (Revision_Document revision) nodeID with
            | Err err => failBeforeMutation deployment "EFFECTIVE_CONFIGURATION_INVALID" (Some err)
            | Ok effective =>
                do snapshot <- call (Observe nodeID);
                match observed_document snapshot with
                | None => failBeforeMutation deployment "TARGET_OBSERVATION_FAILED" (err_of snapshot)
                | Some document =>
                    if negb (null (immutableNodeDifferences effective
                                     (ProjectDocument document (Revision_SchemaVersion revision))))
                    then failBeforeMutation deployment "LISTENER_MUTATION_UNSUPPORTED"
                           (Some (TextError "node listener identity changed after preview"))
                    else prepare deployment revision tasks
                           (prepared ++ [mkPreparedNode task record effective]) next
                end
            end
      | Err _ => failBeforeMutation deployment "TARGET_NOT_MUTABLE"
                   (Some (TextError "a target is disabled, unavailable, or in maintenance"))
      end
  end.

(** ** The rollout *)

(* src/internal/controlplane/executor.go:161-167 Executor.execute *)
Definition succeed (deployment : Deployment) : control (res unit) :=
  do completed <- call Now;
  let deployment := finished_deployment "succeeded" completed deployment in
  try event <- systemAudit "deployment.succeeded" "deployment" (Deployment_ID deployment)
    (Deployment_RequestID deployment)
    (JObj [("clusterId", JStr (Deployment_ClusterID deployment));
           ("revisionId", JStr (Deployment_RevisionID deployment))]) completed;
  call (Repo_FinishDeployment deployment (negb (Deployment_Origin deployment =?? "reconciliation")) event).

(* src/internal/controlplane/executor.go:132-132 Executor.execute *)
Definition apply_request (record : NodeRecord) (credentials : NodeCredentials) : NodeProbeRequest :=
  mkNodeProbeRequest (Node_BaseURL (Record_Node record)) (Node_CertificatePolicy (Record_Node record))
    (Secrets_CustomCAPEM (Record_Secrets record)) credentials.

(** [index] nodes have succeeded when the loop reaches [item :: rest]. *)
(* src/internal/controlplane/executor.go:109-167 Executor.execute *)
Fixpoint rollout (deployment : Deployment) (revision : Revision) (index : nat)
  (prepared : list preparedNode) : control (res unit) :=
  match prepared with
  | [] => succeed deployment
  | item :: rest =>
      let succeeded := Z.of_nat index in
      let nodeID := DeploymentNode_NodeID (prepared_task item) in
      try fresh <- call (Repo_DeploymentByID (Deployment_ID deployment));
      if Deployment_CancelRequested fresh then cancel fresh index
      else
        do now <- call Now;
        let task := applying_task now (prepared_task item) in
        try _ <- update_task task;
        try _ <- call (Repo_UpdateNodeConvergence nodeID "applying" now);
        do credentials <- call (Decrypt nodeID (Secrets_Credentials (Record_Secrets (prepared_record item))));
        match credentials with
        | Err _ => failNode deployment task rest succeeded "CREDENTIAL_DECRYPTION_FAILED"
                     (Some (TextError "stored node credentials could not be decrypted"))
        | Ok credentials =>
            do applied <- call (ApplyConfiguration (apply_request (prepared_record item) credentials)
                                  (prepared_effective item));
            match applied with
            | Err err => failNode deployment task rest succeeded (errorCode err) (Some err)
            | Ok _ =>
                let task := set_DeploymentNode_Status "verifying" task in
                try _ <- update_task task;
                do at_ <- call Now;
                try _ <- call (Repo_UpdateNodeConvergence nodeID "verifying" at_);
                do snapshot <- call (Observe nodeID);
                match snapshot with
                | Err err => failNode deployment task rest succeeded "VERIFICATION_OBSERVATION_FAILED" (Some err)
                | Ok snapshot =>
                    match Snapshot_Document snapshot with
                    | None => failNode deployment task rest succeeded "VERIFICATION_OBSERVATION_FAILED" None
                    | Some document =>
                        let differences := managedDifferences (prepared_effective item)
                          (ProjectDocument document (Revision_SchemaVersion revision)) in
                        if negb (null differences)
                        then failNode deployment task rest succeeded ErrorVerification
                               (Some (TextError ("read-back produced " +:+
                                  itoa (Z.of_nat (length differences)) +:+ " semantic differences")))
                        else
                          do completed <- call Now;
                          let task := verified_task completed (Snapshot_ID snapshot) task in
                          try _ <- update_task task;
                          try _ <- call (Repo_MarkNodeApplied nodeID (Revision_ID revision)
                            (DeploymentNode_EffectiveHash task) (Snapshot_ID snapshot) completed);
                          rollout deployment revision (S index) rest
                    end
                end
            end
        end
  end.

(* src/internal/controlplane/executor.go:69-168 Executor.execute *)
Definition execute (id : string) : control (res unit) :=
  try deployment <- call (Repo_DeploymentByID id);
  if Deployment_CancelRequested deployment || (Deployment_Status deployment =?? "cancelling")
  then cancel deployment 0
  else
    do revision <- call (Repo_RevisionByID (Deployment_RevisionID deployment));
    match revision with
    | Err err => failBeforeMutation deployment "REVISION_UNAVAILABLE" (Some err)
    | Ok revision =>
        prepare deployment revision (Deployment_Nodes deployment) [] (λ prepared,
          try _ <- call (Repo_SetDeploymentRunning (Deployment_ID deployment));
          rollout deployment revision 0 prepared)
    end.

(** The first component says whether a deployment was claimed. *)
(* src/internal/controlplane/executor.go:55-61 Executor.RunOnce *)
Definition RunOnce : control (bool * res unit) :=
  do now <- call Now;
  do claimed <- call (Repo_ClaimDeployment now);
  match claimed with
  | Err err => Ret (false, Err err)
  | Ok id =>
      if id =?? "" then Ret (false, Ok tt)
      else do result <- execute id; Ret (true, result)
  end.

(* src/internal/controlplane/executor.go:51-53 Executor.RecoverInterrupted *)
Definition RecoverInterrupted : control (res unit) :=
  do now <- call Now;
  call (Repo_InterruptDeployments now).
End executor.
