(* ===== verification/ExecutorSpec.v ===== *)
(** * What the executor promises

    [execution] is the abstract behaviour of a deployment: a revalidation of every
    target without any mutation, then one node after the other, each applied at most
    once and verified before the next, and at most one final report.  Every run of
    [Executor.execute] is such an execution, whatever its interfaces respond; the
    guarantees of the executor follow from it. *)

From S2P Require Import Prelude GoRuntime Json Domain Compat Net Configuration ConfigDiff.
From S2P Require Import ConfigValidate ControlModel StoreControl Effects ControlEffects Preview.
From S2P Require Import Executor.

(** ** The facts of a run *)

Inductive fact : Type :=
| FDeployment (id : string) (r : res Deployment)
| FRevision (id : string) (r : res Revision)
| FNode (id : string) (r : res NodeRecord)
| FObserve (id : string) (r : res Snapshot)
| FRunning (id : string) (r : res unit)
| FDecrypted (id : string) (sealed : EncryptedCredentials) (r : res NodeCredentials)
| FApply (request : NodeProbeRequest) (document : Document) (r : res unit)
| FTask (task : DeploymentNode) (r : res unit)
| FApplied (nodeID revisionID hash snapshotID : string) (r : res unit)
| FFinish (deployment : Deployment) (activate : bool) (r : res unit)
| FOther.

Definition fact_of (ev : event ctl) : fact :=
  match ev with
  | Event e x =>
      match e in ctl X return X → fact with
      | Repo_DeploymentByID id => FDeployment id
      | Repo_RevisionByID id => FRevision id
      | Repo_NodeRecordByID id => FNode id
      | Observe id => FObserve id
      | Repo_SetDeploymentRunning id => FRunning id
      | Decrypt id sealed => FDecrypted id sealed
      | ApplyConfiguration request document => FApply request document
      | Repo_UpdateDeploymentNode task => FTask task
      | Repo_MarkNodeApplied n r h s _ => FApplied n r h s
      | Repo_FinishDeployment d activate _ => FFinish d activate
      | _ => λ _, FOther
      end x
  end.

Definition facts (tr : list (event ctl)) : list fact := fact_of <$> tr.

(** Neither a mutation of a node nor the final report. *)
Definition quiet (f : fact) : Prop :=
  match f with FApply _ _ _ | FFinish _ _ _ => False | _ => True end.

(** A deployment read with its cancellation requested. *)
Definition cancel_seen (f : fact) : Prop :=
  match f with FDeployment _ (Ok d) => Deployment_CancelRequested d = true | _ => False end.

(** The end of a run: nothing, or one last report that satisfies [P]. *)
Inductive ending (P : Deployment → bool → Prop) : list fact → Prop :=
| ending_silent l : Forall quiet l → ending P l
| ending_report l d activate r : Forall quiet l → P d activate → ending P (l ++ [FFinish d activate r]).

Section specification.
Context {R : Runtime}.

(** The revalidation of a task found in [l]. *)
Definition revalidated (revision : Revision) (task : DeploymentNode) (l : list fact) : Prop :=
  let id := DeploymentNode_NodeID task in
  ∃ record effective s observed,
    FNode id (Ok record) ∈ l ∧ Node_Enabled (Record_Node record) = true ∧
    Node_MaintenanceMode (Record_Node record) = false ∧
    Node_CompatibilityStatus (Record_Node record) = CompatibilitySupported ∧
    IsLegacyConverted (DesiredDocument_Unsupported (Revision_Document revision)) = false ∧
    Effective (Revision_Document revision) id = Ok effective ∧
    FObserve id (Ok s) ∈ l ∧ Snapshot_Document s = Some observed ∧
    immutableNodeDifferences effective
      (ProjectDocument observed (Revision_SchemaVersion revision)) = [].

(** [request] addresses the node of [item]: its base URL, certificate policy and authorities are those
    of the record prepared for the node, its credentials the sealed ones of this record, decrypted in
    [l]. *)
Definition addressed (item : preparedNode) (request : NodeProbeRequest) (l : list fact) : Prop :=
  ∃ credentials,
    FDecrypted (DeploymentNode_NodeID (prepared_task item))
      (Secrets_Credentials (Record_Secrets (prepared_record item))) (Ok credentials) ∈ l ∧
    request = apply_request (prepared_record item) credentials.

(** [item] carries the record read for the node of its task and the document the revision gives it. *)
Definition prepared_from (revision : Revision) (item : preparedNode) (l : list fact) : Prop :=
  FNode (DeploymentNode_NodeID (prepared_task item)) (Ok (prepared_record item)) ∈ l ∧
  Effective (Revision_Document revision) (DeploymentNode_NodeID (prepared_task item)) =
    Ok (prepared_effective item).

(** The read-back of a node and its record in [l]. *)
Definition verified (revision : Revision) (item : preparedNode) (l : list fact) : Prop :=
  let id := DeploymentNode_NodeID (prepared_task item) in
  ∃ s observed,
    FObserve id (Ok s) ∈ l ∧ Snapshot_Document s = Some observed ∧
    managedDifferences (prepared_effective item)
      (ProjectDocument observed (Revision_SchemaVersion revision)) = [] ∧
    FApplied id (Revision_ID revision) (DeploymentNode_EffectiveHash (prepared_task item))
      (Snapshot_ID s) (Ok tt) ∈ l.

Definition failure_report (k : nat) (d : Deployment) (activate : bool) : Prop :=
  Deployment_Status d = (if 0 <? Z.of_nat k then "partially_succeeded" else "failed") ∧ activate = false.

(** The rollout over [items] after [k] verified nodes. *)
Inductive rollout_spec (d : Deployment) (revision : Revision) : nat → list preparedNode → list fact → Prop :=
(* a store call fails, or a cancellation is found, before the next node is touched *)
| spec_stop k items l :
    ending (λ d' activate, (Deployment_Status d' = "cancelled" ∨ failure_report k d' activate) ∧
                           activate = false) l →
    rollout_spec d revision k items l
(* the next node is applied and its apply or its verification fails *)
| spec_fail k item items pre request r post :
    Forall quiet pre → Forall (λ f, ¬ cancel_seen f) pre → addressed item request pre →
    ending (failure_report k) post →
    rollout_spec d revision k (item :: items)
      (pre ++ FApply request (prepared_effective item) r :: post)
(* the next node is applied and verified *)
| spec_next k item items pre request mid l :
    Forall quiet pre → Forall (λ f, ¬ cancel_seen f) pre → addressed item request pre →
    Forall quiet mid → Forall (λ f, ¬ cancel_seen f) mid → verified revision item mid →
    rollout_spec d revision (S k) items l →
    rollout_spec d revision k (item :: items)
      (pre ++ FApply request (prepared_effective item) (Ok tt) :: mid ++ l)
(* every node is verified *)
| spec_succeed k l :
    ending (λ d' activate, Deployment_Status d' = "succeeded" ∧
      activate = negb (Deployment_Origin d =?? "reconciliation") ∧
      Deployment_RevisionID d' = Deployment_RevisionID d ∧
      Deployment_ClusterID d' = Deployment_ClusterID d) l →
    rollout_spec d revision k [] l.

(** The whole run. *)
Inductive execution (id : string) : list fact → Prop :=
| execution_stop l :
    ending (λ d activate, (Deployment_Status d = "cancelled" ∨ Deployment_Status d = "failed") ∧
                          activate = false) l →
    execution id l
| execution_rollout d revision prepared pre l :
    Forall quiet pre → FDeployment id (Ok d) ∈ pre →
    FRevision (Deployment_RevisionID d) (Ok revision) ∈ pre →
    FRunning (Deployment_ID d) (Ok tt) ∈ pre → Forall (λ f, ¬ cancel_seen f) pre →
    prepared_task <$> prepared = Deployment_Nodes d →
    Forall (λ item, revalidated revision (prepared_task item) pre ∧
      prepared_from revision item pre) prepared →
    rollout_spec d revision 0 prepared l →
    execution id (pre ++ l).

(** ** The pieces of the program *)

Lemma facts_app tr tr' : facts (tr ++ tr') = facts tr ++ facts tr'.
Proof. apply fmap_app. Qed.

Lemma each_quiet {A} (f : A → control (res unit)) l :
  (∀ x, emits (f x) (λ tr _, Forall quiet (facts tr))) → emits (each f l) (λ tr _, Forall quiet (facts tr)).
Proof.
  intros Hf. induction l as [|x l IH]; cbn [each]; [by apply emits_Ret|].
  apply emits_bind_ok. eapply emits_mono; [apply Hf|]. intros tr [u|e] Htr; [|done].
  eapply emits_mono; [apply IH|]. intros tr' r Htr'. cbn. rewrite facts_app. by apply Forall_app.
Qed.

Lemma update_task_quiet t : emits (update_task t) (λ tr _, Forall quiet (facts tr)).
Proof. apply emits_call. intros r. by repeat constructor. Qed.

(** Quiet calls before a run only lengthen its quiet start. *)
Lemma ending_app P l l' : Forall quiet l → ending P l' → ending P (l ++ l').
Proof.
  intros Hl [l0 H0|l0 d a r H0 HP]; [constructor; by apply Forall_app|].
  rewrite app_assoc. constructor; [by apply Forall_app|done].
Qed.

Lemma ending_mono (P Q : Deployment → bool → Prop) l :
  (∀ d a, P d a → Q d a) → ending P l → ending Q l.
Proof. intros HPQ [l0 H0|l0 d a r H0 HP]; [by apply ending_silent|]. apply ending_report; auto. Qed.

(** The audit event and the final report. *)
Lemma report_ending d activate action resourceType resourceID requestID metadata at_ :
  emits (try event <- systemAudit action resourceType resourceID requestID metadata at_;
         call (Repo_FinishDeployment d activate event))
    (λ tr _, ending (λ d' a', d' = d ∧ a' = activate) (facts tr)).
Proof.
  unfold systemAudit. repeat emit_step; cbn.
  - apply (ending_report _ [FOther]); [by repeat constructor|done].
  - apply ending_silent. by repeat constructor.
Qed.

(** A store write before the rest of a run. *)
Lemma quiet_then {A B} (p : control (res A)) (k : A → control (res B)) P :
  emits p (λ tr _, Forall quiet (facts tr)) →
  (∀ a, emits (k a) (λ tr _, ending P (facts tr))) →
  emits (bind_ok p k) (λ tr _, ending P (facts tr)).
Proof.
  intros Hp Hk. apply emits_bind_ok. eapply emits_mono; [exact Hp|]. intros tr [a|e] Htr.
  - eapply emits_mono; [apply Hk|]. intros tr' r H. cbn. rewrite facts_app. by apply ending_app.
  - by apply ending_silent.
Qed.

Lemma now_then {B} (k : Time → control B) P :
  (∀ t, emits (k t) (λ tr _, ending P (facts tr))) →
  emits (bind (call Now) k) (λ tr _, ending P (facts tr)).
Proof.
  intros Hk. apply emits_bind, emits_call. intros t. eapply emits_mono; [apply Hk|].
  intros tr r H. apply (ending_app _ [FOther]); [by repeat constructor|done].
Qed.

Lemma call_quiet {X} (e : ctl X) : (∀ x, quiet (fact_of (Event e x))) →
  emits (call e) (λ tr _, Forall quiet (facts tr)).
Proof. intros H. apply emits_call. intros x. by repeat constructor. Qed.

Lemma failBeforeMutation_ending d code cause :
  emits (failBeforeMutation d code cause)
    (λ tr _, ending (λ d' a, Deployment_Status d' = "failed" ∧ a = false) (facts tr)).
Proof.
  apply now_then. intros now. apply quiet_then; [apply each_quiet; intros; apply update_task_quiet|].
  intros _. eapply emits_mono; [apply report_ending|]. intros tr r. apply ending_mono.
  by intros ? ? [-> ->].
Qed.

Lemma failNode_ending d failed skipped k code cause :
  emits (failNode d failed skipped (Z.of_nat k) code cause)
    (λ tr _, ending (failure_report k) (facts tr)).
Proof.
  apply now_then. intros now. apply quiet_then; [apply update_task_quiet|]. intros _.
  apply quiet_then; [by apply call_quiet|]. intros _.
  apply quiet_then; [apply each_quiet; intros; apply update_task_quiet|]. intros _.
  eapply emits_mono; [apply report_ending|]. intros tr r. apply ending_mono. by intros ? ? [-> ->].
Qed.

Lemma cancel_ending d start :
  emits (cancel d start)
    (λ tr _, ending (λ d' a, Deployment_Status d' = "cancelled" ∧ a = false) (facts tr)).
Proof.
  apply now_then. intros now. apply quiet_then.
  { apply each_quiet. intros t. destruct (_ =?? _); [apply update_task_quiet|by apply emits_Ret]. }
  intros _. eapply emits_mono; [apply report_ending|]. intros tr r. apply ending_mono.
  by intros ? ? [-> ->].
Qed.

Lemma succeed_ending d :
  emits (succeed d) (λ tr _, ending (λ d' activate, Deployment_Status d' = "succeeded" ∧
      activate = negb (Deployment_Origin d =?? "reconciliation") ∧
      Deployment_RevisionID d' = Deployment_RevisionID d ∧
      Deployment_ClusterID d' = Deployment_ClusterID d) (facts tr)).
Proof.
  apply now_then. intros now. eapply emits_mono; [apply report_ending|]. intros tr r.
  apply ending_mono. by intros ? ? [-> ->].
Qed.

(** ** Refinement *)

(** The quiet events [l] that led to a failure, or to the next node. *)
Lemma stop_ending d revision k items l :
  ending (λ d' a, Deployment_Status d' = "cancelled" ∧ a = false) l → rollout_spec d revision k items l.
Proof. intros H. apply spec_stop. eapply ending_mono; [|exact H]. intros d' a [? ?]. auto. Qed.

Lemma spec_silent d revision k items l : Forall quiet l → rollout_spec d revision k items l.
Proof. intros H. apply spec_stop. by apply ending_silent. Qed.

Lemma spec_failure d revision k items l : ending (failure_report k) l → rollout_spec d revision k items l.
Proof. intros H. apply spec_stop. eapply ending_mono; [|exact H]. intros d' a Hf. split; [by right|apply Hf]. Qed.

#[local] Ltac quietly := repeat constructor; cbn; auto.

Lemma rollout_refines d revision : ∀ items k,
  emits (rollout d revision k items) (λ tr _, rollout_spec d revision k items (facts tr)).
Proof.
  induction items as [|item items IH]; intros k; cbn [rollout].
  { eapply emits_mono; [apply succeed_ending|]. intros tr r. apply spec_succeed. }
  apply emits_bind_ok, emits_call. intros [fresh|e]; [|apply spec_silent; quietly].
  destruct (Deployment_CancelRequested fresh) eqn:Hc.
  { eapply emits_mono; [apply cancel_ending|]. intros tr r H. apply stop_ending.
    apply (ending_app _ [_]); [quietly|done]. }
  assert (Hn : ¬ cancel_seen (FDeployment (Deployment_ID d) (Ok fresh))) by (cbn; congruence).
  apply emits_bind, emits_call. intros now.
  apply emits_bind_ok, emits_call. intros [[]|e]; [|apply spec_silent; quietly].
  apply emits_bind_ok, emits_call. intros [[]|e]; [|apply spec_silent; quietly].
  apply emits_bind, emits_call. intros [credentials|e].
  2: { eapply emits_mono; [apply failNode_ending|]. intros tr r H. apply spec_failure.
       apply (ending_app _ [_; _; _; _; _]); [quietly|done]. }
  apply emits_bind, emits_call. intros applied.
  set (before := [FDeployment (Deployment_ID d) (Ok fresh); FOther;
        FTask (applying_task now (prepared_task item)) (Ok tt); FOther;
        FDecrypted (DeploymentNode_NodeID (prepared_task item))
          (Secrets_Credentials (Record_Secrets (prepared_record item))) (Ok credentials)]).
  assert (Ha : addressed item (apply_request (prepared_record item) credentials) before).
  { exists credentials. split; [unfold before; set_solver|done]. }
  assert (Hfail : ∀ pos post, Forall quiet pos → ending (failure_report k) post →
    rollout_spec d revision k (item :: items)
      (before ++ FApply (apply_request (prepared_record item) credentials)
        (prepared_effective item) applied :: pos ++ post)).
  { intros pos post Hpos Hpost.
    apply spec_fail; [unfold before; quietly|unfold before; quietly|done|by apply ending_app]. }
  destruct applied as [[]|e].
  2: { eapply emits_mono; [apply failNode_ending|]. intros tr r. apply (Hfail []). constructor. }
  apply emits_bind_ok, emits_call. intros [[]|e]; [|apply (Hfail [_] []); [quietly|by apply ending_silent]].
  apply emits_bind, emits_call. intros at_.
  apply emits_bind_ok, emits_call. intros [[]|e];
    [|apply (Hfail [_; _; _] []); [quietly|by apply ending_silent]].
  apply emits_bind, emits_call. intros [s|e].
  2: { eapply emits_mono; [apply failNode_ending|]. intros tr r. apply (Hfail [_; _; _; _]). quietly. }
  destruct (Snapshot_Document s) as [observed|] eqn:Hs.
  2: { eapply emits_mono; [apply failNode_ending|]. intros tr r. apply (Hfail [_; _; _; _]). quietly. }
  destruct (null (managedDifferences _ _)) eqn:Hd; cbn [negb].
  2: { eapply emits_mono; [apply failNode_ending|]. intros tr r. apply (Hfail [_; _; _; _]). quietly. }
  apply emits_bind, emits_call. intros completed.
  apply emits_bind_ok, emits_call. intros [[]|e];
    [|apply (Hfail [_; _; _; _; _; _] []); [quietly|by apply ending_silent]].
  apply emits_bind_ok, emits_call. intros [[]|e];
    [|apply (Hfail [_; _; _; _; _; _; _] []); [quietly|by apply ending_silent]].
  eapply emits_mono; [apply IH|]. intros tr r H.
  apply (spec_next _ _ _ _ _ before _ [_; _; _; _; _; _; _]);
    [unfold before; quietly|unfold before; quietly|done|quietly|quietly| |exact H].
  exists s, observed. apply null_true in Hd. split_and!; [|done|done|];
    repeat (apply elem_of_cons; first [by left|right]).
Qed.

Lemma revalidated_weaken revision task l l' :
  revalidated revision task l → revalidated revision task (l ++ l').
Proof.
  intros (record & effective & s & observed & H). exists record, effective, s, observed.
  destruct_and!. split_and!; try done; by apply elem_of_app; left.
Qed.

Lemma prepared_from_weaken revision item l l' :
  prepared_from revision item l → prepared_from revision item (l ++ l').
Proof. intros [? ?]. split; [apply elem_of_app; by left|done]. Qed.

Lemma addressed_weaken_l item request l l' : addressed item request l' → addressed item request (l ++ l').
Proof. intros (c & ? & ?). exists c. split; [apply elem_of_app; by right|done]. Qed.

Lemma addressed_weaken_r item request l l' : addressed item request l → addressed item request (l ++ l').
Proof. intros (c & ? & ?). exists c. split; [apply elem_of_app; by left|done]. Qed.

(** What the nodes prepared so far satisfy, after the facts [pre]. *)
Definition prepared_by (revision : Revision) (pre : list fact) (prepared : list preparedNode) : Prop :=
  Forall quiet pre ∧ Forall (λ f, ¬ cancel_seen f) pre ∧
  Forall (λ item, revalidated revision (prepared_task item) pre ∧
    prepared_from revision item pre) prepared.

Definition refused (l : list fact) : Prop :=
  ending (λ d a, Deployment_Status d = "failed" ∧ a = false) l.

Lemma failBeforeMutation_refused pre d code cause : Forall quiet pre →
  emits (failBeforeMutation d code cause) (λ tr _, refused (pre ++ facts tr)).
Proof.
  intros Hpre. eapply emits_mono; [apply failBeforeMutation_ending|]. intros tr r. by apply ending_app.
Qed.

Lemma prepare_refines d revision next (Q : list fact → Prop) :
  (∀ l, refused l → Q l) →
  ∀ tasks pre prepared, prepared_by revision pre prepared →
  (∀ pre' prepared', prepared_by revision pre' prepared' →
     prepared_task <$> prepared' = (prepared_task <$> prepared) ++ tasks →
     (∀ f, f ∈ pre → f ∈ pre') →
     emits (next prepared') (λ tr _, Q (pre' ++ facts tr))) →
  emits (prepare d revision tasks prepared next) (λ tr _, Q (pre ++ facts tr)).
Proof.
  intros HQ. induction tasks as [|task tasks IH]; intros pre prepared (Hq & Hc & Hp) Hnext; cbn [prepare].
  { apply Hnext; [done|by rewrite app_nil_r|done]. }
  assert (Hrefuse : ∀ pos code cause, Forall quiet pos →
    emits (failBeforeMutation d code cause) (λ tr _, Q (pre ++ pos ++ facts tr))).
  { intros pos code cause Hpos. eapply emits_mono.
    - apply (failBeforeMutation_refused (pre ++ pos)). by apply Forall_app.
    - intros tr r H. apply HQ. by rewrite app_assoc. }
  apply emits_bind, emits_call. intros [record|e]; [|apply (Hrefuse [_]); quietly].
  destruct (mutable record) eqn:Hm; cbn [negb]; [|apply (Hrefuse [_]); quietly].
  destruct (IsLegacyConverted _) eqn:Hl; [apply (Hrefuse [_]); quietly|].
  destruct (Effective _ _) as [effective|e] eqn:He; [|apply (Hrefuse [_]); quietly].
  apply emits_bind, emits_call. intros snapshot.
  destruct (observed_document snapshot) as [observed|] eqn:Ho; [|apply (Hrefuse [_; _]); quietly].
  destruct (null (immutableNodeDifferences _ _)) eqn:Hi; cbn [negb];
    [|apply (Hrefuse [_; _]); quietly].
  destruct snapshot as [s|]; [|done]. cbn in Ho. apply null_true in Hi.
  apply andb_true_iff in Hm as [[Hen Hmm%negb_true_iff]%andb_true_iff Hcs%bool_decide_eq_true].
  set (item := mkPreparedNode task record effective).
  set (new := [FNode (DeploymentNode_NodeID task) (Ok record); FObserve (DeploymentNode_NodeID task) (Ok s)]).
  eapply emits_mono; [apply (IH (pre ++ new) (prepared ++ [item]))|].
  - unfold prepared_by. rewrite !Forall_app. split_and!; try done; [quietly|quietly| |].
    + eapply Forall_impl; [exact Hp|]. intros x [? ?].
      split; [by apply revalidated_weaken|by apply prepared_from_weaken].
    + constructor; [|done]. split.
      * exists record, effective, s, observed. unfold new. split_and!; try done; set_solver.
      * split; [|done]. cbn. unfold new. set_solver.
  - intros pre' prepared' Hp' Et Hincl. apply Hnext; [done| |].
    + rewrite Et, fmap_app, <- app_assoc. done.
    + intros f Hf. apply Hincl, elem_of_app. by left.
  - cbv beta. intros tr r H. by rewrite <- app_assoc in H.
Qed.

Lemma execute_refines id : emits (execute id) (λ tr _, execution id (facts tr)).
Proof.
  unfold execute. apply emits_bind_ok, emits_call.
  intros [d|e]; [|apply execution_stop, ending_silent; quietly].
  destruct (Deployment_CancelRequested d || _) eqn:Hcan.
  { eapply emits_mono; [apply cancel_ending|]. intros tr r H. apply execution_stop.
    apply (ending_app _ [_]); [quietly|]. eapply ending_mono; [|exact H]. cbn. tauto. }
  apply orb_false_iff in Hcan as [Hcan _].
  apply emits_bind, emits_call. intros [revision|e].
  2: { eapply emits_mono; [apply (failBeforeMutation_refused
         [FDeployment id (Ok d); FRevision (Deployment_RevisionID d) (Err e)]); quietly|].
       intros tr r H. apply execution_stop. eapply ending_mono; [|exact H]. cbn. tauto. }
  set (pre := [FDeployment id (Ok d); FRevision (Deployment_RevisionID d) (Ok revision)]).
  apply (prepare_refines d revision _ (execution id)) with (pre := pre).
  - intros l H. apply execution_stop. eapply ending_mono; [|exact H]. cbn. tauto.
  - split_and!; quietly. congruence.
  - intros pre' prepared (Hq & Hc & Hp) Et Hincl. cbn in Et.
    apply emits_bind_ok, emits_call. intros [[]|e].
    + eapply emits_mono; [apply rollout_refines|]. intros tr r H. cbn.
      change (pre' ++ ?x :: ?l) with (pre' ++ [x] ++ l). rewrite app_assoc.
      eapply execution_rollout with (d := d) (revision := revision) (prepared := prepared); [..|exact H].
      * apply Forall_app. split; [done|quietly].
      * apply elem_of_app. left. apply Hincl. unfold pre. set_solver.
      * apply elem_of_app. left. apply Hincl. unfold pre. set_solver.
      * apply elem_of_app. right. cbn. set_solver.
      * apply Forall_app. split; [done|quietly].
      * done.
      * eapply Forall_impl; [exact Hp|]. intros x [? ?].
        split; [by apply revalidated_weaken|by apply prepared_from_weaken].
    + apply execution_stop, ending_silent. apply Forall_app. split; [done|quietly].
Qed.

(** ** Guarantees of an execution *)

Definition is_apply (f : fact) : Prop := match f with FApply _ _ _ => True | _ => False end.
Definition is_finish (f : fact) : Prop := match f with FFinish _ _ _ => True | _ => False end.

(** A quiet start comes before the first event that is not. *)
Lemma quiet_prefix l1 l2 pre f post : Forall quiet l1 → ¬ quiet f → l1 ++ l2 = pre ++ f :: post →
  ∃ pre', pre = l1 ++ pre' ∧ l2 = pre' ++ f :: post.
Proof. apply Forall_prefix. Qed.

Lemma quiet_not_in f l : Forall quiet l → f ∈ l → quiet f.
Proof. rewrite Forall_forall. auto. Qed.

Lemma ending_no_apply P l f : ending P l → f ∈ l → ¬ is_apply f.
Proof.
  intros [l0 H0|l0 d a r H0 HP] Hin Hf.
  - apply (quiet_not_in _ _ H0) in Hin. by destruct f.
  - apply elem_of_app in Hin as [Hin|Hin]; [|apply list_elem_of_singleton in Hin as ->; done].
    apply (quiet_not_in _ _ H0) in Hin. by destruct f.
Qed.

Lemma apply_cut l1 g l2 pre request document x post :
  Forall quiet l1 → is_apply g → l1 ++ g :: l2 = pre ++ FApply request document x :: post →
  (pre = l1 ∧ g = FApply request document x ∧ l2 = post) ∨
  (∃ pre', pre = l1 ++ g :: pre' ∧ l2 = pre' ++ FApply request document x :: post).
Proof.
  intros Hq Hg (pre' & -> & E)%quiet_prefix; [|done|by intros []].
  destruct pre' as [|g' pre']; cbn in E; injection E as -> ->.
  - left. by rewrite app_nil_r.
  - right. by exists pre'.
Qed.

Lemma verified_weaken revision item l l' : verified revision item l → verified revision item (l ++ l').
Proof.
  intros (s & observed & ? & ? & ? & ?). exists s, observed. split_and!; try done; apply elem_of_app; auto.
Qed.

Lemma verified_app revision item l l' :
  verified revision item l ∨ verified revision item l' → verified revision item (l ++ l').
Proof.
  intros [H|(s & observed & ? & ? & ? & ?)]; [by apply verified_weaken|].
  exists s, observed. split_and!; try done; apply elem_of_app; auto.
Qed.

(** No cancellation is seen before an application. *)
Lemma rollout_before_apply d revision k items l : rollout_spec d revision k items l →
  ∀ pre request document x post, l = pre ++ FApply request document x :: post →
  Forall (λ f, ¬ cancel_seen f) pre.
Proof.
  induction 1 as [k items l Hl|k item items pre0 request r post0 Hq Hc Ha Hp
    |k item items pre0 request mid0 l Hq Hc Ha Hqm Hcm Hv Hl IH|k l Hl]; intros pre req doc x post E.
  - exfalso. eapply (ending_no_apply _ _ (FApply req doc x) Hl); [|done]. subst. set_solver.
  - apply apply_cut in E as [(-> & _ & ->)|(pre' & -> & ->)]; [done|exfalso|done|done].
    eapply (ending_no_apply _ _ (FApply req doc x) Hp); [|done]. set_solver.
  - apply apply_cut in E as [(-> & _ & E)|(pre' & -> & E)]; [done| |done|done].
    apply quiet_prefix in E as (pre'' & -> & E); [|done|by intros []].
    rewrite Forall_app, Forall_cons, Forall_app. split_and!; try done; [by intros []|]. by eapply IH.
  - exfalso. eapply (ending_no_apply _ _ (FApply req doc x) Hl); [|done]. subst. set_solver.
Qed.

(** An application is that of one of the nodes, to the address of this node. *)
Lemma rollout_apply_of d revision k items l : rollout_spec d revision k items l →
  ∀ pre request document x post, l = pre ++ FApply request document x :: post →
  ∃ i item, items !! i = Some item ∧ document = prepared_effective item ∧ addressed item request pre.
Proof.
  induction 1 as [k items l Hl|k item items pre0 request r post0 Hq Hc Ha Hp
    |k item items pre0 request mid0 l Hq Hc Ha Hqm Hcm Hv Hl IH|k l Hl]; intros pre req doc x post E.
  - exfalso. eapply (ending_no_apply _ _ (FApply req doc x) Hl); [|done]. subst. set_solver.
  - apply apply_cut in E as [(-> & Eg & ->)|(pre' & -> & ->)]; [|exfalso|done|done].
    + injection Eg as <- <- <-. by exists 0%nat, item.
    + eapply (ending_no_apply _ _ (FApply req doc x) Hp); [|done]. set_solver.
  - apply apply_cut in E as [(-> & Eg & E)|(pre' & -> & E)]; [| |done|done].
    + injection Eg as <- <- <-. by exists 0%nat, item.
    + apply quiet_prefix in E as (pre'' & -> & E); [|done|by intros []].
      destruct (IH _ _ _ _ _ E) as (i & z & ? & ? & ?). exists (S i), z. split_and!; [done..|].
      apply addressed_weaken_l. change (?f :: ?m ++ ?p) with ([f] ++ m ++ p).
      by apply addressed_weaken_l, addressed_weaken_l.
  - exfalso. eapply (ending_no_apply _ _ (FApply req doc x) Hl); [|done]. subst. set_solver.
Qed.

(** Two applications, in the order of the nodes: the first succeeded and was verified, and no
    cancellation was seen in between. *)
Lemma rollout_two_applies d revision k items l : rollout_spec d revision k items l →
  ∀ pre r1 d1 x1 mid r2 d2 x2 post,
  l = pre ++ FApply r1 d1 x1 :: mid ++ FApply r2 d2 x2 :: post →
  x1 = Ok tt ∧ Forall (λ f, ¬ cancel_seen f) mid ∧
  ∃ i j item1 item2, (i < j)%nat ∧ items !! i = Some item1 ∧ items !! j = Some item2 ∧
    d1 = prepared_effective item1 ∧ addressed item1 r1 pre ∧ verified revision item1 mid ∧
    d2 = prepared_effective item2 ∧ addressed item2 r2 mid.
Proof.
  induction 1 as [k items l Hl|k item items pre0 request r post0 Hq Hc Ha Hp
    |k item items pre0 request mid0 l Hq Hc Ha Hqm Hcm Hv Hl IH|k l Hl];
    intros pre r1 d1 x1 mid r2 d2 x2 post E.
  - exfalso. eapply (ending_no_apply _ _ (FApply r1 d1 x1) Hl); [|done]. subst. set_solver.
  - exfalso. apply apply_cut in E as [(-> & _ & ->)|(pre' & -> & ->)]; [| |done|done].
    + eapply (ending_no_apply _ _ (FApply r2 d2 x2) Hp); [|done]. set_solver.
    + eapply (ending_no_apply _ _ (FApply r2 d2 x2) Hp); [|done]. set_solver.
  - apply apply_cut in E as [(-> & Eg & E)|(pre' & -> & E)]; [| |done|done].
    + injection Eg as <- <- <-. apply quiet_prefix in E as (mid' & -> & E); [|done|by intros []].
      split; [done|]. split.
      * apply Forall_app. split; [done|]. clear -Hl E. by eapply rollout_before_apply.
      * destruct (rollout_apply_of _ _ _ _ _ Hl _ _ _ _ _ E) as (j & item2 & ? & ? & ?).
        exists 0%nat, (S j), item, item2. split_and!; try done; [lia|by apply verified_weaken|].
        by apply addressed_weaken_l.
    + apply quiet_prefix in E as (pre'' & -> & E); [|done|by intros []].
      destruct (IH _ _ _ _ _ _ _ _ _ E) as (? & ? & i & j & z1 & z2 & ? & ? & ? & ? & ? & ? & ? & ?).
      split; [done|]. split; [done|]. exists (S i), (S j), z1, z2. split_and!; try done; [lia|].
      apply addressed_weaken_l. change (?f :: ?m ++ ?p) with ([f] ++ m ++ p).
      by apply addressed_weaken_l, addressed_weaken_l.
  - exfalso. eapply (ending_no_apply _ _ (FApply r1 d1 x1) Hl); [|done]. subst. set_solver.
Qed.

(** The final report: the last event, of a terminal status. *)
Lemma ending_cut P l pre d activate x post : ending P l → l = pre ++ FFinish d activate x :: post →
  post = [] ∧ Forall quiet pre ∧ P d activate.
Proof.
  intros [l0 H0|l0 d0 a0 r0 H0 HP] E.
  - exfalso. subst. apply Forall_app in H0 as [_ H0]. by apply Forall_cons in H0 as [[] _].
  - apply quiet_prefix in E as (pre' & -> & E); [|done|by intros []].
    destruct pre' as [|f pre']; cbn in E; [|by destruct pre' as [|? [|? ?]]].
    injection E as <- <- _ <-. by rewrite app_nil_r.
Qed.

Lemma finish_cut l1 request document r l2 pre d activate x post :
  Forall quiet l1 → l1 ++ FApply request document r :: l2 = pre ++ FFinish d activate x :: post →
  ∃ pre', pre = l1 ++ FApply request document r :: pre' ∧ l2 = pre' ++ FFinish d activate x :: post.
Proof.
  intros Hq (pre' & -> & E)%quiet_prefix; [|done|by intros []].
  destruct pre' as [|g' pre']; cbn in E; [discriminate E|]. injection E as <- E. by exists pre'.
Qed.

Definition all_applied (revision : Revision) (items : list preparedNode) (l : list fact) : Prop :=
  ∀ item, item ∈ items → ∃ request, addressed item request l ∧
    FApply request (prepared_effective item) (Ok tt) ∈ l ∧ verified revision item l.

(** The report of a run whose deployment is [d], over [items]. *)
Definition report_of (d : Deployment) (revision : Revision) (items : list preparedNode)
  (d' : Deployment) (activate : bool) (l : list fact) : Prop :=
  terminal_status (Deployment_Status d') = true ∧
  (Deployment_Status d' = "succeeded" ∨ activate = true →
   Deployment_Status d' = "succeeded" ∧ activate = negb (Deployment_Origin d =?? "reconciliation") ∧
   Deployment_RevisionID d' = Deployment_RevisionID d ∧
   Deployment_ClusterID d' = Deployment_ClusterID d ∧ all_applied revision items l).

Lemma unsuccessful_report d revision items d' activate l :
  Deployment_Status d' ∈ ["cancelled"; "failed"; "partially_succeeded"] → activate = false →
  report_of d revision items d' activate l.
Proof.
  intros Hs ->. unfold report_of, terminal_status.
  split; [apply bool_decide_eq_true; set_solver|]. intros [E|E]; [|done]. rewrite E in Hs. set_solver.
Qed.

Lemma failure_report_status k d a : failure_report k d a →
  Deployment_Status d ∈ ["cancelled"; "failed"; "partially_succeeded"] ∧ a = false.
Proof. intros [-> ->]. destruct (0 <? _); split; (done || set_solver). Qed.

Lemma rollout_finish d revision k items l : rollout_spec d revision k items l →
  ∀ pre d' activate x post, l = pre ++ FFinish d' activate x :: post →
  post = [] ∧ Forall (λ f, ¬ is_finish f) pre ∧ report_of d revision items d' activate pre.
Proof.
  assert (Hqf : ∀ pre, Forall quiet pre → Forall (λ f, ¬ is_finish f) pre).
  { intros pre H. eapply Forall_impl; [exact H|]. by intros [] ? ?. }
  induction 1 as [k items l Hl|k item items pre0 request r post0 Hq Hc Ha Hp
    |k item items pre0 request mid0 l Hq Hc Ha Hqm Hcm Hv Hl IH|k l Hl];
    intros pre d' activate x post E.
  - apply (ending_cut _ _ _ _ _ _ _ Hl) in E as (-> & Hpre & [[Hs|Hs] Hact]);
      (split; [done|split; [auto|]]); apply unsuccessful_report; try done.
    + rewrite Hs. set_solver.
    + by apply failure_report_status in Hs as [? _].
  - apply finish_cut in E as (pre' & -> & E); [|done].
    apply (ending_cut _ _ _ _ _ _ _ Hp) in E as (-> & Hpre & [Hs Hact]%failure_report_status).
    split; [done|]. split; [|by apply unsuccessful_report].
    apply Forall_app. split; [auto|]. constructor; [by intros []|auto].
  - apply finish_cut in E as (pre' & -> & E); [|done].
    apply quiet_prefix in E as (pre'' & -> & E); [|done|by intros []].
    destruct (IH _ _ _ _ _ E) as (-> & Hpre & Ht & Hs). split; [done|]. split.
    { rewrite Forall_app, Forall_cons, Forall_app. split_and!; auto; by intros []. }
    split; [done|]. intros Hok. destruct (Hs Hok) as (? & ? & ? & ? & Hall). split_and!; try done.
    intros z [->|Hz]%elem_of_cons.
    + exists request. split; [by apply addressed_weaken_r|]. split; [set_solver|].
      apply verified_app. right. change (?f :: ?m ++ ?p) with ([f] ++ m ++ p).
      apply verified_app. right. by apply verified_weaken.
    + destruct (Hall z Hz) as (rq & ? & ? & ?). exists rq.
      split_and!; [|set_solver|]; change (?f :: ?m ++ ?p) with ([f] ++ m ++ p).
      * by do 3 apply addressed_weaken_l.
      * by do 3 (apply verified_app; right).
  - apply (ending_cut _ _ _ _ _ _ _ Hl) in E as (-> & Hpre & Hs & Hact & Hr & Hcl).
    split; [done|]. split; [auto|]. split; [by rewrite Hs|]. intros _. split_and!; try done.
    intros z Hz. set_solver.
Qed.

(** The documents sent to nodes, in order. *)
Definition applied (l : list fact) : list Document :=
  omap (λ f, match f with FApply _ document _ => Some document | _ => None end) l.

Lemma applied_quiet l : Forall quiet l → applied l = [].
Proof. induction 1 as [|f l Hf _ IH]; [done|]. unfold applied in *. cbn. by destruct f. Qed.

Lemma applied_app l l' : applied (l ++ l') = applied l ++ applied l'.
Proof. apply omap_app. Qed.

Lemma applied_cons request document r l : applied (FApply request document r :: l) = document :: applied l.
Proof. done. Qed.

Lemma ending_applied P l : ending P l → applied l = [].
Proof.
  intros [l0 H0|l0 d a r H0 _]; [by apply applied_quiet|]. by rewrite applied_app, applied_quiet.
Qed.

Lemma rollout_applied d revision k items l : rollout_spec d revision k items l →
  applied l `prefix_of` (prepared_effective <$> items).
Proof.
  induction 1 as [k items l Hl|k item items pre0 request r post0 Hq Hc Ha Hp
    |k item items pre0 request mid0 l Hq Hc Ha Hqm Hcm Hv Hl IH|k l Hl].
  - rewrite (ending_applied _ _ Hl). apply prefix_nil.
  - rewrite applied_app, applied_quiet, applied_cons, (ending_applied _ _ Hp) by done.
    apply prefix_cons, prefix_nil.
  - rewrite applied_app, applied_quiet, applied_cons, applied_app, (applied_quiet mid0) by done.
    by apply prefix_cons.
  - by rewrite (ending_applied _ _ Hl).
Qed.

(** ** The guarantees of [execute] *)

(** C1: every run of the executor, whatever the store, the node and the clock respond, is an execution
    of the abstract protocol: revalidation of all targets without a mutation, then node by node an
    application and its verification, then at most one report. *)
Theorem execute_refines_execution id : emits (execute id) (λ tr _, execution id (facts tr)).
Proof. exact (execute_refines id). Qed.

(** C2: a node is changed only after the deployment and its revision were read, every target of the
    deployment was found enabled, outside maintenance, supported, observable and without a listener
    change, and the deployment was set running. *)
Theorem execute_revalidates_first id : emits (execute id) (λ tr _,
  ∀ pre request document x post, facts tr = pre ++ FApply request document x :: post →
  ∃ d revision, FDeployment id (Ok d) ∈ pre ∧
    FRevision (Deployment_RevisionID d) (Ok revision) ∈ pre ∧
    FRunning (Deployment_ID d) (Ok tt) ∈ pre ∧
    ∀ task, task ∈ Deployment_Nodes d → revalidated revision task pre).
Proof.
  eapply emits_mono; [apply execute_refines|]. intros tr res Hx pre request document x post E.
  cbv beta in Hx. rewrite E in Hx. clear E tr. remember (pre ++ _) as l eqn:E.
  destruct Hx as [l Hl|d revision prepared pre0 l Hq Hd Hr Hrun Hc Et Hall Hl].
  - exfalso. eapply (ending_no_apply _ _ (FApply request document x) Hl); [|done]. subst. set_solver.
  - apply quiet_prefix in E as (pre' & -> & E); [|done|by intros []]. exists d, revision.
    split_and!; [set_solver..|]. intros task Hin. rewrite <- Et in Hin.
    apply list_elem_of_fmap in Hin as (item & -> & Hin). rewrite Forall_forall in Hall.
    by apply revalidated_weaken, Hall.
Qed.

(** C3: nodes change one at a time, in the order of the tasks: when a second configuration is applied,
    the first one had gone to the address, with the credentials, of the node of an earlier task of the
    deployment, and it was the effective configuration of this node; it had succeeded; a fresh
    observation of the same node had shown no managed difference from that configuration, and the
    node had been recorded as applied with this observation, all between the two applications; and no
    read of the deployment before had its cancellation requested.  So nothing is applied after a failed
    application or verification, or after a cancellation was seen. *)
Theorem execute_one_at_a_time id : emits (execute id) (λ tr _,
  ∀ pre r1 d1 x1 mid r2 d2 x2 post,
  facts tr = pre ++ FApply r1 d1 x1 :: mid ++ FApply r2 d2 x2 :: post →
  x1 = Ok tt ∧ Forall (λ f, ¬ cancel_seen f) (pre ++ mid) ∧
  ∃ d revision i j item1 item2,
    FDeployment id (Ok d) ∈ pre ∧ FRevision (Deployment_RevisionID d) (Ok revision) ∈ pre ∧
    (i < j)%nat ∧ Deployment_Nodes d !! i = Some (prepared_task item1) ∧
    Deployment_Nodes d !! j = Some (prepared_task item2) ∧
    prepared_from revision item1 pre ∧ prepared_from revision item2 pre ∧
    d1 = prepared_effective item1 ∧ addressed item1 r1 pre ∧ verified revision item1 mid ∧
    d2 = prepared_effective item2 ∧ addressed item2 r2 mid).
Proof.
  eapply emits_mono; [apply execute_refines|]. intros tr res Hx pre r1 d1 x1 mid r2 d2 x2 post E.
  cbv beta in Hx. rewrite E in Hx. clear E tr. remember (pre ++ _) as l eqn:E.
  destruct Hx as [l Hl|d revision prepared pre0 l Hq Hd Hr Hrun Hc Et Hall Hl].
  - exfalso. eapply (ending_no_apply _ _ (FApply r1 d1 x1) Hl); [|done]. subst. set_solver.
  - apply quiet_prefix in E as (pre' & -> & ->); [|done|by intros []].
    pose proof (rollout_before_apply _ _ _ _ _ Hl _ _ _ _ _ eq_refl) as Hc'.
    destruct (rollout_two_applies _ _ _ _ _ Hl _ _ _ _ _ _ _ _ _ eq_refl)
      as (? & ? & i & j & item1 & item2 & ? & H1 & H2 & ? & ? & ? & ? & ?).
    split; [done|]. split; [by rewrite !Forall_app|].
    exists d, revision, i, j, item1, item2. rewrite <- Et, !list_lookup_fmap, H1, H2.
    assert (Hfrom : ∀ n item, prepared !! n = Some item → prepared_from revision item (pre0 ++ pre')).
    { intros n item Hn%list_elem_of_lookup_2. rewrite Forall_forall in Hall.
      by apply prepared_from_weaken, Hall. }
    split_and!; eauto using addressed_weaken_l; apply elem_of_app; by left.
Qed.

(** C4: a run reports at most once and does nothing afterwards; the reported status is terminal; and a
    revision is activated, or a deployment reported as succeeded, only when the effective
    configuration of every task was applied and verified in this run.  A reconciliation never
    activates a revision. *)
Theorem execute_reports_truthfully id : emits (execute id) (λ tr _,
  ∀ pre d' activate x post, facts tr = pre ++ FFinish d' activate x :: post →
  post = [] ∧ Forall (λ f, ¬ is_finish f) pre ∧ terminal_status (Deployment_Status d') = true ∧
  (Deployment_Status d' = "succeeded" ∨ activate = true →
   ∃ d revision prepared, FDeployment id (Ok d) ∈ pre ∧
     FRevision (Deployment_RevisionID d) (Ok revision) ∈ pre ∧
     prepared_task <$> prepared = Deployment_Nodes d ∧ all_applied revision prepared pre ∧
     Forall (λ item, prepared_from revision item pre) prepared ∧
     activate = negb (Deployment_Origin d =?? "reconciliation") ∧
     Deployment_RevisionID d' = Deployment_RevisionID d ∧
     Deployment_ClusterID d' = Deployment_ClusterID d)).
Proof.
  eapply emits_mono; [apply execute_refines|]. intros tr res Hx pre d' activate x post E.
  cbv beta in Hx. rewrite E in Hx. clear E tr. remember (pre ++ _) as l eqn:E.
  destruct Hx as [l Hl|d revision prepared pre0 l Hq Hd Hr Hrun Hc Et Hall Hl].
  - apply (ending_cut _ _ _ _ _ _ _ Hl) in E as (-> & Hpre & [Hs Ha]). split; [done|].
    split; [eapply Forall_impl; [exact Hpre|]; by intros [] ? ?|].
    split; [unfold terminal_status; apply bool_decide_eq_true; set_solver|].
    intros [Hok| ->]; [rewrite Hok in Hs; set_solver|done].
  - apply quiet_prefix in E as (pre' & -> & E); [|done|by intros []].
    destruct (rollout_finish _ _ _ _ _ Hl _ _ _ _ _ E) as (-> & Hpre & Ht & Hs).
    split; [done|]. split.
    { apply Forall_app. split; [eapply Forall_impl; [exact Hq|]; by intros [] ? ?|done]. }
    split; [done|]. intros Hok. destruct (Hs Hok) as (? & ? & ? & ? & Happ).
    exists d, revision, prepared. split_and!; try done; [set_solver..| |].
    + intros item Hin. destruct (Happ item Hin) as (rq & ? & ? & ?). exists rq.
      split_and!; [by apply addressed_weaken_l|set_solver|apply verified_app; by right].
    + eapply Forall_impl; [exact Hall|]. intros item [_ ?]. by apply prepared_from_weaken.
Qed.

(** the configurations are applied in the order of the tasks, each at most once, and each is the
    effective configuration of its node in the deployed revision. *)
Theorem execute_applies_in_order id : emits (execute id) (λ tr _,
  applied (facts tr) ≠ [] →
  ∃ d revision documents, FDeployment id (Ok d) ∈ facts tr ∧
    FRevision (Deployment_RevisionID d) (Ok revision) ∈ facts tr ∧
    applied (facts tr) `prefix_of` documents ∧
    Ok <$> documents =
      (λ task, Effective (Revision_Document revision) (DeploymentNode_NodeID task)) <$> Deployment_Nodes d).
Proof.
  eapply emits_mono; [apply execute_refines|]. intros tr res Hx Hne.
  destruct Hx as [l Hl|d revision prepared pre0 l Hq Hd Hr Hrun Hc Et Hall Hl].
  - by rewrite (ending_applied _ _ Hl) in Hne.
  - exists d, revision, (prepared_effective <$> prepared). split_and!; [set_solver..| |].
    + rewrite applied_app, applied_quiet by done. by eapply rollout_applied.
    + rewrite <- Et, <- !list_fmap_compose. clear -Hall. induction Hall as [|item l [_ [_ H]] _ IH]; cbn; [done|].
      by rewrite IH, H.
Qed.
End specification.
