(* ===== verification/Reconciler.v ===== *)
(** * internal/controlplane/reconciler.go: drift detection and reconciliation

    One pass over the clusters with an active revision: every eligible node is
    observed and compared with its effective configuration, the drift is recorded or
    resolved, and under the policy [enforce] a deployment of the single node is
    started. *)

From S2P Require Import Prelude GoRuntime Json Domain Compat Net Configuration ConfigDiff.
From S2P Require Import ConfigValidate ControlModel Effects ControlEffects Preview ControlPlane.

Section reconciler.
Context {R : Runtime} {M : MapOrder} (s : Service).

(** [_ = f()] *)
Definition ignore {A} (p : control (res A)) : control (res unit) := do _ <- p; done_with tt.

Definition update_convergence (nodeID status : string) : control (res unit) :=
  do now <- call Now;
  call (Repo_UpdateNodeConvergence nodeID status now).

(* src/internal/controlplane/reconciler.go:112-122 Reconciler.evaluateNode *)
Definition drift_item (id : string) (cluster : Cluster) (revision : Revision) (nodeID desiredHash : string)
  (snapshot : Snapshot) (differences : list Difference) (now : Time) : DriftEvent :=
  mkDriftEvent id (Cluster_ID cluster) nodeID (Revision_ID revision) desiredHash (Snapshot_ID snapshot)
    (Snapshot_CanonicalHash snapshot)
    (DriftFingerprint (Revision_ID revision) desiredHash (Snapshot_CanonicalHash snapshot)) "open"
    (Cluster_ReconciliationPolicy cluster)
    (if Cluster_ReconciliationPolicy cluster =?? ReconciliationAlert then "alerted" else "pending")
    differences now now None "" None.

(* src/internal/controlplane/reconciler.go:127-140 Reconciler.evaluateNode *)
Definition enforce (cluster : Cluster) (revision : Revision) (nodeID : string) (stored : DriftEvent)
  : control (res unit) :=
  if negb (Cluster_ReconciliationPolicy cluster =?? ReconciliationEnforce) ||
     negb (DriftEvent_ReconciliationStatus stored =?? "pending")
  then done_with tt
  else
    do deployment <- StartReconciliation s (Cluster_ID cluster) (Revision_ID revision) nodeID;
    match deployment with
    | Err err =>
        do _ <- call (Repo_UpdateDriftReconciliation (DriftEvent_ID stored) "failed" None);
        fail err
    | Ok deployment =>
        call (Repo_UpdateDriftReconciliation (DriftEvent_ID stored) "enforcing"
                (Some (Deployment_ID deployment)))
    end.

(* src/internal/controlplane/reconciler.go:95-104 Reconciler.evaluateNode *)
Definition record_convergence (cluster : Cluster) (revision : Revision) (nodeID requestID : string)
  (now : Time) : control (res unit) :=
  try event <- systemAudit "drift.resolved" "node" nodeID requestID
    (JObj [("clusterId", JStr (Cluster_ID cluster)); ("revisionId", JStr (Revision_ID revision));
           ("resolution", JStr "observed_converged")]) now;
  try _ <- call (Repo_ResolveNodeDrift nodeID "observed_converged" now event);
  call (Repo_UpdateNodeConvergence nodeID "converged" now).

(* src/internal/controlplane/reconciler.go:105-140 Reconciler.evaluateNode *)
Definition record_drift (cluster : Cluster) (revision : Revision) (nodeID desiredHash : string)
  (snapshot : Snapshot) (differences : list Difference) (requestID : string) (now : Time)
  : control (res unit) :=
  try _ <- call (Repo_UpdateNodeConvergence nodeID "drifted" now);
  try id <- call GenerateID;
  let item := drift_item id cluster revision nodeID desiredHash snapshot differences now in
  try event <- systemAudit "drift.detected" "drift_event" id requestID
    (JObj [("clusterId", JStr (Cluster_ID cluster)); ("nodeId", JStr nodeID);
           ("revisionId", JStr (Revision_ID revision));
           ("policy", JStr (Cluster_ReconciliationPolicy cluster));
           ("differenceCount", JNum (Z.of_nat (length differences)))]) now;
  try stored <- call (Repo_UpsertDriftEvent item event);
  enforce cluster revision nodeID stored.1.

(* src/internal/controlplane/reconciler.go:74-140 Reconciler.evaluateNode *)
Definition evaluateNode (cluster : Cluster) (revision : Revision) (node : Node) : control (res unit) :=
  let nodeID := Node_ID node in
  match Effective (Revision_Document revision) nodeID with
  | Err err => fail err
  | Ok effective =>
      let '(_, desiredHash) := Marshal effective in
      do observation <- call (Observe nodeID);
      let unobserved result :=
        do _ <- update_convergence nodeID "observation_failed"; Ret result in
      match observation with
      | Err err => unobserved (Err err)
      | Ok snapshot =>
          match Snapshot_Document snapshot with
          | None => unobserved (Ok tt)
          | Some document =>
              let projected := ProjectDocument document (Revision_SchemaVersion revision) in
              let differences := managedDifferences effective projected in
              try requestID <- call GenerateID;
              do now <- call Now;
              if null differences then record_convergence cluster revision nodeID requestID now
              else record_drift cluster revision nodeID desiredHash snapshot differences requestID now
          end
      end
  end.

(** Failures of a node are logged and do not end the pass. *)
(* src/internal/controlplane/reconciler.go:54-69 Reconciler.RunOnce *)
Fixpoint reconcile_nodes (cluster : Cluster) (revision : Revision) (nodes : list Node)
  : control (res unit) :=
  match nodes with
  | [] => done_with tt
  | node :: nodes =>
      try _ <-
        (if negb (Node_Enabled node) then done_with tt
         else if Node_MaintenanceMode node then ignore (update_convergence (Node_ID node) "maintenance")
         else if negb (Node_CompatibilityStatus node =?? CompatibilitySupported) ||
                 IsLegacyConverted (DesiredDocument_Unsupported (Revision_Document revision))
         then ignore (update_convergence (Node_ID node) "unsupported")
         else ignore (evaluateNode cluster revision node));
      reconcile_nodes cluster revision nodes
  end.

(* src/internal/controlplane/reconciler.go:35-69 Reconciler.RunOnce *)
Definition reconcile_cluster (cluster : Cluster) : control (res unit) :=
  match Cluster_ActiveRevisionID cluster with
  | None => done_with tt
  | Some active =>
      try activeDeployment <- call (Repo_ClusterHasActiveDeployment (Cluster_ID cluster));
      if activeDeployment : bool then done_with tt
      else
        do revision <- call (Repo_RevisionByID active);
        match revision with
        | Err _ => done_with tt
        | Ok revision =>
            try nodes <- call (Repo_ListNodes (Cluster_ID cluster));
            reconcile_nodes cluster revision nodes
        end
  end.

Fixpoint reconcile_clusters (clusters : list Cluster) : control (res unit) :=
  match clusters with
  | [] => done_with tt
  | cluster :: clusters => try _ <- reconcile_cluster cluster; reconcile_clusters clusters
  end.

(* src/internal/controlplane/reconciler.go:29-72 Reconciler.RunOnce *)
Definition Reconciler_RunOnce : control (res unit) :=
  try clusters <- call Repo_ListClusters;
  reconcile_clusters clusters.
End reconciler.
