(* ===== verification/ServiceSpec.v ===== *)
(** * What the service and the reconciler promise

    A deployment is created only from a valid preview of a revision of the cluster, with
    one pending task per target; the reconciler creates one only for a node that
    drifted, under the policy [enforce], from an event that is still pending. *)

From S2P Require Import Prelude GoRuntime Json Domain Compat Net Configuration ConfigDiff.
From S2P Require Import ConfigValidate ControlModel Store StoreRecords StoreControl StoreInvariant.
From S2P Require Import StoreHistory Effects ControlEffects Preview ControlPlane Reconciler.

(** ** The facts of a run *)

Inductive service_fact : Type :=
| SClusters (r : res (list Cluster))
| SRevision (id : string) (r : res Revision)
| SNodes (clusterID : string) (r : res (list Node))
| SCatalogue (clusterID : string) (ids : slice string) (r : res (list ValidationIssue))
| SSnapshots (clusterID : string) (r : res (list Snapshot))
| SProfiles (clusterID : string) (r : res (list CapabilityProfile))
| SObserve (nodeID : string) (r : res Snapshot)
| SUpsert (item : DriftEvent) (r : res (DriftEvent * bool))
| SResolve (nodeID : string) (r : res bool)
| SReconciliation (id status : string) (deploymentID : option string) (r : res unit)
| SCreate (deployment : Deployment) (r : res unit)
| SPublish (draft : Draft) (revision : Revision) (expectedVersion : Z) (r : res Revision)
| SDraft (clusterID : string) (r : res Draft)
| SActive (clusterID : string) (r : res bool)
| SOther.

Definition service_fact_of (ev : event ctl) : service_fact :=
  match ev with
  | Event e x =>
      match e in ctl X return X → service_fact with
      | Repo_ListClusters => SClusters
      | Repo_RevisionByID id => SRevision id
      | Repo_ListNodes id => SNodes id
      | ValidateBlockedServiceIDs id ids => SCatalogue id ids
      | Repo_LatestSnapshots id => SSnapshots id
      | Repo_CapabilityProfiles id => SProfiles id
      | Observe id => SObserve id
      | Repo_UpsertDriftEvent item _ => SUpsert item
      | Repo_ResolveNodeDrift id _ _ _ => SResolve id
      | Repo_UpdateDriftReconciliation id status d => SReconciliation id status d
      | Repo_CreateDeployment d _ => SCreate d
      | Repo_PublishRevision d r v _ => SPublish d r v
      | Repo_DraftByCluster id => SDraft id
      | Repo_ClusterHasActiveDeployment id => SActive id
      | _ => λ _, SOther
      end x
  end.

Definition sfacts (tr : list (event ctl)) : list service_fact := service_fact_of <$> tr.

(** A call that writes control-plane records. *)
Definition writes (f : service_fact) : Prop :=
  match f with
  | SCreate _ _ | SPublish _ _ _ _ | SUpsert _ _ | SResolve _ _ | SReconciliation _ _ _ _ => True
  | _ => False
  end.

Definition readonly (l : list service_fact) : Prop := Forall (λ f, ¬ writes f) l.

Lemma sfacts_app tr tr' : sfacts (tr ++ tr') = sfacts tr ++ sfacts tr'.
Proof. apply fmap_app. Qed.

Lemma readonly_nil : readonly [].
Proof. constructor. Qed.

Lemma readonly_app l l' : readonly l → readonly l' → readonly (l ++ l').
Proof. intros. by apply Forall_app. Qed.

Lemma readonly_not_in f l : readonly l → f ∈ l → writes f → False.
Proof. unfold readonly. rewrite Forall_forall. intros H Hin. by apply H. Qed.

(** [reading] shows that a concatenation of pieces of a run writes nothing. *)
#[local] Ltac reading :=
  unfold readonly, sfacts in *; rewrite ?fmap_app; cbn;
  repeat first [rewrite Forall_app | rewrite Forall_cons]; cbn;
  repeat match goal with |- _ ∧ _ => split end;
  first [assumption | by constructor | tauto | idtac].


Section specification.
Context {R : Runtime} {M : MapOrder}.

(** ** The preview *)

(** The inputs of a preview are responses of the run. *)
Definition previewed (s : Service) (clusterID revisionID : string) (document : DesiredDocument)
  (selected : list string) (l : list service_fact) (p : Preview) : Prop :=
  ∃ nodes catalogueIssues snapshots profiles,
    SNodes clusterID (Ok nodes) ∈ l ∧ SSnapshots clusterID (Ok snapshots) ∈ l ∧
    SProfiles clusterID (Ok profiles) ∈ l ∧
    (blockedServiceValidator s = true → SchemaVersion <= DesiredDocument_SchemaVersion document →
     SCatalogue clusterID (Services_BlockedServiceIDs (Shared_Services (DesiredDocument_Shared document)))
       (Ok catalogueIssues) ∈ l) ∧
    p = preview_of revisionID document selected nodes catalogueIssues snapshots profiles.

Lemma previewed_weaken s clusterID revisionID document selected l l' l'' p :
  previewed s clusterID revisionID document selected l p →
  previewed s clusterID revisionID document selected (l'' ++ l ++ l') p.
Proof.
  intros (nodes & issues & snapshots & profiles & H1 & H2 & H3 & H4 & ->).
  exists nodes, issues, snapshots, profiles.
  assert (Hin : ∀ f, f ∈ l → f ∈ l'' ++ l ++ l') by (intros f Hf; rewrite !elem_of_app; auto).
  split_and!; auto.
Qed.

Lemma previewDocument_previews s clusterID revisionID document selected :
  emits (previewDocument (blockedServiceValidator s) clusterID revisionID document selected)
    (λ tr r, readonly (sfacts tr) ∧
       ∀ p, r = Ok p → previewed s clusterID revisionID document selected (sfacts tr) p).
Proof.
  unfold previewDocument.
  apply emits_bind_ok, emits_call. intros [nodes|e]; [|split; [reading|done]].
  apply emits_bind_ok.
  apply emits_mono with (λ tr r, readonly (sfacts tr) ∧ ∀ issues, r = Ok issues →
    (blockedServiceValidator s = true → SchemaVersion <= DesiredDocument_SchemaVersion document →
     SCatalogue clusterID (Services_BlockedServiceIDs (Shared_Services (DesiredDocument_Shared document)))
       (Ok issues) ∈ sfacts tr)).
  { destruct (SchemaVersion <=? _) eqn:Ev, (blockedServiceValidator s) eqn:Eb; cbn [andb].
    - apply emits_call. intros r. split; [reading|]. intros issues -> _ _. cbn. set_solver.
    - apply emits_Ret. split; [reading|]. done.
    - apply emits_Ret. split; [reading|]. intros issues _ _ Hle. apply Z.leb_gt in Ev. lia.
    - apply emits_Ret. split; [reading|]. done. }
  intros tr [issues|e] [Hr Hc]; [|split; [reading|done]].
  specialize (Hc issues eq_refl).
  apply emits_bind_ok, emits_call. intros [snapshots|e].
  2: { split; [|done]. rewrite !sfacts_app. reading. }
  apply emits_bind_ok, emits_call. intros [profiles|e].
  2: { split; [|done]. rewrite !sfacts_app. reading. }
  apply emits_Ret. split.
  - rewrite !sfacts_app. reading.
  - intros p [= <-]. exists nodes, issues, snapshots, profiles. rewrite !sfacts_app. cbn.
    split_and!; [set_solver..| |done]. intros H1 H2. specialize (Hc H1 H2). set_solver.
Qed.

(** ** Deployments *)

(** The task of a target. *)
Definition task_of (id : string) (target : PreviewNode) (t : DeploymentNode) : Prop :=
  DeploymentNode_DeploymentID t = id ∧ DeploymentNode_NodeID t = PreviewNode_NodeID target ∧
  DeploymentNode_Position t = PreviewNode_Position target ∧
  DeploymentNode_EffectiveHash t = PreviewNode_EffectiveHash target ∧
  DeploymentNode_Status t = "pending" ∧ DeploymentNode_AttemptCount t = 0.

Lemma create_tasks_spec id targets :
  emits (create_tasks id targets)
    (λ tr r, readonly (sfacts tr) ∧ ∀ tasks, r = Ok tasks → Forall2 (task_of id) targets tasks).
Proof.
  induction targets as [|target targets IH]; cbn [create_tasks].
  { apply emits_Ret. split; [reading|]. intros tasks [= <-]. constructor. }
  apply emits_bind_ok, emits_call. intros [taskID|e]; [|split; [reading|done]].
  apply emits_bind_ok. eapply emits_mono; [apply IH|]. intros tr [tasks|e] [Hr Ht];
    [|split; [reading|done]].
  apply emits_Ret. split; [reading|]. intros tasks' [= <-]. constructor; [done|auto].
Qed.

(** What was written: a deployment that meets the preview. *)
Definition planned (s : Service) (clusterID revisionID origin : string) (targetNodeIDs : list string)
  (l : list service_fact) (d : Deployment) : Prop :=
  ∃ revision preview,
    SRevision revisionID (Ok revision) ∈ l ∧ Revision_ClusterID revision = clusterID ∧
    previewed s clusterID revisionID (Revision_Document revision) targetNodeIDs l preview ∧
    Preview_Valid preview = true ∧ Preview_Nodes preview ≠ [] ∧
    Deployment_ClusterID d = clusterID ∧ Deployment_RevisionID d = revisionID ∧
    Deployment_Status d = "queued" ∧ Deployment_Origin d = origin ∧
    Forall2 (task_of (Deployment_ID d)) (Preview_Nodes preview) (Deployment_Nodes d).

(** The writes of a start: none, or one last creation. *)
Inductive starting (P : list service_fact → Deployment → Prop) : list service_fact → res Deployment → Prop :=
| starting_refused l e : readonly l → starting P l (Err e)
| starting_created l d r : readonly l → P l d →
    starting P (l ++ [SCreate d r]) (match r with Ok _ => Ok d | Err e => Err e end).

Lemma starting_app P Q l0 l r : readonly l0 → (∀ l d, P l d → Q (l0 ++ l) d) →
  starting P l r → starting Q (l0 ++ l) r.
Proof.
  intros Hl0 HPQ [l1 e H1|l1 d x H1 HP].
  - apply starting_refused. by apply readonly_app.
  - rewrite app_assoc. apply starting_created; [by apply readonly_app|auto].
Qed.

(** A step that writes nothing, before the rest of a start. *)
Lemma starting_bind_ok {A} (p : control (res A)) (k : A → control (res Deployment)) P :
  emits p (λ tr r, readonly (sfacts tr) ∧
    ∀ a, r = Ok a → emits (k a) (λ tr', starting (λ l d, P (sfacts tr ++ l) d) (sfacts tr'))) →
  emits (bind_ok p k) (λ tr, starting P (sfacts tr)).
Proof.
  intros Hp. apply emits_bind_ok. eapply emits_mono; [exact Hp|]. intros tr [a|e] [Hr Hk].
  - eapply emits_mono; [by apply Hk|]. intros tr' r H. rewrite sfacts_app.
    eapply starting_app; [done| |exact H]. auto.
  - by apply starting_refused.
Qed.

Lemma starting_guard (b : bool) e (k : unit → control (res Deployment)) P :
  (b = true → emits (k tt) (λ tr, starting P (sfacts tr))) →
  emits (bind_ok (guard b e) k) (λ tr, starting P (sfacts tr)).
Proof.
  intros Hk. unfold guard. destruct b; [by apply Hk|]. apply emits_Ret. by apply starting_refused, readonly_nil.
Qed.

Lemma starting_call {A} (e : ctl (res A)) (k : A → control (res Deployment)) P :
  (∀ x, ¬ writes (service_fact_of (Event e x))) →
  (∀ a, emits (k a) (λ tr, starting (λ l, P (service_fact_of (Event e (Ok a)) :: l)) (sfacts tr))) →
  emits (bind_ok (call e) k) (λ tr, starting P (sfacts tr)).
Proof.
  intros Hw Hk. apply emits_bind_ok, emits_call. intros [a|err].
  - eapply emits_mono; [apply Hk|]. intros tr r H. cbn.
    apply (starting_app _ P [service_fact_of (Event e (Ok a))]) in H; [done| |done].
    constructor; [apply Hw|constructor].
  - apply starting_refused. constructor; [apply Hw|constructor].
Qed.

Lemma starting_now (k : Time → control (res Deployment)) P :
  (∀ t, emits (k t) (λ tr, starting (λ l, P (SOther :: l)) (sfacts tr))) →
  emits (bind (call Now) k) (λ tr, starting P (sfacts tr)).
Proof.
  intros Hk. apply emits_bind, emits_call. intros t. eapply emits_mono; [apply Hk|].
  intros tr r H. by apply (starting_app _ P [SOther]) in H; [|reading|].
Qed.

Lemma userAudit_readonly actor action resourceType resourceID metadata at_ :
  emits (userAudit actor action resourceType resourceID metadata at_) (λ tr _, readonly (sfacts tr)).
Proof.
  unfold userAudit. destruct (_ || _); [by apply emits_Ret, readonly_nil|].
  apply emits_bind_ok, emits_call. intros [id|e]; [apply emits_Ret|]; reading.
Qed.

Lemma systemAudit_readonly action resourceType resourceID requestID metadata at_ :
  emits (systemAudit action resourceType resourceID requestID metadata at_) (λ tr _, readonly (sfacts tr)).
Proof.
  unfold systemAudit. apply emits_bind_ok, emits_call. intros [id|e]; [apply emits_Ret|]; reading.
Qed.

Lemma startDeployment_starts s actor clusterID revisionID origin rollbackOf targetNodeIDs :
  emits (startDeployment s actor clusterID revisionID origin rollbackOf targetNodeIDs)
    (λ tr, starting (planned s clusterID revisionID origin targetNodeIDs) (sfacts tr)).
Proof.
  unfold startDeployment. apply starting_guard. intros _. apply starting_guard. intros _.
  apply emits_assoc, starting_guard. intros _. apply starting_call; [auto|]. intros revision.
  apply starting_guard. intros Hc. apply bool_decide_eq_true in Hc.
  apply starting_bind_ok. eapply emits_mono; [apply previewDocument_previews|].
  intros tr r' [Hr Hp]. split; [done|]. intros preview ->. specialize (Hp preview eq_refl).
  apply starting_guard. intros [Hv Hn]%andb_true_iff. apply negb_true_iff in Hn.
  assert (Hne : Preview_Nodes preview ≠ []) by by destruct (Preview_Nodes preview).
  apply starting_call; [auto|]. intros id. apply starting_now. intros now.
  apply starting_call; [auto|]. intros generated.
  apply starting_bind_ok. eapply emits_mono; [apply create_tasks_spec|].
  intros tr2 rt [Hrt Ht]. split; [done|]. intros tasks ->. specialize (Ht tasks eq_refl).
  apply starting_bind_ok.
  eapply (emits_mono _ (λ tr _, readonly (sfacts tr))).
  { destruct actor; [apply userAudit_readonly|apply systemAudit_readonly]. }
  intros tr3 re Hre. split; [done|]. intros event ->.
  set (d := mkDeployment id _ _ _ _ _ _ _ _ _ _ _ _ _ _ _ _ _ _).
  apply emits_bind_ok, emits_call. intros x.
  match goal with |- context [starting ?P] => assert (HP : P [] d) end.
  { exists revision, preview. split_and!; try done; [cbn; set_solver|].
    eapply (previewed_weaken _ _ _ _ _ _ _ [SRevision revisionID (Ok revision)]) in Hp. exact Hp. }
  destruct x as [[]|e]; [apply emits_Ret, (starting_created _ [] _ (Ok tt))|
    apply (starting_created _ [] _ (Err e))]; reading.
Qed.

(** C7: a deployment is created only from a valid preview, taken in the same run, of a revision of the
    cluster; it has one pending task for every node of the preview, with its position and hash;
    the creation is the last call, and it decides the result. *)
Theorem startDeployment_only_valid s actor clusterID revisionID origin rollbackOf targetNodeIDs :
  emits (startDeployment s actor clusterID revisionID origin rollbackOf targetNodeIDs) (λ tr r,
    ∀ pre d x post, sfacts tr = pre ++ SCreate d x :: post →
    planned s clusterID revisionID origin targetNodeIDs pre d ∧ readonly pre ∧ post = [] ∧
    r = match x with Ok _ => Ok d | Err e => Err e end).
Proof.
  eapply emits_mono; [apply startDeployment_starts|]. intros tr r H pre d x post E. cbv beta in H.
  rewrite E in H. clear E tr. remember (pre ++ _) as l eqn:E.
  destruct H as [l e Hl|l d' x' Hl HP].
  - exfalso. eapply (readonly_not_in (SCreate d x)); [exact Hl| |done]. subst. set_solver.
  - apply app_snoc_cut in E as [(-> & [= -> ->] & ->)|[l' ->]]; [done|].
    exfalso. eapply (readonly_not_in (SCreate d x)); [exact Hl| |done]. set_solver.
Qed.

(** ** Reconciliation *)

Definition no_create (l : list service_fact) : Prop :=
  Forall (λ f, match f with SCreate _ _ => False | _ => True end) l.

(** Every creation in [l] satisfies [P] of what precedes it. *)
Definition creates (P : list service_fact → Deployment → Prop) (l : list service_fact) : Prop :=
  ∀ pre d x post, l = pre ++ SCreate d x :: post → P pre d.

Lemma no_create_creates P l : no_create l → creates P l.
Proof. intros Hl pre d x post ->. apply Forall_app in Hl as [_ Hl]. by apply Forall_cons in Hl as [[] _]. Qed.

Lemma creates_app P l0 l : no_create l0 → creates (λ pre, P (l0 ++ pre)) l → creates P (l0 ++ l).
Proof.
  intros H0 Hl pre d x post E. apply (Forall_prefix _ _ _ _ _ _ H0) in E as (pre' & -> & E); [|by intros []].
  by eapply Hl.
Qed.

Lemma creates_then P l l0 : no_create l0 → creates P l → creates P (l ++ l0).
Proof.
  intros H0 Hl. induction l0 as [|f l0 IH] using rev_ind; [by rewrite app_nil_r|].
  apply Forall_app in H0 as [H0 Hf]. rewrite app_assoc. intros pre d x post E.
  apply app_snoc_cut in E as [(-> & <- & ->)|[l' E]]; [by apply Forall_cons in Hf as [[] _]|].
  by eapply IH.
Qed.

Lemma creates_mono (P Q : list service_fact → Deployment → Prop) l :
  (∀ pre d, P pre d → Q pre d) → creates P l → creates Q l.
Proof. intros HPQ Hl pre d x post E. by eapply HPQ, Hl. Qed.

Lemma starting_creates P l r : starting P l r → creates P l.
Proof.
  intros [l0 e H0|l0 d r0 H0 HP].
  - apply no_create_creates. eapply Forall_impl; [exact H0|]. by intros [].
  - intros pre d' x post E. apply app_snoc_cut in E as [(-> & [= -> ->] & ->)|[l' ->]]; [done|].
    exfalso. eapply (readonly_not_in (SCreate d' x)); [exact H0| |done]. set_solver.
Qed.

(** Steps of the reconciler that create nothing. *)
Lemma quiet_bind_ok {A B} (p : control (res A)) (k : A → control (res B)) P :
  emits p (λ tr r, no_create (sfacts tr) ∧
    ∀ a, r = Ok a → emits (k a) (λ tr' _, creates (λ l, P (sfacts tr ++ l)) (sfacts tr'))) →
  emits (bind_ok p k) (λ tr _, creates P (sfacts tr)).
Proof.
  intros Hp. apply emits_bind_ok. eapply emits_mono; [exact Hp|]. intros tr [a|e] [Hr Hk].
  - eapply emits_mono; [by apply Hk|]. intros tr' r H. rewrite sfacts_app. by apply creates_app.
  - by apply no_create_creates.
Qed.

Lemma quiet_call {A B} (e : ctl (res A)) (k : A → control (res B)) P :
  (∀ x, no_create [service_fact_of (Event e x)]) →
  (∀ a, emits (k a) (λ tr _, creates (λ l, P (service_fact_of (Event e (Ok a)) :: l)) (sfacts tr))) →
  emits (bind_ok (call e) k) (λ tr _, creates P (sfacts tr)).
Proof.
  intros Hw Hk. apply quiet_bind_ok, emits_call. intros x. split; [apply Hw|]. intros a ->. apply Hk.
Qed.

Lemma quiet_bind {A B} (p : control A) (k : A → control B) P :
  emits p (λ tr a, no_create (sfacts tr) ∧
    emits (k a) (λ tr' _, creates (λ l, P (sfacts tr ++ l)) (sfacts tr'))) →
  emits (bind p k) (λ tr _, creates P (sfacts tr)).
Proof.
  intros Hp. apply emits_bind. eapply emits_mono; [exact Hp|]. intros tr a [Hr Hk].
  eapply emits_mono; [exact Hk|]. intros tr' r H. rewrite sfacts_app. by apply creates_app.
Qed.

Lemma quiet_last {A} (p : control A) P :
  emits p (λ tr _, no_create (sfacts tr)) → emits p (λ tr _, creates P (sfacts tr)).
Proof. intros Hp. eapply emits_mono; [exact Hp|]. intros tr a. apply no_create_creates. Qed.

(** [find_fact] walks to a fact of an explicit list. *)
#[local] Ltac find_fact := repeat (apply elem_of_cons; first [by left|right]).
#[local] Ltac quiet := apply quiet_last; unfold update_convergence; repeat emit_step; repeat constructor.

(** What the reconciler asks before it creates a deployment of a node. *)
Definition drift_enforced (s : Service) (cluster : Cluster) (revision : Revision) (nodeID : string)
  (l : list service_fact) (d : Deployment) : Prop :=
  Cluster_ReconciliationPolicy cluster = ReconciliationEnforce ∧
  (∃ effective snapshot observed, Effective (Revision_Document revision) nodeID = Ok effective ∧
     SObserve nodeID (Ok snapshot) ∈ l ∧ Snapshot_Document snapshot = Some observed ∧
     managedDifferences effective (ProjectDocument observed (Revision_SchemaVersion revision)) ≠ []) ∧
  (∃ item stored, SUpsert item (Ok stored) ∈ l ∧ DriftEvent_NodeID item = nodeID ∧
     DriftEvent_ReconciliationStatus stored.1 = "pending") ∧
  planned s (Cluster_ID cluster) (Revision_ID revision) "reconciliation" [nodeID] l d.

Lemma planned_cons s clusterID revisionID origin targets f l d :
  planned s clusterID revisionID origin targets l d → planned s clusterID revisionID origin targets (f :: l) d.
Proof.
  intros (revision & preview & Hr & Hc & Hp & H). exists revision, preview.
  split; [set_solver|]. split; [done|]. split; [|done].
  apply (previewed_weaken _ _ _ _ _ _ [] [f]) in Hp. by rewrite app_nil_r in Hp.
Qed.

Lemma enforce_creates s cluster revision nodeID stored :
  emits (enforce s cluster revision nodeID stored) (λ tr _, creates (λ l d,
    Cluster_ReconciliationPolicy cluster = ReconciliationEnforce ∧
    DriftEvent_ReconciliationStatus stored = "pending" ∧
    planned s (Cluster_ID cluster) (Revision_ID revision) "reconciliation" [nodeID] l d) (sfacts tr)).
Proof.
  unfold enforce. destruct (_ || _) eqn:Hp; [quiet|]. bool_simp.
  apply emits_bind. unfold StartReconciliation. eapply emits_mono; [apply startDeployment_starts|].
  intros tr r Hst%starting_creates.
  eapply (emits_mono _ (λ tr' _, no_create (sfacts tr'))).
  { destruct r; repeat emit_step; repeat constructor. }
  intros tr' r' H'. rewrite sfacts_app. apply creates_then; [done|].
  eapply creates_mono; [|exact Hst]. done.
Qed.

Lemma evaluateNode_creates s cluster revision node :
  emits (evaluateNode s cluster revision node)
    (λ tr _, creates (drift_enforced s cluster revision (Node_ID node)) (sfacts tr)).
Proof.
  unfold evaluateNode. destruct (Effective _ _) as [effective|e] eqn:He; [|quiet].
  cbn zeta. destruct (Marshal effective) as [body hash].
  apply quiet_bind, emits_call. intros [snapshot|e]; (split; [repeat constructor|]); [|quiet].
  destruct (Snapshot_Document snapshot) as [observed|] eqn:Ho; [|quiet].
  apply quiet_call; [repeat constructor|]. intros requestID.
  apply quiet_bind, emits_call. intros now. split; [repeat constructor|].
  destruct (null _) eqn:Hd; [unfold record_convergence, systemAudit; quiet|]. apply null_false in Hd. unfold record_drift.
  apply quiet_call; [repeat constructor|]. intros converged.
  apply quiet_call; [repeat constructor|]. intros id.
  apply quiet_bind_ok. unfold systemAudit. apply emits_bind_ok, emits_call.
  intros [eventID|e]; [apply emits_Ret|]; (split; [repeat constructor|]); [|done]. intros event _.
  apply quiet_call; [repeat constructor|]. intros stored.
  eapply emits_mono; [apply enforce_creates|]. intros tr r. apply creates_mono.
  intros pre d (Hpol & Hst & Hpl). split; [done|]. cbn. split; [|split].
  - exists effective, snapshot, observed. split_and!; try done. find_fact.
  - eexists (drift_item id cluster revision (Node_ID node) hash snapshot _ now), stored.
    split; [|done]. find_fact.
  - by repeat apply planned_cons.
Qed.

(** C9: the reconciler creates a deployment only for a node it has just observed to differ from its
    effective configuration, only under the policy [enforce] and from a drift event that is still
    pending; the deployment is a reconciliation of this node alone, of the active revision, and comes
    from a valid preview. *)
Theorem evaluateNode_enforces_drift s cluster revision node :
  emits (evaluateNode s cluster revision node) (λ tr _,
    ∀ pre d x post, sfacts tr = pre ++ SCreate d x :: post →
    drift_enforced s cluster revision (Node_ID node) pre d).
Proof. exact (evaluateNode_creates s cluster revision node). Qed.

(** ** A pass over the clusters *)

Lemma drift_enforced_weaken s cluster revision nodeID l0 l d :
  drift_enforced s cluster revision nodeID l d → drift_enforced s cluster revision nodeID (l0 ++ l) d.
Proof.
  intros (Hp & (effective & snapshot & observed & ? & ? & ? & ?) & (item & stored & ? & ? & ?) & Hpl).
  split; [done|]. split; [|split].
  - exists effective, snapshot, observed. split_and!; try done. by apply elem_of_app; right.
  - exists item, stored. split_and!; try done. by apply elem_of_app; right.
  - clear -Hpl. induction l0 as [|f l0 IH]; [done|]. by apply planned_cons.
Qed.

(** A node the reconciler evaluates: enabled, outside maintenance and supported, under a revision whose
    configuration was not converted from the legacy schema. *)
Definition eligible (revision : Revision) (node : Node) : Prop :=
  Node_Enabled node = true ∧ Node_MaintenanceMode node = false ∧
  Node_CompatibilityStatus node = CompatibilitySupported ∧
  IsLegacyConverted (DesiredDocument_Unsupported (Revision_Document revision)) = false.

(** A creation of the pass, in one of [clusters]: for an eligible node that the store listed for the
    cluster, under its active revision. *)
Definition pass_creates (s : Service) (clusters : list Cluster) (l : list service_fact) (d : Deployment) : Prop :=
  ∃ cluster active revision nodes node, cluster ∈ clusters ∧ Cluster_ActiveRevisionID cluster = Some active ∧
    SActive (Cluster_ID cluster) (Ok false) ∈ l ∧ SRevision active (Ok revision) ∈ l ∧
    SNodes (Cluster_ID cluster) (Ok nodes) ∈ l ∧ node ∈ nodes ∧ eligible revision node ∧
    drift_enforced s cluster revision (Node_ID node) l d.

Lemma pass_creates_weaken s clusters clusters' l0 l d : clusters ⊆ clusters' →
  pass_creates s clusters l d → pass_creates s clusters' (l0 ++ l) d.
Proof.
  intros Hsub (cluster & active & revision & nodes & node & ? & ? & ? & ? & ? & ? & ? & ?).
  exists cluster, active, revision, nodes, node. split_and!; try done; [by apply Hsub|..].
  1-3: by apply elem_of_app; right.
  by apply drift_enforced_weaken.
Qed.

(** Two parts of a pass, each of which creates only what satisfies [P]. *)
Lemma creates_seq {A} (p : control (res A)) (k : A → control (res unit)) P :
  (∀ l0 l d, P l d → P (l0 ++ l) d) →
  emits p (λ tr _, creates P (sfacts tr)) → (∀ a, emits (k a) (λ tr _, creates P (sfacts tr))) →
  emits (bind_ok p k) (λ tr _, creates P (sfacts tr)).
Proof.
  intros Hw Hp Hk. apply emits_bind_ok. eapply emits_mono; [exact Hp|]. intros tr [a|e] Htr; [|done].
  eapply emits_mono; [apply Hk|]. intros tr' r Htr' pre d x post. rewrite sfacts_app. intros E.
  clear Hp Hk. revert pre E. induction (sfacts tr) as [|f l IH] using rev_ind; intros pre E.
  { by eapply Htr'. }
  rewrite <- app_assoc in E. cbn in E.
  assert (Hcut : (∃ post', l ++ [f] = pre ++ SCreate d x :: post') ∨
                 (∃ pre', pre = (l ++ [f]) ++ pre' ∧ sfacts tr' = pre' ++ SCreate d x :: post)).
  { change (f :: sfacts tr') with ([f] ++ sfacts tr') in E. rewrite app_assoc in E.
    apply app_eq_inv in E as [(k0 & E1 & E2)|(k0 & E1 & E2)].
    - destruct k0 as [|g k0]; cbn in E2.
      + right. exists []. rewrite app_nil_r in *. by rewrite E1, <- E2.
      + injection E2 as <- _. left. by exists k0.
    - right. by exists k0. }
  destruct Hcut as [[post' E']|(pre' & -> & E')]; [by eapply Htr|]. by apply Hw, (Htr' _ _ _ _ E').
Qed.

Lemma reconcile_nodes_creates s cluster revision nodes :
  emits (reconcile_nodes s cluster revision nodes)
    (λ tr _, creates (λ l d, ∃ node, node ∈ nodes ∧ eligible revision node ∧
                             drift_enforced s cluster revision (Node_ID node) l d) (sfacts tr)).
Proof.
  induction nodes as [|node nodes IH]; cbn [reconcile_nodes]; [quiet|].
  apply creates_seq; [|unfold ignore|].
  { intros l0 l d (z & ? & ? & H). exists z. split_and!; [done..|]. by apply drift_enforced_weaken. }
  - destruct (Node_Enabled node) eqn:He; cbn [negb]; [|quiet].
    destruct (Node_MaintenanceMode node) eqn:Hm; [quiet|].
    destruct (_ || _) eqn:Hs; [quiet|]. bool_simp.
    apply emits_bind. eapply emits_mono; [apply evaluateNode_creates|]. intros tr r Hcr. apply emits_Ret.
    rewrite app_nil_r. eapply creates_mono; [|exact Hcr]. intros pre d Hd. exists node.
    split; [set_solver|done].
  - intros _. eapply emits_mono; [exact IH|]. intros tr r. apply creates_mono.
    intros pre d (z & ? & ?). exists z. split; [set_solver|done].
Qed.

Lemma reconcile_cluster_creates s cluster :
  emits (reconcile_cluster s cluster) (λ tr _, creates (pass_creates s [cluster]) (sfacts tr)).
Proof.
  unfold reconcile_cluster. destruct (Cluster_ActiveRevisionID cluster) as [active|] eqn:Ha; [|quiet].
  apply quiet_call; [repeat constructor|]. intros []; [quiet|].
  apply quiet_bind, emits_call. intros [revision|e]; (split; [repeat constructor|]); [|quiet].
  apply quiet_call; [repeat constructor|]. intros nodes.
  eapply emits_mono; [apply reconcile_nodes_creates|]. intros tr r. apply creates_mono.
  intros pre d (node & Hn & He & Hd). exists cluster, active, revision, nodes, node.
  split_and!; try done; [set_solver|cbn; find_fact..|].
  by apply (drift_enforced_weaken _ _ _ _ [_; _; _]).
Qed.

(** C8: in a pass of the reconciler a deployment is created only in a cluster of the list that the
    store returned in this pass, which names an active revision and had no active deployment when it
    was looked at; only for a node the store listed for this cluster, enabled, outside maintenance and
    supported; only when the drift of this node from the active revision was observed in the pass; and
    only under the policy [enforce] of this cluster. *)
Theorem reconciler_pass_safe s : emits (Reconciler_RunOnce s) (λ tr _,
  ∀ pre d x post, sfacts tr = pre ++ SCreate d x :: post →
  ∃ clusters, SClusters (Ok clusters) ∈ pre ∧ pass_creates s clusters pre d).
Proof.
  change (emits (Reconciler_RunOnce s) (λ tr _,
    creates (λ l d, ∃ clusters, SClusters (Ok clusters) ∈ l ∧ pass_creates s clusters l d) (sfacts tr))).
  unfold Reconciler_RunOnce. apply quiet_call; [repeat constructor|]. intros clusters.
  eapply (emits_mono _ (λ tr _, creates (pass_creates s clusters) (sfacts tr))).
  2: { intros tr r. apply creates_mono. intros pre d H. exists clusters. split; [by left|].
       by eapply (pass_creates_weaken _ _ _ [_]). }
  induction clusters as [|cluster clusters IH]; cbn [reconcile_clusters]; [quiet|].
  apply creates_seq.
  - intros l0 l d. by apply pass_creates_weaken.
  - eapply emits_mono; [apply reconcile_cluster_creates|]. intros tr r. apply creates_mono.
    intros pre d. apply (pass_creates_weaken _ _ _ []). set_solver.
  - intros _. eapply emits_mono; [apply IH|]. intros tr r. apply creates_mono.
    intros pre d. apply (pass_creates_weaken _ _ _ []). set_solver.
Qed.

(** ** Publication *)

(** Every write in [l] satisfies [P] of what precedes it. *)
Definition at_write (P : list service_fact → service_fact → Prop) (l : list service_fact) : Prop :=
  ∀ pre f post, l = pre ++ f :: post → writes f → P pre f.

Lemma readonly_at_write P l : readonly l → at_write P l.
Proof. intros Hl pre f post -> Hf. exfalso. eapply (readonly_not_in f); [exact Hl| |exact Hf]. set_solver. Qed.

Lemma at_write_app P l0 l : readonly l0 → at_write (λ pre, P (l0 ++ pre)) l → at_write P (l0 ++ l).
Proof.
  intros H0 Hl pre f post E Hf. apply (Forall_prefix _ _ _ _ _ _ H0) in E as (pre' & -> & E); [|tauto].
  by eapply Hl.
Qed.

Lemma write_bind_ok {A B} (p : control (res A)) (k : A → control (res B)) P :
  emits p (λ tr r, readonly (sfacts tr) ∧
    ∀ a, r = Ok a → emits (k a) (λ tr' _, at_write (λ l, P (sfacts tr ++ l)) (sfacts tr'))) →
  emits (bind_ok p k) (λ tr _, at_write P (sfacts tr)).
Proof.
  intros Hp. apply emits_bind_ok. eapply emits_mono; [exact Hp|]. intros tr [a|e] [Hr Hk].
  - eapply emits_mono; [by apply Hk|]. intros tr' r H. rewrite sfacts_app. by apply at_write_app.
  - by apply readonly_at_write.
Qed.

Lemma write_call {A B} (e : ctl (res A)) (k : A → control (res B)) P :
  (∀ x, ¬ writes (service_fact_of (Event e x))) →
  (∀ a, emits (k a) (λ tr _, at_write (λ l, P (service_fact_of (Event e (Ok a)) :: l)) (sfacts tr))) →
  emits (bind_ok (call e) k) (λ tr _, at_write P (sfacts tr)).
Proof.
  intros Hw Hk. apply write_bind_ok, emits_call. intros x. split; [by repeat constructor|]. intros a ->. apply Hk.
Qed.

Lemma write_guard {B} (b : bool) e (k : unit → control (res B)) P :
  (b = true → emits (k tt) (λ tr _, at_write P (sfacts tr))) →
  emits (bind_ok (guard b e) k) (λ tr _, at_write P (sfacts tr)).
Proof.
  intros Hk. unfold guard. destruct b; [by apply Hk|]. apply emits_Ret. apply readonly_at_write, readonly_nil.
Qed.

(** C10: what is published is the canonical form of a draft that was read at the expected version, has
    schema 2, and whose preview, taken in the same run for the whole cluster, is valid; it carries the
    hash of that document and a summary of 1 to 500 bytes. *)
Theorem Publish_only_valid s actor clusterID summary expectedVersion :
  emits (Publish s actor clusterID summary expectedVersion) (λ tr _,
    ∀ pre f post, sfacts tr = pre ++ f :: post → writes f →
    ∃ draft revision x preview, f = SPublish draft revision expectedVersion x ∧
      SDraft clusterID (Ok draft) ∈ pre ∧ Draft_Version draft = expectedVersion ∧
      DesiredDocument_SchemaVersion (Draft_Document draft) = SchemaVersion ∧
      previewed s clusterID "" (Draft_Document draft) [] pre preview ∧ Preview_Valid preview = true ∧
      Revision_ClusterID revision = clusterID ∧
      Revision_Document revision = CanonicaliseDesired (Draft_Document draft) ∧
      Revision_CanonicalHash revision = (MarshalDesired (Draft_Document draft)).2 ∧
      1 <= len (Revision_Summary revision) <= 500).
Proof.
  match goal with |- emits _ (λ tr _, ∀ pre f post, _ → _ → @?P pre f) =>
    change (emits (Publish s actor clusterID summary expectedVersion) (λ tr _, at_write P (sfacts tr))) end.
  unfold Publish. apply write_guard. intros _. cbn zeta. apply write_guard. intros Hlen.
  apply write_call; [auto|]. intros draft. apply write_guard. intros Hv. apply write_guard. intros Hs.
  apply write_bind_ok. eapply emits_mono; [apply previewDocument_previews|].
  intros tr r [Hr Hp]. split; [done|]. intros preview ->. specialize (Hp preview eq_refl).
  apply write_guard. intros Hvalid. apply write_call; [auto|]. intros id.
  destruct (MarshalDesired (Draft_Document draft)) as [body hash] eqn:Hm.
  apply emits_bind, emits_call. intros now.
  eapply emits_mono; [|intros tr1 r1 H1; rewrite sfacts_app; apply at_write_app; [reading|exact H1]].
  apply write_bind_ok. eapply emits_mono; [apply userAudit_readonly|].
  intros tr2 r2 Hr2. split; [done|]. intros event _.
  apply emits_call. intros x pre f post E Hf. destruct pre as [|? [|? ?]]; [|done..].
  cbn in E. injection E as <- <-. bool_simp.
  eexists draft, _, x, preview. split; [reflexivity|].
  cbn [Revision_ClusterID Revision_Document Revision_CanonicalHash Revision_Summary app sfacts fmap
    list_fmap service_fact_of].
  split_and!; try done; try lia; [find_fact| |by rewrite Hm].
  eapply (previewed_weaken _ _ _ _ _ _ _ [SDraft clusterID (Ok draft)]) in Hp. exact Hp.
Qed.

(** ** A drift whose deployment was interrupted *)

Lemma find_same_open_drift item db e k : WellFormed db → drift_events db !! k = Some e →
  same_open_drift item e = true → List.find (same_open_drift item) (rows (drift_events db)) = Some e.
Proof.
  intros Hwf Hk He. destruct (List.find _ _) as [e'|] eqn:Hf.
  - apply find_some in Hf as [Hin He']. apply list_elem_of_In, elem_of_rows in Hin as [k' Hk'].
    unfold same_open_drift in He, He'. bool_simp.
    assert (k = k') as <-; [|congruence].
    eapply (wf_one_open _ Hwf k k' e e'); eauto; unfold is_open, drift_key; congruence.
  - assert (Hin : In e (rows (drift_events db))) by (apply list_elem_of_In, elem_of_rows; eauto).
    apply (find_none _ _ Hf) in Hin. congruence.
Qed.

(** a restart of the controller interrupts the deployment that enforces a drift but leaves the drift
    event marked as being enforced: when the same drift is found again the event keeps this mark and
    the reconciler does not start another deployment. *)
Theorem interrupted_drift_not_retried s t ids db db1 k e item event stored created db2 cluster revision nodeID :
  WellFormed db → drift_events db !! k = Some e → same_open_drift item e = true →
  DriftEvent_ReconciliationStatus e = "enforcing" →
  commit (InterruptDeployments t ids) db = (Ok tt, db1) →
  commit (UpsertDriftEvent item event) db1 = (Ok (stored, created), db2) →
  created = false ∧ DriftEvent_ReconciliationStatus stored = "enforcing" ∧
  enforce s cluster revision nodeID stored = done_with tt.
Proof.
  intros Hwf Hk He Hst H1 H2.
  assert (Hwf1 : WellFormed db1).
  { pose proof (commit_preserves _ db (InterruptDeployments_preserves t ids) Hwf) as Hw. by rewrite H1 in Hw. }
  assert (Hd : drift_events db1 = drift_events db).
  { apply commit_Ok in H1. unfold InterruptDeployments in H1.
    apply tx_bind_Ok in H1 as (? & ? & [-> ->]%tx_get_Ok & H1). cbv zeta in H1.
    apply tx_bind_Ok in H1 as (? & ? & ->%tx_modify_Ok & H1).
    apply tx_bind_Ok in H1 as (? & ? & ->%tx_modify_Ok & H1).
    apply tx_bind_Ok in H1 as (? & ? & ->%tx_modify_Ok & [l ->]%audit_interrupted_Ok). done. }
  rewrite <- Hd in Hk. apply commit_Ok in H2. unfold UpsertDriftEvent in H2.
  apply tx_bind_Ok in H2 as (? & ? & [-> ->]%tx_get_Ok & H2).
  rewrite (find_same_open_drift item db1 e k) in H2 by done. cbv zeta in H2.
  apply tx_bind_Ok in H2 as (? & ? & _ & H2).
  apply tx_bind_Ok in H2 as (? & ? & _ & [[= -> ->] _]%tx_ret_Ok).
  split; [done|]. unfold enforce, seen_again. cbn. rewrite Hst. cbn. by rewrite orb_true_r.
Qed.
End specification.
