(* ===== verification/ControlWitness.v ===== *)
(** * A simulated fleet, and the control plane run on it

    A world of two nodes, with the store as the repository, in which the programs of
    the control plane run: a draft is published, deployed, applied, and enforced again
    after a change of a node.  The theorems on runs are applied to these runs. *)

From S2P Require Import Prelude GoRuntime Json Domain Compat Configuration ConfigDiff Net ConfigValidate.
From S2P Require Import AuditMetadata ControlModel Store StoreRecords StoreControl StoreInvariant StoreHistory.
From S2P Require Import Effects ControlEffects Preview ControlPlane Executor ExecutorSpec Reconciler.
From S2P Require Import ServiceSpec.

#[local] Existing Instance ascii_runtime.
#[local] Existing Instance key_order.
#[local] Existing Instance c_collation.

(** ** The world *)

Record World := mkWorld {
  w_db : DB;
  (* the next instant, and the next identifier *)
  w_now : Time;
  (* the configuration of each node, by base URL *)
  w_nodes : gmap string Document;
  (* the base URLs of the nodes that refuse a configuration *)
  w_broken : list string
}.

Definition tick (w : World) : World := mkWorld (w_db w) (w_now w + 1) (w_nodes w) (w_broken w).
Definition with_db (db : DB) (w : World) : World := mkWorld db (w_now w) (w_nodes w) (w_broken w).

Definition fresh_id (w : World) : res string :=
  NewID (Some (replicate 14 0 ++ [Z.shiftr (w_now w) 8; Z.land (w_now w) 255])).

Definition fleet_features : gmap string bool :=
  list_to_map ((λ f, (f, true)) <$> ["dns"; "filtering"; "clients"; "rewrites"; "blocked_services";
    "safety"; "query_log"; "statistics"; "tls"; "dhcp"; "upstream_timeout"]).

Definition fleet_profile (id : string) : CapabilityProfile :=
  mkCapabilityProfile id "v0.107.78" "supported" 2 fleet_features [] 0.

Definition observation (snapshotID nodeID : string) (at_ : Time) (document : Document) : Snapshot :=
  mkSnapshot snapshotID nodeID at_ 2 (Some document) (Marshal document).2 "v0.107.78" "succeeded" "".

(** A node is read, and its observation is stored. *)
Definition observe (id : string) (w : World) : res Snapshot * World :=
  match fresh_id w, NodeByID id (w_db w) with
  | Ok snapshotID, Ok node =>
      match w_nodes w !! Node_BaseURL node with
      | Some document =>
          let s := observation snapshotID id (w_now w) document in
          (Ok s, tick (with_db (run_history [OpSaveObservation s (fleet_profile id)] (w_db w)) w))
      | None => (Err (NewError ErrorNodeUnreachable "the node is unreachable"), tick w)
      end
  | _, _ => (Err (not_found "node"), tick w)
  end.

Definition apply (request : NodeProbeRequest) (document : Document) (w : World) : res unit * World :=
  let url := Request_BaseURL request in
  if bool_decide (url ∈ w_broken w) then (Err (NewError ErrorNodeApply "the node refused the change"), w)
  else (Ok tt, mkWorld (w_db w) (w_now w) (<[url := document]> (w_nodes w)) (w_broken w)).

Definition unavailable {X} (e : ctl X) : X :=
  match e in ctl X return X with Now => 0 | _ => Err (TextError "unavailable") end.

Definition handle (X : Type) (e : ctl X) (w : World) : X * World :=
  match e in ctl X return X * World with
  | Now => (w_now w, tick w)
  | GenerateID => (fresh_id w, tick w)
  | Observe id => observe id w
  | ApplyConfiguration request document => apply request document w
  | Decrypt _ _ => (Ok (mkNodeCredentials "admin" "secret"), w)
  | ValidateBlockedServiceIDs _ _ => (Ok [], w)
  | ProbeStatus request =>
      (if bool_decide (Request_BaseURL request ∈ w_broken w)
       then Err (NewError ErrorNodeUnreachable "the node is unreachable")
       else Ok (mkNodeProbeResult "v0.107.78" CompatibilitySupported true true 0 7), w)
  | Encrypt id _ => (Ok (mkEncryptedCredentials id "nonce" 1 "AES-256-GCM"), w)
  | e' => match repository [fresh_id w] e' with
          | Some f => let '(x, db) := f (w_db w) in (x, with_db db (tick w))
          | None => (unavailable e', w)
          end
  end.

(** The result, the world and the trace of a program. *)
Definition result {A} (p : control A) (w : World) : A := (interp handle p w).1.1.
Definition after {A} (p : control A) (w : World) : World := (interp handle p w).1.2.
Definition trace {A} (p : control A) (w : World) : list (event ctl) := (interp handle p w).2.

Lemma trace_traces {A} (p : control A) w : traces p (trace p w) (result p w).
Proof.
  unfold trace, result. destruct (interp handle p w) as [[a w'] tr] eqn:E. by eapply interp_traces.
Qed.

Lemma handle_store_backed : store_backed w_db handle.
Proof.
  intros X e w. destruct e; try (exists [], [fresh_id w]; cbn; by destruct (commit _ _)).
  all: try (exists [], [fresh_id w]; reflexivity).
  - change (handle _ (Observe nodeID) w) with (observe nodeID w). unfold observe.
    destruct (fresh_id w) as [id|], (NodeByID nodeID (w_db w)) as [node|]; try (by exists [], []).
    destruct (w_nodes w !! _) as [document|]; [|by exists [], []].
    by exists [OpSaveObservation (observation id nodeID (w_now w) document) (fleet_profile nodeID)], [].
  - exists [], []. cbn. unfold apply. by case_bool_decide.
Qed.

(** ** The fleet *)

Definition uid (n : string) : string := "00000000-0000-4000-8000-0000000000" +:+ n.

Definition fleet_node (id name url : string) : NodeRecord :=
  mkNodeRecord
    (mkNode id (uid "01") name url "system" true false "healthy" "supported" "v0.107.78" None None None
       "" None "" "pending" None 1 0 0)
    (mkNodeSecretMaterial (mkEncryptedCredentials "" "" 1 "") "").

Definition fleet_document (ttl : Z) : Document :=
  mkDocument 2 (mkShared (mkDNS (Some ["9.9.9.9"]) (Some ["9.9.9.9"]) None None true 20 24 56 None
      "default" "" "" ttl false false "" false true 4096 true 0 0 false "load_balance" false false 10)
    (mkFiltering true 24 None None None) None true None
    zero_Services (mkQueryLogPolicy true 86400000 false None true) (mkStatisticsPolicy true 86400000 None true))
    sample_node zero_ObservedOnly None.

Definition fleet_desired : DesiredDocument :=
  mkDesiredDocument 2 (Document_Shared (fleet_document 60))
    {[uid "02" := sample_node; uid "03" := sample_node]} None.

Definition fleet_snapshot (id nodeID : string) : Snapshot :=
  mkSnapshot id nodeID 0 2 (Some (fleet_document 10)) "hash" "v0.107.78" "succeeded" "".

Definition fleet_event (id : string) : AuditEvent :=
  mkAuditEvent id "system" None "" "fleet.created" "cluster" None "" (JObj []) 0 "" "".

(** The fleet is registered through the store. *)
Definition fleet_history : list store_op :=
  [OpCreateCluster (mkCluster (uid "01") "home" "" "enforce" None 1 0 0) (fleet_event (uid "f1"));
   OpCreateNode (fleet_node (uid "02") "a" "https://a") (fleet_event (uid "f2"));
   OpCreateNode (fleet_node (uid "03") "b" "https://b") (fleet_event (uid "f3"));
   OpSaveObservation (fleet_snapshot (uid "04") (uid "02")) (fleet_profile (uid "02"));
   OpSaveObservation (fleet_snapshot (uid "05") (uid "03")) (fleet_profile (uid "03"));
   OpImportDraft (mkDraft (uid "06") (uid "01") (uid "04") None 2 fleet_desired "" 1 (uid "07") 0) 0
     (fleet_event (uid "f4"))].

Definition fleet_db : DB := run_history fleet_history empty_DB.

Definition fleet (broken : list string) : World :=
  mkWorld fleet_db 1 {["https://a" := fleet_document 10; "https://b" := fleet_document 10]} broken.

Definition operator : Actor := mkActor (uid "07") (uid "08").
Definition service : Service := NewService [true].

(** ** A publication and its deployment *)

Definition publish : control (res Revision) := Publish service operator (uid "01") "first" 1.

Definition published (broken : list string) : World := after publish (fleet broken).

Definition revision_id : string :=
  match result publish (fleet []) with Ok r => Revision_ID r | Err _ => "" end.

Definition start : control (res Deployment) :=
  StartDeployment service operator (uid "01") revision_id "manual" None [].

Definition started (broken : list string) : World := after start (published broken).
Definition deployment_id : string :=
  match result start (published []) with Ok d => Deployment_ID d | Err _ => "" end.

Definition claimed_world (broken : list string) : World :=
  after (call (Repo_ClaimDeployment 100)) (started broken).
#[local] Abbreviation run broken := (facts (trace (execute deployment_id) (claimed_world broken))).

(** The changed node [b], seen by the reconciler after the deployment. *)
Definition change_node (w : World) : World :=
  mkWorld (w_db w) (w_now w) (<["https://b" := fleet_document 99]> (w_nodes w)) (w_broken w).
Definition drifted : World := change_node (after (execute deployment_id) (claimed_world [])).
#[local] Abbreviation pass := (sfacts (trace (Reconciler_RunOnce service) drifted)).

(** ** The theorems on these runs *)

(** An element of a list that satisfies a test, by computation of the test only. *)
Definition some_where {A} (P : A → bool) (o : option A) : bool :=
  match o with Some x => P x | None => false end.

Lemma some_where_true {A} (P : A → bool) o : some_where P o = true → ∃ x, o = Some x ∧ P x = true.
Proof. destruct o as [x|]; [by exists x|done]. Qed.

(** A list cut at one of its elements. *)
Lemma cut_where {A} (P : A → bool) (l : list A) i :
  some_where P (l !! i) = true → ∃ x, P x = true ∧ l = take i l ++ x :: drop (S i) l.
Proof.
  intros (x & H & HP)%some_where_true. exists x. split; [exact HP|]. symmetry. by apply take_drop_middle.
Qed.

Definition is_apply (f : fact) : bool := match f with FApply _ _ _ => true | _ => false end.
Definition is_finish (f : fact) : bool := match f with FFinish _ true _ => true | _ => false end.
Definition is_create (f : service_fact) : bool := match f with SCreate _ _ => true | _ => false end.
Definition is_publish (f : service_fact) : bool := match f with SPublish _ _ _ _ => true | _ => false end.

(** A run, as a trace that is known by the values of tests on its facts only. *)
Lemma a_run {A} (p : control A) w : ∃ tr r, traces p tr r ∧ trace p w = tr.
Proof. exists (trace p w), (result p w). split; [apply trace_traces|reflexivity]. Qed.

(** The trace of a run, as a variable: nothing of the run is computed below. *)
Ltac over_run tr Htr :=
  match goal with H : context [trace ?p ?w] |- _ =>
    let r := fresh "r" in let E := fresh "E" in
    destruct (a_run p w) as (tr & r & Htr & E); rewrite E in *; clear E
  end.

Lemma run_applies : some_where is_apply (run [] !! 12%nat) = true.
Proof. vm_compute. reflexivity. Qed.

Lemma run_applies_twice :
  length (applied (run [])) = 2%nat ∧ some_where is_apply (drop 13 (run []) !! 12%nat) = true.
Proof. split; vm_compute; reflexivity. Qed.

Lemma execute_refines_execution_witness : execution deployment_id (run []).
Proof. exact (execute_refines_execution deployment_id _ _ (trace_traces _ (claimed_world []))). Defined.

Lemma execute_revalidates_first_witness : ∃ d revision,
  FDeployment deployment_id (Ok d) ∈ take 12 (run []) ∧
  ∀ task, task ∈ Deployment_Nodes d → revalidated revision task (take 12 (run [])).
Proof.
  pose proof run_applies as H. over_run tr Htr.
  apply cut_where in H as ([] & HP & H); try discriminate HP.
  destruct (execute_revalidates_first deployment_id _ _ Htr _ _ _ _ _ H)
    as (d & revision & Hd & _ & _ & Hall).
  exists d, revision. split; [exact Hd|exact Hall].
Defined.

Lemma execute_one_at_a_time_witness : length (applied (run [])) = 2%nat ∧
  ∃ d revision item1 item2, FDeployment deployment_id (Ok d) ∈ take 12 (run []) ∧
    item1.(prepared_task) ∈ Deployment_Nodes d ∧ item2.(prepared_task) ∈ Deployment_Nodes d ∧
    prepared_from revision item1 (take 12 (run [])) ∧
    verified revision item1 (take 12 (drop 13 (run []))).
Proof.
  split; [exact (proj1 run_applies_twice)|].
  pose proof run_applies as H. pose proof (proj2 run_applies_twice) as H2.
  over_run tr Htr.
  apply cut_where in H as ([] & HP & H); try discriminate HP.
  apply cut_where in H2 as ([] & HP2 & H2); try discriminate HP2.
  rewrite H2 in H.
  destruct (execute_one_at_a_time deployment_id _ _ Htr _ _ _ _ _ _ _ _ _ H)
    as (_ & _ & d & revision & i & j & item1 & item2 & Hd & _ & _ & H1 & H1' & Hf & _ & _ & _ & Hv & _).
  exists d, revision, item1, item2.
  exact (conj Hd (conj (list_elem_of_lookup_2 _ _ _ H1)
    (conj (list_elem_of_lookup_2 _ _ _ H1') (conj Hf Hv)))).
Defined.

(** One run is partly successful, the other activates the revision. *)
Definition partly (f : fact) : bool :=
  match f with
  | FFinish d activate _ => (Deployment_Status d =?? "partially_succeeded") && negb activate
  | _ => false
  end.

Lemma runs_finish : some_where partly (run ["https://b"] !! 30%nat) = true ∧
  some_where is_finish (run [] !! 35%nat) = true.
Proof. split; vm_compute; reflexivity. Qed.

Lemma execute_reports_truthfully_witness :
  some_where partly (run ["https://b"] !! 30%nat) = true ∧
  ∃ d x, run [] !! 35%nat = Some (FFinish d true x) ∧
    terminal_status (Deployment_Status d) = true ∧
    ∃ revision prepared, all_applied revision prepared (take 35 (run [])).
Proof.
  destruct runs_finish as [H1 H]. split; [exact H1|]. clear H1. 
  over_run tr Htr.
  apply some_where_true in H as ([] & H & HP); try discriminate HP.
  destruct activate; [|discriminate HP]. do 2 eexists. split; [exact H|].
  pose proof (eq_sym (take_drop_middle _ _ _ H)) as H'.
  destruct (execute_reports_truthfully deployment_id _ _ Htr _ _ _ _ _ H') as (_ & _ & Ht & Hs).
  split; [exact Ht|]. destruct (Hs (or_intror eq_refl)) as (_ & revision & prepared & _ & _ & _ & Hall & _).
  exists revision, prepared. exact Hall.
Defined.

Lemma run_applied : applied (run []) ≠ [].
Proof. vm_compute. discriminate. Qed.

Lemma execute_applies_in_order_witness : ∃ d revision documents,
  FDeployment deployment_id (Ok d) ∈ run [] ∧ applied (run []) `prefix_of` documents ∧
  Ok <$> documents = (λ task, Effective (Revision_Document revision) (DeploymentNode_NodeID task)) <$>
    Deployment_Nodes d.
Proof.
  pose proof run_applied as H. over_run tr Htr.
  destruct (execute_applies_in_order deployment_id _ _ Htr H) as (d & revision & documents & Hd & _ & Hp & Ho).
  exists d, revision, documents. split; [exact Hd|]. split; [exact Hp|exact Ho].
Defined.

(** The starts of the deployment and of the publication. *)
#[local] Abbreviation starting :=
  (startDeployment service (Some operator) (uid "01") revision_id "manual" None []).
#[local] Abbreviation publishing := (Publish service operator (uid "01") "first" 1).

Lemma services_create : some_where is_create (sfacts (trace starting (published [])) !! 11%nat) = true ∧
  some_where is_publish (sfacts (trace publishing (fleet [])) !! 8%nat) = true ∧
  some_where is_create (pass !! 27%nat) = true.
Proof. split_and!; vm_compute; reflexivity. Qed.

Lemma startDeployment_only_valid_witness : ∃ d,
  planned service (uid "01") revision_id "manual" [] (take 11 (sfacts (trace starting (published [])))) d.
Proof.
  destruct services_create as [H _]. over_run tr Htr.
  apply cut_where in H as ([] & HP & H); try discriminate HP. exists deployment.
  destruct (startDeployment_only_valid service (Some operator) (uid "01") revision_id "manual" None [] _ _
    Htr _ _ _ _ H) as [Hp _]. exact Hp.
Defined.

Lemma Publish_only_valid_witness : ∃ draft revision,
  Revision_Document revision = CanonicaliseDesired (Draft_Document draft) ∧ Draft_Version draft = 1.
Proof.
  destruct services_create as (_ & H & _). over_run tr Htr.
  apply cut_where in H as ([] & HP & H); try discriminate HP.
  destruct (Publish_only_valid service operator (uid "01") "first" 1 _ _ Htr
    _ _ _ H I) as (draft' & revision' & x & preview & _ & _ & Hv & _ & _ & _ & _ & Hd & _).
  exists draft', revision'. split; [exact Hd|exact Hv].
Defined.

Lemma reconciler_pass_safe_witness : ∃ d clusters,
  SClusters (Ok clusters) ∈ take 27 pass ∧ pass_creates service clusters (take 27 pass) d.
Proof.
  destruct services_create as (_ & _ & H).
  over_run tr Htr.
  apply cut_where in H as ([] & HP & H); try discriminate HP. exists deployment.
  exact (reconciler_pass_safe service _ _ Htr _ _ _ _ H).
Defined.

(** The evaluation of the changed node. *)
Definition evaluation (w : World) : list service_fact :=
  match ClusterByID (uid "01") (w_db w), RevisionByID revision_id (w_db w), NodeByID (uid "03") (w_db w) with
  | Ok c, Ok r, Ok n => sfacts (trace (evaluateNode service c r n) w)
  | _, _, _ => []
  end.

Lemma evaluation_creates : some_where is_create (evaluation drifted !! 17%nat) = true.
Proof. vm_compute. reflexivity. Qed.

Lemma evaluateNode_enforces_drift_witness : ∃ cluster revision node d,
  drift_enforced service cluster revision (Node_ID node) (take 17 (evaluation drifted)) d.
Proof.
  pose proof evaluation_creates as H. revert H. generalize drifted. intros w H. unfold evaluation in *.
  destruct (ClusterByID _ _) as [c|]; [|discriminate H].
  destruct (RevisionByID _ _) as [v|]; [|discriminate H].
  destruct (NodeByID _ _) as [n|]; [|discriminate H].
  exists c, v, n. over_run tr Htr. apply cut_where in H as ([] & HP & H); try discriminate HP. exists deployment.
  exact (evaluateNode_enforces_drift service c v n _ _ Htr _ _ _ _ H).
Defined.

(** * The theorems on the store and the previews, on the simulated fleet *)

#[local] Existing Instance ascii_runtime_laws.

(** ** Databases *)

(** A database as a variable: nothing of it is computed in a proof on it. *)
Lemma as_variable {A} (x : A) : ∃ y, x = y.
Proof. by exists x. Qed.

Lemma fleet_WellFormed broken : WellFormed (w_db (fleet broken)).
Proof. apply run_history_preserves, WellFormed_empty. Qed.

Lemma after_WellFormed {A} (p : control A) w : WellFormed (w_db w) → WellFormed (w_db (after p w)).
Proof. apply (store_backed_WellFormed w_db handle), handle_store_backed. Qed.

Lemma published_WellFormed broken : WellFormed (w_db (published broken)).
Proof. exact (after_WellFormed publish (fleet broken) (fleet_WellFormed broken)). Qed.

Lemma started_WellFormed broken : WellFormed (w_db (started broken)).
Proof. exact (after_WellFormed start (published broken) (published_WellFormed broken)). Qed.

Lemma claimed_WellFormed broken : WellFormed (w_db (claimed_world broken)).
Proof.
  exact (after_WellFormed (call (Repo_ClaimDeployment 100)) (started broken) (started_WellFormed broken)).
Qed.

Lemma executed_WellFormed : WellFormed (w_db (after (execute deployment_id) (claimed_world []))).
Proof. exact (after_WellFormed (execute deployment_id) (claimed_world []) (claimed_WellFormed [])). Qed.

Lemma control_runs_WellFormed_witness : WellFormed (w_db (interp handle publish (fleet [])).1.2).
Proof.
  exact (control_runs_WellFormed w_db handle publish (fleet []) handle_store_backed (fleet_WellFormed [])).
Defined.

(** Two edits of the same draft. *)
Definition edited (ttl : Z) : Draft :=
  mkDraft (uid "06") (uid "01") (uid "04") None 2
    (mkDesiredDocument 2 (Document_Shared (fleet_document ttl))
       (DesiredDocument_NodeOverrides fleet_desired) None) "hash" 2 (uid "07") 5.

Definition edited_db : DB :=
  (commit (UpdateConfigurationDraft (edited 20) 1 (fleet_event (uid "e1"))) fleet_db).2.

Lemma draft_update_not_lost_witness :
  commit (UpdateConfigurationDraft (edited 30) 1 (fleet_event (uid "e2"))) edited_db =
    (Err draft_changed, edited_db).
Proof.
  refine (proj1 (draft_update_not_lost (edited 20) (edited 30) 1 (fleet_event (uid "e1"))
    (fleet_event (uid "e2")) fleet_db edited_db eq_refl _)). vm_compute. reflexivity.
Defined.

Definition new_revision : Revision :=
  mkRevision (uid "20") (uid "01") 0 2 fleet_desired "hash" "new" (uid "07") 9 false None None
    (mkLifecycle false false false).

Lemma PublishRevision_next_witness :
  let p := PublishRevision (edited 20) new_revision 2 (fleet_event (uid "e3")) in
  ∃ r db', commit p (w_db (published [])) = (Ok r, db') ∧ Revision_RevisionNumber r = 2 ∧
    revisions db' = <[uid "20" := revision_row r]> (revisions (w_db (published []))).
Proof.
  intros p. assert (H : ∃ r, commit p (w_db (published [])) = (Ok r, (commit p (w_db (published []))).2) ∧
    Revision_RevisionNumber r = 2) by (eexists; split; [vm_compute; reflexivity|reflexivity]).
  destruct H as (r & H & Hn). exists r, (commit p (w_db (published []))).2. split; [exact H|].
  split; [exact Hn|].
  exact (proj1 (proj2 (proj2 (PublishRevision_next (edited 20) new_revision 2 (fleet_event (uid "e3")) _ _ _ H)))).
Defined.

Definition new_deployment : Deployment :=
  mkDeployment (uid "30") (uid "01") revision_id "queued" "sequential" "stop" "manual" None None "" false ""
    9 None None None None (mkLifecycle false false false) [].

Lemma CreateDeployment_exclusive_witness :
  commit (CreateDeployment new_deployment (fleet_event (uid "e4"))) (w_db (started [])) =
    (Err (conflict "the cluster already has an active deployment"), w_db (started [])) ∧
  ∃ db', ClusterHasActiveDeployment (uid "01") db' = Ok true.
Proof.
  split.
  - destruct (CreateDeployment_exclusive new_deployment (fleet_event (uid "e4")) (w_db (started [])) eq_refl)
      as [H _]. apply H. vm_compute. reflexivity.
  - destruct (CreateDeployment_exclusive new_deployment (fleet_event (uid "e4")) (w_db (published [])) eq_refl)
      as [_ H]. exists (commit (CreateDeployment new_deployment (fleet_event (uid "e4"))) (w_db (published []))).2.
    apply H. vm_compute. reflexivity.
Defined.

Definition interrupted_db : DB :=
  (commit (InterruptDeployments 200 [Ok (uid "e5")]) (w_db (claimed_world []))).2.

Lemma InterruptDeployments_recovers_witness :
  Deployment_Status <$> (deployments (w_db (claimed_world [])) !! deployment_id) = Some "validating" ∧
  ∀ k d, deployments interrupted_db !! k = Some d → running_status (Deployment_Status d) = false.
Proof.
  split; [vm_compute; reflexivity|].
  destruct (InterruptDeployments_recovers 200 [Ok (uid "e5")] (w_db (claimed_world [])) interrupted_db)
    as [H _]; [vm_compute; reflexivity|exact H].
Defined.

Lemma ClaimDeployment_oldest_witness :
  ∃ d, deployments (w_db (started [])) !! deployment_id = Some d ∧
    ∀ k e, deployments (w_db (started [])) !! k = Some e → Deployment_Status e = "queued" →
      Deployment_RequestedAt d <= Deployment_RequestedAt e.
Proof.
  destruct (ClaimDeployment_oldest 100 (w_db (started [])) deployment_id (w_db (claimed_world []))
    (started_WellFormed [])) as [(E & _)|(d & Hd & _ & Hmin & _)];
    [vm_compute; reflexivity|exfalso; revert E; vm_compute; discriminate|].
  exists d. split; [exact Hd|]. intros k e Hk He. apply (Hmin k e Hk). left. exact He.
Defined.

(** ** Lifecycles *)

(** After a second publication the first revision is no longer the base of the draft. *)
Definition republished : World := after (Publish service operator (uid "01") "second" 2) (published []).

Lemma lifecycle_needs_active_revision_witness :
  commit (SetRevisionArchived revision_id (uid "07") true 9 (fleet_event (uid "e6"))) (w_db republished) =
    (Err (TextError "cannot scan NULL into *bool"), w_db republished) ∧
  ∃ r, revisions (w_db republished) !! revision_id = Some r ∧
    Lifecycle_CanDelete (Revision_Lifecycle (select_revision (w_db republished) r)) = true.
Proof.
  assert (H : ∃ r, revisions (w_db republished) !! revision_id = Some r ∧
    joined (w_db republished) r = true ∧ active_revision (Revision_ClusterID r) (w_db republished) = None ∧
    Revision_ID r = revision_id)
    by (eexists; split; [vm_compute; reflexivity|split_and!; vm_compute; reflexivity]).
  destruct H as (r & Hr & Hj & Ha & Hid).
  assert (Hret : retained revision_id (w_db republished) = false) by (vm_compute; reflexivity).
  pose proof (lifecycle_needs_active_revision revision_id (uid "07") 9 (fleet_event (uid "e6"))
    (fleet_event (uid "e7")) (w_db republished) r Hr Hj Ha Hret) as (H1 & _ & H3).
  split; [exact H1|]. exists r. split; [exact Hr|]. exact (H3 Hid).
Defined.

(** After a deployment and two more publications, the second revision is not used. *)
Definition deployed : World := after (execute deployment_id) (claimed_world []).
Definition second : control (res Revision) := Publish service operator (uid "01") "second" 2.
Definition third : control (res Revision) := Publish service operator (uid "01") "third" 3.
Definition unused : World := after third (after second deployed).
Definition second_id : string :=
  match result second deployed with Ok r => Revision_ID r | Err _ => "" end.

Lemma DeleteUnusedRevision_flag_witness :
  (commit (DeleteUnusedRevision second_id (fleet_event (uid "e8"))) (w_db unused)).1 = Ok tt ∧
  (commit (DeleteUnusedRevision revision_id (fleet_event (uid "e8"))) (w_db unused)).1 ≠ Ok tt.
Proof.
  set (db := w_db unused).
  assert (Hwf : WellFormed db)
    by exact (after_WellFormed third _ (after_WellFormed second _ executed_WellFormed)).
  assert (Hown : ∀ c x, clusters db !! c = Some x → c = uid "01").
  { assert (Hk : (map_to_list (clusters db)).*1 = [uid "01"]) by (vm_compute; reflexivity).
    intros c x Hc%elem_of_map_to_list. apply (list_elem_of_fmap_2 fst) in Hc. rewrite Hk in Hc.
    apply list_elem_of_singleton in Hc. exact Hc. }
  assert (H : ∃ r active, revisions db !! second_id = Some r ∧
    active_revision (Revision_ClusterID r) db = Some active ∧ Revision_ClusterID r = uid "01" ∧
    Lifecycle_CanDelete (Revision_Lifecycle (select_revision db r)) = true)
    by (do 2 eexists; split; [vm_compute; reflexivity|split_and!; vm_compute; reflexivity]).
  assert (H' : ∃ r active, revisions db !! revision_id = Some r ∧
    active_revision (Revision_ClusterID r) db = Some active ∧ Revision_ClusterID r = uid "01" ∧
    Lifecycle_CanDelete (Revision_Lifecycle (select_revision db r)) = false)
    by (do 2 eexists; split; [vm_compute; reflexivity|split_and!; vm_compute; reflexivity]).
  destruct H as (r & active & Hr & Ha & Hc & Hf), H' as (r' & active' & Hr' & Ha' & Hc' & Hf').
  assert (Haudit : existsb (λ e, AuditEvent_ID e =?? AuditEvent_ID (fleet_event (uid "e8")))
    (audit_events db) = false) by (vm_compute; reflexivity).
  split.
  - rewrite (DeleteUnusedRevision_flag second_id (fleet_event (uid "e8")) db r active Hwf Hr Ha Haudit).
    + rewrite Hf. reflexivity.
    + intros c x Hx _. rewrite Hc. exact (Hown c x Hx).
  - rewrite (DeleteUnusedRevision_flag revision_id (fleet_event (uid "e8")) db r' active' Hwf Hr' Ha' Haudit).
    + rewrite Hf'. discriminate.
    + intros c x Hx _. rewrite Hc'. exact (Hown c x Hx).
Defined.

(** ** An interrupted enforcement *)

(** The deployment that enforces the drift of node [b] is claimed, and the controller restarts. *)
Definition enforcing : World :=
  after (call (Repo_ClaimDeployment 300)) (after (Reconciler_RunOnce service) drifted).

(** The drift found is marked as being enforced, and is found again after the restart. *)
Definition retry_test (p : Tx unit) (event : AuditEvent) (db : DB) : bool :=
  match head (rows (drift_events db)), commit p db with
  | Some e, (Ok tt, db1) =>
      (DriftEvent_ReconciliationStatus e =?? "enforcing") && same_open_drift e e &&
      match commit (UpsertDriftEvent e event) db1 with (Ok (_, false), _) => true | _ => false end
  | _, _ => false
  end.

Lemma enforcing_retry :
  retry_test (InterruptDeployments 400 [Ok (uid "e9")]) (fleet_event (uid "ea")) (w_db enforcing) = true.
Proof. vm_compute. reflexivity. Qed.

Lemma change_node_WellFormed w : WellFormed (w_db w) → WellFormed (w_db (change_node w)).
Proof. exact id. Qed.

Lemma enforcing_WellFormed : WellFormed (w_db enforcing).
Proof.
  pose proof (change_node_WellFormed _ executed_WellFormed) as H.
  exact (after_WellFormed (call (Repo_ClaimDeployment 300)) (after (Reconciler_RunOnce service) drifted)
    (after_WellFormed (Reconciler_RunOnce service) drifted H)).
Qed.

Lemma interrupted_drift_not_retried_witness :
  let p := InterruptDeployments 400 [Ok (uid "e9")] in
  ∃ e stored db1 db2, commit p (w_db enforcing) = (Ok tt, db1) ∧
    commit (UpsertDriftEvent e (fleet_event (uid "ea"))) db1 = (Ok (stored, false), db2) ∧
    ∀ cluster revision nodeID, enforce service cluster revision nodeID stored = done_with tt.
Proof.
  pose proof enforcing_retry as H. pose proof enforcing_WellFormed as Hwf.
  destruct (as_variable (w_db enforcing)) as [db E]. rewrite E in *. clear E. unfold retry_test in H.
  destruct (head (rows (drift_events db))) as [e|] eqn:He; [|discriminate H].
  destruct (commit _ db) as [[[]|] db1] eqn:H1; [|discriminate H].
  apply andb_true_iff in H as [[Hst%bool_decide_eq_true Hs]%andb_true_iff H].
  destruct (commit _ db1) as [[[stored []]|] db2] eqn:H2; [discriminate H| |discriminate H].
  apply head_Some_elem_of, elem_of_rows in He as [k Hk].
  exists e, stored, db1, db2. split; [exact H1|]. split; [exact H2|]. intros cluster revision nodeID.
  exact (proj2 (proj2 (interrupted_drift_not_retried service 400 _ db db1 k e e _ stored false db2
    cluster revision nodeID Hwf Hk Hs Hst H1 H2))).
Defined.

(** ** Previews *)

Definition dhcp_config : DHCPConfig :=
  mkDHCPConfig true "eth0" (mkDHCPIPv4 "10.0.0.1" "255.255.255.0" "10.0.0.10" "10.0.0.99" 3600)
    (mkDHCPIPv6 "" 0) None.

Definition dhcp_desired : DesiredDocument :=
  mkDesiredDocument 2 (Document_Shared (fleet_document 60))
    {[uid "02" := mkNodeSpecific (Some ["0.0.0.0"]) 53 (Some dhcp_config); uid "03" := sample_node]} None.

Definition fleet_nodes : list Node :=
  match ListNodes (uid "01") fleet_db with Ok l => l | Err _ => [] end.
Definition fleet_snapshots : list Snapshot :=
  match LatestSnapshots (uid "01") fleet_db with Ok l => l | Err _ => [] end.
Definition fleet_profiles : list CapabilityProfile :=
  match CapabilityProfiles (uid "01") fleet_db with Ok l => l | Err _ => [] end.

Lemma preview_dhcp_last_witness :
  ∃ n, preview_targets dhcp_desired [] fleet_nodes !! 1%nat = Some n ∧ Node_ID n = uid "02" ∧
    length (preview_targets dhcp_desired [] fleet_nodes) = 2%nat.
Proof.
  assert (H : ∃ n, preview_targets dhcp_desired [] fleet_nodes !! 1%nat = Some n ∧ Node_ID n = uid "02")
    by (eexists; split; vm_compute; reflexivity).
  destruct H as (n & Hn & Hid). exists n. split; [exact Hn|]. split; [exact Hid|]. symmetry.
  apply (preview_dhcp_last "" dhcp_desired [] fleet_nodes [] fleet_snapshots fleet_profiles 1 n).
  - apply (bool_decide_unpack _). vm_compute. exact I.
  - vm_compute. reflexivity.
  - exact Hn.
  - rewrite Hid. vm_compute. reflexivity.
Defined.

Lemma preview_nodes_complete_witness :
  ∃ n effective, preview_targets fleet_desired [] fleet_nodes !! 1%nat = Some n ∧
    Preview_Nodes (preview_of "" fleet_desired [] fleet_nodes [] fleet_snapshots fleet_profiles) !! 1%nat =
      Some (mkPreviewNode (Node_ID n) 2 (Marshal effective).2 true "").
Proof.
  assert (H : ∃ n, preview_targets fleet_desired [] fleet_nodes !! 1%nat = Some n)
    by (eexists; vm_compute; reflexivity).
  destruct H as (n & Hn).
  destruct (preview_nodes_complete "" fleet_desired [] fleet_nodes [] fleet_snapshots fleet_profiles 1 n)
    as (effective & _ & Hp); [vm_compute; reflexivity|exact Hn|].
  exists n, effective. split; [exact Hn|exact Hp].
Defined.

Lemma managedDifferences_exact_witness : ∃ effective, Effective fleet_desired (uid "02") = Ok effective ∧
  managedDifferences effective (ProjectDocument (fleet_document 60) 2) = [] ∧
  managedDifferences effective (ProjectDocument (fleet_document 61) 2) ≠ [].
Proof.
  assert (H : ∃ effective, Effective fleet_desired (uid "02") = Ok effective)
    by (eexists; vm_compute; reflexivity).
  destruct H as (effective & H). exists effective. split; [exact H|].
  assert (HS : match Effective fleet_desired (uid "02") with
    | Ok e => Document_Shared e = canonical_Shared (Document_Shared (fleet_document 60)) ∧
        Document_NodeSpecific e = canonical_NodeSpecific sample_node
    | Err _ => False end) by (vm_compute; split; reflexivity).
  rewrite H in HS. destruct HS as [Hs Hn]. split.
  - apply (managedDifferences_exact fleet_desired (uid "02")); try exact H;
      rewrite ?Hs, ?Hn; try (vm_compute; reflexivity). split; reflexivity.
  - intros Hd. apply (managedDifferences_exact fleet_desired (uid "02")) in Hd; try exact H;
      rewrite ?Hs, ?Hn in *; try (vm_compute; reflexivity).
    destruct Hd as [Hd _]. revert Hd. vm_compute. discriminate.
Defined.
