(* ===== verification/Limiter.v ===== *)
(** * The limiter of login attempts

    The fixed-window counter behind the password, enrolment and challenge limits, the
    attempts that go through it, and the bound on what an attacker can try. *)

From S2P Require Import Prelude GoRuntime.

(** ** The limiter *)

(* src/internal/auth/limiter.go:8-11 attemptWindow *)
Record attemptWindow := mkWindow { window_count : Z; window_start : Time }.

(* src/internal/auth/limiter.go:13-19 LoginLimiter *)
Record LoginLimiter := mkLimiter {
  windows : gmap string attemptWindow;
  limit : Z;
  duration : Duration
}.

(* src/internal/auth/limiter.go:21-23 NewLoginLimiter *)
Definition NewLoginLimiter (limit : Z) (duration : Duration) : LoginLimiter :=
  mkLimiter ∅ limit duration.

Definition set_windows (v : gmap string attemptWindow) (l : LoginLimiter) : LoginLimiter :=
  mkLimiter v (limit l) (duration l).

(** [!exists || now.Sub(window.start) >= l.duration] *)
Definition over (l : LoginLimiter) (key : string) (now : Time) : bool :=
  match windows l !! key with
  | None => true
  | Some w => duration l <=? time_Sub now (window_start w)
  end.

(** The count of the window of a key, zero when there is none. *)
Definition count_of (l : LoginLimiter) (key : string) : Z :=
  match windows l !! key with Some w => window_count w | None => 0 end.

(* src/internal/auth/limiter.go:25-35 LoginLimiter.Allow *)
Definition Allow (key : string) (now : Time) (l : LoginLimiter) : bool * LoginLimiter :=
  if over l key now then (true, set_windows (<[key := mkWindow 0 now]> (windows l)) l)
  else (count_of l key <? limit l, l).

(* src/internal/auth/limiter.go:37-47 LoginLimiter.Failure *)
Definition Failure (key : string) (now : Time) (l : LoginLimiter) : LoginLimiter :=
  let window := if over l key now then mkWindow 0 now
                else default (mkWindow 0 now) (windows l !! key) in
  set_windows (<[key := mkWindow (wrap64 (window_count window + 1)) (window_start window)]> (windows l)) l.

(* src/internal/auth/limiter.go:49-53 LoginLimiter.Success *)
Definition Success (key : string) (l : LoginLimiter) : LoginLimiter :=
  set_windows (delete key (windows l)) l.

(** ** Attempts *)

(** An attempt reads the clock when it asks, and again when it reports its failure. *)
Record attempt := mkAttempt {
  attempt_key : string;
  asked : Time;
  answered : Time;
  correct : bool
}.

(** The limiter around the check of a secret: whether the check ran, and the limiter after it. *)
(* src/internal/auth/service.go:134-156 Service.Login *)
Definition try_attempt (a : attempt) (l : LoginLimiter) : bool * LoginLimiter :=
  let '(allowed, l) := Allow (attempt_key a) (asked a) l in
  if allowed then
    if correct a then (true, Success (attempt_key a) l)
    else (true, Failure (attempt_key a) (answered a) l)
  else (false, l).

(** The attempts whose secret was checked. *)
Fixpoint checked (l : LoginLimiter) (h : list attempt) : list attempt :=
  match h with
  | [] => []
  | a :: h =>
      let '(allowed, l) := try_attempt a l in
      if allowed then a :: checked l h else checked l h
  end.

(** The attempts come one after the other. *)
Fixpoint in_time (t : Time) (h : list attempt) : Prop :=
  match h with
  | [] => True
  | a :: h => t <= asked a ∧ asked a <= answered a ∧ in_time (answered a) h
  end.

(** ** The bound *)

(** The elements of [F] between two instants, the second excluded. *)
Definition within (a b : Time) (F : list Time) : nat := length (filter (λ f, a <= f < b) F).
#[global] Arguments within (a b)%_Z_scope F%_list_scope : simpl never.

Lemma within_cons a b f F : within a b (f :: F) = ((if decide (a <= f < b)%Z then 1 else 0) + within a b F)%nat.
Proof. unfold within. rewrite filter_cons. by destruct (decide _). Qed.

Lemma within_mono a b a' b' F : (∀ f, f ∈ F → a <= f < b → a' <= f < b') →
  (within a b F <= within a' b' F)%nat.
Proof.
  induction F as [|f F IH]; intros H; [done|]. rewrite !within_cons.
  assert (IHF : (within a b F <= within a' b' F)%nat) by (apply IH; intros; apply H; [by right|done]).
  assert (Hf : a <= f < b → a' <= f < b') by (intros; apply H; [by left|done]).
  repeat case_decide; tauto || lia.
Qed.

Lemma within_split a b c F : a <= b <= c → within a c F = (within a b F + within b c F)%nat.
Proof.
  intros Hb. induction F as [|f F IH]; [done|]. rewrite !within_cons, IH.
  repeat case_decide; lia.
Qed.

Lemma within_none a b F : (∀ f, f ∈ F → ¬ a <= f < b) → within a b F = 0%nat.
Proof.
  induction F as [|f F IH]; intros H; [done|]. rewrite within_cons, decide_False by (apply H; by left).
  apply IH. intros. apply H. by right.
Qed.

Lemma time_Sub_ge t u d : in_int64 d → - two63 < d → (d <= time_Sub t u ↔ d <= t - u).
Proof. unfold in_int64, time_Sub, two63. lia. Qed.

Section bound.
Context (key : string).

(** The failures [F] of [key], none after [now], as its window sees them: at most [limit] in the
    window, at most [limit] in the span before it, and none that the window does not cover. *)
Definition window_accounts (l : LoginLimiter) (now : Time) (F : list Time) : Prop :=
  Forall (λ f, f <= now) F ∧
  (∀ a, (within a (a + duration l) F <= 2 * Z.to_nat (limit l))%nat) ∧
  match windows l !! key with
  | None => F = []
  | Some w =>
      window_start w <= now ∧ 0 <= window_count w <= limit l ∧
      (within (window_start w) (window_start w + duration l) F <= Z.to_nat (window_count w))%nat ∧
      (within (window_start w - duration l) (window_start w) F <= Z.to_nat (limit l))%nat ∧
      Forall (λ f, f < window_start w + duration l) F
  end.

Lemma over_spec l w now : in_int64 (duration l) → 0 < duration l → windows l !! key = Some w →
  over l key now = bool_decide (window_start w + duration l <= now).
Proof.
  intros Hd Hpos Hw. unfold over. rewrite Hw. apply eq_true_iff_eq.
  rewrite Z.leb_le, bool_decide_eq_true, time_Sub_ge by (unfold in_int64, two63 in *; lia). lia.
Qed.

(** A new window at [now] starts with no failure, and the last one becomes the span before it. *)
Lemma new_window_accounts l t now F : in_int64 (duration l) → 0 < duration l → 0 <= limit l → t <= now →
  window_accounts l t F → over l key now = true →
  window_accounts (set_windows (<[key := mkWindow 0 now]> (windows l)) l) now F.
Proof.
  intros Hd Hpos Hlim Ht (Hpast & Hbound & Hw) Ho. split; [|split; [exact Hbound|]].
  { eapply Forall_impl; [exact Hpast|]. intros f Hf. cbv beta in *. lia. }
  cbn. rewrite lookup_insert_eq. cbn.
  destruct (windows l !! key) as [w|] eqn:E.
  2: { subst F. unfold within. cbn. split_and!; try lia. by constructor. }
  rewrite (over_spec l w now) in Ho by done. apply bool_decide_eq_true in Ho.
  destruct Hw as (Hstart & Hcount & Hin & Hbefore & Hcover).
  rewrite Forall_forall in Hcover. split_and!; try lia.
  - rewrite within_none; [lia|]. intros f Hf. specialize (Hcover f Hf). cbv beta in Hcover. lia.
  - assert (Hm : (within (now - duration l) now F <=
      within (window_start w) (window_start w + duration l) F)%nat).
    { apply within_mono. intros f Hf. specialize (Hcover f Hf). cbv beta in Hcover. lia. }
    lia.
  - apply Forall_forall. intros f Hf. specialize (Hcover f Hf). cbv beta in Hcover. lia.
Qed.

Lemma failure_accounts l t now F w : in_int64 (duration l) → in_int64 (limit l) → 0 < duration l →
  t <= now → window_accounts l t F → windows l !! key = Some w → window_count w < limit l →
  now < window_start w + duration l →
  window_accounts (set_windows (<[key := mkWindow (window_count w + 1) (window_start w)]> (windows l)) l)
    now (now :: F).
Proof.
  intros Hd Hl Hpos Ht (Hpast & Hbound & Hw) E Hlt Hnow. rewrite E in Hw.
  destruct Hw as (Hstart & Hcount & Hin & Hbefore & Hcover).
  assert (Hpast' : ∀ f, f ∈ F → f <= now).
  { intros f Hf. rewrite Forall_forall in Hpast. specialize (Hpast f Hf). cbv beta in Hpast. lia. }
  split; [|split].
  - constructor; [lia|]. by apply Forall_forall.
  - intros a. cbn. rewrite within_cons. case_decide as Ha; [|specialize (Hbound a); lia].
    assert (Hle : (within a (a + duration l) F <=
      within (window_start w - duration l) (window_start w + duration l) F)%nat).
    { apply within_mono. intros f Hf Hfa. specialize (Hpast' f Hf). lia. }
    rewrite (within_split (window_start w - duration l) (window_start w)) in Hle by lia. lia.
  - cbn. rewrite lookup_insert_eq. cbn. rewrite !within_cons.
    rewrite (decide_True (P := window_start w <= now < _)) by lia.
    rewrite (decide_False (P := window_start w - _ <= now < _)) by lia.
    split_and!; try lia. by constructor.
Qed.

Lemma attempt_accounts a l t F : in_int64 (duration l) → in_int64 (limit l) → 0 < duration l → 1 <= limit l →
  t <= asked a → asked a <= answered a → attempt_key a = key → correct a = false →
  window_accounts l t F →
  match try_attempt a l with
  | (allowed, l') =>
      window_accounts l' (answered a) (if allowed then answered a :: F else F) ∧
      limit l' = limit l ∧ duration l' = duration l
  end.
Proof.
  intros Hd Hl Hpos Hlim Ht Ht' Hk Hc HF. unfold try_attempt, Allow. rewrite Hk, Hc.
  assert (Hfail : ∀ l1 t1 w, limit l1 = limit l → duration l1 = duration l → t1 <= answered a →
    window_accounts l1 t1 F → windows l1 !! key = Some w → window_count w < limit l →
    window_accounts (Failure key (answered a) l1) (answered a) (answered a :: F)).
  { intros l1 t1 w El Ed Ht1 H1 E Hlt. unfold Failure.
    destruct (over l1 key (answered a)) eqn:Ho.
    - apply (new_window_accounts _ t1 _ F) in Ho; [|rewrite ?El, ?Ed; try done; lia..].
      apply (failure_accounts _ _ (answered a) F (mkWindow 0 (answered a))) in Ho;
        [|cbn; rewrite ?El, ?Ed, ?lookup_insert_eq; try done; lia..].
      cbn in Ho |- *. unfold set_windows in *. cbn in Ho. by rewrite insert_insert_eq in Ho.
    - rewrite E. cbn. rewrite wrap64_id.
      2: { destruct H1 as (_ & _ & H1). rewrite E in H1. unfold in_int64 in *. lia. }
      apply (failure_accounts _ t1); rewrite ?El, ?Ed; try done.
      rewrite (over_spec l1 w) in Ho by (rewrite ?Ed; done). apply bool_decide_eq_false in Ho. rewrite Ed in Ho. lia. }
  destruct (over l key (asked a)) eqn:Ho.
  - split; [|done]. eapply Hfail; [done|done|exact Ht'| |cbn; apply lookup_insert_eq|cbn; lia].
    apply (new_window_accounts _ t); try done; lia.
  - unfold count_of. destruct (windows l !! key) as [w|] eqn:E; [|unfold over in Ho; by rewrite E in Ho].
    destruct (window_count w <? limit l) eqn:Hlt; bool_simp.
    + split; [|done]. apply (Hfail l t w); try done; lia.
    + split; [|done]. destruct HF as (H1 & H2 & H3). split; [|split; [done|rewrite E in *]].
      * eapply Forall_impl; [exact H1|]. intros f. cbv beta. lia.
      * destruct_and!. split_and!; try done; lia.
Qed.

Lemma other_accounts a l t F : attempt_key a ≠ key → t <= asked a → asked a <= answered a →
  window_accounts l t F →
  match try_attempt a l with
  | (_, l') => window_accounts l' (answered a) F ∧ limit l' = limit l ∧ duration l' = duration l
  end.
Proof.
  intros Hk Ht Ht' (Hpast & Hbound & Hw).
  assert (Hnow : ∀ l', windows l' !! key = windows l !! key → limit l' = limit l → duration l' = duration l →
    window_accounts l' (answered a) F ∧ limit l' = limit l ∧ duration l' = duration l).
  { intros l' E El Ed. split; [|done]. split; [|split].
    - eapply Forall_impl; [exact Hpast|]. intros f. cbv beta. lia.
    - intros b. rewrite El, Ed. apply Hbound.
    - rewrite E, El, Ed. destruct (windows l !! key); [|done]. destruct_and!. split_and!; try done; lia. }
  unfold try_attempt, Allow. destruct (over l (attempt_key a) (asked a)); [|destruct (count_of _ _ <? _)].
  1, 2: destruct (correct a).
  all: apply Hnow; try done; cbn; rewrite ?lookup_insert_ne, ?lookup_delete_ne, ?lookup_insert_ne by done; done.
Qed.

(** The instants at which the failures of [key] were recorded. *)
Definition failures (h : list attempt) : list Time :=
  answered <$> filter (λ a, attempt_key a = key ∧ correct a = false) h.

Lemma history_accounts h : ∀ l t F, in_int64 (duration l) → in_int64 (limit l) → 0 < duration l →
  1 <= limit l → in_time t h → (∀ a, a ∈ h → attempt_key a = key → correct a = false) →
  window_accounts l t F →
  ∃ l' t', window_accounts l' t' (reverse (failures (checked l h)) ++ F) ∧ limit l' = limit l ∧
    duration l' = duration l.
Proof.
  induction h as [|a h IH]; intros l t F Hd Hl Hpos Hlim Hh Hwrong HF; [by exists l, t|].
  destruct Hh as (Ht & Ht' & Hh). cbn [checked].
  assert (Hwrong' : ∀ b, b ∈ h → attempt_key b = key → correct b = false) by (intros; apply Hwrong; [by right|done]).
  destruct (decide (attempt_key a = key)) as [Hk|Hk].
  - assert (Hc : correct a = false) by (apply Hwrong; [by left|done]).
    pose proof (attempt_accounts a l t F Hd Hl Hpos Hlim Ht Ht' Hk Hc HF) as Ha.
    destruct (try_attempt a l) as [allowed l1]. destruct Ha as (Ha & El & Ed).
    destruct (IH l1 (answered a) (if allowed then answered a :: F else F)) as (l' & t' & H & El' & Ed');
      rewrite ?El, ?Ed; try done.
    exists l', t'. rewrite El', Ed', El, Ed. split; [|done]. destruct allowed; [|done].
    unfold failures. rewrite filter_cons, decide_True, fmap_cons, reverse_cons, <- app_assoc by done. exact H.
  - pose proof (other_accounts a l t F Hk Ht Ht' HF) as Ha.
    destruct (try_attempt a l) as [allowed l1]. destruct Ha as (Ha & El & Ed).
    destruct (IH l1 (answered a) F) as (l' & t' & H & El' & Ed'); rewrite ?El, ?Ed; try done.
    exists l', t'. rewrite El', Ed', El, Ed. split; [|done]. destruct allowed; [|done].
    unfold failures. rewrite filter_cons, decide_False by tauto. exact H.
Qed.
End bound.

(** whatever the attempts on the other keys, a client that only guesses wrong has at most twice the
    limit of its guesses checked in any span as long as the window, from an empty limiter. *)
Theorem guesses_bounded key bound window h t a :
  in_int64 bound → in_int64 window → 1 <= bound → 0 < window → in_time t h →
  (∀ x, x ∈ h → attempt_key x = key → correct x = false) →
  Z.of_nat (within a (a + window) (failures key (checked (NewLoginLimiter bound window) h))) <= 2 * bound.
Proof.
  intros Hb Hd Hlim Hpos Hh Hwrong.
  destruct (history_accounts key h (NewLoginLimiter bound window) t []) as (l' & t' & (_ & H & _) & El & Ed);
    try done.
  { split; [constructor|]. split; [|done]. intros b. cbn. unfold within. cbn. lia. }
  specialize (H a). rewrite app_nil_r, El, Ed in H. cbn in H.
  assert (E : within a (a + window) (reverse (failures key (checked (NewLoginLimiter bound window) h))) =
    within a (a + window) (failures key (checked (NewLoginLimiter bound window) h)))
    by (unfold within; apply Permutation_length, filter_Permutation, reverse_Permutation).
  rewrite E in H. lia.
Qed.
