(* ===== verification/Workers.v ===== *)
(** * The background workers and their health

    The tracker of worker health, the back-off of the durable workers and the loop
    that runs them, with what an operator reads from the tracker. *)

From S2P Require Import Prelude GoRuntime Domain.

(** ** The tracker *)

(* src/internal/operationalhealth/models.go:10-10 Healthy *)
Definition Healthy : string := "healthy".
(* src/internal/operationalhealth/models.go:11-11 Degraded *)
Definition Degraded : string := "degraded".
(* src/internal/operationalhealth/models.go:12-12 Stale *)
Definition Stale : string := "stale".
(* src/internal/operationalhealth/models.go:13-13 Failed *)
Definition Failed : string := "failed".
(* src/internal/operationalhealth/models.go:14-14 Paused *)
Definition Paused : string := "paused".
(* src/internal/operationalhealth/models.go:15-15 Unsupported *)
Definition Unsupported : string := "unsupported".
(* src/internal/operationalhealth/models.go:16-16 Maintenance *)
Definition Maintenance : string := "maintenance".
(* src/internal/operationalhealth/models.go:17-17 Unknown *)
Definition Unknown : string := "unknown".

(* src/internal/operationalhealth/models.go:20-33 Worker *)
Record Worker := mkWorker {
  Worker_Name : string;
  Worker_State : string;
  Worker_Running : bool;
  Worker_LastAttemptAt : option Time;
  Worker_LastSuccessAt : option Time;
  Worker_LastFailureAt : option Time;
  Worker_ConsecutiveFailures : Z;
  Worker_NextScheduledAt : option Time;
  Worker_CurrentDurationMS : Z;
  Worker_ErrorCode : string;
  Worker_RunsTotal : Z;
  Worker_FailuresTotal : Z
}.

Definition zero_Worker : Worker := mkWorker "" "" false None None None 0 None 0 "" 0 0.

(* src/internal/operationalhealth/tracker.go:9-12 workerState *)
Record workerState := mkState { state_worker : Worker; state_startedAt : option Time }.

Definition zero_state : workerState := mkState zero_Worker None.

(** The table of a tracker; the lock makes every operation one step. *)
(* src/internal/operationalhealth/tracker.go:17-21 Tracker *)
Definition Tracker := gmap string workerState.

(* src/internal/operationalhealth/tracker.go:23-25 NewTracker *)
Definition NewTracker : Tracker := ∅.

(** [t.workers[name]], the zero state when there is none. *)
Definition worker_of (t : Tracker) (name : string) : workerState := default zero_state (t !! name).

(** [uint64] counters. *)
Definition wrap_u64 (z : Z) : Z := z mod two64.

(* src/internal/operationalhealth/tracker.go:102-108 timePtr *)
Definition timePtr (value : Time) : option Time := if time_IsZero value then None else Some value.

(* src/internal/operationalhealth/tracker.go:27-35 Tracker.Register *)
Definition Register_worker (name : string) (paused : bool) (t : Tracker) : Tracker :=
  let state := if paused then Paused else Unknown in
  <[name := mkState (mkWorker name state false None None None 0 None 0 "" 0 0) None]> t.

(* src/internal/operationalhealth/tracker.go:37-45 Tracker.Pause *)
Definition Pause (name : string) (next : Time) (t : Tracker) : Tracker :=
  let w := state_worker (worker_of t name) in
  <[name := mkState (mkWorker name Paused false (Worker_LastAttemptAt w) (Worker_LastSuccessAt w)
      (Worker_LastFailureAt w) 0 (timePtr next) (Worker_CurrentDurationMS w) ""
      (Worker_RunsTotal w) (Worker_FailuresTotal w)) None]> t.

(* src/internal/operationalhealth/tracker.go:47-56 Tracker.Start *)
Definition Start (name : string) (next now : Time) (t : Tracker) : Tracker :=
  let w := state_worker (worker_of t name) in
  <[name := mkState (mkWorker name Healthy true (Some now) (Worker_LastSuccessAt w)
      (Worker_LastFailureAt w) (Worker_ConsecutiveFailures w) (timePtr next)
      (Worker_CurrentDurationMS w) (Worker_ErrorCode w)
      (wrap_u64 (Worker_RunsTotal w + 1)) (Worker_FailuresTotal w)) (Some now)]> t.

(* src/internal/operationalhealth/tracker.go:66-84 Tracker.finish *)
Definition finish (name code : string) (next now : Time) (t : Tracker) : Tracker :=
  let w := state_worker (worker_of t name) in
  if code =?? "" then
    <[name := mkState (mkWorker name Healthy false (Worker_LastAttemptAt w) (Some now)
        (Worker_LastFailureAt w) 0 (timePtr next) (Worker_CurrentDurationMS w) ""
        (Worker_RunsTotal w) (Worker_FailuresTotal w)) None]> t
  else
    let consecutive := wrap64 (Worker_ConsecutiveFailures w + 1) in
    let state := if 3 <=? consecutive then Failed else Degraded in
    <[name := mkState (mkWorker name state false (Worker_LastAttemptAt w) (Worker_LastSuccessAt w)
        (Some now) consecutive (timePtr next) (Worker_CurrentDurationMS w) code
        (Worker_RunsTotal w) (wrap_u64 (Worker_FailuresTotal w + 1))) None]> t.

(* src/internal/operationalhealth/tracker.go:58-60 Tracker.Success *)
Definition Success_worker (name : string) (next now : Time) (t : Tracker) : Tracker :=
  finish name "" next now t.

(* src/internal/operationalhealth/tracker.go:62-64 Tracker.Failure *)
Definition Failure_worker (name code : string) (next now : Time) (t : Tracker) : Tracker :=
  finish name code next now t.

(** [Duration.Milliseconds] truncates towards zero. *)
Definition Milliseconds (d : Duration) : Z := Z.quot d millisecond.

Definition measured (now : Time) (s : workerState) : Worker :=
  let w := state_worker s in
  match state_startedAt s with
  | Some started =>
      mkWorker (Worker_Name w) (Worker_State w) (Worker_Running w) (Worker_LastAttemptAt w)
        (Worker_LastSuccessAt w) (Worker_LastFailureAt w) (Worker_ConsecutiveFailures w)
        (Worker_NextScheduledAt w) (Milliseconds (time_Sub now started)) (Worker_ErrorCode w)
        (Worker_RunsTotal w) (Worker_FailuresTotal w)
  | None => w
  end.

Section snapshot.
Context {M : MapOrder}.

(* src/internal/operationalhealth/tracker.go:86-100 Tracker.Snapshot *)
Definition Tracker_Snapshot (now : Time) (t : Tracker) : list Worker :=
  sort_Slice (λ a b, String.ltb (Worker_Name a) (Worker_Name b))
    ((λ kv, measured now kv.2) <$> map_range t).
End snapshot.

(** ** The back-off *)

(* src/internal/jobs/controlplane.go:158-167 workerBackoff *)
Definition workerBackoff (failures : Z) : Duration :=
  if failures <? 1 then second
  else
    let delay := wrap64 (Z.shiftl second (Z.min (failures - 1) 5)) in
    if 30 * second <? delay then 30 * second else delay.

(** ** The loop of a durable worker *)

(** What one turn reads from outside: the instants of its two tracker calls, as the caller and
    as the tracker read them, and the outcome of [RunOnce]. *)
Record turn := mkTurn {
  turn_clock : Time * Time * (Time * Time);
  turn_worked : bool;
  turn_error : bool;
  (** [ctx.Err() != nil] after the run *)
  turn_stopped : bool
}.

(** The local variables of the loop. *)
Record loop := mkLoop { loop_failures : Z; loop_tracker : option Tracker }.

(** One turn: the delay before the next one, and the variables after it. *)
(* src/internal/jobs/controlplane.go:26-51 RunDeploymentExecutor *)
Definition worker_turn (name code : string) (i : turn) (s : loop) : Duration * loop :=
  let '(at1, now1, (at2, now2)) := turn_clock i in
  let tracker := Start name (at1 + second) now1 <$> loop_tracker s in
  let failed := turn_error i && negb (turn_stopped i) in
  let failures := if failed then wrap64 (loop_failures s + 1) else 0 in
  let tracker :=
    (if failed then Failure_worker name code (at2 + workerBackoff failures) now2
     else Success_worker name (at2 + second) now2) <$> tracker in
  let delay :=
    if turn_worked i then 10 * millisecond
    else if 0 <? failures then workerBackoff failures else second in
  (delay, mkLoop failures tracker).

(** The delays of a run of the loop, with its final variables. *)
Fixpoint worker_loop (name code : string) (h : list turn) (s : loop) : list Duration * loop :=
  match h with
  | [] => ([], s)
  | i :: h =>
      let '(delay, s) := worker_turn name code i s in
      let '(delays, s) := worker_loop name code h s in (delay :: delays, s)
  end.

(** The failures and the tracker of a run, with its delays. *)
(* src/internal/jobs/controlplane.go:19-60 RunDeploymentExecutor *)
Definition RunDeploymentExecutor (h : list turn) (tracker : option Tracker) : list Duration * loop :=
  worker_loop "deployment" "DEPLOYMENT_WORKER_FAILED" h (mkLoop 0 tracker).

(* src/internal/jobs/controlplane.go:62-103 RunOperationalCommandExecutor *)
Definition RunOperationalCommandExecutor (h : list turn) (tracker : option Tracker) : list Duration * loop :=
  worker_loop "operational_commands" "OPERATIONAL_COMMAND_WORKER_FAILED" h (mkLoop 0 tracker).

(** ** The back-off doubles up to half a minute *)

Lemma workerBackoff_doubles n : 1 <= n → workerBackoff n = Z.min (2 ^ (n - 1) * second) (30 * second).
Proof.
  intros Hn. unfold workerBackoff. rewrite (proj2 (Z.ltb_ge n 1)) by lia.
  destruct (Z.le_gt_cases n 5) as [H|H].
  - assert (n = 1 ∨ n = 2 ∨ n = 3 ∨ n = 4 ∨ n = 5) as [->|[->|[->|[->| ->]]]] by lia; reflexivity.
  - rewrite Z.min_r by lia. change (30 * second <? wrap64 (Z.shiftl second 5)) with true. cbv iota zeta.
    assert (2 ^ 5 <= 2 ^ (n - 1)) by (apply Z.pow_le_mono_r; lia). unfold second. lia.
Qed.

Lemma workerBackoff_bounds n : second <= workerBackoff n <= 30 * second.
Proof.
  destruct (Z.lt_ge_cases n 1) as [H|H].
  - unfold workerBackoff. rewrite (proj2 (Z.ltb_lt n 1)) by done. unfold second. lia.
  - rewrite workerBackoff_doubles by done.
    assert (2 ^ 0 <= 2 ^ (n - 1)) by (apply Z.pow_le_mono_r; lia). unfold second. lia.
Qed.

(** ** Histories of a tracker *)

Inductive tracker_op :=
| TRegister (name : string) (paused : bool)
| TPause (name : string) (next : Time)
| TStart (name : string) (next now : Time)
| TSuccess (name : string) (next now : Time)
| TFailure (name code : string) (next now : Time).

Definition op_name (op : tracker_op) : string :=
  match op with
  | TRegister name _ | TPause name _ | TStart name _ _ | TSuccess name _ _ | TFailure name _ _ _ => name
  end.

Definition apply_tracker (op : tracker_op) (t : Tracker) : Tracker :=
  match op with
  | TRegister name paused => Register_worker name paused t
  | TPause name next => Pause name next t
  | TStart name next now => Start name next now t
  | TSuccess name next now => Success_worker name next now t
  | TFailure name code next now => Failure_worker name code next now t
  end.

(** The tracker after a history, whose head is the latest operation. *)
Fixpoint tracked (h : list tracker_op) : Tracker :=
  match h with [] => NewTracker | op :: h => apply_tracker op (tracked h) end.

Definition on (name : string) (op : tracker_op) : bool := op_name op =?? name.
Definition registers (name : string) (op : tracker_op) : bool :=
  on name op && match op with TRegister _ _ => true | _ => false end.
Definition starts (name : string) (op : tracker_op) : bool :=
  on name op && match op with TStart _ _ _ => true | _ => false end.
Definition fails (name : string) (op : tracker_op) : bool :=
  on name op && match op with TFailure _ code _ _ => negb (code =?? "") | _ => false end.
(** A failure without a code counts as a success. *)
Definition clears (name : string) (op : tracker_op) : bool :=
  on name op && match op with
                | TRegister _ _ | TPause _ _ | TSuccess _ _ _ => true
                | TFailure _ code _ _ => code =?? ""
                | TStart _ _ _ => false
                end.

(** The operations after the last one that satisfies [p]. *)
Fixpoint since {A} (p : A → bool) (h : list A) : list A :=
  match h with [] => [] | op :: h => if p op then [] else op :: since p h end.

Definition count {A} (p : A → bool) (h : list A) : Z := Z.of_nat (length (List.filter p h)).

Lemma count_cons {A} (p : A → bool) x h : count p (x :: h) = (if p x then 1 else 0) + count p h.
Proof. unfold count. cbn. destruct (p x); cbn; lia. Qed.

Lemma count_since_range {A} (p q : A → bool) h : 0 <= count p (since q h) <= Z.of_nat (length h).
Proof.
  induction h as [|x h IH]; cbn [since length]; [by unfold count|].
  destruct (q x); [unfold count; cbn; lia|]. rewrite count_cons. destruct (p x); lia.
Qed.

Lemma worker_of_insert n name s (t : Tracker) :
  worker_of (<[name := s]> t) n = if name =?? n then s else worker_of t n.
Proof.
  unfold worker_of, Tracker in *. case_bool_decide as E; [subst; by rewrite lookup_insert_eq|by rewrite lookup_insert_ne].
Qed.

(** What the history says of the state of a worker. *)
Definition history_state (n : string) (h : list tracker_op) : string :=
  match List.filter (on n) h with
  | [] => ""
  | TRegister _ paused :: _ => if paused then Paused else Unknown
  | TPause _ _ :: _ => Paused
  | TFailure _ code _ _ :: _ =>
      if code =?? "" then Healthy
      else if 3 <=? count (fails n) (since (clears n) h) then Failed else Degraded
  | _ => Healthy
  end.

Definition reported (n : string) (h : list tracker_op) (s : workerState) : Prop :=
  Worker_RunsTotal (state_worker s) = count (starts n) (since (registers n) h) ∧
  Worker_FailuresTotal (state_worker s) = count (fails n) (since (registers n) h) ∧
  Worker_ConsecutiveFailures (state_worker s) = count (fails n) (since (clears n) h) ∧
  Worker_State (state_worker s) = history_state n h ∧
  (Worker_Running (state_worker s) = true ↔ is_Some (state_startedAt s)).

(** An operation on another worker changes nothing of this one. *)
Lemma apply_other n op t : on n op = false → worker_of (apply_tracker op t) n = worker_of t n.
Proof.
  unfold on. intros H. destruct op; cbn [apply_tracker op_name] in *;
    unfold Register_worker, Pause, Start, Success_worker, Failure_worker, finish;
    repeat match goal with |- context [if ?b then <[_ := _]> _ else _] => destruct b end;
    rewrite worker_of_insert, H; done.
Qed.

Lemma reported_other n op h : on n op = false →
  reported n h (worker_of (tracked h) n) → reported n (op :: h) (worker_of (tracked (op :: h)) n).
Proof.
  intros Ho H. cbn [tracked]. rewrite apply_other by done.
  assert (Hr : registers n op = false) by (unfold registers; by rewrite Ho).
  assert (Hc : clears n op = false) by (unfold clears; by rewrite Ho).
  assert (Hs : starts n op = false) by (unfold starts; by rewrite Ho).
  assert (Hf : fails n op = false) by (unfold fails; by rewrite Ho).
  unfold reported, history_state in *. cbn [since List.filter]. rewrite Hr, Hc, Ho, !count_cons, Hs, Hf. exact H.
Qed.

Lemma reported_on n op h : on n op = true → Z.of_nat (length h) < two63 - 1 →
  reported n h (worker_of (tracked h) n) → reported n (op :: h) (worker_of (tracked (op :: h)) n).
Proof.
  intros Ho Hlen (H1 & H2 & H3 & H4 & H5).
  pose proof (count_since_range (starts n) (registers n) h) as B1.
  pose proof (count_since_range (fails n) (registers n) h) as B2.
  pose proof (count_since_range (fails n) (clears n) h) as B3.
  assert (W : ∀ z, 0 <= z <= Z.of_nat (length h) → wrap64 (z + 1) = 1 + z ∧ wrap_u64 (z + 1) = 1 + z).
  { intros z Hz. rewrite wrap64_id by (unfold in_int64, two63 in *; lia). unfold wrap_u64.
    rewrite Z.mod_small by (unfold two63, two64 in *; lia). lia. }
  pose proof (W _ B1) as [_ W1]. pose proof (W _ B2) as [_ W2]. pose proof (W _ B3) as [W3 _].
  assert (Hn : op_name op = n) by (unfold on in Ho; by apply bool_decide_eq_true in Ho).
  unfold reported, history_state. cbn [tracked since List.filter]. unfold registers, clears. rewrite Ho.
  destruct op as [name paused|name next|name next now|name next now|name code next now]; cbn in Hn; subst name;
    cbn [apply_tracker andb]; unfold Register_worker, Pause, Start, Success_worker, Failure_worker, finish;
    try (destruct (code =?? "") eqn:Ec; cbn [negb]);
    cbv zeta; try (change ("" =?? "") with true; cbv iota);
    rewrite !worker_of_insert, (bool_decide_eq_true_2 (n = n)) by done; rewrite ?count_cons;
    unfold starts, fails; rewrite ?Ho, ?Ec; cbn [andb negb state_worker state_startedAt].
  all: cbn; rewrite ?H1, ?H2, ?H3, ?W1, ?W2, ?W3.
  all: split_and!; try done; try (unfold count; cbn; lia).
  all: try (by rewrite is_Some_alt).
  all: try (split; [done|intros [? [=]]]).
Qed.

Lemma tracked_reported n h : Z.of_nat (length h) < two63 → reported n h (worker_of (tracked h) n).
Proof.
  induction h as [|op h IH]; intros Hlen.
  { split_and!; try done. cbn. split; [done|by intros [? [=]]]. }
  cbn [length] in Hlen. destruct (on n op) eqn:Ho.
  - apply reported_on; [done|lia|]. apply IH. lia.
  - apply reported_other; [done|]. apply IH. lia.
Qed.

Lemma tracked_names h n s : tracked h !! n = Some s → Worker_Name (state_worker s) = n.
Proof.
  assert (Hi : ∀ t name s', (∀ n s, t !! n = Some s → Worker_Name (state_worker s) = n) →
    Worker_Name (state_worker s') = name → ∀ n s, (<[name := s']> t : gmap _ _) !! n = Some s →
    Worker_Name (state_worker s) = n).
  { intros t name s' Ht Hs m r. rewrite lookup_insert_Some. intros [[<- <-]|[_ H]]; eauto. }
  revert n s. induction h as [|op h IH]; [done|].
  destruct op; cbn [tracked apply_tracker];
    unfold Register_worker, Pause, Start, Success_worker, Failure_worker, finish; cbv zeta;
    repeat match goal with |- context [if ?b then <[_ := _]> _ else _] => destruct b end; by apply Hi.
Qed.

(** ** The snapshot *)

Lemma snapshot_order (M M' : MapOrder) now h :
  Tracker_Snapshot (M := M) now (tracked h) = Tracker_Snapshot (M := M') now (tracked h).
Proof.
  unfold Tracker_Snapshot. apply sort_Slice_unique.
  - apply (StrictWeak_key Worker_Name String.ltb), _.
  - assert (Hin : ∀ x, x ∈ (λ kv, measured now kv.2) <$> map_range (MapOrder := M) (tracked h) →
      ∃ s, tracked h !! Worker_Name x = Some s ∧ x = measured now s).
    { intros x ([n s] & -> & Hs)%list_elem_of_fmap. exists s. split; [|done].
      rewrite map_range_perm in Hs. apply elem_of_map_to_list in Hs. rewrite <- Hs. cbn. f_equal.
      rewrite <- (tracked_names h n s Hs). unfold measured. by destruct (state_startedAt s). }
    intros x y (s & Hs & ->)%Hin (s' & Hs' & ->)%Hin H1 H2.
    assert (E : Worker_Name (measured now s) = Worker_Name (measured now s')) by (by apply ltb_total).
    rewrite E in Hs. congruence.
  - apply fmap_Permutation. rewrite !map_range_perm. reflexivity.
Qed.

(** what an operator reads of a worker is its history: the runs and failures since it was
    registered, the failures in a row, [failed] exactly after the third failure in a row; and the
    snapshot does not depend on the iteration order of the map. *)
Theorem tracker_reports_history n h (M M' : MapOrder) now : Z.of_nat (length h) < two63 →
  reported n h (worker_of (tracked h) n) ∧
  (Worker_State (state_worker (worker_of (tracked h) n)) = Failed ↔
    (∃ op, head (List.filter (on n) h) = Some op ∧ fails n op = true) ∧
    3 <= count (fails n) (since (clears n) h)) ∧
  Tracker_Snapshot (M := M) now (tracked h) = Tracker_Snapshot (M := M') now (tracked h).
Proof.
  intros Hlen. pose proof (tracked_reported n h Hlen) as H. split; [done|]. split; [|apply snapshot_order].
  destruct H as (_ & _ & _ & -> & _). unfold history_state.
  destruct (List.filter (on n) h) as [|op l] eqn:E; [split; [done|intros [(? & [=] & _) _]]|].
  assert (Hi : In op (List.filter (on n) h)) by (rewrite E; by left).
  apply filter_In in Hi as [_ Ho].
  cbn [head]. destruct op as [name []|name next|name next now'|name next now'|name code next now'];
    try (split; [done|intros [(? & [= <-] & Hf) _]; unfold fails in Hf; by rewrite Ho in Hf]).
  destruct (code =?? "") eqn:Ec.
  - split; [done|]. intros [(? & [= <-] & Hf) _]. apply bool_decide_eq_true in Ec.
    unfold fails in Hf. rewrite Ho in Hf. subst code. discriminate Hf.
  - destruct (3 <=? _) eqn:E3; bool_simp.
    + split; [|done]. intros _. split; [|lia]. eexists. split; [done|]. unfold fails. rewrite Ho.
      by rewrite bool_decide_eq_false_2.
    + split; [done|]. intros [_ ?]. lia.
Qed.

(** ** The loop backs off *)

Definition failing (i : turn) : bool := turn_error i && negb (turn_stopped i).

(** The failing turns at the end of a run. *)
Definition in_a_row (h : list turn) : Z := Z.of_nat (length (since (λ i, negb (failing i)) (reverse h))).

Lemma in_a_row_snoc h i : in_a_row (h ++ [i]) = if failing i then in_a_row h + 1 else 0.
Proof.
  unfold in_a_row. rewrite reverse_snoc. cbn [since]. destruct (failing i); cbn [negb length]; [lia|done].
Qed.

Lemma in_a_row_range h : 0 <= in_a_row h <= Z.of_nat (length h).
Proof.
  induction h as [|i h IH] using rev_ind; [done|]. rewrite in_a_row_snoc, length_app. cbn.
  destruct (failing i); lia.
Qed.

Lemma worker_loop_snoc name code h i s :
  worker_loop name code (h ++ [i]) s =
    let '(delays, s1) := worker_loop name code h s in
    let '(delay, s2) := worker_turn name code i s1 in (delays ++ [delay], s2).
Proof.
  revert s. induction h as [|j h IH]; intros s; cbn [worker_loop app].
  - by destruct (worker_turn name code i s).
  - destruct (worker_turn name code j s) as [d s1]. rewrite IH.
    destruct (worker_loop name code h s1) as [ds s2]. by destruct (worker_turn name code i s2).
Qed.

Definition consecutive_of (t : Tracker) (name : string) : Z :=
  Worker_ConsecutiveFailures (state_worker (worker_of t name)).

Definition delay_after (worked : bool) (k : Z) : Duration :=
  if worked then 10 * millisecond
  else if 0 <? k then Z.min (2 ^ (k - 1) * second) (30 * second) else second.

Lemma delay_after_bounds worked k : 10 * millisecond <= delay_after worked k <= 30 * second.
Proof.
  unfold delay_after. destruct worked; [unfold millisecond, second; lia|].
  destruct (0 <? k) eqn:E; bool_simp; [|unfold millisecond, second; lia].
  pose proof (workerBackoff_bounds k). rewrite workerBackoff_doubles in * by lia.
  unfold millisecond, second in *. lia.
Qed.

Lemma worker_turn_spec name code i k t : 0 <= k < two63 - 1 → code ≠ "" → consecutive_of t name = k →
  let k' := if failing i then k + 1 else 0 in
  ∃ t', worker_turn name code i (mkLoop k (Some t)) = (delay_after (turn_worked i) k', mkLoop k' (Some t')) ∧
    consecutive_of t' name = k' ∧
    Worker_State (state_worker (worker_of t' name)) =
      (if k' =? 0 then Healthy else if 3 <=? k' then Failed else Degraded).
Proof.
  intros Hk Hcode Ht k'. unfold worker_turn. destruct (turn_clock i) as [[at1 now1] [at2 now2]].
  cbn [loop_failures loop_tracker fmap option_fmap option_map]. fold (failing i).
  assert (Hw : wrap64 (k + 1) = k + 1) by (apply wrap64_id; unfold in_int64, two63 in *; lia).
  rewrite Hw. fold k'.
  assert (Hd : (if turn_worked i then 10 * millisecond
    else if 0 <? k' then workerBackoff k' else second) = delay_after (turn_worked i) k').
  { unfold delay_after. destruct (0 <? k') eqn:E; bool_simp; [|done]. by rewrite workerBackoff_doubles by lia. }
  rewrite Hd. eexists. split; [reflexivity|]. unfold consecutive_of in *.
  subst k'. destruct (failing i); unfold Failure_worker, Success_worker, finish, Start; cbv zeta.
  - rewrite (bool_decide_eq_false_2 (code = "")) by done.
    rewrite !worker_of_insert, (bool_decide_eq_true_2 (name = name)) by done. cbn. rewrite Ht, Hw.
    split; [done|]. by rewrite (proj2 (Z.eqb_neq (k + 1) 0)) by lia.
  - change ("" =?? "") with true. cbv iota.
    by rewrite !worker_of_insert, (bool_decide_eq_true_2 (name = name)) by done.
Qed.

(** a durable worker waits one second, doubled for each further failure in a row up to half a
    minute, and ten milliseconds after a turn that did some work; no delay is outside these bounds,
    and the tracker counts the same failures in a row as the loop and reports [failed] from the third. *)
Theorem worker_backs_off name code h i t :
  code ≠ "" → Z.of_nat (length h) < two63 - 1 → consecutive_of t name = 0 →
  let '(delays, s) := worker_loop name code (h ++ [i]) (mkLoop 0 (Some t)) in
  let k := in_a_row (h ++ [i]) in
  last delays = Some (delay_after (turn_worked i) k) ∧
  Forall (λ d, 10 * millisecond <= d <= 30 * second) delays ∧
  loop_failures s = k ∧
  ∃ t', loop_tracker s = Some t' ∧ consecutive_of t' name = k ∧
    Worker_State (state_worker (worker_of t' name)) =
      (if k =? 0 then Healthy else if 3 <=? k then Failed else Degraded).
Proof.
  intros Hcode Hlen Ht.
  assert (H : ∃ delays t1, worker_loop name code h (mkLoop 0 (Some t)) =
    (delays, mkLoop (in_a_row h) (Some t1)) ∧ consecutive_of t1 name = in_a_row h ∧
    Forall (λ d, 10 * millisecond <= d <= 30 * second) delays).
  { induction h as [|j h IH] using rev_ind; [by exists [], t|].
    rewrite length_app in Hlen. cbn in Hlen. destruct IH as (delays & t1 & E & Hc & Hd); [lia|].
    pose proof (in_a_row_range h).
    destruct (worker_turn_spec name code j (in_a_row h) t1) as (t2 & E2 & Hc2 & _); [lia|done|done|].
    rewrite worker_loop_snoc, E, E2, in_a_row_snoc. eexists _, t2. split; [reflexivity|]. split; [done|].
    apply Forall_app. split; [done|]. constructor; [apply delay_after_bounds|done]. }
  destruct H as (delays & t1 & E & Hc & Hd). pose proof (in_a_row_range h).
  destruct (worker_turn_spec name code i (in_a_row h) t1) as (t2 & E2 & Hc2 & Hs); [lia|done|done|].
  rewrite worker_loop_snoc, E, E2, in_a_row_snoc. split; [by rewrite last_snoc|].
  split; [apply Forall_app; split; [done|]; constructor; [apply delay_after_bounds|done]|].
  split; [done|]. exists t2. done.
Qed.

(** The delay that is logged and shown as the next run after a failure is the back-off; when the
    failing turn did some work the loop does not wait for it. *)
Lemma failing_work_not_delayed name code at1 now1 at2 now2 k t : code ≠ "" →
  let '(delay, s) := worker_turn name code (mkTurn (at1, now1, (at2, now2)) true true false) (mkLoop k (Some t)) in
  delay = 10 * millisecond ∧
  ∃ t', loop_tracker s = Some t' ∧
    Worker_NextScheduledAt (state_worker (worker_of t' name)) =
      timePtr (at2 + workerBackoff (wrap64 (k + 1))).
Proof.
  intros Hcode. cbn. split; [done|]. eexists. split; [reflexivity|].
  unfold Failure_worker, finish, Start. cbv zeta. rewrite (bool_decide_eq_false_2 (code = "")) by done.
  by rewrite worker_of_insert, (bool_decide_eq_true_2 (name = name)) by done.
Qed.
