(* ===== verification/Management.v ===== *)
(** * internal/domain/management.go and internal/jobs/health.go: clusters, nodes, health

    The management service and the health poller as programs over the interfaces,
    and what their writes guarantee. *)

From S2P Require Import Prelude GoRuntime Json Domain Compat ControlModel StoreRecords.
From S2P Require Import Effects ControlEffects.

Section management.
Context {R : Runtime}.

(* src/internal/domain/management.go:498-509 newUserAudit *)
Definition newUserAudit (actor : Actor) (action resourceType resourceID : string) (metadata : json)
  (at_ : Time) : control (res AuditEvent) :=
  try id <- call GenerateID;
  done_with (mkAuditEvent id "user" (Some (Actor_UserID actor)) "" action resourceType
    (Some resourceID) (Actor_RequestID actor) metadata at_ "" "").

(** The result of a pure function, as a step of a program. *)
Definition pure_step {A} (r : res A) : control (res A) := Ret r.

(** ** Clusters *)

(* src/internal/domain/management.go:52-56 CreateClusterInput *)
Record CreateClusterInput := mkCreateClusterInput {
  ClusterInput_Name : string;
  ClusterInput_Description : string;
  ClusterInput_ReconciliationPolicy : string
}.

(** The checks of a name and a description, trimmed. *)
Definition checked_cluster (input : CreateClusterInput) (policy : string) : control (res Cluster) :=
  let name := TrimSpace (ClusterInput_Name input) in
  let description := TrimSpace (ClusterInput_Description input) in
  try _ <- pure_step (ValidateResourceName "name" name);
  try _ <- guard (len description <=? 2000)
    (Validation "description" "must not exceed 2000 characters");
  let policy := if ClusterInput_ReconciliationPolicy input =?? "" then policy
                else ClusterInput_ReconciliationPolicy input in
  try _ <- guard (ValidReconciliationPolicy policy)
    (Validation "reconciliationPolicy" "must be enforce, alert, or manual");
  done_with (mkCluster "" name description policy None 1 0 0).

(* src/internal/domain/management.go:58-87 ManagementService.CreateCluster *)
Definition Management_CreateCluster (actor : Actor) (input : CreateClusterInput) : control (res Cluster) :=
  try c <- checked_cluster input ReconciliationManual;
  try id <- call GenerateID;
  do now <- call Now;
  let cluster := mkCluster id (Cluster_Name c) (Cluster_Description c) (Cluster_ReconciliationPolicy c)
    None 1 now now in
  try event <- newUserAudit actor "cluster.created" "cluster" id
    (JObj [("name", JStr (Cluster_Name cluster));
           ("reconciliationPolicy", JStr (Cluster_ReconciliationPolicy cluster))]) now;
  try _ <- call (Repo_CreateCluster cluster event);
  done_with cluster.

(* src/internal/domain/management.go:89-91 ManagementService.ListClusters *)
Definition Management_ListClusters : control (res (list Cluster)) := call Repo_ListClusters.

(* src/internal/domain/management.go:93-98 ManagementService.Cluster *)
Definition Management_Cluster (id : string) : control (res Cluster) :=
  try _ <- guard (ValidID id) (Validation "clusterId" "must be a valid UUID");
  call (Repo_ClusterByID id).

(* src/internal/domain/management.go:100-142 ManagementService.UpdateCluster *)
Definition Management_UpdateCluster (actor : Actor) (id : string) (expectedVersion : Z)
  (input : CreateClusterInput) : control (res Cluster) :=
  try _ <- guard (1 <=? expectedVersion) (Validation "version" "must be a positive integer");
  try old <- Management_Cluster id;
  try c <- checked_cluster input (Cluster_ReconciliationPolicy old);
  let previousPolicy := Cluster_ReconciliationPolicy old in
  do now <- call Now;
  let cluster := mkCluster (Cluster_ID old) (Cluster_Name c) (Cluster_Description c)
    (Cluster_ReconciliationPolicy c) (Cluster_ActiveRevisionID old) (Cluster_Version old)
    (Cluster_CreatedAt old) now in
  let changed := negb (previousPolicy =?? Cluster_ReconciliationPolicy cluster) in
  let action := if changed then "cluster.reconciliation_policy_changed" else "cluster.updated" in
  try event <- newUserAudit actor action "cluster" id
    (JObj ([("name", JStr (Cluster_Name cluster));
            ("reconciliationPolicy", JStr (Cluster_ReconciliationPolicy cluster))] ++
           when changed ("previousReconciliationPolicy", JStr previousPolicy))) now;
  try _ <- call (Repo_UpdateCluster cluster expectedVersion event);
  done_with (mkCluster (Cluster_ID cluster) (Cluster_Name cluster) (Cluster_Description cluster)
    (Cluster_ReconciliationPolicy cluster) (Cluster_ActiveRevisionID cluster)
    (wrap64 (expectedVersion + 1)) (Cluster_CreatedAt cluster) (Cluster_UpdatedAt cluster)).

(** ** The probe of a node *)

(* src/internal/domain/management.go:475-483 validateNodeCredentials *)
Definition validateNodeCredentials (username password : string) : res unit :=
  let length := len (TrimSpace username) in
  if (length <? 1) || (256 <? length)
  then Err (Validation "username" "must contain between 1 and 256 characters")
  else if (len password <? 1) || (4096 <? len password)
  then Err (Validation "password" "must contain between 1 and 4096 bytes")
  else Ok tt.

(* src/internal/domain/management.go:485-496 healthFromProbe *)
Definition healthFromProbe (result : NodeProbeResult) (enabled : bool) : string * string :=
  if negb enabled then (NodeDisabled, "")
  else if negb (Probe_Running result) then (NodeUnreachable, "NODE_DNS_NOT_RUNNING")
  else if negb (Probe_Compatibility result =?? CompatibilitySupported) then (NodeIncompatible, "")
  else (NodeHealthy, "").

(* src/internal/domain/management.go:144-153 CreateNodeInput *)
Record CreateNodeInput := mkCreateNodeInput {
  NodeInput_ClusterID : string;
  NodeInput_Name : string;
  NodeInput_BaseURL : string;
  NodeInput_CertificatePolicy : string;
  NodeInput_CustomCAPEM : string;
  NodeInput_Username : string;
  NodeInput_Password : string;
  NodeInput_Enabled : bool
}.

Definition input_credentials (input : CreateNodeInput) : NodeCredentials :=
  mkNodeCredentials (NodeInput_Username input) (NodeInput_Password input).

(** The checks both [ValidateNodeCandidate] and [CreateNode] make; the base URL they accept. *)
(* src/internal/domain/management.go:156-175 ManagementService.ValidateNodeCandidate *)
Definition checked_node (input : CreateNodeInput) : control (res string) :=
  try _ <- guard (ValidID (NodeInput_ClusterID input)) (Validation "clusterId" "must be a valid UUID");
  try _ <- call (Repo_ClusterByID (NodeInput_ClusterID input));
  try _ <- pure_step (ValidateResourceName "name" (TrimSpace (NodeInput_Name input)));
  try _ <- pure_step (validateNodeCredentials (NodeInput_Username input) (NodeInput_Password input));
  try _ <- pure_step (ValidateCertificatePolicy (NodeInput_CertificatePolicy input)
                        (NodeInput_CustomCAPEM input));
  pure_step (NormaliseNodeURL (NodeInput_BaseURL input) (NodeInput_CertificatePolicy input)).

(* src/internal/domain/management.go:155-190 ManagementService.ValidateNodeCandidate *)
Definition ValidateNodeCandidate (input : CreateNodeInput) : control (res NodeProbeResult) :=
  try baseURL <- checked_node input;
  try result <- call (ProbeStatus (mkNodeProbeRequest baseURL (NodeInput_CertificatePolicy input)
    (NodeInput_CustomCAPEM input) (input_credentials input)));
  if Probe_Compatibility result =?? CompatibilityUnsupported then
    fail (NewError ErrorCapability ("Unsupported AdGuard Home version. Minimum supported version: 0.107.78. Detected version: " +:+ Probe_Version result))
  else if negb (Probe_Compatibility result =?? CompatibilitySupported) then
    fail (NewError ErrorCapability ("AdGuard Home version compatibility could not be established. Minimum supported version: 0.107.78. Detected version: " +:+ Probe_Version result))
  else done_with result.

(** ** Nodes *)

(* src/internal/domain/management.go:192-247 ManagementService.CreateNode *)
Definition Management_CreateNode (actor : Actor) (input : CreateNodeInput) : control (res Node) :=
  try baseURL <- checked_node input;
  try probeResult <- ValidateNodeCandidate input;
  try id <- call GenerateID;
  try envelope <- call (Encrypt id (input_credentials input));
  do now <- call Now;
  let '(health, errorCode) := healthFromProbe probeResult (NodeInput_Enabled input) in
  let name := TrimSpace (NodeInput_Name input) in
  let node := mkNode id (NodeInput_ClusterID input) name baseURL (NodeInput_CertificatePolicy input)
    (NodeInput_Enabled input) false health (Probe_Compatibility probeResult) (Probe_Version probeResult)
    (Some now) (Some now) (Some (Probe_LatencyMS probeResult)) errorCode None "" "pending" None 1 now now in
  try event <- newUserAudit actor "node.created" "node" id
    (JObj [("clusterId", JStr (NodeInput_ClusterID input)); ("name", JStr name);
           ("certificatePolicy", JStr (NodeInput_CertificatePolicy input))]) now;
  let record := mkNodeRecord node
    (mkNodeSecretMaterial envelope (TrimSpace (NodeInput_CustomCAPEM input))) in
  try _ <- call (Repo_CreateNode record event);
  done_with node.

(* src/internal/domain/management.go:249-257 ManagementService.ListNodes *)
Definition Management_ListNodes (clusterID : string) : control (res (list Node)) :=
  try _ <- guard (ValidID clusterID) (Validation "clusterId" "must be a valid UUID");
  try _ <- call (Repo_ClusterByID clusterID);
  call (Repo_ListNodes clusterID).

(* src/internal/domain/management.go:259-264 ManagementService.Node *)
Definition Management_Node (id : string) : control (res Node) :=
  try _ <- guard (ValidID id) (Validation "nodeId" "must be a valid UUID");
  call (Repo_NodeByID id).

(* src/internal/domain/management.go:266-275 UpdateNodeInput *)
Record UpdateNodeInput := mkUpdateNodeInput {
  UpdateInput_Name : string;
  UpdateInput_BaseURL : string;
  UpdateInput_CertificatePolicy : string;
  UpdateInput_CustomCAPEM : option string;
  UpdateInput_Username : option string;
  UpdateInput_Password : option string;
  UpdateInput_Enabled : bool;
  UpdateInput_ExpectedVersion : Z
}.

(** [s.credentials.Decrypt], whose error is replaced. *)
Definition stored_credentials (id : string) (record : NodeRecord) : control (res NodeCredentials) :=
  do r <- call (Decrypt id (Secrets_Credentials (Record_Secrets record)));
  match r with
  | Ok credentials => done_with credentials
  | Err _ => fail (TextError "stored node credentials could not be decrypted")
  end.

(* src/internal/domain/management.go:292-298 ManagementService.UpdateNode *)
Definition updated_ca (input : UpdateNodeInput) (record : NodeRecord) : string :=
  if UpdateInput_CertificatePolicy input =?? CertificateCustomCA then
    match UpdateInput_CustomCAPEM input with
    | Some pem => TrimSpace pem
    | None => Secrets_CustomCAPEM (Record_Secrets record)
    end
  else "".

(** The credentials after the update, [None] when they stay. *)
(* src/internal/domain/management.go:310-319 ManagementService.UpdateNode *)
Definition replaced_credentials (input : UpdateNodeInput) : res (option NodeCredentials) :=
  match UpdateInput_Username input, UpdateInput_Password input with
  | None, None => Ok None
  | Some username, Some password =>
      match validateNodeCredentials username password with
      | Ok _ => Ok (Some (mkNodeCredentials username password))
      | Err e => Err e
      end
  | _, _ => Err (Validation "credentials" "username and password must be supplied together")
  end.

(** The node with the observation of a probe at [now]. *)
(* src/internal/domain/management.go:329-337 ManagementService.UpdateNode *)
Definition probed_node (node : Node) (result : NodeProbeResult) (now : Time) : Node :=
  let '(health, errorCode) := healthFromProbe result true in
  mkNode (Node_ID node) (Node_ClusterID node) (Node_Name node) (Node_BaseURL node)
    (Node_CertificatePolicy node) (Node_Enabled node) (Node_MaintenanceMode node) health
    (Probe_Compatibility result) (Probe_Version result) (Some now) (Some now)
    (Some (Probe_LatencyMS result)) errorCode (Node_AppliedRevisionID node) (Node_AppliedHash node)
    (Node_ConvergenceStatus node) (Node_LastReconciledAt node) (Node_RecordVersion node)
    (Node_CreatedAt node) (Node_UpdatedAt node).

(* src/internal/domain/management.go:345-359 ManagementService.UpdateNode *)
Definition renamed_node (node : Node) (input : UpdateNodeInput) (baseURL : string) (now : Time) : Node :=
  mkNode (Node_ID node) (Node_ClusterID node) (TrimSpace (UpdateInput_Name input)) baseURL
    (UpdateInput_CertificatePolicy input) (UpdateInput_Enabled input) (Node_MaintenanceMode node)
    (if UpdateInput_Enabled input then Node_HealthStatus node else NodeDisabled)
    (Node_CompatibilityStatus node) (Node_Version node) (Node_LastSeenAt node) (Node_LastPolledAt node)
    (Node_LatencyMS node) (if UpdateInput_Enabled input then Node_LastErrorCode node else "")
    (Node_AppliedRevisionID node) (Node_AppliedHash node)
    (if Node_MaintenanceMode node then "maintenance" else "pending") (Node_LastReconciledAt node)
    (Node_RecordVersion node) (Node_CreatedAt node) now.

Definition with_version (version : Z) (node : Node) : Node :=
  mkNode (Node_ID node) (Node_ClusterID node) (Node_Name node) (Node_BaseURL node)
    (Node_CertificatePolicy node) (Node_Enabled node) (Node_MaintenanceMode node) (Node_HealthStatus node)
    (Node_CompatibilityStatus node) (Node_Version node) (Node_LastSeenAt node) (Node_LastPolledAt node)
    (Node_LatencyMS node) (Node_LastErrorCode node) (Node_AppliedRevisionID node) (Node_AppliedHash node)
    (Node_ConvergenceStatus node) (Node_LastReconciledAt node) version (Node_CreatedAt node)
    (Node_UpdatedAt node).

(* src/internal/domain/management.go:277-375 ManagementService.UpdateNode *)
Definition Management_UpdateNode (actor : Actor) (id : string) (input : UpdateNodeInput)
  : control (res Node) :=
  try _ <- guard (ValidID id) (Validation "nodeId" "must be a valid UUID");
  try _ <- guard (1 <=? UpdateInput_ExpectedVersion input)
    (Validation "version" "must be a positive integer");
  try record <- call (Repo_NodeRecordByID id);
  try _ <- pure_step (ValidateResourceName "name" (TrimSpace (UpdateInput_Name input)));
  let customCAPEM := updated_ca input record in
  try _ <- pure_step (ValidateCertificatePolicy (UpdateInput_CertificatePolicy input) customCAPEM);
  try baseURL <- pure_step (NormaliseNodeURL (UpdateInput_BaseURL input)
    (UpdateInput_CertificatePolicy input));
  try stored <- stored_credentials id record;
  try replaced <- pure_step (replaced_credentials input);
  let credentials := default stored replaced in
  try node <-
    (if UpdateInput_Enabled input then
       try result <- call (ProbeStatus (mkNodeProbeRequest baseURL (UpdateInput_CertificatePolicy input)
         customCAPEM credentials));
       do now <- call Now;
       done_with (probed_node (Record_Node record) result now)
     else done_with (Record_Node record));
  try envelope <-
    (match replaced with
     | Some credentials => call (Encrypt id credentials)
     | None => done_with (Secrets_Credentials (Record_Secrets record))
     end);
  do now <- call Now;
  let node := renamed_node node input baseURL now in
  let action := match replaced with Some _ => "node.credentials_rotated" | None => "node.updated" end in
  try event <- newUserAudit actor action "node" id
    (JObj [("name", JStr (Node_Name node)); ("enabled", JBool (UpdateInput_Enabled input));
           ("certificatePolicy", JStr (UpdateInput_CertificatePolicy input))]) now;
  try _ <- call (Repo_UpdateNode (mkNodeRecord node (mkNodeSecretMaterial envelope customCAPEM))
    (UpdateInput_ExpectedVersion input) event);
  done_with (with_version (wrap64 (UpdateInput_ExpectedVersion input + 1)) node).

(** The code of a failed probe. *)
(* src/internal/domain/management.go:395-399 ManagementService.TestNodeConnection *)
Definition probe_code (err : error) : string :=
  match errors_As err with Some (kind, _) => kind | None => ErrorNodeUnreachable end.

Definition record_request (record : NodeRecord) (credentials : NodeCredentials) : NodeProbeRequest :=
  mkNodeProbeRequest (Node_BaseURL (Record_Node record)) (Node_CertificatePolicy (Record_Node record))
    (Secrets_CustomCAPEM (Record_Secrets record)) credentials.

(* src/internal/domain/management.go:377-423 ManagementService.TestNodeConnection *)
Definition TestNodeConnection (actor : Actor) (id : string) : control (res NodeProbeResult) :=
  try _ <- guard (ValidID id) (Validation "nodeId" "must be a valid UUID");
  try record <- call (Repo_NodeRecordByID id);
  try credentials <- stored_credentials id record;
  do now <- call Now;
  do probed <- call (ProbeStatus (record_request record credentials));
  match probed with
  | Err probeErr =>
      let code := probe_code probeErr in
      try event <- newUserAudit actor "node.connection_tested" "node" id
        (JObj [("outcome", JStr "failed"); ("errorCode", JStr code)]) now;
      try _ <- call (Repo_RecordNodeTestResult id NodeUnreachable
        (Node_CompatibilityStatus (Record_Node record)) (Node_Version (Record_Node record)) None code
        now false event);
      fail probeErr
  | Ok result =>
      let '(health, errorCode) := healthFromProbe result true in
      try event <- newUserAudit actor "node.connection_tested" "node" id
        (JObj [("outcome", JStr "succeeded"); ("compatibility", JStr (Probe_Compatibility result));
               ("version", JStr (Probe_Version result))]) now;
      try _ <- call (Repo_RecordNodeTestResult id health (Probe_Compatibility result)
        (Probe_Version result) (Some (Probe_LatencyMS result)) errorCode now true event);
      done_with result
  end.

(* src/internal/domain/management.go:425-444 ManagementService.DeleteNode *)
Definition DeleteNode (actor : Actor) (id confirmName : string) (expectedVersion : Z) : control (res unit) :=
  try node <- Management_Node id;
  try _ <- guard (1 <=? expectedVersion) (Validation "version" "must be a positive integer");
  try _ <- guard (confirmName =?? Node_Name node)
    (Validation "confirmName" "must exactly match the node name");
  do now <- call Now;
  try event <- newUserAudit actor "node.removed" "node" id
    (JObj [("clusterId", JStr (Node_ClusterID node)); ("name", JStr (Node_Name node));
           ("credentialsDestroyed", JBool true)]) now;
  call (Repo_SoftDeleteNode id expectedVersion now event).

(* src/internal/domain/management.go:446-473 ManagementService.SetNodeMaintenance *)
Definition Management_SetNodeMaintenance (actor : Actor) (id : string) (enabled : bool)
  (expectedVersion : Z) : control (res Node) :=
  try node <- Management_Node id;
  try _ <- guard (1 <=? expectedVersion) (Validation "recordVersion" "must be a positive integer");
  do now <- call Now;
  try event <- newUserAudit actor "node.maintenance_changed" "node" id
    (JObj [("clusterId", JStr (Node_ClusterID node)); ("enabled", JBool enabled)]) now;
  try _ <- call (Repo_SetNodeMaintenance id enabled expectedVersion now event);
  done_with (mkNode (Node_ID node) (Node_ClusterID node) (Node_Name node) (Node_BaseURL node)
    (Node_CertificatePolicy node) (Node_Enabled node) enabled (Node_HealthStatus node)
    (Node_CompatibilityStatus node) (Node_Version node) (Node_LastSeenAt node) (Node_LastPolledAt node)
    (Node_LatencyMS node) (Node_LastErrorCode node) (Node_AppliedRevisionID node) (Node_AppliedHash node)
    (if enabled then "maintenance" else "pending") (Node_LastReconciledAt node)
    (wrap64 (expectedVersion + 1)) (Node_CreatedAt node) now).

(** ** The health poller *)

(** The writes are logged when they fail, and nothing else happens. *)
(* src/internal/jobs/health.go:139-175 HealthPoller.pollNode *)
Definition pollNode (record : NodeRecord) : control unit :=
  let node := Record_Node record in
  do at_ <- call Now;
  do decrypted <- call (Decrypt (Node_ID node) (Secrets_Credentials (Record_Secrets record)));
  match decrypted with
  | Err _ =>
      do _ <- call (Repo_UpdateNodeHealth (Node_ID node) NodeUnreachable CompatibilityUnknown
        (Node_Version node) None "CREDENTIAL_DECRYPTION_FAILED" at_ false);
      Ret tt
  | Ok credentials =>
      do probed <- call (ProbeStatus (record_request record credentials));
      match probed with
      | Err err =>
          do _ <- call (Repo_UpdateNodeHealth (Node_ID node) NodeUnreachable
            (Node_CompatibilityStatus node) (Node_Version node) None (probe_code err) at_ false);
          Ret tt
      | Ok result =>
          let incompatible := (Probe_Compatibility result =?? CompatibilityUnsupported) ||
                              (Probe_Compatibility result =?? CompatibilityUnknown) in
          let health := if incompatible then NodeIncompatible else NodeHealthy in
          let '(health, errorCode) :=
            if negb (Probe_Running result) then (NodeUnreachable, "NODE_DNS_NOT_RUNNING")
            else (health, "") in
          do _ <- call (Repo_UpdateNodeHealth (Node_ID node) health (Probe_Compatibility result)
            (Probe_Version result) (Some (Probe_LatencyMS result)) errorCode at_ true);
          Ret tt
      end
  end.

(* src/internal/jobs/health.go:76-88 HealthPoller.PollNow *)
Definition PollNow (nodeID : string) : control (res unit) :=
  try records <- call Repo_PollableNodes;
  match List.find (λ record, Node_ID (Record_Node record) =?? nodeID) records with
  | Some record => do _ <- pollNode record; done_with tt
  | None => fail (NewError ErrorNotFound "node was not found or is disabled")
  end.
End management.
