(* ===== verification/ManagementSpec.v ===== *)
(** * What the management service and the health poller write

    The facts of a run are its calls and responses, without the result type; the
    theorems hold for every run, whatever the store, the nodes and the clock answer. *)

From S2P Require Import Prelude GoRuntime Json Domain Compat ControlModel StoreRecords.
From S2P Require Import Effects ControlEffects Management.

Inductive management_fact : Type :=
| MRecord (id : string) (r : res NodeRecord)
| MCluster (id : string) (r : res Cluster)
| MDecrypt (id : string) (credentials : EncryptedCredentials) (r : res NodeCredentials)
| MEncrypt (id : string) (credentials : NodeCredentials) (r : res EncryptedCredentials)
| MProbe (request : NodeProbeRequest) (r : res NodeProbeResult)
| MCreateCluster (cluster : Cluster) (r : res unit)
| MUpdateCluster (cluster : Cluster) (expectedVersion : Z) (r : res unit)
| MCreateNode (record : NodeRecord) (r : res unit)
| MUpdateNode (record : NodeRecord) (expectedVersion : Z) (r : res unit)
(* a write of the health of a node: its health, compatibility, version, latency, code, and whether it answered *)
| MHealth (id health compatibility version : string) (latency : option Z) (code : string) (seen : bool)
| MOther.

Definition management_fact_of (ev : event ctl) : management_fact :=
  match ev with
  | Event e x =>
      match e in ctl X return X → management_fact with
      | Repo_NodeRecordByID id => MRecord id
      | Repo_ClusterByID id => MCluster id
      | Decrypt id credentials => MDecrypt id credentials
      | Encrypt id credentials => MEncrypt id credentials
      | ProbeStatus request => MProbe request
      | Repo_CreateCluster cluster _ => MCreateCluster cluster
      | Repo_UpdateCluster cluster v _ => MUpdateCluster cluster v
      | Repo_CreateNode record _ => MCreateNode record
      | Repo_UpdateNode record v _ => MUpdateNode record v
      | Repo_UpdateNodeHealth id h c v l code _ seen => λ _, MHealth id h c v l code seen
      | Repo_RecordNodeTestResult id h c v l code _ seen _ => λ _, MHealth id h c v l code seen
      | _ => λ _, MOther
      end x
  end.

Definition mfacts (tr : list (event ctl)) : list management_fact := management_fact_of <$> tr.

(** [walk] follows a program through every call and every exit. *)
Ltac walk :=
  unfold Management_Cluster, Management_Node, pure_step, stored_credentials, newUserAudit, guard in *;
  repeat (emit_step; cbv beta iota zeta in *).

Lemma cut_cons {A} (f g : A) l pre post : f :: l = pre ++ g :: post →
  (pre = [] ∧ f = g ∧ l = post) ∨ (∃ pre', pre = f :: pre' ∧ l = pre' ++ g :: post).
Proof. destruct pre as [|h pre]; cbn; intros [= -> ->]; [by left|right; by exists pre]. Qed.

(** [locate H] finds the fact in the list of facts of a finished run; it closes the cases of the
    other facts. *)
Ltac locate H :=
  cbn in H;
  repeat match type of H with
  | [] = ?pre ++ _ :: _ => destruct pre; discriminate H
  | _ :: _ = ?pre ++ _ :: _ =>
      apply cut_cons in H as [(-> & H & <-)|(? & -> & H)]; [first [discriminate H|idtac]|]
  end;
  try (injection H as H; subst).

(** [find_fact] walks to a fact of an explicit list. *)
Ltac find_fact := repeat first [apply list_elem_of_here | apply list_elem_of_further].

Section specification.
Context {R : Runtime}.

(** The health a probe gives an enabled node. *)
Definition probed_health (result : NodeProbeResult) : string :=
  if Probe_Running result then
    if Probe_Compatibility result =?? CompatibilitySupported then NodeHealthy else NodeIncompatible
  else NodeUnreachable.

Lemma healthFromProbe_enabled result :
  healthFromProbe result true =
    (probed_health result, if Probe_Running result then "" else "NODE_DNS_NOT_RUNNING").
Proof. unfold healthFromProbe, probed_health. by repeat (case_match; simplify_eq/=). Qed.

(** An accepted base URL: absolute, without credentials, and plain only when that was asked for. *)
Definition accepted_url (raw policy url : string) : Prop := ∃ parsed,
  url_Parse (TrimSpace raw) = Some parsed ∧ URL_Host parsed ≠ "" ∧ URL_User parsed = false ∧
  url = url_Print (TrimSpace raw) (trim_right_slashes (URL_Path parsed)) ∧
  ((URL_Scheme parsed = "https" ∧ policy ≠ CertificateInsecureHTTP) ∨
   (URL_Scheme parsed = "http" ∧ policy = CertificateInsecureHTTP)).

Lemma NormaliseNodeURL_Ok raw policy url : NormaliseNodeURL raw policy = Ok url → accepted_url raw policy url.
Proof.
  unfold NormaliseNodeURL, accepted_url. destruct (url_Parse _) as [parsed|]; [|done]. cbv zeta.
  destruct (_ || _) eqn:Eh; [done|]. bool_simp. intros HE. exists parsed.
  repeat (case_match; bool_simp; try discriminate HE); injection HE as <-; split_and!; try done; auto.
Qed.

(** The new node of an input, under the name and the URL that were checked. *)
Definition new_node (input : CreateNodeInput) (result : NodeProbeResult) (node : Node) : Prop :=
  Node_ClusterID node = NodeInput_ClusterID input ∧ Node_Name node = TrimSpace (NodeInput_Name input) ∧
  ValidateResourceName "name" (Node_Name node) = Ok tt ∧
  accepted_url (NodeInput_BaseURL input) (Node_CertificatePolicy node) (Node_BaseURL node) ∧
  Node_CertificatePolicy node = NodeInput_CertificatePolicy input ∧
  Node_CompatibilityStatus node = CompatibilitySupported ∧
  Node_HealthStatus node = (if NodeInput_Enabled input then probed_health result else NodeDisabled) ∧
  Node_Enabled node = NodeInput_Enabled input ∧ Node_RecordVersion node = 1.

(** a node is stored only after a probe of the very address and credentials that are stored has
    found a supported version; the credentials are stored as the envelope the cipher returned for
    the new identifier, and the address is plain http only under the policy that asks for it. *)
Theorem CreateNode_probed actor input :
  emits (Management_CreateNode actor input) (λ tr r,
    ∀ pre record x post, mfacts tr = pre ++ MCreateNode record x :: post →
    let node := Record_Node record in
    ∃ result envelope,
      MProbe (mkNodeProbeRequest (Node_BaseURL node) (Node_CertificatePolicy node)
                (NodeInput_CustomCAPEM input) (input_credentials input)) (Ok result) ∈ pre ∧
      Probe_Compatibility result = CompatibilitySupported ∧
      MEncrypt (Node_ID node) (input_credentials input) (Ok envelope) ∈ pre ∧
      record = mkNodeRecord node (mkNodeSecretMaterial envelope (TrimSpace (NodeInput_CustomCAPEM input))) ∧
      new_node input result node ∧
      r = match x with Ok _ => Ok node | Err e => Err e end).
Proof.
  unfold Management_CreateNode, ValidateNodeCandidate, checked_node. walk.
  all: intros pre record y post H; locate H.
  all: bool_simp; eexists _, _; unfold new_node; cbn; split_and!; try find_fact; try done.
  all: try (destruct (NodeInput_Enabled input); [rewrite healthFromProbe_enabled in Heqp|]; by injection Heqp).
  all: first [by apply NormaliseNodeURL_Ok | by destruct a0].
Qed.

(** The credentials that an update stores: the old envelope when none are given, and the envelope the
    cipher returned for the new ones, given together and well-formed, otherwise. *)
Definition rotated (id : string) (input : UpdateNodeInput) (old : NodeRecord) (pre : list management_fact)
  (credentials : NodeCredentials) (envelope : EncryptedCredentials) : Prop :=
  match UpdateInput_Username input, UpdateInput_Password input with
  | None, None => envelope = Secrets_Credentials (Record_Secrets old) ∧
      MDecrypt id envelope (Ok credentials) ∈ pre
  | Some username, Some password => credentials = mkNodeCredentials username password ∧
      validateNodeCredentials username password = Ok tt ∧ MEncrypt id credentials (Ok envelope) ∈ pre
  | _, _ => False
  end.

Lemma rotated_new id input old pre n envelope : replaced_credentials input = Ok (Some n) →
  MEncrypt id n (Ok envelope) ∈ pre → rotated id input old pre n envelope.
Proof.
  unfold replaced_credentials, rotated. intros H Hin.
  destruct (UpdateInput_Username input), (UpdateInput_Password input); try discriminate H.
  destruct (validateNodeCredentials _ _) as [[]|] eqn:E; [|discriminate H]. by injection H as <-.
Qed.

Lemma rotated_old id input old pre c : replaced_credentials input = Ok None →
  MDecrypt id (Secrets_Credentials (Record_Secrets old)) (Ok c) ∈ pre →
  rotated id input old pre c (Secrets_Credentials (Record_Secrets old)).
Proof.
  unfold replaced_credentials, rotated. intros H Hin.
  destruct (UpdateInput_Username input), (UpdateInput_Password input); try discriminate H; [|done].
  destruct (validateNodeCredentials _ _); discriminate H.
Qed.

Lemma updated_ca_unused input old : UpdateInput_CertificatePolicy input ≠ CertificateCustomCA →
  updated_ca input old = "".
Proof. unfold updated_ca. intros H. by rewrite bool_decide_eq_false_2. Qed.

(** an update of a node is written at the version the client read; an enabled node was probed at
    the new address with the credentials that are stored and has the health of this probe, a disabled
    one is not contacted; credentials are replaced only in pairs, and the certificate of the node is
    kept only under the policy that uses it. *)
Theorem UpdateNode_probed actor id input :
  emits (Management_UpdateNode actor id input) (λ tr r,
    ∀ pre record v x post, mfacts tr = pre ++ MUpdateNode record v x :: post →
    let node := Record_Node record in
    v = UpdateInput_ExpectedVersion input ∧ 1 <= v ∧
    ∃ old credentials, MRecord id (Ok old) ∈ pre ∧
      rotated id input old pre credentials (Secrets_Credentials (Record_Secrets record)) ∧
      Node_ID node = Node_ID (Record_Node old) ∧ Node_Enabled node = UpdateInput_Enabled input ∧
      accepted_url (UpdateInput_BaseURL input) (Node_CertificatePolicy node) (Node_BaseURL node) ∧
      (Node_CertificatePolicy node ≠ CertificateCustomCA → Secrets_CustomCAPEM (Record_Secrets record) = "") ∧
      (if UpdateInput_Enabled input then
         ∃ result, MProbe (mkNodeProbeRequest (Node_BaseURL node) (Node_CertificatePolicy node)
             (Secrets_CustomCAPEM (Record_Secrets record)) credentials) (Ok result) ∈ pre ∧
           Node_HealthStatus node = probed_health result ∧
           Node_CompatibilityStatus node = Probe_Compatibility result
       else Node_HealthStatus node = NodeDisabled ∧ ∀ request result, MProbe request result ∉ pre)).
Proof.
  unfold Management_UpdateNode. walk.
  all: intros pre record v y post H; locate H.
  all: bool_simp; cbn [Record_Node Record_Secrets Secrets_Credentials Secrets_CustomCAPEM];
    split; [done|]; split; [done|]; eexists _, _; split; [find_fact|];
    (split; [first [eapply rotated_new; [eassumption|find_fact] | eapply rotated_old; [eassumption|find_fact]]|]);
    match goal with H : UpdateInput_Enabled _ = _ |- _ => rewrite ?H end;
    unfold probed_node, renamed_node; rewrite ?healthFromProbe_enabled; cbn;
    match goal with H : UpdateInput_Enabled _ = _ |- _ => rewrite ?H end.
  all: split_and!; try done; try by apply NormaliseNodeURL_Ok.
  all: try apply updated_ca_unused.
  all: first [eexists; split; [find_fact|done] | idtac].
  all: intros request result Hin; 
    repeat (apply elem_of_cons in Hin as [Hin|Hin]; [discriminate Hin|]); by apply elem_of_nil in Hin.
Qed.

(** ** The poller and the connection test *)

Section agreement.
Context (decrypt : string → EncryptedCredentials → res NodeCredentials)
  (probe : NodeProbeRequest → res NodeProbeResult) (record : NodeRecord).
#[local] Abbreviation node := (Record_Node record).

(** A run in which the cipher, the node and the store answer by these functions. *)
Definition answered (l : list management_fact) : Prop :=
  Forall (λ f, match f with
               | MRecord id r => r = Ok record
               | MDecrypt id c r => r = decrypt id c
               | MProbe q r => r = probe q
               | _ => True
               end) l.

Definition is_health (f : management_fact) : Prop :=
  match f with MHealth _ _ _ _ _ _ _ => True | _ => False end.

(** What is written about the health of the node. *)
Definition health_report : management_fact :=
  match decrypt (Node_ID node) (Secrets_Credentials (Record_Secrets record)) with
  | Err _ => MHealth (Node_ID node) NodeUnreachable CompatibilityUnknown (Node_Version node) None
               "CREDENTIAL_DECRYPTION_FAILED" false
  | Ok credentials =>
      match probe (record_request record credentials) with
      | Err err => MHealth (Node_ID node) NodeUnreachable (Node_CompatibilityStatus node) (Node_Version node)
                     None (probe_code err) false
      | Ok result => MHealth (Node_ID node) (probed_health result) (Probe_Compatibility result)
          (Probe_Version result) (Some (Probe_LatencyMS result))
          (if Probe_Running result then "" else "NODE_DNS_NOT_RUNNING") true
      end
  end.

Context (Hcompat : ∀ q result, probe q = Ok result → Probe_Compatibility result = CompatibilitySupported ∨
  Probe_Compatibility result = CompatibilityUnsupported ∨ Probe_Compatibility result = CompatibilityUnknown).

Definition reports (l : list management_fact) : Prop :=
  answered l → ∀ f, f ∈ l → is_health f → f = health_report.

Ltac report :=
  intros Ha f Hf Hh; unfold answered, mfacts in Ha; cbn in Ha, Hf;
  repeat (apply Forall_cons in Ha as [? Ha]); simplify_eq/=;
  repeat (apply elem_of_cons in Hf as [->|Hf]; [try done|]); try by apply elem_of_nil in Hf.

Ltac answers :=
  unfold health_report;
  repeat match goal with
  | H : _ = decrypt _ _ |- _ => rewrite <- H; clear H
  | H : Ok _ = probe _ |- _ => rewrite <- H; apply eq_sym, Hcompat in H
  | H : Err _ = probe _ |- _ => rewrite <- H; clear H
  end; try done.

Lemma pollNode_reports : emits (pollNode record) (λ tr _, reports (mfacts tr)).
Proof.
  unfold pollNode. walk. all: report. all: answers. unfold probed_health.
  destruct (Probe_Running a0); cbn [negb] in Heqp; injection Heqp as <- <-; [|done].
  by destruct H1 as [->|[->| ->]].
Qed.

Lemma TestNodeConnection_reports actor :
  emits (TestNodeConnection actor (Node_ID node)) (λ tr _, reports (mfacts tr)).
Proof.
  unfold TestNodeConnection. walk. all: report. all: answers.
  all: try match goal with H : healthFromProbe _ _ = _ |- _ =>
         rewrite healthFromProbe_enabled in H; by injection H as <- <- end.
Qed.

Lemma pollNode_writes : emits (pollNode record) (λ tr _, ∃ f, f ∈ mfacts tr ∧ is_health f).
Proof. unfold pollNode. walk. all: eexists (MHealth _ _ _ _ _ _ _); cbn; split; [find_fact|exact I]. Qed.

(** the scheduled poll and the connection test of an operator agree: on the same answers of the
    cipher and of the node they write the same health, compatibility, version, latency and error
    code; and every poll of a node writes such a report. *)
Theorem poll_agrees_with_test actor tr r tr' : traces (pollNode record) tr tt →
  traces (TestNodeConnection actor (Node_ID node)) tr' r → answered (mfacts tr) → answered (mfacts tr') →
  (∃ f, f ∈ mfacts tr ∧ is_health f) ∧
  ∀ f f', f ∈ mfacts tr → f' ∈ mfacts tr' → is_health f → is_health f' → f = f'.
Proof.
  intros H H' Ha Ha'. split; [by eapply pollNode_writes|]. intros f f' Hf Hf' Hh Hh'.
  rewrite (pollNode_reports _ _ H Ha f Hf Hh). symmetry.
  exact (TestNodeConnection_reports actor _ _ H' Ha' f' Hf' Hh').
Qed.
End agreement.

(** ** Clusters *)

(** A cluster as the service may store it. *)
Definition valid_cluster (cluster : Cluster) : Prop :=
  ValidateResourceName "name" (Cluster_Name cluster) = Ok tt ∧ len (Cluster_Description cluster) <= 2000 ∧
  ValidReconciliationPolicy (Cluster_ReconciliationPolicy cluster) = true.

Definition is_cluster_write (f : management_fact) : option Cluster :=
  match f with MCreateCluster c _ | MUpdateCluster c _ _ => Some c | _ => None end.

Definition writes_valid_clusters (l : list management_fact) : Prop :=
  ∀ f c, f ∈ l → is_cluster_write f = Some c → valid_cluster c.

(** C40: a cluster is written with a name of 1 to 120 characters, a bounded description and one of the
    three reconciliation policies, whatever the request; an update keeps the identity and the active
    revision of the cluster, and carries the version the client read. *)
Theorem cluster_writes_valid actor id v input :
  emits (Management_CreateCluster actor input) (λ tr _, writes_valid_clusters (mfacts tr)) ∧
  emits (Management_UpdateCluster actor id v input) (λ tr _,
    writes_valid_clusters (mfacts tr) ∧
    ∀ pre c v' x post, mfacts tr = pre ++ MUpdateCluster c v' x :: post → v' = v ∧ 1 <= v ∧
      ∃ old, MCluster id (Ok old) ∈ pre ∧ Cluster_ID c = Cluster_ID old ∧
        Cluster_ActiveRevisionID c = Cluster_ActiveRevisionID old).
Proof.
  unfold Management_CreateCluster, Management_UpdateCluster, checked_cluster. split; walk.
  all: try lazymatch goal with |- _ ∧ _ => split end; bool_simp.
  all: lazymatch goal with
       | |- writes_valid_clusters _ =>
           intros f written Hf Hc; cbn in Hf;
           repeat (apply elem_of_cons in Hf as [->|Hf]; [cbn in Hc; try discriminate Hc|]);
           try (by apply elem_of_nil in Hf); injection Hc as <-; unfold valid_cluster; cbn;
           (split_and!; [by repeat match goal with u : () |- _ => destruct u end|done|done])
       | _ => intros pre written version y post Hcut; locate Hcut; (split; [done|]); (split; [done|]); eexists;
           (split; [find_fact|done])
       end.
Qed.

End specification.
