(* ===== verification/InventoryModel.v ===== *)
(** * internal/inventory: what the nodes report beside their configuration

    The records of the blocked-services catalogue, of the filter lists and of the DHCP
    checks, shared by the node adapter and the inventory service. *)

From S2P Require Import Prelude GoRuntime Json Domain ControlModel.

(* src/internal/inventory/blocked_services.go:15-19 BlockedServiceMetadata *)
Record BlockedServiceMetadata := mkBlockedServiceMetadata {
  BlockedServiceMetadata_ID : string;
  BlockedServiceMetadata_Name : string;
  BlockedServiceMetadata_GroupID : string
}.

(* src/internal/inventory/blocked_services.go:21-23 BlockedServiceGroup *)
Record BlockedServiceGroup := mkBlockedServiceGroup {
  BlockedServiceGroup_ID : string
}.

(* src/internal/inventory/blocked_services.go:27-30 NodeBlockedServicesCatalogue *)
Record NodeBlockedServicesCatalogue := mkNodeBlockedServicesCatalogue {
  NodeBlockedServicesCatalogue_Services : slice BlockedServiceMetadata;
  NodeBlockedServicesCatalogue_Groups : slice BlockedServiceGroup
}.

(* src/internal/inventory/blocked_services.go:32-38 MergedBlockedService *)
Record MergedBlockedService := mkMergedBlockedService {
  MergedBlockedService_ID : string;
  MergedBlockedService_Name : string;
  MergedBlockedService_GroupID : string;
  MergedBlockedService_SupportedNodeIDs : slice string;
  MergedBlockedService_UnsupportedNodeIDs : slice string
}.

(* src/internal/inventory/blocked_services.go:40-49 BlockedServicesCatalogueNode *)
Record BlockedServicesCatalogueNode := mkBlockedServicesCatalogueNode {
  BlockedServicesCatalogueNode_NodeID : string;
  BlockedServicesCatalogueNode_NodeName : string;
  BlockedServicesCatalogueNode_Version : string;
  BlockedServicesCatalogueNode_Status : string;
  BlockedServicesCatalogueNode_ServiceCount : Z;
  BlockedServicesCatalogueNode_FetchedAt : option Time;
  BlockedServicesCatalogueNode_ErrorCode : string;
  BlockedServicesCatalogueNode_catalogue : NodeBlockedServicesCatalogue
}.

(* src/internal/inventory/blocked_services.go:51-58 BlockedServicesCatalogue *)
Record BlockedServicesCatalogue := mkBlockedServicesCatalogue {
  BlockedServicesCatalogue_Services : slice MergedBlockedService;
  BlockedServicesCatalogue_Groups : slice BlockedServiceGroup;
  BlockedServicesCatalogue_Nodes : slice BlockedServicesCatalogueNode;
  BlockedServicesCatalogue_GeneratedAt : Time;
  BlockedServicesCatalogue_Stale : bool;
  BlockedServicesCatalogue_Partial : bool
}.

(* src/internal/inventory/blocked_services.go:60-64 catalogueCacheEntry *)
Record catalogueCacheEntry := mkcatalogueCacheEntry {
  catalogueCacheEntry_key : string;
  catalogueCacheEntry_catalogue : NodeBlockedServicesCatalogue;
  catalogueCacheEntry_fetchedAt : Time
}.

(* src/internal/inventory/blocklists.go:18-26 FilterListMetadata *)
Record FilterListMetadata := mkFilterListMetadata {
  FilterListMetadata_ID : Z;
  FilterListMetadata_URL : string;
  FilterListMetadata_Name : string;
  FilterListMetadata_Enabled : bool;
  FilterListMetadata_RulesCount : Z;
  FilterListMetadata_LastUpdated : option Time;
  FilterListMetadata_Portable : bool
}.

(* src/internal/inventory/blocklists.go:28-36 FilterListNodePresentation *)
Record FilterListNodePresentation := mkFilterListNodePresentation {
  FilterListNodePresentation_NodeID : string;
  FilterListNodePresentation_NodeName : string;
  FilterListNodePresentation_Version : string;
  FilterListNodePresentation_Status : string;
  FilterListNodePresentation_FetchedAt : option Time;
  FilterListNodePresentation_ErrorCode : string;
  FilterListNodePresentation_Lists : slice FilterListMetadata
}.

(* src/internal/inventory/blocklists.go:38-43 FilterListPresentation *)
Record FilterListPresentation := mkFilterListPresentation {
  FilterListPresentation_Nodes : slice FilterListNodePresentation;
  FilterListPresentation_GeneratedAt : Time;
  FilterListPresentation_Stale : bool;
  FilterListPresentation_Partial : bool
}.

(* src/internal/inventory/blocklists.go:49-53 filterListCacheEntry *)
Record filterListCacheEntry := mkfilterListCacheEntry {
  filterListCacheEntry_key : string;
  filterListCacheEntry_lists : slice FilterListMetadata;
  filterListCacheEntry_fetchedAt : Time
}.

(* src/internal/inventory/dhcp.go:14-22 DHCPInterface *)
Record DHCPInterface := mkDHCPInterface {
  DHCPInterface_Name : string;
  DHCPInterface_HardwareAddress : string;
  DHCPInterface_IPv4Addresses : slice string;
  DHCPInterface_IPv6Addresses : slice string;
  DHCPInterface_GatewayIP : string;
  DHCPInterface_Flags : slice string;
  DHCPInterface_Available : bool
}.

(* src/internal/inventory/dhcp.go:24-29 DHCPInterfaces *)
Record DHCPInterfaces := mkDHCPInterfaces {
  DHCPInterfaces_NodeID : string;
  DHCPInterfaces_NodeName : string;
  DHCPInterfaces_Interfaces : slice DHCPInterface;
  DHCPInterfaces_FetchedAt : Time
}.

(* src/internal/inventory/dhcp.go:31-34 DHCPCheckValue *)
Record DHCPCheckValue := mkDHCPCheckValue {
  DHCPCheckValue_Status : string;
  DHCPCheckValue_Message : string
}.

(* src/internal/inventory/dhcp.go:36-39 DHCPStaticIPCheck *)
Record DHCPStaticIPCheck := mkDHCPStaticIPCheck {
  DHCPStaticIPCheck_Status : string;
  DHCPStaticIPCheck_IP : string
}.

(* src/internal/inventory/dhcp.go:41-45 DHCPActiveCheck *)
Record DHCPActiveCheck := mkDHCPActiveCheck {
  DHCPActiveCheck_IPv4OtherServer : DHCPCheckValue;
  DHCPActiveCheck_IPv4StaticIP : DHCPStaticIPCheck;
  DHCPActiveCheck_IPv6OtherServer : DHCPCheckValue
}.

(* src/internal/inventory/dhcp.go:47-56 DHCPActiveCheckResult *)
Record DHCPActiveCheckResult := mkDHCPActiveCheckResult {
  DHCPActiveCheckResult_NodeID : string;
  DHCPActiveCheckResult_NodeName : string;
  DHCPActiveCheckResult_InterfaceName : string;
  DHCPActiveCheckResult_Status : string;
  DHCPActiveCheckResult_IPv4 : DHCPCheckValue;
  DHCPActiveCheckResult_IPv4StaticIP : DHCPStaticIPCheck;
  DHCPActiveCheckResult_IPv6 : DHCPCheckValue;
  DHCPActiveCheckResult_CheckedAt : Time
}.

(* src/internal/inventory/dhcp_operations.go:21-29 DHCPOperationNodeResult *)
Record DHCPOperationNodeResult := mkDHCPOperationNodeResult {
  DHCPOperationNodeResult_ID : string;
  DHCPOperationNodeResult_NodeID : string;
  DHCPOperationNodeResult_NodeName : string;
  DHCPOperationNodeResult_Status : string;
  DHCPOperationNodeResult_ErrorCode : string;
  DHCPOperationNodeResult_StartedAt : Time;
  DHCPOperationNodeResult_CompletedAt : option Time
}.

(* src/internal/inventory/dhcp_operations.go:31-48 DHCPOperation *)
Record DHCPOperation := mkDHCPOperation {
  DHCPOperation_ID : string;
  DHCPOperation_ClusterID : string;
  DHCPOperation_ClusterName : string;
  DHCPOperation_Command : string;
  DHCPOperation_Status : string;
  DHCPOperation_RequestID : string;
  DHCPOperation_IdempotencyKey : string;
  DHCPOperation_RequestedBy : string;
  DHCPOperation_ObservationStatus : string;
  DHCPOperation_ObservationSnapshotID : string;
  DHCPOperation_ObservationErrorCode : string;
  DHCPOperation_AuditReference : string;
  DHCPOperation_RequestedAt : Time;
  DHCPOperation_CompletedAt : option Time;
  DHCPOperation_NodeResults : slice DHCPOperationNodeResult;
  DHCPOperation_Duplicate : bool
}.

