(* ===== verification/OperationsModel.v ===== *)
(** * internal/operations/model.go: operational commands and their results *)

From S2P Require Import Prelude GoRuntime Json Domain ControlModel.

(* src/internal/operations/model.go:13-13 TestUpstreamDNS *)
Definition CommandTestUpstreamDNS : string := "test_upstream_dns".
(* src/internal/operations/model.go:14-14 TestHostFiltering *)
Definition CommandTestHostFiltering : string := "test_host_filtering".
(* src/internal/operations/model.go:15-15 ClearDNSCache *)
Definition CommandClearDNSCache : string := "clear_dns_cache".
(* src/internal/operations/model.go:16-16 ClearQueryLog *)
Definition CommandClearQueryLog : string := "clear_query_log".
(* src/internal/operations/model.go:17-17 ResetStatistics *)
Definition CommandResetStatistics : string := "reset_statistics".
(* src/internal/operations/model.go:19-19 ClearDNSCacheConfirmation *)
Definition ClearDNSCacheConfirmation : string := "CLEAR_DNS_CACHE".
(* src/internal/operations/model.go:20-20 ClearQueryLogConfirmation *)
Definition ClearQueryLogConfirmation : string := "CLEAR_QUERY_LOG".
(* src/internal/operations/model.go:21-21 ResetStatisticsConfirmation *)
Definition ResetStatisticsConfirmation : string := "RESET_STATISTICS".

(* src/internal/domain/models.go:151-156 EncryptedPayload *)
Record EncryptedPayload := mkEncryptedPayload {
  EncryptedPayload_Ciphertext : string;
  EncryptedPayload_Nonce : string;
  EncryptedPayload_KeyVersion : Z;
  EncryptedPayload_Algorithm : string
}.

(* src/internal/operations/model.go:24-27 Target *)
Record Target := mkTarget {
  Target_Scope : string;
  Target_NodeID : string
}.

(* src/internal/operations/model.go:29-37 UpstreamInput *)
Record UpstreamInput := mkUpstreamInput {
  UpstreamInput_DraftVersion : Z;
  UpstreamInput_UpstreamDNS : slice string;
  UpstreamInput_BootstrapDNS : slice string;
  UpstreamInput_FallbackDNS : slice string;
  UpstreamInput_PrivateReverseDNS : slice string;
  UpstreamInput_UpstreamMode : string;
  UpstreamInput_UsePrivateReverseResolvers : bool
}.

(* src/internal/operations/model.go:39-43 ResolverResult *)
Record ResolverResult := mkResolverResult {
  ResolverResult_ResolverID : string;
  ResolverResult_Status : string;
  ResolverResult_ErrorCode : string
}.

(* src/internal/operations/model.go:45-49 HostFilterInput *)
Record HostFilterInput := mkHostFilterInput {
  HostFilterInput_Hostname : string;
  HostFilterInput_Client : string;
  HostFilterInput_QueryType : string
}.

(* src/internal/operations/model.go:51-54 MatchedRule *)
Record MatchedRule := mkMatchedRule {
  MatchedRule_Text : string;
  MatchedRule_FilterListID : Z
}.

(* src/internal/operations/model.go:56-63 HostFilterResult *)
Record HostFilterResult := mkHostFilterResult {
  HostFilterResult_Matched : bool;
  HostFilterResult_Reason : string;
  HostFilterResult_Rules : slice MatchedRule;
  HostFilterResult_ServiceName : string;
  HostFilterResult_CanonicalName : string;
  HostFilterResult_IPAddresses : slice string
}.

(* src/internal/operations/model.go:65-69 ExcludedNode *)
Record ExcludedNode := mkExcludedNode {
  ExcludedNode_NodeID : string;
  ExcludedNode_NodeName : string;
  ExcludedNode_ErrorCode : string
}.

(* src/internal/operations/model.go:71-85 NodeResult *)
Record NodeResult := mkNodeResult {
  NodeResult_ID : string;
  NodeResult_NodeID : string;
  NodeResult_NodeName : string;
  NodeResult_Position : Z;
  NodeResult_Status : string;
  NodeResult_ErrorCode : string;
  NodeResult_ResolverResults : slice ResolverResult;
  NodeResult_HostFilterResult : option HostFilterResult;
  NodeResult_ObservationStatus : string;
  NodeResult_ObservationSnapshotID : string;
  NodeResult_ObservationErrorCode : string;
  NodeResult_StartedAt : option Time;
  NodeResult_CompletedAt : option Time
}.

(* src/internal/operations/model.go:87-106 Operation *)
Record Operation := mkOperation {
  Operation_ID : string;
  Operation_ClusterID : string;
  Operation_ClusterName : string;
  Operation_Command : string;
  Operation_Target : Target;
  Operation_Status : string;
  Operation_RequestID : string;
  Operation_IdempotencyKey : string;
  Operation_RequestedBy : string;
  Operation_InputFingerprint : string;
  Operation_Payload : EncryptedPayload;
  Operation_AuditReference : string;
  Operation_RequestedAt : Time;
  Operation_StartedAt : option Time;
  Operation_CompletedAt : option Time;
  Operation_NodeResults : slice NodeResult;
  Operation_ExcludedNodes : slice ExcludedNode;
  Operation_Duplicate : bool
}.

