(* ===== verification/Wire.v ===== *)
(** * encoding/json and net/http, as the node adapter uses them

    [json.Unmarshal] on JSON trees, field by field as the struct tags name them, and
    the exchange of one request with a node.  The text of a body is read by the
    standard library; an exchange carries the tree it stands for, or the message of
    the parser. *)

From S2P Require Import Prelude GoRuntime Json Domain.

(** ** The decoder

    [unmarshal j cur] stores [j] in a variable that holds [cur]; [None] is a type
    error.  A key that occurs twice is stored twice. *)

Class Unmarshal (A : Type) := {
  zero_value : A;
  unmarshal : json → A → option A
}.

#[global] Instance bool_Unmarshal : Unmarshal bool := {|
  zero_value := false;
  unmarshal j cur := match j with JNull => Some cur | JBool b => Some b | _ => None end
|}.

#[global] Instance int_Unmarshal : Unmarshal Z := {|
  zero_value := 0;
  unmarshal j cur :=
    match j with
    | JNull => Some cur
    | JNum z => if (- two63 <=? z) && (z <? two63) then Some z else None
    | _ => None
    end
|}.

#[global] Instance string_Unmarshal : Unmarshal string := {|
  zero_value := "";
  unmarshal j cur := match j with JNull => Some cur | JStr s => Some s | _ => None end
|}.

#[global] Instance slice_Unmarshal {A} {U : Unmarshal A} : Unmarshal (slice A) := {|
  zero_value := None;
  unmarshal j cur :=
    match j with
    | JNull => Some None
    | JArr l => Some <$> mapM (λ x, unmarshal x zero_value) l
    | _ => None
    end
|}.

(** A pointer; [*A] and [[]A] are both options here, so pointers are decoded by name. *)
Definition unmarshal_pointer {A} {U : Unmarshal A} (j : json) (cur : option A) : option (option A) :=
  match j with
  | JNull => Some None
  | _ => Some <$> unmarshal j (default zero_value cur)
  end.

#[global] Instance map_Unmarshal {A} {U : Unmarshal A} : Unmarshal (gmap string A) := {|
  zero_value := ∅;
  unmarshal j cur :=
    match j with
    | JNull => Some ∅
    | JObj fs => foldl (λ acc f, m ← acc; x ← unmarshal f.2 zero_value; Some (<[f.1 := x]> m))
                       (Some cur) fs
    | _ => None
    end
|}.

Definition in_object {A} (body : list (string * json) → A → option A) (j : json) (cur : A) : option A :=
  match j with
  | JNull => Some cur
  | JObj fs => body fs cur
  | _ => None
  end.

Section fields.
Context {R : Runtime}.

(** The values an object has for a struct field: keys match their tag up to case. *)
Definition values_of (tag : string) (fs : list (string * json)) : list json :=
  snd <$> List.filter (λ f, EqualFold f.1 tag) fs.

Definition field_with {A} (decode : json → A → option A) (fs : list (string * json)) (tag : string)
  (cur : A) : option A :=
  foldl (λ acc v, a ← acc; decode v a) (Some cur) (values_of tag fs).

Definition field {A} {U : Unmarshal A} : list (string * json) → string → A → option A :=
  field_with unmarshal.

Definition pointer_field {A} {U : Unmarshal A} : list (string * json) → string → option A → option (option A) :=
  field_with unmarshal_pointer.

(** ** Encoding of Go map literals

    The encoder orders the keys of a map; a literal names each key once. *)
Definition payload (literal : list (string * json)) : gmap string json := list_to_map literal.
Definition marshal (m : gmap string json) : json :=
  JObj (sort_Slice (λ x y, String.ltb x.1 y.1) (map_to_list m)).

(** No other key of the literal is read as [tag]. *)
Definition only_key (tag : string) (keys : list string) : bool :=
  EqualFold tag tag && forallb (λ k, implb (EqualFold k tag) (k =?? tag)) keys.

Fixpoint assoc (tag : string) (l : list (string * json)) : option json :=
  match l with
  | [] => None
  | (k, v) :: l' => if String.eqb k tag then Some v else assoc tag l'
  end.

Lemma payload_lookup l tag : payload l !! tag = assoc tag l.
Proof.
  unfold payload. induction l as [|[k v] l IH]; cbn; [apply lookup_empty|].
  destruct (String.eqb_spec k tag) as [->|E]; [apply lookup_insert_eq|]. by rewrite lookup_insert_ne.
Qed.

Lemma filter_single {A} (p : A → bool) l x : NoDup l → x ∈ l → p x = true →
  (∀ y, y ∈ l → p y = true → y = x) → List.filter p l = [x].
Proof.
  induction l as [|z l IH]; intros Hnd Hx Hpx Hu; [by apply not_elem_of_nil in Hx|].
  apply NoDup_cons in Hnd as [Hz Hnd]. cbn. apply elem_of_cons in Hx as [->|Hx].
  - rewrite Hpx, filter_none; [done|]. intros y Hy. destruct (p y) eqn:E; [|done].
    assert (y = z) as ->; [apply Hu; [by right|done]|done].
  - destruct (p z) eqn:E.
    + assert (z = x) as ->; [apply Hu; [left|done]|done].
    + apply IH; [done..|]. intros y Hy. apply Hu. by right.
Qed.

(** What the decoder finds under a tag in an encoded map. *)
Lemma values_of_map (m : gmap string json) tag fs : marshal m = JObj fs → EqualFold tag tag = true →
  (∀ k, is_Some (m !! k) → EqualFold k tag = true → k = tag) →
  values_of tag fs = option_list (m !! tag).
Proof.
  intros [= <-] Hrefl Hk. unfold values_of. set (l := sort_Slice _ _).
  assert (Hl : ∀ k v, (k, v) ∈ l ↔ m !! k = Some v).
  { intros k v. unfold l. by rewrite elem_of_sort_Slice, elem_of_map_to_list. }
  destruct (m !! tag) as [v|] eqn:E.
  - rewrite (filter_single _ _ (tag, v)); [done| |by apply Hl|done|].
    + unfold l. rewrite sort_Slice_perm. apply NoDup_map_to_list.
    + intros [k w] H Hf. apply Hl in H. cbn in Hf.
      assert (k = tag) as -> by (apply Hk; [by eexists|done]). congruence.
  - rewrite filter_none; [done|]. intros [k w] H. apply Hl in H. cbn.
    destruct (EqualFold k tag) eqn:F; [|done].
    assert (k = tag) as -> by (apply Hk; [by eexists|done]). congruence.
Qed.

Lemma payload_key l k : is_Some (payload l !! k) → k ∈ l.*1.
Proof.
  rewrite payload_lookup. intros [v H]. revert H. induction l as [|[k' v'] l IH]; cbn; [done|].
  destruct (String.eqb_spec k' k) as [->|E]; [by left|]. intros H. right. by apply IH.
Qed.

Lemma unmarshal_pointer_marshal {A} {U : Unmarshal A} (m : gmap string json) (cur : option A) :
  unmarshal_pointer (marshal m) cur = Some <$> unmarshal (marshal m) (default zero_value cur).
Proof. done. Qed.

(** The decoder reads back the fields of an encoded map, whose keys are among [keys]. *)
Lemma in_object_map {A} (m : gmap string json) (keys : list string)
  (body : list (string * json) → A → option A) (cur : A) (result : option A) :
  (∀ k, is_Some (m !! k) → k ∈ keys) →
  (∀ fs, (∀ tag, only_key tag keys = true → values_of tag fs = option_list (m !! tag)) →
     body fs cur = result) →
  in_object body (marshal m) cur = result.
Proof.
  intros Hkeys H. destruct (marshal m) as [| | | | |fs] eqn:E; try discriminate E.
  apply H. intros tag Ht.
  unfold only_key in Ht. apply andb_true_iff in Ht as [Hr Ht]. rewrite forallb_forall in Ht.
  apply values_of_map; [done..|]. intros k Hk%Hkeys F.
  specialize (Ht k (proj1 (list_elem_of_In _ _) Hk)).
  rewrite F in Ht. by apply bool_decide_eq_true in Ht.
Qed.

Lemma in_object_payload {A} (l : list (string * json)) (body : list (string * json) → A → option A)
  (cur : A) (result : option A) :
  (∀ fs, (∀ tag, only_key tag l.*1 = true → values_of tag fs = option_list (assoc tag l)) →
     body fs cur = result) →
  in_object body (marshal (payload l)) cur = result.
Proof.
  intros H. apply (in_object_map _ l.*1); [apply payload_key|]. intros fs Hfs. apply H.
  intros tag Ht. by rewrite Hfs, payload_lookup.
Qed.

(** A literal extended by an assignment is a literal. *)
Lemma payload_insert k v l : <[k := v]> (payload l) = payload ((k, v) :: l).
Proof. done. Qed.
End fields.

(** ** Values *)

Lemma unmarshal_strings (s : slice string) cur : unmarshal (of_strings s) cur = Some s.
Proof.
  destruct s as [l|]; [|done]. cbn [of_strings unmarshal slice_Unmarshal].
  erewrite mapM_Some_2; [done|]. induction l as [|x l IH]; cbn; by constructor.
Qed.

Lemma unmarshal_int z cur : in_int64 z → unmarshal (JNum z) cur = Some z.
Proof.
  unfold in_int64. intros H. cbn.
  by rewrite (proj2 (Z.leb_le _ _)), (proj2 (Z.ltb_lt _ _)) by lia.
Qed.

Lemma unmarshal_pointer_int z cur : in_int64 z → unmarshal_pointer (JNum z) cur = Some (Some z).
Proof. intros H. unfold unmarshal_pointer. by rewrite unmarshal_int. Qed.
