(* ===== verification/NodeHttp.v ===== *)
(** * internal/adguard: the requests to a node

    The exchange of one request, the classification of its failures and the helpers
    every reader and writer of the adapter goes through.  Every response of a node is
    an input: the theorems cover any status, content type, size and body. *)

From S2P Require Import Prelude GoRuntime Json Domain Compat Wire Effects.

(** ** What the standard library decides *)

Class NodeRuntime := {
  (* net/url: the URL with another path, no query and no fragment, printed *)
  url_WithPath : string → string → string;
  (* url.Values.Encode, and the URL with this query *)
  url_WithQuery : string → list (string * string) → string;
  (* the URL without user information and with this scheme and host *)
  url_WithHost : string → string → string → string;
  (* strings.Fields, on strings with a byte outside ASCII *)
  uni_Fields : string → list string;
  (* the error of http.NewRequest for this URL *)
  NewRequest : string → option string;
  (* x509.CertPool.AppendCertsFromPEM finds a certificate *)
  AppendCertsFromPEM : string → bool;
  (* strconv.Quote *)
  Quote : string → string;
  (* the message of json.Unmarshal when the tree does not fit the type *)
  unmarshal_error : ∀ {A}, Unmarshal A → json → string;
  (* Time.UnmarshalJSON on the text of a string, and time.Parse with the layout RFC3339 *)
  unmarshal_time : string → option Time;
  parse_RFC3339 : string → option Time;
  (* Time.Format with the layout RFC3339Nano *)
  format_RFC3339Nano : Time → string
}.

(** A [*time.Time] field: a text in the format RFC 3339. *)
Definition unmarshal_time_pointer {N : NodeRuntime} (j : json) (cur : option Time) : option (option Time) :=
  match j with
  | JNull => Some None
  | JStr s => Some <$> unmarshal_time s
  | _ => None
  end.

(** ** Exchanges *)

(** A request as it is sent: the transport it goes through is built from the
    certificate policy of the node. *)
Record HTTPRequest := mkHTTPRequest {
  HTTP_Method : string;
  HTTP_URL : string;
  HTTP_Credentials : NodeCredentials;
  HTTP_Body : option json;
  HTTP_CustomCAPEM : option string
}.

(** What [client.Do] can fail with. *)
Inductive NetworkError :=
  | CertificateError (text : string)
  | RecordHeaderError (text : string)
  | OtherError (text : string).

(** The body of a response, read with a limit: an I/O error, or its size and the
    tree of its text (or the message of the parser). *)
Inductive Body :=
  | Unreadable
  | ReadBody (size : Z) (content : json + string).

Inductive HTTPOutcome :=
  | Failed (e : NetworkError)
  | Responded (StatusCode : Z) (ContentType : string) (body : Body).

Inductive http : Type → Type :=
  | Do (request : HTTPRequest) : http HTTPOutcome
  | Clock : http Time.

Abbreviation exchange := (prog http).

Definition MethodGet : string := "GET".
Definition MethodPost : string := "POST".
Definition MethodPut : string := "PUT".

Definition StatusOK : Z := 200.
Definition StatusUnauthorized : Z := 401.
Definition StatusForbidden : Z := 403.
Definition StatusNotFound : Z := 404.
Definition StatusInternalServerError : Z := 500.
Definition StatusNotImplemented : Z := 501.

(* src/internal/adguard/configuration.go:27-27 maxConfigurationBody *)
Definition maxConfigurationBody : Z := 4194304.
(* src/internal/adguard/client.go:23-23 maxResponseBytes *)
Definition maxResponseBytes : Z := 1048576.

(* src/internal/adguard/client.go:185-200 classifyNetworkError *)
Definition classifyNetworkError (e : NetworkError) : error :=
  match e with
  | CertificateError t =>
      DomainError ErrorNodeTLS "the node TLS certificate could not be verified" "" (Some (TextError t))
  | RecordHeaderError t =>
      DomainError ErrorNodeTLS "the node did not complete a valid TLS connection" "" (Some (TextError t))
  | OtherError t =>
      DomainError ErrorNodeUnreachable "the AdGuard Home node could not be reached" "" (Some (TextError t))
  end.

Section requests.
Context {R : Runtime} {N : NodeRuntime}.

(* src/internal/adguard/client.go:127-144 nodeAPIError *)
Definition nodeAPIError (kind : ErrorKind) (method path : string) (status : Z) (contentType problem : string)
  (cause : option error) : error :=
  let contentType := TrimSpace contentType in
  let contentType := if 128 <? len contentType then String.substring 0 128 contentType else contentType in
  let detail := "AdGuard Home node " +:+ method +:+ " " +:+ path +:+ " " +:+ problem in
  let detail :=
    if 0 <? status then
      detail +:+ " (HTTP " +:+ itoa status +:+
      (if negb (contentType =?? "") then ", content type " +:+ Quote contentType else "") +:+ ")"
    else detail in
  let detail := match cause with Some e => detail +:+ ": " +:+ Error_Error e | None => detail end in
  DomainError kind detail "" cause.

(** The certificates the transport trusts: [None] for those of the system. *)
(* src/internal/adguard/client.go:146-170 Probe.transport *)
Definition transport (policy customCAPEM : string) : res (option string) :=
  if policy =?? CertificateCustomCA then
    if negb (AppendCertsFromPEM customCAPEM)
    then Err (Validation "customCaPem" "does not contain a valid CA certificate")
    else Ok (Some customCAPEM)
  else Ok None.

(** A URL without a host is not an error here: the function returns the error of
    [url.Parse], which is nil. *)
(* src/internal/adguard/configuration.go:1565-1572 configurationEndpoint *)
Definition configurationEndpoint (baseURL path : string) : res string :=
  match url_Parse baseURL with
  | None => Err (TextError "parse")
  | Some parsed =>
      if URL_Host parsed =?? "" then Ok ""
      else Ok (url_WithPath baseURL (trim_right_slashes (URL_Path parsed) +:+ path))
  end.

(* src/internal/adguard/client.go:173-183 statusEndpoint *)
Definition statusEndpoint (baseURL : string) : res string :=
  let invalid := Err (TextError "invalid base URL") in
  match url_Parse baseURL with
  | None => invalid
  | Some parsed =>
      if (URL_Host parsed =?? "") || URL_User parsed || negb (URL_RawQuery parsed =?? "") ||
         negb (URL_Fragment parsed =?? "") ||
         (negb (URL_Scheme parsed =?? "http") && negb (URL_Scheme parsed =?? "https"))
      then invalid
      else Ok (url_WithPath baseURL (trim_right_slashes (URL_Path parsed) +:+ "/control/status"))
  end.

Definition invalid_node_URL : error := NewError ErrorNodeResponse "the node URL is invalid".
Definition rejected_credentials : error :=
  NewError ErrorNodeAuth "the node rejected its stored credentials".

Section node.
Context (request : NodeProbeRequest).

(** The steps the helpers share up to the response: the transport, the endpoint, the
    request and the exchange. *)
Definition open_request (endpoint : res string) (method create : string) (body : option json) :
  exchange (res (Z * string * Body)) :=
  try trusted <- Ret (transport (Request_CertificatePolicy request) (Request_CustomCAPEM request));
  match endpoint with
  | Err _ => fail invalid_node_URL
  | Ok url =>
      match NewRequest url with
      | Some text => fail (WrapError (create +:+ ": " +:+ text) (TextError text))
      | None =>
          do outcome <- call (Do (mkHTTPRequest method url (Request_Credentials request) body trusted));
          match outcome with
          | Failed e => fail (classifyNetworkError e)
          | Responded status contentType body =>
              if (status =? StatusUnauthorized) || (status =? StatusForbidden)
              then fail rejected_credentials
              else done_with (status, contentType, body)
          end
      end
  end.

(** The body under a limit, decoded into a variable of type [A]. *)
Definition read_body {A} {U : Unmarshal A} (limit : Z) (body : Body) (unreadable oversized : error)
  (invalid : string → error) : res A :=
  match body with
  | Unreadable => Err unreadable
  | ReadBody size content =>
      if limit <? size then Err oversized
      else match content with
      | inr text => Err (invalid text)
      | inl j =>
          match unmarshal j zero_value with
          | Some a => Ok a
          | None => Err (invalid (unmarshal_error U j))
          end
      end
  end.

(** [None]: the endpoint answered with one of the [unavailable] statuses. *)
(* src/internal/adguard/configuration.go:1518-1562 ConfigurationReader.getResource *)
Definition getResource {A} {U : Unmarshal A} (path : string) (unavailable : list Z) :
  exchange (res (option A)) :=
  try response <- open_request (configurationEndpoint (Request_BaseURL request) path) MethodGet
    "create AdGuard Home configuration request" None;
  let '(status, contentType, body) := response in
  if existsb (Z.eqb status) unavailable then done_with None
  else if negb (status =? StatusOK) then
    fail (nodeAPIError ErrorNodeResponse MethodGet path status contentType
            "returned an unexpected HTTP status" None)
  else
    try a <- Ret (read_body maxConfigurationBody body
      (NewError ErrorNodeResponse "the node configuration response could not be read")
      (NewError ErrorNodeResponse "the node configuration response was too large")
      (λ text, nodeAPIError ErrorNodeResponse MethodGet path status contentType "returned invalid JSON"
                 (Some (TextError text))));
    done_with (Some a).

(* src/internal/adguard/configuration.go:1505-1508 ConfigurationReader.get *)
Definition get {A} {U : Unmarshal A} (path : string) : exchange (res A) :=
  try r <- getResource path [];
  done_with (default zero_value r).

(* src/internal/adguard/configuration.go:1510-1512 ConfigurationReader.getOptional *)
Definition getOptional {A} {U : Unmarshal A} (path : string) : exchange (res (option A)) :=
  getResource path [StatusNotFound; StatusInternalServerError; StatusNotImplemented].

(* src/internal/adguard/configuration.go:1514-1516 ConfigurationReader.getOptionalEndpoint *)
Definition getOptionalEndpoint {A} {U : Unmarshal A} (path : string) : exchange (res (option A)) :=
  getResource path [StatusNotFound; StatusNotImplemented].

(* src/internal/adguard/configuration.go:1464-1503 ConfigurationReader.send *)
Definition send (method path : string) (payload : option json) : exchange (res unit) :=
  try response <- open_request (configurationEndpoint (Request_BaseURL request) path) method
    "create AdGuard Home mutation request" payload;
  let '(status, _, _) := response in
  if (status <? 200) || (300 <=? status) then
    fail (NewError ErrorNodeApply ("AdGuard Home rejected " +:+ method +:+ " " +:+ path +:+
            " with HTTP " +:+ itoa status))
  else done_with tt.

(* src/internal/adguard/configuration.go:1352-1354 ConfigurationReader.post *)
Definition post (path : string) (body : json) : exchange (res unit) := send MethodPost path (Some body).

(* src/internal/adguard/configuration.go:1356-1358 ConfigurationReader.put *)
Definition put (path : string) (body : json) : exchange (res unit) := send MethodPut path (Some body).

(** The two requests that read with a POST differ in their messages. *)
Definition post_for {A} {U : Unmarshal A} (path create unsupported unexpected unreadable oversized invalid : string)
  (body : json) : exchange (res A) :=
  try response <- open_request (configurationEndpoint (Request_BaseURL request) path) MethodPost create
    (Some body);
  let '(status, _, body) := response in
  if (status =? StatusNotFound) || (status =? StatusNotImplemented)
  then fail (NewError ErrorCapability unsupported)
  else if negb (status =? StatusOK) then fail (NewError ErrorNodeResponse unexpected)
  else Ret (read_body maxConfigurationBody body (NewError ErrorNodeResponse unreadable)
              (NewError ErrorNodeResponse oversized) (λ _, NewError ErrorNodeResponse invalid)).

(* src/internal/adguard/configuration.go:1360-1409 ConfigurationReader.postResource *)
Definition postResource {A} {U : Unmarshal A} (path : string) (body : json) : exchange (res A) :=
  post_for path "create AdGuard Home read-only request"
    "active DHCP detection is not supported by this node"
    "the node active DHCP endpoint returned an unexpected status"
    "the node active DHCP response could not be read"
    "the node active DHCP response was too large"
    "the node returned invalid active DHCP JSON" body.

(* src/internal/adguard/configuration.go:1411-1460 ConfigurationReader.postOperationalResource *)
Definition postOperationalResource {A} {U : Unmarshal A} (path : string) (body : json) : exchange (res A) :=
  post_for path "create AdGuard Home operational request"
    "the node does not support this operational command"
    "the node operational endpoint returned an unexpected status"
    "the node operational response could not be read"
    "the node operational response was too large"
    "the node returned invalid operational JSON" body.

(** [url.Parse(endpoint)] succeeds on what the URL prints, except on the empty text,
    whose query is empty too. *)
(* src/internal/adguard/configuration.go:1085-1131 ConfigurationReader.getOperationalResource *)
Definition getOperationalResource {A} {U : Unmarshal A} (path : string) (query : list (string * string)) :
  exchange (res A) :=
  let endpoint := match configurationEndpoint (Request_BaseURL request) path with
                  | Ok url => Ok (url_WithQuery url query)
                  | Err e => Err e
                  end in
  try response <- open_request endpoint MethodGet "create AdGuard Home operational request" None;
  let '(status, contentType, body) := response in
  if (status =? StatusNotFound) || (status =? StatusNotImplemented) then
    fail (nodeAPIError ErrorCapability MethodGet path status contentType
            "is not implemented by this node" None)
  else if negb (status =? StatusOK) then
    fail (nodeAPIError ErrorNodeResponse MethodGet path status contentType
            "returned an unexpected HTTP status" None)
  else
    let unsafe := NewError ErrorNodeResponse "the node operational response could not be read safely" in
    Ret (read_body maxConfigurationBody body unsafe unsafe
      (λ text, nodeAPIError ErrorNodeResponse MethodGet path status contentType "returned invalid JSON"
                 (Some (TextError text)))).
End node.
End requests.
