(* ===== verification/NodePayloads.v ===== *)
(** * internal/adguard: the payloads of a node

    The structs the adapter decodes, with their [json] tags. *)

From S2P Require Import Prelude GoRuntime Json Domain Wire Effects NodeHttp.

(* src/internal/adguard/client.go:49-56 statusResponse *)
Record statusResponse := mkstatusResponse {
  statusResponse_Version : string;
  statusResponse_Running : option bool;
  statusResponse_DNSAddresses : slice string;
  statusResponse_DNSPort : Z;
  statusResponse_ProtectionEnabled : option bool;
  statusResponse_ProtectionDisabledDurationMS : option Z
}.

#[global] Instance statusResponse_Unmarshal {R : Runtime} {N : NodeRuntime} : Unmarshal statusResponse := {|
  zero_value := mkstatusResponse
    "" None None 0 None None;
  unmarshal := in_object (λ fs cur,
    x1 ← field fs "version" (statusResponse_Version cur);
    x2 ← pointer_field fs "running" (statusResponse_Running cur);
    x3 ← field fs "dns_addresses" (statusResponse_DNSAddresses cur);
    x4 ← field fs "dns_port" (statusResponse_DNSPort cur);
    x5 ← pointer_field fs "protection_enabled" (statusResponse_ProtectionEnabled cur);
    x6 ← pointer_field fs "protection_disabled_duration" (statusResponse_ProtectionDisabledDurationMS cur);
    Some (mkstatusResponse
      x1 x2 x3 x4 x5 x6))
|}.

(* src/internal/adguard/configuration.go:150-179 dnsInfoResponse *)
Record dnsInfoResponse := mkdnsInfoResponse {
  dnsInfoResponse_UpstreamDNS : slice string;
  dnsInfoResponse_BootstrapDNS : slice string;
  dnsInfoResponse_FallbackDNS : slice string;
  dnsInfoResponse_PrivateReverseDNS : slice string;
  dnsInfoResponse_ProtectionEnabled : option bool;
  dnsInfoResponse_ProtectionDisabledUntil : option Time;
  dnsInfoResponse_RateLimit : Z;
  dnsInfoResponse_RateLimitIPv4 : Z;
  dnsInfoResponse_RateLimitIPv6 : Z;
  dnsInfoResponse_RateLimitAllowlist : slice string;
  dnsInfoResponse_BlockingMode : string;
  dnsInfoResponse_BlockingIPv4 : string;
  dnsInfoResponse_BlockingIPv6 : string;
  dnsInfoResponse_BlockedResponseTTL : Z;
  dnsInfoResponse_EDNSClientSubnet : bool;
  dnsInfoResponse_EDNSUseCustom : bool;
  dnsInfoResponse_EDNSCustomIP : string;
  dnsInfoResponse_DisableIPv6 : bool;
  dnsInfoResponse_DNSSECEnabled : bool;
  dnsInfoResponse_CacheSize : Z;
  dnsInfoResponse_CacheEnabled : option bool;
  dnsInfoResponse_CacheTTLMin : Z;
  dnsInfoResponse_CacheTTLMax : Z;
  dnsInfoResponse_CacheOptimistic : bool;
  dnsInfoResponse_UpstreamMode : string;
  dnsInfoResponse_UsePrivateReverse : bool;
  dnsInfoResponse_ResolveClients : bool;
  dnsInfoResponse_UpstreamTimeout : option Z
}.

#[global] Instance dnsInfoResponse_Unmarshal {R : Runtime} {N : NodeRuntime} : Unmarshal dnsInfoResponse := {|
  zero_value := mkdnsInfoResponse
    None None None None None None 0 0 0 None "" "" "" 0 false false "" false false 0 None 0 0
    false "" false false None;
  unmarshal := in_object (λ fs cur,
    x1 ← field fs "upstream_dns" (dnsInfoResponse_UpstreamDNS cur);
    x2 ← field fs "bootstrap_dns" (dnsInfoResponse_BootstrapDNS cur);
    x3 ← field fs "fallback_dns" (dnsInfoResponse_FallbackDNS cur);
    x4 ← field fs "local_ptr_upstreams" (dnsInfoResponse_PrivateReverseDNS cur);
    x5 ← pointer_field fs "protection_enabled" (dnsInfoResponse_ProtectionEnabled cur);
    x6 ← field_with unmarshal_time_pointer fs "protection_disabled_until" (dnsInfoResponse_ProtectionDisabledUntil cur);
    x7 ← field fs "ratelimit" (dnsInfoResponse_RateLimit cur);
    x8 ← field fs "ratelimit_subnet_len_ipv4" (dnsInfoResponse_RateLimitIPv4 cur);
    x9 ← field fs "ratelimit_subnet_len_ipv6" (dnsInfoResponse_RateLimitIPv6 cur);
    x10 ← field fs "ratelimit_whitelist" (dnsInfoResponse_RateLimitAllowlist cur);
    x11 ← field fs "blocking_mode" (dnsInfoResponse_BlockingMode cur);
    x12 ← field fs "blocking_ipv4" (dnsInfoResponse_BlockingIPv4 cur);
    x13 ← field fs "blocking_ipv6" (dnsInfoResponse_BlockingIPv6 cur);
    x14 ← field fs "blocked_response_ttl" (dnsInfoResponse_BlockedResponseTTL cur);
    x15 ← field fs "edns_cs_enabled" (dnsInfoResponse_EDNSClientSubnet cur);
    x16 ← field fs "edns_cs_use_custom" (dnsInfoResponse_EDNSUseCustom cur);
    x17 ← field fs "edns_cs_custom_ip" (dnsInfoResponse_EDNSCustomIP cur);
    x18 ← field fs "disable_ipv6" (dnsInfoResponse_DisableIPv6 cur);
    x19 ← field fs "dnssec_enabled" (dnsInfoResponse_DNSSECEnabled cur);
    x20 ← field fs "cache_size" (dnsInfoResponse_CacheSize cur);
    x21 ← pointer_field fs "cache_enabled" (dnsInfoResponse_CacheEnabled cur);
    x22 ← field fs "cache_ttl_min" (dnsInfoResponse_CacheTTLMin cur);
    x23 ← field fs "cache_ttl_max" (dnsInfoResponse_CacheTTLMax cur);
    x24 ← field fs "cache_optimistic" (dnsInfoResponse_CacheOptimistic cur);
    x25 ← field fs "upstream_mode" (dnsInfoResponse_UpstreamMode cur);
    x26 ← field fs "use_private_ptr_resolvers" (dnsInfoResponse_UsePrivateReverse cur);
    x27 ← field fs "resolve_clients" (dnsInfoResponse_ResolveClients cur);
    x28 ← pointer_field fs "upstream_timeout" (dnsInfoResponse_UpstreamTimeout cur);
    Some (mkdnsInfoResponse
      x1 x2 x3 x4 x5 x6 x7 x8 x9 x10 x11 x12 x13 x14 x15 x16 x17 x18 x19 x20 x21 x22 x23 x24
      x25 x26 x27 x28))
|}.

(* src/internal/adguard/configuration.go:181-189 filterListResponse *)
Record filterListResponse := mkfilterListResponse {
  filterListResponse_ID : Z;
  filterListResponse_Enabled : bool;
  filterListResponse_URL : string;
  filterListResponse_Name : string;
  filterListResponse_RulesCount : Z;
  filterListResponse_LastUpdated : string;
  filterListResponse_Whitelist : bool
}.

#[global] Instance filterListResponse_Unmarshal {R : Runtime} {N : NodeRuntime} : Unmarshal filterListResponse := {|
  zero_value := mkfilterListResponse
    0 false "" "" 0 "" false;
  unmarshal := in_object (λ fs cur,
    x1 ← field fs "id" (filterListResponse_ID cur);
    x2 ← field fs "enabled" (filterListResponse_Enabled cur);
    x3 ← field fs "url" (filterListResponse_URL cur);
    x4 ← field fs "name" (filterListResponse_Name cur);
    x5 ← field fs "rules_count" (filterListResponse_RulesCount cur);
    x6 ← field fs "last_updated" (filterListResponse_LastUpdated cur);
    x7 ← field fs "whitelist" (filterListResponse_Whitelist cur);
    Some (mkfilterListResponse
      x1 x2 x3 x4 x5 x6 x7))
|}.

(* src/internal/adguard/configuration.go:191-198 filterStatusResponse *)
Record filterStatusResponse := mkfilterStatusResponse {
  filterStatusResponse_FilteringEnabled : option bool;
  filterStatusResponse_Enabled : option bool;
  filterStatusResponse_Interval : Z;
  filterStatusResponse_Filters : slice filterListResponse;
  filterStatusResponse_UserRules : slice string;
  filterStatusResponse_WhitelistFilters : slice filterListResponse
}.

#[global] Instance filterStatusResponse_Unmarshal {R : Runtime} {N : NodeRuntime} : Unmarshal filterStatusResponse := {|
  zero_value := mkfilterStatusResponse
    None None 0 None None None;
  unmarshal := in_object (λ fs cur,
    x1 ← pointer_field fs "filtering_enabled" (filterStatusResponse_FilteringEnabled cur);
    x2 ← pointer_field fs "enabled" (filterStatusResponse_Enabled cur);
    x3 ← field fs "interval" (filterStatusResponse_Interval cur);
    x4 ← field fs "filters" (filterStatusResponse_Filters cur);
    x5 ← field fs "user_rules" (filterStatusResponse_UserRules cur);
    x6 ← field fs "whitelist_filters" (filterStatusResponse_WhitelistFilters cur);
    Some (mkfilterStatusResponse
      x1 x2 x3 x4 x5 x6))
|}.

(* src/internal/adguard/configuration.go:247-256 safeSearchResponse *)
Record safeSearchResponse := mksafeSearchResponse {
  safeSearchResponse_Enabled : bool;
  safeSearchResponse_Bing : bool;
  safeSearchResponse_DuckDuckGo : bool;
  safeSearchResponse_Ecosia : bool;
  safeSearchResponse_Google : bool;
  safeSearchResponse_Pixabay : bool;
  safeSearchResponse_Yandex : bool;
  safeSearchResponse_YouTube : bool
}.

#[global] Instance safeSearchResponse_Unmarshal {R : Runtime} {N : NodeRuntime} : Unmarshal safeSearchResponse := {|
  zero_value := mksafeSearchResponse
    false false false false false false false false;
  unmarshal := in_object (λ fs cur,
    x1 ← field fs "enabled" (safeSearchResponse_Enabled cur);
    x2 ← field fs "bing" (safeSearchResponse_Bing cur);
    x3 ← field fs "duckduckgo" (safeSearchResponse_DuckDuckGo cur);
    x4 ← field fs "ecosia" (safeSearchResponse_Ecosia cur);
    x5 ← field fs "google" (safeSearchResponse_Google cur);
    x6 ← field fs "pixabay" (safeSearchResponse_Pixabay cur);
    x7 ← field fs "yandex" (safeSearchResponse_Yandex cur);
    x8 ← field fs "youtube" (safeSearchResponse_YouTube cur);
    Some (mksafeSearchResponse
      x1 x2 x3 x4 x5 x6 x7 x8))
|}.

(* src/internal/adguard/configuration.go:257-260 dayRangeResponse *)
Record dayRangeResponse := mkdayRangeResponse {
  dayRangeResponse_Start : Z;
  dayRangeResponse_End : Z
}.

#[global] Instance dayRangeResponse_Unmarshal {R : Runtime} {N : NodeRuntime} : Unmarshal dayRangeResponse := {|
  zero_value := mkdayRangeResponse
    0 0;
  unmarshal := in_object (λ fs cur,
    x1 ← field fs "start" (dayRangeResponse_Start cur);
    x2 ← field fs "end" (dayRangeResponse_End cur);
    Some (mkdayRangeResponse
      x1 x2))
|}.

(* src/internal/adguard/configuration.go:261-270 scheduleResponse *)
Record scheduleResponse := mkscheduleResponse {
  scheduleResponse_TimeZone : string;
  scheduleResponse_Sun : option dayRangeResponse;
  scheduleResponse_Mon : option dayRangeResponse;
  scheduleResponse_Tue : option dayRangeResponse;
  scheduleResponse_Wed : option dayRangeResponse;
  scheduleResponse_Thu : option dayRangeResponse;
  scheduleResponse_Fri : option dayRangeResponse;
  scheduleResponse_Sat : option dayRangeResponse
}.

#[global] Instance scheduleResponse_Unmarshal {R : Runtime} {N : NodeRuntime} : Unmarshal scheduleResponse := {|
  zero_value := mkscheduleResponse
    "" None None None None None None None;
  unmarshal := in_object (λ fs cur,
    x1 ← field fs "time_zone" (scheduleResponse_TimeZone cur);
    x2 ← pointer_field fs "sun" (scheduleResponse_Sun cur);
    x3 ← pointer_field fs "mon" (scheduleResponse_Mon cur);
    x4 ← pointer_field fs "tue" (scheduleResponse_Tue cur);
    x5 ← pointer_field fs "wed" (scheduleResponse_Wed cur);
    x6 ← pointer_field fs "thu" (scheduleResponse_Thu cur);
    x7 ← pointer_field fs "fri" (scheduleResponse_Fri cur);
    x8 ← pointer_field fs "sat" (scheduleResponse_Sat cur);
    Some (mkscheduleResponse
      x1 x2 x3 x4 x5 x6 x7 x8))
|}.

(* src/internal/adguard/configuration.go:217-234 clientResponse *)
Record clientResponse := mkclientResponse {
  clientResponse_Name : string;
  clientResponse_IDs : slice string;
  clientResponse_UseGlobalSettings : bool;
  clientResponse_FilteringEnabled : bool;
  clientResponse_ParentalEnabled : bool;
  clientResponse_SafeBrowsingEnabled : bool;
  clientResponse_SafeSearch : safeSearchResponse;
  clientResponse_UseGlobalBlockedServices : bool;
  clientResponse_BlockedServices : slice string;
  clientResponse_BlockedServicesSchedule : scheduleResponse;
  clientResponse_Upstreams : slice string;
  clientResponse_UpstreamsCacheEnabled : bool;
  clientResponse_UpstreamsCacheSize : Z;
  clientResponse_Tags : slice string;
  clientResponse_IgnoreQueryLog : bool;
  clientResponse_IgnoreStatistics : bool
}.

#[global] Instance clientResponse_Unmarshal {R : Runtime} {N : NodeRuntime} : Unmarshal clientResponse := {|
  zero_value := mkclientResponse
    "" None false false false false zero_value false None zero_value None false 0 None false
    false;
  unmarshal := in_object (λ fs cur,
    x1 ← field fs "name" (clientResponse_Name cur);
    x2 ← field fs "ids" (clientResponse_IDs cur);
    x3 ← field fs "use_global_settings" (clientResponse_UseGlobalSettings cur);
    x4 ← field fs "filtering_enabled" (clientResponse_FilteringEnabled cur);
    x5 ← field fs "parental_enabled" (clientResponse_ParentalEnabled cur);
    x6 ← field fs "safebrowsing_enabled" (clientResponse_SafeBrowsingEnabled cur);
    x7 ← field fs "safe_search" (clientResponse_SafeSearch cur);
    x8 ← field fs "use_global_blocked_services" (clientResponse_UseGlobalBlockedServices cur);
    x9 ← field fs "blocked_services" (clientResponse_BlockedServices cur);
    x10 ← field fs "blocked_services_schedule" (clientResponse_BlockedServicesSchedule cur);
    x11 ← field fs "upstreams" (clientResponse_Upstreams cur);
    x12 ← field fs "upstreams_cache_enabled" (clientResponse_UpstreamsCacheEnabled cur);
    x13 ← field fs "upstreams_cache_size" (clientResponse_UpstreamsCacheSize cur);
    x14 ← field fs "tags" (clientResponse_Tags cur);
    x15 ← field fs "ignore_querylog" (clientResponse_IgnoreQueryLog cur);
    x16 ← field fs "ignore_statistics" (clientResponse_IgnoreStatistics cur);
    Some (mkclientResponse
      x1 x2 x3 x4 x5 x6 x7 x8 x9 x10 x11 x12 x13 x14 x15 x16))
|}.

(* src/internal/adguard/configuration.go:213-215 clientsResponse *)
Record clientsResponse := mkclientsResponse {
  clientsResponse_Clients : slice clientResponse
}.

#[global] Instance clientsResponse_Unmarshal {R : Runtime} {N : NodeRuntime} : Unmarshal clientsResponse := {|
  zero_value := mkclientsResponse
    None;
  unmarshal := in_object (λ fs cur,
    x1 ← field fs "clients" (clientsResponse_Clients cur);
    Some (mkclientsResponse
      x1))
|}.

(* src/internal/adguard/configuration.go:236-240 rewriteResponse *)
Record rewriteResponse := mkrewriteResponse {
  rewriteResponse_Domain : string;
  rewriteResponse_Answer : string;
  rewriteResponse_Enabled : option bool
}.

#[global] Instance rewriteResponse_Unmarshal {R : Runtime} {N : NodeRuntime} : Unmarshal rewriteResponse := {|
  zero_value := mkrewriteResponse
    "" "" None;
  unmarshal := in_object (λ fs cur,
    x1 ← field fs "domain" (rewriteResponse_Domain cur);
    x2 ← field fs "answer" (rewriteResponse_Answer cur);
    x3 ← pointer_field fs "enabled" (rewriteResponse_Enabled cur);
    Some (mkrewriteResponse
      x1 x2 x3))
|}.

(* src/internal/adguard/configuration.go:241-243 enabledResponse *)
Record enabledResponse := mkenabledResponse {
  enabledResponse_Enabled : bool
}.

#[global] Instance enabledResponse_Unmarshal {R : Runtime} {N : NodeRuntime} : Unmarshal enabledResponse := {|
  zero_value := mkenabledResponse
    false;
  unmarshal := in_object (λ fs cur,
    x1 ← field fs "enabled" (enabledResponse_Enabled cur);
    Some (mkenabledResponse
      x1))
|}.

(* src/internal/adguard/configuration.go:244-246 rewriteSettingsResponse *)
Record rewriteSettingsResponse := mkrewriteSettingsResponse {
  rewriteSettingsResponse_Enabled : bool
}.

#[global] Instance rewriteSettingsResponse_Unmarshal {R : Runtime} {N : NodeRuntime} : Unmarshal rewriteSettingsResponse := {|
  zero_value := mkrewriteSettingsResponse
    false;
  unmarshal := in_object (λ fs cur,
    x1 ← field fs "enabled" (rewriteSettingsResponse_Enabled cur);
    Some (mkrewriteSettingsResponse
      x1))
|}.

(* src/internal/adguard/configuration.go:271-274 blockedServicesResponse *)
Record blockedServicesResponse := mkblockedServicesResponse {
  blockedServicesResponse_Schedule : scheduleResponse;
  blockedServicesResponse_IDs : slice string
}.

#[global] Instance blockedServicesResponse_Unmarshal {R : Runtime} {N : NodeRuntime} : Unmarshal blockedServicesResponse := {|
  zero_value := mkblockedServicesResponse
    zero_value None;
  unmarshal := in_object (λ fs cur,
    x1 ← field fs "schedule" (blockedServicesResponse_Schedule cur);
    x2 ← field fs "ids" (blockedServicesResponse_IDs cur);
    Some (mkblockedServicesResponse
      x1 x2))
|}.

(* src/internal/adguard/configuration.go:285-291 policyResponse *)
Record policyResponse := mkpolicyResponse {
  policyResponse_Enabled : bool;
  policyResponse_IntervalMillis : Z;
  policyResponse_AnonymizeClientIP : bool;
  policyResponse_Ignored : slice string;
  policyResponse_IgnoredEnabled : option bool
}.

#[global] Instance policyResponse_Unmarshal {R : Runtime} {N : NodeRuntime} : Unmarshal policyResponse := {|
  zero_value := mkpolicyResponse
    false 0 false None None;
  unmarshal := in_object (λ fs cur,
    x1 ← field fs "enabled" (policyResponse_Enabled cur);
    x2 ← field fs "interval" (policyResponse_IntervalMillis cur);
    x3 ← field fs "anonymize_client_ip" (policyResponse_AnonymizeClientIP cur);
    x4 ← field fs "ignored" (policyResponse_Ignored cur);
    x5 ← pointer_field fs "ignored_enabled" (policyResponse_IgnoredEnabled cur);
    Some (mkpolicyResponse
      x1 x2 x3 x4 x5))
|}.

(* src/internal/adguard/configuration.go:292-310 tlsStatusResponse *)
Record tlsStatusResponse := mktlsStatusResponse {
  tlsStatusResponse_Enabled : bool;
  tlsStatusResponse_ServerName : string;
  tlsStatusResponse_ForceHTTPS : bool;
  tlsStatusResponse_HTTPSPort : Z;
  tlsStatusResponse_DNSOverTLSPort : Z;
  tlsStatusResponse_DNSOverQUICPort : Z;
  tlsStatusResponse_ServePlainDNS : bool;
  tlsStatusResponse_ValidCert : bool;
  tlsStatusResponse_ValidChain : bool;
  tlsStatusResponse_ValidKey : bool;
  tlsStatusResponse_ValidPair : bool;
  tlsStatusResponse_Subject : string;
  tlsStatusResponse_Issuer : string;
  tlsStatusResponse_NotBefore : string;
  tlsStatusResponse_NotAfter : string;
  tlsStatusResponse_DNSNames : slice string;
  tlsStatusResponse_Warning : string
}.

#[global] Instance tlsStatusResponse_Unmarshal {R : Runtime} {N : NodeRuntime} : Unmarshal tlsStatusResponse := {|
  zero_value := mktlsStatusResponse
    false "" false 0 0 0 false false false false false "" "" "" "" None "";
  unmarshal := in_object (λ fs cur,
    x1 ← field fs "enabled" (tlsStatusResponse_Enabled cur);
    x2 ← field fs "server_name" (tlsStatusResponse_ServerName cur);
    x3 ← field fs "force_https" (tlsStatusResponse_ForceHTTPS cur);
    x4 ← field fs "port_https" (tlsStatusResponse_HTTPSPort cur);
    x5 ← field fs "port_dns_over_tls" (tlsStatusResponse_DNSOverTLSPort cur);
    x6 ← field fs "port_dns_over_quic" (tlsStatusResponse_DNSOverQUICPort cur);
    x7 ← field fs "serve_plain_dns" (tlsStatusResponse_ServePlainDNS cur);
    x8 ← field fs "valid_cert" (tlsStatusResponse_ValidCert cur);
    x9 ← field fs "valid_chain" (tlsStatusResponse_ValidChain cur);
    x10 ← field fs "valid_key" (tlsStatusResponse_ValidKey cur);
    x11 ← field fs "valid_pair" (tlsStatusResponse_ValidPair cur);
    x12 ← field fs "subject" (tlsStatusResponse_Subject cur);
    x13 ← field fs "issuer" (tlsStatusResponse_Issuer cur);
    x14 ← field fs "not_before" (tlsStatusResponse_NotBefore cur);
    x15 ← field fs "not_after" (tlsStatusResponse_NotAfter cur);
    x16 ← field fs "dns_names" (tlsStatusResponse_DNSNames cur);
    x17 ← field fs "warning_validation" (tlsStatusResponse_Warning cur);
    Some (mktlsStatusResponse
      x1 x2 x3 x4 x5 x6 x7 x8 x9 x10 x11 x12 x13 x14 x15 x16 x17))
|}.

(* src/internal/adguard/configuration.go:311-317 dhcpV4Response *)
Record dhcpV4Response := mkdhcpV4Response {
  dhcpV4Response_Gateway : string;
  dhcpV4Response_SubnetMask : string;
  dhcpV4Response_RangeStart : string;
  dhcpV4Response_RangeEnd : string;
  dhcpV4Response_LeaseDuration : Z
}.

#[global] Instance dhcpV4Response_Unmarshal {R : Runtime} {N : NodeRuntime} : Unmarshal dhcpV4Response := {|
  zero_value := mkdhcpV4Response
    "" "" "" "" 0;
  unmarshal := in_object (λ fs cur,
    x1 ← field fs "gateway_ip" (dhcpV4Response_Gateway cur);
    x2 ← field fs "subnet_mask" (dhcpV4Response_SubnetMask cur);
    x3 ← field fs "range_start" (dhcpV4Response_RangeStart cur);
    x4 ← field fs "range_end" (dhcpV4Response_RangeEnd cur);
    x5 ← field fs "lease_duration" (dhcpV4Response_LeaseDuration cur);
    Some (mkdhcpV4Response
      x1 x2 x3 x4 x5))
|}.

(* src/internal/adguard/configuration.go:318-321 dhcpV6Response *)
Record dhcpV6Response := mkdhcpV6Response {
  dhcpV6Response_RangeStart : string;
  dhcpV6Response_LeaseDuration : Z
}.

#[global] Instance dhcpV6Response_Unmarshal {R : Runtime} {N : NodeRuntime} : Unmarshal dhcpV6Response := {|
  zero_value := mkdhcpV6Response
    "" 0;
  unmarshal := in_object (λ fs cur,
    x1 ← field fs "range_start" (dhcpV6Response_RangeStart cur);
    x2 ← field fs "lease_duration" (dhcpV6Response_LeaseDuration cur);
    Some (mkdhcpV6Response
      x1 x2))
|}.

(* src/internal/adguard/configuration.go:322-327 dhcpLeaseResponse *)
Record dhcpLeaseResponse := mkdhcpLeaseResponse {
  dhcpLeaseResponse_MAC : string;
  dhcpLeaseResponse_IP : string;
  dhcpLeaseResponse_Hostname : string;
  dhcpLeaseResponse_Expires : string
}.

#[global] Instance dhcpLeaseResponse_Unmarshal {R : Runtime} {N : NodeRuntime} : Unmarshal dhcpLeaseResponse := {|
  zero_value := mkdhcpLeaseResponse
    "" "" "" "";
  unmarshal := in_object (λ fs cur,
    x1 ← field fs "mac" (dhcpLeaseResponse_MAC cur);
    x2 ← field fs "ip" (dhcpLeaseResponse_IP cur);
    x3 ← field fs "hostname" (dhcpLeaseResponse_Hostname cur);
    x4 ← field fs "expires" (dhcpLeaseResponse_Expires cur);
    Some (mkdhcpLeaseResponse
      x1 x2 x3 x4))
|}.

(* src/internal/adguard/configuration.go:328-335 dhcpStatusResponse *)
Record dhcpStatusResponse := mkdhcpStatusResponse {
  dhcpStatusResponse_Enabled : bool;
  dhcpStatusResponse_InterfaceName : string;
  dhcpStatusResponse_V4 : dhcpV4Response;
  dhcpStatusResponse_V6 : dhcpV6Response;
  dhcpStatusResponse_Leases : slice dhcpLeaseResponse;
  dhcpStatusResponse_StaticLeases : slice dhcpLeaseResponse
}.

#[global] Instance dhcpStatusResponse_Unmarshal {R : Runtime} {N : NodeRuntime} : Unmarshal dhcpStatusResponse := {|
  zero_value := mkdhcpStatusResponse
    false "" zero_value zero_value None None;
  unmarshal := in_object (λ fs cur,
    x1 ← field fs "enabled" (dhcpStatusResponse_Enabled cur);
    x2 ← field fs "interface_name" (dhcpStatusResponse_InterfaceName cur);
    x3 ← field fs "v4" (dhcpStatusResponse_V4 cur);
    x4 ← field fs "v6" (dhcpStatusResponse_V6 cur);
    x5 ← field fs "leases" (dhcpStatusResponse_Leases cur);
    x6 ← field fs "static_leases" (dhcpStatusResponse_StaticLeases cur);
    Some (mkdhcpStatusResponse
      x1 x2 x3 x4 x5 x6))
|}.

(* src/internal/adguard/configuration.go:337-344 dhcpInterfaceResponse *)
Record dhcpInterfaceResponse := mkdhcpInterfaceResponse {
  dhcpInterfaceResponse_Name : string;
  dhcpInterfaceResponse_HardwareAddress : string;
  dhcpInterfaceResponse_IPv4Addresses : slice string;
  dhcpInterfaceResponse_IPv6Addresses : slice string;
  dhcpInterfaceResponse_GatewayIP : string;
  dhcpInterfaceResponse_Flags : string
}.

#[global] Instance dhcpInterfaceResponse_Unmarshal {R : Runtime} {N : NodeRuntime} : Unmarshal dhcpInterfaceResponse := {|
  zero_value := mkdhcpInterfaceResponse
    "" "" None None "" "";
  unmarshal := in_object (λ fs cur,
    x1 ← field fs "name" (dhcpInterfaceResponse_Name cur);
    x2 ← field fs "hardware_address" (dhcpInterfaceResponse_HardwareAddress cur);
    x3 ← field fs "ipv4_addresses" (dhcpInterfaceResponse_IPv4Addresses cur);
    x4 ← field fs "ipv6_addresses" (dhcpInterfaceResponse_IPv6Addresses cur);
    x5 ← field fs "gateway_ip" (dhcpInterfaceResponse_GatewayIP cur);
    x6 ← field fs "flags" (dhcpInterfaceResponse_Flags cur);
    Some (mkdhcpInterfaceResponse
      x1 x2 x3 x4 x5 x6))
|}.

(* src/internal/adguard/configuration.go:346-349 dhcpCheckResponseValue *)
Record dhcpCheckResponseValue := mkdhcpCheckResponseValue {
  dhcpCheckResponseValue_Status : string;
  dhcpCheckResponseValue_Error : string
}.

#[global] Instance dhcpCheckResponseValue_Unmarshal {R : Runtime} {N : NodeRuntime} : Unmarshal dhcpCheckResponseValue := {|
  zero_value := mkdhcpCheckResponseValue
    "" "";
  unmarshal := in_object (λ fs cur,
    x1 ← field fs "found" (dhcpCheckResponseValue_Status cur);
    x2 ← field fs "error" (dhcpCheckResponseValue_Error cur);
    Some (mkdhcpCheckResponseValue
      x1 x2))
|}.

(* src/internal/adguard/configuration.go:351-354 dhcpStaticIPResponse *)
Record dhcpStaticIPResponse := mkdhcpStaticIPResponse {
  dhcpStaticIPResponse_Status : string;
  dhcpStaticIPResponse_IP : string
}.

#[global] Instance dhcpStaticIPResponse_Unmarshal {R : Runtime} {N : NodeRuntime} : Unmarshal dhcpStaticIPResponse := {|
  zero_value := mkdhcpStaticIPResponse
    "" "";
  unmarshal := in_object (λ fs cur,
    x1 ← field fs "static" (dhcpStaticIPResponse_Status cur);
    x2 ← field fs "ip" (dhcpStaticIPResponse_IP cur);
    Some (mkdhcpStaticIPResponse
      x1 x2))
|}.


(** ** Anonymous structs *)

(* src/internal/adguard/configuration.go:276-280 blockedServicesCatalogueResponse *)
Record catalogueService := mkcatalogueService {
  catalogueService_ID : string;
  catalogueService_Name : string;
  catalogueService_GroupID : string
}.

#[global] Instance catalogueService_Unmarshal {R : Runtime} : Unmarshal catalogueService := {|
  zero_value := mkcatalogueService "" "" "";
  unmarshal := in_object (λ fs cur,
    x1 ← field fs "id" (catalogueService_ID cur);
    x2 ← field fs "name" (catalogueService_Name cur);
    x3 ← field fs "group_id" (catalogueService_GroupID cur);
    Some (mkcatalogueService x1 x2 x3))
|}.

(* src/internal/adguard/configuration.go:281-283 blockedServicesCatalogueResponse *)
Record catalogueGroup := mkcatalogueGroup { catalogueGroup_ID : string }.

#[global] Instance catalogueGroup_Unmarshal {R : Runtime} : Unmarshal catalogueGroup := {|
  zero_value := mkcatalogueGroup "";
  unmarshal := in_object (λ fs cur,
    x1 ← field fs "id" (catalogueGroup_ID cur);
    Some (mkcatalogueGroup x1))
|}.

(* src/internal/adguard/configuration.go:275-284 blockedServicesCatalogueResponse *)
Record blockedServicesCatalogueResponse := mkblockedServicesCatalogueResponse {
  catalogueResponse_BlockedServices : slice catalogueService;
  catalogueResponse_Groups : slice catalogueGroup
}.

#[global] Instance catalogueResponse_Unmarshal {R : Runtime} : Unmarshal blockedServicesCatalogueResponse := {|
  zero_value := mkblockedServicesCatalogueResponse None None;
  unmarshal := in_object (λ fs cur,
    x1 ← field fs "blocked_services" (catalogueResponse_BlockedServices cur);
    x2 ← field fs "groups" (catalogueResponse_Groups cur);
    Some (mkblockedServicesCatalogueResponse x1 x2))
|}.

(* src/internal/adguard/configuration.go:357-360 dhcpActiveCheckResponse *)
Record activeCheckV4 := mkactiveCheckV4 {
  activeCheckV4_OtherServer : dhcpCheckResponseValue;
  activeCheckV4_StaticIP : dhcpStaticIPResponse
}.

#[global] Instance activeCheckV4_Unmarshal {R : Runtime} {N : NodeRuntime} : Unmarshal activeCheckV4 := {|
  zero_value := mkactiveCheckV4 zero_value zero_value;
  unmarshal := in_object (λ fs cur,
    x1 ← field fs "other_server" (activeCheckV4_OtherServer cur);
    x2 ← field fs "static_ip" (activeCheckV4_StaticIP cur);
    Some (mkactiveCheckV4 x1 x2))
|}.

(* src/internal/adguard/configuration.go:361-363 dhcpActiveCheckResponse *)
Record activeCheckV6 := mkactiveCheckV6 { activeCheckV6_OtherServer : dhcpCheckResponseValue }.

#[global] Instance activeCheckV6_Unmarshal {R : Runtime} {N : NodeRuntime} : Unmarshal activeCheckV6 := {|
  zero_value := mkactiveCheckV6 zero_value;
  unmarshal := in_object (λ fs cur,
    x1 ← field fs "other_server" (activeCheckV6_OtherServer cur);
    Some (mkactiveCheckV6 x1))
|}.

(* src/internal/adguard/configuration.go:356-364 dhcpActiveCheckResponse *)
Record dhcpActiveCheckResponse := mkdhcpActiveCheckResponse {
  dhcpActiveCheckResponse_V4 : activeCheckV4;
  dhcpActiveCheckResponse_V6 : activeCheckV6
}.

#[global] Instance dhcpActiveCheckResponse_Unmarshal {R : Runtime} {N : NodeRuntime} :
  Unmarshal dhcpActiveCheckResponse := {|
  zero_value := mkdhcpActiveCheckResponse zero_value zero_value;
  unmarshal := in_object (λ fs cur,
    x1 ← field fs "v4" (dhcpActiveCheckResponse_V4 cur);
    x2 ← field fs "v6" (dhcpActiveCheckResponse_V6 cur);
    Some (mkdhcpActiveCheckResponse x1 x2))
|}.

(* src/internal/adguard/configuration.go:202-205 filterCheckHostResponse *)
Record checkHostRule := mkcheckHostRule {
  checkHostRule_Text : string;
  checkHostRule_FilterListID : Z
}.

#[global] Instance checkHostRule_Unmarshal {R : Runtime} : Unmarshal checkHostRule := {|
  zero_value := mkcheckHostRule "" 0;
  unmarshal := in_object (λ fs cur,
    x1 ← field fs "text" (checkHostRule_Text cur);
    x2 ← field fs "filter_list_id" (checkHostRule_FilterListID cur);
    Some (mkcheckHostRule x1 x2))
|}.

(* src/internal/adguard/configuration.go:200-211 filterCheckHostResponse *)
Record filterCheckHostResponse := mkfilterCheckHostResponse {
  filterCheckHostResponse_Reason : string;
  filterCheckHostResponse_Rules : slice checkHostRule;
  filterCheckHostResponse_Rule : string;
  filterCheckHostResponse_FilterID : Z;
  filterCheckHostResponse_ServiceName : string;
  filterCheckHostResponse_CNAME : string;
  filterCheckHostResponse_IPAddresses : slice string
}.

#[global] Instance filterCheckHostResponse_Unmarshal {R : Runtime} : Unmarshal filterCheckHostResponse := {|
  zero_value := mkfilterCheckHostResponse "" None "" 0 "" "" None;
  unmarshal := in_object (λ fs cur,
    x1 ← field fs "reason" (filterCheckHostResponse_Reason cur);
    x2 ← field fs "rules" (filterCheckHostResponse_Rules cur);
    x3 ← field fs "rule" (filterCheckHostResponse_Rule cur);
    x4 ← field fs "filter_id" (filterCheckHostResponse_FilterID cur);
    x5 ← field fs "service_name" (filterCheckHostResponse_ServiceName cur);
    x6 ← field fs "cname" (filterCheckHostResponse_CNAME cur);
    x7 ← field fs "ip_addrs" (filterCheckHostResponse_IPAddresses cur);
    Some (mkfilterCheckHostResponse x1 x2 x3 x4 x5 x6 x7))
|}.
