(* ===== verification/NodeReader.v ===== *)
(** * internal/adguard: reading a node

    The configuration of a node as a document, its capability profile, and the
    inventory it reports beside its configuration. *)

From S2P Require Import Prelude GoRuntime Json Domain Compat Configuration Net AuditMetadata.
From S2P Require Import ControlModel InventoryModel Wire Effects NodeHttp NodePayloads.

(** ** Listeners *)

(** [url.URL.Hostname] and [url.URL.Port] of a host. *)
Definition valid_optional_port (port : string) : bool := string_forall is_digit port.

Definition split_host_port (hostPort : string) : string * string :=
  let '(host, port) :=
    match CutLast hostPort ":" with
    | Some (host, port) => if valid_optional_port port then (host, port) else (hostPort, "")
    | None => (hostPort, "")
    end in
  if HasPrefix host "[" && HasSuffix host "]"
  then (String.substring 1 (String.length host - 2) host, port) else (host, port).

Definition Hostname (host : string) : string := (split_host_port host).1.
Definition Port (host : string) : string := (split_host_port host).2.

Section reader.
Context {R : Runtime} {N : NodeRuntime}.

(** An opaque URL has no host; [strconv.Atoi] fails on the digits of a number past the
    range of [int], which is past the range of ports. *)
(* src/internal/adguard/configuration.go:652-678 isEncryptedDNSEndpoint *)
Definition isEncryptedDNSEndpoint (address : string) : bool :=
  match url_Parse address with
  | None => false
  | Some endpoint =>
      let host := URL_Host endpoint in
      if (host =?? "") || (Hostname host =?? "") || URL_User endpoint then false
      else if negb (existsb (String.eqb (ToLower (URL_Scheme endpoint))) ["https"; "tls"; "quic"]) then false
      else if HasSuffix host ":" then false
      else if negb (Port host =?? "") &&
              ((decimal_value (Port host) <? 1) || (65535 <? decimal_value (Port host))) then false
      else if ContainsAny (Hostname host) ":[]" || HasPrefix host "[" then
        match ParseAddr (Hostname host) with
        | Some ip => Is6 ip && HasPrefix host "["
        | None => false
        end
      else true
  end.

Definition invalid_listener : error :=
  NewError ErrorNodeResponse "the node returned an invalid DNS listener configuration".

Definition is_address (address : string) : bool := bool_decide (is_Some (ParseAddr address)).

(* src/internal/adguard/configuration.go:619-638 validateListenerStatus *)
Definition validateListenerStatus (status : statusResponse) : res unit :=
  let addresses := TrimSpace <$> elems (statusResponse_DNSAddresses status) in
  match statusResponse_ProtectionEnabled status, statusResponse_ProtectionDisabledDurationMS status with
  | Some enabled, Some duration =>
      if (statusResponse_DNSPort status <? 1) || (65535 <? statusResponse_DNSPort status) ||
         (addresses =?? []) || (duration <? 0) || (enabled && (0 <? duration))
      then Err invalid_listener
      else if negb (forallb (λ a, is_address a || isEncryptedDNSEndpoint a) addresses)
      then Err invalid_listener
      else if negb (existsb is_address addresses) then Err invalid_listener
      else Ok tt
  | _, _ => Err invalid_listener
  end.

(* src/internal/adguard/configuration.go:642-650 plainDNSBindHosts *)
Definition plainDNSBindHosts (addresses : slice string) : slice string :=
  Some (omap (λ address, Addr_String <$> ParseAddr (TrimSpace address)) (elems addresses)).

(* src/internal/adguard/configuration.go:680-685 validateDNSProtection *)
Definition validateDNSProtection (dns : dnsInfoResponse) : res unit :=
  let invalid := Err (NewError ErrorNodeResponse "the node returned an invalid DNS protection state") in
  match dnsInfoResponse_ProtectionEnabled dns with
  | None => invalid
  | Some enabled =>
      if enabled && bool_decide (is_Some (dnsInfoResponse_ProtectionDisabledUntil dns))
      then invalid else Ok tt
  end.

(** ** The document *)

(* src/internal/adguard/configuration.go:727-732 protectionDisabledUntil *)
Definition protectionDisabledUntil (value : option Time) : string :=
  from_option format_RFC3339Nano "" value.

(* src/internal/adguard/configuration.go:734-739 valueOrDefault *)
Definition valueOrDefault {T} (value : option T) (fallback : T) : T :=
  match value with None => fallback | Some v => v end.

(* src/internal/adguard/configuration.go:782-784 safeSearchModel *)
Definition safeSearchModel (value : safeSearchResponse) : SafeSearch :=
  mkSafeSearch (safeSearchResponse_Enabled value) (safeSearchResponse_Bing value)
    (safeSearchResponse_DuckDuckGo value) (safeSearchResponse_Ecosia value)
    (safeSearchResponse_Google value) (safeSearchResponse_Pixabay value)
    (safeSearchResponse_Yandex value) (safeSearchResponse_YouTube value).

Definition day_of (day : string) (period : option dayRangeResponse) : list (string * DayRange) :=
  match period with
  | None => []
  | Some p => [(day, mkDayRange (dayRangeResponse_Start p) (dayRangeResponse_End p))]
  end.

(* src/internal/adguard/configuration.go:786-794 scheduleModel *)
Definition scheduleModel (value : scheduleResponse) : Schedule :=
  mkSchedule (scheduleResponse_TimeZone value)
    (list_to_map (day_of "sun" (scheduleResponse_Sun value) ++ day_of "mon" (scheduleResponse_Mon value) ++
                  day_of "tue" (scheduleResponse_Tue value) ++ day_of "wed" (scheduleResponse_Wed value) ++
                  day_of "thu" (scheduleResponse_Thu value) ++ day_of "fri" (scheduleResponse_Fri value) ++
                  day_of "sat" (scheduleResponse_Sat value))).

(* src/internal/adguard/configuration.go:770-780 configurationTLSStatus *)
Definition configurationTLSStatus (tls : tlsStatusResponse) : TLSStatus := {|
  TLSStatus_Enabled := tlsStatusResponse_Enabled tls;
  TLSStatus_ServerName := tlsStatusResponse_ServerName tls;
  TLSStatus_ForceHTTPS := tlsStatusResponse_ForceHTTPS tls;
  TLSStatus_HTTPSPort := tlsStatusResponse_HTTPSPort tls;
  TLSStatus_DNSOverTLSPort := tlsStatusResponse_DNSOverTLSPort tls;
  TLSStatus_DNSOverQUICPort := tlsStatusResponse_DNSOverQUICPort tls;
  TLSStatus_ServePlainDNS := tlsStatusResponse_ServePlainDNS tls;
  TLSStatus_ValidCertificate := tlsStatusResponse_ValidCert tls;
  TLSStatus_ValidChain := tlsStatusResponse_ValidChain tls;
  TLSStatus_ValidKey := tlsStatusResponse_ValidKey tls;
  TLSStatus_ValidPair := tlsStatusResponse_ValidPair tls;
  TLSStatus_Subject := tlsStatusResponse_Subject tls;
  TLSStatus_Issuer := tlsStatusResponse_Issuer tls;
  TLSStatus_NotBefore := tlsStatusResponse_NotBefore tls;
  TLSStatus_NotAfter := tlsStatusResponse_NotAfter tls;
  TLSStatus_DNSNames := tlsStatusResponse_DNSNames tls;
  TLSStatus_Warning := tlsStatusResponse_Warning tls
|}.

(** The DNS section of [configurationDocument]. *)
(* src/internal/adguard/configuration.go:712-720 configurationDocument *)
Definition dns_model (dns : dnsInfoResponse) : DNS := {|
  DNS_UpstreamDNS := dnsInfoResponse_UpstreamDNS dns;
  DNS_BootstrapDNS := dnsInfoResponse_BootstrapDNS dns;
  DNS_FallbackDNS := dnsInfoResponse_FallbackDNS dns;
  DNS_PrivateReverseDNS := dnsInfoResponse_PrivateReverseDNS dns;
  DNS_ProtectionEnabled := valueOrDefault (dnsInfoResponse_ProtectionEnabled dns) false;
  DNS_RateLimit := dnsInfoResponse_RateLimit dns;
  DNS_RateLimitIPv4 := dnsInfoResponse_RateLimitIPv4 dns;
  DNS_RateLimitIPv6 := dnsInfoResponse_RateLimitIPv6 dns;
  DNS_RateLimitAllowlist := dnsInfoResponse_RateLimitAllowlist dns;
  DNS_BlockingMode := dnsInfoResponse_BlockingMode dns;
  DNS_BlockingIPv4 := dnsInfoResponse_BlockingIPv4 dns;
  DNS_BlockingIPv6 := dnsInfoResponse_BlockingIPv6 dns;
  DNS_BlockedResponseTTL := dnsInfoResponse_BlockedResponseTTL dns;
  DNS_EDNSClientSubnet := dnsInfoResponse_EDNSClientSubnet dns;
  DNS_EDNSUseCustom := dnsInfoResponse_EDNSUseCustom dns;
  DNS_EDNSCustomIP := dnsInfoResponse_EDNSCustomIP dns;
  DNS_DisableIPv6 := dnsInfoResponse_DisableIPv6 dns;
  DNS_DNSSECEnabled := dnsInfoResponse_DNSSECEnabled dns;
  DNS_CacheSize := dnsInfoResponse_CacheSize dns;
  DNS_CacheEnabled := valueOrDefault (dnsInfoResponse_CacheEnabled dns) (0 <? dnsInfoResponse_CacheSize dns);
  DNS_CacheTTLMin := dnsInfoResponse_CacheTTLMin dns;
  DNS_CacheTTLMax := dnsInfoResponse_CacheTTLMax dns;
  DNS_CacheOptimistic := dnsInfoResponse_CacheOptimistic dns;
  DNS_UpstreamMode := dnsInfoResponse_UpstreamMode dns;
  DNS_UsePrivateReverse := dnsInfoResponse_UsePrivateReverse dns;
  DNS_ResolveClients := dnsInfoResponse_ResolveClients dns;
  DNS_UpstreamTimeout := valueOrDefault (dnsInfoResponse_UpstreamTimeout dns) 0
|}.

(** The URLs of the enabled lists, of the block lists or of the allow lists. *)
Definition enabled_urls (whitelist : bool) (filters : list filterListResponse) : list string :=
  omap (λ f, if filterListResponse_Enabled f && Bool.eqb (filterListResponse_Whitelist f) whitelist
             then Some (filterListResponse_URL f) else None) filters.

Definition enabled_whitelist (filters : list filterListResponse) : list string :=
  omap (λ f, if filterListResponse_Enabled f then Some (filterListResponse_URL f) else None) filters.

(* src/internal/adguard/configuration.go:687-725 configurationDocument *)
Definition configurationDocument (version : string) (status : statusResponse) (dns : dnsInfoResponse)
  (filtering : filterStatusResponse) : Document :=
  let filters := elems (filterStatusResponse_Filters filtering) in
  let filterURLs := enabled_urls false filters in
  let whitelistURLs := enabled_urls true filters ++
                       enabled_whitelist (elems (filterStatusResponse_WhitelistFilters filtering)) in
  let enabled := match filterStatusResponse_Enabled filtering with
                 | Some e => e
                 | None => valueOrDefault (filterStatusResponse_FilteringEnabled filtering) false
                 end in
  mkDocument SchemaVersion
    (mkShared (dns_model dns)
       (mkFiltering enabled (filterStatusResponse_Interval filtering) (Some filterURLs) (Some whitelistURLs)
          (filterStatusResponse_UserRules filtering))
       None false None zero_Services zero_QueryLogPolicy zero_StatisticsPolicy)
    (mkNodeSpecific (plainDNSBindHosts (statusResponse_DNSAddresses status)) (statusResponse_DNSPort status) None)
    (mkObservedOnly version (protectionDisabledUntil (dnsInfoResponse_ProtectionDisabledUntil dns))
       zero_TLSStatus None)
    (Some [mkUnsupported "tls_mutation" "TLS is inventory-only until controller secret references are implemented"]).

(** The conversions of [populateBroaderDocument]. *)
(* src/internal/adguard/configuration.go:744-744 populateBroaderDocument *)
Definition client_model (client : clientResponse) : PersistentClient := {|
  PersistentClient_Name := clientResponse_Name client;
  PersistentClient_IDs := clientResponse_IDs client;
  PersistentClient_UseGlobalSettings := clientResponse_UseGlobalSettings client;
  PersistentClient_FilteringEnabled := clientResponse_FilteringEnabled client;
  PersistentClient_ParentalEnabled := clientResponse_ParentalEnabled client;
  PersistentClient_SafeBrowsingEnabled := clientResponse_SafeBrowsingEnabled client;
  PersistentClient_SafeSearch := safeSearchModel (clientResponse_SafeSearch client);
  PersistentClient_UseGlobalBlockedServices := clientResponse_UseGlobalBlockedServices client;
  PersistentClient_BlockedServices := clientResponse_BlockedServices client;
  PersistentClient_BlockedServicesSchedule := scheduleModel (clientResponse_BlockedServicesSchedule client);
  PersistentClient_Upstreams := clientResponse_Upstreams client;
  PersistentClient_UpstreamsCacheEnabled := clientResponse_UpstreamsCacheEnabled client;
  PersistentClient_UpstreamsCacheSize := clientResponse_UpstreamsCacheSize client;
  PersistentClient_Tags := clientResponse_Tags client;
  PersistentClient_IgnoreQueryLog := clientResponse_IgnoreQueryLog client;
  PersistentClient_IgnoreStatistics := clientResponse_IgnoreStatistics client
|}.

(* src/internal/adguard/configuration.go:748-750 populateBroaderDocument *)
Definition rewrite_model (rewrite : rewriteResponse) : Rewrite :=
  mkRewrite (rewriteResponse_Domain rewrite) (rewriteResponse_Answer rewrite)
    (valueOrDefault (rewriteResponse_Enabled rewrite) true).

(* src/internal/adguard/configuration.go:751-751 populateBroaderDocument *)
Definition services_model (blocked : blockedServicesResponse) (safeBrowsing parental : enabledResponse)
  (safeSearch : safeSearchResponse) : Services :=
  mkServices (blockedServicesResponse_IDs blocked) (scheduleModel (blockedServicesResponse_Schedule blocked))
    (enabledResponse_Enabled safeBrowsing) (enabledResponse_Enabled parental) (safeSearchModel safeSearch).

(* src/internal/adguard/configuration.go:752-752 populateBroaderDocument *)
Definition querylog_model (queryLog : policyResponse) : QueryLogPolicy :=
  mkQueryLogPolicy (policyResponse_Enabled queryLog) (policyResponse_IntervalMillis queryLog)
    (policyResponse_AnonymizeClientIP queryLog) (policyResponse_Ignored queryLog)
    (valueOrDefault (policyResponse_IgnoredEnabled queryLog) true).

(* src/internal/adguard/configuration.go:753-753 populateBroaderDocument *)
Definition statistics_model (statistics : policyResponse) : StatisticsPolicy :=
  mkStatisticsPolicy (policyResponse_Enabled statistics) (policyResponse_IntervalMillis statistics)
    (policyResponse_Ignored statistics) (valueOrDefault (policyResponse_IgnoredEnabled statistics) true).

(* src/internal/adguard/configuration.go:759-763 populateBroaderDocument *)
Definition dhcp_model (dhcp : dhcpStatusResponse) : DHCPConfig :=
  let v4 := dhcpStatusResponse_V4 dhcp in
  let v6 := dhcpStatusResponse_V6 dhcp in
  mkDHCPConfig (dhcpStatusResponse_Enabled dhcp) (dhcpStatusResponse_InterfaceName dhcp)
    (mkDHCPIPv4 (dhcpV4Response_Gateway v4) (dhcpV4Response_SubnetMask v4) (dhcpV4Response_RangeStart v4)
       (dhcpV4Response_RangeEnd v4) (dhcpV4Response_LeaseDuration v4))
    (mkDHCPIPv6 (dhcpV6Response_RangeStart v6) (dhcpV6Response_LeaseDuration v6))
    (Some ((λ lease, mkDHCPStaticLease (dhcpLeaseResponse_MAC lease) (dhcpLeaseResponse_IP lease)
                       (dhcpLeaseResponse_Hostname lease)) <$> elems (dhcpStatusResponse_StaticLeases dhcp))).

(* src/internal/adguard/configuration.go:764-767 populateBroaderDocument *)
Definition leases_model (dhcp : dhcpStatusResponse) : slice DHCPLease :=
  Some ((λ lease, mkDHCPLease (dhcpLeaseResponse_MAC lease) (dhcpLeaseResponse_IP lease)
                    (dhcpLeaseResponse_Hostname lease) (dhcpLeaseResponse_Expires lease)) <$>
        elems (dhcpStatusResponse_Leases dhcp)).

(** [dhcp] is [None] where the node does not serve the endpoint. *)
(* src/internal/adguard/configuration.go:741-768 populateBroaderDocument *)
Definition populateBroaderDocument (document : Document) (clients : clientsResponse)
  (rewriteSettings : rewriteSettingsResponse) (rewrites : slice rewriteResponse)
  (blocked : blockedServicesResponse) (safeBrowsing parental : enabledResponse)
  (safeSearch : safeSearchResponse) (queryLog statistics : policyResponse) (tls : tlsStatusResponse)
  (dhcp : option dhcpStatusResponse) : Document :=
  let shared := Document_Shared document in
  let shared := mkShared (Shared_DNS shared) (Shared_Filtering shared)
    (Some (client_model <$> elems (clientsResponse_Clients clients)))
    (rewriteSettingsResponse_Enabled rewriteSettings) (Some (rewrite_model <$> elems rewrites))
    (services_model blocked safeBrowsing parental safeSearch) (querylog_model queryLog)
    (statistics_model statistics) in
  let node := Document_NodeSpecific document in
  let observed := Document_ObservedOnly document in
  let unsupported := Document_Unsupported document in
  match dhcp with
  | None =>
      mkDocument (Document_SchemaVersion document) shared node
        (mkObservedOnly (ObservedOnly_ProductVersion observed) (ObservedOnly_ProtectionDisabledUntil observed)
           (configurationTLSStatus tls) (ObservedOnly_DHCPLeases observed))
        (Some (elems unsupported ++ [mkUnsupported "dhcp" "the node reports that DHCP is unavailable"]))
  | Some dhcp =>
      mkDocument (Document_SchemaVersion document) shared
        (mkNodeSpecific (NodeSpecific_BindHosts node) (NodeSpecific_DNSPort node) (Some (dhcp_model dhcp)))
        (mkObservedOnly (ObservedOnly_ProductVersion observed) (ObservedOnly_ProtectionDisabledUntil observed)
           (configurationTLSStatus tls) (leases_model dhcp))
        unsupported
  end.

(** ** ReadConfiguration

    The profile is returned with the error, so a failed observation still records
    which features the node answered for. *)

Definition feature (name : string) (value : bool) (profile : CapabilityProfile) : CapabilityProfile :=
  mkCapabilityProfile (CapabilityProfile_NodeID profile) (CapabilityProfile_ProductVersion profile)
    (CapabilityProfile_Compatibility profile) (CapabilityProfile_SchemaVersion profile)
    (<[name := value]> (CapabilityProfile_Features profile)) (CapabilityProfile_Warnings profile)
    (CapabilityProfile_RefreshedAt profile).

Definition warn (text : string) (profile : CapabilityProfile) : CapabilityProfile :=
  mkCapabilityProfile (CapabilityProfile_NodeID profile) (CapabilityProfile_ProductVersion profile)
    (CapabilityProfile_Compatibility profile) (CapabilityProfile_SchemaVersion profile)
    (CapabilityProfile_Features profile) (CapabilityProfile_Warnings profile ++ [text])
    (CapabilityProfile_RefreshedAt profile).

Definition warn_if (condition : bool) (text : string) (profile : CapabilityProfile) : CapabilityProfile :=
  if condition then warn text profile else profile.

Definition feature_names : list string :=
  ["dns"; "cache_toggle"; "upstream_timeout"; "test_upstream_dns"; "cache_clear"; "filtering";
   "test_host_filtering"; "test_host_filtering_context"; "filter_interval_arbitrary"; "clients"; "rewrites";
   "rewrite_toggle"; "blocked_services"; "safety"; "safe_search_ecosia"; "query_log"; "querylog_clear";
   "statistics"; "statistics_exact_range"; "stats_reset"; "ignored_lists_toggle"; "tls"; "dhcp"].

(* src/internal/adguard/client.go:220-223 SupportsRecentStatistics *)
Definition SupportsRecentStatistics (version : string) : bool :=
  (Generation version =?? APIGenerationLegacyControl) &&
  (Compatibility version =?? CompatibilitySupported).

(* src/internal/adguard/configuration.go:367-367 ConfigurationReader.ReadConfiguration *)
Definition initial_profile (version : string) : CapabilityProfile :=
  feature "statistics_exact_range" (SupportsRecentStatistics version)
    (mkCapabilityProfile "" version (Compatibility version) SchemaVersion
       (list_to_map ((λ name, (name, false)) <$> feature_names)) [] time_zero).

Definition features (names : list string) (profile : CapabilityProfile) : CapabilityProfile :=
  foldl (λ p name, feature name true p) profile names.

Definition reading := exchange (CapabilityProfile * res Document).

Section node.
Context (request : NodeProbeRequest).

(** [if err := r.get(...); err != nil { return configuration.Document{}, profile, err }],
    with the warning some of the reads leave in the profile. *)
Definition reads {A} (p : exchange (res A)) (profile : CapabilityProfile) (warning : option string)
  (k : A → reading) : reading :=
  do r <- p;
  match r with
  | Ok a => k a
  | Err e => Ret (from_option (λ text, warn text profile) profile warning, Err e)
  end.

Definition listener_warning : string := "DNS listener configuration could not be read.".

Definition outside_range : string :=
  "This AdGuard Home version is outside the tested configuration inventory range.".
Definition provisional : string :=
  "This AdGuard Home version is provisionally compatible with the legacy /control API; Atlas validates the APIs it uses, but this version has not been explicitly release-tested.".

Definition bool_of_pointer {A} (p : option A) : bool := bool_decide (is_Some p).

(* src/internal/adguard/configuration.go:366-469 ConfigurationReader.ReadConfiguration *)
Definition ReadConfiguration (version : string) : reading :=
  let profile := initial_profile version in
  if negb (Compatibility version =?? CompatibilitySupported) then
    Ret (warn outside_range profile,
         Err (NewError ErrorCapability ("Unsupported AdGuard Home version. Minimum supported version: 0.107.78. Detected version: " +:+ version)))
  else
    let profile := warn_if (IsProvisionallyCompatible version) provisional profile in
    let profile := features ["querylog_clear"; "stats_reset"] profile in
    reads (get request "/control/status") profile (Some listener_warning) (λ status : statusResponse,
    reads (Ret (validateListenerStatus status)) profile (Some listener_warning) (λ _,
    reads (get request "/control/dns_info") profile (Some "DNS configuration could not be read.")
      (λ dns : dnsInfoResponse,
    reads (Ret (validateDNSProtection dns)) profile (Some "DNS protection state could not be validated.") (λ _,
    let profile := features ["dns"; "test_upstream_dns"; "cache_clear"] profile in
    let profile := feature "cache_toggle" (bool_of_pointer (dnsInfoResponse_CacheEnabled dns)) profile in
    let profile := feature "upstream_timeout" (bool_of_pointer (dnsInfoResponse_UpstreamTimeout dns)) profile in
    reads (get request "/control/filtering/status") profile
      (Some "Filtering configuration could not be read.") (λ filtering : filterStatusResponse,
    let profile := features ["filtering"; "test_host_filtering"; "test_host_filtering_context";
                             "filter_interval_arbitrary"] profile in
    reads (get request "/control/clients") profile None (λ clients : clientsResponse,
    let profile := features ["clients"] profile in
    reads (get request "/control/rewrite/list") profile None (λ rewrites : slice rewriteResponse,
    let profile := features ["rewrites"] profile in
    reads (get request "/control/rewrite/settings") profile None (λ rewriteSettings : rewriteSettingsResponse,
    let profile := features ["rewrite_toggle"] profile in
    reads (get request "/control/blocked_services/get") profile None (λ blocked : blockedServicesResponse,
    let profile := features ["blocked_services"] profile in
    reads (get request "/control/safebrowsing/status") profile None (λ safeBrowsing : enabledResponse,
    reads (get request "/control/parental/status") profile None (λ parental : enabledResponse,
    reads (get request "/control/safesearch/status") profile None (λ safeSearch : safeSearchResponse,
    let profile := features ["safety"; "safe_search_ecosia"] profile in
    reads (get request "/control/querylog/config") profile None (λ queryLog : policyResponse,
    let profile := features ["query_log"] profile in
    reads (get request "/control/stats/config") profile None (λ statistics : policyResponse,
    let profile := features ["statistics"] profile in
    let profile := feature "ignored_lists_toggle"
      (bool_of_pointer (policyResponse_IgnoredEnabled queryLog) &&
       bool_of_pointer (policyResponse_IgnoredEnabled statistics)) profile in
    reads (get request "/control/tls/status") profile None (λ tls : tlsStatusResponse,
    let profile := features ["tls"] profile in
    reads (getOptional request "/control/dhcp/status") profile None (λ dhcp : option dhcpStatusResponse,
    let profile := feature "dhcp" (bool_of_pointer dhcp) profile in
    let profile := warn_if (negb (bool_of_pointer dhcp))
      "DHCP is unavailable on this node and remains unmanaged." profile in
    let document := configurationDocument version status dns filtering in
    let document := populateBroaderDocument document clients rewriteSettings rewrites blocked safeBrowsing
                      parental safeSearch queryLog statistics tls dhcp in
    Ret (profile, Ok (Canonicalise document)))))))))))))))))).

(** ** Inventory *)

Fixpoint catalogue_services (seen : gset string) (services : list catalogueService) :
  res (list BlockedServiceMetadata) :=
  match services with
  | [] => Ok []
  | service :: rest =>
      let id := TrimSpace (catalogueService_ID service) in
      let name := TrimSpace (catalogueService_Name service) in
      let group := TrimSpace (catalogueService_GroupID service) in
      if (id =?? "") || (name =?? "") || (200 <? len id) || (500 <? len name) || (200 <? len group) ||
         bool_decide (id ∈ seen)
      then Err (NewError ErrorNodeResponse "the node returned invalid blocked-services catalogue metadata")
      else let? items := catalogue_services ({[id]} ∪ seen) rest in
           Ok (mkBlockedServiceMetadata id name group :: items)
  end.

Fixpoint catalogue_groups (seen : gset string) (groups : list catalogueGroup) : res (list BlockedServiceGroup) :=
  match groups with
  | [] => Ok []
  | group :: rest =>
      let id := TrimSpace (catalogueGroup_ID group) in
      if (id =?? "") || (200 <? len id) || bool_decide (id ∈ seen)
      then Err (NewError ErrorNodeResponse "the node returned invalid blocked-services group metadata")
      else let? items := catalogue_groups ({[id]} ∪ seen) rest in
           Ok (mkBlockedServiceGroup id :: items)
  end.

(* src/internal/adguard/configuration.go:471-502 ConfigurationReader.ReadBlockedServicesCatalogue *)
Definition ReadBlockedServicesCatalogue (version : string) : exchange (res NodeBlockedServicesCatalogue) :=
  try _ <- guard (Compatibility version =?? CompatibilitySupported)
    (NewError ErrorCapability "the node version is not supported for blocked-services catalogue inventory");
  try response <- get request "/control/blocked_services/all";
  Ret (let? services := catalogue_services ∅ (elems (catalogueResponse_BlockedServices response)) in
       let? groups := catalogue_groups ∅ (elems (catalogueResponse_Groups response)) in
       Ok (mkNodeBlockedServicesCatalogue (Some services) (Some groups))).

Definition interface_flags (flags : string) : list string :=
  omap (λ flag, let flag := TrimSpace flag in if negb (flag =?? "") then Some flag else None)
       (Split flags "|").

Definition dhcp_interface (key : string) (item : dhcpInterfaceResponse) : res DHCPInterface :=
  let name := TrimSpace (dhcpInterfaceResponse_Name item) in
  let name := if name =?? "" then TrimSpace key else name in
  if (name =?? "") || (128 <? len name)
  then Err (NewError ErrorNodeResponse "the node returned invalid DHCP interface metadata")
  else Ok (mkDHCPInterface name (TrimSpace (dhcpInterfaceResponse_HardwareAddress item))
             (dhcpInterfaceResponse_IPv4Addresses item) (dhcpInterfaceResponse_IPv6Addresses item)
             (TrimSpace (dhcpInterfaceResponse_GatewayIP item))
             (Some (interface_flags (dhcpInterfaceResponse_Flags item))) false).

Fixpoint dhcp_interfaces (items : list (string * dhcpInterfaceResponse)) : res (list DHCPInterface) :=
  match items with
  | [] => Ok []
  | (key, item) :: rest =>
      let? i := dhcp_interface key item in
      let? items := dhcp_interfaces rest in
      Ok (i :: items)
  end.

(* src/internal/adguard/configuration.go:504-535 ConfigurationReader.ReadDHCPInterfaces *)
Definition ReadDHCPInterfaces {M : MapOrder} : exchange (res (list DHCPInterface)) :=
  try response <- getOptional request "/control/dhcp/interfaces";
  match (response : option (gmap string dhcpInterfaceResponse)) with
  | None => fail (NewError ErrorCapability "DHCP interface discovery is not supported by this node")
  | Some interfaces => Ret (dhcp_interfaces (map_range interfaces))
  end.

(* src/internal/adguard/configuration.go:564-577 dhcpCheckValue *)
Definition dhcpCheckValue (status : string) : res DHCPCheckValue :=
  let status := TrimSpace status in
  if status =?? "" then Ok (mkDHCPCheckValue "unavailable" "")
  else if negb (status =?? "yes") && negb (status =?? "no") && negb (status =?? "error")
  then Err (NewError ErrorNodeResponse "the node returned an invalid active DHCP check result")
  else Ok (mkDHCPCheckValue status
             (if status =?? "error"
              then "The node could not determine whether another DHCP server is active." else "")).

(* src/internal/adguard/configuration.go:537-562 ConfigurationReader.FindActiveDHCP *)
Definition Reader_FindActiveDHCP (interfaceName : string) : exchange (res DHCPActiveCheck) :=
  try response <- postResource request "/control/dhcp/find_active_dhcp"
    (marshal (payload [("interface", JStr interfaceName)]));
  let v4 := dhcpActiveCheckResponse_V4 response in
  Ret (let? other4 := dhcpCheckValue (dhcpCheckResponseValue_Status (activeCheckV4_OtherServer v4)) in
       let? other6 := dhcpCheckValue (dhcpCheckResponseValue_Status
                        (activeCheckV6_OtherServer (dhcpActiveCheckResponse_V6 response))) in
       let staticIP := activeCheckV4_StaticIP v4 in
       let status := TrimSpace (dhcpStaticIPResponse_Status staticIP) in
       let status := if status =?? "" then "unavailable" else status in
       if negb (status =?? "yes") && negb (status =?? "no") && negb (status =?? "error") &&
          negb (status =?? "unavailable")
       then Err (NewError ErrorNodeResponse "the node returned an invalid static-IP check result")
       else Ok (mkDHCPActiveCheck other4
                  (mkDHCPStaticIPCheck status (TrimSpace (dhcpStaticIPResponse_IP staticIP))) other6)).

Definition as_whitelist (filter : filterListResponse) : filterListResponse :=
  mkfilterListResponse (filterListResponse_ID filter) (filterListResponse_Enabled filter)
    (filterListResponse_URL filter) (filterListResponse_Name filter) (filterListResponse_RulesCount filter)
    (filterListResponse_LastUpdated filter) true.

(** The lists of a status response, those of the second field as allow lists. *)
Definition all_filters (response : filterStatusResponse) : list filterListResponse :=
  elems (filterStatusResponse_Filters response) ++
  (as_whitelist <$> elems (filterStatusResponse_WhitelistFilters response)).

Definition filter_metadata (filter : filterListResponse) : res FilterListMetadata :=
  let item updated := mkFilterListMetadata (filterListResponse_ID filter) (filterListResponse_URL filter)
    (filterListResponse_Name filter) (filterListResponse_Enabled filter)
    (filterListResponse_RulesCount filter) updated false in
  if TrimSpace (filterListResponse_LastUpdated filter) =?? "" then Ok (item None)
  else match parse_RFC3339 (filterListResponse_LastUpdated filter) with
       | None => Err (NewError ErrorNodeResponse "the node returned an invalid filter-list update time")
       | Some updated => Ok (item (Some updated))
       end.

Fixpoint filter_lists (whitelist : bool) (filters : list filterListResponse) : res (list FilterListMetadata) :=
  match filters with
  | [] => Ok []
  | filter :: rest =>
      if negb (Bool.eqb (filterListResponse_Whitelist filter) whitelist) then filter_lists whitelist rest
      else let? item := filter_metadata filter in
           let? items := filter_lists whitelist rest in
           Ok (item :: items)
  end.

(* src/internal/adguard/configuration.go:587-617 ConfigurationReader.readFilterLists *)
Definition readFilterLists (version : string) (whitelist : bool) : exchange (res (list FilterListMetadata)) :=
  try _ <- guard (Compatibility version =?? CompatibilitySupported)
    (NewError ErrorCapability "the node version is not supported for filter-list presentation");
  try response <- get request "/control/filtering/status";
  Ret (filter_lists whitelist (all_filters response)).

(* src/internal/adguard/configuration.go:579-581 ConfigurationReader.ReadBlocklists *)
Definition ReadBlocklists (version : string) : exchange (res (list FilterListMetadata)) :=
  readFilterLists version false.

(* src/internal/adguard/configuration.go:583-585 ConfigurationReader.ReadAllowlists *)
Definition ReadAllowlists (version : string) : exchange (res (list FilterListMetadata)) :=
  readFilterLists version true.
End node.
End reader.
