(* ===== verification/NodeWriter.v ===== *)
(** * internal/adguard: writing a node

    The payloads the adapter sends and the procedures that bring a node to the desired
    configuration. *)

From S2P Require Import Prelude GoRuntime Json Domain Configuration ControlModel InventoryModel.
From S2P Require Import Wire Effects NodeHttp NodePayloads NodeReader.

(** ** Payloads *)

(* src/internal/adguard/configuration.go:1276-1278 safeSearchPayload *)
Definition safeSearchPayload (value : SafeSearch) : gmap string json :=
  payload [("enabled", JBool (SafeSearch_Enabled value)); ("bing", JBool (SafeSearch_Bing value));
           ("duckduckgo", JBool (SafeSearch_DuckDuckGo value)); ("ecosia", JBool (SafeSearch_Ecosia value));
           ("google", JBool (SafeSearch_Google value)); ("pixabay", JBool (SafeSearch_Pixabay value));
           ("yandex", JBool (SafeSearch_Yandex value)); ("youtube", JBool (SafeSearch_YouTube value))].

Definition period_payload (period : DayRange) : json :=
  marshal (payload [("start", JNum (DayRange_Start period)); ("end", JNum (DayRange_End period))]).

(** A day named [time_zone] would replace the time zone. *)
(* src/internal/adguard/configuration.go:1284-1290 schedulePayload *)
Definition schedulePayload (value : Schedule) : gmap string json :=
  (period_payload <$> Schedule_Days value) ∪ payload [("time_zone", JStr (Schedule_TimeZone value))].

(* src/internal/adguard/configuration.go:1179-1181 clientPayload *)
Definition clientPayload (client : PersistentClient) : gmap string json :=
  payload
    [("name", JStr (PersistentClient_Name client)); ("ids", of_strings (PersistentClient_IDs client));
     ("use_global_settings", JBool (PersistentClient_UseGlobalSettings client));
     ("filtering_enabled", JBool (PersistentClient_FilteringEnabled client));
     ("parental_enabled", JBool (PersistentClient_ParentalEnabled client));
     ("safebrowsing_enabled", JBool (PersistentClient_SafeBrowsingEnabled client));
     ("safe_search", marshal (safeSearchPayload (PersistentClient_SafeSearch client)));
     ("use_global_blocked_services", JBool (PersistentClient_UseGlobalBlockedServices client));
     ("blocked_services", of_strings (PersistentClient_BlockedServices client));
     ("blocked_services_schedule", marshal (schedulePayload (PersistentClient_BlockedServicesSchedule client)));
     ("upstreams", of_strings (PersistentClient_Upstreams client));
     ("upstreams_cache_enabled", JBool (PersistentClient_UpstreamsCacheEnabled client));
     ("upstreams_cache_size", JNum (PersistentClient_UpstreamsCacheSize client));
     ("tags", of_strings (PersistentClient_Tags client));
     ("ignore_querylog", JBool (PersistentClient_IgnoreQueryLog client));
     ("ignore_statistics", JBool (PersistentClient_IgnoreStatistics client))].

(* src/internal/adguard/configuration.go:1280-1282 blockedServicesPayload *)
Definition blockedServicesPayload (value : Services) : gmap string json :=
  payload [("ids", of_strings (Services_BlockedServiceIDs value));
           ("schedule", marshal (schedulePayload (Services_BlockedSchedule value)))].

(** The payload of [/control/dns_config] for the current schema; the two fields some
    nodes do not have are sent only where the node reported them. *)
(* src/internal/adguard/configuration.go:853-865 ConfigurationReader.ApplyConfiguration *)
Definition dns_payload (dns : DNS) (current : dnsInfoResponse) : gmap string json :=
  let base := payload
    [("upstream_dns", of_strings (DNS_UpstreamDNS dns)); ("bootstrap_dns", of_strings (DNS_BootstrapDNS dns));
     ("fallback_dns", of_strings (DNS_FallbackDNS dns));
     ("local_ptr_upstreams", of_strings (DNS_PrivateReverseDNS dns));
     ("protection_enabled", JBool (DNS_ProtectionEnabled dns)); ("ratelimit", JNum (DNS_RateLimit dns));
     ("ratelimit_subnet_len_ipv4", JNum (DNS_RateLimitIPv4 dns));
     ("ratelimit_subnet_len_ipv6", JNum (DNS_RateLimitIPv6 dns));
     ("ratelimit_whitelist", of_strings (DNS_RateLimitAllowlist dns));
     ("blocking_mode", JStr (DNS_BlockingMode dns)); ("blocking_ipv4", JStr (DNS_BlockingIPv4 dns));
     ("blocking_ipv6", JStr (DNS_BlockingIPv6 dns)); ("blocked_response_ttl", JNum (DNS_BlockedResponseTTL dns));
     ("edns_cs_enabled", JBool (DNS_EDNSClientSubnet dns)); ("edns_cs_use_custom", JBool (DNS_EDNSUseCustom dns));
     ("edns_cs_custom_ip", JStr (DNS_EDNSCustomIP dns)); ("disable_ipv6", JBool (DNS_DisableIPv6 dns));
     ("dnssec_enabled", JBool (DNS_DNSSECEnabled dns)); ("cache_size", JNum (DNS_CacheSize dns));
     ("cache_ttl_min", JNum (DNS_CacheTTLMin dns)); ("cache_ttl_max", JNum (DNS_CacheTTLMax dns));
     ("cache_optimistic", JBool (DNS_CacheOptimistic dns)); ("upstream_mode", JStr (DNS_UpstreamMode dns));
     ("use_private_ptr_resolvers", JBool (DNS_UsePrivateReverse dns));
     ("resolve_clients", JBool (DNS_ResolveClients dns))] in
  let base := if bool_of_pointer (dnsInfoResponse_CacheEnabled current)
              then <["cache_enabled" := JBool (DNS_CacheEnabled dns)]> base else base in
  if bool_of_pointer (dnsInfoResponse_UpstreamTimeout current)
  then <["upstream_timeout" := JNum (DNS_UpstreamTimeout dns)]> base else base.

(** A document of an older schema only sets the four resolver lists. *)
Definition legacy_dns_payload (dns : DNS) : gmap string json :=
  payload
    [("upstream_dns", of_strings (DNS_UpstreamDNS dns)); ("bootstrap_dns", of_strings (DNS_BootstrapDNS dns));
     ("fallback_dns", of_strings (DNS_FallbackDNS dns));
     ("local_ptr_upstreams", of_strings (DNS_PrivateReverseDNS dns))].

(* src/internal/adguard/configuration.go:1261-1274 ConfigurationReader.updatePolicy *)
Definition policy_payload (enabled : bool) (interval : Z) (ignored : slice string) (ignoredEnabled : bool)
  (extra : list (string * json)) (current : policyResponse) : gmap string json :=
  let base := payload (extra ++ [("enabled", JBool enabled); ("interval", JNum interval);
                                 ("ignored", of_strings ignored)]) in
  if bool_of_pointer (policyResponse_IgnoredEnabled current)
  then <["ignored_enabled" := JBool ignoredEnabled]> base else base.

(* src/internal/adguard/configuration.go:1306-1306 ConfigurationReader.reconcileDHCP *)
Definition dhcp_payload (desired : DHCPConfig) : gmap string json :=
  let v4 := DHCPConfig_IPv4 desired in
  let v6 := DHCPConfig_IPv6 desired in
  payload
    [("enabled", JBool (DHCPConfig_Enabled desired)); ("interface_name", JStr (DHCPConfig_InterfaceName desired));
     ("v4", marshal (payload
        [("gateway_ip", JStr (DHCPIPv4_Gateway v4)); ("subnet_mask", JStr (DHCPIPv4_SubnetMask v4));
         ("range_start", JStr (DHCPIPv4_RangeStart v4)); ("range_end", JStr (DHCPIPv4_RangeEnd v4));
         ("lease_duration", JNum (DHCPIPv4_LeaseDuration v4))]));
     ("v6", marshal (payload
        [("range_start", JStr (DHCPIPv6_RangeStart v6)); ("lease_duration", JNum (DHCPIPv6_LeaseDuration v6))]))].

(* src/internal/adguard/configuration.go:1325-1325 ConfigurationReader.reconcileDHCP *)
Definition lease_payload (mac ip hostname : string) : json :=
  marshal (payload [("mac", JStr mac); ("ip", JStr ip); ("hostname", JStr hostname)]).

Section writer.
Context {R : Runtime} {N : NodeRuntime} (request : NodeProbeRequest).

(** ** Filter lists *)

(* src/internal/adguard/configuration.go:1155-1155 ConfigurationReader.reconcileFilterURLs *)
Definition set_url_payload (item : filterListResponse) (whitelist enabled : bool) : json :=
  marshal (payload
    [("url", JStr (filterListResponse_URL item)); ("whitelist", JBool whitelist);
     ("data", marshal (payload [("name", JStr (filterListResponse_Name item));
                                ("url", JStr (filterListResponse_URL item)); ("enabled", JBool enabled)]))]).

(* src/internal/adguard/configuration.go:1163-1163 ConfigurationReader.reconcileFilterURLs *)
Definition add_url_payload (url : string) (whitelist : bool) : json :=
  marshal (payload [("name", JStr "Managed by Atlas DNS Controller"); ("url", JStr url);
                    ("whitelist", JBool whitelist)]).

(* src/internal/adguard/configuration.go:1152-1152 ConfigurationReader.reconcileFilterURLs *)
Definition same_list (whitelist : bool) (target : string) (item : filterListResponse) : bool :=
  Bool.eqb (filterListResponse_Whitelist item) whitelist && EqualFold (filterListResponse_URL item) target.

(* src/internal/adguard/configuration.go:1141-1177 ConfigurationReader.reconcileFilterURLs *)
Definition reconcileFilterURLs (current : filterStatusResponse) (desired : slice string) (whitelist : bool) :
  exchange (res unit) :=
  let targets := ToLower <$> elems desired in
  let currentItems := all_filters current in
  try _ <- for_each (λ target,
    match List.find (same_list whitelist target) currentItems with
    | Some item =>
        only_if (negb (filterListResponse_Enabled item))
          (post request "/control/filtering/set_url" (set_url_payload item whitelist true))
    | None => post request "/control/filtering/add_url" (add_url_payload target whitelist)
    end) (elems desired);
  for_each (λ item,
    only_if (Bool.eqb (filterListResponse_Whitelist item) whitelist && filterListResponse_Enabled item &&
             negb (bool_decide (ToLower (filterListResponse_URL item) ∈ targets)))
      (post request "/control/filtering/set_url" (set_url_payload item whitelist false))) currentItems.

(** ** Clients *)

(* src/internal/adguard/configuration.go:1183-1212 ConfigurationReader.reconcileClients *)
Definition reconcileClients (desired : slice PersistentClient) : exchange (res unit) :=
  try response <- get request "/control/clients";
  let current := elems (clientsResponse_Clients response) in
  let existing := last_by_key (λ item, ToLower (clientResponse_Name item)) current in
  let targets := (λ item, ToLower (PersistentClient_Name item)) <$> elems desired in
  try _ <- for_each (λ item,
    match existing !! ToLower (PersistentClient_Name item) with
    | Some old =>
        post request "/control/clients/update"
          (marshal (payload [("name", JStr (clientResponse_Name old)); ("data", marshal (clientPayload item))]))
    | None => post request "/control/clients/add" (marshal (clientPayload item))
    end) (elems desired);
  for_each (λ item,
    only_if (negb (bool_decide (ToLower (clientResponse_Name item) ∈ targets)))
      (post request "/control/clients/delete"
         (marshal (payload [("name", JStr (clientResponse_Name item))])))) current.

(** ** Rewrites *)

(* src/internal/adguard/configuration.go:1228-1228 ConfigurationReader.reconcileRewrites *)
Definition rewrite_key (domain answer : string) : string := ToLower domain +:+ nul +:+ ToLower answer.
(* src/internal/adguard/configuration.go:1231-1231 ConfigurationReader.reconcileRewrites *)
Definition current_key (item : rewriteResponse) : string :=
  rewrite_key (rewriteResponse_Domain item) (rewriteResponse_Answer item).
(* src/internal/adguard/configuration.go:1234-1234 ConfigurationReader.reconcileRewrites *)
Definition desired_key (item : Rewrite) : string := rewrite_key (Rewrite_Domain item) (Rewrite_Answer item).

(* src/internal/adguard/configuration.go:1237-1240 ConfigurationReader.reconcileRewrites *)
Definition rewrite_payload (settingsSupported : bool) (item : Rewrite) : gmap string json :=
  let base := payload [("domain", JStr (Rewrite_Domain item)); ("answer", JStr (Rewrite_Answer item))] in
  if settingsSupported then <["enabled" := JBool (Rewrite_Enabled item)]> base else base.

(* src/internal/adguard/configuration.go:1246-1246 ConfigurationReader.reconcileRewrites *)
Definition rewrite_target (item : rewriteResponse) : json :=
  marshal (payload [("domain", JStr (rewriteResponse_Domain item)); ("answer", JStr (rewriteResponse_Answer item))]).

(** The body of the loop over the desired rewrites. *)
(* src/internal/adguard/configuration.go:1235-1250 ConfigurationReader.reconcileRewrites *)
Definition write_rewrite (settingsSupported : bool) (existing : gmap string rewriteResponse) (item : Rewrite) :
  exchange (res unit) :=
  match existing !! desired_key item with
  | None => post request "/control/rewrite/add" (marshal (rewrite_payload settingsSupported item))
  | Some old =>
      only_if (settingsSupported &&
               negb (Bool.eqb (valueOrDefault (rewriteResponse_Enabled old) true) (Rewrite_Enabled item)))
        (put request "/control/rewrite/update"
           (marshal (payload [("target", rewrite_target old);
                              ("update", marshal (rewrite_payload settingsSupported item))])))
  end.

(* src/internal/adguard/configuration.go:1252-1256 ConfigurationReader.reconcileRewrites *)
Definition delete_rewrite (targets : list string) (item : rewriteResponse) : exchange (res unit) :=
  only_if (negb (bool_decide (current_key item ∈ targets)))
    (post request "/control/rewrite/delete" (rewrite_target item)).

(* src/internal/adguard/configuration.go:1214-1259 ConfigurationReader.reconcileRewrites *)
Definition reconcileRewrites (enabled : bool) (desired : slice Rewrite) : exchange (res unit) :=
  try response <- get request "/control/rewrite/list";
  let current := elems (response : slice rewriteResponse) in
  try settings <- getOptionalEndpoint request "/control/rewrite/settings";
  let settingsSupported := bool_of_pointer (settings : option rewriteSettingsResponse) in
  try _ <- only_if settingsSupported
    (put request "/control/rewrite/settings/update" (marshal (payload [("enabled", JBool enabled)])));
  let existing := last_by_key current_key current in
  let targets := desired_key <$> elems desired in
  try _ <- for_each (write_rewrite settingsSupported existing) (elems desired);
  for_each (delete_rewrite targets) current.

(** ** Policies and switches *)

(* src/internal/adguard/configuration.go:1261-1274 ConfigurationReader.updatePolicy *)
Definition updatePolicy (readPath updatePath : string) (enabled : bool) (interval : Z) (ignored : slice string)
  (ignoredEnabled : bool) (extra : list (string * json)) : exchange (res unit) :=
  try current <- get request readPath;
  put request updatePath (marshal (policy_payload enabled interval ignored ignoredEnabled extra current)).

(* src/internal/adguard/configuration.go:1292-1298 ConfigurationReader.setEnabled *)
Definition setEnabled (prefix : string) (enabled : bool) : exchange (res unit) :=
  send request MethodPost (prefix +:+ (if enabled then "/enable" else "/disable")) None.

(** ** DHCP *)

(* src/internal/adguard/configuration.go:1340-1350 dhcpConfigurationMatches *)
Definition dhcpConfigurationMatches (current : dhcpStatusResponse) (desired : DHCPConfig) : bool :=
  let v4 := dhcpStatusResponse_V4 current in
  let v6 := dhcpStatusResponse_V6 current in
  let d4 := DHCPConfig_IPv4 desired in
  let d6 := DHCPConfig_IPv6 desired in
  Bool.eqb (dhcpStatusResponse_Enabled current) (DHCPConfig_Enabled desired) &&
  (dhcpStatusResponse_InterfaceName current =?? DHCPConfig_InterfaceName desired) &&
  (dhcpV4Response_Gateway v4 =?? DHCPIPv4_Gateway d4) &&
  (dhcpV4Response_SubnetMask v4 =?? DHCPIPv4_SubnetMask d4) &&
  (dhcpV4Response_RangeStart v4 =?? DHCPIPv4_RangeStart d4) &&
  (dhcpV4Response_RangeEnd v4 =?? DHCPIPv4_RangeEnd d4) &&
  (dhcpV4Response_LeaseDuration v4 =? DHCPIPv4_LeaseDuration d4) &&
  (dhcpV6Response_RangeStart v6 =?? DHCPIPv6_RangeStart d6) &&
  (dhcpV6Response_LeaseDuration v6 =? DHCPIPv6_LeaseDuration d6).

(* src/internal/adguard/configuration.go:1319-1321 ConfigurationReader.reconcileDHCP *)
Definition remove_lease (lease : dhcpLeaseResponse) : exchange (res unit) :=
  post request "/control/dhcp/remove_static_lease"
    (lease_payload (dhcpLeaseResponse_MAC lease) (dhcpLeaseResponse_IP lease) (dhcpLeaseResponse_Hostname lease)).

(* src/internal/adguard/configuration.go:1325-1327 ConfigurationReader.reconcileDHCP *)
Definition add_lease (lease : DHCPStaticLease) : exchange (res unit) :=
  post request "/control/dhcp/add_static_lease"
    (lease_payload (DHCPStaticLease_MAC lease) (DHCPStaticLease_IP lease) (DHCPStaticLease_Hostname lease)).

(* src/internal/adguard/configuration.go:1318-1318 ConfigurationReader.reconcileDHCP *)
Definition lease_changed (old : dhcpLeaseResponse) (lease : DHCPStaticLease) : bool :=
  negb (dhcpLeaseResponse_IP old =?? DHCPStaticLease_IP lease) ||
  negb (dhcpLeaseResponse_Hostname old =?? DHCPStaticLease_Hostname lease).

(** The loop over the desired leases: the map of the node's leases without those that
    were removed to be added again. *)
(* src/internal/adguard/configuration.go:1315-1329 ConfigurationReader.reconcileDHCP *)
Fixpoint reconcile_leases (byMAC : gmap string dhcpLeaseResponse) (desired : list DHCPStaticLease) :
  exchange (res (gmap string dhcpLeaseResponse)) :=
  match desired with
  | [] => done_with byMAC
  | lease :: rest =>
      let key := ToLower (DHCPStaticLease_MAC lease) in
      match byMAC !! key with
      | None => try _ <- add_lease lease; reconcile_leases byMAC rest
      | Some old =>
          if lease_changed old lease then
            try _ <- remove_lease old;
            try _ <- add_lease lease;
            reconcile_leases (delete key byMAC) rest
          else reconcile_leases byMAC rest
      end
  end.

(* src/internal/adguard/configuration.go:1300-1338 ConfigurationReader.reconcileDHCP *)
Definition reconcileDHCP {M : MapOrder} (desired : DHCPConfig) : exchange (res unit) :=
  try current <- get request "/control/dhcp/status";
  try _ <- only_if (negb (dhcpConfigurationMatches current desired))
    (post request "/control/dhcp/set_config" (marshal (dhcp_payload desired)));
  let leases := elems (DHCPConfig_StaticLeases desired) in
  let targets := (λ lease, ToLower (DHCPStaticLease_MAC lease)) <$> leases in
  try byMAC <- reconcile_leases
    (last_by_key (λ lease, ToLower (dhcpLeaseResponse_MAC lease)) (elems (dhcpStatusResponse_StaticLeases current)))
    leases;
  for_each (λ entry, only_if (negb (bool_decide (entry.1 ∈ targets))) (remove_lease entry.2)) (map_range byMAC).

(** ** ApplyConfiguration *)

(** What only a document of the current schema carries, between the filter rules and
    the DNS settings. *)
(* src/internal/adguard/configuration.go:828-851 ConfigurationReader.ApplyConfiguration *)
Definition apply_shared (shared : Shared) : exchange (res unit) :=
  let services := Shared_Services shared in
  let queryLog := Shared_QueryLog shared in
  let statistics := Shared_Statistics shared in
  try _ <- reconcileClients (Shared_Clients shared);
  try _ <- reconcileRewrites (Shared_RewritesEnabled shared) (Shared_Rewrites shared);
  try _ <- put request "/control/blocked_services/update" (marshal (blockedServicesPayload services));
  try _ <- setEnabled "/control/safebrowsing" (Services_SafeBrowsing services);
  try _ <- setEnabled "/control/parental" (Services_ParentalControl services);
  try _ <- put request "/control/safesearch/settings" (marshal (safeSearchPayload (Services_SafeSearch services)));
  try _ <- updatePolicy "/control/querylog/config" "/control/querylog/config/update"
    (QueryLogPolicy_Enabled queryLog) (QueryLogPolicy_IntervalMillis queryLog) (QueryLogPolicy_Ignored queryLog)
    (QueryLogPolicy_IgnoredEnabled queryLog)
    [("anonymize_client_ip", JBool (QueryLogPolicy_AnonymizeClientIP queryLog))];
  updatePolicy "/control/stats/config" "/control/stats/config/update"
    (StatisticsPolicy_Enabled statistics) (StatisticsPolicy_IntervalMillis statistics)
    (StatisticsPolicy_Ignored statistics) (StatisticsPolicy_IgnoredEnabled statistics) [].

(* src/internal/adguard/configuration.go:799-875 ConfigurationReader.ApplyConfiguration *)
Definition Writer_ApplyConfiguration {M : MapOrder} (desired : Document) : exchange (res unit) :=
  let desired := Canonicalise desired in
  let current_schema := SchemaVersion <=? Document_SchemaVersion desired in
  let shared := Document_Shared desired in
  let filtering := Shared_Filtering shared in
  try currentFilters <- get request "/control/filtering/status";
  try currentDNS <- (if current_schema then get request "/control/dns_info" else done_with zero_value);
  try _ <- post request "/control/filtering/config"
    (marshal (payload [("enabled", JBool (Filtering_Enabled filtering));
                       ("interval", JNum (Filtering_UpdateInterval filtering))]));
  try _ <- reconcileFilterURLs currentFilters (Filtering_FilterURLs filtering) false;
  try _ <- only_if current_schema
    (reconcileFilterURLs currentFilters (Filtering_WhitelistURLs filtering) true);
  try _ <- post request "/control/filtering/set_rules"
    (marshal (payload [("rules", of_strings (Filtering_UserRules filtering))]));
  try _ <- only_if current_schema (apply_shared shared);
  try _ <- post request "/control/dns_config"
    (marshal (if current_schema then dns_payload (Shared_DNS shared) currentDNS
              else legacy_dns_payload (Shared_DNS shared)));
  match NodeSpecific_DHCP (Document_NodeSpecific desired) with
  | Some dhcp => only_if current_schema (reconcileDHCP dhcp)
  | None => done_with tt
  end.

(** ** Commands *)

(* src/internal/adguard/configuration.go:877-879 ConfigurationReader.RefreshFilters *)
Definition Reader_RefreshFilters (whitelist : bool) : exchange (res unit) :=
  post request "/control/filtering/refresh" (marshal (payload [("whitelist", JBool whitelist)])).

(* src/internal/adguard/configuration.go:1033-1035 ConfigurationReader.ClearDNSCache *)
Definition Reader_ClearDNSCache : exchange (res unit) := send request MethodPost "/control/cache_clear" None.
(* src/internal/adguard/configuration.go:1037-1039 ConfigurationReader.ClearQueryLog *)
Definition Reader_ClearQueryLog : exchange (res unit) := send request MethodPost "/control/querylog_clear" None.
(* src/internal/adguard/configuration.go:1041-1043 ConfigurationReader.ResetStatistics *)
Definition Reader_ResetStatistics : exchange (res unit) := send request MethodPost "/control/stats_reset" None.
(* src/internal/adguard/configuration.go:1133-1135 ConfigurationReader.ResetDHCPLeases *)
Definition Reader_ResetDHCPLeases : exchange (res unit) :=
  send request MethodPost "/control/dhcp/reset_leases" None.
(* src/internal/adguard/configuration.go:1137-1139 ConfigurationReader.ResetDHCPConfiguration *)
Definition Reader_ResetDHCPConfiguration : exchange (res unit) :=
  send request MethodPost "/control/dhcp/reset" None.
End writer.
