(* ===== verification/NodeCommands.v ===== *)
(** * internal/adguard: the operational commands of a node

    Upstream tests, host-filter tests, and the status probe. *)

From Stdlib Require Import Ascii.
From S2P Require Import Prelude GoRuntime Json Domain Compat Net AuditMetadata OperationsModel.
From S2P Require Import Wire Effects NodeHttp NodePayloads NodeReader.

(** ** Package net and strings *)

Definition index_byte (c : ascii) (s : string) : option nat := String.index 0 (String c "") s.

Definition has_byte (c : ascii) (s : string) : bool := string_elem c s.

(** [net.SplitHostPort]. *)
Definition SplitHostPort (hostport : string) : option (string * string) :=
  match CutLast hostport ":" with
  | None => None
  | Some (before, port) =>
      if HasPrefix hostport "[" then
        match index_byte "]" hostport with
        | None => None
        | Some close =>
            if negb (Nat.eqb (close + 1) (String.length before)) then None
            else
              let host := String.substring 1 (close - 1) hostport in
              if has_byte "[" (drop_bytes 1 hostport) || has_byte "]" (drop_bytes (close + 1) hostport)
              then None else Some (host, port)
        end
      else if has_byte ":" before || has_byte "[" hostport || has_byte "]" hostport then None
      else Some (before, port)
  end.

Example SplitHostPort_v4 : SplitHostPort "10.0.0.1:53" = Some ("10.0.0.1", "53").
Proof. reflexivity. Qed.
Example SplitHostPort_v6 : SplitHostPort "[::1]:5353" = Some ("::1", "5353").
Proof. reflexivity. Qed.
Example SplitHostPort_bare_v6 : SplitHostPort "::1" = None.
Proof. reflexivity. Qed.

(** [strings.Trim(s, "[]")]. *)
Definition is_bracket (c : ascii) : bool := has_byte c "[]".
Fixpoint trim_left_brackets (s : string) : string :=
  match s with
  | EmptyString => EmptyString
  | String c s' => if is_bracket c then trim_left_brackets s' else s
  end.
Fixpoint trim_right_brackets (s : string) : string :=
  match s with
  | EmptyString => EmptyString
  | String c s' =>
      match trim_right_brackets s' with
      | EmptyString => if is_bracket c then EmptyString else String c EmptyString
      | t => String c t
      end
  end.
Definition trim_brackets (s : string) : string := trim_right_brackets (trim_left_brackets s).

(** [strings.Fields] on ASCII text. *)
Fixpoint ascii_fields (word s : string) : list string :=
  let emit rest := if word =?? "" then rest else word :: rest in
  match s with
  | EmptyString => emit []
  | String c s' =>
      if is_space_byte c then emit (ascii_fields "" s')
      else ascii_fields (word +:+ String c "") s'
  end.

Section commands.
Context {R : Runtime} {N : NodeRuntime}.

Definition Fields (s : string) : list string := if is_ascii s then ascii_fields "" s else uni_Fields s.

(** ** Upstream tests *)

(* src/internal/adguard/configuration.go:1020-1031 defaultUpstreamPort *)
Definition defaultUpstreamPort (scheme : string) : string :=
  if (scheme =?? "https") || (scheme =?? "h3") then "443"
  else if (scheme =?? "tls") || (scheme =?? "quic") then "853"
  else if (scheme =?? "tcp") || (scheme =?? "udp") then "53"
  else "".

(* src/internal/adguard/configuration.go:997-1018 canonicalPlainOperationalUpstream *)
Definition canonicalPlainOperationalUpstream (value : string) : string :=
  let '(hostname, port) :=
    match SplitHostPort value with
    | Some (hostname, port) => (hostname, port)
    | None => (from_option Addr_String value (ParseAddr value), "")
    end in
  let hostname := ToLower hostname in
  let port := if port =?? "53" then "" else port in
  let hostname := if has_byte ":" hostname then "[" +:+ trim_brackets hostname +:+ "]" else hostname in
  let hostname := if negb (port =?? "") then hostname +:+ ":" +:+ port else hostname in
  "udp://" +:+ hostname.

(* src/internal/adguard/configuration.go:965-995 canonicalOperationalUpstream *)
Definition canonicalOperationalUpstream (value : string) : string :=
  let value := TrimSpace value in
  if negb (Contains_text value "://") then canonicalPlainOperationalUpstream value
  else match url_Parse value with
  | None => value
  | Some parsed =>
      if (URL_Scheme parsed =?? "") || (URL_Host parsed =?? "") then value
      else
        let scheme := ToLower (URL_Scheme parsed) in
        if scheme =?? "sdns" then value
        else
          let scheme := if scheme =?? "h3" then "https" else scheme in
          let hostname := ToLower (Hostname (URL_Host parsed)) in
          let port := Port (URL_Host parsed) in
          let port := if port =?? defaultUpstreamPort scheme then "" else port in
          let hostname := if has_byte ":" hostname then "[" +:+ hostname +:+ "]" else hostname in
          let host := if negb (port =?? "") then hostname +:+ ":" +:+ port else hostname in
          url_WithHost value scheme host
  end.

(* src/internal/adguard/configuration.go:934-950 operationalResolverCandidates *)
Definition operationalResolverCandidates (value : string) : list string :=
  let value := TrimSpace value in
  if (value =?? "") || HasPrefix value "#" then []
  else if HasPrefix value "[/" then
    match index_byte "]" value with
    | Some closingBracket =>
        let resolvers := TrimSpace (drop_bytes (closingBracket + 1) value) in
        if (resolvers =?? "") || (resolvers =?? "#") then [] else Fields resolvers
    | None => [value]
    end
  else [value].

Section responses.
Context {M : MapOrder} (response : gmap string string).

(* src/internal/adguard/configuration.go:952-963 operationalUpstreamStatus *)
Definition operationalUpstreamStatus (requested : string) : option string :=
  match response !! requested with
  | Some status => Some status
  | None =>
      snd <$> List.find (λ entry, canonicalOperationalUpstream entry.1 =??
                                  canonicalOperationalUpstream requested) (map_range response)
  end.

(** A DNS stamp alone is answered under another name, so every status of the response
    counts for it. *)
(* src/internal/adguard/configuration.go:911-932 operationalUpstreamStatuses *)
Definition operationalUpstreamStatuses (requested : string) : option (list string) :=
  let candidates := operationalResolverCandidates requested in
  (fix go (rest : list string) : option (list string) :=
     match rest with
     | [] => Some []
     | candidate :: rest =>
         match operationalUpstreamStatus candidate with
         | Some status => (cons status) <$> go rest
         | None =>
             if Nat.eqb (length candidates) 1 && HasPrefix (ToLower candidate) "sdns://" &&
                negb (bool_decide (response = ∅))
             then Some (snd <$> map_range response) else None
         end
     end) candidates.

Definition resolver_result (index : Z) (statuses : list string) : ResolverResult :=
  if forallb (λ status, TrimSpace status =?? "OK") statuses
  then mkResolverResult ("upstream-" +:+ itoa index) "succeeded" ""
  else mkResolverResult ("upstream-" +:+ itoa index) "failed" "UPSTREAM_TEST_FAILED".

Fixpoint resolver_results (index : Z) (upstreams : list string) : res (list ResolverResult) :=
  match upstreams with
  | [] => Ok []
  | upstream :: rest =>
      match operationalUpstreamStatuses upstream with
      | None => Err (NewError ErrorNodeResponse
                       "the node upstream test response omitted a requested resolver")
      | Some statuses =>
          let? results := resolver_results (index + 1) rest in
          Ok (if bool_decide (statuses = []) then results else resolver_result index statuses :: results)
      end
  end.
End responses.

Section node.
Context (request : NodeProbeRequest).

(* src/internal/adguard/configuration.go:881-909 ConfigurationReader.TestUpstreamDNS *)
Definition Reader_TestUpstreamDNS {M : MapOrder} (input : UpstreamInput) :
  exchange (res (list ResolverResult)) :=
  try response <- postOperationalResource request "/control/test_upstream_dns"
    (marshal (payload [("upstream_dns", of_strings (UpstreamInput_UpstreamDNS input));
                       ("bootstrap_dns", of_strings (UpstreamInput_BootstrapDNS input));
                       ("fallback_dns", of_strings (UpstreamInput_FallbackDNS input));
                       ("private_upstream", of_strings (UpstreamInput_PrivateReverseDNS input))]));
  Ret (resolver_results response 1 (elems (UpstreamInput_UpstreamDNS input))).

(** ** Host-filter tests *)

Definition control_characters : string :=
  String (ascii_of_nat 13) (String (ascii_of_nat 10) (String (ascii_of_nat 9) "")).
Definition line_breaks : string := String (ascii_of_nat 13) (String (ascii_of_nat 10) "").

Definition unsafe_rule (text : string) : bool := (2048 <? len text) || ContainsAny text line_breaks.

Definition length_of {A} (s : slice A) : Z := Z.of_nat (length (elems s)).

(** The checks and the conversion of a [/control/filtering/check_host] response. *)
(* src/internal/adguard/configuration.go:1057-1082 ConfigurationReader.TestHostFiltering *)
Definition host_filter_result (response : filterCheckHostResponse) : res HostFilterResult :=
  let invalid text := Err (NewError ErrorNodeResponse text) in
  let reason := filterCheckHostResponse_Reason response in
  let service := filterCheckHostResponse_ServiceName response in
  let cname := filterCheckHostResponse_CNAME response in
  let rules := elems (filterCheckHostResponse_Rules response) in
  let addresses := elems (filterCheckHostResponse_IPAddresses response) in
  let rule := filterCheckHostResponse_Rule response in
  if (32 <? length_of (filterCheckHostResponse_Rules response)) ||
     (32 <? length_of (filterCheckHostResponse_IPAddresses response)) ||
     (128 <? len reason) || (256 <? len service) || (253 <? len cname)
  then invalid "the node host-filter response exceeded safe result limits"
  else if ContainsAny reason control_characters || ContainsAny service control_characters ||
          ContainsAny cname control_characters
  then invalid "the node host-filter response contained unsafe text"
  else if negb (forallb is_address addresses)
  then invalid "the node host-filter response contained an invalid address"
  else if existsb (λ r, unsafe_rule (checkHostRule_Text r)) rules
  then invalid "the node host-filter response contained an unsafe rule"
  else
    let matched := (λ r, mkMatchedRule (checkHostRule_Text r) (checkHostRule_FilterListID r)) <$> rules in
    let single := bool_decide (matched = []) && negb (rule =?? "") in
    if single && unsafe_rule rule
    then invalid "the node host-filter response contained an unsafe rule"
    else
      let matched := if single then [mkMatchedRule rule (filterCheckHostResponse_FilterID response)]
                     else matched in
      Ok (mkHostFilterResult
            (negb (bool_decide (matched = [])) || negb (service =?? "") || negb (cname =?? "") ||
             negb (bool_decide (addresses = [])))
            reason (Some matched) service cname
            (if bool_decide (addresses = []) then None else Some addresses)).

(* src/internal/adguard/configuration.go:1045-1083 ConfigurationReader.TestHostFiltering *)
Definition Reader_TestHostFiltering (input : HostFilterInput) : exchange (res HostFilterResult) :=
  let query := [("name", HostFilterInput_Hostname input)] ++
    when (negb (HostFilterInput_Client input =?? "")) ("client", HostFilterInput_Client input) ++
    when (negb (HostFilterInput_QueryType input =?? "")) ("qtype", HostFilterInput_QueryType input) in
  try response <- getOperationalResource request "/control/filtering/check_host" query;
  Ret (host_filter_result response).

(** ** The status probe *)

Definition status_error (status : Z) (contentType problem : string) (cause : option error) : error :=
  nodeAPIError ErrorNodeResponse MethodGet "/control/status" status contentType problem cause.

(** The status of a running node: the semantics every version must report. *)
(* src/internal/adguard/client.go:111-125 Probe.Status *)
Definition probe_result (response : statusResponse) (latency : Z) : option NodeProbeResult :=
  let version := TrimSpace (statusResponse_Version response) in
  match statusResponse_Running response, statusResponse_ProtectionEnabled response,
        statusResponse_ProtectionDisabledDurationMS response with
  | Some running, Some enabled, Some duration =>
      if (version =?? "") || (128 <? len version) || (duration <? 0) || (enabled && (0 <? duration))
      then None
      else Some (mkNodeProbeResult version (Compatibility version) running enabled duration latency)
  | _, _, _ => None
  end.

(** [time.Since] of the clock: a duration in whole milliseconds. *)
Definition milliseconds (d : Duration) : Z := Z.quot d millisecond.

(* src/internal/adguard/client.go:58-125 Probe.Status *)
Definition Probe_Status : exchange (res NodeProbeResult) :=
  try baseURL <- Ret (NormaliseNodeURL (Request_BaseURL request) (Request_CertificatePolicy request));
  match statusEndpoint baseURL with
  | Err _ => fail (Validation "baseUrl" "is not a valid node URL")
  | Ok endpoint =>
      try trusted <- Ret (transport (Request_CertificatePolicy request) (Request_CustomCAPEM request));
      match NewRequest endpoint with
      | Some text => fail (WrapError ("create node status request: " +:+ text) (TextError text))
      | None =>
          do started <- call Clock;
          do outcome <- call (Do (mkHTTPRequest MethodGet endpoint (Request_Credentials request) None trusted));
          do finished <- call Clock;
          let latency := milliseconds (time_Sub finished started) in
          match outcome with
          | Failed e => fail (classifyNetworkError e)
          | Responded status contentType body =>
              if (status =? StatusUnauthorized) || (status =? StatusForbidden)
              then fail (NewError ErrorNodeAuth "the node rejected the supplied credentials")
              else if negb (status =? StatusOK)
              then fail (status_error status contentType "returned an unexpected HTTP status" None)
              else
                try response <- Ret (read_body maxResponseBytes body
                  (NewError ErrorNodeResponse "the node status response could not be read")
                  (NewError ErrorNodeResponse "the node status response was too large")
                  (λ text, status_error status contentType "returned invalid JSON" (Some (TextError text))));
                match probe_result response latency with
                | Some result => done_with result
                | None => fail (status_error status contentType
                            "omitted or contradicted required status semantics" None)
                end
          end
      end
  end.
End node.
End commands.
