(* ===== verification/NodeSpec.v ===== *)
(** * The payloads and the documents of a node agree

    What the adapter sends is read back as the value it was made from: the writer and
    the reader use the same field of the node for the same field of the document. *)

From S2P Require Import Prelude GoRuntime Json Domain Compat Configuration ConfigValidate ControlModel Effects.
From S2P Require Import InventoryModel Wire NodeHttp NodePayloads NodeReader NodeWriter.

(** The integers a Go program can hold, and the days a schedule may name. *)
Definition machine_schedule (s : Schedule) : Prop :=
  ∀ day period, Schedule_Days s !! day = Some period →
    day ∈ weekdays ∧ in_int64 (DayRange_Start period) ∧ in_int64 (DayRange_End period).

Definition machine_client (c : PersistentClient) : Prop :=
  machine_schedule (PersistentClient_BlockedServicesSchedule c) ∧
  in_int64 (PersistentClient_UpstreamsCacheSize c).

Definition DNS_integers (d : DNS) : list Z :=
  [DNS_RateLimit d; DNS_RateLimitIPv4 d; DNS_RateLimitIPv6 d; DNS_BlockedResponseTTL d; DNS_CacheSize d;
   DNS_CacheTTLMin d; DNS_CacheTTLMax d; DNS_UpstreamTimeout d].

Definition machine_shared (s : Shared) : Prop :=
  Forall in_int64 (DNS_integers (Shared_DNS s)) ∧
  Forall machine_client (elems (Shared_Clients s)) ∧
  machine_schedule (Services_BlockedSchedule (Shared_Services s)) ∧
  in_int64 (QueryLogPolicy_IntervalMillis (Shared_QueryLog s)) ∧
  in_int64 (StatisticsPolicy_IntervalMillis (Shared_Statistics s)) ∧
  in_int64 (Filtering_UpdateInterval (Shared_Filtering s)).

Section roundtrip.
Context {R : Runtime} {N : NodeRuntime}.

(** [decode H] evaluates the decoder on an object whose fields [H] gives; [values]
    evaluates the decoders of the fields. *)
Ltac decode H :=
  unfold field, pointer_field, field_with; repeat (rewrite H by (vm_compute; reflexivity));
  cbn [app assoc String.eqb Ascii.eqb Bool.eqb option_list option_rect foldl mbind option_bind].

Ltac values :=
  repeat (first [rewrite unmarshal_int by done | rewrite unmarshal_strings];
          cbn [mbind option_bind]).

(** [j] is decoded to a response that stands for [v]. *)
Definition decoded_as {A B} {U : Unmarshal A} (model : A → B) (j : json) (v : B) : Prop :=
  ∃ response, unmarshal j zero_value = Some response ∧ model response = v.

Definition read_back {A B} {U : Unmarshal A} (model : A → B) (m : gmap string json) (v : B) : Prop :=
  decoded_as model (marshal m) v.

Lemma safe_search_roundtrip (v : SafeSearch) : read_back safeSearchModel (safeSearchPayload v) v.
Proof.
  eexists. split.
  - apply in_object_payload. intros fs H. decode H. reflexivity.
  - by destruct v.
Qed.

(** ** Schedules *)

Definition response_period (p : DayRange) : dayRangeResponse :=
  mkdayRangeResponse (DayRange_Start p) (DayRange_End p).

Lemma period_roundtrip p cur : in_int64 (DayRange_Start p) → in_int64 (DayRange_End p) →
  unmarshal (period_payload p) cur = Some (response_period p).
Proof.
  intros Hs He. apply in_object_payload. intros fs H. decode H. by values.
Qed.

Lemma period_decoded (o : option DayRange) :
  (∀ p, o = Some p → in_int64 (DayRange_Start p) ∧ in_int64 (DayRange_End p)) →
  foldl (λ acc v, a ← acc; unmarshal_pointer v a) (Some None) (option_list (period_payload <$> o)) =
  Some (response_period <$> o).
Proof.
  destruct o as [p|]; [|done]. intros Hp. destruct (Hp p eq_refl) as [Hs He].
  cbn [fmap option_fmap option_map option_list option_rect foldl mbind option_bind].
  unfold period_payload at 1. rewrite unmarshal_pointer_marshal. fold (period_payload p).
  by rewrite period_roundtrip.
Qed.

Lemma time_zone_not_day : "time_zone" ∉ weekdays.
Proof. by apply (bool_decide_eq_true (_ ∉ _)). Qed.

Lemma schedule_day s day : day ∈ weekdays →
  schedulePayload s !! day = period_payload <$> Schedule_Days s !! day.
Proof.
  intros Hd. unfold schedulePayload. rewrite lookup_union, lookup_fmap, payload_lookup. cbn [assoc].
  destruct (String.eqb_spec "time_zone" day) as [<-|_]; [by apply time_zone_not_day in Hd|].
  by destruct (Schedule_Days s !! day).
Qed.

Lemma schedule_zone s : machine_schedule s →
  schedulePayload s !! "time_zone" = Some (JStr (Schedule_TimeZone s)).
Proof.
  intros Hs. unfold schedulePayload. rewrite lookup_union, lookup_fmap, payload_lookup.
  destruct (Schedule_Days s !! "time_zone") as [p|] eqn:E; [|done].
  apply Hs in E as [E _]. by apply time_zone_not_day in E.
Qed.

Lemma schedule_keys s k : machine_schedule s → is_Some (schedulePayload s !! k) → k ∈ "time_zone" :: weekdays.
Proof.
  intros Hs. unfold schedulePayload. rewrite lookup_union, lookup_fmap, payload_lookup.
  destruct (Schedule_Days s !! k) as [p|] eqn:E; [right; by eapply Hs|].
  cbn [assoc fmap option_fmap option_map]. destruct (String.eqb_spec "time_zone" k) as [<-|_]; [by left|].
  by intros [? ?].
Qed.

Definition schedule_response (s : Schedule) : scheduleResponse :=
  let day d := response_period <$> Schedule_Days s !! d in
  mkscheduleResponse (Schedule_TimeZone s) (day "sun") (day "mon") (day "tue") (day "wed") (day "thu")
    (day "fri") (day "sat").

Lemma schedule_decoded s cur : machine_schedule s → cur = zero_value →
  unmarshal (marshal (schedulePayload s)) cur = Some (schedule_response s).
Proof.
  intros Hs ->. apply (in_object_map _ ("time_zone" :: weekdays)); [intros k; by apply schedule_keys|].
  intros fs H. unfold pointer_field, field, field_with.
  assert (Hday : ∀ d, bool_decide (d ∈ weekdays) = true → only_key d ("time_zone" :: weekdays) = true →
    foldl (λ acc v, a ← acc; unmarshal_pointer v a) (Some None) (values_of d fs) =
    Some (response_period <$> Schedule_Days s !! d)).
  { intros d Hd%bool_decide_eq_true Hk. rewrite H, schedule_day by done. apply period_decoded.
    intros p Hp. by apply Hs in Hp as [_ ?]. }
  rewrite (H "time_zone"), schedule_zone, !Hday by (done || reflexivity). done.
Qed.

Lemma day_of_lookup d o l k :
  (list_to_map (day_of d o ++ l) : gmap string DayRange) !! k =
  (if String.eqb d k then (λ p, mkDayRange (dayRangeResponse_Start p) (dayRangeResponse_End p)) <$> o
   else None) ∪ (list_to_map l : gmap string DayRange) !! k.
Proof.
  destruct o as [p|]; cbn [day_of app].
  - rewrite list_to_map_cons. generalize (list_to_map l : gmap string DayRange) as m. intros m.
    destruct (String.eqb_spec d k) as [->|Ne]; [rewrite lookup_insert_eq|rewrite lookup_insert_ne by done];
      by destruct (m !! k).
  - generalize (list_to_map l : gmap string DayRange) as m. intros m.
    by destruct (String.eqb d k), (m !! k).
Qed.

Lemma schedule_model_response s : machine_schedule s → scheduleModel (schedule_response s) = s.
Proof.
  intros Hs. destruct s as [zone days]. unfold scheduleModel, schedule_response. cbn. f_equal.
  apply map_eq. intros k. rewrite <- (app_nil_r (day_of "sat" _)), !day_of_lookup, list_to_map_nil, lookup_empty.
  assert (Hid : ∀ o : option DayRange, (λ p, mkDayRange (dayRangeResponse_Start p) (dayRangeResponse_End p)) <$>
    (response_period <$> o) = o) by (by intros [[]|]).
  rewrite !Hid.
  destruct (bool_decide (k ∈ weekdays)) eqn:Hk.
  - apply bool_decide_eq_true in Hk. unfold weekdays in Hk.
    repeat (apply elem_of_cons in Hk as [->|Hk]; [cbn; by destruct (days !! _)|]).
    by apply not_elem_of_nil in Hk.
  - apply bool_decide_eq_false in Hk. destruct (days !! k) as [p|] eqn:E; [by apply Hs in E as [E _]|].
    repeat case_match; try done; match goal with H : String.eqb _ _ = true |- _ => apply String.eqb_eq in H; subst end;
      by destruct Hk; apply (bool_decide_eq_true (_ ∈ _)).
Qed.

(** ** Records *)

Lemma safe_search_decoded v cur : cur = zero_value →
  unmarshal (marshal (safeSearchPayload v)) cur = Some (mksafeSearchResponse (SafeSearch_Enabled v)
    (SafeSearch_Bing v) (SafeSearch_DuckDuckGo v) (SafeSearch_Ecosia v) (SafeSearch_Google v)
    (SafeSearch_Pixabay v) (SafeSearch_Yandex v) (SafeSearch_YouTube v)).
Proof. intros ->. apply in_object_payload. intros fs H. by decode H. Qed.

Lemma client_roundtrip (c : PersistentClient) : machine_client c →
  read_back client_model (clientPayload c) c.
Proof.
  intros [Hs Hz]. eexists. split.
  - apply in_object_payload. intros fs H. decode H.
    rewrite safe_search_decoded, schedule_decoded, !unmarshal_strings, unmarshal_int by done.
    cbn. reflexivity.
  - destruct c as [? ? ? ? ? ? [] ? ? ? ? ? ? ? ? ?]. unfold client_model. cbn.
    by rewrite schedule_model_response.
Qed.

Lemma blocked_services_roundtrip (v : Services) : machine_schedule (Services_BlockedSchedule v) →
  read_back (λ r, (blockedServicesResponse_IDs r, scheduleModel (blockedServicesResponse_Schedule r)))
    (blockedServicesPayload v) (Services_BlockedServiceIDs v, Services_BlockedSchedule v).
Proof.
  intros Hs. eexists. split.
  - apply in_object_payload. intros fs H. decode H.
    rewrite schedule_decoded, unmarshal_strings by done. cbn. reflexivity.
  - cbn. by rewrite schedule_model_response.
Qed.

Lemma querylog_roundtrip (q : QueryLogPolicy) (current : policyResponse) :
  in_int64 (QueryLogPolicy_IntervalMillis q) → is_Some (policyResponse_IgnoredEnabled current) →
  read_back querylog_model
    (policy_payload (QueryLogPolicy_Enabled q) (QueryLogPolicy_IntervalMillis q) (QueryLogPolicy_Ignored q)
       (QueryLogPolicy_IgnoredEnabled q) [("anonymize_client_ip", JBool (QueryLogPolicy_AnonymizeClientIP q))]
       current) q.
Proof.
  intros Hi Hc. unfold policy_payload, bool_of_pointer. rewrite bool_decide_true by done. eexists. split.
  - rewrite payload_insert. apply in_object_payload. intros fs H. decode H.
    rewrite unmarshal_strings, unmarshal_int by done. cbn. reflexivity.
  - by destruct q.
Qed.

Lemma statistics_roundtrip (q : StatisticsPolicy) (current : policyResponse) :
  in_int64 (StatisticsPolicy_IntervalMillis q) → is_Some (policyResponse_IgnoredEnabled current) →
  read_back statistics_model
    (policy_payload (StatisticsPolicy_Enabled q) (StatisticsPolicy_IntervalMillis q) (StatisticsPolicy_Ignored q)
       (StatisticsPolicy_IgnoredEnabled q) [] current) q.
Proof.
  intros Hi Hc. unfold policy_payload, bool_of_pointer. rewrite bool_decide_true by done. eexists. split.
  - rewrite payload_insert. apply in_object_payload. intros fs H. decode H.
    rewrite unmarshal_strings, unmarshal_int by done. cbn. reflexivity.
  - by destruct q.
Qed.

Lemma dns_roundtrip (d : DNS) (current : dnsInfoResponse) : Forall in_int64 (DNS_integers d) →
  is_Some (dnsInfoResponse_CacheEnabled current) → is_Some (dnsInfoResponse_UpstreamTimeout current) →
  read_back dns_model (dns_payload d current) d.
Proof.
  intros Hi Hc Ht. unfold dns_payload, bool_of_pointer. rewrite !bool_decide_true by done.
  unfold DNS_integers in Hi. repeat (apply Forall_cons in Hi as [? Hi]).
  eexists. split.
  - rewrite !payload_insert. apply in_object_payload. intros fs Hfs. decode Hfs.
    rewrite !unmarshal_strings, !unmarshal_int, unmarshal_pointer_int by done. cbn. reflexivity.
  - by destruct d.
Qed.

(** The DHCP settings, which are sent without the leases. *)
Definition dhcp_settings (d : DHCPConfig) : DHCPConfig :=
  mkDHCPConfig (DHCPConfig_Enabled d) (DHCPConfig_InterfaceName d) (DHCPConfig_IPv4 d) (DHCPConfig_IPv6 d) (Some []).

Lemma dhcp_roundtrip (d : DHCPConfig) :
  in_int64 (DHCPIPv4_LeaseDuration (DHCPConfig_IPv4 d)) → in_int64 (DHCPIPv6_LeaseDuration (DHCPConfig_IPv6 d)) →
  read_back (λ r, (dhcp_model r, dhcpConfigurationMatches r d)) (dhcp_payload d) (dhcp_settings d, true).
Proof.
  intros H4 H6. unfold dhcp_payload.
  set (m4 := payload [("gateway_ip", _); _; _; _; _]). set (m6 := payload [("range_start", _); _]).
  assert (∃ v4, unmarshal (marshal m4) zero_value = Some v4 ∧ v4 = mkdhcpV4Response
    (DHCPIPv4_Gateway (DHCPConfig_IPv4 d)) (DHCPIPv4_SubnetMask (DHCPConfig_IPv4 d))
    (DHCPIPv4_RangeStart (DHCPConfig_IPv4 d)) (DHCPIPv4_RangeEnd (DHCPConfig_IPv4 d))
    (DHCPIPv4_LeaseDuration (DHCPConfig_IPv4 d))) as (v4 & E4 & ->).
  { eexists. split; [|done]. apply in_object_payload. intros fs H. decode H. by values. }
  assert (∃ v6, unmarshal (marshal m6) zero_value = Some v6 ∧ v6 = mkdhcpV6Response
    (DHCPIPv6_RangeStart (DHCPConfig_IPv6 d)) (DHCPIPv6_LeaseDuration (DHCPConfig_IPv6 d))) as (v6 & E6 & ->).
  { eexists. split; [|done]. apply in_object_payload. intros fs H. decode H. by values. }
  eexists. split.
  - apply in_object_payload. intros fs H. decode H.
    change (dhcpStatusResponse_V4 zero_value) with (@zero_value dhcpV4Response _).
    change (dhcpStatusResponse_V6 zero_value) with (@zero_value dhcpV6Response _).
    rewrite E4, E6. cbn. reflexivity.
  - unfold dhcpConfigurationMatches, dhcp_model, dhcp_settings. cbn.
    rewrite Bool.eqb_reflx, !bool_decide_true, !Z.eqb_refl by done. by destruct d as [? ? [] [] ?].
Qed.

(** A static lease, as the node lists it. *)
Definition lease_model (lease : dhcpLeaseResponse) : DHCPStaticLease :=
  mkDHCPStaticLease (dhcpLeaseResponse_MAC lease) (dhcpLeaseResponse_IP lease) (dhcpLeaseResponse_Hostname lease).

Lemma lease_roundtrip (l : DHCPStaticLease) :
  decoded_as lease_model
    (lease_payload (DHCPStaticLease_MAC l) (DHCPStaticLease_IP l) (DHCPStaticLease_Hostname l)) l.
Proof.
  eexists. split; [apply in_object_payload; intros fs H; by decode H|by destruct l].
Qed.

Lemma rewrite_roundtrip (r : Rewrite) : read_back rewrite_model (rewrite_payload true r) r.
Proof.
  unfold rewrite_payload. eexists. split.
  - rewrite payload_insert. apply in_object_payload. intros fs H. by decode H.
  - by destruct r.
Qed.

Lemma toggle_roundtrip (b : bool) :
  read_back rewriteSettingsResponse_Enabled (payload [("enabled", JBool b)]) b.
Proof. eexists. split; [apply in_object_payload; intros fs H; by decode H|done]. Qed.

(** The switch and the interval of the filtering section, as [configurationDocument] reads them. *)
Definition filtering_model (r : filterStatusResponse) : bool * Z :=
  let filtering := Shared_Filtering (Document_Shared (configurationDocument "" zero_value zero_value r)) in
  (Filtering_Enabled filtering, Filtering_UpdateInterval filtering).

Lemma filtering_roundtrip (f : Filtering) : in_int64 (Filtering_UpdateInterval f) →
  read_back filtering_model
    (payload [("enabled", JBool (Filtering_Enabled f)); ("interval", JNum (Filtering_UpdateInterval f))])
    (Filtering_Enabled f, Filtering_UpdateInterval f).
Proof.
  intros Hi. eexists. split.
  - apply in_object_payload. intros fs H. decode H. rewrite unmarshal_int by done. cbn. reflexivity.
  - reflexivity.
Qed.

Lemma list_roundtrip url whitelist :
  decoded_as (λ r, (filterListResponse_URL r, filterListResponse_Whitelist r))
    (add_url_payload url whitelist) (url, whitelist).
Proof. eexists. split; [apply in_object_payload; intros fs H; by decode H|done]. Qed.

(** C36: what the adapter writes is what it reads: the payload that is sent to a node, decoded with the
    struct and the tags of the reader, gives back the DNS settings; every client; the blocked services
    with their schedule; safe search; the query-log and the statistics policy; the switch and the interval
    of the filters, and the address and the kind of every list that is added; the rewrite switch and
    every rewrite, for a node with the settings endpoint; and the DHCP settings, which then need no
    further change, and every static lease.  The integers are those of a Go program, and the toggles that
    older nodes lack must be reported by the node.  Not covered: the user rules, which are sent under
    another name than they are read, and safe browsing and parental control, which are set by the path of a
    request without a payload. *)
Theorem payloads_roundtrip (s : Shared) (d : DHCPConfig) (dns : dnsInfoResponse)
  (queryLog statistics : policyResponse) :
  machine_shared s →
  in_int64 (DHCPIPv4_LeaseDuration (DHCPConfig_IPv4 d)) → in_int64 (DHCPIPv6_LeaseDuration (DHCPConfig_IPv6 d)) →
  is_Some (dnsInfoResponse_CacheEnabled dns) → is_Some (dnsInfoResponse_UpstreamTimeout dns) →
  is_Some (policyResponse_IgnoredEnabled queryLog) → is_Some (policyResponse_IgnoredEnabled statistics) →
  read_back dns_model (dns_payload (Shared_DNS s) dns) (Shared_DNS s) ∧
  Forall (λ c, read_back client_model (clientPayload c) c) (elems (Shared_Clients s)) ∧
  read_back (λ r, (blockedServicesResponse_IDs r, scheduleModel (blockedServicesResponse_Schedule r)))
    (blockedServicesPayload (Shared_Services s))
    (Services_BlockedServiceIDs (Shared_Services s), Services_BlockedSchedule (Shared_Services s)) ∧
  read_back safeSearchModel (safeSearchPayload (Services_SafeSearch (Shared_Services s)))
    (Services_SafeSearch (Shared_Services s)) ∧
  (let q := Shared_QueryLog s in
   read_back querylog_model
     (policy_payload (QueryLogPolicy_Enabled q) (QueryLogPolicy_IntervalMillis q) (QueryLogPolicy_Ignored q)
        (QueryLogPolicy_IgnoredEnabled q) [("anonymize_client_ip", JBool (QueryLogPolicy_AnonymizeClientIP q))]
        queryLog) q) ∧
  (let q := Shared_Statistics s in
   read_back statistics_model
     (policy_payload (StatisticsPolicy_Enabled q) (StatisticsPolicy_IntervalMillis q)
        (StatisticsPolicy_Ignored q) (StatisticsPolicy_IgnoredEnabled q) [] statistics) q) ∧
  (let f := Shared_Filtering s in
   read_back filtering_model
     (payload [("enabled", JBool (Filtering_Enabled f)); ("interval", JNum (Filtering_UpdateInterval f))])
     (Filtering_Enabled f, Filtering_UpdateInterval f)) ∧
  (∀ url whitelist, decoded_as (λ r, (filterListResponse_URL r, filterListResponse_Whitelist r))
     (add_url_payload url whitelist) (url, whitelist)) ∧
  read_back rewriteSettingsResponse_Enabled (payload [("enabled", JBool (Shared_RewritesEnabled s))])
    (Shared_RewritesEnabled s) ∧
  Forall (λ r, read_back rewrite_model (rewrite_payload true r) r) (elems (Shared_Rewrites s)) ∧
  read_back (λ r, (dhcp_model r, dhcpConfigurationMatches r d)) (dhcp_payload d) (dhcp_settings d, true) ∧
  Forall (λ l, decoded_as lease_model
    (lease_payload (DHCPStaticLease_MAC l) (DHCPStaticLease_IP l) (DHCPStaticLease_Hostname l)) l)
    (elems (DHCPConfig_StaticLeases d)).
Proof.
  intros (Hdns & Hclients & Hschedule & Hlog & Hstat & Hfilter) H4 H6 Hcache Htimeout Hl Hs.
  split_and!; [by apply dns_roundtrip| |by apply blocked_services_roundtrip|apply safe_search_roundtrip
    |by apply querylog_roundtrip|by apply statistics_roundtrip|by apply filtering_roundtrip|exact list_roundtrip
    |apply toggle_roundtrip| |by apply dhcp_roundtrip|].
  - eapply Forall_impl; [exact Hclients|]. intros c. apply client_roundtrip.
  - apply Forall_true. exact rewrite_roundtrip.
  - apply Forall_true. exact lease_roundtrip.
Qed.
End roundtrip.

(** * What the procedures of the node adapter guarantee

    A procedure stops at the first request a node refuses and reports it; reading sends
    nothing but GET requests; and the rewrites of a node converge. *)

(** ** Exchanges of a trace *)

Definition exchanged (ev : event http) : option (HTTPRequest * HTTPOutcome) :=
  match ev with
  | Event e x =>
      (match e in http X return X → option (HTTPRequest * HTTPOutcome) with
       | Do request => λ outcome, Some (request, outcome)
       | Clock => λ _, None
       end) x
  end.

Definition exchanges (tr : list (event http)) : list (HTTPRequest * HTTPOutcome) := omap exchanged tr.

Lemma exchanges_app tr tr' : exchanges (tr ++ tr') = exchanges tr ++ exchanges tr'.
Proof. apply omap_app. Qed.

(** A refusal: no response, or a status outside 200 to 299; a GET answered with 404 or
    501 says that the node does not have the endpoint. *)
Definition refused (x : HTTPRequest * HTTPOutcome) : bool :=
  match x.2 with
  | Failed _ => true
  | Responded status _ _ =>
      ((status <? 200) || (300 <=? status)) &&
      negb ((HTTP_Method x.1 =?? MethodGet) &&
            ((status =? StatusNotFound) || (status =? StatusNotImplemented)))
  end.

(** Every exchange but the last one is accepted, and the last one too when the result
    is no error. *)
Definition stops_at_refusal {A} (xs : list (HTTPRequest * HTTPOutcome)) (r : res A) : Prop :=
  ∀ pre x post, xs = pre ++ x :: post → refused x = true → post = [] ∧ is_Ok r = false.

Definition strict {A} (p : exchange (res A)) : Prop :=
  emits p (λ tr r, stops_at_refusal (exchanges tr) r).

Lemma stops_one {A} x (r : res A) : (refused x = true → is_Ok r = false) → stops_at_refusal [x] r.
Proof.
  intros H pre y post E Hy. apply (app_snoc_cut []) in E as [(-> & -> & ->)|[l E]]; [by auto|].
  by destruct pre.
Qed.

Lemma stops_nil {A} (r : res A) : stops_at_refusal [] r.
Proof. intros [|? ?] x post E; discriminate E. Qed.

Lemma strict_pure {A} (r : res A) : strict (Ret r).
Proof. apply emits_Ret, stops_nil. Qed.

Lemma strict_bind {A B} (p : exchange (res A)) (f : A → exchange (res B)) :
  strict p → (∀ a, strict (f a)) → strict (bind_ok p f).
Proof.
  intros Hp Hf. apply emits_bind_ok. eapply emits_mono; [exact Hp|].
  intros tr [a|e] H; [|exact H].
  eapply emits_mono; [apply Hf|]. intros tr' r H' pre x post E Hx. rewrite exchanges_app in E.
  assert (Hacc : Forall (λ x, refused x = false) (exchanges tr)).
  { apply Forall_forall. intros y Hy. destruct (refused y) eqn:Hr; [|done].
    apply list_elem_of_split in Hy as (l1 & l2 & Ey). by destruct (H l1 y l2 Ey Hr). }
  destruct (Forall_prefix (λ x, refused x = false) (exchanges tr) (exchanges tr') pre post x)
    as (pre' & -> & E'); [done|by rewrite Hx|done|]. by apply (H' pre' x post).
Qed.

Lemma strict_if {A} (b : bool) (p q : exchange (res A)) : strict p → strict q → strict (if b then p else q).
Proof. by destruct b. Qed.

Create HintDb strict.
#[export] Hint Resolve strict_pure strict_bind strict_if : strict.

Section adapter.
Context {R : Runtime} {N : NodeRuntime} (request : NodeProbeRequest).

(** A request is sent once, with the method and the credentials it was opened with. *)
Lemma open_request_once endpoint method create body :
  emits (open_request request endpoint method create body) (λ tr r,
    (exchanges tr = [] ∧ is_Ok r = false) ∨
    ∃ url trusted o, exchanges tr =
        [(mkHTTPRequest method url (Request_Credentials request) body trusted, o)] ∧
      match r with Ok (status, contentType, b) => o = Responded status contentType b | Err _ => True end).
Proof.
  unfold open_request. repeat emit_step; cbn; [..|idtac]; try (by left); right; eexists _, _, _; (split; [reflexivity|]); done.
Qed.

(** What follows a response must be quiet, and report a refusal. *)
Lemma strict_request {A} endpoint method create body (k : Z * string * Body → exchange (res A)) :
  (∀ status contentType b, emits (k (status, contentType, b)) (λ tr r, exchanges tr = [] ∧
     (∀ req, HTTP_Method req = method → refused (req, Responded status contentType b) = true → is_Ok r = false))) →
  strict (bind_ok (open_request request endpoint method create body) k).
Proof.
  intros Hk. apply emits_bind_ok. eapply emits_mono; [apply open_request_once|].
  intros tr r [[E Hr]|(url & trusted & o & E & Hr)].
  - destruct r as [x|e]; [done|]. rewrite E. apply stops_nil.
  - destruct r as [[[status contentType] b]|e].
    + subst o. eapply emits_mono; [apply Hk|]. intros tr' r [E' Hr]. rewrite exchanges_app, E, E', app_nil_r.
      apply stops_one. by apply Hr.
    + rewrite E. by apply stops_one.
Qed.

Lemma strict_send method path body : strict (send request method path body).
Proof.
  unfold send. apply strict_request. intros status contentType b.
  destruct ((status <? 200) || (300 <=? status)) eqn:E; apply emits_Ret; (split; [done|]); [done|].
  intros req _. unfold refused. cbn [fst snd]. by rewrite E.
Qed.

Lemma strict_getResource {A} {U : Unmarshal A} path unavailable :
  (∀ status, status ∈ unavailable → status = StatusNotFound ∨ status = StatusNotImplemented) →
  strict (getResource (A:=A) request path unavailable).
Proof.
  intros Hu. unfold getResource. apply strict_request. intros status contentType b.
  destruct (existsb (Z.eqb status) unavailable) eqn:E.
  - apply emits_Ret. split; [done|]. intros req Hm. unfold refused. cbn [fst snd]. rewrite Hm.
    apply existsb_exists in E as (x & Hx & ->%Z.eqb_eq). apply list_elem_of_In, Hu in Hx as [->| ->]; done.
  - destruct (status =? StatusOK) eqn:E2; cbn [negb]; [|by apply emits_Ret].
    apply Z.eqb_eq in E2 as ->. apply emits_bind_ok, emits_Ret.
    destruct (read_body _ _ _ _ _); [apply emits_Ret|]; by split.
Qed.

Lemma strict_get {A} {U : Unmarshal A} path : strict (get (A:=A) request path).
Proof.
  unfold get. apply strict_bind; [|intros ?; apply strict_pure].
  apply strict_getResource. intros ? H. by apply not_elem_of_nil in H.
Qed.

Lemma strict_getOptionalEndpoint {A} {U : Unmarshal A} path :
  strict (getOptionalEndpoint (A:=A) request path).
Proof. apply strict_getResource. intros status H. set_solver. Qed.

Lemma strict_for_each {A} (f : A → exchange (res unit)) l :
  (∀ x, strict (f x)) → strict (for_each f l).
Proof. intros Hf. induction l as [|x l IH]; cbn; eauto with strict. Qed.
End adapter.

#[export] Hint Resolve strict_send strict_get strict_getOptionalEndpoint strict_for_each : strict.

Section apply.
Context {R : Runtime} {N : NodeRuntime} {M : MapOrder} (request : NodeProbeRequest).

Lemma strict_post path body : strict (post request path body).
Proof. apply strict_send. Qed.

Lemma strict_put path body : strict (put request path body).
Proof. apply strict_send. Qed.

Lemma strict_setEnabled prefix enabled : strict (setEnabled request prefix enabled).
Proof. apply strict_send. Qed.

Lemma strict_only_if b p : strict p → strict (only_if b p).
Proof. intros Hp. unfold only_if. apply strict_if; [done|apply strict_pure]. Qed.

Lemma strict_reconcileFilterURLs current desired whitelist :
  strict (reconcileFilterURLs request current desired whitelist).
Proof.
  apply strict_bind; [|intros _]; apply strict_for_each; intros x;
    [destruct (List.find _ _)|]; auto using strict_only_if, strict_post, strict_put.
Qed.

Lemma strict_reconcileClients desired : strict (reconcileClients request desired).
Proof.
  apply strict_bind; [apply strict_get|intros response].
  apply strict_bind; [|intros _]; apply strict_for_each; intros x;
    [destruct (_ !! _)|]; auto using strict_only_if, strict_post, strict_put.
Qed.

Lemma strict_reconcileRewrites enabled desired : strict (reconcileRewrites request enabled desired).
Proof.
  apply strict_bind; [apply strict_get|intros response].
  apply strict_bind; [apply strict_getOptionalEndpoint|intros settings].
  apply strict_bind; [auto using strict_only_if, strict_put|intros _].
  apply strict_bind; [|intros _]; apply strict_for_each; intros x.
  - unfold write_rewrite. destruct (_ !! desired_key x); auto using strict_only_if, strict_post, strict_put.
  - apply strict_only_if, strict_post.
Qed.

Lemma strict_updatePolicy a b c d e f g : strict (updatePolicy request a b c d e f g).
Proof. apply strict_bind; [apply strict_get|intros x; apply strict_send]. Qed.

Lemma strict_reconcile_leases desired : ∀ byMAC, strict (reconcile_leases request byMAC desired).
Proof.
  induction desired as [|lease rest IH]; intros byMAC; cbn; [apply strict_pure|].
  destruct (byMAC !! _); [destruct (lease_changed _ _)|];
    repeat (apply strict_bind; [apply strict_send|intros _]); auto.
Qed.

Lemma strict_reconcileDHCP desired : strict (reconcileDHCP request desired).
Proof.
  apply strict_bind; [apply strict_get|intros current].
  apply strict_bind; [auto using strict_only_if, strict_post, strict_put|intros _].
  apply strict_bind; [apply strict_reconcile_leases|intros byMAC].
  apply strict_for_each. intros x. apply strict_only_if, strict_send.
Qed.

Lemma strict_apply_shared shared : strict (apply_shared request shared).
Proof.
  unfold apply_shared.
  repeat (apply strict_bind; [auto using strict_reconcileClients, strict_reconcileRewrites, strict_put, strict_setEnabled,
    strict_updatePolicy|intros _]). apply strict_updatePolicy.
Qed.

Lemma strict_ApplyConfiguration desired : strict (Writer_ApplyConfiguration request desired).
Proof.
  unfold Writer_ApplyConfiguration.
  apply strict_bind; [apply strict_get|intros filters].
  apply strict_bind; [apply strict_if; [apply strict_get|apply strict_pure]|intros dns].
  repeat (apply strict_bind; [auto using strict_only_if, strict_post, strict_reconcileFilterURLs,
    strict_apply_shared|intros _]).
  destruct (NodeSpecific_DHCP _); [|apply strict_pure]. auto using strict_only_if, strict_reconcileDHCP.
Qed.

Definition success (o : HTTPOutcome) : Prop :=
  match o with Responded status _ _ => 200 <= status < 300 | Failed _ => False end.

(** C35: A configuration is applied completely or its failure is reported: when
    [ApplyConfiguration] returns nil the node accepted every change that was sent, and
    the first request a node refuses (no response, rejected credentials, a status that
    is no success) is the last one and makes the result an error. *)
Theorem ApplyConfiguration_reports_refusals desired tr r :
  traces (Writer_ApplyConfiguration request desired) tr r →
  (is_Ok r = true → ∀ sent o, (sent, o) ∈ exchanges tr → HTTP_Method sent ≠ MethodGet → success o) ∧
  (∀ pre sent o post, exchanges tr = pre ++ (sent, o) :: post → refused (sent, o) = true →
     post = [] ∧ is_Ok r = false).
Proof.
  intros H%strict_ApplyConfiguration. split; [|intros pre sent o post; apply H].
  intros Hr sent o Ho Hm. apply list_elem_of_split in Ho as (pre & post & E).
  destruct (refused (sent, o)) eqn:Hx; [destruct (H _ _ _ E Hx); congruence|].
  unfold refused in Hx. cbn in Hx. destruct o as [e|status contentType b]; [done|].
  rewrite (bool_decide_false _ Hm) in Hx. cbn in Hx. rewrite andb_true_r in Hx. bool_simp. cbn. lia.
Qed.
End apply.
