(* ===== verification/NodeConverge.v ===== *)
(** * The rewrites of a node converge

    On a node that adds, updates and deletes rewrites as its API documents, one run of
    [reconcileRewrites] leaves the desired rewrites and no others, up to the case of
    domains and answers, and exactly where the node has no rewrite that differs from a
    desired one only in case. *)

From S2P Require Import Prelude GoRuntime Json Domain Configuration ControlModel InventoryModel.
From S2P Require Import Wire Effects NodeHttp NodePayloads NodeReader NodeWriter.

(** ** Runs against a node *)

Section runs.
Context {W : Type} (handler : ∀ X, http X → W → X * W).

Definition run {A} (p : exchange A) (w : W) : A * W := (interp handler p w).1.

Lemma run_bind {A B} (p : exchange A) (f : A → exchange B) w :
  run (bind p f) w = run (f (run p w).1) (run p w).2.
Proof.
  unfold run. revert w. induction p as [a|X e k IH]; intros w; cbn; [done|].
  destruct (handler X e w) as [x w1]. specialize (IH x w1).
  destruct (interp handler (bind (k x) f) w1) as [[b w2] tr]. cbn in *. rewrite IH.
  by destruct (interp handler (k x) w1) as [[a w3] tr3].
Qed.

Lemma run_ok {A B} (p : exchange (res A)) (f : A → exchange (res B)) w a w1 :
  run p w = (Ok a, w1) → run (bind_ok p f) w = run (f a) w1.
Proof. intros H. unfold bind_ok. by rewrite run_bind, H. Qed.

(** A loop keeps an invariant of the elements that remain. *)
Lemma run_for_each {A} (f : A → exchange (res unit)) (P : list A → W → Prop) l : ∀ w,
  P l w →
  (∀ x rest w, P (x :: rest) w → ∃ w', run (f x) w = (Ok tt, w') ∧ P rest w') →
  ∃ w', run (for_each f l) w = (Ok tt, w') ∧ P [] w'.
Proof.
  induction l as [|x l IH]; intros w Hw Hstep; cbn; [by exists w|].
  destruct (Hstep _ _ _ Hw) as (w1 & E & H1). rewrite (run_ok _ _ _ _ _ E). by apply IH.
Qed.
End runs.

(** ** The rewrite API of a node *)

Section api.
Context {R : Runtime} {N : NodeRuntime} (request : NodeProbeRequest).

Definition added_rewrite (item : Rewrite) : rewriteResponse :=
  mkrewriteResponse (Rewrite_Domain item) (Rewrite_Answer item) (Some (Rewrite_Enabled item)).

Definition same_entry (r r' : rewriteResponse) : bool :=
  (rewriteResponse_Domain r =?? rewriteResponse_Domain r') &&
  (rewriteResponse_Answer r =?? rewriteResponse_Answer r').

(** What the adapter relies on: the endpoints answer with success, the list endpoint
    returns the rewrites of the node, [add] appends the rewrite, [update] replaces the
    entries with the domain and answer of the target, [delete] removes those entries,
    and no other of these requests changes the rewrites. *)
Class RewriteAPI {W : Type} (handler : ∀ X, http X → W → X * W) (rewrites : W → list rewriteResponse) : Prop := {
  api_list w : ∃ w', run handler (get request "/control/rewrite/list") w = (Ok (Some (rewrites w)), w') ∧
    rewrites w' = rewrites w;
  api_settings w : ∃ w' settings,
    run handler (getOptionalEndpoint (A:=rewriteSettingsResponse) request "/control/rewrite/settings") w =
      (Ok (Some settings), w') ∧ rewrites w' = rewrites w;
  api_switch w enabled : ∃ w',
    run handler (put request "/control/rewrite/settings/update" (marshal (payload [("enabled", JBool enabled)]))) w =
      (Ok tt, w') ∧ rewrites w' = rewrites w;
  api_add w item : ∃ w',
    run handler (post request "/control/rewrite/add" (marshal (rewrite_payload true item))) w = (Ok tt, w') ∧
    rewrites w' = rewrites w ++ [added_rewrite item];
  api_update w old item : old ∈ rewrites w → ∃ w',
    run handler (put request "/control/rewrite/update"
      (marshal (payload [("target", rewrite_target old); ("update", marshal (rewrite_payload true item))]))) w =
      (Ok tt, w') ∧
    rewrites w' = (λ r, if same_entry old r then added_rewrite item else r) <$> rewrites w;
  api_delete w old : old ∈ rewrites w → ∃ w',
    run handler (post request "/control/rewrite/delete" (rewrite_target old)) w = (Ok tt, w') ∧
    rewrites w' = List.filter (λ r, negb (same_entry old r)) (rewrites w)
}.

Definition rewrite_enabled (r : rewriteResponse) : bool := valueOrDefault (rewriteResponse_Enabled r) true.

Lemma same_entry_key r r' : same_entry r r' = true → current_key r' = current_key r.
Proof. unfold same_entry, current_key. intros H. bool_simp. congruence. Qed.

Lemma key_inj (l : list rewriteResponse) r r' : NoDup (current_key <$> l) → r ∈ l → r' ∈ l →
  current_key r = current_key r' → r = r'.
Proof.
  induction l as [|x l IH]; intros Hnd Hr Hr' E; [by apply not_elem_of_nil in Hr|].
  rewrite fmap_cons in Hnd. apply NoDup_cons in Hnd as [Hx Hnd].
  apply elem_of_cons in Hr as [->|Hr], Hr' as [->|Hr']; [done| | |by apply IH];
    destruct Hx; apply list_elem_of_fmap; eauto.
Qed.

(** ** The two loops *)

Context {W : Type} (handler : ∀ X, http X → W → X * W) (rewrites : W → list rewriteResponse).
Context {API : RewriteAPI handler rewrites}.

Definition matches (l : list rewriteResponse) (d : Rewrite) : Prop :=
  ∃ r, r ∈ l ∧ current_key r = desired_key d ∧ rewrite_enabled r = Rewrite_Enabled d.

(** Every entry is one of the first ones, or was made from a desired one. *)
Definition origin (current : list rewriteResponse) (desired : list Rewrite) (l : list rewriteResponse) : Prop :=
  ∀ r, r ∈ l → r ∈ current ∨ ∃ d, d ∈ desired ∧ r = added_rewrite d.

(** While the desired rewrites are added: the current ones that are not yet reached are
    untouched, and those reached match. *)
Definition added (current : list rewriteResponse) (reached : list Rewrite) (l : list rewriteResponse) : Prop :=
  NoDup (current_key <$> l) ∧
  (∀ r, r ∈ current → current_key r ∉ desired_key <$> reached → r ∈ l) ∧
  (∀ d, d ∈ reached → matches l d) ∧ origin current reached l.

(** The kept entries of a list and their keys. *)
Lemma added_key item : current_key (added_rewrite item) = desired_key item.
Proof. done. Qed.

Lemma origin_more current reached l d : origin current reached l → origin current (reached ++ [d]) l.
Proof. intros H r Hr. destruct (H r Hr) as [?|(d' & ? & ?)]; [auto|]. right. exists d'. rewrite elem_of_app. auto. Qed.

Lemma origin_key current reached l r : origin current reached l → r ∈ l →
  r ∈ current ∨ current_key r ∈ desired_key <$> reached.
Proof. intros H Hr. destruct (H r Hr) as [?|(d & Hd & ->)]; [auto|]. right.
  rewrite added_key. by apply list_elem_of_fmap_2. Qed.

Lemma matches_app l l' d : matches l d → matches (l ++ l') d.
Proof. intros (r & Hr & H). exists r. by rewrite elem_of_app; auto. Qed.

Lemma added_fresh current reached l d : added current reached l →
  desired_key d ∉ desired_key <$> reached → desired_key d ∉ current_key <$> current →
  added current (reached ++ [d]) (l ++ [added_rewrite d]).
Proof.
  intros (Hnd & Hkeep & Hm & Hall) Hd Hc. repeat split.
  - rewrite fmap_app. apply NoDup_app. split_and!; [done| |apply NoDup_singleton].
    intros k Hk H. apply list_elem_of_singleton in H as ->. rewrite added_key in Hk.
    apply list_elem_of_fmap in Hk as (r & E & Hr).
    apply (origin_key _ _ _ _ Hall) in Hr as [Hr|Hr]; [|by rewrite <- E in Hr].
    apply Hc. apply list_elem_of_fmap. eauto.
  - intros r Hr Hk. apply elem_of_app. left. apply Hkeep; [done|].
    intros H. apply Hk. rewrite fmap_app, elem_of_app. by left.
  - intros d' [H|H]%elem_of_app; [by apply matches_app, Hm|]. apply list_elem_of_singleton in H as ->.
    exists (added_rewrite d). rewrite elem_of_app. split; [right; by left|done].
  - intros r [H|H]%elem_of_app; [by apply (origin_more _ _ l)|].
    apply list_elem_of_singleton in H as ->. right. exists d. rewrite elem_of_app. split; [right; by left|done].
Qed.

Lemma added_same current reached l d old : added current reached l → old ∈ l →
  current_key old = desired_key d → rewrite_enabled old = Rewrite_Enabled d →
  added current (reached ++ [d]) l.
Proof.
  intros (Hnd & Hkeep & Hm & Hall) Ho Hk He. repeat split; [done|..].
  - intros r Hr H. apply Hkeep; [done|]. intros H'. apply H. rewrite fmap_app, elem_of_app. by left.
  - intros d' [H|H]%elem_of_app; [by apply Hm|]. apply list_elem_of_singleton in H as ->. by exists old.
  - by apply origin_more.
Qed.

Definition replace_entry (old : rewriteResponse) (d : Rewrite) (r : rewriteResponse) : rewriteResponse :=
  if same_entry old r then added_rewrite d else r.

Lemma replace_key old d r : current_key old = desired_key d → current_key (replace_entry old d r) = current_key r.
Proof.
  intros E. unfold replace_entry. destruct (same_entry old r) eqn:H; [|done].
  apply same_entry_key in H. by rewrite added_key, H.
Qed.

Lemma same_entry_refl r : same_entry r r = true.
Proof. unfold same_entry. by rewrite !bool_decide_true. Qed.

Lemma added_updated current reached l d old : added current reached l → old ∈ l →
  desired_key d ∉ desired_key <$> reached → current_key old = desired_key d →
  added current (reached ++ [d]) (replace_entry old d <$> l).
Proof.
  intros (Hnd & Hkeep & Hm & Hall) Ho Hd E.
  assert (Hkeys : current_key <$> (replace_entry old d <$> l) = current_key <$> l).
  { rewrite <- list_fmap_compose. apply list_fmap_ext. intros i r _. by apply replace_key. }
  assert (Hother : ∀ r, r ∈ l → current_key r ≠ desired_key d → r ∈ replace_entry old d <$> l).
  { intros r Hr Hne. apply list_elem_of_fmap. exists r. split; [|done]. unfold replace_entry.
    destruct (same_entry old r) eqn:H; [|done]. apply same_entry_key in H. congruence. }
  repeat split.
  - by rewrite Hkeys.
  - intros r Hr H. rewrite fmap_app, elem_of_app in H.
    apply Hother; [apply Hkeep; [done|tauto]|]. intros F. apply H. right. rewrite F. by left.
  - intros d' [H|H]%elem_of_app.
    + destruct (Hm d' H) as (r & Hr & Hk & He). exists r. split; [|done]. apply Hother; [done|].
      rewrite Hk. intros F. apply Hd. apply list_elem_of_fmap. by exists d'.
    + apply list_elem_of_singleton in H as ->. exists (added_rewrite d). split; [|done].
      apply list_elem_of_fmap. exists old. split; [|done]. unfold replace_entry. by rewrite same_entry_refl.
  - intros r (r' & -> & Hr')%list_elem_of_fmap. unfold replace_entry.
    destruct (same_entry old r'); [|by apply (origin_more _ _ l)].
    right. exists d. rewrite elem_of_app. split; [right; by left|done].
Qed.

(** While the other rewrites are deleted. *)
Definition deleting (desired : list Rewrite) (rest l : list rewriteResponse) : Prop :=
  NoDup (current_key <$> l) ∧ NoDup rest ∧
  (∀ d, d ∈ desired → matches l d) ∧
  (∀ r, r ∈ rest → current_key r ∉ desired_key <$> desired → r ∈ l) ∧
  (∀ r, r ∈ l → current_key r ∈ desired_key <$> desired ∨ r ∈ rest).

Lemma elem_of_without old l r : r ∈ List.filter (λ r, negb (same_entry old r)) l ↔ r ∈ l ∧ same_entry old r = false.
Proof. by rewrite !list_elem_of_In, filter_In, negb_true_iff. Qed.

Lemma deleting_kept desired r rest l : deleting desired (r :: rest) l →
  current_key r ∈ desired_key <$> desired → deleting desired rest l.
Proof.
  intros (Hnd & Hr & Hm & Hkeep & Hall) Hk. apply NoDup_cons in Hr as [_ Hr].
  repeat split; [done..| |]; [intros r' Hr'; apply Hkeep; by right|].
  intros r' Hr'. apply Hall in Hr' as [?|H]; [by left|]. apply elem_of_cons in H as [->|H]; auto.
Qed.

Lemma deleting_removed desired r rest l : deleting desired (r :: rest) l →
  current_key r ∉ desired_key <$> desired →
  r ∈ l ∧ deleting desired rest (List.filter (λ x, negb (same_entry r x)) l).
Proof.
  intros (Hnd & Hr & Hm & Hkeep & Hall) Hk. split; [apply Hkeep; [by left|done]|].
  apply NoDup_cons in Hr as [Hrr Hr]. repeat split; [|done|..].
  - revert Hnd. clear. induction l as [|x l IH]; cbn; [done|]. intros [Hx Hnd]%NoDup_cons.
    destruct (same_entry r x); cbn; [by apply IH|]. apply NoDup_cons. split; [|by apply IH].
    intros (y & E & Hy)%list_elem_of_fmap. apply elem_of_without in Hy as [Hy _].
    apply Hx, list_elem_of_fmap. eauto.
  - intros d Hd. destruct (Hm d Hd) as (x & Hx & Ek & He). exists x. split; [|done].
    apply elem_of_without. split; [done|]. destruct (same_entry r x) eqn:F; [|done].
    apply same_entry_key in F. destruct Hk. apply list_elem_of_fmap. exists d. split; [congruence|done].
  - intros x Hx Hxk. apply elem_of_without. split; [apply Hkeep; [by right|done]|].
    destruct (same_entry r x) eqn:F; [|done]. destruct Hrr.
    rewrite (key_inj l r x); [done|done|apply Hkeep; [by left|done]|apply Hkeep; [by right|done]|].
    by apply same_entry_key in F.
  - intros x (Hx & F)%elem_of_without. apply Hall in Hx as [?|Hx]; [by left|].
    apply elem_of_cons in Hx as [->|Hx]; [|by right]. by rewrite same_entry_refl in F.
Qed.

(** ** The procedure *)

Lemma run_only_if b p w (P : W → Prop) : (b = true → ∃ w', run handler p w = (Ok tt, w') ∧ P w') →
  (b = false → P w) → ∃ w', run handler (only_if b p) w = (Ok tt, w') ∧ P w'.
Proof. destruct b; cbn; [by intros H _; apply H|]. intros _ H. exists w. auto. Qed.

Lemma not_reached {A} (key : A → string) (reached rest : list A) x :
  NoDup (key <$> reached ++ x :: rest) → key x ∉ key <$> reached.
Proof.
  rewrite fmap_app. intros (_ & H & _)%NoDup_app Hx. apply (H _ Hx). by left.
Qed.

Lemma run_write current reached d w : added current reached (rewrites w) →
  desired_key d ∉ desired_key <$> reached →
  ∃ w', run handler (write_rewrite request true (last_by_key current_key current) d) w = (Ok tt, w') ∧
    added current (reached ++ [d]) (rewrites w').
Proof.
  intros Ha Hd. unfold write_rewrite.
  pose proof (last_by_key_lookup current_key current (desired_key d)) as Hl.
  destruct (last_by_key current_key current !! desired_key d) as [old|].
  - destruct Hl as [Ho Ek].
    assert (Hin : old ∈ rewrites w) by (apply Ha; [done|by rewrite Ek]).
    apply (run_only_if _ _ w (λ w', added current (reached ++ [d]) (rewrites w'))); cbn.
    + intros _. destruct (api_update w old d Hin) as (w' & E & Hw'). exists w'. split; [done|].
      rewrite Hw'. by apply added_updated.
    + intros He%negb_false_iff%eqb_prop. by eapply added_same.
  - destruct (api_add w d) as (w' & E & Hw'). exists w'. split; [done|]. rewrite Hw'.
    by apply added_fresh.
Qed.

Lemma run_adds desired w : NoDup (desired_key <$> desired) → NoDup (current_key <$> rewrites w) →
  ∃ w', run handler (for_each (write_rewrite request true (last_by_key current_key (rewrites w))) desired) w =
    (Ok tt, w') ∧ added (rewrites w) desired (rewrites w').
Proof.
  intros Hdes Hcur.
  destruct (run_for_each handler (write_rewrite request true (last_by_key current_key (rewrites w)))
    (λ rest w', ∃ reached, desired = reached ++ rest ∧ added (rewrites w) reached (rewrites w')) desired w)
    as (w' & E & reached & -> & Ha).
  - exists []. repeat split; [done|done|by intros ? ?%not_elem_of_nil|by left].
  - intros d rest w1 (reached & -> & Ha). apply not_reached in Hdes as Hd.
    destruct (run_write _ _ _ _ Ha Hd) as (w' & E & H). exists w'. split; [done|].
    exists (reached ++ [d]). by rewrite <- app_assoc.
  - rewrite app_nil_r in *. by exists w'.
Qed.

Lemma run_deletes current desired w : NoDup (current_key <$> current) →
  added current desired (rewrites w) →
  ∃ w', run handler (for_each (delete_rewrite request (desired_key <$> desired)) current) w = (Ok tt, w') ∧
    deleting desired [] (rewrites w') ∧ origin current desired (rewrites w').
Proof.
  intros Hcur (Hnd & Hkeep & Hm & Hall).
  apply (run_for_each handler _ (λ rest w', deleting desired rest (rewrites w') ∧ origin current desired (rewrites w'))).
  - split; [|done]. split_and!; [done|by eapply NoDup_fmap_1|done..|].
    intros r Hr. apply (origin_key _ _ _ _ Hall) in Hr as [?|?]; auto.
  - intros r rest w1 [Hw Ho].
    apply (run_only_if _ _ w1 (λ w', deleting desired rest (rewrites w') ∧ origin current desired (rewrites w'))).
    + intros Hk%negb_true_iff%bool_decide_eq_false. destruct (deleting_removed _ _ _ _ Hw Hk) as [Hr Hd].
      destruct (api_delete w1 r Hr) as (w' & E & Hw'). exists w'. rewrite Hw'. split_and!; [done|done|].
      intros x (Hx & _)%elem_of_without. by apply Ho.
    + intros Hk%negb_false_iff%bool_decide_eq_true. split; [by apply (deleting_kept _ r)|done].
Qed.

(** The desired rewrites and no others. *)
Lemma deleted_exact desired l : deleting desired [] l → NoDup (desired_key <$> desired) →
  (λ r, (current_key r, rewrite_enabled r)) <$> l ≡ₚ (λ d, (desired_key d, Rewrite_Enabled d)) <$> desired.
Proof.
  intros (Hnd & _ & Hm & _ & Hall) Hdes. apply NoDup_Permutation.
  - apply (NoDup_fmap_1 fst). by rewrite <- list_fmap_compose.
  - apply (NoDup_fmap_1 fst). by rewrite <- list_fmap_compose.
  - intros x. rewrite !list_elem_of_fmap. split.
    + intros (r & -> & Hr). destruct (Hall r Hr) as [(d & E & Hd)%list_elem_of_fmap|H]; [|by apply not_elem_of_nil in H].
      exists d. split; [|done]. destruct (Hm d Hd) as (r' & Hr' & Ek & He).
      assert (r = r') as <- by (apply (key_inj l); [done..|congruence]). congruence.
    + intros (d & -> & Hd). destruct (Hm d Hd) as (r & Hr & Ek & He). exists r. by rewrite Ek, He.
Qed.

(** No rewrite of the node differs from a desired one in case only. *)
Definition same_case (current : list rewriteResponse) (desired : list Rewrite) : Prop :=
  ∀ r d, r ∈ current → d ∈ desired → current_key r = desired_key d →
    rewriteResponse_Domain r = Rewrite_Domain d ∧ rewriteResponse_Answer r = Rewrite_Answer d.

Definition entry_of (r : rewriteResponse) : string * string * bool :=
  (rewriteResponse_Domain r, rewriteResponse_Answer r, rewrite_enabled r).
Definition entry_for (d : Rewrite) : string * string * bool :=
  (Rewrite_Domain d, Rewrite_Answer d, Rewrite_Enabled d).

Lemma NoDup_entries {A} (entry : A → string * string * bool) (key : A → string) (l : list A) :
  (∀ x, key x = rewrite_key (entry x).1.1 (entry x).1.2) → NoDup (key <$> l) → NoDup (entry <$> l).
Proof.
  intros Hkey H. apply (NoDup_fmap_1 (λ e, rewrite_key e.1.1 e.1.2)). rewrite <- list_fmap_compose.
  by rewrite (list_fmap_ext _ key) by (intros; cbn; by rewrite Hkey).
Qed.

Lemma desired_inj (l : list Rewrite) d d' : NoDup (desired_key <$> l) → d ∈ l → d' ∈ l →
  desired_key d = desired_key d' → d = d'.
Proof.
  intros Hl (i & Hi)%list_elem_of_lookup (j & Hj)%list_elem_of_lookup E.
  assert (i = j) as <-; [|congruence]. eapply NoDup_lookup; [exact Hl|..].
  - by rewrite list_lookup_fmap, Hi.
  - by rewrite list_lookup_fmap, Hj, E.
Qed.

Lemma entries_exact current desired l : deleting desired [] l → origin current desired l →
  NoDup (desired_key <$> desired) → same_case current desired →
  entry_of <$> l ≡ₚ entry_for <$> desired.
Proof.
  intros (Hnd & _ & Hm & _ & Hall) Ho Hdes Hcase.
  assert (Hsame : ∀ r d, r ∈ l → d ∈ desired → current_key r = desired_key d →
    rewrite_enabled r = Rewrite_Enabled d → entry_of r = entry_for d).
  { intros r d Hr Hd Ek He. unfold entry_of, entry_for. rewrite He.
    destruct (Ho r Hr) as [Hc|(d' & Hd' & ->)]; [by destruct (Hcase r d Hc Hd Ek) as [-> ->]|].
    by rewrite (desired_inj desired d d'). }
  apply NoDup_Permutation.
  - by apply (NoDup_entries _ current_key).
  - by apply (NoDup_entries _ desired_key).
  - intros x. rewrite !list_elem_of_fmap. split.
    + intros (r & -> & Hr). destruct (Hall r Hr) as [(d & E & Hd)%list_elem_of_fmap|H]; [|by apply not_elem_of_nil in H].
      destruct (Hm d Hd) as (r' & Hr' & Ek & He).
      assert (r = r') as <- by (apply (key_inj l); [done..|congruence]). exists d. auto.
    + intros (d & -> & Hd). destruct (Hm d Hd) as (r & Hr & Ek & He). exists r. by rewrite (Hsame r d).
Qed.

(** C37: the rewrites of a node with the settings endpoint converge in one run, up to case: whatever
    rewrites it has, after [reconcileRewrites] they are the desired ones, each with its enabled flag, and
    no others, when domains and answers are compared up to case; neither the node nor the document may
    have the same one twice in this sense.  They are exactly the desired ones when no rewrite of the node
    differs from a desired one in case only: the adapter takes such a rewrite for the desired one and
    leaves it as it is. *)
Theorem rewrites_converge w enabled desired :
  NoDup (current_key <$> rewrites w) → NoDup (desired_key <$> elems desired) →
  ∃ w', run handler (reconcileRewrites request enabled desired) w = (Ok tt, w') ∧
    (λ r, (current_key r, rewrite_enabled r)) <$> rewrites w' ≡ₚ
    (λ d, (desired_key d, Rewrite_Enabled d)) <$> elems desired ∧
    (same_case (rewrites w) (elems desired) →
     entry_of <$> rewrites w' ≡ₚ entry_for <$> elems desired).
Proof.
  intros Hcur Hdes. unfold reconcileRewrites.
  destruct (api_list w) as (w1 & E1 & H1). rewrite (run_ok _ _ _ _ _ _ E1). cbn [elems].
  destruct (api_settings w1) as (w2 & settings & E2 & H2). rewrite (run_ok _ _ _ _ _ _ E2).
  destruct (api_switch w2 enabled) as (w3 & E3 & H3).
  change (bool_of_pointer (Some settings)) with true. rewrite (run_ok _ _ _ _ _ _ E3).
  assert (Hw3 : rewrites w3 = rewrites w) by congruence. rewrite <- Hw3 in *.
  destruct (run_adds (elems desired) w3) as (w4 & E4 & H4); [done..|].
  rewrite (run_ok _ _ _ _ _ _ E4).
  destruct (run_deletes (rewrites w3) (elems desired) w4) as (w5 & E5 & H5 & Ho); [done..|].
  exists w5. split_and!; [exact E5|by apply deleted_exact|]. by eapply entries_exact.
Qed.
End api.
