(* ===== verification/NodeWitness.v ===== *)
(** * A node that answers

    A simulated node: it serves its rewrites and answers every other read with the
    empty object; it accepts a number of changes and refuses the next one.  The
    theorems on the adapter are applied to runs against it. *)

From S2P Require Import Prelude GoRuntime Json Domain Compat Configuration ConfigDiff ConfigValidate Effects.
From S2P Require Import Wire NodeHttp NodePayloads NodeReader NodeWriter NodeSpec NodeConverge.

#[local] Existing Instance ascii_runtime.
#[local] Existing Instance key_order.

(** URLs are the base URL followed by the path. *)
Definition plain_node_runtime : NodeRuntime := {|
  url_WithPath base path := base +:+ path;
  url_WithQuery url query := url;
  url_WithHost url scheme host := scheme +:+ "://" +:+ host;
  uni_Fields s := [s];
  NewRequest url := None;
  AppendCertsFromPEM pem := negb (pem =?? "");
  Quote s := s;
  unmarshal_error A U j := "json: cannot unmarshal";
  unmarshal_time s := None;
  parse_RFC3339 s := None;
  format_RFC3339Nano t := itoa t
|}.
#[local] Existing Instance plain_node_runtime.

Definition node_request : NodeProbeRequest :=
  mkNodeProbeRequest "https://node" "system" "" (mkNodeCredentials "admin" "secret").

(** ** The rewrites of a node *)

Definition entry_payload (r : rewriteResponse) : list (string * json) :=
  [("domain", JStr (rewriteResponse_Domain r)); ("answer", JStr (rewriteResponse_Answer r));
   ("enabled", of_pointer JBool (rewriteResponse_Enabled r))].

Definition entry_json (r : rewriteResponse) : json := marshal (payload (entry_payload r)).

Definition answer (body : json) : HTTPOutcome := Responded 200 "application/json" (ReadBody 0 (inl body)).

Definition decoded_entry (body : json) : rewriteResponse := default zero_value (unmarshal body zero_value).

(** The target and the new entry of an update. *)
Definition update_fields (fs : list (string * json)) (cur : rewriteResponse * rewriteResponse) :
  option (rewriteResponse * rewriteResponse) :=
  old ← field fs "target" cur.1; new ← field fs "update" cur.2; Some (old, new).

Definition update_of (body : json) : rewriteResponse * rewriteResponse :=
  default (zero_value, zero_value) (in_object update_fields body (zero_value, zero_value)).

Definition change (url : string) (body : json) (l : list rewriteResponse) : list rewriteResponse :=
  if String.eqb url "https://node/control/rewrite/add" then l ++ [decoded_entry body]
  else if String.eqb url "https://node/control/rewrite/update" then
    (λ r, if same_entry (update_of body).1 r then (update_of body).2 else r) <$> l
  else if String.eqb url "https://node/control/rewrite/delete" then
    List.filter (λ r, negb (same_entry (decoded_entry body) r)) l
  else l.

Definition respond (r : HTTPRequest) (l : list rewriteResponse) : HTTPOutcome * list rewriteResponse :=
  if String.eqb (HTTP_Method r) MethodGet then
    (if String.eqb (HTTP_URL r) "https://node/control/rewrite/list"
     then answer (JArr (entry_json <$> l)) else answer (JObj []), l)
  else (answer JNull, change (HTTP_URL r) (default JNull (HTTP_Body r)) l).

Definition willing (X : Type) (e : http X) (l : list rewriteResponse) : X * list rewriteResponse :=
  match e in http X return X * list rewriteResponse with
  | Do r => respond r l
  | Clock => (0, l)
  end.

(** A node that refuses every change after the first [n]. *)
Definition refusing (X : Type) (e : http X) (n : nat) : X * nat :=
  match e in http X return X * nat with
  | Do r =>
      if String.eqb (HTTP_Method r) MethodGet then (answer (JObj []), n)
      else match n with
           | O => (Responded 500 "text/plain" (ReadBody 0 (inr "")), n)
           | S n => (answer JNull, n)
           end
  | Clock => (0, n)
  end.

(** ** The laws of the rewrite API *)

Ltac decode H :=
  unfold field, pointer_field, field_with; repeat (rewrite H by (vm_compute; reflexivity));
  cbn [app assoc String.eqb Ascii.eqb Bool.eqb option_list option_rect foldl mbind option_bind].

Lemma entry_decoded r : unmarshal (entry_json r) zero_value = Some r.
Proof.
  apply in_object_payload. intros fs H. decode H. by destruct r as [d a [e|]].
Qed.

Lemma target_decoded r :
  unmarshal (rewrite_target r) zero_value =
  Some (mkrewriteResponse (rewriteResponse_Domain r) (rewriteResponse_Answer r) None).
Proof. apply in_object_payload. intros fs H. by decode H. Qed.

Lemma added_decoded item : unmarshal (marshal (rewrite_payload true item)) zero_value = Some (added_rewrite item).
Proof.
  unfold rewrite_payload. rewrite payload_insert. apply in_object_payload. intros fs H. by decode H.
Qed.

Lemma update_decoded old item :
  update_of (marshal (payload [("target", rewrite_target old); ("update", marshal (rewrite_payload true item))])) =
  (mkrewriteResponse (rewriteResponse_Domain old) (rewriteResponse_Answer old) None, added_rewrite item).
Proof.
  unfold update_of. rewrite (in_object_payload _ _ _ (Some (mkrewriteResponse (rewriteResponse_Domain old)
    (rewriteResponse_Answer old) None, added_rewrite item))); [done|].
  intros fs H. unfold update_fields. decode H. cbn [fst snd]. rewrite target_decoded, added_decoded. reflexivity.
Qed.

Lemma list_decoded l : unmarshal (JArr (entry_json <$> l)) zero_value = Some (Some l).
Proof.
  cbn [unmarshal slice_Unmarshal]. erewrite mapM_Some_2; [done|].
  induction l as [|r l IH]; cbn; constructor; [apply entry_decoded|done].
Qed.

Section node_runs.
Context {W : Type} (handler : ∀ X, http X → W → X * W).

Definition get_request (path : string) : HTTPRequest :=
  mkHTTPRequest MethodGet ("https://node" +:+ path) (mkNodeCredentials "admin" "secret") None None.
Definition send_request (method path : string) (body : json) : HTTPRequest :=
  mkHTTPRequest method ("https://node" +:+ path) (mkNodeCredentials "admin" "secret") (Some body) None.

(** The request of the node, up to the outcome. *)
Lemma open_plain path method create body :
  open_request node_request (configurationEndpoint (Request_BaseURL node_request) path) method create body =
  (do outcome <- call (Do (mkHTTPRequest method ("https://node" +:+ path)
                             (mkNodeCredentials "admin" "secret") body None));
   match outcome with
   | Failed e => fail (classifyNetworkError e)
   | Responded status contentType body =>
       if (status =? StatusUnauthorized) || (status =? StatusForbidden)
       then fail rejected_credentials else done_with (status, contentType, body)
   end).
Proof. reflexivity. Qed.

Lemma run_get {A} {U : Unmarshal A} path j (a : A) w w' :
  handler _ (Do (get_request path)) w = (answer j, w') → unmarshal j zero_value = Some a →
  run handler (get node_request path) w = (Ok a, w').
Proof.
  intros H E. unfold get, getResource. rewrite open_plain. unfold run, get_request in *.
  cbn -[unmarshal String.app] in *. rewrite H. cbn -[unmarshal]. by rewrite E.
Qed.

Lemma run_send method path body w w' :
  handler _ (Do (send_request method path body)) w = (answer JNull, w') →
  run handler (send node_request method path (Some body)) w = (Ok tt, w').
Proof.
  intros H. unfold send. rewrite open_plain. unfold run, send_request in *.
  cbn -[String.app] in *. by rewrite H.
Qed.
End node_runs.

#[local] Instance willing_API : RewriteAPI node_request willing (λ l, l).
Proof.
  split.
  - intros l. exists l. split; [|done]. eapply run_get; [reflexivity|apply list_decoded].
  - intros l. exists l, zero_value. split; reflexivity.
  - intros l enabled. exists l. split; reflexivity.
  - intros l item. exists (l ++ [decoded_entry (marshal (rewrite_payload true item))]).
    split; [by apply run_send|]. unfold decoded_entry. by rewrite added_decoded.
  - intros l old item Ho.
    set (body := marshal (payload [("target", rewrite_target old); ("update", _)])).
    exists ((λ r, if same_entry (update_of body).1 r then (update_of body).2 else r) <$> l).
    split; [by apply run_send|]. unfold body. by rewrite update_decoded.
  - intros l old Ho. exists (List.filter (λ r, negb (same_entry (decoded_entry (rewrite_target old)) r)) l).
    split; [by apply run_send|]. unfold decoded_entry. by rewrite target_decoded.
Qed.

(** ** The theorems on a run *)

Definition old_rewrites : list rewriteResponse :=
  [mkrewriteResponse "nas.lan" "10.0.0.8" (Some false); mkrewriteResponse "old.lan" "10.0.0.7" None].
Definition new_rewrites : slice Rewrite :=
  Some [mkRewrite "printer.lan" "10.0.0.9" true; mkRewrite "NAS.lan" "10.0.0.8" true].

(** The node has [nas.lan] where the document has [NAS.lan]: the rewrites agree up to case.  For the other
    document they agree exactly. *)
Lemma rewrites_converge_witness :
  (∃ l, run willing (reconcileRewrites node_request true new_rewrites) old_rewrites = (Ok tt, l) ∧
    (λ r, (current_key r, rewrite_enabled r)) <$> l ≡ₚ
    [(rewrite_key "printer.lan" "10.0.0.9", true); (rewrite_key "nas.lan" "10.0.0.8", true)]) ∧
  (∃ l, run willing (reconcileRewrites node_request true (Some [mkRewrite "nas.lan" "10.0.0.8" true])) old_rewrites =
      (Ok tt, l) ∧ entry_of <$> l ≡ₚ [("nas.lan", "10.0.0.8", true)]).
Proof.
  split.
  - destruct (rewrites_converge node_request willing (λ l, l) old_rewrites true new_rewrites) as (l & Hl & Hk & _);
      [apply (bool_decide_eq_true (NoDup _)); vm_compute; reflexivity..|].
    exists l. split; [exact Hl|exact Hk].
  - destruct (rewrites_converge node_request willing (λ l, l) old_rewrites true
      (Some [mkRewrite "nas.lan" "10.0.0.8" true])) as (l & Hl & _ & He);
      [apply (bool_decide_eq_true (NoDup _)); vm_compute; reflexivity..|].
    exists l. split; [exact Hl|]. apply He. intros r d Hr Hd E.
    apply list_elem_of_singleton in Hd as ->.
    cbv beta in Hr. unfold old_rewrites in Hr. rewrite !elem_of_cons in Hr.
    destruct Hr as [->|[->|Hr]]; [clear E; split; reflexivity| |destruct (not_elem_of_nil _ Hr)].
    exfalso. revert E. apply (bool_decide_eq_false (_ = _)). vm_compute. reflexivity.
Defined.

Definition with_rewrite (domain : string) : Document :=
  let s := Document_Shared sample_document in
  mkDocument 2 (mkShared (Shared_DNS s) (Shared_Filtering s) (Shared_Clients s) true
    (Some [mkRewrite domain "10.0.0.9" true]) (Shared_Services s) (Shared_QueryLog s) (Shared_Statistics s))
    (Document_NodeSpecific sample_document) (Document_ObservedOnly sample_document) None.

(** A rewrite whose case differs from the desired one is never written, and is a
    difference after every run. *)
Lemma rewrite_case_never_converges :
  let stored := [mkrewriteResponse "printer.lan" "10.0.0.9" (Some true)] in
  run willing (reconcileRewrites node_request true (Some [mkRewrite "Printer.lan" "10.0.0.9" true])) stored =
    (Ok tt, stored) ∧
  Diff (with_rewrite "printer.lan") (with_rewrite "Printer.lan") ≠ [].
Proof. split; [vm_compute; reflexivity|]. vm_compute. discriminate. Qed.

Definition applying (n : nat) : res unit * nat * list (event http) :=
  interp refusing (Writer_ApplyConfiguration node_request sample_document) n.

Lemma applying_traces n :
  traces (Writer_ApplyConfiguration node_request sample_document) (applying n).2 (applying n).1.1.
Proof. unfold applying. destruct (interp _ _ _) as [[r w] tr] eqn:E. by eapply interp_traces. Qed.

Lemma applying_refused : ∃ pre x post, exchanges (applying 2).2 = pre ++ x :: post ∧ refused x = true.
Proof.
  assert (match exchanges (applying 2).2 !! 4%nat with Some x => refused x | None => false end = true) as H
    by (vm_compute; reflexivity).
  destruct (exchanges (applying 2).2 !! 4%nat) as [x|] eqn:E; [|done].
  exists (take 4 (exchanges (applying 2).2)), x, (drop 5 (exchanges (applying 2).2)).
  split; [symmetry; by apply take_drop_middle|done].
Qed.

(** The node accepts two changes and refuses the third. *)
Lemma ApplyConfiguration_reports_refusals_witness :
  ∃ tr r, traces (Writer_ApplyConfiguration node_request sample_document) tr r ∧ is_Ok r = false ∧
    ∃ pre x, exchanges tr = pre ++ [x] ∧ refused x = true.
Proof.
  destruct applying_refused as (pre & [sent o] & post & E & Hx).
  pose proof (applying_traces 2) as Ht.
  revert E Ht. generalize (applying 2).2, (applying 2).1.1. intros tr r E Ht.
  destruct (ApplyConfiguration_reports_refusals node_request sample_document tr r Ht) as [_ H].
  destruct (H pre sent o post E Hx) as [-> Hr]. exists tr, r. eauto 6.
Defined.

Definition sample_dhcp : DHCPConfig :=
  mkDHCPConfig true "eth0" (mkDHCPIPv4 "10.0.0.1" "255.255.255.0" "10.0.0.100" "10.0.0.200" 86400)
    (mkDHCPIPv6 "" 0) None.

Definition toggles : policyResponse := mkpolicyResponse true 86400000 false None (Some true).
Definition sample_dns_info : dnsInfoResponse :=
  mkdnsInfoResponse None None None None (Some true) None 0 0 0 None "" "" "" 0 false false "" false false 0
    (Some true) 0 0 false "" false false (Some 10).

Lemma payloads_roundtrip_witness :
  read_back dns_model (dns_payload sample_dns sample_dns_info) sample_dns ∧
  read_back (λ r, (dhcp_model r, dhcpConfigurationMatches r sample_dhcp)) (dhcp_payload sample_dhcp)
    (dhcp_settings sample_dhcp, true).
Proof.
  assert (Hm : machine_shared sample_shared).
  { split_and!; try (unfold in_int64, two63; cbn; lia).
    - repeat constructor; cbn; lia || done.
    - constructor.
    - intros day period H. change (Schedule_Days _) with (∅ : gmap string DayRange) in H.
      by rewrite lookup_empty in H. }
  destruct (payloads_roundtrip sample_shared sample_dhcp sample_dns_info toggles toggles)
    as (Hdns & _ & _ & _ & _ & _ & _ & _ & _ & _ & Hd & _);
    [exact Hm|unfold in_int64, two63; cbn; lia|unfold in_int64, two63; cbn; lia|by eexists..|].
  exact (conj Hdns Hd).
Defined.
