(* ===== verification/Operations.v ===== *)
(** * internal/operations: operational commands

    The service that queues DNS commands and the executor that runs them, as programs
    over the repository, the ciphers, the nodes and the clock. *)

From S2P Require Import Prelude GoRuntime Json Domain ControlModel OperationsModel Effects ControlEffects.

(** ** Interfaces *)

(** The interfaces of the control plane, and those of this package. *)
Inductive opctl : Type → Type :=
| Core {X : Type} (e : ctl X) : opctl X
| Repo_CreateOperationalCommand (operation : Operation) (event : AuditEvent) : opctl (res (Operation * bool))
| Repo_OperationalCommandByID (id : string) : opctl (res Operation)
| Repo_ListOperationalCommands (clusterID command : string) (limit : Z) : opctl (res (list Operation))
(* [None]: domain.ErrNoWork *)
| Repo_ClaimOperationalCommand (at_ : Time) : opctl (res (option Operation))
| Repo_RunningOperationalCommands : opctl (res (list Operation))
| Repo_UpdateOperationalCommandNode (commandID : string) (result : NodeResult) : opctl (res unit)
| Repo_FinishOperationalCommand (operation : Operation) (event : AuditEvent) : opctl (res unit)
| EncryptPayload (id body : string) : opctl (res EncryptedPayload)
| DecryptPayload (id : string) (payload : EncryptedPayload) : opctl (res string)
| Exec_TestUpstreamDNS (request : NodeProbeRequest) (input : UpstreamInput) : opctl (res (slice ResolverResult))
| Exec_TestHostFiltering (request : NodeProbeRequest) (input : HostFilterInput) : opctl (res HostFilterResult)
| Exec_ClearDNSCache (request : NodeProbeRequest) : opctl (res unit)
| Exec_ClearQueryLog (request : NodeProbeRequest) : opctl (res unit)
| Exec_ResetStatistics (request : NodeProbeRequest) : opctl (res unit)
(* ctx.Err() *)
| ContextErr : opctl (option error).

Abbreviation operation_prog := (prog opctl).

Definition core {X} (e : ctl X) : operation_prog X := call (Core e).

(** The error of [json.Unmarshal] on a text, and its tree. *)
Class JSONText := { json_parse : string → json + string }.

(** ** Requests *)

Inductive CommandInput :=
  | UpstreamCommand (input : UpstreamInput)
  | HostFilterCommand (input : HostFilterInput)
  | NoInput.

Definition input_json (input : CommandInput) : json :=
  match input with
  | UpstreamCommand i =>
      JObj [("draftVersion", JNum (UpstreamInput_DraftVersion i));
            ("upstreamDns", of_strings (UpstreamInput_UpstreamDNS i));
            ("bootstrapDns", of_strings (UpstreamInput_BootstrapDNS i));
            ("fallbackDns", of_strings (UpstreamInput_FallbackDNS i));
            ("privateReverseDns", of_strings (UpstreamInput_PrivateReverseDNS i));
            ("upstreamMode", JStr (UpstreamInput_UpstreamMode i));
            ("usePrivateReverseResolvers", JBool (UpstreamInput_UsePrivateReverseResolvers i))]
  | HostFilterCommand i =>
      JObj ([("hostname", JStr (HostFilterInput_Hostname i))] ++
            omitempty (HostFilterInput_Client i =?? "") "client" (JStr (HostFilterInput_Client i)) ++
            omitempty (HostFilterInput_QueryType i =?? "") "queryType" (JStr (HostFilterInput_QueryType i)))
  | NoInput => JObj []
  end.

Definition target_json (target : Target) : json :=
  JObj ([("scope", JStr (Target_Scope target))] ++
        omitempty (Target_NodeID target =?? "") "nodeId" (JStr (Target_NodeID target))).

(* src/internal/operations/service.go:233-240 supportedCommand *)
Definition supportedCommand (command : string) : bool :=
  (command =?? CommandTestUpstreamDNS) || (command =?? CommandTestHostFiltering) ||
  (command =?? CommandClearDNSCache) || (command =?? CommandClearQueryLog) ||
  (command =?? CommandResetStatistics).

(* src/internal/operations/service.go:308-321 commandAuditPrefix *)
Definition commandAuditPrefix (command : string) : string :=
  if command =?? CommandTestUpstreamDNS then "dns.test_upstream"
  else if command =?? CommandTestHostFiltering then "filtering.test_host"
  else if command =?? CommandClearQueryLog then "querylog.clear"
  else if command =?? CommandResetStatistics then "statistics.reset"
  else "dns.cache_clear".

Definition query_types : list string :=
  ["A"; "AAAA"; "ANY"; "CAA"; "CNAME"; "DNSKEY"; "DS"; "HTTPS"; "MX"; "NS"; "PTR"; "SOA"; "SRV"; "SVCB"; "TXT"].

Section service.
Context {R : Runtime}.

(** The trimmed input, or the field that is invalid. *)
(* src/internal/operations/service.go:242-259 validateHostFilterInput *)
Definition validateHostFilterInput (input : HostFilterInput) : res HostFilterInput :=
  let hostname := TrimSpace (HostFilterInput_Hostname input) in
  let client := TrimSpace (HostFilterInput_Client input) in
  let queryType := ToUpper (TrimSpace (HostFilterInput_QueryType input)) in
  let tab := String (ascii_of_nat 9) "" in
  let breaks := String (ascii_of_nat 13) (String (ascii_of_nat 10) "") in
  if (hostname =?? "") || (253 <? len hostname) || ContainsAny hostname (tab +:+ breaks +:+ " /?#")
  then Err (Validation "input.hostname" "must be a valid host name without a URL scheme or path")
  else if (256 <? len client) || ContainsAny client (breaks +:+ tab)
  then Err (Validation "input.client" "must be at most 256 characters without control characters")
  else if negb (queryType =?? "") && negb (bool_decide (queryType ∈ query_types))
  then Err (Validation "input.queryType" "is not a supported DNS query type")
  else Ok (mkHostFilterInput hostname client queryType).

(* src/internal/operations/service.go:275-278 validateUpstreamInput *)
Definition resolver_fields (input : UpstreamInput) : list (string * list string) :=
  [("input.upstreamDns", elems (UpstreamInput_UpstreamDNS input));
   ("input.bootstrapDns", elems (UpstreamInput_BootstrapDNS input));
   ("input.fallbackDns", elems (UpstreamInput_FallbackDNS input));
   ("input.privateReverseDns", elems (UpstreamInput_PrivateReverseDNS input))].

(* src/internal/operations/service.go:280-287 validateUpstreamInput *)
Definition check_resolvers (field : string) (values : list string) : res unit :=
  if 64 <? Z.of_nat (length values)
  then Err (Validation field "must not contain more than 64 entries")
  else if existsb (λ value, (TrimSpace value =?? "") || (2048 <? len value)) values
  then Err (Validation field "contains an empty or oversized resolver entry")
  else Ok tt.

(** The four lists are checked in the order of a map literal, which is not specified:
    [fields] is that order. *)
(* src/internal/operations/service.go:275-288 validateUpstreamInput *)
Fixpoint check_fields (fields : list (string * list string)) : res unit :=
  match fields with
  | [] => Ok tt
  | (field, values) :: rest => let? _ := check_resolvers field values in check_fields rest
  end.

(* src/internal/operations/service.go:261-293 validateUpstreamInput *)
Definition validateUpstreamInput {M : MapOrder} (input : UpstreamInput) : res unit :=
  let mode := if UpstreamInput_UpstreamMode input =?? "" then "load_balance"
              else UpstreamInput_UpstreamMode input in
  if UpstreamInput_DraftVersion input <? 1
  then Err (Validation "input.draftVersion" "must be a positive integer")
  else if negb (mode =?? "load_balance") && negb (mode =?? "parallel") && negb (mode =?? "fastest_addr")
  then Err (Validation "input.upstreamMode" "must be load_balance, parallel, or fastest_addr")
  else if bool_decide (elems (UpstreamInput_UpstreamDNS input) = [])
  then Err (Validation "input.upstreamDns" "must contain at least one upstream")
  else
    let? _ := check_fields (map_range (list_to_map (resolver_fields input))) in
    if 128 <? Z.of_nat (sum_list (length <$> (resolver_fields input).*2))
    then Err (Validation "input" "must not contain more than 128 resolver entries")
    else Ok tt.

(** ** The targets of a command *)

(* src/internal/operations/service.go:101-114 Service.start *)
Definition command_feature (command : string) (input : CommandInput) : string :=
  if command =?? CommandClearDNSCache then "cache_clear"
  else if command =?? CommandTestHostFiltering then
    match input with
    | HostFilterCommand host =>
        if negb (HostFilterInput_Client host =?? "") || negb (HostFilterInput_QueryType host =?? "")
        then "test_host_filtering_context" else "test_host_filtering"
    | _ => "test_host_filtering"
    end
  else if command =?? CommandClearQueryLog then "querylog_clear"
  else if command =?? CommandResetStatistics then "stats_reset"
  else "test_upstream_dns".

(** The features a profile has; a missing key of the map is false. *)
Definition has_feature (profile : CapabilityProfile) (feature : string) : bool :=
  default false (CapabilityProfile_Features profile !! feature).

(* src/internal/operations/service.go:129-134 Service.start *)
Definition exclusion (profiles : gmap string CapabilityProfile) (feature : string) (node : Node) : string :=
  if Node_MaintenanceMode node then "NODE_IN_MAINTENANCE"
  else match profiles !! Node_ID node with
  | None => ErrorCapability
  | Some profile =>
      if negb (CapabilityProfile_Compatibility profile =?? CompatibilitySupported) ||
         negb (CapabilityProfile_ProductVersion profile =?? Node_Version node) ||
         negb (has_feature profile feature)
      then ErrorCapability else ""
  end.

Record Selection := mkSelection {
  Selection_Selected : list Node;
  Selection_Excluded : list ExcludedNode;
  Selection_Found : bool
}.

(** The loop over the nodes of the cluster. *)
(* src/internal/operations/service.go:117-146 Service.start *)
Fixpoint select_nodes (target : Target) (profiles : gmap string CapabilityProfile) (feature : string)
  (nodes : list Node) (acc : Selection) : res Selection :=
  match nodes with
  | [] => Ok acc
  | node :: rest =>
      let single := Target_Scope target =?? "node" in
      if single && negb (Node_ID node =?? Target_NodeID target)
      then select_nodes target profiles feature rest acc
      else if negb (Node_Enabled node) then
        if single then Err (NewError ErrorConflict "operational commands require an enabled node")
        else select_nodes target profiles feature rest
               (mkSelection (Selection_Selected acc) (Selection_Excluded acc) true)
      else
        let code := exclusion profiles feature node in
        if negb (code =?? "") then
          if single then
            if code =?? "NODE_IN_MAINTENANCE"
            then Err (NewError ErrorConflict "operational commands are unavailable while the node is in maintenance")
            else Err (NewError ErrorCapability "the selected node does not support this operational command")
          else select_nodes target profiles feature rest
                 (mkSelection (Selection_Selected acc)
                    (Selection_Excluded acc ++ [mkExcludedNode (Node_ID node) (Node_Name node) code]) true)
        else select_nodes target profiles feature rest
               (mkSelection (Selection_Selected acc ++ [node]) (Selection_Excluded acc) true)
  end.

(* src/internal/operations/service.go:70-84 Service.start *)
Definition check_target (clusterID idempotencyKey : string) (target : Target) : res unit :=
  if negb (ValidID clusterID) then Err (Validation "clusterId" "must be a valid UUID")
  else if negb (ValidID idempotencyKey) then Err (Validation "idempotencyKey" "must be a valid UUID")
  else if negb (Target_Scope target =?? "node") && negb (Target_Scope target =?? "all_compatible_enabled_nodes")
  then Err (Validation "target.scope" "must be node or all_compatible_enabled_nodes")
  else if (Target_Scope target =?? "node") && negb (ValidID (Target_NodeID target))
  then Err (Validation "target.nodeId" "must be a valid UUID for node scope")
  else if negb (Target_Scope target =?? "node") && negb (Target_NodeID target =?? "")
  then Err (Validation "target.nodeId" "must be omitted for fleet scope")
  else Ok tt.

(** ** Starting a command *)

(* src/internal/operations/service.go:295-306 operationAudit *)
Definition operationAudit (actor : Actor) (action : string) (operation : Operation)
  (extra : list (string * json)) (at_ : Time) : operation_prog (res AuditEvent) :=
  try id <- core GenerateID;
  done_with (mkAuditEvent id "user" (Some (Actor_UserID actor)) "" action "operational_command"
    (Some (Operation_ID operation)) (Actor_RequestID actor)
    (JObj ([("clusterId", JStr (Operation_ClusterID operation)); ("command", JStr (Operation_Command operation));
            ("operationId", JStr (Operation_ID operation))] ++ extra)) at_ "" "").

(* src/internal/operations/service.go:183-183 Service.start *)
Definition pending_result (id : string) (node : Node) (position : Z) : NodeResult :=
  mkNodeResult id (Node_ID node) (Node_Name node) position "pending" "" None None "" "" "" None None.

(** One result for each selected node, numbered from [position]. *)
(* src/internal/operations/service.go:178-184 Service.start *)
Fixpoint pending_results (position : Z) (nodes : list Node) : operation_prog (res (list NodeResult)) :=
  match nodes with
  | [] => done_with []
  | node :: rest =>
      try id <- core GenerateID;
      try results <- pending_results (position + 1) rest;
      done_with (pending_result id node position :: results)
  end.

Definition no_payload : EncryptedPayload := mkEncryptedPayload "" "" 0 "".

(* src/internal/operations/service.go:172-177 Service.start *)
Definition queued_operation (id clusterID clusterName command : string) (target : Target) (actor : Actor)
  (key fingerprint : string) (payload : EncryptedPayload) (now : Time) (results : list NodeResult)
  (excluded : list ExcludedNode) : Operation :=
  mkOperation id clusterID clusterName command target "queued" (Actor_RequestID actor) key (Actor_UserID actor)
    fingerprint payload "" now None None (Some results) (Some excluded) false.

(* src/internal/operations/service.go:200-200 Service.start *)
Definition as_duplicate (o : Operation) : Operation :=
  mkOperation (Operation_ID o) (Operation_ClusterID o) (Operation_ClusterName o) (Operation_Command o)
    (Operation_Target o) (Operation_Status o) (Operation_RequestID o) (Operation_IdempotencyKey o)
    (Operation_RequestedBy o) (Operation_InputFingerprint o) (Operation_Payload o) (Operation_AuditReference o)
    (Operation_RequestedAt o) (Operation_StartedAt o) (Operation_CompletedAt o) (Operation_NodeResults o)
    (Operation_ExcludedNodes o) true.

#[global] Instance Target_eq_dec : EqDecision Target.
Proof. solve_decision. Defined.

(** [hex.EncodeToString(sha256.Sum256(...))] of the command, its target and its input. *)
(* src/internal/operations/service.go:165-170 Service.start *)
Definition fingerprint (command : string) (target : Target) (input : CommandInput) : string :=
  sha256_hex (json_print (JObj [("command", JStr command); ("target", target_json target);
                                ("input", input_json input)])).

(** The answer to a request whose idempotency key is taken. *)
(* src/internal/operations/service.go:196-203 Service.start *)
Definition duplicate (clusterID command : string) (target : Target) (print : string) (stored : Operation) :
  res Operation :=
  if negb (Operation_ClusterID stored =?? clusterID) || negb (Operation_Command stored =?? command) ||
     negb (Operation_Target stored =?? target) || negb (Operation_InputFingerprint stored =?? print)
  then Err (NewError ErrorConflict "the idempotency key is already used for another operation")
  else Ok (as_duplicate stored).

(* src/internal/operations/service.go:69-204 Service.start *)
Definition start (actor : Actor) (clusterID : string) (target : Target) (command : string)
  (input : CommandInput) (idempotencyKey : string) : operation_prog (res Operation) :=
  try _ <- Ret (check_target clusterID idempotencyKey target);
  try cluster <- core (Repo_ClusterByID clusterID);
  try nodes <- core (Repo_ListNodes clusterID);
  try profiles <- core (Repo_CapabilityProfiles clusterID);
  let profileByNode := last_by_key CapabilityProfile_NodeID profiles in
  try selection <- Ret (select_nodes target profileByNode (command_feature command input) nodes
    (mkSelection [] [] (negb (Target_Scope target =?? "node"))));
  let selected := Selection_Selected selection in
  let excluded := Selection_Excluded selection in
  try _ <- guard (Selection_Found selection) (NewError ErrorNotFound "node was not found in the cluster");
  try _ <- guard (negb (bool_decide (length selected = 0%nat)))
    (NewError ErrorCapability "no compatible enabled nodes are available for this command");
  try operationID <- core GenerateID;
  try encrypted <- call (EncryptPayload operationID (json_print (input_json input)));
  let print := fingerprint command target input in
  do now <- core Now;
  try results <- pending_results 1 selected;
  let operation := queued_operation operationID clusterID (Cluster_Name cluster) command target actor
    idempotencyKey print encrypted now results excluded in
  try event <- operationAudit actor (commandAuditPrefix command +:+ "_requested") operation
    [("status", JStr "queued"); ("targetScope", JStr (Target_Scope target));
     ("targetCount", JNum (Z.of_nat (length selected))); ("excludedCount", JNum (Z.of_nat (length excluded)));
     ("inputFingerprint", JStr print)] now;
  try created <- call (Repo_CreateOperationalCommand operation event);
  if negb created.2 then Ret (duplicate clusterID command target print created.1)
  else done_with created.1.

(* src/internal/operations/service.go:34-39 Service.StartUpstreamTest *)
Definition StartUpstreamTest {M : MapOrder} (actor : Actor) (clusterID : string) (target : Target)
  (input : UpstreamInput) (idempotencyKey : string) : operation_prog (res Operation) :=
  try _ <- Ret (validateUpstreamInput input);
  start actor clusterID target CommandTestUpstreamDNS (UpstreamCommand input) idempotencyKey.

(* src/internal/operations/service.go:41-46 Service.StartHostFilterTest *)
Definition StartHostFilterTest (actor : Actor) (clusterID : string) (target : Target)
  (input : HostFilterInput) (idempotencyKey : string) : operation_prog (res Operation) :=
  try input <- Ret (validateHostFilterInput input);
  start actor clusterID target CommandTestHostFiltering (HostFilterCommand input) idempotencyKey.

Definition confirmed (confirmation expected : string) : operation_prog (res unit) :=
  guard (confirmation =?? expected)
    (Validation "confirmation" "does not match the required destructive action").

(* src/internal/operations/service.go:48-53 Service.StartCacheClear *)
Definition StartCacheClear (actor : Actor) (clusterID : string) (target : Target)
  (confirmation idempotencyKey : string) : operation_prog (res Operation) :=
  try _ <- confirmed confirmation ClearDNSCacheConfirmation;
  start actor clusterID target CommandClearDNSCache NoInput idempotencyKey.

(* src/internal/operations/service.go:55-60 Service.StartQueryLogClear *)
Definition StartQueryLogClear (actor : Actor) (clusterID : string) (target : Target)
  (confirmation idempotencyKey : string) : operation_prog (res Operation) :=
  try _ <- confirmed confirmation ClearQueryLogConfirmation;
  start actor clusterID target CommandClearQueryLog NoInput idempotencyKey.

(* src/internal/operations/service.go:62-67 Service.StartStatisticsReset *)
Definition StartStatisticsReset (actor : Actor) (clusterID : string) (target : Target)
  (confirmation idempotencyKey : string) : operation_prog (res Operation) :=
  try _ <- confirmed confirmation ResetStatisticsConfirmation;
  start actor clusterID target CommandResetStatistics NoInput idempotencyKey.

(* src/internal/operations/service.go:206-218 Service.Operation *)
Definition Service_Operation (id : string) : operation_prog (res Operation) :=
  try _ <- guard (ValidID id) (Validation "operationId" "must be a valid UUID");
  try operation <- call (Repo_OperationalCommandByID id);
  try _ <- guard (supportedCommand (Operation_Command operation))
    (NewError ErrorNotFound "operational command was not found");
  done_with operation.

(* src/internal/operations/service.go:220-231 Service.List *)
Definition Service_List (clusterID command : string) (limit : Z) : operation_prog (res (list Operation)) :=
  try _ <- guard (ValidID clusterID) (Validation "clusterId" "must be a valid UUID");
  try _ <- guard ((command =?? "") || supportedCommand command)
    (Validation "command" "is not a supported operational command");
  try _ <- guard ((1 <=? limit) && (limit <=? 20)) (Validation "limit" "must be between 1 and 20");
  call (Repo_ListOperationalCommands clusterID command limit).
End service.
