(* ===== verification/OperationsExecutor.v ===== *)
(** * internal/operations/executor.go: the executor of operational commands

    Claiming a command, running it on its nodes one after the other, and failing the
    commands a restart interrupted. *)

From S2P Require Import Prelude GoRuntime Json Domain ControlModel OperationsModel Wire Effects.
From S2P Require Import ControlEffects Operations.

(** ** Results *)

(* src/internal/operations/executor.go:214-220 operationErrorCode *)
Definition operationErrorCode (e : error) : string :=
  match errors_As e with Some (kind, _) => kind | None => ErrorInternal end.

Definition with_status (status code : string) (started completed : option Time) (r : NodeResult) : NodeResult :=
  mkNodeResult (NodeResult_ID r) (NodeResult_NodeID r) (NodeResult_NodeName r) (NodeResult_Position r) status code
    (NodeResult_ResolverResults r) (NodeResult_HostFilterResult r) (NodeResult_ObservationStatus r)
    (NodeResult_ObservationSnapshotID r) (NodeResult_ObservationErrorCode r) started completed.

(* src/internal/operations/executor.go:107-107 CommandExecutor.RunOnce *)
Definition running_result (now : Time) (r : NodeResult) : NodeResult :=
  with_status "running" (NodeResult_ErrorCode r) (Some now) (NodeResult_CompletedAt r) r.

(* src/internal/operations/executor.go:143-143 CommandExecutor.RunOnce *)
Definition failed_result (code : string) (now : Time) (r : NodeResult) : NodeResult :=
  with_status "failed" code (NodeResult_StartedAt r) (Some now) r.

(* src/internal/operations/executor.go:146-146 CommandExecutor.RunOnce *)
Definition succeeded_result (now : Time) (r : NodeResult) : NodeResult :=
  with_status "succeeded" (NodeResult_ErrorCode r) (NodeResult_StartedAt r) (Some now) r.

(** What a command returns: resolver results or a host-filter result. *)
Definition CommandResult : Type := slice ResolverResult * option HostFilterResult.

(* src/internal/operations/executor.go:121-129 CommandExecutor.RunOnce *)
Definition with_command_result (c : CommandResult) (r : NodeResult) : NodeResult :=
  mkNodeResult (NodeResult_ID r) (NodeResult_NodeID r) (NodeResult_NodeName r) (NodeResult_Position r)
    (NodeResult_Status r) (NodeResult_ErrorCode r) c.1 c.2 (NodeResult_ObservationStatus r)
    (NodeResult_ObservationSnapshotID r) (NodeResult_ObservationErrorCode r) (NodeResult_StartedAt r)
    (NodeResult_CompletedAt r).

(* src/internal/operations/executor.go:157-161 CommandExecutor.RunOnce *)
Definition with_observation (status snapshotID code : string) (r : NodeResult) : NodeResult :=
  mkNodeResult (NodeResult_ID r) (NodeResult_NodeID r) (NodeResult_NodeName r) (NodeResult_Position r)
    (NodeResult_Status r) (NodeResult_ErrorCode r) (NodeResult_ResolverResults r) (NodeResult_HostFilterResult r)
    status snapshotID code (NodeResult_StartedAt r) (NodeResult_CompletedAt r).

Definition with_results (results : list NodeResult) (o : Operation) : Operation :=
  mkOperation (Operation_ID o) (Operation_ClusterID o) (Operation_ClusterName o) (Operation_Command o)
    (Operation_Target o) (Operation_Status o) (Operation_RequestID o) (Operation_IdempotencyKey o)
    (Operation_RequestedBy o) (Operation_InputFingerprint o) (Operation_Payload o) (Operation_AuditReference o)
    (Operation_RequestedAt o) (Operation_StartedAt o) (Operation_CompletedAt o) (Some results)
    (Operation_ExcludedNodes o) (Operation_Duplicate o).

(* src/internal/operations/executor.go:204-210 CommandExecutor.failAll *)
Definition finished (status audit : string) (now : Time) (o : Operation) : Operation :=
  mkOperation (Operation_ID o) (Operation_ClusterID o) (Operation_ClusterName o) (Operation_Command o)
    (Operation_Target o) status (Operation_RequestID o) (Operation_IdempotencyKey o)
    (Operation_RequestedBy o) (Operation_InputFingerprint o) (Operation_Payload o) audit
    (Operation_RequestedAt o) (Operation_StartedAt o) (Some now) (Operation_NodeResults o)
    (Operation_ExcludedNodes o) (Operation_Duplicate o).

(* src/internal/operations/executor.go:180-180 CommandExecutor.RunOnce *)
Definition requester (o : Operation) : Actor := mkActor (Operation_RequestedBy o) (Operation_RequestID o).

Section executor.
Context {R : Runtime}.

(** Storing the results that are not final as failed. *)
(* src/internal/operations/executor.go:194-203 CommandExecutor.failAll *)
Fixpoint fail_results (id : string) (final : list string) (code : string) (now : Time)
  (results : list NodeResult) : operation_prog (res (list NodeResult)) :=
  match results with
  | [] => done_with []
  | r :: rest =>
      if bool_decide (NodeResult_Status r ∈ final) then
        try rest <- fail_results id final code now rest; done_with (r :: rest)
      else
        let r := failed_result code now r in
        try _ <- call (Repo_UpdateOperationalCommandNode id r);
        try rest <- fail_results id final code now rest; done_with (r :: rest)
  end.

(** The last steps of every command: the audit event, and the final status. *)
(* src/internal/operations/executor.go:204-211 CommandExecutor.failAll *)
Definition finish_operation (o : Operation) (status action : string) (extra : list (string * json)) (now : Time) :
  operation_prog (res unit) :=
  let o := finished status (Operation_AuditReference o) now o in
  try event <- operationAudit (requester o) (commandAuditPrefix (Operation_Command o) +:+ action) o extra now;
  call (Repo_FinishOperationalCommand (finished status (AuditEvent_ID event) now o) event).

(* src/internal/operations/executor.go:192-212 CommandExecutor.failAll *)
Definition failAll (o : Operation) (commandErr : error) : operation_prog (res unit) :=
  do now <- core Now;
  let code := operationErrorCode commandErr in
  try results <- fail_results (Operation_ID o) ["succeeded"; "failed"] code now (elems (Operation_NodeResults o));
  finish_operation (with_results results o) "failed" "_failed"
    [("status", JStr "failed"); ("errorCode", JStr code)] now.

(* src/internal/operations/executor.go:45-68 CommandExecutor.RecoverInterrupted *)
Definition recover_operation (o : Operation) : operation_prog (res unit) :=
  do now <- core Now;
  try results <- fail_results (Operation_ID o) ["succeeded"; "failed"; "skipped"] "OPERATION_INTERRUPTED" now
    (elems (Operation_NodeResults o));
  finish_operation (with_results results o) "interrupted" "_failed"
    [("status", JStr "interrupted"); ("errorCode", JStr "CONTROLLER_RESTARTED");
     ("automaticReplay", JBool false)] now.

(* src/internal/operations/executor.go:39-71 CommandExecutor.RecoverInterrupted *)
Definition Operations_RecoverInterrupted : operation_prog (res unit) :=
  try items <- call Repo_RunningOperationalCommands;
  for_each recover_operation items.

(** ** Running a command *)

(* src/internal/operations/executor.go:117-117 CommandExecutor.RunOnce *)
Definition probe_request (record : NodeRecord) (credentials : NodeCredentials) : NodeProbeRequest :=
  mkNodeProbeRequest (Node_BaseURL (Record_Node record)) (Node_CertificatePolicy (Record_Node record))
    (Secrets_CustomCAPEM (Record_Secrets record)) credentials.

(* src/internal/operations/executor.go:121-138 CommandExecutor.RunOnce *)
Definition run_command (command : string) (input : CommandInput) (request : NodeProbeRequest) :
  operation_prog (res CommandResult) :=
  if command =?? CommandTestUpstreamDNS then
    match input with
    | UpstreamCommand i =>
        try results <- call (Exec_TestUpstreamDNS request i); done_with (results, None)
    | _ => done_with (None, None)
    end
  else if command =?? CommandTestHostFiltering then
    match input with
    | HostFilterCommand i =>
        try result <- call (Exec_TestHostFiltering request i); done_with (None, Some result)
    | _ => done_with (None, None)
    end
  else if command =?? CommandClearDNSCache then
    try _ <- call (Exec_ClearDNSCache request); done_with (None, None)
  else if command =?? CommandClearQueryLog then
    try _ <- call (Exec_ClearQueryLog request); done_with (None, None)
  else if command =?? CommandResetStatistics then
    try _ <- call (Exec_ResetStatistics request); done_with (None, None)
  else fail (NewError ErrorCapability "the operational command is not supported").

(** The node of a result, its credentials, and the command. *)
(* src/internal/operations/executor.go:111-139 CommandExecutor.RunOnce *)
Definition command_on_node (command : string) (input : CommandInput) (nodeID : string) :
  operation_prog (res CommandResult) :=
  try record <- core (Repo_NodeRecordByID nodeID);
  try credentials <- core (Decrypt nodeID (Secrets_Credentials (Record_Secrets record)));
  run_command command input (probe_request record credentials).

(** Commands that change a node are followed by an observation. *)
(* src/internal/operations/executor.go:155-155 CommandExecutor.RunOnce *)
Definition changes_node (command : string) : bool :=
  (command =?? CommandClearDNSCache) || (command =?? CommandClearQueryLog) ||
  (command =?? CommandResetStatistics).

(* src/internal/operations/executor.go:155-162 CommandExecutor.RunOnce *)
Definition observe_after (command : string) (r : NodeResult) : operation_prog NodeResult :=
  if changes_node command then
    do observed <- core (Observe (NodeResult_NodeID r));
    Ret (match observed with
         | Ok snapshot => with_observation "succeeded" (Snapshot_ID snapshot)
                            (NodeResult_ObservationErrorCode r) r
         | Err e => with_observation "failed" (NodeResult_ObservationSnapshotID r) (operationErrorCode e) r
         end)
  else Ret r.

Record Counts := mkCounts { Succeeded : Z; FailedCount : Z; ResolverSucceeded : Z; ResolverFailed : Z }.

Definition resolver_ok (r : ResolverResult) : bool := ResolverResult_Status r =?? "succeeded".
Definition count_of {A} (p : A → bool) (l : list A) : Z := Z.of_nat (length (List.filter p l)).

(* src/internal/operations/executor.go:147-154 CommandExecutor.RunOnce *)
Definition count_success (resolvers : list ResolverResult) (c : Counts) : Counts :=
  mkCounts (Succeeded c + 1) (FailedCount c) (ResolverSucceeded c + count_of resolver_ok resolvers)
    (ResolverFailed c + count_of (λ r, negb (resolver_ok r)) resolvers).
(* src/internal/operations/executor.go:144-144 CommandExecutor.RunOnce *)
Definition count_failure (c : Counts) : Counts :=
  mkCounts (Succeeded c) (FailedCount c + 1) (ResolverSucceeded c) (ResolverFailed c).

(** One pending result: it is stored as running before the command is sent, and with
    its outcome before the next node. *)
(* src/internal/operations/executor.go:106-166 CommandExecutor.RunOnce *)
Definition run_result (o : Operation) (input : CommandInput) (r : NodeResult) (counts : Counts) :
  operation_prog (res (NodeResult * Counts)) :=
  do started <- core Now;
  let r := running_result started r in
  try _ <- call (Repo_UpdateOperationalCommandNode (Operation_ID o) r);
  do outcome <- command_on_node (Operation_Command o) input (NodeResult_NodeID r);
  do completed <- core Now;
  match outcome with
  | Err e =>
      let r := failed_result (operationErrorCode e) completed r in
      try _ <- call (Repo_UpdateOperationalCommandNode (Operation_ID o) r);
      done_with (r, count_failure counts)
  | Ok result =>
      do r <- observe_after (Operation_Command o) (succeeded_result completed (with_command_result result r));
      try _ <- call (Repo_UpdateOperationalCommandNode (Operation_ID o) r);
      done_with (r, count_success (elems (NodeResult_ResolverResults r)) counts)
  end.

(* src/internal/operations/executor.go:97-167 CommandExecutor.RunOnce *)
Fixpoint run_results (o : Operation) (input : CommandInput) (results : list NodeResult) (counts : Counts) :
  operation_prog (res (list NodeResult * Counts)) :=
  match results with
  | [] => done_with ([], counts)
  | r :: rest =>
      do stopped <- call ContextErr;
      match stopped with
      | Some e => fail e
      | None =>
          if negb (NodeResult_Status r =?? "pending") then
            try ran <- run_results o input rest counts; done_with (r :: ran.1, ran.2)
          else
            try here <- run_result o input r counts;
            try ran <- run_results o input rest here.2; done_with (here.1 :: ran.1, ran.2)
      end
  end.

(* src/internal/operations/executor.go:168-173 CommandExecutor.RunOnce *)
Definition final_status (c : Counts) : string :=
  if (0 <? FailedCount c) && (0 <? Succeeded c) then "partial_success"
  else if 0 <? FailedCount c then "failed"
  else "succeeded".

(** The stored input of a command, decrypted and decoded. *)
(* src/internal/operations/executor.go:89-89 CommandExecutor.RunOnce *)
Definition undecodable : error :=
  NewError ErrorInternal "the operational command input could not be decoded".

#[global] Instance UpstreamInput_Unmarshal : Unmarshal UpstreamInput := {|
  zero_value := mkUpstreamInput 0 None None None None "" false;
  unmarshal := in_object (λ fs cur,
    x1 ← field fs "draftVersion" (UpstreamInput_DraftVersion cur);
    x2 ← field fs "upstreamDns" (UpstreamInput_UpstreamDNS cur);
    x3 ← field fs "bootstrapDns" (UpstreamInput_BootstrapDNS cur);
    x4 ← field fs "fallbackDns" (UpstreamInput_FallbackDNS cur);
    x5 ← field fs "privateReverseDns" (UpstreamInput_PrivateReverseDNS cur);
    x6 ← field fs "upstreamMode" (UpstreamInput_UpstreamMode cur);
    x7 ← field fs "usePrivateReverseResolvers" (UpstreamInput_UsePrivateReverseResolvers cur);
    Some (mkUpstreamInput x1 x2 x3 x4 x5 x6 x7))
|}.

#[global] Instance HostFilterInput_Unmarshal : Unmarshal HostFilterInput := {|
  zero_value := mkHostFilterInput "" "" "";
  unmarshal := in_object (λ fs cur,
    x1 ← field fs "hostname" (HostFilterInput_Hostname cur);
    x2 ← field fs "client" (HostFilterInput_Client cur);
    x3 ← field fs "queryType" (HostFilterInput_QueryType cur);
    Some (mkHostFilterInput x1 x2 x3))
|}.

Definition decode_text {T : JSONText} {A} {U : Unmarshal A} (text : string) : option A :=
  match json_parse text with inl j => unmarshal j zero_value | inr _ => None end.

(* src/internal/operations/executor.go:85-95 CommandExecutor.RunOnce *)
Definition decode_input {T : JSONText} (command body : string) : option CommandInput :=
  if command =?? CommandTestUpstreamDNS then UpstreamCommand <$> decode_text body
  else if command =?? CommandTestHostFiltering then HostFilterCommand <$> decode_text body
  else Some NoInput.

(* src/internal/operations/executor.go:96-96 CommandExecutor.RunOnce *)
Definition position_less (a b : NodeResult) : bool := NodeResult_Position a <? NodeResult_Position b.

(** The command that was claimed. *)
(* src/internal/operations/executor.go:81-189 CommandExecutor.RunOnce *)
Definition run_operation {T : JSONText} (o : Operation) : operation_prog (res unit) :=
  do payload <- call (DecryptPayload (Operation_ID o) (Operation_Payload o));
  match payload with
  | Err _ => failAll o (NewError ErrorInternal "the operational command input could not be decrypted")
  | Ok body =>
      match decode_input (Operation_Command o) body with
      | None => failAll o undecodable
      | Some input =>
          let results := sort_Slice position_less (elems (Operation_NodeResults o)) in
          try ran <- run_results o input results (mkCounts 0 0 0 0);
          let counts := ran.2 in
          let status := final_status counts in
          do completed <- core Now;
          finish_operation (with_results ran.1 o) status
            ("_" +:+ (if status =?? "partial_success" then "partially_succeeded" else status))
            [("status", JStr status); ("succeededCount", JNum (Succeeded counts));
             ("failedCount", JNum (FailedCount counts));
             ("resolverSucceededCount", JNum (ResolverSucceeded counts));
             ("resolverFailedCount", JNum (ResolverFailed counts))] completed
      end
  end.

(** The first component says whether a command was claimed. *)
(* src/internal/operations/executor.go:73-190 CommandExecutor.RunOnce *)
Definition Operations_RunOnce {T : JSONText} : operation_prog (bool * res unit) :=
  do now <- core Now;
  do claimed <- call (Repo_ClaimOperationalCommand now);
  match claimed with
  | Err e => Ret (false, Err e)
  | Ok None => Ret (false, Ok tt)
  | Ok (Some o) => do result <- run_operation o; Ret (true, result)
  end.
End executor.
