(* ===== verification/OperationsSpec.v ===== *)
(** * What operational commands guarantee

    A command is queued only for the nodes that may run it; a command that is running
    on a node was stored as running before, so no command is sent to a node twice. *)

From S2P Require Import Prelude GoRuntime Json Domain ControlModel OperationsModel Wire Effects.
From S2P Require Import ControlEffects Operations OperationsExecutor.

(** ** The targets of a command *)

Section targets.
Context {R : Runtime}.

(** The nodes a command may run on: those of the target, enabled, out of maintenance,
    whose profile is of the version they run and has the feature. *)
Definition targeted (target : Target) (node : Node) : bool :=
  negb (Target_Scope target =?? "node") || (Node_ID node =?? Target_NodeID target).

Definition eligible (target : Target) (profiles : gmap string CapabilityProfile) (feature : string) (node : Node) : bool :=
  targeted target node && Node_Enabled node && (exclusion profiles feature node =?? "").

Definition excluded_node (target : Target) (profiles : gmap string CapabilityProfile) (feature : string)
  (node : Node) : option ExcludedNode :=
  if targeted target node && Node_Enabled node && negb (exclusion profiles feature node =?? "")
  then Some (mkExcludedNode (Node_ID node) (Node_Name node) (exclusion profiles feature node)) else None.

Lemma select_nodes_spec target profiles feature nodes : ∀ acc s,
  select_nodes target profiles feature nodes acc = Ok s →
  Selection_Selected s = Selection_Selected acc ++ List.filter (eligible target profiles feature) nodes ∧
  Selection_Excluded s = Selection_Excluded acc ++ omap (excluded_node target profiles feature) nodes.
Proof.
  induction nodes as [|node rest IH]; intros acc s; cbn [select_nodes List.filter omap list_omap].
  { intros [= <-]. by rewrite !app_nil_r. }
  unfold eligible at 1, excluded_node at 1, targeted at 1 2.
  destruct (Target_Scope target =?? "node"); cbn [negb andb orb].
  1: destruct (Node_ID node =?? Target_NodeID target); cbn [negb andb orb]; [|apply IH].
  all: destruct (Node_Enabled node); cbn [negb andb orb]; [|try done; intros [H1 H2]%IH; cbn in H1, H2; done].
  all: destruct (exclusion profiles feature node =?? ""); cbn [negb andb orb]; try (by case_match);
    intros [H1 H2]%IH; cbn in H1, H2; by rewrite H1, H2, <- ?app_assoc.
Qed.

Lemma exclusion_none profiles feature node : exclusion profiles feature node = "" →
  Node_MaintenanceMode node = false ∧ ∃ profile, profiles !! Node_ID node = Some profile ∧
    CapabilityProfile_Compatibility profile = CompatibilitySupported ∧
    CapabilityProfile_ProductVersion profile = Node_Version node ∧ has_feature profile feature = true.
Proof.
  unfold exclusion. destruct (Node_MaintenanceMode node); [done|].
  destruct (profiles !! Node_ID node) as [profile|]; [|done].
  destruct (negb _ || negb _ || negb _) eqn:E; [done|]. intros _. bool_simp. split; [done|].
  exists profile. auto.
Qed.
End targets.

(** ** Traces *)


(** A command that is sent comes with its input, the request that addresses the node, and the answer. *)
Inductive op_fact :=
  | FNodes (nodes : list Node)
  | FProfiles (profiles : list CapabilityProfile)
  | FQueued (operation : Operation)
  | FClaimed (operation : Operation)
  | FPayload (id : string) (payload : EncryptedPayload) (r : res string)
  | FStored (commandID : string) (result : NodeResult) (stored : bool)
  | FNode (id : string) (r : res NodeRecord)
  | FDecrypted (id : string) (sealed : EncryptedCredentials) (r : res NodeCredentials)
  | FSent (command : string) (input : CommandInput) (request : NodeProbeRequest) (answer : res CommandResult)
  | FEnded (operation : Operation).

Definition answered {A} (f : A → CommandResult) (r : res A) : res CommandResult :=
  match r with Ok a => Ok (f a) | Err e => Err e end.

Definition core_fact {X} (e : ctl X) : X → option op_fact :=
  match e in ctl X return X → option op_fact with
  | Repo_ListNodes _ => λ r, match r with Ok nodes => Some (FNodes nodes) | Err _ => None end
  | Repo_CapabilityProfiles _ => λ r, match r with Ok profiles => Some (FProfiles profiles) | Err _ => None end
  | Repo_NodeRecordByID id => λ r, Some (FNode id r)
  | Decrypt id sealed => λ r, Some (FDecrypted id sealed r)
  | _ => λ _, None
  end.

Definition op_event (ev : event opctl) : option op_fact :=
  match ev with
  | Event e x =>
      (match e in opctl X return X → option op_fact with
       | Core e => core_fact e
       | Repo_CreateOperationalCommand o _ => λ _, Some (FQueued o)
       | Repo_ClaimOperationalCommand _ => λ r, match r with Ok (Some o) => Some (FClaimed o) | _ => None end
       | DecryptPayload id payload => λ r, Some (FPayload id payload r)
       | Repo_UpdateOperationalCommandNode id r => λ answer, Some (FStored id r (is_Ok answer))
       | Repo_FinishOperationalCommand o _ => λ _, Some (FEnded o)
       | Exec_TestUpstreamDNS request i => λ r,
           Some (FSent CommandTestUpstreamDNS (UpstreamCommand i) request (answered (λ x, (x, None)) r))
       | Exec_TestHostFiltering request i => λ r,
           Some (FSent CommandTestHostFiltering (HostFilterCommand i) request (answered (λ x, (None, Some x)) r))
       | Exec_ClearDNSCache request => λ r,
           Some (FSent CommandClearDNSCache NoInput request (answered (λ _, (None, None)) r))
       | Exec_ClearQueryLog request => λ r,
           Some (FSent CommandClearQueryLog NoInput request (answered (λ _, (None, None)) r))
       | Exec_ResetStatistics request => λ r,
           Some (FSent CommandResetStatistics NoInput request (answered (λ _, (None, None)) r))
       | _ => λ _, None
       end) x
  end.

Abbreviation op_facts := (with_facts op_event).

Ltac op_step :=
  lazymatch goal with
  | |- with_facts _ (core _) _ => apply facts_call; intros ?; cbn [op_event core_fact option_list is_Ok]
  | _ => facts_step ltac:(fun _ => cbn [op_event core_fact option_list is_Ok answered])
  end.

(** ** Queueing a command *)

Section start.
Context {R : Runtime}.

Definition result_key (r : NodeResult) : string * Z * string :=
  (NodeResult_NodeID r, NodeResult_Position r, NodeResult_Status r).

Definition numbered (position : Z) (nodes : list Node) : list (string * Z * string) :=
  imap (λ i node, (Node_ID node, position + Z.of_nat i, "pending")) nodes.

Lemma pending_results_facts nodes : ∀ position,
  op_facts (pending_results position nodes)
    (λ f r, f = [] ∧ ∀ results, r = Ok results → result_key <$> results = numbered position nodes).
Proof.
  induction nodes as [|node rest IH]; intros position; cbn [pending_results].
  { op_step. split; [done|]. by intros results [= <-]. }
  op_step. op_step. case_match; [|done]. op_step. eapply facts_mono; [apply IH|].
  intros f [results|e] [-> H']; [|done]. op_step. split; [done|]. intros results' [= <-].
  cbn [fmap list_fmap]. unfold numbered. cbn [imap]. f_equal.
  - unfold result_key. cbn -[Z.add]. by rewrite Z.add_0_r.
  - rewrite (H' _ eq_refl). apply imap_ext. intros i y _. cbn -[Z.add Z.of_nat]. by rewrite Nat2Z.inj_succ, <- Z.add_assoc, Z.add_1_l.
Qed.

(** The profile of each node: the last of the list. *)
Definition profile_map (profiles : list CapabilityProfile) : gmap string CapabilityProfile :=
  last_by_key CapabilityProfile_NodeID profiles.

(** What a queued command says: its results are the eligible nodes of the cluster, in
    the order of the list, pending; the nodes left out are listed with the reason. *)
Definition queued_for (target : Target) (feature : string) (nodes : list Node)
  (profiles : list CapabilityProfile) (o : Operation) : Prop :=
  Operation_Target o = target ∧ Operation_Status o = "queued" ∧
  result_key <$> elems (Operation_NodeResults o) =
    numbered 1 (List.filter (eligible target (profile_map profiles) feature) nodes) ∧
  elems (Operation_NodeResults o) ≠ [] ∧
  Operation_ExcludedNodes o = Some (omap (excluded_node target (profile_map profiles) feature) nodes).

(** No command was queued yet. *)
Ltac not_queued :=
  let H := fresh in intros ? H; cbn [app option_list option_rect] in H; rewrite ?elem_of_cons, elem_of_nil in H;
  repeat (destruct H as [?|H]; [done|]); done.

(** A command is stored for execution only with the nodes that may run it: whatever the repository answers, a
    command that Service.start hands to CreateOperationalCommand has exactly one pending result for each enabled node
    of the target that is out of maintenance and whose capability profile is supported, of the node's version, and
    lists the feature of the command, numbered from 1 in the order of the cluster's nodes; there is at least one, and
    the enabled nodes left out are recorded with their reason. *)
Theorem start_only_eligible actor clusterID target command input key :
  op_facts (start actor clusterID target command input key)
    (λ f _, ∀ o, FQueued o ∈ f → ∃ nodes profiles,
      FNodes nodes ∈ f ∧ FProfiles profiles ∈ f ∧
      queued_for target (command_feature command input) nodes profiles o).
Proof.
  unfold start, operationAudit. repeat (op_step; try not_queued).
  eapply facts_mono; [apply pending_results_facts|]. intros f [results|e] [-> Hresults]; [|not_queued].
  repeat (op_step; try not_queued); intros o; cbn [app option_list option_rect]; rewrite !elem_of_cons, elem_of_nil;
    (intros [?|[?|[[= ->]|[]]]]; [done|done|]).
  all: lazymatch goal with H : select_nodes _ (last_by_key _ ?profiles) _ ?nodes _ = Ok _ |- _ =>
         exists nodes, profiles; apply select_nodes_spec in H as [Hselected Hexcluded] end.
  all: cbn in Hselected, Hexcluded; rewrite Hselected in *; rewrite Hexcluded.
  all: split; [left|split; [right; left|]]; [done..|].
  all: unfold queued_for; cbn [Operation_Target Operation_Status Operation_NodeResults Operation_ExcludedNodes
    queued_operation elems]; (split_and!; [done|done|by apply Hresults| |done]).
  all: intros ->; specialize (Hresults _ eq_refl).
  all: bool_simp; lazymatch goal with H : ¬ (length ?l = 0%nat) |- _ => apply H end.
  all: rewrite <- (length_imap (λ i node, (Node_ID node, 1 + Z.of_nat i, "pending"))).
  all: by unfold numbered in Hresults; rewrite <- Hresults.
Qed.
End start.

(** ** Running a command *)

Section run.
Context {R : Runtime}.

(** The input of a command is of the kind of the command. *)
Definition input_for (command : string) (input : CommandInput) : Prop :=
  match input with
  | UpstreamCommand _ => command = CommandTestUpstreamDNS
  | HostFilterCommand _ => command = CommandTestHostFiltering
  | NoInput => command ≠ CommandTestUpstreamDNS ∧ command ≠ CommandTestHostFiltering
  end.

Lemma decode_input_for {T : JSONText} command body input :
  decode_input command body = Some input → input_for command input.
Proof.
  unfold decode_input. case_bool_decide as H1; [by intros (i & _ & ->)%fmap_Some|].
  case_bool_decide as H2; [by intros (i & _ & ->)%fmap_Some|]. by intros [= <-].
Qed.

(** What an attempt to run the command on a node does, and its outcome: the record of the node is read,
    its credentials are decrypted, and the command is sent to the address of the record. *)
Inductive node_attempt (o : Operation) (input : CommandInput) (nodeID : string) : list op_fact → res CommandResult → Prop :=
| attempt_unread e : node_attempt o input nodeID [FNode nodeID (Err e)] (Err e)
| attempt_sealed record e :
    node_attempt o input nodeID [FNode nodeID (Ok record);
      FDecrypted nodeID (Secrets_Credentials (Record_Secrets record)) (Err e)] (Err e)
| attempt_unsent record credentials e :
    node_attempt o input nodeID [FNode nodeID (Ok record);
      FDecrypted nodeID (Secrets_Credentials (Record_Secrets record)) (Ok credentials)] (Err e)
| attempt_sent record credentials answer :
    node_attempt o input nodeID [FNode nodeID (Ok record);
      FDecrypted nodeID (Secrets_Credentials (Record_Secrets record)) (Ok credentials);
      FSent (Operation_Command o) input (probe_request record credentials) answer] answer.

(** [r'] is [r] with the outcome of its command: what the node answered, or the code of the error. *)
Definition outcome_recorded (r : NodeResult) (outcome : res CommandResult) (r' : NodeResult) : Prop :=
  NodeResult_ID r' = NodeResult_ID r ∧ NodeResult_NodeID r' = NodeResult_NodeID r ∧
  match outcome with
  | Ok result => NodeResult_Status r' = "succeeded" ∧ NodeResult_ResolverResults r' = result.1 ∧
                 NodeResult_HostFilterResult r' = result.2
  | Err e => NodeResult_Status r' = "failed" ∧ NodeResult_ErrorCode r' = operationErrorCode e
  end.

(** The facts of a run over the results: each pending result is stored as running,
    attempted once, and stored with its outcome before the next. *)
Inductive blocks (o : Operation) (input : CommandInput) : list NodeResult → list op_fact → Prop :=
| blocks_stop results : blocks o input results []
| blocks_skip r rest f : blocks o input rest f → blocks o input (r :: rest) f
| blocks_unstored r rest started :
    blocks o input (r :: rest) [FStored (Operation_ID o) (running_result started r) false]
| blocks_run r rest started sent outcome r' stored f :
    NodeResult_Status r = "pending" → node_attempt o input (NodeResult_NodeID r) sent outcome →
    outcome_recorded r outcome r' → blocks o input rest f →
    blocks o input (r :: rest) (FStored (Operation_ID o) (running_result started r) true ::
      sent ++ FStored (Operation_ID o) r' stored :: f).

Lemma attempt_stores_nothing o input nodeID sent outcome c x k :
  node_attempt o input nodeID sent outcome → FStored c x k ∉ sent.
Proof. intros []; rewrite !elem_of_cons, elem_of_nil; naive_solver. Qed.

Lemma blocks_stored o input results f : blocks o input results f → ∀ c x k, FStored c x k ∈ f →
  NodeResult_ID x ∈ NodeResult_ID <$> results.
Proof.
  induction 1 as [|r rest f _ IH|r rest started|r rest started sent outcome r' stored f _ Hsent Hr _ IH];
    intros c x k Hx; cbn [fmap list_fmap].
  - by apply elem_of_nil in Hx.
  - right. eauto.
  - apply list_elem_of_singleton in Hx as [= _ -> _]. left.
  - apply elem_of_cons in Hx as [[= _ -> _]|Hx]; [left|].
    apply elem_of_app in Hx as [Hx|Hx]; [by destruct (attempt_stores_nothing _ _ _ _ _ c x k Hsent)|].
    apply elem_of_cons in Hx as [[= _ -> _]|Hx]; [destruct Hr as [-> _]; left|right; eauto].
Qed.

(** What surrounds a command in the facts of a run: the result of the node was stored as running, the
    record of this node was read and its credentials decrypted, the command goes to the address of the
    record with them, and the answer is stored next. *)
Definition sent_once (o : Operation) (input : CommandInput) (results : list NodeResult) (f : list op_fact) : Prop :=
  ∀ before command input' request answer after, f = before ++ FSent command input' request answer :: after →
  ∃ r started record credentials b r' stored rest,
    r ∈ results ∧ NodeResult_Status r = "pending" ∧
    command = Operation_Command o ∧ input' = input ∧ request = probe_request record credentials ∧
    before = b ++ [FStored (Operation_ID o) (running_result started r) true; FNode (NodeResult_NodeID r) (Ok record);
      FDecrypted (NodeResult_NodeID r) (Secrets_Credentials (Record_Secrets record)) (Ok credentials)] ∧
    after = FStored (Operation_ID o) r' stored :: rest ∧ outcome_recorded r answer r' ∧
    (∀ c x k, FStored c x k ∈ b ++ rest → NodeResult_ID x ≠ NodeResult_ID r).

Definition not_sent (y : op_fact) : Prop := match y with FSent _ _ _ _ => False | _ => True end.

(** No command is sent. *)
Definition unsent (f : list op_fact) : Prop := Forall not_sent f.

Lemma unsent_sent_once o input results f : unsent f → sent_once o input results f.
Proof.
  intros H before c i rq a after ->. exfalso. apply Forall_app in H as [_ H].
  by apply Forall_cons in H as [[] _].
Qed.

Lemma sent_once_weaken o input results results' f : (∀ r, r ∈ results → r ∈ results') →
  sent_once o input results f → sent_once o input results' f.
Proof.
  intros Hsub H before c i rq a after Hf.
  destruct (H _ _ _ _ _ _ Hf) as (r & t & record & cr & b & r' & k & rest & Hr & H').
  exists r, t, record, cr, b, r', k, rest. split; [by apply Hsub|done].
Qed.

(** A fact that neither sends nor stores may follow a run. *)
Definition quiet (y : op_fact) : Prop := not_sent y ∧ ∀ c x k, y ≠ FStored c x k.

Lemma sent_once_snoc o input results y f : quiet y → sent_once o input results f →
  sent_once o input results (f ++ [y]).
Proof.
  intros [Hy Hy'] H before c i rq a after. induction after as [|z after _] using rev_ind.
  - by intros [_ ->]%app_inj_tail.
  - rewrite app_comm_cons, app_assoc. intros [Hf ->]%app_inj_tail.
    destruct (H _ _ _ _ _ _ Hf) as (r & t & record & cr & b & r' & k & rest & H1 & H2 & H3 & H4 & H5 & H6 & -> & H8 & Hid).
    exists r, t, record, cr, b, r', k, (rest ++ [z]). split_and!; try done.
    intros c' x k'. rewrite app_assoc. intros [Hx|Hx%list_elem_of_singleton]%elem_of_app; [eauto|].
    by destruct (Hy' c' x k').
Qed.

(** Facts that send nothing and store only results whose identifier is not below may come before a run. *)
Lemma sent_once_app o input results pre f : unsent pre →
  (∀ c x k r, FStored c x k ∈ pre → r ∈ results → NodeResult_ID x ≠ NodeResult_ID r) →
  sent_once o input results f → sent_once o input results (pre ++ f).
Proof.
  intros Hpre Hother H before c i rq a after Hf. apply (Forall_prefix not_sent) in Hf as (before' & -> & Hf); [|done|by intros []].
  destruct (H _ _ _ _ _ _ Hf) as (r & t & record & cr & b & r' & k & rest & H1 & H2 & H3 & H4 & H5 & -> & H7 & H8 & Hid).
  exists r, t, record, cr, (pre ++ b), r', k, rest. split_and!; try done; [by rewrite app_assoc|].
  intros c' x k'. rewrite <- app_assoc. intros [Hx|Hx]%elem_of_app; eauto.
Qed.

(** The block of one result, before the facts of the results that follow. *)
Lemma sent_once_block o input r rest started record credentials answer r' stored f :
  NodeResult_Status r = "pending" → outcome_recorded r answer r' →
  NodeResult_ID r ∉ NodeResult_ID <$> rest → blocks o input rest f → sent_once o input rest f →
  sent_once o input (r :: rest)
    ([FStored (Operation_ID o) (running_result started r) true; FNode (NodeResult_NodeID r) (Ok record);
      FDecrypted (NodeResult_NodeID r) (Secrets_Credentials (Record_Secrets record)) (Ok credentials)] ++
     FSent (Operation_Command o) input (probe_request record credentials) answer ::
     FStored (Operation_ID o) r' stored :: f).
Proof.
  intros Hr Hrec Hfresh Hf H before c i rq a after E.
  apply (Forall_prefix not_sent) in E as (before' & -> & E); [|by repeat constructor|by intros []].
  destruct before' as [|y before']; injection E.
  - intros <- <- <- <- <-. exists r, started, record, credentials, [], r', stored, f.
    split_and!; try done; [left|]. intros c' x k Hx Heq. apply Hfresh.
    apply (blocks_stored _ _ _ _ Hf) in Hx. by rewrite <- Heq.
  - intros E' <-. clear E. change (?y :: f) with ([y] ++ f) in E'.
    apply (Forall_prefix not_sent) in E' as (before'' & -> & E'); [|by repeat constructor|by intros []].
    destruct (H _ _ _ _ _ _ E') as (r0 & t & rc & cr & b & r1 & k & rest0 & H1 & H2 & H3 & H4 & H5 & -> & H7 & H8 & Hid).
    match goal with |- context [?p ++ ?y :: [?z] ++ b ++ ?q] =>
      exists r0, t, rc, cr, (p ++ y :: [z] ++ b), r1, k, rest0 end.
    split_and!; try done; [by right|].
    assert (Hne : NodeResult_ID r ≠ NodeResult_ID r0).
    { intros Heq. apply Hfresh. rewrite Heq. by apply list_elem_of_fmap_2. }
    intros c' x k'. cbn [app]. rewrite !elem_of_cons.
    intros [[= _ -> _]|[?|[?|[?|[[= _ -> _]|?]]]]]; [done|done|done|done|by destruct Hrec as [-> _]|eauto].
Qed.

(** The block of a result whose command was not sent. *)
Lemma sent_once_skip o input r rest sent f :
  unsent sent → (∀ c x k, FStored c x k ∈ sent → NodeResult_ID x = NodeResult_ID r) →
  NodeResult_ID r ∉ NodeResult_ID <$> rest → sent_once o input rest f →
  sent_once o input (r :: rest) (sent ++ f).
Proof.
  intros Hsent Hid Hfresh H. eapply (sent_once_weaken _ _ rest); [by right|].
  apply sent_once_app; [done| |done]. intros c x k r0 Hx%Hid Hin Heq. apply Hfresh.
  rewrite <- Hx, Heq. by apply list_elem_of_fmap_2.
Qed.

Lemma blocks_sent_once o input results f :
  NoDup (NodeResult_ID <$> results) → blocks o input results f → sent_once o input results f.
Proof.
  intros Hids H. revert Hids.
  induction H as [|r rest f _ IH|r rest started|r rest started sent outcome r' stored f Hp Hsent Hrec Hb IH];
    cbn [fmap list_fmap]; intros Hids; try (apply unsent_sent_once; by repeat constructor).
  - apply NoDup_cons in Hids as [_ Hids]. eapply sent_once_weaken; [|by apply IH]. by right.
  - apply NoDup_cons in Hids as [Hfresh Hids]. specialize (IH Hids). destruct Hsent.
    4: by apply sent_once_block.
    all: match goal with |- sent_once ?o ?i ?rs (?x :: ?l ++ ?y :: ?g) =>
           change (sent_once o i rs ((x :: l ++ [y]) ++ g)) end.
    all: apply sent_once_skip; [by repeat constructor| |done|done].
    all: intros c x k; cbn [app]; rewrite !elem_of_cons, elem_of_nil; intros Hx; destruct_or! Hx; try done;
      injection Hx as _ -> _; first [done|by destruct Hrec as [-> _]].
Qed.

(** ** The programs *)

Lemma command_on_node_facts o input nodeID : input_for (Operation_Command o) input →
  op_facts (command_on_node (Operation_Command o) input nodeID) (λ f outcome, node_attempt o input nodeID f outcome).
Proof.
  intros Hin. unfold command_on_node. op_step. op_step. destruct x as [record|e];
    cbn [app option_list option_rect]; [|constructor].
  op_step. op_step. destruct x as [credentials|e]; cbn [app option_list option_rect]; [|constructor].
  pose proof (attempt_sent o input nodeID record credentials) as Hs. unfold run_command. revert Hs Hin.
  generalize (Operation_Command o) as command. intros command Hs Hin.
  repeat case_bool_decide; try (destruct input; cbn [input_for] in Hin; try (subst; by destruct_and?)); try subst command;
    repeat op_step; cbn [app option_list option_rect answered]; first [apply attempt_unsent|apply Hs].
Qed.

Lemma observe_after_facts command r :
  op_facts (observe_after command r) (λ f r', f = [] ∧ ∀ r0 outcome, outcome_recorded r0 outcome r → outcome_recorded r0 outcome r').
Proof.
  unfold observe_after. repeat op_step; (split; [done|]); [|done].
  intros r0 [result|e] (H1 & H2 & H3); repeat case_match; (split; [exact H1|split; [exact H2|exact H3]]).
Qed.

Lemma run_result_facts o input r counts rest : input_for (Operation_Command o) input →
  NodeResult_Status r = "pending" →
  op_facts (run_result o input r counts) (λ f a,
    (is_Ok a = false → blocks o input (r :: rest) f) ∧
    (∀ f', blocks o input rest f' → is_Ok a = true → blocks o input (r :: rest) (f ++ f'))).
Proof.
  intros Hin Hpending. unfold run_result. op_step. op_step. op_step. op_step.
  destruct x0 as [[]|e]; cbn [is_Ok option_list option_rect app]; [|split; [by constructor|done]].
  op_step. eapply facts_mono; [by apply command_on_node_facts|]. intros sent outcome Hsent.
  cbn [NodeResult_NodeID running_result with_status] in Hsent.
  op_step. op_step.
  assert (Hend : ∀ r' stored f', outcome_recorded r outcome r' → blocks o input rest f' →
    blocks o input (r :: rest) (FStored (Operation_ID o) (running_result x r) true ::
      sent ++ FStored (Operation_ID o) r' stored :: f')).
  { intros. by eapply blocks_run. }
  destruct outcome as [result|e].
  - op_step. eapply facts_mono; [apply observe_after_facts|]. intros f r' (-> & Hr').
    assert (outcome_recorded r (Ok result) r') as Hrec by by apply Hr'.
    op_step. op_step. destruct x1 as [[]|e]; [op_step|]; cbn [is_Ok option_list option_rect app];
      (split; [|try done]).
    + done.
    + intros f' Hf' _. rewrite <- app_assoc. by apply Hend.
    + intros _. apply Hend; [done|constructor].
  - op_step. op_step. destruct x1 as [[]|e']; [op_step|]; cbn [is_Ok option_list option_rect app];
      (split; [|try done]).
    + done.
    + intros f' Hf' _. rewrite <- app_assoc. by apply Hend.
    + intros _. apply Hend; [done|constructor].
Qed.

Lemma run_results_facts o input results : input_for (Operation_Command o) input → ∀ counts,
  op_facts (run_results o input results counts) (λ f _, blocks o input results f).
Proof.
  intros Hin. induction results as [|r rest IH]; intros counts; cbn [run_results]; [op_step; constructor|].
  op_step. op_step. destruct x; [op_step; constructor|]. cbn [option_list option_rect app].
  destruct (NodeResult_Status r =?? "pending") eqn:Hpending; cbn [negb].
  - bool_simp. op_step. eapply facts_mono; [by apply (run_result_facts _ _ _ _ rest)|].
    intros f [here|e] [Hfail Hok]; [|by apply Hfail]. op_step. eapply facts_mono; [apply IH|].
    intros f' [ran|e] Hf'; [op_step|]; rewrite ?app_nil_r; by apply Hok.
  - op_step. eapply facts_mono; [apply IH|]. intros f' [ran|e] Hf'; [op_step|];
      rewrite ?app_nil_r; by constructor.
Qed.

Lemma unsent_app f g : unsent f → unsent g → unsent (f ++ g).
Proof. intros. by apply Forall_app. Qed.

Lemma unsent_cons y f : not_sent y → unsent f → unsent (y :: f).
Proof. by constructor. Qed.

Lemma fail_results_facts id final code now results :
  op_facts (fail_results id final code now results) (λ f _, unsent f).
Proof.
  induction results as [|r rest IH]; cbn [fail_results]; [op_step; constructor|].
  case_bool_decide.
  - op_step. eapply facts_mono; [apply IH|]. intros f [|] Hf; [op_step; by rewrite app_nil_r|done].
  - op_step. op_step. destruct x; cbn [option_list option_rect app]; [|by repeat constructor].
    op_step. eapply facts_mono; [apply IH|]. intros f [|] Hf; [op_step; rewrite app_nil_r|]; by apply unsent_cons.
Qed.

Lemma finish_operation_facts o status action extra now :
  op_facts (finish_operation o status action extra now) (λ f _, f = [] ∨ ∃ o', f = [FEnded o']).
Proof. unfold finish_operation, operationAudit. repeat op_step; cbn; eauto. Qed.

Lemma finish_unsent o status action extra now f : unsent f →
  op_facts (finish_operation o status action extra now) (λ f' _, unsent (f ++ f')).
Proof.
  intros Hf. eapply facts_mono; [apply finish_operation_facts|].
  intros f' _ [-> | (o' & ->)]; apply unsent_app; [done|constructor|done|by repeat constructor].
Qed.

Lemma failAll_facts o e : op_facts (failAll o e) (λ f _, unsent f).
Proof.
  unfold failAll. op_step. op_step. op_step. eapply facts_mono; [apply fail_results_facts|].
  intros f [results|e'] Hf; [|done]. by apply finish_unsent.
Qed.

(** The run of a claimed command: nothing is sent, or its input was decrypted and decoded, and what is
    sent is this command with this input. *)
Definition runs_once {T : JSONText} (o : Operation) (f : list op_fact) : Prop :=
  unsent f ∨ ∃ body input f', f = FPayload (Operation_ID o) (Operation_Payload o) (Ok body) :: f' ∧
    decode_input (Operation_Command o) body = Some input ∧
    sent_once o input (elems (Operation_NodeResults o)) f'.

Lemma run_operation_facts {T : JSONText} o : NoDup (NodeResult_ID <$> elems (Operation_NodeResults o)) →
  op_facts (run_operation o) (λ f _, runs_once o f).
Proof.
  intros Hids. unfold run_operation. op_step. op_step. cbn [option_list option_rect app].
  assert (Hfail : ∀ e, op_facts (failAll o e)
    (λ f _, runs_once o (FPayload (Operation_ID o) (Operation_Payload o) x :: f))).
  { intros e. eapply facts_mono; [apply failAll_facts|]. intros f a Hf. left. by apply unsent_cons. }
  destruct x as [body|]; [|done]. destruct (decode_input _ body) as [input|] eqn:Hinput; [|done].
  op_step. eapply facts_mono; [apply run_results_facts; by eapply decode_input_for|]. intros f ran Hf.
  apply blocks_sent_once in Hf; [|by rewrite sort_Slice_perm].
  apply (sent_once_weaken _ _ _ (elems (Operation_NodeResults o))) in Hf; [|intros r; by rewrite elem_of_sort_Slice].
  destruct ran as [ran|]; [|right; by exists body, input, f]. op_step. op_step.
  eapply facts_mono; [apply finish_operation_facts|].
  intros f' _ [-> | (o' & ->)]; cbn [option_list option_rect app]; right; exists body, input; eexists;
    (split_and!; [done|done|]); [by rewrite app_nil_r|]. apply sent_once_snoc; [by split|done].
Qed.

(** C33: an operational command reaches a node at most once, and never before the node's result says so: in
    every run of RunOnce, whatever the repository, the ciphers and the nodes answer, what is sent is the command
    that was claimed, with the input that was decrypted and decoded for it, to the address and with the
    credentials of the record that was read for the node of a result, pending when the operation was claimed;
    this result was stored as running just before, and just afterwards it is stored with what this node
    answered: succeeded with the answer, or failed with the code of the error.  No other store of that result
    exists in the run, so no result is sent twice (the identifiers of the claimed results being distinct). *)
Theorem commands_sent_once {T : JSONText} :
  op_facts Operations_RunOnce (λ f _, f = [] ∨ ∃ o run, f = FClaimed o :: run ∧
    (NoDup (NodeResult_ID <$> elems (Operation_NodeResults o)) → runs_once o run)).
Proof.
  unfold Operations_RunOnce. op_step. op_step. op_step. op_step. cbn [option_list option_rect app].
  destruct x0 as [[o|]|e]; [|op_step; by left..]. op_step.
  destruct (decide (NoDup (NodeResult_ID <$> elems (Operation_NodeResults o)))) as [Hids|Hids].
  - eapply facts_mono; [by apply run_operation_facts|]. intros f a Hf. op_step.
    right. exists o, f. by rewrite app_nil_r.
  - eapply facts_mono; [apply facts_any|]. intros f a _. op_step.
    right. exists o, f. by rewrite app_nil_r.
Qed.

(** A restart replays nothing: RecoverInterrupted sends no command to any node, whatever was running. *)
Theorem recovery_sends_nothing :
  op_facts Operations_RecoverInterrupted (λ f _, unsent f).
Proof.
  unfold Operations_RecoverInterrupted. op_step. op_step. destruct x as [items|]; [|constructor].
  cbn [option_list option_rect app]. induction items as [|o items IH]; cbn [for_each]; [op_step; constructor|].
  assert (Ho : op_facts (recover_operation o) (λ f _, unsent f)).
  { unfold recover_operation. op_step. op_step. op_step. eapply facts_mono; [apply fail_results_facts|].
    intros f [results|e'] Hf; [|done]. by apply finish_unsent. }
  op_step. eapply facts_mono; [exact Ho|]. intros f [[]|] Hf; [|done].
  eapply facts_mono; [exact IH|]. intros f' b Hf'. by apply unsent_app.
Qed.
End run.
