(* ===== verification/OperationsStore.v ===== *)
(** * internal/database: the tables of operational commands

    The two tables [operational_commands] and [operational_command_node_results], which
    the DNS commands and the DHCP operations share, with the constraints of the
    migrations, and the methods of the store on them.  The methods also read clusters,
    nodes and snapshots and write audit events, in the tables of [Store].  Users are not
    modelled: their reference is not checked. *)

From S2P Require Import Prelude GoRuntime Json Domain AuditMetadata ControlModel Store StoreRecords.
From S2P Require Import InventoryModel OperationsModel Operations.

(** ** The tables *)

Record CommandRow := mkCommandRow {
  Command_ID : string;
  Command_ClusterID : string;
  Command_Type : string;
  Command_TargetScope : string;
  Command_TargetNodeID : option string;
  Command_Status : string;
  Command_RequestedBy : string;
  Command_RequestID : string;
  Command_IdempotencyKey : string;
  Command_InputFingerprint : string;
  (* the four payload columns are null together *)
  Command_Payload : option EncryptedPayload;
  Command_ExcludedNodes : slice ExcludedNode;
  Command_ObservationStatus : string;
  Command_ObservationSnapshotID : option string;
  Command_ObservationErrorCode : string;
  Command_AuditReference : option string;
  Command_RequestedAt : Time;
  Command_StartedAt : option Time;
  Command_CompletedAt : option Time
}.

Record ResultRow := mkResultRow {
  Result_ID : string;
  Result_CommandID : string;
  Result_NodeID : string;
  Result_Position : Z;
  Result_Status : string;
  Result_ErrorCode : string;
  (* the column result: a JSON object *)
  Result_Resolvers : slice ResolverResult;
  Result_HostFilter : option HostFilterResult;
  Result_ObservationStatus : string;
  Result_ObservationSnapshotID : option string;
  Result_ObservationErrorCode : string;
  Result_StartedAt : option Time;
  Result_CompletedAt : option Time
}.

Record CommandDB := mkCommandDB {
  base : DB;
  commands : gmap string CommandRow;
  results : gmap string ResultRow
}.

Definition set_base v db := mkCommandDB v (commands db) (results db).
Definition set_commands v db := mkCommandDB (base db) v (results db).
Definition set_results v db := mkCommandDB (base db) (commands db) v.

Definition empty_CommandDB : CommandDB := mkCommandDB empty_DB ∅ ∅.

Abbreviation OpTx := (Txn CommandDB).

(** A transaction on the other tables. *)
Definition on_base {A} (t : Tx A) : OpTx A := λ db,
  match t (base db) with Ok (a, db') => Ok (a, set_base db' db) | Err e => Err e end.

(** ** Constraints *)

Definition dns_commands : list string :=
  ["test_upstream_dns"; "test_host_filtering"; "clear_dns_cache"; "clear_query_log"; "reset_statistics"].
Definition command_types : list string := ["dhcp_reset_leases"; "dhcp_reset_configuration"] ++ dns_commands.

Definition is_dns (row : CommandRow) : bool := bool_decide (Command_Type row ∈ dns_commands).

Definition is_null {A} (x : option A) : bool := match x with None => true | Some _ => false end.

(** operational_commands_lifecycle_check *)
Definition command_lifecycle (row : CommandRow) : bool :=
  let status := Command_Status row in
  let started := negb (is_null (Command_StartedAt row)) in
  let completed := negb (is_null (Command_CompletedAt row)) in
  let audited := negb (is_null (Command_AuditReference row)) in
  ((status =?? "queued") && negb started && negb completed && negb audited) ||
  ((status =?? "running") && started && negb completed && negb audited) ||
  (bool_decide (status ∈ ["succeeded"; "partial_success"; "failed"; "interrupted"]) && completed && audited).

(** operational_command_node_results_lifecycle_check *)
Definition result_lifecycle (row : ResultRow) : bool :=
  let status := Result_Status row in
  let started := negb (is_null (Result_StartedAt row)) in
  let completed := negb (is_null (Result_CompletedAt row)) in
  ((status =?? "pending") && negb started && negb completed) ||
  ((status =?? "running") && started && negb completed) ||
  (bool_decide (status ∈ ["succeeded"; "failed"; "skipped"]) && completed).

Definition observation_statuses : list string := ["not_run"; "succeeded"; "failed"].

Definition exists_in {A} (m : gmap string A) (id : string) : bool := bool_decide (is_Some (m !! id)).

(** The checks of a row, and its references. *)
Definition command_checks (row : CommandRow) : bool :=
  bool_decide (Command_Type row ∈ command_types) && command_lifecycle row &&
  bool_decide (Command_TargetScope row ∈ ["node"; "all_compatible_enabled_nodes"]) &&
  bool_decide (Command_ObservationStatus row ∈ observation_statuses).

Definition command_references (db : CommandDB) (row : CommandRow) : bool :=
  exists_in (clusters (base db)) (Command_ClusterID row) &&
  references (nodes (base db)) (Command_TargetNodeID row) &&
  references (snapshots (base db)) (Command_ObservationSnapshotID row) &&
  match Command_AuditReference row with
  | Some id => existsb (λ e, AuditEvent_ID e =?? id) (audit_events (base db))
  | None => true
  end.

Definition result_ok (db : CommandDB) (row : ResultRow) : bool :=
  result_lifecycle row && (0 <? Result_Position row) &&
  bool_decide (Result_ObservationStatus row ∈ observation_statuses) &&
  exists_in (commands db) (Result_CommandID row) && exists_in (nodes (base db)) (Result_NodeID row) &&
  references (snapshots (base db)) (Result_ObservationSnapshotID row).

Definition same_key (user key : string) (row : CommandRow) : bool :=
  (Command_RequestedBy row =?? user) && (Command_IdempotencyKey row =?? key).

(** [INSERT ... ON CONFLICT (requested_by,idempotency_key) DO NOTHING]: whether a row
    was inserted.  The checks come first, the primary key and the references last. *)
(* src/internal/database/dns_operational_commands.go:33-47 Store.CreateOperationalCommand *)
Definition insert_command (row : CommandRow) : OpTx bool :=
  tx db <- tx_get;
  tx_check (command_checks row) (TextError "insert operational command") >>>
  if exists_row (same_key (Command_RequestedBy row) (Command_IdempotencyKey row)) (commands db) then tx_ret false
  else
    tx_check (negb (exists_in (commands db) (Command_ID row)) && command_references db row)
      (TextError "insert operational command") >>>
    tx_modify (set_commands (<[Command_ID row := row]> (commands db))) >>>
    tx_ret true.

(** The primary key, and the unique (command_id, node_id). *)
Definition insert_result (row : ResultRow) : OpTx unit :=
  tx db <- tx_get;
  tx_check (negb (exists_in (results db) (Result_ID row)) &&
      negb (exists_row (λ r, (Result_CommandID r =?? Result_CommandID row) &&
                             (Result_NodeID r =?? Result_NodeID row)) (results db)) &&
      result_ok db row)
    (TextError "insert operational command node result") >>>
  tx_modify (set_results (<[Result_ID row := row]> (results db))).

Fixpoint tx_each {S A} (f : A → Txn S unit) (l : list A) : Txn S unit :=
  match l with
  | [] => tx_ret tt
  | x :: rest => f x >>> tx_each f rest
  end.

(** [UPDATE operational_commands SET f WHERE id=$1 AND p]: an error if there is no row. *)
Definition update_command (id : string) (p : CommandRow → bool) (f : CommandRow → CommandRow)
  (missing : error) : OpTx unit :=
  tx db <- tx_get;
  match commands db !! id with
  | Some row =>
      if p row then
        tx_check (command_checks (f row) && command_references db (f row)) (TextError "update operational command") >>>
        tx_modify (set_commands (<[id := f row]> (commands db)))
      else tx_fail missing
  | None => tx_fail missing
  end.

Definition update_result (id : string) (p : ResultRow → bool) (f : ResultRow → ResultRow)
  (missing : error) : OpTx unit :=
  tx db <- tx_get;
  match results db !! id with
  | Some row =>
      if p row then
        tx_check (result_ok db (f row)) (TextError "update operational command node result") >>>
        tx_modify (set_results (<[id := f row]> (results db)))
      else tx_fail missing
  | None => tx_fail missing
  end.

(** A nullable text column. *)
(* src/internal/database/inventory.go:52-57 nullableString *)
Definition nullableString (value : string) : option string := if value =?? "" then None else Some value.

(* src/internal/database/dns_operational_commands.go:311-316 defaultString *)
Definition defaultString (value fallback : string) : string := if value =?? "" then fallback else value.

Definition null_text (value : option string) : string := default "" value.

(** The rows in the order of the queue: [ORDER BY requested_at,id]. *)
Definition queue_before (a b : CommandRow) : bool :=
  (Command_RequestedAt a <? Command_RequestedAt b) ||
  ((Command_RequestedAt a =? Command_RequestedAt b) && String.ltb (Command_ID a) (Command_ID b)).

Definition in_queue_order (l : list CommandRow) : list CommandRow := sort_Slice queue_before l.

(** ** Reading commands *)

(** The JSON of the column [result], read back. *)
Definition stored_host_filter (r : HostFilterResult) : HostFilterResult :=
  mkHostFilterResult (HostFilterResult_Matched r) (HostFilterResult_Reason r) (HostFilterResult_Rules r)
    (HostFilterResult_ServiceName r) (HostFilterResult_CanonicalName r)
    (omit_empty (HostFilterResult_IPAddresses r)).

(* src/internal/database/dns_operational_commands.go:280-309 scanDNSOperation *)
Definition scanDNSOperation (db : CommandDB) (row : option CommandRow) : res Operation :=
  match (r ← row; c ← clusters (base db) !! Command_ClusterID r; Some (r, c)) with
  | None => Err (not_found "operational command")
  | Some (r, cluster) =>
      Ok (mkOperation (Command_ID r) (Command_ClusterID r) (Cluster_Name cluster) (Command_Type r)
            (mkTarget (Command_TargetScope r) (null_text (Command_TargetNodeID r))) (Command_Status r)
            (Command_RequestID r) (Command_IdempotencyKey r) (Command_RequestedBy r)
            (Command_InputFingerprint r) (default no_payload (Command_Payload r))
            (null_text (Command_AuditReference r)) (Command_RequestedAt r) (Command_StartedAt r)
            (Command_CompletedAt r) None (Command_ExcludedNodes r) false)
  end.

Definition node_result (row : ResultRow) (node : NodeRow) : NodeResult :=
  mkNodeResult (Result_ID row) (Result_NodeID row) (Node_Name (Record_Node (Row_Record node)))
    (Result_Position row) (Result_Status row) (Result_ErrorCode row) (Result_Resolvers row)
    (Result_HostFilter row) (Result_ObservationStatus row) (null_text (Result_ObservationSnapshotID row))
    (Result_ObservationErrorCode row) (Result_StartedAt row) (Result_CompletedAt row).

(** [ORDER BY r.position,r.id] *)
Definition result_before (a b : ResultRow) : bool :=
  (Result_Position a <? Result_Position b) ||
  ((Result_Position a =? Result_Position b) && String.ltb (Result_ID a) (Result_ID b)).

Definition result_rows (db : CommandDB) (commandID : string) : list ResultRow :=
  sort_Slice result_before (List.filter (λ r, Result_CommandID r =?? commandID) (rows (results db))).

(* src/internal/database/dns_operational_commands.go:240-278 Store.loadOperationalCommandNodes *)
Definition loadOperationalCommandNodes (db : CommandDB) (commandID : string) : list NodeResult :=
  omap (λ row, node_result row <$> nodes (base db) !! Result_NodeID row) (result_rows db commandID).

Definition with_node_results (results : list NodeResult) (o : Operation) : Operation :=
  mkOperation (Operation_ID o) (Operation_ClusterID o) (Operation_ClusterName o) (Operation_Command o)
    (Operation_Target o) (Operation_Status o) (Operation_RequestID o) (Operation_IdempotencyKey o)
    (Operation_RequestedBy o) (Operation_InputFingerprint o) (Operation_Payload o) (Operation_AuditReference o)
    (Operation_RequestedAt o) (Operation_StartedAt o) (Operation_CompletedAt o) (Some results)
    (Operation_ExcludedNodes o) (Operation_Duplicate o).

Definition load_operation (db : CommandDB) (row : option CommandRow) : res Operation :=
  let? o := scanDNSOperation db row in
  Ok (with_node_results (loadOperationalCommandNodes db (Operation_ID o)) o).

(* src/internal/database/dns_operational_commands.go:179-188 Store.OperationalCommandByID *)
Definition OperationalCommandByID (id : string) (db : CommandDB) : res Operation :=
  load_operation db (commands db !! id).

(* src/internal/database/dns_operational_commands.go:190-199 Store.operationalCommandByIdempotency *)
Definition operationalCommandByIdempotency (userID key : string) (db : CommandDB) : res Operation :=
  load_operation db (head (List.filter (same_key userID key) (rows (commands db)))).

(** The rows a query selects, read one by one. *)
Fixpoint load_each (db : CommandDB) (selected : list CommandRow) : res (list Operation) :=
  match selected with
  | [] => Ok []
  | row :: rest =>
      let? item := OperationalCommandByID (Command_ID row) db in
      let? items := load_each db rest in Ok (item :: items)
  end.

(* src/internal/database/dns_operational_commands.go:99-127 Store.RunningOperationalCommands *)
Definition RunningOperationalCommands (db : CommandDB) : res (list Operation) :=
  load_each db (in_queue_order (List.filter (λ row, (Command_Status row =?? "running") && is_dns row)
    (rows (commands db)))).

(* src/internal/database/dns_operational_commands.go:201-238 Store.ListOperationalCommands *)
Definition ListOperationalCommands (clusterID command : string) (limit : Z) (db : CommandDB) :
  res (list Operation) :=
  load_each db (take (Z.to_nat limit) (sort_Slice (λ a b, queue_before b a)
    (List.filter (λ row, (Command_ClusterID row =?? clusterID) && is_dns row &&
                         ((command =?? "") || (Command_Type row =?? command))) (rows (commands db))))).

(** ** DNS commands *)

(* src/internal/database/dns_operational_commands.go:34-44 Store.CreateOperationalCommand *)
Definition queued_row (o : Operation) : CommandRow :=
  mkCommandRow (Operation_ID o) (Operation_ClusterID o) (Operation_Command o)
    (Target_Scope (Operation_Target o)) (nullableString (Target_NodeID (Operation_Target o)))
    (Operation_Status o) (Operation_RequestedBy o) (Operation_RequestID o) (Operation_IdempotencyKey o)
    (Operation_InputFingerprint o) (Some (Operation_Payload o)) (Operation_ExcludedNodes o) "not_run" None ""
    None (Operation_RequestedAt o) None None.

(* src/internal/database/dns_operational_commands.go:56-60 Store.CreateOperationalCommand *)
Definition queued_result (commandID : string) (r : NodeResult) : ResultRow :=
  mkResultRow (NodeResult_ID r) commandID (NodeResult_NodeID r) (NodeResult_Position r) (NodeResult_Status r) ""
    None None "not_run" None "" None None.

Section methods.
Context {R : Runtime}.

(** The transaction; [false] when the key is taken. *)
(* src/internal/database/dns_operational_commands.go:33-66 Store.CreateOperationalCommand *)
Definition create_command (operation : Operation) (event : AuditEvent) : OpTx bool :=
  tx inserted <- insert_command (queued_row operation);
  if inserted then
    tx_each (λ r, insert_result (queued_result (Operation_ID operation) r))
      (elems (Operation_NodeResults operation)) >>>
    on_base (audit event) >>> tx_ret true
  else tx_ret false.

(* src/internal/database/dns_operational_commands.go:23-71 Store.CreateOperationalCommand *)
Definition CreateOperationalCommand (operation : Operation) (event : AuditEvent) (db : CommandDB) :
  res (Operation * bool) * CommandDB :=
  match commit (create_command operation event) db with
  | (Ok true, db') => (Ok (operation, true), db')
  | (Ok false, _) =>
      ((let? stored := operationalCommandByIdempotency (Operation_RequestedBy operation)
          (Operation_IdempotencyKey operation) db in Ok (stored, false)), db)
  | (Err e, _) => (Err e, db)
  end.

(* src/internal/database/dns_operational_commands.go:82-82 Store.ClaimOperationalCommand *)
Definition claimable (row : CommandRow) : bool := (Command_Status row =?? "queued") && is_dns row.

(* src/internal/database/dns_operational_commands.go:90-90 Store.ClaimOperationalCommand *)
Definition claimed_row (at_ : Time) (row : CommandRow) : CommandRow :=
  mkCommandRow (Command_ID row) (Command_ClusterID row) (Command_Type row) (Command_TargetScope row)
    (Command_TargetNodeID row) "running" (Command_RequestedBy row) (Command_RequestID row)
    (Command_IdempotencyKey row) (Command_InputFingerprint row) (Command_Payload row)
    (Command_ExcludedNodes row) (Command_ObservationStatus row) (Command_ObservationSnapshotID row)
    (Command_ObservationErrorCode row) (Command_AuditReference row) (Command_RequestedAt row) (Some at_)
    (Command_CompletedAt row).

(** The identifier of the row that was marked; [None] when the queue is empty. *)
(* src/internal/database/dns_operational_commands.go:79-95 Store.ClaimOperationalCommand *)
Definition claim_command (at_ : Time) : OpTx (option string) :=
  tx db <- tx_get;
  match in_queue_order (List.filter claimable (rows (commands db))) with
  | [] => tx_ret None
  | row :: _ =>
      update_command (Command_ID row) (λ row, Command_Status row =?? "queued") (claimed_row at_)
        (TextError "claim operational command") >>>
      tx_ret (Some (Command_ID row))
  end.

(** [Ok None]: domain.ErrNoWork.  The command is read after the transaction: when that
    fails it stays marked as running. *)
(* src/internal/database/dns_operational_commands.go:73-97 Store.ClaimOperationalCommand *)
Definition ClaimOperationalCommand (at_ : Time) (db : CommandDB) : res (option Operation) * CommandDB :=
  match commit (claim_command at_) db with
  | (Ok None, db') => (Ok None, db')
  | (Ok (Some id), db') => ((let? o := OperationalCommandByID id db' in Ok (Some o)), db')
  | (Err e, db') => (Err e, db')
  end.

(* src/internal/database/dns_operational_commands.go:138-143 Store.UpdateOperationalCommandNode *)
Definition updated_result (r : NodeResult) (row : ResultRow) : ResultRow :=
  mkResultRow (Result_ID row) (Result_CommandID row) (Result_NodeID row) (Result_Position row)
    (NodeResult_Status r) (NodeResult_ErrorCode r) (omit_empty (NodeResult_ResolverResults r))
    (stored_host_filter <$> NodeResult_HostFilterResult r)
    (defaultString (NodeResult_ObservationStatus r) "not_run")
    (nullableString (NodeResult_ObservationSnapshotID r)) (NodeResult_ObservationErrorCode r)
    (NodeResult_StartedAt r) (NodeResult_CompletedAt r).

(* src/internal/database/dns_operational_commands.go:129-151 Store.UpdateOperationalCommandNode *)
Definition UpdateOperationalCommandNode (commandID : string) (r : NodeResult) : OpTx unit :=
  update_result (NodeResult_ID r) (λ row, Result_CommandID row =?? commandID) (updated_result r)
    (conflict "the operational command node result was not found").

(* src/internal/database/dns_operational_commands.go:163-166 Store.FinishOperationalCommand *)
Definition finished_row (o : Operation) (row : CommandRow) : CommandRow :=
  mkCommandRow (Command_ID row) (Command_ClusterID row) (Command_Type row) (Command_TargetScope row)
    (Command_TargetNodeID row) (Operation_Status o) (Command_RequestedBy row) (Command_RequestID row)
    (Command_IdempotencyKey row) (Command_InputFingerprint row) None
    (Command_ExcludedNodes row) (Command_ObservationStatus row) (Command_ObservationSnapshotID row)
    (Command_ObservationErrorCode row) (Some (Operation_AuditReference o)) (Command_RequestedAt row)
    (Command_StartedAt row) (Operation_CompletedAt o).

Definition is_running (row : CommandRow) : bool := Command_Status row =?? "running".

(* src/internal/database/dns_operational_commands.go:153-177 Store.FinishOperationalCommand *)
Definition FinishOperationalCommand (o : Operation) (event : AuditEvent) : OpTx unit :=
  on_base (audit event) >>>
  update_command (Operation_ID o) is_running (finished_row o)
    (conflict "the operational command is no longer running").

(** ** DHCP operations *)

(* src/internal/database/operational_commands.go:157-159 errorsForOperationResultCount *)
Definition errorsForOperationResultCount : error :=
  NewError ErrorValidation "a DHCP operation must have exactly one node result".

(** The columns a DHCP operation does not set have their defaults. *)
(* src/internal/database/operational_commands.go:31-38 Store.BeginDHCPOperation *)
Definition dhcp_row (o : DHCPOperation) : CommandRow :=
  mkCommandRow (DHCPOperation_ID o) (DHCPOperation_ClusterID o) (DHCPOperation_Command o) "node" None
    (DHCPOperation_Status o) (DHCPOperation_RequestedBy o) (DHCPOperation_RequestID o)
    (DHCPOperation_IdempotencyKey o) "" None (Some []) (DHCPOperation_ObservationStatus o) None "" None
    (DHCPOperation_RequestedAt o) (Some (DHCPOperation_RequestedAt o)) None.

(* src/internal/database/operational_commands.go:54-57 Store.BeginDHCPOperation *)
Definition dhcp_result_row (commandID : string) (r : DHCPOperationNodeResult) : ResultRow :=
  mkResultRow (DHCPOperationNodeResult_ID r) commandID (DHCPOperationNodeResult_NodeID r) 1
    (DHCPOperationNodeResult_Status r) (DHCPOperationNodeResult_ErrorCode r) None None "not_run" None ""
    (Some (DHCPOperationNodeResult_StartedAt r)) None.

(** A null started_at does not scan into a time. *)
(* src/internal/database/operational_commands.go:133-155 scanDHCPOperation *)
Definition scanDHCPOperation (db : CommandDB) (row : CommandRow) (r : ResultRow) : option (res DHCPOperation) :=
  cluster ← clusters (base db) !! Command_ClusterID row;
  node ← nodes (base db) !! Result_NodeID r;
  Some match Result_StartedAt r with
  | None => Err (TextError "scan DHCP operation")
  | Some started =>
      Ok (mkDHCPOperation (Command_ID row) (Command_ClusterID row) (Cluster_Name cluster) (Command_Type row)
            (Command_Status row) (Command_RequestID row) (Command_IdempotencyKey row) (Command_RequestedBy row)
            (Command_ObservationStatus row) (null_text (Command_ObservationSnapshotID row))
            (Command_ObservationErrorCode row) (null_text (Command_AuditReference row))
            (Command_RequestedAt row) (Command_CompletedAt row)
            (Some [mkDHCPOperationNodeResult (Result_ID r) (Result_NodeID r)
                     (Node_Name (Record_Node (Row_Record node))) (Result_Status r) (Result_ErrorCode r) started
                     (Result_CompletedAt r)]) false)
  end.

(** The join of the two tables, in no particular order. *)
Definition command_results (db : CommandDB) (p : CommandRow → ResultRow → bool) : list (CommandRow * ResultRow) :=
  List.filter (λ '(row, r), p row r)
    (omap (λ r, row ← commands db !! Result_CommandID r; Some (row, r)) (rows (results db))).

Definition dhcp_by_key (userID key : string) (db : CommandDB) : res DHCPOperation :=
  match omap (λ '(row, r), scanDHCPOperation db row r)
          (command_results db (λ row _, same_key userID key row)) with
  | found :: _ => found
  | [] => Err (TextError "scan DHCP operation")
  end.

(* src/internal/database/operational_commands.go:30-62 Store.BeginDHCPOperation *)
Definition begin_dhcp (o : DHCPOperation) (event : AuditEvent) : OpTx bool :=
  tx inserted <- insert_command (dhcp_row o);
  if inserted then
    match elems (DHCPOperation_NodeResults o) with
    | [r] => insert_result (dhcp_result_row (DHCPOperation_ID o) r) >>> on_base (audit event) >>> tx_ret true
    | _ => tx_fail errorsForOperationResultCount
    end
  else tx_ret false.

(* src/internal/database/operational_commands.go:24-67 Store.BeginDHCPOperation *)
Definition BeginDHCPOperation (o : DHCPOperation) (event : AuditEvent) (db : CommandDB) :
  res (DHCPOperation * bool) * CommandDB :=
  match commit (begin_dhcp o event) db with
  | (Ok true, db') => (Ok (o, true), db')
  | (Ok false, _) =>
      ((let? stored := dhcp_by_key (DHCPOperation_RequestedBy o) (DHCPOperation_IdempotencyKey o) db in
        Ok (stored, false)), db)
  | (Err e, _) => (Err e, db)
  end.

(* src/internal/database/operational_commands.go:82-88 Store.FinishDHCPOperation *)
Definition finished_dhcp_row (o : DHCPOperation) (row : CommandRow) : CommandRow :=
  mkCommandRow (Command_ID row) (Command_ClusterID row) (Command_Type row) (Command_TargetScope row)
    (Command_TargetNodeID row) (DHCPOperation_Status o) (Command_RequestedBy row) (Command_RequestID row)
    (Command_IdempotencyKey row) (Command_InputFingerprint row) (Command_Payload row)
    (Command_ExcludedNodes row) (DHCPOperation_ObservationStatus o)
    (nullableString (DHCPOperation_ObservationSnapshotID o)) (DHCPOperation_ObservationErrorCode o)
    (Some (DHCPOperation_AuditReference o)) (Command_RequestedAt row) (Command_StartedAt row)
    (DHCPOperation_CompletedAt o).

(* src/internal/database/operational_commands.go:97-100 Store.FinishDHCPOperation *)
Definition finished_dhcp_result (n : DHCPOperationNodeResult) (row : ResultRow) : ResultRow :=
  mkResultRow (Result_ID row) (Result_CommandID row) (Result_NodeID row) (Result_Position row)
    (DHCPOperationNodeResult_Status n) (DHCPOperationNodeResult_ErrorCode n) (Result_Resolvers row)
    (Result_HostFilter row) (Result_ObservationStatus row) (Result_ObservationSnapshotID row)
    (Result_ObservationErrorCode row) (Result_StartedAt row) (DHCPOperationNodeResult_CompletedAt n).

(* src/internal/database/operational_commands.go:69-111 Store.FinishDHCPOperation *)
Definition FinishDHCPOperation (o : DHCPOperation) (event : AuditEvent) : OpTx unit :=
  match elems (DHCPOperation_NodeResults o) with
  | [n] =>
      on_base (audit event) >>>
      update_command (DHCPOperation_ID o) is_running (finished_dhcp_row o)
        (conflict "the DHCP operation is no longer running") >>>
      update_result (DHCPOperationNodeResult_ID n)
        (λ row, (Result_CommandID row =?? DHCPOperation_ID o) && (Result_Status row =?? "running"))
        (finished_dhcp_result n)
        (conflict "the DHCP operation node result is no longer running")
  | _ => tx_fail errorsForOperationResultCount
  end.

(* src/internal/database/operational_commands.go:113-131 Store.ListDHCPOperations *)
Definition ListDHCPOperations (nodeID : string) (limit : Z) (db : CommandDB) : res (list DHCPOperation) :=
  let joined := omap (λ '(row, r), item ← scanDHCPOperation db row r; Some (row, item))
    (command_results db (λ _ r, Result_NodeID r =?? nodeID)) in
  let selected := take (Z.to_nat limit) (sort_Slice (λ a b, queue_before b.1 a.1) joined) in
  foldr (λ item rest, let? o := item.2 in let? l := rest in Ok (o :: l)) (Ok []) selected.
End methods.
