(* ===== verification/OperationsHistory.v ===== *)
(** * Histories of operational commands

    The invariant of the command tables under every sequence of store calls, and what it
    gives the queue: a command is claimed once, is never queued again, and an
    idempotency key names one command for ever. *)

From S2P Require Import Prelude GoRuntime Json Domain AuditMetadata ControlModel Store StoreRecords StoreControl.
From S2P Require Import StoreInvariant StoreHistory InventoryModel OperationsModel Operations OperationsStore.

(** ** Calls *)

Inductive command_op : Type :=
| OpCreateCommand (operation : Operation) (event : AuditEvent)
| OpClaimCommand (at_ : Time)
| OpUpdateCommandNode (commandID : string) (result : NodeResult)
| OpFinishCommand (operation : Operation) (event : AuditEvent)
| OpBeginDHCP (operation : DHCPOperation) (event : AuditEvent)
| OpFinishDHCP (operation : DHCPOperation) (event : AuditEvent)
(* any call on the other tables *)
| OpStore (op : store_op).

Section history.
Context {R : Runtime} {C : Collation}.

Definition apply_command_op (op : command_op) (db : CommandDB) : CommandDB :=
  match op with
  | OpCreateCommand o e => (CreateOperationalCommand o e db).2
  | OpClaimCommand t => (ClaimOperationalCommand t db).2
  | OpUpdateCommandNode id r => (commit (UpdateOperationalCommandNode id r) db).2
  | OpFinishCommand o e => (commit (FinishOperationalCommand o e) db).2
  | OpBeginDHCP o e => (BeginDHCPOperation o e db).2
  | OpFinishDHCP o e => (commit (FinishDHCPOperation o e) db).2
  | OpStore op => set_base (apply_op op (base db)) db
  end.

Definition run_commands (ops : list command_op) (db : CommandDB) : CommandDB :=
  foldl (flip apply_command_op) db ops.

(** The command a call marks as running. *)
Definition claimed_by (op : command_op) (db : CommandDB) : option string :=
  match op with
  | OpClaimCommand t => match (commit (claim_command t) db).1 with Ok id => id | Err _ => None end
  | _ => None
  end.

Fixpoint claims (ops : list command_op) (db : CommandDB) : list string :=
  match ops with
  | [] => []
  | op :: rest => option_list (claimed_by op db) ++ claims rest (apply_command_op op db)
  end.

(** ** Clusters are never deleted *)

Definition grows (db db' : DB) : Prop := ∀ id, is_Some (clusters db !! id) → is_Some (clusters db' !! id).

Lemma grows_same db db' : clusters db' = clusters db → grows db db'.
Proof. intros H id. by rewrite H. Qed.

Lemma insert_tasks_clusters id tasks : ∀ db u db', insert_tasks id tasks db = Ok (u, db') →
  clusters db' = clusters db.
Proof.
  induction tasks as [|t tasks IH]; intros db u db' H; cbn [insert_tasks] in H; tx_step H; [done|].
  match goal with H : insert_tasks _ _ _ = _ |- _ => apply IH in H; by rewrite H end.
Qed.

Lemma audit_interrupted_clusters items : ∀ ids at_ db u db', audit_interrupted items ids at_ db = Ok (u, db') →
  clusters db' = clusters db.
Proof.
  induction items as [|d items IH]; intros ids at_ db u db' H; cbn [audit_interrupted] in H; tx_step H; try done.
  match goal with H : audit_interrupted _ _ _ _ = _ |- _ => apply IH in H; by rewrite H end.
Qed.

Ltac follow :=
  repeat match goal with
  | H : versioned_node _ _ _ = Ok _ |- _ => apply versioned_node_Ok in H as [-> _]
  | H : locked_revision _ _ = Ok _ |- _ => apply locked_revision_Ok in H as (-> & _)
  | H : locked_deployment _ _ = Ok _ |- _ => apply locked_deployment_Ok in H as [-> _]
  | H : scan_bool _ _ = Ok _ |- _ => apply scan_bool_Ok in H as [-> _]
  | H : insert_tasks _ _ _ = Ok _ |- _ => apply insert_tasks_clusters in H
  | H : audit_interrupted _ _ _ _ = Ok _ |- _ => apply audit_interrupted_clusters in H
  end.

Tactic Notation "grow" reference(op) := lazymatch goal with
  | |- grows ?db (commit ?t ?db).2 =>
      let a := fresh "a" in let db' := fresh "db'" in let H := fresh "H" in
      unfold commit; destruct (t db) as [[a db']|] eqn:H; [|by intros ?]; cbn [fst snd];
      unfold op in H; tx_step H; follow; tx_tables; try (apply grows_same; tx_tables; congruence)
  end.

Lemma apply_op_grows op db : grows db (apply_op op db).
Proof.
  destruct op; cbn [apply_op].
  - grow CreateCluster. intros id H'. apply lookup_insert_is_Some'. by right.
  - grow UpdateCluster. intros id H'. apply lookup_insert_is_Some'. by right.
  - grow CreateNode.
  - grow UpdateNode.
  - grow SoftDeleteNode.
  - grow UpdateNodeHealth.
  - grow RecordNodeTestResult.
  - grow SetNodeMaintenance.
  - grow SaveObservation.
  - grow ImportDraft.
  - grow UpdateConfigurationDraft.
  - grow PublishRevision.
  - grow SetRevisionArchived.
  - grow DeleteUnusedRevision.
  - grow CreateDeployment.
  - grow SetDeploymentArchived.
  - grow DeleteUnstartedDeployment.
  - grow RequestDeploymentCancel.
  - grow ClaimDeployment.
  - grow UpdateDeploymentNode.
  - grow SetDeploymentRunning.
  - grow MarkNodeApplied.
  - grow FinishDeployment. intros id H'. by apply lookup_alter_is_Some.
  - grow InterruptDeployments.
  - grow UpsertDriftEvent.
  - grow ResolveNodeDrift.
  - grow UpdateDriftReconciliation.
  - grow UpdateNodeConvergence.
Qed.

(** ** The invariant *)

Record CommandsWellFormed (db : CommandDB) : Prop := {
  cw_command_key id row : commands db !! id = Some row → Command_ID row = id;
  cw_result_key id row : results db !! id = Some row → Result_ID row = id;
  cw_idempotency id row id' row' : commands db !! id = Some row → commands db !! id' = Some row' →
    Command_RequestedBy row = Command_RequestedBy row' →
    Command_IdempotencyKey row = Command_IdempotencyKey row' → id = id';
  cw_lifecycle id row : commands db !! id = Some row → command_checks row = true;
  cw_result_lifecycle id row : results db !! id = Some row → result_lifecycle row = true ∧ 0 < Result_Position row;
  cw_owner id row : results db !! id = Some row → is_Some (commands db !! Result_CommandID row);
  cw_one_result id row id' row' : results db !! id = Some row → results db !! id' = Some row' →
    Result_CommandID row = Result_CommandID row' → Result_NodeID row = Result_NodeID row' → id = id'
}.

Lemma CommandsWellFormed_empty : CommandsWellFormed empty_CommandDB.
Proof. split; cbn; intros *; rewrite lookup_empty; done. Qed.

(** ** How rows change *)

Definition identity (row : CommandRow) :=
  (Command_ID row, Command_ClusterID row, Command_Type row, Command_TargetScope row, Command_TargetNodeID row,
   Command_RequestedBy row, Command_RequestID row, Command_IdempotencyKey row, Command_InputFingerprint row,
   Command_ExcludedNodes row, Command_RequestedAt row).

Definition in_progress (row : CommandRow) : Prop :=
  Command_Status row = "queued" ∨ Command_Status row = "running".

(** A later version of a row: its identity is kept, it is not queued again, and a
    finished row is final. *)
Definition later_row (a b : CommandRow) : Prop :=
  identity a = identity b ∧ (Command_Status a ≠ "queued" → Command_Status b ≠ "queued") ∧
  (¬ in_progress a → b = a).

#[global] Instance later_row_preorder : PreOrder later_row.
Proof.
  split; [by intros a|]. intros a b c (H1 & H2 & H3) (H1' & H2' & H3').
  split; [by rewrite H1|]. split; [auto|]. intros Ha. specialize (H3 Ha) as ->. auto.
Qed.

(** Commands are never deleted, and neither are clusters. *)
Record later (db db' : CommandDB) : Prop := {
  later_clusters : grows (base db) (base db');
  later_rows id row : commands db !! id = Some row →
    ∃ row', commands db' !! id = Some row' ∧ later_row row row'
}.

#[global] Instance later_preorder : PreOrder later.
Proof.
  split; [intros db; split; [by intros id|intros id row H; by exists row]|].
  intros a b c [C1 R1] [C2 R2]. split; [intros id H; auto|]. intros id row Hrow.
  destruct (R1 _ _ Hrow) as (row1 & Hrow1 & L1). destruct (R2 _ _ Hrow1) as (row2 & Hrow2 & L2).
  exists row2. split; [done|]. by etransitivity.
Qed.

Lemma later_same db db' : grows (base db) (base db') → commands db' = commands db → later db db'.
Proof. intros H E. split; [done|]. rewrite E. intros id row Hrow. by exists row. Qed.

(** ** Transactions that keep the invariant *)

Definition keeps {A} (t : OpTx A) : Prop := ∀ db a db', t db = Ok (a, db') →
  CommandsWellFormed db → CommandsWellFormed db' ∧ later db db'.

Lemma keeps_bind {A B} (t : OpTx A) (f : A → OpTx B) : keeps t → (∀ a, keeps (f a)) → keeps (tx_bind t f).
Proof.
  intros Ht Hf db b db' (a & db1 & H1 & H2)%tx_bind_Ok Hwf.
  destruct (Ht _ _ _ H1 Hwf) as [Hwf1 L1]. destruct (Hf _ _ _ _ H2 Hwf1) as [Hwf2 L2].
  split; [done|]. by etransitivity.
Qed.

Lemma keeps_ret {A} (a : A) : keeps (tx_ret a).
Proof. by intros db b db' [-> ->]%tx_ret_Ok. Qed.
Lemma keeps_fail {A} e : keeps (tx_fail (A := A) e).
Proof. by intros db b db'. Qed.

Lemma keeps_get {A} (f : CommandDB → OpTx A) : (∀ db, keeps (f db)) → keeps (tx_bind tx_get f).
Proof. intros Hf. apply keeps_bind; [|done]. by intros db a db' [-> ->]%tx_get_Ok. Qed.

Lemma keeps_audit event : keeps (on_base (audit event)).
Proof.
  intros db a db'. unfold on_base. destruct (audit event (base db)) as [[b base']|] eqn:E; [|done].
  intros [= <- <-] Hwf. apply audit_Ok in E as [l ->]. split; [by destruct Hwf; split|].
  apply later_same; [by apply grows_same|done].
Qed.

Lemma keeps_each {A} (f : A → OpTx unit) l : (∀ x, keeps (f x)) → keeps (tx_each f l).
Proof. intros Hf. induction l as [|x l IH]; cbn; [apply keeps_ret|]. by apply keeps_bind. Qed.

(** ** The statements *)

(** Writing one row. *)
Lemma WellFormed_set_command db row : CommandsWellFormed db → command_checks row = true →
  (∀ id r, id ≠ Command_ID row → commands db !! id = Some r → Command_RequestedBy r = Command_RequestedBy row →
    Command_IdempotencyKey r ≠ Command_IdempotencyKey row) →
  CommandsWellFormed (set_commands (<[Command_ID row := row]> (commands db)) db).
Proof.
  intros Hwf Hchecks Hother. split; cbn [commands results base set_commands].
  - intros id r [[<- <-]|[_ Hr]]%lookup_insert_Some; [done|]. by apply (cw_command_key _ Hwf).
  - apply (cw_result_key _ Hwf).
  - intros id r id' r' [[<- <-]|[Hne Hr]]%lookup_insert_Some [[<- <-]|[Hne' Hr']]%lookup_insert_Some Hu Hk.
    + done.
    + by destruct (Hother _ _ (not_eq_sym Hne') Hr').
    + by destruct (Hother _ _ (not_eq_sym Hne) Hr).
    + by apply (cw_idempotency _ Hwf _ _ _ _ Hr Hr').
  - intros id r [[<- <-]|[_ Hr]]%lookup_insert_Some; [done|]. by apply (cw_lifecycle _ Hwf id).
  - apply (cw_result_lifecycle _ Hwf).
  - intros id r Hr. apply lookup_insert_is_Some'. right. by apply (cw_owner _ Hwf id).
  - apply (cw_one_result _ Hwf).
Qed.

Lemma WellFormed_set_result db row : CommandsWellFormed db → result_ok db row = true →
  (∀ id r, id ≠ Result_ID row → results db !! id = Some r → Result_CommandID r = Result_CommandID row →
    Result_NodeID r ≠ Result_NodeID row) →
  CommandsWellFormed (set_results (<[Result_ID row := row]> (results db)) db).
Proof.
  intros Hwf Hok Hother. unfold result_ok, exists_in in Hok.
  repeat (apply andb_true_iff in Hok as [Hok ?]). bool_simp. split; cbn [commands results base set_results].
  - apply (cw_command_key _ Hwf).
  - intros id r [[<- <-]|[_ Hr]]%lookup_insert_Some; [done|]. by apply (cw_result_key _ Hwf).
  - apply (cw_idempotency _ Hwf).
  - apply (cw_lifecycle _ Hwf).
  - intros id r [[<- <-]|[_ Hr]]%lookup_insert_Some; [by split; [|lia]|]. by apply (cw_result_lifecycle _ Hwf id).
  - intros id r [[<- <-]|[_ Hr]]%lookup_insert_Some; [done|]. by apply (cw_owner _ Hwf id).
  - intros id r id' r' [[<- <-]|[Hne Hr]]%lookup_insert_Some [[<- <-]|[Hne' Hr']]%lookup_insert_Some Hc Hn.
    + done.
    + by destruct (Hother _ _ (not_eq_sym Hne') Hr').
    + by destruct (Hother _ _ (not_eq_sym Hne) Hr).
    + by apply (cw_one_result _ Hwf _ _ _ _ Hr Hr').
Qed.

Lemma insert_command_keeps row : keeps (insert_command row).
Proof.
  intros db inserted db' (? & ? & [-> ->]%tx_get_Ok & H)%tx_bind_Ok Hwf.
  apply tx_bind_Ok in H as (? & ? & [Hchecks ->]%tx_check_Ok & H).
  destruct (exists_row _ _) eqn:Hkey; [by apply tx_ret_Ok in H as [_ ->]|].
  apply tx_bind_Ok in H as (? & ? & [Hok ->]%tx_check_Ok & H).
  apply tx_bind_Ok in H as (? & ? & ->%tx_modify_Ok & [_ ->]%tx_ret_Ok).
  apply andb_true_iff in Hok as [Hfresh _]. unfold exists_in in Hfresh.
  apply negb_true_iff, bool_decide_eq_false, eq_None_not_Some in Hfresh.
  rewrite exists_row_false in Hkey. unfold same_key in Hkey. split.
  - apply WellFormed_set_command; [done..|]. intros id r _ Hr Huser Hsame. specialize (Hkey _ _ Hr).
    rewrite Huser, Hsame in Hkey. by rewrite !bool_decide_eq_true_2 in Hkey.
  - split; [by apply grows_same|]. intros id r Hr. exists r. split; [|done]. cbn.
    rewrite lookup_insert_ne; [done|]. intros Heq. congruence.
Qed.

Lemma insert_result_keeps row : keeps (insert_result row).
Proof.
  intros db [] db' (? & ? & [-> ->]%tx_get_Ok & H)%tx_bind_Ok Hwf.
  apply tx_bind_Ok in H as (? & ? & [Hok ->]%tx_check_Ok & ->%tx_modify_Ok).
  apply andb_true_iff in Hok as [[Hfresh Hunique]%andb_true_iff Hok].
  apply negb_true_iff in Hunique. rewrite exists_row_false in Hunique.
  split; [|by apply later_same; [apply grows_same|]].
  apply WellFormed_set_result; [done..|]. intros id r _ Hr Hc Hn. specialize (Hunique _ _ Hr).
  rewrite Hc, Hn in Hunique. by rewrite !bool_decide_eq_true_2 in Hunique.
Qed.

(** An update of one command. *)
Lemma update_command_keeps id p f missing :
  (∀ row, p row = true → command_checks (f row) = true → later_row row (f row)) →
  keeps (update_command id p f missing).
Proof.
  intros Hf db [] db' (? & ? & [-> ->]%tx_get_Ok & H)%tx_bind_Ok Hwf.
  destruct (commands db !! id) as [row|] eqn:Hrow; [|done]. destruct (p row) eqn:Hp; [|done].
  apply tx_bind_Ok in H as (? & ? & [[Hchecks _]%andb_true_iff ->]%tx_check_Ok & ->%tx_modify_Ok).
  specialize (Hf _ Hp Hchecks). pose proof Hf as (Hid & _ & _). unfold identity in Hid.
  assert (Hkey : id = Command_ID (f row)) by (apply (cw_command_key _ Hwf) in Hrow; congruence). split.
  - rewrite Hkey. apply WellFormed_set_command; [done..|]. rewrite <- Hkey. intros id' r Hne Hr Hu Hk.
    apply Hne. apply (cw_idempotency _ Hwf _ _ _ _ Hr Hrow); congruence.
  - split; [by apply grows_same|]. intros id' r Hr. cbn. destruct (decide (id = id')) as [<-|Hne].
    + exists (f row). rewrite lookup_insert_eq. simplify_eq. done.
    + exists r. by rewrite lookup_insert_ne.
Qed.

Definition same_result (a b : ResultRow) : Prop :=
  Result_ID a = Result_ID b ∧ Result_CommandID a = Result_CommandID b ∧ Result_NodeID a = Result_NodeID b.

Lemma update_result_keeps id p f missing : (∀ row, same_result (f row) row) →
  keeps (update_result id p f missing).
Proof.
  intros Hf db [] db' (? & ? & [-> ->]%tx_get_Ok & H)%tx_bind_Ok Hwf.
  destruct (results db !! id) as [row|] eqn:Hrow; [|done]. destruct (p row); [|done].
  apply tx_bind_Ok in H as (? & ? & [Hok ->]%tx_check_Ok & ->%tx_modify_Ok).
  destruct (Hf row) as (Hid & Hc & Hn).
  assert (Hkey : id = Result_ID (f row)) by (apply (cw_result_key _ Hwf) in Hrow; congruence).
  split; [|by apply later_same; [apply grows_same|]].
  rewrite Hkey. apply WellFormed_set_result; [done..|]. rewrite <- Hkey. intros id' r Hne Hr Hc' Hn'.
  apply Hne. apply (cw_one_result _ Hwf _ _ _ _ Hr Hrow); congruence.
Qed.

(** ** The methods *)

Lemma keeps_commit {A} (t : OpTx A) db : keeps t → CommandsWellFormed db →
  CommandsWellFormed (commit t db).2 ∧ later db (commit t db).2.
Proof.
  intros Ht Hwf. unfold commit. destruct (t db) as [[a db']|] eqn:E; [by eapply Ht|done].
Qed.

Lemma create_command_keeps o event : keeps (create_command o event).
Proof.
  unfold create_command. apply keeps_bind; [apply insert_command_keeps|]. intros []; [|apply keeps_ret].
  apply keeps_bind; [|intros _; apply keeps_bind; [apply keeps_audit|intros _; apply keeps_ret]].
  apply keeps_each. intros r. apply insert_result_keeps.
Qed.

Lemma claim_command_keeps at_ : keeps (claim_command at_).
Proof.
  apply keeps_get. intros db. destruct (in_queue_order _) as [|row l]; [apply keeps_ret|].
  apply keeps_bind; [|intros _; apply keeps_ret]. apply update_command_keeps.
  intros r Hr _. bool_simp. split; [done|]. split; [done|]. intros H. destruct H. by left.
Qed.

(** A row that was checked and has an audit reference is final. *)
Lemma audited_not_queued row id : command_checks row = true → Command_AuditReference row = Some id →
  Command_Status row ≠ "queued".
Proof.
  unfold command_checks, command_lifecycle. intros H Ha Hq. rewrite Ha, Hq in H. cbn in H.
  do 2 apply andb_true_iff in H as [H _]. apply andb_true_iff in H as [_ H].
  by rewrite !andb_false_r in H.
Qed.

Lemma finish_keeps id f missing :
  (∀ row, identity row = identity (f row) ∧ is_Some (Command_AuditReference (f row))) →
  keeps (update_command id is_running f missing).
Proof.
  intros Hf. apply update_command_keeps. intros row Hrun Hchecks. unfold is_running in Hrun. bool_simp.
  destruct (Hf row) as [Hid [audit Haudit]]. split; [done|]. split.
  - intros _. by eapply audited_not_queued.
  - intros H. destruct H. by right.
Qed.

Lemma FinishOperationalCommand_keeps o event : keeps (FinishOperationalCommand o event).
Proof. apply keeps_bind; [apply keeps_audit|intros _]. apply finish_keeps. intros row. split; [done|by eexists]. Qed.

Lemma FinishDHCPOperation_keeps o event : keeps (FinishDHCPOperation o event).
Proof.
  unfold FinishDHCPOperation. destruct (elems _) as [|n [|]]; try apply keeps_fail.
  apply keeps_bind; [apply keeps_audit|intros _]. apply keeps_bind.
  - apply finish_keeps. intros row. split; [done|by eexists].
  - intros _. by apply update_result_keeps.
Qed.

Lemma begin_dhcp_keeps o event : keeps (begin_dhcp o event).
Proof.
  unfold begin_dhcp. apply keeps_bind; [apply insert_command_keeps|]. intros []; [|apply keeps_ret].
  destruct (elems _) as [|n [|]]; try apply keeps_fail.
  apply keeps_bind; [apply insert_result_keeps|intros _].
  apply keeps_bind; [apply keeps_audit|intros _; apply keeps_ret].
Qed.

(** The database after a call that commits and then reads. *)
Lemma CreateOperationalCommand_db o event db : (CreateOperationalCommand o event db).2 = db ∨
  (CreateOperationalCommand o event db).2 = (commit (create_command o event) db).2.
Proof. unfold CreateOperationalCommand. destruct (commit _ db) as [[[]|] db']; auto. Qed.

Lemma BeginDHCPOperation_db o event db : (BeginDHCPOperation o event db).2 = db ∨
  (BeginDHCPOperation o event db).2 = (commit (begin_dhcp o event) db).2.
Proof. unfold BeginDHCPOperation. destruct (commit _ db) as [[[]|] db']; auto. Qed.

Lemma ClaimOperationalCommand_db at_ db :
  (ClaimOperationalCommand at_ db).2 = (commit (claim_command at_) db).2.
Proof. unfold ClaimOperationalCommand. by destruct (commit _ db) as [[[]|] db']. Qed.

Lemma apply_command_op_keeps op db : CommandsWellFormed db →
  CommandsWellFormed (apply_command_op op db) ∧ later db (apply_command_op op db).
Proof.
  intros Hwf. destruct op; cbn [apply_command_op].
  - destruct (CreateOperationalCommand_db operation event db) as [-> | ->]; [done|].
    apply keeps_commit; [apply create_command_keeps|done].
  - rewrite ClaimOperationalCommand_db. apply keeps_commit; [apply claim_command_keeps|done].
  - apply keeps_commit; [by apply update_result_keeps|done].
  - apply keeps_commit; [apply FinishOperationalCommand_keeps|done].
  - destruct (BeginDHCPOperation_db operation event db) as [-> | ->]; [done|].
    apply keeps_commit; [apply begin_dhcp_keeps|done].
  - apply keeps_commit; [apply FinishDHCPOperation_keeps|done].
  - split; [by destruct Hwf; split|]. apply later_same; [apply apply_op_grows|done].
Qed.

Lemma run_commands_keeps ops : ∀ db, CommandsWellFormed db →
  CommandsWellFormed (run_commands ops db) ∧ later db (run_commands ops db).
Proof.
  unfold run_commands. induction ops as [|op ops IH]; intros db Hwf; cbn; [done|].
  destruct (apply_command_op_keeps op db Hwf) as [Hwf1 L1]. destruct (IH _ Hwf1) as [Hwf2 L2].
  split; [done|]. by etransitivity.
Qed.

(** Whatever the history of calls on the store, failed ones included, the tables of operational commands keep their
    invariant: an idempotency key of a user names one command, every command and every result is in a state of its
    life cycle with the times and the audit reference of that state, and a command has one result per node. *)
Theorem command_history_WellFormed ops : CommandsWellFormed (run_commands ops empty_CommandDB).
Proof. apply run_commands_keeps, CommandsWellFormed_empty. Qed.

(** ** Claims *)

(** A command that is queued no more. *)
Definition spent (db : CommandDB) (id : string) : Prop :=
  ∃ row, commands db !! id = Some row ∧ Command_Status row ≠ "queued".

Lemma later_spent db db' id : later db db' → spent db id → spent db' id.
Proof.
  intros L (row & Hrow & Hs). destruct (later_rows _ _ L _ _ Hrow) as (row' & Hrow' & _ & Hq & _). exists row'. auto.
Qed.

Lemma claim_command_Ok at_ db id db' : claim_command at_ db = Ok (Some id, db') → CommandsWellFormed db →
  ∃ row, commands db !! id = Some row ∧ claimable row = true ∧
    db' = set_commands (<[id := claimed_row at_ row]> (commands db)) db.
Proof.
  intros (? & ? & [-> ->]%tx_get_Ok & H)%tx_bind_Ok Hwf.
  destruct (in_queue_order _) as [|row l] eqn:Hl; [by apply tx_ret_Ok in H as [? _]|].
  assert (Hrow : row ∈ in_queue_order (List.filter claimable (rows (commands db)))) by (rewrite Hl; left).
  unfold in_queue_order in Hrow.
  apply elem_of_sort_Slice, list_elem_of_In, filter_In in Hrow as [Hrow Hclaim].
  apply list_elem_of_In, elem_of_rows in Hrow as [k Hk].
  pose proof (cw_command_key _ Hwf _ _ Hk) as <-.
  apply tx_bind_Ok in H as (? & ? & H & [[= ->] ->]%tx_ret_Ok).
  apply tx_bind_Ok in H as (? & ? & [-> ->]%tx_get_Ok & H). rewrite Hk in H.
  destruct (Command_Status row =?? "queued"); [|done].
  apply tx_bind_Ok in H as (? & ? & [_ ->]%tx_check_Ok & ->%tx_modify_Ok). eauto.
Qed.

Lemma claimed_by_spent op db id : CommandsWellFormed db → claimed_by op db = Some id →
  ¬ spent db id ∧ spent (apply_command_op op db) id.
Proof.
  intros Hwf. destruct op; cbn [claimed_by]; try done. intros H. cbn [apply_command_op].
  rewrite ClaimOperationalCommand_db. unfold commit in *.
  destruct (claim_command at_ db) as [[x db']|] eqn:E; [|done]. cbn in H |- *. subst x.
  apply claim_command_Ok in E as (row & Hrow & Hclaim & ->); [|done].
  unfold claimable in Hclaim. bool_simp. split.
  - intros (row' & Hrow' & Hs). congruence.
  - exists (claimed_row at_ row). cbn. by rewrite lookup_insert_eq.
Qed.

Lemma claims_not_spent ops : ∀ db, CommandsWellFormed db → ∀ id, spent db id → id ∉ claims ops db.
Proof.
  induction ops as [|op ops IH]; intros db Hwf id Hs; cbn [claims]; [apply not_elem_of_nil|].
  destruct (apply_command_op_keeps op db Hwf) as [Hwf' L].
  intros [Hin|Hin]%elem_of_app; [|by apply (IH _ Hwf' id (later_spent _ _ _ L Hs))].
  destruct (claimed_by op db) as [id'|] eqn:E; [|by apply elem_of_nil in Hin].
  apply list_elem_of_singleton in Hin as <-. by apply claimed_by_spent in E as [E _].
Qed.

(** C34: A command of the queue is claimed at most once, over any history of calls on the store, restarts of the
    controller included: the commands that ClaimOperationalCommand marks as running are pairwise distinct, and none
    of them was claimed or finished before. *)
Theorem commands_claimed_once ops db : CommandsWellFormed db →
  NoDup (claims ops db) ∧ ∀ id, id ∈ claims ops db → ¬ spent db id.
Proof.
  intros Hwf. split; [|intros id Hin Hs; by apply (claims_not_spent ops db Hwf id)].
  revert db Hwf. induction ops as [|op ops IH]; intros db Hwf; cbn [claims]; [constructor|].
  destruct (apply_command_op_keeps op db Hwf) as [Hwf' _].
  destruct (claimed_by op db) as [id|] eqn:E; cbn [option_list option_rect app]; [|by apply IH].
  apply claimed_by_spent in E as [_ E]; [|done]. constructor; [by apply claims_not_spent|by apply IH].
Qed.

(** ** Idempotency keys *)

Lemma by_key user key db id row : CommandsWellFormed db → commands db !! id = Some row →
  same_key user key row = true → head (List.filter (same_key user key) (rows (commands db))) = Some row.
Proof.
  intros Hwf Hrow Hkey.
  assert (Hall : ∀ r, r ∈ List.filter (same_key user key) (rows (commands db)) → r = row).
  { intros r [Hr Hk]%list_elem_of_In%filter_In. apply list_elem_of_In, elem_of_rows in Hr as [k Hr].
    unfold same_key in *. bool_simp. assert (k = id) by (apply (cw_idempotency _ Hwf _ _ _ _ Hr Hrow); congruence).
    congruence. }
  assert (Hin : row ∈ List.filter (same_key user key) (rows (commands db))).
  { apply list_elem_of_In, filter_In. split; [apply list_elem_of_In, elem_of_rows; eauto|done]. }
  destruct (List.filter _ _) as [|r l]; [by apply elem_of_nil in Hin|]. cbn. f_equal. apply Hall. left.
Qed.

Lemma insert_results_command {A} (f : A → ResultRow) (l : list A) : ∀ db u db',
  tx_each (λ x, insert_result (f x)) l db = Ok (u, db') → commands db' = commands db ∧ base db' = base db.
Proof.
  induction l as [|r l IH]; intros db u db' H; cbn in H; [by apply tx_ret_Ok in H as [_ ->]|].
  apply tx_bind_Ok in H as (? & ? & H1 & H). apply tx_bind_Ok in H1 as (? & ? & [-> ->]%tx_get_Ok & H1).
  apply tx_bind_Ok in H1 as (? & ? & [_ ->]%tx_check_Ok & ->%tx_modify_Ok).
  by apply IH in H as [-> ->].
Qed.

(** What a created command leaves in the tables. *)
Lemma CreateOperationalCommand_Ok o event db o' db' : CreateOperationalCommand o event db = (Ok (o', true), db') →
  o' = o ∧ create_command o event db = Ok (true, db') ∧ commands db' !! Operation_ID o = Some (queued_row o) ∧
  is_Some (clusters (base db') !! Operation_ClusterID o).
Proof.
  unfold CreateOperationalCommand, commit.
  destruct (create_command o event db) as [[[] db1]|] eqn:E; [| |done].
  2: { destruct (operationalCommandByIdempotency _ _ _); intros [=]. }
  intros [= -> ->]. split; [done|]. split; [done|].
  apply tx_bind_Ok in E as (inserted & db2 & H & E).
  apply tx_bind_Ok in H as (? & ? & [-> ->]%tx_get_Ok & H).
  apply tx_bind_Ok in H as (? & ? & [_ ->]%tx_check_Ok & H).
  destruct (exists_row _ _); [apply tx_ret_Ok in H as [-> ->]; by apply tx_ret_Ok in E as [? _]|].
  apply tx_bind_Ok in H as (? & ? & [[_ Href]%andb_true_iff ->]%tx_check_Ok & H).
  apply tx_bind_Ok in H as (? & ? & ->%tx_modify_Ok & [-> ->]%tx_ret_Ok).
  apply tx_bind_Ok in E as (? & ? & [Hc Hb]%insert_results_command & E).
  apply tx_bind_Ok in E as (? & db3 & E & [_ ->]%tx_ret_Ok). unfold on_base in E.
  destruct (audit event _) as [[b base']|] eqn:Ha; [|done]. injection E as <- <-.
  apply audit_Ok in Ha as [l ->]. cbn [commands base set_base clusters set_audit_events]. rewrite Hc, Hb.
  split; [apply lookup_insert_eq|]. unfold command_references, exists_in in Href.
  by do 3 apply andb_true_iff in Href as [Href _]; bool_simp.
Qed.

(** Two requests for the same thing. *)
Definition same_request (o o2 : Operation) : bool :=
  (Operation_ClusterID o =?? Operation_ClusterID o2) && (Operation_Command o =?? Operation_Command o2) &&
  (Operation_Target o =?? Operation_Target o2) && (Operation_InputFingerprint o =?? Operation_InputFingerprint o2).

Lemma stored_target t : mkTarget (Target_Scope t) (null_text (nullableString (Target_NodeID t))) = t.
Proof. destruct t as [scope id]. cbn. unfold nullableString. by destruct (id =?? "") eqn:E; bool_simp; subst. Qed.

(** A row of the command reads as that command, in its present state. *)
Lemma load_operation_identity db row o : identity (queued_row o) = identity row →
  is_Some (clusters (base db) !! Operation_ClusterID o) →
  ∃ stored, load_operation db (Some row) = Ok stored ∧ Operation_ID stored = Operation_ID o ∧
    Operation_ClusterID stored = Operation_ClusterID o ∧ Operation_Command stored = Operation_Command o ∧
    Operation_Target stored = Operation_Target o ∧
    Operation_InputFingerprint stored = Operation_InputFingerprint o.
Proof.
  unfold identity. intros Hid [cluster Hc]. cbn in Hid. injection Hid as H1 H2 H3 H4 H5 H6 H7 H8 H9 H10 H11.
  unfold load_operation, scanDNSOperation. cbn [mbind option_bind]. rewrite <- H2, Hc. cbn [mbind option_bind].
  eexists. split; [reflexivity|]. cbn. rewrite <- H1, <- H3, <- H4, <- H5, <- H9.
  by rewrite stored_target.
Qed.

Lemma duplicate_same_request o o2 stored : Operation_ClusterID stored = Operation_ClusterID o →
  Operation_Command stored = Operation_Command o → Operation_Target stored = Operation_Target o →
  Operation_InputFingerprint stored = Operation_InputFingerprint o →
  duplicate (Operation_ClusterID o2) (Operation_Command o2) (Operation_Target o2)
    (Operation_InputFingerprint o2) stored =
  if same_request o o2 then Ok (as_duplicate stored)
  else Err (NewError ErrorConflict "the idempotency key is already used for another operation").
Proof.
  unfold duplicate, same_request. intros -> -> -> ->. by repeat case_bool_decide.
Qed.

(** An idempotency key names one command for ever: once a user's request was stored under a key, every later
    request of that user with the key, whatever happened to the store in between, writes nothing and is answered with
    the first command (in its present state), marked as a duplicate, when it asks for the same thing, and with a
    conflict when it does not. *)
Theorem idempotency_key_names_command o event db o' db' ops o2 event2 :
  CommandsWellFormed db → CreateOperationalCommand o event db = (Ok (o', true), db') →
  Operation_RequestedBy o2 = Operation_RequestedBy o →
  Operation_IdempotencyKey o2 = Operation_IdempotencyKey o → command_checks (queued_row o2) = true →
  ∃ stored, CreateOperationalCommand o2 event2 (run_commands ops db') = (Ok (stored, false), run_commands ops db') ∧
    Operation_ID stored = Operation_ID o ∧
    duplicate (Operation_ClusterID o2) (Operation_Command o2) (Operation_Target o2)
      (Operation_InputFingerprint o2) stored =
    if same_request o o2 then Ok (as_duplicate stored)
    else Err (NewError ErrorConflict "the idempotency key is already used for another operation").
Proof.
  intros Hwf (-> & Hcreate & Hrow & Hcluster)%CreateOperationalCommand_Ok Huser Hkey Hchecks.
  destruct (create_command_keeps _ _ _ _ _ Hcreate Hwf) as [Hwf1 _].
  destruct (run_commands_keeps ops _ Hwf1) as [Hwf2 L]. destruct (later_rows _ _ L _ _ Hrow) as (row & Hrow2 & Hid & _).
  assert (Hsame : same_key (Operation_RequestedBy o2) (Operation_IdempotencyKey o2) row = true).
  { unfold same_key. rewrite Huser, Hkey. injection Hid as _ _ _ _ _ <- _ <- _ _ _.
    by rewrite !bool_decide_eq_true_2. }
  destruct (later_clusters _ _ L _ Hcluster) as [cluster Hc].
  unfold CreateOperationalCommand, commit, create_command, insert_command.
  unfold tx_bind, tx_get, tx_check. rewrite Hchecks.
  assert (Hexists : exists_row (same_key (Command_RequestedBy (queued_row o2))
    (Command_IdempotencyKey (queued_row o2))) (commands (run_commands ops db')) = true)
    by (apply exists_row_true; eauto).
  unfold tx_ret. rewrite Hexists. unfold operationalCommandByIdempotency.
  rewrite (by_key _ _ _ _ _ Hwf2 Hrow2 Hsame).
  destruct (load_operation_identity (run_commands ops db') row o Hid) as (stored & -> & H1 & H2 & H3 & H4 & H5).
  { by exists cluster. }
  exists stored. split_and!; [done|done|]. by apply duplicate_same_request.
Qed.

(** ** The recovery at startup

    The recovery of operational commands lists the DNS commands only: a DHCP operation
    that a restart interrupted stays running. *)

Lemma load_each_command db l items : CommandsWellFormed db →
  (∀ row, row ∈ l → commands db !! Command_ID row = Some row) → load_each db l = Ok items →
  ∀ o, o ∈ items → ∃ row, row ∈ l ∧ Operation_Command o = Command_Type row.
Proof.
  intros Hwf. revert items. induction l as [|row l IH]; intros items Hl; cbn [load_each].
  { intros [= <-] o Ho. by apply elem_of_nil in Ho. }
  unfold OperationalCommandByID. rewrite (Hl row) by left. unfold load_operation, scanDNSOperation.
  cbn [mbind option_bind]. destruct (clusters (base db) !! _) as [c|]; [|done]. cbn [mbind option_bind].
  destruct (load_each db l) as [rest|]; [|done]. intros [= <-] o [->|Ho]%elem_of_cons.
  - exists row. split; [left|done].
  - destruct (IH rest) with (o := o) as (r & Hr & Heq); try done; [intros r Hr; apply Hl; by right|].
    exists r. split; [by right|done].
Qed.

Lemma recovery_skips_dhcp db items : CommandsWellFormed db → RunningOperationalCommands db = Ok items →
  ∀ o, o ∈ items → Operation_Command o ∈ dns_commands.
Proof.
  intros Hwf H o Ho. unfold RunningOperationalCommands, in_queue_order in H.
  assert (Hall : ∀ row, row ∈ sort_Slice queue_before (List.filter (λ row, (Command_Status row =?? "running") &&
      is_dns row) (rows (commands db))) → commands db !! Command_ID row = Some row ∧ is_dns row = true).
  { intros row [Hrow Hp]%elem_of_sort_Slice%list_elem_of_In%filter_In.
    apply list_elem_of_In, elem_of_rows in Hrow as [k Hk]. apply andb_true_iff in Hp as [_ Hp].
    by rewrite (cw_command_key _ Hwf _ _ Hk). }
  eapply (load_each_command db _ items Hwf) in Ho as (row & Hrow & ->); [|intros row Hrow; by apply Hall|exact H].
  apply Hall in Hrow as [_ Hdns]. unfold is_dns in Hdns. by apply bool_decide_eq_true in Hdns.
Qed.
End history.
