(* ===== verification/Inventory.v ===== *)
(** * internal/inventory/service.go, dhcp.go and dhcp_operations.go: observing nodes

    The inventory service as programs over the repository, the ciphers, the node reader
    and the clock: observations and their import as a draft, filter refreshes, DHCP
    checks and the destructive DHCP operations.  The optional interfaces of the reader
    and of the repository (Go type assertions) are the class [Interfaces]. *)

From S2P Require Import Prelude GoRuntime Json Domain Configuration ConfigDiff ConfigValidate ControlModel.
From S2P Require Import InventoryModel Effects ControlEffects Executor.

(** ** Interfaces *)

(** Whether the reader or the repository implements an optional interface. *)
Class Interfaces := { implements : string → bool }.

(** The calls of the service: those of the control plane, and its own. *)
Inductive invctl : Type → Type :=
| ICore {X : Type} (e : ctl X) : invctl X
| Repo_SaveObservation (snapshot : Snapshot) (profile : CapabilityProfile) : invctl (res unit)
| Repo_ImportDraft (draft : Draft) (expectedVersion : Z) (event : AuditEvent) : invctl (res unit)
| Repo_RecordAuditEvent (event : AuditEvent) : invctl (res unit)
(* the profile is returned with an error too *)
| Reader_ReadConfiguration (request : NodeProbeRequest) (version : string) : invctl (CapabilityProfile * res Document)
| Reader_RefreshFilters (request : NodeProbeRequest) (whitelist : bool) : invctl (res unit)
| Reader_ReadBlockedServicesCatalogue (request : NodeProbeRequest) (version : string)
    : invctl (res NodeBlockedServicesCatalogue)
| Reader_ReadFilterLists (request : NodeProbeRequest) (version : string) (whitelist : bool)
    : invctl (res (list FilterListMetadata))
| Reader_ReadDHCPInterfaces (request : NodeProbeRequest) : invctl (res (list DHCPInterface))
| Reader_FindDHCP (request : NodeProbeRequest) (interfaceName : string) : invctl (res DHCPActiveCheck)
| Reader_ResetDHCPLeases (request : NodeProbeRequest) : invctl (res unit)
| Reader_ResetDHCPConfiguration (request : NodeProbeRequest) : invctl (res unit)
| Repo_BeginDHCPOperation (operation : DHCPOperation) (event : AuditEvent) : invctl (res (DHCPOperation * bool))
| Repo_FinishDHCPOperation (operation : DHCPOperation) (event : AuditEvent) : invctl (res unit)
| Repo_ListDHCPOperations (nodeID : string) (limit : Z) : invctl (res (list DHCPOperation))
(* the two caches of the service, each access under its mutex *)
| Catalogue_Get (nodeID : string) : invctl (option catalogueCacheEntry)
| Catalogue_Put (nodeID : string) (entry : catalogueCacheEntry) : invctl unit
| FilterLists_Get (key : string) : invctl (option filterListCacheEntry)
| FilterLists_Put (key : string) (entry : filterListCacheEntry) : invctl unit.

Abbreviation inventory := (prog invctl).

Definition ask {X} (e : ctl X) : inventory X := call (ICore e).

(** [errors.As(err, &domainError)]: the whole error that is found. *)
Fixpoint as_domain (e : error) : option (ErrorKind * string * string) :=
  match e with
  | DomainError kind message field _ => Some (kind, message, field)
  | TextError _ => None
  | WrapError _ cause => as_domain cause
  end.

Definition undecrypted : error := TextError "stored node credentials could not be decrypted".

(* src/internal/inventory/dhcp_operations.go:149-149 Service.RunDHCPOperation *)
Definition node_request (record : NodeRecord) (credentials : NodeCredentials) : NodeProbeRequest :=
  mkNodeProbeRequest (Node_BaseURL (Record_Node record)) (Node_CertificatePolicy (Record_Node record))
    (Secrets_CustomCAPEM (Record_Secrets record)) credentials.

Definition decrypt (nodeID : string) (record : NodeRecord) : inventory (res NodeCredentials) :=
  do r <- ask (Decrypt nodeID (Secrets_Credentials (Record_Secrets record)));
  match r with Ok credentials => done_with credentials | Err _ => fail undecrypted end.

Section service.
Context {R : Runtime} {M : MapOrder} {F : Interfaces}.

(** [if !ok { return domain.NewError(domain.ErrorCapability, message) }] *)
Definition requires (interface message : string) : inventory (res unit) :=
  guard (implements interface) (NewError ErrorCapability message).

(** ** Observations *)

(** The error of an observation names the node. *)
Definition observation_error (nodeID version : string) (e : error) : error :=
  match as_domain e with
  | Some (kind, message, field) =>
      DomainError kind ("node " +:+ nodeID +:+ " (AdGuard Home " +:+ version +:+ "): " +:+ message) field (Some e)
  | None => WrapError ("observe node " +:+ nodeID +:+ " (AdGuard Home " +:+ version +:+ "): " +:+ Error_Error e) e
  end.

Definition profile_of (nodeID : string) (now : Time) (capability : CapabilityProfile) : CapabilityProfile :=
  mkCapabilityProfile nodeID (CapabilityProfile_ProductVersion capability)
    (CapabilityProfile_Compatibility capability) (CapabilityProfile_SchemaVersion capability)
    (CapabilityProfile_Features capability) (CapabilityProfile_Warnings capability) now.

(** The snapshot and the error the caller gets: the snapshot may come with an error. *)
(* src/internal/inventory/service.go:112-163 Service.Observe *)
Definition Inventory_Observe (nodeID : string) : inventory (option Snapshot * option error) :=
  let refuse e := Ret (None, Some e) in
  if negb (ValidID nodeID) then refuse (Validation "nodeId" "must be a valid UUID") else
  do record <- ask (Repo_NodeRecordByID nodeID);
  match record with Err e => refuse e | Ok record =>
  let node := Record_Node record in
  if negb (Node_Enabled node) then refuse (Validation "nodeId" "disabled nodes cannot be observed") else
  do credentials <- decrypt nodeID record;
  match credentials with Err e => refuse e | Ok credentials =>
  do id <- ask GenerateID;
  match id with Err e => refuse e | Ok id =>
  do now <- ask Now;
  do read <- call (Reader_ReadConfiguration (node_request record credentials) (Node_Version node));
  let capability := profile_of nodeID now read.1 in
  let schemaVersion := if CapabilityProfile_SchemaVersion capability =? 0 then SchemaVersion
                       else CapabilityProfile_SchemaVersion capability in
  let snapshot document hash status code :=
    mkSnapshot id nodeID now schemaVersion document hash (Node_Version node) status code in
  match read.2 with
  | Err readErr =>
      let failed := snapshot None "" "failed" (errorCode readErr) in
      do saved <- call (Repo_SaveObservation failed capability);
      match saved with
      | Err e => refuse e
      | Ok _ => Ret (Some failed, Some (observation_error nodeID (Node_Version node) readErr))
      end
  | Ok document =>
      let succeeded := snapshot (Some document) (Marshal document).2 "succeeded" "" in
      do saved <- call (Repo_SaveObservation succeeded capability);
      match saved with
      | Err e => refuse e
      | Ok _ => Ret (Some succeeded, None)
      end
  end end end end.

(** What the interface of the control plane promises: the snapshot of a success. *)
Definition Observe_result (observed : option Snapshot * option error) : res Snapshot :=
  match observed with
  | (_, Some e) => Err e
  | (Some snapshot, None) => Ok snapshot
  | (None, None) => Err (TextError "")
  end.

(* src/internal/inventory/service.go:220-227 inventoryAudit *)
Definition inventoryAudit (actor : Actor) (action resourceID : string) (metadata : json) (at_ : Time) :
  inventory (res AuditEvent) :=
  try id <- ask GenerateID;
  done_with (mkAuditEvent id "user" (Some (Actor_UserID actor)) "" action "node" (Some resourceID)
    (Actor_RequestID actor) metadata at_ "" "").

(** ** Refreshing filters *)

(* src/internal/inventory/service.go:165-218 Service.RefreshFilters *)
Definition Inventory_RefreshFilters (actor : Actor) (nodeID : string) (whitelist : bool) : inventory (res unit) :=
  try _ <- guard (ValidID nodeID) (Validation "nodeId" "must be a valid UUID");
  try _ <- requires "FilterRefresher" "filter refresh is unavailable";
  try _ <- requires "RecordAuditEvent" "audited filter refresh is unavailable";
  try record <- ask (Repo_NodeRecordByID nodeID);
  let node := Record_Node record in
  try _ <- guard (Node_Enabled node && negb (Node_MaintenanceMode node))
    (NewError ErrorConflict "filter refresh requires an enabled node outside maintenance");
  try credentials <- decrypt nodeID record;
  do now <- ask Now;
  try requested <- inventoryAudit actor "filters.refresh_requested" nodeID
    (JObj [("whitelist", JBool whitelist)]) now;
  try _ <- call (Repo_RecordAuditEvent requested);
  do refreshed <- call (Reader_RefreshFilters (node_request record credentials) whitelist);
  let '(action, code) := match refreshed with
    | Ok _ => ("filters.refresh_succeeded", "")
    | Err e => ("filters.refresh_failed", errorCode e)
    end in
  do at_ <- ask Now;
  try completed <- inventoryAudit actor action nodeID
    (JObj [("whitelist", JBool whitelist); ("errorCode", JStr code)]) at_;
  try _ <- call (Repo_RecordAuditEvent completed);
  Ret refreshed.

(** ** Reading the inventory *)

(* src/internal/inventory/service.go:229-253 Service.Inventory *)
Definition Service_Inventory (clusterID : string) :
  inventory (res (list Snapshot * list CapabilityProfile * option Draft)) :=
  try _ <- guard (ValidID clusterID) (Validation "clusterId" "must be a valid UUID");
  try _ <- ask (Repo_ClusterByID clusterID);
  try snapshots <- ask (Repo_LatestSnapshots clusterID);
  try profiles <- ask (Repo_CapabilityProfiles clusterID);
  do draft <- ask (Repo_DraftByCluster clusterID);
  match draft with
  | Ok draft => done_with (snapshots, profiles, Some draft)
  | Err e => match errors_As e with
             | Some (kind, _) => if kind =?? ErrorNotFound then done_with (snapshots, profiles, None) else fail e
             | None => fail e
             end
  end.

(* src/internal/inventory/service.go:255-268 Service.Compare *)
Definition Service_Compare (leftID rightID : string) : inventory (res (list Difference)) :=
  try lhs <- ask (Repo_SnapshotByID leftID);
  try rhs <- ask (Repo_SnapshotByID rightID);
  match Snapshot_Document lhs, Snapshot_Document rhs with
  | Some l, Some r => done_with (Diff l r)
  | _, _ => fail (Validation "snapshot" "only successful snapshots can be compared")
  end.

(** ** Importing an observation *)

(* src/internal/inventory/service.go:300-300 Service.Import *)
Definition draft_changed_error : error :=
  NewError ErrorConflict "the configuration draft was changed by another request".

(** The imported document over the overrides of the current draft. *)
Definition with_overrides (overrides : gmap string NodeSpecific) (d : DesiredDocument) : DesiredDocument :=
  mkDesiredDocument (DesiredDocument_SchemaVersion d) (DesiredDocument_Shared d) overrides
    (DesiredDocument_Unsupported d).

(* src/internal/inventory/service.go:305-308 Service.Import *)
Definition merge_overrides (current : Draft) (nodeID : string) (document : Document) (desired : DesiredDocument) :
  DesiredDocument :=
  with_overrides (<[nodeID := Document_NodeSpecific document]>
    (DesiredDocument_NodeOverrides (Draft_Document current) ∪ DesiredDocument_NodeOverrides desired)) desired.

(* src/internal/inventory/service.go:270-330 Service.Import *)
Definition Service_Import (actor : Actor) (clusterID snapshotID : string) (expectedVersion : Z)
  (confirmed : bool) : inventory (res Draft) :=
  try _ <- guard confirmed (Validation "confirmed" "must be true after reviewing the snapshot");
  try snapshot <- ask (Repo_SnapshotByID snapshotID);
  try node <- ask (Repo_NodeByID (Snapshot_NodeID snapshot));
  try _ <- guard (Node_ClusterID node =?? clusterID)
    (Validation "snapshotId" "snapshot does not belong to the cluster");
  match Snapshot_Document snapshot with
  | None => fail (Validation "snapshotId" "failed snapshots cannot be imported")
  | Some document =>
      try _ <- guard (bool_decide (ValidateNodeSpecific "nodeSpecific" (Document_NodeSpecific document) = []))
        (Validation "snapshotId" "listener identity is incomplete; refresh the node and import its latest successful snapshot");
      try newID <- ask GenerateID;
      let desired := DesiredFromObservation (Snapshot_NodeID snapshot) document in
      do current <- ask (Repo_DraftByCluster clusterID);
      try merged <- Ret match current with
        | Ok current =>
            if negb (expectedVersion =? Draft_Version current) then Err draft_changed_error
            else if DesiredDocument_SchemaVersion desired <? DesiredDocument_SchemaVersion (Draft_Document current)
            then Err (Validation "snapshotId" "an older schema observation cannot replace a newer configuration draft")
            else Ok (Draft_ID current, merge_overrides current (Snapshot_NodeID snapshot) document desired,
                     Draft_BaseRevisionID current)
        | Err _ =>
            if negb (expectedVersion =? 0)
            then Err (NewError ErrorConflict "the configuration draft does not exist")
            else Ok (newID, desired, None)
        end;
      let '(id, desired, baseRevisionID) := merged in
      do now <- ask Now;
      let draft := mkDraft id clusterID snapshotID baseRevisionID (DesiredDocument_SchemaVersion desired) desired
        (MarshalDesired desired).2 (expectedVersion + 1) (Actor_UserID actor) now in
      try eventID <- ask GenerateID;
      let event := mkAuditEvent eventID "user" (Some (Actor_UserID actor)) "" "configuration.draft_imported"
        "configuration_draft" (Some id) (Actor_RequestID actor)
        (JObj [("clusterId", JStr clusterID); ("sourceSnapshotId", JStr snapshotID)]) now "" "" in
      try _ <- call (Repo_ImportDraft draft expectedVersion event);
      done_with draft
  end.

(** ** DHCP *)

(* src/internal/inventory/dhcp.go:145-165 Service.dhcpNodeRequest *)
Definition dhcpNodeRequest (nodeID : string) (mutationGuard : bool) :
  inventory (res (NodeRecord * NodeProbeRequest)) :=
  try _ <- guard (ValidID nodeID) (Validation "nodeId" "must be a valid UUID");
  try record <- ask (Repo_NodeRecordByID nodeID);
  let node := Record_Node record in
  try _ <- guard (Node_Enabled node) (NewError ErrorConflict "DHCP inspection requires an enabled node");
  try _ <- guard (negb (mutationGuard && Node_MaintenanceMode node))
    (NewError ErrorConflict "active DHCP detection requires a node outside maintenance");
  try credentials <- decrypt nodeID record;
  done_with (record, node_request record credentials).

(** The trimmed values, each once. *)
Fixpoint clean_strings (seen : gset string) (values : list string) : list string :=
  match values with
  | [] => []
  | value :: rest =>
      let value := TrimSpace value in
      if (value =?? "") || bool_decide (value ∈ seen) then clean_strings seen rest
      else value :: clean_strings ({[value]} ∪ seen) rest
  end.

(* src/internal/inventory/dhcp.go:206-219 cleanStrings *)
Definition cleanStrings (values : list string) : list string := sort_Slice String.ltb (clean_strings ∅ values).

(* src/internal/inventory/dhcp.go:74-83 Service.DHCPInterfaces *)
Definition clean_interface (i : DHCPInterface) : DHCPInterface :=
  let v4 := cleanStrings (elems (DHCPInterface_IPv4Addresses i)) in
  let v6 := cleanStrings (elems (DHCPInterface_IPv6Addresses i)) in
  let names := cleanStrings (elems (DHCPInterface_Flags i)) in
  let has name := existsb (λ flag, ToLower flag =?? name) names in
  mkDHCPInterface (DHCPInterface_Name i) (DHCPInterface_HardwareAddress i) (Some v4) (Some v6)
    (DHCPInterface_GatewayIP i) (Some names)
    (has "up" && negb (has "loopback") && (negb (bool_decide (v4 = [])) || negb (bool_decide (v6 = [])))).

(* src/internal/inventory/dhcp.go:58-86 Service.DHCPInterfaces *)
Definition Service_DHCPInterfaces (nodeID : string) : inventory (res DHCPInterfaces) :=
  try _ <- guard (ValidID nodeID) (Validation "nodeId" "must be a valid UUID");
  try _ <- requires "DHCPInterfaceReader" "DHCP interface discovery is unavailable";
  try found <- dhcpNodeRequest nodeID false;
  let '(record, request) := found in
  try interfaces <- call (Reader_ReadDHCPInterfaces request);
  let interfaces := sort_Slice (λ a b, String.ltb (DHCPInterface_Name a) (DHCPInterface_Name b))
    (map clean_interface interfaces) in
  do now <- ask Now;
  done_with (mkDHCPInterfaces nodeID (Node_Name (Record_Node record)) (Some interfaces) now).

(** [unicode.IsControl] on the runes of the text: C0, DEL and C1. *)
Fixpoint has_control (s : string) : bool :=
  match s with
  | EmptyString => false
  | String c rest =>
      (byte_of c <? 32) || (byte_of c =? 127) ||
      ((byte_of c =? 194) &&
       match rest with String d _ => (128 <=? byte_of d) && (byte_of d <=? 159) | EmptyString => false end) ||
      has_control rest
  end.

(* src/internal/inventory/dhcp.go:167-175 validateInterfaceName *)
Definition validateInterfaceName (value : string) : res unit :=
  if value =?? "" then Err (Validation "interfaceName" "is required")
  else if (128 <? len value) || has_control value then Err (Validation "interfaceName" "is invalid")
  else Ok tt.

(* src/internal/inventory/dhcp.go:177-204 aggregateDHCPCheckStatus *)
Definition aggregateDHCPCheckStatus (check : DHCPActiveCheck) : string :=
  let statuses := [DHCPCheckValue_Status (DHCPActiveCheck_IPv4OtherServer check);
                   DHCPCheckValue_Status (DHCPActiveCheck_IPv6OtherServer check)] in
  let count p := Z.of_nat (length (List.filter p statuses)) in
  let found := count (λ s, s =?? "yes") in
  let failed := count (λ s, s =?? "error") in
  let available := count (λ s, (s =?? "yes") || (s =?? "no")) in
  if (0 <? failed) && (0 <? available) then "partial"
  else if (0 <? failed) || (available =? 0) then "error"
  else if 1 <? found then "multiple"
  else if found =? 1 then "found"
  else "none".

(* src/internal/inventory/dhcp.go:88-143 Service.FindActiveDHCP *)
Definition Service_FindActiveDHCP (actor : Actor) (nodeID interfaceName : string) :
  inventory (res DHCPActiveCheckResult) :=
  let interfaceName := TrimSpace interfaceName in
  try _ <- Ret (validateInterfaceName interfaceName);
  try _ <- requires "DHCPActiveChecker" "active DHCP detection is unavailable";
  try _ <- requires "RecordAuditEvent" "audited active DHCP detection is unavailable";
  try found <- dhcpNodeRequest nodeID true;
  let '(record, request) := found in
  do now <- ask Now;
  try requested <- inventoryAudit actor "dhcp.active_check_requested" nodeID
    (JObj [("interfaceName", JStr interfaceName)]) now;
  try _ <- call (Repo_RecordAuditEvent requested);
  do checked <- call (Reader_FindDHCP request interfaceName);
  let '(action, status, extra) := match checked with
    | Ok check => ("dhcp.active_check_succeeded", aggregateDHCPCheckStatus check, [])
    | Err e => ("dhcp.active_check_failed", "error", [("errorCode", JStr (errorCode e))])
    end in
  do at_ <- ask Now;
  try completed <- inventoryAudit actor action nodeID
    (JObj ([("interfaceName", JStr interfaceName); ("status", JStr status)] ++ extra)) at_;
  try _ <- call (Repo_RecordAuditEvent completed);
  match checked with
  | Err e => fail e
  | Ok check =>
      done_with (mkDHCPActiveCheckResult nodeID (Node_Name (Record_Node record)) interfaceName status
        (DHCPActiveCheck_IPv4OtherServer check) (DHCPActiveCheck_IPv4StaticIP check)
        (DHCPActiveCheck_IPv6OtherServer check) (AuditEvent_CreatedAt completed))
  end.

(** ** Destructive DHCP operations *)

(* src/internal/inventory/dhcp_operations.go:14-14 DHCPOperationResetLeases *)
Definition DHCPOperationResetLeases : string := "dhcp_reset_leases".
(* src/internal/inventory/dhcp_operations.go:15-15 DHCPOperationResetConfiguration *)
Definition DHCPOperationResetConfiguration : string := "dhcp_reset_configuration".

(* src/internal/inventory/dhcp_operations.go:17-17 DHCPResetLeasesConfirmation *)
Definition DHCPResetLeasesConfirmation : string := "RESET_LEASES".
(* src/internal/inventory/dhcp_operations.go:18-18 DHCPResetConfigurationConfirmation *)
Definition DHCPResetConfigurationConfirmation : string := "RESET_DHCP_CONFIGURATION".

(* src/internal/inventory/dhcp_operations.go:233-242 dhcpOperationContract *)
Definition dhcpOperationContract (command : string) : res (string * string) :=
  if command =?? DHCPOperationResetLeases then Ok (DHCPResetLeasesConfirmation, "reset_leases")
  else if command =?? DHCPOperationResetConfiguration
  then Ok (DHCPResetConfigurationConfirmation, "reset_configuration")
  else Err (Validation "command" "is not a supported DHCP operation").

(** The first node result; the operations of the service have exactly one. *)
Definition dhcp_result (o : DHCPOperation) : option DHCPOperationNodeResult :=
  head (elems (DHCPOperation_NodeResults o)).

Definition with_dhcp (status observation snapshotID code audit : string) (completed : option Time)
  (results : list DHCPOperationNodeResult) (o : DHCPOperation) : DHCPOperation :=
  mkDHCPOperation (DHCPOperation_ID o) (DHCPOperation_ClusterID o) (DHCPOperation_ClusterName o)
    (DHCPOperation_Command o) status (DHCPOperation_RequestID o) (DHCPOperation_IdempotencyKey o)
    (DHCPOperation_RequestedBy o) observation snapshotID code audit (DHCPOperation_RequestedAt o) completed
    (Some results) (DHCPOperation_Duplicate o).

Definition finished_node (status code : string) (at_ : Time) (r : DHCPOperationNodeResult) :
  DHCPOperationNodeResult :=
  mkDHCPOperationNodeResult (DHCPOperationNodeResult_ID r) (DHCPOperationNodeResult_NodeID r)
    (DHCPOperationNodeResult_NodeName r) status code (DHCPOperationNodeResult_StartedAt r) (Some at_).

(* src/internal/inventory/dhcp_operations.go:244-264 dhcpOperationAudit *)
Definition dhcpOperationAudit (actor : Actor) (action : string) (o : DHCPOperation)
  (extra : list (string * json)) (at_ : Time) : inventory (res AuditEvent) :=
  try id <- ask GenerateID;
  done_with (mkAuditEvent id "user" (Some (Actor_UserID actor)) "" action "operational_command"
    (Some (DHCPOperation_ID o)) (Actor_RequestID actor)
    (JObj ([("clusterId", JStr (DHCPOperation_ClusterID o));
            ("nodeId", JStr (from_option DHCPOperationNodeResult_NodeID "" (dhcp_result o)));
            ("command", JStr (DHCPOperation_Command o));
            ("operationId", JStr (DHCPOperation_ID o))] ++ extra)) at_ "" "").

(** The result of a method that returns an operation and an error; [None] is the zero
    operation. *)
Definition DHCPOutcome : Type := option DHCPOperation * option error.

(* src/internal/inventory/dhcp_operations.go:182-192 Service.RunDHCPOperation *)
Definition finish_dhcp (actor : Actor) (o : DHCPOperation) (action : string) (extra : list (string * json))
  (at_ : Time) (outcome : option error) : inventory DHCPOutcome :=
  do terminal <- dhcpOperationAudit actor action o extra at_;
  match terminal with
  | Err e => Ret (None, Some e)
  | Ok terminal =>
      let o := with_dhcp (DHCPOperation_Status o) (DHCPOperation_ObservationStatus o)
        (DHCPOperation_ObservationSnapshotID o) (DHCPOperation_ObservationErrorCode o) (AuditEvent_ID terminal)
        (DHCPOperation_CompletedAt o) (elems (DHCPOperation_NodeResults o)) o in
      do finished <- call (Repo_FinishDHCPOperation o terminal);
      match finished with Err e => Ret (None, Some e) | Ok _ => Ret (Some o, outcome) end
  end.

(* src/internal/inventory/dhcp_operations.go:212-231 Service.failDHCPOperation *)
Definition failDHCPOperation (actor : Actor) (o : DHCPOperation) (r : DHCPOperationNodeResult)
  (actionName : string) (commandErr : error) : inventory DHCPOutcome :=
  do completed <- ask Now;
  let code := errorCode commandErr in
  let o := with_dhcp "failed" (DHCPOperation_ObservationStatus o) (DHCPOperation_ObservationSnapshotID o)
    (DHCPOperation_ObservationErrorCode o) (DHCPOperation_AuditReference o) (Some completed)
    [finished_node "failed" code completed r] o in
  finish_dhcp actor o ("dhcp." +:+ actionName +:+ "_failed")
    [("status", JStr "failed"); ("errorCode", JStr code); ("observationStatus", JStr "not_run")] completed
    (Some commandErr).

(** The checks between the record of the operation and the command: the first reason to
    refuse it. *)
(* src/internal/inventory/dhcp_operations.go:129-144 Service.RunDHCPOperation *)
Definition dhcp_guards (command : string) (node : Node) (cluster : Cluster) : inventory (res unit) :=
  try _ <- guard (Node_Enabled node) (NewError ErrorConflict "DHCP reset requires an enabled node");
  try _ <- guard (Node_MaintenanceMode node)
    (NewError ErrorConflict "DHCP reset requires the node to be in maintenance mode");
  try activeDeployment <- ask (Repo_ClusterHasActiveDeployment (Cluster_ID cluster));
  try _ <- guard (negb activeDeployment)
    (NewError ErrorConflict "DHCP reset is blocked while the cluster has an active deployment");
  guard (negb ((command =?? DHCPOperationResetConfiguration) &&
               (Cluster_ReconciliationPolicy cluster =?? ReconciliationEnforce)))
    (NewError ErrorConflict "DHCP reset requires Manual or Alert reconciliation so the operator can choose restore or adopt").

(** The guards, the credentials and the command. *)
(* src/internal/inventory/dhcp_operations.go:129-157 Service.RunDHCPOperation *)
Definition dhcp_command (command nodeID : string) (record : NodeRecord) (cluster : Cluster) : inventory (res unit) :=
  try _ <- dhcp_guards command (Record_Node record) cluster;
  try credentials <- decrypt nodeID record;
  if command =?? DHCPOperationResetLeases
  then call (Reader_ResetDHCPLeases (node_request record credentials))
  else call (Reader_ResetDHCPConfiguration (node_request record credentials)).

(* src/internal/inventory/dhcp_operations.go:101-108 Service.RunDHCPOperation *)
Definition running_dhcp (operationID resultID command nodeID key : string) (actor : Actor) (node : Node)
  (cluster : Cluster) (now : Time) : DHCPOperation :=
  mkDHCPOperation operationID (Cluster_ID cluster) (Cluster_Name cluster) command "running"
    (Actor_RequestID actor) key (Actor_UserID actor) "not_run" "" "" "" now None
    (Some [mkDHCPOperationNodeResult resultID nodeID (Node_Name node) "running" "" now None]) false.

(* src/internal/inventory/dhcp_operations.go:124-124 Service.RunDHCPOperation *)
Definition as_duplicate_dhcp (o : DHCPOperation) : DHCPOperation :=
  mkDHCPOperation (DHCPOperation_ID o) (DHCPOperation_ClusterID o) (DHCPOperation_ClusterName o)
    (DHCPOperation_Command o) (DHCPOperation_Status o) (DHCPOperation_RequestID o)
    (DHCPOperation_IdempotencyKey o) (DHCPOperation_RequestedBy o) (DHCPOperation_ObservationStatus o)
    (DHCPOperation_ObservationSnapshotID o) (DHCPOperation_ObservationErrorCode o)
    (DHCPOperation_AuditReference o) (DHCPOperation_RequestedAt o) (DHCPOperation_CompletedAt o)
    (DHCPOperation_NodeResults o) true.

(** The answer to a request whose key is taken. *)
(* src/internal/inventory/dhcp_operations.go:117-126 Service.RunDHCPOperation *)
Definition duplicate_dhcp (command nodeID : string) (stored : DHCPOperation) : res DHCPOperation :=
  match elems (DHCPOperation_NodeResults stored) with
  | [r] =>
      if negb (DHCPOperation_Command stored =?? command) || negb (DHCPOperationNodeResult_NodeID r =?? nodeID)
      then Err (NewError ErrorConflict "the idempotency key is already used for another operation")
      else if DHCPOperation_Status stored =?? "running"
      then Err (NewError ErrorConflict "the DHCP operation is already running")
      else Ok (as_duplicate_dhcp stored)
  | _ => Err (NewError ErrorConflict "the idempotency key is already used for another operation")
  end.

(** After the command succeeded: the node is observed again. *)
(* src/internal/inventory/dhcp_operations.go:159-192 Service.RunDHCPOperation *)
Definition complete_dhcp (actor : Actor) (o : DHCPOperation) (r : DHCPOperationNodeResult) (nodeID actionName : string) :
  inventory DHCPOutcome :=
  do nodeCompleted <- ask Now;
  do observed <- Inventory_Observe nodeID;
  let '(status, snapshotID, code) := match observed with
    | (_, Some e) => ("failed", "", errorCode e)
    | (snapshot, None) => ("succeeded", from_option Snapshot_ID "" snapshot, "")
    end in
  do completed <- ask Now;
  finish_dhcp actor
    (with_dhcp "succeeded" status snapshotID code (DHCPOperation_AuditReference o) (Some completed)
       [finished_node "succeeded" (DHCPOperationNodeResult_ErrorCode r) nodeCompleted r] o)
    ("dhcp." +:+ actionName +:+ "_succeeded")
    ([("status", JStr "succeeded"); ("observationStatus", JStr status)] ++
     omitempty (snapshotID =?? "") "observationSnapshotId" (JStr snapshotID) ++
     omitempty (code =?? "") "observationErrorCode" (JStr code)) completed None.

(** An operation without a node result cannot be indexed: the code panics. *)
Definition no_node_result : error := TextError "index out of range".

(** The operation is recorded as running, or found under its key: the name of the action,
    the node, its cluster and the operation. *)
(* src/internal/inventory/dhcp_operations.go:63-116 Service.RunDHCPOperation *)
Definition record_dhcp (actor : Actor) (nodeID command confirmation idempotencyKey : string) :
  inventory (res (string * NodeRecord * Cluster * (DHCPOperation * bool))) :=
  try _ <- guard (ValidID nodeID) (Validation "nodeId" "must be a valid UUID");
  try _ <- guard (ValidID idempotencyKey) (Validation "idempotencyKey" "must be a valid UUID");
  try contract <- Ret (dhcpOperationContract command);
  let '(wantConfirmation, actionName) := contract in
  try _ <- guard (confirmation =?? wantConfirmation)
    (Validation "confirmation" "does not match the required destructive action");
  try _ <- requires "DHCPOperationExecutor" "DHCP reset operations are unavailable";
  try _ <- requires "DHCPOperationStore" "durable DHCP reset operations are unavailable";
  try record <- ask (Repo_NodeRecordByID nodeID);
  try cluster <- ask (Repo_ClusterByID (Node_ClusterID (Record_Node record)));
  try operationID <- ask GenerateID;
  try resultID <- ask GenerateID;
  do now <- ask Now;
  let operation := running_dhcp operationID resultID command nodeID idempotencyKey actor (Record_Node record)
    cluster now in
  try requested <- dhcpOperationAudit actor ("dhcp." +:+ actionName +:+ "_requested") operation
    [("status", JStr "running")] now;
  try stored <- call (Repo_BeginDHCPOperation operation requested);
  done_with (actionName, record, cluster, stored).

(* src/internal/inventory/dhcp_operations.go:62-193 Service.RunDHCPOperation *)
Definition RunDHCPOperation (actor : Actor) (nodeID command confirmation idempotencyKey : string) :
  inventory DHCPOutcome :=
  do begun <- record_dhcp actor nodeID command confirmation idempotencyKey;
  match begun with
  | Err e => Ret (None, Some e)
  | Ok (_, _, _, (stored, false)) =>
      Ret (match duplicate_dhcp command nodeID stored with
           | Ok o => (Some o, None)
           | Err e => (None, Some e)
           end)
  | Ok (actionName, record, cluster, (operation, true)) =>
      match dhcp_result operation with
      | None => Ret (None, Some no_node_result)
      | Some r =>
          do ran <- dhcp_command command nodeID record cluster;
          match ran with
          | Err e => failDHCPOperation actor operation r actionName e
          | Ok _ => complete_dhcp actor operation r nodeID actionName
          end
      end
  end.

(* src/internal/inventory/dhcp_operations.go:195-210 Service.ListDHCPOperations *)
Definition Service_ListDHCPOperations (nodeID : string) (limit : Z) : inventory (res (list DHCPOperation)) :=
  try _ <- guard (ValidID nodeID) (Validation "nodeId" "must be a valid UUID");
  try _ <- guard ((1 <=? limit) && (limit <=? 20)) (Validation "limit" "must be between 1 and 20");
  try _ <- ask (Repo_NodeRecordByID nodeID);
  try _ <- requires "DHCPOperationStore" "durable DHCP reset operations are unavailable";
  call (Repo_ListDHCPOperations nodeID limit).
End service.
