(* ===== verification/InventoryCatalogue.v ===== *)
(** * internal/inventory/blocked_services.go and blocklists.go: catalogues of the nodes

    What the nodes of a cluster offer: their blocked services, merged into one catalogue
    in which a configuration is checked, and their filter lists.  The answer of each node
    is cached; a node that cannot be read falls back to what is cached.  The code reads
    the nodes in parallel; the readings share only the caches, in which every node has its
    own entry, and are run here one after the other. *)

From S2P Require Import Prelude GoRuntime Json Domain Configuration ConfigDiff ConfigValidate ControlModel.
From S2P Require Import InventoryModel Effects ControlEffects Executor Inventory.

(** ** Quoting: the [%q] verb and the [%t] verb *)

(** The text in quotes, for text that is not ASCII. *)
Class Quoting := { uni_Quote : string → string }.

Definition quote_byte (c : ascii) : string :=
  let b := byte_of c in
  let escaped n := String (ascii_of_nat 92) (String (ascii_of_nat n) "") in
  if b =? 34 then escaped 34%nat
  else if b =? 92 then escaped 92%nat
  else if b =? 7 then escaped 97%nat
  else if b =? 8 then escaped 98%nat
  else if b =? 12 then escaped 102%nat
  else if b =? 10 then escaped 110%nat
  else if b =? 13 then escaped 114%nat
  else if b =? 9 then escaped 116%nat
  else if b =? 11 then escaped 118%nat
  else if (b <? 32) || (b =? 127) then escaped 120%nat +:+ hex_byte b
  else String c "".

Fixpoint quote_bytes (s : string) : string :=
  match s with
  | EmptyString => ""
  | String c rest => quote_byte c +:+ quote_bytes rest
  end.

Definition quotation : string := String (ascii_of_nat 34) "".

Definition Quote {Q : Quoting} (s : string) : string :=
  if is_ascii s then quotation +:+ quote_bytes s +:+ quotation else uni_Quote s.

Definition bool_text (b : bool) : string := if b then "true" else "false".

(** ** The catalogue of one node *)

(** The zero profile of a node that has none. *)
Definition zero_profile : CapabilityProfile := mkCapabilityProfile "" "" "" 0 ∅ [] time_zero.

(* src/internal/inventory/blocked_services.go:182-184 catalogueCacheKey *)
Definition catalogueCacheKey (version : string) (profile : CapabilityProfile) (feature : string) : string :=
  version +:+ "|" +:+ CapabilityProfile_ProductVersion profile +:+ "|" +:+
  CapabilityProfile_Compatibility profile +:+ "|" +:+ itoa (CapabilityProfile_SchemaVersion profile) +:+ "|" +:+
  bool_text (default false (CapabilityProfile_Features profile !! feature)).

Section catalogue.
Context {R : Runtime} {M : MapOrder} {F : Interfaces} {Q : Quoting}.

(** The services with an identifier and a name, trimmed; the last of an identifier is
    kept. *)
(* src/internal/inventory/blocked_services.go:195-200 canonicalNodeCatalogue *)
Definition canonical_service (s : BlockedServiceMetadata) : option BlockedServiceMetadata :=
  let id := TrimSpace (BlockedServiceMetadata_ID s) in
  let name := TrimSpace (BlockedServiceMetadata_Name s) in
  if (id =?? "") || (name =?? "") then None
  else Some (mkBlockedServiceMetadata id name (TrimSpace (BlockedServiceMetadata_GroupID s))).

(* src/internal/inventory/blocked_services.go:202-204 canonicalNodeCatalogue *)
Definition service_groups (services : list BlockedServiceMetadata) : list string :=
  List.filter (λ id, negb (id =?? "")) (BlockedServiceMetadata_GroupID <$> services).

(* src/internal/inventory/blocked_services.go:212-215 canonicalNodeCatalogue *)
Definition group_list (ids : gset string) : list BlockedServiceGroup :=
  mkBlockedServiceGroup <$> sort_Slice String.ltb (elements ids).

(* src/internal/inventory/blocked_services.go:186-217 canonicalNodeCatalogue *)
Definition canonicalNodeCatalogue (value : NodeBlockedServicesCatalogue) : NodeBlockedServicesCatalogue :=
  let services := omap canonical_service (elems (NodeBlockedServicesCatalogue_Services value)) in
  let groups := List.filter (λ id, negb (id =?? ""))
    ((λ g, TrimSpace (BlockedServiceGroup_ID g)) <$> elems (NodeBlockedServicesCatalogue_Groups value)) in
  mkNodeBlockedServicesCatalogue
    (Some (sort_Slice (λ a b, String.ltb (BlockedServiceMetadata_ID a) (BlockedServiceMetadata_ID b))
      (map_range (last_by_key BlockedServiceMetadata_ID services)).*2))
    (Some (group_list (list_to_set (groups ++ service_groups services)))).

Definition catalogueTTL : Z := 15 * 60 * 1000000000.
Definition filterListTTL : Z := 0.

Definition node_catalogue (node : Node) (status code : string) (fetchedAt : option Time)
  (catalogue : NodeBlockedServicesCatalogue) : BlockedServicesCatalogueNode :=
  mkBlockedServicesCatalogueNode (Node_ID node) (Node_Name node) (Node_Version node) status
    (Z.of_nat (length (elems (NodeBlockedServicesCatalogue_Services catalogue)))) fetchedAt code catalogue.

Definition no_catalogue : NodeBlockedServicesCatalogue := mkNodeBlockedServicesCatalogue None None.

(** The failure of a reading: the cached catalogue if it is usable. *)
(* src/internal/inventory/blocked_services.go:171-178 staleCatalogueResult *)
Definition staleCatalogueResult (node : Node) (status code : string) (usable : option catalogueCacheEntry) :
  BlockedServicesCatalogueNode :=
  match usable with
  | None => node_catalogue node status code None no_catalogue
  | Some cached => node_catalogue node "stale" code (Some (catalogueCacheEntry_fetchedAt cached))
                     (catalogueCacheEntry_catalogue cached)
  end.

Definition failed_status (e : error) : string :=
  if errorCode e =?? ErrorCapability then "unsupported" else "error".

(** Reading a node with its stored credentials: the status and code of a failure. *)
Definition read_node {A} (node : Node) (read : NodeProbeRequest → inventory (res A)) :
  inventory (A + (string * string)) :=
  do record <- ask (Repo_NodeRecordByID (Node_ID node));
  match record with Err e => Ret (inr ("error", errorCode e)) | Ok record =>
  do credentials <- ask (Decrypt (Node_ID node) (Secrets_Credentials (Record_Secrets record)));
  match credentials with Err _ => Ret (inr ("error", ErrorInternal)) | Ok credentials =>
  do found <- read (node_request record credentials);
  match found with
  | Err e => Ret (inr (failed_status e, errorCode e))
  | Ok a => Ret (inl a)
  end end end.

(* src/internal/inventory/blocked_services.go:120-169 Service.blockedServicesCatalogueForNode *)
Definition blockedServicesCatalogueForNode (node : Node) (profile : CapabilityProfile) :
  inventory BlockedServicesCatalogueNode :=
  if negb (implements "BlockedServicesCatalogueReader")
  then Ret (node_catalogue node "unsupported" "CAPABILITY_UNAVAILABLE" None no_catalogue)
  else
    let key := catalogueCacheKey (Node_Version node) profile "blocked_services" in
    do now <- ask Now;
    do cached <- call (Catalogue_Get (Node_ID node));
    let usable := match cached with
      | Some entry => if catalogueCacheEntry_key entry =?? key then cached else None
      | None => None
      end in
    match (entry ← usable; if now - catalogueCacheEntry_fetchedAt entry <? catalogueTTL then Some entry else None) with
    | Some entry => Ret (node_catalogue node "available" "" (Some (catalogueCacheEntry_fetchedAt entry))
                           (catalogueCacheEntry_catalogue entry))
    | None =>
        do found <- read_node node (λ request,
          call (Reader_ReadBlockedServicesCatalogue request (Node_Version node)));
        match found with
        | inr (status, code) => Ret (staleCatalogueResult node status code usable)
        | inl catalogue =>
            let catalogue := canonicalNodeCatalogue catalogue in
            do _ <- call (Catalogue_Put (Node_ID node) (mkcatalogueCacheEntry key catalogue now));
            Ret (node_catalogue node "available" "" (Some now) catalogue)
        end
    end.

(** ** The catalogue of a cluster *)

(* src/internal/inventory/blocked_services.go:231-231 mergeBlockedServicesCatalogue *)
Definition usable_node (node : BlockedServicesCatalogueNode) : bool :=
  (BlockedServicesCatalogueNode_Status node =?? "available") ||
  (BlockedServicesCatalogueNode_Status node =?? "stale").

(** [values[value]++] *)
Definition counted (values : list string) : gmap string Z :=
  foldl (λ m v, <[v := default 0 (m !! v) + 1]> m) ∅ values.

(* src/internal/inventory/blocked_services.go:274-282 mostCommon *)
Definition mostCommon (values : gmap string Z) : string :=
  (foldl (λ '(best, count) '(value, valueCount),
    if (count <? valueCount) || ((valueCount =? count) && String.ltb value best)
    then (value, valueCount) else (best, count)) ("", 0) (map_range values)).1.

(** The services of the usable nodes, with the node that has them. *)
(* src/internal/inventory/blocked_services.go:229-251 mergeBlockedServicesCatalogue *)
Definition offered (nodes : list BlockedServicesCatalogueNode) : list (string * BlockedServiceMetadata) :=
  mjoin ((λ node, (λ s, (BlockedServicesCatalogueNode_NodeID node, s)) <$>
    elems (NodeBlockedServicesCatalogue_Services (BlockedServicesCatalogueNode_catalogue node))) <$>
    List.filter usable_node nodes).

Definition service_id (o : string * BlockedServiceMetadata) : string := BlockedServiceMetadata_ID o.2.

(* src/internal/inventory/blocked_services.go:252-264 mergeBlockedServicesCatalogue *)
Definition merged_service (available : list string) (offers : list (string * BlockedServiceMetadata)) (id : string) :
  MergedBlockedService :=
  let own := List.filter (λ o, service_id o =?? id) offers in
  let supports nodeID := bool_decide (nodeID ∈ own.*1) in
  mkMergedBlockedService id (mostCommon (counted (BlockedServiceMetadata_Name <$> own.*2)))
    (mostCommon (counted (service_groups own.*2)))
    (Some (sort_Slice String.ltb (List.filter supports available)))
    (Some (sort_Slice String.ltb (List.filter (λ id, negb (supports id)) available))).

(* src/internal/inventory/blocked_services.go:225-272 mergeBlockedServicesCatalogue *)
Definition mergeBlockedServicesCatalogue (nodes : list BlockedServicesCatalogueNode) :
  list MergedBlockedService * list BlockedServiceGroup :=
  let usable := List.filter usable_node nodes in
  let available := BlockedServicesCatalogueNode_NodeID <$> usable in
  let offers := offered nodes in
  let ids : gmap string unit := list_to_map ((λ o, (service_id o, tt)) <$> offers) in
  let services := (λ id, merged_service available offers id) <$> (map_range ids).*1 in
  let groups := mjoin ((λ node, BlockedServiceGroup_ID <$>
      elems (NodeBlockedServicesCatalogue_Groups (BlockedServicesCatalogueNode_catalogue node))) <$> usable) in
  (sort_Slice (λ a b, String.ltb (ToLower (MergedBlockedService_Name a)) (ToLower (MergedBlockedService_Name b)))
     services,
   group_list (list_to_set (groups ++ service_groups offers.*2))).

(** [for index, item := range items { results[index] = f(item) }] *)
(* src/internal/inventory/blocked_services.go:97-106 Service.BlockedServicesCatalogue *)
Fixpoint each_node {A} (f : Node → inventory A) (nodes : list Node) : inventory (list A) :=
  match nodes with
  | [] => Ret []
  | node :: rest => do here <- f node; do later <- each_node f rest; Ret (here :: later)
  end.

(** The enabled nodes of a cluster, with their profiles. *)
(* src/internal/inventory/blocked_services.go:67-96 Service.BlockedServicesCatalogue *)
Definition cluster_nodes (clusterID : string) : inventory (res (list Node * (Node → CapabilityProfile))) :=
  try _ <- guard (ValidID clusterID) (Validation "clusterId" "must be a valid UUID");
  try _ <- ask (Repo_ClusterByID clusterID);
  try nodes <- ask (Repo_ListNodes clusterID);
  try profiles <- ask (Repo_CapabilityProfiles clusterID);
  let profilesByNode := last_by_key CapabilityProfile_NodeID profiles in
  done_with (List.filter Node_Enabled nodes, λ node, default zero_profile (profilesByNode !! Node_ID node)).

(* src/internal/inventory/blocked_services.go:66-118 Service.BlockedServicesCatalogue *)
Definition Service_BlockedServicesCatalogue (clusterID : string) : inventory (res BlockedServicesCatalogue) :=
  try found <- cluster_nodes clusterID;
  let '(enabled, profile) := found in
  do generatedAt <- ask Now;
  do items <- each_node (λ node, blockedServicesCatalogueForNode node (profile node)) enabled;
  let status := BlockedServicesCatalogueNode_Status in
  let '(services, groups) := mergeBlockedServicesCatalogue items in
  done_with (mkBlockedServicesCatalogue (Some services) (Some groups) (Some items) generatedAt
    (existsb (λ item, status item =?? "stale") items)
    (existsb (λ item, negb (status item =?? "available")) items)).

(** ** Checking a configuration against the catalogue *)

(* src/internal/inventory/blocked_services.go:292-298 Service.ValidateBlockedServiceIDs *)
Definition supported (services : list MergedBlockedService) (id nodeID : string) : bool :=
  match last_by_key MergedBlockedService_ID services !! id with
  | Some service => bool_decide (nodeID ∈ elems (MergedBlockedService_SupportedNodeIDs service))
  | None => false
  end.

Definition services_field (nodeID : string) : string := "nodes." +:+ nodeID +:+ ".blockedServices".

(** The identifiers that a node does not support, each once; [seen] are those of the
    node that were met (the keys of the code carry the node's identifier too). *)
(* src/internal/inventory/blocked_services.go:306-316 Service.ValidateBlockedServiceIDs *)
Fixpoint unsupported (services : list MergedBlockedService) (node : BlockedServicesCatalogueNode)
  (seen : gset string) (ids : list string) : list ValidationIssue :=
  match ids with
  | [] => []
  | id :: rest =>
      let id := TrimSpace id in
      if (id =?? "") || bool_decide (id ∈ seen) then unsupported services node seen rest
      else
        (if supported services id (BlockedServicesCatalogueNode_NodeID node) then []
         else [mkValidationIssue (services_field (BlockedServicesCatalogueNode_NodeID node))
                 ("Blocked service " +:+ Quote id +:+ " is not supported by node " +:+
                  Quote (BlockedServicesCatalogueNode_NodeName node) +:+ ".")]) ++
        unsupported services node ({[id]} ∪ seen) rest
  end.

(* src/internal/inventory/blocked_services.go:300-317 Service.ValidateBlockedServiceIDs *)
Definition node_issues (services : list MergedBlockedService) (ids : list string)
  (node : BlockedServicesCatalogueNode) : list ValidationIssue :=
  if negb (BlockedServicesCatalogueNode_Status node =?? "available")
  then [mkValidationIssue (services_field (BlockedServicesCatalogueNode_NodeID node))
          ("A current blocked-services catalogue is required for node " +:+
           Quote (BlockedServicesCatalogueNode_NodeName node) +:+ ".")]
  else unsupported services node ∅ ids.

(* src/internal/inventory/blocked_services.go:284-319 Service.ValidateBlockedServiceIDs *)
Definition Inventory_ValidateBlockedServiceIDs (clusterID : string) (ids : list string) :
  inventory (res (list ValidationIssue)) :=
  if bool_decide (ids = []) then done_with []
  else
    try catalogue <- Service_BlockedServicesCatalogue clusterID;
    done_with (mjoin (node_issues (elems (BlockedServicesCatalogue_Services catalogue)) ids <$>
                      elems (BlockedServicesCatalogue_Nodes catalogue))).

(** ** Filter lists *)

(* src/internal/inventory/blocklists.go:182-182 canonicalFilterLists *)
Definition valid_list (url name : string) (rulesCount : Z) : bool :=
  negb (url =?? "") && (len url <=? 4096) && (len name <=? 500) && (0 <=? rulesCount).

(* src/internal/inventory/blocklists.go:190-191 canonicalFilterLists *)
Definition portable (text : string) : bool :=
  match url_Parse text with
  | Some url => negb (URL_Host url =?? "") && ((URL_Scheme url =?? "http") || (URL_Scheme url =?? "https"))
  | None => false
  end.

(* src/internal/inventory/blocklists.go:178-197 canonicalFilterLists *)
Fixpoint canonical_lists (seen : gset string) (lists : list FilterListMetadata) : list FilterListMetadata :=
  match lists with
  | [] => []
  | l :: rest =>
      let url := TrimSpace (FilterListMetadata_URL l) in
      let name := TrimSpace (FilterListMetadata_Name l) in
      if negb (valid_list url name (FilterListMetadata_RulesCount l)) || bool_decide (ToLower url ∈ seen)
      then canonical_lists seen rest
      else mkFilterListMetadata (FilterListMetadata_ID l) url name (FilterListMetadata_Enabled l)
             (FilterListMetadata_RulesCount l) (FilterListMetadata_LastUpdated l) (portable url) ::
           canonical_lists ({[ToLower url]} ∪ seen) rest
  end.

(* src/internal/inventory/blocklists.go:177-200 canonicalFilterLists *)
Definition canonicalFilterLists (lists : list FilterListMetadata) : list FilterListMetadata :=
  sort_Slice (λ a b, String.ltb (ToLower (FilterListMetadata_URL a)) (ToLower (FilterListMetadata_URL b)))
    (canonical_lists ∅ lists).

Definition node_lists (node : Node) (status code : string) (fetchedAt : option Time)
  (lists : slice FilterListMetadata) : FilterListNodePresentation :=
  mkFilterListNodePresentation (Node_ID node) (Node_Name node) (Node_Version node) status fetchedAt code lists.

(** [cloneFilterLists]: a copy; a copy of no lists is nil. *)
(* src/internal/inventory/blocklists.go:202-204 cloneFilterLists *)
Definition cloneFilterLists (lists : slice FilterListMetadata) : slice FilterListMetadata :=
  match elems lists with [] => None | l => Some l end.

(* src/internal/inventory/blocklists.go:169-175 staleBlocklistResult *)
Definition staleBlocklistResult (node : Node) (status code : string) (usable : option filterListCacheEntry) :
  FilterListNodePresentation :=
  match usable with
  | None => node_lists node status code None (Some [])
  | Some cached => node_lists node "stale" code (Some (filterListCacheEntry_fetchedAt cached))
                     (cloneFilterLists (filterListCacheEntry_lists cached))
  end.

(* src/internal/inventory/blocklists.go:110-167 Service.filterListPresentationForNode *)
Definition filterListPresentationForNode (whitelist : bool) (node : Node) (profile : CapabilityProfile) :
  inventory FilterListNodePresentation :=
  if negb (implements (if whitelist then "AllowlistReader" else "BlocklistReader"))
  then Ret (node_lists node "unsupported" "CAPABILITY_UNAVAILABLE" None (Some []))
  else
    let key := catalogueCacheKey (Node_Version node) profile "filtering" in
    let cacheKey := Node_ID node +:+ "|" +:+ bool_text whitelist in
    do now <- ask Now;
    do cached <- call (FilterLists_Get cacheKey);
    let usable := match cached with
      | Some entry => if filterListCacheEntry_key entry =?? key then cached else None
      | None => None
      end in
    match (entry ← usable; if now - filterListCacheEntry_fetchedAt entry <? filterListTTL then Some entry else None) with
    | Some entry => Ret (node_lists node "available" "" (Some (filterListCacheEntry_fetchedAt entry))
                           (cloneFilterLists (filterListCacheEntry_lists entry)))
    | None =>
        do found <- read_node node (λ request, call (Reader_ReadFilterLists request (Node_Version node) whitelist));
        match found with
        | inr (status, code) => Ret (staleBlocklistResult node status code usable)
        | inl lists =>
            let lists := canonicalFilterLists lists in
            do _ <- call (FilterLists_Put cacheKey (mkfilterListCacheEntry key (cloneFilterLists (Some lists)) now));
            Ret (node_lists node "available" "" (Some now) (Some lists))
        end
    end.

(* src/internal/inventory/blocklists.go:63-108 Service.filterListPresentation *)
Definition filterListPresentation (clusterID : string) (whitelist : bool) :
  inventory (res FilterListPresentation) :=
  try found <- cluster_nodes clusterID;
  let '(enabled, profile) := found in
  do generatedAt <- ask Now;
  do items <- each_node (λ node, filterListPresentationForNode whitelist node (profile node)) enabled;
  let status := FilterListNodePresentation_Status in
  done_with (mkFilterListPresentation (Some items) generatedAt
    (existsb (λ item, status item =?? "stale") items)
    (existsb (λ item, negb (status item =?? "available")) items)).

(* src/internal/inventory/blocklists.go:55-57 Service.BlocklistPresentation *)
Definition Service_BlocklistPresentation (clusterID : string) : inventory (res FilterListPresentation) :=
  filterListPresentation clusterID false.

(* src/internal/inventory/blocklists.go:59-61 Service.AllowlistPresentation *)
Definition Service_AllowlistPresentation (clusterID : string) : inventory (res FilterListPresentation) :=
  filterListPresentation clusterID true.
End catalogue.
