(* ===== verification/InventorySpec.v ===== *)
(** * What the inventory service guarantees

    An observation is recorded as it was read; only a complete observation becomes a
    draft; a DHCP reset is sent once, to a node in maintenance, after it was recorded;
    blocked services are accepted exactly when every node offers them. *)

From S2P Require Import Prelude GoRuntime Json Domain Configuration ConfigDiff ConfigValidate ControlModel.
From S2P Require Import Effects ControlEffects Executor InventoryModel Inventory InventoryCatalogue.

(** ** Facts *)

Inductive inv_fact :=
  | FRecord (id : string) (record : NodeRecord)
  | FCluster (id : string) (cluster : Cluster)
  | FOpened (id : string) (sealed : EncryptedCredentials) (credentials : NodeCredentials)
  | FSnapshot (snapshot : Snapshot)
  | FNode (node : Node)
  | FDraft (draft : Draft)
  | FActive (clusterID : string) (active : bool)
  | FRead (outcome : res Document)
  | FSaved (snapshot : Snapshot) (ok : bool)
  | FImport (draft : Draft) (expectedVersion : Z)
  | FBegun (operation stored : DHCPOperation) (created : bool)
  | FReset (request : NodeProbeRequest) (whole : bool)
  | FFinished (operation : DHCPOperation).

Definition if_ok {A B} (f : A → B) (r : res A) : option B :=
  match r with Ok a => Some (f a) | Err _ => None end.

Definition ctl_fact {X} (e : ctl X) : X → option inv_fact :=
  match e in ctl X return X → option inv_fact with
  | Repo_NodeRecordByID id => if_ok (FRecord id)
  | Repo_ClusterByID id => if_ok (FCluster id)
  | Decrypt id sealed => if_ok (FOpened id sealed)
  | Repo_SnapshotByID _ => if_ok FSnapshot
  | Repo_NodeByID _ => if_ok FNode
  | Repo_DraftByCluster _ => if_ok FDraft
  | Repo_ClusterHasActiveDeployment id => if_ok (FActive id)
  | _ => λ _, None
  end.

Definition inv_view (ev : event invctl) : option inv_fact :=
  match ev with
  | Event e x =>
      (match e in invctl X return X → option inv_fact with
       | ICore e => ctl_fact e
       | Reader_ReadConfiguration _ _ => λ r, Some (FRead r.2)
       | Repo_SaveObservation s _ => λ r, Some (FSaved s (is_Ok r))
       | Repo_ImportDraft d v _ => λ _, Some (FImport d v)
       | Repo_BeginDHCPOperation o _ => if_ok (λ r, FBegun o r.1 r.2)
       | Reader_ResetDHCPLeases request => λ _, Some (FReset request false)
       | Reader_ResetDHCPConfiguration request => λ _, Some (FReset request true)
       | Repo_FinishDHCPOperation o _ => λ _, Some (FFinished o)
       | _ => λ _, None
       end) x
  end.

Abbreviation inv_facts := (with_facts inv_view).

Ltac inv_step :=
  lazymatch goal with
  | |- with_facts _ (ask _) _ => apply facts_call; intros ?; cbn [inv_view ctl_fact option_list is_Ok]
  | |- with_facts _ (requires _ _) _ => unfold requires
  | |- with_facts _ (decrypt _ _) _ => unfold decrypt
  | |- with_facts _ (inventoryAudit _ _ _ _ _) _ => unfold inventoryAudit
  | |- with_facts _ (dhcpOperationAudit _ _ _ _ _) _ => unfold dhcpOperationAudit
  | _ => facts_step ltac:(fun _ => cbn [inv_view ctl_fact option_list is_Ok])
  end.

Ltac flat := cbn [if_ok app option_list option_rect is_Ok] in *.

(** Membership in the facts of a run. *)
Ltac in_list := first [left | right; in_list].
Ltac not_in H := cbn [if_ok app option_list option_rect] in H; rewrite ?elem_of_cons, elem_of_nil in H;
  repeat (destruct H as [H|H]; [discriminate H|]); contradiction.

(** The responses that were destructed. *)
Ltac rewrite_results := repeat match goal with
  | H : ?x = Ok _ |- _ => is_var x; subst x
  | H : ?x = Err _ |- _ => is_var x; subst x
  end.

Section spec.
Context {R : Runtime} {M : MapOrder} {F : Interfaces}.

(** ** Observations *)

(** What Observe recorded and answered, from what it read. *)
Inductive recorded (nodeID : string) (f : list inv_fact) : option Snapshot * option error → Prop :=
| not_recorded e : (∀ s, FSaved s true ∉ f) → recorded nodeID f (None, Some e)
| recorded_success s document : FRead (Ok document) ∈ f → FSaved s true ∈ f →
    Snapshot_NodeID s = nodeID → Snapshot_Document s = Some document →
    Snapshot_CanonicalHash s = (Marshal document).2 → Snapshot_CollectionStatus s = "succeeded" →
    recorded nodeID f (Some s, None)
| recorded_failure s e e' : FRead (Err e) ∈ f → FSaved s true ∈ f →
    Snapshot_NodeID s = nodeID → Snapshot_Document s = None → Snapshot_CollectionStatus s = "failed" →
    Snapshot_ErrorCode s = errorCode e → errorCode e' = errorCode e → recorded nodeID f (Some s, Some e').

Lemma observation_error_code nodeID version e : errorCode (observation_error nodeID version e) = errorCode e.
Proof.
  unfold observation_error, errorCode.
  assert (H : errors_As e = (λ '(k, m, _), (k, m)) <$> as_domain e) by (induction e; cbn; done).
  destruct (as_domain e) as [[[kind message] field]|] eqn:E; cbn; rewrite H; by rewrite ?E.
Qed.

(** An observation is recorded as it was read: Observe answers without an error exactly with a snapshot that was
    stored, that is marked succeeded and carries the document the node gave with the hash of its canonical form; when
    the node could not be read, a failed snapshot without a document was stored with the code of that error, and the
    caller gets both; in every other case no snapshot was stored. *)
Theorem Observe_records_what_was_read nodeID :
  inv_facts (Inventory_Observe nodeID) (λ f r, recorded nodeID f r).
Proof.
  unfold Inventory_Observe. repeat (inv_step; flat);
    try (apply not_recorded; intros s H; not_in H).
  all: rewrite_results.
  - eapply recorded_success; [in_list|in_list|done..].
  - eapply recorded_failure; [in_list|in_list|done..|]. apply observation_error_code.
Qed.

(** ** Importing an observation *)

(** What an imported draft is made of. *)
Record imported (f : list inv_fact) (clusterID : string) (expectedVersion : Z) (d : Draft) (v : Z) : Prop := {
  imported_version : v = expectedVersion ∧ Draft_Version d = expectedVersion + 1;
  imported_cluster : Draft_ClusterID d = clusterID;
  imported_from : ∃ s node document, FSnapshot s ∈ f ∧ FNode node ∈ f ∧ Node_ClusterID node = clusterID ∧
    Snapshot_Document s = Some document ∧ ValidateNodeSpecific "nodeSpecific" (Document_NodeSpecific document) = [] ∧
    DesiredDocument_Shared (Draft_Document d) =
      DesiredDocument_Shared (DesiredFromObservation (Snapshot_NodeID s) document) ∧
    is_Some (DesiredDocument_NodeOverrides (Draft_Document d) !! Snapshot_NodeID s) ∧
    ∀ current, FDraft current ∈ f → Draft_ID d = Draft_ID current ∧ Draft_Version current = expectedVersion ∧
      Draft_BaseRevisionID d = Draft_BaseRevisionID current ∧
      ∀ id, id ≠ Snapshot_NodeID s → DesiredDocument_NodeOverrides (Draft_Document d) !! id =
        DesiredDocument_NodeOverrides (Draft_Document current) !! id;
  imported_fresh : (∀ current, FDraft current ∉ f) → expectedVersion = 0
}.

Lemma DesiredFromObservation_override nodeID document id :
  is_Some (DesiredDocument_NodeOverrides (DesiredFromObservation nodeID document) !! id) ↔ id = nodeID.
Proof.
  unfold DesiredFromObservation, CanonicaliseDesired. cbn [DesiredDocument_NodeOverrides].
  rewrite lookup_fmap, fmap_is_Some. split.
  - intros [x H]. by apply lookup_singleton_Some in H as [-> _].
  - intros ->. rewrite lookup_singleton_eq. by eexists.
Qed.

Lemma merge_overrides_lookup current nodeID document id :
  DesiredDocument_NodeOverrides (merge_overrides current nodeID document (DesiredFromObservation nodeID document)) !! id =
  if decide (id = nodeID) then Some (Document_NodeSpecific document)
  else DesiredDocument_NodeOverrides (Draft_Document current) !! id.
Proof.
  cbn [merge_overrides with_overrides DesiredDocument_NodeOverrides]. destruct (decide (id = nodeID)) as [->|Hne].
  - by rewrite lookup_insert_eq.
  - rewrite lookup_insert_ne by done.
    assert (Hnone : DesiredDocument_NodeOverrides (DesiredFromObservation nodeID document) !! id = None).
    { apply eq_None_not_Some. by rewrite DesiredFromObservation_override. }
    destruct (DesiredDocument_NodeOverrides (Draft_Document current) !! id) eqn:E.
    + by apply lookup_union_Some_l.
    + by apply lookup_union_None.
Qed.

(** Only a reviewed, complete observation becomes a draft: what Service.Import hands to the store was confirmed, is
    the shared configuration of the document of a successful snapshot of a node of the cluster whose listener identity
    is valid, and replaces the draft at the version the caller expected, keeping its identity, its base revision and
    the overrides of all other nodes; without a draft the expected version is 0. *)
Theorem Import_only_complete actor clusterID snapshotID expectedVersion confirmed :
  inv_facts (Service_Import actor clusterID snapshotID expectedVersion confirmed)
    (λ f _, ∀ d v, FImport d v ∈ f → confirmed = true ∧ imported f clusterID expectedVersion d v).
Proof.
  unfold Service_Import. repeat (inv_step; flat); try (intros d v H; not_in H).
  all: rewrite_results; try lazymatch goal with |- context [if_ok FDraft ?x] => destruct x end; flat;
    try (intros d' v H; not_in H).
  all: intros d' v; rewrite !elem_of_cons, elem_of_nil.
  all: intros H; repeat (destruct H as [H|H]; [try discriminate H|try contradiction]); injection H as -> ->.
  all: bool_simp; lazymatch goal with H : (if ?b then _ else _) = Ok _ |- _ => destruct b eqn:Hversion; [done|] end.
  all: try (lazymatch goal with H : (if ?b then _ else _) = Ok _ |- _ => destruct b; [done|] end).
  all: lazymatch goal with H : Ok _ = Ok _ |- _ => injection H as <- <- <- end; bool_simp; (split; [done|]).
  all: split; cbn [Draft_Version Draft_ClusterID Draft_Document Draft_ID Draft_BaseRevisionID]; try done.
  all: lazymatch goal with
    | |- (∀ _, _ ∉ _) → _ => intros Hno; try done; exfalso; by eapply Hno; in_list
    | _ => eexists _, _, _; split_and!; [in_list|in_list|done..| |]
    end.
  all: lazymatch goal with
    | |- is_Some _ => rewrite ?merge_overrides_lookup, ?DesiredFromObservation_override, ?decide_True by done; eauto
    | _ => intros ? H; rewrite !elem_of_cons, elem_of_nil in H;
        repeat (destruct H as [H|H]; [try discriminate H|try contradiction]); injection H as ->
    end.
  all: split_and!; try done; intros id Hid; by rewrite merge_overrides_lookup, decide_False.
Qed.

(** ** DHCP resets *)

Definition no_reset (f : list inv_fact) : Prop := ∀ request whole, FReset request whole ∉ f.

Lemma no_reset_app f g : no_reset f → no_reset g → no_reset (f ++ g).
Proof. intros Hf Hg r w [H|H]%elem_of_app; [by apply (Hf r w)|by apply (Hg r w)]. Qed.

Ltac quiet_run := repeat (inv_step; flat); let H := fresh in intros ? ? H; not_in H.

Lemma Observe_no_reset nodeID : inv_facts (Inventory_Observe nodeID) (λ f _, no_reset f).
Proof. unfold Inventory_Observe. quiet_run. Qed.

Lemma finish_dhcp_no_reset actor o action extra at_ outcome :
  inv_facts (finish_dhcp actor o action extra at_ outcome) (λ f _, no_reset f).
Proof. unfold finish_dhcp. quiet_run. Qed.

Lemma failDHCPOperation_no_reset actor o r action e :
  inv_facts (failDHCPOperation actor o r action e) (λ f _, no_reset f).
Proof. unfold failDHCPOperation. inv_step. inv_step. apply finish_dhcp_no_reset. Qed.

Lemma complete_dhcp_no_reset actor o r nodeID action :
  inv_facts (complete_dhcp actor o r nodeID action) (λ f _, no_reset f).
Proof.
  unfold complete_dhcp. inv_step. inv_step. inv_step. eapply facts_mono; [apply Observe_no_reset|].
  intros f [snapshot [e|]] Hf; inv_step; inv_step; (eapply facts_mono; [apply finish_dhcp_no_reset|]);
    intros f' ? Hf'; flat; by apply no_reset_app.
Qed.

(** What allows a reset. *)
Record reset_allowed (command : string) (record : NodeRecord) (cluster : Cluster) (whole : bool) : Prop := {
  reset_enabled : Node_Enabled (Record_Node record) = true;
  reset_maintenance : Node_MaintenanceMode (Record_Node record) = true;
  reset_kind : whole = negb (command =?? DHCPOperationResetLeases);
  reset_policy : command = DHCPOperationResetConfiguration →
    Cluster_ReconciliationPolicy cluster ≠ ReconciliationEnforce
}.

(** The operation that is handed to the store before the command: running, of this command, key, requester
    and cluster, with one result, running too, for the node. *)
Definition begun_running (actor : Actor) (nodeID command key : string) (cluster : Cluster) (o : DHCPOperation) : Prop :=
  DHCPOperation_Status o = "running" ∧ DHCPOperation_Command o = command ∧
  DHCPOperation_IdempotencyKey o = key ∧ DHCPOperation_RequestedBy o = Actor_UserID actor ∧
  DHCPOperation_ClusterID o = Cluster_ID cluster ∧
  ∃ r, DHCPOperation_NodeResults o = Some [r] ∧ DHCPOperationNodeResult_NodeID r = nodeID ∧
    DHCPOperationNodeResult_Status r = "running".

Lemma dhcp_command_facts command nodeID record cluster :
  inv_facts (dhcp_command command nodeID record cluster) (λ f r,
    no_reset f ∧ r ≠ Ok tt ∨
    ∃ credentials whole,
      f = [FActive (Cluster_ID cluster) false;
           FOpened nodeID (Secrets_Credentials (Record_Secrets record)) credentials;
           FReset (node_request record credentials) whole] ∧ reset_allowed command record cluster whole).
Proof.
  unfold dhcp_command, dhcp_guards. repeat (inv_step; flat); rewrite_results;
    try (left; split; [intros ? ? H; not_in H|done]); right; eexists _, _.
  all: match goal with H : negb ?b = true |- _ => is_var b; apply negb_true_iff in H as -> end; split; [reflexivity|].
  all: match goal with H : negb (_ && _) = true |- _ => apply negb_true_iff, andb_false_iff in H end.
  all: bool_simp; split; try done; try (rewrite bool_decide_eq_true_2 by done; done);
    try (rewrite bool_decide_eq_false_2 by done; done).
  all: intros Hc; destruct Heqb2 as [H|H]; bool_simp; congruence.
Qed.

Lemma record_dhcp_facts actor nodeID command confirmation key :
  inv_facts (record_dhcp actor nodeID command confirmation key) (λ f r,
    no_reset f ∧ (∀ o, FFinished o ∉ f) ∧
    ∀ action record cluster stored, r = Ok (action, record, cluster, stored) →
      dhcpOperationContract command = Ok (confirmation, action) ∧
      FRecord nodeID record ∈ f ∧ FCluster (Node_ClusterID (Record_Node record)) cluster ∈ f ∧
      ∃ o, begun_running actor nodeID command key cluster o ∧ FBegun o stored.1 stored.2 ∈ f).
Proof.
  unfold record_dhcp. repeat (inv_step; flat); rewrite_results;
    (split; [intros ? ? H; not_in H|]); (split; [intros ? H; not_in H|]); try done.
  intros action record cluster stored [= <- <- <- <-]. bool_simp; subst.
  split_and!; [done|in_list|in_list|]. eexists. split; [|in_list]. split_and!; try done. by eexists.
Qed.

(** C38: a DHCP reset is destructive and guarded.  RunDHCPOperation sends at most one, with the address and
    the credentials of the record that was read for the node; only with the confirmation of the command;
    after an operation of this command, key, requester and cluster, running and with a running result for the
    node, was handed to the store and the store answered that the key was new; only when the node is enabled
    and in maintenance and its cluster, the one of its record, was seen without an active deployment; and a
    reset of the configuration, not one of the leases, only when this cluster does not enforce its
    revision.  Nothing of the operation is finished before. *)
Theorem dhcp_reset_guarded actor nodeID command confirmation key :
  inv_facts (RunDHCPOperation actor nodeID command confirmation key) (λ f _, no_reset f ∨
    ∃ record cluster o stored action credentials whole before after,
      f = before ++ FReset (node_request record credentials) whole :: after ∧
      no_reset before ∧ no_reset after ∧ (∀ o, FFinished o ∉ before) ∧
      dhcpOperationContract command = Ok (confirmation, action) ∧
      FRecord nodeID record ∈ before ∧ FCluster (Node_ClusterID (Record_Node record)) cluster ∈ before ∧
      begun_running actor nodeID command key cluster o ∧ FBegun o stored true ∈ before ∧
      FActive (Cluster_ID cluster) false ∈ before ∧
      FOpened nodeID (Secrets_Credentials (Record_Secrets record)) credentials ∈ before ∧
      reset_allowed command record cluster whole).
Proof.
  unfold RunDHCPOperation. inv_step. eapply facts_mono; [apply record_dhcp_facts|].
  intros f [[[[action record] cluster] [o []]]|e] (Hf & Hfinished & Hok);
    try (inv_step; left; by rewrite app_nil_r).
  destruct (Hok _ _ _ _ eq_refl) as (Hcontract & Hr & Hc & Hb). cbn in Hb.
  destruct (dhcp_result o) as [r|]; [|inv_step; left; by rewrite app_nil_r].
  inv_step. eapply facts_mono; [apply dhcp_command_facts|].
  intros g ran Hran.
  assert (Hafter : with_facts inv_view (match ran with
    | Ok _ => complete_dhcp actor o r nodeID action
    | Err e => failDHCPOperation actor o r action e end) (λ h _, no_reset h))
    by (destruct ran; [apply complete_dhcp_no_reset|apply failDHCPOperation_no_reset]).
  eapply facts_mono; [exact Hafter|]. intros h outcome Hh.
  destruct Hran as [[Hg _]|(credentials & whole & -> & Hallowed)]; [left; by repeat apply no_reset_app|].
  destruct Hb as (begun & Hbegun & Hb).
  right. exists record, cluster, begun, o, action, credentials, whole,
    (f ++ [FActive (Cluster_ID cluster) false;
           FOpened nodeID (Secrets_Credentials (Record_Secrets record)) credentials]), h.
  split; [by rewrite <- app_assoc|].
  split_and!; try done; try (apply elem_of_app; by left); try (apply elem_of_app; right; in_list).
  - apply no_reset_app; [done|]. intros ? ? H. not_in H.
  - intros o' [H|H]%elem_of_app; [by apply (Hfinished o')|not_in H].
Qed.
End spec.

(** * What the merged catalogue of blocked services says

    A configuration may block a service exactly when every enabled node is known to offer it. *)

Section spec.
Context {R : Runtime} {M : MapOrder} {F : Interfaces} {Q : Quoting}.

(** ** Support *)

(** The node's own catalogue has the service. *)
Definition node_offers (node : BlockedServicesCatalogueNode) (id : string) : Prop :=
  id ∈ BlockedServiceMetadata_ID <$>
    elems (NodeBlockedServicesCatalogue_Services (BlockedServicesCatalogueNode_catalogue node)).

Lemma offered_iff nodes id nodeID :
  nodeID ∈ (List.filter (λ o, service_id o =?? id) (offered nodes)).*1 ↔
  ∃ node, node ∈ nodes ∧ usable_node node = true ∧ BlockedServicesCatalogueNode_NodeID node = nodeID ∧
    node_offers node id.
Proof.
  unfold offered, node_offers. rewrite list_elem_of_fmap. split.
  - intros ([n s] & -> & [Hin Hid]%list_elem_of_In%filter_In). apply list_elem_of_In in Hin.
    apply list_elem_of_join in Hin as (l & Hin & (node & -> & Hnode)%list_elem_of_fmap).
    apply list_elem_of_fmap in Hin as (s' & [= -> ->] & Hs).
    apply list_elem_of_In, filter_In in Hnode as [Hnode Husable]. apply list_elem_of_In in Hnode.
    exists node. bool_simp. subst id. split_and!; try done. by apply (list_elem_of_fmap_2 BlockedServiceMetadata_ID).
  - intros (node & Hnode & Husable & <- & (s & -> & Hs)%list_elem_of_fmap).
    exists (BlockedServicesCatalogueNode_NodeID node, s). split; [done|].
    apply list_elem_of_In, filter_In. split; [apply list_elem_of_In|by apply bool_decide_eq_true].
    apply list_elem_of_join. eexists. split; [|apply list_elem_of_fmap; exists node; split; [reflexivity|]].
    + apply list_elem_of_fmap. by exists s.
    + apply list_elem_of_In, filter_In. split; [by apply list_elem_of_In|done].
Qed.

Lemma service_ids (offers : list (string * BlockedServiceMetadata)) id :
  id ∈ (map_range (list_to_map ((λ o, (service_id o, tt)) <$> offers) : gmap string unit)).*1 ↔
  ∃ o, o ∈ offers ∧ service_id o = id.
Proof.
  rewrite map_range_perm, list_elem_of_fmap. split.
  - intros ([k []] & -> & H%elem_of_map_to_list%elem_of_list_to_map_2).
    apply list_elem_of_fmap in H as (o & [= ->] & Ho). by exists o.
  - intros (o & Ho & <-). exists (service_id o, tt). split; [done|]. apply elem_of_map_to_list.
    assert (Hin : is_Some ((list_to_map ((λ o, (service_id o, tt)) <$> offers) : gmap string unit) !! service_id o)).
    { apply not_eq_None_Some. intros H%not_elem_of_list_to_map. destruct H.
      rewrite <- list_fmap_compose. cbn. by apply (list_elem_of_fmap_2 service_id). }
    by destruct Hin as [[] ->].
Qed.

Lemma supported_iff nodes id nodeID : supported (mergeBlockedServicesCatalogue nodes).1 id nodeID = true ↔
  ∃ node, node ∈ nodes ∧ usable_node node = true ∧ BlockedServicesCatalogueNode_NodeID node = nodeID ∧
    node_offers node id.
Proof.
  unfold mergeBlockedServicesCatalogue. cbn [fst].
  set (available := BlockedServicesCatalogueNode_NodeID <$> List.filter usable_node nodes).
  set (services := (λ id, merged_service available (offered nodes) id) <$> _).
  set (sorted := sort_Slice _ services). unfold supported. rewrite <- offered_iff.
  pose proof (last_by_key_lookup MergedBlockedService_ID sorted id) as H.
  destruct (last_by_key MergedBlockedService_ID sorted !! id) as [service|].
  - destruct H as [Hin <-]. apply elem_of_sort_Slice, list_elem_of_fmap in Hin as (k & -> & _).
    cbn [merged_service MergedBlockedService_SupportedNodeIDs MergedBlockedService_ID elems].
    rewrite bool_decide_eq_true, elem_of_sort_Slice, list_elem_of_In, filter_In, bool_decide_eq_true.
    split; [by intros [_ H]|]. intros H. split; [|done]. apply list_elem_of_In. subst available.
    apply offered_iff in H as (node & Hnode & Husable & <- & _). apply list_elem_of_fmap_2.
    apply list_elem_of_In, filter_In. split; [by apply list_elem_of_In|done].
  - split; [done|]. intros Hin. destruct H. apply list_elem_of_fmap.
    apply list_elem_of_fmap in Hin as (o & _ & [Ho Hid]%list_elem_of_In%filter_In). bool_simp.
    exists (merged_service available (offered nodes) id). split; [done|]. apply elem_of_sort_Slice.
    subst services. apply (list_elem_of_fmap_2 (λ id, merged_service available (offered nodes) id)), service_ids.
    exists o. split; [by apply list_elem_of_In|done].
Qed.

(** ** The check of a configuration *)

Lemma unsupported_nil services node ids : ∀ seen, unsupported services node seen ids = [] ↔
  ∀ id, id ∈ ids → TrimSpace id ≠ "" → TrimSpace id ∉ seen →
    supported services (TrimSpace id) (BlockedServicesCatalogueNode_NodeID node) = true.
Proof.
  induction ids as [|x ids IH]; intros seen; cbn [unsupported]; [split; [by intros _ id ?%elem_of_nil|done]|].
  destruct (TrimSpace x =?? "") eqn:Hx; cbn [orb].
  { rewrite IH. bool_simp. split; [intros H id [->|Hid]%elem_of_cons; [done|eauto]|].
    intros H id Hid. apply H. by right. }
  destruct (bool_decide (TrimSpace x ∈ seen)) eqn:Hs; bool_simp.
  { rewrite IH. split; [intros H id [->|Hid]%elem_of_cons; [done|eauto]|]. intros H id Hid. apply H. by right. }
  rewrite app_nil, IH. split.
  - intros [H1 H2] id Hid Hne Hseen. destruct (supported _ _ _) eqn:Hx' in H1; [|done].
    destruct (decide (TrimSpace id = TrimSpace x)) as [->|Hdiff]; [done|].
    apply elem_of_cons in Hid as [->|Hid]; [done|]. apply H2; try done. set_solver.
  - intros H. split.
    + rewrite H; [done|by left|done..].
    + intros id Hid Hne Hseen. apply H; [by right|done|set_solver].
Qed.

Lemma same_node nodes (a b : BlockedServicesCatalogueNode) :
  NoDup (BlockedServicesCatalogueNode_NodeID <$> nodes) → a ∈ nodes → b ∈ nodes →
  BlockedServicesCatalogueNode_NodeID a = BlockedServicesCatalogueNode_NodeID b → a = b.
Proof.
  intros Hids Ha Hb E. pose proof (last_by_key_NoDup _ _ _ Hids Ha) as H1.
  pose proof (last_by_key_NoDup _ _ _ Hids Hb) as H2. congruence.
Qed.

Lemma node_issues_nil nodes node ids : NoDup (BlockedServicesCatalogueNode_NodeID <$> nodes) → node ∈ nodes →
  node_issues (mergeBlockedServicesCatalogue nodes).1 ids node = [] ↔
  BlockedServicesCatalogueNode_Status node = "available" ∧
  ∀ id, id ∈ ids → TrimSpace id ≠ "" → node_offers node (TrimSpace id).
Proof.
  intros Hids Hnode. unfold node_issues.
  destruct (BlockedServicesCatalogueNode_Status node =?? "available") eqn:Hs; cbn [negb]; bool_simp;
    [|split; [done|by intros [? _]]].
  assert (Husable : usable_node node = true) by (unfold usable_node; by rewrite Hs).
  rewrite unsupported_nil. setoid_rewrite supported_iff. split.
  - intros H. split; [done|]. intros id Hid Hne.
    destruct (H id Hid Hne ltac:(set_solver)) as (node' & Hnode' & _ & Heq & Hoffers).
    by rewrite <- (same_node nodes node' node).
  - intros [_ H] id Hid Hne _. exists node. auto.
Qed.

(** C39: Blocked services are accepted exactly when every node offers them: for nodes with distinct identifiers, the
    check of a list of services against the merged catalogue reports nothing if and only if the catalogue of every
    node is available (read from the node, or from a cache entry within its time to live; not a stale copy, not a
    failure) and contains each of the services that is not blank. *)
Theorem blocked_services_checked nodes ids :
  NoDup (BlockedServicesCatalogueNode_NodeID <$> nodes) →
  mjoin (node_issues (mergeBlockedServicesCatalogue nodes).1 ids <$> nodes) = [] ↔
  ∀ node, node ∈ nodes → BlockedServicesCatalogueNode_Status node = "available" ∧
    ∀ id, id ∈ ids → TrimSpace id ≠ "" → node_offers node (TrimSpace id).
Proof.
  intros Hids. rewrite join_nil, Forall_fmap, Forall_forall.
  split; intros H node Hnode; by apply (node_issues_nil nodes), H.
Qed.
End spec.
