(* ===== verification/ServiceWitness.v ===== *)
(** * The theorems on management, workers, commands and the inventory, on concrete runs *)

From S2P Require Import Prelude GoRuntime Json Domain Compat Configuration ConfigDiff ConfigValidate.
From S2P Require Import AuditMetadata ControlModel Store StoreRecords StoreControl StoreInvariant StoreHistory.
From S2P Require Import Effects ControlEffects ControlWitness Limiter Workers Management ManagementSpec.
From S2P Require Import InventoryModel OperationsModel Wire Operations OperationsExecutor OperationsSpec.
From S2P Require Import OperationsStore OperationsHistory Inventory InventoryCatalogue InventorySpec.

#[local] Existing Instance ascii_runtime.
#[local] Existing Instance key_order.
#[local] Existing Instance c_collation.

(** ** A node is added to the fleet, and updated *)

Definition added : CreateNodeInput :=
  mkCreateNodeInput (uid "01") " c " "https://c" "system" "" "admin" "secret" true.

Definition changed : UpdateNodeInput :=
  mkUpdateNodeInput "a2" "https://a" "system" None (Some "root") (Some "new") true 1.

(** The fleet after its first identifiers. *)
Definition later : World := mkWorld fleet_db 40 (w_nodes (fleet [])) [].

#[local] Abbreviation adding := (Management_CreateNode operator added).
#[local] Abbreviation updating := (Management_UpdateNode operator (uid "02") changed).

Definition is_create_node (f : management_fact) : bool :=
  match f with MCreateNode _ (Ok _) => true | _ => false end.
Definition is_update_node (f : management_fact) : bool :=
  match f with MUpdateNode _ _ (Ok _) => true | _ => false end.

Lemma management_writes :
  some_where is_create_node (mfacts (trace adding later) !! 7%nat) = true ∧
  some_where is_update_node (mfacts (trace updating later) !! 7%nat) = true.
Proof. split; vm_compute; reflexivity. Qed.

Lemma CreateNode_probed_witness : ∃ record result envelope,
  MProbe (mkNodeProbeRequest (Node_BaseURL (Record_Node record)) "system" ""
            (mkNodeCredentials "admin" "secret")) (Ok result) ∈
    take 7 (mfacts (trace adding later)) ∧
  Probe_Compatibility result = CompatibilitySupported ∧
  Secrets_Credentials (Record_Secrets record) = envelope.
Proof.
  destruct management_writes as [H _]. over_run tr Htr.
  apply cut_where in H as ([] & HP & H); try discriminate HP.
  destruct (CreateNode_probed operator added _ _ Htr _ _ _ _ H)
    as (result & envelope & Hp & Hc & _ & E & Hn & _).
  exists record, result, envelope. split; [|split; [exact Hc|rewrite E; reflexivity]].
  destruct Hn as (_ & _ & _ & _ & Epol & _). rewrite Epol in Hp. exact Hp.
Defined.

Lemma UpdateNode_probed_witness : ∃ record old credentials,
  Node_Enabled (Record_Node record) = true ∧
  rotated (uid "02") changed old (take 7 (mfacts (trace updating later))) credentials
    (Secrets_Credentials (Record_Secrets record)).
Proof.
  destruct management_writes as [_ H]. over_run tr Htr.
  apply cut_where in H as ([] & HP & H); try discriminate HP.
  destruct (UpdateNode_probed operator (uid "02") changed _ _ Htr _ _ _ _ _ H)
    as (_ & _ & old & credentials & _ & Hr & _ & He & _).
  exists record, old, credentials. split; [exact He|exact Hr].
Defined.

(** ** A node is polled, and tested *)

Definition polled_record : NodeRecord := fleet_node (uid "02") "a" "https://a".
Definition decrypt (_ : string) (_ : EncryptedCredentials) : res NodeCredentials :=
  Ok (mkNodeCredentials "admin" "secret").
Definition probe (_ : NodeProbeRequest) : res NodeProbeResult :=
  Ok (mkNodeProbeResult "v0.107.78" CompatibilitySupported true true 0 7).

#[local] Abbreviation polling := (pollNode polled_record).
#[local] Abbreviation testing := (TestNodeConnection operator (uid "02")).

Definition answeredb (l : list management_fact) : bool :=
  forallb (λ f, match f with
                | MRecord _ (Err _) | MDecrypt _ _ (Err _) | MProbe _ (Err _) => false
                | _ => true
                end) l.

Lemma poll_agrees_with_test_witness : ∃ f tr tr',
  traces polling tr tt ∧ (∃ r, traces testing tr' r) ∧ f ∈ mfacts tr ∧ f ∈ mfacts tr' ∧ is_health f.
Proof.
  set (event := mkAuditEvent (uid "99") "user" (Some (Actor_UserID operator)) "" "node.connection_tested" "node"
    (Some (uid "02")) (Actor_RequestID operator)
    (JObj [("outcome", JStr "succeeded"); ("compatibility", JStr CompatibilitySupported);
           ("version", JStr "v0.107.78")]) 5 "" "").
  set (result := mkNodeProbeResult "v0.107.78" CompatibilitySupported true true 0 7).
  set (credentials := mkNodeCredentials "admin" "secret").
  assert (H1 : traces polling [Event Now 3;
      Event (Decrypt (uid "02") (Secrets_Credentials (Record_Secrets polled_record))) (Ok credentials);
      Event (ProbeStatus (record_request polled_record credentials)) (Ok result);
      Event (Repo_UpdateNodeHealth (uid "02") NodeHealthy CompatibilitySupported "v0.107.78" (Some 7) "" 3 true)
        (Ok tt)] tt)
    by (repeat (eexists _, _; split; [reflexivity|]); split; reflexivity).
  assert (H2 : traces testing [Event (Repo_NodeRecordByID (uid "02")) (Ok polled_record);
      Event (Decrypt (uid "02") (Secrets_Credentials (Record_Secrets polled_record))) (Ok credentials);
      Event Now 5; Event (ProbeStatus (record_request polled_record credentials)) (Ok result);
      Event GenerateID (Ok (uid "99"));
      Event (Repo_RecordNodeTestResult (uid "02") NodeHealthy CompatibilitySupported "v0.107.78" (Some 7) "" 5
        true event) (Ok tt)] (Ok result))
    by (repeat (eexists _, _; split; [reflexivity|]); split; reflexivity).
  assert (Hc : ∀ q r, probe q = Ok r → Probe_Compatibility r = CompatibilitySupported ∨
    Probe_Compatibility r = CompatibilityUnsupported ∨ Probe_Compatibility r = CompatibilityUnknown)
    by (intros q r [= <-]; left; reflexivity).
  destruct (poll_agrees_with_test decrypt probe polled_record Hc _ _ _ _ H1 H2) as [(f & Hf & Hh) Ha].
  - repeat constructor.
  - repeat constructor.
  - eexists f, _, _. split; [exact H1|]. split; [eexists; exact H2|]. split; [exact Hf|]. split; [|exact Hh].
    set (f' := MHealth (uid "02") NodeHealthy CompatibilitySupported "v0.107.78" (Some 7) "" true).
    assert (Hf' : f' ∈ mfacts [Event (Repo_NodeRecordByID (uid "02")) (Ok polled_record);
      Event (Decrypt (uid "02") (Secrets_Credentials (Record_Secrets polled_record))) (Ok credentials);
      Event Now 5; Event (ProbeStatus (record_request polled_record credentials)) (Ok result);
      Event GenerateID (Ok (uid "99"));
      Event (Repo_RecordNodeTestResult (uid "02") NodeHealthy CompatibilitySupported "v0.107.78" (Some 7) "" 5
        true event) (Ok tt)]) by (cbn; find_fact).
    rewrite (Ha f f' Hf Hf' Hh I). exact Hf'.
Defined.

(** ** Guesses *)

Definition guess (t : Time) : attempt := mkAttempt "client" t (t + 1) false.
(** Four guesses close to the end of a window, and four after it. *)
Definition guesses : list attempt :=
  guess <$> [0; 8; 8000; 8002; 8004; 9000; 10010; 10020; 10030; 10040].

Lemma guesses_bounded_witness :
  within 8000 18000 (failures "client" (checked (NewLoginLimiter 3 10000) guesses)) = 4%nat ∧
  Z.of_nat (within 8000 (8000 + 10000) (failures "client" (checked (NewLoginLimiter 3 10000) guesses))) <= 2 * 3.
Proof.
  split; [vm_compute; reflexivity|].
  apply (guesses_bounded "client" 3 10000 guesses 0 8000); try (unfold in_int64, two63; lia).
  - cbn. lia.
  - intros x Hx _. apply list_elem_of_fmap in Hx as (t & -> & _). reflexivity.
Defined.

(** ** A worker that fails *)

Definition failure_history : list tracker_op :=
  [TFailure "w" "X" 9 8; TStart "w" 8 7; TFailure "w" "X" 7 6; TFailure "w" "X" 5 4; TSuccess "w" 4 3;
   TRegister "w" false].

Lemma tracker_reports_history_witness :
  Worker_State (state_worker (worker_of (tracked failure_history) "w")) = Failed ∧
  reported "w" failure_history (worker_of (tracked failure_history) "w").
Proof.
  destruct (tracker_reports_history "w" failure_history key_order key_order 0) as (H & Hf & _);
    [unfold two63; cbn; lia|].
  split; [|exact H]. apply Hf. split; [|vm_compute; discriminate].
  eexists. split; [reflexivity|reflexivity].
Defined.

Definition bad_turn (worked : bool) : turn := mkTurn (1, 2, (3, 4)) worked true false.

Lemma worker_backs_off_witness :
  (worker_loop "deployment" "E" ([bad_turn false; bad_turn false] ++ [bad_turn false])
     (mkLoop 0 (Some NewTracker))).1 = [Prelude.second; 2 * Prelude.second; 4 * Prelude.second] ∧
  last (worker_loop "deployment" "E" ([bad_turn false; bad_turn false] ++ [bad_turn false])
     (mkLoop 0 (Some NewTracker))).1 = Some (delay_after false 3).
Proof.
  split; [reflexivity|].
  pose proof (worker_backs_off "deployment" "E" [bad_turn false; bad_turn false] (bad_turn false) NewTracker) as H.
  destruct (worker_loop _ _ _ _) as [delays s]. destruct H as [H _]; [discriminate|unfold two63; cbn; lia|reflexivity|].
  exact H.
Defined.

(** * Operational commands on the simulated fleet

    The service and the executor of the commands run with the command tables as their
    repository: a cache clear is queued for the fleet, in which one node is in
    maintenance, claimed, and run.  The theorems are applied to these runs. *)

#[local] Instance no_text : JSONText := {| json_parse _ := inr "unexpected end of JSON input" |}.

(** ** The world *)

(** The world of the control plane, with the command tables beside its database. *)
Record OpWorld := mkOpWorld { o_world : World; o_commands : gmap string CommandRow; o_results : gmap string ResultRow }.

Definition command_db (w : OpWorld) : CommandDB := mkCommandDB (w_db (o_world w)) (o_commands w) (o_results w).
Definition with_command_db (db : CommandDB) (w : OpWorld) : OpWorld :=
  mkOpWorld (tick (with_db (base db) (o_world w))) (commands db) (results db).

Definition op_call {X} (f : CommandDB → X * CommandDB) (w : OpWorld) : X * OpWorld :=
  let '(x, db) := f (command_db w) in (x, with_command_db db w).

Definition op_handle (X : Type) (e : opctl X) (w : OpWorld) : X * OpWorld :=
  match e in opctl X return X * OpWorld with
  | Core e => let '(x, w') := handle _ e (o_world w) in (x, mkOpWorld w' (o_commands w) (o_results w))
  | Repo_CreateOperationalCommand o event => op_call (CreateOperationalCommand o event) w
  | Repo_OperationalCommandByID id => (OperationalCommandByID id (command_db w), w)
  | Repo_ListOperationalCommands id command limit => (ListOperationalCommands id command limit (command_db w), w)
  | Repo_ClaimOperationalCommand at_ => op_call (ClaimOperationalCommand at_) w
  | Repo_RunningOperationalCommands => (RunningOperationalCommands (command_db w), w)
  | Repo_UpdateOperationalCommandNode id r => op_call (commit (UpdateOperationalCommandNode id r)) w
  | Repo_FinishOperationalCommand o event => op_call (commit (FinishOperationalCommand o event)) w
  | EncryptPayload id body => (Ok (mkEncryptedPayload body "nonce" 1 "AES-256-GCM"), w)
  | DecryptPayload id payload => (Ok (EncryptedPayload_Ciphertext payload), w)
  | Exec_TestUpstreamDNS _ _ => (Err (NewError ErrorCapability "unsupported"), w)
  | Exec_TestHostFiltering _ _ => (Err (NewError ErrorCapability "unsupported"), w)
  | Exec_ClearDNSCache _ => (Ok tt, w)
  | Exec_ClearQueryLog _ => (Ok tt, w)
  | Exec_ResetStatistics _ => (Ok tt, w)
  | ContextErr => (None, w)
  end.

Definition op_run {A} (p : operation_prog A) (w : OpWorld) : A * OpWorld * list (event opctl) := interp op_handle p w.
Definition op_after {A} (p : operation_prog A) (w : OpWorld) : OpWorld := (op_run p w).1.2.
Definition run_facts {A} (p : operation_prog A) (w : OpWorld) : list op_fact := facts_of op_event (op_run p w).2.

(** What holds of the facts of every run holds of this one. *)
Lemma run_satisfies {A} (p : operation_prog A) (Q : list op_fact → A → Prop) w :
  op_facts p Q → Q (run_facts p w) (op_run p w).1.1.
Proof.
  intros H. unfold run_facts. destruct (op_run p w) as [[a w'] tr] eqn:E. apply H. by eapply interp_traces.
Qed.

(** ** The fleet *)

Definition command_profile (id : string) : CapabilityProfile :=
  mkCapabilityProfile id "v0.107.78" "supported" 2 {["cache_clear" := true]} [] 0.

Definition command_history : list store_op :=
  [OpSaveObservation (fleet_snapshot (uid "14") (uid "02")) (command_profile (uid "02"));
   OpSaveObservation (fleet_snapshot (uid "15") (uid "03")) (command_profile (uid "03"));
   OpSetNodeMaintenance (uid "03") true 1 5 (fleet_event (uid "f6"))].

Definition op_fleet : OpWorld :=
  mkOpWorld (with_db (run_history command_history (w_db (fleet []))) (fleet [])) ∅ ∅.

Abbreviation fleet_target := (mkTarget "all_compatible_enabled_nodes" "").
Abbreviation clearing := (start operator (uid "01") fleet_target CommandClearDNSCache NoInput (uid "a1")).

Definition queued_world : OpWorld := op_after clearing op_fleet.

Definition is_queued (f : op_fact) : bool :=
  match f with
  | FQueued o => bool_decide (length (elems (Operation_NodeResults o)) = 1%nat) &&
                 bool_decide (length (elems (Operation_ExcludedNodes o)) = 1%nat)
  | _ => false
  end.
Definition is_sent (f : op_fact) : bool := match f with FSent _ _ _ _ => true | _ => false end.
Definition is_claimed (f : op_fact) : bool :=
  match f with
  | FClaimed o => bool_decide (NoDup (NodeResult_ID <$> elems (Operation_NodeResults o)))
  | _ => false
  end.

Lemma clearing_queued : some_where is_queued (run_facts clearing op_fleet !! 2%nat) = true.
Proof. vm_compute. reflexivity. Qed.

Lemma clearing_sent : some_where is_claimed (run_facts Operations_RunOnce queued_world !! 0%nat) = true ∧
  some_where is_sent (run_facts Operations_RunOnce queued_world !! 5%nat) = true.
Proof. split; vm_compute; reflexivity. Qed.

(** ** The theorems on these runs *)

Lemma start_only_eligible_witness : ∃ o nodes profiles,
  queued_for fleet_target "cache_clear" nodes profiles o ∧
  length (elems (Operation_NodeResults o)) = 1%nat ∧ length (elems (Operation_ExcludedNodes o)) = 1%nat.
Proof.
  pose proof clearing_queued as H.
  pose proof (run_satisfies clearing _ op_fleet
    (start_only_eligible operator (uid "01") fleet_target CommandClearDNSCache NoInput (uid "a1"))) as T.
  revert H T. generalize (run_facts clearing op_fleet) (op_run clearing op_fleet).1.1. intros f r H T.
  apply some_where_true in H as ([] & H & HP); try discriminate HP.
  apply list_elem_of_lookup_2 in H. destruct (T _ H) as (nodes & profiles & _ & _ & Hq).
  apply andb_true_iff in HP as [H1 H2]. apply bool_decide_eq_true in H1, H2.
  exists operation, nodes, profiles. split; [exact Hq|]. split; [exact H1|exact H2].
Defined.

Lemma commands_sent_once_witness : ∃ o body input run request answer r r',
  run_facts Operations_RunOnce queued_world =
    FClaimed o :: FPayload (Operation_ID o) (Operation_Payload o) (Ok body) :: run ∧
  run !! 3%nat = Some (FSent (Operation_Command o) input request answer) ∧
  r ∈ elems (Operation_NodeResults o) ∧ NodeResult_Status r = "pending" ∧ outcome_recorded r answer r'.
Proof.
  destruct clearing_sent as [Hc Hs]. pose proof (run_satisfies _ _ queued_world commands_sent_once) as T.
  revert Hc Hs T. generalize (run_facts Operations_RunOnce queued_world) (op_run Operations_RunOnce queued_world).1.1.
  intros f a Hc Hs [->|(o & run & -> & T)]; [discriminate Hc|].
  cbn in Hc. apply bool_decide_eq_true in Hc.
  change (some_where is_sent (run !! 4%nat) = true) in Hs.
  destruct (T Hc) as [Hu|(body & input & run' & -> & _ & Honce)].
  { exfalso. apply cut_where in Hs as ([] & HP & Hs); try discriminate HP. rewrite Hs in Hu.
    apply Forall_app in Hu as [_ Hu]. by apply Forall_cons in Hu as [[] _]. }
  change (some_where is_sent (run' !! 3%nat) = true) in Hs.
  pose proof Hs as (y & Hy & _)%some_where_true.
  apply cut_where in Hs as ([] & HP & Hs); try discriminate HP.
  destruct (Honce _ _ _ _ _ _ Hs)
    as (r & started & record & credentials & b & r' & k & rest & Hr & Hp & -> & -> & _ & _ & _ & Hrec & _).
  exists o, body, input, run', request, answer, r, r'. split_and!; try done.
  rewrite Hs, lookup_app_r by (rewrite length_take; lia). rewrite length_take_le; [done|].
  apply lookup_lt_Some in Hy. lia.
Defined.

Lemma recovery_sends_nothing_witness : unsent (run_facts Operations_RecoverInterrupted queued_world).
Proof. exact (run_satisfies _ _ queued_world recovery_sends_nothing). Defined.

(** ** Histories of the command tables *)

Lemma op_fleet_commands : commands (command_db op_fleet) = ∅ ∧ results (command_db op_fleet) = ∅.
Proof. done. Qed.

Lemma op_fleet_WellFormed : CommandsWellFormed (command_db op_fleet).
Proof.
  destruct op_fleet_commands as [H1 H2]. revert H1 H2. generalize (command_db op_fleet). intros db H1 H2.
  split; intros *; rewrite ?H1, ?H2, lookup_empty; done.
Qed.

Definition fleet_a : Node := Record_Node (fleet_node (uid "02") "a" "https://a").

Definition cache_clear (print : string) : Operation :=
  queued_operation (uid "b1") (uid "01") "home" CommandClearDNSCache fleet_target operator (uid "a1") print
    no_payload 40 [pending_result (uid "b2") fleet_a 1] [].

Abbreviation creating := (CreateOperationalCommand (cache_clear "first") (fleet_event (uid "fa")) (command_db op_fleet)).
Abbreviation queue_history := [OpCreateCommand (cache_clear "first") (fleet_event (uid "fa")); OpClaimCommand 50;
  OpClaimCommand 60; OpUpdateCommandNode (uid "b1") (running_result 70 (pending_result (uid "b2") fleet_a 1))].

Lemma history_claims : length (claims queue_history (command_db op_fleet)) = 1%nat.
Proof. vm_compute. reflexivity. Qed.

Lemma commands_claimed_once_witness : length (claims queue_history (command_db op_fleet)) = 1%nat ∧
  NoDup (claims queue_history (command_db op_fleet)).
Proof.
  split; [exact history_claims|]. exact (proj1 (commands_claimed_once queue_history _ op_fleet_WellFormed)).
Defined.

Lemma creating_created : match creating with (Ok (_, true), _) => true | _ => false end = true ∧
  command_checks (queued_row (cache_clear "second")) = true ∧
  same_request (cache_clear "first") (cache_clear "second") = false.
Proof. split_and!; vm_compute; reflexivity. Qed.

Lemma idempotency_key_names_command_witness : ∃ db stored,
  CreateOperationalCommand (cache_clear "second") (fleet_event (uid "fb")) (run_commands [OpClaimCommand 50] db) =
    (Ok (stored, false), run_commands [OpClaimCommand 50] db) ∧
  duplicate (Operation_ClusterID (cache_clear "second")) (Operation_Command (cache_clear "second"))
    (Operation_Target (cache_clear "second")) (Operation_InputFingerprint (cache_clear "second")) stored =
    Err (NewError ErrorConflict "the idempotency key is already used for another operation").
Proof.
  destruct creating_created as (H & Hchecks & Hdiffer). revert H.
  generalize op_fleet_WellFormed. generalize (command_db op_fleet). intros db0 Hwf.
  destruct (CreateOperationalCommand _ _ db0) as [[[o []]|] db] eqn:E; try (intros H; discriminate H).
  intros _. exists db.
  destruct (idempotency_key_names_command _ _ _ _ _ [OpClaimCommand 50] (cache_clear "second") (fleet_event (uid "fb"))
    Hwf E eq_refl eq_refl Hchecks) as (stored & H1 & _ & H2).
  rewrite Hdiffer in H2. exists stored. split; [exact H1|exact H2].
Defined.

(** * The inventory service on a simulated node

    A node in maintenance, read and reset through interfaces that answer, and a small
    catalogue; the theorems are applied to these runs. *)

#[local] Instance all_interfaces : Interfaces := {| implements _ := true |}.
#[local] Instance plain_quoting : Quoting := {| uni_Quote s := s |}.

(** ** The world: the next instant *)

Definition repair_record : NodeRecord :=
  mkNodeRecord
    (mkNode (uid "02") (uid "01") "a" "https://a" "system" true true "healthy" "supported" "v0.107.78" None None None
       "" None "" "pending" None 1 0 0)
    (mkNodeSecretMaterial (mkEncryptedCredentials "" "" 1 "") "").

Definition home : Cluster := mkCluster (uid "01") "home" "" "manual" None 1 0 0.

Definition core_answer {X} (e : ctl X) (now : Time) : X :=
  match e in ctl X return X with
  | Now => now
  | GenerateID => fresh_id (mkWorld empty_DB now ∅ [])
  | Repo_NodeRecordByID _ => Ok repair_record
  | Repo_NodeByID _ => Ok (Record_Node repair_record)
  | Repo_ClusterByID _ => Ok home
  | Repo_ClusterHasActiveDeployment _ => Ok false
  | Repo_SnapshotByID id => Ok (fleet_snapshot id (uid "02"))
  | Repo_DraftByCluster _ => Err (NewError ErrorNotFound "configuration draft was not found")
  | Decrypt _ _ => Ok (mkNodeCredentials "admin" "secret")
  | e' => unavailable e'
  end.

Definition no_answer : error := TextError "unavailable".

Definition inv_handle (X : Type) (e : invctl X) (now : Time) : X * Time :=
  (match e in invctl X return X with
   | ICore e => core_answer e now
   | Repo_SaveObservation _ _ => Ok tt
   | Repo_ImportDraft _ _ _ => Ok tt
   | Repo_RecordAuditEvent _ => Ok tt
   | Reader_ReadConfiguration _ _ => (fleet_profile (uid "02"), Ok (fleet_document 10))
   | Reader_RefreshFilters _ _ => Ok tt
   | Reader_ReadBlockedServicesCatalogue _ _ => Err no_answer
   | Reader_ReadFilterLists _ _ _ => Err no_answer
   | Reader_ReadDHCPInterfaces _ => Err no_answer
   | Reader_FindDHCP _ _ => Err no_answer
   | Reader_ResetDHCPLeases _ => Ok tt
   | Reader_ResetDHCPConfiguration _ => Ok tt
   | Repo_BeginDHCPOperation o _ => Ok (o, true)
   | Repo_FinishDHCPOperation _ _ => Ok tt
   | Repo_ListDHCPOperations _ _ => Ok []
   | Catalogue_Get _ => None
   | Catalogue_Put _ _ => tt
   | FilterLists_Get _ => None
   | FilterLists_Put _ _ => tt
   end, now + 1).

Definition inv_run {A} (p : inventory A) : A * Time * list (event invctl) := interp inv_handle p 1.
Definition inventory_facts {A} (p : inventory A) : list inv_fact := facts_of inv_view (inv_run p).2.

Lemma inv_run_satisfies {A} (p : inventory A) (Q : list inv_fact → A → Prop) :
  inv_facts p Q → Q (inventory_facts p) (inv_run p).1.1.
Proof.
  intros H. unfold inventory_facts. destruct (inv_run p) as [[a w'] tr] eqn:E. apply H. by eapply interp_traces.
Qed.

(** ** The theorems on its runs *)

Abbreviation observing := (Inventory_Observe (uid "02")).
Abbreviation resetting := (RunDHCPOperation operator (uid "02") DHCPOperationResetConfiguration
  "RESET_DHCP_CONFIGURATION" (uid "a1")).
Abbreviation importing := (Service_Import operator (uid "01") (uid "04") 0 true).

Definition is_reset (f : inv_fact) : bool := match f with FReset _ whole => whole | _ => false end.
Definition is_import (f : inv_fact) : bool := match f with FImport _ v => v =? 0 | _ => false end.
Definition no_failure (r : option Snapshot * option error) : bool :=
  match r with (Some _, None) => true | _ => false end.

Lemma runs_of_the_node : some_where is_reset (inventory_facts resetting !! 5%nat) = true ∧
  some_where is_import (inventory_facts importing !! 2%nat) = true ∧
  no_failure (inv_run observing).1.1 = true.
Proof. split_and!; vm_compute; reflexivity. Qed.

Lemma Observe_records_what_was_read_witness : ∃ s document,
  FSaved s true ∈ inventory_facts observing ∧ Snapshot_Document s = Some document ∧
  Snapshot_CanonicalHash s = (Marshal document).2.
Proof.
  destruct runs_of_the_node as (_ & _ & H).
  pose proof (inv_run_satisfies _ _ (Observe_records_what_was_read (uid "02"))) as T.
  revert H T. generalize (inventory_facts observing) (inv_run observing).1.1. intros f r H T.
  destruct T as [|s document Hread Hsaved _ Hd Hh|]; try discriminate H.
  exists s, document. split; [exact Hsaved|]. split; [exact Hd|exact Hh].
Defined.

Lemma dhcp_reset_guarded_witness : ∃ record cluster o stored,
  reset_allowed DHCPOperationResetConfiguration record cluster true ∧
  begun_running operator (uid "02") DHCPOperationResetConfiguration (uid "a1") cluster o ∧
  FBegun o stored true ∈ inventory_facts resetting.
Proof.
  destruct runs_of_the_node as (H & _ & _).
  pose proof (inv_run_satisfies _ _ (dhcp_reset_guarded operator (uid "02") DHCPOperationResetConfiguration
    "RESET_DHCP_CONFIGURATION" (uid "a1"))) as T.
  revert H T. generalize (inventory_facts resetting) (inv_run resetting).1.1. intros f r H T.
  apply some_where_true in H as ([] & H & HP); try discriminate HP. destruct whole; [|discriminate HP].
  apply list_elem_of_lookup_2 in H. destruct T as [T|T]; [destruct (T _ _ H)|].
  destruct T as (record & cluster & o & stored & action & credentials & w & before & after & -> & Hb & Ha & _ & _ & _ & _
    & Hrun & Hbegun & _ & _ & Hok).
  apply elem_of_app in H as [H|H]; [destruct (Hb _ _ H)|].
  apply elem_of_cons in H as [[= _ <-]|H]; [|destruct (Ha _ _ H)].
  exists record, cluster, o, stored. split; [exact Hok|]. split; [exact Hrun|].
  apply elem_of_app. left. exact Hbegun.
Defined.

Lemma Import_only_complete_witness : ∃ f d, imported f (uid "01") 0 d 0.
Proof.
  destruct runs_of_the_node as (_ & H & _).
  pose proof (inv_run_satisfies _ _ (Import_only_complete operator (uid "01") (uid "04") 0 true)) as T.
  revert H T. generalize (inventory_facts importing) (inv_run importing).1.1. intros f r H T.
  apply some_where_true in H as ([] & H & HP); try discriminate HP.
  apply Z.eqb_eq in HP as ->. apply list_elem_of_lookup_2 in H. exists f, draft. exact (proj2 (T _ _ H)).
Defined.

(** ** A catalogue of two nodes *)

Definition offering (id status : string) (services : list string) : BlockedServicesCatalogueNode :=
  mkBlockedServicesCatalogueNode id ("node " +:+ id) "v0.107.78" status (Z.of_nat (length services)) (Some 1) ""
    (mkNodeBlockedServicesCatalogue (Some ((λ s, mkBlockedServiceMetadata s s "media") <$> services)) None).

Definition offers_both : list BlockedServicesCatalogueNode :=
  [offering "a" "available" ["youtube"; "twitch"]; offering "b" "available" ["youtube"]].

Lemma blocked_services_checked_witness :
  NoDup (BlockedServicesCatalogueNode_NodeID <$> offers_both) ∧
  mjoin (node_issues (mergeBlockedServicesCatalogue offers_both).1 [" youtube"; ""] <$> offers_both) = [] ∧
  mjoin (node_issues (mergeBlockedServicesCatalogue offers_both).1 ["twitch"] <$> offers_both) ≠ [].
Proof.
  assert (Hids : NoDup (BlockedServicesCatalogueNode_NodeID <$> offers_both))
    by (repeat constructor; set_solver).
  split; [exact Hids|]. split.
  - apply (blocked_services_checked _ _ Hids). intros node Hnode.
    apply elem_of_cons in Hnode as [->|[->|[]%elem_of_nil]%elem_of_cons]; (split; [reflexivity|]);
      intros id Hid Hne; apply elem_of_cons in Hid as [->|[->|[]%elem_of_nil]%elem_of_cons]; try done; left.
  - rewrite (blocked_services_checked _ _ Hids). intros H.
    destruct (H (offering "b" "available" ["youtube"])) as [_ Hb]; [right; left|].
    assert (Hin : "twitch" ∈ ["youtube"]) by (apply (Hb "twitch"); [left|discriminate]).
    apply list_elem_of_singleton in Hin. discriminate Hin.
Defined.
