(* ===== verification/AuthModel.v ===== *)
(** * internal/domain and internal/auth: users, sessions and second factors

    The records of the accounts, the tokens and the recovery codes.  A byte slice is a
    string.  The cryptographic primitives and the parser of mail addresses are the class
    [Crypto]. *)

From S2P Require Import Prelude GoRuntime Json Domain OperationsModel.

(** ** Models *)

(* src/internal/domain/models.go:7-7 RoleAdministrator *)
Definition RoleAdministrator : string := "administrator".

(* src/internal/domain/models.go:9-20 User *)
Record User := mkUser {
  User_ID : string;
  User_Email : string;
  User_DisplayName : string;
  User_PasswordHash : string;
  User_Role : string;
  User_Enabled : bool;
  User_CreatedAt : Time;
  User_UpdatedAt : Time;
  User_LastLoginAt : option Time;
  User_MFAEnabled : bool
}.

(* src/internal/domain/models.go:22-33 Session *)
Record Session := mkSession {
  Session_ID : string;
  Session_UserID : string;
  Session_TokenHash : string;
  Session_CSRFHash : string;
  Session_CreatedAt : Time;
  Session_ExpiresAt : Time;
  Session_LastSeenAt : Time;
  Session_RevokedAt : option Time;
  Session_IPMetadata : string;
  Session_UserAgent : string
}.

(* src/internal/domain/models.go:35-42 UserMFA *)
Record UserMFA := mkUserMFA {
  UserMFA_UserID : string;
  UserMFA_Secret : EncryptedPayload;
  UserMFA_EnrollmentStarted : Time;
  UserMFA_EnrollmentExpires : Time;
  UserMFA_EnabledAt : option Time;
  UserMFA_RecoveryRemaining : Z
}.

(* src/internal/domain/models.go:44-54 MFAChallenge *)
Record MFAChallenge := mkMFAChallenge {
  MFAChallenge_ID : string;
  MFAChallenge_UserID : string;
  MFAChallenge_TokenHash : string;
  MFAChallenge_CreatedAt : Time;
  MFAChallenge_ExpiresAt : Time;
  MFAChallenge_ConsumedAt : option Time;
  MFAChallenge_FailedAttempts : Z;
  MFAChallenge_IPMetadata : string;
  MFAChallenge_UserAgent : string
}.

(* src/internal/domain/models.go:56-62 MFARecoveryCode *)
Record MFARecoveryCode := mkMFARecoveryCode {
  MFARecoveryCode_ID : string;
  MFARecoveryCode_UserID : string;
  MFARecoveryCode_CodeHash : string;
  MFARecoveryCode_CreatedAt : Time;
  MFARecoveryCode_UsedAt : option Time
}.

(** ** Primitives *)

Class Crypto := {
  (* crypto/hmac over crypto/sha256, and crypto/sha256: the bytes of the digest *)
  hmac_sha256 : string → string → string;
  sha256_sum : string → string;
  (* argon2.IDKey(password, salt, time, memory, threads, keyLen) *)
  argon2_IDKey : string → string → Z → Z → Z → Z → string;
  (* totp.ValidateCustom(code, secret, at, mfaValidateOptions) *)
  totp_ValidateCustom : string → string → Time → res bool;
  (* net/mail.ParseAddress: the address of the mailbox *)
  mail_ParseAddress : string → option string
}.

Section tokens.
Context {R : Runtime} {K : Crypto}.

(* src/internal/domain/validation.go:10-17 NormaliseEmail *)
Definition NormaliseEmail (value : string) : res string :=
  let value := ToLower (TrimSpace value) in
  match mail_ParseAddress value with
  | Some address =>
      if negb (address =?? value) || (254 <? len value)
      then Err (Validation "email" "enter a valid email address")
      else Ok value
  | None => Err (Validation "email" "enter a valid email address")
  end.

(** ** Tokens *)

(* src/internal/auth/token.go:11-11 tokenBytes *)
Definition tokenBytes : Z := 32.

(* src/internal/auth/token.go:74-80 TokenManager.hash *)
Definition token_hash (secret purpose token : string) : string :=
  hmac_sha256 secret (purpose +:+ nul +:+ token).

(* src/internal/auth/token.go:36-38 TokenManager.HashSessionToken *)
Definition HashSessionToken (secret token : string) : string := token_hash secret "session" token.
(* src/internal/auth/token.go:40-42 TokenManager.HashCSRFToken *)
Definition HashCSRFToken (secret token : string) : string := token_hash secret "csrf" token.
(* src/internal/auth/token.go:44-46 TokenManager.HashMFAChallengeToken *)
Definition HashMFAChallengeToken (secret token : string) : string := token_hash secret "mfa-challenge" token.

(* src/internal/auth/token.go:48-59 TokenManager.HashRecoveryCode *)
Definition HashRecoveryCode (code : string) : string := sha256_sum ("mfa-recovery-code" +:+ nul +:+ code).

(** ** Recovery codes *)

(** [strings.ReplaceAll(value, old, "")] for a one-byte [old]. *)
(* src/internal/auth/mfa.go:418-418 normalizeRecoveryCode *)
Fixpoint remove_byte (old : ascii) (value : string) : string :=
  match value with
  | EmptyString => EmptyString
  | String c rest => if bool_decide (c = old) then remove_byte old rest else String c (remove_byte old rest)
  end.

(** [hex.DecodeString] accepts digits of both cases; the text here is lower-cased before. *)
Definition is_hex_digit (c : ascii) : bool :=
  let b := byte_of c in is_hex c || ((65 <=? b) && (b <=? 70)).
(* src/internal/auth/mfa.go:422-422 normalizeRecoveryCode *)
Definition hex_decodes (value : string) : bool :=
  Nat.even (String.length value) && string_forall is_hex_digit value.

(* src/internal/auth/mfa.go:28-28 recoveryCodeRandomBytes *)
Definition recoveryCodeRandomBytes : Z := 10.
(* src/internal/auth/mfa.go:27-27 MFARecoveryCodeCount *)
Definition MFARecoveryCodeCount : Z := 10.

(** The normalised text comes with the flag also when it is not hexadecimal. *)
(* src/internal/auth/mfa.go:417-424 normalizeRecoveryCode *)
Definition normalizeRecoveryCode (value : string) : string * bool :=
  let value := ToLower (remove_byte "-" (TrimSpace value)) in
  if negb (len value =? recoveryCodeRandomBytes * 2) then ("", false)
  else (value, hex_decodes value).

(** [value[from:to]] *)
(* src/internal/auth/mfa.go:427-427 formatRecoveryCode *)
Definition slice_of (from to : nat) (value : string) : string := String.substring from (to - from) value.

(* src/internal/auth/mfa.go:426-428 formatRecoveryCode *)
Definition formatRecoveryCode (value : string) : string :=
  slice_of 0 5 value +:+ "-" +:+ slice_of 5 10 value +:+ "-" +:+ slice_of 10 15 value +:+ "-" +:+
  slice_of 15 20 value.
End tokens.

(* src/internal/auth/service.go:252-257 truncate *)
Definition truncate (value : string) (limit : nat) : string :=
  if len value <=? Z.of_nat limit then value else String.substring 0 limit value.
