(* ===== verification/Password.v ===== *)
(** * internal/auth/password.go: password hashes

    The encoding of a password hash and its verification, with base64 and the scanner of
    package fmt as far as the code uses them.  The key derivation is a parameter. *)

From S2P Require Import Prelude GoRuntime Json Domain OperationsModel AuthModel.

(** ** base64.RawStdEncoding *)

Definition b64_digit (v : Z) : ascii :=
  if v <? 26 then ascii_of_byte (65 + v)
  else if v <? 52 then ascii_of_byte (97 + (v - 26))
  else if v <? 62 then ascii_of_byte (48 + (v - 52))
  else if v =? 62 then ascii_of_byte 43 else ascii_of_byte 47.

Definition b64_value (c : ascii) : option Z :=
  let b := byte_of c in
  if (65 <=? b) && (b <=? 90) then Some (b - 65)
  else if (97 <=? b) && (b <=? 122) then Some (b - 97 + 26)
  else if (48 <=? b) && (b <=? 57) then Some (b - 48 + 52)
  else if b =? 43 then Some 62
  else if b =? 47 then Some 63
  else None.

Fixpoint EncodeToString (s : string) : string :=
  match s with
  | EmptyString => ""
  | String x EmptyString =>
      let v := byte_of x * 65536 in
      String (b64_digit (v / 262144)) (String (b64_digit ((v / 4096) mod 64)) "")
  | String x (String y EmptyString) =>
      let v := byte_of x * 65536 + byte_of y * 256 in
      String (b64_digit (v / 262144)) (String (b64_digit ((v / 4096) mod 64))
        (String (b64_digit ((v / 64) mod 64)) ""))
  | String x (String y (String z rest)) =>
      let v := byte_of x * 65536 + byte_of y * 256 + byte_of z in
      String (b64_digit (v / 262144)) (String (b64_digit ((v / 4096) mod 64))
        (String (b64_digit ((v / 64) mod 64)) (String (b64_digit (v mod 64)) (EncodeToString rest))))
  end.

(** [base64.StdEncoding] pads the text to groups of four digits. *)
Definition StdEncode (s : string) : string :=
  EncodeToString s +:+ (if (String.length s mod 3 =? 1)%nat then "=="
                        else if (String.length s mod 3 =? 2)%nat then "=" else "").

(** The digits of the text; line ends are skipped, any other byte is corrupt input. *)
Fixpoint b64_values (s : string) : option (list Z) :=
  match s with
  | EmptyString => Some []
  | String c rest =>
      if (byte_of c =? 10) || (byte_of c =? 13) then b64_values rest
      else v ← b64_value c; vs ← b64_values rest; Some (v :: vs)
  end.

(** Four digits are three bytes; the bits left over at the end are ignored. *)
Fixpoint b64_groups (l : list Z) : option string :=
  match l with
  | [] => Some ""
  | [_] => None
  | [a; b] => Some (String (ascii_of_byte ((a * 262144 + b * 4096) / 65536)) "")
  | [a; b; c] =>
      let v := a * 262144 + b * 4096 + c * 64 in
      Some (String (ascii_of_byte (v / 65536)) (String (ascii_of_byte ((v / 256) mod 256)) ""))
  | a :: b :: c :: d :: rest =>
      let v := a * 262144 + b * 4096 + c * 64 + d in
      tail ← b64_groups rest;
      Some (String (ascii_of_byte (v / 65536)) (String (ascii_of_byte ((v / 256) mod 256))
        (String (ascii_of_byte (v mod 256)) tail)))
  end.

Definition DecodeString (s : string) : option string := vs ← b64_values s; b64_groups vs.

(** [base64.RawURLEncoding] differs from the standard alphabet in two digits. *)
Definition url_digit (c : ascii) : ascii :=
  if byte_of c =? 43 then ascii_of_byte 45 else if byte_of c =? 47 then ascii_of_byte 95 else c.
Definition of_url_digit (c : ascii) : ascii :=
  if byte_of c =? 45 then ascii_of_byte 43 else if byte_of c =? 95 then ascii_of_byte 47 else c.
Definition url_alphabet (c : ascii) : bool := negb ((byte_of c =? 43) || (byte_of c =? 47)).

Definition RawURL_EncodeToString (s : string) : string := string_map url_digit (EncodeToString s).
Definition RawURL_DecodeString (s : string) : option string :=
  if string_forall url_alphabet s then DecodeString (string_map of_url_digit s) else None.

(** ** fmt.Sscanf with the verb [%d] *)

(** The white space of package fmt, in UTF-8: what follows it. *)
Definition skip_rune (s : string) : option string :=
  match s with
  | EmptyString => None
  | String c rest =>
      let b := byte_of c in
      if (b =? 32) || ((9 <=? b) && (b <=? 13)) then Some rest
      else match rest with
      | EmptyString => None
      | String c2 rest2 =>
          let b2 := byte_of c2 in
          if (b =? 194) && ((b2 =? 133) || (b2 =? 160)) then Some rest2
          else match rest2 with
          | EmptyString => None
          | String c3 rest3 =>
              let b3 := byte_of c3 in
              if ((b =? 225) && (b2 =? 154) && (b3 =? 128)) ||
                 ((b =? 226) && (b2 =? 128) && ((128 <=? b3) && (b3 <=? 138) || (b3 =? 168) || (b3 =? 169) || (b3 =? 175))) ||
                 ((b =? 226) && (b2 =? 129) && (b3 =? 159)) ||
                 ((b =? 227) && (b2 =? 128) && (b3 =? 128))
              then Some rest3 else None
          end
      end
  end.

(** Leading white space is skipped; a line end is an error.  Every round consumes a byte,
    so the length bounds the rounds. *)
Fixpoint skip_space_loop (fuel : nat) (s : string) : option string :=
  match fuel with
  | O => Some s
  | S fuel =>
      if first_byte s =?? Some (ascii_of_byte 10) then None
      else match skip_rune s with Some rest => skip_space_loop fuel rest | None => Some s end
  end.
Definition SkipSpace (s : string) : option string := skip_space_loop (String.length s) s.

Definition is_decimal (c : ascii) : bool := (48 <=? byte_of c) && (byte_of c <=? 57).

(** The digits at the start of the text, their value after [acc] and their number. *)
Fixpoint scan_digits (s : string) (acc : Z) (n : nat) : Z * nat * string :=
  match s with
  | String c rest =>
      if is_decimal c then scan_digits rest (acc * 10 + (byte_of c - 48)) (S n) else (acc, n, s)
  | EmptyString => (acc, n, s)
  end.

(** [%d] into an unsigned integer of [bits] bits; the larger of two widths overflows first. *)
Definition scan_uint (bits : Z) (s : string) : option (Z * string) :=
  s ← SkipSpace s;
  let '(v, n, rest) := scan_digits s 0 0 in
  if (0 <? Z.of_nat n) && (v <? 2 ^ bits) then Some (v, rest) else None.

Definition scan_literal (literal s : string) : option string :=
  if HasPrefix s literal then Some (drop_bytes (String.length literal) s) else None.

(** [fmt.Sscanf(s, "m=%d,t=%d,p=%d", &memory, &iterations, &parallelism)]: what follows is
    not read. *)
(* src/internal/auth/password.go:53-58 VerifyPassword *)
Definition scan_parameters (s : string) : option (Z * Z * Z) :=
  s ← scan_literal "m=" s; '(memory, s) ← scan_uint 32 s;
  s ← scan_literal ",t=" s; '(iterations, s) ← scan_uint 32 s;
  s ← scan_literal ",p=" s; '(parallelism, _) ← scan_uint 8 s;
  Some (memory, iterations, parallelism).

(** ** Passwords *)

(* src/internal/auth/password.go:17-17 argonMemory *)
Definition argonMemory : Z := 64 * 1024.
(* src/internal/auth/password.go:18-18 argonIterations *)
Definition argonIterations : Z := 3.
(* src/internal/auth/password.go:19-19 argonParallelism *)
Definition argonParallelism : Z := 2.
(* src/internal/auth/password.go:20-20 argonSaltLength *)
Definition argonSaltLength : Z := 16.
(* src/internal/auth/password.go:21-21 argonKeyLength *)
Definition argonKeyLength : Z := 32.

(* src/internal/auth/password.go:24-32 ValidatePassword *)
Definition ValidatePassword (password : string) : res unit :=
  if len password <? 12 then Err (Validation "password" "must contain at least 12 characters")
  else if 1024 <? len password then Err (Validation "password" "must not exceed 1024 bytes")
  else Ok tt.

Section passwords.
Context {K : Crypto}.

(** [salt] is what [rand.Read] filled, or its error. *)
(* src/internal/auth/password.go:34-46 HashPassword *)
Definition HashPassword (salt : res string) (password : string) : res string :=
  let? _ := ValidatePassword password in
  match salt with
  | Err e => Err (WrapError ("create password salt: " +:+ Error_Error e) e)
  | Ok salt =>
      let hash := argon2_IDKey password salt argonIterations argonMemory argonParallelism argonKeyLength in
      Ok ("$argon2id$v=19$m=" +:+ itoa argonMemory +:+ ",t=" +:+ itoa argonIterations +:+ ",p=" +:+
          itoa argonParallelism +:+ "$" +:+ EncodeToString salt +:+ "$" +:+ EncodeToString hash)
  end.

(** The text of the scanner's error is not modelled. *)
(* src/internal/auth/password.go:56-58 VerifyPassword *)
Definition scan_error : error := WrapError "parse password hash parameters" (TextError "Sscanf").

(* src/internal/auth/password.go:59-61 VerifyPassword *)
Definition parameters_supported (memory iterations parallelism : Z) : bool :=
  negb ((memory <? 8 * 1024) || (1024 * 1024 <? memory) || (iterations <? 1) || (20 <? iterations) ||
        (parallelism <? 1) || (16 <? parallelism)).

(* src/internal/auth/password.go:62-69 VerifyPassword *)
Definition decode_part (part : string) (min : Z) : option string :=
  match DecodeString part with
  | Some value => if (len value <? min) || (64 <? len value) then None else Some value
  | None => None
  end.

(* src/internal/auth/password.go:48-72 VerifyPassword *)
Definition VerifyPassword (encoded password : string) : res bool :=
  match Split encoded "$" with
  | [_; scheme; version; parameters; salt; expected] =>
      if negb (scheme =?? "argon2id") || negb (version =?? "v=19")
      then Err (TextError "unsupported password hash encoding")
      else match scan_parameters parameters with
      | None => Err scan_error
      | Some (memory, iterations, parallelism) =>
          if negb (parameters_supported memory iterations parallelism)
          then Err (TextError "password hash parameters are outside supported bounds")
          else match decode_part salt 8 with
          | None => Err (TextError "invalid password hash salt")
          | Some salt =>
              match decode_part expected 16 with
              | None => Err (TextError "invalid password hash value")
              | Some expected =>
                  Ok (argon2_IDKey password salt iterations memory parallelism (len expected) =?? expected)
              end
          end
      end
  | _ => Err (TextError "unsupported password hash encoding")
  end.
End passwords.

(** ** The round trip *)

Lemma digit_check (p : Z → bool) : forallb p (seqZ 0 64) = true → ∀ v, 0 <= v < 64 → p v = true.
Proof. intros H v Hv. rewrite forallb_forall in H. apply H, list_elem_of_In, elem_of_seqZ. lia. Qed.

(** A digit is read as its value; it is neither a line end nor a dollar. *)
Lemma b64_digit_value v : 0 <= v < 64 →
  b64_value (b64_digit v) = Some v ∧ (byte_of (b64_digit v) =? 10) || (byte_of (b64_digit v) =? 13) = false ∧
  b64_digit v ≠ "$"%char.
Proof.
  intros Hv. pose proof (digit_check (λ v, (b64_value (b64_digit v) =?? Some v) &&
    negb ((byte_of (b64_digit v) =? 10) || (byte_of (b64_digit v) =? 13)) &&
    negb (b64_digit v =?? "$"%char)) ltac:(by vm_compute) v Hv) as H. cbv beta in H.
  apply andb_true_iff in H as [[H1%bool_decide_eq_true H2%negb_true_iff]%andb_true_iff H3].
  by apply negb_true_iff, bool_decide_eq_false in H3.
Qed.

Lemma b64_values_digit v s : 0 <= v < 64 →
  b64_values (String (b64_digit v) s) = vs ← b64_values s; Some (v :: vs).
Proof. intros Hv. destruct (b64_digit_value v Hv) as (H1 & H2 & _). cbn [b64_values]. by rewrite H2, H1. Qed.

Lemma ascii_of_byte_of c z : z = byte_of c → ascii_of_byte z = c.
Proof. intros ->. unfold ascii_of_byte, byte_of. by rewrite N2Z.id, ascii_N_embedding. Qed.

(** Induction over three bytes at a time. *)
Lemma triples_ind (P : string → Prop) : P "" → (∀ x, P (String x "")) → (∀ x y, P (String x (String y ""))) →
  (∀ x y z s, P s → P (String x (String y (String z s)))) → ∀ s, P s.
Proof.
  intros H0 H1 H2 H3. fix IH 1. intros [|x [|y [|z s]]]; [exact H0|apply H1|apply H2|]. apply H3, IH.
Qed.

Ltac digits := repeat match goal with
  | |- context [byte_of ?c] => lazymatch goal with
    | H : 0 <= byte_of c < 256 |- _ => fail
    | _ => pose proof (byte_of_range c)
    end
  end; Z.to_euclidean_division_equations; lia.

Lemma EncodeToString_values s : ∃ vs, b64_values (EncodeToString s) = Some vs ∧ b64_groups vs = Some s.
Proof.
  induction s as [|x|x y|x y z s (vs & IH1 & IH2)] using triples_ind; cbn [EncodeToString].
  - by exists [].
  - eexists. rewrite !b64_values_digit by digits. split; [reflexivity|]. cbn.
    by rewrite (ascii_of_byte_of x) by digits.
  - eexists. rewrite !b64_values_digit by digits. split; [reflexivity|]. cbn.
    by rewrite (ascii_of_byte_of x), (ascii_of_byte_of y) by digits.
  - eexists. rewrite !b64_values_digit by digits. rewrite IH1. split; [reflexivity|]. cbn [b64_groups mbind option_bind].
    rewrite IH2. cbn [mbind option_bind].
    by rewrite (ascii_of_byte_of x), (ascii_of_byte_of y), (ascii_of_byte_of z) by digits.
Qed.

Lemma DecodeString_EncodeToString s : DecodeString (EncodeToString s) = Some s.
Proof. destruct (EncodeToString_values s) as (vs & H1 & H2). unfold DecodeString. by rewrite H1. Qed.

(** Every byte that decodes survives the change of the alphabet. *)
Lemma url_digit_back c : (byte_of c =? 10) || (byte_of c =? 13) = true ∨ is_Some (b64_value c) →
  of_url_digit (url_digit c) = c ∧ url_alphabet (url_digit c) = true.
Proof.
  intros H. pose proof (bytes_forall (λ c, negb ((byte_of c =? 10) || (byte_of c =? 13)) && bool_decide (b64_value c = None) ||
    (bool_decide (of_url_digit (url_digit c) = c) && url_alphabet (url_digit c))) ltac:(by vm_compute) c) as Hc.
  cbv beta in Hc. apply orb_true_iff in Hc as [Hc|Hc].
  - apply andb_true_iff in Hc as [H1%negb_true_iff H2%bool_decide_eq_true]. destruct H as [H|[v Hv]]; congruence.
  - apply andb_true_iff in Hc as [H1%bool_decide_eq_true H2]. done.
Qed.

Lemma url_alphabet_back s : ∀ vs, b64_values s = Some vs →
  string_map of_url_digit (string_map url_digit s) = s ∧ string_forall url_alphabet (string_map url_digit s) = true.
Proof.
  induction s as [|c s IH]; intros vs H; [done|]. cbn in *.
  assert (Hc : (byte_of c =? 10) || (byte_of c =? 13) = true ∨ is_Some (b64_value c)).
  { destruct ((byte_of c =? 10) || (byte_of c =? 13)); [by left|]. right. by destruct (b64_value c). }
  assert (Hs : ∃ vs', b64_values s = Some vs').
  { destruct ((byte_of c =? 10) || (byte_of c =? 13)); [by exists vs|]. destruct (b64_value c); [|done]. cbn in H.
    destruct (b64_values s); [eauto|done]. }
  destruct (url_digit_back c Hc) as [-> ->], Hs as [vs' Hs], (IH vs' Hs) as [-> ->]. done.
Qed.

Lemma RawURL_roundtrip s : RawURL_DecodeString (RawURL_EncodeToString s) = Some s.
Proof.
  unfold RawURL_DecodeString, RawURL_EncodeToString. destruct (EncodeToString_values s) as (vs & H1 & _).
  destruct (url_alphabet_back _ _ H1) as [-> ->]. apply DecodeString_EncodeToString.
Qed.

Lemma b64_not_dollar v s : 0 <= v < 64 → string_elem "$" (String (b64_digit v) s) = string_elem "$" s.
Proof.
  intros Hv. destruct (b64_digit_value v Hv) as (_ & _ & H). cbn [string_elem].
  by rewrite bool_decide_eq_false_2 by congruence.
Qed.

Lemma EncodeToString_dollar s : string_elem "$" (EncodeToString s) = false.
Proof.
  induction s as [|x|x y|x y z s IH] using triples_ind; cbn [EncodeToString];
    rewrite ?b64_not_dollar by digits; done.
Qed.

Lemma Split_part sep s t : string_elem sep s = false → Split (s +:+ String sep t) sep = s :: Split t sep.
Proof.
  induction s as [|c s IH]; cbn [string_elem]; intros H.
  - rewrite string_app_nil_l. cbn [Split]. by rewrite bool_decide_eq_true_2.
  - apply orb_false_iff in H as [Hc H]. rewrite string_app_cons. cbn [Split].
    apply bool_decide_eq_false in Hc. rewrite bool_decide_eq_false_2 by congruence. by rewrite IH.
Qed.

Lemma Split_last sep s : string_elem sep s = false → Split s sep = [s].
Proof.
  induction s as [|c s IH]; cbn [string_elem]; intros H; [done|].
  apply orb_false_iff in H as [Hc H]. cbn [Split]. apply bool_decide_eq_false in Hc.
  rewrite bool_decide_eq_false_2 by congruence. by rewrite IH.
Qed.

Section roundtrip.
Context {K : Crypto}.

Lemma decode_part_encoded s min : min <= len s <= 64 → decode_part (EncodeToString s) min = Some s.
Proof.
  intros H. unfold decode_part. rewrite DecodeString_EncodeToString.
  by destruct (len s <? min) eqn:?, (64 <? len s) eqn:?; bool_simp; try lia.
Qed.

(** The parts of a hash that [HashPassword] made. *)
Lemma Split_hash salt hash :
  Split ("$argon2id$v=19$m=" +:+ itoa argonMemory +:+ ",t=" +:+ itoa argonIterations +:+ ",p=" +:+
    itoa argonParallelism +:+ "$" +:+ EncodeToString salt +:+ "$" +:+ EncodeToString hash) "$" =
  [""; "argon2id"; "v=19"; "m=65536,t=3,p=2"; EncodeToString salt; EncodeToString hash].
Proof.
  change (Split ("" +:+ String "$" ("argon2id" +:+ String "$" ("v=19" +:+ String "$" ("m=65536,t=3,p=2" +:+
    String "$" (EncodeToString salt +:+ String "$" (EncodeToString hash)))))) "$" =
    [""; "argon2id"; "v=19"; "m=65536,t=3,p=2"; EncodeToString salt; EncodeToString hash]).
  by rewrite !Split_part, Split_last by (done || apply EncodeToString_dollar).
Qed.

(** What HashPassword stores is accepted for the password it was made from, and for another
    password exactly when the key derivation gives the same key: the encoding of the parameters, the
    salt and the key loses nothing. *)
Theorem password_roundtrip salt password encoded attempt :
  (∀ p s t m n l, 0 <= l → len (argon2_IDKey p s t m n l) = l) → len salt = argonSaltLength →
  HashPassword (Ok salt) password = Ok encoded →
  let key p := argon2_IDKey p salt argonIterations argonMemory argonParallelism argonKeyLength in
  VerifyPassword encoded attempt = Ok (key attempt =?? key password) ∧ VerifyPassword encoded password = Ok true.
Proof.
  intros Hlen Hsalt. unfold HashPassword. destruct (ValidatePassword password); [|done]. intros [= <-].
  assert (H : ∀ p, VerifyPassword ("$argon2id$v=19$m=" +:+ itoa argonMemory +:+ ",t=" +:+ itoa argonIterations +:+
    ",p=" +:+ itoa argonParallelism +:+ "$" +:+ EncodeToString salt +:+ "$" +:+
    EncodeToString (argon2_IDKey password salt argonIterations argonMemory argonParallelism argonKeyLength)) p =
    Ok (argon2_IDKey p salt argonIterations argonMemory argonParallelism argonKeyLength =??
        argon2_IDKey password salt argonIterations argonMemory argonParallelism argonKeyLength)).
  { intros p. unfold VerifyPassword. rewrite Split_hash.
    replace (scan_parameters "m=65536,t=3,p=2") with (Some (65536, 3, 2)) by by vm_compute.
    rewrite !decode_part_encoded by (rewrite ?Hlen, ?Hsalt; unfold argonSaltLength, argonKeyLength; lia).
    rewrite (Hlen password) by (unfold argonKeyLength; lia). reflexivity. }
  cbv zeta. rewrite !H. split; [done|]. by rewrite bool_decide_eq_true_2.
Qed.

(** A stored hash, whatever its text, never makes VerifyPassword derive a key outside the
    supported cost: a result is the comparison with a key derived within the bounds on memory, passes,
    lanes, salt and key length; everything else is an error. *)
Theorem VerifyPassword_bounds encoded password b : VerifyPassword encoded password = Ok b →
  ∃ salt memory iterations parallelism expected,
    8192 <= memory <= 1048576 ∧ 1 <= iterations <= 20 ∧ 1 <= parallelism <= 16 ∧
    8 <= len salt <= 64 ∧ 16 <= len expected <= 64 ∧
    b = (argon2_IDKey password salt iterations memory parallelism (len expected) =?? expected).
Proof.
  assert (Hpart : ∀ part min v, decode_part part min = Some v → min <= len v <= 64).
  { intros part min v. unfold decode_part. destruct (DecodeString part) as [w|]; [|done].
    destruct (_ || _) eqn:E; [done|]. intros [= <-]. bool_simp. lia. }
  unfold VerifyPassword. destruct (Split encoded "$") as [|? [|? [|? [|params [|salt [|key []]]]]]]; try done.
  destruct (_ || _); [done|]. destruct (scan_parameters params) as [[[m t] p]|]; [|done].
  destruct (parameters_supported m t p) eqn:Hp; [|done]. cbn [negb].
  destruct (decode_part salt 8) as [v|] eqn:Hs; [|done]. destruct (decode_part key 16) as [k|] eqn:Hk; [|done].
  intros [= <-]. exists v, m, t, p, k. apply Hpart in Hs, Hk. unfold parameters_supported in Hp.
  bool_simp. split_and!; try lia; done.
Qed.
End roundtrip.
