(* ===== verification/AuthStore.v ===== *)
(** * internal/database: the tables of users, sessions and second factors

    The tables [users], [sessions], [user_mfa], [user_mfa_recovery_codes] and
    [mfa_challenges] with the constraints of the migrations, and the methods of auth.go,
    mfa.go and users.go.  Audit events go to the tables of [Store].  The columns that are
    computed when a row is read ([User_MFAEnabled], [UserMFA_RecoveryRemaining]) are false
    and zero in a row.  The locks of users make the methods atomic. *)

From S2P Require Import Prelude GoRuntime Json Domain AuditMetadata ControlModel Store StoreRecords.
From S2P Require Import StoreInvariant OperationsModel AuthModel.

(** ** The tables *)

Record AuthDB := mkAuthDB {
  auth_base : DB;
  users : gmap string User;
  sessions : gmap string Session;
  (* by user: user_id is the primary key *)
  user_mfa : gmap string UserMFA;
  recovery_codes : gmap string MFARecoveryCode;
  challenges : gmap string MFAChallenge
}.

Definition set_auth_base v db := mkAuthDB v (users db) (sessions db) (user_mfa db) (recovery_codes db) (challenges db).
Definition set_users v db := mkAuthDB (auth_base db) v (sessions db) (user_mfa db) (recovery_codes db) (challenges db).
Definition set_sessions v db := mkAuthDB (auth_base db) (users db) v (user_mfa db) (recovery_codes db) (challenges db).
Definition set_user_mfa v db := mkAuthDB (auth_base db) (users db) (sessions db) v (recovery_codes db) (challenges db).
Definition set_recovery_codes v db := mkAuthDB (auth_base db) (users db) (sessions db) (user_mfa db) v (challenges db).
Definition set_challenges v db := mkAuthDB (auth_base db) (users db) (sessions db) (user_mfa db) (recovery_codes db) v.

Definition empty_AuthDB : AuthDB := mkAuthDB empty_DB ∅ ∅ ∅ ∅ ∅.

Abbreviation AuthTx := (Txn AuthDB).

(** ** Statements *)

(** The row a query on a unique column finds. *)
Definition find_row {A} (p : A → bool) (m : gmap string A) : option A := head (List.filter p (rows m)).

Definition count_rows {A} (p : A → bool) (m : gmap string A) : Z := Z.of_nat (length (List.filter p (rows m))).

(** [UPDATE m SET f WHERE p] under the check [ok]: the table after it. *)
Definition checked_update {A} (ok : A → bool) (p : A → bool) (f : A → A) (m : gmap string A) : res (gmap string A) :=
  if forallb (λ x, negb (p x) || ok (f x)) (rows m) then Ok (update_where p f m)
  else Err (TextError "violates check constraint").

Definition tx_lift {S A} (r : res A) : Txn S A := match r with Ok a => tx_ret a | Err e => tx_fail e end.

Section auth_store.
Context {R : Runtime} {C : Collation}.

(* src/internal/database/store.go:44-59 audit *)
Definition audited (event : AuditEvent) : AuthTx unit := λ db,
  match audit event (auth_base db) with Ok (a, base) => Ok (a, set_auth_base base db) | Err e => Err e end.

(* src/internal/database/users.go:80-80 Store.UpdateUser *)
Definition update_sessions (p : Session → bool) (f : Session → Session) : AuthTx unit :=
  tx db <- tx_get; tx_modify (set_sessions (update_where p f (sessions db))).

Definition update_challenges (ok : MFAChallenge → bool) (p : MFAChallenge → bool) (f : MFAChallenge → MFAChallenge) :
  AuthTx unit :=
  tx db <- tx_get;
  tx m <- tx_lift (checked_update ok p f (challenges db));
  tx_modify (set_challenges m).

(** ** Users *)

(** [EXISTS(SELECT 1 FROM user_mfa m WHERE m.user_id=$1 AND m.enabled_at IS NOT NULL)] *)
(* src/internal/database/auth.go:75-75 Store.UserByEmail *)
Definition mfa_enabled (userID : string) (db : AuthDB) : bool :=
  match user_mfa db !! userID with Some m => bool_decide (is_Some (UserMFA_EnabledAt m)) | None => false end.

(* src/internal/database/auth.go:75-79 Store.UserByEmail *)
Definition with_mfa_enabled (b : bool) (u : User) : User :=
  mkUser (User_ID u) (User_Email u) (User_DisplayName u) (User_PasswordHash u) (User_Role u) (User_Enabled u)
    (User_CreatedAt u) (User_UpdatedAt u) (User_LastLoginAt u) b.

(* src/internal/database/auth.go:72-79 Store.UserByEmail *)
Definition scan_user (db : AuthDB) (u : User) : User := with_mfa_enabled (mfa_enabled (User_ID u) db) u.

(** The checks of the table; [char_length] counts characters. *)
Definition user_checks (u : User) : bool :=
  (User_Role u =?? RoleAdministrator) && (User_Email u =?? sql_lower (User_Email u)) &&
  (1 <=? RuneCount (User_DisplayName u)) && (RuneCount (User_DisplayName u) <=? 120).

(* src/internal/database/users.go:73-73 Store.UpdateUser *)
Definition email_taken (id email : string) (db : AuthDB) : bool :=
  exists_row (λ u, negb (User_ID u =?? id) && (sql_lower (User_Email u) =?? sql_lower email)) (users db).

(* src/internal/database/auth.go:38-42 Store.CreateInitialUser *)
Definition inserted_user (u : User) : User :=
  mkUser (User_ID u) (User_Email u) (User_DisplayName u) (User_PasswordHash u) (User_Role u) (User_Enabled u)
    (User_CreatedAt u) (User_CreatedAt u) None false.

(** [INSERT INTO users]: the check constraints come before the unique indexes. *)
(* src/internal/database/users.go:34-40 Store.CreateUser *)
Definition insert_user (u : User) (failed duplicate : error) : AuthTx unit :=
  tx db <- tx_get;
  tx_check (user_checks u) failed >>>
  tx_check (bool_decide (users db !! User_ID u = None) && negb (email_taken (User_ID u) (User_Email u) db)) duplicate >>>
  tx_modify (set_users (<[User_ID u := inserted_user u]> (users db))).

(* src/internal/database/auth.go:14-20 Store.HasUsers *)
Definition HasUsers (db : AuthDB) : res bool := Ok (negb (bool_decide (users db = ∅))).

(* src/internal/database/auth.go:70-84 Store.UserByEmail *)
Definition UserByEmail (email : string) (db : AuthDB) : res User :=
  match find_row (λ u, User_Email u =?? email) (users db) with
  | Some u => Ok (scan_user db u)
  | None => Err (not_found "user")
  end.

(* src/internal/database/auth.go:86-100 Store.UserByID *)
Definition UserByID (id : string) (db : AuthDB) : res User :=
  match users db !! id with Some u => Ok (scan_user db u) | None => Err (not_found "user") end.

(** [ORDER BY lower(u.email),u.id] *)
(* src/internal/database/users.go:13-28 Store.ListUsers *)
Definition ListUsers (db : AuthDB) : res (list User) :=
  Ok (scan_user db <$>
      sort_Slice (λ a b, collate_less (sql_lower (User_Email a)) (sql_lower (User_Email b)))
        (sort_Slice (λ a b, String.ltb (User_ID a) (User_ID b)) (rows (users db)))).

(** ** Sessions *)

(* src/internal/database/auth.go:128-133 createLoginSession *)
Definition inserted_session (s : Session) : Session :=
  mkSession (Session_ID s) (Session_UserID s) (Session_TokenHash s) (Session_CSRFHash s) (Session_CreatedAt s)
    (Session_ExpiresAt s) (Session_CreatedAt s) None (Session_IPMetadata s) (Session_UserAgent s).

(* src/internal/database/auth.go:117-144 createLoginSession *)
Definition insert_session (s : Session) (e : error) : AuthTx unit :=
  tx db <- tx_get;
  tx_check (bool_decide (sessions db !! Session_ID s = None) &&
            negb (exists_row (λ r, Session_TokenHash r =?? Session_TokenHash s) (sessions db)) &&
            bool_decide (is_Some (users db !! Session_UserID s)) &&
            (Session_CreatedAt s <? Session_ExpiresAt s)) e >>>
  tx_modify (set_sessions (<[Session_ID s := inserted_session s]> (sessions db))).

(* src/internal/database/auth.go:137-137 createLoginSession *)
Definition logged_in (at_ : Time) (updated : bool) (u : User) : User :=
  mkUser (User_ID u) (User_Email u) (User_DisplayName u) (User_PasswordHash u) (User_Role u) (User_Enabled u)
    (User_CreatedAt u) (if updated then at_ else User_UpdatedAt u) (Some at_) (User_MFAEnabled u).

(* src/internal/database/auth.go:137-137 createLoginSession *)
Definition has_user_id (id : string) (u : User) : bool := User_ID u =?? id.

(* src/internal/database/auth.go:137-137 createLoginSession *)
Definition update_users (p : User → bool) (f : User → User) : AuthTx unit :=
  tx db <- tx_get; tx_modify (set_users (update_where p f (users db))).

(* src/internal/database/auth.go:22-68 Store.CreateInitialUser *)
Definition CreateInitialUser (user : User) (session : Session) (userEvent loginEvent : AuditEvent) : AuthTx unit :=
  tx db <- tx_get;
  tx_check (bool_decide (users db = ∅)) (conflict "initial setup has already been completed") >>>
  insert_user user (TextError "create initial administrator") (TextError "create initial administrator") >>>
  insert_session session (TextError "create initial administrator session") >>>
  update_users (has_user_id (User_ID user)) (logged_in (Session_CreatedAt session) false) >>>
  audited userEvent >>> audited loginEvent.

(* src/internal/database/auth.go:121-121 createLoginSession *)
Definition authentication_required : error := NewError ErrorAuthentication "authentication is required".

(* src/internal/database/auth.go:117-144 createLoginSession *)
Definition createLoginSession (session : Session) (event : AuditEvent) : AuthTx unit :=
  tx db <- tx_get;
  match users db !! Session_UserID session with
  | None => tx_fail authentication_required
  | Some user =>
      tx_check (User_Enabled user) authentication_required >>>
      insert_session session (TextError "create login session") >>>
      update_users (has_user_id (Session_UserID session)) (logged_in (Session_CreatedAt session) true) >>>
      audited event
  end.

(* src/internal/database/auth.go:102-115 Store.CreateLoginSession *)
Definition CreateLoginSession (session : Session) (event : AuditEvent) : AuthTx unit :=
  createLoginSession session event.

(** A session that may be used at [now]. *)
(* src/internal/database/auth.go:155-157 Store.AuthenticatedSession *)
Definition usable_session (tokenHash : string) (now : Time) (db : AuthDB) (s : Session) : bool :=
  (Session_TokenHash s =?? tokenHash) && bool_decide (Session_RevokedAt s = None) && (now <? Session_ExpiresAt s) &&
  match users db !! Session_UserID s with Some u => User_Enabled u | None => false end.

(* src/internal/database/auth.go:146-170 Store.AuthenticatedSession *)
Definition AuthenticatedSession (tokenHash : string) (now : Time) (db : AuthDB) : res (Session * User) :=
  match find_row (usable_session tokenHash now db) (sessions db) with
  | Some s =>
      match users db !! Session_UserID s with
      | Some u => Ok (s, scan_user db u)
      | None => Err authentication_required
      end
  | None => Err authentication_required
  end.

(* src/internal/database/auth.go:174-174 Store.TouchSession *)
Definition seen (at_ : Time) (s : Session) : Session :=
  mkSession (Session_ID s) (Session_UserID s) (Session_TokenHash s) (Session_CSRFHash s) (Session_CreatedAt s)
    (Session_ExpiresAt s) at_ (Session_RevokedAt s) (Session_IPMetadata s) (Session_UserAgent s).

(* src/internal/database/auth.go:172-180 Store.TouchSession *)
Definition TouchSession (sessionID : string) (at_ : Time) : AuthTx unit :=
  update_sessions (λ s, (Session_ID s =?? sessionID) && (Session_LastSeenAt s <? at_ - 5 * minute)) (seen at_).

(* src/internal/database/auth.go:188-188 Store.RevokeSession *)
Definition revoked (at_ : Time) (s : Session) : Session :=
  mkSession (Session_ID s) (Session_UserID s) (Session_TokenHash s) (Session_CSRFHash s) (Session_CreatedAt s)
    (Session_ExpiresAt s) (Session_LastSeenAt s) (Some at_) (Session_IPMetadata s) (Session_UserAgent s).

(* src/internal/database/auth.go:188-188 Store.RevokeSession *)
Definition not_revoked (s : Session) : bool := bool_decide (Session_RevokedAt s = None).

(* src/internal/database/auth.go:182-198 Store.RevokeSession *)
Definition RevokeSession (sessionID : string) (at_ : Time) (event : AuditEvent) : AuthTx unit :=
  update_sessions (λ s, (Session_ID s =?? sessionID) && not_revoked s) (revoked at_) >>> audited event.

(* src/internal/database/auth.go:200-213 Store.RecordAuditEvent *)
Definition RecordAuditEvent (event : AuditEvent) : AuthTx unit := audited event.

Definition day : Duration := 24 * hour.

(* src/internal/database/auth.go:215-221 Store.DeleteExpiredSessions *)
Definition DeleteExpiredSessions (now : Time) : AuthTx Z :=
  tx db <- tx_get;
  let p s := (Session_ExpiresAt s <=? now) ||
             match Session_RevokedAt s with Some t => t <? now - 30 * day | None => false end in
  tx_modify (set_sessions (delete_where p (sessions db))) >>>
  tx_ret (count_rows p (sessions db)).

(** [UPDATE sessions SET revoked_at=$3 WHERE user_id=$1 AND id<>$2 AND revoked_at IS NULL]; without a current
    session every session of the user is revoked. *)
(* src/internal/database/users.go:115-138 Store.ChangeOwnPassword *)
Definition revoke_sessions (userID : string) (current : option string) (at_ : Time) : AuthTx unit :=
  update_sessions (λ s, (Session_UserID s =?? userID) &&
      match current with Some id => negb (Session_ID s =?? id) | None => true end && not_revoked s)
    (revoked at_).

(** ** Administration of users *)

(* src/internal/database/users.go:30-47 Store.CreateUser *)
Definition CreateUser (user : User) (event : AuditEvent) : AuthTx unit :=
  insert_user user (TextError "create user") (conflict "a user with that email already exists") >>> audited event.

(* src/internal/database/users.go:65-65 Store.UpdateUser *)
Definition enabled_administrator (u : User) : bool := User_Enabled u && (User_Role u =?? RoleAdministrator).

(* src/internal/database/users.go:72-72 Store.UpdateUser *)
Definition updated_user (email displayName : string) (enabled : bool) (now : Time) (u : User) : User :=
  mkUser (User_ID u) email displayName (User_PasswordHash u) (User_Role u) enabled (User_CreatedAt u) now
    (User_LastLoginAt u) (User_MFAEnabled u).

(* src/internal/database/users.go:49-91 Store.UpdateUser *)
Definition UpdateUser (id email displayName : string) (enabled : bool) (now : Time) (event : AuditEvent) :
  AuthTx User :=
  tx db <- tx_get;
  match users db !! id with
  | None => tx_fail (not_found "user")
  | Some current =>
      tx_check (negb (User_Enabled current && negb enabled && (User_Role current =?? RoleAdministrator) &&
                      (count_rows enabled_administrator (users db) <=? 1)))
        (conflict "the final enabled administrator cannot be disabled") >>>
      let user := updated_user email displayName enabled now current in
      tx_check (user_checks user) (TextError "update user") >>>
      tx_check (negb (email_taken id email db)) (conflict "a user with that email already exists") >>>
      tx_modify (set_users (<[id := user]> (users db))) >>>
      (if enabled then tx_ret tt else revoke_sessions id None now) >>>
      audited event >>>
      tx_ret (scan_user db user)
  end.

(* src/internal/database/users.go:99-99 Store.ResetUserPassword *)
Definition with_password (hash : string) (now : Time) (u : User) : User :=
  mkUser (User_ID u) (User_Email u) (User_DisplayName u) hash (User_Role u) (User_Enabled u) (User_CreatedAt u) now
    (User_LastLoginAt u) (User_MFAEnabled u).

(* src/internal/database/users.go:93-113 Store.ResetUserPassword *)
Definition ResetUserPassword (id passwordHash : string) (now : Time) (event : AuditEvent) : AuthTx unit :=
  tx db <- tx_get;
  match users db !! id with
  | None => tx_fail (NewError ErrorNotFound "user was not found")
  | Some user =>
      tx_modify (set_users (<[id := with_password passwordHash now user]> (users db))) >>>
      revoke_sessions id None now >>> audited event
  end.

(* src/internal/database/users.go:115-138 Store.ChangeOwnPassword *)
Definition ChangeOwnPassword (userID currentSessionID passwordHash : string) (now : Time) (event : AuditEvent) :
  AuthTx unit :=
  tx db <- tx_get;
  match users db !! userID with
  | None => tx_fail authentication_required
  | Some user =>
      tx_check (User_Enabled user) authentication_required >>>
      tx_modify (set_users (<[userID := with_password passwordHash now user]> (users db))) >>>
      revoke_sessions userID (Some currentSessionID) now >>> audited event
  end.
End auth_store.

(** * Transactions that keep a property, and transactions that leave a table alone

    What the invariants of the tables of accounts and of high availability share. *)

(** The result is not used. *)
Definition ignoring {S A} (t : Txn S A) : Txn S unit := tx _ <- t; tx_ret tt.

Lemma tx_lift_Ok {S A} (r : res A) (db : S) a db' : tx_lift r db = Ok (a, db') → r = Ok a ∧ db' = db.
Proof. destruct r; [by intros [= <- <-]|done]. Qed.

(** ** Transactions that keep a property of the tables *)

Section keeps.
Context {S : Type} (P : S → Prop).

Definition keeps_db {A} (t : Txn S A) : Prop := ∀ db a db', t db = Ok (a, db') → P db → P db'.

Lemma keeps_db_bind {A B} (t : Txn S A) (f : A → Txn S B) :
  keeps_db t → (∀ a, keeps_db (f a)) → keeps_db (tx_bind t f).
Proof. intros Ht Hf db b db' (a & db1 & H1 & H2)%tx_bind_Ok HP. eapply Hf; [exact H2|]. by eapply Ht. Qed.

Lemma keeps_db_get {A} (f : S → Txn S A) : (∀ db, keeps_db (f db)) → keeps_db (tx_bind tx_get f).
Proof. intros H. apply keeps_db_bind; [|done]. by intros db a db' [-> ->]%tx_get_Ok. Qed.

Lemma keeps_db_check b e : keeps_db (tx_check b e).
Proof. by intros db a db' [_ ->]%tx_check_Ok. Qed.

Lemma keeps_db_ret {A} (a : A) : keeps_db (tx_ret a).
Proof. by intros db b db' [_ ->]%tx_ret_Ok. Qed.

Lemma keeps_db_fail {A} e : keeps_db (tx_fail (A := A) e).
Proof. by intros db b db'. Qed.

Lemma keeps_db_lift {A} (r : res A) : keeps_db (tx_lift r).
Proof. destruct r; [apply keeps_db_ret|apply keeps_db_fail]. Qed.

Lemma keeps_db_ignoring {A} (t : Txn S A) : keeps_db t → keeps_db (ignoring t).
Proof. intros H. apply keeps_db_bind; [done|]. intros _. apply keeps_db_ret. Qed.

End keeps.

(** [keeps_walk leaf] follows a transaction; [leaf] proves the statements. *)
Ltac keeps_walk leaf :=
  repeat first
  [ lazymatch goal with
    | |- keeps_db _ (tx_bind tx_get _) => apply keeps_db_get; intros ?
    | |- keeps_db _ (tx_bind _ _) => apply keeps_db_bind; [|intros ?]
    | |- keeps_db _ (tx_check _ _) => apply keeps_db_check
    | |- keeps_db _ (tx_ret _) => apply keeps_db_ret
    | |- keeps_db _ (tx_fail _) => apply keeps_db_fail
    | |- keeps_db _ (tx_lift _) => apply keeps_db_lift
    | |- keeps_db _ (ignoring _) => apply keeps_db_ignoring
    end
  | leaf ()
  | lazymatch goal with
    | |- keeps_db _ (match ?x with _ => _ end) => destruct x eqn:?
    end ].

(** ** Tables a transaction leaves alone *)

Section untouched.
Context {S T : Type} (table : S → T).

Definition untouched {A} (t : Txn S A) : Prop := ∀ db a db', t db = Ok (a, db') → table db' = table db.

Lemma untouched_bind {A B} (t : Txn S A) (f : A → Txn S B) :
  untouched t → (∀ a, untouched (f a)) → untouched (tx_bind t f).
Proof. intros Ht Hf db b db' (a & db1 & H1 & H2)%tx_bind_Ok. by rewrite (Hf _ _ _ _ H2), (Ht _ _ _ H1). Qed.

Lemma untouched_get : untouched tx_get.
Proof. by intros db a db' [_ ->]%tx_get_Ok. Qed.
Lemma untouched_check b e : untouched (tx_check b e).
Proof. by intros db a db' [_ ->]%tx_check_Ok. Qed.
Lemma untouched_ret {A} (a : A) : untouched (tx_ret a).
Proof. by intros db b db' [_ ->]%tx_ret_Ok. Qed.

Lemma keeps_untouched {A} (P : T → Prop) (t : Txn S A) : untouched t → keeps_db (λ db, P (table db)) t.
Proof. intros Ht db a db' H. by rewrite (Ht _ _ _ H). Qed.
End untouched.
