(* ===== verification/MFAStore.v ===== *)
(** * internal/database/mfa.go: second factors

    The enrolments, the recovery codes and the challenges of users, with the checks, the
    unique indexes and the cascades of the migration. *)

From S2P Require Import Prelude GoRuntime Json Domain AuditMetadata ControlModel Store StoreRecords.
From S2P Require Import OperationsModel AuthModel AuthStore.

(** ** Rows *)

Definition mfa_checks (m : UserMFA) : bool :=
  (UserMFA_EnrollmentStarted m <? UserMFA_EnrollmentExpires m) &&
  match UserMFA_EnabledAt m with Some t => UserMFA_EnrollmentStarted m <=? t | None => true end.

Definition challenge_checks (c : MFAChallenge) : bool :=
  (MFAChallenge_CreatedAt c <? MFAChallenge_ExpiresAt c) &&
  match MFAChallenge_ConsumedAt c with Some t => MFAChallenge_CreatedAt c <=? t | None => true end &&
  (0 <=? MFAChallenge_FailedAttempts c) && (MFAChallenge_FailedAttempts c <=? 5).

Definition code_checks (c : MFARecoveryCode) : bool :=
  match MFARecoveryCode_UsedAt c with Some t => MFARecoveryCode_CreatedAt c <=? t | None => true end.

(* src/internal/database/mfa.go:81-81 Store.CreateMFAChallenge *)
Definition unconsumed (c : MFAChallenge) : bool := bool_decide (MFAChallenge_ConsumedAt c = None).
(* src/internal/database/mfa.go:157-157 Store.ConsumeMFAChallenge *)
Definition unused (c : MFARecoveryCode) : bool := bool_decide (MFARecoveryCode_UsedAt c = None).

(* src/internal/database/mfa.go:81-81 Store.CreateMFAChallenge *)
Definition consumed (at_ : Time) (c : MFAChallenge) : MFAChallenge :=
  mkMFAChallenge (MFAChallenge_ID c) (MFAChallenge_UserID c) (MFAChallenge_TokenHash c) (MFAChallenge_CreatedAt c)
    (MFAChallenge_ExpiresAt c) (Some at_) (MFAChallenge_FailedAttempts c) (MFAChallenge_IPMetadata c)
    (MFAChallenge_UserAgent c).

(* src/internal/database/mfa.go:156-156 Store.ConsumeMFAChallenge *)
Definition used (at_ : Time) (c : MFARecoveryCode) : MFARecoveryCode :=
  mkMFARecoveryCode (MFARecoveryCode_ID c) (MFARecoveryCode_UserID c) (MFARecoveryCode_CodeHash c)
    (MFARecoveryCode_CreatedAt c) (Some at_).

(* src/internal/database/mfa.go:245-245 Store.EnableMFA *)
Definition enabled_mfa (at_ : Time) (m : UserMFA) : UserMFA :=
  mkUserMFA (UserMFA_UserID m) (UserMFA_Secret m) (UserMFA_EnrollmentStarted m) (UserMFA_EnrollmentExpires m)
    (Some at_) (UserMFA_RecoveryRemaining m).

(** A challenge that may be answered at [now]. *)
(* src/internal/database/mfa.go:130-130 Store.FailMFAChallenge *)
Definition open_challenge (tokenHash : string) (now : Time) (c : MFAChallenge) : bool :=
  (MFAChallenge_TokenHash c =?? tokenHash) && unconsumed c && (now <? MFAChallenge_ExpiresAt c) &&
  (MFAChallenge_FailedAttempts c <? 5).

(* src/internal/database/mfa.go:27-31 Store.UserMFA *)
Definition remaining_codes (userID : string) (db : AuthDB) : Z :=
  count_rows (λ c, (MFARecoveryCode_UserID c =?? userID) && unused c) (recovery_codes db).

(* src/internal/database/mfa.go:24-34 Store.UserMFA *)
Definition scan_mfa (db : AuthDB) (m : UserMFA) : UserMFA :=
  mkUserMFA (UserMFA_UserID m) (UserMFA_Secret m) (UserMFA_EnrollmentStarted m) (UserMFA_EnrollmentExpires m)
    (UserMFA_EnabledAt m) (remaining_codes (UserMFA_UserID m) db).

(* src/internal/database/mfa.go:149-149 Store.ConsumeMFAChallenge *)
Definition invalid_code : error :=
  NewError ErrorInvalidCredentials "authentication code is invalid or expired".

Section mfa_store.
Context {R : Runtime}.

(** ** Enrolment *)

(* src/internal/database/mfa.go:14-20 Store.MFAEnabled *)
Definition MFAEnabled (userID : string) (db : AuthDB) : res bool := Ok (mfa_enabled userID db).

(* src/internal/database/mfa.go:22-40 Store.UserMFA *)
Definition Store_UserMFA (userID : string) (db : AuthDB) : res UserMFA :=
  match user_mfa db !! userID with
  | Some m => Ok (scan_mfa db m)
  | None => Err (not_found "MFA configuration")
  end.

(* src/internal/database/mfa.go:47-54 Store.UpsertPendingMFA *)
Definition pending_mfa (value : UserMFA) : UserMFA :=
  mkUserMFA (UserMFA_UserID value) (UserMFA_Secret value) (UserMFA_EnrollmentStarted value)
    (UserMFA_EnrollmentExpires value) None 0.

(** An enabled configuration is kept, without an error. *)
(* src/internal/database/mfa.go:42-63 Store.UpsertPendingMFA *)
Definition UpsertPendingMFA (value : UserMFA) : AuthTx unit :=
  tx db <- tx_get;
  tx_check (mfa_checks (pending_mfa value)) (TextError "store pending MFA enrollment") >>>
  if mfa_enabled (UserMFA_UserID value) db then tx_ret tt
  else
    tx_check (bool_decide (is_Some (users db !! UserMFA_UserID value))) (TextError "store pending MFA enrollment") >>>
    tx_modify (set_user_mfa (<[UserMFA_UserID value := pending_mfa value]> (user_mfa db))).

(** [UPDATE mfa_challenges SET consumed_at=$2 WHERE user_id=$1 AND consumed_at IS NULL] *)
(* src/internal/database/mfa.go:80-82 Store.CreateMFAChallenge *)
Definition consume_challenges (userID : string) (at_ : Time) : AuthTx unit :=
  update_challenges challenge_checks (λ c, (MFAChallenge_UserID c =?? userID) && unconsumed c) (consumed at_).

(** The unique (user_id, code_hash), and the reference to the configuration. *)
(* src/internal/database/mfa.go:379-386 insertRecoveryCodes *)
Fixpoint insertRecoveryCodes (codes : list MFARecoveryCode) : AuthTx unit :=
  match codes with
  | [] => tx_ret tt
  | c :: rest =>
      tx db <- tx_get;
      tx_check (bool_decide (recovery_codes db !! MFARecoveryCode_ID c = None) &&
                negb (exists_row (λ r, (MFARecoveryCode_UserID r =?? MFARecoveryCode_UserID c) &&
                                       (MFARecoveryCode_CodeHash r =?? MFARecoveryCode_CodeHash c)) (recovery_codes db)) &&
                bool_decide (is_Some (user_mfa db !! MFARecoveryCode_UserID c)))
        (TextError "store MFA recovery code") >>>
      tx_modify (set_recovery_codes (<[MFARecoveryCode_ID c :=
        mkMFARecoveryCode (MFARecoveryCode_ID c) (MFARecoveryCode_UserID c) (MFARecoveryCode_CodeHash c)
          (MFARecoveryCode_CreatedAt c) None]> (recovery_codes db))) >>>
      insertRecoveryCodes rest
  end.

(* src/internal/database/mfa.go:252-254 Store.EnableMFA *)
Definition delete_codes (userID : string) : AuthTx unit :=
  tx db <- tx_get;
  tx_modify (set_recovery_codes (delete_where (λ c, MFARecoveryCode_UserID c =?? userID) (recovery_codes db))).

(** [DELETE FROM user_mfa WHERE user_id=$1]: the codes go with the row. *)
(* src/internal/database/mfa.go:350-352 Store.ResetMFAFromHost *)
Definition delete_mfa (userID : string) : AuthTx unit :=
  delete_codes userID >>> tx db <- tx_get; tx_modify (set_user_mfa (delete userID (user_mfa db))).

(* src/internal/database/mfa.go:250-250 Store.EnableMFA *)
Definition not_enrolled : error := conflict "MFA enrollment is missing or expired".

(* src/internal/database/mfa.go:236-268 Store.EnableMFA *)
Definition EnableMFA (userID currentSessionID : string) (codes : list MFARecoveryCode) (now : Time)
  (event : AuditEvent) : AuthTx unit :=
  tx db <- tx_get;
  match user_mfa db !! userID with
  | None => tx_fail not_enrolled
  | Some m =>
      tx_check (bool_decide (UserMFA_EnabledAt m = None) && (now <? UserMFA_EnrollmentExpires m)) not_enrolled >>>
      tx_check (mfa_checks (enabled_mfa now m)) (TextError "enable MFA") >>>
      tx_modify (set_user_mfa (<[userID := enabled_mfa now m]> (user_mfa db))) >>>
      delete_codes userID >>>
      insertRecoveryCodes codes >>>
      revoke_sessions userID (Some currentSessionID) now >>>
      consume_challenges userID now >>>
      audited event
  end.

(* src/internal/database/mfa.go:315-315 Store.DisableMFA *)
Definition not_enabled : error := conflict "MFA is not enabled".

(* src/internal/database/mfa.go:270-299 Store.ReplaceRecoveryCodes *)
Definition ReplaceRecoveryCodes (userID currentSessionID : string) (codes : list MFARecoveryCode) (now : Time)
  (event : AuditEvent) : AuthTx unit :=
  tx db <- tx_get;
  tx_check (mfa_enabled userID db) not_enabled >>>
  delete_codes userID >>>
  insertRecoveryCodes codes >>>
  revoke_sessions userID (Some currentSessionID) now >>>
  audited event.

(* src/internal/database/mfa.go:301-327 Store.DisableMFA *)
Definition DisableMFA (userID currentSessionID : string) (now : Time) (event : AuditEvent) : AuthTx unit :=
  tx db <- tx_get;
  tx_check (mfa_enabled userID db) not_enabled >>>
  delete_mfa userID >>>
  consume_challenges userID now >>>
  revoke_sessions userID (Some currentSessionID) now >>>
  audited event.

(* src/internal/database/mfa.go:360-361 Store.ResetMFAFromHost *)
Definition with_resource (id : string) (e : AuditEvent) : AuditEvent :=
  mkAuditEvent (AuditEvent_ID e) (AuditEvent_ActorType e) (AuditEvent_ActorUserID e) (AuditEvent_ActorDisplayName e)
    (AuditEvent_Action e) (AuditEvent_ResourceType e) (Some id) (AuditEvent_RequestID e) (AuditEvent_Metadata e)
    (AuditEvent_CreatedAt e) (AuditEvent_Scope e) (AuditEvent_ClusterID e).

(** The user comes without the computed column. *)
(* src/internal/database/mfa.go:329-369 Store.ResetMFAFromHost *)
Definition ResetMFAFromHost (email : string) (now : Time) (event : AuditEvent) : AuthTx (User * Z) :=
  tx db <- tx_get;
  match find_row (λ u, User_Email u =?? email) (users db) with
  | None => tx_fail (not_found "user")
  | Some user =>
      let id := User_ID user in
      delete_mfa id >>>
      consume_challenges id now >>>
      revoke_sessions id None now >>>
      audited (with_resource id event) >>>
      tx_ret (with_mfa_enabled false user,
              count_rows (λ s, (Session_UserID s =?? id) && not_revoked s) (sessions db))
  end.

(** ** Challenges *)

(* src/internal/database/mfa.go:84-87 Store.CreateMFAChallenge *)
Definition inserted_challenge (c : MFAChallenge) : MFAChallenge :=
  mkMFAChallenge (MFAChallenge_ID c) (MFAChallenge_UserID c) (MFAChallenge_TokenHash c) (MFAChallenge_CreatedAt c)
    (MFAChallenge_ExpiresAt c) None 0 (MFAChallenge_IPMetadata c) (MFAChallenge_UserAgent c).

(* src/internal/database/mfa.go:65-91 Store.CreateMFAChallenge *)
Definition CreateMFAChallenge (challenge : MFAChallenge) : AuthTx unit :=
  tx db <- tx_get;
  tx_check (mfa_enabled (MFAChallenge_UserID challenge) db) (conflict "MFA state changed; retry login") >>>
  consume_challenges (MFAChallenge_UserID challenge) (MFAChallenge_CreatedAt challenge) >>>
  tx db <- tx_get;
  tx_check (challenge_checks (inserted_challenge challenge) &&
            bool_decide (challenges db !! MFAChallenge_ID challenge = None) &&
            negb (exists_row (λ c, MFAChallenge_TokenHash c =?? MFAChallenge_TokenHash challenge) (challenges db)) &&
            bool_decide (is_Some (users db !! MFAChallenge_UserID challenge)))
    (TextError "create MFA challenge") >>>
  tx_modify (set_challenges (<[MFAChallenge_ID challenge := inserted_challenge challenge]> (challenges db))).

(* src/internal/database/mfa.go:93-123 Store.MFAChallengeByTokenHash *)
Definition MFAChallengeByTokenHash (tokenHash : string) (now : Time) (db : AuthDB) :
  res (MFAChallenge * User * UserMFA) :=
  match find_row (open_challenge tokenHash now) (challenges db) with
  | None => Err invalid_code
  | Some c =>
      match users db !! MFAChallenge_UserID c, user_mfa db !! MFAChallenge_UserID c with
      | Some u, Some m =>
          if User_Enabled u && bool_decide (is_Some (UserMFA_EnabledAt m))
          then Ok (c, with_mfa_enabled true u, scan_mfa db m)
          else Err invalid_code
      | _, _ => Err invalid_code
      end
  end.

(** The fifth failure consumes the challenge. *)
(* src/internal/database/mfa.go:128-129 Store.FailMFAChallenge *)
Definition failed (at_ : Time) (c : MFAChallenge) : MFAChallenge :=
  mkMFAChallenge (MFAChallenge_ID c) (MFAChallenge_UserID c) (MFAChallenge_TokenHash c) (MFAChallenge_CreatedAt c)
    (MFAChallenge_ExpiresAt c)
    (if 5 <=? MFAChallenge_FailedAttempts c + 1 then Some at_ else MFAChallenge_ConsumedAt c)
    (MFAChallenge_FailedAttempts c + 1) (MFAChallenge_IPMetadata c) (MFAChallenge_UserAgent c).

(* src/internal/database/mfa.go:125-135 Store.FailMFAChallenge *)
Definition FailMFAChallenge (tokenHash : string) (now : Time) : AuthTx unit :=
  update_challenges challenge_checks (open_challenge tokenHash now) (failed now).

(** [UPDATE mfa_challenges SET consumed_at=$2 WHERE ... RETURNING user_id]: the user of the consumed row. *)
(* src/internal/database/mfa.go:144-153 Store.ConsumeMFAChallenge *)
Definition consume_challenge (p : MFAChallenge → bool) (now : Time) : AuthTx string :=
  tx db <- tx_get;
  match find_row p (challenges db) with
  | None => tx_fail invalid_code
  | Some c => update_challenges challenge_checks p (consumed now) >>> tx_ret (MFAChallenge_UserID c)
  end.

(** A code of the user that was not used yet; an empty hash stands for no code. *)
(* src/internal/database/mfa.go:154-164 Store.ConsumeMFAChallenge *)
Definition use_code (userID recoveryHash : string) (now : Time) : AuthTx unit :=
  if recoveryHash =?? "" then tx_ret tt
  else
    tx db <- tx_get;
    let p c := (MFARecoveryCode_UserID c =?? userID) && (MFARecoveryCode_CodeHash c =?? recoveryHash) && unused c in
    tx m <- tx_lift (checked_update code_checks p (used now) (recovery_codes db));
    tx_check (count_rows p (recovery_codes db) =? 1) invalid_code >>>
    tx_modify (set_recovery_codes m).

(* src/internal/database/mfa.go:165-169 Store.ConsumeMFAChallenge *)
Definition audit_if (event : option AuditEvent) : AuthTx unit :=
  match event with Some e => audited e | None => tx_ret tt end.

(* src/internal/database/mfa.go:137-174 Store.ConsumeMFAChallenge *)
Definition ConsumeMFAChallenge (tokenHash recoveryHash : string) (now : Time) (event : option AuditEvent) :
  AuthTx unit :=
  tx userID <- consume_challenge (open_challenge tokenHash now) now;
  use_code userID recoveryHash now >>>
  audit_if event.

(* src/internal/database/mfa.go:180-234 Store.CompleteMFAChallenge *)
Definition CompleteMFAChallenge (tokenHash recoveryHash : string) (now : Time) (recoveryEvent : option AuditEvent)
  (session : Session) (loginEvent : AuditEvent) : AuthTx unit :=
  tx db <- tx_get;
  match find_row (λ c, MFAChallenge_TokenHash c =?? tokenHash) (challenges db) with
  | None => tx_fail invalid_code
  | Some c =>
      tx_check (MFAChallenge_UserID c =?? Session_UserID session) invalid_code >>>
      tx userID <- consume_challenge
        (λ c, open_challenge tokenHash now c && mfa_enabled (MFAChallenge_UserID c) db) now;
      use_code userID recoveryHash now >>>
      audit_if recoveryEvent >>>
      createLoginSession session loginEvent
  end.

(* src/internal/database/mfa.go:371-377 Store.DeleteExpiredMFAChallenges *)
Definition DeleteExpiredMFAChallenges (now : Time) : AuthTx Z :=
  tx db <- tx_get;
  let p c := (MFAChallenge_ExpiresAt c <=? now) ||
             match MFAChallenge_ConsumedAt c with Some t => t <? now - day | None => false end in
  tx_modify (set_challenges (delete_where p (challenges db))) >>>
  tx_ret (count_rows p (challenges db)).
End mfa_store.
