(* ===== verification/Auth.v ===== *)
(** * internal/auth/service.go and mfa.go: login, sessions and second factors

    The methods of the authentication service as programs over its repository, the two
    limiters, the clock, the random source, the cipher and the library of one-time
    passwords.  The optional dependencies of the service are flags of [AuthService]. *)

From S2P Require Import Prelude GoRuntime Json Domain OperationsModel AuthModel Password Effects.

(** ** The interfaces *)

(** The two limiters of the service. *)
Inductive limiter_name := LoginAttempts | FactorAttempts.

(** What [totp.Generate] returns: the secret, the URL and the QR code as a PNG. *)
Record TOTPKey := mkTOTPKey { TOTPKey_Secret : string; TOTPKey_URL : string; TOTPKey_PNG : res string }.

Inductive authctl : Type → Type :=
| Clock : authctl Time
| AuthID : authctl (res string)
| RandomBytes (n : Z) : authctl (res string)
| SessionDuration : authctl Duration
| Limit_Allow (l : limiter_name) (key : string) : authctl bool
| Limit_Failure (l : limiter_name) (key : string) : authctl unit
| Limit_Success (l : limiter_name) (key : string) : authctl unit
| TOTP_Generate (account : string) : authctl (res TOTPKey)
| Secret_Encrypt (scope body : string) : authctl (res EncryptedPayload)
| Secret_Decrypt (scope : string) (payload : EncryptedPayload) : authctl (res string)
(* Repository *)
| Users_HasUsers : authctl (res bool)
| Users_CreateInitialUser (u : User) (s : Session) (e1 e2 : AuditEvent) : authctl (res unit)
| Users_ByEmail (email : string) : authctl (res User)
| Users_CreateLoginSession (s : Session) (e : AuditEvent) : authctl (res unit)
| Users_AuthenticatedSession (hash : string) (now : Time) : authctl (res (Session * User))
| Users_TouchSession (id : string) (at_ : Time) : authctl (res unit)
| Users_RevokeSession (id : string) (at_ : Time) (e : AuditEvent) : authctl (res unit)
| Users_RecordAuditEvent (e : AuditEvent) : authctl (res unit)
(* MFARepository *)
| MFA_UserByID (id : string) : authctl (res User)
| MFA_Enabled (id : string) : authctl (res bool)
| MFA_UserMFA (id : string) : authctl (res UserMFA)
| MFA_UpsertPending (m : UserMFA) : authctl (res unit)
| MFA_CreateChallenge (c : MFAChallenge) : authctl (res unit)
| MFA_ChallengeByTokenHash (hash : string) (now : Time) : authctl (res (MFAChallenge * User * UserMFA))
| MFA_FailChallenge (hash : string) (now : Time) : authctl (res unit)
| MFA_ConsumeChallenge (hash recovery : string) (now : Time) (e : option AuditEvent) : authctl (res unit)
| MFA_CompleteChallenge (hash recovery : string) (now : Time) (e : option AuditEvent) (s : Session)
    (login : AuditEvent) : authctl (res unit)
| MFA_Enable (id current : string) (codes : list MFARecoveryCode) (now : Time) (e : AuditEvent) : authctl (res unit)
| MFA_ReplaceCodes (id current : string) (codes : list MFARecoveryCode) (now : Time) (e : AuditEvent) :
    authctl (res unit)
| MFA_Disable (id current : string) (now : Time) (e : AuditEvent) : authctl (res unit)
| MFA_ResetFromHost (email : string) (now : Time) (e : AuditEvent) : authctl (res (User * Z)).

Abbreviation auth := (prog authctl).

(* src/internal/auth/service.go:26-39 Service *)
Record AuthService := mkAuthService {
  svc_secret : string;
  svc_dummyHash : string;
  (* the repository implements MFARepository, and there is a credential cipher *)
  svc_mfa : bool;
  svc_cipher : bool
}.

(* src/internal/auth/service.go:54-62 SessionResult *)
Record SessionResult := mkSessionResult {
  SessionResult_User : option User;
  SessionResult_Session : option Session;
  SessionResult_Token : string;
  SessionResult_CSRFToken : string;
  SessionResult_MFARequired : bool;
  SessionResult_MFAChallenge : string;
  SessionResult_ChallengeExpiresAt : Time
}.

(** [base64.RawURLEncoding] *)
(* src/internal/auth/token.go:65-72 TokenManager.newToken *)
Definition RawURL (s : string) : string := string_map url_digit (EncodeToString s).

Section service.
Context {R : Runtime} {K : Crypto} (s : AuthService).

(** A call that is made when the flag is set. *)
(* src/internal/auth/mfa.go:321-321 Service.createMFAChallenge *)
Definition mfa_unavailable : error := TextError "MFA repository is unavailable".
(* src/internal/auth/mfa.go:373-373 Service.verifyEncryptedTOTP *)
Definition cipher_unavailable : error := TextError "MFA credential encryption is unavailable".
(* src/internal/auth/mfa.go:320-322 Service.createMFAChallenge *)
Definition need_mfa : auth (res unit) := guard (svc_mfa s) mfa_unavailable.
(* src/internal/auth/mfa.go:372-374 Service.verifyEncryptedTOTP *)
Definition need_cipher : auth (res unit) := guard (svc_cipher s) cipher_unavailable.

(* src/internal/auth/service.go:240-250 auditEvent *)
Definition auditEvent (actorType : string) (actorUserID : option string) (action resourceType : string)
  (resourceID : option string) (requestID : string) (metadata : list (string * json)) (at_ : Time) :
  auth (res AuditEvent) :=
  try id <- call AuthID;
  done_with (mkAuditEvent id actorType actorUserID "" action resourceType resourceID requestID (JObj metadata) at_ "" "").

(* src/internal/auth/token.go:65-72 TokenManager.newToken *)
Definition newToken (purpose : string) : auth (res (string * string)) :=
  do raw <- call (RandomBytes tokenBytes);
  match raw with
  | Err e => fail (WrapError ("generate " +:+ purpose +:+ " token: " +:+ Error_Error e) e)
  | Ok raw => let token := RawURL raw in done_with (token, token_hash (svc_secret s) purpose token)
  end.

(* src/internal/auth/token.go:24-26 TokenManager.NewSessionToken *)
Definition NewSessionToken : auth (res (string * string)) := newToken "session".
(* src/internal/auth/token.go:28-30 TokenManager.NewCSRFToken *)
Definition NewCSRFToken : auth (res (string * string)) := newToken "csrf".
(* src/internal/auth/token.go:32-34 TokenManager.NewMFAChallengeToken *)
Definition NewMFAChallengeToken : auth (res (string * string)) := newToken "mfa-challenge".

(** ** Sessions *)

(* src/internal/auth/service.go:202-226 Service.buildSession *)
Definition buildSession (user : User) (requestID sourceIP userAgent : string) :
  auth (res (SessionResult * Session * AuditEvent)) :=
  try sessionID <- call AuthID;
  try token <- NewSessionToken;
  try csrf <- NewCSRFToken;
  do now <- call Clock;
  do duration <- call SessionDuration;
  let session := mkSession sessionID (User_ID user) token.2 csrf.2 now (now + duration) now None
    (truncate sourceIP 128) (truncate userAgent 512) in
  try event <- auditEvent "user" (Some (User_ID user)) "auth.login.succeeded" "session" (Some sessionID) requestID
    [("sourceIp", JStr (Session_IPMetadata session))] now;
  done_with (mkSessionResult (Some user) (Some session) token.1 csrf.1 false "" time_zero, session, event).

(* src/internal/auth/service.go:191-200 Service.createSession *)
Definition createSession (user : User) (requestID sourceIP userAgent : string) : auth (res SessionResult) :=
  try built <- buildSession user requestID sourceIP userAgent;
  let '(result, session, event) := built in
  try _ <- call (Users_CreateLoginSession session event);
  done_with result.

(* src/internal/auth/service.go:80-83 Service.SetupRequired *)
Definition SetupRequired : auth (res bool) :=
  do hasUsers <- call Users_HasUsers;
  Ret (match hasUsers with Ok b => Ok (negb b) | Err e => Err e end).

(* src/internal/auth/service.go:85-126 Service.Setup *)
Definition Setup (email displayName password requestID sourceIP userAgent : string) : auth (res SessionResult) :=
  try required <- SetupRequired;
  try _ <- guard required (NewError ErrorConflict "initial setup has already been completed");
  try normalisedEmail <- Ret (NormaliseEmail email);
  let displayName := TrimSpace displayName in
  try _ <- Ret (ValidateDisplayName displayName);
  try _ <- Ret (ValidatePassword password);
  do salt <- call (RandomBytes argonSaltLength);
  try passwordHash <- Ret (HashPassword salt password);
  try userID <- call AuthID;
  do now <- call Clock;
  let user := mkUser userID normalisedEmail displayName passwordHash RoleAdministrator true now now None false in
  try userEvent <- auditEvent "user" (Some userID) "user.created" "user" (Some userID) requestID
    [("role", JStr (User_Role user))] now;
  try built <- buildSession user requestID sourceIP userAgent;
  let '(result, session, loginEvent) := built in
  try _ <- call (Users_CreateInitialUser user session userEvent loginEvent);
  done_with result.

(* src/internal/auth/service.go:228-238 Service.recordFailure *)
Definition recordFailure (requestID sourceIP email outcome : string) : auth (res unit) :=
  do now <- call Clock;
  try event <- auditEvent "anonymous" None "auth.login.failed" "authentication" None requestID
    [("sourceIp", JStr (truncate sourceIP 128)); ("identifierHash", JStr (sha256_hex email));
     ("outcome", JStr outcome)] now;
  call (Users_RecordAuditEvent event).

(* src/internal/auth/mfa.go:25-25 MFAChallengeLifetime *)
Definition MFAChallengeLifetime : Duration := 5 * minute.

(* src/internal/auth/mfa.go:309-330 Service.createMFAChallenge *)
Definition createMFAChallenge (user : User) (sourceIP userAgent : string) : auth (res SessionResult) :=
  try id <- call AuthID;
  try token <- NewMFAChallengeToken;
  do now <- call Clock;
  let expires := now + MFAChallengeLifetime in
  try _ <- need_mfa;
  try _ <- call (MFA_CreateChallenge (mkMFAChallenge id (User_ID user) token.2 now expires None 0
    (truncate sourceIP 128) (truncate userAgent 512)));
  done_with (mkSessionResult None None "" "" true token.1 expires).

(** The identifier of a login: the limits and the audit trail use it also when it is no address. *)
(* src/internal/auth/service.go:129-132 Service.Login *)
Definition login_identifier (email : string) : string :=
  match NormaliseEmail email with Ok e => e | Err _ => ToLower (TrimSpace email) end.

(* src/internal/auth/service.go:154-154 Service.Login *)
Definition invalid_credentials : error :=
  NewError ErrorInvalidCredentials "email or password is incorrect".

(* src/internal/auth/service.go:128-161 Service.Login *)
Definition Login (email password requestID sourceIP userAgent : string) : auth (res SessionResult) :=
  let normalisedEmail := login_identifier email in
  let key := sourceIP +:+ nul +:+ normalisedEmail in
  do allowed <- call (Limit_Allow LoginAttempts key);
  if negb allowed then
    try _ <- recordFailure requestID sourceIP normalisedEmail "rate_limited";
    fail (NewError ErrorRateLimited "too many login attempts; try again later")
  else
    do found <- call (Users_ByEmail normalisedEmail);
    let encoded := match found with Ok user => User_PasswordHash user | Err _ => svc_dummyHash s end in
    match VerifyPassword encoded password with
    | Err e => fail (WrapError ("verify password: " +:+ Error_Error e) e)
    | Ok valid =>
        let refused :=
          do _ <- call (Limit_Failure LoginAttempts key);
          try _ <- recordFailure requestID sourceIP normalisedEmail "invalid_credentials";
          fail invalid_credentials in
        match found with
        | Err _ => refused
        | Ok user =>
            if negb valid || negb (User_Enabled user) then refused
            else
              do _ <- call (Limit_Success LoginAttempts key);
              if User_MFAEnabled user then createMFAChallenge user sourceIP userAgent
              else createSession user requestID sourceIP userAgent
        end
    end.

(** The result of [TouchSession] is ignored. *)
(* src/internal/auth/service.go:163-173 Service.Authenticate *)
Definition Authenticate (token : string) : auth (res (Session * User)) :=
  if token =?? "" then fail (NewError ErrorAuthentication "authentication is required")
  else
    do now <- call Clock;
    try found <- call (Users_AuthenticatedSession (HashSessionToken (svc_secret s) token) now);
    do now <- call Clock;
    do _ <- call (Users_TouchSession (Session_ID found.1) now);
    done_with found.

(* src/internal/auth/service.go:175-180 Service.ValidateCSRF *)
Definition ValidateCSRF (session : Session) (token : string) : bool :=
  negb (token =?? "") && (Session_CSRFHash session =?? HashCSRFToken (svc_secret s) token).

(* src/internal/auth/service.go:182-189 Service.Logout *)
Definition Logout (session : Session) (user : User) (requestID : string) : auth (res unit) :=
  do now <- call Clock;
  try event <- auditEvent "user" (Some (User_ID user)) "auth.logout" "session" (Some (Session_ID session)) requestID
    [] now;
  call (Users_RevokeSession (Session_ID session) now event).
End service.
