(* ===== verification/MFA.v ===== *)
(** * internal/auth/mfa.go: one-time passwords and recovery codes

    Enrolment, the second step of a login, and the changes that need both factors. *)

From S2P Require Import Prelude GoRuntime Json Domain OperationsModel AuthModel Password Effects Auth.

(* src/internal/auth/mfa.go:22-22 MFATOTPIssuer *)
Definition MFATOTPIssuer : string := "Atlas DNS".
(* src/internal/auth/mfa.go:26-26 MFAEnrollmentLifetime *)
Definition MFAEnrollmentLifetime : Duration := 10 * minute.

(* src/internal/auth/mfa.go:35-38 MFAStatus *)
Record MFAStatus := mkMFAStatus { MFAStatus_Enabled : bool; MFAStatus_RecoveryRemaining : Z }.

(* src/internal/auth/mfa.go:40-47 MFAEnrollment *)
Record MFAEnrollment := mkMFAEnrollment {
  MFAEnrollment_Secret : string;
  MFAEnrollment_ProvisioningURI : string;
  MFAEnrollment_QRCodeDataURL : string;
  MFAEnrollment_Issuer : string;
  MFAEnrollment_AccountLabel : string;
  MFAEnrollment_ExpiresAt : Time
}.

(* src/internal/auth/mfa.go:49-52 MFARecoveryResult *)
Record MFARecoveryResult := mkMFARecoveryResult {
  RecoveryResult_Codes : list string;
  RecoveryResult_Remaining : Z
}.

(* src/internal/auth/mfa.go:335-335 Service.verifyCurrentPassword *)
Definition too_many_attempts : error :=
  NewError ErrorRateLimited "too many authentication attempts; try again later".
(* src/internal/auth/mfa.go:376-376 Service.verifyEncryptedTOTP *)
Definition too_many_codes : error :=
  NewError ErrorRateLimited "too many authentication-code attempts; try again later".
(* src/internal/auth/mfa.go:391-391 Service.verifyEncryptedTOTP *)
Definition wrong_code : error := NewError ErrorInvalidCredentials "authentication code is invalid".
(* src/internal/auth/mfa.go:258-258 Service.CompleteMFAChallenge *)
Definition code_expired : error :=
  NewError ErrorInvalidCredentials "authentication code is invalid or expired".

(* src/internal/auth/mfa.go:430-430 mfaSecretScope *)
Definition mfaSecretScope (userID : string) : string := "user-mfa:" +:+ userID.

Section mfa.
Context {R : Runtime} {K : Crypto} (s : AuthService).

(** [fmt.Errorf("...: %w", err)] around the error of a call. *)
Definition wrapping {A} (text : string) (r : res A) : res A :=
  match r with Ok a => Ok a | Err e => Err (WrapError (text +:+ ": " +:+ Error_Error e) e) end.

(** ** Factors *)

(* src/internal/auth/mfa.go:332-351 Service.verifyCurrentPassword *)
Definition verifyCurrentPassword (userID password operation : string) : auth (res User) :=
  let key := userID +:+ nul +:+ operation in
  do allowed <- call (Limit_Allow FactorAttempts key);
  try _ <- guard allowed too_many_attempts;
  try user <- call (MFA_UserByID userID);
  try valid <- Ret (wrapping "verify current password" (VerifyPassword (User_PasswordHash user) password));
  if negb valid then
    do _ <- call (Limit_Failure FactorAttempts key);
    fail (NewError ErrorInvalidCredentials "current password is incorrect")
  else
    do _ <- call (Limit_Success FactorAttempts key);
    done_with user.

(* src/internal/auth/mfa.go:371-395 Service.verifyEncryptedTOTP *)
Definition verifyEncryptedTOTP (userID : string) (encrypted : EncryptedPayload) (code limitKey : string) :
  auth (res unit) :=
  try _ <- need_cipher s;
  do allowed <- call (Limit_Allow FactorAttempts limitKey);
  try _ <- guard allowed too_many_codes;
  do decrypted <- call (Secret_Decrypt (mfaSecretScope userID) encrypted);
  try secret <- Ret (wrapping "decrypt TOTP secret" decrypted);
  do now <- call Clock;
  try valid <- Ret (wrapping "validate TOTP" (totp_ValidateCustom (TrimSpace code) secret now));
  if negb valid then
    do _ <- call (Limit_Failure FactorAttempts limitKey);
    fail wrong_code
  else
    do _ <- call (Limit_Success FactorAttempts limitKey);
    done_with tt.

(* src/internal/auth/mfa.go:353-369 Service.verifyMFAStepUp *)
Definition verifyMFAStepUp (userID password code operation : string) : auth (res (User * UserMFA)) :=
  try user <- verifyCurrentPassword userID password (operation +:+ "-password");
  try _ <- guard (User_MFAEnabled user) (NewError ErrorConflict "MFA is not enabled");
  try config <- call (MFA_UserMFA userID);
  try _ <- verifyEncryptedTOTP userID (UserMFA_Secret config) code (userID +:+ nul +:+ operation +:+ "-code");
  done_with (user, config).

(** Ten bytes in hexadecimal. *)
(* src/internal/auth/mfa.go:406-406 Service.newRecoveryCodes *)
Definition hex_text (raw : string) : string := hex_bytes (byte_of <$> String.list_ascii_of_string raw).

(* src/internal/auth/mfa.go:401-413 Service.newRecoveryCodes *)
Fixpoint recovery_codes_loop (n : nat) (userID : string) (now : Time) :
  auth (res (list string * list MFARecoveryCode)) :=
  match n with
  | O => done_with ([], [])
  | S n =>
      do raw <- call (RandomBytes recoveryCodeRandomBytes);
      try raw <- Ret (wrapping "generate MFA recovery code" raw);
      let normalized := hex_text raw in
      try id <- call AuthID;
      try rest <- recovery_codes_loop n userID now;
      done_with (formatRecoveryCode normalized :: rest.1,
                 mkMFARecoveryCode id userID (HashRecoveryCode normalized) now None :: rest.2)
  end.

(* src/internal/auth/mfa.go:397-415 Service.newRecoveryCodes *)
Definition newRecoveryCodes (userID : string) : auth (res (list string * list MFARecoveryCode)) :=
  do now <- call Clock;
  recovery_codes_loop (Z.to_nat MFARecoveryCodeCount) userID now.

(** ** Status and enrolment *)

(* src/internal/auth/mfa.go:70-83 Service.MFAStatus *)
Definition Service_MFAStatus (userID : string) : auth (res MFAStatus) :=
  try _ <- need_mfa s;
  try enabled <- call (MFA_Enabled userID);
  if negb enabled then done_with (mkMFAStatus false 0)
  else
    try config <- call (MFA_UserMFA userID);
    done_with (mkMFAStatus true (UserMFA_RecoveryRemaining config)).

(* src/internal/auth/mfa.go:85-130 Service.StartMFAEnrollment *)
Definition StartMFAEnrollment (userID currentPassword : string) : auth (res MFAEnrollment) :=
  try _ <- need_mfa s;
  try _ <- need_cipher s;
  try user <- verifyCurrentPassword userID currentPassword "mfa-enrollment-password";
  try _ <- guard (negb (User_MFAEnabled user)) (NewError ErrorConflict "MFA is already enabled");
  do generated <- call (TOTP_Generate (User_Email user));
  try key <- Ret (wrapping "generate TOTP enrollment" generated);
  do sealed <- call (Secret_Encrypt (mfaSecretScope (User_ID user)) (TOTPKey_Secret key));
  try encrypted <- Ret (wrapping "encrypt TOTP secret" sealed);
  do now <- call Clock;
  let expires := now + MFAEnrollmentLifetime in
  try _ <- call (MFA_UpsertPending (mkUserMFA (User_ID user) encrypted now expires None 0));
  try png <- Ret (wrapping "generate local enrollment QR code" (TOTPKey_PNG key));
  done_with (mkMFAEnrollment (TOTPKey_Secret key) (TOTPKey_URL key)
    ("data:image/png;base64," +:+ StdEncode png) MFATOTPIssuer (User_Email user) expires).

(* src/internal/auth/mfa.go:138-138 Service.VerifyMFAEnrollment *)
Definition enrollment_missing : error := NewError ErrorConflict "MFA enrollment is missing or expired".

(* src/internal/auth/mfa.go:132-166 Service.VerifyMFAEnrollment *)
Definition VerifyMFAEnrollment (userID currentSessionID code requestID : string) : auth (res MFARecoveryResult) :=
  try _ <- need_mfa s;
  do found <- call (MFA_UserMFA userID);
  match found with
  | Err _ => fail enrollment_missing
  | Ok config =>
      try _ <- guard (bool_decide (UserMFA_EnabledAt config = None)) (NewError ErrorConflict "MFA is already enabled");
      do now <- call Clock;
      try _ <- guard (now <? UserMFA_EnrollmentExpires config) enrollment_missing;
      let enrollmentLimitKey := userID +:+ nul +:+ "mfa-enrollment-code" in
      try _ <- verifyEncryptedTOTP userID (UserMFA_Secret config) code enrollmentLimitKey;
      try codes <- newRecoveryCodes userID;
      do now <- call Clock;
      try event <- auditEvent "user" (Some userID) "user.mfa.enabled" "user" (Some userID) requestID
        [("recoveryCodesRemaining", JNum MFARecoveryCodeCount); ("otherSessionsRevoked", JBool true)] now;
      try _ <- call (MFA_Enable userID currentSessionID codes.2 now event);
      do _ <- call (Limit_Success FactorAttempts enrollmentLimitKey);
      done_with (mkMFARecoveryResult codes.1 (Z.of_nat (length codes.1)))
  end.

(* src/internal/auth/mfa.go:168-190 Service.RegenerateRecoveryCodes *)
Definition RegenerateRecoveryCodes (userID currentSessionID currentPassword code requestID : string) :
  auth (res MFARecoveryResult) :=
  try _ <- need_mfa s;
  try _ <- verifyMFAStepUp userID currentPassword code "mfa-regenerate";
  try codes <- newRecoveryCodes userID;
  do now <- call Clock;
  try event <- auditEvent "user" (Some userID) "user.mfa.recovery_codes_regenerated" "user" (Some userID) requestID
    [("recoveryCodesRemaining", JNum MFARecoveryCodeCount); ("otherSessionsRevoked", JBool true)] now;
  try _ <- call (MFA_ReplaceCodes userID currentSessionID codes.2 now event);
  done_with (mkMFARecoveryResult codes.1 (Z.of_nat (length codes.1))).

(* src/internal/auth/mfa.go:192-207 Service.DisableMFA *)
Definition Service_DisableMFA (userID currentSessionID currentPassword code requestID : string) : auth (res unit) :=
  try _ <- need_mfa s;
  try _ <- verifyMFAStepUp userID currentPassword code "mfa-disable";
  do now <- call Clock;
  try event <- auditEvent "user" (Some userID) "user.mfa.disabled" "user" (Some userID) requestID
    [("recoveryCodesInvalidated", JBool true); ("challengesInvalidated", JBool true);
     ("otherSessionsRevoked", JBool true)] now;
  call (MFA_Disable userID currentSessionID now event).

(* src/internal/auth/mfa.go:209-218 Service.VerifyTOTPForUser *)
Definition VerifyTOTPForUser (userID code operation : string) : auth (res unit) :=
  try _ <- need_mfa s;
  do found <- call (MFA_UserMFA userID);
  let invalid := NewError ErrorInvalidCredentials "current password or authentication code is invalid" in
  match found with
  | Err _ => fail invalid
  | Ok config =>
      try _ <- guard (bool_decide (is_Some (UserMFA_EnabledAt config))) invalid;
      verifyEncryptedTOTP userID (UserMFA_Secret config) code (userID +:+ nul +:+ operation)
  end.

(* src/internal/auth/mfa.go:220-225 Service.RequiresMFA *)
Definition RequiresMFA (userID : string) : auth (res bool) :=
  if svc_mfa s then call (MFA_Enabled userID) else done_with false.

(** ** The second step of a login *)

(** What a wrong code leaves: the attempt on the challenge and the audit event; their
    errors are ignored. *)
(* src/internal/auth/mfa.go:255-265 Service.CompleteMFAChallenge *)
Definition refuse_code (tokenHash : string) (limited : bool) (limitKey requestID sourceIP email : string) :
  auth (res SessionResult) :=
  do now <- call Clock;
  do _ <- call (MFA_FailChallenge tokenHash now);
  do _ <- (if limited then call (Limit_Failure FactorAttempts limitKey) else Ret tt);
  do _ <- recordFailure requestID sourceIP email "invalid_second_factor";
  fail code_expired.

(** The factor of a login: the hash of a recovery code with its audit event, or nothing when the one-time password is
    right; [None] when the factor is wrong. *)
Inductive factor := RightFactor (recoveryHash : string) (event : option AuditEvent) | WrongFactor (limited : bool).

(* src/internal/auth/mfa.go:227-282 Service.CompleteMFAChallenge *)
Definition check_factor (user : User) (config : UserMFA) (code : string) (recovery : bool) (limitKey requestID : string) :
  auth (res factor) :=
  if recovery then
    let '(normalized, valid) := normalizeRecoveryCode code in
    if valid then
      do now <- call Clock;
      try event <- auditEvent "user" (Some (User_ID user)) "user.mfa.recovery_code_used" "user" (Some (User_ID user))
        requestID [("recoveryCodesRemaining", JNum (Z.max (UserMFA_RecoveryRemaining config - 1) 0))] now;
      let hash := HashRecoveryCode normalized in
      if hash =?? "" then done_with (WrongFactor true) else done_with (RightFactor hash (Some event))
    else done_with (WrongFactor true)
  else
    do verified <- verifyEncryptedTOTP (User_ID user) (UserMFA_Secret config) code limitKey;
    match verified with Ok _ => done_with (RightFactor "" None) | Err _ => done_with (WrongFactor false) end.

(** The errors of the repository that stand for a wrong code. *)
(* src/internal/auth/mfa.go:273-274 Service.CompleteMFAChallenge *)
Definition wrong_credentials (e : error) : bool :=
  match errors_As e with
  | Some (kind, _) => (kind =?? ErrorInvalidCredentials) || (kind =?? ErrorAuthentication)
  | None => false
  end.

(* src/internal/auth/mfa.go:227-282 Service.CompleteMFAChallenge *)
Definition Service_CompleteMFAChallenge (challengeToken code : string) (recovery : bool)
  (requestID sourceIP userAgent : string) : auth (res SessionResult) :=
  try _ <- need_mfa s;
  let tokenHash := HashMFAChallengeToken (svc_secret s) (TrimSpace challengeToken) in
  do now <- call Clock;
  try found <- call (MFA_ChallengeByTokenHash tokenHash now);
  let '(challenge, user, config) := found in
  let limitKey := sourceIP +:+ nul +:+ MFAChallenge_ID challenge in
  do allowed <- call (Limit_Allow FactorAttempts limitKey);
  try _ <- guard allowed too_many_codes;
  try checked <- check_factor user config code recovery limitKey requestID;
  match checked with
  | WrongFactor limited => refuse_code tokenHash limited limitKey requestID sourceIP (User_Email user)
  | RightFactor recoveryHash recoveryEvent =>
      try built <- buildSession s user requestID sourceIP userAgent;
      let '(result, session, loginEvent) := built in
      do now <- call Clock;
      do completed <- call (MFA_CompleteChallenge tokenHash recoveryHash now recoveryEvent session loginEvent);
      match completed with
      | Ok _ =>
          do _ <- call (Limit_Success FactorAttempts limitKey);
          done_with result
      | Err e =>
          do now <- call Clock;
          do _ <- call (MFA_FailChallenge tokenHash now);
          do _ <- call (Limit_Failure FactorAttempts limitKey);
          if negb (wrong_credentials e) then fail e
          else
            do _ <- recordFailure requestID sourceIP (User_Email user) "invalid_second_factor";
            fail code_expired
      end
  end.

(* src/internal/auth/mfa.go:284-289 Service.CancelMFAChallenge *)
Definition CancelMFAChallenge (challengeToken : string) : auth (res unit) :=
  try _ <- need_mfa s;
  do now <- call Clock;
  call (MFA_ConsumeChallenge (HashMFAChallengeToken (svc_secret s) (TrimSpace challengeToken)) "" now None).

(* src/internal/auth/mfa.go:291-307 Service.ResetMFAFromHost *)
Definition Service_ResetMFAFromHost (email : string) : auth (res (User * Z)) :=
  try _ <- need_mfa s;
  try normalized <- Ret (NormaliseEmail email);
  do now <- call Clock;
  try event <- auditEvent "system" None "user.mfa.reset_from_host" "user" None "admin-cli"
    [("sessionsRevoked", JBool true); ("recoveryCodesInvalidated", JBool true);
     ("challengesInvalidated", JBool true)] now;
  call (MFA_ResetFromHost normalized now event).
End mfa.
