(* ===== verification/AuthInvariant.v ===== *)
(** * The invariant of the tables of users, sessions and second factors

    The calls of the authentication store, how each statement changes the tables, and the
    invariant that every history of calls keeps. *)

From S2P Require Import Prelude GoRuntime Json Domain AuditMetadata ControlModel Store StoreRecords.
From S2P Require Import StoreInvariant OperationsModel AuthModel AuthStore MFAStore.

(** ** Calls *)

Inductive auth_op : Type :=
| OpCreateInitialUser (u : User) (s : Session) (e1 e2 : AuditEvent)
| OpCreateLoginSession (s : Session) (e : AuditEvent)
| OpTouchSession (id : string) (at_ : Time)
| OpRevokeSession (id : string) (at_ : Time) (e : AuditEvent)
| OpRecordAuditEvent (e : AuditEvent)
| OpDeleteExpiredSessions (now : Time)
| OpCreateUser (u : User) (e : AuditEvent)
| OpUpdateUser (id email displayName : string) (enabled : bool) (now : Time) (e : AuditEvent)
| OpResetUserPassword (id hash : string) (now : Time) (e : AuditEvent)
| OpChangeOwnPassword (id current hash : string) (now : Time) (e : AuditEvent)
| OpUpsertPendingMFA (m : UserMFA)
| OpEnableMFA (id current : string) (codes : list MFARecoveryCode) (now : Time) (e : AuditEvent)
| OpReplaceRecoveryCodes (id current : string) (codes : list MFARecoveryCode) (now : Time) (e : AuditEvent)
| OpDisableMFA (id current : string) (now : Time) (e : AuditEvent)
| OpResetMFAFromHost (email : string) (now : Time) (e : AuditEvent)
| OpCreateMFAChallenge (c : MFAChallenge)
| OpFailMFAChallenge (hash : string) (now : Time)
| OpConsumeMFAChallenge (hash recovery : string) (now : Time) (e : option AuditEvent)
| OpCompleteMFAChallenge (hash recovery : string) (now : Time) (e : option AuditEvent) (s : Session) (login : AuditEvent)
| OpDeleteExpiredMFAChallenges (now : Time).

Section history.
Context {R : Runtime} {C : Collation}.

Definition op_tx (op : auth_op) : AuthTx unit :=
  match op with
  | OpCreateInitialUser u s e1 e2 => CreateInitialUser u s e1 e2
  | OpCreateLoginSession s e => CreateLoginSession s e
  | OpTouchSession id t => TouchSession id t
  | OpRevokeSession id t e => RevokeSession id t e
  | OpRecordAuditEvent e => RecordAuditEvent e
  | OpDeleteExpiredSessions t => ignoring (DeleteExpiredSessions t)
  | OpCreateUser u e => CreateUser u e
  | OpUpdateUser id email name enabled t e => ignoring (UpdateUser id email name enabled t e)
  | OpResetUserPassword id hash t e => ResetUserPassword id hash t e
  | OpChangeOwnPassword id current hash t e => ChangeOwnPassword id current hash t e
  | OpUpsertPendingMFA m => UpsertPendingMFA m
  | OpEnableMFA id current codes t e => EnableMFA id current codes t e
  | OpReplaceRecoveryCodes id current codes t e => ReplaceRecoveryCodes id current codes t e
  | OpDisableMFA id current t e => DisableMFA id current t e
  | OpResetMFAFromHost email t e => ignoring (ResetMFAFromHost email t e)
  | OpCreateMFAChallenge c => CreateMFAChallenge c
  | OpFailMFAChallenge h t => FailMFAChallenge h t
  | OpConsumeMFAChallenge h r t e => ConsumeMFAChallenge h r t e
  | OpCompleteMFAChallenge h r t e s l => CompleteMFAChallenge h r t e s l
  | OpDeleteExpiredMFAChallenges t => ignoring (DeleteExpiredMFAChallenges t)
  end.

Definition apply_auth (op : auth_op) (db : AuthDB) : AuthDB := (commit (op_tx op) db).2.
Definition run_auth (ops : list auth_op) (db : AuthDB) : AuthDB := foldl (flip apply_auth) db ops.

Lemma keeps_db_run (P : AuthDB → Prop) ops : (∀ op, op ∈ ops → keeps_db P (op_tx op)) → ∀ db, P db → P (run_auth ops db).
Proof.
  unfold run_auth. induction ops as [|op ops IH]; intros H db HP; cbn; [done|].
  apply IH; [intros o Ho; apply H; by right|]. unfold apply_auth, commit.
  destruct (op_tx op db) as [[a db']|] eqn:E; [|done]. eapply (H op); [by left|exact E|done].
Qed.
End history.

(** ** The statements, one by one *)

Section statements.
Context {R : Runtime} {C : Collation}.

Lemma audited_Ok e db u db' : audited e db = Ok (u, db') → ∃ b, db' = set_auth_base b db.
Proof. unfold audited. destruct (audit e _) as [[? b]|]; [|done]. intros [= _ <-]. by exists b. Qed.

Lemma update_sessions_Ok p f db u db' : update_sessions p f db = Ok (u, db') →
  db' = set_sessions (update_where p f (sessions db)) db.
Proof. intros H. unfold update_sessions in H. by tx_step H. Qed.

Lemma update_users_Ok p f db u db' : update_users p f db = Ok (u, db') →
  db' = set_users (update_where p f (users db)) db.
Proof. intros H. unfold update_users in H. by tx_step H. Qed.

Lemma checked_update_Ok {A} (ok p : A → bool) f m m' : checked_update ok p f m = Ok m' →
  m' = update_where p f m ∧ ∀ k x, m !! k = Some x → p x = true → ok (f x) = true.
Proof.
  unfold checked_update. destruct (forallb _ _) eqn:E; [|done]. intros [= <-]. split; [done|].
  intros k x Hk Hp. rewrite forallb_forall in E. specialize (E x). rewrite Hp in E. apply E.
  apply list_elem_of_In, elem_of_rows. eauto.
Qed.

Lemma update_challenges_Ok ok p f db u db' : update_challenges ok p f db = Ok (u, db') →
  db' = set_challenges (update_where p f (challenges db)) db ∧
  ∀ k c, challenges db !! k = Some c → p c = true → ok (f c) = true.
Proof.
  intros H. unfold update_challenges in H. tx_step H.
  match goal with H : tx_lift _ _ = Ok _ |- _ => apply tx_lift_Ok in H as [[-> Hok]%checked_update_Ok ->] end.
  done.
Qed.

Lemma insert_session_Ok s e db u db' : insert_session s e db = Ok (u, db') →
  db' = set_sessions (<[Session_ID s := inserted_session s]> (sessions db)) db ∧
  sessions db !! Session_ID s = None ∧ is_Some (users db !! Session_UserID s) ∧
  (∀ k r, sessions db !! k = Some r → Session_TokenHash r ≠ Session_TokenHash s).
Proof.
  intros H. unfold insert_session in H. tx_step H. bool_simp. split_and!; try done.
  intros k r Hr Heq. match goal with H : exists_row _ _ = false |- _ => rewrite exists_row_false in H; specialize (H _ _ Hr) end.
  by bool_simp.
Qed.

Lemma insert_user_Ok v e1 e2 db u db' : insert_user v e1 e2 db = Ok (u, db') →
  db' = set_users (<[User_ID v := inserted_user v]> (users db)) db ∧ users db !! User_ID v = None ∧
  (∀ k r, users db !! k = Some r → User_ID r = k → sql_lower (User_Email r) ≠ sql_lower (User_Email v)).
Proof.
  intros H. unfold insert_user in H. tx_step H. bool_simp. split_and!; try done.
  intros k r Hr Hk Heq. unfold email_taken in *.
  match goal with E : exists_row _ _ = false |- _ =>
    rewrite exists_row_false in E; specialize (E _ _ Hr); apply andb_false_iff in E as [E|E] end; bool_simp;
    [congruence|done].
Qed.
End statements.

(** [stmt_inv H] turns a statement that succeeded into its effect on the tables. *)
Ltac stmt_inv H :=
  lazymatch type of H with
  | audited _ _ = Ok _ => apply audited_Ok in H as [? ->]
  | update_sessions _ _ _ = Ok _ => apply update_sessions_Ok in H as ->
  | update_users _ _ _ = Ok _ => apply update_users_Ok in H as ->
  | update_challenges _ _ _ _ = Ok _ => apply update_challenges_Ok in H as [-> ?]
  | insert_session _ _ _ = Ok _ => apply insert_session_Ok in H as (-> & ? & ? & ?)
  | insert_user _ _ _ _ = Ok _ => apply insert_user_Ok in H as (-> & ? & ?)
  | tx_modify _ _ = Ok _ => apply tx_modify_Ok in H as ->
  end.

Ltac auth_tables :=
  cbn [auth_base users sessions user_mfa recovery_codes challenges set_auth_base set_users set_sessions set_user_mfa
    set_recovery_codes set_challenges] in *.

(** ** Tables a transaction leaves alone *)

Section untouched.
Context {R : Runtime} {T : Type} (table : AuthDB → T).

Lemma untouched_audited e : (∀ v db, table (set_auth_base v db) = table db) → untouched table (audited e).
Proof. intros Ht db u db' H. by stmt_inv H. Qed.

Lemma untouched_sessions p f : (∀ v db, table (set_sessions v db) = table db) → untouched table (update_sessions p f).
Proof. intros Ht db u db' H. by stmt_inv H. Qed.

Lemma untouched_new_session s e : (∀ v db, table (set_sessions v db) = table db) → untouched table (insert_session s e).
Proof. intros Ht db u db' H. by stmt_inv H. Qed.

Lemma untouched_users p f : (∀ v db, table (set_users v db) = table db) → untouched table (update_users p f).
Proof. intros Ht db u db' H. by stmt_inv H. Qed.

Lemma untouched_challenges ok p f : (∀ v db, table (set_challenges v db) = table db) →
  untouched table (update_challenges ok p f).
Proof. intros Ht db u db' H. by stmt_inv H. Qed.

Lemma untouched_challenge p t : (∀ v db, table (set_challenges v db) = table db) → untouched table (consume_challenge p t).
Proof.
  intros Ht db u db' H. unfold consume_challenge in H. tx_step H.
  by match goal with H : update_challenges _ _ _ _ = Ok _ |- _ => stmt_inv H end.
Qed.

Lemma untouched_codes codes : (∀ v db, table (set_recovery_codes v db) = table db) →
  untouched table (insertRecoveryCodes codes).
Proof.
  intros Ht. induction codes as [|c codes IH]; cbn [insertRecoveryCodes]; intros db u db' H; tx_step H; [done|].
  match goal with H : insertRecoveryCodes _ _ = _ |- _ => by rewrite (IH _ _ _ H) end.
Qed.

Lemma untouched_use_code id hash t : (∀ v db, table (set_recovery_codes v db) = table db) →
  untouched table (use_code id hash t).
Proof.
  intros Ht db u db' H. unfold use_code in H. tx_step H; [done|].
  by match goal with H : tx_lift _ _ = Ok _ |- _ => apply tx_lift_Ok in H as [_ ->] end.
Qed.

Lemma untouched_delete_codes id : (∀ v db, table (set_recovery_codes v db) = table db) → untouched table (delete_codes id).
Proof. intros Ht db u db' H. unfold delete_codes in H. by tx_step H. Qed.

Lemma untouched_delete_mfa id : (∀ v db, table (set_recovery_codes v db) = table db) →
  (∀ v db, table (set_user_mfa v db) = table db) → untouched table (delete_mfa id).
Proof. intros Ht Hm db u db' H. unfold delete_mfa, delete_codes in H. tx_step H. by rewrite Hm, Ht. Qed.

End untouched.

(** [untouched_leaf] proves that one statement leaves a table alone. *)
Ltac untouched_leaf := first
  [ apply untouched_audited; done | apply untouched_sessions; done | apply untouched_new_session; done
  | apply untouched_users; done | apply untouched_challenges; done | apply untouched_challenge; done
  | apply untouched_codes; done | apply untouched_use_code; done | apply untouched_delete_codes; done
  | apply untouched_delete_mfa; done | let H := fresh in intros ? ? ? H; stmt_inv H; done ].

(** ** The invariant *)

(** The primary keys, the unique columns, the attempts of a challenge, and at most one open challenge of a user. *)
Record AuthWellFormed `{Collation} (db : AuthDB) : Prop := {
  aw_users : keyed User_ID (users db);
  aw_emails : unique_on (λ _, True) (λ u, sql_lower (User_Email u)) (users db);
  aw_sessions : keyed Session_ID (sessions db);
  aw_tokens : unique_on (λ _, True) Session_TokenHash (sessions db);
  aw_session_users k s : sessions db !! k = Some s → is_Some (users db !! Session_UserID s);
  aw_mfa : keyed UserMFA_UserID (user_mfa db);
  aw_challenges : keyed MFAChallenge_ID (challenges db);
  aw_challenge_tokens : unique_on (λ _, True) MFAChallenge_TokenHash (challenges db);
  aw_attempts k c : challenges db !! k = Some c →
    0 <= MFAChallenge_FailedAttempts c ∧ (unconsumed c = true → MFAChallenge_FailedAttempts c < 5);
  aw_open : unique_on (λ c, unconsumed c = true) MFAChallenge_UserID (challenges db);
  aw_codes : keyed MFARecoveryCode_ID (recovery_codes db);
  aw_code_hashes : unique_on (λ _, True) (λ c, (MFARecoveryCode_UserID c, MFARecoveryCode_CodeHash c))
    (recovery_codes db)
}.

Create HintDb auth_tables.
#[export] Hint Resolve keyed_insert keyed_update keyed_delete keyed_delete_where unique_delete
  unique_delete_where : auth_tables.

Section invariant.
Context {R : Runtime} {C : Collation}.

Lemma AuthWellFormed_empty : AuthWellFormed empty_AuthDB.
Proof. split; cbn; try apply keyed_empty; try apply unique_empty; intros *; by rewrite lookup_empty. Qed.

Lemma unique_all_update {A B} (f : A → B) q g (m : gmap string A) : (∀ x, f (g x) = f x) →
  unique_on (λ _, True) f m → unique_on (λ _, True) f (update_where q g m).
Proof. intros Hf. by apply unique_update. Qed.

Lemma unique_all_insert {A B} (f : A → B) k x (m : gmap string A) :
  (∀ j y, m !! j = Some y → j ≠ k → f y ≠ f x) → unique_on (λ _, True) f m → unique_on (λ _, True) f (<[k:=x]> m).
Proof.
  intros Hnew. apply unique_insert. intros _ j y Hj _ E. destruct (decide (j = k)) as [|Hne]; [done|].
  by destruct (Hnew j y Hj Hne).
Qed.

Ltac wf_tables Hwf := destruct Hwf; split; auth_tables; eauto with auth_tables.

(** *** Users *)

Lemma wf_users db m : AuthWellFormed db → keyed User_ID m → unique_on (λ _, True) (λ u, sql_lower (User_Email u)) m →
  (∀ k, is_Some (users db !! k) → is_Some (m !! k)) → AuthWellFormed (set_users m db).
Proof. intros Hwf Hk Hu Hm. wf_tables Hwf. Qed.

Lemma wf_update_user p t b : keeps_db AuthWellFormed (update_users p (logged_in t b)).
Proof.
  intros db u db' H Hwf. stmt_inv H. apply wf_users; [done| | |].
  - apply keyed_update; [done|]. apply Hwf.
  - apply unique_all_update; [done|]. apply Hwf.
  - intros k. rewrite lookup_update_where. by intros [x ->]; eexists.
Qed.

Lemma wf_insert_user v e1 e2 : keeps_db AuthWellFormed (insert_user v e1 e2).
Proof.
  intros db u db' H Hwf. apply insert_user_Ok in H as (-> & Hfresh & Hmail). apply wf_users; [done| | |].
  - apply keyed_insert; [done|]. apply Hwf.
  - apply unique_all_insert; [|apply Hwf]. intros j y Hj _. apply (Hmail j y Hj). by apply (aw_users _ Hwf).
  - intros k Hk. apply lookup_insert_is_Some'. by right.
Qed.

(** A user that is written back under its key, with an address that is free. *)
Lemma wf_write_user db id u v : AuthWellFormed db → users db !! id = Some u → User_ID v = User_ID u →
  (∀ j y, users db !! j = Some y → j ≠ id → sql_lower (User_Email y) ≠ sql_lower (User_Email v)) →
  AuthWellFormed (set_users (<[id := v]> (users db)) db).
Proof.
  intros Hwf Hu Hid Hmail. apply wf_users; [done| | |].
  - apply keyed_insert; [|apply Hwf]. rewrite Hid. by apply (aw_users _ Hwf).
  - apply unique_all_insert; [done|]. apply Hwf.
  - intros k Hk. apply lookup_insert_is_Some'. by right.
Qed.

Lemma wf_same_email db id u v : AuthWellFormed db → users db !! id = Some u → User_ID v = User_ID u →
  User_Email v = User_Email u → AuthWellFormed (set_users (<[id := v]> (users db)) db).
Proof.
  intros Hwf Hu Hid Hmail. eapply wf_write_user; [done..|]. intros j y Hj Hne Heq. apply Hne.
  rewrite Hmail in Heq. by apply (aw_emails _ Hwf j id y u Hj Hu).
Qed.

(** *** Sessions *)

Lemma wf_sessions db m : AuthWellFormed db → keyed Session_ID m → unique_on (λ _, True) Session_TokenHash m →
  (∀ k s, m !! k = Some s → is_Some (users db !! Session_UserID s)) → AuthWellFormed (set_sessions m db).
Proof. intros Hwf Hk Hu Hm. wf_tables Hwf. Qed.

(** An update that keeps what identifies a session. *)
Definition same_session (f : Session → Session) : Prop := ∀ s, Session_ID (f s) = Session_ID s ∧
  Session_TokenHash (f s) = Session_TokenHash s ∧ Session_UserID (f s) = Session_UserID s.

Lemma wf_update_sessions p f : same_session f → keeps_db AuthWellFormed (update_sessions p f).
Proof.
  intros Hf db u db' H Hwf. stmt_inv H. apply wf_sessions; [done| | |].
  - apply keyed_update; [apply Hf|]. apply Hwf.
  - apply unique_all_update; [apply Hf|]. apply Hwf.
  - intros k s. rewrite lookup_update_where, fmap_Some. intros (r & Hr & ->).
    destruct (p r); [rewrite (proj2 (proj2 (Hf r)))|]; by eapply (aw_session_users _ Hwf).
Qed.

Lemma wf_insert_session s e : keeps_db AuthWellFormed (insert_session s e).
Proof.
  intros db u db' H Hwf. apply insert_session_Ok in H as (-> & Hfresh & Huser & Htoken). apply wf_sessions; [done| | |].
  - apply keyed_insert; [done|]. apply Hwf.
  - apply unique_all_insert; [|apply Hwf]. intros j y Hj _. by apply (Htoken j).
  - intros k r [[<- <-]|[_ Hr]]%lookup_insert_Some; [done|]. by eapply (aw_session_users _ Hwf).
Qed.

Lemma wf_delete_sessions db p : AuthWellFormed db → AuthWellFormed (set_sessions (delete_where p (sessions db)) db).
Proof.
  intros Hwf. apply wf_sessions; [done| | |].
  - apply keyed_delete_where, Hwf.
  - apply unique_delete_where, Hwf.
  - intros k r [Hr _]%lookup_delete_where. by eapply (aw_session_users _ Hwf).
Qed.

(** *** Challenges *)

Definition attempts_ok (m : gmap string MFAChallenge) : Prop := ∀ k c, m !! k = Some c →
  0 <= MFAChallenge_FailedAttempts c ∧ (unconsumed c = true → MFAChallenge_FailedAttempts c < 5).

Lemma wf_challenges db m : AuthWellFormed db → keyed MFAChallenge_ID m →
  unique_on (λ _, True) MFAChallenge_TokenHash m → attempts_ok m →
  unique_on (λ c, unconsumed c = true) MFAChallenge_UserID m → AuthWellFormed (set_challenges m db).
Proof. intros Hwf Hk Hu Ha Ho. wf_tables Hwf. Qed.

(** Answering a challenge: it keeps its identity, and what is consumed is not opened again. *)
Record answers (f : MFAChallenge → MFAChallenge) : Prop := {
  ans_id c : MFAChallenge_ID (f c) = MFAChallenge_ID c;
  ans_token c : MFAChallenge_TokenHash (f c) = MFAChallenge_TokenHash c;
  ans_user c : MFAChallenge_UserID (f c) = MFAChallenge_UserID c;
  ans_consumed c : unconsumed (f c) = true → unconsumed c = true;
  ans_attempts c : 0 <= MFAChallenge_FailedAttempts c → 0 <= MFAChallenge_FailedAttempts (f c) ∧
    (unconsumed (f c) = true → MFAChallenge_FailedAttempts (f c) < 5)
}.

Lemma answers_consumed t : answers (consumed t).
Proof. split; try done. Qed.

Lemma answers_failed t : answers (failed t).
Proof.
  split; try done; intros c.
  - unfold unconsumed, failed. cbn. by destruct (5 <=? _).
  - unfold unconsumed, failed. cbn. intros Hc. split; [lia|]. destruct (5 <=? _) eqn:E; [done|]. bool_simp. lia.
Qed.

Lemma wf_update_challenges ok p f : answers f → keeps_db AuthWellFormed (update_challenges ok p f).
Proof.
  intros Hf db u db' H Hwf. apply update_challenges_Ok in H as [-> _]. apply wf_challenges; [done| | | |].
  - apply keyed_update; [apply Hf|]. apply Hwf.
  - apply unique_all_update; [apply Hf|]. apply Hwf.
  - intros k c'. rewrite lookup_update_where, fmap_Some. intros (c & Hc & ->). destruct (aw_attempts _ Hwf k c Hc).
    destruct (p c); [by apply (ans_attempts _ Hf)|done].
  - apply unique_update; [|apply Hf|apply Hwf]. intros k c _. apply (ans_consumed _ Hf).
Qed.

(** *** Recovery codes and configurations *)

Lemma wf_codes db m : AuthWellFormed db → keyed MFARecoveryCode_ID m →
  unique_on (λ _, True) (λ c, (MFARecoveryCode_UserID c, MFARecoveryCode_CodeHash c)) m →
  AuthWellFormed (set_recovery_codes m db).
Proof. intros Hwf Hk Hu. wf_tables Hwf. Qed.

Lemma wf_mfa db m : AuthWellFormed db → keyed UserMFA_UserID m → AuthWellFormed (set_user_mfa m db).
Proof. intros Hwf Hk. wf_tables Hwf. Qed.

Lemma wf_delete_codes id : keeps_db AuthWellFormed (delete_codes id).
Proof.
  intros db u db' H Hwf. unfold delete_codes in H. tx_step H.
  apply wf_codes; [done|apply keyed_delete_where, Hwf|apply unique_delete_where, Hwf].
Qed.

Lemma wf_delete_mfa id : keeps_db AuthWellFormed (delete_mfa id).
Proof.
  apply keeps_db_bind; [apply wf_delete_codes|]. intros _ db u db' H Hwf. tx_step H.
  apply wf_mfa; [done|]. apply keyed_delete, Hwf.
Qed.

Lemma wf_insert_codes codes : keeps_db AuthWellFormed (insertRecoveryCodes codes).
Proof.
  induction codes as [|c codes IH]; cbn [insertRecoveryCodes]; [apply keeps_db_ret|].
  intros db u db' H Hwf. tx_step H. bool_simp.
  eapply IH; [eassumption|]. apply wf_codes; [done|apply keyed_insert; [done|apply Hwf]|].
  apply unique_all_insert; [|apply Hwf]. intros j y Hj _ [= Huser Hhash].
  match goal with E : exists_row _ _ = false |- _ => rewrite exists_row_false in E; specialize (E _ _ Hj) end.
  by rewrite Huser, Hhash, !bool_decide_eq_true_2 in *.
Qed.

Lemma wf_use_code id hash t : keeps_db AuthWellFormed (use_code id hash t).
Proof.
  unfold use_code. destruct (hash =?? ""); [apply keeps_db_ret|]. intros db u db' H Hwf. tx_step H.
  match goal with H : tx_lift _ _ = Ok _ |- _ => apply tx_lift_Ok in H as [[-> _]%checked_update_Ok ->] end.
  apply wf_codes; [done|apply keyed_update; [done|apply Hwf]|apply unique_all_update; [done|apply Hwf]].
Qed.

(** *** The methods *)

Lemma wf_audited e : keeps_db AuthWellFormed (audited e).
Proof. intros db u db' H Hwf. stmt_inv H. wf_tables Hwf. Qed.

Lemma wf_seen p t : keeps_db AuthWellFormed (update_sessions p (seen t)).
Proof. by apply wf_update_sessions. Qed.
Lemma wf_revoke_sessions id current t : keeps_db AuthWellFormed (revoke_sessions id current t).
Proof. by apply wf_update_sessions. Qed.
Lemma wf_revoke p t : keeps_db AuthWellFormed (update_sessions p (revoked t)).
Proof. by apply wf_update_sessions. Qed.
Lemma wf_consume_challenges id t : keeps_db AuthWellFormed (consume_challenges id t).
Proof. apply wf_update_challenges, answers_consumed. Qed.

Lemma wf_consume_challenge p t : keeps_db AuthWellFormed (consume_challenge p t).
Proof.
  apply keeps_db_get. intros db0. destruct (find_row _ _); [|apply keeps_db_fail].
  apply keeps_db_bind; [apply wf_update_challenges, answers_consumed|]. intros _. apply keeps_db_ret.
Qed.

(** A new challenge, after the open ones of its user were consumed. *)
Lemma wf_create_challenge c : keeps_db AuthWellFormed (CreateMFAChallenge c).
Proof.
  intros db u db' H Hwf. unfold CreateMFAChallenge in H. tx_step H. bool_simp.
  match goal with H : consume_challenges _ _ _ = _ |- _ =>
    pose proof (wf_consume_challenges _ _ _ _ _ H Hwf) as Hwf1; apply update_challenges_Ok in H as [-> _] end.
  match goal with H : exists_row _ _ = false |- _ => rewrite exists_row_false in H; rename H into Htoken end.
  apply wf_challenges; [done| | | |].
  - apply keyed_insert; [done|]. apply Hwf1.
  - apply unique_all_insert; [|apply Hwf1]. intros j y Hj _ Heq. specialize (Htoken _ _ Hj). by bool_simp.
  - intros k y [[<- <-]|[_ Hy]]%lookup_insert_Some; [cbn; lia|]. by apply (aw_attempts _ Hwf1 k).
  - apply unique_insert; [|apply Hwf1]. intros _ j y Hj Hopen Huser. exfalso. auth_tables.
    rewrite lookup_update_where, fmap_Some in Hj. destruct Hj as (z & _ & ->).
    destruct ((MFAChallenge_UserID z =?? MFAChallenge_UserID c) && unconsumed z) eqn:E; [done|].
    cbn in Huser. rewrite Hopen, Huser, bool_decide_eq_true_2 in E by done. done.
Qed.

Ltac wf_leaf _ := first
  [ apply wf_audited | apply wf_seen | apply wf_revoke_sessions | apply wf_revoke | apply wf_consume_challenges
  | apply wf_consume_challenge | apply wf_use_code | apply wf_delete_codes | apply wf_delete_mfa | apply wf_insert_codes
  | apply wf_update_user | apply wf_insert_user | apply wf_insert_session | apply wf_create_challenge
  | apply wf_update_challenges, answers_failed ].

(** [rest_keeps H]: the rest of the transaction keeps the invariant. *)
Ltac rest_keeps H := lazymatch type of H with
  ?t _ = Ok _ =>
    let Hr := fresh in assert (Hr : keeps_db AuthWellFormed t) by (keeps_walk wf_leaf); apply (Hr _ _ _ H); clear Hr
  end.

Lemma wf_UpdateUser id email name b t e : keeps_db AuthWellFormed (UpdateUser id email name b t e).
Proof.
  intros db u db' H Hwf. unfold UpdateUser in H.
  apply tx_bind_Ok in H as (? & ? & [-> ->]%tx_get_Ok & H). destruct (users db !! id) as [v|] eqn:Hv; [|done].
  apply tx_bind_Ok in H as (? & ? & [_ ->]%tx_check_Ok & H).
  apply tx_bind_Ok in H as (? & ? & [_ ->]%tx_check_Ok & H).
  apply tx_bind_Ok in H as (? & ? & [Hmail ->]%tx_check_Ok & H).
  apply tx_bind_Ok in H as (? & ? & ->%tx_modify_Ok & H). rest_keeps H.
  apply (wf_write_user db id v); [done..|]. intros j y Hj Hne Heq. apply negb_true_iff in Hmail.
  unfold email_taken in Hmail. rewrite exists_row_false in Hmail. specialize (Hmail _ _ Hj).
  rewrite (aw_users _ Hwf _ _ Hj), bool_decide_eq_false_2, Heq, bool_decide_eq_true_2 in Hmail by done. done.
Qed.

Lemma wf_ResetUserPassword id hash t e : keeps_db AuthWellFormed (ResetUserPassword id hash t e).
Proof.
  intros db u db' H Hwf. unfold ResetUserPassword in H.
  apply tx_bind_Ok in H as (? & ? & [-> ->]%tx_get_Ok & H). destruct (users db !! id) as [v|] eqn:Hv; [|done].
  apply tx_bind_Ok in H as (? & ? & ->%tx_modify_Ok & H). rest_keeps H. by eapply wf_same_email.
Qed.

Lemma wf_ChangeOwnPassword id current hash t e : keeps_db AuthWellFormed (ChangeOwnPassword id current hash t e).
Proof.
  intros db u db' H Hwf. unfold ChangeOwnPassword in H.
  apply tx_bind_Ok in H as (? & ? & [-> ->]%tx_get_Ok & H). destruct (users db !! id) as [v|] eqn:Hv; [|done].
  apply tx_bind_Ok in H as (? & ? & [_ ->]%tx_check_Ok & H).
  apply tx_bind_Ok in H as (? & ? & ->%tx_modify_Ok & H). rest_keeps H. by eapply wf_same_email.
Qed.

Lemma wf_EnableMFA id current codes t e : keeps_db AuthWellFormed (EnableMFA id current codes t e).
Proof.
  intros db u db' H Hwf. unfold EnableMFA in H.
  apply tx_bind_Ok in H as (? & ? & [-> ->]%tx_get_Ok & H). destruct (user_mfa db !! id) as [m|] eqn:Hm; [|done].
  apply tx_bind_Ok in H as (? & ? & [_ ->]%tx_check_Ok & H).
  apply tx_bind_Ok in H as (? & ? & [_ ->]%tx_check_Ok & H).
  apply tx_bind_Ok in H as (? & ? & ->%tx_modify_Ok & H). rest_keeps H.
  apply wf_mfa; [done|]. apply keyed_insert; [exact (aw_mfa _ Hwf _ _ Hm)|apply Hwf].
Qed.

Lemma wf_UpsertPendingMFA m : keeps_db AuthWellFormed (UpsertPendingMFA m).
Proof.
  intros db u db' H Hwf. unfold UpsertPendingMFA in H. tx_step H; [done|].
  apply wf_mfa; [done|]. by apply keyed_insert; [|apply Hwf].
Qed.

Lemma wf_DeleteExpiredMFAChallenges t : keeps_db AuthWellFormed (DeleteExpiredMFAChallenges t).
Proof.
  intros db u db' H Hwf. unfold DeleteExpiredMFAChallenges in H. tx_step H. apply wf_challenges; [done| | | |].
  - apply keyed_delete_where, Hwf.
  - apply unique_delete_where, Hwf.
  - intros k c [Hc _]%lookup_delete_where. by apply (aw_attempts _ Hwf k).
  - apply unique_delete_where, Hwf.
Qed.

Lemma wf_DeleteExpiredSessions t : keeps_db AuthWellFormed (DeleteExpiredSessions t).
Proof. intros db u db' H Hwf. unfold DeleteExpiredSessions in H. tx_step H. by apply wf_delete_sessions. Qed.

Lemma wf_createLoginSession s e : keeps_db AuthWellFormed (createLoginSession s e).
Proof. unfold createLoginSession. keeps_walk wf_leaf. Qed.

Lemma wf_op op : keeps_db AuthWellFormed (op_tx op).
Proof.
  destruct op; cbn [op_tx].
  - unfold CreateInitialUser. keeps_walk wf_leaf.
  - apply wf_createLoginSession.
  - unfold TouchSession. keeps_walk wf_leaf.
  - unfold RevokeSession. keeps_walk wf_leaf.
  - apply wf_audited.
  - apply keeps_db_ignoring, wf_DeleteExpiredSessions.
  - unfold CreateUser. keeps_walk wf_leaf.
  - apply keeps_db_ignoring, wf_UpdateUser.
  - apply wf_ResetUserPassword.
  - apply wf_ChangeOwnPassword.
  - apply wf_UpsertPendingMFA.
  - apply wf_EnableMFA.
  - unfold ReplaceRecoveryCodes. keeps_walk wf_leaf.
  - unfold DisableMFA. keeps_walk wf_leaf.
  - unfold ResetMFAFromHost. keeps_walk wf_leaf.
  - apply wf_create_challenge.
  - unfold FailMFAChallenge. keeps_walk wf_leaf.
  - unfold ConsumeMFAChallenge, audit_if. keeps_walk wf_leaf.
  - unfold CompleteMFAChallenge, audit_if. keeps_walk wf_leaf; apply wf_createLoginSession.
  - apply keeps_db_ignoring, wf_DeleteExpiredMFAChallenges.
Qed.

(** Every history of calls, failed ones included, keeps the invariant. *)
Theorem auth_history_WellFormed ops : AuthWellFormed (run_auth ops empty_AuthDB).
Proof. apply keeps_db_run; [intros op _; apply wf_op|apply AuthWellFormed_empty]. Qed.
End invariant.
