(* ===== verification/AuthHistory.v ===== *)
(** * What the tables of users and sessions promise over time

    An enabled administrator always remains, the setup cannot be repeated, and a session
    that was ended never authenticates again, whatever is called afterwards. *)

From S2P Require Import Prelude GoRuntime Json Domain AuditMetadata ControlModel Store StoreRecords.
From S2P Require Import StoreInvariant OperationsModel AuthModel AuthStore MFAStore AuthInvariant.

Section administrators.
Context {R : Runtime} {C : Collation}.

(** ** Administrators *)

Definition has_administrator (db : AuthDB) : Prop :=
  ∃ id u, users db !! id = Some u ∧ enabled_administrator u = true.

(** The property of the table of users. *)
Definition administered (m : gmap string User) : Prop := ∃ id u, m !! id = Some u ∧ enabled_administrator u = true.

Ltac admin_leaf _ := apply (keeps_untouched users administered); untouched_leaf.

Lemma admin_login p t b : keeps_db has_administrator (update_users p (logged_in t b)).
Proof.
  intros db u db' H (id & v & Hv & Ha). stmt_inv H. exists id. eexists. auth_tables.
  rewrite lookup_update_where, Hv. split; [reflexivity|]. by destruct (p v).
Qed.

Lemma admin_insert v e1 e2 : keeps_db has_administrator (insert_user v e1 e2).
Proof.
  intros db u db' H (id & w & Hw & Ha). stmt_inv H. exists id, w. auth_tables.
  rewrite lookup_insert_ne; [done|]. congruence.
Qed.

Ltac admin_walk := keeps_walk ltac:(fun _ => first
  [ apply admin_login | apply admin_insert | admin_leaf () ]).

Ltac admin_rest H := lazymatch type of H with
  ?t _ = Ok _ => let Hr := fresh in assert (Hr : keeps_db has_administrator t) by admin_walk; apply (Hr _ _ _ H); clear Hr
  end.

(** A user that is written back as an administrator. *)
Lemma admin_write db id u v : users db !! id = Some u →
  (enabled_administrator u = true → enabled_administrator v = true) →
  has_administrator db → has_administrator (set_users (<[id := v]> (users db)) db).
Proof.
  intros Hu Hv (k & w & Hw & Ha). destruct (decide (k = id)) as [->|Hne].
  - exists id, v. auth_tables. rewrite lookup_insert_eq. simplify_eq. auto.
  - exists k, w. auth_tables. by rewrite lookup_insert_ne.
Qed.

#[global] Instance filter_proper {A} (p : A → bool) : Proper (Permutation ==> Permutation) (List.filter p).
Proof. intros l l' H. induction H as [| |x y l|]; cbn; repeat case_match; eauto using Permutation. Qed.

Lemma count_rows_insert {A} (p : A → bool) i x (m : gmap string A) : m !! i = None →
  count_rows p (<[i := x]> m) = (if p x then 1 else 0) + count_rows p m.
Proof.
  intros Hi. unfold count_rows, rows.
  assert (E : List.filter p (map_to_list (<[i := x]> m)).*2 ≡ₚ List.filter p (x :: (map_to_list m).*2))
    by (apply filter_proper; by rewrite map_to_list_insert).
  rewrite E. cbn. destruct (p x); cbn; lia.
Qed.

Lemma count_two {A} (p : A → bool) (m : gmap string A) i x : m !! i = Some x → 1 < count_rows p m →
  ∃ j y, j ≠ i ∧ m !! j = Some y ∧ p y = true.
Proof.
  intros Hx Hc. destruct (exists_row p (delete i m)) eqn:E.
  - apply exists_row_true in E as (j & y & [Hne Hj]%lookup_delete_Some & Hp). by exists j, y.
  - exfalso. rewrite exists_row_false in E. rewrite <- (insert_delete_id _ _ _ Hx) in Hc.
    rewrite count_rows_insert in Hc by apply lookup_delete_eq.
    assert (Hn : count_rows p (delete i m) = 0); [|destruct (p x); lia].
    unfold count_rows. rewrite filter_none; [done|]. intros y Hy. apply elem_of_rows in Hy as [k Hk]. by apply (E k).
Qed.

Lemma admin_UpdateUser id email name b t e : keeps_db has_administrator (UpdateUser id email name b t e).
Proof.
  intros db u db' H Ha. unfold UpdateUser in H.
  apply tx_bind_Ok in H as (? & ? & [-> ->]%tx_get_Ok & H). destruct (users db !! id) as [v|] eqn:Hv; [|done].
  apply tx_bind_Ok in H as (? & ? & [Hlast ->]%tx_check_Ok & H).
  apply tx_bind_Ok in H as (? & ? & [_ ->]%tx_check_Ok & H).
  apply tx_bind_Ok in H as (? & ? & [_ ->]%tx_check_Ok & H).
  apply tx_bind_Ok in H as (? & ? & ->%tx_modify_Ok & H). admin_rest H.
  destruct (enabled_administrator v && negb b) eqn:Hdisable.
  - apply andb_true_iff in Hdisable as [Hv' Hb]. unfold enabled_administrator in Hv'. pose proof Hv' as Hv2.
    apply andb_true_iff in Hv' as [He Hr]. rewrite He, Hb, Hr in Hlast. cbn [andb] in Hlast. bool_simp.
    destruct (count_two enabled_administrator (users db) id v Hv) as (j & y & Hne & Hj & Hp); [lia|].
    exists j, y. auth_tables. by rewrite lookup_insert_ne.
  - apply (admin_write _ _ v); [done| |done]. intros Hv'. rewrite Hv' in Hdisable. cbn in Hdisable.
    apply negb_false_iff in Hdisable as ->. unfold enabled_administrator in *. cbn. apply andb_true_iff in Hv' as [_ Hr]. by rewrite Hr.
Qed.

Lemma admin_with_password db id u hash t : users db !! id = Some u → has_administrator db →
  has_administrator (set_users (<[id := with_password hash t u]> (users db)) db).
Proof. intros Hu. by apply (admin_write _ _ u). Qed.

Lemma admin_ResetUserPassword id hash t e : keeps_db has_administrator (ResetUserPassword id hash t e).
Proof.
  intros db u db' H Ha. unfold ResetUserPassword in H.
  apply tx_bind_Ok in H as (? & ? & [-> ->]%tx_get_Ok & H). destruct (users db !! id) as [v|] eqn:Hv; [|done].
  apply tx_bind_Ok in H as (? & ? & ->%tx_modify_Ok & H). admin_rest H. by apply admin_with_password.
Qed.

Lemma admin_ChangeOwnPassword id current hash t e : keeps_db has_administrator (ChangeOwnPassword id current hash t e).
Proof.
  intros db u db' H Ha. unfold ChangeOwnPassword in H.
  apply tx_bind_Ok in H as (? & ? & [-> ->]%tx_get_Ok & H). destruct (users db !! id) as [v|] eqn:Hv; [|done].
  apply tx_bind_Ok in H as (? & ? & [_ ->]%tx_check_Ok & H).
  apply tx_bind_Ok in H as (? & ? & ->%tx_modify_Ok & H). admin_rest H. by apply admin_with_password.
Qed.

Lemma admin_op op : keeps_db has_administrator (op_tx op).
Proof.
  destruct op; cbn [op_tx];
    try apply admin_ResetUserPassword; try apply admin_ChangeOwnPassword;
    try apply keeps_db_ignoring, admin_UpdateUser;
    unfold CreateInitialUser, CreateLoginSession, createLoginSession, TouchSession, RevokeSession, RecordAuditEvent,
      DeleteExpiredSessions, CreateUser, UpsertPendingMFA, EnableMFA, ReplaceRecoveryCodes, DisableMFA,
      ResetMFAFromHost, CreateMFAChallenge, FailMFAChallenge, ConsumeMFAChallenge, CompleteMFAChallenge,
      DeleteExpiredMFAChallenges, audit_if, consume_challenges, revoke_sessions, createLoginSession; admin_walk.
Qed.

(** C18: Once there is an enabled administrator, there is one for ever: no sequence of calls on the store, failed ones
    included, disables or removes the last one, and the initial setup is refused from then on without a change. *)
Theorem administrator_remains ops db user session e1 e2 : has_administrator db →
  has_administrator (run_auth ops db) ∧
  commit (CreateInitialUser user session e1 e2) (run_auth ops db) =
    (Err (conflict "initial setup has already been completed"), run_auth ops db).
Proof.
  intros Ha. assert (H : has_administrator (run_auth ops db)) by (apply keeps_db_run; [intros op _; apply admin_op|done]).
  split; [done|]. destruct H as (id & u & Hu & _). unfold commit, CreateInitialUser, tx_bind, tx_get, tx_check.
  rewrite bool_decide_eq_false_2; [done|]. intros E. by rewrite E, lookup_empty in Hu.
Qed.
End administrators.

(** ** Ended sessions *)

Section sessions.
Context {R : Runtime} {C : Collation}.

(** No session with the token can authenticate. *)
Definition all_revoked (hash : string) (m : gmap string Session) : Prop :=
  ∀ k s, m !! k = Some s → Session_TokenHash s = hash → is_Some (Session_RevokedAt s).
Definition dead (hash : string) (db : AuthDB) : Prop := all_revoked hash (sessions db).

Lemma dead_authenticates hash now db : dead hash db → AuthenticatedSession hash now db = Err authentication_required.
Proof.
  intros Hd. unfold AuthenticatedSession, find_row. destruct (List.filter _ _) as [|s l] eqn:E; [done|]. exfalso.
  assert (Hs : s ∈ List.filter (usable_session hash now db) (rows (sessions db))) by (rewrite E; left).
  apply list_elem_of_In, filter_In in Hs as [Hs Hu]. apply list_elem_of_In, elem_of_rows in Hs as [k Hk].
  unfold usable_session in Hu. do 3 apply andb_true_iff in Hu as [Hu ?]. bool_simp.
  destruct (Hd k s Hk Hu) as [t Ht]. congruence.
Qed.

(** The session a call creates. *)
Definition creates_session (op : auth_op) : option Session :=
  match op with
  | OpCreateInitialUser _ s _ _ | OpCreateLoginSession s _ | OpCompleteMFAChallenge _ _ _ _ s _ => Some s
  | _ => None
  end.

(** An update that keeps tokens and revocations. *)
Lemma dead_update hash p f : (∀ s, Session_TokenHash (f s) = Session_TokenHash s) →
  (∀ s, is_Some (Session_RevokedAt s) → is_Some (Session_RevokedAt (f s))) → keeps_db (dead hash) (update_sessions p f).
Proof.
  intros Ht Hr db u db' H Hd k s'. stmt_inv H. auth_tables. rewrite lookup_update_where, fmap_Some.
  intros (s & Hs & ->). destruct (p s); [rewrite Ht|]; intros Hh; [apply Hr|]; by eapply Hd.
Qed.

Lemma dead_insert hash s e : Session_TokenHash s ≠ hash → keeps_db (dead hash) (insert_session s e).
Proof.
  intros Hne db u db' H Hd k r. stmt_inv H. auth_tables. intros [[<- <-]|[_ Hk]]%lookup_insert_Some; [done|].
  by apply (Hd k).
Qed.

Lemma dead_delete hash t : keeps_db (dead hash) (DeleteExpiredSessions t).
Proof.
  intros db u db' H Hd k s. unfold DeleteExpiredSessions in H. tx_step H. auth_tables.
  intros [Hk _]%lookup_delete_where. by apply (Hd k).
Qed.

Lemma dead_op hash op : (∀ s, creates_session op = Some s → Session_TokenHash s ≠ hash) →
  keeps_db (dead hash) (op_tx op).
Proof.
  intros Hc.
  assert (Hne : ∀ s, creates_session op = Some s → Session_TokenHash s ≠ hash) by done. clear Hc.
  assert (Hrevoke : ∀ p t, keeps_db (dead hash) (update_sessions p (revoked t)))
    by (intros p t; apply dead_update; [done|by eexists]).
  assert (Hseen : ∀ p t, keeps_db (dead hash) (update_sessions p (seen t))) by (intros p t; by apply dead_update).
  destruct op; cbn [op_tx creates_session] in *;
    unfold CreateInitialUser, CreateLoginSession, createLoginSession, TouchSession, RevokeSession, RecordAuditEvent,
      CreateUser, UpdateUser, ResetUserPassword, ChangeOwnPassword, UpsertPendingMFA, EnableMFA, ReplaceRecoveryCodes,
      DisableMFA, ResetMFAFromHost, CreateMFAChallenge, FailMFAChallenge, ConsumeMFAChallenge, CompleteMFAChallenge,
      DeleteExpiredMFAChallenges, audit_if, revoke_sessions, createLoginSession;
    keeps_walk ltac:(fun _ => first
      [ apply dead_insert; by apply Hne | apply Hrevoke | apply Hseen | apply dead_delete
      | apply (keeps_untouched sessions (all_revoked hash)); untouched_leaf ]).
Qed.

(** *** What ends a session *)

(** The transaction revokes the sessions that satisfy [p], and no others. *)
Definition revokes (p : Session → bool) (at_ : Time) {A} (t : AuthTx A) : Prop := ∀ db a db', t db = Ok (a, db') →
  sessions db' = update_where p (revoked at_) (sessions db).

Lemma revokes_statement p t : revokes p t (update_sessions p (revoked t)).
Proof. intros db u db' H. by stmt_inv H. Qed.

Lemma revokes_fail {A} p t e : revokes p t (tx_fail (A := A) e).
Proof. by intros db a db'. Qed.

Lemma revokes_before {A B} p at_ (t : AuthTx A) (f : A → AuthTx B) :
  untouched sessions t → (∀ a, revokes p at_ (f a)) → revokes p at_ (tx_bind t f).
Proof. intros Ht Hf db b db' (a & db1 & H1 & H2)%tx_bind_Ok. by rewrite (Hf _ _ _ _ H2), (Ht _ _ _ H1). Qed.

Lemma revokes_after {A B} p at_ (t : AuthTx A) (f : A → AuthTx B) :
  revokes p at_ t → (∀ a, untouched sessions (f a)) → revokes p at_ (tx_bind t f).
Proof. intros Ht Hf db b db' (a & db1 & H1 & H2)%tx_bind_Ok. by rewrite (Hf _ _ _ _ H2), (Ht _ _ _ H1). Qed.

Ltac idle := lazymatch goal with
  | |- untouched _ (tx_bind _ _) => apply untouched_bind; [idle|intros ?; idle]
  | |- untouched _ tx_get => apply untouched_get
  | |- untouched _ (tx_check _ _) => apply untouched_check
  | |- untouched _ (tx_ret _) => apply untouched_ret
  | |- untouched _ _ => untouched_leaf
  end.

Ltac revokes_walk := repeat lazymatch goal with
  | |- revokes _ _ (tx_fail _) => apply revokes_fail
  | |- revokes _ _ (update_sessions _ _) => apply revokes_statement
  | |- revokes _ _ (tx_bind _ _) =>
      first [apply revokes_before; [solve [idle]|intros ?] | apply revokes_after; [|intros ?; solve [idle]]]
  | |- revokes _ _ (match ?x with _ => _ end) => destruct x
  end.

(** The sessions of a user, without the current one. *)
Definition of_user (userID : string) (current : option string) (s : Session) : bool :=
  (Session_UserID s =?? userID) && match current with Some id => negb (Session_ID s =?? id) | None => true end &&
  not_revoked s.

(** The sessions a call ends: those of a user (all, or all but the current one), or a single one. *)
Definition ended_sessions (op : auth_op) (db : AuthDB) : option ((Session → bool) * Time) :=
  match op with
  | OpRevokeSession id t _ => Some (λ s, (Session_ID s =?? id) && not_revoked s, t)
  | OpUpdateUser id _ _ false t _ | OpResetUserPassword id _ t _ => Some (of_user id None, t)
  | OpChangeOwnPassword id current _ t _ | OpEnableMFA id current _ t _ | OpReplaceRecoveryCodes id current _ t _
  | OpDisableMFA id current t _ => Some (of_user id (Some current), t)
  | OpResetMFAFromHost email t _ =>
      (λ u, (of_user (User_ID u) None, t)) <$> find_row (λ u, User_Email u =?? email) (users db)
  | _ => None
  end.

Ltac revokes_op := match goal with
  H : ?t _ = Ok _ |- sessions _ = update_where ?p (revoked ?at_) _ =>
    let Hr := fresh in
    assert (Hr : revokes p at_ t); [|by apply (Hr _ _ _ H)];
    unfold RevokeSession, UpdateUser, ResetUserPassword, ChangeOwnPassword, EnableMFA, ReplaceRecoveryCodes, DisableMFA,
      revoke_sessions, consume_challenges, ignoring; revokes_walk
  end.

Lemma op_revokes op db p t u db' : ended_sessions op db = Some (p, t) → op_tx op db = Ok (u, db') →
  sessions db' = update_where p (revoked t) (sessions db).
Proof.
  destruct op; cbn [ended_sessions op_tx]; try done; try (intros [= <- <-] H; revokes_op).
  - destruct enabled; [done|]. intros [= <- <-] H. revokes_op.
  - destruct (find_row _ _) as [v|] eqn:Hv; [|done]. intros [= <- <-] H. unfold ignoring, ResetMFAFromHost in H.
    apply tx_bind_Ok in H as (? & ? & H & [_ ->]%tx_ret_Ok).
    apply tx_bind_Ok in H as (? & ? & [-> ->]%tx_get_Ok & H). rewrite Hv in H.
    unfold revoke_sessions, consume_challenges in H. revokes_op.
Qed.

(** C17: A session that was ended stays ended.  Over any history, when a call that ends sessions succeeds (a logout, the
    disabling of a user, a password reset or change, the enabling, disabling or reset of MFA, new recovery codes), a
    session it ends can never authenticate again, at any time and whatever is called afterwards, as long as no session
    with the same token hash is created. *)
Theorem ended_session_never_authenticates before op after u db' p t id s now :
  let db := run_auth before empty_AuthDB in
  ended_sessions op db = Some (p, t) → op_tx op db = Ok (u, db') →
  sessions db !! id = Some s → p s = true →
  (∀ o s', o ∈ after → creates_session o = Some s' → Session_TokenHash s' ≠ Session_TokenHash s) →
  AuthenticatedSession (Session_TokenHash s) now (run_auth after db') = Err authentication_required.
Proof.
  intros db Hended Hop Hs Hp Hafter. apply dead_authenticates.
  apply (keeps_db_run (dead (Session_TokenHash s)) after).
  { intros o Ho. apply dead_op. intros s' Hs'. by apply (Hafter o). }
  intros k s' Hk Hh. rewrite (op_revokes _ _ _ _ _ _ Hended Hop) in Hk.
  rewrite lookup_update_where, fmap_Some in Hk. destruct Hk as (r & Hr & ->).
  assert (Hr' : Session_TokenHash r = Session_TokenHash s) by (destruct (p r); done).
  assert (k = id) as -> by apply (aw_tokens _ (auth_history_WellFormed before) k id r s Hr Hs I I Hr').
  simplify_eq. rewrite Hp. by eexists.
Qed.
End sessions.

(** * What the tables of second factors promise over time

    A challenge takes at most five answers and at most one right one; a recovery code is
    used once. *)

Lemma find_row_Some {A} (p : A → bool) m x : find_row p m = Some x → ∃ k, m !! k = Some x ∧ p x = true.
Proof.
  unfold find_row. destruct (List.filter p (rows m)) as [|y l] eqn:E; [done|]. intros [= ->].
  assert (H : x ∈ List.filter p (rows m)) by (rewrite E; left).
  apply list_elem_of_In, filter_In in H as [H Hp]. apply list_elem_of_In, elem_of_rows in H as [k Hk]. eauto.
Qed.

Section challenges.
Context {R : Runtime} {C : Collation}.

(** ** Answers to a challenge *)

(** The answer a call gives to the challenge with the token, when it counts: a failed attempt on an open challenge,
    or a right code that consumed it. *)
Definition answer (hash : string) (op : auth_op) (db : AuthDB) : option bool :=
  match op with
  | OpFailMFAChallenge h t =>
      if (h =?? hash) && bool_decide (is_Some (find_row (open_challenge h t) (challenges db))) && is_Ok (op_tx op db)
      then Some false else None
  | OpConsumeMFAChallenge h _ _ _ | OpCompleteMFAChallenge h _ _ _ _ _ =>
      if (h =?? hash) && is_Ok (op_tx op db) then Some true else None
  | _ => None
  end.

Fixpoint answers_of (hash : string) (ops : list auth_op) (db : AuthDB) : list bool :=
  match ops with
  | [] => []
  | op :: rest => option_list (answer hash op db) ++ answers_of hash rest (apply_auth op db)
  end.

(** The attempts that are left. *)
Definition tries (c : MFAChallenge) : nat :=
  if unconsumed c then Z.to_nat (5 - MFAChallenge_FailedAttempts c) else 0%nat.

Definition bounded_tries (hash : string) (n : nat) (m : gmap string MFAChallenge) : Prop :=
  ∀ k c, m !! k = Some c → MFAChallenge_TokenHash c = hash → (tries c <= n)%nat.
Definition attempts_left (hash : string) (n : nat) (db : AuthDB) : Prop := bounded_tries hash n (challenges db).

Lemma tries_consumed t c : tries (consumed t c) = 0%nat.
Proof. done. Qed.

Lemma tries_failed t c : 0 <= MFAChallenge_FailedAttempts c → unconsumed c = true →
  tries (failed t c) = (tries c - 1)%nat.
Proof.
  unfold tries, unconsumed, failed. cbn. intros Hc Hu. destruct (5 <=? MFAChallenge_FailedAttempts c + 1) eqn:E.
  - bool_simp. rewrite (bool_decide_eq_true_2 (MFAChallenge_ConsumedAt c = None)) by done. cbn. lia.
  - bool_simp. rewrite !bool_decide_eq_true_2 by done. lia.
Qed.

Lemma tries_failed_le t c : 0 <= MFAChallenge_FailedAttempts c → (tries (failed t c) <= tries c)%nat.
Proof.
  intros Hc. destruct (unconsumed c) eqn:E; [rewrite tries_failed by done; lia|].
  unfold tries, failed, unconsumed in *. cbn. bool_simp. destruct (5 <=? _); cbn; [lia|].
  rewrite bool_decide_eq_false_2 by done. lia.
Qed.

(** ** Calls never give attempts back *)

Definition creates_challenge (op : auth_op) : option MFAChallenge :=
  match op with OpCreateMFAChallenge c => Some c | _ => None end.

Lemma left_update hash n ok p f : (∀ c, (tries (f c) <= tries c)%nat) →
  (∀ c, MFAChallenge_TokenHash (f c) = MFAChallenge_TokenHash c) →
  keeps_db (attempts_left hash n) (update_challenges ok p f).
Proof.
  intros Hf Ht db u db' H Hn k c'. stmt_inv H. auth_tables. rewrite lookup_update_where, fmap_Some.
  intros (c & Hc & ->). destruct (p c); [rewrite Ht|]; intros Hh; specialize (Hn k c Hc Hh); [|done].
  specialize (Hf c). lia.
Qed.

Lemma left_consume hash n p t : keeps_db (attempts_left hash n) (consume_challenge p t).
Proof.
  apply keeps_db_get. intros db. destruct (find_row _ _); [|apply keeps_db_fail].
  apply keeps_db_bind; [|intros _; apply keeps_db_ret]. apply left_update; [|done]. intros c. rewrite tries_consumed. lia.
Qed.

Lemma left_consume_all hash n id t : keeps_db (attempts_left hash n) (consume_challenges id t).
Proof. apply left_update; [|done]. intros c. rewrite tries_consumed. lia. Qed.

Lemma left_delete hash n t : keeps_db (attempts_left hash n) (DeleteExpiredMFAChallenges t).
Proof.
  intros db u db' H Hn k c. unfold DeleteExpiredMFAChallenges in H. tx_step H. auth_tables.
  intros [Hk _]%lookup_delete_where. by apply (Hn k).
Qed.

Lemma left_create hash n c : MFAChallenge_TokenHash c ≠ hash → keeps_db (attempts_left hash n) (CreateMFAChallenge c).
Proof.
  intros Hne db u db' H Hn. unfold CreateMFAChallenge in H. tx_step H.
  match goal with H : consume_challenges _ _ _ = _ |- _ => pose proof (left_consume_all _ _ _ _ _ _ _ H Hn) as Hn1 end.
  intros k d. auth_tables. intros [[<- <-]|[_ Hk]]%lookup_insert_Some; [done|]. by apply (Hn1 k).
Qed.

(** A failed attempt, on the tables that keep the invariant. *)
Lemma left_fail hash n h t db u db' : AuthWellFormed db → FailMFAChallenge h t db = Ok (u, db') →
  attempts_left hash n db → attempts_left hash n db'.
Proof.
  intros Hwf H Hn k c'. unfold FailMFAChallenge in H. stmt_inv H. auth_tables. rewrite lookup_update_where, fmap_Some.
  intros (c & Hc & ->). destruct (aw_attempts _ Hwf k c Hc) as [Ha _]. destruct (open_challenge h t c); intros Hh.
  - specialize (Hn k c Hc Hh). pose proof (tries_failed_le t c Ha). lia.
  - by apply (Hn k).
Qed.

Lemma left_op hash n op db : AuthWellFormed db →
  (∀ c, creates_challenge op = Some c → MFAChallenge_TokenHash c ≠ hash) →
  attempts_left hash n db → attempts_left hash n (apply_auth op db).
Proof.
  intros Hwf Hc Hn. unfold apply_auth, commit. destruct (op_tx op db) as [[u db']|] eqn:H; [cbn|done].
  destruct op; cbn [op_tx creates_challenge] in *.
  17: { by eapply left_fail. }
  16: { by eapply left_create; [apply Hc| |]. }
  all: revert H Hn;
    match goal with |- ?t ?x = Ok _ → _ =>
      let Hk := fresh "Hk" in assert (Hk : keeps_db (attempts_left hash n) t); [|intros H Hn; by eapply Hk] end;
    unfold CreateInitialUser, CreateLoginSession, createLoginSession, TouchSession, RevokeSession, RecordAuditEvent,
      DeleteExpiredSessions, CreateUser, UpdateUser, ResetUserPassword, ChangeOwnPassword, UpsertPendingMFA, EnableMFA,
      ReplaceRecoveryCodes, DisableMFA, ResetMFAFromHost, ConsumeMFAChallenge, CompleteMFAChallenge, audit_if,
      revoke_sessions, createLoginSession;
    keeps_walk ltac:(fun _ => first
      [ apply left_consume | apply left_consume_all | apply left_delete
      | apply (keeps_untouched challenges (bounded_tries hash n)); untouched_leaf ]).
Qed.

(** ** An answer takes one attempt *)

Lemma open_challenge_tries hash t c : open_challenge hash t c = true →
  MFAChallenge_TokenHash c = hash ∧ unconsumed c = true ∧ (1 <= tries c)%nat.
Proof.
  unfold open_challenge, tries. intros H. do 3 apply andb_true_iff in H as [H ?]. bool_simp. split; [done|].
  match goal with Hu : unconsumed c = true |- _ => rewrite Hu end. split; [done|lia].
Qed.

Lemma same_challenge db k c k' c' : AuthWellFormed db → challenges db !! k = Some c → challenges db !! k' = Some c' →
  MFAChallenge_TokenHash c = MFAChallenge_TokenHash c' → k = k' ∧ c = c'.
Proof.
  intros Hwf Hc Hc' Heq. assert (k = k') as -> by by apply (aw_challenge_tokens _ Hwf k k' c c'). by simplify_eq.
Qed.

(** What a right code leaves: its challenge is consumed. *)
Lemma consume_challenge_Ok p h t db id db' : (∀ c, p c = true → open_challenge h t c = true) →
  consume_challenge p t db = Ok (id, db') →
  ∃ k c, challenges db !! k = Some c ∧ p c = true ∧ MFAChallenge_UserID c = id ∧
    db' = set_challenges (update_where p (consumed t) (challenges db)) db.
Proof.
  intros Hp H. unfold consume_challenge in H. tx_step H.
  match goal with H : find_row _ _ = Some _ |- _ => apply find_row_Some in H as (k & Hk & Hc) end.
  match goal with H : update_challenges _ _ _ _ = Ok _ |- _ => stmt_inv H end. eauto 8.
Qed.

Lemma consumed_left hash n p t db id db' : AuthWellFormed db → (∀ c, p c = true → open_challenge hash t c = true) →
  consume_challenge p t db = Ok (id, db') → attempts_left hash n db →
  (1 <= n)%nat ∧ attempts_left hash 0 db'.
Proof.
  intros Hwf Hp (k & c & Hk & Hc & _ & ->)%(consume_challenge_Ok _ hash); [|done]. intros Hn.
  pose proof (open_challenge_tries _ _ _ (Hp _ Hc)) as (Ht & _ & H1). split; [pose proof (Hn k c Hk Ht); lia|].
  intros k' d. auth_tables. rewrite lookup_update_where, fmap_Some. intros (d' & Hd & ->).
  intros Hh. assert (MFAChallenge_TokenHash d' = hash) by (by destruct (p d')).
  destruct (same_challenge db k c k' d' Hwf Hk Hd) as [<- <-]; [congruence|]. by rewrite Hc.
Qed.

Lemma answer_false hash n op db : AuthWellFormed db → answer hash op db = Some false → attempts_left hash n db →
  ∃ m, n = S m ∧ attempts_left hash m (apply_auth op db).
Proof.
  intros Hwf Ha Hn. destruct op as [| | | | | | | | | | | | | | | |h t| | |]; cbn [answer] in Ha; try done;
    try by (destruct (_ && _)).
  destruct ((h =?? hash) && _ && _) eqn:E; [|done]. apply andb_true_iff in E as [[Eh Ef]%andb_true_iff Hok].
  apply bool_decide_eq_true in Eh as ->. apply bool_decide_eq_true in Ef as [c Hc].
  apply find_row_Some in Hc as (k & Hk & Hc). pose proof (open_challenge_tries _ _ _ Hc) as (Ht & Hu & H1).
  pose proof (Hn k c Hk Ht) as Hle. exists (n - 1)%nat. split; [lia|].
  unfold apply_auth, commit. destruct (op_tx _ db) as [[u db']|] eqn:H; [cbn|done].
  cbn [op_tx] in H. unfold FailMFAChallenge in H. stmt_inv H. intros k' d. auth_tables.
  rewrite lookup_update_where, fmap_Some. intros (d' & Hd & ->) Hh.
  assert (Hd' : MFAChallenge_TokenHash d' = hash) by (by destruct (open_challenge hash t d')).
  destruct (same_challenge db k c k' d' Hwf Hk Hd) as [<- <-]; [congruence|]. rewrite Hc.
  rewrite tries_failed; [lia| |done]. by apply (aw_attempts _ Hwf k c).
Qed.

Lemma answer_true hash n op db : AuthWellFormed db → answer hash op db = Some true → attempts_left hash n db →
  (1 <= n)%nat ∧ attempts_left hash 0 (apply_auth op db).
Proof.
  intros Hwf Ha Hn.
  assert (Hrest : ∀ A (t : AuthTx A), untouched challenges t → keeps_db (attempts_left hash 0) t)
    by (intros A t; apply (keeps_untouched challenges (bounded_tries hash 0))).
  destruct op as [| | | | | | | | | | | | | | | | |h r t e|h r t e s l|]; cbn [answer] in Ha; try done;
    try by (destruct (_ && _)).
  - destruct ((h =?? hash) && _) eqn:E; [|done]. apply andb_true_iff in E as [Eh Hok].
    apply bool_decide_eq_true in Eh as ->. unfold apply_auth, commit.
    destruct (op_tx _ db) as [[u db']|] eqn:H; [cbn|done]. cbn [op_tx] in H. unfold ConsumeMFAChallenge in H.
    apply tx_bind_Ok in H as (id & db1 & H1 & H).
    destruct (consumed_left hash n _ t db id db1 Hwf (λ _ H, H) H1 Hn) as [Hle Hz]. split; [done|].
    revert H Hz. assert (Hk : keeps_db (attempts_left hash 0) (use_code id r t >>> audit_if e)); [|intros H Hz; by eapply Hk].
    unfold audit_if. keeps_walk ltac:(fun _ => apply Hrest; untouched_leaf).
  - destruct ((h =?? hash) && _) eqn:E; [|done]. apply andb_true_iff in E as [Eh Hok].
    apply bool_decide_eq_true in Eh as ->. unfold apply_auth, commit.
    destruct (op_tx _ db) as [[u db']|] eqn:H; [cbn|done]. cbn [op_tx] in H. unfold CompleteMFAChallenge in H.
    apply tx_bind_Ok in H as (? & ? & [-> ->]%tx_get_Ok & H). destruct (find_row _ _) as [c|]; [|done].
    apply tx_bind_Ok in H as (? & ? & [_ ->]%tx_check_Ok & H). apply tx_bind_Ok in H as (id & db1 & H1 & H).
    destruct (consumed_left hash n _ t db id db1 Hwf (λ c H, proj1 (proj1 (andb_true_iff _ _) H)) H1 Hn) as [Hle Hz].
    split; [done|]. revert H Hz.
    assert (Hk : keeps_db (attempts_left hash 0) (use_code id r t >>> audit_if e >>> createLoginSession s l));
      [|intros H Hz; by eapply Hk].
    unfold audit_if, createLoginSession. keeps_walk ltac:(fun _ => apply Hrest; untouched_leaf).
Qed.

Lemma wf_apply op db : AuthWellFormed db → AuthWellFormed (apply_auth op db).
Proof.
  intros Hwf. unfold apply_auth, commit. destruct (op_tx op db) as [[u db']|] eqn:E; [|done]. by eapply wf_op.
Qed.

Lemma answers_of_left hash ops : ∀ n db, AuthWellFormed db →
  (∀ op c, op ∈ ops → creates_challenge op = Some c → MFAChallenge_TokenHash c ≠ hash) → attempts_left hash n db →
  ∃ m, (answers_of hash ops db = replicate m false ∧ (m <= n)%nat) ∨
       (answers_of hash ops db = replicate m false ++ [true] ∧ (m < n)%nat).
Proof.
  induction ops as [|op ops IH]; intros n db Hwf Hc Hn; cbn [answers_of]; [exists 0%nat; left; split; [done|lia]|].
  pose proof (wf_apply op db Hwf) as Hwf1.
  assert (Hc1 : ∀ o c, o ∈ ops → creates_challenge o = Some c → MFAChallenge_TokenHash c ≠ hash)
    by (intros o c Ho; apply (Hc o); by right).
  destruct (answer hash op db) as [[]|] eqn:Ha; cbn [option_list option_rect app].
  - destruct (answer_true hash n op db Hwf Ha Hn) as [Hle Hz].
    destruct (IH 0%nat _ Hwf1 Hc1 Hz) as [m [[-> Hm]|[-> Hm]]]; [|lia].
    exists 0%nat. right. replace m with 0%nat by lia. split; [done|lia].
  - destruct (answer_false hash n op db Hwf Ha Hn) as (p & -> & Hp).
    destruct (IH p _ Hwf1 Hc1 Hp) as [m [[-> Hm]|[-> Hm]]]; exists (S m); [left|right]; (split; [done|lia]).
  - apply (IH n _ Hwf1 Hc1). apply left_op; [done| |done]. intros c. apply Hc. by left.
Qed.

(** C19: A challenge takes at most five answers, and the first right one is the last.  Over any history of the store, the
    answers that count for a challenge (failed attempts while it is open, and codes that consume it) are at most five
    wrong ones, or at most four wrong ones and then a right one. *)
Theorem challenge_answers before hash after :
  (∀ op c, op ∈ after → creates_challenge op = Some c → MFAChallenge_TokenHash c ≠ hash) →
  ∃ n, (answers_of hash after (run_auth before empty_AuthDB) = replicate n false ∧ (n <= 5)%nat) ∨
       (answers_of hash after (run_auth before empty_AuthDB) = replicate n false ++ [true] ∧ (n <= 4)%nat).
Proof.
  intros Hc. pose proof (auth_history_WellFormed before) as Hwf.
  destruct (answers_of_left hash after 5 _ Hwf Hc) as [n [[-> Hn]|[-> Hn]]].
  - intros k c Hk _. destruct (aw_attempts _ Hwf k c Hk). unfold tries. destruct (unconsumed c); lia.
  - exists n. by left.
  - exists n. right. split; [done|lia].
Qed.
End challenges.

(** ** Recovery codes *)

Section codes.
Context {R : Runtime} {C : Collation}.

(** Every code of the user with the hash was used. *)
Definition all_used (userID hash : string) (m : gmap string MFARecoveryCode) : Prop :=
  ∀ k c, m !! k = Some c → MFARecoveryCode_UserID c = userID → MFARecoveryCode_CodeHash c = hash → unused c = false.
Definition spent_code (userID hash : string) (db : AuthDB) : Prop := all_used userID hash (recovery_codes db).

(** The codes a call creates. *)
Definition creates_codes (op : auth_op) : list MFARecoveryCode :=
  match op with OpEnableMFA _ _ codes _ _ | OpReplaceRecoveryCodes _ _ codes _ _ => codes | _ => [] end.

(** A login of the user with the code. *)
Definition redeems (userID hash : string) (op : auth_op) (db : AuthDB) : bool :=
  match op with
  | OpCompleteMFAChallenge _ r _ _ s _ => (r =?? hash) && (Session_UserID s =?? userID) && is_Ok (op_tx op db)
  | _ => false
  end.

Fixpoint redemptions (userID hash : string) (ops : list auth_op) (db : AuthDB) : nat :=
  match ops with
  | [] => 0
  | op :: rest => (if redeems userID hash op db then 1 else 0) + redemptions userID hash rest (apply_auth op db)
  end.

Lemma spent_delete userID hash id : keeps_db (spent_code userID hash) (delete_codes id).
Proof.
  intros db u db' H Hs k c. unfold delete_codes in H. tx_step H. auth_tables.
  intros [Hk _]%lookup_delete_where. by apply (Hs k).
Qed.

Lemma spent_delete_mfa userID hash id : keeps_db (spent_code userID hash) (delete_mfa id).
Proof.
  apply keeps_db_bind; [apply spent_delete|]. intros _. apply (keeps_untouched recovery_codes (all_used userID hash)).
  intros db u db' H. by tx_step H.
Qed.

Lemma spent_insert userID hash codes :
  (∀ c, c ∈ codes → MFARecoveryCode_UserID c = userID → MFARecoveryCode_CodeHash c ≠ hash) →
  keeps_db (spent_code userID hash) (insertRecoveryCodes codes).
Proof.
  induction codes as [|c codes IH]; cbn [insertRecoveryCodes]; intros Hc; [apply keeps_db_ret|].
  intros db u db' H Hs. tx_step H. eapply IH; [|eassumption|].
  - intros d Hd. apply Hc. by right.
  - intros k d. auth_tables. intros [[<- <-]|[_ Hk]]%lookup_insert_Some; [|by apply (Hs k)].
    cbn. intros Hu Hh. exfalso. apply (Hc c); [by left|done..].
Qed.

Lemma use_code_Ok id hash t db u db' : use_code id hash t db = Ok (u, db') → hash ≠ "" →
  (∃ k c, recovery_codes db !! k = Some c ∧ MFARecoveryCode_UserID c = id ∧ MFARecoveryCode_CodeHash c = hash ∧
    unused c = true) ∧
  recovery_codes db' = update_where (λ c, (MFARecoveryCode_UserID c =?? id) && (MFARecoveryCode_CodeHash c =?? hash) &&
    unused c) (used t) (recovery_codes db).
Proof.
  intros H Hne. unfold use_code in H. rewrite bool_decide_eq_false_2 in H by done. tx_step H.
  match goal with H : tx_lift _ _ = Ok _ |- _ => apply tx_lift_Ok in H as [[-> _]%checked_update_Ok ->] end.
  split; [|done].
  match goal with H : (count_rows ?p ?m =? 1) = true |- _ => destruct (find_row p m) as [c|] eqn:E end.
  - apply find_row_Some in E as (k & Hk & Hp). apply andb_true_iff in Hp as [[Hu Hh]%andb_true_iff Hn].
    apply bool_decide_eq_true in Hu, Hh. by exists k, c.
  - exfalso. unfold find_row, count_rows in *. destruct (List.filter _ _); done.
Qed.

Lemma spent_use userID hash id r t : keeps_db (spent_code userID hash) (use_code id r t).
Proof.
  intros db u db' H Hs. destruct (decide (r = "")) as [->|Hne]; [by apply tx_ret_Ok in H as [_ ->]|].
  apply use_code_Ok in H as [_ H]; [|done]. intros k c'. rewrite H, lookup_update_where, fmap_Some.
  intros (c & Hk & ->) Hu Hh. destruct (_ && unused c) eqn:E; [done|]. by apply (Hs k).
Qed.

Lemma spent_op userID hash op :
  (∀ c, c ∈ creates_codes op → MFARecoveryCode_UserID c = userID → MFARecoveryCode_CodeHash c ≠ hash) →
  keeps_db (spent_code userID hash) (op_tx op).
Proof.
  intros Hc. destruct op; cbn [op_tx creates_codes] in *;
    unfold CreateInitialUser, CreateLoginSession, createLoginSession, TouchSession, RevokeSession, RecordAuditEvent,
      DeleteExpiredSessions, CreateUser, UpdateUser, ResetUserPassword, ChangeOwnPassword, UpsertPendingMFA, EnableMFA,
      ReplaceRecoveryCodes, DisableMFA, ResetMFAFromHost, CreateMFAChallenge, FailMFAChallenge, ConsumeMFAChallenge,
      CompleteMFAChallenge, DeleteExpiredMFAChallenges, audit_if, revoke_sessions, consume_challenges, createLoginSession;
    keeps_walk ltac:(fun _ => first
      [ apply spent_insert; exact Hc | apply spent_delete | apply spent_delete_mfa | apply spent_use
      | apply (keeps_untouched recovery_codes (all_used userID hash)); untouched_leaf ]).
Qed.

(** A login with a code finds it unused and leaves it used. *)
Lemma redeems_spends userID hash op db : AuthWellFormed db → hash ≠ "" → redeems userID hash op db = true →
  ¬ spent_code userID hash db ∧ spent_code userID hash (apply_auth op db).
Proof.
  intros Hwf Hne Hr. destruct op as [| | | | | | | | | | | | | | | | | |h r t e s l|]; cbn [redeems] in Hr; try done.
  apply andb_true_iff in Hr as [[Er Es]%andb_true_iff Hok]. apply bool_decide_eq_true in Er as ->, Es as <-.
  unfold apply_auth, commit. destruct (op_tx _ db) as [[u db']|] eqn:H; [cbn|done].
  cbn [op_tx] in H. unfold CompleteMFAChallenge in H. apply tx_bind_Ok in H as (? & ? & [-> ->]%tx_get_Ok & H).
  destruct (find_row _ _) as [c|] eqn:Hc; [|done]. apply tx_bind_Ok in H as (? & ? & [Hu ->]%tx_check_Ok & H).
  apply bool_decide_eq_true in Hu. apply tx_bind_Ok in H as (id & db1 & H1 & H).
  apply (consume_challenge_Ok _ h) in H1 as (k & d & Hk & Hd & Hid & ->);
    [|intros c0 [H0 _]%andb_true_iff; exact H0].
  apply find_row_Some in Hc as (k' & Hk' & Hc). apply bool_decide_eq_true in Hc.
  apply andb_true_iff in Hd as [Hd _]. pose proof (open_challenge_tries _ _ _ Hd) as (Hh & _).
  destruct (same_challenge db k d k' c Hwf Hk Hk') as [<- <-]; [congruence|]. rewrite Hu in Hid. subst id.
  apply tx_bind_Ok in H as (? & db2 & H2 & H). apply use_code_Ok in H2 as [(i & w & Hi & Hw1 & Hw2 & Hw3) H2]; [|done].
  auth_tables. split; [intros Hs; by rewrite (Hs i w Hi Hw1 Hw2) in Hw3|].
  assert (Hs : spent_code (Session_UserID s) hash db2).
  { intros j z. rewrite H2, lookup_update_where, fmap_Some. intros (y & Hy & ->) Hu' Hh'.
    destruct ((MFARecoveryCode_UserID y =?? Session_UserID s) && (MFARecoveryCode_CodeHash y =?? hash) && unused y) eqn:E;
      [done|]. rewrite Hu', Hh', !bool_decide_eq_true_2 in E by done. exact E. }
  revert H Hs. assert (Hk0 : keeps_db (spent_code (Session_UserID s) hash) (audit_if e >>> createLoginSession s l));
    [|intros H Hs; by eapply Hk0].
  unfold audit_if, createLoginSession.
  keeps_walk ltac:(fun _ => apply (keeps_untouched recovery_codes (all_used (Session_UserID s) hash)); untouched_leaf).
Qed.

Lemma redemptions_spent userID hash ops : hash ≠ "" → ∀ db, AuthWellFormed db →
  (∀ op c, op ∈ ops → c ∈ creates_codes op → MFARecoveryCode_UserID c = userID → MFARecoveryCode_CodeHash c ≠ hash) →
  spent_code userID hash db → redemptions userID hash ops db = 0%nat.
Proof.
  intros Hne. induction ops as [|op ops IH]; intros db Hwf Hc Hs; cbn [redemptions]; [done|].
  destruct (redeems userID hash op db) eqn:E; [by apply redeems_spends in E as [E _]|]. cbn.
  apply IH; [by apply wf_apply|intros o c Ho; apply (Hc o); by right|].
  unfold apply_auth, commit. destruct (op_tx op db) as [[u db']|] eqn:H; [|done].
  eapply spent_op; [|exact H|exact Hs]. intros c. apply Hc. by left.
Qed.

(** C20: A recovery code opens at most one session.  Over any history of the store in which the code is not issued again,
    at most one login of its user with it succeeds. *)
Theorem recovery_code_once before userID hash after : hash ≠ "" →
  (∀ op c, op ∈ after → c ∈ creates_codes op → MFARecoveryCode_UserID c = userID → MFARecoveryCode_CodeHash c ≠ hash) →
  (redemptions userID hash after (run_auth before empty_AuthDB) <= 1)%nat.
Proof.
  intros Hne. generalize (run_auth before empty_AuthDB), (auth_history_WellFormed before).
  induction after as [|op ops IH]; intros db Hwf Hc; cbn [redemptions]; [lia|].
  assert (Hc' : ∀ o c, o ∈ ops → c ∈ creates_codes o → MFARecoveryCode_UserID c = userID →
    MFARecoveryCode_CodeHash c ≠ hash) by (intros o c Ho; apply (Hc o); by right).
  destruct (redeems userID hash op db) eqn:E.
  - apply redeems_spends in E as [_ E]; [|done..]. rewrite redemptions_spent; [lia|done|by apply wf_apply|done|done].
  - apply IH; [by apply wf_apply|done].
Qed.
End codes.
