(* ===== verification/AuthSpec.v ===== *)
(** * What the authentication service promises

    A login follows its protocol whatever its environment answers; a refused login does
    not tell why; the second step of a login completes only with a factor; recovery codes
    and tokens are recognised as they were issued. *)

From S2P Require Import Prelude GoRuntime Json Domain Effects OperationsModel AuthModel Password Auth MFA.

(** ** Facts of a run *)

Inductive auth_fact : Type :=
| FAllowed (l : limiter_name) (key : string) (b : bool)
| FFailure (l : limiter_name) (key : string)
| FSuccess (l : limiter_name) (key : string)
| FUser (email : string) (r : res User)
| FSession (s : Session) (r : res unit)
| FChallenge (c : MFAChallenge) (r : res unit)
| FChallenged (hash : string) (r : res (MFAChallenge * User * UserMFA))
| FSecret (scope : string) (payload : EncryptedPayload) (r : res string)
| FCompleted (hash recovery : string) (s : Session) (r : res unit)
| FNow (t : Time).

(** The response of a call, of the type that the call has. *)
Definition auth_view (ev : event authctl) : option auth_fact :=
  match ev with
  | Event e x =>
      match e in authctl X return X → option auth_fact with
      | Limit_Allow l k => λ b, Some (FAllowed l k b)
      | Limit_Failure l k => λ _, Some (FFailure l k)
      | Limit_Success l k => λ _, Some (FSuccess l k)
      | Users_ByEmail m => λ r, Some (FUser m r)
      | Users_CreateLoginSession s _ => λ r, Some (FSession s r)
      | MFA_CreateChallenge c => λ r, Some (FChallenge c r)
      | MFA_ChallengeByTokenHash h _ => λ r, Some (FChallenged h r)
      | Secret_Decrypt scope p => λ r, Some (FSecret scope p r)
      | MFA_CompleteChallenge h rec _ _ s _ => λ r, Some (FCompleted h rec s r)
      | _ => λ _, None
      end x
  end.

Abbreviation auth_facts := (with_facts auth_view).

(** With the readings of the clock. *)
Definition timed_view (ev : event authctl) : option auth_fact :=
  match ev with
  | Event e x => match e in authctl X return X → option auth_fact with
      | Clock => λ t, Some (FNow t)
      | _ => λ _, auth_view ev
      end x
  end.

Ltac auth_step := facts_step ltac:(fun _ => cbn [auth_view timed_view option_list option_rect]).

Section spec.
Context {R : Runtime} {K : Crypto} (svc : AuthService).

(** ** Steps without facts *)

Lemma facts_quiet {A} (p : auth A) (Q : list auth_fact → A → Prop) :
  auth_facts p (λ f _, f = []) → (∀ a, Q [] a) → auth_facts p Q.
Proof. intros H HQ. eapply facts_mono; [exact H|]. intros f a ->. apply HQ. Qed.

Lemma auditEvent_quiet ty u a rt ri rq md t : auth_facts (auditEvent ty u a rt ri rq md t) (λ f _, f = []).
Proof. unfold auditEvent. by repeat auth_step. Qed.

Lemma recordFailure_quiet rq ip m o : auth_facts (recordFailure rq ip m o) (λ f _, f = []).
Proof. unfold recordFailure, auditEvent. by repeat auth_step. Qed.

(** What [buildSession] returns: a session of the user under the hashes of the tokens. *)
Definition built_for (user : User) (r : res (SessionResult * Session * AuditEvent)) : Prop :=
  match r with
  | Ok (result, session, _) =>
      Session_UserID session = User_ID user ∧ SessionResult_User result = Some user ∧
      SessionResult_Session result = Some session ∧ SessionResult_MFARequired result = false ∧
      Session_TokenHash session = HashSessionToken (svc_secret svc) (SessionResult_Token result) ∧
      Session_CSRFHash session = HashCSRFToken (svc_secret svc) (SessionResult_CSRFToken result)
  | Err _ => True
  end.

Lemma newToken_built purpose : auth_facts (newToken svc purpose)
  (λ f r, f = [] ∧ match r with Ok (token, hash) => hash = token_hash (svc_secret svc) purpose token | Err _ => True end).
Proof. unfold newToken. by repeat auth_step. Qed.

Lemma buildSession_built user rq ip ua : auth_facts (buildSession svc user rq ip ua) (λ f r, f = [] ∧ built_for user r).
Proof.
  unfold buildSession. repeat auth_step; try done.
  eapply facts_mono; [apply newToken_built|]. intros f [[token hash]|e] [-> Ht]; [|done]. auth_step.
  eapply facts_mono; [apply newToken_built|]. intros f [[csrf chash]|e] [-> Hc]; [|done].
  repeat auth_step. apply facts_quiet; [apply auditEvent_quiet|]. intros [event|e]; [|done].
  auth_step. by subst.
Qed.

(** ** Logins *)

(** The password hash that a login is checked against: the hash of the account, or the one of no account. *)
Definition login_hash (found : res User) : string :=
  match found with Ok user => User_PasswordHash user | Err _ => svc_dummyHash svc end.

Definition login_accepts (password : string) (found : res User) (user : User) : Prop :=
  found = Ok user ∧ VerifyPassword (User_PasswordHash user) password = Ok true ∧ User_Enabled user = true.

Definition login_refuses (password : string) (found : res User) : Prop :=
  ∃ valid, VerifyPassword (login_hash found) password = Ok valid ∧
    match found with Ok user => valid && User_Enabled user = false | Err _ => True end.

(** The session that a login returns, and the challenge. *)
Definition session_result (user : User) (session : Session) (result : SessionResult) : Prop :=
  Session_UserID session = User_ID user ∧ SessionResult_User result = Some user ∧
  SessionResult_Session result = Some session ∧ SessionResult_MFARequired result = false ∧
  Session_TokenHash session = HashSessionToken (svc_secret svc) (SessionResult_Token result) ∧
  Session_CSRFHash session = HashCSRFToken (svc_secret svc) (SessionResult_CSRFToken result).

Definition challenge_result (user : User) (challenge : MFAChallenge) (result : SessionResult) : Prop :=
  MFAChallenge_UserID challenge = User_ID user ∧ MFAChallenge_FailedAttempts challenge = 0 ∧
  MFAChallenge_ConsumedAt challenge = None ∧
  MFAChallenge_ExpiresAt challenge = MFAChallenge_CreatedAt challenge + MFAChallengeLifetime ∧
  MFAChallenge_TokenHash challenge = HashMFAChallengeToken (svc_secret svc) (SessionResult_MFAChallenge result) ∧
  SessionResult_Session result = None ∧ SessionResult_Token result = "" ∧ SessionResult_MFARequired result = true.

(** What a stored row gives its caller. *)
Definition stored {A} (x : res unit) (P : A → Prop) (r : res A) : Prop :=
  match x, r with Ok _, Ok a => P a | Err e, Err e' => e = e' | _, _ => False end.

(** What an accepted login stores and returns. *)
Inductive login_outcome : User → list auth_fact → res SessionResult → Prop :=
| outcome_none user e : login_outcome user [] (Err e)
| outcome_session user session x r :
    User_MFAEnabled user = false → Session_UserID session = User_ID user → stored x (session_result user session) r →
    login_outcome user [FSession session x] r
| outcome_challenge user challenge x r :
    User_MFAEnabled user = true → MFAChallenge_UserID challenge = User_ID user →
    stored x (challenge_result user challenge) r →
    login_outcome user [FChallenge challenge x] r.

(** The protocol of a login. *)
Inductive login_run (email password sourceIP : string) : list auth_fact → res SessionResult → Prop :=
| login_limited e :
    login_run email password sourceIP [FAllowed LoginAttempts (sourceIP +:+ nul +:+ login_identifier email) false] (Err e)
| login_unreadable found e e' :
    VerifyPassword (login_hash found) password = Err e →
    login_run email password sourceIP
      [FAllowed LoginAttempts (sourceIP +:+ nul +:+ login_identifier email) true; FUser (login_identifier email) found]
      (Err e')
| login_refused found e :
    login_refuses password found →
    login_run email password sourceIP
      [FAllowed LoginAttempts (sourceIP +:+ nul +:+ login_identifier email) true; FUser (login_identifier email) found;
       FFailure LoginAttempts (sourceIP +:+ nul +:+ login_identifier email)] (Err e)
| login_accepted found user rest r :
    login_accepts password found user → login_outcome user rest r →
    login_run email password sourceIP
      (FAllowed LoginAttempts (sourceIP +:+ nul +:+ login_identifier email) true :: FUser (login_identifier email) found ::
       FSuccess LoginAttempts (sourceIP +:+ nul +:+ login_identifier email) :: rest) r.

Lemma createSession_outcome user rq ip ua : User_MFAEnabled user = false →
  auth_facts (createSession svc user rq ip ua) (login_outcome user).
Proof.
  intros Hmfa. unfold createSession. auth_step. eapply facts_mono; [apply buildSession_built|].
  intros f [[[result session] event]|e] [-> Hb]; [|constructor].
  destruct Hb as (? & ? & ? & ? & ? & ?). repeat auth_step; cbn; constructor; try done; by split_and!.
Qed.

Lemma createMFAChallenge_outcome user ip ua : User_MFAEnabled user = true →
  auth_facts (createMFAChallenge svc user ip ua) (login_outcome user).
Proof.
  intros Hmfa. unfold createMFAChallenge, NewMFAChallengeToken, need_mfa. repeat auth_step; try by constructor.
  eapply facts_mono; [apply newToken_built|]. intros f [[token hash]|e] [-> Ht]; [|constructor].
  by repeat auth_step; constructor.
Qed.

Lemma login_refusal_facts key rq ip m : auth_facts
  (do _ <- call (Limit_Failure LoginAttempts key);
   try _ <- recordFailure rq ip m "invalid_credentials";
   fail (A:=SessionResult) invalid_credentials) (λ f r, f = [FFailure LoginAttempts key] ∧ ∃ e, r = Err e).
Proof.
  auth_step. auth_step. auth_step. apply facts_quiet; [apply recordFailure_quiet|].
  intros [u|e]; [auth_step|]; eauto.
Qed.

(** C15: whatever the repository, the limiter and the clock answer, a login follows its
    protocol: a limited attempt reads no account; a wrong password, an unknown address and a
    disabled account count as a failure and store nothing; a session is stored only after
    the password of the enabled account was verified, and only when the account has no
    second factor; otherwise a fresh challenge is stored and no token is returned; what
    is returned is what was stored, under the hash of its token. *)
Theorem login_follows_protocol email password rq ip ua :
  auth_facts (Login svc email password rq ip ua) (login_run email password ip).
Proof.
  unfold Login. auth_step. auth_step. destruct (negb x) eqn:Hx.
  - auth_step. apply facts_quiet; [apply recordFailure_quiet|]. apply negb_true_iff in Hx as ->.
    intros [[]|e]; [auth_step|]; constructor.
  - apply negb_false_iff in Hx as ->. auth_step. auth_step. cbv zeta.
    fold (login_hash x). destruct (VerifyPassword (login_hash x) password) as [valid|e] eqn:Hv;
      [|auth_step; by eapply login_unreadable].
    destruct x as [user|e]; [destruct valid, (User_Enabled user) eqn:Hen; cbn [negb orb]|];
      try (eapply facts_mono; [apply login_refusal_facts|]; intros f r [-> [e' ->]]; apply login_refused;
           by eexists; split; [exact Hv|]; cbn; rewrite ?Hen).
    auth_step. auth_step. destruct (User_MFAEnabled user) eqn:Hmfa;
      [eapply facts_mono; [by apply createMFAChallenge_outcome|]|eapply facts_mono; [by apply createSession_outcome|]];
      intros f r Hr; by eapply login_accepted.
Qed.

(** a refused login does not tell why: the calls that follow the lookup of the account, with
    any responses to them, and the error that is returned are possible for one refused attempt
    exactly when they are for any other with the same address, whether the account is unknown or
    disabled or the password is wrong. *)
Theorem login_failure_uniform email password password' rq ip ua found found' tr r :
  login_refuses password found → login_refuses password' found' →
  traces (Login svc email password rq ip ua)
    (Event (Limit_Allow LoginAttempts (ip +:+ nul +:+ login_identifier email)) true ::
     Event (Users_ByEmail (login_identifier email)) found :: tr) r →
  traces (Login svc email password' rq ip ua)
    (Event (Limit_Allow LoginAttempts (ip +:+ nul +:+ login_identifier email)) true ::
     Event (Users_ByEmail (login_identifier email)) found' :: tr) r.
Proof.
  intros (valid & Hv & Hf) (valid' & Hv' & Hf') H%traces_call_bind%traces_call_bind. cbv zeta in H.
  apply traces_call_intro, traces_call_intro. cbv zeta. cbn [negb] in *.
  fold (login_hash found) in H. fold (login_hash found'). rewrite Hv in H. rewrite Hv'.
  destruct found as [user|], found' as [user'|]; rewrite <- ?negb_andb, ?Hf in H; by rewrite <- ?negb_andb, ?Hf'.
Qed.

(** ** The second step *)

(** The factor that a completed challenge rests on: a recovery code by its hash, or a
    one-time password that was valid at a reading of the clock for the secret of the user. *)
Definition by_factor (user : User) (config : UserMFA) (code hash : string) (f : list auth_fact) : Prop :=
  (hash ≠ "" ∧ (normalizeRecoveryCode code).2 = true ∧ hash = HashRecoveryCode (normalizeRecoveryCode code).1) ∨
  (hash = "" ∧ ∃ secret now, FSecret (mfaSecretScope (User_ID user)) (UserMFA_Secret config) (Ok secret) ∈ f ∧
     FNow now ∈ f ∧ totp_ValidateCustom (TrimSpace code) secret now = Ok true).

Lemma wrapping_Ok {A} text (r : res A) a : wrapping text r = Ok a → r = Ok a.
Proof. by destruct r. Qed.

Definition none_completed (f : list auth_fact) : Prop := ∀ h rec s x, FCompleted h rec s x ∉ f.

Lemma verifyEncryptedTOTP_factor user config code key :
  with_facts timed_view (verifyEncryptedTOTP svc (User_ID user) (UserMFA_Secret config) code key)
    (λ f r, none_completed f ∧ (r = Ok tt → by_factor user config code "" f)).
Proof.
  unfold verifyEncryptedTOTP, need_cipher, none_completed. repeat auth_step; (split; [set_solver|]); try done.
  repeat match goal with H : wrapping _ _ = Ok _ |- _ => apply wrapping_Ok in H; subst end.
  intros _. right. split; [done|]. apply negb_false_iff in Heqb1 as ->.
  eexists _, _. split_and!; [| |done]; set_solver.
Qed.

(** In the facts of a run with a token and a code, what comes before the completion of a
    challenge; and what stands for the tokens of the result. *)
Definition completed_by_factor (token code : string) (f : list auth_fact) (r : res SessionResult) : Prop :=
  (∀ before hash recovery session x after, f = before ++ FCompleted hash recovery session x :: after →
     ∃ challenge user config, FChallenged hash (Ok (challenge, user, config)) ∈ before ∧
       hash = HashMFAChallengeToken (svc_secret svc) (TrimSpace token) ∧
       Session_UserID session = User_ID user ∧ by_factor user config code recovery before) ∧
  (∀ result, r = Ok result → ∃ hash recovery session user,
     FCompleted hash recovery session (Ok tt) ∈ f ∧ session_result user session result).

Lemma cbf_none token code f r : none_completed f → (∀ result, r ≠ Ok result) → completed_by_factor token code f r.
Proof.
  intros Hf Hr. split; [|intros result H; by destruct (Hr result)].
  intros before hash rec session x after ->. destruct (Hf hash rec session x). set_solver.
Qed.

Ltac none_left := apply cbf_none; [unfold none_completed in *; set_solver|done].

Lemma cbf_one token code before hash rec session x after r challenge user config :
  none_completed before → none_completed after →
  FChallenged hash (Ok (challenge, user, config)) ∈ before →
  hash = HashMFAChallengeToken (svc_secret svc) (TrimSpace token) →
  Session_UserID session = User_ID user → by_factor user config code rec before →
  (∀ result, r = Ok result → x = Ok tt ∧ session_result user session result) →
  completed_by_factor token code (before ++ FCompleted hash rec session x :: after) r.
Proof.
  intros Hb Ha Hc Hh Hs Hf Hr. split.
  - intros before' hash' rec' session' x' after' Heq.
    assert (before' = before ∧ FCompleted hash' rec' session' x' = FCompleted hash rec session x) as [-> [= -> -> -> ->]];
      [|eauto 10].
    destruct (app_eq_inv _ _ _ _ Heq) as [([|c l] & -> & Hl)|([|c l] & -> & Hl)]; rewrite ?app_nil_r in *;
      cbn in Hl; injection Hl; intros; subst; try done; exfalso.
    + apply (Hb hash' rec' session' x'). set_solver.
    + apply (Ha hash' rec' session' x'). set_solver.
  - intros result (-> & ?)%Hr. exists hash, rec, session, user. set_solver.
Qed.

Lemma by_factor_mono user config code hash f f' : (∀ x, x ∈ f → x ∈ f') →
  by_factor user config code hash f → by_factor user config code hash f'.
Proof. intros Hf [H|(-> & secret & now & ? & ? & ?)]; [by left|right]. split; [done|]. exists secret, now. auto. Qed.

Lemma check_factor_right user config code recovery key rq :
  with_facts timed_view (check_factor svc user config code recovery key rq)
    (λ f r, none_completed f ∧
       (∀ hash event, r = Ok (RightFactor hash event) → by_factor user config code hash f)).
Proof.
  unfold check_factor, none_completed. destruct recovery.
  - destruct (normalizeRecoveryCode code) as [normalized valid] eqn:Hn. unfold auditEvent. repeat auth_step;
      (split; [set_solver|]); intros hash event Heq; try discriminate. injection Heq as <- <-.
    left. rewrite Hn. split_and!; [|done|done]. intros Hh. by rewrite Hh in *.
  - auth_step. eapply facts_mono; [apply verifyEncryptedTOTP_factor|]. intros f [[]|e] [Hc Hf]; unfold none_completed in Hc; auth_step;
      (split; [set_solver|]); intros hash event [= <- <-].
    rewrite app_nil_r. auto.
Qed.

Lemma buildSession_timed user rq ip ua :
  with_facts timed_view (buildSession svc user rq ip ua) (λ f r, none_completed f ∧ built_for user r).
Proof.
  intros tr r Hr. split; [|by apply (buildSession_built user rq ip ua tr r Hr)]. revert tr r Hr.
  change (with_facts timed_view (buildSession svc user rq ip ua) (λ f _, none_completed f)).
  unfold buildSession, NewSessionToken, NewCSRFToken, newToken, auditEvent, none_completed.
  repeat auth_step; cbn in *; set_solver.
Qed.

Lemma refuse_code_timed hash limited key rq ip m :
  with_facts timed_view (refuse_code hash limited key rq ip m) (λ f r, none_completed f ∧ ∀ result, r ≠ Ok result).
Proof.
  unfold refuse_code, recordFailure, auditEvent, none_completed. repeat auth_step; (split; [set_solver|done]).
Qed.

Lemma cbf_split token code l f g d e after r :
  completed_by_factor token code ((l ++ f ++ g ++ [d]) ++ e :: after) r →
  completed_by_factor token code (l ++ f ++ g ++ d :: e :: after) r.
Proof. by rewrite <- !(assoc_L (++)). Qed.

(** C16: whatever the repository, the limiter, the cipher and the clock answer, a challenge is
    completed only for the user that was challenged under the hash of the presented token,
    and only with a factor: the non-empty hash of the normalised recovery code, or a one-time
    password that was valid at a reading of the clock for the decrypted secret of that user;
    tokens are returned only after the repository has completed the challenge with the
    session that they stand for. *)
Theorem second_factor_required token code recovery rq ip ua :
  with_facts timed_view (Service_CompleteMFAChallenge svc token code recovery rq ip ua)
    (completed_by_factor token code).
Proof.
  unfold Service_CompleteMFAChallenge, need_mfa. cbv zeta. auth_step. auth_step; [|auth_step; none_left].
  repeat auth_step; try none_left.
  eapply facts_mono; [apply check_factor_right|]. intros f r [Hnone Hright]. unfold none_completed in Hnone.
  repeat auth_step; try none_left.
  - eapply facts_mono; [apply buildSession_timed|]. intros g [[[result session] event']|e] [Hg Hb];
      [|none_left].
    destruct Hb as (? & ? & ? & ? & ? & ?). unfold recordFailure, auditEvent, none_completed in *.
    repeat auth_step; apply (cbf_split _ _ [_; _; _]); (apply (cbf_one _ _ _ _ _ _ _ _ _ m u0 u);
      [unfold none_completed; set_solver..|set_solver|done|done| |]);
      try done; try (apply (by_factor_mono _ _ _ _ f); [intros ? ?; set_solver|exact (Hright _ _ eq_refl)]).
    intros result' [= <-]. destruct a1. by split_and!.
  - eapply facts_mono; [apply refuse_code_timed|]. intros g r' [Hg Hr']. apply cbf_none; [|done].
    unfold none_completed in *. set_solver.
Qed.
End spec.

(** * Recovery codes: print and parse

    A recovery code is ten random bytes in hexadecimal, shown in groups of five digits and
    stored as a hash of the digits; what is shown is recognised when it is typed. *)

(** ** Lower-case hexadecimal text *)

Definition plain_digit (c : ascii) : bool :=
  negb (is_hex c) ||
  (is_ascii_byte c && negb (is_space_byte c) && bool_decide (lower_byte c = c) && negb (bool_decide (c = "-"%char)) &&
   is_hex_digit c).

Lemma hex_plain c : is_hex c = true →
  is_ascii_byte c = true ∧ is_space_byte c = false ∧ lower_byte c = c ∧ c ≠ "-"%char ∧ is_hex_digit c = true.
Proof.
  intros Hc. assert (H : plain_digit c = true) by by destruct c as [[] [] [] [] [] [] [] []].
  unfold plain_digit in H. rewrite Hc in H. cbn in H. rewrite !andb_true_iff, !negb_true_iff in H.
  destruct H as ((((? & ?) & ?%bool_decide_eq_true) & ?%bool_decide_eq_false) & ?). done.
Qed.

Definition hexadecimal (s : string) : Prop := string_forall is_hex s = true.

Lemma hexadecimal_cons c s : hexadecimal (String c s) ↔ is_hex c = true ∧ hexadecimal s.
Proof. unfold hexadecimal. cbn. apply andb_true_iff. Qed.

Lemma hex_bytes_hexadecimal l : Forall Byte l → hexadecimal (hex_bytes l).
Proof.
  induction 1 as [|b l Hb _ IH]; [done|]. apply hex_byte_hex in Hb as [H1 H2].
  change (hexadecimal (String (hex_digit (Z.shiftr b 4)) (String (hex_digit (Z.land b 15)) (hex_bytes l)))).
  by rewrite !hexadecimal_cons.
Qed.

Lemma hex_bytes_length l : String.length (hex_bytes l) = (2 * length l)%nat.
Proof. induction l as [|b l IH]; [done|].
  change (S (S (String.length (hex_bytes l))) = (2 * S (length l))%nat). rewrite IH. lia. Qed.

Lemma byte_of_Byte c : Byte (byte_of c).
Proof. by destruct c as [[] [] [] [] [] [] [] []]. Qed.

Lemma hex_text_hexadecimal raw : hexadecimal (hex_text raw).
Proof. apply hex_bytes_hexadecimal, Forall_fmap, Forall_true. intros c. apply byte_of_Byte. Qed.

Lemma hex_text_length raw : String.length (hex_text raw) = (2 * String.length raw)%nat.
Proof.
  unfold hex_text. rewrite hex_bytes_length, length_fmap. f_equal.
  induction raw as [|c raw IH]; cbn; congruence.
Qed.

(** ** The code as it is shown and typed *)

Section codes.
Context {R : Runtime}.

Lemma ToLower_hexadecimal s : hexadecimal s → ToLower s = s.
Proof.
  intros Hs. unfold ToLower.
  assert (is_ascii s = true ∧ string_map lower_byte s = s) as [-> ->]; [|done].
  unfold is_ascii. induction s as [|c s IH]; [done|]. apply hexadecimal_cons in Hs as [(Ha & _ & Hl & _)%hex_plain Hs].
  destruct (IH Hs) as [H1 H2]. cbn. by rewrite Ha, H1, Hl, H2.
Qed.

Lemma hex_decodes_hexadecimal s : hexadecimal s → Nat.even (String.length s) = true → hex_decodes s = true.
Proof.
  intros Hs Hl. unfold hex_decodes. rewrite Hl. cbn. clear Hl. induction s as [|c s IH]; [done|].
  apply hexadecimal_cons in Hs as [(_ & _ & _ & _ & Hd)%hex_plain Hs]. cbn. by rewrite Hd, IH.
Qed.

Lemma remove_byte_hexadecimal s : hexadecimal s → remove_byte "-" s = s.
Proof.
  induction s as [|c s IH]; [done|]. intros [(_ & _ & _ & Hn & _)%hex_plain Hs]%hexadecimal_cons. cbn.
  rewrite bool_decide_eq_false_2 by done. by rewrite IH.
Qed.

Lemma remove_byte_app old s t : remove_byte old (s +:+ t) = remove_byte old s +:+ remove_byte old t.
Proof. induction s as [|c s IH]; [done|]. rewrite string_app_cons. cbn [remove_byte].
  case_bool_decide; by rewrite IH, ?string_app_cons. Qed.

Lemma substring_hexadecimal n m s : hexadecimal s → hexadecimal (String.substring n m s).
Proof.
  revert n m. induction s as [|c s IH]; intros n m; [by destruct n, m|].
  intros [Hc Hs]%hexadecimal_cons. destruct n as [|n]; cbn; [|by apply IH].
  destruct m as [|m]; [done|]. apply hexadecimal_cons. split; [done|]. by apply IH.
Qed.

(** The ends of a shown code are digits. *)
Lemma TrimSpace_formatted s : hexadecimal s → String.length s = 20%nat → TrimSpace (formatRecoveryCode s) = formatRecoveryCode s.
Proof.
  intros Hs Hl. do 20 (destruct s as [|? s]; [discriminate|]). destruct s; [|discriminate].
  repeat match goal with H : hexadecimal (String _ _) |- _ => apply hexadecimal_cons in H as [(? & ? & _)%hex_plain H] end.
  unfold formatRecoveryCode, slice_of. cbn [String.substring Nat.sub]. rewrite !string_app_cons, !string_app_nil_l.
  rewrite TrimSpace_ascii.
  - apply trimmed_id. by split; cbn.
  - unfold is_ascii. cbn. repeat match goal with H : is_ascii_byte _ = true |- _ => rewrite H; clear H end. done.
Qed.

Lemma normalize_format s : hexadecimal s → String.length s = 20%nat →
  normalizeRecoveryCode (formatRecoveryCode s) = (s, true).
Proof.
  intros Hs Hl. unfold normalizeRecoveryCode. rewrite TrimSpace_formatted by done.
  assert (remove_byte "-" (formatRecoveryCode s) = s) as ->.
  { assert (Hsl : ∀ a b, remove_byte "-" (slice_of a b s) = slice_of a b s)
      by (intros; by apply remove_byte_hexadecimal, substring_hexadecimal).
    unfold formatRecoveryCode. rewrite !remove_byte_app, !Hsl.
    unfold slice_of. clear Hs. do 20 (destruct s as [|? s]; [discriminate|]). by destruct s. }
  rewrite ToLower_hexadecimal by done. unfold len. rewrite Hl. cbn.
  by rewrite hex_decodes_hexadecimal; [| |rewrite Hl].
Qed.
End codes.

(** ** The codes that the service issues *)

Section issued.
Context {R : Runtime} {K : Crypto}.

(** The random source filled its buffer. *)
Definition drawn (tr : list (event authctl)) : Prop :=
  ∀ raw, Event (RandomBytes recoveryCodeRandomBytes) (Ok raw) ∈ tr → String.length raw = 10%nat.

Definition recognised (userID code : string) (record : MFARecoveryCode) : Prop :=
  MFARecoveryCode_UserID record = userID ∧ MFARecoveryCode_UsedAt record = None ∧
  ∃ digits, normalizeRecoveryCode code = (digits, true) ∧ MFARecoveryCode_CodeHash record = HashRecoveryCode digits.

Definition issues (n : nat) (userID : string) (tr : list (event authctl))
  (r : res (list string * list MFARecoveryCode)) : Prop :=
  drawn tr → ∀ codes, r = Ok codes →
    length codes.1 = n ∧ Forall2 (recognised userID) codes.1 codes.2.

Lemma recovery_codes_loop_issues n userID now :
  emits (recovery_codes_loop n userID now) (issues n userID).
Proof.
  induction n as [|n IH]; cbn [recovery_codes_loop]; [apply emits_Ret; by intros _ codes [= <-]|].
  emit_step. emit_step. emit_step. emit_step. destruct x as [raw|e]; cbn [wrapping]; [|by intros].
  emit_step. emit_step. emit_step; [|by intros]. emit_step. eapply emits_mono; [exact IH|].
  intros tr [rest|e] Hrest; [|by intros]. apply emits_Ret. intros Hd codes [= <-]. cbn [fst snd length].
  destruct (Hrest (λ raw H, Hd raw ltac:(set_solver)) rest eq_refl) as [Hl Hf].
  split; [by rewrite Hl|]. constructor; [|done]. split_and!; [done..|]. exists (hex_text raw). split; [|done].
  apply normalize_format; [apply hex_text_hexadecimal|].
  rewrite hex_text_length, (Hd raw); [done|set_solver].
Qed.

(** every recovery code that is issued is recognised when it is typed: normalising the shown
    text succeeds and gives the text whose hash was stored, for ten codes of the user, none
    of them used. *)
Theorem recovery_codes_recognised userID tr codes records :
  drawn tr → traces (newRecoveryCodes userID) tr (Ok (codes, records)) →
  length codes = 10%nat ∧ Forall2 (recognised userID) codes records.
Proof.
  intros Hd H. assert (Hn : emits (newRecoveryCodes userID) (issues 10 userID)).
  { unfold newRecoveryCodes. emit_step. emit_step. eapply emits_mono; [apply recovery_codes_loop_issues|].
    intros tr' r Hr Hd'. apply Hr. intros raw Hraw. apply Hd'. set_solver. }
  exact (Hn _ _ H Hd _ eq_refl).
Qed.
End issued.
