(* ===== verification/UserAdmin.v ===== *)
(** * internal/useradmin/service.go: administration of users

    The methods of the service as programs over the repository of users, the limiter of
    password changes, the verifier of second factors and the clock. *)

From S2P Require Import Prelude GoRuntime Json Domain Effects AuthModel Password.

Inductive userctl : Type → Type :=
| UserClock : userctl Time
| UserNewID : userctl (res string)
| Salt (n : Z) : userctl (res string)
| Passwords_Allow (key : string) : userctl bool
| Passwords_Failure (key : string) : userctl unit
| Passwords_Success (key : string) : userctl unit
(* SecondFactorVerifier *)
| Verifier_RequiresMFA (userID : string) : userctl (res bool)
| Verifier_VerifyTOTPForUser (userID code operation : string) : userctl (res unit)
(* Repository *)
| Admin_ListUsers : userctl (res (list User))
| Admin_UserByID (id : string) : userctl (res User)
| Admin_CreateUser (u : User) (e : AuditEvent) : userctl (res unit)
| Admin_UpdateUser (id email displayName : string) (enabled : bool) (now : Time) (e : AuditEvent) : userctl (res User)
| Admin_ResetUserPassword (id hash : string) (now : Time) (e : AuditEvent) : userctl (res unit)
| Admin_ChangeOwnPassword (id current hash : string) (now : Time) (e : AuditEvent) : userctl (res unit).

Abbreviation useradmin := (prog userctl).

(* src/internal/useradmin/service.go:34-39 CreateInput *)
Record CreateInput := mkCreateInput {
  CreateInput_Email : string;
  CreateInput_DisplayName : string;
  CreateInput_Password : string;
  CreateInput_Role : string
}.

(* src/internal/useradmin/service.go:41-46 UpdateInput *)
Record UpdateInput := mkUpdateInput {
  UpdateInput_Email : string;
  UpdateInput_DisplayName : string;
  UpdateInput_Role : string;
  UpdateInput_Enabled : bool
}.

Section service.
(** [verifier]: the service has a verifier of second factors. *)
Context {R : Runtime} {K : Crypto} (verifier : bool).

(* src/internal/useradmin/service.go:205-212 event *)
Definition user_event (actor : Actor) (action targetID : string) (metadata : list (string * json)) (now : Time) :
  useradmin (res AuditEvent) :=
  do id <- call UserNewID;
  match id with
  | Err e => fail (WrapError ("create user audit identifier: " +:+ Error_Error e) e)
  | Ok id =>
      done_with (mkAuditEvent id "user" (Some (Actor_UserID actor)) "" action "user" (Some targetID)
        (Actor_RequestID actor) (JObj metadata) now "" "")
  end.

(** [auth.HashPassword]: the salt is drawn after the password was validated. *)
(* src/internal/auth/password.go:34-46 HashPassword *)
Definition hash_password (password : string) : useradmin (res string) :=
  try _ <- Ret (ValidatePassword password);
  do salt <- call (Salt argonSaltLength);
  Ret (HashPassword salt password).

(* src/internal/useradmin/service.go:60-62 Service.List *)
Definition Users_List : useradmin (res (list User)) := call Admin_ListUsers.

(* src/internal/useradmin/service.go:64-94 Service.Create *)
Definition Users_Create (actor : Actor) (input : CreateInput) : useradmin (res User) :=
  try email <- Ret (NormaliseEmail (CreateInput_Email input));
  let displayName := TrimSpace (CreateInput_DisplayName input) in
  try _ <- Ret (ValidateDisplayName displayName);
  try _ <- guard (CreateInput_Role input =?? RoleAdministrator) (Validation "role" "must be administrator");
  try passwordHash <- hash_password (CreateInput_Password input);
  try id <- call UserNewID;
  do now <- call UserClock;
  let user := mkUser id email displayName passwordHash (CreateInput_Role input) true now now None false in
  try event <- user_event actor "user.created" id [("role", JStr (CreateInput_Role input))] now;
  try _ <- call (Admin_CreateUser user event);
  done_with user.

(** The action that the audit trail names. *)
(* src/internal/useradmin/service.go:119-128 Service.Update *)
Definition update_action (current : User) (email : string) (enabled : bool) : string :=
  if negb (Bool.eqb (User_Enabled current) enabled) then if enabled then "user.enabled" else "user.disabled"
  else if negb (User_Email current =?? email) then "user.login_identifier_changed"
  else "user.updated".

(* src/internal/useradmin/service.go:96-138 Service.Update *)
Definition Users_Update (actor : Actor) (targetID : string) (input : UpdateInput) : useradmin (res User) :=
  try _ <- guard (ValidID targetID) (Validation "userId" "must be a valid identifier");
  try email <- Ret (NormaliseEmail (UpdateInput_Email input));
  let displayName := TrimSpace (UpdateInput_DisplayName input) in
  try _ <- Ret (ValidateDisplayName displayName);
  try _ <- guard (UpdateInput_Role input =?? RoleAdministrator) (Validation "role" "must be administrator");
  try _ <- guard (negb ((Actor_UserID actor =?? targetID) && negb (UpdateInput_Enabled input)))
    (NewError ErrorConflict "you cannot disable your current account");
  try current <- call (Admin_UserByID targetID);
  do now <- call UserClock;
  try event <- user_event actor (update_action current email (UpdateInput_Enabled input)) targetID
    [("role", JStr (UpdateInput_Role input)); ("enabled", JBool (UpdateInput_Enabled input));
     ("loginIdentifierChanged", JBool (negb (User_Email current =?? email)));
     ("displayNameChanged", JBool (negb (User_DisplayName current =?? displayName)))] now;
  call (Admin_UpdateUser targetID email displayName (UpdateInput_Enabled input) now event).

(* src/internal/useradmin/service.go:140-154 Service.ResetPassword *)
Definition Users_ResetPassword (actor : Actor) (targetID password : string) : useradmin (res unit) :=
  try _ <- guard (ValidID targetID) (Validation "userId" "must be a valid identifier");
  try passwordHash <- hash_password password;
  do now <- call UserClock;
  try event <- user_event actor "user.password_reset" targetID [("sessionsRevoked", JBool true)] now;
  call (Admin_ResetUserPassword targetID passwordHash now event).

(* src/internal/useradmin/service.go:158-158 Service.ChangeOwnPassword *)
Definition unauthenticated : error := NewError ErrorAuthentication "authentication is required".

(** The second factor, when there is a verifier and the user has one. *)
(* src/internal/useradmin/service.go:178-188 Service.ChangeOwnPassword *)
Definition second_factor (userID totpCode : string) : useradmin (res unit) :=
  if verifier then
    try required <- call (Verifier_RequiresMFA userID);
    only_if required (call (Verifier_VerifyTOTPForUser userID totpCode "password-change-code"))
  else done_with tt.

(* src/internal/useradmin/service.go:156-203 Service.ChangeOwnPassword *)
Definition Users_ChangeOwnPassword (actor : Actor) (currentSessionID currentPassword newPassword totpCode : string) :
  useradmin (res unit) :=
  let userID := Actor_UserID actor in
  try _ <- guard (ValidID userID) unauthenticated;
  try _ <- guard (ValidID currentSessionID) unauthenticated;
  do allowed <- call (Passwords_Allow userID);
  try _ <- guard allowed (NewError ErrorRateLimited "too many password attempts; try again later");
  try user <- call (Admin_UserByID userID);
  match VerifyPassword (User_PasswordHash user) currentPassword with
  | Err e => fail (WrapError ("verify current password: " +:+ Error_Error e) e)
  | Ok valid =>
      if negb valid then
        do _ <- call (Passwords_Failure userID);
        fail (NewError ErrorInvalidCredentials "current password is incorrect")
      else
        try _ <- second_factor userID totpCode;
        try passwordHash <- hash_password newPassword;
        do now <- call UserClock;
        try event <- user_event actor "user.password_changed" userID [("otherSessionsRevoked", JBool true)] now;
        try _ <- call (Admin_ChangeOwnPassword userID currentSessionID passwordHash now event);
        do _ <- call (Passwords_Success userID);
        done_with tt
  end.
End service.

(** * What the administration of users promises

    A user's own password changes only after the current password and, where the user has
    one, the second factor were verified. *)

Inductive user_fact : Type :=
| FLoaded (id : string) (r : res User)
| FRequired (id : string) (r : res bool)
| FVerified (id code operation : string) (r : res unit)
| FChange (id session hash : string) (r : res unit).

Definition user_view (ev : event userctl) : option user_fact :=
  match ev with
  | Event e x =>
      match e in userctl X return X → option user_fact with
      | Admin_UserByID id => λ r, Some (FLoaded id r)
      | Verifier_RequiresMFA id => λ r, Some (FRequired id r)
      | Verifier_VerifyTOTPForUser id c o => λ r, Some (FVerified id c o r)
      | Admin_ChangeOwnPassword id s h _ _ => λ r, Some (FChange id s h r)
      | _ => λ _, None
      end x
  end.

Ltac user_step := facts_step ltac:(fun _ => cbn [user_view option_list option_rect]).

Section spec.
Context {R : Runtime} {K : Crypto} (verifier : bool).

Definition no_change (f : list user_fact) : Prop := ∀ id s h r, FChange id s h r ∉ f.

(** The second factor of a user was verified, or the user has none. *)
Definition factor_checked (userID totpCode : string) (f : list user_fact) : Prop :=
  verifier = true → FRequired userID (Ok false) ∈ f ∨
    (FRequired userID (Ok true) ∈ f ∧ FVerified userID totpCode "password-change-code" (Ok tt) ∈ f).

(** A run that writes no password fails; a run that writes one has loaded the user, verified both factors before, and
    answers what the write answers. *)
Inductive change_run (userID session current new totpCode : string) : list user_fact → res unit → Prop :=
| change_refused f e : no_change f → change_run userID session current new totpCode f (Err e)
| change_made before user salt hash r :
    no_change before → FLoaded userID (Ok user) ∈ before →
    VerifyPassword (User_PasswordHash user) current = Ok true →
    factor_checked userID totpCode before →
    ValidatePassword new = Ok tt → HashPassword salt new = Ok hash →
    change_run userID session current new totpCode (before ++ [FChange userID session hash r]) r.

Lemma change_made_from userID session current new totpCode user f salt hash r :
  no_change f → VerifyPassword (User_PasswordHash user) current = Ok true → factor_checked userID totpCode f →
  ValidatePassword new = Ok tt → HashPassword salt new = Ok hash →
  change_run userID session current new totpCode ((FLoaded userID (Ok user) :: f) ++ [FChange userID session hash r]) r.
Proof.
  intros Hf Hu Hc Hv Hs. eapply change_made; try done; [unfold no_change in *; set_solver|set_solver|].
  intros Hk. destruct (Hc Hk) as [?|[? ?]]; [left|right]; set_solver.
Qed.

Lemma second_factor_checked userID totpCode : with_facts user_view (second_factor verifier userID totpCode)
  (λ f r, no_change f ∧ (r = Ok tt → factor_checked userID totpCode f)).
Proof.
  unfold second_factor, only_if, no_change, factor_checked. destruct verifier; [|by user_step; split; [set_solver|]].
  repeat user_step; (split; [set_solver|]); try done; intros Heq _; subst.
  - right. set_solver.
  - left. set_solver.
Qed.

Lemma hash_password_made password : with_facts user_view (hash_password password)
  (λ f r, f = [] ∧ ∀ hash, r = Ok hash → ValidatePassword password = Ok tt ∧ ∃ salt, HashPassword salt password = Ok hash).
Proof.
  unfold hash_password. user_step. user_step. destruct (ValidatePassword password) as [[]|e] eqn:Hv; [|done].
  user_step. user_step. user_step. split; [done|]. intros hash Hh. eauto.
Qed.

(** whatever the repository, the limiter, the verifier and the clock answer, a user's own password is
    written only after the stored hash of that user accepted the current password and, when a
    verifier is present, after it said that the user has no second factor or accepted the code;
    the new hash is one of the valid new password; success is reported only when the write
    succeeded. *)
Theorem password_change_guarded actor session current new totpCode :
  with_facts user_view (Users_ChangeOwnPassword verifier actor session current new totpCode)
    (change_run (Actor_UserID actor) session current new totpCode).
Proof.
  unfold Users_ChangeOwnPassword. cbv zeta. repeat user_step; try (by constructor; unfold no_change; set_solver).
  eapply facts_mono; [apply second_factor_checked|]. intros f r [Hnone Hchecked]. unfold no_change in Hnone.
  repeat user_step; try (by constructor; unfold no_change; set_solver).
  eapply facts_mono; [apply hash_password_made|]. intros g h [-> Hmade].
  unfold user_event. repeat user_step; try (by constructor; unfold no_change; set_solver).
  all: repeat match goal with u : unit |- _ => destruct u end; apply negb_false_iff in Heqb2 as ->.
  all: destruct (Hmade _ eq_refl) as (Hv & salt & Hs);
    exact (change_made_from _ _ _ _ _ _ _ _ _ _ Hnone Heqr0 (Hchecked eq_refl) Hv Hs).
Qed.
End spec.
