(* ===== verification/AuthWitness.v ===== *)
(** * The theorems on accounts, on concrete accounts *)

From S2P Require Import Prelude GoRuntime Json Domain Store StoreRecords Effects OperationsModel AuthModel.
From S2P Require Import Password AuthStore MFAStore Auth MFA AuthInvariant AuthHistory AuthSpec.

#[local] Existing Instance ascii_runtime.
#[local] Existing Instance ascii_runtime_laws.
#[local] Existing Instance c_collation.

(** ** Primitives for evaluation

    A key is the password, cut and filled to its length; a digest is the text itself. *)

Fixpoint fill (n : nat) (s : string) : string :=
  match n, s with
  | O, _ => ""
  | S n, EmptyString => String "0" (fill n "")
  | S n, String c s => String c (fill n s)
  end.

Lemma fill_length n s : String.length (fill n s) = n.
Proof. revert s. induction n as [|n IH]; intros [|c s]; cbn; congruence. Qed.

Definition plain_crypto : Crypto := {|
  hmac_sha256 := λ secret text, secret +:+ text;
  sha256_sum := λ s, s;
  argon2_IDKey := λ p s t m n l, fill (Z.to_nat l) p;
  totp_ValidateCustom := λ code secret t, Ok (code =?? secret);
  mail_ParseAddress := Some
|}.

#[local] Existing Instance plain_crypto.

Definition salt : string := "0123456789abcdef".
Definition password : string := "correct horse battery".
Definition stored_hash : string := from_option id "" (match HashPassword (Ok salt) password with Ok h => Some h | _ => None end).

Lemma password_roundtrip_witness : ∃ encoded, HashPassword (Ok salt) password = Ok encoded ∧
  VerifyPassword encoded password = Ok true ∧ VerifyPassword encoded "wrong horse battery" = Ok false.
Proof.
  destruct (HashPassword (Ok salt) password) as [encoded|e] eqn:H; [|vm_compute in H; discriminate].
  exists encoded. split; [done|].
  assert (Hlen : ∀ p s t m n l, 0 <= l → len (argon2_IDKey p s t m n l) = l).
  { intros p s t m n l Hl. unfold len. cbn [argon2_IDKey plain_crypto]. rewrite fill_length. lia. }
  destruct (password_roundtrip salt password encoded "wrong horse battery" Hlen eq_refl H) as [H1 H2].
  split; [exact H2|]. rewrite H1. by vm_compute.
Defined.

Lemma VerifyPassword_bounds_witness : ∃ salt memory iterations parallelism expected,
  8192 <= memory <= 1048576 ∧ 1 <= iterations <= 20 ∧ 1 <= parallelism <= 16 ∧
  8 <= len salt <= 64 ∧ 16 <= len expected <= 64 ∧
  true = (argon2_IDKey password salt iterations memory parallelism (len expected) =?? expected).
Proof. apply (VerifyPassword_bounds stored_hash password true). by vm_compute. Defined.

(** ** Accounts *)

Definition note (id : string) : AuditEvent :=
  mkAuditEvent id "user" None "" "account.changed" "user" None "" (JObj []) 0 "" "".

Definition alice : User := mkUser "alice" "alice@example.org" "Alice" stored_hash RoleAdministrator true 0 0 None false.
Definition bob : User := mkUser "bob" "bob@example.org" "Bob" stored_hash RoleAdministrator false 0 0 None false.
Definition login_session (id user hash : string) : Session := mkSession id user hash hash 10 1000 10 None "" "".
Definition sealed : EncryptedPayload := mkEncryptedPayload "123456" "nonce" 1 "AES-256-GCM".
Definition recovery : list MFARecoveryCode := [mkMFARecoveryCode "r1" "alice" "code" 20 None].
Definition challenge (id hash : string) : MFAChallenge := mkMFAChallenge id "alice" hash 30 330 None 0 "" "".

Definition set_up : list auth_op :=
  [OpCreateInitialUser alice (login_session "s1" "alice" "h1") (note "e1") (note "e2");
   OpUpsertPendingMFA (mkUserMFA "alice" sealed 15 615 None 0);
   OpEnableMFA "alice" "s1" recovery 20 (note "e3");
   OpCreateMFAChallenge (challenge "c1" "t1")].

Lemma administrator_remains_witness :
  has_administrator (run_auth [OpUpdateUser "alice" "alice@example.org" "Alice" false 50 (note "e4")]
    (run_auth set_up empty_AuthDB)).
Proof.
  refine (proj1 (administrator_remains [OpUpdateUser "alice" "alice@example.org" "Alice" false 50 (note "e4")]
    (run_auth set_up empty_AuthDB) bob (login_session "s9" "bob" "h9") (note "e5") (note "e6") _)).
  eexists "alice", _. split; [by vm_compute|by vm_compute].
Defined.

Definition revoke : auth_op := OpRevokeSession "s1" 40 (note "e4").

Lemma ended_session_never_authenticates_witness :
  is_Ok (AuthenticatedSession "h1" 45 (run_auth set_up empty_AuthDB)) = true ∧
  AuthenticatedSession "h1" 45 (run_auth [OpTouchSession "s1" 44] (apply_auth revoke (run_auth set_up empty_AuthDB))) =
    Err authentication_required.
Proof.
  split; [by vm_compute|].
  destruct (op_tx revoke (run_auth set_up empty_AuthDB)) as [[u db']|e] eqn:H.
  - assert (apply_auth revoke (run_auth set_up empty_AuthDB) = db') as -> by (unfold apply_auth, commit; by rewrite H).
    destruct (sessions (run_auth set_up empty_AuthDB) !! "s1") as [s|] eqn:Hs; [|vm_compute in Hs; discriminate].
    assert (Session_TokenHash s = "h1" ∧ (Session_ID s =?? "s1") && not_revoked s = true) as [Hh Hp].
    { assert (option_map (λ s, (Session_TokenHash s, (Session_ID s =?? "s1") && not_revoked s))
        (sessions (run_auth set_up empty_AuthDB) !! "s1") = Some ("h1", true)) as E by by vm_compute.
      rewrite Hs in E. by injection E. }
    rewrite <- Hh.
    refine (ended_session_never_authenticates set_up revoke [OpTouchSession "s1" 44] u db' _ 40 "s1" s 45
      eq_refl H Hs Hp _).
    intros o s' [->|[]%not_elem_of_nil]%elem_of_cons. done.
  - assert (is_Ok (op_tx revoke (run_auth set_up empty_AuthDB)) = true) as E by by vm_compute. by rewrite H in E.
Defined.

(** Six wrong codes: the sixth is not answered. *)
Definition wrong_codes : list auth_op := replicate 6 (OpFailMFAChallenge "t1" 40).

Lemma challenge_answers_witness :
  answers_of "t1" wrong_codes (run_auth set_up empty_AuthDB) = replicate 5 false ∧
  ∃ n, (answers_of "t1" wrong_codes (run_auth set_up empty_AuthDB) = replicate n false ∧ (n <= 5)%nat) ∨
       (answers_of "t1" wrong_codes (run_auth set_up empty_AuthDB) = replicate n false ++ [true] ∧ (n <= 4)%nat).
Proof.
  split; [by vm_compute|]. apply (challenge_answers set_up "t1" wrong_codes).
  intros op c Hop. unfold wrong_codes in Hop. apply elem_of_replicate in Hop as [-> _]. done.
Defined.

(** A recovery code is used, then presented again with the next login. *)
Definition redeem_twice : list auth_op :=
  [OpCompleteMFAChallenge "t1" "code" 40 None (login_session "s2" "alice" "h2") (note "e5");
   OpCreateMFAChallenge (challenge "c2" "t2");
   OpCompleteMFAChallenge "t2" "code" 50 None (login_session "s3" "alice" "h3") (note "e6")].

Lemma recovery_code_once_witness :
  redemptions "alice" "code" redeem_twice (run_auth set_up empty_AuthDB) = 1%nat ∧
  (redemptions "alice" "code" redeem_twice (run_auth set_up empty_AuthDB) <= 1)%nat.
Proof.
  split; [by vm_compute|]. apply (recovery_code_once set_up "alice" "code" redeem_twice); [done|].
  intros op c Hop Hc. unfold redeem_twice in Hop. rewrite !elem_of_cons in Hop.
  destruct Hop as [->|[->|[->|Hn]]]; [by apply not_elem_of_nil in Hc..|by apply not_elem_of_nil in Hn].
Defined.

(** ** Logins *)

Definition atlas_auth : AuthService := mkAuthService "secret" stored_hash true true.

(** Answers to a wrong password, to the draw of recovery codes, and to nothing else. *)
Definition refusing (X : Type) (e : authctl X) : unit → X * unit :=
  match e in authctl X return unit → X * unit with
  | Clock => λ _, (60, tt)
  | AuthID => λ _, (Ok "e7", tt)
  | RandomBytes n => λ _, (Ok (fill (Z.to_nat n) "random"), tt)
  | Limit_Allow _ _ => λ _, (true, tt)
  | Limit_Failure _ _ | Limit_Success _ _ => λ _, (tt, tt)
  | Users_ByEmail _ => λ _, (Ok alice, tt)
  | Users_RecordAuditEvent _ => λ _, (Ok tt, tt)
  | SessionDuration => λ _, (0, tt)
  | TOTP_Generate _ => λ _, (Err mfa_unavailable, tt)
  | Secret_Encrypt _ _ => λ _, (Err mfa_unavailable, tt)
  | Secret_Decrypt _ _ => λ _, (Err mfa_unavailable, tt)
  | Users_HasUsers | MFA_Enabled _ => λ _, (Err mfa_unavailable, tt)
  | Users_AuthenticatedSession _ _ => λ _, (Err mfa_unavailable, tt)
  | MFA_UserByID _ => λ _, (Err mfa_unavailable, tt)
  | MFA_UserMFA _ => λ _, (Err mfa_unavailable, tt)
  | MFA_ChallengeByTokenHash _ _ => λ _, (Err mfa_unavailable, tt)
  | MFA_ResetFromHost _ _ _ => λ _, (Err mfa_unavailable, tt)
  | Users_CreateInitialUser _ _ _ _ | Users_CreateLoginSession _ _ | Users_TouchSession _ _ | Users_RevokeSession _ _ _
  | MFA_UpsertPending _ | MFA_CreateChallenge _ | MFA_FailChallenge _ _ | MFA_ConsumeChallenge _ _ _ _
  | MFA_CompleteChallenge _ _ _ _ _ _ | MFA_Enable _ _ _ _ _ | MFA_ReplaceCodes _ _ _ _ _ | MFA_Disable _ _ _ _ =>
      λ _, (Err mfa_unavailable, tt)
  end.

Definition anonymous_event : AuditEvent :=
  mkAuditEvent "e7" "anonymous" None "" "auth.login.failed" "authentication" None "rq" (JObj
    [("sourceIp", JStr "ip"); ("identifierHash", JStr (sha256_hex "alice@example.org"));
     ("outcome", JStr "invalid_credentials")]) 60 "" "".

Definition refusal_trace : list (event authctl) :=
  [Event (Limit_Failure LoginAttempts ("ip" +:+ nul +:+ "alice@example.org")) tt; Event Clock 60;
   Event AuthID (Ok "e7"); Event (Users_RecordAuditEvent anonymous_event) (Ok tt)].

Lemma login_failure_uniform_witness :
  traces (Login atlas_auth "alice@example.org" "correct horse battery" "rq" "ip" "ua")
    (Event (Limit_Allow LoginAttempts ("ip" +:+ nul +:+ login_identifier "alice@example.org")) true ::
     Event (Users_ByEmail (login_identifier "alice@example.org")) (Err (not_found "user")) :: refusal_trace)
    (Err invalid_credentials).
Proof.
  apply (login_failure_uniform atlas_auth "alice@example.org" "wrong horse battery" "correct horse battery" "rq" "ip" "ua"
    (Ok alice) (Err (not_found "user"))).
  - exists false. split; [by vm_compute|done].
  - exists true. split; [by vm_compute|done].
  - apply (interp_traces refusing _ tt _ tt). by vm_compute.
Defined.

Definition drawn_length (ev : event authctl) : option nat :=
  match ev with
  | Event e x => match e in authctl X return X → option nat with
      | RandomBytes _ => λ r, match r with Ok raw => Some (String.length raw) | Err _ => None end
      | _ => λ _, None
      end x
  end.

Lemma recovery_codes_recognised_witness : ∃ codes records,
  length codes = 10%nat ∧ Forall2 (recognised "alice") codes records.
Proof.
  destruct (interp refusing (newRecoveryCodes "alice") tt) as [[[[codes records]|e] u] tr] eqn:H.
  - exists codes, records. apply (recovery_codes_recognised "alice" tr); [|exact (interp_traces _ _ _ _ _ _ H)].
    assert (forallb (λ n, Nat.eqb n 10) (omap drawn_length tr) = true) as Hd.
    { replace tr with ((interp refusing (newRecoveryCodes "alice") tt).2) by (by rewrite H). by vm_compute. }
    intros raw Hraw. rewrite forallb_forall in Hd. apply Nat.eqb_eq, Hd, list_elem_of_In, list_elem_of_omap.
    eexists. split; [exact Hraw|done].
  - assert (is_Ok (interp refusing (newRecoveryCodes "alice") tt).1.1 = true) as E by by vm_compute. by rewrite H in E.
Defined.
