(* ===== verification/DnsProbe.v ===== *)
(** * internal/haoperations/dnsprobe.go: probes of the DNS service of a node

    The query that is sent and the reading of its answer, byte by byte; the exchange
    over a connection; the outcome of a probe over the configured protocols; and the
    confirmation, which repeats a failed probe before it is believed. *)

From S2P Require Import Prelude GoRuntime Json Domain Effects.

(** ** The types *)

(* src/internal/haoperations/dnsprobe.go:19-27 DNSProbeRequest *)
Record DNSProbeRequest := mkDNSProbeRequest {
  ProbeRequest_Host : string;
  ProbeRequest_Port : Z;
  ProbeRequest_Name : string;
  ProbeRequest_Type : string;
  ProbeRequest_ExpectedRCode : Z;
  ProbeRequest_UDP : bool;
  ProbeRequest_TCP : bool
}.

(** The fields that are kept with the result of the process only. *)
(* src/internal/haoperations/models.go:73-77 DNSProbeResult *)
Record Confirmation := mkConfirmation {
  Attempts : Z;
  Elapsed : Duration;
  RecoveredAfterRetry : bool;
  PriorErrorCode : string;
  PriorProtocols : list string
}.
(* src/internal/haoperations/dnsprobe.go:136-136 WireDNSProber.Probe *)
Definition no_confirmation : Confirmation := mkConfirmation 0 0 false "" [].

(* src/internal/haoperations/models.go:57-78 DNSProbeResult *)
Record DNSProbeResult := mkDNSProbeResult {
  DNSProbe_ID : string;
  DNSProbe_ClusterID : string;
  DNSProbe_NodeID : string;
  DNSProbe_Status : string;
  DNSProbe_UDPStatus : string;
  DNSProbe_TCPStatus : string;
  DNSProbe_ResponseCode : option Z;
  DNSProbe_LatencyMS : option Z;
  DNSProbe_AddressFamily : string;
  DNSProbe_ErrorCode : string;
  DNSProbe_ProbedAt : Time;
  DNSProbe_Confirmation : Confirmation
}.

Definition with_confirmation (c : Confirmation) (r : DNSProbeResult) : DNSProbeResult :=
  mkDNSProbeResult (DNSProbe_ID r) (DNSProbe_ClusterID r) (DNSProbe_NodeID r) (DNSProbe_Status r) (DNSProbe_UDPStatus r)
    (DNSProbe_TCPStatus r) (DNSProbe_ResponseCode r) (DNSProbe_LatencyMS r) (DNSProbe_AddressFamily r) (DNSProbe_ErrorCode r)
    (DNSProbe_ProbedAt r) c.

(** The two errors of package context, by their texts; [errors.Is] follows the chain. *)
Definition Canceled : error := TextError "context canceled".
Definition DeadlineExceeded : error := TextError "context deadline exceeded".
(* src/internal/haoperations/dnsprobe.go:90-90 retryableDNSProbeFailure *)
Fixpoint is_context_error (e : error) : bool :=
  match e with
  | TextError t => (t =?? "context canceled") || (t =?? "context deadline exceeded")
  | WrapError _ e => is_context_error e
  | DomainError _ _ _ (Some e) => is_context_error e
  | DomainError _ _ _ None => false
  end.

(** ** Queries *)

Definition bytes_of (s : string) : list Z := byte_of <$> String.list_ascii_of_string s.

(** [binary.BigEndian.Uint16] and [PutUint16]. *)
Definition Uint16 (l : list Z) : Z :=
  match l with a :: b :: _ => Z.lor (Z.shiftl a 8) b | _ => 0 end.
Definition PutUint16 (v : Z) : list Z := [Z.land (Z.shiftr v 8) 255; Z.land v 255].

Definition TrimSuffix (s suffix : string) : string :=
  if String.prefix (String.rev suffix) (String.rev s) then String.substring 0 (String.length s - String.length suffix) s
  else s.

(* src/internal/haoperations/dnsprobe.go:282-288 dnsQuery *)
Fixpoint encode_labels (labels : list string) : res (list Z) :=
  match labels with
  | [] => Ok [0]
  | label :: rest =>
      if (label =?? "") || (63 <? len label) then Err (TextError "DNS probe name is invalid")
      else let? tail := encode_labels rest in Ok (len label :: bytes_of label ++ tail)
  end.

(* src/internal/haoperations/dnsprobe.go:290-299 dnsQuery *)
Definition record_type (recordType : string) : res Z :=
  if recordType =?? "A" then Ok 1
  else if recordType =?? "AAAA" then Ok 28
  else if recordType =?? "NS" then Ok 2
  else Err (TextError "DNS probe type is invalid").

Section probe.
Context {R : Runtime}.

(** [random] is what [rand.Read] gives: two bytes. *)
(* src/internal/haoperations/dnsprobe.go:264-303 dnsQuery *)
Definition dnsQuery (random : res (list Z)) (name recordType : string) : res (list Z * Z) :=
  let name := TrimSpace name in
  if name =?? "" then Err (TextError "DNS probe name is empty")
  else
    let? idBytes := random in
    let id := Uint16 idBytes in
    let? question := if name =?? "." then Ok [0] else encode_labels (Split (TrimSuffix name ".") ".") in
    let? typeCode := record_type recordType in
    Ok (PutUint16 id ++ PutUint16 256 ++ PutUint16 1 ++ replicate 6 0 ++ question ++ PutUint16 typeCode ++ PutUint16 1, id).

(** ** Answers *)

(** The error of an exchange: a [net.Error] that is a timeout, or another one. *)
Inductive exchange_error := NetTimeout | OtherError.

(* src/internal/haoperations/dnsprobe.go:142-147 WireDNSProber.Probe *)
Record protocolOutcome := mkOutcome {
  Outcome_RCode : Z;
  Outcome_Latency : Z;
  Outcome_Family : string;
  Outcome_Err : option exchange_error
}.

(* src/internal/haoperations/dnsprobe.go:305-317 validateDNSResponse *)
Definition validateDNSResponse (response : list Z) (id latency : Z) (family : string) : protocolOutcome :=
  if Z.of_nat (length response) <? 12 then mkOutcome (-1) latency family (Some OtherError)
  else if negb (Uint16 response =? id) then mkOutcome (-1) latency family (Some OtherError)
  else
    let flags := Uint16 (drop 2 response) in
    if Z.land flags 32768 =? 0 then mkOutcome (-1) latency family (Some OtherError)
    else mkOutcome (Z.land flags 15) latency family None.

(* src/internal/haoperations/dnsprobe.go:319-330 dnsErrorCode *)
Definition dnsErrorCode (err : option exchange_error) (actual expected : Z) : string :=
  match err with
  | Some NetTimeout => "DNS_PROBE_TIMEOUT"
  | Some OtherError => "DNS_PROBE_UNREACHABLE"
  | None => if negb (actual =? expected) then "DNS_PROBE_UNEXPECTED_RCODE" else "DNS_PROBE_FAILED"
  end.

(** ** Exchanges

    The calls on a connection, which its network names. *)

Inductive netctl : Type → Type :=
| Net_Now : netctl Time
| Net_Random (n : Z) : netctl (res (list Z))
(* the host of the remote address, when it can be split *)
| Net_Dial (network address : string) : netctl (exchange_error + option string)
| Net_Write (network : string) (message : list Z) : netctl (option exchange_error)
(* [io.ReadFull]: as many bytes as asked for *)
| Net_ReadFull (network : string) (n : Z) : netctl (exchange_error + list Z)
(* one datagram, cut to the size of the buffer *)
| Net_Read (network : string) (n : Z) : netctl (exchange_error + list Z).

Abbreviation exchanging := (prog netctl).

(* src/internal/haoperations/dnsprobe.go:15-15 maxDNSMessage *)
Definition maxDNSMessage : Z := 4096.

(** A failed exchange. *)
(* src/internal/haoperations/dnsprobe.go:223-223 WireDNSProber.exchange *)
Definition lost (family : string) (e : exchange_error) : exchanging protocolOutcome :=
  Ret (mkOutcome (-1) 0 family (Some e)).

(* src/internal/haoperations/dnsprobe.go:261-261 WireDNSProber.exchange *)
Definition answered (response : list Z) (id : Z) (started : Time) (family : string) : exchanging protocolOutcome :=
  do now <- call Net_Now;
  Ret (validateDNSResponse response id (Z.quot (time_Sub now started) millisecond) family).

(* src/internal/haoperations/dnsprobe.go:218-262 WireDNSProber.exchange *)
Definition exchange (network address : string) (message : list Z) (id : Z) : exchanging protocolOutcome :=
  do started <- call Net_Now;
  do dialled <- call (Net_Dial network address);
  match dialled with
  | inl e => lost "" e
  | inr remote =>
      do _ <- call Net_Now;
      let family := match remote with
        | Some host => if string_elem ":" host then "ipv6" else "ipv4"
        | None => "ipv4"
        end in
      if network =?? "tcp" then
        do written <- call (Net_Write network (PutUint16 (Z.of_nat (length message)) ++ message));
        match written with
        | Some e => lost family e
        | None =>
            do size <- call (Net_ReadFull network 2);
            match size with
            | inl e => lost family e
            | inr size =>
                let length := Uint16 size in
                if (length <? 12) || (maxDNSMessage <? length) then lost family OtherError
                else
                  do response <- call (Net_ReadFull network length);
                  match response with
                  | inl e => lost family e
                  | inr response => answered response id started family
                  end
            end
        end
      else
        do written <- call (Net_Write network message);
        match written with
        | Some e => lost family e
        | None =>
            do response <- call (Net_Read network maxDNSMessage);
            match response with
            | inl e => lost family e
            | inr response => answered response id started family
            end
        end
  end.

(** ** A probe over the configured protocols *)

(* src/internal/haoperations/dnsprobe.go:176-176 WireDNSProber.Probe *)
Definition Outcome_matches (expected : Z) (o : protocolOutcome) : bool :=
  bool_decide (Outcome_Err o = None) && (Outcome_RCode o =? expected).

(* src/internal/haoperations/dnsprobe.go:208-208 WireDNSProber.Probe *)
Definition probe_failed_error : error := TextError "DNS service probe failed".

(** What the outcomes of the two exchanges make of a probe; an outcome is read only for a
    protocol that the request has. *)
(* src/internal/haoperations/dnsprobe.go:173-208 WireDNSProber.Probe *)
Definition probe_outcome (request : DNSProbeRequest) (at_ : Time) (udp tcp : protocolOutcome) :
  DNSProbeResult * option error :=
  let expected := ProbeRequest_ExpectedRCode request in
  let udp_ok := ProbeRequest_UDP request && Outcome_matches expected udp in
  let tcp_ok := ProbeRequest_TCP request && Outcome_matches expected tcp in
  let udp_code := if ProbeRequest_UDP request && negb udp_ok
    then dnsErrorCode (Outcome_Err udp) (Outcome_RCode udp) expected else "" in
  let tcp_code := if ProbeRequest_TCP request && negb tcp_ok
    then dnsErrorCode (Outcome_Err tcp) (Outcome_RCode tcp) expected else "" in
  let code := if udp_code =?? "" then tcp_code else udp_code in
  let udp_family := if udp_ok then Outcome_Family udp else "" in
  let family := if tcp_ok && (udp_family =?? "") then Outcome_Family tcp else udp_family in
  let rcode := if tcp_ok then Some (Outcome_RCode tcp) else if udp_ok then Some (Outcome_RCode udp) else None in
  let status (configured ok : bool) := if configured then if ok then "healthy" else "failed" else "disabled" in
  let required := Z.b2z (ProbeRequest_UDP request) + Z.b2z (ProbeRequest_TCP request) in
  let successes := Z.b2z udp_ok + Z.b2z tcp_ok in
  let latency := (if udp_ok then Outcome_Latency udp else 0) + (if tcp_ok then Outcome_Latency tcp else 0) in
  let result state latency code := mkDNSProbeResult "" "" "" state (status (ProbeRequest_UDP request) udp_ok)
    (status (ProbeRequest_TCP request) tcp_ok) rcode latency family code at_ no_confirmation in
  if (0 <? required) && (successes =? required)
  then (result "healthy" (Some (Z.quot latency successes)) "", None)
  else (result "failed" None code, Some probe_failed_error).

Definition JoinHostPort (host port : string) : string :=
  if string_elem ":" host || string_elem "%" host then "[" +:+ host +:+ "]:" +:+ port else host +:+ ":" +:+ port.

(** An exchange over a protocol that the request has. *)
(* src/internal/haoperations/dnsprobe.go:152-171 WireDNSProber.Probe *)
Definition run_protocol (configured : bool) (network address : string) (message : list Z) (id : Z) :
  exchanging protocolOutcome :=
  if configured then exchange network address message id else Ret (mkOutcome 0 0 "" None).

(** The two exchanges share nothing: they are run one after the other. *)
(* src/internal/haoperations/dnsprobe.go:135-209 WireDNSProber.Probe *)
Definition Wire_Probe (request : DNSProbeRequest) : exchanging (DNSProbeResult * option error) :=
  do at_ <- call Net_Now;
  do random <- call (Net_Random 2);
  match dnsQuery random (ProbeRequest_Name request) (ProbeRequest_Type request) with
  | Err e => Ret (mkDNSProbeResult "" "" "" "failed" "disabled" "disabled" None None "" "" at_ no_confirmation, Some e)
  | Ok (message, id) =>
      let address := JoinHostPort (ProbeRequest_Host request) (itoa (ProbeRequest_Port request)) in
      do udp <- run_protocol (ProbeRequest_UDP request) "udp" address message id;
      do tcp <- run_protocol (ProbeRequest_TCP request) "tcp" address message id;
      Ret (probe_outcome request at_ udp tcp)
  end.
End probe.

(** ** Confirmation *)

Inductive confirmctl : Type → Type :=
| Confirm_Now : confirmctl Time
(* ctx.Err() *)
| Confirm_CtxErr : confirmctl (option error)
| Confirm_Probe (request : DNSProbeRequest) : confirmctl (DNSProbeResult * option error)
(* a wait, which the context ends *)
| Confirm_Wait (delay : Duration) : confirmctl (option error).

Abbreviation confirming := (prog confirmctl).

(* src/internal/haoperations/dnsprobe.go:17-17 defaultDNSProbeConfirmationBackoffs *)
Definition defaultDNSProbeConfirmationBackoffs : list Duration := [250 * millisecond; 500 * millisecond].

(* src/internal/haoperations/dnsprobe.go:115-120 nonNegativeDuration *)
Definition nonNegativeDuration (value : Duration) : Duration := if value <? 0 then 0 else value.

(* src/internal/haoperations/service.go:283-292 failedDNSProbeProtocols *)
Definition failedDNSProbeProtocols (result : DNSProbeResult) : list string :=
  (if DNSProbe_UDPStatus result =?? "failed" then ["udp"] else []) ++
  (if DNSProbe_TCPStatus result =?? "failed" then ["tcp"] else []).

(** The error codes that a later attempt may not meet. *)
(* src/internal/haoperations/dnsprobe.go:89-99 retryableDNSProbeFailure *)
Definition retryableDNSProbeFailure (ctxErr : option error) (result : DNSProbeResult) (probeErr : option error) : bool :=
  negb (bool_decide (is_Some ctxErr)) &&
  negb (match probeErr with Some e => is_context_error e | None => false end) &&
  existsb (String.eqb (DNSProbe_ErrorCode result))
    ["DNS_PROBE_TIMEOUT"; "DNS_PROBE_UNREACHABLE"; "DNS_PROBE_UNEXPECTED_RCODE"; "DNS_PROBE_FAILED"].

(* src/internal/haoperations/dnsprobe.go:65-66 confirmingDNSProber.Probe *)
Definition attempted (attempt : Z) (elapsed : Duration) (r : DNSProbeResult) : DNSProbeResult :=
  let c := DNSProbe_Confirmation r in
  with_confirmation (mkConfirmation attempt elapsed (RecoveredAfterRetry c) (PriorErrorCode c) (PriorProtocols c)) r.

(* src/internal/haoperations/dnsprobe.go:71-73 confirmingDNSProber.Probe *)
Definition recovered (attempt : Z) (code : string) (protocols : list string) (r : DNSProbeResult) : DNSProbeResult :=
  let c := DNSProbe_Confirmation r in
  with_confirmation (mkConfirmation (Attempts c) (Elapsed c) (1 <? attempt) code protocols) r.

(* src/internal/haoperations/dnsprobe.go:53-53 confirmingDNSProber.Probe *)
Definition empty_result : DNSProbeResult :=
  mkDNSProbeResult "" "" "" "" "" "" None None "" "" time_zero no_confirmation.

Section confirm.
(** [configured]: the prober that is wrapped is not nil. *)
Context (configured : bool) (backoffs : list Duration) (request : DNSProbeRequest).

(** [None]: the fuel is used up. *)
(* src/internal/haoperations/dnsprobe.go:57-86 confirmingDNSProber.Probe *)
Fixpoint confirm_loop (fuel : nat) (started : Time) (attempt : Z) (result : DNSProbeResult) (probeErr : option error)
  (priorCode : string) (priorProtocols : list string) : confirming (option (DNSProbeResult * option error)) :=
  match fuel with
  | O => Ret None
  | S fuel =>
      if Z.of_nat (length backoffs) + 1 <? attempt then Ret (Some (result, probeErr))
      else
        do ctxErr <- call Confirm_CtxErr;
        match ctxErr with
        | Some e => Ret (Some (result, Some e))
        | None =>
            if negb configured then Ret (Some (result, Some (TextError "DNS prober is not configured")))
            else
              do probed <- call (Confirm_Probe request);
              do now <- call Confirm_Now;
              let result := attempted attempt (nonNegativeDuration (time_Sub now started)) probed.1 in
              let probeErr := probed.2 in
              do ctxErr <- call Confirm_CtxErr;
              match ctxErr with
              | Some e => Ret (Some (result, Some e))
              | None =>
                  if bool_decide (probeErr = None) && (DNSProbe_Status result =?? "healthy")
                  then Ret (Some (recovered attempt priorCode priorProtocols result, None))
                  else if Z.of_nat (length backoffs) <? attempt then Ret (Some (result, probeErr))
                  else
                    do ctxErr <- call Confirm_CtxErr;
                    if negb (retryableDNSProbeFailure ctxErr result probeErr) then Ret (Some (result, probeErr))
                    else
                      do waited <- call (Confirm_Wait (nth (Z.to_nat (attempt - 1)) backoffs 0));
                      match waited with
                      | Some e =>
                          do now <- call Confirm_Now;
                          Ret (Some (attempted attempt (nonNegativeDuration (time_Sub now started)) result, Some e))
                      | None =>
                          confirm_loop fuel started (attempt + 1) result probeErr (DNSProbe_ErrorCode result)
                            (failedDNSProbeProtocols result)
                      end
              end
        end
  end.

(* src/internal/haoperations/dnsprobe.go:51-87 confirmingDNSProber.Probe *)
Definition Confirming_Probe (fuel : nat) : confirming (option (DNSProbeResult * option error)) :=
  do started <- call Confirm_Now;
  confirm_loop fuel started 1 empty_result None "" [].
End confirm.
