(* ===== verification/DnsProbeSpec.v ===== *)
(** * What the DNS probes promise

    A query carries the name and the type that were asked for; a probe is healthy exactly
    when every configured protocol answered as expected; a failure is confirmed by a bounded
    number of attempts, and the confirmation ends. *)

From S2P Require Import Prelude GoRuntime Json Domain Effects DnsProbe.

(** ** Queries *)

Definition string_of_bytes (l : list Z) : string := String.string_of_list_ascii (ascii_of_byte <$> l).

Lemma string_of_bytes_of s : string_of_bytes (bytes_of s) = s.
Proof.
  unfold string_of_bytes, bytes_of. induction s as [|c s IH]; [done|]. cbn in *. rewrite IH. f_equal.
  by destruct c as [[] [] [] [] [] [] [] []].
Qed.

Lemma length_bytes_of s : Z.of_nat (length (bytes_of s)) = len s.
Proof. unfold bytes_of, len. rewrite length_fmap. f_equal. induction s as [|c s IH]; cbn; congruence. Qed.

(** The reader of a question: labels up to the empty one, and what follows them. *)
Fixpoint read_labels (fuel : nat) (l : list Z) : option (list string * list Z) :=
  match fuel, l with
  | S fuel, n :: rest =>
      if n =? 0 then Some ([], rest)
      else
        '(labels, tail) ← read_labels fuel (drop (Z.to_nat n) rest);
        Some (string_of_bytes (take (Z.to_nat n) rest) :: labels, tail)
  | _, _ => None
  end.

Lemma encode_labels_read labels question tail : encode_labels labels = Ok question →
  read_labels (S (length labels)) (question ++ tail) = Some (labels, tail) ∧
  Forall (λ label, 1 <= len label <= 63) labels.
Proof.
  revert question. induction labels as [|label rest IH]; intros question; cbn [encode_labels].
  { intros [= <-]. by split; [|constructor]. }
  destruct (label =?? "") eqn:He; [done|]. cbn. destruct (63 <? len label) eqn:Hl; [done|].
  destruct (encode_labels rest) as [q|e] eqn:Hq; [|done]. intros [= <-].
  destruct (IH q eq_refl) as [IHr IHf]. pose proof (length_bytes_of label) as Hn.
  assert (1 <= len label). { destruct label; [done|]. unfold len. cbn. lia. }
  split; [|constructor; [lia|done]]. cbn [app read_labels]. destruct (len label =? 0) eqn:Hz; [lia|].
  rewrite <- app_assoc, drop_app_length', take_app_length' by lia. cbn in IHr. rewrite IHr. cbn.
  by rewrite string_of_bytes_of.
Qed.

Lemma Split_not_nil s sep : Split s sep ≠ [].
Proof. destruct s as [|c s]; cbn; [done|]. case_bool_decide; [done|]. by destruct (Split s sep). Qed.

Lemma Join_Split s sep : Join (Split s sep) (String sep "") = s.
Proof.
  induction s as [|c s IH]; [done|]. cbn [Split]. pose proof (Split_not_nil s sep) as Hn. case_bool_decide as Hc.
  - subst. destruct (Split s sep) as [|part rest] eqn:E; [done|]. change (String sep (Join (part :: rest) (String sep "")) = String sep s).
    by rewrite IH.
  - destruct (Split s sep) as [|part [|next rest]]; [done| |].
    + cbn in *. by rewrite IH.
    + change (String c (Join (part :: next :: rest) (String sep "")) = String c s). by rewrite IH.
Qed.

Section queries.
Context {R : Runtime}.

(** The labels of a name, written with or without the final dot. *)
Definition labels_of (name : string) : list string :=
  if TrimSpace name =?? "." then [] else Split (TrimSuffix (TrimSpace name) ".") ".".

(** C24: a query that is made holds, after its identifier, one question, and reading it back gives
    the labels of the name that was asked for, each of 1 to 63 bytes and together the name,
    with the code of the type and the class of the internet. *)
Theorem dnsQuery_roundtrip random name recordType message id :
  dnsQuery random name recordType = Ok (message, id) →
  ∃ question code,
    message = PutUint16 id ++ [1; 0; 0; 1; 0; 0; 0; 0; 0; 0] ++ question ∧
    record_type recordType = Ok code ∧
    read_labels (S (length (labels_of name))) question = Some (labels_of name, PutUint16 code ++ [0; 1]) ∧
    Forall (λ label, 1 <= len label <= 63) (labels_of name) ∧
    (TrimSpace name ≠ "." → Join (labels_of name) "." = TrimSuffix (TrimSpace name) ".").
Proof.
  unfold dnsQuery, labels_of. cbv zeta. destruct (TrimSpace name =?? ""); [done|].
  destruct random as [idBytes|e]; [|done]. case_bool_decide as Hdot.
  - destruct (record_type recordType) as [code|e] eqn:Hc; [|done]. intros [= <- <-].
    exists ([0] ++ PutUint16 code ++ PutUint16 1), code. by split_and!; [| | | |done].
  - destruct (encode_labels _) as [q|e] eqn:Hq; [|done].
    destruct (record_type recordType) as [code|e] eqn:Hc; [|done]. intros [= <- <-].
    exists (q ++ PutUint16 code ++ PutUint16 1), code.
    destruct (encode_labels_read _ _ (PutUint16 code ++ PutUint16 1) Hq) as [Hr Hf].
    split_and!; [done|done|exact Hr|done|]. intros _. apply Join_Split.
Qed.

(** An answer is accepted exactly when it has a header, the identifier and the response flag. *)
Lemma validateDNSResponse_accepts response id latency family :
  Outcome_Err (validateDNSResponse response id latency family) = None ↔
  12 <= Z.of_nat (length response) ∧ Uint16 response = id ∧ Z.land (Uint16 (drop 2 response)) 32768 ≠ 0.
Proof.
  unfold validateDNSResponse. destruct (_ <? 12) eqn:H1; [split; [done|lia]|].
  destruct (negb (Uint16 response =? id)) eqn:H2; [split; [done|]; rewrite negb_true_iff in H2; lia|].
  rewrite negb_false_iff in H2. cbv zeta. destruct (_ =? 0) eqn:H3; cbn; [split; [done|]; lia|]. split; [|done]. intros _. lia.
Qed.

(** The outcome that a healthy protocol needs. *)
Definition as_expected (request : DNSProbeRequest) (o : protocolOutcome) : Prop :=
  Outcome_Err o = None ∧ Outcome_RCode o = ProbeRequest_ExpectedRCode request.

Lemma Outcome_matches_spec request o : Outcome_matches (ProbeRequest_ExpectedRCode request) o = true ↔ as_expected request o.
Proof.
  unfold Outcome_matches, as_expected. rewrite andb_true_iff, bool_decide_eq_true. by rewrite Z.eqb_eq.
Qed.

(** a probe is healthy exactly when it has a protocol and every protocol that it has answered
    without an error and with the expected code; then, and only then, it reports no error, no
    error code and a latency; and a protocol is reported as failed exactly when it is one of those
    that did not. *)
Theorem probe_healthy_iff request at_ udp tcp :
  let '(result, err) := probe_outcome request at_ udp tcp in
  let healthy := (ProbeRequest_UDP request = true ∨ ProbeRequest_TCP request = true) ∧
    (ProbeRequest_UDP request = true → as_expected request udp) ∧
    (ProbeRequest_TCP request = true → as_expected request tcp) in
  (DNSProbe_Status result = "healthy" ↔ healthy) ∧ (err = None ↔ healthy) ∧
  (is_Some (DNSProbe_LatencyMS result) ↔ healthy) ∧
  (DNSProbe_ErrorCode result = "" ↔ healthy ∨ ProbeRequest_UDP request = false ∧ ProbeRequest_TCP request = false) ∧
  ("udp" ∈ failedDNSProbeProtocols result ↔ ProbeRequest_UDP request = true ∧ ¬ as_expected request udp) ∧
  ("tcp" ∈ failedDNSProbeProtocols result ↔ ProbeRequest_TCP request = true ∧ ¬ as_expected request tcp).
Proof.
  unfold probe_outcome, failedDNSProbeProtocols.
  assert (Hcode' : ∀ e a x, dnsErrorCode e a x ≠ "") by (intros [[]|] a x; cbn; [done..|by destruct (negb (a =? x))]).
  pose proof (Outcome_matches_spec request udp) as Eu. pose proof (Outcome_matches_spec request tcp) as Et.
  destruct (ProbeRequest_UDP request), (ProbeRequest_TCP request), (Outcome_matches _ udp) eqn:Hu,
    (Outcome_matches _ tcp) eqn:Ht;
    cbv [Z.b2z Z.add Pos.add Z.ltb Z.eqb Z.compare Pos.compare Pos.compare_cont Pos.eqb andb negb];
    cbn -[dnsErrorCode]; rewrite <- ?Eu, <- ?Et; clear Eu Et Hu Ht;
    repeat match goal with |- context [dnsErrorCode ?e ?a ?x] =>
      let Hx := fresh "Hx" in pose proof (Hcode' e a x) as Hx; revert Hx; generalize (dnsErrorCode e a x); intros ? Hx end;
    clear Hcode';
    repeat match goal with |- context [bool_decide (?a = ?b)] => first
      [rewrite (bool_decide_eq_true_2 (a = b)) by done|rewrite (bool_decide_eq_false_2 (a = b)) by done] end;
    cbn; rewrite ?elem_of_cons, ?elem_of_nil, ?is_Some_alt; clear -Hx Hx0 || clear -Hx || clear;
    intuition congruence.
Qed.
End queries.

(** ** Confirmation *)

Inductive confirm_fact : Type :=
| FProbed (r : DNSProbeResult) (e : option error)
| FWaited (delay : Duration) (e : option error)
| FEnded (e : error).

(** The context is a fact when it has ended. *)
Definition confirm_view (ev : event confirmctl) : option confirm_fact :=
  match ev with
  | Event e x =>
      match e in confirmctl X return X → option confirm_fact with
      | Confirm_Probe _ => λ r, Some (FProbed r.1 r.2)
      | Confirm_Wait d => λ r, Some (FWaited d r)
      | Confirm_CtxErr => λ r, FEnded <$> r
      | Confirm_Now => λ _, None
      end x
  end.

Definition healthy_probe (r : DNSProbeResult) (e : option error) : bool :=
  bool_decide (e = None) && (DNSProbe_Status r =?? "healthy").

(** A failure that is confirmed by another attempt while the context lives. *)
Definition passing_failure (r : DNSProbeResult) (e : option error) : bool := retryableDNSProbeFailure None r e.

(** The result stands for the [n]-th probe: its outcome, with the count of attempts. *)
Definition stands_for (n : Z) (r r' : DNSProbeResult) : Prop :=
  Attempts (DNSProbe_Confirmation r') = n ∧
  ∃ c, r' = with_confirmation c r.

(** The protocol from the [n]-th attempt on, with the waits that are left. *)
Inductive confirm_run : list Duration → Z → list confirm_fact → DNSProbeResult * option error → Prop :=
| run_ended_before delays n e r : confirm_run delays n [FEnded e] (r, Some e)
| run_ended_after delays n r e e' r' :
    stands_for n r r' → confirm_run delays n [FProbed r e; FEnded e'] (r', Some e')
| run_healthy delays n r e r' :
    healthy_probe r e = true → stands_for n r r' → RecoveredAfterRetry (DNSProbe_Confirmation r') = (1 <? n) →
    confirm_run delays n [FProbed r e] (r', None)
| run_failed delays n r e r' :
    healthy_probe r e = false → (delays = [] ∨ passing_failure r e = false) → stands_for n r r' →
    confirm_run delays n [FProbed r e] (r', e)
| run_ended_late delays n r e e' r' :
    healthy_probe r e = false → delays ≠ [] → stands_for n r r' →
    confirm_run delays n [FProbed r e; FEnded e'] (r', e)
| run_interrupted delay delays n r e e' r' :
    healthy_probe r e = false → passing_failure r e = true → stands_for n r r' →
    confirm_run (delay :: delays) n [FProbed r e; FWaited delay (Some e')] (r', Some e')
| run_again delay delays n r e f out :
    healthy_probe r e = false → passing_failure r e = true →
    confirm_run delays (n + 1) f out →
    confirm_run (delay :: delays) n (FProbed r e :: FWaited delay None :: f) out.

Ltac confirm_step := facts_step ltac:(fun _ => cbn [confirm_view option_list option_rect fmap option_fmap option_map]).

Lemma drop_tail {A} (l : list A) n x rest : x :: rest = drop n l → rest = drop (S n) l.
Proof. intros H. replace (S n) with (n + 1)%nat by lia. by rewrite <- drop_drop, <- H. Qed.

Lemma nth_drop_head (l : list Duration) n d rest : d :: rest = drop n l → nth n l 0 = d.
Proof.
  revert l. induction n as [|n IH]; intros [|x l] H; cbn in *; try done; [by injection H|by apply IH].
Qed.

Section confirm.
Context (backoffs : list Duration) (request : DNSProbeRequest).

Lemma confirm_loop_run fuel : ∀ started attempt result probeErr priorCode priorProtocols delays,
  1 <= attempt → delays = drop (Z.to_nat (attempt - 1)) backoffs →
  attempt + Z.of_nat (length delays) = Z.of_nat (length backoffs) + 1 → (length delays < fuel)%nat →
  with_facts confirm_view
    (confirm_loop true backoffs request fuel started attempt result probeErr priorCode priorProtocols)
    (λ f out, ∃ o, out = Some o ∧ confirm_run delays attempt f o).
Proof.
  induction fuel as [|fuel IH]; intros started attempt result probeErr priorCode priorProtocols delays Hn Hd Hl Hf; [lia|].
  cbn [confirm_loop negb]. destruct (_ <? attempt) eqn:Hlast; [lia|]. repeat confirm_step.
  - eexists. split; [done|]. subst. constructor.
  - eexists. split; [done|]. cbn. apply run_ended_after. by split; [|eexists].
  - eexists. split; [done|]. cbn. destruct x0 as [r0 e0]. apply run_healthy; [done|by split; [|eexists]|done].
  - eexists. split; [done|]. cbn. apply run_failed; [done| |by split; [|eexists]].
    left. destruct delays; [done|cbn in *; lia].
  - eexists. split; [done|]. unfold retryableDNSProbeFailure in *. destruct x3 as [e|]; cbn in *.
    + apply run_ended_late; [done| |by split; [|eexists]]. intros ->. cbn in *. lia.
    + apply run_failed; [done| |by split; [|eexists]]. right. by apply negb_true_iff in Heqb1.
  - destruct x3 as [e'|]; [done|]. destruct delays as [|delay delays]; [cbn in *; lia|]. eexists. split; [done|]. cbn.
    rewrite (nth_drop_head _ _ _ _ Hd). apply run_interrupted; [done| |by split; [|eexists]]. by apply negb_false_iff in Heqb1.
  - destruct x3 as [e'|]; [done|]. destruct delays as [|delay delays]; [cbn in *; lia|].
    eapply facts_mono; [apply (IH _ _ _ _ _ _ delays); [lia| |cbn in *; lia..]|].
    + replace (Z.to_nat (attempt + 1 - 1)) with (S (Z.to_nat (attempt - 1))) by lia. exact (drop_tail _ _ _ _ Hd).
    + intros f out (o & -> & Ho). exists o. split; [done|]. cbn. rewrite (nth_drop_head _ _ _ _ Hd).
      apply run_again; [done| |done]. by apply negb_false_iff in Heqb1.
Qed.

(** the confirmation of a probe ends, within as many attempts as it has waits and one more, and
    follows its protocol: the first healthy attempt is the answer at once; a failure is the
    answer only when it is not a passing one, when the waits are used up, or when the context
    ends; the waits between the attempts are the given ones, in their order. *)
Theorem confirmation_terminates fuel : (length backoffs < fuel)%nat →
  with_facts confirm_view (Confirming_Probe true backoffs request fuel)
    (λ f out, ∃ o, out = Some o ∧ confirm_run backoffs 1 f o).
Proof.
  intros Hf. unfold Confirming_Probe. confirm_step. confirm_step.
  apply confirm_loop_run; [lia|done|lia|done].
Qed.
End confirm.
