(* ===== verification/HAModel.v ===== *)
(** * internal/haoperations: models, versions, certificates and their checks

    The records of the high-availability service and its pure functions. *)

From Stdlib Require Import Floats.SpecFloat.
From S2P Require Import Prelude GoRuntime Json Domain Configuration ControlModel Password DnsProbe.

(** Layouts of package time, and [fmt.Sprint] of a value that is neither a string nor nil. *)
Class Printing := {
  time_Parse : string → string → option Time;
  time_Format : string → Time → string;
  fmt_Sprint : json → string
}.

(** ** Installation types *)

(* src/internal/haoperations/models.go:12-12 InstallationNativeSystemd *)
Definition InstallationNativeSystemd : string := "native_systemd".
(* src/internal/haoperations/models.go:13-13 InstallationDocker *)
Definition InstallationDocker : string := "docker".
(* src/internal/haoperations/models.go:14-14 InstallationHomeAssistant *)
Definition InstallationHomeAssistant : string := "home_assistant_addon".
(* src/internal/haoperations/models.go:15-15 InstallationCustom *)
Definition InstallationCustom : string := "custom".
(* src/internal/haoperations/models.go:16-16 InstallationUnknown *)
Definition InstallationUnknown : string := "unknown".

(* src/internal/haoperations/models.go:19-26 InstallationType.Valid *)
Definition InstallationType_Valid (value : string) : bool :=
  existsb (String.eqb value)
    [InstallationNativeSystemd; InstallationDocker; InstallationHomeAssistant; InstallationCustom; InstallationUnknown].

(* src/internal/haoperations/models.go:31-31 UpgradeGuided *)
Definition UpgradeGuided : string := "guided".
(* src/internal/haoperations/models.go:32-32 UpgradeUnsupported *)
Definition UpgradeUnsupported : string := "unsupported".

(* src/internal/haoperations/models.go:35-40 SupportForInstallation *)
Definition SupportForInstallation (value : string) : string :=
  if (value =?? InstallationNativeSystemd) || (value =?? InstallationDocker) then UpgradeGuided else UpgradeUnsupported.

(** ** Records *)

(* src/internal/haoperations/models.go:42-55 NodeSettings *)
Record NodeSettings := mkNodeSettings {
  Settings_NodeID : string;
  Settings_DNSProbeHost : string;
  Settings_DNSProbePort : Z;
  Settings_DNSProbeName : string;
  Settings_DNSProbeType : string;
  Settings_ExpectedRCode : Z;
  Settings_ProbeUDP : bool;
  Settings_ProbeTCP : bool;
  Settings_InstallationType : string;
  Settings_RecordVersion : Z;
  Settings_CreatedAt : Time;
  Settings_UpdatedAt : Time
}.

(* src/internal/haoperations/models.go:80-89 Event *)
Record HAEvent := mkHAEvent {
  HAEvent_ID : string;
  HAEvent_ClusterID : string;
  HAEvent_NodeID : option string;
  HAEvent_EventType : string;
  HAEvent_Severity : string;
  HAEvent_Summary : string;
  HAEvent_Details : list (string * json);
  HAEvent_OccurredAt : Time
}.

(* src/internal/haoperations/models.go:104-114 NotificationHistoryOutcome *)
Record NotificationHistoryOutcome := mkHistoryOutcome {
  Outcome_ChannelID : option string;
  Outcome_ChannelName : string;
  Outcome_Status : string;
  Outcome_AttemptCount : Z;
  Outcome_ErrorCode : string;
  Outcome_ErrorSummary : string;
  Outcome_HTTPStatus : option Z;
  Outcome_Test : bool;
  Outcome_CompletedAt : option Time
}.

(* src/internal/haoperations/models.go:91-102 HistoryItem *)
Record HistoryItem := mkHistoryItem {
  Item_ID : string;
  Item_Kind : string;
  Item_ClusterID : string;
  Item_NodeID : option string;
  Item_EventType : string;
  Item_Severity : string;
  Item_Summary : string;
  Item_Details : list (string * json);
  Item_OccurredAt : Time;
  Item_Notification : option NotificationHistoryOutcome
}.

(** The position is the time and the identifier of the last item of the page before. *)
(* src/internal/haoperations/models.go:116-122 HistoryQuery *)
Record HistoryQuery := mkHistoryQuery {
  Query_ClusterID : string;
  Query_NodeID : string;
  Query_Limit : Z;
  Query_Before : option (Time * string)
}.

(* src/internal/haoperations/models.go:124-129 HistoryRequest *)
Record HistoryRequest := mkHistoryRequest {
  Request_ClusterID : string;
  Request_NodeID : string;
  Request_Cursor : string;
  Request_Limit : Z
}.

(* src/internal/haoperations/models.go:131-135 HistoryPage *)
Record HistoryPage := mkHistoryPage {
  Page_Items : list HistoryItem;
  Page_NextCursor : string;
  Page_HasMore : bool
}.

Definition zero_event : HAEvent := mkHAEvent "" "" None "" "" "" [] time_zero.

(* src/internal/haoperations/models.go:140-140 CertificateHealthy *)
Definition CertificateHealthy : string := "healthy".
(* src/internal/haoperations/models.go:141-141 CertificateWarning *)
Definition CertificateWarning : string := "warning".
(* src/internal/haoperations/models.go:142-142 CertificateCritical *)
Definition CertificateCritical : string := "critical".
(* src/internal/haoperations/models.go:143-143 CertificateExpired *)
Definition CertificateExpired : string := "expired".
(* src/internal/haoperations/models.go:144-144 CertificateNotApplicable *)
Definition CertificateNotApplicable : string := "not_applicable".
(* src/internal/haoperations/models.go:145-145 CertificateUnknown *)
Definition CertificateUnknown : string := "unknown".

(* src/internal/haoperations/models.go:148-157 Certificate *)
Record Certificate := mkCertificate {
  Certificate_NodeID : string;
  Certificate_NodeName : string;
  Certificate_Subject : string;
  Certificate_Issuer : string;
  Certificate_NotAfter : option Time;
  Certificate_DaysRemaining : option Z;
  Certificate_State : string;
  Certificate_ObservedAt : option Time
}.

(* src/internal/haoperations/models.go:159-169 VersionState *)
Record VersionState := mkVersionState {
  Version_NodeID : string;
  Version_NodeName : string;
  Version_InstalledVersion : string;
  Version_LatestVersion : string;
  Version_Compatibility : string;
  Version_InstallationType : string;
  Version_UpgradeSupport : string;
  Version_UpdateAvailable : bool;
  Version_ReleaseCheckStale : bool
}.

(* src/internal/haoperations/models.go:184-191 HANodeStatus *)
Record HANodeStatus := mkHANodeStatus {
  HANode_NodeID : string;
  HANode_DNSStatus : string;
  HANode_UDPStatus : string;
  HANode_TCPStatus : string;
  HANode_DNSProbedAt : option Time;
  HANode_ErrorCode : string
}.

(* src/internal/haoperations/models.go:171-182 HASummary *)
Record HASummary := mkHASummary {
  HA_State : string;
  HA_TotalNodes : Z;
  HA_ServingDNSNodes : Z;
  HA_APIReachableNodes : Z;
  HA_ConvergedNodes : Z;
  HA_MaintenanceNodes : Z;
  HA_CertificateWarnings : Z;
  HA_UpdateAvailableNodes : Z;
  HA_Message : string;
  HA_Nodes : list HANodeStatus
}.

(* src/internal/haoperations/models.go:193-200 NodeLifecycle *)
Record NodeLifecycle := mkNodeLifecycle {
  Lifecycle_GeneratedAt : Time;
  Lifecycle_Settings : NodeSettings;
  Lifecycle_DNS : option DNSProbeResult;
  Lifecycle_Certificate : Certificate;
  Lifecycle_Version : VersionState;
  Lifecycle_Events : list HAEvent
}.

(* src/internal/haoperations/models.go:202-208 Check *)
Record HACheck := mkHACheck {
  Check_Name : string;
  Check_Status : string;
  Check_Required : bool;
  Check_ErrorCode : string;
  Check_Message : string
}.

(* src/internal/haoperations/models.go:210-220 MaintenancePreflight *)
Record MaintenancePreflight := mkMaintenancePreflight {
  Preflight_NodeID : string;
  Preflight_Allowed : bool;
  Preflight_BreakGlassRequired : bool;
  Preflight_HealthyDNSNodesRemaining : Z;
  Preflight_ExpectedRedundancy : string;
  Preflight_ActiveDeployment : bool;
  Preflight_OpenDrift : bool;
  Preflight_ActiveDHCP : bool;
  Preflight_Checks : list HACheck
}.

(* src/internal/haoperations/models.go:222-226 ReturnValidation *)
Record ReturnValidation := mkReturnValidation {
  Return_NodeID : string;
  Return_Succeeded : bool;
  Return_Checks : list HACheck
}.

(* src/internal/haoperations/models.go:228-245 Upgrade *)
Record Upgrade := mkUpgrade {
  Upgrade_ID : string;
  Upgrade_ClusterID : string;
  Upgrade_NodeID : string;
  Upgrade_FromVersion : string;
  Upgrade_TargetVersion : string;
  Upgrade_InstallationType : string;
  Upgrade_Mode : string;
  Upgrade_Status : string;
  Upgrade_RequestedBy : string;
  Upgrade_RequestID : string;
  Upgrade_Preflight : json;
  Upgrade_Validation : json;
  Upgrade_ErrorCode : string;
  Upgrade_ErrorSummary : string;
  Upgrade_StartedAt : Time;
  Upgrade_CompletedAt : option Time
}.

(* src/internal/haoperations/models.go:247-254 ReleaseCache *)
Record ReleaseCache := mkReleaseCache {
  Release_Version : string;
  Release_URL : string;
  Release_Compatibility : string;
  Release_CheckedAt : Time;
  Release_ExpiresAt : Time;
  Release_ErrorCode : string
}.

(** ** Versions *)

(** [%d] into an [int]: a sign, digits, and what fits 64 bits. *)
Definition scan_int (s : string) : option Z :=
  s ← SkipSpace s;
  let '(sign, s) := match s with
    | String "+" rest => (1, rest)
    | String "-" rest => (-1, rest)
    | _ => (1, s)
    end in
  let '(v, n, _) := scan_digits s 0 0 in
  if (0 <? Z.of_nat n) && (- 2 ^ 63 <=? sign * v) && (sign * v <? 2 ^ 63) then Some (sign * v) else None.

(** A part that is missing or does not start with a number counts as zero. *)
(* src/internal/haoperations/service.go:1215-1219 compareVersions *)
Definition version_part (parts : list string) (i : nat) : Z :=
  match parts !! i with Some part => default 0 (scan_int part) | None => 0 end.

Section versions.
Context {R : Runtime}.

(* src/internal/haoperations/service.go:1211-1221 compareVersions *)
Definition version_numbers (value : string) : list Z :=
  let parts := Split (TrimPrefix (TrimSpace value) "v") "." in
  version_part parts <$> [0%nat; 1%nat; 2%nat].

(* src/internal/haoperations/service.go:1223-1231 compareVersions *)
Fixpoint compare_numbers (a b : list Z) : Z :=
  match a, b with
  | x :: a, y :: b => if x <? y then -1 else if y <? x then 1 else compare_numbers a b
  | _, _ => 0
  end.

(* src/internal/haoperations/service.go:1210-1232 compareVersions *)
Definition compareVersions (left right : string) : Z :=
  compare_numbers (version_numbers left) (version_numbers right).
End versions.

(** ** Certificates *)

(** [float64] of package math, without rounding modes other than the usual one. *)
Definition f64_of_Z (z : Z) : spec_float := binary_normalize 53 1024 z 0 false.
Definition f64_add := SFadd 53 1024.
Definition f64_div := SFdiv 53 1024.
(** [int(f)]: towards zero. *)
Definition f64_to_int (f : spec_float) : Z :=
  match f with
  | S754_finite s m e =>
      let v := if 0 <=? e then Z.pos m * 2 ^ e else Z.pos m / 2 ^ (- e) in if s then - v else v
  | _ => 0
  end.

(** [Duration.Hours]. *)
Definition Hours (d : Duration) : spec_float :=
  f64_add (f64_of_Z (Z.quot d hour)) (f64_div (f64_of_Z (Z.rem d hour)) (f64_of_Z hour)).

(* src/internal/haoperations/service.go:618-618 Service.Certificates *)
Definition days_until (now expiry : Time) : Z :=
  f64_to_int (f64_div (Hours (time_Sub expiry now)) (f64_of_Z 24)).

(* src/internal/haoperations/service.go:80-80 NewService *)
Definition warningDays : Z := 30.
(* src/internal/haoperations/service.go:80-80 NewService *)
Definition criticalDays : Z := 7.

(* src/internal/haoperations/service.go:618-629 Service.Certificates *)
Definition expiry_state (now expiry : Time) : string :=
  let days := days_until now expiry in
  if negb (now <? expiry) then CertificateExpired
  else if days <=? criticalDays then CertificateCritical
  else if days <=? warningDays then CertificateWarning
  else CertificateHealthy.

Section certificates.
Context {R : Runtime} {F : Printing}.

Definition RFC3339 : string := "2006-01-02T15:04:05Z07:00".

(* src/internal/haoperations/service.go:1119-1126 parseCertificateTime *)
Definition parseCertificateTime (value : string) : option Time :=
  let at_ layout := time_Parse layout (TrimSpace value) in
  match at_ RFC3339 with
  | Some t => Some t
  | None => match at_ RFC3339 with Some t => Some t | None => at_ "2006-01-02 15:04:05Z07:00" end
  end.

(** The expiry that a usable certificate reports, which is compared with the clock. *)
(* src/internal/haoperations/service.go:600-615 Service.Certificates *)
Definition observed_expiry (snapshot : option Snapshot) : option Time :=
  match snapshot with
  | Some s =>
      match Snapshot_Document s with
      | Some document =>
          let tls := ObservedOnly_TLS (Document_ObservedOnly document) in
          if ((Snapshot_CollectionStatus s =?? "") || (Snapshot_CollectionStatus s =?? "succeeded")) &&
             TLSStatus_Enabled tls && TLSStatus_ValidCertificate tls
          then parseCertificateTime (TLSStatus_NotAfter tls) else None
      | None => None
      end
  | None => None
  end.

(** The certificate of a node, from its latest snapshot. *)
(* src/internal/haoperations/service.go:597-633 Service.Certificates *)
Definition node_certificate (now : Time) (node : Node) (snapshot : option Snapshot) : Certificate :=
  let plain state observed := mkCertificate (Node_ID node) (Node_Name node) "" "" None None state observed in
  match snapshot with
  | None => plain CertificateUnknown None
  | Some s =>
      let observed := Some (Snapshot_ObservedAt s) in
      let failed := negb (Snapshot_CollectionStatus s =?? "") && negb (Snapshot_CollectionStatus s =?? "succeeded") in
      match Snapshot_Document s with
      | None => plain CertificateUnknown observed
      | Some document =>
          let tls := ObservedOnly_TLS (Document_ObservedOnly document) in
          if failed then plain CertificateUnknown observed
          else if negb (TLSStatus_Enabled tls) then plain CertificateNotApplicable observed
          else
            let expiry := observed_expiry snapshot in
            mkCertificate (Node_ID node) (Node_Name node) (TLSStatus_Subject tls) (TLSStatus_Issuer tls) expiry
              (days_until now <$> expiry)
              (match expiry with Some expiry => expiry_state now expiry | None => CertificateUnknown end) observed
      end
  end.

(** ** The TLS check of a return to service *)

(* src/internal/haoperations/service.go:1157-1159 returnTLSCheck *)
Definition tls_failure (code message : string) : HACheck := mkHACheck "tls" "fail" true code message.

(** The validity of a certificate at [now]. *)
(* src/internal/haoperations/service.go:1169-1188 returnTLSCheck *)
Definition certificate_check (tls : TLSStatus) (now : Time) : HACheck :=
  let date := time_Format "2006-01-02" in
  let not_before := TrimSpace (TLSStatus_NotBefore tls) in
  let expiry :=
    if TrimSpace (TLSStatus_NotAfter tls) =?? "" then
      tls_failure "TLS_CERTIFICATE_TIME_INVALID" "TLS certificate expiry was not reported"
    else match parseCertificateTime (TLSStatus_NotAfter tls) with
      | None => tls_failure "TLS_CERTIFICATE_TIME_INVALID" "TLS certificate expiry could not be interpreted"
      | Some notAfter =>
          if negb (now <? notAfter) then
            tls_failure "TLS_CERTIFICATE_EXPIRED" ("TLS certificate expired on " +:+ date notAfter)
          else mkHACheck "tls" "pass" true ""
            "TLS encryption is enabled and AdGuard Home reports valid certificate metadata"
      end in
  if not_before =?? "" then expiry
  else match parseCertificateTime (TLSStatus_NotBefore tls) with
    | None => tls_failure "TLS_CERTIFICATE_TIME_INVALID" "TLS certificate start time could not be interpreted"
    | Some notBefore =>
        if now <? notBefore then
          tls_failure "TLS_CERTIFICATE_NOT_YET_VALID" ("TLS certificate is not valid before " +:+ date notBefore)
        else expiry
    end.

(* src/internal/haoperations/service.go:1132-1189 returnTLSCheck *)
Definition returnTLSCheck (snapshot : option Snapshot) (now : Time) : HACheck :=
  let unknown := mkHACheck "tls" "unknown" true "TLS_STATE_UNAVAILABLE"
    "TLS configuration state could not be verified from the fresh observation" in
  match snapshot with
  | None => unknown
  | Some s =>
      match Snapshot_Document s with
      | None => unknown
      | Some document =>
          if negb (Snapshot_CollectionStatus s =?? "succeeded") then unknown
          else
            let tls := ObservedOnly_TLS (Document_ObservedOnly document) in
            if negb (TLSStatus_Enabled tls) then
              mkHACheck "tls" "not_applicable" false "" "TLS encryption is not enabled on this node; check is not applicable"
            else if negb (TLSStatus_ValidCertificate tls) then
              tls_failure "TLS_CERTIFICATE_INVALID" "AdGuard Home reports that the TLS certificate is missing or invalid"
            else if negb (TLSStatus_ValidChain tls) then
              tls_failure "TLS_CERTIFICATE_CHAIN_INVALID" "AdGuard Home reports that the TLS certificate chain is invalid"
            else if negb (TLSStatus_ValidKey tls) then
              tls_failure "TLS_PRIVATE_KEY_INVALID" "AdGuard Home reports that the TLS private key is invalid"
            else if negb (TLSStatus_ValidPair tls) then
              tls_failure "TLS_CERTIFICATE_KEY_MISMATCH"
                "AdGuard Home reports that the TLS certificate and private key do not match"
            else certificate_check tls now
      end
  end.

(** ** Failed checks *)

(* src/internal/haoperations/service.go:1252-1252 failedCheckNames *)
Definition blocking (c : HACheck) : bool := Check_Required c && negb (Check_Status c =?? "pass").

(* src/internal/haoperations/service.go:1249-1258 failedCheckNames *)
Definition failedCheckNames (checks : list HACheck) : list string :=
  sort_Slice String.ltb (Check_Name <$> List.filter blocking checks).

(** [strings.ReplaceAll(name, "_", " ")] *)
(* src/internal/haoperations/service.go:1199-1199 returnValidationFailureMessage *)
Definition spaced (name : string) : string := string_map (λ c, if bool_decide (c = "_"%char) then " "%char else c) name.

(* src/internal/haoperations/service.go:1195-1202 returnValidationFailureMessage *)
Definition failure_detail (checks : list HACheck) (name : string) : option string :=
  match List.find (λ c, (Check_Name c =?? name) && negb (Check_Message c =?? "")) checks with
  | Some c => Some (ToUpper (spaced name) +:+ ": " +:+ Check_Message c)
  | None => None
  end.

(* src/internal/haoperations/service.go:1191-1209 returnValidationFailureMessage *)
Definition returnValidationFailureMessage (checks : list HACheck) : string :=
  let names := failedCheckNames checks in
  let details := omap (failure_detail checks) names in
  let message := "node remains in maintenance because required return-to-service checks failed: " +:+ Join names ", " in
  if bool_decide (details = []) then message else message +:+ ". " +:+ Join details "; ".
End certificates.

(* src/internal/haoperations/service.go:1239-1248 safeErrorCode *)
Definition safeErrorCode (err : option error) : string :=
  match err with
  | None => ""
  | Some e => match errors_As e with Some (kind, _) => kind | None => "OPERATION_FAILED" end
  end.
