(* ===== verification/HAOperations.v ===== *)
(** * internal/haoperations/service.go: high availability of the DNS service

    Probes of the nodes, the summary of a cluster, maintenance, the return to service and
    guided upgrades, as programs over the repository, the prober, the observer and the
    management service. *)

From S2P Require Import Prelude GoRuntime Json Domain Compat Configuration Net ControlModel StoreRecords.
From S2P Require Import Effects ControlEffects DnsProbe HAModel.

(** ** The interfaces *)

Inductive hactl : Type → Type :=
(* the clock, the identifiers, the management repository, the observer, the API probe *)
| Base {X : Type} (e : ctl X) : hactl X
(* ctx.Err() *)
| HA_CtxErr : hactl (option error)
(* RuntimeSettings().NodeHealthInterval, when there is a provider *)
| HA_NodeHealthInterval : hactl (option Duration)
(* SetVersionCompatibility *)
| HA_Compatibility (version : string) : hactl string
(* DNSProber *)
| HA_Probe (request : DNSProbeRequest) : hactl (DNSProbeResult * option error)
(* MaintenanceManager *)
| HA_SetNodeMaintenance (actor : Actor) (nodeID : string) (enabled : bool) (expectedVersion : Z) : hactl (res Node)
(* a place among the concurrent probes, and the end of one of them *)
| HA_Slot : hactl bool
| HA_Done : hactl (option error)
(* Repository *)
| HA_LifecycleSettings (nodeID : string) : hactl (res NodeSettings)
| HA_SaveLifecycleSettings (settings : NodeSettings) (expectedVersion : Z) (event : AuditEvent) : hactl (res unit)
| HA_LatestProbe (nodeID : string) : hactl (res DNSProbeResult)
| HA_LatestProbes (clusterID : string) : hactl (res (list DNSProbeResult))
| HA_SaveProbe (result : DNSProbeResult) (transition : option HAEvent) : hactl (res unit)
| HA_ListEvents (clusterID nodeID : string) (limit : Z) : hactl (res (list HAEvent))
| HA_ListHistory (query : HistoryQuery) : hactl (res (list HistoryItem))
| HA_RecordEvent (event : HAEvent) : hactl (res unit)
| HA_RecordEventAndAudit (event : HAEvent) (audit : AuditEvent) : hactl (res unit)
| HA_LatestSuccessfulSnapshots (clusterID : string) : hactl (res (list Snapshot))
| HA_MonitoringDisabledSince (nodeID : string) (since : Time) : hactl (res bool)
| HA_ActiveDeploymentExists (clusterID : string) : hactl (res bool)
| HA_OpenDriftExists (nodeID : string) : hactl (res bool)
| HA_CreateUpgrade (upgrade : Upgrade) (audit : AuditEvent) (event : HAEvent) : hactl (res unit)
| HA_UpdateUpgrade (upgrade : Upgrade) (audit : AuditEvent) (event : HAEvent) : hactl (res unit)
| HA_UpgradeByID (id : string) : hactl (res Upgrade)
| HA_ListUpgrades (clusterID : string) (limit : Z) : hactl (res (list Upgrade))
| HA_ReleaseCache : hactl (res ReleaseCache)
| HA_CollectorChecks (nodeID : string) : hactl (res (list HACheck)).

Abbreviation ha := (prog hactl).

Definition base {X} (e : ctl X) : ha X := call (Base e).

(** [if err != nil { return value, err }] where the value is returned with the error. *)
Notation "'try' x '<-' p 'else' d ';' k" :=
  (bind p (λ r, match r with Ok x => k | Err e => Ret (d, Some e) end))
  (at level 100, x pattern, p at next level, d at next level, k at level 200, right associativity) : go_scope.

Definition err_of {A} (r : res A) : option error := match r with Ok _ => None | Err e => Some e end.
Definition none_of {A B} (p : ha (res A)) (k : option A → ha B) : ha B :=
  do r <- p; k (match r with Ok a => Some a | Err _ => None end).

(** The value that a range loop leaves in a map under a key. *)
(* src/internal/haoperations/service.go:517-520 Service.Summary *)
Definition last_with {A} (key : A → string) (k : string) (l : list A) : option A :=
  List.find (λ x, key x =?? k) (rev l).

Section service.
Context {R : Runtime} {F : Printing} {M : MapOrder}.

(* src/internal/haoperations/service.go:1103-1109 Service.newEvent *)
Definition newEvent (clusterID : string) (nodeID : option string) (eventType severity summary : string)
  (details : list (string * json)) (at_ : Time) : ha (res HAEvent) :=
  try id <- base GenerateID;
  done_with (mkHAEvent id clusterID nodeID eventType severity summary details at_).

(* src/internal/haoperations/service.go:1111-1118 audit *)
Definition ha_audit (actor : Actor) (action resourceType resourceID : string) (metadata : list (string * json))
  (at_ : Time) : ha (res AuditEvent) :=
  try id <- base GenerateID;
  done_with (mkAuditEvent id "user" (Some (Actor_UserID actor)) "" action resourceType (Some resourceID)
    (Actor_RequestID actor) (JObj metadata) at_ "" "").

(* src/internal/haoperations/service.go:105-107 DNSFreshnessWindow *)
Definition DNSFreshnessWindow (interval : Duration) : Duration := Z.max (wrap64 (3 * interval)) (2 * minute).

(* src/internal/haoperations/service.go:109-114 Service.dnsFreshnessWindow *)
Definition dnsFreshnessWindow : ha Duration :=
  do interval <- call HA_NodeHealthInterval;
  Ret (DNSFreshnessWindow (default 0 interval)).

(** ** Settings *)

(* src/internal/haoperations/service.go:124-127 Service.Settings *)
Definition is_not_found (e : error) : bool :=
  match errors_As e with Some (kind, _) => kind =?? ErrorNotFound | None => false end.

(** The port of the DNS service in the latest snapshot of the node. *)
(* src/internal/haoperations/service.go:133-141 Service.Settings *)
Definition observed_port (nodeID : string) (snapshots : list Snapshot) : Z :=
  let port s := match Snapshot_Document s with
    | Some d => NodeSpecific_DNSPort (Document_NodeSpecific d) | None => 0 end in
  match List.find (λ s, (Snapshot_NodeID s =?? nodeID) && (0 <? port s)) snapshots with
  | Some s => port s
  | None => 53
  end.

(* src/internal/haoperations/service.go:116-143 Service.Settings *)
Definition HA_Settings (nodeID : string) : ha (res NodeSettings) :=
  try _ <- guard (ValidID nodeID) (Validation "nodeId" "must be a valid UUID");
  do found <- call (HA_LifecycleSettings nodeID);
  match found with
  | Ok settings => done_with settings
  | Err e =>
      if negb (is_not_found e) then fail e
      else
        try node <- base (Repo_NodeByID nodeID);
        do now <- base Now;
        do snapshots <- call (HA_LatestSuccessfulSnapshots (Node_ClusterID node));
        let port := match snapshots with Ok l => observed_port nodeID l | Err _ => 53 end in
        done_with (mkNodeSettings (Node_ID node) "" port "." "NS" 0 true true InstallationUnknown 0 now now)
  end.

(* src/internal/haoperations/service.go:154-176 Service.UpdateSettings *)
Definition check_settings (input : NodeSettings) : res unit :=
  if (Settings_DNSProbePort input <? 1) || (65535 <? Settings_DNSProbePort input)
  then Err (Validation "dnsProbePort" "must be between 1 and 65535")
  else if (Settings_DNSProbeName input =?? "") || (253 <? len (Settings_DNSProbeName input))
  then Err (Validation "dnsProbeName" "must be a valid DNS name")
  else if negb (existsb (String.eqb (Settings_DNSProbeType input)) ["A"; "AAAA"; "NS"])
  then Err (Validation "dnsProbeType" "must be A, AAAA, or NS")
  else if (Settings_ExpectedRCode input <? 0) || (15 <? Settings_ExpectedRCode input)
  then Err (Validation "expectedRcode" "must be between 0 and 15")
  else if negb (Settings_ProbeUDP input) && negb (Settings_ProbeTCP input)
  then Err (Validation "probeProtocols" "must enable UDP or TCP")
  else if negb (InstallationType_Valid (Settings_InstallationType input))
  then Err (Validation "installationType" "is not supported")
  else if negb (Settings_DNSProbeHost input =?? "") &&
          (ContainsAny (Settings_DNSProbeHost input) "/?#@" || (255 <? len (Settings_DNSProbeHost input)))
  then Err (Validation "dnsProbeHost" "must be a hostname or IP address")
  else Ok tt.

(** The input as it is stored. *)
(* src/internal/haoperations/service.go:150-153 Service.UpdateSettings *)
Definition canonical_settings (nodeID : string) (i : NodeSettings) (version : Z) (at_ : Time) : NodeSettings :=
  mkNodeSettings nodeID (TrimSpace (Settings_DNSProbeHost i)) (Settings_DNSProbePort i)
    (TrimSpace (ToLower (Settings_DNSProbeName i))) (ToUpper (TrimSpace (Settings_DNSProbeType i)))
    (Settings_ExpectedRCode i) (Settings_ProbeUDP i) (Settings_ProbeTCP i) (Settings_InstallationType i) version at_ at_.

(* src/internal/haoperations/service.go:145-188 Service.UpdateSettings *)
Definition HA_UpdateSettings (actor : Actor) (nodeID : string) (input : NodeSettings) (expectedVersion : Z) :
  ha (res NodeSettings) :=
  try node <- base (Repo_NodeByID nodeID);
  let canonical := canonical_settings nodeID input (wrap64 (expectedVersion + 1)) in
  try _ <- Ret (check_settings (canonical time_zero));
  do now <- base Now;
  try event <- ha_audit actor "node.lifecycle_settings_changed" "node" nodeID
    [("clusterId", JStr (Node_ClusterID node)); ("installationType", JStr (Settings_InstallationType input))] now;
  try _ <- call (HA_SaveLifecycleSettings (canonical now) expectedVersion event);
  done_with (canonical now).

(** ** Probes *)

(** [URL.Hostname]: the host without its port and its brackets. *)
Definition valid_port (s : string) : bool :=
  match s with String ":" digits => string_forall is_digit digits | _ => s =?? "" end.
Definition Hostname (host : string) : string :=
  let host := match CutLast host ":" with
    | Some (h, port) => if valid_port (":" +:+ port) then h else host
    | None => host
    end in
  if HasPrefix host "[" && (last_byte host =?? Some "]"%char)
  then String.substring 1 (String.length host - 2) host else host.

(** [net.ParseIP], and the addresses that are no remote target. *)
(* src/internal/haoperations/service.go:210-212 Service.ProbeNode *)
Definition unreachable_target (host : string) : bool :=
  match ParseIP_To4 host with
  | Some v => (v =? 0) || (Z.shiftr v 24 =? 127)
  | None =>
      match ParseAddr host with
      | Some (Addr6 v zone) => (zone =?? "") && ((v =? 0) || (v =? 1))
      | _ => false
      end
  end.

(* src/internal/haoperations/service.go:276-281 dnsProbeAttempts *)
Definition dnsProbeAttempts (result : DNSProbeResult) : Z :=
  let n := Attempts (DNSProbe_Confirmation result) in if 0 <? n then n else 1.

(* src/internal/haoperations/service.go:225-225 Service.ProbeNode *)
Definition named (id nodeID clusterID : string) (r : DNSProbeResult) : DNSProbeResult :=
  mkDNSProbeResult id clusterID nodeID (DNSProbe_Status r) (DNSProbe_UDPStatus r) (DNSProbe_TCPStatus r)
    (DNSProbe_ResponseCode r) (DNSProbe_LatencyMS r) (DNSProbe_AddressFamily r) (DNSProbe_ErrorCode r)
    (DNSProbe_ProbedAt r) (DNSProbe_Confirmation r).

(** The event of a probe whose status is not the one before. *)
(* src/internal/haoperations/service.go:229-245 Service.ProbeNode *)
Definition probe_transition (clusterID nodeID : string) (result : DNSProbeResult) : ha (res HAEvent) :=
  let healthy := DNSProbe_Status result =?? "healthy" in
  let protocols := failedDNSProbeProtocols result in
  newEvent clusterID (Some nodeID) (if healthy then "dns.recovered" else "dns.failed")
    (if healthy then "info" else "critical")
    (if healthy then "DNS service recovered" else "DNS service probe failed")
    ([("errorCode", JStr (DNSProbe_ErrorCode result)); ("dnsProbeAttempts", JNum (dnsProbeAttempts result));
      ("dnsProbeElapsedMs", JNum (Z.quot (Elapsed (DNSProbe_Confirmation result)) millisecond))] ++
     when (negb (bool_decide (protocols = []))) ("failedProtocols", JArr (JStr <$> protocols)))
    (DNSProbe_ProbedAt result).

(** The target of the probe of a node. *)
(* src/internal/haoperations/service.go:202-209 Service.ProbeNode *)
Definition probe_host (node : Node) (settings : NodeSettings) : res string :=
  if Settings_DNSProbeHost settings =?? "" then
    match url_Parse (Node_BaseURL node) with
    | Some u => Ok (Hostname (URL_Host u))
    | None => Err (NewError ErrorValidation "node URL cannot provide a DNS probe target")
    end
  else Ok (Settings_DNSProbeHost settings).

(* src/internal/haoperations/service.go:213-213 Service.ProbeNode *)
Definition probe_request (host : string) (s : NodeSettings) : DNSProbeRequest :=
  mkDNSProbeRequest host (Settings_DNSProbePort s) (Settings_DNSProbeName s) (Settings_DNSProbeType s)
    (Settings_ExpectedRCode s) (Settings_ProbeUDP s) (Settings_ProbeTCP s).

(* src/internal/haoperations/service.go:190-251 Service.ProbeNode *)
Definition ProbeNode (nodeID : string) : ha (DNSProbeResult * option error) :=
  try record <- base (Repo_NodeRecordByID nodeID) else empty_result;
  let node := Record_Node record in
  try _ <- guard (Node_Enabled node) (NewError ErrorConflict "DNS probe requires an enabled node") else empty_result;
  try settings <- HA_Settings nodeID else empty_result;
  try host <- Ret (probe_host node settings) else empty_result;
  try _ <- guard (negb (unreachable_target host))
    (NewError ErrorValidation "DNS probe target must be remotely reachable from the controller") else empty_result;
  do probed <- call (HA_Probe (probe_request host settings));
  let '(result, probeErr) := probed in
  do ended <- call HA_CtxErr;
  match ended with
  | Some e => Ret (result, Some e)
  | None =>
      if match probeErr with Some e => is_context_error e | None => false end then Ret (result, probeErr)
      else
        try id <- base GenerateID else empty_result;
        let result := named id nodeID (Node_ClusterID node) result in
        do previous <- call (HA_LatestProbe nodeID);
        let changed := match previous with
          | Ok p => negb (DNSProbe_Status p =?? DNSProbe_Status result) | Err _ => true end in
        try transition <- (if changed then
            try event <- probe_transition (Node_ClusterID node) nodeID result; done_with (Some event)
          else done_with None) else empty_result;
        try _ <- call (HA_SaveProbe result transition) else empty_result;
        Ret (result, probeErr)
  end.

(** ** Certificates and versions *)

(* src/internal/haoperations/service.go:596-635 Service.Certificates *)
Fixpoint certificates_loop (snapshots : list Snapshot) (nodes : list Node) : ha (res (list Certificate)) :=
  match nodes with
  | [] => done_with []
  | node :: rest =>
      let snapshot := last_with Snapshot_NodeID (Node_ID node) snapshots in
      do now <- (if bool_decide (is_Some (observed_expiry snapshot)) then base Now else Ret time_zero);
      try certificates <- certificates_loop snapshots rest;
      done_with (node_certificate now node snapshot :: certificates)
  end.

(* src/internal/haoperations/service.go:582-636 Service.Certificates *)
Definition HA_Certificates (clusterID : string) : ha (res (list Certificate)) :=
  try nodes <- base (Repo_ListNodes clusterID);
  try snapshots <- base (Repo_LatestSnapshots clusterID);
  certificates_loop snapshots nodes.

(* src/internal/haoperations/service.go:645-655 Service.Versions *)
Fixpoint versions_loop (cache : res ReleaseCache) (nodes : list Node) : ha (res (list VersionState)) :=
  match nodes with
  | [] => done_with []
  | node :: rest =>
      try settings <- HA_Settings (Node_ID node);
      do stale <- (match cache with
        | Ok c => do now <- base Now; Ret (Release_ExpiresAt c <? now) | Err _ => Ret true end);
      let latest := match cache with Ok c => Release_Version c | Err _ => "" end in
      let available := match cache with
        | Ok c => compareVersions (Node_Version node) (Release_Version c) <? 0 | Err _ => false end in
      try versions <- versions_loop cache rest;
      done_with (mkVersionState (Node_ID node) (Node_Name node) (Node_Version node) latest
        (Node_CompatibilityStatus node) (Settings_InstallationType settings)
        (SupportForInstallation (Settings_InstallationType settings)) available stale :: versions)
  end.

(* src/internal/haoperations/service.go:638-658 Service.Versions *)
Definition HA_Versions (clusterID : string) : ha (res (list VersionState)) :=
  try nodes <- base (Repo_ListNodes clusterID);
  do cache <- call HA_ReleaseCache;
  versions_loop cache nodes.

(** ** The summary of a cluster *)

(* src/internal/haoperations/service.go:555-555 Service.Summary *)
Definition probe_fresh (now : Time) (window : Duration) (p : DNSProbeResult) : bool :=
  time_Sub now (DNSProbe_ProbedAt p) <=? window.

(** The DNS state of a node in the summary. *)
(* src/internal/haoperations/service.go:528-540 Service.Summary *)
Definition node_status (now : Time) (window : Duration) (node : Node) (probe : option DNSProbeResult) : HANodeStatus :=
  let dns := match probe with
    | Some p => if (DNSProbe_Status p =?? "healthy") && negb (probe_fresh now window p) then "stale" else DNSProbe_Status p
    | None => "unknown"
    end in
  let dns := if Node_MaintenanceMode node then "maintenance" else if negb (Node_Enabled node) then "disabled" else dns in
  match probe with
  | Some p => mkHANodeStatus (Node_ID node) dns (DNSProbe_UDPStatus p) (DNSProbe_TCPStatus p)
      (Some (DNSProbe_ProbedAt p)) (DNSProbe_ErrorCode p)
  | None => mkHANodeStatus (Node_ID node) dns "unknown" "unknown" None ""
  end.

(** A node that serves DNS: enabled, not in maintenance, with a fresh healthy probe. *)
(* src/internal/haoperations/service.go:555-557 Service.Summary *)
Definition serving (now : Time) (window : Duration) (probes : list DNSProbeResult) (node : Node) : bool :=
  Node_Enabled node && negb (Node_MaintenanceMode node) &&
  match last_with DNSProbe_NodeID (Node_ID node) probes with
  | Some p => (DNSProbe_Status p =?? "healthy") && probe_fresh now window p
  | None => false
  end.

Definition count {A} (p : A → bool) (l : list A) : Z := Z.of_nat (length (List.filter p l)).

(* src/internal/haoperations/service.go:571-578 Service.Summary *)
Definition summary_state (serving reachable converged maintenance total : Z) : string :=
  if serving <? 2 then "at_risk"
  else if (reachable <? total) || (converged <? total) || (0 <? maintenance) then "degraded"
  else "healthy".

(* src/internal/haoperations/service.go:571-578 Service.Summary *)
Definition summary_message (state : string) : string :=
  if state =?? "at_risk" then "DNS is serving with no verified node redundancy."
  else if state =?? "degraded" then
    "DNS redundancy remains, but one or more operational dimensions need attention."
  else "Verified DNS capacity can tolerate one node failure.".

(* src/internal/haoperations/service.go:561-561 Service.Summary *)
Definition expiring (c : Certificate) : bool :=
  existsb (String.eqb (Certificate_State c)) [CertificateWarning; CertificateCritical; CertificateExpired].

(* src/internal/haoperations/service.go:524-578 Service.Summary *)
Definition summary_of (now : Time) (window : Duration) (nodes : list Node) (probes : list DNSProbeResult)
  (certificates : list Certificate) (versions : list VersionState) : HASummary :=
  let enabled := List.filter Node_Enabled nodes in
  let total := Z.of_nat (length enabled) in
  let reachable := count (λ n, Node_HealthStatus n =?? NodeHealthy) enabled in
  let converged := count (λ n, negb (Node_MaintenanceMode n) && (Node_ConvergenceStatus n =?? "converged")) enabled in
  let maintenance := count Node_MaintenanceMode enabled in
  let serve := count (serving now window probes) nodes in
  let state := summary_state serve reachable converged maintenance total in
  mkHASummary state total serve reachable converged maintenance (count expiring certificates)
    (count Version_UpdateAvailable versions) (summary_message state)
    ((λ n, node_status now window n (last_with DNSProbe_NodeID (Node_ID n) probes)) <$> nodes).

(** The certificates and the versions that cannot be read count as none. *)
(* src/internal/haoperations/service.go:559-565 Service.Summary *)
Definition listed {A} (r : res (list A)) : list A := match r with Ok l => l | Err _ => [] end.

(* src/internal/haoperations/service.go:508-580 Service.Summary *)
Definition HA_Summary (clusterID : string) : ha (res HASummary) :=
  try nodes <- base (Repo_ListNodes clusterID);
  try probes <- call (HA_LatestProbes clusterID);
  do now <- base Now;
  do window <- dnsFreshnessWindow;
  do certificates <- HA_Certificates clusterID;
  do versions <- HA_Versions clusterID;
  done_with (summary_of now window nodes probes (listed certificates) (listed versions)).
End service.

(** * internal/haoperations/service.go: the polling pass and the transitions it records

    A pass probes the nodes that are polled and then compares the redundancy, the
    certificates and the versions of their clusters with the latest events. *)

(** The latest event of a node whose type starts with [prefix]; the events are listed newest first. *)
(* src/internal/haoperations/service.go:413-420 Service.recordCertificateTransitions *)
Definition latest_event (nodeID prefix : string) (events : list HAEvent) : option HAEvent :=
  List.find (λ e, match HAEvent_NodeID e with Some id => id =?? nodeID | None => false end &&
                  HasPrefix (HAEvent_EventType e) prefix) events.

Section transitions.
Context {R : Runtime} {F : Printing} {M : MapOrder}.

(** [fmt.Sprint(details[key])] *)
(* src/internal/haoperations/service.go:381-381 Service.recordVersionTransitions *)
Definition Sprint_detail (key : string) (details : list (string * json)) : string :=
  match List.find (λ kv, fst kv =?? key) details with
  | Some (_, JStr s) => s
  | Some (_, JNull) | None => "<nil>"
  | Some (_, v) => fmt_Sprint v
  end.

(** ** Versions *)

(** The event of the state of a version, when it differs from the latest one. *)
(* src/internal/haoperations/service.go:372-390 Service.recordVersionTransitions *)
Definition version_event (events : list HAEvent) (v : VersionState) : option (string * string * string) :=
  if (Version_LatestVersion v =?? "") || Version_ReleaseCheckStale v then None
  else
    let '(lastState, lastTarget) := match latest_event (Version_NodeID v) "version." events with
      | Some e => (HAEvent_EventType e, Sprint_detail "latestVersion" (HAEvent_Details e))
      | None => ("", "")
      end in
    let '(eventType, severity, summary) :=
      if Version_UpdateAvailable v
      then ("version.update_available", "warning", "AdGuard Home update available")
      else ("version.current", "info", "AdGuard Home is current") in
    if (lastState =?? eventType) && (lastTarget =?? Version_LatestVersion v) then None
    else Some (eventType, severity, summary).

(* src/internal/haoperations/service.go:362-401 Service.recordVersionTransitions *)
Definition recordVersionTransitions (clusterID : string) : ha (res unit) :=
  try versions <- HA_Versions clusterID;
  try events <- call (HA_ListEvents clusterID "" 200);
  for_each (λ v, match version_event events v with
    | None => done_with tt
    | Some (eventType, severity, summary) =>
        do now <- base Now;
        try event <- newEvent clusterID (Some (Version_NodeID v)) eventType severity summary
          [("installedVersion", JStr (Version_InstalledVersion v)); ("latestVersion", JStr (Version_LatestVersion v))] now;
        call (HA_RecordEvent event)
    end) versions.

(** ** Certificates *)

(** The state an event stands for. *)
(* src/internal/haoperations/service.go:428-431 Service.recordCertificateTransitions *)
Definition certificate_state_of (e : HAEvent) : string :=
  let state := TrimPrefix (HAEvent_EventType e) "certificate." in
  if state =?? "recovered" then CertificateHealthy else state.

(** The event of a certificate, from the state before ([None] without an event) and whether
    TLS was disabled since. *)
(* src/internal/haoperations/service.go:425-456 Service.recordCertificateTransitions *)
Definition certificate_event (current : string) (previous : option string) (disabledSince : bool) :
  option (string * string * string) :=
  let previousState := if disabledSince then "" else default "" previous in
  if current =?? previousState then None
  else if current =?? CertificateHealthy then
    if match previous with None => true | Some _ => disabledSince end then None
    else Some ("certificate.recovered", "info", "Certificate status recovered")
  else Some ("certificate." +:+ current,
    (if (current =?? CertificateCritical) || (current =?? CertificateExpired) then "critical" else "warning"),
    "Certificate expiry warning").

Definition int_ref (v : option Z) : json := match v with Some z => JNum z | None => JNull end.

(* src/internal/haoperations/service.go:412-464 Service.recordCertificateTransitions *)
Definition record_certificate (clusterID : string) (events : list HAEvent) (c : Certificate) : ha (res unit) :=
  let current := Certificate_State c in
  if (current =?? CertificateUnknown) || (current =?? CertificateNotApplicable) then done_with tt
  else
    let previous := latest_event (Certificate_NodeID c) "certificate." events in
    try disabledSince <- match previous with
      | Some e => call (HA_MonitoringDisabledSince (Certificate_NodeID c) (HAEvent_OccurredAt e))
      | None => done_with false
      end;
    match certificate_event current (certificate_state_of <$> previous) disabledSince with
    | None => done_with tt
    | Some (eventType, severity, summary) =>
        do now <- base Now;
        try event <- newEvent clusterID (Some (Certificate_NodeID c)) eventType severity summary
          [("state", JStr current); ("daysRemaining", int_ref (Certificate_DaysRemaining c))] now;
        call (HA_RecordEvent event)
    end.

(* src/internal/haoperations/service.go:403-466 Service.recordCertificateTransitions *)
Definition recordCertificateTransitions (clusterID : string) : ha (res unit) :=
  try certificates <- HA_Certificates clusterID;
  try events <- call (HA_ListEvents clusterID "" 200);
  for_each (record_certificate clusterID events) certificates.

(** ** Redundancy *)

(* src/internal/haoperations/service.go:477-491 Service.recordRedundancyTransition *)
Fixpoint latest_redundancy (events : list HAEvent) : string :=
  match events with
  | [] => ""
  | e :: events =>
      if HAEvent_EventType e =?? "redundancy.restored" then "healthy"
      else if HAEvent_EventType e =?? "redundancy.degraded" then "degraded"
      else if HAEvent_EventType e =?? "redundancy.at_risk" then "at_risk"
      else latest_redundancy events
  end.

(* src/internal/haoperations/service.go:495-500 Service.recordRedundancyTransition *)
Definition redundancy_event (state : string) : string * string * string :=
  if state =?? "degraded" then ("redundancy.degraded", "warning", "DNS redundancy degraded")
  else if state =?? "at_risk" then ("redundancy.at_risk", "critical", "DNS service is at risk")
  else ("redundancy.restored", "info", "DNS redundancy restored").

(* src/internal/haoperations/service.go:468-506 Service.recordRedundancyTransition *)
Definition recordRedundancyTransition (clusterID : string) : ha (res unit) :=
  try summary <- HA_Summary clusterID;
  try events <- call (HA_ListEvents clusterID "" 50);
  if latest_redundancy events =?? HA_State summary then done_with tt
  else
    let '(eventType, severity, message) := redundancy_event (HA_State summary) in
    do now <- base Now;
    try event <- newEvent clusterID None eventType severity message
      [("servingDnsNodes", JNum (HA_ServingDNSNodes summary)); ("totalNodes", JNum (HA_TotalNodes summary))] now;
    call (HA_RecordEvent event).

(** ** The pass *)

(** The probes of a pass.  At most four run at a time; the model runs them in the order of
    the records, each when it finds a place before the context ends. *)
(* src/internal/haoperations/service.go:322-337 Service.poll *)
Fixpoint probe_records (records : list NodeRecord) : ha unit :=
  match records with
  | [] => Ret tt
  | record :: records =>
      do placed <- call HA_Slot;
      do _ <- (if placed : bool then ProbeNode (Node_ID (Record_Node record)) else Ret (empty_result, None));
      probe_records records
  end.

(* src/internal/haoperations/service.go:338-344 Service.poll *)
Fixpoint wait_for (n : nat) : ha (res unit) :=
  match n with
  | O => done_with tt
  | S n => do ended <- call HA_Done; match ended with Some e => fail e | None => wait_for n end
  end.

(* src/internal/haoperations/service.go:346-356 Service.poll *)
Definition cluster_transitions (clusterID : string) : ha (res unit) :=
  try _ <- recordRedundancyTransition clusterID;
  try _ <- recordCertificateTransitions clusterID;
  recordVersionTransitions clusterID.

(* src/internal/haoperations/service.go:304-360 Service.poll *)
Definition poll (clusterID : string) : ha (res unit) :=
  try records <- base Repo_PollableNodes;
  let records := if clusterID =?? "" then records
    else List.filter (λ r, Node_ClusterID (Record_Node r) =?? clusterID) records in
  let clusters : gmap string bool := list_to_map ((λ r, (Node_ClusterID (Record_Node r), true)) <$> records) in
  do _ <- probe_records records;
  try _ <- wait_for (length records);
  for_each cluster_transitions (fst <$> map_range clusters).

(* src/internal/haoperations/service.go:294-296 Service.PollAll *)
Definition PollAll : ha (res unit) := poll "".

(* src/internal/haoperations/service.go:300-302 Service.PollCluster *)
Definition PollCluster (clusterID : string) : ha (res unit) := poll clusterID.
End transitions.
