(* ===== verification/HAMaintenance.v ===== *)
(** * internal/haoperations/service.go: maintenance, the return to service, upgrades

    A node enters maintenance after a preflight, returns after a validation, and is
    upgraded by an operator between the two. *)

From S2P Require Import Prelude GoRuntime Json Domain Compat Configuration Net ControlModel Effects.
From S2P Require Import ControlEffects DnsProbe HAModel HAOperations.

(** ** DHCP responsibility *)

(* src/internal/haoperations/service.go:1082-1082 Service.nodeActiveDHCP *)
Definition serves_dhcp (s : Snapshot) : bool :=
  match Snapshot_Document s with
  | Some d =>
      match NodeSpecific_DHCP (Document_NodeSpecific d) with
      | Some dhcp => DHCPConfig_Enabled dhcp
      | None => false
      end
  | None => false
  end.

(* src/internal/haoperations/service.go:1076-1087 Service.nodeActiveDHCP *)
Definition nodeActiveDHCP (clusterID nodeID : string) : ha bool :=
  do r <- call (HA_LatestSuccessfulSnapshots clusterID);
  Ret (existsb (λ s, (Snapshot_NodeID s =?? nodeID) && serves_dhcp s) (listed r)).

(* src/internal/haoperations/service.go:1089-1101 Service.activeDHCPNodes *)
Definition activeDHCPNodes (clusterID : string) : ha (res Z) :=
  try snapshots <- call (HA_LatestSuccessfulSnapshots clusterID);
  done_with (count serves_dhcp snapshots).

(* src/internal/haoperations/service.go:22-22 BreakGlassConfirmation *)
Definition BreakGlassConfirmation : string := "CONTINUE_WITHOUT_DNS_REDUNDANCY".

Section maintenance.
Context {R : Runtime} {F : Printing} {M : MapOrder}.

(** ** The preflight *)

(* src/internal/haoperations/service.go:1233-1238 ternary *)
Definition status_of (b : bool) (yes no : string) : string := if b then yes else no.

(** The TLS state, which does not block the entry into maintenance. *)
(* src/internal/haoperations/service.go:698-707 Service.MaintenancePreflight *)
Definition preflight_tls (nodeID : string) (snapshots : res (list Snapshot)) : ha HACheck :=
  match List.find (λ s, Snapshot_NodeID s =?? nodeID) (listed snapshots) with
  | None => Ret (mkHACheck "tls" "unknown" false "TLS_STATE_UNAVAILABLE" "TLS configuration state is unavailable")
  | Some snapshot =>
      do now <- base Now;
      let check := returnTLSCheck (Some snapshot) now in
      Ret (mkHACheck (Check_Name check) (Check_Status check) false (Check_ErrorCode check) (Check_Message check))
  end.

(* src/internal/haoperations/service.go:708-715 Service.MaintenancePreflight *)
Definition peers_compatible (nodeID : string) (nodes : list Node) : bool :=
  forallb (λ peer, (Node_ID peer =?? nodeID) || negb (Node_Enabled peer) ||
                   (Node_CompatibilityStatus peer =?? CompatibilitySupported)) nodes.

(** The nodes that keep serving DNS when the node leaves. *)
(* src/internal/haoperations/service.go:680-686 Service.MaintenancePreflight *)
Definition remaining_nodes (now : Time) (window : Duration) (serving : Z) (node : Node)
  (latest : res DNSProbeResult) : Z :=
  let leaves := match latest with
    | Ok p => (DNSProbe_Status p =?? "healthy") && negb (Node_MaintenanceMode node) && probe_fresh now window p
    | Err _ => false
    end in
  let remaining := if leaves then serving - 1 else serving in
  if remaining <? 0 then 0 else remaining.

(* src/internal/haoperations/service.go:694-697 Service.MaintenancePreflight *)
Definition target_healthy (now : Time) (window : Duration) (latest : res DNSProbeResult) : bool :=
  match latest with Ok p => (DNSProbe_Status p =?? "healthy") && probe_fresh now window p | Err _ => false end.

(* src/internal/haoperations/service.go:716-725 Service.MaintenancePreflight *)
Definition preflight_checks (node : Node) (remaining : Z) (target activeDeployment openDrift activeDHCP compatible : bool)
  (tls : HACheck) : list HACheck :=
  [mkHACheck "dns_capacity" (status_of (0 <? remaining) "pass" "warning") true ""
     (itoa remaining +:+ " verified DNS nodes remain");
   mkHACheck "target_dns" (status_of target "pass" "warning") false ""
     (status_of target "Target currently answers the configured DNS probe" "Target has no fresh healthy DNS proof");
   mkHACheck "active_deployment" (status_of (negb activeDeployment) "pass" "fail") true ""
     (status_of (negb activeDeployment) "No active deployment" "An active deployment must finish first");
   mkHACheck "drift" (status_of (negb openDrift) "pass" "warning") false ""
     (status_of (negb openDrift) "No open drift" "Open drift remains visible during maintenance");
   mkHACheck "dhcp" (status_of (negb activeDHCP) "pass" "fail") true ""
     (status_of (negb activeDHCP) "Node is not active DHCP" "Complete an audited DHCP handoff before maintenance");
   tls;
   mkHACheck "peer_compatibility" (status_of compatible "pass" "warning") false ""
     (status_of compatible "Enabled peers are inside the tested controller compatibility range"
        "One or more enabled peers are outside the tested controller compatibility range");
   mkHACheck "api" (status_of (Node_HealthStatus node =?? NodeHealthy) "pass" "warning") false ""
     "Management API health is evaluated independently"].

(* src/internal/haoperations/service.go:660-728 Service.MaintenancePreflight *)
Definition HA_MaintenancePreflight (nodeID : string) : ha (res MaintenancePreflight) :=
  try node <- base (Repo_NodeByID nodeID);
  try summary <- HA_Summary (Node_ClusterID node);
  try activeDeployment <- call (HA_ActiveDeploymentExists (Node_ClusterID node));
  try openDrift <- call (HA_OpenDriftExists nodeID);
  do activeDHCP <- nodeActiveDHCP (Node_ClusterID node) nodeID;
  do now <- base Now;
  do window <- dnsFreshnessWindow;
  do latest <- call (HA_LatestProbe nodeID);
  let remaining := remaining_nodes now window (HA_ServingDNSNodes summary) node latest in
  do latest <- call (HA_LatestProbe nodeID);
  let target := target_healthy now window latest in
  do snapshots <- call (HA_LatestSuccessfulSnapshots (Node_ClusterID node));
  do tls <- preflight_tls nodeID snapshots;
  do nodes <- base (Repo_ListNodes (Node_ClusterID node));
  let compatible := peers_compatible nodeID (listed nodes) in
  let breakGlass := remaining =? 0 in
  done_with (mkMaintenancePreflight nodeID
    (negb activeDeployment && negb activeDHCP && ((0 <? remaining) || breakGlass))
    breakGlass remaining (if remaining <? 2 then "at_risk" else "healthy") activeDeployment openDrift activeDHCP
    (preflight_checks node remaining target activeDeployment openDrift activeDHCP compatible tls)).

(** ** Into maintenance *)

(* src/internal/haoperations/service.go:730-760 Service.EnterMaintenance *)
Definition EnterMaintenance (actor : Actor) (nodeID : string) (expectedVersion : Z) (breakGlass : bool)
  (confirmation : string) : ha (res Node) :=
  try node <- base (Repo_NodeByID nodeID);
  if Node_MaintenanceMode node then done_with node
  else
    try preflight <- HA_MaintenancePreflight nodeID;
    try _ <- guard (Preflight_Allowed preflight)
      (NewError ErrorConflict "maintenance preflight contains a blocking check");
    try _ <- guard (negb (Preflight_BreakGlassRequired preflight) ||
                    (breakGlass && (confirmation =?? BreakGlassConfirmation)))
      (Validation "confirmation" "break-glass confirmation is required");
    try node <- call (HA_SetNodeMaintenance actor nodeID true expectedVersion);
    do now <- base Now;
    try event <- newEvent (Node_ClusterID node) (Some nodeID) "maintenance.started"
      (status_of (Preflight_BreakGlassRequired preflight) "critical" "warning") "Planned maintenance started"
      [("breakGlass", JBool (Preflight_BreakGlassRequired preflight));
       ("healthyDnsNodesRemaining", JNum (Preflight_HealthyDNSNodesRemaining preflight))] now;
    try _ <- call (HA_RecordEvent event);
    done_with node.

(** ** Back to service *)

(* src/internal/haoperations/service.go:776-776 Service.ReturnToService *)
Definition node_status_request (record : NodeRecord) (credentials : NodeCredentials) : NodeProbeRequest :=
  mkNodeProbeRequest (Node_BaseURL (Record_Node record)) (Node_CertificatePolicy (Record_Node record))
    (Secrets_CustomCAPEM (Record_Secrets record)) credentials.

(* src/internal/haoperations/service.go:773-779 Service.ReturnToService *)
Definition probe_api (nodeID : string) (record : NodeRecord) : ha (res NodeProbeResult) :=
  try credentials <- base (Decrypt nodeID (Secrets_Credentials (Record_Secrets record)));
  base (ProbeStatus (node_status_request record credentials)).

(* src/internal/haoperations/service.go:782-782 Service.ReturnToService *)
Definition observed_ok (observed : res Snapshot) : bool :=
  match observed with Ok s => Snapshot_CollectionStatus s =?? "succeeded" | Err _ => false end.

(* src/internal/haoperations/service.go:787-809 Service.ReturnToService *)
Definition configuration_check (record : NodeRecord) (openDrift : res bool) (cluster : res Cluster) : HACheck :=
  let node := Record_Node record in
  match openDrift, cluster with
  | Ok openDrift, Ok cluster =>
      let converged := negb openDrift && negb (Node_ConvergenceStatus node =?? "drifted") &&
        match Cluster_ActiveRevisionID cluster with
        | Some active => match Node_AppliedRevisionID node with Some applied => applied =?? active | None => false end
        | None => true
        end in
      if converged
      then mkHACheck "convergence_drift" "pass" false "" "No unresolved drift and the active revision is applied"
      else mkHACheck "convergence_drift" "warning" false "CONFIGURATION_RECONCILIATION_PENDING"
        "Configuration reconciliation is pending and will resume after maintenance"
  | _, _ => mkHACheck "convergence_drift" "fail" true "CONFIGURATION_STATE_UNAVAILABLE"
      "Configuration and drift state could not be verified"
  end.

(* src/internal/haoperations/service.go:812-819 Service.ReturnToService *)
Definition dhcp_check (activeDHCP : bool) (nodes : res Z) : HACheck :=
  let message := status_of activeDHCP "Node is the single observed active DHCP node"
    "No active DHCP responsibility observed" in
  match nodes with
  | Err _ => mkHACheck "dhcp_safety" "fail" true "DHCP_SAFETY_UNAVAILABLE" "DHCP responsibility could not be verified"
  | Ok n => if n <=? 1 then mkHACheck "dhcp_safety" "pass" true "" message
      else mkHACheck "dhcp_safety" "fail" true "MULTIPLE_ACTIVE_DHCP_NODES" "Multiple active DHCP nodes were observed"
  end.

(* src/internal/haoperations/service.go:822-824 Service.ReturnToService *)
Definition collector_checks (checks : res (list HACheck)) : list HACheck :=
  match checks with
  | Ok checks => checks
  | Err _ => [mkHACheck "collectors" "fail" true "COLLECTOR_VALIDATION_FAILED" "Collector state could not be verified"]
  end.

(** The checks of a node in maintenance, each from a call made after the one before. *)
(* src/internal/haoperations/service.go:773-825 Service.ReturnToService *)
Definition return_checks (nodeID : string) (record : NodeRecord) : ha (list HACheck) :=
  let clusterID := Node_ClusterID (Record_Node record) in
  do api <- probe_api nodeID record;
  do observed <- base (Observe nodeID);
  do dns <- ProbeNode nodeID;
  let '(dnsResult, dnsErr) := dns in
  do openDrift <- call (HA_OpenDriftExists nodeID);
  do cluster <- base (Repo_ClusterByID clusterID);
  do activeDHCP <- nodeActiveDHCP clusterID nodeID;
  do dhcpNodes <- activeDHCPNodes clusterID;
  do now <- base Now;
  do collectors <- call (HA_CollectorChecks nodeID);
  Ret ([mkHACheck "api" (status_of (negb (bool_decide (is_Some (err_of api)))) "pass" "fail") true
          (safeErrorCode (err_of api)) "Authenticated AdGuard Home management API";
        mkHACheck "observation_capabilities" (status_of (observed_ok observed) "pass" "fail") true
          (safeErrorCode (err_of observed)) "Fresh configuration observation and capability refresh";
        mkHACheck "dns" (status_of (negb (bool_decide (is_Some dnsErr)) && (DNSProbe_Status dnsResult =?? "healthy"))
            "pass" "fail") true
          (DNSProbe_ErrorCode dnsResult) "Active DNS query over configured protocols";
        configuration_check record openDrift cluster;
        dhcp_check activeDHCP dhcpNodes;
        returnTLSCheck (match observed with Ok s => Some s | Err _ => None end) now] ++ collector_checks collectors).

(* src/internal/haoperations/service.go:765-765 Service.ReturnToService *)
Definition no_validation : ReturnValidation := mkReturnValidation "" false [].

(* src/internal/haoperations/service.go:833-846 Service.ReturnToService *)
Definition return_failed (actor : Actor) (nodeID clusterID : string) (validation : ReturnValidation) :
  ha (ReturnValidation * option error) :=
  let failed := JArr (JStr <$> failedCheckNames (Return_Checks validation)) in
  do now <- base Now;
  try event <- newEvent clusterID (Some nodeID) "maintenance.return_validation_failed" "critical"
    "Return-to-service validation failed" [("checks", failed)] now else validation;
  try auditEvent <- ha_audit actor "node.maintenance_return_failed" "node" nodeID
    [("clusterId", JStr clusterID); ("failedChecks", failed)] now else validation;
  try _ <- call (HA_RecordEventAndAudit event auditEvent) else validation;
  Ret (validation, Some (NewError ErrorVerification (returnValidationFailureMessage (Return_Checks validation)))).

(* src/internal/haoperations/service.go:762-857 Service.ReturnToService *)
Definition ReturnToService (actor : Actor) (nodeID : string) (expectedVersion : Z) :
  ha (ReturnValidation * option error) :=
  try record <- base (Repo_NodeRecordByID nodeID) else no_validation;
  if negb (Node_MaintenanceMode (Record_Node record)) then
    Ret (mkReturnValidation nodeID true
      [mkHACheck "maintenance_state" "pass" true "" "Node is already outside maintenance"], None)
  else
    do checks <- return_checks nodeID record;
    let validation := mkReturnValidation nodeID (negb (existsb blocking checks)) checks in
    if negb (Return_Succeeded validation) then
      return_failed actor nodeID (Node_ClusterID (Record_Node record)) validation
    else
      try node <- call (HA_SetNodeMaintenance actor nodeID false expectedVersion) else validation;
      do now <- base Now;
      do created <- newEvent (Node_ClusterID node) (Some nodeID) "maintenance.ended" "info" "Node returned to service"
        [("validation", JStr "passed")] now;
      let event := match created with Ok event => event | Err _ => zero_event end in
      try _ <- call (HA_RecordEvent event) else validation;
      Ret (validation, None).

(** ** The life cycle of a node *)

(* src/internal/haoperations/service.go:859-890 Service.Lifecycle *)
Definition Lifecycle (nodeID : string) : ha (res NodeLifecycle) :=
  try node <- base (Repo_NodeByID nodeID);
  try settings <- HA_Settings nodeID;
  do probe <- call (HA_LatestProbe nodeID);
  do certificates <- HA_Certificates (Node_ClusterID node);
  do versions <- HA_Versions (Node_ClusterID node);
  try events <- call (HA_ListEvents (Node_ClusterID node) nodeID 50);
  do now <- base Now;
  done_with (mkNodeLifecycle now settings (match probe with Ok p => Some p | Err _ => None end)
    (default (mkCertificate nodeID (Node_Name node) "" "" None None CertificateUnknown None)
       (last_with Certificate_NodeID nodeID (listed certificates)))
    (default (mkVersionState nodeID (Node_Name node) "" "" "" "" "" false false)
       (last_with Version_NodeID nodeID (listed versions)))
    events).
End maintenance.

(** * internal/haoperations/service.go: guided upgrades *)

Section upgrades.
Context {R : Runtime} {F : Printing} {M : MapOrder}.

(* src/internal/haoperations/service.go:892-945 Service.StartUpgrade *)
Definition StartUpgrade (actor : Actor) (nodeID targetVersion : string) : ha (res Upgrade) :=
  try node <- base (Repo_NodeByID nodeID);
  try settings <- HA_Settings nodeID;
  try _ <- guard (SupportForInstallation (Settings_InstallationType settings) =?? UpgradeGuided)
    (NewError ErrorCapability "this installation type has no supported controller upgrade workflow");
  try _ <- guard (Node_CompatibilityStatus node =?? CompatibilitySupported)
    (NewError ErrorCapability "the current node version is outside the supported controller compatibility range");
  try _ <- guard (Node_MaintenanceMode node)
    (NewError ErrorConflict "guided upgrade requires the node to be in maintenance");
  let targetVersion := TrimSpace targetVersion in
  try _ <- guard (negb ((targetVersion =?? "") || (128 <? len targetVersion)))
    (Validation "targetVersion" "is required");
  do compatibility <- call (HA_Compatibility targetVersion);
  try _ <- guard (compatibility =?? CompatibilitySupported)
    (NewError ErrorCapability "the target version is outside the tested controller compatibility range");
  try preflight <- HA_MaintenancePreflight nodeID;
  try _ <- guard (Preflight_Allowed preflight)
    (NewError ErrorConflict "upgrade preflight contains a blocking check");
  try _ <- guard (negb (Preflight_OpenDrift preflight))
    (NewError ErrorConflict "resolve or adopt node drift before upgrading");
  try id <- base GenerateID;
  do now <- base Now;
  let upgrade := mkUpgrade id (Node_ClusterID node) nodeID (Node_Version node) targetVersion
    (Settings_InstallationType settings) "guided" "awaiting_operator" (Actor_UserID actor) (Actor_RequestID actor)
    (JObj [("healthyDnsNodesRemaining", JNum (Preflight_HealthyDNSNodesRemaining preflight));
           ("expectedRedundancy", JStr (Preflight_ExpectedRedundancy preflight))])
    (JObj []) "" "" now None in
  try auditEvent <- ha_audit actor "upgrade.started" "upgrade" id
    [("nodeId", JStr nodeID); ("targetVersion", JStr targetVersion); ("mode", JStr "guided")] now;
  try event <- newEvent (Node_ClusterID node) (Some nodeID) "upgrade.started" "warning"
    "Guided AdGuard Home upgrade started" [("upgradeId", JStr id); ("targetVersion", JStr targetVersion)] now;
  try _ <- call (HA_CreateUpgrade upgrade auditEvent event);
  done_with upgrade.

(** The version the node reports, empty when it cannot be asked. *)
(* src/internal/haoperations/service.go:956-968 Service.CompleteUpgrade *)
Definition observed_version (nodeID : string) : ha string :=
  do record <- base (Repo_NodeRecordByID nodeID);
  match record with
  | Err _ => Ret ""
  | Ok record =>
      do status <- probe_api nodeID record;
      Ret (match status with Ok status => Probe_Version status | Err _ => "" end)
  end.

(* src/internal/haoperations/models.go:202-208 Check *)
Definition check_json (c : HACheck) : json :=
  JObj ([("name", JStr (Check_Name c)); ("status", JStr (Check_Status c)); ("required", JBool (Check_Required c))] ++
    when (negb (Check_ErrorCode c =?? "")) ("errorCode", JStr (Check_ErrorCode c)) ++
    [("message", JStr (Check_Message c))]).

(** The check list that was never assigned is nil. *)
(* src/internal/haoperations/service.go:975-975 Service.CompleteUpgrade *)
Definition validation_json (v : ReturnValidation) : json :=
  JObj [("succeeded", JBool (Return_Succeeded v));
        ("checks", match Return_Checks v with [] => JNull | checks => JArr (check_json <$> checks) end)].

(* src/internal/haoperations/service.go:970-972 Service.CompleteUpgrade *)
Definition version_mismatch (nodeID : string) : ReturnValidation * option error :=
  (mkReturnValidation nodeID false
     [mkHACheck "expected_version" "fail" true "UPGRADE_VERSION_MISMATCH"
        "Installed version does not match the requested target"],
   Some (NewError ErrorVerification
     "node remains in maintenance because the expected target version was not observed")).

(* src/internal/haoperations/service.go:956-974 Service.CompleteUpgrade *)
Definition validate_upgrade (actor : Actor) (upgrade : Upgrade) (expectedNodeVersion : Z) :
  ha (ReturnValidation * option error) :=
  let nodeID := Upgrade_NodeID upgrade in
  do version <- observed_version nodeID;
  if (version =?? "") || negb (compareVersions version (Upgrade_TargetVersion upgrade) =? 0)
  then Ret (version_mismatch nodeID)
  else ReturnToService actor nodeID expectedNodeVersion.

(** The upgrade after its validation. *)
(* src/internal/haoperations/service.go:975-984 Service.CompleteUpgrade *)
Definition completed (u : Upgrade) (validation : ReturnValidation) (failed : bool) (at_ : Time) : Upgrade :=
  mkUpgrade (Upgrade_ID u) (Upgrade_ClusterID u) (Upgrade_NodeID u) (Upgrade_FromVersion u) (Upgrade_TargetVersion u)
    (Upgrade_InstallationType u) (Upgrade_Mode u) (if failed then "failed" else "succeeded")
    (Upgrade_RequestedBy u) (Upgrade_RequestID u) (Upgrade_Preflight u) (validation_json validation)
    (if failed then "POST_UPGRADE_VALIDATION_FAILED" else Upgrade_ErrorCode u)
    (if failed then "Post-upgrade validation failed; node remains in maintenance" else Upgrade_ErrorSummary u)
    (Upgrade_StartedAt u) (Some at_).

(* src/internal/haoperations/service.go:950-950 Service.CompleteUpgrade *)
Definition zero_upgrade : Upgrade :=
  mkUpgrade "" "" "" "" "" "" "" "" "" "" JNull JNull "" "" time_zero None.

(* src/internal/haoperations/service.go:947-997 Service.CompleteUpgrade *)
Definition CompleteUpgrade (actor : Actor) (upgradeID : string) (expectedNodeVersion : Z) :
  ha (Upgrade * option error) :=
  try upgrade <- call (HA_UpgradeByID upgradeID) else zero_upgrade;
  try _ <- guard (Upgrade_Status upgrade =?? "awaiting_operator")
    (NewError ErrorConflict "upgrade is not awaiting validation") else zero_upgrade;
  let nodeID := Upgrade_NodeID upgrade in
  do validated <- validate_upgrade actor upgrade expectedNodeVersion;
  let '(validation, validationErr) := validated in
  let failed := bool_decide (is_Some validationErr) in
  do now <- base Now;
  let upgrade := completed upgrade validation failed now in
  try auditEvent <- ha_audit actor (if failed then "upgrade.failed" else "upgrade.succeeded") "upgrade"
    (Upgrade_ID upgrade) [("nodeId", JStr nodeID); ("status", JStr (Upgrade_Status upgrade))] now else zero_upgrade;
  try event <- newEvent (Upgrade_ClusterID upgrade) (Some nodeID)
    (if failed then "upgrade.validation_failed" else "upgrade.succeeded") (if failed then "critical" else "info")
    (if failed then "Post-upgrade validation failed" else "AdGuard Home upgrade validated")
    [("upgradeId", JStr (Upgrade_ID upgrade)); ("errorCode", JStr (Upgrade_ErrorCode upgrade))] now else zero_upgrade;
  try _ <- call (HA_UpdateUpgrade upgrade auditEvent event) else zero_upgrade;
  Ret (upgrade, validationErr).

(* src/internal/haoperations/service.go:1069-1074 Service.Upgrades *)
Definition Upgrades (clusterID : string) (limit : Z) : ha (res (list Upgrade)) :=
  call (HA_ListUpgrades clusterID (if (limit <? 1) || (200 <? limit) then 100 else limit)).
End upgrades.
