(* ===== verification/HASpec.v ===== *)
(** * What the high-availability service promises

    A node enters maintenance only past its preflight, leaves it only past every required
    check, and an upgrade succeeds only at its target version: whatever the repository, the
    node, the prober and the clock answer. *)

From S2P Require Import Prelude GoRuntime Json Domain Compat Configuration Net ControlModel Effects.
From S2P Require Import ControlEffects DnsProbe HAModel HAOperations HAMaintenance.

(** ** Facts of a run *)

Inductive ha_fact : Type :=
| ANow (t : Time)
| AInterval (d : option Duration)
| ANode (id : string) (r : res Node)
| ANodes (clusterID : string) (r : res (list Node))
| ARecord (id : string) (r : res NodeRecord)
| ACluster (id : string) (r : res Cluster)
| AObserved (id : string) (r : res Snapshot)
| AStatus (request : NodeProbeRequest) (r : res NodeProbeResult)
| AProbe (request : DNSProbeRequest) (r : DNSProbeResult * option error)
| ALatest (id : string) (r : res DNSProbeResult)
| AProbes (clusterID : string) (r : res (list DNSProbeResult))
| ASnapshots (clusterID : string) (r : res (list Snapshot))
| AActive (clusterID : string) (r : res bool)
| ADrift (id : string) (r : res bool)
| ACollectors (id : string) (r : res (list HACheck))
| AUpgrade (id : string) (r : res Upgrade)
| ASaved (result : DNSProbeResult) (transition : option HAEvent) (r : res unit)
| AMaintenance (actor : Actor) (id : string) (enabled : bool) (version : Z) (r : res Node)
| AUpdated (upgrade : Upgrade) (r : res unit).

Definition base_view {X} (e : ctl X) : X → option ha_fact :=
  match e in ctl X return X → option ha_fact with
  | Now => λ t, Some (ANow t)
  | Repo_NodeByID id => λ r, Some (ANode id r)
  | Repo_ListNodes id => λ r, Some (ANodes id r)
  | Repo_NodeRecordByID id => λ r, Some (ARecord id r)
  | Repo_ClusterByID id => λ r, Some (ACluster id r)
  | Observe id => λ r, Some (AObserved id r)
  | ProbeStatus q => λ r, Some (AStatus q r)
  | _ => λ _, None
  end.

Definition ha_view (ev : event hactl) : option ha_fact :=
  match ev with
  | Event e x =>
      match e in hactl X return X → option ha_fact with
      | Base e => base_view e
      | HA_NodeHealthInterval => λ d, Some (AInterval d)
      | HA_Probe q => λ r, Some (AProbe q r)
      | HA_LatestProbe id => λ r, Some (ALatest id r)
      | HA_LatestProbes id => λ r, Some (AProbes id r)
      | HA_LatestSuccessfulSnapshots id => λ r, Some (ASnapshots id r)
      | HA_ActiveDeploymentExists id => λ r, Some (AActive id r)
      | HA_OpenDriftExists id => λ r, Some (ADrift id r)
      | HA_CollectorChecks id => λ r, Some (ACollectors id r)
      | HA_UpgradeByID id => λ r, Some (AUpgrade id r)
      | HA_SaveProbe result t => λ r, Some (ASaved result t r)
      | HA_SetNodeMaintenance a id b v => λ r, Some (AMaintenance a id b v r)
      | HA_UpdateUpgrade u _ _ => λ r, Some (AUpdated u r)
      | _ => λ _, None
      end x
  end.

Abbreviation ha_facts := (with_facts ha_view).

Ltac ha_step :=
  first
  [ facts_step ltac:(fun _ => cbn [ha_view base_view option_list option_rect])
  | lazymatch goal with
    | |- with_facts _ (base _) _ => unfold base; apply facts_call; intros ?; cbn [ha_view base_view option_list option_rect]
    end ].

(** A run that neither moves a node into or out of maintenance nor closes an upgrade. *)
Definition calm (f : list ha_fact) : Prop :=
  (∀ a id b v r, AMaintenance a id b v r ∉ f) ∧ (∀ u r, AUpdated u r ∉ f).

Lemma calm_nil : calm [].
Proof. split; intros; apply not_elem_of_nil. Qed.

Lemma calm_app f g : calm f → calm g → calm (f ++ g).
Proof. unfold calm. intros [] []. split; intros; rewrite elem_of_app; naive_solver. Qed.

Lemma calm_cons x f : (∀ a id b v r, x ≠ AMaintenance a id b v r) → (∀ u r, x ≠ AUpdated u r) → calm f → calm (x :: f).
Proof. unfold calm. intros ?? []. split; intros; rewrite elem_of_cons; naive_solver. Qed.

Create HintDb calm discriminated.
#[export] Hint Resolve calm_nil calm_app : calm.
#[export] Hint Extern 1 (calm (_ :: _)) => apply calm_cons; [done|done|] : calm.
#[export] Hint Extern 2 (calm _) => assumption : calm.

Ltac calm := cbn [app]; rewrite ?app_nil_r; auto 20 with calm.

Section spec.
Context {R : Runtime} {F : Printing} {M : MapOrder}.

Lemma facts_and {A} (p : ha A) (P Q : list ha_fact → A → Prop) :
  ha_facts p P → ha_facts p Q → ha_facts p (λ f a, P f a ∧ Q f a).
Proof. intros HP HQ tr a H. by split; [apply HP|apply HQ]. Qed.

Lemma newEvent_facts c n ty s m d t : ha_facts (newEvent c n ty s m d t) (λ f r,
  f = [] ∧ ∀ e, r = Ok e → ∃ id, e = mkHAEvent id c n ty s m d t).
Proof. unfold newEvent. repeat ha_step; (split; [done|]); [|done]. intros e [= <-]. eauto. Qed.

Lemma newEvent_calm c n ty s m d t : ha_facts (newEvent c n ty s m d t) (λ f _, f = []).
Proof. unfold newEvent. by repeat ha_step. Qed.

Lemma ha_audit_calm a ac t id md at_ : ha_facts (ha_audit a ac t id md at_) (λ f _, f = []).
Proof. unfold ha_audit. by repeat ha_step. Qed.

Lemma Settings_calm id : ha_facts (HA_Settings id) (λ f _, calm f).
Proof. unfold HA_Settings. repeat ha_step; calm. Qed.

Lemma certificates_calm snapshots nodes : ha_facts (certificates_loop snapshots nodes) (λ f _, calm f).
Proof.
  induction nodes as [|node nodes IH]; cbn [certificates_loop]; [by ha_step; calm|].
  cbv zeta. ha_step. case_bool_decide; repeat ha_step;
    (eapply facts_mono; [apply IH|]; intros f [a|e] Hf; [ha_step|]); calm.
Qed.

Lemma Certificates_calm id : ha_facts (HA_Certificates id) (λ f _, calm f).
Proof.
  unfold HA_Certificates. repeat ha_step; calm.
  eapply facts_mono; [apply certificates_calm|]. intros f r Hf. calm.
Qed.

Lemma versions_calm cache nodes : ha_facts (versions_loop cache nodes) (λ f _, calm f).
Proof.
  induction nodes as [|node nodes IH]; cbn [versions_loop]; [by ha_step; calm|].
  ha_step. eapply facts_mono; [apply Settings_calm|]. intros f [settings|e] Hf; [|done].
  ha_step. destruct cache as [c|e]; cbv zeta; repeat ha_step;
    (eapply facts_mono; [apply IH|]; intros g [a|e'] Hg; [ha_step|]); calm.
Qed.

Lemma Versions_calm id : ha_facts (HA_Versions id) (λ f _, calm f).
Proof.
  unfold HA_Versions. repeat ha_step; calm;
    (eapply facts_mono; [apply versions_calm|]; intros f r Hf; calm).
Qed.

(** ** Into maintenance *)

Definition window_of (interval : option Duration) : Duration := DNSFreshnessWindow (default 0 interval).

(** The nodes that serve DNS, as the repository and the clock tell. *)
Definition counted_serving (clusterID : string) (f : list ha_fact) (n : Z) : Prop :=
  ∃ nodes probes now interval, ANodes clusterID (Ok nodes) ∈ f ∧ AProbes clusterID (Ok probes) ∈ f ∧
    ANow now ∈ f ∧ AInterval interval ∈ f ∧ n = count (serving now (window_of interval) probes) nodes.

Lemma counted_serving_mono c f g n : f ⊆ g → counted_serving c f n → counted_serving c g n.
Proof. intros Hfg (nodes & probes & now & interval & ?). exists nodes, probes, now, interval. set_solver. Qed.

Lemma Summary_facts id : ha_facts (HA_Summary id) (λ f r, calm f ∧
  ∀ s, r = Ok s → counted_serving id f (HA_ServingDNSNodes s)).
Proof.
  unfold HA_Summary, dnsFreshnessWindow. repeat ha_step; try (by split; [calm|]).
  eapply facts_mono; [apply Certificates_calm|]. intros g certificates Hg. ha_step.
  eapply facts_mono; [apply Versions_calm|]. intros h versions Hh. ha_step.
  split; [calm|]. intros s [= <-]. cbn [app]. eexists _, _, _, _.
  split_and!; [..|reflexivity]; set_solver.
Qed.

Lemma nodeActiveDHCP_facts c id : ha_facts (nodeActiveDHCP c id) (λ f b, calm f ∧
  ∃ r, f = [ASnapshots c r] ∧ b = existsb (λ s, (Snapshot_NodeID s =?? id) && serves_dhcp s) (listed r)).
Proof. unfold nodeActiveDHCP. repeat ha_step. split; [calm|eauto]. Qed.

Lemma preflight_tls_calm id r : ha_facts (preflight_tls id r) (λ f _, calm f).
Proof. unfold preflight_tls. repeat ha_step; calm. Qed.

(** What a preflight was computed from. *)
Definition preflight_evidence (nodeID : string) (f : list ha_fact) (p : MaintenancePreflight) : Prop :=
  ∃ node snapshots now interval serving latest,
    ANode nodeID (Ok node) ∈ f ∧ AActive (Node_ClusterID node) (Ok (Preflight_ActiveDeployment p)) ∈ f ∧
    ASnapshots (Node_ClusterID node) snapshots ∈ f ∧
    Preflight_ActiveDHCP p = existsb (λ s, (Snapshot_NodeID s =?? nodeID) && serves_dhcp s) (listed snapshots) ∧
    counted_serving (Node_ClusterID node) f serving ∧ ALatest nodeID latest ∈ f ∧ ANow now ∈ f ∧
    AInterval interval ∈ f ∧
    Preflight_HealthyDNSNodesRemaining p = remaining_nodes now (window_of interval) serving node latest ∧
    Preflight_BreakGlassRequired p = (Preflight_HealthyDNSNodesRemaining p =? 0) ∧
    Preflight_Allowed p = negb (Preflight_ActiveDeployment p) && negb (Preflight_ActiveDHCP p).

Lemma preflight_evidence_mono id f g p : f ⊆ g → preflight_evidence id f p → preflight_evidence id g p.
Proof.
  intros Hfg (node & sn & now & interval & serving & latest & ? & ? & ? & ? & Hc & ?).
  exists node, sn, now, interval, serving, latest. apply (counted_serving_mono _ _ g) in Hc; [|done]. set_solver.
Qed.

Lemma remaining_nodes_range now w serving node latest : 0 <= remaining_nodes now w serving node latest.
Proof.
  unfold remaining_nodes. cbv zeta. match goal with |- context [if ?b <? 0 then _ else _] => destruct (Z.ltb_spec b 0) end; lia.
Qed.

Lemma some_capacity n : 0 <= n → (0 <? n) || (n =? 0) = true.
Proof. lia. Qed.

Lemma Preflight_facts id : ha_facts (HA_MaintenancePreflight id) (λ f r, calm f ∧
  ∀ p, r = Ok p → preflight_evidence id f p).
Proof.
  unfold HA_MaintenancePreflight, dnsFreshnessWindow. ha_step. ha_step. ha_step; [|by split; [calm|]].
  ha_step. eapply facts_mono; [apply Summary_facts|]. intros f [summary|e] [Hf Hs]; [|by split; [calm|]].
  do 6 (ha_step; try (by split; [calm|])). ha_step. eapply facts_mono; [apply nodeActiveDHCP_facts|].
  intros g dhcp (Hg & r & -> & ->). repeat ha_step.
  eapply facts_mono; [apply preflight_tls_calm|]. intros h tls Hh. repeat ha_step. split; [calm|].
  intros p [= <-]. specialize (Hs _ eq_refl). cbn [app].
  exists a, r, x2, x3, (HA_ServingDNSNodes summary), x4.
  cbn [Preflight_ActiveDeployment Preflight_ActiveDHCP Preflight_HealthyDNSNodesRemaining
       Preflight_BreakGlassRequired Preflight_Allowed].
  split_and!; [set_solver|set_solver|set_solver|done| |set_solver|set_solver|set_solver|reflexivity|done|].
  - eapply counted_serving_mono; [|exact Hs]. set_solver.
  - by rewrite some_capacity, andb_true_r by apply remaining_nodes_range.
Qed.

(** Every move of a node into or out of maintenance satisfies [P] after the facts before it. *)
Definition moves (P : list ha_fact → Actor → string → bool → Z → res Node → Prop) (f : list ha_fact) : Prop :=
  ∀ before a id b v x after, f = before ++ AMaintenance a id b v x :: after → P before a id b v x.

Lemma moves_calm P f : calm f → moves P f.
Proof. intros [Hf _] before a id b v x after ->. destruct (Hf a id b v x). set_solver. Qed.

(** The side on which an element of a concatenation lies. *)
Lemma cut_app {A} (l1 l2 before after : list A) x : l1 ++ l2 = before ++ x :: after →
  (∃ k, l1 = before ++ x :: k ∧ after = k ++ l2) ∨ (∃ k, before = l1 ++ k ∧ l2 = k ++ x :: after).
Proof.
  intros Heq. destruct (app_eq_inv _ _ _ _ Heq) as [([|c k] & -> & Hk)|(k & -> & Hk)].
  - right. exists []. by rewrite !app_nil_r.
  - left. injection Hk as <- ->. by exists k.
  - right. eauto.
Qed.

Lemma moves_app (P Q : list ha_fact → Actor → string → bool → Z → res Node → Prop) f g h :
  calm f → moves Q g → (∀ a id b v x, AMaintenance a id b v x ∉ h) →
  (∀ before a id b v x, Q before a id b v x → P (f ++ before) a id b v x) → moves P (f ++ g ++ h).
Proof.
  intros [Hf _] Hg Hh HPQ before a id b v x after [(k & -> & _)|(k & -> & Hk)]%cut_app;
    [destruct (Hf a id b v x); set_solver|].
  apply cut_app in Hk as [(l & -> & _)|(l & -> & ->)]; [|destruct (Hh a id b v x); set_solver].
  by eapply HPQ, Hg.
Qed.

Lemma moves_one (P : list ha_fact → Actor → string → bool → Z → res Node → Prop) before a id b v x after :
  calm before → calm after → P before a id b v x → moves P (before ++ AMaintenance a id b v x :: after).
Proof.
  intros [Hb _] [Ha _] HP before' a' id' b' v' x' after' [(k & -> & _)|(k & -> & Hk)]%cut_app;
    [destruct (Hb a' id' b' v' x'); set_solver|].
  destruct k as [|c k]; injection Hk; intros; subst; [by rewrite app_nil_r|].
  destruct (Ha a' id' b' v' x'); set_solver.
Qed.

(** What comes before a node is put into maintenance. *)
Definition may_enter (actor : Actor) (nodeID : string) (version : Z) (breakGlass : bool) (confirmation : string)
  (before : list ha_fact) (a : Actor) (id : string) (b : bool) (v : Z) (_ : res Node) : Prop :=
  a = actor ∧ id = nodeID ∧ b = true ∧ v = version ∧
  (∃ node, ANode nodeID (Ok node) ∈ before ∧ Node_MaintenanceMode node = false) ∧
  ∃ p, preflight_evidence nodeID before p ∧ Preflight_ActiveDeployment p = false ∧ Preflight_ActiveDHCP p = false ∧
    (Preflight_HealthyDNSNodesRemaining p = 0 → breakGlass = true ∧ confirmation = BreakGlassConfirmation).

(** C21: whatever the repository, the management service and the clock answer, a node is put into
    maintenance only when it was read outside of it and its preflight found no active deployment
    in its cluster and no DHCP service of the node in the snapshots that could be read; when the
    preflight counts no other node with a fresh healthy probe, only with the break-glass
    confirmation; and the node that is returned was in maintenance before or was moved by this call. *)
Theorem maintenance_needs_preflight actor nodeID version breakGlass confirmation :
  ha_facts (EnterMaintenance actor nodeID version breakGlass confirmation) (λ f r,
    moves (may_enter actor nodeID version breakGlass confirmation) f ∧
    ∀ node, r = Ok node → (ANode nodeID (Ok node) ∈ f ∧ Node_MaintenanceMode node = true) ∨
      AMaintenance actor nodeID true version (Ok node) ∈ f).
Proof.
  unfold EnterMaintenance. ha_step. ha_step. ha_step; [|by split; [apply moves_calm; calm|]]. ha_step.
  { ha_step. split; [apply moves_calm; calm|]. intros node [= <-]. left. set_solver. }
  ha_step. eapply facts_mono; [apply Preflight_facts|].
  intros f [p|e] [Hf Hp]; [|by split; [apply moves_calm; calm|]]. specialize (Hp _ eq_refl).
  do 6 (ha_step; try (by split; [apply moves_calm; calm|])).
  assert (Hentry : ∀ x after, calm after → moves (may_enter actor nodeID version breakGlass confirmation)
      ((ANode nodeID (Ok a) :: f) ++ AMaintenance actor nodeID true version x :: after)).
  { intros y after Ha. apply moves_one; [calm|done|]. split_and!; try done; [exists a; set_solver|].
    exists p. split; [eapply preflight_evidence_mono; [|exact Hp]; set_solver|].
    destruct Hp as (? & ? & ? & ? & ? & ? & ? & ? & ? & ? & ? & ? & ? & ? & ? & Hbg & Hal).
    rewrite Hal in *. bool_simp. split_and!; try done. intros Hr. rewrite Hbg, Hr in *. bool_simp.
    cbn in Heqb1. by bool_simp. }
  repeat ha_step.
  - eapply facts_mono; [apply newEvent_calm|]. intros g [event|e] ->; repeat ha_step; cbn [app];
      (split; [apply Hentry; calm|]); intros node [= <-]; right; set_solver.
  - cbn [app]. split; [apply Hentry; calm|done].
Qed.

(** ** Back to service *)

Lemma probe_api_facts id record : ha_facts (probe_api id record) (λ f r, calm f ∧
  ∀ status, r = Ok status → ∃ credentials, AStatus (node_status_request record credentials) (Ok status) ∈ f).
Proof. unfold probe_api. repeat ha_step; (split; [calm|]); [|done]. intros status ->. exists a. set_solver. Qed.

Definition transition_of (id : string) (previous : res DNSProbeResult) (result : DNSProbeResult)
  (transition : option HAEvent) : Prop :=
  match transition with
  | None => ∃ p, previous = Ok p ∧ DNSProbe_Status p = DNSProbe_Status result
  | Some e => (∀ p, previous = Ok p → DNSProbe_Status p ≠ DNSProbe_Status result) ∧
      HAEvent_NodeID e = Some id ∧ HAEvent_OccurredAt e = DNSProbe_ProbedAt result ∧
      HAEvent_EventType e = if DNSProbe_Status result =?? "healthy" then "dns.recovered" else "dns.failed"
  end.

(** The row of a probe: what the prober answered, with an event exactly when the latest row of the
    node is missing or has another status. *)
Definition recorded_as (id : string) (f : list ha_fact) (result : DNSProbeResult) (transition : option HAEvent) : Prop :=
  ∃ request probed err previous, AProbe request (probed, err) ∈ f ∧ ALatest id previous ∈ f ∧
    DNSProbe_Status result = DNSProbe_Status probed ∧ DNSProbe_NodeID result = id ∧
    DNSProbe_ProbedAt result = DNSProbe_ProbedAt probed ∧
    transition_of id previous result transition.

Definition probe_promise (id : string) (f : list ha_fact) (r : DNSProbeResult * option error) : Prop :=
  calm f ∧
  (∀ result transition x, ASaved result transition x ∈ f → recorded_as id f result transition) ∧
  (r.2 = None → ∃ request probed transition, AProbe request (probed, None) ∈ f ∧
     DNSProbe_Status r.1 = DNSProbe_Status probed ∧ ASaved r.1 transition (Ok tt) ∈ f).

Definition unsaved (f : list ha_fact) : Prop := ∀ result transition x, ASaved result transition x ∉ f.

Lemma probe_promise_error id f result e : calm f → unsaved f → probe_promise id f (result, Some e).
Proof. intros Hf Hu. split_and!; [done| |done]. intros r t x H. by destruct (Hu r t x). Qed.

Lemma Settings_unsaved id : ha_facts (HA_Settings id) (λ f _, unsaved f).
Proof. unfold HA_Settings, unsaved. repeat ha_step; cbn [app]; set_solver. Qed.

Ltac probe_error :=
  lazymatch goal with
  | |- context [ASaved] => fail
  | |- _ => apply probe_promise_error; [calm|unfold unsaved in *; cbn [app]; set_solver]
  end.

Lemma probe_promise_saved id f request d o previous t x i c r :
  calm f → unsaved f → AProbe request (d, o) ∈ f → ALatest id previous ∈ f →
  transition_of id previous (named i id c d) t →
  (r = (named i id c d, o) ∧ x = Ok tt ∨ is_Some r.2) →
  probe_promise id (f ++ [ASaved (named i id c d) t x]) r.
Proof.
  intros Hf Hu Hp Hl Ht Hr. split_and!; [calm| |].
  - intros result t' x' Hin. apply elem_of_app in Hin as [Hin|Hin]; [by destruct (Hu result t' x')|].
    apply list_elem_of_singleton in Hin as [= -> -> ->]. exists request, d, o, previous. set_solver.
  - intros Hn. destruct Hr as [[-> ->]|[e He]]; [|congruence]. cbn in Hn. subst o.
    exists request, d, t. set_solver.
Qed.

Lemma probe_promise_end id a f request d o previous t x i c r :
  calm f → unsaved f → transition_of id previous (named i id c d) t →
  (r = (named i id c d, o) ∧ x = Ok tt ∨ is_Some r.2) →
  probe_promise id (ARecord id a :: f ++ [AProbe request (d, o); ALatest id previous; ASaved (named i id c d) t x]) r.
Proof.
  intros Hf Hu Ht Hr.
  change (probe_promise id ((ARecord id a :: f) ++ [AProbe request (d, o); ALatest id previous] ++ [ASaved (named i id c d) t x]) r).
  rewrite (assoc_L (++)). apply (probe_promise_saved id _ request d o previous); [calm|unfold unsaved in *; set_solver|..|exact Ht|exact Hr]; set_solver.
Qed.

Lemma transition_fresh id c i d previous e :
  (match previous with Ok p => negb (DNSProbe_Status p =?? DNSProbe_Status (named i id c d)) | Err _ => true end) = true →
  (∃ k, e = mkHAEvent k c (Some id) (if DNSProbe_Status (named i id c d) =?? "healthy" then "dns.recovered" else "dns.failed")
     (if DNSProbe_Status (named i id c d) =?? "healthy" then "info" else "critical")
     (if DNSProbe_Status (named i id c d) =?? "healthy" then "DNS service recovered" else "DNS service probe failed")
     (HAEvent_Details e) (DNSProbe_ProbedAt (named i id c d))) →
  transition_of id previous (named i id c d) (Some e).
Proof.
  intros Hc [k ->]. split_and!; try done. intros p ->. by bool_simp.
Qed.

Lemma probe_transition_facts c id i d : ha_facts (probe_transition c id (named i id c d)) (λ f r, f = [] ∧
  ∀ e previous, r = Ok e →
    match previous with Ok p => negb (DNSProbe_Status p =?? DNSProbe_Status (named i id c d)) | Err _ => true end = true →
    transition_of id previous (named i id c d) (Some e)).
Proof.
  unfold probe_transition. cbv zeta. eapply facts_mono; [apply newEvent_facts|]. intros f r [-> Hr]. split; [done|].
  intros e previous He Hc. destruct (Hr e He) as [k Hk]. apply transition_fresh; [done|]. exists k. by rewrite Hk.
Qed.

Lemma transition_same id previous i c d :
  match previous with Ok p => negb (DNSProbe_Status p =?? DNSProbe_Status (named i id c d)) | Err _ => true end = false →
  transition_of id previous (named i id c d) None.
Proof. intros H. destruct previous as [p|e]; [|done]. bool_simp. by exists p. Qed.

Lemma ProbeNode_facts id : ha_facts (ProbeNode id) (probe_promise id).
Proof.
  unfold ProbeNode. ha_step. ha_step. ha_step; [|ha_step; probe_error]. cbv zeta. ha_step. ha_step;
    repeat ha_step; try probe_error.
  all: eapply facts_mono;
    [apply facts_and; [apply Settings_calm|apply Settings_unsaved]|].
  all: intros f [settings|e] [Hf Hu]; repeat ha_step; try probe_error.
  - destruct o as [e|]; [probe_error|done].
  - eapply facts_mono; [apply probe_transition_facts|]. intros g [event|e] [-> Ht]; repeat ha_step; try probe_error;
      rewrite ?app_nil_r; cbn [app]; (apply probe_promise_end; [exact Hf|exact Hu|by apply (Ht event)|]).
    + left. by destruct a2.
    + right. by eexists.
  - cbn [app]. apply probe_promise_end; [exact Hf|exact Hu|by apply transition_same|]. left. by destruct a2.
  - cbn [app]. apply probe_promise_end; [exact Hf|exact Hu|by apply transition_same|]. right. by eexists.
Qed.

(** whatever the repository, the prober and the clock answer, a probe of a node stores what the
    prober answered, and with it an event exactly when the latest row of the node is missing or has
    another status: a recovery when the probe was healthy and a failure otherwise; a result is
    returned without an error only after it was stored. *)
Theorem probe_records_transitions id :
  ha_facts (ProbeNode id) (λ f r,
    (∀ result transition x, ASaved result transition x ∈ f → recorded_as id f result transition) ∧
    (r.2 = None → ∃ request probed transition, AProbe request (probed, None) ∈ f ∧
       DNSProbe_Status r.1 = DNSProbe_Status probed ∧ ASaved r.1 transition (Ok tt) ∈ f)).
Proof. eapply facts_mono; [apply ProbeNode_facts|]. by intros f r (_ & ? & ?). Qed.

(** What the checks of a return to service rest on. *)
Definition return_evidence (nodeID : string) (record : NodeRecord) (f : list ha_fact) : Prop :=
  let clusterID := Node_ClusterID (Record_Node record) in
  (∃ credentials status, AStatus (node_status_request record credentials) (Ok status) ∈ f) ∧
  (∃ snapshot now, AObserved nodeID (Ok snapshot) ∈ f ∧ Snapshot_CollectionStatus snapshot = "succeeded" ∧
     ANow now ∈ f ∧ blocking (returnTLSCheck (Some snapshot) now) = false) ∧
  (∃ request probed result transition, AProbe request (probed, None) ∈ f ∧ DNSProbe_Status probed = "healthy" ∧
     DNSProbe_Status result = "healthy" ∧ ASaved result transition (Ok tt) ∈ f) ∧
  (∃ drift cluster, ADrift nodeID (Ok drift) ∈ f ∧ ACluster clusterID (Ok cluster) ∈ f) ∧
  (∃ snapshots, ASnapshots clusterID (Ok snapshots) ∈ f ∧ count serves_dhcp snapshots <= 1) ∧
  (∃ checks, ACollectors nodeID (Ok checks) ∈ f ∧ existsb blocking checks = false).

Lemma activeDHCPNodes_facts c : ha_facts (activeDHCPNodes c) (λ f r, calm f ∧
  ∀ n, r = Ok n → ∃ snapshots, ASnapshots c (Ok snapshots) ∈ f ∧ n = count serves_dhcp snapshots).
Proof.
  unfold activeDHCPNodes. repeat ha_step; (split; [calm|]); [|done]. intros n [= <-]. exists a. set_solver.
Qed.

Lemma existsb_blocking_cons c l : existsb blocking (c :: l) = false → blocking c = false ∧ existsb blocking l = false.
Proof. cbn. by intros [? ?]%orb_false_iff. Qed.

Lemma blocking_required n b c m : blocking (mkHACheck n (status_of b "pass" "fail") true c m) = false → b = true.
Proof. by destruct b. Qed.

Lemma configuration_check_read record drift cluster : blocking (configuration_check record drift cluster) = false →
  ∃ d c, drift = Ok d ∧ cluster = Ok c.
Proof. destruct drift, cluster; cbn; [eauto|done..]. Qed.

Lemma dhcp_check_single b nodes : blocking (dhcp_check b nodes) = false → ∃ n, nodes = Ok n ∧ n <= 1.
Proof. destruct nodes as [n|]; cbn; [|done]. destruct (Z.leb_spec n 1); [eauto|done]. Qed.

Lemma collector_checks_read checks : existsb blocking (collector_checks checks) = false →
  ∃ l, checks = Ok l ∧ existsb blocking l = false.
Proof. destruct checks; cbn; [eauto|done]. Qed.

Lemma no_error {A} (r : res A) : negb (bool_decide (is_Some (err_of r))) = true → ∃ a, r = Ok a.
Proof. destruct r; cbn; [eauto|done]. Qed.

Lemma return_checks_facts id record : ha_facts (return_checks id record) (λ f checks, calm f ∧
  (existsb blocking checks = false → return_evidence id record f)).
Proof.
  unfold return_checks. cbv zeta. ha_step. eapply facts_mono; [apply probe_api_facts|]. intros f1 api [H1 Hapi].
  ha_step. ha_step. ha_step. eapply facts_mono; [apply ProbeNode_facts|]. intros f2 dns (H2 & _ & Hdns).
  destruct dns as [dnsResult dnsErr]. do 4 ha_step. ha_step.
  eapply facts_mono; [apply nodeActiveDHCP_facts|]. intros f3 dhcp (H3 & _). ha_step.
  eapply facts_mono; [apply activeDHCPNodes_facts|]. intros f4 nodes (H4 & Hn). repeat ha_step. split; [calm|].
  intros Hb. cbn [app] in *.
  apply existsb_blocking_cons in Hb as [[status ->]%blocking_required%no_error Hb].
  apply existsb_blocking_cons in Hb as [Hobs%blocking_required Hb].
  apply existsb_blocking_cons in Hb as [Hd%blocking_required Hb].
  apply existsb_blocking_cons in Hb as [(drift & cluster & -> & ->)%configuration_check_read Hb].
  apply existsb_blocking_cons in Hb as [(n & -> & Hle)%dhcp_check_single Hb].
  apply existsb_blocking_cons in Hb as [Htls Hb]. apply collector_checks_read in Hb as (checks & -> & Hb).
  destruct (Hapi _ eq_refl) as [credentials ?], (Hn _ eq_refl) as (snapshots & ? & ->).
  destruct x as [snapshot|]; [|done]. destruct dnsErr; [done|]. destruct (Hdns eq_refl) as (rq & probed & t & ? & Hs & ?).
  cbn in Hobs, Hd, Hs. bool_simp. split_and!.
  - exists credentials, status. set_solver.
  - exists snapshot, x2. set_solver.
  - exists rq, probed, dnsResult, t. rewrite <- Hs. set_solver.
  - exists drift, cluster. set_solver.
  - exists snapshots. set_solver.
  - exists checks. set_solver.
Qed.

(** What comes before a node is taken out of maintenance. *)
Definition may_return (actor : Actor) (nodeID : string) (version : Z) (before : list ha_fact)
  (a : Actor) (id : string) (b : bool) (v : Z) (_ : res Node) : Prop :=
  a = actor ∧ id = nodeID ∧ b = false ∧ v = version ∧
  ∃ record, ARecord nodeID (Ok record) ∈ before ∧ Node_MaintenanceMode (Record_Node record) = true ∧
    return_evidence nodeID record before.

(** A return without error: a validation that succeeded, of a node that was found outside of
    maintenance, where no check is run, or of a node in maintenance that passed every check and was
    then taken out of it. *)
Definition returned (actor : Actor) (nodeID : string) (version : Z) (f : list ha_fact) (v : ReturnValidation) : Prop :=
  Return_Succeeded v = true ∧
  ((∃ record, ARecord nodeID (Ok record) ∈ f ∧ Node_MaintenanceMode (Record_Node record) = false) ∨
   ∃ record node, ARecord nodeID (Ok record) ∈ f ∧ Node_MaintenanceMode (Record_Node record) = true ∧
     return_evidence nodeID record f ∧ AMaintenance actor nodeID false version (Ok node) ∈ f).

Lemma return_evidence_mono id record f g : f ⊆ g → return_evidence id record f → return_evidence id record g.
Proof.
  intros Hfg ((c & st & ?) & (sn & now & ?) & (rq & p & res & t & ?) & (d & cl & ?) & (l & ?) & (ch & ?)).
  split_and!; [exists c, st|exists sn, now|exists rq, p, res, t|exists d, cl|exists l|exists ch]; set_solver.
Qed.

(** No upgrade is closed. *)
Definition unclosed (f : list ha_fact) : Prop := ∀ u x, AUpdated u x ∉ f.

Lemma return_failed_calm actor id c v : ha_facts (return_failed actor id c v) (λ f r,
  (∃ now, f = [ANow now]) ∧ r.2 ≠ None).
Proof.
  unfold return_failed. cbv zeta. ha_step. ha_step. ha_step. eapply facts_mono; [apply newEvent_calm|].
  intros f [event|e] ->; repeat ha_step; [|by split; [eexists|]].
  eapply facts_mono; [apply ha_audit_calm|]. intros f [audit|e] ->; repeat ha_step; (split; [by eexists|done]).
Qed.

Lemma ReturnToService_facts actor nodeID version :
  ha_facts (ReturnToService actor nodeID version) (λ f r, unclosed f ∧ moves (may_return actor nodeID version) f ∧
    (r.2 = None → returned actor nodeID version f r.1)).
Proof.
  assert (Hcalm : ∀ f (r : ReturnValidation * option error), calm f → r.2 ≠ None →
    unclosed f ∧ moves (may_return actor nodeID version) f ∧ (r.2 = None → returned actor nodeID version f r.1)).
  { intros f r Hf Hr. split_and!; [by destruct Hf|by apply moves_calm|done]. }
  unfold ReturnToService. ha_step. ha_step. ha_step; [|ha_step; by apply Hcalm; [calm|]]. ha_step.
  { ha_step. split_and!; [unfold unclosed; set_solver|by apply moves_calm; calm|].
    intros _. split; [done|]. left. exists a. bool_simp. set_solver. }
  bool_simp. ha_step. eapply facts_mono; [apply return_checks_facts|]. intros f checks [Hf Hev]. cbv zeta.
  cbn [Return_Succeeded]. destruct (existsb blocking checks) eqn:Hb; cbn [negb].
  - eapply facts_mono; [apply return_failed_calm|]. intros g r [[now ->] Hr]. apply Hcalm; [calm|done].
  - assert (Hmove : ∀ x after, calm after → moves (may_return actor nodeID version)
      ((ARecord nodeID (Ok a) :: f) ++ AMaintenance actor nodeID false version x :: after)).
    { intros y after Ha. apply moves_one; [calm|done|]. split_and!; try done. exists a.
      split_and!; [set_solver|done|]. eapply return_evidence_mono; [|by apply Hev]. set_solver. }
    destruct Hf as [_ Hu]. ha_step. ha_step. ha_step; [|ha_step; split_and!;
      [unfold unclosed; set_solver|by apply (Hmove _ []), calm_nil|done]].
    ha_step. ha_step. ha_step. eapply facts_mono; [apply newEvent_calm|]. intros g event ->.
    repeat ha_step; cbn [app]; (split_and!; [unfold unclosed; set_solver|apply Hmove; calm|]); [|done].
    intros _. split; [done|]. right. exists a, a0. split_and!; [set_solver|done| |set_solver].
    eapply return_evidence_mono; [|by apply Hev]. set_solver.
Qed.

(** a node that is found outside of maintenance passes the return without any check: the record of
    the node is all that is read, and the validation succeeds. *)
Theorem return_outside_unchecked actor nodeID version :
  ha_facts (ReturnToService actor nodeID version) (λ f r,
    ∀ record rest, f = ARecord nodeID (Ok record) :: rest → Node_MaintenanceMode (Record_Node record) = false →
    rest = [] ∧ Return_Succeeded r.1 = true ∧ r.2 = None).
Proof.
  unfold ReturnToService. ha_step. ha_step. ha_step; [|by ha_step].
  ha_step; [by ha_step; intros record rest [= <- <-] _|].
  bool_simp. eapply facts_mono; [apply facts_any|].
  intros f r _ record rest [= <- _] ?. congruence.
Qed.

(** C22: whatever the node, the prober, the observer, the repository and the clock answer, a node
    leaves maintenance only after its API answered, a fresh observation succeeded with a TLS state
    that does not block, the prober found its DNS healthy and the row was stored, the drift and the
    cluster could be read, at most one node of the cluster serves DHCP, and no collector check blocks;
    and a return without error is one that passed all of these and moved the node, or found it outside
    of maintenance, where the code runs no check. *)
Theorem return_needs_every_check actor nodeID version :
  ha_facts (ReturnToService actor nodeID version) (λ f r,
    moves (may_return actor nodeID version) f ∧ (r.2 = None → returned actor nodeID version f r.1)).
Proof. eapply facts_mono; [apply ReturnToService_facts|]. by intros f r (_ & ? & ?). Qed.

(** ** Upgrades *)

(** A node that reports the target version. *)
Definition reports_target (u : Upgrade) (f : list ha_fact) : Prop :=
  ∃ record credentials status, ARecord (Upgrade_NodeID u) (Ok record) ∈ f ∧
    AStatus (node_status_request record credentials) (Ok status) ∈ f ∧
    Probe_Version status ≠ "" ∧ compareVersions (Probe_Version status) (Upgrade_TargetVersion u) = 0.

Lemma observed_version_facts id : ha_facts (observed_version id) (λ f v, calm f ∧
  (v ≠ "" → ∃ record credentials status, ARecord id (Ok record) ∈ f ∧
     AStatus (node_status_request record credentials) (Ok status) ∈ f ∧ Probe_Version status = v)).
Proof.
  unfold observed_version. ha_step. ha_step. ha_step; [|by ha_step; split; [calm|]]. ha_step.
  eapply facts_mono; [apply probe_api_facts|]. intros f status [Hf Hs]. ha_step. split; [calm|].
  destruct status as [status|]; [|done]. intros _. destruct (Hs _ eq_refl) as [c ?]. exists a, c, status. set_solver.
Qed.

(** What closes an upgrade: the one that was read, with its outcome. *)
Definition closes (actor : Actor) (upgradeID : string) (version : Z) (before : list ha_fact) (u : Upgrade) : Prop :=
  ∃ open validation failed now, AUpgrade upgradeID (Ok open) ∈ before ∧ Upgrade_Status open = "awaiting_operator" ∧
    u = completed open validation failed now ∧
    (failed = false → reports_target open before ∧
       returned actor (Upgrade_NodeID open) version before validation).


Definition may_upgrade (actor : Actor) (upgradeID : string) (version : Z) (before : list ha_fact)
  (a : Actor) (id : string) (b : bool) (v : Z) (x : res Node) : Prop :=
  ∃ u, AUpgrade upgradeID (Ok u) ∈ before ∧ reports_target u before ∧
    may_return actor (Upgrade_NodeID u) version before a id b v x.

Lemma reports_target_mono u f g : f ⊆ g → reports_target u f → reports_target u g.
Proof. intros Hfg (r & c & s & ?). exists r, c, s. set_solver. Qed.

Lemma may_return_mono actor n version f g a id b v x : f ⊆ g →
  may_return actor n version f a id b v x → may_return actor n version g a id b v x.
Proof.
  intros Hfg (? & ? & ? & ? & record & ? & ? & Hev). split_and!; [done..|]. exists record.
  split_and!; [set_solver|done|by eapply return_evidence_mono].
Qed.

Lemma returned_mono actor n version f g v : f ⊆ g → returned actor n version f v → returned actor n version g v.
Proof.
  intros Hfg (? & [(r & ?)|(r & n' & ? & ? & ? & ?)]); (split; [done|]); [left; exists r; set_solver|].
  right. exists r, n'. split_and!; [set_solver|done|by eapply return_evidence_mono|set_solver].
Qed.

(** The validation of an upgrade. *)
Lemma validate_upgrade_facts actor u version :
  ha_facts (validate_upgrade actor u version) (λ f r, unclosed f ∧
    moves (λ before a id b v x, reports_target u before ∧ may_return actor (Upgrade_NodeID u) version before a id b v x) f ∧
    (r.2 = None → reports_target u f ∧ returned actor (Upgrade_NodeID u) version f r.1)).
Proof.
  unfold validate_upgrade. cbv zeta. ha_step. eapply facts_mono; [apply observed_version_facts|].
  intros f1 v [H1 Hv]. destruct (_ || _) eqn:Hversion.
  { ha_step. rewrite app_nil_r. split_and!; [by destruct H1|by apply moves_calm|done]. }
  assert (reports_target u f1) as Ht.
  { bool_simp. destruct Hv as (record & c & status & ? & ? & <-); [done|]. by exists record, c, status. }
  eapply facts_mono; [apply ReturnToService_facts|]. intros f r (Hu & Hm & Hr). split_and!.
  - destruct H1 as [_ H1]. unfold unclosed in *. set_solver.
  - rewrite <- (app_nil_r f). eapply moves_app; [done|exact Hm|set_solver|].
    intros before ac id b w x' Hmay. split; [by eapply reports_target_mono; [|exact Ht]; set_solver|].
    eapply may_return_mono; [|exact Hmay]. set_solver.
  - intros Hn. split; [by eapply reports_target_mono; [|exact Ht]; set_solver|].
    eapply returned_mono; [|by apply Hr]. set_solver.
Qed.

(** The facts of an upgrade that is closed last, or not at all. *)
Definition upgrade_promise (actor : Actor) (upgradeID : string) (version : Z) (f : list ha_fact)
  (r : Upgrade * option error) : Prop :=
  moves (may_upgrade actor upgradeID version) f ∧
  (∀ before u x after, f = before ++ AUpdated u x :: after → closes actor upgradeID version before u) ∧
  (r.2 = None → Upgrade_Status r.1 = "succeeded" ∧ AUpdated r.1 (Ok tt) ∈ f).

Lemma upgrade_promise_open actor upgradeID version f r : unclosed f → moves (may_upgrade actor upgradeID version) f →
  r.2 ≠ None → upgrade_promise actor upgradeID version f r.
Proof. intros Hu Hm Hr. split_and!; [done| |done]. intros before u x after ->. destruct (Hu u x). set_solver. Qed.

Lemma upgrade_promise_closed actor upgradeID version f u x r : unclosed f →
  moves (may_upgrade actor upgradeID version) f → closes actor upgradeID version f u →
  (r.2 = None → Upgrade_Status r.1 = "succeeded" ∧ r.1 = u ∧ x = Ok tt) →
  upgrade_promise actor upgradeID version (f ++ [AUpdated u x]) r.
Proof.
  intros Hu Hm Hc Hr. split_and!.
  - apply (moves_app _ _ [] f [AUpdated u x] calm_nil Hm); [set_solver|done].
  - intros before u' x' after [(k & -> & _)|([|c k] & -> & Hk)]%cut_app.
    + destruct (Hu u' x'). set_solver.
    + injection Hk as <- <- _. by rewrite app_nil_r.
    + by injection Hk as _ Hk; destruct k.
  - intros (Hs & <- & ->)%Hr. split; [done|]. apply elem_of_app. right. apply list_elem_of_here.
Qed.

(** C23: whatever the node, the repository and the clock answer, completing an upgrade takes the node
    out of maintenance only after the node itself reported a version that compares equal to the
    target, and past every check of a return.  The upgrade is closed at most once, from the open one
    that was read; as succeeded only after such a report, and either after the node, found in
    maintenance, passed every check of a return and was taken out, or when the node was found already
    outside of maintenance: then the code runs none of the checks.  Success is returned only for the
    upgrade that was stored as succeeded. *)
Theorem upgrade_needs_target actor upgradeID version :
  ha_facts (CompleteUpgrade actor upgradeID version) (upgrade_promise actor upgradeID version).
Proof.
  unfold CompleteUpgrade. ha_step. ha_step. ha_step; [|ha_step; apply upgrade_promise_open;
    [unfold unclosed; set_solver|by apply moves_calm; calm|done]].
  ha_step. ha_step; ha_step; [|ha_step; apply upgrade_promise_open;
    [unfold unclosed; set_solver|by apply moves_calm; calm|done]].
  cbv zeta. bool_simp. ha_step. eapply facts_mono; [apply validate_upgrade_facts|].
  intros f [validation err] (Hu & Hm & Hr).
  assert (unclosed (AUpgrade upgradeID (Ok a) :: f)) as Hu' by (unfold unclosed in *; set_solver).
  assert (∀ now, moves (may_upgrade actor upgradeID version) ([AUpgrade upgradeID (Ok a)] ++ f ++ [ANow now])) as Hm'.
  { intros now. eapply moves_app; [calm|exact Hm|set_solver|]. intros before ac id b v x' [Ht Hmay].
    exists a. split_and!; [set_solver|eapply reports_target_mono; [|exact Ht]; set_solver|].
    eapply may_return_mono; [|exact Hmay]. set_solver. }
  assert (∀ now e, upgrade_promise actor upgradeID version (([AUpgrade upgradeID (Ok a)] ++ f ++ [ANow now]))
    (zero_upgrade, Some e)) as Herr.
  { intros now e. apply upgrade_promise_open; [unfold unclosed in *; set_solver|apply Hm'|done]. }
  do 3 ha_step. eapply facts_mono; [apply ha_audit_calm|]. intros g [audit|e] ->; [|ha_step; apply Herr].
  ha_step. eapply facts_mono; [apply newEvent_calm|]. intros g [event|e] ->; [|ha_step; apply Herr].
  assert (closes actor upgradeID version ([AUpgrade upgradeID (Ok a)] ++ f ++ [ANow x0])
    (completed a validation (bool_decide (is_Some err)) x0)) as Hc.
  { exists a, validation, (bool_decide (is_Some err)), x0. split_and!; [apply list_elem_of_here|done..|].
    intros [Ht Hret]%bool_decide_eq_false%eq_None_not_Some%Hr.
    split; [eapply reports_target_mono; [|exact Ht]|eapply returned_mono; [|exact Hret]]; set_solver. }
  repeat ha_step; cbn [app]; [|].
  all: match goal with |- upgrade_promise _ _ _ (?a :: ?f ++ [?b; ?c]) _ =>
    replace (a :: f ++ [b; c]) with (([a] ++ f ++ [b]) ++ [c]) by (cbn; by rewrite <- app_assoc) end.
  all: (apply upgrade_promise_closed; [unfold unclosed in *; set_solver|apply Hm'|exact Hc|]; [try done]).
  cbn [snd fst]. intros ->. by destruct a0.
Qed.
End spec.
