(* ===== verification/HASummarySpec.v ===== *)
(** * What the summary of a cluster and its transitions promise

    When a cluster is healthy, what remains when a node leaves it, and that a recorded
    transition is not recorded again. *)

From S2P Require Import Prelude GoRuntime Json Domain Configuration Net ControlModel Effects ControlEffects.
From S2P Require Import DnsProbe HAModel HAOperations HAMaintenance.

(** ** Counting *)

Lemma counting_cons {A} (p : A → bool) x l : count p (x :: l) = (if p x then 1 else 0) + count p l.
Proof. unfold count. cbn [List.filter]. destruct (p x); cbn [length]; lia. Qed.

Lemma count_range {A} (p : A → bool) l : 0 <= count p l <= Z.of_nat (length l).
Proof. induction l as [|x l IH]; [done|]. rewrite counting_cons. cbn [length]. destruct (p x); lia. Qed.

Lemma count_all {A} (p : A → bool) l : count p l = Z.of_nat (length l) ↔ ∀ x, x ∈ l → p x = true.
Proof.
  induction l as [|x l IH]; [split; [intros _ y Hy; by apply not_elem_of_nil in Hy|done]|].
  rewrite counting_cons. cbn [length]. pose proof (count_range p l). split.
  - intros H' y [->|Hy]%elem_of_cons; [by destruct (p x); [|lia]|]. apply IH; [destruct (p x); lia|done].
  - intros Hall. rewrite (Hall x) by set_solver. rewrite (proj2 IH); [lia|]. set_solver.
Qed.

Lemma count_none {A} (p : A → bool) l : count p l = 0 ↔ ∀ x, x ∈ l → p x = false.
Proof.
  induction l as [|x l IH]; [split; [intros _ y Hy; by apply not_elem_of_nil in Hy|done]|].
  rewrite counting_cons. pose proof (count_range p l). split.
  - intros H' y [->|Hy]%elem_of_cons; [by destruct (p x); [lia|]|]. apply IH; [destruct (p x); lia|done].
  - intros Hall. rewrite (Hall x) by set_solver. rewrite (proj2 IH); [done|]. set_solver.
Qed.

Lemma filter_absent {A} (key : A → string) k l : k ∉ key <$> l → List.filter (λ y, negb (key y =?? k)) l = l.
Proof.
  induction l as [|z l IH]; [done|]. rewrite fmap_cons, not_elem_of_cons. intros [Hz Hl]. cbn [List.filter].
  rewrite bool_decide_eq_false_2 by congruence. cbn [negb]. by rewrite IH.
Qed.

(** The count without one element. *)
Lemma count_others {A} (key : A → string) (p : A → bool) x l : NoDup (key <$> l) → x ∈ l →
  count p l = (if p x then 1 else 0) + count p (List.filter (λ y, negb (key y =?? key x)) l).
Proof.
  induction l as [|y l IH]; [intros _ H; by apply not_elem_of_nil in H|].
  rewrite fmap_cons, NoDup_cons. intros [Hy Hl] [->|Hx]%elem_of_cons; rewrite counting_cons; cbn [List.filter].
  - rewrite bool_decide_eq_true_2 by done. cbn [negb].
    by rewrite filter_absent.
  - assert (key y ≠ key x) as Hne. { intros He. apply Hy. rewrite He. by apply list_elem_of_fmap_2. }
    rewrite bool_decide_eq_false_2 by done. cbn [negb]. rewrite counting_cons, (IH Hl Hx). lia.
Qed.

Section summary.
Context {R : Runtime} {F : Printing} {M : MapOrder}.

(** An enabled node that is whole: reachable, outside of maintenance and converged. *)
Definition whole (n : Node) : Prop :=
  Node_HealthStatus n = NodeHealthy ∧ Node_MaintenanceMode n = false ∧ Node_ConvergenceStatus n = "converged".

Definition reachable_node (n : Node) : bool := Node_HealthStatus n =?? NodeHealthy.
Definition converged_node (n : Node) : bool := negb (Node_MaintenanceMode n) && (Node_ConvergenceStatus n =?? "converged").

(** The three dimensions are complete exactly when every node is whole. *)
Lemma dimensions_whole l :
  (count reachable_node l <? Z.of_nat (length l)) || (count converged_node l <? Z.of_nat (length l)) ||
    (0 <? count Node_MaintenanceMode l) = false ↔ ∀ n, n ∈ l → whole n.
Proof.
  pose proof (count_range reachable_node l). pose proof (count_range converged_node l).
  pose proof (count_range Node_MaintenanceMode l). split.
  - intros Hd. bool_simp.
    assert (count reachable_node l = Z.of_nat (length l)) as Hh by lia.
    assert (count converged_node l = Z.of_nat (length l)) as Hc by lia. rewrite count_all in Hh, Hc.
    intros n Hn. specialize (Hh n Hn). specialize (Hc n Hn). unfold reachable_node, converged_node in *. bool_simp.
    done.
  - intros Hw.
    assert (count reachable_node l = Z.of_nat (length l)) as ->.
    { apply count_all. intros n (? & ? & ?)%Hw. unfold reachable_node. by apply bool_decide_eq_true. }
    assert (count converged_node l = Z.of_nat (length l)) as ->.
    { apply count_all. intros n (? & Hm & Hc)%Hw. unfold converged_node. rewrite Hm, Hc. done. }
    assert (count Node_MaintenanceMode l = 0) as -> by (apply count_none; by intros n (? & ? & ?)%Hw). by rewrite !Z.ltb_irrefl.
Qed.

(** C25: a cluster is reported healthy exactly when at least two of its nodes are enabled, outside
    of maintenance and have a fresh healthy probe, and every enabled node is reachable, outside of
    maintenance and converged; it is at risk exactly when fewer than two serve. *)
Theorem summary_healthy_iff now window nodes probes certificates versions :
  let s := summary_of now window nodes probes certificates versions in
  (HA_State s = "healthy" ↔ 2 <= count (serving now window probes) nodes ∧
     ∀ n, n ∈ nodes → Node_Enabled n = true → whole n) ∧
  (HA_State s = "at_risk" ↔ count (serving now window probes) nodes < 2).
Proof.
  cbv zeta. unfold summary_of. cbn [HA_State]. unfold summary_state.
  change (λ n, Node_HealthStatus n =?? NodeHealthy) with reachable_node.
  change (λ n, negb (Node_MaintenanceMode n) && (Node_ConvergenceStatus n =?? "converged")) with converged_node.
  set (enabled := List.filter Node_Enabled nodes).
  assert (∀ n, n ∈ enabled ↔ n ∈ nodes ∧ Node_Enabled n = true) as Hin.
  { intros n. unfold enabled. by rewrite !list_elem_of_In, filter_In. }
  pose proof (dimensions_whole enabled) as Hd.
  destruct (Z.ltb_spec (count (serving now window probes) nodes) 2); [split; split; intros; [done|lia|lia|done]|].
  destruct (_ || _); (split; split; intros Hs; try done; try lia).
  - destruct Hs as [_ Hs]. destruct Hd as [_ Hd]. discriminate Hd. intros n [? ?]%Hin. auto.
  - split; [done|]. intros n Hn He. apply Hd; [done|]. by apply Hin.
Qed.

(** ** The nodes that remain *)

Definition found_probe (probes : list DNSProbeResult) (id : string) : res DNSProbeResult :=
  match last_with DNSProbe_NodeID id probes with Some p => Ok p | None => Err (NewError ErrorNotFound "probe") end.

(** for an enabled node whose latest row is the one that the summary shows, what a preflight counts
    as remaining are the other nodes that serve DNS, whichever way the clock, the window and the
    probes are; so the break-glass confirmation is asked for exactly when no other node serves. *)
Theorem remaining_counts_others now window nodes probes node :
  NoDup (Node_ID <$> nodes) → node ∈ nodes → Node_Enabled node = true →
  remaining_nodes now window (count (serving now window probes) nodes) node (found_probe probes (Node_ID node)) =
    count (serving now window probes) (List.filter (λ n, negb (Node_ID n =?? Node_ID node)) nodes).
Proof.
  intros Hnd Hin Hen. rewrite (count_others Node_ID _ node) by done.
  pose proof (count_range (serving now window probes) (List.filter (λ n, negb (Node_ID n =?? Node_ID node)) nodes)).
  generalize dependent (count (serving now window probes) (List.filter (λ n, negb (Node_ID n =?? Node_ID node)) nodes)).
  intros others Hothers. unfold remaining_nodes, found_probe, serving. rewrite Hen.
  destruct (last_with DNSProbe_NodeID (Node_ID node) probes) as [p|], (Node_MaintenanceMode node); cbn [andb negb];
    rewrite ?andb_false_r, ?andb_true_r; cbn [andb]; try destruct ((_ =?? _) && _); cbv beta zeta iota;
    match goal with |- context [?b <? 0] => destruct (Z.ltb_spec b 0); lia end.
Qed.

(** ** Recorded transitions *)

Definition alerting : list string := [CertificateHealthy; CertificateWarning; CertificateCritical; CertificateExpired].

(** a transition is recorded once: with the event that a pass records for the redundancy of a
    cluster, the certificate or the version of a node as the latest one, the same state gives no
    event again. *)
Theorem recorded_transitions_settle events e :
  (∀ now window nodes probes certificates versions,
     let state := HA_State (summary_of now window nodes probes certificates versions) in
     HAEvent_EventType e = (redundancy_event state).1.1 → latest_redundancy (e :: events) = state) ∧
  (∀ current previous disabledSince severity message, current ∈ alerting →
     certificate_event current previous disabledSince = Some (HAEvent_EventType e, severity, message) →
     certificate_event current (Some (certificate_state_of e)) false = None) ∧
  (∀ v severity message, version_event events v = Some (HAEvent_EventType e, severity, message) →
     HAEvent_NodeID e = Some (Version_NodeID v) →
     HAEvent_Details e = [("installedVersion", JStr (Version_InstalledVersion v));
                          ("latestVersion", JStr (Version_LatestVersion v))] →
     version_event (e :: events) v = None).
Proof.
  split_and!.
  - intros now window nodes probes certificates versions. cbv zeta. unfold summary_of. cbn [HA_State].
    unfold summary_state. intros He. cbn [latest_redundancy]. rewrite He. by repeat case_match.
  - intros current previous disabled severity message Hc He.
    assert (HAEvent_EventType e = if current =?? CertificateHealthy then "certificate.recovered" else "certificate." +:+ current) as Ht.
    { unfold certificate_event in He. cbv zeta in He. repeat case_match; by simplify_eq. }
    unfold certificate_state_of. rewrite Ht. unfold alerting in Hc.
    repeat (apply elem_of_cons in Hc as [->|Hc]; [done|]). by apply not_elem_of_nil in Hc.
  - intros v severity message He Hn Hd.
    assert (HAEvent_EventType e = if Version_UpdateAvailable v then "version.update_available" else "version.current") as Ht.
    { unfold version_event in He. repeat case_match; by simplify_eq. }
    assert (latest_event (Version_NodeID v) "version." (e :: events) = Some e) as Hl.
    { unfold latest_event. cbn [List.find]. rewrite Hn, bool_decide_eq_true_2, Ht by done.
      by destruct (Version_UpdateAvailable v). }
    assert (Sprint_detail "latestVersion" (HAEvent_Details e) = Version_LatestVersion v) as Hs by (by rewrite Hd).
    unfold version_event. rewrite Hl, Hs, Ht. destruct (_ || _); [done|].
    destruct (Version_UpdateAvailable v); by rewrite !bool_decide_eq_true_2.
Qed.
End summary.
