(* ===== verification/Notifications.v ===== *)
(** * internal/haoperations: notifications

    Channels, deliveries and the policy: the records of models.go and the pure functions of
    notifications.go. *)

From S2P Require Import Prelude GoRuntime Json Domain AuditMetadata ControlModel StoreRecords Effects.
From S2P Require Import ControlEffects OperationsModel HAModel HAOperations.

(** ** Records *)

(* src/internal/haoperations/models.go:256-268 NotificationChannel *)
Record NotificationChannel := mkChannel {
  Channel_ID : string;
  Channel_ClusterID : string;
  Channel_Name : string;
  Channel_ChannelType : string;
  Channel_Enabled : bool;
  Channel_DestinationSet : bool;
  Channel_DestinationSummary : string;
  Channel_SubscribedCategories : slice string;
  Channel_RecordVersion : Z;
  Channel_CreatedAt : Time;
  Channel_UpdatedAt : Time
}.

(* src/internal/haoperations/models.go:270-273 NotificationChannelRecord *)
Record NotificationChannelRecord := mkChannelRecord {
  ChannelRecord_Channel : NotificationChannel;
  ChannelRecord_Destination : EncryptedPayload
}.

(* src/internal/haoperations/models.go:275-279 NotificationPolicyEvent *)
Record NotificationPolicyEvent := mkPolicyEvent {
  PolicyEvent_EventType : string;
  PolicyEvent_Label : string;
  PolicyEvent_DefaultEnabled : bool
}.

(* src/internal/haoperations/models.go:281-285 NotificationPolicyGroup *)
Record NotificationPolicyGroup := mkPolicyGroup {
  PolicyGroup_ID : string;
  PolicyGroup_Label : string;
  PolicyGroup_Events : list NotificationPolicyEvent
}.

(* src/internal/haoperations/models.go:287-291 NotificationPolicy *)
Record NotificationPolicy := mkPolicy {
  Policy_EnabledEventTypes : list string;
  Policy_RecordVersion : Z;
  Policy_Groups : list NotificationPolicyGroup
}.

(* src/internal/haoperations/models.go:293-306 NotificationDelivery *)
Record NotificationDelivery := mkDelivery {
  Delivery_ID : string;
  Delivery_ChannelID : string;
  Delivery_EventID : string;
  Delivery_Status : string;
  Delivery_AttemptCount : Z;
  Delivery_ErrorCode : string;
  Delivery_ErrorSummary : string;
  Delivery_HTTPStatus : option Z;
  Delivery_NextAttemptAt : option Time;
  Delivery_CreatedAt : Time;
  Delivery_CompletedAt : option Time;
  Delivery_Event : HAEvent
}.

(* src/internal/haoperations/models.go:308-313 NotificationTestResult *)
Record NotificationTestResult := mkTestResult {
  TestResult_ChannelID : string;
  TestResult_Success : bool;
  TestResult_ErrorCode : string;
  TestResult_TestedAt : Time
}.

(** ** Categories and the policy *)

(* src/internal/haoperations/notifications.go:45-47 notificationCategories *)
Definition notificationCategories : list string :=
  ["dns"; "redundancy"; "certificates"; "versions"; "maintenance"; "upgrades"].

(* src/internal/haoperations/notifications.go:49-77 notificationPolicyGroups *)
Definition notificationPolicyGroups : list NotificationPolicyGroup :=
  [mkPolicyGroup "dns" "DNS"
     [mkPolicyEvent "dns.failed" "DNS degraded" true; mkPolicyEvent "dns.recovered" "DNS recovered" true];
   mkPolicyGroup "high_availability" "High Availability"
     [mkPolicyEvent "redundancy.degraded" "HA redundancy degraded" true;
      mkPolicyEvent "redundancy.at_risk" "DNS service at risk" true;
      mkPolicyEvent "redundancy.restored" "HA redundancy restored" true];
   mkPolicyGroup "certificates" "Certificates"
     [mkPolicyEvent "certificate.warning" "Certificate warning" false;
      mkPolicyEvent "certificate.critical" "Certificate critical" false;
      mkPolicyEvent "certificate.expired" "Certificate expired" false;
      mkPolicyEvent "certificate.recovered" "Certificate recovered" false];
   mkPolicyGroup "nodes_lifecycle" "Nodes and Lifecycle"
     [mkPolicyEvent "maintenance.started" "Maintenance started" false;
      mkPolicyEvent "maintenance.return_validation_failed" "Return validation failed" true;
      mkPolicyEvent "maintenance.ended" "Maintenance ended" false];
   mkPolicyGroup "updates" "Lifecycle and Updates"
     [mkPolicyEvent "version.update_available" "AdGuard Home update available" false;
      mkPolicyEvent "version.current" "AdGuard Home current" false;
      mkPolicyEvent "upgrade.started" "Guided upgrade started" false;
      mkPolicyEvent "upgrade.succeeded" "Guided upgrade succeeded" false;
      mkPolicyEvent "upgrade.validation_failed" "Guided upgrade validation failed" true]].

(** A copy, by way of JSON. *)
(* src/internal/haoperations/notifications.go:79-84 NotificationPolicyGroups *)
Definition NotificationPolicyGroups : list NotificationPolicyGroup := notificationPolicyGroups.

(* src/internal/haoperations/notifications.go:99-104 ValidateNotificationEventTypes *)
Definition policy_events : list NotificationPolicyEvent := flat_map PolicyGroup_Events notificationPolicyGroups.

(* src/internal/haoperations/notifications.go:86-96 RecommendedNotificationEventTypes *)
Definition RecommendedNotificationEventTypes : list string :=
  PolicyEvent_EventType <$> List.filter PolicyEvent_DefaultEnabled policy_events.

Section notifications.
Context {R : Runtime}.

(** The trimmed values without repetitions, as long as each is known. *)
(* src/internal/haoperations/notifications.go:105-117 ValidateNotificationEventTypes *)
Fixpoint known_values (known : list string) (unknown : error) (seen values : list string) : res (list string) :=
  match values with
  | [] => Ok []
  | value :: values =>
      let value := TrimSpace value in
      if negb (bool_decide (value ∈ known)) then Err unknown
      else if bool_decide (value ∈ seen) then known_values known unknown seen values
      else let? rest := known_values known unknown (value :: seen) values in Ok (value :: rest)
  end.

(* src/internal/haoperations/notifications.go:98-118 ValidateNotificationEventTypes *)
Definition ValidateNotificationEventTypes (values : list string) : res (list string) :=
  known_values (PolicyEvent_EventType <$> policy_events)
    (Validation "enabledEventTypes" "contains an unsupported notification event") [] values.

(* src/internal/haoperations/notifications.go:120-122 RecommendedNotificationCategories *)
Definition RecommendedNotificationCategories : list string :=
  ["dns"; "redundancy"; "certificates"; "versions"; "maintenance"; "upgrades"].

(* src/internal/haoperations/notifications.go:124-141 ValidateNotificationCategories *)
Definition ValidateNotificationCategories (values : list string) : res (list string) :=
  match values with
  | [] => Err (Validation "subscribedCategories" "must select at least one notification category")
  | _ => known_values notificationCategories
      (Validation "subscribedCategories" "contains an unsupported notification category") [] values
  end.

(** [strings.Cut(s, ".")]: what comes before the first point. *)
(* src/internal/haoperations/notifications.go:144-144 NotificationCategoryForEvent *)
Fixpoint before_point (s : string) : string :=
  match s with
  | EmptyString => ""
  | String "." _ => ""
  | String c s => String c (before_point s)
  end.

(* src/internal/haoperations/notifications.go:143-161 NotificationCategoryForEvent *)
Definition NotificationCategoryForEvent (eventType : string) : string :=
  let prefix := before_point eventType in
  if prefix =?? "dns" then "dns"
  else if prefix =?? "redundancy" then "redundancy"
  else if prefix =?? "certificate" then "certificates"
  else if prefix =?? "version" then "versions"
  else if prefix =?? "maintenance" then "maintenance"
  else if prefix =?? "upgrade" then "upgrades"
  else "".

(** ** Names and destinations *)

(* src/internal/haoperations/notifications.go:408-414 validateChannelName *)
Definition validateChannelName (value : string) : res string :=
  let value := TrimSpace value in
  if (value =?? "") || (120 <? len value) then Err (Validation "name" "must contain between 1 and 120 characters")
  else Ok value.

(* src/internal/haoperations/notifications.go:416-422 validateDestination *)
Definition validateDestination (value : string) : res URL :=
  match url_Parse (TrimSpace value) with
  | Some parsed =>
      if negb (URL_Scheme parsed =?? "https") || (URL_Host parsed =?? "") || URL_User parsed ||
         negb (URL_Fragment parsed =?? "")
      then Err (Validation "destination" "must be an HTTPS webhook URL without credentials or a fragment")
      else Ok parsed
  | None => Err (Validation "destination" "must be an HTTPS webhook URL without credentials or a fragment")
  end.

(* src/internal/haoperations/notifications.go:424-426 destinationSummary *)
Definition destinationSummary (value : URL) : string := URL_Scheme value +:+ "://" +:+ URL_Host value.

(** ** Attempts *)

(* src/internal/haoperations/notifications.go:455-460 deliveryAttempt *)
Record deliveryAttempt := mkAttempt {
  attempt_success : bool;
  attempt_errorCode : string;
  attempt_errorSummary : string;
  attempt_httpStatus : option Z
}.

(* src/internal/haoperations/notifications.go:462-464 failedAttempt *)
Definition failedAttempt (code summary : string) : deliveryAttempt := mkAttempt false code summary None.

(** What the classification reads of an error of the transport. *)
(* src/internal/haoperations/notifications.go:488-498 classifyDeliveryError *)
Record transport_error := mkTransportError {
  transport_deadline : bool;
  transport_timeout : bool;
  transport_refused : bool;
  transport_text : string
}.

(* src/internal/haoperations/notifications.go:487-503 classifyDeliveryError *)
Definition classifyDeliveryError (e : transport_error) : deliveryAttempt :=
  if transport_deadline e then failedAttempt "NOTIFICATION_TIMEOUT" "timeout"
  else if transport_timeout e then failedAttempt "NOTIFICATION_TIMEOUT" "timeout"
  else if transport_refused e then failedAttempt "NOTIFICATION_CONNECTION_REFUSED" "connection refused"
  else
    let message := ToLower (transport_text e) in
    if Contains_text message "certificate" || Contains_text message "tls" || Contains_text message "x509"
    then failedAttempt "NOTIFICATION_TLS_VERIFICATION_FAILED" "TLS verification failed"
    else failedAttempt "NOTIFICATION_DELIVERY_FAILED" "network error".

(** The request cannot be made, it fails, or it is answered. *)
(* src/internal/haoperations/notifications.go:467-479 NotificationService.post *)
Inductive post_answer :=
| PostInvalid
| PostFailed (e : transport_error)
| PostAnswered (status : Z).

(* src/internal/haoperations/notifications.go:466-485 NotificationService.post *)
Definition attempt_of (answer : post_answer) : deliveryAttempt :=
  match answer with
  | PostInvalid => failedAttempt "NOTIFICATION_DESTINATION_INVALID" "invalid destination"
  | PostFailed e => classifyDeliveryError e
  | PostAnswered status =>
      if (status <? 200) || (300 <=? status)
      then mkAttempt false "NOTIFICATION_HTTP_REJECTED" ("HTTP " +:+ itoa status) (Some status)
      else mkAttempt true "" "" (Some status)
  end.

(** ** The end of an attempt *)

(* src/internal/haoperations/notifications.go:517-522 min *)
Definition min (left right : Z) : Z := if left <? right then left else right.

(** The delivery with the outcome of its attempt; [at_] is read for a wait only when there is one. *)
(* src/internal/haoperations/notifications.go:506-513 NotificationService.failDelivery *)
Definition with_outcome (d : NotificationDelivery) (status : string) (code summary : string) (http : option Z)
  (next completed : option Time) : NotificationDelivery :=
  mkDelivery (Delivery_ID d) (Delivery_ChannelID d) (Delivery_EventID d) status (Delivery_AttemptCount d) code summary
    http next (Delivery_CreatedAt d) completed (Delivery_Event d).

(* src/internal/haoperations/notifications.go:450-451 NotificationService.DeliverNext *)
Definition succeeded_delivery (d : NotificationDelivery) (attempt : deliveryAttempt) (now : Time) : NotificationDelivery :=
  with_outcome d "succeeded" "" "" (attempt_httpStatus attempt) None (Some now).

(** The wait after the n-th attempt. *)
(* src/internal/haoperations/notifications.go:511-511 NotificationService.failDelivery *)
Definition retry_wait (attempts : Z) : Duration := wrap64 (Z.shiftl 1 (min attempts 5) * minute).

(* src/internal/haoperations/notifications.go:506-513 NotificationService.failDelivery *)
Definition failed_delivery (d : NotificationDelivery) (attempt : deliveryAttempt) (now : Time) : NotificationDelivery :=
  let code := attempt_errorCode attempt in
  let summary := attempt_errorSummary attempt in
  if 5 <=? Delivery_AttemptCount d
  then with_outcome d "failed" code summary (attempt_httpStatus attempt) None (Some now)
  else with_outcome d "failed" code summary (attempt_httpStatus attempt)
    (Some (now + retry_wait (Delivery_AttemptCount d))) (Delivery_CompletedAt d).
End notifications.

(** * internal/haoperations/notifications.go: the notification service

    The policy, the channels, their test and the delivery of the next notification, as
    programs over the repository, the cipher and the HTTP client. *)

(** ** The interfaces *)

(* src/internal/haoperations/notifications.go:24-36 NotificationRepository *)
Inductive notifyctl : Type → Type :=
(* the clock, the identifiers, ClusterByID *)
| NBase {X : Type} (e : ctl X) : notifyctl X
(* NotificationRepository *)
| N_ListChannels (clusterID : string) : notifyctl (res (list NotificationChannel))
| N_ChannelRecord (id : string) : notifyctl (res NotificationChannelRecord)
| N_SaveChannel (record : NotificationChannelRecord) (expectedVersion : Z) (event : AuditEvent) : notifyctl (res unit)
| N_DeleteChannel (id : string) (expectedVersion : Z) (event : AuditEvent) : notifyctl (res unit)
| N_RecordAuditEvent (event : AuditEvent) : notifyctl (res unit)
| N_RecordTest (event : HAEvent) (delivery : NotificationDelivery) (audit : AuditEvent) : notifyctl (res unit)
| N_Claim (now : Time) : notifyctl (res (NotificationDelivery * NotificationChannelRecord))
| N_Finish (delivery : NotificationDelivery) : notifyctl (res unit)
| N_Policy : notifyctl (res NotificationPolicy)
| N_UpdatePolicy (policy : NotificationPolicy) (expectedVersion : Z) (now : Time) (event : AuditEvent)
    : notifyctl (res NotificationPolicy)
(* PayloadProtector *)
| N_Encrypt (scope plaintext : string) : notifyctl (res EncryptedPayload)
| N_Decrypt (scope : string) (payload : EncryptedPayload) : notifyctl (res string)
(* one POST of a body to a destination, without redirects *)
| N_Post (destination : string) (body : json) : notifyctl post_answer.

Abbreviation notifying := (prog notifyctl).

Definition nbase {X} (e : ctl X) : notifying X := call (NBase e).

Section service.
Context {R : Runtime}.

(* src/internal/haoperations/service.go:1111-1118 audit *)
Definition notification_audit (actor : Actor) (action resourceID : string) (metadata : list (string * json)) (at_ : Time) :
  notifying (res AuditEvent) :=
  try id <- nbase GenerateID;
  done_with (mkAuditEvent id "user" (Some (Actor_UserID actor)) "" action "notification_channel" (Some resourceID)
    (Actor_RequestID actor) (JObj metadata) at_ "" "").

(* src/internal/haoperations/notifications.go:437-437 NotificationService.DeliverNext *)
Definition scope (channelID : string) : string := "notification:" +:+ channelID.

(** ** The policy *)

(* src/internal/haoperations/notifications.go:178-178 NotificationService.Policy *)
Definition with_groups (p : NotificationPolicy) : NotificationPolicy :=
  mkPolicy (Policy_EnabledEventTypes p) (Policy_RecordVersion p) NotificationPolicyGroups.

(* src/internal/haoperations/notifications.go:173-180 NotificationService.Policy *)
Definition Notification_Policy : notifying (res NotificationPolicy) :=
  try value <- call N_Policy;
  done_with (with_groups value).

(* src/internal/haoperations/notifications.go:182-201 NotificationService.UpdatePolicy *)
Definition Notification_UpdatePolicy (actor : Actor) (enabled : list string) (expectedVersion : Z) :
  notifying (res NotificationPolicy) :=
  try enabled <- Ret (ValidateNotificationEventTypes enabled);
  try id <- nbase GenerateID;
  do now <- nbase Now;
  let event := mkAuditEvent id "user" (Some (Actor_UserID actor)) "" "notification.policy_changed" "notification_policy"
    None (Actor_RequestID actor) (JObj [("enabledEventTypes", JArr (JStr <$> enabled))]) now "" "" in
  do updated <- call (N_UpdatePolicy (mkPolicy enabled 0 []) expectedVersion now event);
  match updated with
  | Ok value => done_with (with_groups value)
  | Err e => fail (WrapError "update notification policy" e)
  end.

(** ** Channels *)

(* src/internal/haoperations/notifications.go:212-227 NotificationService.List *)
Definition with_shown (c : NotificationChannel) (categories : slice string) (summary : string) : NotificationChannel :=
  mkChannel (Channel_ID c) (Channel_ClusterID c) (Channel_Name c) (Channel_ChannelType c) (Channel_Enabled c)
    (Channel_DestinationSet c) summary categories (Channel_RecordVersion c) (Channel_CreatedAt c) (Channel_UpdatedAt c).

(** The summary of a destination that was stored without one, when it can be decrypted. *)
(* src/internal/haoperations/notifications.go:216-227 NotificationService.List *)
Definition missing_summary (id : string) : notifying string :=
  do record <- call (N_ChannelRecord id);
  match record with
  | Err _ => Ret ""
  | Ok record =>
      do plaintext <- call (N_Decrypt (scope id) (ChannelRecord_Destination record));
      match plaintext with
      | Err _ => Ret ""
      | Ok plaintext =>
          Ret (match validateDestination plaintext with Ok parsed => destinationSummary parsed | Err _ => "" end)
      end
  end.

(* src/internal/haoperations/notifications.go:211-229 NotificationService.List *)
Fixpoint shown_channels (channels : list NotificationChannel) : notifying (list NotificationChannel) :=
  match channels with
  | [] => Ret []
  | c :: channels =>
      let categories := match Channel_SubscribedCategories c with
        | None | Some [] => Some RecommendedNotificationCategories
        | categories => categories
        end in
      do summary <- (if Channel_DestinationSummary c =?? "" then missing_summary (Channel_ID c)
        else Ret (Channel_DestinationSummary c));
      do rest <- shown_channels channels;
      Ret (with_shown c categories summary :: rest)
  end.

(* src/internal/haoperations/notifications.go:203-231 NotificationService.List *)
Definition Notification_List (clusterID : string) : notifying (res (list NotificationChannel)) :=
  try _ <- nbase (Repo_ClusterByID clusterID);
  try channels <- call (N_ListChannels clusterID);
  do channels <- shown_channels channels;
  done_with channels.

(* src/internal/haoperations/notifications.go:233-271 NotificationService.Create *)
Definition Notification_Create (actor : Actor) (clusterID name destination : string) (enabled : bool)
  (categories : slice string) : notifying (res NotificationChannel) :=
  try _ <- nbase (Repo_ClusterByID clusterID);
  try name <- Ret (validateChannelName name);
  try parsed <- Ret (validateDestination destination);
  try categories <- Ret (match categories with
    | None => Ok RecommendedNotificationCategories
    | Some categories => ValidateNotificationCategories categories
    end);
  try channelID <- nbase GenerateID;
  try envelope <- call (N_Encrypt (scope channelID) (url_Print (TrimSpace destination) (URL_Path parsed)));
  do now <- nbase Now;
  let channel := mkChannel channelID clusterID name "webhook" enabled true (destinationSummary parsed) (Some categories)
    1 now now in
  try auditEvent <- notification_audit actor "notification.channel_created" channelID
    [("clusterId", JStr clusterID); ("enabled", JBool enabled); ("channelType", JStr "webhook");
     ("destinationSummary", JStr (Channel_DestinationSummary channel));
     ("subscribedCategories", JArr (JStr <$> categories))] now;
  try _ <- call (N_SaveChannel (mkChannelRecord channel envelope) 0 auditEvent);
  done_with channel.

(** The destination of an update: the stored one, or the envelope and the summary of the new one. *)
(* src/internal/haoperations/notifications.go:297-307 NotificationService.Update *)
Definition updated_destination (channelID : string) (record : NotificationChannelRecord) (destination : option string) :
  notifying (res (EncryptedPayload * string)) :=
  match destination with
  | None => done_with (ChannelRecord_Destination record, Channel_DestinationSummary (ChannelRecord_Channel record))
  | Some destination =>
      try parsed <- Ret (validateDestination destination);
      try envelope <- call (N_Encrypt (scope channelID) (url_Print (TrimSpace destination) (URL_Path parsed)));
      done_with (envelope, destinationSummary parsed)
  end.

(* src/internal/haoperations/notifications.go:316-323 NotificationService.Update *)
Definition update_action (previous : NotificationChannel) (name : string) (replaced enabled : bool) : string :=
  if (name =?? Channel_Name previous) && negb replaced && negb (Bool.eqb enabled (Channel_Enabled previous))
  then if enabled then "notification.channel_enabled" else "notification.channel_disabled"
  else "notification.channel_updated".

(* src/internal/haoperations/notifications.go:273-332 NotificationService.Update *)
Definition Notification_Update (actor : Actor) (channelID name : string) (destination : option string) (enabled : bool)
  (expectedVersion : Z) (categories : slice string) : notifying (res NotificationChannel) :=
  try _ <- guard (ValidID channelID) (Validation "channelId" "must be a valid UUID");
  try record <- call (N_ChannelRecord channelID);
  let previous := ChannelRecord_Channel record in
  try _ <- guard (expectedVersion =? Channel_RecordVersion previous)
    (NewError ErrorConflict "notification channel was changed by another request");
  try name <- Ret (validateChannelName name);
  try categories <- Ret (match categories with
    | None => Ok (match Channel_SubscribedCategories previous with Some [] => None | c => c end)
    | Some categories => let? valid := ValidateNotificationCategories categories in Ok (Some valid)
    end);
  try updated <- updated_destination channelID record destination;
  let '(envelope, summary) := updated in
  let replaced := bool_decide (is_Some destination) in
  do now <- nbase Now;
  let channel := mkChannel (Channel_ID previous) (Channel_ClusterID previous) name (Channel_ChannelType previous) enabled
    true summary categories (wrap64 (expectedVersion + 1)) (Channel_CreatedAt previous) now in
  try auditEvent <- notification_audit actor (update_action previous name replaced enabled) channelID
    [("clusterId", JStr (Channel_ClusterID previous)); ("enabled", JBool enabled);
     ("destinationReplaced", JBool replaced);
     ("subscribedCategories", match categories with Some l => JArr (JStr <$> l) | None => JNull end)] now;
  try _ <- call (N_SaveChannel (mkChannelRecord channel envelope) expectedVersion auditEvent);
  done_with channel.

(* src/internal/haoperations/notifications.go:334-350 NotificationService.Delete *)
Definition Notification_Delete (actor : Actor) (channelID confirmation : string) (expectedVersion : Z) :
  notifying (res unit) :=
  try _ <- guard (ValidID channelID) (Validation "channelId" "must be a valid UUID");
  try record <- call (N_ChannelRecord channelID);
  try _ <- guard (confirmation =?? Channel_Name (ChannelRecord_Channel record))
    (Validation "confirmation" "must exactly match the channel name");
  do now <- nbase Now;
  try auditEvent <- notification_audit actor "notification.channel_removed" channelID
    [("clusterId", JStr (Channel_ClusterID (ChannelRecord_Channel record)))] now;
  call (N_DeleteChannel channelID expectedVersion auditEvent).

(** ** Deliveries *)

(** An attempt: one request at most, to the decrypted destination. *)
(* src/internal/haoperations/notifications.go:437-446 NotificationService.DeliverNext *)
Definition attempt_delivery (channelID : string) (payload : EncryptedPayload) (body : json) : notifying deliveryAttempt :=
  do destination <- call (N_Decrypt (scope channelID) payload);
  match destination with
  | Err _ => Ret (failedAttempt "NOTIFICATION_SECRET_UNAVAILABLE" "stored destination unavailable")
  | Ok destination => do answer <- call (N_Post destination body); Ret (attempt_of answer)
  end.

Definition string_ref (s : option string) : json := match s with Some s => JStr s | None => JNull end.

Section bodies.
(** [json.Marshal] of a time. *)
Context (time_json : Time → json).

(* src/internal/haoperations/notifications.go:441-442 NotificationService.DeliverNext *)
Definition delivery_body (d : NotificationDelivery) : json :=
  let e := Delivery_Event d in
  JObj [("id", JStr (HAEvent_ID e)); ("clusterId", JStr (HAEvent_ClusterID e)); ("nodeId", string_ref (HAEvent_NodeID e));
        ("type", JStr (HAEvent_EventType e)); ("severity", JStr (HAEvent_Severity e));
        ("summary", JStr (HAEvent_Summary e)); ("occurredAt", time_json (HAEvent_OccurredAt e))].

(* src/internal/haoperations/notifications.go:505-515 NotificationService.failDelivery *)
Definition failDelivery (d : NotificationDelivery) (attempt : deliveryAttempt) : notifying (res unit) :=
  do now <- nbase Now;
  call (N_Finish (failed_delivery d attempt now)).

(** The payload always serialises: it holds strings, a reference and a time of the store. *)
(* src/internal/haoperations/notifications.go:428-453 NotificationService.DeliverNext *)
Definition DeliverNext : notifying (bool * res unit) :=
  do now <- nbase Now;
  do claimed <- call (N_Claim now);
  match claimed with
  | Err e => Ret (false, if is_not_found e then Ok tt else Err e)
  | Ok (delivery, channel) =>
      do attempt <- attempt_delivery (Channel_ID (ChannelRecord_Channel channel)) (ChannelRecord_Destination channel)
        (delivery_body delivery);
      do finished <- (if attempt_success attempt
        then do now <- nbase Now; call (N_Finish (succeeded_delivery delivery attempt now))
        else failDelivery delivery attempt);
      Ret (true, finished)
  end.

(** ** The test of a channel *)

(* src/internal/haoperations/notifications.go:374-374 NotificationService.Test *)
Definition test_body (now : Time) : json :=
  JObj [("type", JStr "notification.test"); ("summary", JStr "Atlas DNS Controller webhook test");
        ("occurredAt", time_json now)].

(* src/internal/haoperations/notifications.go:352-406 NotificationService.Test *)
Definition Notification_Test (actor : Actor) (channelID : string) : notifying (res NotificationTestResult) :=
  try _ <- guard (ValidID channelID) (Validation "channelId" "must be a valid UUID");
  try record <- call (N_ChannelRecord channelID);
  let clusterID := Channel_ClusterID (ChannelRecord_Channel record) in
  do now <- nbase Now;
  try requested <- notification_audit actor "notification.channel_test_requested" channelID [("clusterId", JStr clusterID)] now;
  try _ <- call (N_RecordAuditEvent requested);
  do attempt <- attempt_delivery channelID (ChannelRecord_Destination record) (test_body now);
  let success := attempt_success attempt in
  do later <- nbase Now;
  try completed <- notification_audit actor "notification.channel_test_completed" channelID
    [("clusterId", JStr clusterID); ("success", JBool success); ("errorCode", JStr (attempt_errorCode attempt))] later;
  try eventID <- nbase GenerateID;
  try deliveryID <- nbase GenerateID;
  do completedAt <- nbase Now;
  let event := mkHAEvent eventID clusterID None "notification.test" "info" "Atlas DNS Controller webhook test"
    [("requestId", JStr (Actor_RequestID actor))] now in
  let delivery := mkDelivery deliveryID channelID eventID (if success then "succeeded" else "failed") 1
    (attempt_errorCode attempt) (attempt_errorSummary attempt) (attempt_httpStatus attempt) None now (Some completedAt) event in
  try _ <- call (N_RecordTest event delivery completed);
  done_with (mkTestResult channelID success (attempt_errorCode attempt) now).
End bodies.
End service.
