(* ===== verification/HAStore.v ===== *)
(** * internal/database: the tables of high availability

    The tables [node_lifecycle_settings], [dns_probe_results], [ha_operational_events],
    [upgrade_operations], [upstream_release_cache], [notification_channels],
    [notification_deliveries] and [notification_policy] with the constraints of the migrations,
    and the methods of ha_operations.go, notifications.go, notification_policy.go and
    operational_history.go on them.  Clusters, nodes, deployments, drift and audit events are
    in the tables of [Store].  The columns that are filled by a join ([Delivery_Event]) are
    kept apart; the reference of an upgrade to its user is not checked. *)

From S2P Require Import Prelude GoRuntime Json Domain AuditMetadata ControlModel Store StoreRecords.
From S2P Require Import StoreControl OperationsModel AuthStore DnsProbe HAModel HAOperations Notifications.

(** ** The tables *)

(** A row of [notification_deliveries]; the channel is null once it was deleted. *)
Record DeliveryRow := mkDeliveryRow {
  Row_ID : string;
  Row_ChannelID : option string;
  Row_EventID : string;
  Row_Status : string;
  Row_AttemptCount : Z;
  Row_ErrorCode : string;
  Row_ErrorSummary : string;
  Row_HTTPStatus : option Z;
  Row_NextAttemptAt : option Time;
  Row_CreatedAt : Time;
  Row_CompletedAt : option Time;
  Row_ChannelName : string
}.

Record HADB := mkHADB {
  ha_base : DB;
  (* by node: node_id is the primary key *)
  lifecycle_settings : gmap string NodeSettings;
  probe_results : gmap string DNSProbeResult;
  ha_events : gmap string HAEvent;
  upgrades : gmap string Upgrade;
  release_cache : option ReleaseCache;
  channels : gmap string NotificationChannelRecord;
  deliveries : gmap string DeliveryRow;
  (* the single row of the policy: its events and its version *)
  enabled_event_types : list string;
  policy_version : Z
}.

Definition set_ha_base v db := mkHADB v (lifecycle_settings db) (probe_results db) (ha_events db) (upgrades db)
  (release_cache db) (channels db) (deliveries db) (enabled_event_types db) (policy_version db).
Definition set_lifecycle_settings v db := mkHADB (ha_base db) v (probe_results db) (ha_events db) (upgrades db)
  (release_cache db) (channels db) (deliveries db) (enabled_event_types db) (policy_version db).
Definition set_probe_results v db := mkHADB (ha_base db) (lifecycle_settings db) v (ha_events db) (upgrades db)
  (release_cache db) (channels db) (deliveries db) (enabled_event_types db) (policy_version db).
Definition set_ha_events v db := mkHADB (ha_base db) (lifecycle_settings db) (probe_results db) v (upgrades db)
  (release_cache db) (channels db) (deliveries db) (enabled_event_types db) (policy_version db).
Definition set_upgrades v db := mkHADB (ha_base db) (lifecycle_settings db) (probe_results db) (ha_events db) v
  (release_cache db) (channels db) (deliveries db) (enabled_event_types db) (policy_version db).
Definition set_release_cache v db := mkHADB (ha_base db) (lifecycle_settings db) (probe_results db) (ha_events db)
  (upgrades db) v (channels db) (deliveries db) (enabled_event_types db) (policy_version db).
Definition set_channels v db := mkHADB (ha_base db) (lifecycle_settings db) (probe_results db) (ha_events db)
  (upgrades db) (release_cache db) v (deliveries db) (enabled_event_types db) (policy_version db).
Definition set_deliveries v db := mkHADB (ha_base db) (lifecycle_settings db) (probe_results db) (ha_events db)
  (upgrades db) (release_cache db) (channels db) v (enabled_event_types db) (policy_version db).
Definition set_policy events version db := mkHADB (ha_base db) (lifecycle_settings db) (probe_results db) (ha_events db)
  (upgrades db) (release_cache db) (channels db) (deliveries db) events version.

Abbreviation HATx := (Txn HADB).

Section ha_store.
Context {R : Runtime} {C : Collation}.

(* src/internal/database/store.go:44-59 audit *)
Definition ha_audited (event : AuditEvent) : HATx unit := λ db,
  match audit event (ha_base db) with Ok (a, base) => Ok (a, set_ha_base base db) | Err e => Err e end.

Definition is_node (id : string) (db : HADB) : bool := bool_decide (is_Some (nodes (ha_base db) !! id)).
Definition is_cluster (id : string) (db : HADB) : bool := bool_decide (is_Some (clusters (ha_base db) !! id)).

(** The n rows that come last in [ORDER BY time DESC, id DESC LIMIT n]. *)
(* src/internal/database/ha_operations.go:69-69 Store.LatestDNSProbe *)
Definition newest {A} (time : A → Time) (id : A → string) (l : list A) : list A :=
  sort_Slice (λ x y, earlier time id y x) l.

(* src/internal/database/ha_operations.go:244-245 Store.ListHAEvents *)
Definition limited {A} (n : Z) (l : list A) : list A := take (Z.to_nat n) l.

(** ** Settings *)

(* src/internal/database/ha_operations.go:16-28 Store.NodeLifecycleSettings *)
Definition NodeLifecycleSettings (nodeID : string) (db : HADB) : res NodeSettings :=
  match lifecycle_settings db !! nodeID with
  | Some s => Ok s
  | None => Err (not_found "node lifecycle settings")
  end.

(** The checks of node_lifecycle_settings; [char_length] counts characters. *)
Definition settings_checks (s : NodeSettings) : bool :=
  (1 <=? Settings_DNSProbePort s) && (Settings_DNSProbePort s <=? 65535) &&
  bool_decide (Settings_DNSProbeType s ∈ ["A"; "AAAA"; "NS"]) &&
  (0 <=? Settings_ExpectedRCode s) && (Settings_ExpectedRCode s <=? 15) &&
  InstallationType_Valid (Settings_InstallationType s) &&
  (RuneCount (Settings_DNSProbeHost s) <=? 255) && (1 <=? RuneCount (Settings_DNSProbeName s)) &&
  (RuneCount (Settings_DNSProbeName s) <=? 253) && (Settings_ProbeUDP s || Settings_ProbeTCP s).

(* src/internal/database/ha_operations.go:38-50 Store.SaveNodeLifecycleSettings *)
Definition settings_row (s : NodeSettings) (version : Z) (created : Time) : NodeSettings :=
  mkNodeSettings (Settings_NodeID s) (Settings_DNSProbeHost s) (Settings_DNSProbePort s) (Settings_DNSProbeName s)
    (Settings_DNSProbeType s) (Settings_ExpectedRCode s) (Settings_ProbeUDP s) (Settings_ProbeTCP s)
    (Settings_InstallationType s) version created (Settings_UpdatedAt s).

(* src/internal/database/ha_operations.go:57-57 Store.SaveNodeLifecycleSettings *)
Definition settings_changed : error := conflict "node lifecycle settings were changed by another request".

(* src/internal/database/ha_operations.go:30-66 Store.SaveNodeLifecycleSettings *)
Definition SaveNodeLifecycleSettings (value : NodeSettings) (expectedVersion : Z) (event : AuditEvent) : HATx unit :=
  tx db <- tx_get;
  tx row <- (if expectedVersion =? 0 then
      tx_check (settings_checks value) (TextError "save lifecycle settings") >>>
      tx_check (bool_decide (lifecycle_settings db !! Settings_NodeID value = None)) settings_changed >>>
      tx_check (is_node (Settings_NodeID value) db) (TextError "save lifecycle settings") >>>
      tx_ret (settings_row value 1 (Settings_UpdatedAt value))
    else match lifecycle_settings db !! Settings_NodeID value with
      | None => tx_fail settings_changed
      | Some old =>
          tx_check (Settings_RecordVersion old =? expectedVersion) settings_changed >>>
          tx_check (settings_checks value) (TextError "save lifecycle settings") >>>
          tx_ret (settings_row value (Settings_RecordVersion old + 1) (Settings_CreatedAt old))
      end);
  tx_modify (set_lifecycle_settings (<[Settings_NodeID value := row]> (lifecycle_settings db))) >>>
  ha_audited event.

(** ** Events and their notifications *)

Definition severities : list string := ["info"; "warning"; "critical"].

Definition event_checks (e : HAEvent) : bool :=
  bool_decide (HAEvent_Severity e ∈ severities) && (1 <=? RuneCount (HAEvent_EventType e)) &&
  (RuneCount (HAEvent_EventType e) <=? 80) && (1 <=? RuneCount (HAEvent_Summary e)) && (RuneCount (HAEvent_Summary e) <=? 500).

Definition event_references (e : HAEvent) (db : HADB) : bool :=
  is_cluster (HAEvent_ClusterID e) db && match HAEvent_NodeID e with Some id => is_node id db | None => true end.

(* src/internal/database/ha_operations.go:169-174 insertHAEvent *)
Definition insert_event (e : HAEvent) (failed : error) : HATx unit :=
  tx db <- tx_get;
  tx_check (event_checks e && negb (bool_decide (is_Some (ha_events db !! HAEvent_ID e))) && event_references e db) failed >>>
  tx_modify (set_ha_events (<[HAEvent_ID e := e]> (ha_events db))).

(* src/internal/database/ha_operations.go:229-234 notificationDeliveryDisposition *)
Definition notificationDeliveryDisposition (policyEnabled : bool) (eventType : string) (maintenance : bool) : string * bool :=
  if negb policyEnabled || ((eventType =?? "dns.failed") && maintenance) then ("suppressed", false) else ("pending", true).

(** The channels of a cluster that are enabled and subscribe to a category. *)
(* src/internal/database/ha_operations.go:180-180 insertHAEvent *)
Definition subscribed (clusterID category : string) (c : NotificationChannelRecord) : bool :=
  let c := ChannelRecord_Channel c in
  (Channel_ClusterID c =?? clusterID) && Channel_Enabled c &&
  match Channel_SubscribedCategories c with Some l => bool_decide (category ∈ l) | None => false end.

(** Whether the node of a failure is in maintenance, read for that event only. *)
(* src/internal/database/ha_operations.go:206-211 insertHAEvent *)
Definition event_maintenance (policyEnabled : bool) (e : HAEvent) (db : HADB) : res bool :=
  match HAEvent_NodeID e with
  | Some id =>
      if policyEnabled && (HAEvent_EventType e =?? "dns.failed") then
        match nodes (ha_base db) !! id with
        | Some row => Ok (Node_MaintenanceMode (Record_Node (Row_Record row)))
        | None => Err (TextError "no rows in result set")
        end
      else Ok false
  | None => Ok false
  end.

(* src/internal/database/ha_operations.go:212-220 insertHAEvent *)
Definition queued_row (id channelID channelName : string) (e : HAEvent) (status : string) (queued : bool) : DeliveryRow :=
  let at_ := HAEvent_OccurredAt e in
  mkDeliveryRow id (Some channelID) (HAEvent_ID e) status 0 "" "" None (if queued then Some at_ else None) at_
    (if status =?? "suppressed" then Some at_ else None) channelName.

(** The delivery of an event to a channel; [new_id] draws its identifier. *)
(* src/internal/database/ha_operations.go:199-224 insertHAEvent *)
Definition queue_delivery (new_id : string → res string) (policyEnabled : bool) (e : HAEvent)
  (c : NotificationChannelRecord) : HATx unit :=
  tx db <- tx_get;
  let channel := ChannelRecord_Channel c in
  tx id <- tx_lift (new_id (Channel_ID channel));
  tx maintenance <- tx_lift (event_maintenance policyEnabled e db);
  let '(status, queued) := notificationDeliveryDisposition policyEnabled (HAEvent_EventType e) maintenance in
  if exists_row (λ d, (bool_decide (Row_ChannelID d = Some (Channel_ID channel))) && (Row_EventID d =?? HAEvent_ID e))
       (deliveries db) then tx_ret tt
  else
    tx_check (bool_decide (deliveries db !! id = None)) (TextError "queue notification") >>>
    tx_modify (set_deliveries (<[id := queued_row id (Channel_ID channel) (Channel_Name channel) e status queued]> (deliveries db))).

(* src/internal/database/ha_operations.go:198-225 insertHAEvent *)
Fixpoint queue_deliveries (new_id : string → res string) (policyEnabled : bool) (e : HAEvent)
  (l : list NotificationChannelRecord) : HATx unit :=
  match l with
  | [] => tx_ret tt
  | c :: l => queue_delivery new_id policyEnabled e c >>> queue_deliveries new_id policyEnabled e l
  end.

(* src/internal/database/ha_operations.go:164-227 insertHAEvent *)
Definition insertHAEvent (new_id : string → res string) (e : HAEvent) : HATx unit :=
  insert_event e (TextError "insert HA event") >>>
  tx db <- tx_get;
  let category := NotificationCategoryForEvent (HAEvent_EventType e) in
  let policyEnabled := bool_decide (HAEvent_EventType e ∈ enabled_event_types db) in
  queue_deliveries new_id policyEnabled e
    (List.filter (subscribed (HAEvent_ClusterID e) category) (rows (channels db))).

(* src/internal/database/ha_operations.go:134-144 Store.RecordHAEvent *)
Definition RecordHAEvent (new_id : string → res string) (e : HAEvent) : HATx unit := insertHAEvent new_id e.

(* src/internal/database/ha_operations.go:146-162 Store.RecordHAEventAndAudit *)
Definition RecordHAEventAndAudit (new_id : string → res string) (e : HAEvent) (event : AuditEvent) : HATx unit :=
  insertHAEvent new_id e >>> ha_audited event.

(* src/internal/database/ha_operations.go:236-264 Store.ListHAEvents *)
Definition ListHAEvents (clusterID nodeID : string) (limit : Z) (db : HADB) : res (list HAEvent) :=
  Ok (limited limit (newest HAEvent_OccurredAt HAEvent_ID
    (List.filter (λ e, (HAEvent_ClusterID e =?? clusterID) &&
        ((nodeID =?? "") || bool_decide (HAEvent_NodeID e = Some nodeID))) (rows (ha_events db))))).

(** ** Probes *)

(* src/internal/database/ha_operations.go:68-70 Store.LatestDNSProbe *)
Definition LatestDNSProbe (nodeID : string) (db : HADB) : res DNSProbeResult :=
  match newest DNSProbe_ProbedAt DNSProbe_ID
    (List.filter (λ p, DNSProbe_NodeID p =?? nodeID) (rows (probe_results db))) with
  | p :: _ => Ok p
  | [] => Err (not_found "DNS probe")
  end.

(** [DISTINCT ON (node_id)]: the first row of every node, in the order of the nodes. *)
(* src/internal/database/ha_operations.go:73-74 Store.LatestDNSProbes *)
Fixpoint distinct_on (seen : list string) (l : list DNSProbeResult) : list DNSProbeResult :=
  match l with
  | [] => []
  | p :: l => if bool_decide (DNSProbe_NodeID p ∈ seen) then distinct_on seen l
      else p :: distinct_on (DNSProbe_NodeID p :: seen) l
  end.

(* src/internal/database/ha_operations.go:72-91 Store.LatestDNSProbes *)
Definition LatestDNSProbes (clusterID : string) (db : HADB) : res (list DNSProbeResult) :=
  Ok (distinct_on [] (sort_Slice (λ x y, String.ltb (DNSProbe_NodeID x) (DNSProbe_NodeID y))
    (newest DNSProbe_ProbedAt DNSProbe_ID
      (List.filter (λ p, DNSProbe_ClusterID p =?? clusterID) (rows (probe_results db)))))).

Definition probe_checks (p : DNSProbeResult) : bool :=
  let protocols := ["healthy"; "failed"; "disabled"] in
  bool_decide (DNSProbe_Status p ∈ ["healthy"; "failed"]) && bool_decide (DNSProbe_UDPStatus p ∈ protocols) &&
  bool_decide (DNSProbe_TCPStatus p ∈ protocols) &&
  match DNSProbe_ResponseCode p with Some c => (0 <=? c) && (c <=? 15) | None => true end &&
  match DNSProbe_LatencyMS p with Some l => 0 <=? l | None => true end &&
  bool_decide (DNSProbe_AddressFamily p ∈ [""; "ipv4"; "ipv6"]).

(** The row keeps the columns only. *)
(* src/internal/database/ha_operations.go:111-115 Store.SaveDNSProbe *)
Definition probe_row (p : DNSProbeResult) : DNSProbeResult :=
  mkDNSProbeResult (DNSProbe_ID p) (DNSProbe_ClusterID p) (DNSProbe_NodeID p) (DNSProbe_Status p) (DNSProbe_UDPStatus p)
    (DNSProbe_TCPStatus p) (DNSProbe_ResponseCode p) (DNSProbe_LatencyMS p) (DNSProbe_AddressFamily p)
    (DNSProbe_ErrorCode p) (DNSProbe_ProbedAt p) no_confirmation.

(* src/internal/database/ha_operations.go:126-126 Store.SaveDNSProbe *)
Definition day : Duration := 24 * hour.

(** The oldest rows before a time, at most [n]: what a clean-up deletes. *)
(* src/internal/database/ha_operations.go:125-126 Store.SaveDNSProbe *)
Definition oldest_before {A} (time : A → Time) (id : A → string) (before n : Z) (l : list A) : list string :=
  id <$> limited n (sort_Slice (earlier time id)
    (List.filter (λ x, time x <? before) l)).

(* src/internal/database/ha_operations.go:105-132 Store.SaveDNSProbe *)
Definition SaveDNSProbe (new_id : string → res string) (value : DNSProbeResult) (transition : option HAEvent) : HATx unit :=
  tx db <- tx_get;
  tx_check (probe_checks value && bool_decide (probe_results db !! DNSProbe_ID value = None) &&
            is_cluster (DNSProbe_ClusterID value) db && is_node (DNSProbe_NodeID value) db) (TextError "insert DNS probe") >>>
  tx_modify (set_probe_results (<[DNSProbe_ID value := probe_row value]> (probe_results db))) >>>
  (match transition with Some e => insertHAEvent new_id e | None => tx_ret tt end) >>>
  tx_modify (λ db,
    let old := oldest_before DNSProbe_ProbedAt DNSProbe_ID (DNSProbe_ProbedAt value - 30 * day) 10000 (rows (probe_results db)) in
    set_probe_results (delete_where (λ p, bool_decide (DNSProbe_ID p ∈ old)) (probe_results db)) db).

(** ** Other reads *)

(* src/internal/database/ha_operations.go:338-342 Store.ActiveDeploymentExists *)
Definition ActiveDeploymentExists (clusterID : string) (db : HADB) : res bool :=
  Ok (exists_row (λ d, (Deployment_ClusterID d =?? clusterID) && active_status (Deployment_Status d)) (deployments (ha_base db))).

(* src/internal/database/ha_operations.go:344-348 Store.OpenDriftExists *)
Definition OpenDriftExists (nodeID : string) (db : HADB) : res bool :=
  Ok (exists_row (λ d, (DriftEvent_NodeID d =?? nodeID) && (DriftEvent_Status d =?? "open")) (drift_events (ha_base db))).

(** The last status of a collector of a node: the tables of telemetry are read elsewhere, so that the two
    rows are arguments; no row means that the collector is not configured. *)
(* src/internal/database/ha_operations.go:357-362 Store.CollectorChecks *)
Definition collector_check (name code known : string) (resumable : list string) (status : option string) : HACheck :=
  let ok := match status with None => true | Some s => bool_decide (s ∈ resumable) end in
  mkHACheck name
    (match status with None => "not_applicable" | Some _ => if ok then "pass" else "fail" end)
    (bool_decide (is_Some status)) (if ok then "" else code)
    (match status with None => "Collector is not configured for this node" | Some _ => known end).

(* src/internal/database/ha_operations.go:350-377 Store.CollectorChecks *)
Definition CollectorChecks (statistics queryLog : res (option string)) : res (list HACheck) :=
  match statistics with
  | Err e => Err (WrapError "read statistics collector state" e)
  | Ok statistics =>
      match queryLog with
      | Err e => Err (WrapError "read Query Log collector state" e)
      | Ok queryLog => Ok
          [collector_check "statistics_collector" "STATISTICS_COLLECTOR_NOT_READY"
             "Statistics collector has a known resumable state"
             ["succeeded"; "partial"; "unsupported"; "maintenance"] statistics;
           collector_check "query_log_collector" "QUERY_LOG_COLLECTOR_NOT_READY"
             "Query Log collector has a known resumable state"
             ["succeeded"; "partial"; "unsupported"; "logging_disabled"; "maintenance"] queryLog]
      end
  end.

(** ** Upgrades *)

Definition open_upgrade (u : Upgrade) : bool :=
  bool_decide (Upgrade_Status u ∈ ["planned"; "maintenance"; "awaiting_operator"; "validating"]).

Definition upgrade_checks (u : Upgrade) : bool :=
  InstallationType_Valid (Upgrade_InstallationType u) && (Upgrade_Mode u =?? "guided") &&
  bool_decide (Upgrade_Status u ∈ ["planned"; "maintenance"; "awaiting_operator"; "validating"; "succeeded"; "failed"; "cancelled"]) &&
  (RuneCount (Upgrade_FromVersion u) <=? 128) && (1 <=? RuneCount (Upgrade_TargetVersion u)) &&
  (RuneCount (Upgrade_TargetVersion u) <=? 128) && (RuneCount (Upgrade_ErrorSummary u) <=? 500).

(** The unique index of the open upgrades of a node. *)
Definition other_open (u : Upgrade) (db : HADB) : bool :=
  exists_row (λ x, (Upgrade_NodeID x =?? Upgrade_NodeID u) && negb (Upgrade_ID x =?? Upgrade_ID u) && open_upgrade x) (upgrades db).

(* src/internal/database/ha_operations.go:379-402 Store.CreateUpgrade *)
Definition CreateUpgrade (new_id : string → res string) (value : Upgrade) (auditEvent : AuditEvent) (event : HAEvent) : HATx unit :=
  tx db <- tx_get;
  tx_check (upgrade_checks value) (TextError "create upgrade") >>>
  tx_check (bool_decide (upgrades db !! Upgrade_ID value = None) && negb (open_upgrade value && other_open value db))
    (conflict "the node already has an active upgrade") >>>
  tx_check (is_cluster (Upgrade_ClusterID value) db && is_node (Upgrade_NodeID value) db) (TextError "create upgrade") >>>
  tx_modify (set_upgrades (<[Upgrade_ID value := value]> (upgrades db))) >>>
  ha_audited auditEvent >>>
  insertHAEvent new_id event.

(** The columns that an update writes. *)
(* src/internal/database/ha_operations.go:411-411 Store.UpdateUpgrade *)
Definition upgrade_update (value old : Upgrade) : Upgrade :=
  mkUpgrade (Upgrade_ID old) (Upgrade_ClusterID old) (Upgrade_NodeID old) (Upgrade_FromVersion old)
    (Upgrade_TargetVersion old) (Upgrade_InstallationType old) (Upgrade_Mode old) (Upgrade_Status value)
    (Upgrade_RequestedBy old) (Upgrade_RequestID old) (Upgrade_Preflight old) (Upgrade_Validation value)
    (Upgrade_ErrorCode value) (Upgrade_ErrorSummary value) (Upgrade_StartedAt old) (Upgrade_CompletedAt value).

(* src/internal/database/ha_operations.go:404-425 Store.UpdateUpgrade *)
Definition UpdateUpgrade (new_id : string → res string) (value : Upgrade) (auditEvent : AuditEvent) (event : HAEvent) : HATx unit :=
  tx db <- tx_get;
  match upgrades db !! Upgrade_ID value with
  | None => tx_fail (NewError ErrorNotFound "upgrade was not found")
  | Some old =>
      let row := upgrade_update value old in
      tx_check (upgrade_checks row && negb (open_upgrade row && other_open row db)) (TextError "update upgrade") >>>
      tx_modify (set_upgrades (<[Upgrade_ID value := row]> (upgrades db))) >>>
      ha_audited auditEvent >>>
      insertHAEvent new_id event
  end.

(* src/internal/database/ha_operations.go:427-429 Store.UpgradeByID *)
Definition UpgradeByID (id : string) (db : HADB) : res Upgrade :=
  match upgrades db !! id with Some u => Ok u | None => Err (not_found "upgrade") end.

(* src/internal/database/ha_operations.go:430-445 Store.ListUpgrades *)
Definition ListUpgrades (clusterID : string) (limit : Z) (db : HADB) : res (list Upgrade) :=
  Ok (limited limit (newest Upgrade_StartedAt Upgrade_ID
    (List.filter (λ u, Upgrade_ClusterID u =?? clusterID) (rows (upgrades db))))).

(** ** Releases *)

(* src/internal/database/ha_operations.go:465-472 Store.ReleaseCache *)
Definition ReadReleaseCache (db : HADB) : res ReleaseCache :=
  match release_cache db with Some r => Ok r | None => Err (not_found "upstream release cache") end.

(* src/internal/database/ha_operations.go:474-477 Store.SaveReleaseCache *)
Definition SaveReleaseCache (value : ReleaseCache) : HATx unit :=
  tx_check ((Release_CheckedAt value <? Release_ExpiresAt value) &&
            bool_decide (Release_Compatibility value ∈ ["supported"; "unknown"; "unsupported"])) (TextError "release cache") >>>
  tx_modify (set_release_cache (Some value)).
End ha_store.

(** * internal/database: channels, deliveries and the policy of notifications

    The methods of notifications.go, notification_policy.go and operational_history.go. *)

Section notification_store.
Context {R : Runtime} {C : Collation}.

(** ** Channels *)

Definition channel_of (r : NotificationChannelRecord) : NotificationChannel := ChannelRecord_Channel r.

(* src/internal/database/notifications.go:19-36 Store.ListNotificationChannels *)
Definition ListNotificationChannels (clusterID : string) (db : HADB) : res (list NotificationChannel) :=
  Ok (sort_Slice (λ a b, collate_less (sql_lower (Channel_Name a)) (sql_lower (Channel_Name b)))
       (sort_Slice (λ a b, String.ltb (Channel_ID a) (Channel_ID b))
         (channel_of <$> List.filter (λ r, Channel_ClusterID (channel_of r) =?? clusterID) (rows (channels db))))).

(* src/internal/database/notifications.go:38-49 Store.NotificationChannelRecord *)
Definition ChannelRecordByID (id : string) (db : HADB) : res NotificationChannelRecord :=
  match channels db !! id with Some r => Ok r | None => Err (not_found "notification channel") end.

(** The row that is written: the type is fixed, and a stored destination is a set one. *)
(* src/internal/database/notifications.go:58-68 Store.SaveNotificationChannel *)
Definition channel_row (value : NotificationChannelRecord) (clusterID : string) (version : Z) (created : Time) :
  NotificationChannelRecord :=
  let c := channel_of value in
  mkChannelRecord (mkChannel (Channel_ID c) clusterID (Channel_Name c) "webhook" (Channel_Enabled c) true
    (Channel_DestinationSummary c) (Channel_SubscribedCategories c) version created (Channel_UpdatedAt c))
    (ChannelRecord_Destination value).

(** The checks of notification_channels; a null array violates its column. *)
Definition channel_checks (c : NotificationChannel) : bool :=
  (1 <=? RuneCount (Channel_Name c)) && (RuneCount (Channel_Name c) <=? 120) &&
  match Channel_SubscribedCategories c with
  | Some l => (1 <=? Z.of_nat (length l)) && (Z.of_nat (length l) <=? 6) &&
      forallb (λ x, bool_decide (x ∈ notificationCategories)) l
  | None => false
  end.

Definition name_taken (c : NotificationChannel) (clusterID : string) (db : HADB) : bool :=
  exists_row (λ r, negb (Channel_ID (channel_of r) =?? Channel_ID c) && (Channel_ClusterID (channel_of r) =?? clusterID) &&
                   (Channel_Name (channel_of r) =?? Channel_Name c)) (channels db).

(* src/internal/database/notifications.go:73-73 Store.SaveNotificationChannel *)
Definition channel_changed : error := conflict "notification channel was changed by another request".

(** [ON CONFLICT DO NOTHING] on an insert: a name that is taken affects no row. *)
(* src/internal/database/notifications.go:51-79 Store.SaveNotificationChannel *)
Definition SaveNotificationChannel (value : NotificationChannelRecord) (expectedVersion : Z) (event : AuditEvent) : HATx unit :=
  tx db <- tx_get;
  let c := channel_of value in
  tx row <- (if expectedVersion =? 0 then
      tx_check (channel_checks c) (TextError "save notification channel") >>>
      tx_check (bool_decide (channels db !! Channel_ID c = None) && negb (name_taken c (Channel_ClusterID c) db)) channel_changed >>>
      tx_check (is_cluster (Channel_ClusterID c) db) (TextError "save notification channel") >>>
      tx_ret (channel_row value (Channel_ClusterID c) 1 (Channel_UpdatedAt c))
    else match channels db !! Channel_ID c with
      | None => tx_fail channel_changed
      | Some old =>
          tx_check (Channel_RecordVersion (channel_of old) =? expectedVersion) channel_changed >>>
          tx_check (channel_checks c && negb (name_taken c (Channel_ClusterID (channel_of old)) db))
            (TextError "save notification channel") >>>
          tx_ret (channel_row value (Channel_ClusterID (channel_of old)) (Channel_RecordVersion (channel_of old) + 1)
            (Channel_CreatedAt (channel_of old)))
      end);
  tx_modify (set_channels (<[Channel_ID c := row]> (channels db))) >>>
  ha_audited event.

(** [ON DELETE SET NULL] *)
Definition without_channel (id : string) (d : DeliveryRow) : DeliveryRow :=
  mkDeliveryRow (Row_ID d) None (Row_EventID d) (Row_Status d) (Row_AttemptCount d) (Row_ErrorCode d)
    (Row_ErrorSummary d) (Row_HTTPStatus d) (Row_NextAttemptAt d) (Row_CreatedAt d) (Row_CompletedAt d) (Row_ChannelName d).

(* src/internal/database/notifications.go:81-98 Store.DeleteNotificationChannel *)
Definition DeleteNotificationChannel (id : string) (expectedVersion : Z) (event : AuditEvent) : HATx unit :=
  tx db <- tx_get;
  match channels db !! id with
  | None => tx_fail channel_changed
  | Some r =>
      tx_check (Channel_RecordVersion (channel_of r) =? expectedVersion) channel_changed >>>
      tx_modify (set_channels (delete id (channels db))) >>>
      tx_modify (λ db, set_deliveries (update_where (λ d, bool_decide (Row_ChannelID d = Some id)) (without_channel id)
        (deliveries db)) db) >>>
      ha_audited event
  end.

(** ** Deliveries *)

(* src/internal/database/notifications.go:112-113 Store.ClaimNotificationDelivery *)
Definition due_at (d : DeliveryRow) : Time := default (Row_CreatedAt d) (Row_NextAttemptAt d).

(** A delivery that may be attempted at [now]. *)
(* src/internal/database/notifications.go:112-112 Store.ClaimNotificationDelivery *)
Definition claimable (now : Time) (db : HADB) (d : DeliveryRow) : bool :=
  match Row_ChannelID d with
  | Some id => match channels db !! id with Some r => Channel_Enabled (channel_of r) | None => false end
  | None => false
  end && bool_decide (is_Some (ha_events db !! Row_EventID d)) &&
  bool_decide (Row_Status d ∈ ["pending"; "failed"]) && (Row_AttemptCount d <? 5) && (due_at d <=? now).

(* src/internal/database/notifications.go:123-125 Store.ClaimNotificationDelivery *)
Definition claimed_row (d : DeliveryRow) : DeliveryRow :=
  mkDeliveryRow (Row_ID d) (Row_ChannelID d) (Row_EventID d) "pending" (Row_AttemptCount d + 1) (Row_ErrorCode d)
    (Row_ErrorSummary d) (Row_HTTPStatus d) None (Row_CreatedAt d) (Row_CompletedAt d) (Row_ChannelName d).

(** The row with its event, as the claim returns it. *)
(* src/internal/database/notifications.go:108-124 Store.ClaimNotificationDelivery *)
Definition claimed_delivery (channelID : string) (d : DeliveryRow) (e : HAEvent) : NotificationDelivery :=
  mkDelivery (Row_ID d) channelID (Row_EventID d) "pending" (Row_AttemptCount d + 1) (Row_ErrorCode d) (Row_ErrorSummary d)
    (Row_HTTPStatus d) (Row_NextAttemptAt d) (Row_CreatedAt d) (Row_CompletedAt d) e.

(** [ORDER BY COALESCE(next_attempt_at,created_at), id] *)
(* src/internal/database/notifications.go:113-113 Store.ClaimNotificationDelivery *)
Definition by_due : DeliveryRow → DeliveryRow → bool := earlier due_at Row_ID.

(* src/internal/database/notifications.go:100-141 Store.ClaimNotificationDelivery *)
Definition ClaimNotificationDelivery (now : Time) : HATx (NotificationDelivery * NotificationChannelRecord) :=
  tx db <- tx_get;
  match sort_Slice by_due (List.filter (claimable now db) (rows (deliveries db))) with
  | [] => tx_fail (not_found "notification delivery")
  | d :: _ =>
      match Row_ChannelID d with
      | Some channelID =>
          match channels db !! channelID, ha_events db !! Row_EventID d with
          | Some r, Some e =>
              tx_modify (set_deliveries (<[Row_ID d := claimed_row d]> (deliveries db))) >>>
              tx_ret (claimed_delivery channelID d e, r)
          | _, _ => tx_fail (not_found "notification delivery")
          end
      | None => tx_fail (not_found "notification delivery")
      end
  end.

(** The checks of a row that a delivery writes. *)
Definition delivery_checks (d : DeliveryRow) : bool :=
  bool_decide (Row_Status d ∈ ["pending"; "succeeded"; "failed"; "suppressed"]) &&
  (0 <=? Row_AttemptCount d) && (Row_AttemptCount d <=? 5) &&
  match Row_HTTPStatus d with Some c => (100 <=? c) && (c <=? 599) | None => true end &&
  (RuneCount (Row_ErrorSummary d) <=? 200).

(* src/internal/database/notifications.go:144-144 Store.FinishNotificationDelivery *)
Definition finished_row (value : NotificationDelivery) (d : DeliveryRow) : DeliveryRow :=
  mkDeliveryRow (Row_ID d) (Row_ChannelID d) (Row_EventID d) (Delivery_Status value) (Delivery_AttemptCount value)
    (Delivery_ErrorCode value) (Delivery_ErrorSummary value) (Delivery_HTTPStatus value) (Delivery_NextAttemptAt value)
    (Row_CreatedAt d) (Delivery_CompletedAt value) (Row_ChannelName d).

(** A row that is gone is not an error. *)
(* src/internal/database/notifications.go:143-146 Store.FinishNotificationDelivery *)
Definition FinishNotificationDelivery (value : NotificationDelivery) : HATx unit :=
  tx db <- tx_get;
  match deliveries db !! Delivery_ID value with
  | None => tx_ret tt
  | Some d =>
      tx_check (delivery_checks (finished_row value d)) (TextError "violates check constraint") >>>
      tx_modify (set_deliveries (<[Delivery_ID value := finished_row value d]> (deliveries db)))
  end.

(* src/internal/database/notifications.go:148-181 Store.RecordNotificationTest *)
Definition RecordNotificationTest (event : HAEvent) (delivery : NotificationDelivery) (auditEvent : AuditEvent) : HATx unit :=
  let stored := mkHAEvent (HAEvent_ID event) (HAEvent_ClusterID event) None "notification.test" "info" (HAEvent_Summary event)
    (HAEvent_Details event) (HAEvent_OccurredAt event) in
  insert_event stored (TextError "insert notification test event") >>>
  tx db <- tx_get;
  match channels db !! Delivery_ChannelID delivery with
  | None => tx_fail (NewError ErrorNotFound "notification channel was not found")
  | Some r =>
      let row := mkDeliveryRow (Delivery_ID delivery) (Some (Delivery_ChannelID delivery)) (Delivery_EventID delivery)
        (Delivery_Status delivery) (Delivery_AttemptCount delivery) (Delivery_ErrorCode delivery) (Delivery_ErrorSummary delivery)
        (Delivery_HTTPStatus delivery) None (Delivery_CreatedAt delivery) (Delivery_CompletedAt delivery) (Channel_Name (channel_of r)) in
      tx_check (delivery_checks row && bool_decide (deliveries db !! Delivery_ID delivery = None) &&
          negb (exists_row (λ d, bool_decide (Row_ChannelID d = Some (Delivery_ChannelID delivery)) &&
                                 (Row_EventID d =?? Delivery_EventID delivery)) (deliveries db)) &&
          bool_decide (is_Some (ha_events db !! Delivery_EventID delivery)))
        (TextError "insert notification test delivery") >>>
      tx_modify (set_deliveries (<[Delivery_ID delivery := row]> (deliveries db))) >>>
      ha_audited auditEvent
  end.

(** ** The policy *)

(* src/internal/database/notification_policy.go:14-20 Store.NotificationPolicy *)
Definition ReadNotificationPolicy (db : HADB) : res NotificationPolicy :=
  Ok (mkPolicy (enabled_event_types db) (policy_version db) []).

(* src/internal/database/notification_policy.go:22-43 Store.UpdateNotificationPolicy *)
Definition UpdateNotificationPolicy (value : NotificationPolicy) (expectedVersion : Z) (event : AuditEvent) :
  HATx NotificationPolicy :=
  tx db <- tx_get;
  tx_check (policy_version db =? expectedVersion) (conflict "notification policy changed; reload and try again") >>>
  tx_check (forallb (λ x, bool_decide (x ∈ PolicyEvent_EventType <$> policy_events)) (Policy_EnabledEventTypes value))
    (TextError "update notification policy") >>>
  tx_modify (set_policy (Policy_EnabledEventTypes value) (policy_version db + 1)) >>>
  ha_audited event >>>
  tx_ret (mkPolicy (Policy_EnabledEventTypes value) (policy_version db + 1) (Policy_Groups value)).

(** ** The retention of events; [ON DELETE CASCADE] takes their deliveries *)

(* src/internal/database/operational_history.go:18-24 Store.PruneOperationalHistory *)
Definition delete_events (p : HAEvent → bool) : HATx Z :=
  tx db <- tx_get;
  let gone := List.filter p (rows (ha_events db)) in
  let ids := HAEvent_ID <$> gone in
  tx_modify (set_ha_events (delete_where p (ha_events db))) >>>
  tx_modify (λ db, set_deliveries (delete_where (λ d, bool_decide (Row_EventID d ∈ ids)) (deliveries db)) db) >>>
  tx_ret (Z.of_nat (length gone)).

(* src/internal/database/operational_history.go:14-25 Store.PruneOperationalHistory *)
Definition PruneOperationalHistory (before limit : Z) : HATx Z :=
  tx db <- tx_get;
  let limit := if (limit <? 1) || (10000 <? limit) then 10000 else limit in
  let old := oldest_before HAEvent_OccurredAt HAEvent_ID before limit (rows (ha_events db)) in
  delete_events (λ e, bool_decide (HAEvent_ID e ∈ old)).

(* src/internal/database/operational_history.go:45-45 Store.ClearOperationalHistory *)
Definition with_metadata (event : AuditEvent) (metadata : json) : AuditEvent :=
  mkAuditEvent (AuditEvent_ID event) (AuditEvent_ActorType event) (AuditEvent_ActorUserID event) (AuditEvent_ActorDisplayName event)
    (AuditEvent_Action event) (AuditEvent_ResourceType event) (AuditEvent_ResourceID event) (AuditEvent_RequestID event) metadata
    (AuditEvent_CreatedAt event) "" "".

(* src/internal/database/operational_history.go:27-53 Store.ClearOperationalHistory *)
Definition ClearOperationalHistory (event : AuditEvent) : HATx (Z * Z) :=
  tx db <- tx_get;
  let deliveries := Z.of_nat (size (deliveries db)) in
  tx events <- delete_events (λ _, true);
  ha_audited (with_metadata event (JObj [("eventsDeleted", JNum events); ("deliveriesDeleted", JNum deliveries);
    ("result", JStr "succeeded")])) >>>
  tx_ret (events, deliveries).
End notification_store.
