(* ===== verification/HAInvariant.v ===== *)
(** * The invariant of the tables of high availability

    The calls of the store, the effect of queueing an event, and the invariant that every
    history of calls keeps: keys, unique indexes, references and checks, whatever happens to
    the other tables in between. *)

From S2P Require Import Prelude GoRuntime Json Domain AuditMetadata ControlModel Store StoreRecords.
From S2P Require Import StoreInvariant OperationsModel AuthStore DnsProbe HAModel HAOperations Notifications.
From S2P Require Import HAStore.

(** ** Calls *)

Abbreviation id_source := (string → res string).

(** Every method that writes, and a change of the tables of other components. *)
Inductive ha_op : Type :=
| OpSettings (value : NodeSettings) (expected : Z) (e : AuditEvent)
| OpSaveProbe (ids : id_source) (value : DNSProbeResult) (transition : option HAEvent)
| OpEvent (ids : id_source) (e : HAEvent)
| OpEventAndAudit (ids : id_source) (e : HAEvent) (a : AuditEvent)
| OpCreateUpgrade (ids : id_source) (u : Upgrade) (a : AuditEvent) (e : HAEvent)
| OpUpdateUpgrade (ids : id_source) (u : Upgrade) (a : AuditEvent) (e : HAEvent)
| OpReleaseCache (value : ReleaseCache)
| OpSaveChannel (value : NotificationChannelRecord) (expected : Z) (a : AuditEvent)
| OpDeleteChannel (id : string) (expected : Z) (a : AuditEvent)
| OpClaim (now : Time)
| OpFinish (value : NotificationDelivery)
| OpTest (e : HAEvent) (delivery : NotificationDelivery) (a : AuditEvent)
| OpPolicy (value : NotificationPolicy) (expected : Z) (a : AuditEvent)
| OpPrune (before limit : Z)
| OpClear (a : AuditEvent)
| OpBase (base : DB).

Section history.
Context {R : Runtime}.

Definition ha_tx (op : ha_op) : HATx unit :=
  match op with
  | OpSettings v n e => SaveNodeLifecycleSettings v n e
  | OpSaveProbe ids v t => SaveDNSProbe ids v t
  | OpEvent ids e => RecordHAEvent ids e
  | OpEventAndAudit ids e a => RecordHAEventAndAudit ids e a
  | OpCreateUpgrade ids u a e => CreateUpgrade ids u a e
  | OpUpdateUpgrade ids u a e => UpdateUpgrade ids u a e
  | OpReleaseCache v => SaveReleaseCache v
  | OpSaveChannel v n a => SaveNotificationChannel v n a
  | OpDeleteChannel id n a => DeleteNotificationChannel id n a
  | OpClaim now => ignoring (ClaimNotificationDelivery now)
  | OpFinish v => FinishNotificationDelivery v
  | OpTest e d a => RecordNotificationTest e d a
  | OpPolicy v n a => ignoring (UpdateNotificationPolicy v n a)
  | OpPrune before limit => ignoring (PruneOperationalHistory before limit)
  | OpClear a => ignoring (ClearOperationalHistory a)
  | OpBase base => tx_modify (set_ha_base base)
  end.

Definition apply_ha (op : ha_op) (db : HADB) : HADB := (commit (ha_tx op) db).2.
Definition run_ha (ops : list ha_op) (db : HADB) : HADB := foldl (flip apply_ha) db ops.

Lemma keeps_run_ha (P : HADB → Prop) ops : (∀ op, op ∈ ops → keeps_db P (ha_tx op)) → ∀ db, P db → P (run_ha ops db).
Proof.
  unfold run_ha. induction ops as [|op ops IH]; intros H db HP; cbn; [done|].
  apply IH; [intros o Ho; apply H; by right|]. unfold apply_ha, commit.
  destruct (ha_tx op db) as [[a db']|] eqn:E; [|done]. eapply (H op); [by left|exact E|done].
Qed.
End history.

Ltac ha_tables :=
  cbn [ha_base lifecycle_settings probe_results ha_events upgrades release_cache channels deliveries enabled_event_types
    policy_version set_ha_base set_lifecycle_settings set_probe_results set_ha_events set_upgrades set_release_cache
    set_channels set_deliveries set_policy] in *.

(** ** The effect of the statements *)

Section statements.
Context {R : Runtime}.

Lemma ha_audited_Ok e db u db' : ha_audited e db = Ok (u, db') → ∃ b, db' = set_ha_base b db.
Proof. unfold ha_audited. destruct (audit e _) as [[? b]|]; [|done]. intros [= _ <-]. by exists b. Qed.

Lemma insert_event_Ok e failed db u db' : insert_event e failed db = Ok (u, db') →
  db' = set_ha_events (<[HAEvent_ID e := e]> (ha_events db)) db ∧ event_checks e = true ∧
  ha_events db !! HAEvent_ID e = None ∧ event_references e db = true.
Proof.
  intros H. unfold insert_event in H. tx_step H.
  repeat match goal with H : _ && _ = true |- _ => apply andb_true_iff in H as [? ?] end.
  split_and!; [done..| |done].
  match goal with H : negb _ = true |- _ => apply negb_true_iff, bool_decide_eq_false in H; by apply eq_None_not_Some end.
Qed.

(** The delivery of an event to a channel. *)
Definition delivers (channelID eventID : string) (d : DeliveryRow) : Prop :=
  Row_ChannelID d = Some channelID ∧ Row_EventID d = eventID.

Definition disposition (policyEnabled : bool) (e : HAEvent) (db : HADB) (status : string) (queued : bool) : Prop :=
  ∃ maintenance, event_maintenance policyEnabled e db = Ok maintenance ∧
    notificationDeliveryDisposition policyEnabled (HAEvent_EventType e) maintenance = (status, queued).

Lemma queue_delivery_Ok ids p e c db u db' : queue_delivery ids p e c db = Ok (u, db') →
  let channel := ChannelRecord_Channel c in
  ∃ status queued, disposition p e db status queued ∧
    ((db' = db ∧ ∃ k d, deliveries db !! k = Some d ∧ delivers (Channel_ID channel) (HAEvent_ID e) d) ∨
     (∃ id, db' = set_deliveries (<[id := queued_row id (Channel_ID channel) (Channel_Name channel) e status queued]> (deliveries db)) db ∧
       deliveries db !! id = None ∧
       ∀ k d, deliveries db !! k = Some d → ¬ delivers (Channel_ID channel) (HAEvent_ID e) d)).
Proof.
  intros H. unfold queue_delivery in H.
  apply tx_bind_Ok in H as (? & ? & [-> ->]%tx_get_Ok & H). cbv zeta in H |- *.
  apply tx_bind_Ok in H as (id & ? & [_ ->]%tx_lift_Ok & H).
  apply tx_bind_Ok in H as (maintenance & ? & [Hm ->]%tx_lift_Ok & H).
  destruct (notificationDeliveryDisposition _ _ _) as [status queued] eqn:Hd.
  exists status, queued. split; [by exists maintenance|].
  destruct (exists_row _ _) eqn:E.
  - left. apply tx_ret_Ok in H as [_ ->]. split; [done|]. apply exists_row_true in E as (k & d & Hk & Hp).
    apply andb_true_iff in Hp as [Hc He]. apply bool_decide_eq_true in Hc, He. by exists k, d.
  - right. tx_step H. bool_simp. exists id. split_and!; [done..|]. intros k d Hk [Hc He].
    rewrite exists_row_false in E. specialize (E _ _ Hk). apply andb_false_iff in E as [E|E]; by apply bool_decide_eq_false in E.
Qed.

End statements.

(** ** The invariant *)

Definition is_open_upgrade (u : Upgrade) : Prop := open_upgrade u = true.
Definition channel_name (r : NotificationChannelRecord) : string * string :=
  (Channel_ClusterID (channel_of r), Channel_Name (channel_of r)).
Definition has_channel (d : DeliveryRow) : Prop := is_Some (Row_ChannelID d).
Definition delivery_key (d : DeliveryRow) : option string * string := (Row_ChannelID d, Row_EventID d).
Definition checked {A} (p : A → bool) (m : gmap string A) : Prop := ∀ k x, m !! k = Some x → p x = true.

Record HAWellFormed `{Runtime} (db : HADB) : Prop := {
  hw_settings : keyed Settings_NodeID (lifecycle_settings db);
  hw_settings_checked : checked settings_checks (lifecycle_settings db);
  hw_probes : keyed DNSProbe_ID (probe_results db);
  hw_events : keyed HAEvent_ID (ha_events db);
  hw_upgrades : keyed Upgrade_ID (upgrades db);
  hw_upgrades_checked : checked upgrade_checks (upgrades db);
  hw_channels : keyed (Channel_ID ∘ channel_of) (channels db);
  hw_channels_checked : checked (channel_checks ∘ channel_of) (channels db);
  hw_deliveries : keyed Row_ID (deliveries db);
  hw_deliveries_checked : checked delivery_checks (deliveries db);
  hw_policy : ∀ x, x ∈ enabled_event_types db → x ∈ PolicyEvent_EventType <$> policy_events;
  (* unique indexes *)
  hw_one_open : unique_on is_open_upgrade Upgrade_NodeID (upgrades db);
  hw_names : unique_on (λ _, True) channel_name (channels db);
  hw_once : unique_on has_channel delivery_key (deliveries db);
  (* references *)
  hw_event_of : refers (λ d, [Row_EventID d]) (deliveries db) (ha_events db);
  hw_channel_of : refers (λ d, option_list (Row_ChannelID d)) (deliveries db) (channels db)
}.

Section checked.
Context {A : Type} (p : A → bool).
Implicit Types m : gmap string A.

Lemma checked_empty : checked p ∅.
Proof. intros k x H. by rewrite lookup_empty in H. Qed.
Lemma checked_insert k x m : p x = true → checked p m → checked p (<[k:=x]> m).
Proof. intros Hx Hm i y [[_ <-]|[_ H]]%lookup_insert_Some; [done|by eapply Hm]. Qed.
Lemma checked_delete k m : checked p m → checked p (delete k m).
Proof. intros Hm i y [_ H]%lookup_delete_Some. by eapply Hm. Qed.
Lemma checked_delete_where q m : checked p m → checked p (delete_where q m).
Proof. intros Hm i y [H _]%lookup_delete_where. by eapply Hm. Qed.
Lemma checked_update q f m : (∀ x, p x = true → p (f x) = true) → checked p m → checked p (update_where q f m).
Proof.
  intros Hf Hm i y. rewrite lookup_update_where, fmap_Some. intros (x & Hx & ->). apply Hm in Hx.
  destruct (q x); auto.
Qed.
End checked.

Create HintDb ha_tables discriminated.
#[export] Hint Resolve checked_insert checked_delete checked_delete_where keyed_insert keyed_delete keyed_delete_where
  unique_delete unique_delete_where refers_delete_where is_Some_insert : ha_tables.

Ltac ha_wf Hwf := destruct Hwf; split; ha_tables; eauto with ha_tables.

(** Follow a method to its result: every guard holds, and the tables after it are those its statements build. *)
Ltac ha_inv H :=
  tx_step H;
  repeat match goal with
  | H : ha_audited _ _ = Ok _ |- _ => apply ha_audited_Ok in H as [? ->]
  | H : tx_lift _ _ = Ok _ |- _ => apply tx_lift_Ok in H as [? ->]
  end; try subst; bool_simp.

Section invariant.
Context {R : Runtime} {C : Collation}.

Lemma HAWellFormed_empty base types version : (∀ x, x ∈ types → x ∈ PolicyEvent_EventType <$> policy_events) →
  HAWellFormed (mkHADB base ∅ ∅ ∅ ∅ None ∅ ∅ types version).
Proof.
  intros Ht. split; cbn; auto using keyed_empty, checked_empty, unique_empty, refers_empty.
Qed.

Lemma wf_base base : keeps_db HAWellFormed (tx_modify (set_ha_base base)).
Proof. intros db u db' ->%tx_modify_Ok Hwf. ha_wf Hwf. Qed.

Lemma wf_ha_audited e : keeps_db HAWellFormed (ha_audited e).
Proof. intros db u db' [b ->]%ha_audited_Ok Hwf. ha_wf Hwf. Qed.

Lemma refers_more {A} (f : A → list string) k (x : HAEvent) (m : gmap string A) t :
  refers f m t → refers f m (<[k:=x]> t).
Proof. apply refers_weaken. intros r. apply is_Some_insert. Qed.

Lemma wf_insert_event e failed : keeps_db HAWellFormed (insert_event e failed).
Proof.
  intros db u db' (-> & _ & Hfresh & _)%insert_event_Ok Hwf. ha_wf Hwf. by apply refers_more.
Qed.

(** A new delivery of an event to a channel that has none of it yet. *)
Lemma wf_new_delivery db d : HAWellFormed db → deliveries db !! Row_ID d = None → delivery_checks d = true →
  is_Some (ha_events db !! Row_EventID d) → (∀ c, Row_ChannelID d = Some c → is_Some (channels db !! c)) →
  (∀ c k x, Row_ChannelID d = Some c → deliveries db !! k = Some x → ¬ delivers c (Row_EventID d) x) →
  HAWellFormed (set_deliveries (<[Row_ID d := d]> (deliveries db)) db).
Proof.
  intros Hwf Hfresh Hd He Hc Hnew. ha_wf Hwf.
  - apply unique_insert; [|done]. intros [c Hs] k x Hk _ E. unfold delivery_key in E. injection E as Ech Ee.
    destruct (Hnew c k x Hs Hk). unfold delivers. by rewrite Ech, Ee.
  - apply refers_insert; [|done]. intros r ->%list_elem_of_singleton. done.
  - apply refers_insert; [|done]. intros r Hr. destruct (Row_ChannelID d) eqn:E; [|by apply not_elem_of_nil in Hr].
    apply list_elem_of_singleton in Hr as ->. by apply Hc.
Qed.

Lemma queued_row_checks id ch name e status queued p maintenance :
  notificationDeliveryDisposition p (HAEvent_EventType e) maintenance = (status, queued) →
  delivery_checks (queued_row id ch name e status queued) = true.
Proof.
  unfold notificationDeliveryDisposition. destruct (_ || _); intros [= <- <-];
    reflexivity.
Qed.

(** What the loop over the channels of an event relies on. *)
Definition queueing (e : HAEvent) (l : list NotificationChannelRecord) (db : HADB) : Prop :=
  HAWellFormed db ∧ is_Some (ha_events db !! HAEvent_ID e) ∧
  ∀ c, c ∈ l → is_Some (channels db !! Channel_ID (ChannelRecord_Channel c)).

Lemma queue_delivery_keeps ids p e c l : c ∈ l → keeps_db (queueing e l) (queue_delivery ids p e c).
Proof.
  intros Hc db u db' H (Hwf & He & Hl). apply queue_delivery_Ok in H as (status & queued & Hd & [[-> _]|(id & -> & Hfresh & Hnew)]);
    [done|]. destruct Hd as (m & _ & Hd).
  split; [|by split; ha_tables]. set (d := queued_row id _ _ e status queued).
  apply (wf_new_delivery db d); [done|done| |done| |].
  - by eapply queued_row_checks.
  - intros ch [= <-]. by apply Hl.
  - intros ch k x [= <-] Hk. by apply (Hnew k x).
Qed.

Lemma queue_deliveries_keeps ids p e l l' : l ⊆ l' → keeps_db (queueing e l') (queue_deliveries ids p e l).
Proof.
  induction l as [|c l IH]; intros Hl; cbn [queue_deliveries]; [apply keeps_db_ret|].
  apply keeps_db_bind; [apply queue_delivery_keeps; set_solver|]. intros _. apply IH. set_solver.
Qed.

Lemma elem_of_filter_rows {A} (p : A → bool) m x : x ∈ List.filter p (rows m) ↔ p x = true ∧ ∃ k, m !! k = Some x.
Proof. rewrite list_elem_of_In, filter_In, <- list_elem_of_In, elem_of_rows. naive_solver. Qed.

Lemma wf_channel_key db k c : HAWellFormed db → channels db !! k = Some c → Channel_ID (channel_of c) = k.
Proof. intros Hwf. apply (hw_channels _ Hwf). Qed.

Lemma wf_insertHAEvent ids e : keeps_db HAWellFormed (insertHAEvent ids e).
Proof.
  unfold insertHAEvent. intros db u db' (? & db1 & H1 & H)%tx_bind_Ok Hwf.
  assert (Hwf1 : HAWellFormed db1) by (by eapply wf_insert_event). apply insert_event_Ok in H1 as (E1 & _).
  apply tx_bind_Ok in H as (? & ? & [-> ->]%tx_get_Ok & H).
  eapply (queue_deliveries_keeps ids _ e _ _ (reflexivity _) _ _ _ H).
  split; [done|]. split; [subst; ha_tables; rewrite lookup_insert_eq; eauto|].
  intros c [_ [k Hk]]%elem_of_filter_rows. exists c. pose proof (wf_channel_key _ _ _ Hwf1 Hk) as E.
  unfold channel_of in E. by rewrite E.
Qed.

(** *** The methods *)

Ltac wf_walk := keeps_walk ltac:(fun _ => first
  [ apply wf_insertHAEvent | apply wf_ha_audited | apply wf_insert_event | apply wf_base ]).

Ltac wf_rest H := lazymatch type of H with
  ?t _ = Ok _ => let Hr := fresh in assert (Hr : keeps_db HAWellFormed t) by wf_walk; apply (Hr _ _ _ H); clear Hr
  end.

Lemma wf_settings v n e : keeps_db HAWellFormed (SaveNodeLifecycleSettings v n e).
Proof.
  intros db u db' (? & ? & [-> ->]%tx_get_Ok & H)%tx_bind_Ok Hwf.
  apply tx_bind_Ok in H as (row & ? & Hrow & H). apply tx_bind_Ok in H as (? & ? & ->%tx_modify_Ok & H). wf_rest H.
  assert (Hr : x = db ∧ Settings_NodeID row = Settings_NodeID v ∧ settings_checks row = true)
    by (ha_inv Hrow; done).
  destruct Hr as (-> & Hid & Hchecks). ha_wf Hwf.
Qed.

Lemma wf_probe ids v t : keeps_db HAWellFormed (SaveDNSProbe ids v t).
Proof.
  intros db u db' (? & ? & [-> ->]%tx_get_Ok & H)%tx_bind_Ok Hwf.
  apply tx_bind_Ok in H as (? & ? & [Hc ->]%tx_check_Ok & H). apply tx_bind_Ok in H as (? & ? & ->%tx_modify_Ok & H).
  apply tx_bind_Ok in H as (? & db1 & Ht & ->%tx_modify_Ok).
  assert (Hwf1 : HAWellFormed db1).
  { assert (Hk : keeps_db HAWellFormed (match t with Some e => insertHAEvent ids e | None => tx_ret tt end)) by (destruct t; wf_walk).
    apply (Hk _ _ _ Ht). ha_wf Hwf. }
  ha_wf Hwf1.
Qed.

Lemma wf_one_open db u : HAWellFormed db → (open_upgrade u && other_open u db) = false →
  unique_on is_open_upgrade Upgrade_NodeID (<[Upgrade_ID u := u]> (upgrades db)).
Proof.
  intros Hwf Ho. apply unique_insert; [|apply Hwf]. intros Hu k x Hk Hx E. unfold is_open_upgrade in *.
  rewrite Hu in Ho. cbn in Ho. unfold other_open in Ho. rewrite exists_row_false in Ho. specialize (Ho _ _ Hk).
  rewrite E, Hx, bool_decide_eq_true_2 in Ho by done. cbn in Ho. rewrite andb_true_r in Ho.
  apply negb_false_iff, bool_decide_eq_true in Ho. apply (hw_upgrades _ Hwf) in Hk. congruence.
Qed.

Lemma wf_create_upgrade ids v a e : keeps_db HAWellFormed (CreateUpgrade ids v a e).
Proof.
  intros db u db' (? & ? & [-> ->]%tx_get_Ok & H)%tx_bind_Ok Hwf.
  apply tx_bind_Ok in H as (? & ? & [Hc ->]%tx_check_Ok & H). apply tx_bind_Ok in H as (? & ? & [Hf ->]%tx_check_Ok & H).
  apply tx_bind_Ok in H as (? & ? & [_ ->]%tx_check_Ok & H). apply tx_bind_Ok in H as (? & ? & ->%tx_modify_Ok & H). wf_rest H.
  apply andb_true_iff in Hf as [_ Hf%negb_true_iff]. pose proof (wf_one_open _ _ Hwf Hf). ha_wf Hwf.
Qed.

Lemma wf_update_upgrade ids v a e : keeps_db HAWellFormed (UpdateUpgrade ids v a e).
Proof.
  intros db u db' (? & ? & [-> ->]%tx_get_Ok & H)%tx_bind_Ok Hwf.
  destruct (upgrades db !! Upgrade_ID v) as [old|] eqn:Hold; [|done]. cbv zeta in H.
  apply tx_bind_Ok in H as (? & ? & [Hc ->]%tx_check_Ok & H). apply tx_bind_Ok in H as (? & ? & ->%tx_modify_Ok & H). wf_rest H.
  apply andb_true_iff in Hc as [Hc Hf%negb_true_iff]. set (row := upgrade_update v old) in *.
  assert (E : Upgrade_ID v = Upgrade_ID row) by (apply (hw_upgrades _ Hwf) in Hold; by rewrite <- Hold).
  rewrite E. pose proof (wf_one_open _ _ Hwf Hf). ha_wf Hwf.
Qed.

Lemma wf_cache v : keeps_db HAWellFormed (SaveReleaseCache v).
Proof. intros db u db' H Hwf. unfold SaveReleaseCache in H. ha_inv H. ha_wf Hwf. Qed.

(** A channel that is written under its key, with a name that is free and at least the rows it replaces. *)
Lemma wf_write_channel db r : HAWellFormed db → channel_checks (channel_of r) = true →
  name_taken (channel_of r) (Channel_ClusterID (channel_of r)) db = false →
  HAWellFormed (set_channels (<[Channel_ID (channel_of r) := r]> (channels db)) db).
Proof.
  intros Hwf Hc Hn.
  assert (Hu : unique_on (λ _, True) channel_name (<[Channel_ID (channel_of r) := r]> (channels db))).
  { apply unique_insert; [|apply Hwf]. intros _ k x Hk _ E. unfold name_taken in Hn. rewrite exists_row_false in Hn.
    specialize (Hn _ _ Hk). unfold channel_name in E. injection E as E1 E2.
    apply (hw_channels _ Hwf) in Hk. cbn in Hk. apply andb_false_iff in Hn as [[Hn|Hn]%andb_false_iff|Hn]; bool_simp; congruence. }
  ha_wf Hwf. eapply refers_weaken; [|eassumption]. intros c. apply is_Some_insert.
Qed.

Lemma wf_save_channel v n a : keeps_db HAWellFormed (SaveNotificationChannel v n a).
Proof.
  intros db u db' (? & ? & [-> ->]%tx_get_Ok & H)%tx_bind_Ok Hwf. cbv zeta in H.
  apply tx_bind_Ok in H as (row & ? & Hrow & H). apply tx_bind_Ok in H as (? & ? & ->%tx_modify_Ok & H). wf_rest H.
  assert (Hr : x = db ∧ ∃ cluster version created, row = channel_row v cluster version created ∧
      channel_checks (channel_of v) = true ∧ name_taken (channel_of v) cluster db = false)
    by (ha_inv Hrow; (split; [done|]); eexists _, _, _; split_and!; [reflexivity|done..]).
  destruct Hr as (-> & cl & ver & cr & -> & Hc & Hn).
  apply (wf_write_channel db (channel_row v cl ver cr)); done.
Qed.

Lemma wf_delete_channel id n a : keeps_db HAWellFormed (DeleteNotificationChannel id n a).
Proof.
  intros db u db' (? & ? & [-> ->]%tx_get_Ok & H)%tx_bind_Ok Hwf.
  destruct (channels db !! id) as [r|] eqn:Hr; [|done]. apply tx_bind_Ok in H as (? & ? & [_ ->]%tx_check_Ok & H).
  apply tx_bind_Ok in H as (? & ? & ->%tx_modify_Ok & H). apply tx_bind_Ok in H as (? & ? & ->%tx_modify_Ok & H). wf_rest H.
  ha_wf Hwf.
  - by apply keyed_update.
  - by apply checked_update.
  - intros i j d1 d2. rewrite !lookup_update_where, !fmap_Some. intros (e1 & Hx & ->) (e2 & Hy & ->).
    unfold has_channel, delivery_key. case_bool_decide; [by intros [? ?]|]. case_bool_decide; [by intros _ [? ?]|].
    intros Px Py E. by eapply (hw_once0 i j).
  - apply refers_update; [done|]. done.
  - intros k d1 r'. rewrite lookup_update_where, fmap_Some. intros (e1 & Hx & ->) Hr'.
    case_bool_decide as E; [by apply not_elem_of_nil in Hr'|].
    assert (Hne : r' ≠ id) by (intros ->; destruct (Row_ChannelID e1); [apply list_elem_of_singleton in Hr'; congruence|by apply not_elem_of_nil in Hr']).
    rewrite lookup_delete_ne by done. by eapply hw_channel_of0.
Qed.

(** *** Deliveries *)

(** A delivery that is written back for the same event and channel. *)
Lemma wf_write_delivery db k d d' : HAWellFormed db → deliveries db !! k = Some d → Row_ID d' = k →
  delivery_key d' = delivery_key d → delivery_checks d' = true → HAWellFormed (set_deliveries (<[k := d']> (deliveries db)) db).
Proof.
  intros Hwf Hd Hid Hkey Hc. injection Hkey as Hch He. ha_wf Hwf.
  - apply unique_insert; [|done]. unfold has_channel, delivery_key. rewrite Hch, He. intros Hs j y Hj Hs' E.
    by apply (hw_once0 j k y d).
  - apply refers_insert; [|done]. rewrite He. intros r Hr. by eapply hw_event_of0.
  - apply refers_insert; [|done]. rewrite Hch. intros r Hr. by eapply hw_channel_of0.
Qed.

Lemma claim_Ok now db d c db' : ClaimNotificationDelivery now db = Ok ((d, c), db') →
  ∃ k row channelID e, deliveries db !! k = Some row ∧ claimable now db row = true ∧
    Row_ChannelID row = Some channelID ∧ channels db !! channelID = Some c ∧ ha_events db !! Row_EventID row = Some e ∧
    d = claimed_delivery channelID row e ∧ db' = set_deliveries (<[Row_ID row := claimed_row row]> (deliveries db)) db.
Proof.
  intros (? & ? & [-> ->]%tx_get_Ok & H)%tx_bind_Ok.
  destruct (sort_Slice _ _) as [|row l] eqn:E; [done|].
  assert (Hrow : row ∈ List.filter (claimable now db) (rows (deliveries db)))
    by (rewrite <- (elem_of_sort_Slice by_due), E; left).
  apply elem_of_filter_rows in Hrow as [Hp [k Hk]].
  destruct (Row_ChannelID row) as [ch|] eqn:Hch; [|done]. destruct (channels db !! ch) as [r|] eqn:Hr; [|done].
  destruct (ha_events db !! Row_EventID row) as [e|] eqn:He; [|done].
  injection H as <- <- <-. by exists k, row, ch, e.
Qed.

Lemma claimed_row_checks d : Row_AttemptCount d < 5 → delivery_checks d = true → delivery_checks (claimed_row d) = true.
Proof.
  intros Hlt H. unfold delivery_checks in *. cbn. repeat (apply andb_true_iff in H as [H ?]).
  rewrite !andb_true_iff. split_and!; try done; lia.
Qed.

Lemma claimable_attempts now db d : claimable now db d = true → Row_AttemptCount d < 5.
Proof. unfold claimable. rewrite !andb_true_iff. intros [[_ ?] _]. lia. Qed.

Lemma wf_claim now : keeps_db HAWellFormed (ClaimNotificationDelivery now).
Proof.
  intros db [d c] db' (k & row & ch & e & Hk & Hp & _ & _ & _ & _ & ->)%claim_Ok Hwf.
  pose proof (hw_deliveries _ Hwf _ _ Hk) as E. rewrite E.
  apply (wf_write_delivery db k row); [done|done|done|done|].
  apply claimed_row_checks; [by eapply claimable_attempts|by eapply (hw_deliveries_checked _ Hwf)].
Qed.

Lemma finish_Ok v db u db' : FinishNotificationDelivery v db = Ok (u, db') →
  (deliveries db !! Delivery_ID v = None ∧ db' = db) ∨
  ∃ d, deliveries db !! Delivery_ID v = Some d ∧ delivery_checks (finished_row v d) = true ∧
    db' = set_deliveries (<[Delivery_ID v := finished_row v d]> (deliveries db)) db.
Proof.
  intros (? & ? & [-> ->]%tx_get_Ok & H)%tx_bind_Ok. destruct (deliveries db !! Delivery_ID v) as [d|] eqn:E.
  - right. exists d. ha_inv H. done.
  - left. ha_inv H. done.
Qed.

Lemma wf_finish v : keeps_db HAWellFormed (FinishNotificationDelivery v).
Proof.
  intros db u db' [[_ ->]|(d & Hd & Hc & ->)]%finish_Ok Hwf; [done|].
  apply (wf_write_delivery db _ d); [done|done| |done|done]. exact (hw_deliveries _ Hwf _ _ Hd).
Qed.

Lemma wf_test e d a : keeps_db HAWellFormed (RecordNotificationTest e d a).
Proof.
  intros db u db' H Hwf. unfold RecordNotificationTest in H. apply tx_bind_Ok in H as (? & db1 & H1 & H).
  assert (Hwf1 : HAWellFormed db1) by (by eapply wf_insert_event). clear H1.
  apply tx_bind_Ok in H as (? & ? & [-> ->]%tx_get_Ok & H).
  destruct (channels db1 !! Delivery_ChannelID d) as [r|] eqn:Hr; [|done]. cbv zeta in H.
  apply tx_bind_Ok in H as (? & ? & [Hc ->]%tx_check_Ok & H). apply tx_bind_Ok in H as (? & ? & ->%tx_modify_Ok & H). wf_rest H.
  apply andb_true_iff in Hc as [[[Hc Hf]%andb_true_iff Hn]%andb_true_iff He].
  apply bool_decide_eq_true in Hf, He. apply negb_true_iff in Hn. rewrite exists_row_false in Hn.
  match type of Hc with delivery_checks ?row = _ => apply (wf_new_delivery db1 row) end; [done..| |].
  - intros c [= <-]. by eexists.
  - intros c k y [= <-] Hk [E1 E2]. specialize (Hn _ _ Hk). cbn in E2.
    rewrite !bool_decide_eq_true_2 in Hn by done. done.
Qed.

Lemma wf_policy v n a : keeps_db HAWellFormed (UpdateNotificationPolicy v n a).
Proof.
  intros db u db' (? & ? & [-> ->]%tx_get_Ok & H)%tx_bind_Ok Hwf.
  apply tx_bind_Ok in H as (? & ? & [_ ->]%tx_check_Ok & H). apply tx_bind_Ok in H as (? & ? & [Hp ->]%tx_check_Ok & H).
  apply tx_bind_Ok in H as (? & ? & ->%tx_modify_Ok & H). wf_rest H.
  assert (Hx : ∀ t, t ∈ Policy_EnabledEventTypes v → t ∈ PolicyEvent_EventType <$> policy_events).
  { intros t Ht. rewrite forallb_forall in Hp. eapply bool_decide_eq_true, Hp. by apply list_elem_of_In. }
  ha_wf Hwf.
Qed.

Lemma delete_events_Ok p db n db' : delete_events p db = Ok (n, db') →
  db' = set_deliveries (delete_where (λ d, bool_decide (Row_EventID d ∈ HAEvent_ID <$> List.filter p (rows (ha_events db)))) (deliveries db))
    (set_ha_events (delete_where p (ha_events db)) db).
Proof. intros H. unfold delete_events in H. by ha_inv H. Qed.

Lemma wf_delete_events p : keeps_db HAWellFormed (delete_events p).
Proof.
  intros db n db' ->%delete_events_Ok Hwf. pose proof (hw_events _ Hwf) as Hkey. ha_wf Hwf.
  intros k d r [Hk Hd]%lookup_delete_where ->%list_elem_of_singleton. apply bool_decide_eq_false in Hd.
  destruct (hw_event_of0 k d (Row_EventID d) Hk) as [e He]; [by left|].
  exists e. apply lookup_delete_where. split; [done|]. apply not_true_iff_false. intros Hp. apply Hd.
  apply list_elem_of_fmap. exists e. split; [symmetry; by apply Hkey|]. apply elem_of_filter_rows. eauto.
Qed.

Lemma wf_ha_op op : keeps_db HAWellFormed (ha_tx op).
Proof.
  destruct op; cbn [ha_tx];
    first [ apply wf_settings | apply wf_probe | apply wf_insertHAEvent | apply wf_create_upgrade | apply wf_update_upgrade
          | apply wf_cache | apply wf_save_channel | apply wf_delete_channel | apply keeps_db_ignoring, wf_claim
          | apply wf_finish | apply wf_test | apply keeps_db_ignoring, wf_policy | apply wf_base | idtac ].
  - unfold RecordHAEventAndAudit. wf_walk.
  - unfold PruneOperationalHistory. keeps_walk ltac:(fun _ => apply wf_delete_events).
  - unfold ClearOperationalHistory. keeps_walk ltac:(fun _ => first [apply wf_delete_events|apply wf_ha_audited]).
Qed.

(** The tables of high availability keep their invariant under every sequence of calls, failed ones included, and
    whatever the other components write in between: a node has at most one open upgrade, a channel at most one delivery
    of an event, no delivery has more than five attempts, the channels of a cluster have distinct names, and every
    delivery belongs to an event that exists. *)
Theorem ha_history_WellFormed ops base types : (∀ x, x ∈ types → x ∈ PolicyEvent_EventType <$> policy_events) →
  HAWellFormed (run_ha ops (mkHADB base ∅ ∅ ∅ ∅ None ∅ ∅ types 1)).
Proof. intros Ht. apply keeps_run_ha; [intros op _; apply wf_ha_op|]. by apply HAWellFormed_empty. Qed.
End invariant.
