(* ===== verification/DeliveryHistory.v ===== *)
(** * What the notifications promise over time

    A delivery is attempted at most five times and never after it succeeded, whatever is
    called in between and however often the worker is stopped; the worker never runs for ever
    without waiting. *)

From S2P Require Import Prelude GoRuntime Json Domain AuditMetadata ControlModel Store StoreRecords.
From S2P Require Import StoreInvariant Effects ControlEffects OperationsModel AuthStore DnsProbe HAModel.
From S2P Require Import HAOperations Notifications HAStore HAInvariant.

(** ** Histories of the worker and of everybody else *)

(** What happens to a delivery: [Delivered] is the success that was recorded. *)
Inductive delivery_event : Type :=
| Queued (id : string)
| Claimed (id : string)
| Delivered (id : string).

(** The single worker holds at most one claimed delivery; the log begins with the last event. *)
Record delivery_world := mkDeliveryWorld {
  world_db : HADB;
  world_held : option NotificationDelivery;
  world_log : list delivery_event
}.

Inductive delivery_step : Type :=
| WorkerClaims (now : Time)
(* the answer of the endpoint, or what prevented one *)
| WorkerFinishes (attempt : deliveryAttempt) (now : Time)
(* the process ends between a claim and its outcome *)
| WorkerStops
| OtherCall (op : ha_op).

Section world.
Context {R : Runtime}.

Definition worker_call (op : ha_op) : bool := match op with OpClaim _ | OpFinish _ => true | _ => false end.

(* src/internal/haoperations/notifications.go:447-452 NotificationService.DeliverNext *)
Definition outcome_of (d : NotificationDelivery) (attempt : deliveryAttempt) (now : Time) : NotificationDelivery :=
  if attempt_success attempt then succeeded_delivery d attempt now else failed_delivery d attempt now.

Definition new_rows (db db' : HADB) : list string :=
  List.filter (λ k, bool_decide (deliveries db !! k = None)) (map_to_list (deliveries db')).*1.

Definition deliver_step (s : delivery_step) (w : delivery_world) : delivery_world :=
  let '(mkDeliveryWorld db held log) := w in
  match s with
  | WorkerClaims now =>
      match held, commit (ClaimNotificationDelivery now) db with
      | None, (Ok (d, _), db') => mkDeliveryWorld db' (Some d) (Claimed (Delivery_ID d) :: log)
      | _, _ => w
      end
  | WorkerFinishes attempt now =>
      match held with
      | Some d =>
          match commit (FinishNotificationDelivery (outcome_of d attempt now)) db with
          | (Ok _, db') => mkDeliveryWorld db' None (if attempt_success attempt then Delivered (Delivery_ID d) :: log else log)
          | (Err _, db') => mkDeliveryWorld db' None log
          end
      | None => w
      end
  | WorkerStops => mkDeliveryWorld db None log
  | OtherCall op =>
      if worker_call op then w
      else let db' := apply_ha op db in mkDeliveryWorld db' held (map Queued (new_rows db db') ++ log)
  end.

Definition run_deliveries (steps : list delivery_step) (w : delivery_world) : delivery_world :=
  foldl (flip deliver_step) w steps.
End world.

(** ** What the log says of a delivery since it was last queued *)

Definition about (id : string) (e : delivery_event) : bool :=
  match e with Queued k | Claimed k | Delivered k => k =?? id end.

Fixpoint attempts (id : string) (log : list delivery_event) : Z :=
  match log with
  | [] => 0
  | e :: log =>
      if about id e then match e with Queued _ => 0 | Claimed _ => 1 + attempts id log | Delivered _ => attempts id log end
      else attempts id log
  end.

Fixpoint delivered (id : string) (log : list delivery_event) : bool :=
  match log with
  | [] => false
  | e :: log =>
      if about id e then match e with Queued _ => false | Delivered _ => true | Claimed _ => delivered id log end
      else delivered id log
  end.

(** No delivery is claimed once it succeeded. *)
Fixpoint well_ordered (log : list delivery_event) : Prop :=
  match log with
  | [] => True
  | e :: log => match e with Claimed id => delivered id log = false | _ => True end ∧ well_ordered log
  end.

Lemma attempts_queued id l log : attempts id (map Queued l ++ log) = if bool_decide (id ∈ l) then 0 else attempts id log.
Proof.
  induction l as [|k l IH]; cbn; [done|]. rewrite IH. repeat case_bool_decide; try done; set_solver.
Qed.

Lemma delivered_queued id l log :
  delivered id (map Queued l ++ log) = if bool_decide (id ∈ l) then false else delivered id log.
Proof.
  induction l as [|k l IH]; cbn; [done|]. rewrite IH. repeat case_bool_decide; try done; set_solver.
Qed.

Lemma well_ordered_queued l log : well_ordered log → well_ordered (map Queued l ++ log).
Proof. induction l; cbn; auto. Qed.

(** ** What the other calls do to the deliveries *)

(** The same progress. *)
Definition same_progress (d d' : DeliveryRow) : Prop :=
  Row_AttemptCount d' = Row_AttemptCount d ∧ Row_Status d' = Row_Status d.

#[global] Instance same_progress_preorder : PreOrder same_progress.
Proof. split; [by intros d|]. intros a b c [? ?] [? ?]. split; congruence. Qed.

(** No row is lost, and no row is added. *)
Definition grown (m m' : gmap string DeliveryRow) : Prop :=
  ∀ k d, m !! k = Some d → ∃ d', m' !! k = Some d' ∧ same_progress d d'.
Definition pruned (m m' : gmap string DeliveryRow) : Prop :=
  ∀ k d', m' !! k = Some d' → ∃ d, m !! k = Some d ∧ same_progress d d'.
(** A row that is there before and after has the same progress. *)
Definition settled (m m' : gmap string DeliveryRow) : Prop :=
  ∀ k d d', m !! k = Some d → m' !! k = Some d' → same_progress d d'.

Lemma grown_refl m : grown m m.
Proof. intros k d Hd. by exists d. Qed.
Lemma pruned_refl m : pruned m m.
Proof. intros k d Hd. by exists d. Qed.

Lemma grown_settled m m' : grown m m' → settled m m'.
Proof. intros H k d d' Hd Hd'. destruct (H k d Hd) as (e & He & ?). congruence. Qed.
Lemma pruned_settled m m' : pruned m m' → settled m m'.
Proof. intros H k d d' Hd Hd'. destruct (H k d' Hd') as (e & He & ?). congruence. Qed.

Lemma grown_insert m m' k d : m' !! k = None → grown m m' → grown m (<[k := d]> m').
Proof.
  intros Hk H i x Hx. destruct (H i x Hx) as (y & Hy & Hs). exists y. split; [|done].
  rewrite lookup_insert_ne; [done|]. congruence.
Qed.

Lemma grown_update m m' q f : (∀ x, same_progress x (f x)) → grown m m' → grown m (update_where q f m').
Proof.
  intros Hf H i x Hx. destruct (H i x Hx) as (y & Hy & Hs). exists (if q y then f y else y). rewrite lookup_update_where, Hy.
  split; [done|]. destruct (q y); [|done]. by etransitivity.
Qed.

Lemma pruned_delete_where m m' q : pruned m m' → pruned m (delete_where q m').
Proof. intros H i x [Hx _]%lookup_delete_where. by apply H. Qed.

Section others.
Context {R : Runtime}.

(** A statement that leaves the deliveries alone. *)
Ltac alone := first
  [ let b := fresh in intros ? ? ? [b ->]%ha_audited_Ok; done
  | intros ? ? ? (-> & _)%insert_event_Ok; done
  | intros ? ? ? ->%tx_modify_Ok; done ].

Lemma grown_queue m ids p e c : keeps_db (λ db, grown m (deliveries db)) (queue_delivery ids p e c).
Proof.
  intros db u db' (status & queued & _ & [[-> _]|(id & -> & Hf & _)])%queue_delivery_Ok H; [done|].
  ha_tables. by apply grown_insert.
Qed.

Lemma grown_queues m ids p e l : keeps_db (λ db, grown m (deliveries db)) (queue_deliveries ids p e l).
Proof.
  induction l as [|c l IH]; cbn [queue_deliveries]; [apply keeps_db_ret|].
  apply keeps_db_bind; [apply grown_queue|]. by intros _.
Qed.

Ltac grown_walk := keeps_walk ltac:(fun _ => first
  [ apply grown_queues | apply (keeps_untouched deliveries); alone ]).

Lemma grown_insertHAEvent m ids e : keeps_db (λ db, grown m (deliveries db)) (insertHAEvent ids e).
Proof. unfold insertHAEvent. grown_walk. Qed.

Ltac grown_walk ::= keeps_walk ltac:(fun _ => first
  [ apply grown_insertHAEvent | apply (keeps_untouched deliveries); alone ]).

Lemma grown_delete_channel m id n a : keeps_db (λ db, grown m (deliveries db)) (DeleteNotificationChannel id n a).
Proof.
  unfold DeleteNotificationChannel. grown_walk. intros db1 u db' ->%tx_modify_Ok H. ha_tables. by apply grown_update.
Qed.

Lemma grown_test m e d a : keeps_db (λ db, grown m (deliveries db)) (RecordNotificationTest e d a).
Proof.
  unfold RecordNotificationTest. apply keeps_db_bind; [grown_walk|]. intros _.
  intros db u db' (? & ? & [-> ->]%tx_get_Ok & H)%tx_bind_Ok Hg.
  destruct (channels db !! Delivery_ChannelID d) as [r|]; [|done]. cbv zeta in H.
  apply tx_bind_Ok in H as (? & ? & [Hc ->]%tx_check_Ok & H). apply tx_bind_Ok in H as (? & ? & ->%tx_modify_Ok & H).
  apply ha_audited_Ok in H as [b ->]. ha_tables. apply grown_insert; [|done]. by bool_simp.
Qed.

Lemma pruned_delete_events m p : keeps_db (λ db, pruned m (deliveries db)) (delete_events p).
Proof. intros db n db' ->%delete_events_Ok H. ha_tables. by apply pruned_delete_where. Qed.

Lemma other_settled op db : worker_call op = false → settled (deliveries db) (deliveries (apply_ha op db)).
Proof.
  intros Hop. unfold apply_ha, commit. destruct (ha_tx op db) as [[u db']|] eqn:E; [|by apply grown_settled, grown_refl].
  set (m := deliveries db).
  assert (H : keeps_db (λ db, grown m (deliveries db)) (ha_tx op) ∨ keeps_db (λ db, pruned m (deliveries db)) (ha_tx op)).
  { destruct op; try done; cbn [ha_tx];
      try (left; first [ apply grown_insertHAEvent | apply grown_delete_channel | apply grown_test ]; fail);
      try (right; unfold PruneOperationalHistory, ClearOperationalHistory;
        keeps_walk ltac:(fun _ => first [ apply pruned_delete_events | apply (keeps_untouched deliveries (λ t, pruned m t)); alone ]); fail);
      left; unfold SaveNodeLifecycleSettings, SaveDNSProbe, RecordHAEventAndAudit, CreateUpgrade, UpdateUpgrade, SaveReleaseCache,
        SaveNotificationChannel, UpdateNotificationPolicy; grown_walk. }
  destruct H as [H|H].
  - apply grown_settled. apply (H _ _ _ E), grown_refl.
  - apply pruned_settled. apply (H _ _ _ E), pruned_refl.
Qed.
End others.

(** ** The invariant of a history *)

Section invariant.
Context {R : Runtime} {C : Collation}.

Record DeliveryInvariant (w : delivery_world) : Prop := {
  di_tables : HAWellFormed (world_db w);
  di_bounded id : attempts id (world_log w) <= 5;
  di_counted k d : deliveries (world_db w) !! k = Some d → attempts k (world_log w) <= Row_AttemptCount d;
  di_done k d : deliveries (world_db w) !! k = Some d → delivered k (world_log w) = true → Row_Status d = "succeeded";
  di_held d : world_held w = Some d → 0 <= Delivery_AttemptCount d ∧
    attempts (Delivery_ID d) (world_log w) <= Delivery_AttemptCount d ∧ delivered (Delivery_ID d) (world_log w) = false;
  di_ordered : well_ordered (world_log w)
}.

Lemma outcome_same d a now : Delivery_ID (outcome_of d a now) = Delivery_ID d ∧
  Delivery_AttemptCount (outcome_of d a now) = Delivery_AttemptCount d.
Proof. unfold outcome_of, failed_delivery. destruct (attempt_success a); [done|]. by destruct (5 <=? _). Qed.

Lemma outcome_succeeded d a now : attempt_success a = true → Delivery_Status (outcome_of d a now) = "succeeded".
Proof. unfold outcome_of. by intros ->. Qed.

(** What the log says of a delivery after one more event. *)
Lemma attempts_cons id e log : attempts id (e :: log) =
  if about id e then match e with Queued _ => 0 | Claimed _ => 1 + attempts id log | Delivered _ => attempts id log end
  else attempts id log.
Proof. done. Qed.

Lemma new_rows_spec db db' k : k ∈ new_rows db db' ↔ deliveries db !! k = None ∧ is_Some (deliveries db' !! k).
Proof.
  unfold new_rows. rewrite list_elem_of_In, filter_In, <- list_elem_of_In, list_elem_of_fmap, bool_decide_eq_true.
  split.
  - intros [([j d] & -> & Hd%elem_of_map_to_list) Hn]. cbn in *. eauto.
  - intros [Hn [d Hd]]. split; [|done]. exists (k, d). split; [done|]. by apply elem_of_map_to_list.
Qed.

Lemma claim_step db log now d c db' : DeliveryInvariant (mkDeliveryWorld db None log) →
  ClaimNotificationDelivery now db = Ok ((d, c), db') →
  DeliveryInvariant (mkDeliveryWorld db' (Some d) (Claimed (Delivery_ID d) :: log)).
Proof.
  intros Hi H. assert (Hwf' : HAWellFormed db') by (eapply wf_claim; [exact H|apply Hi]).
  apply claim_Ok in H as (k & row & ch & e & Hk & Hp & _ & _ & _ & -> & ->).
  pose proof (hw_deliveries _ (di_tables _ Hi) _ _ Hk) as E. pose proof (claimable_attempts _ _ _ Hp) as H5.
  pose proof (di_counted _ Hi _ _ Hk) as Hcount. cbn in Hcount.
  assert (Hd : delivered k log = false).
  { apply not_true_iff_false. intros Hd. apply (di_done _ Hi _ _ Hk) in Hd.
    unfold claimable in Hp. rewrite !andb_true_iff in Hp. destruct Hp as [[[_ Hs] _] _].
    rewrite Hd in Hs. by apply bool_decide_eq_true in Hs; set_solver. }
  split; cbn [world_db world_held world_log]; [done|..].
  - intros id. cbn. case_bool_decide as Eid; [|apply Hi]. rewrite E in Eid. subst id. cbn. lia.
  - ha_tables. intros j x Hj. cbn. rewrite E in *. case_bool_decide as Ej.
    + subst j. rewrite lookup_insert_eq in Hj. injection Hj as <-. cbn. lia.
    + rewrite lookup_insert_ne in Hj by done. by apply (di_counted _ Hi).
  - ha_tables. intros j x Hj. cbn. rewrite E in *. case_bool_decide as Ej.
    + subst j. by rewrite Hd.
    + rewrite lookup_insert_ne in Hj by done. by apply (di_done _ Hi).
  - intros x [= <-]. cbn. rewrite E, bool_decide_eq_true_2 by done. apply (hw_deliveries_checked _ (di_tables _ Hi)) in Hk.
    unfold delivery_checks in Hk. bool_simp. split_and!; [lia..|done].
  - cbn. rewrite E. split; [done|]. apply Hi.
Qed.

Lemma worker_rests db held log : DeliveryInvariant (mkDeliveryWorld db held log) → DeliveryInvariant (mkDeliveryWorld db None log).
Proof. intros Hi. destruct Hi. by split. Qed.

Lemma delivered_outcome b id d log :
  delivered id (if b : bool then Delivered d :: log else log) = if b && bool_decide (d = id) then true else delivered id log.
Proof. by destruct b. Qed.

Lemma attempts_outcome b id d log : attempts id (if b : bool then Delivered d :: log else log) = attempts id log.
Proof. destruct b; [cbn; by case_bool_decide|done]. Qed.

Lemma finish_step db log d a now : DeliveryInvariant (mkDeliveryWorld db (Some d) log) →
  DeliveryInvariant (deliver_step (WorkerFinishes a now) (mkDeliveryWorld db (Some d) log)).
Proof.
  intros Hi. cbn [deliver_step]. set (v := outcome_of d a now). destruct (outcome_same d a now) as [Hid Hn]. fold v in Hid, Hn.
  destruct (di_held _ Hi d eq_refl) as (_ & Hc & Hnot). cbn in Hc, Hnot.
  unfold commit. destruct (FinishNotificationDelivery v db) as [[u db']|] eqn:E; [|by eapply worker_rests].
  assert (Hwf : HAWellFormed db') by (eapply wf_finish; [exact E|apply Hi]).
  assert (Hrow : ∀ k x, deliveries db' !! k = Some x → deliveries db !! k = Some x ∧ k ≠ Delivery_ID d ∨
      k = Delivery_ID d ∧ Row_AttemptCount x = Delivery_AttemptCount d ∧ Row_Status x = Delivery_Status v).
  { intros k x Hx. apply finish_Ok in E as [[Hnone ->]|(y & Hy & _ & ->)].
    - left. split; [done|]. congruence.
    - ha_tables. rewrite Hid in Hx. apply lookup_insert_Some in Hx as [[<- <-]|[? ?]]; [right; by cbn|by left]. }
  split; cbn [world_db world_held world_log]; [done| | | |done|].
  - intros id. rewrite attempts_outcome. apply Hi.
  - intros k x Hx. rewrite attempts_outcome. apply Hrow in Hx as [[Hx _]|(-> & -> & _)]; [by apply (di_counted _ Hi)|done].
  - intros k x Hx. rewrite delivered_outcome. apply Hrow in Hx as [[Hx Hne]|(-> & _ & ->)].
    + rewrite (bool_decide_eq_false_2 (_ = k)) by congruence. rewrite andb_false_r. by apply (di_done _ Hi).
    + rewrite Hnot. destruct (attempt_success a) eqn:Ha; [|done]. intros _. by apply outcome_succeeded.
  - destruct (attempt_success a); cbn; repeat split; apply Hi.
Qed.

Lemma other_step db held log op : worker_call op = false → DeliveryInvariant (mkDeliveryWorld db held log) →
  DeliveryInvariant (deliver_step (OtherCall op) (mkDeliveryWorld db held log)).
Proof.
  intros Hop Hi. cbn [deliver_step]. rewrite Hop. pose proof (other_settled op db Hop) as Hs.
  assert (Hwf : HAWellFormed (apply_ha op db)) by (apply (keeps_run_ha _ [op]); [intros o _; apply wf_ha_op|apply Hi]).
  set (db' := apply_ha op db) in *. cbv zeta.
  split; cbn [world_db world_held world_log]; [done|..].
  - intros id. rewrite attempts_queued. case_bool_decide; [lia|apply Hi].
  - intros k x Hx. rewrite attempts_queued. case_bool_decide as Hk.
    + apply (hw_deliveries_checked _ Hwf) in Hx. unfold delivery_checks in Hx. bool_simp. lia.
    + destruct (deliveries db !! k) as [y|] eqn:Hy; [|destruct Hk; by apply new_rows_spec].
      destruct (Hs k y x Hy Hx) as [-> _]. by apply (di_counted _ Hi).
  - intros k x Hx. rewrite delivered_queued. case_bool_decide as Hk; [done|].
    destruct (deliveries db !! k) as [y|] eqn:Hy; [|destruct Hk; by apply new_rows_spec].
    destruct (Hs k y x Hy Hx) as [_ ->]. by apply (di_done _ Hi).
  - intros d Hd. rewrite attempts_queued, delivered_queued. destruct (di_held _ Hi d Hd) as (H0 & Hc & Hnot).
    by case_bool_decide.
  - by apply well_ordered_queued, Hi.
Qed.

Lemma step_invariant s w : DeliveryInvariant w → DeliveryInvariant (deliver_step s w).
Proof.
  destruct w as [db held log]. intros Hi. destruct s as [now|a now| |op].
  - cbn [deliver_step]. destruct held; [done|]. unfold commit.
    destruct (ClaimNotificationDelivery now db) as [[[d c] db']|] eqn:E; [|done]. by eapply claim_step.
  - destruct held; [by apply finish_step|done].
  - by eapply worker_rests.
  - destruct (worker_call op) eqn:Hop; [cbn [deliver_step]; by rewrite Hop|by apply other_step].
Qed.

(** C26: However the worker and the other callers of the store interleave, and however often the worker is stopped between
    a claim and its outcome, a delivery is claimed at most five times since it was queued, and never again once its
    success was recorded. *)
Theorem deliveries_bounded steps db : HAWellFormed db →
  let w := run_deliveries steps (mkDeliveryWorld db None []) in
  (∀ id, attempts id (world_log w) <= 5) ∧ well_ordered (world_log w) ∧ HAWellFormed (world_db w).
Proof.
  intros Hwf. cbv zeta.
  assert (H : ∀ w, DeliveryInvariant w → DeliveryInvariant (run_deliveries steps w)).
  { unfold run_deliveries. induction steps as [|s steps IH]; intros w Hw; [done|]. by apply IH, step_invariant. }
  destruct (H (mkDeliveryWorld db None [])); [|done].
  split; cbn; [done|lia| |done..]. intros k d Hd. apply (hw_deliveries_checked _ Hwf) in Hd.
  unfold delivery_checks in Hd. bool_simp. lia.
Qed.
End invariant.
