(* ===== verification/NotificationSpec.v ===== *)
(** * What the delivery of notifications promises

    The delivery that is claimed is the first that is due; an event is queued once for every
    channel that subscribes to it, suppressed where the policy says so; a delivery is posted
    at most once per claim, to the destination of its channel, and its outcome is recorded. *)

From S2P Require Import Prelude GoRuntime Json Domain ControlModel Store StoreInvariant Effects ControlEffects.
From S2P Require Import OperationsModel AuthStore DnsProbe HAModel HAOperations Notifications HAStore.
From S2P Require Import HAInvariant DeliveryHistory.

(** ** The claim *)

Section claim.
Context {R : Runtime}.

Lemma claimable_joined now db d : claimable now db d = true → ∃ channelID r e,
  Row_ChannelID d = Some channelID ∧ channels db !! channelID = Some r ∧ Channel_Enabled (channel_of r) = true ∧
  ha_events db !! Row_EventID d = Some e ∧ due_at d <= now.
Proof.
  unfold claimable. rewrite !andb_true_iff. intros [[[[H1 [e He]%bool_decide_eq_true] _] _] Hdue].
  destruct (Row_ChannelID d) as [ch|]; [|done]. destruct (channels db !! ch) as [r|] eqn:Hr; [|done].
  exists ch, r, e. split_and!; try done. lia.
Qed.

(** A claim takes the delivery that is due first among those that may be attempted - its channel exists and is enabled,
    it is pending or failed, it has attempts left and its time has come - and counts the attempt; when it finds none, none
    may be attempted, and nothing changes. *)
Theorem claim_takes_first_due now db :
  match commit (ClaimNotificationDelivery now) db with
  | (Ok (d, c), db') => ∃ k row channelID, deliveries db !! k = Some row ∧ claimable now db row = true ∧
      channels db !! channelID = Some c ∧ Channel_Enabled (channel_of c) = true ∧
      Delivery_ID d = Row_ID row ∧ Delivery_ChannelID d = channelID ∧ Delivery_AttemptCount d = Row_AttemptCount row + 1 ∧
      db' = set_deliveries (<[Row_ID row := claimed_row row]> (deliveries db)) db ∧
      ∀ i other, deliveries db !! i = Some other → claimable now db other = true → due_at row <= due_at other
  | (Err e, db') => e = not_found "notification delivery" ∧ db' = db ∧
      ∀ i other, deliveries db !! i = Some other → claimable now db other = false
  end.
Proof.
  unfold commit, ClaimNotificationDelivery, tx_bind, tx_get.
  assert (Hin : ∀ x, x ∈ sort_Slice by_due (List.filter (claimable now db) (rows (deliveries db))) ↔
    claimable now db x = true ∧ ∃ k, deliveries db !! k = Some x)
    by (intros x; by rewrite elem_of_sort_Slice, elem_of_filter_rows).
  pose proof (sort_Slice_sorted by_due (List.filter (claimable now db) (rows (deliveries db)))) as Hs.
  destruct (sort_Slice _ _) as [|row l]; cbn.
  - split_and!; [done..|]. intros i other Hi. apply not_true_iff_false. intros Hp.
    apply (not_elem_of_nil other), Hin. eauto.
  - destruct (proj1 (Hin row)) as [Hp [k Hk]]; [by left|]. destruct (claimable_joined _ _ _ Hp) as (ch & r & e & Hch & Hr & He & Hev & _).
    rewrite Hch, Hr, Hev. cbn. exists k, row, ch. split_and!; try done.
    intros i other Hi Ho. assert (Hother : other ∈ row :: l) by (apply Hin; eauto).
    apply elem_of_cons in Hother as [->|Hother]; [lia|]. inversion Hs as [|?? _ Hf]; subst.
    rewrite Forall_forall in Hf. specialize (Hf other Hother). unfold not_greater, by_due, earlier in Hf.
    apply orb_false_iff in Hf as [Hf _]. lia.
Qed.

(** ** The queue *)

(** Whether an event is to be delivered: the policy enables its type, and it is not the failure of a node in maintenance. *)
Definition node_in_maintenance (e : HAEvent) (db : HADB) : bool :=
  match HAEvent_NodeID e with
  | Some id => match nodes (ha_base db) !! id with Some row => Node_MaintenanceMode (Record_Node (Row_Record row)) | None => false end
  | None => false
  end.

Definition notified (e : HAEvent) (db : HADB) : bool :=
  bool_decide (HAEvent_EventType e ∈ enabled_event_types db) &&
  negb ((HAEvent_EventType e =?? "dns.failed") && node_in_maintenance e db).

(** The delivery of an event to a channel as it is queued. *)
Definition queued_as (e : HAEvent) (notify : bool) (c : NotificationChannelRecord) (id : string) : DeliveryRow :=
  queued_row id (Channel_ID (channel_of c)) (Channel_Name (channel_of c)) e (if notify then "pending" else "suppressed") notify.

Lemma disposition_notified e db status queued :
  disposition (bool_decide (HAEvent_EventType e ∈ enabled_event_types db)) e db status queued →
  status = (if notified e db then "pending" else "suppressed") ∧ queued = notified e db.
Proof.
  intros (m & Hm & H). unfold notified, node_in_maintenance, event_maintenance, notificationDeliveryDisposition in *.
  destruct (bool_decide (_ ∈ enabled_event_types db)) eqn:Hp; [|by injection H as <- <-]. cbn in *.
  destruct (HAEvent_EventType e =?? "dns.failed") eqn:Ht; cbn in *; [|by injection H as <- <-].
  destruct (HAEvent_NodeID e) as [id|]; [|injection Hm as <-; by injection H as <- <-].
  destruct (nodes (ha_base db) !! id) as [row|]; [|done]. injection Hm as <-.
  destruct (Node_MaintenanceMode _); by injection H as <- <-.
Qed.

Lemma queue_deliveries_Ok ids e l : ∀ db u db',
  queue_deliveries ids (bool_decide (HAEvent_EventType e ∈ enabled_event_types db)) e l db = Ok (u, db') →
  ∃ m, db' = set_deliveries m db ∧ deliveries db ⊆ m ∧
    (∀ k d, m !! k = Some d → deliveries db !! k = Some d ∨ ∃ c, c ∈ l ∧ d = queued_as e (notified e db) c k) ∧
    (∀ c, c ∈ l → ∃ k d, m !! k = Some d ∧ delivers (Channel_ID (channel_of c)) (HAEvent_ID e) d).
Proof.
  induction l as [|c l IH]; intros db u db' H; cbn [queue_deliveries] in H.
  { apply tx_ret_Ok in H as [_ ->]. exists (deliveries db). split_and!; [by destruct db|done|by left|].
    intros c Hc. by apply not_elem_of_nil in Hc. }
  apply tx_bind_Ok in H as (? & db1 & H1 & H).
  assert (Hstep : ∃ m1, db1 = set_deliveries m1 db ∧ deliveries db ⊆ m1 ∧
    (∀ k d, m1 !! k = Some d → deliveries db !! k = Some d ∨ d = queued_as e (notified e db) c k) ∧
    (∃ k d, m1 !! k = Some d ∧ delivers (Channel_ID (channel_of c)) (HAEvent_ID e) d)).
  { apply queue_delivery_Ok in H1 as (status & queued & [-> ->]%disposition_notified & [[-> (k & d & Hd & Hv)]|(id & -> & Hf & _)]).
    - exists (deliveries db). split_and!; [by destruct db|done|by left|by exists k, d].
    - eexists. split_and!; [reflexivity|by apply insert_subseteq| |].
      + intros k d [[<- <-]|[_ ?]]%lookup_insert_Some; [by right|by left].
      + eexists id, _. split; [apply lookup_insert_eq|done]. }
  destruct Hstep as (m1 & -> & Hsub & Hnew & k1 & d1 & Hd1 & Hv1).
  specialize (IH (set_deliveries m1 db) u db' H) as (m & -> & Hsub2 & Hnew2 & Hall). ha_tables.
  exists m. split_and!; [done|by etransitivity| |].
  - intros k d [Hd|(c' & Hc' & ->)]%Hnew2.
    + apply Hnew in Hd as [Hd| ->]; [by left|]. right. exists c. split; [by left|done].
    + right. exists c'. split; [by right|done].
  - intros c' [->|Hc']%elem_of_cons; [|by apply Hall]. exists k1, d1. split; [|done]. by eapply lookup_weaken.
Qed.

(** C27: When an event is recorded, every enabled channel of its cluster that subscribes to its category gets exactly one
    delivery of it, pending and due at once - or suppressed, when the policy disables the type of the event or when it is
    the failure of a node in maintenance - and no other channel gets any; earlier deliveries stay as they are. *)
Theorem event_is_queued ids e db db' : HAWellFormed db → commit (RecordHAEvent ids e) db = (Ok tt, db') →
  deliveries db ⊆ deliveries db' ∧ ∀ k c, channels db !! k = Some c →
    if subscribed (HAEvent_ClusterID e) (NotificationCategoryForEvent (HAEvent_EventType e)) c
    then ∃ id, deliveries db' !! id = Some (queued_as e (notified e db) c id) ∧
      ∀ i d, deliveries db' !! i = Some d → delivers k (HAEvent_ID e) d → i = id
    else ∀ i d, deliveries db' !! i = Some d → ¬ delivers k (HAEvent_ID e) d.
Proof.
  unfold commit. destruct (RecordHAEvent ids e db) as [[[] db2]|] eqn:H; [|done]. intros Hwf [= <-].
  assert (Hwf' : HAWellFormed db2) by (by eapply wf_insertHAEvent).
  unfold RecordHAEvent, insertHAEvent in H. apply tx_bind_Ok in H as (? & ? & (-> & _ & Hfresh & _)%insert_event_Ok & H).
  apply tx_bind_Ok in H as (? & ? & [-> ->]%tx_get_Ok & H). cbv zeta in H.
  apply queue_deliveries_Ok in H as (m & -> & Hsub & Hnew & Hall). ha_tables. split; [done|]. intros k c Hc.
  assert (Hkey : ∀ i x, channels db !! i = Some x → Channel_ID (channel_of x) = i) by (intros i y; apply (hw_channels _ Hwf)).
  assert (Hnone : ∀ i d, deliveries db !! i = Some d → Row_EventID d ≠ HAEvent_ID e).
  { intros i d Hd E. destruct (hw_event_of _ Hwf i d (Row_EventID d) Hd) as [y Hy]; [by left|]. congruence. }
  assert (Hof : ∀ i d, m !! i = Some d → delivers k (HAEvent_ID e) d →
    subscribed (HAEvent_ClusterID e) (NotificationCategoryForEvent (HAEvent_EventType e)) c = true ∧
    d = queued_as e (notified e db) c i).
  { intros i d Hd [Hch He]. apply Hnew in Hd as [Hd|(c' & Hc' & ->)]; [by apply Hnone in Hd|].
    apply elem_of_filter_rows in Hc' as [Hs [j Hj]]. injection Hch as Hch. rewrite (Hkey _ _ Hj) in Hch. subst j. by simplify_eq. }
  destruct (subscribed _ _ c) eqn:Hs; [|intros i d Hd Hv; by destruct (Hof i d Hd Hv)].
  destruct (Hall c) as (id & d & Hd & Hv); [apply elem_of_filter_rows; eauto|].
  rewrite (Hkey _ _ Hc) in Hv. destruct (Hof _ _ Hd Hv) as [_ E]. exists id. split; [by rewrite <- E|].
  intros i d' Hd' Hv'. destruct Hv as [Hv1 Hv2], Hv' as [Hv1' Hv2'].
  apply (hw_once _ Hwf' i id d' d Hd' Hd); [by eexists|by eexists|]. unfold delivery_key. congruence.
Qed.
End claim.

(** ** The delivery *)

Inductive notify_fact : Type :=
| NNow (t : Time)
| NClaimed (r : res (NotificationDelivery * NotificationChannelRecord))
| NDecrypted (scope : string) (payload : EncryptedPayload) (r : res string)
| NPosted (destination : string) (body : json) (answer : post_answer)
| NFinished (d : NotificationDelivery) (r : res unit).

Definition notify_view (ev : event notifyctl) : option notify_fact :=
  match ev with
  | Event e x =>
      match e in notifyctl X return X → option notify_fact with
      | NBase e => match e in ctl X return X → option notify_fact with Now => λ t, Some (NNow t) | _ => λ _, None end
      | N_Claim _ => λ r, Some (NClaimed r)
      | N_Decrypt scope payload => λ r, Some (NDecrypted scope payload r)
      | N_Post destination body => λ r, Some (NPosted destination body r)
      | N_Finish d => λ r, Some (NFinished d r)
      | _ => λ _, None
      end x
  end.

Abbreviation notify_facts := (with_facts notify_view).

Ltac notify_step :=
  first
  [ facts_step ltac:(fun _ => cbn [notify_view option_list option_rect])
  | lazymatch goal with
    | |- with_facts _ (nbase _) _ => unfold nbase; apply facts_call; intros ?; cbn [notify_view option_list option_rect]
    end ].

(** The requests of a run. *)
Definition posts (f : list notify_fact) : list (string * json * post_answer) :=
  omap (λ x, match x with NPosted destination body answer => Some (destination, body, answer) | _ => None end) f.
Definition finishes (f : list notify_fact) : list (NotificationDelivery * res unit) :=
  omap (λ x, match x with NFinished d r => Some (d, r) | _ => None end) f.

(** The endpoint accepted the request. *)
Definition accepted (answer : post_answer) : Prop := ∃ status, answer = PostAnswered status ∧ 200 <= status < 300.

Section delivery.
Context {R : Runtime} (time_json : Time → json).

Lemma attempt_success_accepted answer : attempt_success (attempt_of answer) = true ↔ accepted answer.
Proof.
  unfold accepted. split.
  - destruct answer as [|e|status]; cbn; [done| |].
    + unfold classifyDeliveryError. by repeat case_match.
    + destruct ((status <? 200) || (300 <=? status)) eqn:E; [done|]. intros _. exists status. apply orb_false_iff in E. split; [done|lia].
  - intros (status & -> & H). cbn. destruct ((status <? 200) || (300 <=? status)) eqn:E; [|done]. apply orb_true_iff in E. lia.
Qed.

Lemma retry_wait_exact n : 0 <= n < 5 → retry_wait n = 2 ^ n * minute.
Proof.
  intros H. unfold retry_wait, min. destruct (Z.ltb_spec n 5); [|lia]. rewrite Z.shiftl_1_l.
  assert (n = 0 ∨ n = 1 ∨ n = 2 ∨ n = 3 ∨ n = 4) as Hn by lia.
  repeat destruct Hn as [->|Hn]; try subst n; reflexivity.
Qed.

(** What a claimed delivery becomes: succeeded; failed for good after the fifth attempt; or failed until a time. *)
Definition recorded (d d' : NotificationDelivery) (now : Time) (success : bool) : Prop :=
  Delivery_ID d' = Delivery_ID d ∧ Delivery_AttemptCount d' = Delivery_AttemptCount d ∧
  if success then Delivery_Status d' = "succeeded" ∧ Delivery_CompletedAt d' = Some now ∧ Delivery_NextAttemptAt d' = None
  else Delivery_Status d' = "failed" ∧
    if 5 <=? Delivery_AttemptCount d then Delivery_CompletedAt d' = Some now ∧ Delivery_NextAttemptAt d' = None
    else Delivery_CompletedAt d' = Delivery_CompletedAt d ∧
      (0 <= Delivery_AttemptCount d → Delivery_NextAttemptAt d' = Some (now + 2 ^ Delivery_AttemptCount d * minute)).

Lemma outcome_recorded d a now : recorded d (outcome_of d a now) now (attempt_success a).
Proof.
  unfold recorded, outcome_of, failed_delivery. destruct (attempt_success a); cbn; [done|].
  destruct (5 <=? Delivery_AttemptCount d) eqn:E; cbn; [done|]. split_and!; try done. intros H.
  rewrite retry_wait_exact; [done|lia].
Qed.

Lemma attempt_facts id payload body : notify_facts (attempt_delivery id payload body) (λ f a,
  (∃ e, f = [NDecrypted (scope id) payload (Err e)] ∧ attempt_success a = false) ∨
  (∃ destination answer, f = [NDecrypted (scope id) payload (Ok destination); NPosted destination body answer] ∧
    a = attempt_of answer)).
Proof. unfold attempt_delivery. repeat notify_step; [right|left]; eauto 10. Qed.

Lemma DeliverNext_outcome : ∀ d a, notify_facts
  (if attempt_success a then do now <- nbase Now; call (N_Finish (succeeded_delivery d a now)) else failDelivery d a)
  (λ f r, ∃ now, f = [NNow now; NFinished (outcome_of d a now) r]).
Proof.
  intros d a. unfold outcome_of. destruct (attempt_success a); [|unfold failDelivery]; repeat notify_step; eexists; done.
Qed.

(** C28: A turn of the worker makes at most one request.  When a delivery is claimed it is posted, as its event, to the
    destination of its channel and nowhere else, and its outcome is recorded once: it succeeded exactly when the endpoint
    answered with a status from 200 to 299, and otherwise it failed, for good at the fifth attempt, or until 2, 4, 8 or 16
    minutes later.  When none is claimed nothing is posted and nothing recorded. *)
Theorem DeliverNext_once : notify_facts (DeliverNext time_json) (λ f r,
  (length (posts f) <= 1)%nat ∧
  match r with
  | (true, result) => ∃ d c d' now, NClaimed (Ok (d, c)) ∈ f ∧ finishes f = [(d', result)] ∧ NNow now ∈ f ∧
      (∀ destination body answer, (destination, body, answer) ∈ posts f → body = delivery_body time_json d ∧
        NDecrypted (scope (Channel_ID (ChannelRecord_Channel c))) (ChannelRecord_Destination c) (Ok destination) ∈ f) ∧
      ∃ success, recorded d d' now success ∧
        (success = true ↔ ∃ destination answer, (destination, delivery_body time_json d, answer) ∈ posts f ∧ accepted answer)
  | (false, result) => posts f = [] ∧ finishes f = [] ∧ ∃ e, NClaimed (Err e) ∈ f ∧
      result = (if is_not_found e then Ok tt else Err e)
  end).
Proof.
  unfold DeliverNext. notify_step. notify_step. notify_step. notify_step. notify_step.
  - destruct a as [d c]. notify_step. eapply facts_mono; [apply attempt_facts|]. intros g a Hg.
    notify_step. eapply facts_mono; [apply DeliverNext_outcome|]. intros h r (now & ->). notify_step.
    assert (Hsuccess : ∀ b, attempt_success a = b → recorded d (outcome_of d a now) now b)
      by (intros b <-; apply outcome_recorded).
    destruct Hg as [(e & -> & Ha)|(destination & answer & -> & ->)]; cbn.
    + split; [lia|]. eexists d, c, _, now. split_and!; [set_solver|reflexivity|set_solver| |].
      * intros ? ? ? H. by apply not_elem_of_nil in H.
      * exists false. split; [by apply Hsuccess|]. split; [done|]. intros (? & ? & H & _). by apply not_elem_of_nil in H.
    + split; [lia|]. eexists d, c, _, now. split_and!; [set_solver|reflexivity|set_solver| |].
      * intros ? ? ? H. apply list_elem_of_singleton in H. injection H as -> -> ->. split; [done|set_solver].
      * eexists. split; [by apply Hsuccess|]. rewrite attempt_success_accepted. split.
        -- intros Ha. exists destination, answer. split; [by left|done].
        -- intros (? & ? & H & Ha). apply list_elem_of_singleton in H. by injection H as -> ->.
  - notify_step. cbn. split; [lia|]. split_and!; [done..|]. eexists. split; [right; left|done].
Qed.
End delivery.
