(* ===== verification/HAHistory.v ===== *)
(** * internal/haoperations: the pages of the operational history

    Events and deliveries of a cluster, newest first, in pages that continue at a cursor:
    the query of database/ha_operations.go, the cursor and the method of service.go. *)

From S2P Require Import Prelude GoRuntime Json Domain ControlModel Store StoreRecords StoreInvariant Effects.
From S2P Require Import ControlEffects Wire Password AuthStore DnsProbe HAModel HAOperations Notifications.
From S2P Require Import HAStore HAInvariant.

(** ** The query *)

Section query.

(* src/internal/database/ha_operations.go:286-290 Store.ListHAHistory *)
Definition event_item (e : HAEvent) : HistoryItem :=
  mkHistoryItem (HAEvent_ID e) "event" (HAEvent_ClusterID e) (HAEvent_NodeID e) (HAEvent_EventType e) (HAEvent_Severity e)
    (HAEvent_Summary e) (HAEvent_Details e) (HAEvent_OccurredAt e) None.

(** A failure that is not final is shown as pending. *)
(* src/internal/database/ha_operations.go:294-296 Store.ListHAHistory *)
Definition shown_status (d : DeliveryRow) : string :=
  if Row_Status d =?? "succeeded" then "delivered"
  else if (Row_Status d =?? "failed") && bool_decide (Row_CompletedAt d = None) then "pending"
  else Row_Status d.

(* src/internal/database/ha_operations.go:292-297 Store.ListHAHistory *)
Definition delivery_item (d : DeliveryRow) (e : HAEvent) : HistoryItem :=
  mkHistoryItem (Row_ID d) "notification" (HAEvent_ClusterID e) (HAEvent_NodeID e) (HAEvent_EventType e) (HAEvent_Severity e)
    (HAEvent_Summary e) [] (Row_CreatedAt d)
    (Some (mkHistoryOutcome (Row_ChannelID d) (Row_ChannelName d) (shown_status d) (Row_AttemptCount d) (Row_ErrorCode d)
      (Row_ErrorSummary d) (Row_HTTPStatus d) (HAEvent_EventType e =?? "notification.test") (Row_CompletedAt d))).

(* src/internal/database/ha_operations.go:270-275 Store.ListHAHistory *)
Definition of_node (nodeID : string) (e : HAEvent) : bool := (nodeID =?? "") || bool_decide (HAEvent_NodeID e = Some nodeID).

(** The rows of the two halves of the query, without the cursor. *)
(* src/internal/database/ha_operations.go:267-275 Store.ListHAHistory *)
Definition history_items (clusterID nodeID : string) (db : HADB) : list HistoryItem :=
  (event_item <$> List.filter (λ e, (HAEvent_ClusterID e =?? clusterID) &&
     negb (HAEvent_EventType e =?? "notification.test") && of_node nodeID e) (rows (ha_events db))) ++
  omap (λ d, match ha_events db !! Row_EventID d with
    | Some e => if (HAEvent_ClusterID e =?? clusterID) && of_node nodeID e then Some (delivery_item d e) else None
    | None => None
    end) (rows (deliveries db)).

(** [(occurred_at,id) < (at,id)] *)
(* src/internal/database/ha_operations.go:276-282 Store.ListHAHistory *)
Definition before_position (position : option (Time * string)) (x : HistoryItem) : bool :=
  match position with
  | Some (at_, id) => (Item_OccurredAt x <? at_) || ((Item_OccurredAt x =? at_) && String.ltb (Item_ID x) id)
  | None => true
  end.

(* src/internal/database/ha_operations.go:266-336 Store.ListHAHistory *)
Definition ListHAHistory (q : HistoryQuery) (db : HADB) : res (list HistoryItem) :=
  Ok (limited (Query_Limit q) (newest Item_OccurredAt Item_ID
    (List.filter (before_position (Query_Before q)) (history_items (Query_ClusterID q) (Query_NodeID q) db)))).
End query.

(** ** The cursor *)

(** [json.Unmarshal] of a text: the tree it stands for. *)
Class JsonText := json_parse : string → option json.

Definition RFC3339Nano : string := "2006-01-02T15:04:05.999999999Z07:00".

(* src/internal/haoperations/service.go:999-1003 historyCursorPayload *)
Record historyCursorPayload := mkCursorPayload {
  cursor_Version : Z;
  cursor_At : string;
  cursor_ID : string
}.

Section history.
Context {R : Runtime} {F : Printing} {T : JsonText}.

(* src/internal/haoperations/service.go:1050-1050 encodeHistoryCursor *)
Definition payload_json (p : historyCursorPayload) : json :=
  JObj [("v", JNum (cursor_Version p)); ("at", JStr (cursor_At p)); ("id", JStr (cursor_ID p))].

(* src/internal/haoperations/service.go:1060-1060 decodeHistoryCursor *)
#[global] Instance cursor_Unmarshal : Unmarshal historyCursorPayload := {|
  zero_value := mkCursorPayload 0 "" "";
  unmarshal := in_object (λ fs cur,
    v ← field fs "v" (cursor_Version cur);
    at_ ← field fs "at" (cursor_At cur);
    id ← field fs "id" (cursor_ID cur);
    Some (mkCursorPayload v at_ id))
|}.

(* src/internal/haoperations/service.go:1049-1052 encodeHistoryCursor *)
Definition encodeHistoryCursor (at_ : Time) (id : string) : string :=
  RawURL_EncodeToString (json_print (payload_json (mkCursorPayload 1 (time_Format RFC3339Nano at_) id))).

(* src/internal/haoperations/service.go:1054-1068 decodeHistoryCursor *)
Definition decodeHistoryCursor (value : string) : res (Time * string) :=
  match RawURL_DecodeString value with
  | None => Err (TextError "decode cursor")
  | Some body =>
      match (j ← json_parse body; unmarshal j zero_value) with
      | Some p =>
          if negb (cursor_Version p =? 1) || negb (ValidID (cursor_ID p)) then Err (TextError "decode cursor")
          else match time_Parse RFC3339Nano (cursor_At p) with
            | Some at_ => Ok (at_, cursor_ID p)
            | None => Err (TextError "decode cursor")
            end
      | None => Err (TextError "decode cursor")
      end
  end.

(** ** The method *)

(** The page of the items that were found, one more than it may hold. *)
(* src/internal/haoperations/service.go:1039-1046 Service.History *)
Definition cut_page (limit : Z) (items : list HistoryItem) : HistoryPage :=
  if limit <? Z.of_nat (length items) then
    let shown := take (Z.to_nat limit) items in
    match last shown with
    | Some x => mkHistoryPage shown (encodeHistoryCursor (Item_OccurredAt x) (Item_ID x)) true
    | None => mkHistoryPage shown "" true
    end
  else mkHistoryPage items "" false.

(* src/internal/haoperations/service.go:1018-1026 Service.History *)
Definition check_node (request : HistoryRequest) : ha (res unit) :=
  if Request_NodeID request =?? "" then done_with tt
  else try node <- base (Repo_NodeByID (Request_NodeID request));
    guard (Node_ClusterID node =?? Request_ClusterID request) (NewError ErrorNotFound "node was not found in the cluster").

(* src/internal/haoperations/service.go:1005-1047 Service.History *)
Definition HA_History (request : HistoryRequest) : ha (res HistoryPage) :=
  try _ <- guard (ValidID (Request_ClusterID request)) (Validation "clusterId" "must be a valid UUID");
  try _ <- guard ((Request_NodeID request =?? "") || ValidID (Request_NodeID request)) (Validation "nodeId" "must be a valid UUID");
  try _ <- guard ((1 <=? Request_Limit request) && (Request_Limit request <=? 100)) (Validation "limit" "must be between 1 and 100");
  try _ <- base (Repo_ClusterByID (Request_ClusterID request));
  try _ <- check_node request;
  try position <- Ret (if Request_Cursor request =?? "" then Ok None
    else match decodeHistoryCursor (Request_Cursor request) with
      | Ok position => Ok (Some position)
      | Err _ => Err (Validation "cursor" "is invalid or unsupported")
      end);
  try items <- call (HA_ListHistory (mkHistoryQuery (Request_ClusterID request) (Request_NodeID request)
    (Request_Limit request + 1) position));
  done_with (cut_page (Request_Limit request) items).
End history.

(** * What the operational history promises

    A cursor is read back as it was written, and a client that follows the cursors reads the
    whole history, newest first, every item once. *)

(** ** The cursor *)

Section cursor.
Context {R : Runtime} {F : Printing} {T : JsonText}.

(** The layout keeps a time: it is a time of the years 0 to 9999. *)
Definition layout_keeps (t : Time) : Prop := time_Parse RFC3339Nano (time_Format RFC3339Nano t) = Some t.

(** The text of a cursor is read back as the tree it was printed from. *)
Definition text_keeps (at_ : Time) (id : string) : Prop :=
  let tree := payload_json (mkCursorPayload 1 (time_Format RFC3339Nano at_) id) in json_parse (json_print tree) = Some tree.

(** A cursor of the operational history is read back as the time and the identifier it was made of. *)
Theorem cursor_roundtrip at_ id : text_keeps at_ id → layout_keeps at_ → ValidID id = true →
  decodeHistoryCursor (encodeHistoryCursor at_ id) = Ok (at_, id).
Proof.
  intros Hj Ht Hid. unfold decodeHistoryCursor, encodeHistoryCursor. unfold text_keeps in Hj. cbv zeta in Hj.
  rewrite RawURL_roundtrip, Hj. unfold layout_keeps in Ht. set (text := time_Format RFC3339Nano at_) in *.
  assert (E : unmarshal (payload_json (mkCursorPayload 1 text id)) zero_value = Some (mkCursorPayload 1 text id)) by reflexivity.
  cbn [mbind option_bind]. rewrite E. cbn [cursor_Version cursor_At cursor_ID]. by rewrite Hid, Ht.
Qed.

Lemma encoded_not_empty at_ id : encodeHistoryCursor at_ id ≠ "".
Proof. intros E. apply (f_equal RawURL_DecodeString) in E. unfold encodeHistoryCursor in E. by rewrite RawURL_roundtrip in E. Qed.
End cursor.

(** ** Pages of a sorted list *)

Section sorted.
Context {A : Type} (time : A → Z) (id : A → string).

Definition later_first (x y : A) : bool := earlier time id y x.
#[local] Instance later_first_weak : StrictWeak later_first.
Proof. apply (StrictWeak_flip (earlier time id)), _. Qed.

Definition distinct_keys (l : list A) : Prop := ∀ x y, x ∈ l → y ∈ l → time x = time y → id x = id y → x = y.

Lemma sort_filter (p : A → bool) l : distinct_keys l → 
  sort_Slice later_first (List.filter p l) = List.filter p (sort_Slice later_first l).
Proof.
  intros Hd. assert (Hs : sorted later_first (List.filter p (sort_Slice later_first l))).
  { pose proof (sort_Slice_sorted later_first l) as H. unfold sorted in *. induction H as [|x m H IH Hf]; cbn; [constructor|].
    destruct (p x); [|done]. constructor; [done|]. rewrite Forall_forall in Hf |- *. intros y Hy.
    apply Hf. apply list_elem_of_In, filter_In in Hy as [Hy _]. by apply list_elem_of_In. }
  rewrite <- (sort_Slice_id later_first _ Hs). apply sort_Slice_unique; [apply _| |].
  - intros x y Hx Hy H1 H2. apply list_elem_of_In, filter_In in Hx as [Hx _], Hy as [Hy _].
    apply list_elem_of_In in Hx, Hy. destruct (earlier_total time id y x H1 H2) as [E1 E2]. symmetry. by apply Hd.
  - assert (Hp : ∀ m m' : list A, m ≡ₚ m' → List.filter p m ≡ₚ List.filter p m').
    { intros m m' H. induction H as [| |x y m|]; cbn; repeat case_match; eauto using Permutation. }
    apply Hp. by rewrite sort_Slice_perm.
Qed.

(** What is before an item of a sorted list are the items after it. *)
Lemma filter_before pre x suf : sorted later_first (pre ++ x :: suf) → NoDup (pre ++ x :: suf) →
  distinct_keys (pre ++ x :: suf) → List.filter (λ y, earlier time id y x) (pre ++ x :: suf) = suf.
Proof.
  intros Hs Hn Hd. rewrite List.filter_app. assert (Hpre : List.filter (λ y, earlier time id y x) pre = []).
  { apply filter_none. intros y Hy. unfold sorted in Hs.
    assert (H : not_greater later_first y x); [|done].
    clear -Hs Hy. induction pre as [|z pre IH]; [by apply not_elem_of_nil in Hy|]. inversion Hs as [|?? Hs' Hf]; subst.
    apply elem_of_cons in Hy as [->|Hy]; [|by apply IH]. rewrite Forall_forall in Hf. apply Hf. set_solver. }
  rewrite Hpre. cbn. rewrite (less_irrefl (earlier time id)).
  assert (Hsuf : sorted later_first (x :: suf)).
  { clear -Hs. unfold sorted in *. induction pre as [|z pre IH]; [done|]. inversion Hs; subst. by apply IH. }
  inversion Hsuf as [|?? _ Hf]; subst. apply NoDup_app in Hn as (_ & _ & Hn). apply NoDup_cons in Hn as [Hx _].
  assert (Hall : ∀ y, y ∈ suf → earlier time id y x = true).
  { intros y Hy. destruct (earlier time id y x) eqn:E; [done|]. rewrite Forall_forall in Hf. specialize (Hf y Hy).
    destruct (earlier_total time id y x E) as [E1 E2]; [exact Hf|].
    exfalso. apply Hx. rewrite (Hd x y); [done|set_solver|set_solver|done|done]. }
  clear -Hall. induction suf as [|y suf IH]; cbn; [done|]. rewrite Hall by (left). f_equal. apply IH. intros z Hz. apply Hall. by right.
Qed.
End sorted.

(** ** The client *)

Section client.
Context {R : Runtime} {C : Collation} {F : Printing} {T : JsonText}.

(** The method against the tables; the other calls are answered by an outside world. *)
Definition history_handler (o : ∀ X, hactl X → X) X (e : hactl X) (db : HADB) : X * HADB :=
  match e in hactl X return X * HADB with
  | HA_ListHistory q => (ListHAHistory q db, db)
  | e => (o _ e, db)
  end.

Definition history_reply (o : ∀ X, hactl X → X) (request : HistoryRequest) (db : HADB) : res HistoryPage :=
  (interp (history_handler o) (HA_History request) db).1.1.

(** The client asks for the first page and follows the cursors; [true] when it came to the end. *)
Fixpoint read_history (fuel : nat) (o : ∀ X, hactl X → X) (clusterID nodeID : string) (limit : Z) (cursor : string)
  (db : HADB) : list HistoryItem * bool :=
  match fuel with
  | O => ([], false)
  | S fuel =>
      match history_reply o (mkHistoryRequest clusterID nodeID cursor limit) db with
      | Ok page =>
          if Page_HasMore page then
            let '(rest, ended) := read_history fuel o clusterID nodeID limit (Page_NextCursor page) db in
            (Page_Items page ++ rest, ended)
          else (Page_Items page, true)
      | Err _ => ([], false)
      end
  end.

(** *** The items of the tables *)

Lemma NoDup_filter_map {A B} (f : A → B) (p : A → bool) l : NoDup (f <$> l) → NoDup (f <$> List.filter p l).
Proof.
  induction l as [|x l IH]; cbn; [done|]. intros [Hx Hn]%NoDup_cons. destruct (p x); [|by apply IH].
  apply NoDup_cons. split; [|by apply IH]. intros (y & E & Hy)%list_elem_of_fmap. apply Hx. apply list_elem_of_fmap.
  exists y. split; [done|]. apply list_elem_of_In, filter_In in Hy as [Hy _]. by apply list_elem_of_In.
Qed.

Lemma NoDup_omap_map {A B K} (f : A → K) (g : B → K) (h : A → option B) l :
  (∀ x y, h x = Some y → g y = f x) → NoDup (f <$> l) → NoDup (g <$> omap h l).
Proof.
  intros Hh. induction l as [|x l IH]; cbn; [done|]. intros [Hx Hn]%NoDup_cons. destruct (h x) as [y|] eqn:E; [|by apply IH].
  apply NoDup_cons. split; [|by apply IH]. intros (z & Ez & (w & Hw & Hz)%list_elem_of_omap)%list_elem_of_fmap. apply Hx.
  apply list_elem_of_fmap. exists w. split; [|done]. by rewrite <- (Hh _ _ E), Ez, (Hh _ _ Hz).
Qed.

Lemma NoDup_rows {A} (key : A → string) m : keyed key m → NoDup (key <$> rows m).
Proof.
  intros Hk. assert (E : key <$> rows m = (map_to_list m).*1).
  { unfold rows. rewrite <- list_fmap_compose. apply list_fmap_ext. intros i [k x] Hi. cbn. apply Hk.
    apply elem_of_map_to_list. by eapply list_elem_of_lookup_2. }
  rewrite E. apply NoDup_fst_map_to_list.
Qed.

(** No event and no delivery share an identifier. *)
Definition separate_ids (db : HADB) : Prop := ∀ k, is_Some (ha_events db !! k) → deliveries db !! k = None.

Lemma history_ids clusterID nodeID db : HAWellFormed db → separate_ids db →
  NoDup (Item_ID <$> history_items clusterID nodeID db).
Proof.
  intros Hwf Hsep. unfold history_items. rewrite fmap_app, <- list_fmap_compose. apply NoDup_app. split_and!.
  - apply (NoDup_filter_map HAEvent_ID). apply NoDup_rows, Hwf.
  - intros x (e & -> & He)%list_elem_of_fmap (i & E & (d & Hd & Hi)%list_elem_of_omap)%list_elem_of_fmap.
    apply list_elem_of_In, filter_In in He as [He _]. apply list_elem_of_In, elem_of_rows in He as [k He].
    apply elem_of_rows in Hd as [k' Hd]. destruct (ha_events db !! Row_EventID d) as [e'|]; [|done]. destruct (_ && _); [|done].
    injection Hi as <-. cbn in E. pose proof (hw_events _ Hwf _ _ He) as E1. pose proof (hw_deliveries _ Hwf _ _ Hd) as E2.
    rewrite Hsep in Hd; [done|]. rewrite <- E2, <- E, E1. eauto.
  - apply (NoDup_omap_map Row_ID); [|apply NoDup_rows, Hwf]. intros d i H. 
    destruct (ha_events db !! Row_EventID d); [|done]. destruct (_ && _); [|done]. by injection H as <-.
Qed.

(** *** One page *)

(** The item can be a cursor. *)
Definition cursor_keeps (x : HistoryItem) : Prop :=
  text_keeps (Item_OccurredAt x) (Item_ID x) ∧ layout_keeps (Item_OccurredAt x) ∧ ValidID (Item_ID x) = true.

(** What makes the request acceptable, and the texts of its cursors readable. *)
Record readable (o : ∀ X, hactl X → X) (clusterID nodeID : string) (limit : Z) (db : HADB) : Prop := {
  rd_cluster : ValidID clusterID = true;
  rd_found : is_Ok (o _ (Base (Repo_ClusterByID clusterID))) = true;
  rd_node : nodeID ≠ "" → ValidID nodeID = true ∧
    ∃ node, o _ (Base (Repo_NodeByID nodeID)) = Ok node ∧ Node_ClusterID node = clusterID;
  rd_limit : 1 <= limit <= 100;
  rd_items x : x ∈ history_items clusterID nodeID db → cursor_keeps x
}.

(** The whole history, newest first. *)
Definition whole_history (clusterID nodeID : string) (db : HADB) : list HistoryItem :=
  newest Item_OccurredAt Item_ID (history_items clusterID nodeID db).

(** The cursor that continues after the items of a list. *)
Definition cursor_after (pre : list HistoryItem) : string :=
  match last pre with Some x => encodeHistoryCursor (Item_OccurredAt x) (Item_ID x) | None => "" end.

Definition position_after (pre : list HistoryItem) : option (Time * string) :=
  match last pre with Some x => Some (Item_OccurredAt x, Item_ID x) | None => None end.

Lemma limit_check limit : 1 <= limit <= 100 → (1 <=? limit) && (limit <=? 100) = true.
Proof. lia. Qed.

Lemma decode_after pre : (∀ x, x ∈ pre → cursor_keeps x) →
  (if cursor_after pre =?? "" then Ok None
   else match decodeHistoryCursor (cursor_after pre) with
     | Ok position => Ok (Some position)
     | Err _ => Err (Validation "cursor" "is invalid or unsupported")
     end) = Ok (position_after pre).
Proof.
  intros Hpre. unfold cursor_after, position_after. destruct (last pre) as [x|] eqn:E; [|done].
  apply last_Some_elem_of in E. destruct (Hpre x E) as (Hj & Ht & Hid).
  rewrite bool_decide_eq_false_2 by apply encoded_not_empty. by rewrite cursor_roundtrip.
Qed.

Lemma reply_page o clusterID nodeID limit db pre : readable o clusterID nodeID limit db →
  (∀ x, x ∈ pre → cursor_keeps x) →
  history_reply o (mkHistoryRequest clusterID nodeID (cursor_after pre) limit) db =
    Ok (cut_page limit (limited (limit + 1) (newest Item_OccurredAt Item_ID
      (List.filter (before_position (position_after pre)) (history_items clusterID nodeID db))))).
Proof.
  intros Hr Hpre. unfold history_reply, HA_History. cbn [Request_ClusterID Request_NodeID Request_Cursor Request_Limit].
  rewrite (rd_cluster _ _ _ _ _ Hr), (limit_check limit (rd_limit _ _ _ _ _ Hr)).
  rewrite (decode_after pre Hpre).
  pose proof (rd_found _ _ _ _ _ Hr) as Hc. unfold check_node. cbn [Request_NodeID Request_ClusterID].
  destruct (decide (nodeID = "")) as [->|Hne].
  - rewrite (bool_decide_eq_true_2 ("" = "")) by done. cbn.
    destruct (o _ (Base (Repo_ClusterByID clusterID))) as [c|e]; [|done]. reflexivity.
  - rewrite (bool_decide_eq_false_2 (nodeID = "")) by done. destruct (rd_node _ _ _ _ _ Hr Hne) as (Hv & node & Hn & Hcl).
    rewrite Hv. cbn. destruct (o _ (Base (Repo_ClusterByID clusterID))) as [c|e]; [|done]. cbn.
    rewrite Hn. cbn. rewrite Hcl. rewrite bool_decide_eq_true_2 by done. reflexivity.
Qed.

(** The items after those of a prefix of the history. *)
Lemma items_after clusterID nodeID db pre suf : HAWellFormed db → separate_ids db →
  whole_history clusterID nodeID db = pre ++ suf →
  newest Item_OccurredAt Item_ID (List.filter (before_position (position_after pre)) (history_items clusterID nodeID db)) = suf.
Proof.
  intros Hwf Hsep E. pose proof (history_ids clusterID nodeID db Hwf Hsep) as Hids.
  set (items := history_items clusterID nodeID db) in *.
  assert (Hd : distinct_keys Item_OccurredAt Item_ID items).
  { intros x y Hx Hy _ Eid. apply list_elem_of_lookup in Hx as [i Hi], Hy as [j Hj].
    assert (i = j); [|congruence]. apply (NoDup_lookup _ i j (Item_ID x) Hids); rewrite list_lookup_fmap; [by rewrite Hi|by rewrite Hj, Eid]. }
  unfold newest. rewrite (sort_filter Item_OccurredAt Item_ID _ _ Hd). 
  change (sort_Slice (later_first Item_OccurredAt Item_ID) items) with (whole_history clusterID nodeID db).
  assert (Hp : whole_history clusterID nodeID db ≡ₚ items) by apply sort_Slice_perm.
  assert (Hs : sorted (later_first Item_OccurredAt Item_ID) (whole_history clusterID nodeID db)) by (apply sort_Slice_sorted, later_first_weak).
  assert (Hn : NoDup (whole_history clusterID nodeID db)) by (rewrite Hp; by eapply NoDup_fmap_1).
  assert (Hd' : distinct_keys Item_OccurredAt Item_ID (whole_history clusterID nodeID db))
    by (intros x y; rewrite !Hp; apply Hd).
  rewrite E in *. unfold position_after. destruct pre as [|x pre _] using rev_ind; cbn.
  - clear. induction suf as [|y suf IH]; cbn; [done|]. by rewrite IH.
  - rewrite last_snoc. rewrite <- app_assoc in *. cbn [app] in *.
    by apply (filter_before Item_OccurredAt Item_ID pre x suf).
Qed.

(** *** The whole history *)

Lemma read_from o clusterID nodeID limit db : HAWellFormed db → separate_ids db → readable o clusterID nodeID limit db →
  ∀ fuel pre suf, whole_history clusterID nodeID db = pre ++ suf → (length suf < fuel)%nat →
    read_history fuel o clusterID nodeID limit (cursor_after pre) db = (suf, true).
Proof.
  intros Hwf Hsep Hr. pose proof (rd_limit _ _ _ _ _ Hr) as Hl. induction fuel as [|fuel IH]; intros pre suf E Hf; [lia|].
  cbn [read_history]. assert (Hin : ∀ x, x ∈ pre ++ suf → x ∈ history_items clusterID nodeID db)
    by (intros x; by rewrite <- E; unfold whole_history, newest; rewrite elem_of_sort_Slice).
  rewrite (reply_page o clusterID nodeID limit db pre Hr) by (intros x Hx; apply (rd_items _ _ _ _ _ Hr), Hin; set_solver).
  rewrite (items_after _ _ _ _ _ Hwf Hsep E). unfold cut_page, limited.
  replace (Z.to_nat (limit + 1)) with (S (Z.to_nat limit)) by lia.
  destruct (Z.ltb_spec limit (Z.of_nat (length (take (S (Z.to_nat limit)) suf)))) as [Hlt|Hge].
  - rewrite length_take in Hlt. rewrite take_take, Nat.min_l by lia.
    assert (Hsplit : suf = take (Z.to_nat limit) suf ++ drop (Z.to_nat limit) suf) by (by rewrite take_drop).
    destruct (last (take (Z.to_nat limit) suf)) as [x|] eqn:Hx.
    2: { apply last_None, (f_equal length) in Hx. rewrite length_take in Hx. cbn in Hx. lia. }
    cbn [Page_HasMore Page_Items Page_NextCursor].
    specialize (IH (pre ++ take (Z.to_nat limit) suf) (drop (Z.to_nat limit) suf)).
    unfold cursor_after in IH. rewrite last_app, Hx in IH. rewrite IH; [by rewrite take_drop| |].
    + by rewrite <- app_assoc, take_drop.
    + rewrite length_drop. lia.
  - rewrite length_take in Hge. rewrite take_ge by lia. done.
Qed.

Lemma cut_page_short limit items : 0 <= limit → Z.of_nat (length (Page_Items (cut_page limit items))) <= limit.
Proof.
  intros Hl. unfold cut_page. destruct (Z.ltb_spec limit (Z.of_nat (length items))); [|done].
  destruct (last _); cbn; rewrite length_take; lia.
Qed.

Lemma History_pages_short request : emits (HA_History request)
  (λ _ r, ∀ page, r = Ok page → Z.of_nat (length (Page_Items page)) <= Request_Limit request).
Proof.
  unfold HA_History, check_node, base, guard. repeat emit_step; try done.
  all: intros page [= <-]; apply cut_page_short; bool_simp; lia.
Qed.

(** C30: A client that asks for the first page of the history of a cluster, or of one of its nodes, and follows the cursors
    reads every event and every delivery exactly once, newest first, and comes to the end, whatever the size of the page;
    and no page is longer than it asked for. *)
Theorem history_read_completely o clusterID nodeID limit db : HAWellFormed db → separate_ids db →
  readable o clusterID nodeID limit db →
  read_history (S (length (history_items clusterID nodeID db))) o clusterID nodeID limit "" db =
    (whole_history clusterID nodeID db, true) ∧
  NoDup (Item_ID <$> whole_history clusterID nodeID db) ∧
  ∀ request page, history_reply o request db = Ok page → Z.of_nat (length (Page_Items page)) <= Request_Limit request.
Proof.
  intros Hwf Hsep Hr. split_and!.
  - apply (read_from o clusterID nodeID limit db Hwf Hsep Hr _ [] (whole_history clusterID nodeID db)); [done|].
    unfold whole_history, newest. rewrite length_sort_Slice. lia.
  - unfold whole_history, newest. rewrite sort_Slice_perm. by apply history_ids.
  - intros request page H. unfold history_reply in H. destruct (interp _ _ db) as [[r w] tr] eqn:E. cbn in H. subst r.
    by apply (History_pages_short request tr _ (interp_traces _ _ _ _ _ _ E)).
Qed.
End client.
