(* ===== verification/Releases.v ===== *)
(** * internal/haoperations/releases.go: the check for releases of AdGuard Home

    The cached release is refreshed once it expired; every attempt, a failed one included,
    renews the cache, so that the source of the releases is not asked again too soon. *)

From S2P Require Import Prelude GoRuntime Json Domain ControlModel Store StoreRecords StoreHistory Effects.
From S2P Require Import Workers Wire AuthStore DnsProbe HAModel HAOperations Notifications HAStore HAHistory.

(** ** The interfaces *)

(** The request, to a constant address, fails, or it is answered with a status and a body; of the body at most 64 KiB and one byte are read. *)
Inductive release_answer :=
| ReleaseUnavailable
| ReleaseAnswered (status : Z) (body : res string).

(* src/internal/haoperations/releases.go:19-22 ReleaseRepository *)
Inductive releasectl : Type → Type :=
| R_Now : releasectl Time
| R_Cache : releasectl (res ReleaseCache)
| R_Save (value : ReleaseCache) : releasectl (res unit)
(* GET adGuardLatestReleaseURL *)
| R_Get : releasectl release_answer.

Abbreviation releasing := (prog releasectl).

(* src/internal/haoperations/releases.go:15-15 releaseCacheTTL *)
Definition releaseCacheTTL : Duration := 6 * hour.
(* src/internal/haoperations/releases.go:16-16 releaseFailureCacheTTL *)
Definition releaseFailureCacheTTL : Duration := 15 * minute.
(* src/internal/haoperations/releases.go:54-54 ReleaseChecker.Refresh *)
Definition release_limit : Z := 64 * 1024.

Section releases.
Context {R : Runtime} {T : JsonText}.

(* src/internal/haoperations/releases.go:57-60 ReleaseChecker.Refresh *)
Record release_payload := mkReleasePayload { payload_TagName : string; payload_HTMLURL : string }.

#[global] Instance release_Unmarshal : Unmarshal release_payload := {|
  zero_value := mkReleasePayload "" "";
  unmarshal := in_object (λ fs cur,
    tag ← field fs "tag_name" (payload_TagName cur);
    url ← field fs "html_url" (payload_HTMLURL cur);
    Some (mkReleasePayload tag url))
|}.

(* src/internal/haoperations/releases.go:68-78 ReleaseChecker.recordFailure *)
Definition recordFailure (code : string) : releasing (res unit) :=
  do now <- call R_Now;
  do current <- call R_Cache;
  let '(version, url) := match current with Ok c => (Release_Version c, Release_URL c) | Err _ => ("", "") end in
  try _ <- call (R_Save (mkReleaseCache version url "unknown" now (now + releaseFailureCacheTTL) code));
  fail (TextError "upstream release check failed").

(** The release of an answer, or the code of the failure. *)
(* src/internal/haoperations/releases.go:50-63 ReleaseChecker.Refresh *)
Definition release_of (status : Z) (body : res string) : release_payload + string :=
  if negb (status =? 200) then inr "RELEASE_CHECK_UNAVAILABLE"
  else match body with
  | Err _ => inr "RELEASE_CHECK_INVALID_RESPONSE"
  | Ok body =>
      if release_limit <? len body then inr "RELEASE_CHECK_INVALID_RESPONSE"
      else match (j ← json_parse body; unmarshal j zero_value) with
        | Some p => if TrimSpace (payload_TagName p) =?? "" then inr "RELEASE_CHECK_INVALID_RESPONSE" else inl p
        | None => inr "RELEASE_CHECK_INVALID_RESPONSE"
        end
  end.

(** The clock is read only when there is a cached release. *)
(* src/internal/haoperations/releases.go:36-38 ReleaseChecker.Refresh *)
Definition cache_fresh : releasing bool :=
  do cached <- call R_Cache;
  match cached with
  | Ok c => do now <- call R_Now; Ret (now <? Release_ExpiresAt c)
  | Err _ => Ret false
  end.

(* src/internal/haoperations/releases.go:35-66 ReleaseChecker.Refresh *)
Definition Refresh : releasing (res unit) :=
  do fresh <- cache_fresh;
  if fresh then done_with tt
  else
    do answer <- call R_Get;
    match answer with
    | ReleaseUnavailable => recordFailure "RELEASE_CHECK_UNAVAILABLE"
    | ReleaseAnswered status body =>
        match release_of status body with
        | inr code => recordFailure code
        | inl p =>
            do now <- call R_Now;
            call (R_Save (mkReleaseCache (TrimSpace (payload_TagName p)) (TrimSpace (payload_HTMLURL p)) "unknown" now
              (now + releaseCacheTTL) ""))
        end
    end.

(** ** The worker *)

(* src/internal/jobs/releases.go:13-13 releaseCheckInterval *)
Definition releaseCheckInterval : Duration := 5 * minute.

(** One pass: the tracker before and after it. *)
(* src/internal/jobs/releases.go:32-46 runReleaseChecks *)
Definition release_pass (now : Time) (clock : Time * Time) (result : res unit) (tracker : option Tracker) : option Tracker :=
  let next := now + releaseCheckInterval in
  let tracker := Start "adguard_release_check" next clock.1 <$> tracker in
  (match result with
   | Err _ => Failure_worker "adguard_release_check" "RELEASE_CHECK_UNAVAILABLE" next clock.2
   | Ok _ => Success_worker "adguard_release_check" next clock.2
   end) <$> tracker.

(** ** Against the tables *)

(** What a pass reads from outside: the clock at the check and at the renewal, and the answer. *)
Record release_world := mkReleaseWorld {
  release_checked : Time;
  release_renewed : Time;
  release_reply : release_answer
}.

(** The tables with the number of requests so far: the clock stands at the second time after a request. *)
Definition release_handler (w : release_world) X (e : releasectl X) (s : HADB * Z) : X * (HADB * Z) :=
  let '(db, requests) := s in
  match e in releasectl X return X * (HADB * Z) with
  | R_Now => (if 0 <? requests then release_renewed w else release_checked w, s)
  | R_Cache => (ReadReleaseCache db, s)
  | R_Save v => let '(r, db) := commit (SaveReleaseCache v) db in (r, (db, requests))
  | R_Get => (release_reply w, (db, requests + 1))
  end.

(** A pass: the result, the tables after it, and whether the source was asked. *)
Definition refresh_pass (w : release_world) (db : HADB) : res unit * HADB * bool :=
  let '(r, (db, requests), _) := interp (release_handler w) Refresh (db, 0) in (r, db, 0 <? requests).

(** The times at which the source was asked, in the order of the passes. *)
Fixpoint asked_at (passes : list release_world) (db : HADB) : list Time :=
  match passes with
  | [] => []
  | w :: passes =>
      let '(_, db, asked) := refresh_pass w db in
      (if asked then [release_renewed w] else []) ++ asked_at passes db
  end.

(** ** Requests are spaced *)

Definition is_fresh (db : HADB) (now : Time) : bool :=
  match release_cache db with Some c => now <? Release_ExpiresAt c | None => false end.

Lemma save_cache v db : Release_CheckedAt v < Release_ExpiresAt v → Release_Compatibility v = "unknown" →
  commit (SaveReleaseCache v) db = (Ok tt, set_release_cache (Some v) db).
Proof.
  intros H1 H2. unfold commit, SaveReleaseCache, tx_check. rewrite H2, (proj2 (Z.ltb_lt _ _) H1). done.
Qed.

(** What a pass does. *)
Definition pass_spec (w : release_world) (db : HADB) (out : res unit * HADB * bool) : Prop :=
  if is_fresh db (release_checked w) then out = (Ok tt, db, false)
  else ∃ c, out.1.2 = set_release_cache (Some c) db ∧ out.2 = true ∧ Release_CheckedAt c = release_renewed w ∧
    ((out.1.1 = Ok tt ∧ Release_ErrorCode c = "" ∧ Release_Version c ≠ "" ∧ Release_ExpiresAt c = release_renewed w + releaseCacheTTL) ∨
     (is_Ok out.1.1 = false ∧ Release_ErrorCode c ≠ "" ∧ Release_ExpiresAt c = release_renewed w + releaseFailureCacheTTL ∧
      (Release_Version c, Release_URL c) =
        match release_cache db with Some old => (Release_Version old, Release_URL old) | None => ("", "") end)).

Lemma interp_failure w code db n : 0 < n → code ≠ "" → ∃ e c tr,
  interp (release_handler w) (recordFailure code) (db, n) = (Err e, (set_release_cache (Some c) db, n), tr) ∧
  Release_CheckedAt c = release_renewed w ∧ Release_ErrorCode c ≠ "" ∧ Release_ExpiresAt c = release_renewed w + releaseFailureCacheTTL ∧
  (Release_Version c, Release_URL c) = match release_cache db with Some old => (Release_Version old, Release_URL old) | None => ("", "") end.
Proof.
  intros Hn Hcode. assert (E : (0 <? n) = true) by lia.
  assert (Ht : release_renewed w < release_renewed w + releaseFailureCacheTTL) by (cbv -[release_renewed Z.add Z.lt]; lia).
  unfold recordFailure, ReadReleaseCache. cbn. rewrite E. unfold ReadReleaseCache.
  destruct (release_cache db) as [old|]; cbn; rewrite save_cache by done; cbn; eexists _, _, _; (split; [reflexivity|done]).
Qed.

Lemma interp_fresh w db : ∃ tr, interp (release_handler w) cache_fresh (db, 0) = (is_fresh db (release_checked w), (db, 0), tr).
Proof. unfold is_fresh, cache_fresh, ReadReleaseCache. cbn. unfold ReadReleaseCache. destruct (release_cache db); cbn; eauto. Qed.

Lemma release_codes status body : match release_of status body with
  | inl p => TrimSpace (payload_TagName p) ≠ ""
  | inr code => code ≠ ""
  end.
Proof.
  unfold release_of. destruct (negb _); [done|]. destruct body; [|done]. destruct (_ <? _); [done|].
  destruct (_ ≫= _); [|done]. by case_bool_decide.
Qed.

Lemma refresh_pass_spec w db : pass_spec w db (refresh_pass w db).
Proof.
  assert (Ht : release_renewed w < release_renewed w + releaseCacheTTL) by (cbv -[release_renewed Z.add Z.lt]; lia).
  unfold pass_spec, refresh_pass, Refresh. rewrite interp_bind. destruct (interp_fresh w db) as [tr ->].
  destruct (is_fresh db (release_checked w)); [done|]. rewrite interp_bind. cbn [interp call release_handler].
  destruct (release_reply w) as [|status body].
  - destruct (interp_failure w "RELEASE_CHECK_UNAVAILABLE" db 1) as (e & c & tr' & E & H); [done..|].
    change (0 + 1) with 1. rewrite E. exists c. cbn. destruct H as (? & ? & ? & ?). auto 10.
  - pose proof (release_codes status body) as Hc. destruct (release_of status body) as [p|code].
    + cbn. rewrite save_cache by done. cbn. eexists. split_and!; [reflexivity|done|done|]. left. done.
    + destruct (interp_failure w code db 1) as (e & c & tr' & E & H); [done..|].
      change (0 + 1) with 1. rewrite E. exists c. cbn. destruct H as (? & ? & ? & ?). auto 10.
Qed.

(** At least the given time lies between two requests that follow one another. *)
Definition spaced (gap : Duration) (l : list Time) : Prop := StronglySorted (λ a b, a + gap <= b) l.

Lemma asked_after bound passes : Forall (λ w, release_checked w <= release_renewed w) passes → ∀ db c,
  release_cache db = Some c → bound <= Release_ExpiresAt c → Forall (λ t, bound <= t) (asked_at passes db).
Proof.
  induction 1 as [|w passes Hw Hp IH]; intros db c Hc Hb; cbn [asked_at]; [constructor|].
  pose proof (refresh_pass_spec w db) as H. unfold pass_spec, is_fresh in H. rewrite Hc in H.
  destruct (refresh_pass w db) as [[r db'] asked]. destruct (Z.ltb_spec (release_checked w) (Release_ExpiresAt c)) as [Hlt|Hge].
  - injection H as -> -> ->. by eapply IH.
  - destruct H as (c' & E & Ha & _ & H). cbn in *. subst db' asked. constructor; [lia|]. apply (IH _ c'); [done|].
    unfold releaseCacheTTL, releaseFailureCacheTTL, hour, minute, second in H. naive_solver lia.
Qed.

(** C31: The source of the releases is asked at most once in fifteen minutes, however often the worker runs: every request
    renews the cache, a failed one too, which keeps the release that was known. *)
Theorem release_requests_spaced passes db : Forall (λ w, release_checked w <= release_renewed w) passes →
  spaced (15 * minute) (asked_at passes db) ∧
  ∀ w, let '(r, db', asked) := refresh_pass w db in
    if asked then ∃ c, release_cache db' = Some c ∧ (is_Ok r = false → (Release_Version c, Release_URL c) =
        match release_cache db with Some old => (Release_Version old, Release_URL old) | None => ("", "") end)
    else db' = db.
Proof.
  intros Hp. split.
  - revert db. induction Hp as [|w passes Hw Hp IH]; intros db; cbn [asked_at]; [constructor|].
    pose proof (refresh_pass_spec w db) as H. unfold pass_spec in H. destruct (refresh_pass w db) as [[r db'] asked].
    destruct (is_fresh db (release_checked w)); [injection H as -> -> ->; apply IH|].
    destruct H as (c & E & Ha & _ & H). cbn in E, Ha, H. subst db' asked. constructor; [apply IH|].
    apply (asked_after _ _ Hp _ c); [done|].
    unfold releaseCacheTTL, releaseFailureCacheTTL, hour, minute, second in *. naive_solver lia.
  - intros w. pose proof (refresh_pass_spec w db) as H. unfold pass_spec in H. destruct (refresh_pass w db) as [[r db'] asked].
    destruct (is_fresh db (release_checked w)); [by injection H as -> -> ->|].
    destruct H as (c & E & Ha & _ & H). cbn in *. subst db' asked. exists c. split; [done|]. intros Hr.
    destruct H as [[-> _]|(_ & _ & _ & ?)]; done.
Qed.
End releases.
