(* ===== verification/HAJobs.v ===== *)
(** * internal/jobs/notifications.go: the worker that delivers notifications

    The worker takes the next delivery at once after it processed one, and waits otherwise.
    Its turns run the program of the service against the tables; everything else a turn asks -
    the clock, the cipher, the endpoint - is answered by an arbitrary outside world. *)

From S2P Require Import Prelude GoRuntime Json Domain ControlModel Store StoreRecords StoreInvariant.
From S2P Require Import StoreHistory Effects ControlEffects Workers OperationsModel AuthStore DnsProbe HAModel.
From S2P Require Import HAOperations Notifications HAStore HAInvariant DeliveryHistory.

(** ** The turn *)

(** What the n-th call of a turn is answered. *)
Definition outside : Type := nat → ∀ X, notifyctl X → X.

Record delivery_turn := mkDeliveryTurn {
  (* time.Now() of the loop, and the clock of the tracker at its two calls *)
  turn_now : Time;
  turn_tracked : Time * Time;
  turn_outside : outside
}.

Section worker.
Context {R : Runtime} {C : Collation} (time_json : Time → json).

Definition store_handler (o : outside) X (e : notifyctl X) (w : HADB * nat) : X * (HADB * nat) :=
  let '(db, n) := w in
  match e in notifyctl X return X * (HADB * nat) with
  | N_Claim now => let '(r, db) := commit (ClaimNotificationDelivery now) db in (r, (db, S n))
  | N_Finish d => let '(r, db) := commit (FinishNotificationDelivery d) db in (r, (db, S n))
  | e => (o n _ e, (db, S n))
  end.

(** [DeliverNext] against the tables. *)
(* src/internal/jobs/notifications.go:24-24 RunNotificationDelivery *)
Definition deliver_next (o : outside) (db : HADB) : (bool * res unit) * HADB :=
  let '(r, (db, _), _) := interp (store_handler o) (DeliverNext time_json) (db, 0%nat) in (r, db).

(* src/internal/jobs/notifications.go:16-16 RunNotificationDelivery *)
Definition delivery_interval : Duration := 15 * second.

(** One turn: whether a delivery was processed, the tables and the tracker after it. *)
(* src/internal/jobs/notifications.go:20-32 RunNotificationDelivery *)
Definition notification_turn (i : delivery_turn) (db : HADB) (tracker : option Tracker) : bool * (HADB * option Tracker) :=
  let next := turn_now i + delivery_interval in
  let tracker := Start "notification_delivery" next (turn_tracked i).1 <$> tracker in
  let '((processed, result), db) := deliver_next (turn_outside i) db in
  let tracker := (match result with
    | Err _ => Failure_worker "notification_delivery" "NOTIFICATION_DELIVERY_FAILED" next (turn_tracked i).2
    | Ok _ => Success_worker "notification_delivery" next (turn_tracked i).2
    end) <$> tracker in
  (processed, (db, tracker)).

(** The turns until the worker waits: how many processed a delivery, and whether it came to wait. *)
(* src/internal/jobs/notifications.go:19-41 RunNotificationDelivery *)
Fixpoint RunNotificationDelivery (h : list delivery_turn) (db : HADB) (tracker : option Tracker) :
  nat * bool * (HADB * option Tracker) :=
  match h with
  | [] => (0%nat, false, (db, tracker))
  | i :: h =>
      let '(processed, (db, tracker)) := notification_turn i db tracker in
      if processed
      then let '(n, waits, s) := RunNotificationDelivery h db tracker in (S n, waits, s)
      else (0%nat, true, (db, tracker))
  end.

(** ** What a turn does to the tables *)

Definition turn_spec (db : HADB) (out : (bool * res unit) * HADB) : Prop :=
  (out.1.1 = false ∧ out.2 = db) ∨
  (out.1.1 = true ∧ ∃ now d c db1 a later, ClaimNotificationDelivery now db = Ok ((d, c), db1) ∧
    out = ((true, (commit (FinishNotificationDelivery (outcome_of d a later)) db1).1),
           (commit (FinishNotificationDelivery (outcome_of d a later)) db1).2)).

Lemma interp_attempt o id payload body db n : ∃ a n' tr,
  interp (store_handler o) (attempt_delivery id payload body) (db, n) = (a, (db, n'), tr).
Proof. unfold attempt_delivery. cbn. destruct (o n _ (N_Decrypt _ _)); cbn; eauto. Qed.

Lemma interp_outcome o d a db n : ∃ later n' tr,
  interp (store_handler o) (if attempt_success a then do now <- nbase Now; call (N_Finish (succeeded_delivery d a now))
    else failDelivery d a) (db, n) =
  ((commit (FinishNotificationDelivery (outcome_of d a later)) db).1,
   ((commit (FinishNotificationDelivery (outcome_of d a later)) db).2, n'), tr).
Proof.
  unfold outcome_of. destruct (attempt_success a); [|unfold failDelivery]; cbn; exists (o n _ (NBase Now));
    destruct (commit _ db) as [r db']; eauto.
Qed.

Lemma commit_refused {S A} (t : Txn S A) db e : t db = Err e → commit t db = (Err e, db).
Proof. unfold commit. by intros ->. Qed.

Lemma deliver_next_spec o db : turn_spec db (deliver_next o db).
Proof.
  remember (deliver_next o db) as out eqn:Hout. unfold deliver_next, DeliverNext in Hout.
  rewrite interp_bind in Hout. cbn [nbase call interp store_handler] in Hout.
  rewrite interp_bind in Hout. cbn [call interp store_handler] in Hout. set (now := o 0%nat Time (NBase Now)) in *.
  unfold turn_spec. destruct (ClaimNotificationDelivery now db) as [[[d c] db1]|e] eqn:Hclaim.
  - rewrite (proj2 (commit_Ok _ _ _ _) Hclaim) in Hout. cbv beta iota in Hout. rewrite interp_bind in Hout. right.
    destruct (interp_attempt o (Channel_ID (ChannelRecord_Channel c)) (ChannelRecord_Destination c) (delivery_body time_json d) db1 2)
      as (a & n & tr & E). rewrite E in Hout. rewrite interp_bind in Hout.
    destruct (interp_outcome o d a db1 n) as (later & n' & tr' & E'). rewrite E' in Hout. cbn in Hout. subst out.
    split; [done|]. by exists now, d, c, db1, a, later.
  - rewrite (commit_refused _ _ _ Hclaim) in Hout. cbn in Hout. subst out. by left.
Qed.

(** ** The attempts that are left *)

Definition left_over (m : gmap string DeliveryRow) : nat := sum_list_with (λ d, Z.to_nat (5 - Row_AttemptCount d)) (rows m).

Lemma left_over_insert m k d : m !! k = None → left_over (<[k := d]> m) = (Z.to_nat (5 - Row_AttemptCount d) + left_over m)%nat.
Proof.
  intros Hk. unfold left_over, rows. 
  assert (E : (map_to_list (<[k := d]> m)).*2 ≡ₚ d :: (map_to_list m).*2) by (by rewrite map_to_list_insert).
  by rewrite E.
Qed.

Lemma left_over_write m k d d' : m !! k = Some d →
  (left_over (<[k := d']> m) + Z.to_nat (5 - Row_AttemptCount d) = left_over m + Z.to_nat (5 - Row_AttemptCount d'))%nat.
Proof.
  intros Hk. rewrite <- (insert_delete_id m k d Hk) at 2. rewrite <- (insert_delete_eq m k d').
  rewrite !left_over_insert by apply lookup_delete_eq. lia.
Qed.

Lemma left_over_bound db : HAWellFormed db → (left_over (deliveries db) <= 5 * size (deliveries db))%nat.
Proof.
  intros Hwf. assert (H : ∀ d, d ∈ rows (deliveries db) → (Z.to_nat (5 - Row_AttemptCount d) <= 5)%nat).
  { intros d [k Hk]%elem_of_rows. apply (hw_deliveries_checked _ Hwf) in Hk. unfold delivery_checks in Hk. bool_simp. lia. }
  unfold left_over. assert (E : size (deliveries db) = length (rows (deliveries db))) 
    by (unfold rows; by rewrite length_fmap, length_map_to_list).
  rewrite E. clear E. induction (rows (deliveries db)) as [|d l IH]; cbn; [lia|].
  pose proof (H d ltac:(left)). assert (sum_list_with (λ d, Z.to_nat (5 - Row_AttemptCount d)) l <= 5 * length l)%nat; [|lia].
  apply IH. intros x Hx. apply H. by right.
Qed.

Lemma deliver_next_progress o db : HAWellFormed db →
  let '((processed, _), db') := deliver_next o db in
  HAWellFormed db' ∧ if processed then (S (left_over (deliveries db')) <= left_over (deliveries db))%nat else db' = db.
Proof.
  intros Hwf. destruct (deliver_next_spec o db) as [[H1 H2]|(_ & now & d & c & db1 & a & later & Hclaim & ->)].
  { destruct (deliver_next o db) as [[p r] db']. cbn in *. by subst. }
  assert (Hwf1 : HAWellFormed db1) by (by eapply wf_claim). apply claim_Ok in Hclaim as (k & row & ch & e & Hk & Hp & _ & _ & _ & -> & ->).
  pose proof (hw_deliveries _ Hwf _ _ Hk) as E. pose proof (claimable_attempts _ _ _ Hp) as H5.
  set (v := outcome_of _ a later). destruct (outcome_same (claimed_delivery ch row e) a later) as [Hid Hn]. fold v in Hid, Hn. cbn in Hid, Hn.
  pose proof (left_over_write _ _ _ (claimed_row row) Hk) as Hleft. rewrite E in *. cbn in Hleft.
  cbn. unfold commit. destruct (FinishNotificationDelivery v _) as [[u db2]|] eqn:Hf; cbn; [|ha_tables; split; [done|lia]].
  split; [by eapply wf_finish|]. apply finish_Ok in Hf as [[_ ->]|(x & Hx & _ & ->)]; ha_tables; [lia|].
  rewrite Hid in *. pose proof (left_over_write _ _ _ (finished_row v x) Hx) as Hleft2. rewrite lookup_insert_eq in Hx. injection Hx as <-.
  cbn in Hleft2. rewrite Hn in Hleft2. lia.
Qed.

(** C29: The worker comes to wait: whatever the clock, the cipher and the endpoints answer, and even when no outcome can be
    recorded, the turns that follow one another without a pause are at most five for every delivery there is. *)
Theorem worker_comes_to_wait h db tracker : HAWellFormed db → (5 * size (deliveries db) < length h)%nat →
  let '(n, waits, (db', _)) := RunNotificationDelivery h db tracker in
  waits = true ∧ (n <= 5 * size (deliveries db))%nat ∧ HAWellFormed db'.
Proof.
  intros Hwf Hlen. assert (Hb := left_over_bound db Hwf).
  assert (H : ∀ h db tracker, HAWellFormed db → (left_over (deliveries db) < length h)%nat →
    let '(n, waits, (db', _)) := RunNotificationDelivery h db tracker in
    waits = true ∧ (n <= left_over (deliveries db))%nat ∧ HAWellFormed db').
  { clear. induction h as [|i h IH]; intros db tracker Hwf Hlen; cbn in Hlen; [lia|].
    cbn [RunNotificationDelivery]. unfold notification_turn. cbv zeta. pose proof (deliver_next_progress (turn_outside i) db Hwf) as Hp.
    destruct (deliver_next (turn_outside i) db) as [[processed result] db1]. destruct Hp as [Hwf1 Hp]. destruct processed.
    - match goal with |- context [RunNotificationDelivery h db1 ?t] => specialize (IH db1 t Hwf1);
        destruct (RunNotificationDelivery h db1 t) as [[n waits] [db2 t2]] end.
      destruct IH as (-> & Hn & Hwf2); [lia|]. split_and!; [done|lia|done].
    - subst. split_and!; [done|lia|done]. }
  specialize (H h db tracker Hwf). destruct (RunNotificationDelivery h db tracker) as [[n waits] [db' t']].
  destruct H as (-> & Hn & Hwf'); [lia|]. split_and!; [done|lia|done].
Qed.

(** A turn of the program is a claim and its outcome: the histories of the deliveries are those of the worker. *)
Lemma deliver_next_steps o db : ∃ steps,
  world_db (run_deliveries steps (mkDeliveryWorld db None [])) = (deliver_next o db).2.
Proof.
  destruct (deliver_next_spec o db) as [[_ ->]|(_ & now & d & c & db1 & a & later & Hclaim & ->)]; [by exists []|].
  exists [WorkerClaims now; WorkerFinishes a later]. unfold run_deliveries. cbn [foldl flip deliver_step].
  rewrite (proj2 (commit_Ok _ _ _ _) Hclaim). cbn [deliver_step]. by destruct (commit _ db1) as [[u|] db2].
Qed.
End worker.

(** * internal/jobs: the passes of the high-availability workers

    What ha_operations.go and operational_history.go do in one pass, with the tracker, and
    what the retention of the operational history removes. *)

(** ** The poll of the nodes *)

(** The interval of the settings, or the one the worker was started with, which is half a minute when it is not positive. *)
(* src/internal/jobs/ha_operations.go:16-24 RunHAOperations *)
Definition ha_interval (started : Duration) (settings : option Duration) : Duration :=
  match settings with
  | Some interval => interval
  | None => if started <=? 0 then 30 * second else started
  end.

(* src/internal/jobs/ha_operations.go:25-41 RunHAOperations *)
Definition ha_pass (now interval : Time) (clock : Time * Time) (polled : res unit) (tracker : option Tracker) : option Tracker :=
  let next := now + interval in
  let tracker := Start "dns_service_health" next clock.1 <$> tracker in
  (match polled with
   | Err _ => Failure_worker "dns_service_health" "DNS_HEALTH_PASS_FAILED" next clock.2
   | Ok _ => Success_worker "dns_service_health" next clock.2
   end) <$> tracker.

(** ** The retention of the operational history *)

(* src/internal/jobs/operational_history.go:16-16 RunOperationalHistoryRetention *)
Definition retention_interval : Duration := hour.

Section retention.
Context {R : Runtime} {C : Collation}.

(* src/internal/jobs/operational_history.go:17-36 RunOperationalHistoryRetention *)
Definition prune_pass (now retention : Time) (clock : Time * Time) (db : HADB) (tracker : option Tracker) : HADB * option Tracker :=
  let next := now + retention_interval in
  let tracker := Start "operational_history_retention" next clock.1 <$> tracker in
  let '(deleted, db) := commit (PruneOperationalHistory (now - retention) 10000) db in
  (db, (match deleted with
        | Err _ => Failure_worker "operational_history_retention" "OPERATIONAL_HISTORY_RETENTION_FAILED" next clock.2
        | Ok _ => Success_worker "operational_history_retention" next clock.2
        end) <$> tracker).

(** The bound of one deletion. *)
Definition prune_limit (limit : Z) : Z := if (limit <? 1) || (10000 <? limit) then 10000 else limit.

Definition old_events (before : Time) (db : HADB) : list HAEvent :=
  List.filter (λ e, HAEvent_OccurredAt e <? before) (rows (ha_events db)).

Lemma prune_Ok before limit db : ∃ n, commit (PruneOperationalHistory before limit) db =
  (Ok n, set_deliveries (delete_where (λ d, bool_decide (Row_EventID d ∈ HAEvent_ID <$>
      List.filter (λ e, bool_decide (HAEvent_ID e ∈ oldest_before HAEvent_OccurredAt HAEvent_ID before (prune_limit limit) (rows (ha_events db))))
        (rows (ha_events db)))) (deliveries db))
    (set_ha_events (delete_where (λ e, bool_decide (HAEvent_ID e ∈ oldest_before HAEvent_OccurredAt HAEvent_ID before (prune_limit limit)
      (rows (ha_events db)))) (ha_events db)) db)).
Proof. eexists. reflexivity. Qed.

(** What a deletion takes: the identifiers of the oldest events before the time. *)
Definition taken (before limit : Z) (db : HADB) : list string :=
  oldest_before HAEvent_OccurredAt HAEvent_ID before (prune_limit limit) (rows (ha_events db)).

Lemma taken_spec before limit db k e : HAWellFormed db → ha_events db !! k = Some e →
  (k ∈ taken before limit db → HAEvent_OccurredAt e < before) ∧
  (k ∈ taken before limit db → ∀ j x, ha_events db !! j = Some x → j ∉ taken before limit db →
     HAEvent_OccurredAt e <= HAEvent_OccurredAt x) ∧
  (Z.of_nat (length (old_events before db)) <= prune_limit limit → HAEvent_OccurredAt e < before → k ∈ taken before limit db).
Proof.
  intros Hwf He. pose proof (hw_events _ Hwf) as Hkey. unfold taken, oldest_before, limited. fold (old_events before db).
  set (L := sort_Slice (earlier HAEvent_OccurredAt HAEvent_ID) (old_events before db)). set (n := Z.to_nat (prune_limit limit)).
  assert (HL : ∀ x, x ∈ L ↔ HAEvent_OccurredAt x < before ∧ ha_events db !! HAEvent_ID x = Some x).
  { intros x. unfold L, old_events. rewrite elem_of_sort_Slice, elem_of_filter_rows, Z.ltb_lt. split.
    - intros [? [j Hj]]. by rewrite (Hkey _ _ Hj).
    - intros [? ?]. eauto. }
  assert (Hs : sorted (earlier HAEvent_OccurredAt HAEvent_ID) L) by apply sort_Slice_sorted, _.
  assert (Htake : ∀ x, x ∈ take n L → x ∈ L) by (intros x Hx; rewrite <- (take_drop n L); apply elem_of_app; by left).
  assert (Hid : k ∈ HAEvent_ID <$> take n L → e ∈ take n L).
  { intros (y & E & Hy)%list_elem_of_fmap. pose proof (proj1 (HL y) (Htake y Hy)) as [_ Hy'].
    rewrite <- E, He in Hy'. by injection Hy' as ->. }
  split_and!.
  - intros Hk%Hid. by apply HL, Htake.
  - intros Hk%Hid j x Hx Hj. destruct (Z.lt_ge_cases (HAEvent_OccurredAt x) before) as [Hlt|Hge].
    + assert (Hin : x ∈ take n L ++ drop n L) by (rewrite take_drop; apply HL; by rewrite (Hkey _ _ Hx)).
      apply elem_of_app in Hin as [Hin|Hin].
      * destruct Hj. apply list_elem_of_fmap. exists x. by rewrite (Hkey _ _ Hx).
      * unfold sorted in Hs. rewrite <- (take_drop n L) in Hs. pose proof (StronglySorted_app_1_elem_of _ _ _ e x Hs Hk Hin) as H.
        unfold not_greater, earlier in H. apply orb_false_iff in H as [H _]. lia.
    + pose proof (proj1 (HL e) (Htake e Hk)). lia.
  - intros Hlen Ht. apply list_elem_of_fmap. exists e. rewrite (Hkey _ _ He). split; [done|].
    rewrite take_ge; [apply HL; by rewrite (Hkey _ _ He)|]. unfold L, n. rewrite length_sort_Slice. lia.
Qed.

(** The retention removes events that are older than it keeps, the oldest first, with their deliveries and nothing
    else; and unless the bound of one pass was reached it leaves none of them. *)
Theorem prune_removes_oldest before limit db : HAWellFormed db →
  let db' := (commit (PruneOperationalHistory before limit) db).2 in
  (∀ k e, ha_events db' !! k = Some e → ha_events db !! k = Some e) ∧
  (∀ k e, ha_events db !! k = Some e → ha_events db' !! k = None → HAEvent_OccurredAt e < before ∧
     ∀ j x, ha_events db' !! j = Some x → HAEvent_OccurredAt e <= HAEvent_OccurredAt x) ∧
  (∀ k d, deliveries db !! k = Some d → deliveries db' !! k = if bool_decide (is_Some (ha_events db' !! Row_EventID d)) then Some d else None) ∧
  (Z.of_nat (length (old_events before db)) <= prune_limit limit → ∀ k e, ha_events db' !! k = Some e → before <= HAEvent_OccurredAt e).
Proof.
  intros Hwf. destruct (prune_Ok before limit db) as [n E]. rewrite E. clear E. cbn [snd]. cbv zeta. ha_tables. fold (taken before limit db).
  pose proof (hw_events _ Hwf) as Hkey.
  assert (Hgone : ∀ k e, ha_events db !! k = Some e →
    (delete_where (λ e, bool_decide (HAEvent_ID e ∈ taken before limit db)) (ha_events db) !! k = None ↔ k ∈ taken before limit db)).
  { intros k e He. pose proof (Hkey _ _ He) as Ek. rewrite eq_None_not_Some. split.
    - intros Hn. destruct (decide (k ∈ taken before limit db)) as [|Hne]; [done|]. destruct Hn. exists e. apply lookup_delete_where.
      split; [done|]. rewrite Ek. by apply bool_decide_eq_false.
    - intros Hk [x [Hx Hp]%lookup_delete_where]. simplify_eq. by rewrite bool_decide_eq_true_2 in Hp. }
  split_and!.
  - by intros k e [He _]%lookup_delete_where.
  - intros k e He Hk. rewrite (Hgone k e He) in Hk. destruct (taken_spec before limit db k e Hwf He) as (H1 & H2 & _).
    split; [by apply H1|]. intros j x [Hx Hp]%lookup_delete_where. apply (H2 Hk j x Hx). rewrite (Hkey _ _ Hx) in Hp. by apply bool_decide_eq_false in Hp.
  - intros k d Hd. destruct (hw_event_of _ Hwf k d (Row_EventID d) Hd) as [e He]; [by left|].
    pose proof (Hgone _ _ He) as Hg. unfold delete_where at 1. rewrite lookup_omap, Hd. cbn.
    assert (Hin : Row_EventID d ∈ HAEvent_ID <$> List.filter (λ e, bool_decide (HAEvent_ID e ∈ taken before limit db)) (rows (ha_events db))
      ↔ Row_EventID d ∈ taken before limit db).
    { rewrite list_elem_of_fmap. setoid_rewrite elem_of_filter_rows. split.
      - intros (x & -> & Hx%bool_decide_eq_true & _). done.
      - intros Hx. exists e. rewrite (Hkey _ _ He). split_and!; [done|by apply bool_decide_eq_true|eauto]. }
    rewrite (bool_decide_ext _ _ Hin). destruct (decide (Row_EventID d ∈ taken before limit db)) as [Ht|Ht].
    + rewrite bool_decide_eq_true_2 by done. rewrite bool_decide_eq_false_2; [done|]. by rewrite <- eq_None_not_Some, Hg.
    + rewrite (bool_decide_eq_false_2 _ Ht). rewrite bool_decide_eq_true_2; [done|].
      apply not_eq_None_Some. by rewrite Hg.
  - intros Hlen k e [He Hp]%lookup_delete_where. destruct (taken_spec before limit db k e Hwf He) as (_ & _ & H3).
    rewrite (Hkey _ _ He) in Hp. apply bool_decide_eq_false in Hp.
    destruct (Z.lt_ge_cases (HAEvent_OccurredAt e) before) as [Hlt|]; [by destruct Hp; apply H3|done].
Qed.
End retention.
