(* ===== verification/HAWitness.v ===== *)
(** * The theorems on high availability, on concrete nodes *)

From S2P Require Import Prelude GoRuntime Json Domain AuditMetadata ControlModel Store StoreRecords.
From S2P Require Import StoreInvariant Effects ControlEffects OperationsModel AuthStore DnsProbe DnsProbeSpec.
From S2P Require Import HAModel HAOperations HAMaintenance HASummarySpec Notifications HAStore HAInvariant.
From S2P Require Import DeliveryHistory NotificationSpec HAHistory Releases HAJobs.

#[local] Existing Instance ascii_runtime.
#[local] Existing Instance key_order.

(** No layout is read, and every value prints as nothing. *)
#[local] Instance plain_printing : Printing := {|
  time_Parse _ _ := None;
  time_Format _ _ := "";
  fmt_Sprint _ := ""
|}.

(** ** A query *)

Definition query_message : list Z :=
  [18; 52; 1; 0; 0; 1; 0; 0; 0; 0; 0; 0;
   7; 101; 120; 97; 109; 112; 108; 101; 3; 111; 114; 103; 0; 0; 1; 0; 1].

Lemma dnsQuery_roundtrip_witness :
  dnsQuery (Ok [18; 52]) "example.org." "A" = Ok (query_message, 4660) ∧
  ∃ question code, query_message = PutUint16 4660 ++ [1; 0; 0; 1; 0; 0; 0; 0; 0; 0] ++ question ∧
    record_type "A" = Ok code ∧
    read_labels 3 question = Some (["example"; "org"], PutUint16 code ++ [0; 1]) ∧
    Join (labels_of "example.org.") "." = "example.org".
Proof.
  assert (dnsQuery (Ok [18; 52]) "example.org." "A" = Ok (query_message, 4660)) as H by (vm_compute; reflexivity).
  split; [exact H|].
  destruct (dnsQuery_roundtrip (Ok [18; 52]) "example.org." "A" query_message 4660 H)
    as (question & code & Hm & Hc & Hr & _ & Hn).
  exists question, code. split; [exact Hm|]. split; [exact Hc|]. split; [exact Hr|]. apply Hn. vm_compute. discriminate.
Defined.

(** ** A confirmation *)

Definition probe_of_example : DNSProbeRequest := mkDNSProbeRequest "192.0.2.1" 53 "example.org" "A" 0 true true.

Lemma confirmation_terminates_witness :
  with_facts confirm_view (Confirming_Probe true [250 * millisecond; 500 * millisecond] probe_of_example 3)
    (λ f out, ∃ o, out = Some o ∧ confirm_run [250 * millisecond; 500 * millisecond] 1 f o).
Proof.
  apply (confirmation_terminates [250 * millisecond; 500 * millisecond] probe_of_example 3). cbn. lia.
Defined.

(** ** Two nodes *)

Definition resolver (id : string) (enabled : bool) : Node :=
  mkNode id "c" id "https://node" "system" enabled false "healthy" "supported" "v0.107.78" None None None "" None ""
    "converged" None 1 0 0.

Definition healthy_row (id : string) : DNSProbeResult :=
  mkDNSProbeResult id "c" id "healthy" "healthy" "healthy" (Some 0) (Some 3) "ipv4" "" 100
    (DNSProbe_Confirmation empty_result).

Lemma remaining_counts_others_witness :
  remaining_nodes 100 60 (count (serving 100 60 [healthy_row "a"; healthy_row "b"]) [resolver "a" true; resolver "b" true])
    (resolver "a" true) (found_probe [healthy_row "a"; healthy_row "b"] "a") = 1.
Proof.
  etransitivity; [apply (remaining_counts_others 100 60 [resolver "a" true; resolver "b" true]
    [healthy_row "a"; healthy_row "b"] (resolver "a" true))|vm_compute; reflexivity].
  - apply (bool_decide_unpack _). vm_compute. exact I.
  - apply list_elem_of_here.
  - reflexivity.
Defined.

(** A node that was disabled a moment ago is counted out although the summary never counted it in. *)
Example disabled_node_counted :
  let nodes := [resolver "a" false; resolver "b" true] in
  let probes := [healthy_row "a"; healthy_row "b"] in
  remaining_nodes 100 60 (count (serving 100 60 probes) nodes) (resolver "a" false) (found_probe probes "a") = 0 ∧
  count (serving 100 60 probes) (List.filter (λ n, negb (Node_ID n =?? "a")) nodes) = 1.
Proof. split; vm_compute; reflexivity. Qed.

(** ** A recorded transition *)

Definition update_of (id : string) : VersionState :=
  mkVersionState id id "v0.107.77" "v0.107.78" "supported" InstallationDocker UpgradeGuided true false.

Definition update_event : HAEvent :=
  mkHAEvent "e" "c" (Some "a") "version.update_available" "warning" "AdGuard Home update available"
    [("installedVersion", JStr "v0.107.77"); ("latestVersion", JStr "v0.107.78")] 100.

Lemma recorded_transitions_settle_witness :
  version_event [] (update_of "a") = Some ("version.update_available", "warning", "AdGuard Home update available") ∧
  version_event [update_event] (update_of "a") = None.
Proof.
  split; [vm_compute; reflexivity|]. destruct (recorded_transitions_settle [] update_event) as (_ & _ & H).
  apply (H (update_of "a") "warning" "AdGuard Home update available"); vm_compute; reflexivity.
Defined.

(** * The theorems on notifications and the history, on a concrete cluster

    A cluster with a webhook; two events, one of which the policy disables. *)

#[local] Existing Instance c_collation.

(** ** The cluster *)

Definition cluster_id : string := "0a000000-0000-4000-8000-000000000001".
Definition webhook_id : string := "0b000000-0000-4000-8000-000000000001".

Definition site : Cluster := mkCluster cluster_id "Home" "" "manual" None 1 0 0.

Definition webhook : NotificationChannelRecord :=
  mkChannelRecord (mkChannel webhook_id cluster_id "Operations" "webhook" true true "https://hooks.example" 
    (Some ["dns"; "redundancy"]) 1 10 10) (mkEncryptedPayload "sealed" "nonce" 1 "AES-256-GCM").

Definition note (id : string) : AuditEvent := mkAuditEvent id "user" (Some "u1") "" "note" "cluster" None "r1" (JObj []) 10 "" "".

Definition failure (id : string) (at_ : Time) : HAEvent :=
  mkHAEvent id cluster_id None "dns.failed" "critical" "DNS failed" [] at_.

Definition event_id : string := "0c000000-0000-4000-8000-000000000001".
Definition delivery_id : string := "0d000000-0000-4000-8000-000000000001".
Definition draw (channelID : string) : res string := Ok delivery_id.

Definition bare_tables : HADB :=
  mkHADB (set_clusters {[ cluster_id := site ]} empty_DB) ∅ ∅ ∅ ∅ None ∅ ∅ RecommendedNotificationEventTypes 1.

Definition with_webhook : HADB := run_ha [OpSaveChannel webhook 0 (note "a1")] bare_tables.
Definition with_delivery : HADB := apply_ha (OpEvent draw (failure event_id 100)) with_webhook.

Lemma bare_WellFormed : HAWellFormed bare_tables.
Proof.
  apply HAWellFormed_empty. change (RecommendedNotificationEventTypes ⊆ PolicyEvent_EventType <$> policy_events).
  intros x. unfold RecommendedNotificationEventTypes. rewrite !list_elem_of_fmap. intros (e & -> & He). exists e. split; [done|].
  by apply list_elem_of_In, filter_In in He as [He%list_elem_of_In _].
Qed.

Lemma webhook_WellFormed : HAWellFormed with_webhook.
Proof. exact (keeps_run_ha HAWellFormed [OpSaveChannel webhook 0 (note "a1")] (λ op _, wf_ha_op op) bare_tables bare_WellFormed). Qed.

Lemma delivery_WellFormed : HAWellFormed with_delivery.
Proof. exact (keeps_run_ha HAWellFormed [OpEvent draw (failure event_id 100)] (λ op _, wf_ha_op op) with_webhook webhook_WellFormed). Qed.

(** ** The queue *)

Lemma event_is_queued_witness :
  HAWellFormed with_webhook ∧ commit (RecordHAEvent draw (failure event_id 100)) with_webhook = (Ok tt, with_delivery) ∧
  ∃ id, deliveries with_delivery !! id = Some (queued_as (failure event_id 100) true webhook id).
Proof.
  assert (commit (RecordHAEvent draw (failure event_id 100)) with_webhook = (Ok tt, with_delivery)) as H by (vm_compute; reflexivity).
  split; [exact webhook_WellFormed|]. split; [exact H|].
  destruct (event_is_queued draw (failure event_id 100) with_webhook with_delivery webhook_WellFormed H) as [_ Hq].
  specialize (Hq webhook_id webhook ltac:(vm_compute; reflexivity)).
  assert (subscribed (HAEvent_ClusterID (failure event_id 100)) (NotificationCategoryForEvent (HAEvent_EventType (failure event_id 100))) webhook = true)
    as Hs by (vm_compute; reflexivity).
  rewrite Hs in Hq. destruct Hq as (id & Hid & _). exists id.
  assert (notified (failure event_id 100) with_webhook = true) as Hn by (vm_compute; reflexivity).
  rewrite Hn in Hid. exact Hid.
Defined.

(** ** Five attempts *)

Definition rejected : deliveryAttempt := attempt_of (PostAnswered 500).

(** Five attempts that fail, each when it is due, and a sixth claim. *)
Definition five_failures : list delivery_step :=
  flat_map (λ n, [WorkerClaims (n * hour); WorkerFinishes rejected (n * hour)]) [1; 2; 3; 4; 5] ++ [WorkerClaims (6 * hour)].

Lemma deliveries_bounded_witness :
  HAWellFormed with_delivery ∧
  attempts delivery_id (world_log (run_deliveries five_failures (mkDeliveryWorld with_delivery None []))) = 5 ∧
  (∀ id, attempts id (world_log (run_deliveries five_failures (mkDeliveryWorld with_delivery None []))) <= 5).
Proof.
  split; [exact delivery_WellFormed|]. split; [vm_compute; reflexivity|].
  exact (proj1 (deliveries_bounded five_failures with_delivery delivery_WellFormed)).
Defined.

(** The status and the attempts of the delivery. *)
Definition progress (db : HADB) : option (string * Z * option Time * option Time) :=
  (λ d, (Row_Status d, Row_AttemptCount d, Row_NextAttemptAt d, Row_CompletedAt d)) <$> deliveries db !! delivery_id.

(** The fifth failure is final. *)
Example fifth_failure_is_final :
  progress (world_db (run_deliveries five_failures (mkDeliveryWorld with_delivery None []))) =
    Some ("failed", 5, None, Some (5 * hour)).
Proof. by vm_compute. Qed.

(** A worker that is stopped during the fifth attempt leaves the delivery pending, and it is not claimed again. *)
Example stopped_attempt_stays_pending :
  let w := run_deliveries (flat_map (λ n, [WorkerClaims (n * hour); WorkerStops]) [1; 2; 3; 4; 5]) (mkDeliveryWorld with_delivery None []) in
  progress (world_db w) = Some ("pending", 5, None, None) ∧
  is_Ok (commit (ClaimNotificationDelivery (1000 * hour)) (world_db w)).1 = false.
Proof. by vm_compute. Qed.

(** An answer outside of the statuses the column admits is not recorded: the delivery is due again at once. *)
Example odd_status_not_recorded :
  let w := run_deliveries [WorkerClaims hour; WorkerFinishes (attempt_of (PostAnswered 600)) hour]
    (mkDeliveryWorld with_delivery None []) in
  progress (world_db w) = Some ("pending", 1, None, None) ∧
  is_Ok (commit (ClaimNotificationDelivery hour) (world_db w)).1 = true.
Proof. by vm_compute. Qed.

(** ** The worker *)

(** An outside world in which nothing can be read: every attempt fails. *)
Definition base_unavailable {X} (e : ctl X) : X :=
  match e in ctl X return X with Now => hour | _ => Err (TextError "unavailable") end.
Definition nothing : outside := λ _ X e,
  match e in notifyctl X return X with
  | NBase e => base_unavailable e
  | N_Post _ _ => PostInvalid
  | _ => Err (TextError "unavailable")
  end.
Definition plain_turn : delivery_turn := mkDeliveryTurn 0 (0, 0) nothing.
Definition clock_json (t : Time) : json := JNum t.

Lemma worker_comes_to_wait_witness :
  HAWellFormed with_delivery ∧ (5 * size (deliveries with_delivery) < length (replicate 6 plain_turn))%nat ∧
  (RunNotificationDelivery clock_json (replicate 6 plain_turn) with_delivery None).1 = (1%nat, true).
Proof.
  assert (5 * size (deliveries with_delivery) < length (replicate 6 plain_turn))%nat as Hlen
    by (apply Nat.ltb_lt; vm_compute; reflexivity).
  split; [exact delivery_WellFormed|]. split; [exact Hlen|].
  pose proof (worker_comes_to_wait clock_json (replicate 6 plain_turn) with_delivery None delivery_WellFormed Hlen) as H.
  destruct (RunNotificationDelivery clock_json (replicate 6 plain_turn) with_delivery None) as [[n waits] [db t]] eqn:E.
  destruct H as (-> & _ & _). cbn. f_equal.
  assert ((RunNotificationDelivery clock_json (replicate 6 plain_turn) with_delivery None).1.1 = 1%nat) as Hn by (vm_compute; reflexivity).
  rewrite E in Hn. exact Hn.
Defined.

(** ** The history *)

Definition history_times : list Time := [100; 101].

#[local] Instance digits_printing : Printing := {|
  time_Parse _ s := find (λ t, itoa t =?? s) history_times;
  time_Format _ t := itoa t;
  fmt_Sprint _ := ""
|}.

(** The texts of the cursors of the history are read. *)
#[local] Instance cursor_text : JsonText := λ s,
  find (λ j, json_print j =?? s)
    [payload_json (mkCursorPayload 1 (itoa 100) event_id); payload_json (mkCursorPayload 1 (itoa 100) delivery_id)].

Definition found_cluster : ∀ X, hactl X → X := λ X e,
  match e in hactl X return X with
  | Base e => match e in ctl X return X with
      | Repo_ClusterByID _ => Ok site
      | Now => 0
      | _ => Err (TextError "unavailable")
      end
  | HA_CtxErr | HA_Done => None
  | HA_NodeHealthInterval => None
  | HA_Compatibility _ => ""
  | HA_Slot => true
  | HA_Probe _ => (empty_result, None)
  | _ => Err (TextError "unavailable")
  end.

Lemma history_read_completely_witness :
  HAWellFormed with_delivery ∧ readable found_cluster cluster_id "" 1 with_delivery ∧
  read_history 3 found_cluster cluster_id "" 1 "" with_delivery = (whole_history cluster_id "" with_delivery, true) ∧
  (Item_ID <$> whole_history cluster_id "" with_delivery) = [delivery_id; event_id].
Proof.
  assert (readable found_cluster cluster_id "" 1 with_delivery) as Hr.
  { split.
    - vm_compute; reflexivity.
    - vm_compute; reflexivity.
    - intros H. destruct (H eq_refl).
    - lia.
    - intros x Hx. assert (x ∈ [event_item (failure event_id 100); hd (event_item (failure event_id 100)) (drop 1 (history_items cluster_id "" with_delivery))]) as Hin
        by exact Hx.
      apply elem_of_cons in Hin as [->|Hin]; [vm_compute; repeat split; reflexivity|].
      apply list_elem_of_singleton in Hin as ->. vm_compute. repeat split; reflexivity. }
  assert (separate_ids with_delivery) as Hsep.
  { intros k [e He]. assert (ha_events with_delivery = {[event_id := failure event_id 100]}) as E by (vm_compute; reflexivity).
    rewrite E in He. apply lookup_singleton_Some in He as [<- _]. vm_compute. reflexivity. }
  split; [exact delivery_WellFormed|]. split; [exact Hr|].
  pose proof (proj1 (history_read_completely found_cluster cluster_id "" 1 with_delivery delivery_WellFormed Hsep Hr)) as H.
  split; [exact H|]. vm_compute. reflexivity.
Defined.

(** ** Releases *)

Definition offline (at_ : Time) : release_world := mkReleaseWorld at_ at_ ReleaseUnavailable.

Lemma release_requests_spaced_witness :
  asked_at [offline 0; offline (10 * minute); offline (20 * minute)] bare_tables = [0; 20 * minute] ∧
  spaced (15 * minute) (asked_at [offline 0; offline (10 * minute); offline (20 * minute)] bare_tables).
Proof.
  split; [vm_compute; reflexivity|].
  apply (release_requests_spaced [offline 0; offline (10 * minute); offline (20 * minute)] bare_tables).
  repeat constructor; cbn; lia.
Defined.
