(* ===== verification/SystemSettings.v ===== *)
(** * internal/systemsettings: the settings of the controller

    The runtime settings with their bounds, the service, the store of the value that the
    workers read, and the row of [system_settings] (database/system_settings.go) with the
    constraints of the migrations.  The settings that were saved are the ones in force. *)

From S2P Require Import Prelude GoRuntime Json Domain AuditMetadata ControlModel Store StoreRecords StoreHistory.
From S2P Require Import Effects AuthStore HAStore.

(** ** Durations *)

(** [time.Duration(n) * time.Second] and [int64(d / time.Second)]. *)
Definition of_seconds (n : Z) : Duration := wrap64 (n * second).
Definition to_seconds (d : Duration) : Z := Z.quot d second.

(** [fmtFrac]: the n last digits of [v] as a fraction without its trailing zeros, and the rest of [v]. *)
Fixpoint fmt_frac (n : nat) (v : Z) (print : bool) (acc : string) : string * Z :=
  match n with
  | O => (if print then "." +:+ acc else acc, v)
  | S n =>
      let digit := v mod 10 in
      let print := print || negb (digit =? 0) in
      fmt_frac n (v / 10) print (if print then itoa digit +:+ acc else acc)
  end.

Definition micro_sign : string := String (ascii_of_nat 194) (String (ascii_of_nat 181) "").

(** [Duration.String] *)
Definition Duration_String (d : Duration) : string :=
  let u := Z.abs d in
  let text :=
    if u <? second then
      if u =? 0 then "0s"
      else if u <? 1000 then itoa u +:+ "ns"
      else if u <? millisecond then let '(frac, v) := fmt_frac 3 u false "" in itoa v +:+ frac +:+ micro_sign +:+ "s"
      else let '(frac, v) := fmt_frac 6 u false "" in itoa v +:+ frac +:+ "ms"
    else
      let '(frac, v) := fmt_frac 9 u false "" in
      let s := itoa (v mod 60) +:+ frac +:+ "s" in
      let m := v / 60 in
      if m =? 0 then s
      else
        let s := itoa (m mod 60) +:+ "m" +:+ s in
        let h := m / 60 in
        if h =? 0 then s else itoa h +:+ "h" +:+ s in
  if d <? 0 then "-" +:+ text else text.

(** ** The settings *)

(* src/internal/systemsettings/service.go:12-22 RuntimeSettings *)
Record RuntimeSettings := mkRuntimeSettings {
  Runtime_SessionDuration : Duration;
  Runtime_NodeHealthInterval : Duration;
  Runtime_NodeRequestTimeout : Duration;
  Runtime_StatisticsPollInterval : Duration;
  Runtime_QueryLogCollection : bool;
  Runtime_QueryLogPollInterval : Duration;
  Runtime_QueryLogRetention : Duration;
  Runtime_LogLevel : string;
  Runtime_OperationalHistoryRetention : Duration
}.

#[global] Instance RuntimeSettings_eq_dec : EqDecision RuntimeSettings.
Proof. solve_decision. Defined.

(* src/internal/systemsettings/service.go:24-30 Recommended *)
Definition Recommended : RuntimeSettings :=
  mkRuntimeSettings (12 * hour) (30 * second) (10 * second) hour true (30 * second) (7 * 24 * hour) "info" (90 * 24 * hour).

(* src/internal/systemsettings/service.go:32-47 Settings *)
Record Settings := mkSettings {
  System_UpdateChecksEnabled : bool;
  System_RecordVersion : Z;
  System_SessionDurationSeconds : Z;
  System_NodeHealthIntervalSeconds : Z;
  System_NodeRequestTimeoutSeconds : Z;
  System_StatisticsPollIntervalSeconds : Z;
  System_QueryLogCollectionEnabled : bool;
  System_QueryLogPollIntervalSeconds : Z;
  System_QueryLogRetentionSeconds : Z;
  System_QueryLogRetention : string;
  System_LogLevel : string;
  System_OperationalHistoryRetentionDays : Z;
  System_StatisticsRetention : string;
  System_InstallationType : string
}.

(* src/internal/systemsettings/service.go:49-54 StoredSettings *)
Record StoredSettings := mkStoredSettings {
  Stored_UpdateChecksEnabled : bool;
  Stored_RuntimeInitialized : bool;
  Stored_Runtime : RuntimeSettings;
  Stored_RecordVersion : Z
}.

(* src/internal/systemsettings/service.go:246-253 validOperationalHistoryRetention *)
Definition validOperationalHistoryRetention (value : Duration) : bool :=
  existsb (λ days, value =? days * 24 * hour) [7; 14; 30; 90; 180; 365].

Definition outside (value low high : Duration) : bool := (value <? low) || (high <? value).

(* src/internal/systemsettings/service.go:223-244 validateRuntime *)
Definition validateRuntime (value : RuntimeSettings) : res unit :=
  if outside (Runtime_SessionDuration value) (15 * minute) (30 * 24 * hour)
  then Err (Validation "sessionDurationSeconds" "must be between 900 and 2592000 seconds")
  else if outside (Runtime_NodeHealthInterval value) (5 * second) hour
  then Err (Validation "nodeHealthIntervalSeconds" "must be between 5 and 3600 seconds")
  else if outside (Runtime_NodeRequestTimeout value) second (2 * minute)
  then Err (Validation "nodeRequestTimeoutSeconds" "must be between 1 and 120 seconds")
  else if outside (Runtime_StatisticsPollInterval value) minute (24 * hour)
  then Err (Validation "statisticsPollIntervalSeconds" "must be between 60 and 86400 seconds")
  else if outside (Runtime_QueryLogPollInterval value) (5 * second) hour
  then Err (Validation "queryLogPollIntervalSeconds" "must be between 5 and 3600 seconds")
  else if outside (Runtime_QueryLogRetention value) hour (90 * 24 * hour)
  then Err (Validation "queryLogRetentionSeconds" "must be between 3600 and 7776000 seconds")
  else if negb (bool_decide (Runtime_LogLevel value ∈ ["debug"; "info"; "warn"; "error"]))
  then Err (Validation "logLevel" "must be debug, info, warn, or error")
  else if negb (validOperationalHistoryRetention (Runtime_OperationalHistoryRetention value))
  then Err (Validation "operationalHistoryRetentionDays" "must be 7, 14, 30, 90, 180, or 365 days")
  else Ok tt.

(* src/internal/systemsettings/service.go:207-221 present *)
Definition present_settings (value : StoredSettings) (installationType : string) : Settings :=
  let r := Stored_Runtime value in
  mkSettings (Stored_UpdateChecksEnabled value) (Stored_RecordVersion value)
    (to_seconds (Runtime_SessionDuration r)) (to_seconds (Runtime_NodeHealthInterval r))
    (to_seconds (Runtime_NodeRequestTimeout r)) (to_seconds (Runtime_StatisticsPollInterval r))
    (Runtime_QueryLogCollection r) (to_seconds (Runtime_QueryLogPollInterval r))
    (to_seconds (Runtime_QueryLogRetention r)) (Duration_String (Runtime_QueryLogRetention r)) (Runtime_LogLevel r)
    (Z.quot (Runtime_OperationalHistoryRetention r) (24 * hour)) "32 days detailed; 400 days daily" installationType.

(** ** The value the workers read

    A watcher holds the channel that was current when it last looked; the channel is closed by the update
    that follows, so the watcher wakes exactly when the count of closed channels has grown. *)

(* src/internal/systemsettings/service.go:70-74 RuntimeStore *)
Record RuntimeStore := mkRuntimeStore { store_value : RuntimeSettings; store_closed : nat }.

(* src/internal/systemsettings/service.go:76-78 NewRuntimeStore *)
Definition NewRuntimeStore (value : RuntimeSettings) : RuntimeStore := mkRuntimeStore value 0.

(* src/internal/systemsettings/service.go:84-94 RuntimeStore.Update *)
Definition RuntimeStore_Update (value : RuntimeSettings) (s : RuntimeStore) : RuntimeStore :=
  if bool_decide (store_value s = value) then s else mkRuntimeStore value (S (store_closed s)).

(** ** The service *)

(* src/internal/systemsettings/service.go:56-61 Repository *)
Inductive settingsctl : Type → Type :=
| S_Now : settingsctl Time
| S_GenerateID : settingsctl (res string)
| S_SystemSettings : settingsctl (res StoredSettings)
| S_Initialize (fallback : RuntimeSettings) : settingsctl (res StoredSettings)
| S_Update (value : StoredSettings) (expectedVersion : Z) (now : Time) (event : AuditEvent) : settingsctl (res StoredSettings)
| S_ClearHistory (event : AuditEvent) : settingsctl (res (Z * Z))
(* RuntimeStore.Update *)
| S_SetRuntime (value : RuntimeSettings) : settingsctl unit.

Abbreviation setting := (prog settingsctl).

(** [fmt.Errorf(text: %w)] *)
Definition wrapped {A} (text : string) (r : res A) : res A :=
  match r with Ok a => Ok a | Err e => Err (WrapError text e) end.

(* src/internal/systemsettings/service.go:63-63 ClearOperationalHistoryConfirmation *)
Definition ClearOperationalHistoryConfirmation : string := "CLEAR OPERATIONAL HISTORY".

Section service.
Context (fallback : RuntimeSettings) (installationType : string).

(* src/internal/systemsettings/service.go:118-128 Service.Initialize *)
Definition Settings_Initialize : setting (res unit) :=
  do r <- call (S_Initialize fallback);
  try stored <- Ret (wrapped "initialize runtime settings" r);
  try _ <- Ret (wrapped "load runtime settings" (validateRuntime (Stored_Runtime stored)));
  do _ <- call (S_SetRuntime (Stored_Runtime stored));
  done_with tt.

(* src/internal/systemsettings/service.go:130-146 Service.Get *)
Definition Settings_Get : setting (res Settings) :=
  try stored <- call S_SystemSettings;
  try stored <- (if Stored_RuntimeInitialized stored then done_with stored else call (S_Initialize fallback));
  try _ <- Ret (validateRuntime (Stored_Runtime stored));
  do _ <- call (S_SetRuntime (Stored_Runtime stored));
  done_with (present_settings stored installationType).

(* src/internal/systemsettings/service.go:149-159 Service.Update *)
Definition runtime_of (input : Settings) : RuntimeSettings :=
  mkRuntimeSettings (of_seconds (System_SessionDurationSeconds input)) (of_seconds (System_NodeHealthIntervalSeconds input))
    (of_seconds (System_NodeRequestTimeoutSeconds input)) (of_seconds (System_StatisticsPollIntervalSeconds input))
    (System_QueryLogCollectionEnabled input) (of_seconds (System_QueryLogPollIntervalSeconds input))
    (of_seconds (System_QueryLogRetentionSeconds input)) (System_LogLevel input)
    (wrap64 (wrap64 (System_OperationalHistoryRetentionDays input * 24) * hour)).

(* src/internal/systemsettings/service.go:169-180 Service.Update *)
Definition settings_metadata (input : Settings) : json :=
  JObj [("updateChecksEnabled", JBool (System_UpdateChecksEnabled input));
        ("sessionDurationSeconds", JNum (System_SessionDurationSeconds input));
        ("nodeHealthIntervalSeconds", JNum (System_NodeHealthIntervalSeconds input));
        ("nodeRequestTimeoutSeconds", JNum (System_NodeRequestTimeoutSeconds input));
        ("statisticsPollIntervalSeconds", JNum (System_StatisticsPollIntervalSeconds input));
        ("queryLogCollectionEnabled", JBool (System_QueryLogCollectionEnabled input));
        ("queryLogPollIntervalSeconds", JNum (System_QueryLogPollIntervalSeconds input));
        ("queryLogRetentionSeconds", JNum (System_QueryLogRetentionSeconds input));
        ("logLevel", JStr (System_LogLevel input));
        ("operationalHistoryRetentionDays", JNum (System_OperationalHistoryRetentionDays input))].

(* src/internal/systemsettings/service.go:169-180 Service.Update *)
Definition settings_audit (actor : Actor) (id action resourceType : string) (metadata : json) (now : Time) : AuditEvent :=
  mkAuditEvent id "user" (Some (Actor_UserID actor)) "" action resourceType None (Actor_RequestID actor) metadata now "" "".

(* src/internal/systemsettings/service.go:148-187 Service.Update *)
Definition Settings_Update (actor : Actor) (input : Settings) (expectedVersion : Z) : setting (res Settings) :=
  let runtime := runtime_of input in
  try _ <- Ret (validateRuntime runtime);
  do now <- call S_Now;
  try id <- call S_GenerateID;
  let event := settings_audit actor id "system_settings.updated" "system_settings" (settings_metadata input) now in
  do r <- call (S_Update (mkStoredSettings (System_UpdateChecksEnabled input) true runtime 0) expectedVersion now event);
  try stored <- Ret (wrapped "update system settings" r);
  do _ <- call (S_SetRuntime (Stored_Runtime stored));
  done_with (present_settings stored installationType).

(* src/internal/systemsettings/service.go:189-205 Service.ClearOperationalHistory *)
Definition Settings_ClearOperationalHistory (actor : Actor) (confirmation : string) : setting (res (Z * Z)) :=
  try _ <- guard (confirmation =?? ClearOperationalHistoryConfirmation)
    (Validation "confirmation" "must exactly confirm clearing Operational History");
  try id <- call S_GenerateID;
  do now <- call S_Now;
  do r <- call (S_ClearHistory (settings_audit actor id "operational_history.cleared" "operational_history" (JObj []) now));
  Ret (wrapped "clear operational history" r).
End service.

(** ** The row of the settings *)

(** The columns that startup fills are null before. *)
Record SettingsRow := mkSettingsRow {
  row_update_checks : bool;
  row_initialized : bool;
  row_session : option Z;
  row_health : option Z;
  row_timeout : option Z;
  row_statistics : option Z;
  row_query_enabled : option bool;
  row_query_poll : option Z;
  row_query_retention : option Z;
  row_log_level : option string;
  row_history_days : Z;
  row_version : Z;
  row_updated_at : Time;
  row_updated_by : option string
}.

Record SettingsDB := mkSettingsDB { settings_ha : HADB; settings_row : SettingsRow }.

Abbreviation SettingsTx := (Txn SettingsDB).

(** A null or a value within its bounds. *)
Definition column_between (low high : Z) (c : option Z) : bool :=
  match c with Some n => (low <=? n) && (n <=? high) | None => true end.

Definition settings_row_checks (r : SettingsRow) : bool :=
  column_between 900 2592000 (row_session r) && column_between 5 3600 (row_health r) &&
  column_between 1 120 (row_timeout r) && column_between 60 86400 (row_statistics r) &&
  column_between 5 3600 (row_query_poll r) && column_between 3600 7776000 (row_query_retention r) &&
  match row_log_level r with Some l => bool_decide (l ∈ ["debug"; "info"; "warn"; "error"]) | None => true end &&
  bool_decide (row_history_days r ∈ [7; 14; 30; 90; 180; 365]).

(* src/internal/database/system_settings.go:26-50 Store.SystemSettings *)
Definition stored_runtime (r : SettingsRow) : RuntimeSettings :=
  let seconds c := match c with Some n => of_seconds n | None => 0 end in
  mkRuntimeSettings (seconds (row_session r)) (seconds (row_health r)) (seconds (row_timeout r)) (seconds (row_statistics r))
    (default false (row_query_enabled r)) (seconds (row_query_poll r)) (seconds (row_query_retention r))
    (default "" (row_log_level r)) (wrap64 (wrap64 (row_history_days r * 24) * hour)).

(* src/internal/database/system_settings.go:14-52 Store.SystemSettings *)
Definition ReadSystemSettings (db : SettingsDB) : res StoredSettings :=
  let r := settings_row db in
  Ok (mkStoredSettings (row_update_checks r) (row_initialized r) (stored_runtime r) (row_version r)).

(* src/internal/database/system_settings.go:60-62 Store.InitializeRuntimeSettings *)
Definition needs_initialization (r : SettingsRow) : bool :=
  negb (row_initialized r) || bool_decide (row_session r = None) || bool_decide (row_health r = None) ||
  bool_decide (row_timeout r = None) || bool_decide (row_statistics r = None) || bool_decide (row_query_enabled r = None) ||
  bool_decide (row_query_poll r = None) || bool_decide (row_query_retention r = None) || bool_decide (row_log_level r = None).

(** [COALESCE] *)
(* src/internal/database/system_settings.go:55-65 Store.InitializeRuntimeSettings *)
Definition initialized_row (f : RuntimeSettings) (r : SettingsRow) : SettingsRow :=
  let filled {A} (c : option A) (d : A) := Some (default d c) in
  mkSettingsRow (row_update_checks r) true (filled (row_session r) (to_seconds (Runtime_SessionDuration f)))
    (filled (row_health r) (to_seconds (Runtime_NodeHealthInterval f)))
    (filled (row_timeout r) (to_seconds (Runtime_NodeRequestTimeout f)))
    (filled (row_statistics r) (to_seconds (Runtime_StatisticsPollInterval f)))
    (filled (row_query_enabled r) (Runtime_QueryLogCollection f))
    (filled (row_query_poll r) (to_seconds (Runtime_QueryLogPollInterval f)))
    (filled (row_query_retention r) (to_seconds (Runtime_QueryLogRetention f)))
    (filled (row_log_level r) (Runtime_LogLevel f))
    (row_history_days r) (row_version r) (row_updated_at r) (row_updated_by r).

Definition set_settings_row (r : SettingsRow) (db : SettingsDB) : SettingsDB := mkSettingsDB (settings_ha db) r.

(* src/internal/database/system_settings.go:54-70 Store.InitializeRuntimeSettings *)
Definition InitializeRuntimeSettings (fallback : RuntimeSettings) : SettingsTx StoredSettings :=
  tx db <- tx_get;
  (if needs_initialization (settings_row db) then
     let r := initialized_row fallback (settings_row db) in
     tx_check (settings_row_checks r) (TextError "initialize persisted runtime settings") >>>
     tx_modify (set_settings_row r)
   else tx_ret tt) >>>
  tx db <- tx_get;
  tx_lift (ReadSystemSettings db).

(* src/internal/database/system_settings.go:72-78 Store.UpdateChecksEnabled *)
Definition UpdateChecksEnabled (db : SettingsDB) : res bool := Ok (row_update_checks (settings_row db)).

(* src/internal/database/system_settings.go:86-88 Store.UpdateSystemSettings *)
Definition updated_row (value : StoredSettings) (now : Time) (by_ : option string) (r : SettingsRow) : SettingsRow :=
  let f := Stored_Runtime value in
  mkSettingsRow (Stored_UpdateChecksEnabled value) true (Some (to_seconds (Runtime_SessionDuration f)))
    (Some (to_seconds (Runtime_NodeHealthInterval f))) (Some (to_seconds (Runtime_NodeRequestTimeout f)))
    (Some (to_seconds (Runtime_StatisticsPollInterval f))) (Some (Runtime_QueryLogCollection f))
    (Some (to_seconds (Runtime_QueryLogPollInterval f))) (Some (to_seconds (Runtime_QueryLogRetention f)))
    (Some (Runtime_LogLevel f)) (Z.quot (Runtime_OperationalHistoryRetention f) (24 * hour)) (row_version r + 1) now by_.

Section settings_store.
Context {R : Runtime}.

(** The transactions of the other tables. *)
Definition in_ha {A} (t : HATx A) : SettingsTx A := λ db,
  match t (settings_ha db) with Ok (a, h) => Ok (a, mkSettingsDB h (settings_row db)) | Err e => Err e end.

(* src/internal/database/system_settings.go:80-103 Store.UpdateSystemSettings *)
Definition UpdateSystemSettings (value : StoredSettings) (expectedVersion : Z) (now : Time) (event : AuditEvent) :
  SettingsTx StoredSettings :=
  tx db <- tx_get;
  let r := settings_row db in
  tx_check (row_version r =? expectedVersion) (conflict "system settings changed; reload and try again") >>>
  let r' := updated_row value now (AuditEvent_ActorUserID event) r in
  tx_check (settings_row_checks r') (TextError "update system settings") >>>
  tx_modify (set_settings_row r') >>>
  in_ha (ha_audited event) >>>
  tx_ret (mkStoredSettings (Stored_UpdateChecksEnabled value) true (Stored_Runtime value) (row_version r')).

(** ** The service against the tables *)

(** What a request reads from outside: the clock and the identifier of its audit event. *)
Definition settings_handler (now : Time) (id : res string) X (e : settingsctl X) (w : SettingsDB * RuntimeStore) :
  X * (SettingsDB * RuntimeStore) :=
  let '(db, s) := w in
  match e in settingsctl X return X * (SettingsDB * RuntimeStore) with
  | S_Now => (now, w)
  | S_GenerateID => (id, w)
  | S_SystemSettings => (ReadSystemSettings db, w)
  | S_Initialize fallback => let '(r, db) := commit (InitializeRuntimeSettings fallback) db in (r, (db, s))
  | S_Update value version at_ event => let '(r, db) := commit (UpdateSystemSettings value version at_ event) db in (r, (db, s))
  | S_ClearHistory event => let '(r, db) := commit (in_ha (ClearOperationalHistory event)) db in (r, (db, s))
  | S_SetRuntime value => (tt, (db, RuntimeStore_Update value s))
  end.

Definition settings_run {A} (now : Time) (id : res string) (p : setting A) (db : SettingsDB) (s : RuntimeStore) :
  A * (SettingsDB * RuntimeStore) := (interp (settings_handler now id) p (db, s)).1.
End settings_store.

(** ** What the settings promise *)

(** The bounds, as the messages of the service state them. *)
Definition in_bounds (r : RuntimeSettings) : Prop :=
  (15 * minute <= Runtime_SessionDuration r <= 30 * 24 * hour) ∧
  (5 * second <= Runtime_NodeHealthInterval r <= hour) ∧
  (second <= Runtime_NodeRequestTimeout r <= 2 * minute) ∧
  (minute <= Runtime_StatisticsPollInterval r <= 24 * hour) ∧
  (5 * second <= Runtime_QueryLogPollInterval r <= hour) ∧
  (hour <= Runtime_QueryLogRetention r <= 90 * 24 * hour) ∧
  Runtime_LogLevel r ∈ ["debug"; "info"; "warn"; "error"] ∧
  ∃ days, days ∈ [7; 14; 30; 90; 180; 365] ∧ Runtime_OperationalHistoryRetention r = days * 24 * hour.

Lemma outside_false v low high : outside v low high = false ↔ low <= v <= high.
Proof. unfold outside. rewrite orb_false_iff, Z.ltb_ge, Z.ltb_ge. lia. Qed.

Lemma history_retention_valid v : validOperationalHistoryRetention v = true ↔
  ∃ days, days ∈ [7; 14; 30; 90; 180; 365] ∧ v = days * 24 * hour.
Proof.
  unfold validOperationalHistoryRetention. rewrite existsb_exists. split.
  - intros (d & Hd & E%Z.eqb_eq). exists d. split; [by apply list_elem_of_In|done].
  - intros (d & Hd & ->). exists d. split; [by apply list_elem_of_In|apply Z.eqb_refl].
Qed.

Lemma validate_Ok r : validateRuntime r = Ok tt ↔ in_bounds r.
Proof.
  unfold in_bounds, validateRuntime. rewrite <- !outside_false, <- history_retention_valid.
  destruct (outside _ _ _); [naive_solver|]. destruct (outside _ _ _); [naive_solver|].
  destruct (outside _ _ _); [naive_solver|]. destruct (outside _ _ _); [naive_solver|].
  destruct (outside _ _ _); [naive_solver|]. destruct (outside _ _ _); [naive_solver|].
  case_bool_decide; [|naive_solver]. destruct (validOperationalHistoryRetention _); naive_solver.
Qed.

Lemma quot_between v a b : 0 <= a → a * second <= v <= b * second →
  ((a <=? to_seconds v) && (to_seconds v <=? b))%bool = true.
Proof.
  intros Ha Hv. unfold to_seconds. assert (0 < second) by done.
  assert (a <= Z.quot v second) by (apply Z.quot_le_lower_bound; lia).
  assert (Z.quot v second <= b) by (apply Z.quot_le_upper_bound; lia). lia.
Qed.

(** What passes the service passes the table. *)
Lemma checks_of_bounds value now by_ r : in_bounds (Stored_Runtime value) →
  settings_row_checks (updated_row value now by_ r) = true.
Proof.
  intros (H1 & H2 & H3 & H4 & H5 & H6 & H7 & days & Hd & Hr). unfold settings_row_checks, updated_row, column_between.
  cbn [row_session row_health row_timeout row_statistics row_query_poll row_query_retention row_log_level row_history_days].
  rewrite Hr, <- Z.mul_assoc, Z.quot_mul by done. rewrite (bool_decide_eq_true_2 _ H7), (bool_decide_eq_true_2 _ Hd).
  unfold hour, minute in *.
  rewrite !quot_between by lia. done.
Qed.

(** The products of the input fit 64 bits. *)
Definition exact_input (i : Settings) : Prop :=
  in_int64 (System_SessionDurationSeconds i * second) ∧ in_int64 (System_NodeHealthIntervalSeconds i * second) ∧
  in_int64 (System_NodeRequestTimeoutSeconds i * second) ∧ in_int64 (System_StatisticsPollIntervalSeconds i * second) ∧
  in_int64 (System_QueryLogPollIntervalSeconds i * second) ∧ in_int64 (System_QueryLogRetentionSeconds i * second) ∧
  in_int64 (System_OperationalHistoryRetentionDays i * 24) ∧ in_int64 (System_OperationalHistoryRetentionDays i * 24 * hour).

(** The settings as they are shown after the update of [i]. *)
Definition shown_as (i : Settings) (version : Z) (installationType : string) : Settings :=
  mkSettings (System_UpdateChecksEnabled i) version (System_SessionDurationSeconds i) (System_NodeHealthIntervalSeconds i)
    (System_NodeRequestTimeoutSeconds i) (System_StatisticsPollIntervalSeconds i) (System_QueryLogCollectionEnabled i)
    (System_QueryLogPollIntervalSeconds i) (System_QueryLogRetentionSeconds i)
    (Duration_String (System_QueryLogRetentionSeconds i * second)) (System_LogLevel i)
    (System_OperationalHistoryRetentionDays i) "32 days detailed; 400 days daily" installationType.

Lemma to_of_seconds n : in_int64 (n * second) → to_seconds (of_seconds n) = n.
Proof. intros H. unfold to_seconds, of_seconds. by rewrite wrap64_id, Z.quot_mul. Qed.

Section promises.
Context {R : Runtime}.

Lemma stored_exact i value now by_ r : exact_input i → Stored_Runtime value = runtime_of i →
  stored_runtime (updated_row value now by_ r) = runtime_of i ∧
  present_settings (mkStoredSettings (System_UpdateChecksEnabled i) true (runtime_of i) (row_version r + 1)) =
    shown_as i (row_version r + 1).
Proof.
  intros (H1 & H2 & H3 & H4 & H5 & H6 & H7 & H8) E. unfold stored_runtime, updated_row, present_settings, shown_as. rewrite E.
  unfold runtime_of. cbn. rewrite !to_of_seconds, (wrap64_id _ H7), (wrap64_id _ H8) by done.
  rewrite <- (Z.mul_assoc _ 24 hour), Z.quot_mul by done. rewrite (Z.mul_assoc _ 24 hour), (wrap64_id _ H7), (wrap64_id _ H8).
  assert (E6 : of_seconds (System_QueryLogRetentionSeconds i) = System_QueryLogRetentionSeconds i * second) by by apply wrap64_id.
  by rewrite E6.
Qed.

(** The settings that were saved are the ones in force.  An update that is answered with settings was made of the
    version that was read; what the workers then read is within its bounds, and, where no product overflows, it is what
    was asked for, it is what the answer shows, and the next reader is shown the same.  Any other update changes neither
    the table nor what the workers read. *)
Theorem settings_saved_in_force fallback kind now id actor input expectedVersion db s :
  let '(r, (db', s')) := settings_run now id (Settings_Update kind actor input expectedVersion) db s in
  match r with
  | Ok shown => row_version (settings_row db) = expectedVersion ∧ in_bounds (store_value s') ∧
      row_version (settings_row db') = expectedVersion + 1 ∧
      (exact_input input → store_value s' = runtime_of input ∧ shown = shown_as input (expectedVersion + 1) kind ∧
        settings_run now id (Settings_Get fallback kind) db' s' = (Ok shown, (db', s')))
  | Err _ => db' = db ∧ s' = s
  end.
Proof.
  unfold settings_run, Settings_Update. cbn. destruct (validateRuntime (runtime_of input)) as [[]|e] eqn:Hv; [|by cbn].
  cbn. destruct id as [id|e]; [|by cbn]. cbn. unfold commit, UpdateSystemSettings. cbn.
  set (value := mkStoredSettings _ _ _ _). set (event := settings_audit _ _ _ _ _ _).
  assert (Hb : in_bounds (runtime_of input)) by by apply validate_Ok.
  destruct (Z.eqb_spec (row_version (settings_row db)) expectedVersion) as [Hver|]; [|by cbn].
  cbn. rewrite (checks_of_bounds value now (Some (Actor_UserID actor)) (settings_row db) Hb). cbn.
  unfold in_ha, tx_bind, tx_ret. cbn. destruct (ha_audited event (settings_ha db)) as [[[] h]|e]; [|by cbn]. cbn.
  assert (Hs : store_value (RuntimeStore_Update (runtime_of input) s) = runtime_of input).
  { unfold RuntimeStore_Update. by case_bool_decide. }
  rewrite Hs, Hver. split_and!; [done|done|done|]. intros Hx. split; [done|].
  destruct (stored_exact input value now (Some (Actor_UserID actor)) (settings_row db) Hx eq_refl) as [E1 E2].
  rewrite <- Hver, E2. split; [done|]. unfold Settings_Get. cbn. rewrite E1, Hv. cbn. rewrite E2.
  unfold RuntimeStore_Update at 1. rewrite Hs. by rewrite bool_decide_eq_true_2.
Qed.
End promises.

(** The environment fills what is not set, once: a later start with other values changes nothing. *)
Lemma initialized_once fallback db stored db' : commit (InitializeRuntimeSettings fallback) db = (Ok stored, db') →
  (∀ n, row_session (settings_row db) = Some n → row_session (settings_row db') = Some n) ∧
  row_version (settings_row db') = row_version (settings_row db) ∧
  ∀ other, commit (InitializeRuntimeSettings other) db' = (Ok stored, db').
Proof.
  unfold commit, InitializeRuntimeSettings, tx_bind, tx_get. destruct (needs_initialization (settings_row db)) eqn:Hn.
  - unfold tx_check. destruct (settings_row_checks _); [|done]. cbn. intros [= <- <-]. split_and!; [|done|done].
    cbn. by intros n ->.
  - cbn. intros [= <- <-]. split_and!; [done..|]. intros other. by rewrite Hn.
Qed.

(** ** A concrete row *)

#[local] Existing Instance ascii_runtime.

Definition fresh_settings : SettingsDB :=
  mkSettingsDB (mkHADB empty_DB ∅ ∅ ∅ ∅ None ∅ ∅ [] 1)
    (mkSettingsRow true true (Some 43200) (Some 30) (Some 10) (Some 3600) (Some true) (Some 30) (Some 604800) (Some "info")
      90 1 0 None).

Definition administrator : Actor := mkActor "00000000-0000-4000-8000-0000000000aa" "request".

Definition asked (session : Z) : Settings :=
  mkSettings false 1 session 60 5 7200 false 10 5400 "" "debug" 30 "" "".

#[local] Abbreviation answered session :=
  (settings_run hour (Ok "00000000-0000-4000-8000-000000000001") (Settings_Update "docker" administrator (asked session) 1)
    fresh_settings (NewRuntimeStore Recommended)).

Lemma settings_saved_in_force_witness :
  exact_input (asked 900) ∧ store_value (answered 900).2.2 = runtime_of (asked 900) ∧
  (answered 900).1 = Ok (mkSettings false 2 900 60 5 7200 false 10 5400 "1h30m0s" "debug" 30
    "32 days detailed; 400 days daily" "docker").
Proof.
  assert (Hx : exact_input (asked 900)) by (unfold exact_input, in_int64; vm_compute; repeat split; discriminate).
  split_and!; [done| |by vm_compute].
  pose proof (settings_saved_in_force Recommended "docker" hour (Ok "00000000-0000-4000-8000-000000000001") administrator
    (asked 900) 1 fresh_settings (NewRuntimeStore Recommended)) as H.
  assert (Hok : is_Ok (answered 900).1 = true) by by vm_compute.
  destruct (answered 900) as [[shown|e] [db' s']]; [|discriminate Hok].
  destruct H as (_ & _ & _ & H). apply H, Hx.
Defined.

(** A number of seconds whose product overflows is taken for the one it wraps to: 2^55 + 900 seconds are 900. *)
Example overflowing_seconds_accepted : ¬ exact_input (asked (2 ^ 55 + 900)) ∧ (answered (2 ^ 55 + 900)).1 = (answered 900).1.
Proof.
  split; [|by vm_compute]. intros (H & _). destruct H as [_ H]. vm_compute in H. discriminate H.
Qed.
